(* ===== verification/_CoqProject ===== *)
-Q . S2P
Prelude.v
CTypes.v
VmlinuxCore.v
VmlinuxNet.v
VmlinuxBpf.v
Vmlinux.v
Bpf.v
TcpMetrics.v
ObjectLayouts.v
WireFormat.v
TcpMetricsSpec.v
BpfModel.v
TcpSystem.v
GoStd.v
GoSort.v
GoHeap.v
GoText.v
GoUrl.v
GoBytes.v
Endpoint.v
Event.v
Aggregator.v
Agent.v
Pipeline.v
TcpWitness.v
GoFloat.v
Status.v
StateMachine.v
SlowScore.v
HealthManager.v
Breaker.v
RetryBudget.v
Routing.v
Histogram.v
Recorder.v
RecorderRace.v
Watch.v
Registry.v
RegistrySpec.v
RegistrySweep.v
PolicyTypes.v
SdkRetry.v
Controller.v
Policy.v
InstancesView.v
Wal.v
WalSpec.v
WalWriter.v
WalCrash.v
FileRegistry.v
FileRecovery.v
FileRegistrySpec.v
FileRestart.v
FileWitness.v
HealthStore.v
HealthStoreSpec.v
HealthWitness.v
Auth.v
AuthConfig.v
AuthSpec.v
ScopedAccess.v
AuthWitness.v
Trace.v
EtcdLease.v
LeaseRegistry.v
LeaseSystem.v
LeaseSpec.v
LeaseContract.v
LeaseWitness.v
PolicyEtcd.v
PolicyEtcdSpec.v
PolicyEtcdWitness.v
SdkResolver.v
Discovery.v
DiscoverySpec.v
SdkBalancer.v
SdkBalancerSpec.v
Verifier.v
SdkTelemetry.v
SdkAddresses.v
