(* ===== verification/Prelude.v ===== *)
(** * A verification development for AegisMesh

    AegisMesh is a service mesh built around slow-endpoint detection.  A BPF
    program in the kernel observes TCP retransmits and connection attempts; an
    agent decodes its records, aggregates them per remote endpoint and reports
    them to a controller.  The controller merges them with the request telemetry
    of the client library, scores every endpoint against its peers, and drives a
    state machine per endpoint (healthy, degraded, ejected, probing).  Service
    instances hold leases in a registry; the controller lists them with their
    health and distributes policies.  Leases can be kept in a log on disk or, like
    health and policies, in etcd, shared by several controllers; callers are authenticated and may be
    confined to some services.  Clients pick endpoints by those states, bound
    requests in flight with a circuit breaker and bound retries with a budget.  The
    development translates these parts into executable definitions and proves what
    each promises to the next.

    ** Files and what they model (sources under [src/])

    Foundations:
    - [Prelude]: tactics, hint databases, machine integers ([wrapu], [wraps]: the
      values of unsigned and signed arithmetic at a width), list lemmas.
    - [CTypes]: C object layout (sizes, alignment, bit-fields, member designators).
    - [GoStd], [GoFloat]: the functions of the Go standard library that the code
      calls, and [float64] as IEEE binary64; [GoSort]: [sort.Slice] and what a
      comparison determines; [GoHeap]: [container/heap], a priority queue; [GoText]:
      functions of [strings] on ASCII text and its separators; [GoUrl]: path escaping
      and cleaning; [GoBytes]: big-endian words, CRC-32C.

    In the kernel ([agent/ebpf/bpf/]):
    - [VmlinuxCore], [VmlinuxNet], [VmlinuxBpf], [Vmlinux]: the declarations of
      [vmlinux.h] the program reaches, and their layout; [ObjectLayouts]:
      the types as the debug information of the shipped [tcp_metrics.bpf.o] records
      them, and the comparison of the two.
    - [Bpf]: the kernel's BPF helpers, which are not in the repository, as a class
      of operations [BpfRuntime] with the documented laws [BpfLaws].
      [BpfModel] is an executable instance, so the laws are consistent.
    - [TcpMetrics]: [tcp_metrics.bpf.c], every structure, map, helper and handler;
      [WireFormat]: the bytes its structures have in memory.
    - [TcpMetricsSpec], [TcpSystem], [TcpWitness]: what the handlers do; the probes
      of all threads interleaved, refining a specification; concrete runs.

    In the agent ([agent/ebpf/]):
    - [Endpoint] ([endpoint.go]), [Event] ([event.go]), [Aggregator]
      ([aggregator.go], [telemetry.go]), [Agent] ([collector_linux.go],
      [reporter.go]).
    - [Pipeline]: probes, decoder and aggregator composed.

    In the controller and the client library ([pkg/]):
    - [Status] ([status/status.go]), [StateMachine] ([fault/state_machine.go]),
      [SlowScore] ([fault/slow_score.go]), [HealthManager] ([fault/manager.go]).
    - [Breaker] ([circuitbreaker/breaker.go]), [RetryBudget] ([retry/budget.go]),
      [Routing] ([routing/round_robin.go]).
    - [Histogram], [Recorder] ([telemetry/latency_histogram.go], [ewma.go],
      [recorder.go]) run alone; [RecorderRace]: one row of the recorder, memory
      access by memory access.
    - [Watch]: the watch goroutines of the health manager and of the registry.
    - [Registry] ([registry/registry.go]), the in-memory registry; [RegistrySpec]:
      its contract, a table of leases; [RegistrySweep]: its heap of deadlines and
      its announcements.
    - [PolicyTypes] ([policy.proto]), [Policy] ([policy/store.go],
      [controller/policy_service.go], [controller/policy_hot_apply.go]).
    - [Controller] ([controller/telemetry_service.go] and the registration handlers
      of [controller/registry_service.go]); [InstancesView]: its listings.
    - [SdkRetry] ([sdk/go/aegisgrpc/retry.go], [policy.go], [dial_options.go]).
    - [Wal] (frames and replay of the log in [registry/file_registry_v2.go]),
      [WalWriter] (its goroutine over [bufio.Writer] and a file whose calls can fail
      or stop half way); [WalSpec], [WalCrash]: replay, and replay after a crash.
    - [FileRegistry] (both file registries, [registry/file_registry.go] and
      [file_registry_v2.go], over [Registry]); [FileRecovery]: what a registry
      started from snapshot and log holds; [FileRegistrySpec]: its operations;
      [FileRestart], [FileWitness]: histories with a restart, concrete runs.
    - [HealthStore] ([fault/health_store.go]), [HealthStoreSpec], [HealthWitness].
    - [Auth] ([security/auth.go]), [AuthConfig] ([security/tls.go] and
      [buildControllerServerOptions] of [cmd/controller/main.go]), [AuthSpec];
      [ScopedAccess]: the unary handlers behind the interceptor; [AuthWitness].
    - [Trace] ([trace/async.go]): the asynchronous trace writer.
    - [EtcdLease]: etcd's keys with leases, which are not in the repository, as a class
      of requests with laws and an executable instance; [LeaseRegistry]
      ([registry/etcd_registry.go], [registry/lease_store_registry.go]): the shared
      registry as programs of such requests; [LeaseSystem]: many of them interleaved;
      [LeaseSpec], [LeaseContract], [LeaseWitness]: the contract of a call, its proof,
      concrete runs.
    - [PolicyEtcd] ([policy/etcd_store.go]), [PolicyEtcdSpec], [PolicyEtcdWitness].
    - [SdkResolver] ([sdk/go/aegisgrpc/resolver.go]); [Discovery]: the loop of
      [WatchInstances] ([controller/registry_service.go]) and the resolver at the other
      end of its stream; [DiscoverySpec].
    - [SdkBalancer] ([sdk/go/aegisgrpc/adaptive_balancer.go],
      [adaptive_limiter_pool.go]), [SdkBalancerSpec].
    - [SdkTelemetry] ([sdk/go/aegisgrpc/interceptor.go], [reporter.go],
      [report_pool.go]) over [Recorder]; [SdkAddresses] ([controller_addresses.go]).
    - [Verifier] ([verifier/spec.go]): the verdict on recorded traces.

    ** How code is represented

    Definitions carry the names of the source.  C objects are byte sequences and
    every assignment goes through the layout of its declaration, so the record
    format user space receives is computed from the source.  Go integers wrap at
    their width, times are nanoseconds, strings are byte strings.  Go visits maps
    in an unspecified order: where code ranges over a map and the order can
    matter, it is an argument, and theorems quantify over it.  Clock readings and
    random draws are arguments.  Code that runs in several goroutines or on several threads is a
    step relation with one atomic access, or one critical section, per step.

    ** What the theorems show

    - Kernel: what each handler does is exactly the step of a deterministic
      specification with one pending attempt per thread, given which reservations and
      updates the kernel has room for ([TcpSystem.probes_refine_spec]); a connect
      return is paired with its own thread's entry ([TcpSystem.connect_pairing]) and the entry is cleared on
      every path ([TcpMetricsSpec.connect_return_always_clears]); every published
      record is the image of a well-formed event and every pending attempt was recorded
      by the thread that is its key ([TcpSystem.published_stream_invariant]); the tuple
      written does not depend on the running kernel's layout; the layouts are those the
      compiler recorded in the object ([ObjectLayouts.layouts_match_object]).
    - Agent: decoding, key formatting and parsing invert encoding on the layout
      the decoder expects; on the records the compiled program publishes the
      latency and task name are misread ([Event.decode_kernel_record]), the rest
      is right.  Windows are a group-by ([Aggregator.window_aggregates]), and in
      every interleaving each event is in exactly one place
      ([Agent.agent_accounting]).  Counters in a report are the kernel's counts
      ([Pipeline.pipeline_counts]).
    - Controller: each state change has its reason
      ([StateMachine.state_changes_justified]) and sustained slowness ejects; each
      endpoint gets one score ([SlowScore]); every observable change advances its
      service's revision ([HealthManager.revisions_track_changes]).  The last two are
      for services without a slash in their names: scores and health are kept under
      service and instance joined by a slash, and otherwise two endpoints can share a
      key ([HealthManager.score_keys_collide], [AuthWitness.scoped_report_reaches]).  Two
      theorems show how timer ticks reuse stale scores ([HealthManager.ticks_alone_eject],
      [HealthManager.probation_lost_at_next_tick]).
    - Registry: every answer is explained by a table of leases in which sweeping is
      invisible ([RegistrySpec.registry_refines_leases]); a registration fences the
      holders before it; sweeps remove exactly the expired records and every change
      is announced once ([RegistrySweep]).  A sweep that its context interrupts loses
      a deadline ([RegistrySweep.interrupted_sweep_leaks]).
    - Composition: a report touches only endpoints with a live lease, in their
      current registration ([Controller.report_touches_leased_only], against the
      interface [Controller.RegistryStoreLaw] that the registry is shown to meet);
      registrations are usable ([Controller.registration_is_usable]); listings are
      the live leases with matching health, and their versions tell a change of the
      leases or of the health apart within a block of 2^24 ([InstancesView]).
    - Policies: thresholds follow the file and streams follow the store ([Policy]),
      but a file replaced while it is read is lost
      ([Policy.reload_race_is_permanent]).  Policies kept in etcd are those of one
      revision that never goes back ([PolicyEtcdSpec.etcd_policies_consistent]), up to
      the client ([PolicyEtcdSpec.etcd_policy_stream_current]), unless a response
      deletes and rewrites a key ([PolicyEtcdWitness.returning_policy_lost]) or holds a
      value that cannot be decoded ([PolicyEtcdWitness.bad_policy_hides_others]).
    - Shared registry: however the requests of several controllers interleave, fail or
      lose their answers, every call meets its contract on one table of leases
      ([LeaseContract.shared_registry_contract]).  The contract has limits that concrete
      runs show: [LeaseWitness.lost_answer_unregisters],
      [LeaseWitness.heartbeats_collide], [LeaseWitness.expiry_not_sent].
    - Discovery: where versions tell the views apart, a connection uses the instances of
      one view of the controller, and without calls of [ResolveNow] the current one once
      its stream is at rest ([DiscoverySpec.connections_follow_views]); a late listing
      can undo that
      ([DiscoverySpec.late_listing_wins]).
    - Durability: replay ends on any bytes and the repaired log is clean
      ([WalSpec.recovered_log_is_clean]); records acknowledged in the mode always
      survive a crash, through failing calls, compactions and closing
      ([WalCrash.acknowledged_records_survive]), in the mode batch the last ones
      need not ([WalCrash.batch_ack_is_not_durable]); a restart is invisible to
      readers ([FileRestart.restart_is_invisible]) as long as no heartbeat reaches a
      lease that ran out: otherwise compaction and sweeps can lose or revive it
      ([FileWitness.compaction_forgets_renewed_lease],
      [FileWitness.refused_heartbeat_revives_lease]).
    - Shared health: saves of several controllers keep the newest record
      ([HealthStoreSpec.newest_health_wins]), and saving, loading and merging gives
      the manager's state back ([HealthStoreSpec.restart_recovers_health]).
    - Access: the interceptor decides exactly as a declarative rule does
      ([AuthSpec.authorize_exact]); what is printed in the configuration is what
      clients are recognised as ([AuthSpec.configured_client_recognised]); a
      controller is open only if told so ([AuthSpec.startup_is_guarded]); a call of a
      scoped principal changes no lease and no policy outside its scope, and no health
      whose service is apart from its own ([ScopedAccess.scoped_call_confined]), but the
      answer to a report shows other services ([AuthWitness.report_shows_other_services]).
    - Tracing: every record is written, queued or counted as dropped
      ([Trace.trace_records_accounted]) and Close drains the queue
      ([Trace.close_drains]), except for calls in flight ([Trace.late_write_is_lost]).
    - Telemetry: the recorder is a table of windows, quantiles are order statistics,
      in-flight counts are exact; concurrently, the requests reported and those
      that overtook a report are all there were ([RecorderRace.reports_account]), and
      the latter are lost ([RecorderRace.reset_loses_requests]).  Watches are in order and end
      at the newest version, unless they stall ([Watch.watch_can_stall]).
    - SDK: the retry loop is bounded, pays its budget, never repeats methods
      that the policy lists as not idempotent, and keeps the budgets of methods apart; the policy in force at
      dialling outlives its deletion ([SdkRetry.initial_policy_outlives_deletion]).
      The balancer picks routable connections, the cheaper of two
      ([SdkBalancerSpec.adaptive_pick_sound]), and its limiters and statistics count
      exactly the calls under way, access by access
      ([SdkBalancerSpec.balancer_accounts]).  Calls that do not overlap a report are
      reported once ([SdkTelemetry.sdk_calls_reported_once]), without their epoch.
      Controller addresses are kept once each ([SdkAddresses.controllers_once]).
    - Verifier: the verdict is exact ([Verifier.verify_exact]), but no trace the SDK
      writes has an edge between services ([Verifier.sdk_traces_avoid_forbidden]).
    - Client: the breaker's counter is the number of owners and the budget is
      never exceeded, in every interleaving ([Breaker], [RetryBudget]); picks are
      fair, routable and of the cheaper candidate ([Routing]).

    ** Bounds and fuel

    Recursion is structural except in the following places.  [GoStd.Itoa] has fuel 20, the
    digits of any 64-bit integer.  [GoStd.hex_group] and
    [GoStd.parseIPv6_loop] have the bounds of the library's own loops, on the
    digits of a group and on the groups of an address.  [Breaker.solo_fuel] is 6,
    more than the accesses of an uncontended acquire or release; the lemmas on
    [EndpointLimiter_TryAcquire] and [EndpointLimiter_Release] show they finish
    within it, and the contended loops have no fuel, being steps.  [GoHeap.up] and
    [GoHeap.down] have the length of the heap, the bucket search has 128 where 7 suffice ([Histogram.bucket_search_terminates]), the
    sweeper has one more than the deadlines on the heap, each turn taking one
    ([RegistrySweep.sweep_removes_exactly_expired]), and the retry loop has the
    allowed attempts ([SdkRetry.retry_loop_bounded]).  [Wal.replay_loop] has one more
    than the bytes of the file, each turn reading at least one
    ([WalSpec.recovered_log_is_clean] shows it is enough); [WalWriter.Write_loop] has
    3, because a write to a buffer fills it, empties it and then either fits or goes
    to the file directly; [HealthStore.save_loop] has one more than the changes other
    controllers make, a turn being repeated only after one of them
    ([HealthStoreSpec.newest_health_wins] shows a save ends).  The bound
    [2 * ConsecutiveWindows] of [StateMachine.sustained_slowness_ejects] is needed
    because slow windows counted earlier can degrade the endpoint first, which
    clears the count towards ejection.  [ObjectLayouts.designators] has 8, more than
    unnamed types are nested; deeper members would be missing from the comparison,
    which is of whole lists.

    ** What is not modelled

    Not modelled, because they only call a library or print: loading and attaching the
    BPF object, dialling (the SDK's and the stores'), closing of clients, the goroutines
    that forward etcd's watches of leases and of health, metric export, command-line
    programs, the demo services, experiments and dashboards, the text of the verifier's
    messages.  The declarations of [vmlinux.h] the program does not reach and generated
    message code say nothing about behaviour.  The fault injector and the benchmark
    adapter put together command lines of other programs ([docker], [tc], a load
    generator) and run them; what those do is outside the sources.

    The operations of the registry are single steps: its two locks are not interleaved,
    and neither is the closing of a file registry with its appends.  The recorder's
    metrics sink and the invoker of a call are seen through the calls made to them;
    YAML parsing, decoding of policies, random epochs and clock readings are arguments.
    Libraries of which the code needs laws are classes with an executable instance that
    meets them: JSON ([FileRegistry.Json], [HealthStore.HealthJson],
    [LeaseRegistry.LeaseJson]), etcd ([HealthStore.EtcdKV], [EtcdLease]).  URL parsing
    ([Auth.Url]) and lower-casing outside ASCII ([GoText.Unicode]) are classes without
    laws.  The history of etcd that a policy store follows is part of its system's
    state; which answers etcd may give is stated in [PolicyEtcd.list_answer] and
    [PolicyEtcd.watch_answer]. *)
From Stdlib Require Export ZArith Lia.
From stdpp Require Export base numbers list option strings gmap.
#[global] Open Scope Z_scope.

(** ** Automation *)

Create HintDb aegis discriminated.
Create Rewrite HintDb aegis.

(** Case analysis on the boolean tests of the model, with the arithmetic fact
    each test decides. *)
Ltac case_test :=
  match goal with
  | |- context [if ?b then _ else _] => destruct b eqn:?
  | H : context [if ?b then _ else _] |- _ => destruct b eqn:?
  end.

Ltac bool_facts :=
  repeat match goal with
  | H : (_ && _)%bool = true |- _ => apply andb_true_iff in H as [? ?]
  | H : (_ && _)%bool = false |- _ => apply andb_false_iff in H
  | H : (_ || _)%bool = false |- _ => apply orb_false_iff in H as [? ?]
  | H : (_ || _)%bool = true |- _ => apply orb_true_iff in H
  | H : negb _ = true |- _ => apply negb_true_iff in H
  | H : negb _ = false |- _ => apply negb_false_iff in H
  | H : (_ <? _) = true |- _ => apply Z.ltb_lt in H
  | H : (_ <? _) = false |- _ => apply Z.ltb_ge in H
  | H : (_ <=? _) = true |- _ => apply Z.leb_le in H
  | H : (_ <=? _) = false |- _ => apply Z.leb_gt in H
  | H : (_ =? _) = true |- _ => apply Z.eqb_eq in H
  | H : (_ =? _) = false |- _ => apply Z.eqb_neq in H
  | H : bool_decide _ = true |- _ => apply bool_decide_eq_true in H
  | H : bool_decide _ = false |- _ => apply bool_decide_eq_false in H
  end.

Ltac inv_opt :=
  repeat match goal with
  | H : mbind _ _ = Some _ |- _ => apply bind_Some in H as (? & ? & ?)
  | H : fmap _ _ = Some _ |- _ => apply fmap_Some in H as (? & ? & H); subst
  | H : Some _ = Some _ |- _ => injection H as H; subst
  | H : None = Some _ |- _ => discriminate H
  end.

(** ** Machine integers *)

Definition wrapu (w x : Z) : Z := x `mod` 2 ^ w.

Definition wraps (w x : Z) : Z :=
  let u := wrapu w x in if u <? 2 ^ (w - 1) then u else u - 2 ^ w.

Definition is_u (w x : Z) : Prop := 0 <= x < 2 ^ w.
Definition is_s (w x : Z) : Prop := - 2 ^ (w - 1) <= x < 2 ^ (w - 1).

Lemma wrapu_range w x : 0 <= w -> is_u w (wrapu w x).
Proof. intros Hw. apply Z.mod_pos_bound. lia. Qed.

Lemma wrapu_small w x : is_u w x -> wrapu w x = x.
Proof. apply Z.mod_small. Qed.

Lemma wraps_range w x : 0 < w -> is_s w (wraps w x).
Proof.
  intros Hw. pose proof (wrapu_range w x ltac:(lia)) as Hr. unfold wraps, is_s, is_u in *.
  assert (2 ^ w = 2 * 2 ^ (w - 1)) by (rewrite <- Z.pow_succ_r by lia; f_equal; lia).
  destruct (Z.ltb_spec (wrapu w x) (2 ^ (w - 1))); lia.
Qed.

Lemma wrapu_wraps_add w x y : 0 < w -> wrapu w (wraps w x + y) = wrapu w (x + y).
Proof.
  intros Hw. unfold wraps, wrapu. cbv zeta. pose proof (Z.pow_pos_nonneg 2 w).
  destruct (_ <? _).
  - by rewrite Z.add_mod_idemp_l by lia.
  - replace (x `mod` 2 ^ w - 2 ^ w + y) with (x `mod` 2 ^ w + y + (-1) * 2 ^ w) by lia.
    by rewrite Z.mod_add, Z.add_mod_idemp_l by lia.
Qed.

Lemma wraps_add w x y : 0 < w -> wraps w (wraps w x + y) = wraps w (x + y).
Proof. intros Hw. unfold wraps at 1 3. cbv zeta. by rewrite wrapu_wraps_add. Qed.

Lemma wraps_small w x : 0 < w -> is_s w x -> wraps w x = x.
Proof.
  intros Hw [Hl Hh]. unfold wraps, wrapu.
  assert (E : 2 ^ w = 2 * 2 ^ (w - 1)) by (rewrite <- Z.pow_succ_r by lia; f_equal; lia).
  destruct (Z.lt_ge_cases x 0) as [Hn | Hp].
  - replace (x `mod` 2 ^ w) with (x + 2 ^ w).
    2:{ apply Z.mod_unique_pos with (q := -1); lia. }
    destruct (Z.ltb_spec (x + 2 ^ w) (2 ^ (w - 1))); lia.
  - rewrite Z.mod_small by lia. destruct (Z.ltb_spec x (2 ^ (w - 1))); lia.
Qed.

(** ** Rounding up to an alignment *)

Definition align_up (x a : Z) : Z := (x + a - 1) / a * a.

Lemma align_up_bounds x a : 0 < a -> x <= align_up x a < x + a.
Proof.
  intros Ha. unfold align_up. pose proof (Z.mod_pos_bound (x + a - 1) a Ha).
  pose proof (Z.div_mod (x + a - 1) a ltac:(lia)). lia.
Qed.

Lemma align_up_divide x a : (a | align_up x a).
Proof. exists ((x + a - 1) / a). reflexivity. Qed.

Definition pow2 (a : Z) : Prop := exists k, 0 <= k /\ a = 2 ^ k.

Lemma pow2_pos a : pow2 a -> 0 < a.
Proof. intros (k & ? & ->). lia. Qed.

Lemma pow2_1 : pow2 1.
Proof. exists 0. lia. Qed.

Lemma pow2_divide a b : pow2 a -> pow2 b -> a <= b -> (a | b).
Proof.
  intros (i & ? & ->) (j & ? & ->) Hle.
  assert (i <= j) by (apply (Z.pow_le_mono_r_iff 2); lia).
  exists (2 ^ (j - i)). rewrite <- Z.pow_add_r by lia. f_equal. lia.
Qed.

Lemma pow2_max a b : pow2 a -> pow2 b -> pow2 (Z.max a b).
Proof. destruct (Z.max_spec a b) as [[_ ->] | [_ ->]]; auto. Qed.

#[export] Hint Resolve pow2_1 pow2_max pow2_pos : aegis.

(** ** Byte sequences *)

(** Bytes are integers in [0, 256); words are stored little-endian, as on the
    machines the BPF object and the agent run on. *)
Fixpoint le_bytes (n : nat) (v : Z) : list Z :=
  match n with
  | O => []
  | S n' => v `mod` 256 :: le_bytes n' (v / 256)
  end.

Fixpoint le_val (bs : list Z) : Z :=
  match bs with
  | [] => 0
  | b :: bs' => b + 256 * le_val bs'
  end.

Definition is_byte (b : Z) : Prop := 0 <= b < 256.
Abbreviation bytes_ok := (Forall is_byte).

Lemma length_le_bytes n v : length (le_bytes n v) = n.
Proof. revert v. induction n; simpl; auto. Qed.

Lemma le_bytes_ok n v : bytes_ok (le_bytes n v).
Proof. revert v. induction n; simpl; constructor; auto. apply Z.mod_pos_bound. lia. Qed.

Lemma le_val_le_bytes n v : le_val (le_bytes n v) = v `mod` 2 ^ (8 * Z.of_nat n).
Proof.
  revert v. induction n as [|n IH]; intros v; cbn [le_val le_bytes]; [by rewrite Z.mod_1_r|].
  rewrite IH. replace (2 ^ (8 * Z.of_nat (S n))) with (256 * 2 ^ (8 * Z.of_nat n)).
  - rewrite Z.rem_mul_r by lia. lia.
  - change 256 with (2 ^ 8). rewrite <- Z.pow_add_r by lia. f_equal. lia.
Qed.

Lemma le_val_range bs : bytes_ok bs -> 0 <= le_val bs < 2 ^ (8 * Z.of_nat (length bs)).
Proof.
  induction 1 as [|b bs Hb _ IH]; cbn [le_val length]; [lia|]. unfold is_byte in Hb.
  replace (2 ^ (8 * Z.of_nat (S (length bs)))) with (256 * 2 ^ (8 * Z.of_nat (length bs))); [lia|].
  change 256 with (2 ^ 8). rewrite <- Z.pow_add_r by lia. f_equal. lia.
Qed.

Lemma le_val_app bs1 bs2 :
  le_val (bs1 ++ bs2) = le_val bs1 + 2 ^ (8 * Z.of_nat (length bs1)) * le_val bs2.
Proof.
  induction bs1 as [|b bs1 IH]; cbn [le_val length app]; [lia|]. rewrite IH.
  replace (2 ^ (8 * Z.of_nat (S (length bs1)))) with (256 * 2 ^ (8 * Z.of_nat (length bs1))); [lia|].
  change 256 with (2 ^ 8). rewrite <- Z.pow_add_r by lia. f_equal. lia.
Qed.

Lemma le_bytes_le_val bs : bytes_ok bs -> le_bytes (length bs) (le_val bs) = bs.
Proof.
  induction 1 as [|b bs Hb _ IH]; cbn [le_val le_bytes length]; [done|]. unfold is_byte in Hb.
  assert (E : b + 256 * le_val bs = b + le_val bs * 256) by lia. rewrite E.
  rewrite Z.mod_add, Z.div_add, Z.mod_small, Z.div_small by lia. simpl. by f_equal.
Qed.

Lemma le_val_zeros n : le_val (replicate n 0) = 0.
Proof. induction n; simpl; lia. Qed.

Lemma le_bytes_zero n : le_bytes n 0 = replicate n 0.
Proof. induction n as [|n IH]; simpl; [done|]. rewrite Z.mod_0_l, Z.div_0_l by lia. by f_equal. Qed.

Lemma le_bytes_mod n v : le_bytes n (v `mod` 2 ^ (8 * Z.of_nat n)) = le_bytes n v.
Proof.
  pose proof (le_bytes_le_val (le_bytes n v) (le_bytes_ok n v)) as H.
  by rewrite length_le_bytes, le_val_le_bytes in H.
Qed.

Lemma le_bytes_app n m v :
  le_bytes (n + m) v = le_bytes n v ++ le_bytes m (v / 2 ^ (8 * Z.of_nat n)).
Proof.
  revert v. induction n as [|n IH]; intros v; cbn [le_bytes Nat.add app]; [by rewrite Z.div_1_r|].
  rewrite IH. do 3 f_equal. rewrite Z.div_div by lia. f_equal.
  change 256 with (2 ^ 8). rewrite <- Z.pow_add_r by lia. f_equal. lia.
Qed.

Lemma bytes_ok_zeros n : bytes_ok (replicate n 0).
Proof. apply Forall_replicate. unfold is_byte. lia. Qed.

(** Reading and overwriting part of a buffer. *)
Definition slice (off n : Z) (bs : list Z) : list Z := take (Z.to_nat n) (drop (Z.to_nat off) bs).

Definition splice (off : Z) (v bs : list Z) : list Z :=
  take (Z.to_nat off) bs ++ v ++ drop (Z.to_nat off + length v) bs.

Lemma length_splice off v bs :
  0 <= off -> off + Z.of_nat (length v) <= Z.of_nat (length bs) -> length (splice off v bs) = length bs.
Proof. intros. unfold splice. rewrite !length_app, length_take, length_drop. lia. Qed.

Lemma splice_at a b c v off :
  Z.of_nat (length a) = off -> length v = length b -> splice off v (a ++ b ++ c) = a ++ v ++ c.
Proof.
  intros <- Hv. unfold splice. rewrite Nat2Z.id, Hv, take_app_length, <- drop_drop, !drop_app_length.
  done.
Qed.

Lemma slice_at a b c off n :
  Z.of_nat (length a) = off -> Z.of_nat (length b) = n -> slice off n (a ++ b ++ c) = b.
Proof. intros <- <-. unfold slice. by rewrite !Nat2Z.id, drop_app_length, take_app_length. Qed.

#[export] Hint Resolve le_bytes_ok bytes_ok_zeros : aegis.
#[export] Hint Rewrite length_le_bytes @length_app @length_replicate : aegis.

(** A buffer seen as consecutive chunks: overwriting or reading one chunk. *)
Lemma splice_concat i off v ls b :
  ls !! i = Some b -> length v = length b -> off = Z.of_nat (length (concat (take i ls))) ->
  splice off v (concat ls) = concat (<[i := v]> ls).
Proof.
  intros Hi Hv Hoff. pose proof (lookup_lt_Some _ _ _ Hi) as Hlt.
  rewrite <- (take_drop_middle ls i b Hi) at 1. rewrite insert_take_drop by done.
  rewrite !concat_app. simpl. by apply splice_at.
Qed.

Lemma slice_concat i off n ls b :
  ls !! i = Some b -> n = Z.of_nat (length b) -> off = Z.of_nat (length (concat (take i ls))) ->
  slice off n (concat ls) = b.
Proof.
  intros Hi Hn Hoff. rewrite <- (take_drop_middle ls i b Hi). rewrite concat_app. simpl.
  by apply slice_at.
Qed.

Lemma length_concat_take (ls : list (list Z)) i :
  length (concat (take i ls)) = sum_list (take i (length <$> ls)).
Proof.
  revert i. induction ls as [|l ls IH]; intros [|i]; simpl; [done..|]. by rewrite length_app, IH.
Qed.

Lemma length_concat_sum (ls : list (list Z)) : length (concat ls) = sum_list (length <$> ls).
Proof. induction ls as [|l ls IH]; simpl; [done|]. by rewrite length_app, IH. Qed.

Lemma fmap_length_insert (ls : list (list Z)) (lens : list nat) i v :
  length <$> ls = lens -> lens !! i = Some (length v) -> length <$> <[i := v]> ls = lens.
Proof. intros <- Hi. rewrite list_fmap_insert. by apply list_insert_id. Qed.

(** ** Bit fields *)

Lemma testbit_small b n i : 0 <= b < 2 ^ n -> 0 <= n <= i -> Z.testbit b i = false.
Proof.
  intros Hb Hi. rewrite <- (Z.mod_small b (2 ^ n)) by done. apply Z.mod_pow2_bits_high. lia.
Qed.

Lemma lor_shiftl a b n :
  0 <= n -> 0 <= b < 2 ^ n -> Z.lor (Z.shiftl a n) b = a * 2 ^ n + b.
Proof.
  intros Hn Hb. rewrite <- Z.shiftl_mul_pow2 by done. symmetry. apply Z.add_nocarry_lor.
  apply Z.bits_inj'. intros i Hi. rewrite Z.land_spec, Z.bits_0.
  destruct (Z.lt_ge_cases i n).
  - rewrite Z.shiftl_spec_low by done. done.
  - by rewrite (testbit_small b n i), andb_false_r by lia.
Qed.

Lemma fmap_snoc {A B} (f : A -> B) l x : f <$> (l ++ [x]) = (f <$> l) ++ [f x].
Proof. by rewrite fmap_app. Qed.

(** ** Sums *)

Definition sumZ (l : list Z) : Z := foldr Z.add 0 l.
#[global] Arguments sumZ : simpl never.

Lemma sumZ_app l1 l2 : sumZ (l1 ++ l2) = sumZ l1 + sumZ l2.
Proof. induction l1 as [|x l1 IH]; simpl; [done|]. unfold sumZ in *. simpl. lia. Qed.

Lemma sumZ_singleton x : sumZ [x] = x.
Proof. unfold sumZ. simpl. lia. Qed.

#[global] Instance sumZ_proper : Proper ((≡ₚ) ==> (=)) sumZ.
Proof. unfold sumZ. induction 1; simpl; lia. Qed.

Lemma sumZ_cons x l : sumZ (x :: l) = x + sumZ l.
Proof. done. Qed.

Lemma sumZ_nonneg l : Forall (fun x => 0 <= x) l -> 0 <= sumZ l.
Proof. induction 1; rewrite ?sumZ_cons; [done | lia]. Qed.

Lemma sumZ_filter_le {A} (P : A -> Prop) `{forall x, Decision (P x)} (f : A -> Z) l :
  Forall (fun x => 0 <= f x) l -> 0 <= sumZ (f <$> filter P l) <= sumZ (f <$> l).
Proof.
  induction 1 as [|x l Hx _ IH]; [done|]. rewrite filter_cons.
  destruct (decide (P x)); rewrite ?fmap_cons, ?sumZ_cons; lia.
Qed.

Lemma filter_ext_in {A} (P Q : A -> Prop) `{forall x, Decision (P x), forall x, Decision (Q x)} (l : list A) :
  (forall x, x ∈ l -> P x <-> Q x) -> filter P l = filter Q l.
Proof.
  induction l as [|x l IH]; intros HPQ; [done|]. rewrite !filter_cons.
  rewrite IH by (intros y Hy; apply HPQ; by right). specialize (HPQ x ltac:(left)).
  destruct (decide (P x)), (decide (Q x)); tauto.
Qed.


Lemma NoDup_fmap_filter {A B} (f : A -> B) (P : A -> Prop) `{forall x, Decision (P x)} (l : list A) :
  NoDup (f <$> l) -> NoDup (f <$> filter P l).
Proof.
  induction l as [|x l IH]; [done|]. rewrite fmap_cons, NoDup_cons, filter_cons. intros [Hx Hd].
  destruct (decide (P x)); [|by apply IH]. rewrite fmap_cons. constructor; [|by apply IH].
  intros (y & E & Hy)%list_elem_of_fmap. apply Hx, list_elem_of_fmap. exists y.
  split; [done|]. by apply list_elem_of_filter in Hy as [_ Hy].
Qed.
