(* ===== verification/CTypes.v ===== *)
(** * C object layout

    The type language of the C headers and the layout the x86-64 / BPF ABI
    gives to it: sizes, alignments, bit-field placement, and the resolution of
    a member designator such as [__sk_common.skc_family] to a bit offset.  The
    declarations of [vmlinux.h] and of [tcp_metrics.bpf.c] are written in this
    language (files [Vmlinux*.v] and [TcpMetrics.v]) and elaborated in textual
    order, as the compiler does: a type must be complete before it is used by
    value, so no fuel is needed. *)
From S2P Require Import Prelude.

(** ** Syntax *)

Inductive ctype :=
| CVoid
| CInt (size : Z) (signed : bool)
| CPtr (pointee : ctype)
| CFun (result : ctype)
| CArray (elem : ctype) (count : Z)
| CNamed (name : string)
| CEnum (size : Z) (constants : list (string * Z))
| CStruct (packed : bool) (members : list member)
| CUnion (packed : bool) (members : list member)
with member :=
| Member (name : option string) (type : ctype) (bits : option Z).

Record cdecl := decl { d_name : string; d_type : ctype }.

Definition c_bool := CInt 1 false.
Definition c_char := CInt 1 true.
Definition c_uchar := CInt 1 false.
Definition c_short := CInt 2 true.
Definition c_ushort := CInt 2 false.
Definition c_int := CInt 4 true.
Definition c_uint := CInt 4 false.
Definition c_long := CInt 8 true.
Definition c_ulong := CInt 8 false.
Definition c_llong := CInt 8 true.
Definition c_ullong := CInt 8 false.

(** A named member, a named bit-field, an anonymous struct or union member
    (whose members are promoted, C11 6.7.2.1), and unnamed bit-field padding. *)
Definition fld (n : string) (t : ctype) : member := Member (Some n) t None.
Definition bitf (n : string) (t : ctype) (w : Z) : member := Member (Some n) t (Some w).
Definition anon (t : ctype) : member := Member None t None.
Definition pad (t : ctype) (w : Z) : member := Member None t (Some w).
Definition pads (n : nat) (t : ctype) (w : Z) : list member := replicate n (pad t w).

(** ** Elaborated types *)

(** A designatable member: bit offset, bit width and declared type. *)
Record finfo := { f_name : string; f_off : Z; f_bits : Z; f_type : ctype }.

Record entry := { e_size : Z; e_align : Z; e_fields : list finfo }.

Abbreviation env := (gmap string entry).

Definition pointer_size : Z := 8.

Definition scalar (n : Z) : entry := {| e_size := n; e_align := n; e_fields := [] |}.

(** A member waiting to be placed: its declaration and its elaborated type. *)
Record slot := { s_name : option string; s_type : ctype; s_bits : option Z; s_entry : entry }.

Definition slot_align (packed : bool) (s : slot) : Z := if packed then 1 else e_align (s_entry s).

Definition slot_width (s : slot) : Z :=
  match s_bits s with Some w => w | None => 8 * e_size (s_entry s) end.

(** Whether a bit-field of [w] bits at [pos] would cross the boundary of a
    storage unit of its declared type. *)
Definition straddles (pos w unit : Z) : bool := unit <? pos `mod` unit + w.

(** Bit position of the next member when [pos] bits are already taken. *)
Definition slot_pos (packed : bool) (pos : Z) (s : slot) : Z :=
  let a := 8 * slot_align packed s in
  match s_bits s with
  | None => align_up pos a
  | Some w =>
      if w =? 0 then align_up pos (8 * e_align (s_entry s))
      else if packed then pos
      else if straddles pos w (8 * e_size (s_entry s)) then align_up pos a else pos
  end.

Fixpoint place (packed : bool) (pos : Z) (ss : list slot) : list (Z * slot) * Z :=
  match ss with
  | [] => ([], pos)
  | s :: ss' =>
      let p := slot_pos packed pos s in
      let '(ps, stop) := place packed (p + slot_width s) ss' in
      ((p, s) :: ps, stop)
  end.

(** Unnamed bit-fields do not contribute to the alignment of the aggregate. *)
Definition slot_counts (s : slot) : bool :=
  match s_name s, s_bits s with None, Some _ => false | _, _ => true end.

Definition slots_align (packed : bool) (ss : list slot) : Z :=
  foldr (fun s a => if slot_counts s then Z.max (slot_align packed s) a else a) 1 ss.

Definition slots_width (ss : list slot) : Z :=
  foldr (fun s w => Z.max (slot_width s) w) 0 ss.

Definition shift_field (d : Z) (f : finfo) : finfo :=
  {| f_name := f_name f; f_off := d + f_off f; f_bits := f_bits f; f_type := f_type f |}.

(** The designators a placed member contributes: itself when it is named, the
    promoted members of its type when it is an anonymous aggregate. *)
Definition slot_fields (p : Z * slot) : list finfo :=
  let '(off, s) := p in
  match s_name s, s_bits s with
  | Some n, _ => [{| f_name := n; f_off := off; f_bits := slot_width s; f_type := s_type s |}]
  | None, None => shift_field off <$> e_fields (s_entry s)
  | None, Some _ => []
  end.

Definition layout_struct (packed : bool) (ss : list slot) : entry :=
  let '(ps, stop) := place packed 0 ss in
  let a := slots_align packed ss in
  {| e_size := align_up stop (8 * a) / 8; e_align := a; e_fields := ps ≫= slot_fields |}.

Definition layout_union (packed : bool) (ss : list slot) : entry :=
  let a := slots_align packed ss in
  {| e_size := align_up (slots_width ss) (8 * a) / 8; e_align := a;
     e_fields := ((fun s => (0, s)) <$> ss) ≫= slot_fields |}.

(** Bit-fields have a scalar type and must fit it. *)
Definition bits_ok (b : option Z) (e : entry) : bool :=
  match b, e_fields e with
  | None, _ => true
  | Some w, [] => (0 <=? w) && (w <=? 8 * e_size e)
  | Some _, _ :: _ => false
  end.

Fixpoint elab (Γ : env) (t : ctype) : option entry :=
  match t with
  | CVoid | CFun _ => None
  | CInt n _ | CEnum n _ =>
      if bool_decide (n ∈ [1; 2; 4; 8; 16]) then Some (scalar n) else None
  | CPtr _ => Some (scalar pointer_size)
  | CNamed n => Γ !! n
  | CArray t' n =>
      e ← elab Γ t';
      if 0 <=? n then Some {| e_size := n * e_size e; e_align := e_align e; e_fields := [] |} else None
  | CStruct packed ms => layout_struct packed <$> mapM (elab_member Γ) ms
  | CUnion packed ms => layout_union packed <$> mapM (elab_member Γ) ms
  end
with elab_member (Γ : env) (m : member) : option slot :=
  match m with
  | Member n t b =>
      e ← elab Γ t;
      if bits_ok b e
      then Some {| s_name := n; s_type := t; s_bits := b; s_entry := e |}
      else None
  end.

(** Declarations are elaborated in the order of the header; a redeclaration, or
    a declaration whose type is incomplete, makes the translation unit
    ill-formed. *)
Definition add_decl (Γ : env) (d : cdecl) : option env :=
  match Γ !! d_name d with
  | Some _ => None
  | None => e ← elab Γ (d_type d); Some (<[d_name d := e]> Γ)
  end.

Fixpoint elaborate (Γ : env) (ds : list cdecl) : option env :=
  match ds with
  | [] => Some Γ
  | d :: ds' => Γ' ← add_decl Γ d; elaborate Γ' ds'
  end.

(** ** Member designators *)

Definition find_field (n : string) (fs : list finfo) : option finfo :=
  snd <$> list_find (fun f => f_name f = n) fs.

(** [resolve Γ t path] is the bit offset, bit width and type of [t.path]. *)
Fixpoint resolve (Γ : env) (t : ctype) (path : list string) : option finfo :=
  match path with
  | [] => e ← elab Γ t; Some {| f_name := ""; f_off := 0; f_bits := 8 * e_size e; f_type := t |}
  | n :: path' =>
      e ← elab Γ t;
      f ← find_field n (e_fields e);
      match path' with
      | [] => Some f
      | _ => shift_field (f_off f) <$> resolve Γ (f_type f) path'
      end
  end.

Definition offset_of (Γ : env) (t : ctype) (path : list string) : option Z :=
  f ← resolve Γ t path; Some (f_off f / 8).

Definition size_of (Γ : env) (t : ctype) : option Z := e_size <$> elab Γ t.

(** ** Induction over nested types *)

Section ctype_ind.
Variable P : ctype -> Prop.
Hypothesis HVoid : P CVoid.
Hypothesis HInt : forall n s, P (CInt n s).
Hypothesis HPtr : forall t, P (CPtr t).
Hypothesis HFun : forall t, P (CFun t).
Hypothesis HArray : forall t n, P t -> P (CArray t n).
Hypothesis HNamed : forall n, P (CNamed n).
Hypothesis HEnum : forall n cs, P (CEnum n cs).
Hypothesis HStruct : forall b ms, Forall (fun '(Member _ t _) => P t) ms -> P (CStruct b ms).
Hypothesis HUnion : forall b ms, Forall (fun '(Member _ t _) => P t) ms -> P (CUnion b ms).

Fixpoint ctype_nested_ind (t : ctype) : P t :=
  let members := fix go ms : Forall (fun '(Member _ t _) => P t) ms :=
    match ms with
    | [] => Forall_nil_2 _
    | Member n t b :: ms' =>
        Forall_cons_2 (fun '(Member _ t _) => P t) (Member n t b) ms' (ctype_nested_ind t) (go ms')
    end in
  match t with
  | CVoid => HVoid
  | CInt n s => HInt n s
  | CPtr t => HPtr t
  | CFun t => HFun t
  | CArray t n => HArray t n (ctype_nested_ind t)
  | CNamed n => HNamed n
  | CEnum n cs => HEnum n cs
  | CStruct b ms => HStruct b ms (members ms)
  | CUnion b ms => HUnion b ms (members ms)
  end.
End ctype_ind.

(** ** Well-formed layouts *)

(** A designatable member lies inside its aggregate, and its type is elaborated;
    only a bit-field is narrower than its type, and then the type is scalar. *)
Definition field_ok (Γ : env) (bound : Z) (f : finfo) : Prop :=
  0 <= f_off f /\ 0 <= f_bits f /\ f_off f + f_bits f <= bound /\
  exists e, elab Γ (f_type f) = Some e /\ (f_bits f = 8 * e_size e \/ e_fields e = []).

Record wf_entry (Γ : env) (e : entry) : Prop := {
  wf_size : 0 <= e_size e;
  wf_align : pow2 (e_align e);
  wf_multiple : (e_align e | e_size e);
  wf_fields : Forall (field_ok Γ (8 * e_size e)) (e_fields e)
}.

Definition wf_env (Γ : env) : Prop := map_Forall (fun _ e => wf_entry Γ e) Γ.

Record wf_slot (Γ : env) (s : slot) : Prop := {
  ws_entry : wf_entry Γ (s_entry s);
  ws_type : elab Γ (s_type s) = Some (s_entry s);
  ws_bits : bits_ok (s_bits s) (s_entry s) = true
}.

Lemma scalar_wf Γ n : n ∈ [1; 2; 4; 8; 16] -> wf_entry Γ (scalar n).
Proof.
  intros Hn. split; simpl; [ | | done | constructor].
  - set_unfold. lia.
  - assert (n = 2 ^ 0 \/ n = 2 ^ 1 \/ n = 2 ^ 2 \/ n = 2 ^ 3 \/ n = 2 ^ 4) as H by (set_unfold; lia).
    destruct H as [-> | [-> | [-> | [-> | ->]]]]; eexists; (split; [|reflexivity]); lia.
Qed.

Lemma slot_align_pow2 Γ packed s : wf_slot Γ s -> pow2 (slot_align packed s).
Proof. intros [[]]. unfold slot_align. destruct packed; auto with aegis. Qed.

Lemma slot_width_nonneg Γ s : wf_slot Γ s -> 0 <= slot_width s.
Proof.
  intros [[] _ Hb]. unfold slot_width, bits_ok in *.
  destruct (s_bits s); [|lia]. destruct (e_fields _); [|done]. bool_facts. lia.
Qed.

#[export] Hint Resolve slot_align_pow2 slot_width_nonneg scalar_wf : aegis.

Lemma slot_pos_ge Γ packed pos s : wf_slot Γ s -> pos <= slot_pos packed pos s.
Proof.
  intros Hs. pose proof (pow2_pos _ (slot_align_pow2 _ packed _ Hs)).
  pose proof (pow2_pos _ (wf_align _ _ (ws_entry _ _ Hs))).
  unfold slot_pos. destruct (s_bits s); [repeat case_test|]; try lia; apply align_up_bounds; lia.
Qed.

(** A member that is not a bit-field starts at a multiple of its alignment. *)
Lemma slot_pos_aligned packed pos s :
  s_bits s = None -> (8 * slot_align packed s | slot_pos packed pos s).
Proof. unfold slot_pos. intros ->. apply align_up_divide. Qed.

(** A bit-field of an unpacked aggregate stays in one storage unit. *)
Lemma slot_pos_one_unit Γ pos s w :
  wf_slot Γ s -> s_bits s = Some w -> e_size (s_entry s) = e_align (s_entry s) ->
  slot_pos false pos s `mod` (8 * e_size (s_entry s)) + w <= 8 * e_size (s_entry s).
Proof.
  intros [[_ Ha _ _] _ Hb] Hw Hsz. apply pow2_pos in Ha. unfold slot_pos, slot_align, straddles.
  unfold bits_ok in Hb. rewrite Hw, Hsz in *. destruct (e_fields _); [|done]. bool_facts.
  set (a := e_align _) in *.
  assert (align_up pos (8 * a) `mod` (8 * a) = 0) as Hz
    by (apply Z.mod_divide; [lia | apply align_up_divide]).
  repeat case_test; bool_facts; lia.
Qed.

(** ** Placement *)

(** [laid_out pos ps stop]: the members of [ps] follow each other from [pos] on
    and end before [stop]. *)
Fixpoint laid_out (pos : Z) (ps : list (Z * slot)) (stop : Z) : Prop :=
  match ps with
  | [] => pos = stop
  | (p, s) :: ps' => pos <= p /\ laid_out (p + slot_width s) ps' stop
  end.

Lemma place_laid_out Γ packed ss pos ps stop :
  Forall (wf_slot Γ) ss -> place packed pos ss = (ps, stop) -> laid_out pos ps stop /\ ps.*2 = ss.
Proof.
  intros Hss. revert pos ps. induction Hss as [|s ss Hs Hss IH]; intros pos ps; simpl; [by intros [= <- <-]|].
  destruct (place _ _ ss) as [ps' stop'] eqn:Hp. intros [= <- <-]. apply IH in Hp as [? <-].
  split; [split; [eapply slot_pos_ge; eauto | done] | done].
Qed.

Lemma place_aligned packed pos ss ps stop i p s :
  place packed pos ss = (ps, stop) -> ps !! i = Some (p, s) -> s_bits s = None ->
  (8 * slot_align packed s | p).
Proof.
  revert pos ps i. induction ss as [|s' ss IH]; intros pos ps i; simpl; [by intros [= <- <-]|].
  destruct (place _ _ ss) as [ps' stop'] eqn:Hp. intros [= <- <-].
  destruct i; simpl; [intros [= <- <-]; apply slot_pos_aligned | eauto].
Qed.

Lemma laid_out_le Γ pos ps stop :
  Forall (wf_slot Γ) ps.*2 -> laid_out pos ps stop -> pos <= stop.
Proof.
  revert pos. induction ps as [|[p s] ps IH]; simpl; intros pos; [lia|].
  rewrite Forall_cons. intros [Hs Hps] [? ?%IH]; [|done]. apply slot_width_nonneg in Hs. lia.
Qed.

Lemma laid_out_bounds Γ pos ps stop i p s :
  Forall (wf_slot Γ) ps.*2 -> laid_out pos ps stop -> ps !! i = Some (p, s) ->
  pos <= p /\ p + slot_width s <= stop.
Proof.
  revert pos i. induction ps as [|[p' s'] ps IH]; simpl; intros pos i; [done|].
  rewrite Forall_cons. intros [Hs Hps] [Hp Hl] Hi. pose proof (slot_width_nonneg _ _ Hs).
  destruct i; simplify_eq/=.
  - split; [lia|]. eapply laid_out_le; eauto.
  - destruct (IH _ _ Hps Hl Hi). lia.
Qed.

Lemma laid_out_disjoint Γ pos ps stop i j p s q t :
  Forall (wf_slot Γ) ps.*2 -> laid_out pos ps stop -> (i < j)%nat ->
  ps !! i = Some (p, s) -> ps !! j = Some (q, t) -> p + slot_width s <= q.
Proof.
  revert pos i j. induction ps as [|[p' s'] ps IH]; simpl; intros pos i j; [done|].
  rewrite Forall_cons. intros [Hs Hps] [Hp Hl] Hij Hi Hj.
  destruct j; [lia|]. destruct i; simplify_eq/=.
  - eapply laid_out_bounds in Hl as [? ?]; eauto.
  - eapply (IH _ i j); eauto. lia.
Qed.

(** ** Aggregates *)

Lemma slots_align_pow2 Γ packed ss : Forall (wf_slot Γ) ss -> pow2 (slots_align packed ss).
Proof.
  induction 1; simpl; [auto with aegis|].
  case_test; [apply pow2_max|]; eauto using slot_align_pow2.
Qed.

Lemma slots_align_divide Γ packed ss s :
  Forall (wf_slot Γ) ss -> s ∈ ss -> slot_counts s = true ->
  (slot_align packed s | slots_align packed ss).
Proof.
  intros Hss Hin Hc. apply pow2_divide.
  - rewrite Forall_forall in Hss. eauto using slot_align_pow2.
  - by eapply slots_align_pow2.
  - clear Hss. induction Hin as [|? s' ? ? IH]; simpl; [rewrite Hc; lia|].
    destruct (slot_counts s'); [|auto]. specialize (IH Hc). lia.
Qed.

Lemma slots_width_ge ss s : s ∈ ss -> slot_width s <= slots_width ss.
Proof. induction 1; simpl; lia. Qed.

Lemma slot_fields_ok Γ p s bound :
  wf_slot Γ s -> 0 <= p -> p + slot_width s <= bound -> Forall (field_ok Γ bound) (slot_fields (p, s)).
Proof.
  intros Hs Hp Hb. pose proof (slot_width_nonneg _ _ Hs) as Hw. destruct Hs as [[_ _ _ Hf] Ht Hbits].
  unfold slot_fields, slot_width, bits_ok in *.
  destruct (s_name s), (s_bits s); [constructor; [|constructor].. | constructor | ].
  - split; [done|]. split; [done|]. split; [done|]. eexists. split; [done|].
    right. simpl. by destruct (e_fields (s_entry s)).
  - split; [done|]. split; [done|]. split; [done|]. simpl. eauto.
  - apply Forall_fmap. eapply Forall_impl; [exact Hf|]. intros f (? & ? & ? & ?).
    unfold compose, field_ok; simpl. repeat split; [lia..|done].
Qed.

Lemma padded_size stop a : 0 < a -> 8 * (align_up stop (8 * a) / 8) = align_up stop (8 * a).
Proof.
  intros Ha. destruct (align_up_divide stop (8 * a)) as [k ->].
  replace (k * (8 * a)) with (k * a * 8) by lia. rewrite Z.div_mul; lia.
Qed.

Lemma padded_wf Γ stop a fs :
  0 <= stop -> pow2 a -> Forall (field_ok Γ stop) fs ->
  wf_entry Γ {| e_size := align_up stop (8 * a) / 8; e_align := a; e_fields := fs |}.
Proof.
  intros Hstop Ha Hfs. pose proof (pow2_pos _ Ha) as Hp.
  pose proof (padded_size stop a Hp) as E. pose proof (align_up_bounds stop (8 * a) ltac:(lia)).
  split; simpl; [lia | done | | ].
  - destruct (align_up_divide stop (8 * a)) as [k Hk]. exists k. lia.
  - eapply Forall_impl; [exact Hfs|]. intros f (? & ? & ? & ?). repeat split; [lia..|done].
Qed.

Lemma layout_struct_wf Γ packed ss :
  Forall (wf_slot Γ) ss -> wf_entry Γ (layout_struct packed ss).
Proof.
  intros Hss. unfold layout_struct. destruct (place packed 0 ss) as [ps stop] eqn:Hp.
  apply place_laid_out with (Γ := Γ) in Hp as [Hl <-]; [|done].
  apply padded_wf; [by eapply laid_out_le | by eapply slots_align_pow2 | ].
  apply Forall_forall. intros f ([p s] & Hf & Hin)%list_elem_of_bind.
  apply list_elem_of_lookup in Hin as [i Hi].
  assert (wf_slot Γ s) as Hs.
  { rewrite Forall_forall in Hss. apply Hss. apply list_elem_of_fmap. exists (p, s).
    split; [done|]. apply list_elem_of_lookup. eauto. }
  eapply laid_out_bounds in Hl as [? ?]; eauto.
  eapply Forall_forall in Hf; [exact Hf|]. by apply slot_fields_ok.
Qed.

Lemma layout_union_wf Γ packed ss :
  Forall (wf_slot Γ) ss -> wf_entry Γ (layout_union packed ss).
Proof.
  intros Hss. apply padded_wf; [ | by eapply slots_align_pow2 | ].
  - clear. induction ss; simpl; lia.
  - apply Forall_forall. intros f ([p s] & Hf & Hin)%list_elem_of_bind.
    apply list_elem_of_fmap in Hin as (s' & [= -> ->] & Hin).
    rewrite Forall_forall in Hss. eapply Forall_forall in Hf; [exact Hf|].
    apply slot_fields_ok; [auto | lia | simpl; by apply slots_width_ge].
Qed.

Lemma elab_member_slot Γ m s :
  elab_member Γ m = Some s ->
  (forall e, elab Γ (s_type s) = Some e -> wf_entry Γ e) -> wf_slot Γ s.
Proof.
  destruct m as [n t b]. cbn [elab_member]. intros H Hwf. inv_opt. case_test; [|done].
  inv_opt. split; simpl in *; auto.
Qed.

Lemma elab_members_wf Γ ms ss :
  Forall (fun '(Member _ t _) => forall e, elab Γ t = Some e -> wf_entry Γ e) ms ->
  mapM (elab_member Γ) ms = Some ss -> Forall (wf_slot Γ) ss.
Proof.
  intros Hms Hss%mapM_Some. induction Hss as [|[n t b] s ms ss Hm _ IH]; [constructor|].
  apply Forall_cons in Hms as [Ht Hms]. constructor; [|auto].
  eapply elab_member_slot; [exact Hm|]. cbn [elab_member] in Hm. inv_opt. case_test; inv_opt. auto.
Qed.

Lemma elab_wf Γ t e : wf_env Γ -> elab Γ t = Some e -> wf_entry Γ e.
Proof.
  intros HΓ. revert e. induction t using ctype_nested_ind; intros e He; cbn [elab] in He; try done.
  - case_test; bool_facts; inv_opt; auto with aegis.
  - inv_opt. apply scalar_wf. unfold pointer_size. set_solver.
  - inv_opt. case_test; inv_opt. bool_facts. destruct (IHt _ ltac:(eassumption)) as [? ? [k Hk] _].
    split; simpl; [nia | done | | constructor]. exists (n * k). lia.
  - by apply (HΓ _ _ He).
  - case_test; bool_facts; inv_opt; auto with aegis.
  - inv_opt. eauto using layout_struct_wf, elab_members_wf.
  - inv_opt. eauto using layout_union_wf, elab_members_wf.
Qed.

(** ** Translation units *)

Lemma mapM_weaken {A B} (f g : A -> option B) (l : list A) k :
  Forall (fun x => forall y, f x = Some y -> g x = Some y) l -> mapM f l = Some k -> mapM g l = Some k.
Proof.
  intros Hl Hk%mapM_Some. apply mapM_Some. induction Hk; [constructor|].
  apply Forall_cons in Hl as [? ?]. constructor; auto.
Qed.

(** Completing more types does not change the layout of the types that were
    already complete. *)
Lemma elab_weaken Γ Γ' t e : Γ ⊆ Γ' -> elab Γ t = Some e -> elab Γ' t = Some e.
Proof.
  intros Hsub. revert e.
  assert (Hm : forall ms, Forall (fun '(Member _ t _) => forall e, elab Γ t = Some e -> elab Γ' t = Some e) ms ->
    forall ss, mapM (elab_member Γ) ms = Some ss -> mapM (elab_member Γ') ms = Some ss).
  { intros ms Hms ss. apply mapM_weaken. eapply Forall_impl; [exact Hms|].
    intros [n t' b] Ht s. cbn [elab_member]. intros H. inv_opt.
    rewrite (Ht _ ltac:(eassumption)). done. }
  induction t using ctype_nested_ind; intros e He; cbn [elab] in *; try done.
  - inv_opt. rewrite (IHt _ ltac:(eassumption)). done.
  - by eapply lookup_weaken.
  - inv_opt. by rewrite (Hm _ H _ ltac:(eassumption)).
  - inv_opt. by rewrite (Hm _ H _ ltac:(eassumption)).
Qed.

Lemma field_ok_weaken Γ Γ' bound f : Γ ⊆ Γ' -> field_ok Γ bound f -> field_ok Γ' bound f.
Proof.
  intros Hsub (? & ? & ? & e & ? & ?). repeat split; [done..|]. exists e. eauto using elab_weaken.
Qed.

Lemma wf_entry_weaken Γ Γ' e : Γ ⊆ Γ' -> wf_entry Γ e -> wf_entry Γ' e.
Proof.
  intros Hsub [? ? ? Hf]. split; [done..|]. eapply Forall_impl; [exact Hf|]. eauto using field_ok_weaken.
Qed.

Lemma add_decl_spec Γ d Γ' :
  add_decl Γ d = Some Γ' ->
  Γ !! d_name d = None /\ exists e, elab Γ (d_type d) = Some e /\ Γ' = <[d_name d := e]> Γ.
Proof. unfold add_decl. destruct (Γ !! _) eqn:E; [done|]. intros H. inv_opt. eauto. Qed.

Lemma add_decl_subseteq Γ d Γ' : add_decl Γ d = Some Γ' -> Γ ⊆ Γ'.
Proof. intros (? & e & ? & ->)%add_decl_spec. by apply insert_subseteq. Qed.

Lemma add_decl_wf Γ d Γ' : wf_env Γ -> add_decl Γ d = Some Γ' -> wf_env Γ'.
Proof.
  intros HΓ Hd. pose proof (add_decl_subseteq _ _ _ Hd) as Hsub.
  apply add_decl_spec in Hd as (? & e & He & ->).
  apply map_Forall_insert_2.
  - eapply wf_entry_weaken; [exact Hsub|]. by eapply elab_wf.
  - intros n e' Hn. eapply wf_entry_weaken; [exact Hsub|]. by apply (HΓ n).
Qed.

Lemma elaborate_subseteq ds Γ Γ' : elaborate Γ ds = Some Γ' -> Γ ⊆ Γ'.
Proof.
  revert Γ. induction ds as [|d ds IH]; simpl; intros Γ H; inv_opt; [done|].
  etrans; [by eapply add_decl_subseteq | by apply IH].
Qed.

Lemma elaborate_preserves_wf ds Γ Γ' : wf_env Γ -> elaborate Γ ds = Some Γ' -> wf_env Γ'.
Proof.
  revert Γ. induction ds as [|d ds IH]; simpl; intros Γ HΓ H; inv_opt; [done|].
  eauto using add_decl_wf.
Qed.

Lemma wf_env_empty : wf_env ∅.
Proof. apply map_Forall_empty. Qed.

Lemma elaborate_app ds1 ds2 Γ :
  elaborate Γ (ds1 ++ ds2) = elaborate Γ ds1 ≫= fun Γ' => elaborate Γ' ds2.
Proof.
  revert Γ. induction ds1 as [|d ds IH]; simpl; intros Γ; [done|].
  destruct (add_decl Γ d); simpl; auto.
Qed.

(** ** Designators *)

Lemma find_field_elem n fs f : find_field n fs = Some f -> f ∈ fs /\ f_name f = n.
Proof.
  unfold find_field. intros ([i f'] & (Hl & ? & _)%list_find_Some & ->)%fmap_Some. simpl in *.
  split; [|done]. apply list_elem_of_lookup. eauto.
Qed.

Lemma resolve_in_bounds Γ path t f :
  wf_env Γ -> resolve Γ t path = Some f ->
  exists e, elab Γ t = Some e /\ 0 <= f_off f /\ 0 <= f_bits f /\ f_off f + f_bits f <= 8 * e_size e.
Proof.
  intros HΓ. revert t f. induction path as [|n path IH]; intros t f; cbn [resolve].
  - intros (e & He & [= <-])%bind_Some. exists e. pose proof (wf_size _ _ (elab_wf _ _ _ HΓ He)).
    split; [done|]. simpl. lia.
  - intros (e & He & (g & [Hin _]%find_field_elem & Hf)%bind_Some)%bind_Some.
    exists e. split; [done|]. pose proof (wf_fields _ _ (elab_wf _ _ _ HΓ He)) as Hfs.
    rewrite Forall_forall in Hfs. destruct (Hfs _ Hin) as (? & ? & ? & e' & He' & Hw).
    destruct path as [|n' path]; [injection Hf as <-; lia|].
    apply fmap_Some in Hf as (f' & Hf & ->). simpl.
    destruct (IH _ _ Hf) as (e'' & He'' & ? & ? & ?). rewrite He' in He''. simplify_eq.
    destruct Hw as [Hw | Hw]; [lia|].
    cbn [resolve] in Hf. rewrite He' in Hf. simpl in Hf. by rewrite Hw in Hf.
Qed.

(** ** Objects in memory

    An object of type [t] is the sequence of its bytes; assignment to a member
    overwrites the bytes the designator resolves to. *)

Section Objects.
Context (Γ : env).

Definition sizeof (t : ctype) : Z := default 0 (size_of Γ t).

Definition sizeof_field (t : ctype) (path : list string) : Z :=
  match resolve Γ t path with Some f => f_bits f / 8 | None => 0 end.

(** [__builtin_memset(p, 0, sizeof( *p))]. *)
Definition zeroed (t : ctype) : list Z := replicate (Z.to_nat (sizeof t)) 0.

Definition store_bytes (t : ctype) (path : list string) (bs obj : list Z) : list Z :=
  match resolve Γ t path with Some f => splice (f_off f / 8) bs obj | None => obj end.

Definition load_bytes (t : ctype) (path : list string) (obj : list Z) : list Z :=
  match resolve Γ t path with Some f => slice (f_off f / 8) (f_bits f / 8) obj | None => [] end.

(** Integer members: the value is converted to the width of the member. *)
Definition store (t : ctype) (path : list string) (v : Z) (obj : list Z) : list Z :=
  store_bytes t path (le_bytes (Z.to_nat (sizeof_field t path)) v) obj.

Definition load (t : ctype) (path : list string) (obj : list Z) : Z :=
  le_val (load_bytes t path obj).

(** The member [path] of [t] is the [i]-th of consecutive chunks of the given
    byte lengths. *)
Definition is_chunk (lens : list nat) (t : ctype) (path : list string) (i : nat) : bool :=
  match resolve Γ t path, lens !! i with
  | Some f, Some n =>
      (f_off f =? 8 * Z.of_nat (sum_list (take i lens))) && (f_bits f =? 8 * Z.of_nat n)
  | _, _ => false
  end.

Lemma is_chunk_spec lens t path i :
  is_chunk lens t path i = true ->
  exists f n, resolve Γ t path = Some f /\ lens !! i = Some n /\
    f_off f / 8 = Z.of_nat (sum_list (take i lens)) /\ f_bits f / 8 = Z.of_nat n.
Proof.
  unfold is_chunk. destruct (resolve _ _ _) as [f|], (_ !! i) as [n|]; try done. intros.
  bool_facts. exists f, n. split; [done|]. split; [done|].
  replace (f_off f) with (Z.of_nat (sum_list (take i lens)) * 8) by lia.
  replace (f_bits f) with (Z.of_nat n * 8) by lia. by rewrite !Z.div_mul.
Qed.

Lemma store_bytes_chunk lens i t path bs ls :
  is_chunk lens t path i = true -> length <$> ls = lens -> lens !! i = Some (length bs) ->
  store_bytes t path bs (concat ls) = concat (<[i := bs]> ls).
Proof.
  intros (f & n & Hf & Hn & Hoff & _)%is_chunk_spec <- Hbs. unfold store_bytes. rewrite Hf.
  rewrite list_lookup_fmap in Hbs. apply fmap_Some in Hbs as (b & Hb & Hlen).
  apply splice_concat with b; [done | congruence | by rewrite length_concat_take].
Qed.

Lemma load_bytes_chunk lens i t path ls b :
  is_chunk lens t path i = true -> length <$> ls = lens -> ls !! i = Some b ->
  load_bytes t path (concat ls) = b.
Proof.
  intros (f & n & Hf & Hn & Hoff & Hbits)%is_chunk_spec <- Hb. unfold load_bytes. rewrite Hf.
  rewrite list_lookup_fmap, Hb in Hn. simpl in Hn. injection Hn as <-.
  apply slice_concat with i; [done | lia | by rewrite length_concat_take].
Qed.

Lemma sizeof_field_chunk lens i t path n :
  is_chunk lens t path i = true -> lens !! i = Some n -> sizeof_field t path = Z.of_nat n.
Proof.
  intros (f & n' & Hf & Hn & _ & Hbits)%is_chunk_spec ?. unfold sizeof_field. rewrite Hf.
  by simplify_eq.
Qed.

Lemma store_chunk lens i t path v ls n :
  is_chunk lens t path i = true -> length <$> ls = lens -> lens !! i = Some n ->
  store t path v (concat ls) = concat (<[i := le_bytes n v]> ls).
Proof.
  intros Hc Hls Hn. unfold store. rewrite (sizeof_field_chunk _ _ _ _ _ Hc Hn), Nat2Z.id.
  eapply store_bytes_chunk; [done..|]. by rewrite length_le_bytes.
Qed.

Lemma load_chunk lens i t path v ls n :
  is_chunk lens t path i = true -> length <$> ls = lens -> ls !! i = Some (le_bytes n v) ->
  load t path (concat ls) = v `mod` 2 ^ (8 * Z.of_nat n).
Proof.
  intros Hc Hls Hi. unfold load. erewrite load_bytes_chunk by done. apply le_val_le_bytes.
Qed.
End Objects.
