(* ===== verification/VmlinuxCore.v ===== *)
(** * Kernel types of [vmlinux.h], lines 8 to 6814: base types, synchronisation and scheduling types, [task_struct] and [pt_regs]

    One definition per declaration of [agent/ebpf/bpf/vmlinux.h] that the BPF
    program, its helpers or its attachment reach by value, transcribed member
    by member in the order of the header.  Qualifiers and function parameter
    types, which have no effect on layout, are dropped. *)
From S2P Require Import Prelude CTypes.

Definition typedef___u8 : cdecl :=
  decl "__u8" c_uchar.

Definition typedef___u16 : cdecl :=
  decl "__u16" c_ushort.

Definition typedef___s32 : cdecl :=
  decl "__s32" c_int.

Definition typedef___u32 : cdecl :=
  decl "__u32" c_uint.

Definition typedef___s64 : cdecl :=
  decl "__s64" c_llong.

Definition typedef___u64 : cdecl :=
  decl "__u64" c_ullong.

Definition typedef_u8 : cdecl :=
  decl "u8" (CNamed "__u8").

Definition typedef_u16 : cdecl :=
  decl "u16" (CNamed "__u16").

Definition typedef_s32 : cdecl :=
  decl "s32" (CNamed "__s32").

Definition typedef_u32 : cdecl :=
  decl "u32" (CNamed "__u32").

Definition typedef_s64 : cdecl :=
  decl "s64" (CNamed "__s64").

Definition typedef_u64 : cdecl :=
  decl "u64" (CNamed "__u64").

Definition typedef___kernel_ulong_t : cdecl :=
  decl "__kernel_ulong_t" c_ulong.

Definition typedef___kernel_uid32_t : cdecl :=
  decl "__kernel_uid32_t" c_uint.

Definition typedef___kernel_size_t : cdecl :=
  decl "__kernel_size_t" (CNamed "__kernel_ulong_t").

Definition typedef_bool : cdecl :=
  decl "bool" c_bool.

Definition typedef_uid_t : cdecl :=
  decl "uid_t" (CNamed "__kernel_uid32_t").

Definition typedef_size_t : cdecl :=
  decl "size_t" (CNamed "__kernel_size_t").

Definition typedef_gfp_t : cdecl :=
  decl "gfp_t" c_uint.

Definition typedef_atomic_t : cdecl :=
  decl "atomic_t" (CStruct false [
    fld "counter" c_int]).

Definition typedef_atomic64_t : cdecl :=
  decl "atomic64_t" (CStruct false [
    fld "counter" (CNamed "s64")]).

Definition struct_list_head : cdecl :=
  decl "struct list_head" (CStruct false [
    fld "next" (CPtr (CNamed "struct list_head"));
    fld "prev" (CPtr (CNamed "struct list_head"))]).

Definition struct_hlist_head : cdecl :=
  decl "struct hlist_head" (CStruct false [
    fld "first" (CPtr (CNamed "struct hlist_node"))]).

Definition struct_hlist_node : cdecl :=
  decl "struct hlist_node" (CStruct false [
    fld "next" (CPtr (CNamed "struct hlist_node"));
    fld "pprev" (CPtr (CPtr (CNamed "struct hlist_node")))]).

Definition struct_callback_head : cdecl :=
  decl "struct callback_head" (CStruct false [
    fld "next" (CPtr (CNamed "struct callback_head"));
    fld "func" (CPtr (CFun CVoid))]).

Definition struct_qspinlock : cdecl :=
  decl "struct qspinlock" (CStruct false [
    anon (CUnion false [
      fld "val" (CNamed "atomic_t");
      anon (CStruct false [
        fld "locked" (CNamed "u8");
        fld "pending" (CNamed "u8")]);
      anon (CStruct false [
        fld "locked_pending" (CNamed "u16");
        fld "tail" (CNamed "u16")])])]).

Definition typedef_arch_spinlock_t : cdecl :=
  decl "arch_spinlock_t" (CNamed "struct qspinlock").

Definition struct_raw_spinlock : cdecl :=
  decl "struct raw_spinlock" (CStruct false [
    fld "raw_lock" (CNamed "arch_spinlock_t")]).

Definition typedef_raw_spinlock_t : cdecl :=
  decl "raw_spinlock_t" (CNamed "struct raw_spinlock").

Definition typedef_atomic_long_t : cdecl :=
  decl "atomic_long_t" (CNamed "atomic64_t").

Definition struct_spinlock : cdecl :=
  decl "struct spinlock" (CStruct false [
    anon (CUnion false [
      fld "rlock" (CNamed "struct raw_spinlock")])]).

Definition typedef_spinlock_t : cdecl :=
  decl "spinlock_t" (CNamed "struct spinlock").

Definition struct_wait_queue_head : cdecl :=
  decl "struct wait_queue_head" (CStruct false [
    fld "lock" (CNamed "spinlock_t");
    fld "head" (CNamed "struct list_head")]).

Definition typedef_wait_queue_head_t : cdecl :=
  decl "wait_queue_head_t" (CNamed "struct wait_queue_head").

Definition struct_optimistic_spin_queue : cdecl :=
  decl "struct optimistic_spin_queue" (CStruct false [
    fld "tail" (CNamed "atomic_t")]).

Definition typedef_kuid_t : cdecl :=
  decl "kuid_t" (CStruct false [
    fld "val" (CNamed "uid_t")]).

Definition struct_refcount_struct : cdecl :=
  decl "struct refcount_struct" (CStruct false [
    fld "refs" (CNamed "atomic_t")]).

Definition typedef_refcount_t : cdecl :=
  decl "refcount_t" (CNamed "struct refcount_struct").

Definition typedef_work_func_t : cdecl :=
  decl "work_func_t" (CPtr (CFun CVoid)).

Definition struct_work_struct : cdecl :=
  decl "struct work_struct" (CStruct false [
    fld "data" (CNamed "atomic_long_t");
    fld "entry" (CNamed "struct list_head");
    fld "func" (CNamed "work_func_t")]).

Definition struct_rb_root : cdecl :=
  decl "struct rb_root" (CStruct false [
    fld "rb_node" (CPtr (CNamed "struct rb_node"))]).

Definition struct_rb_node : cdecl :=
  decl "struct rb_node" (CStruct false [
    fld "__rb_parent_color" c_ulong;
    fld "rb_right" (CPtr (CNamed "struct rb_node"));
    fld "rb_left" (CPtr (CNamed "struct rb_node"))]).

Definition struct_percpu_counter : cdecl :=
  decl "struct percpu_counter" (CStruct false [
    fld "lock" (CNamed "raw_spinlock_t");
    fld "count" (CNamed "s64");
    fld "list" (CNamed "struct list_head");
    fld "counters" (CPtr (CNamed "s32"))]).

Definition struct_lock_class_key : cdecl :=
  decl "struct lock_class_key" (CStruct false []).

Definition typedef___s16 : cdecl :=
  decl "__s16" c_short.

Definition typedef_s16 : cdecl :=
  decl "s16" (CNamed "__s16").

Definition typedef___kernel_long_t : cdecl :=
  decl "__kernel_long_t" c_long.

Definition typedef___kernel_pid_t : cdecl :=
  decl "__kernel_pid_t" c_int.

Definition typedef___kernel_ssize_t : cdecl :=
  decl "__kernel_ssize_t" (CNamed "__kernel_long_t").

Definition typedef___kernel_clockid_t : cdecl :=
  decl "__kernel_clockid_t" c_int.

Definition typedef_pid_t : cdecl :=
  decl "pid_t" (CNamed "__kernel_pid_t").

Definition typedef_clockid_t : cdecl :=
  decl "clockid_t" (CNamed "__kernel_clockid_t").

Definition typedef_ssize_t : cdecl :=
  decl "ssize_t" (CNamed "__kernel_ssize_t").

Definition typedef_ktime_t : cdecl :=
  decl "ktime_t" (CNamed "s64").

Definition struct_qrwlock : cdecl :=
  decl "struct qrwlock" (CStruct false [
    anon (CUnion false [
      fld "cnts" (CNamed "atomic_t");
      anon (CStruct false [
        fld "wlocked" (CNamed "u8");
        fld "__lstate" (CArray (CNamed "u8") 3)])]);
    fld "wait_lock" (CNamed "arch_spinlock_t")]).

Definition typedef_arch_rwlock_t : cdecl :=
  decl "arch_rwlock_t" (CNamed "struct qrwlock").

Definition struct_mutex : cdecl :=
  decl "struct mutex" (CStruct false [
    fld "owner" (CNamed "atomic_long_t");
    fld "wait_lock" (CNamed "raw_spinlock_t");
    fld "osq" (CNamed "struct optimistic_spin_queue");
    fld "wait_list" (CNamed "struct list_head")]).

Definition struct_latch_tree_node : cdecl :=
  decl "struct latch_tree_node" (CStruct false [
    fld "node" (CArray (CNamed "struct rb_node") 2)]).

Definition struct_thread_info : cdecl :=
  decl "struct thread_info" (CStruct false [
    fld "flags" c_ulong;
    fld "syscall_work" c_ulong;
    fld "status" (CNamed "u32");
    fld "cpu" (CNamed "u32")]).

Definition struct_llist_node : cdecl :=
  decl "struct llist_node" (CStruct false [
    fld "next" (CPtr (CNamed "struct llist_node"))]).

Definition struct___call_single_node : cdecl :=
  decl "struct __call_single_node" (CStruct false [
    fld "llist" (CNamed "struct llist_node");
    anon (CUnion false [
      fld "u_flags" c_uint;
      fld "a_flags" (CNamed "atomic_t")]);
    fld "src" (CNamed "u16");
    fld "dst" (CNamed "u16")]).

Definition struct_load_weight : cdecl :=
  decl "struct load_weight" (CStruct false [
    fld "weight" c_ulong;
    fld "inv_weight" (CNamed "u32")]).

Definition struct_sched_avg : cdecl :=
  decl "struct sched_avg" (CStruct false [
    fld "last_update_time" (CNamed "u64");
    fld "load_sum" (CNamed "u64");
    fld "runnable_sum" (CNamed "u64");
    fld "util_sum" (CNamed "u32");
    fld "period_contrib" (CNamed "u32");
    fld "load_avg" c_ulong;
    fld "runnable_avg" c_ulong;
    fld "util_avg" c_ulong;
    fld "util_est" c_uint]).

Definition struct_sched_entity : cdecl :=
  decl "struct sched_entity" (CStruct false [
    fld "load" (CNamed "struct load_weight");
    fld "run_node" (CNamed "struct rb_node");
    fld "deadline" (CNamed "u64");
    fld "min_vruntime" (CNamed "u64");
    fld "group_node" (CNamed "struct list_head");
    fld "on_rq" c_uint;
    fld "exec_start" (CNamed "u64");
    fld "sum_exec_runtime" (CNamed "u64");
    fld "prev_sum_exec_runtime" (CNamed "u64");
    fld "vruntime" (CNamed "u64");
    fld "vlag" (CNamed "s64");
    fld "slice" (CNamed "u64");
    fld "nr_migrations" (CNamed "u64");
    fld "depth" c_int;
    fld "parent" (CPtr (CNamed "struct sched_entity"));
    fld "cfs_rq" (CPtr (CNamed "struct cfs_rq"));
    fld "my_q" (CPtr (CNamed "struct cfs_rq"));
    fld "runnable_weight" c_ulong;
    pad c_long 64;
    pad c_long 64;
    fld "avg" (CNamed "struct sched_avg")]).

Definition struct_sched_rt_entity : cdecl :=
  decl "struct sched_rt_entity" (CStruct false [
    fld "run_list" (CNamed "struct list_head");
    fld "timeout" c_ulong;
    fld "watchdog_stamp" c_ulong;
    fld "time_slice" c_uint;
    fld "on_rq" c_ushort;
    fld "on_list" c_ushort;
    fld "back" (CPtr (CNamed "struct sched_rt_entity"))]).

Definition struct_timerqueue_node : cdecl :=
  decl "struct timerqueue_node" (CStruct false [
    fld "node" (CNamed "struct rb_node");
    fld "expires" (CNamed "ktime_t")]).

Definition struct_hrtimer : cdecl :=
  decl "struct hrtimer" (CStruct false [
    fld "node" (CNamed "struct timerqueue_node");
    fld "_softexpires" (CNamed "ktime_t");
    fld "function" (CPtr (CFun (CNamed "enum hrtimer_restart")));
    fld "base" (CPtr (CNamed "struct hrtimer_clock_base"));
    fld "state" (CNamed "u8");
    fld "is_rel" (CNamed "u8");
    fld "is_soft" (CNamed "u8");
    fld "is_hard" (CNamed "u8")]).

Definition typedef_dl_server_has_tasks_f : cdecl :=
  decl "dl_server_has_tasks_f" (CPtr (CFun (CNamed "bool"))).

Definition typedef_dl_server_pick_f : cdecl :=
  decl "dl_server_pick_f" (CPtr (CFun (CPtr (CNamed "struct task_struct")))).

Definition struct_sched_dl_entity : cdecl :=
  decl "struct sched_dl_entity" (CStruct false [
    fld "rb_node" (CNamed "struct rb_node");
    fld "dl_runtime" (CNamed "u64");
    fld "dl_deadline" (CNamed "u64");
    fld "dl_period" (CNamed "u64");
    fld "dl_bw" (CNamed "u64");
    fld "dl_density" (CNamed "u64");
    fld "runtime" (CNamed "s64");
    fld "deadline" (CNamed "u64");
    fld "flags" c_uint;
    bitf "dl_throttled" c_uint 1;
    bitf "dl_yielded" c_uint 1;
    bitf "dl_non_contending" c_uint 1;
    bitf "dl_overrun" c_uint 1;
    bitf "dl_server" c_uint 1;
    fld "dl_timer" (CNamed "struct hrtimer");
    fld "inactive_timer" (CNamed "struct hrtimer");
    fld "rq" (CPtr (CNamed "struct rq"));
    fld "server_has_tasks" (CNamed "dl_server_has_tasks_f");
    fld "server_pick" (CNamed "dl_server_pick_f");
    fld "pi_se" (CPtr (CNamed "struct sched_dl_entity"))]).

Definition struct_uclamp_se : cdecl :=
  decl "struct uclamp_se" (CStruct false [
    bitf "value" c_uint 11;
    bitf "bucket_id" c_uint 3;
    bitf "active" c_uint 1;
    bitf "user_defined" c_uint 1]).

Definition struct_sched_statistics : cdecl :=
  decl "struct sched_statistics" (CStruct false [
    fld "wait_start" (CNamed "u64");
    fld "wait_max" (CNamed "u64");
    fld "wait_count" (CNamed "u64");
    fld "wait_sum" (CNamed "u64");
    fld "iowait_count" (CNamed "u64");
    fld "iowait_sum" (CNamed "u64");
    fld "sleep_start" (CNamed "u64");
    fld "sleep_max" (CNamed "u64");
    fld "sum_sleep_runtime" (CNamed "s64");
    fld "block_start" (CNamed "u64");
    fld "block_max" (CNamed "u64");
    fld "sum_block_runtime" (CNamed "s64");
    fld "exec_max" (CNamed "s64");
    fld "slice_max" (CNamed "u64");
    fld "nr_migrations_cold" (CNamed "u64");
    fld "nr_failed_migrations_affine" (CNamed "u64");
    fld "nr_failed_migrations_running" (CNamed "u64");
    fld "nr_failed_migrations_hot" (CNamed "u64");
    fld "nr_forced_migrations" (CNamed "u64");
    fld "nr_wakeups" (CNamed "u64");
    fld "nr_wakeups_sync" (CNamed "u64");
    fld "nr_wakeups_migrate" (CNamed "u64");
    fld "nr_wakeups_local" (CNamed "u64");
    fld "nr_wakeups_remote" (CNamed "u64");
    fld "nr_wakeups_affine" (CNamed "u64");
    fld "nr_wakeups_affine_attempts" (CNamed "u64");
    fld "nr_wakeups_passive" (CNamed "u64");
    fld "nr_wakeups_idle" (CNamed "u64");
    fld "core_forceidle_sum" (CNamed "u64");
    pad c_long 64;
    pad c_long 64;
    pad c_long 64]).

Definition struct_cpumask : cdecl :=
  decl "struct cpumask" (CStruct false [
    fld "bits" (CArray c_ulong 128)]).

Definition typedef_cpumask_t : cdecl :=
  decl "cpumask_t" (CNamed "struct cpumask").

Definition union_rcu_special : cdecl :=
  decl "union rcu_special" (CUnion false [
    fld "b" (CStruct false [
      fld "blocked" (CNamed "u8");
      fld "need_qs" (CNamed "u8");
      fld "exp_hint" (CNamed "u8");
      fld "need_mb" (CNamed "u8")]);
    fld "s" (CNamed "u32")]).

Definition struct_sched_info : cdecl :=
  decl "struct sched_info" (CStruct false [
    fld "pcount" c_ulong;
    fld "run_delay" c_ullong;
    fld "last_arrival" c_ullong;
    fld "last_queued" c_ullong]).

Definition struct_plist_node : cdecl :=
  decl "struct plist_node" (CStruct false [
    fld "prio" c_int;
    fld "prio_list" (CNamed "struct list_head");
    fld "node_list" (CNamed "struct list_head")]).

Definition enum_timespec_type : cdecl :=
  decl "enum timespec_type" (CEnum 4 [
    ("TT_NONE", 0);
    ("TT_NATIVE", 1);
    ("TT_COMPAT", 2)]).

Definition struct_restart_block : cdecl :=
  decl "struct restart_block" (CStruct false [
    fld "arch_data" c_ulong;
    fld "fn" (CPtr (CFun c_long));
    anon (CUnion false [
      fld "futex" (CStruct false [
        fld "uaddr" (CPtr (CNamed "u32"));
        fld "val" (CNamed "u32");
        fld "flags" (CNamed "u32");
        fld "bitset" (CNamed "u32");
        fld "time" (CNamed "u64");
        fld "uaddr2" (CPtr (CNamed "u32"))]);
      fld "nanosleep" (CStruct false [
        fld "clockid" (CNamed "clockid_t");
        fld "type" (CNamed "enum timespec_type");
        anon (CUnion false [
          fld "rmtp" (CPtr (CNamed "struct __kernel_timespec"));
          fld "compat_rmtp" (CPtr (CNamed "struct old_timespec32"))]);
        fld "expires" (CNamed "u64")]);
      fld "poll" (CStruct false [
        fld "ufds" (CPtr (CNamed "struct pollfd"));
        fld "nfds" c_int;
        fld "has_timeout" c_int;
        fld "tv_sec" c_ulong;
        fld "tv_nsec" c_ulong])])]).

Definition struct_prev_cputime : cdecl :=
  decl "struct prev_cputime" (CStruct false [
    fld "utime" (CNamed "u64");
    fld "stime" (CNamed "u64");
    fld "lock" (CNamed "raw_spinlock_t")]).

Definition struct_seqcount : cdecl :=
  decl "struct seqcount" (CStruct false [
    fld "sequence" c_uint]).

Definition typedef_seqcount_t : cdecl :=
  decl "seqcount_t" (CNamed "struct seqcount").

Definition enum_vtime_state : cdecl :=
  decl "enum vtime_state" (CEnum 4 [
    ("VTIME_INACTIVE", 0);
    ("VTIME_IDLE", 1);
    ("VTIME_SYS", 2);
    ("VTIME_USER", 3);
    ("VTIME_GUEST", 4)]).

Definition struct_vtime : cdecl :=
  decl "struct vtime" (CStruct false [
    fld "seqcount" (CNamed "seqcount_t");
    fld "starttime" c_ullong;
    fld "state" (CNamed "enum vtime_state");
    fld "cpu" c_uint;
    fld "utime" (CNamed "u64");
    fld "stime" (CNamed "u64");
    fld "gtime" (CNamed "u64")]).

Definition struct_rb_root_cached : cdecl :=
  decl "struct rb_root_cached" (CStruct false [
    fld "rb_root" (CNamed "struct rb_root");
    fld "rb_leftmost" (CPtr (CNamed "struct rb_node"))]).

Definition struct_timerqueue_head : cdecl :=
  decl "struct timerqueue_head" (CStruct false [
    fld "rb_root" (CNamed "struct rb_root_cached")]).

Definition struct_posix_cputimer_base : cdecl :=
  decl "struct posix_cputimer_base" (CStruct false [
    fld "nextevt" (CNamed "u64");
    fld "tqhead" (CNamed "struct timerqueue_head")]).

Definition struct_posix_cputimers : cdecl :=
  decl "struct posix_cputimers" (CStruct false [
    fld "bases" (CArray (CNamed "struct posix_cputimer_base") 3);
    fld "timers_active" c_uint;
    fld "expiry_active" c_uint]).

Definition struct_posix_cputimers_work : cdecl :=
  decl "struct posix_cputimers_work" (CStruct false [
    fld "work" (CNamed "struct callback_head");
    fld "mutex" (CNamed "struct mutex");
    fld "scheduled" c_uint]).

Definition struct_sysv_sem : cdecl :=
  decl "struct sysv_sem" (CStruct false [
    fld "undo_list" (CPtr (CNamed "struct sem_undo_list"))]).

Definition struct_sysv_shm : cdecl :=
  decl "struct sysv_shm" (CStruct false [
    fld "shm_clist" (CNamed "struct list_head")]).

Definition typedef_sigset_t : cdecl :=
  decl "sigset_t" (CStruct false [
    fld "sig" (CArray c_ulong 1)]).

Definition struct_sigpending : cdecl :=
  decl "struct sigpending" (CStruct false [
    fld "list" (CNamed "struct list_head");
    fld "signal" (CNamed "sigset_t")]).

Definition struct_seccomp : cdecl :=
  decl "struct seccomp" (CStruct false [
    fld "mode" c_int;
    fld "filter_count" (CNamed "atomic_t");
    fld "filter" (CPtr (CNamed "struct seccomp_filter"))]).

Definition struct_syscall_user_dispatch : cdecl :=
  decl "struct syscall_user_dispatch" (CStruct false [
    fld "selector" (CPtr c_char);
    fld "offset" c_ulong;
    fld "len" c_ulong;
    fld "on_dispatch" (CNamed "bool")]).

Definition struct_wake_q_node : cdecl :=
  decl "struct wake_q_node" (CStruct false [
    fld "next" (CPtr (CNamed "struct wake_q_node"))]).

Definition struct_task_io_accounting : cdecl :=
  decl "struct task_io_accounting" (CStruct false [
    fld "rchar" (CNamed "u64");
    fld "wchar" (CNamed "u64");
    fld "syscr" (CNamed "u64");
    fld "syscw" (CNamed "u64");
    fld "read_bytes" (CNamed "u64");
    fld "write_bytes" (CNamed "u64");
    fld "cancelled_write_bytes" (CNamed "u64")]).

Definition typedef_nodemask_t : cdecl :=
  decl "nodemask_t" (CStruct false [
    fld "bits" (CArray c_ulong 16)]).

Definition struct_seqcount_spinlock : cdecl :=
  decl "struct seqcount_spinlock" (CStruct false [
    fld "seqcount" (CNamed "seqcount_t")]).

Definition typedef_seqcount_spinlock_t : cdecl :=
  decl "seqcount_spinlock_t" (CNamed "struct seqcount_spinlock").

Definition struct_arch_tlbflush_unmap_batch : cdecl :=
  decl "struct arch_tlbflush_unmap_batch" (CStruct false [
    fld "cpumask" (CNamed "struct cpumask")]).

Definition struct_tlbflush_unmap_batch : cdecl :=
  decl "struct tlbflush_unmap_batch" (CStruct false [
    fld "arch" (CNamed "struct arch_tlbflush_unmap_batch");
    fld "flush_required" (CNamed "bool");
    fld "writable" (CNamed "bool")]).

Definition struct_page_frag : cdecl :=
  decl "struct page_frag" (CStruct false [
    fld "page" (CPtr (CNamed "struct page"));
    fld "offset" (CNamed "__u32");
    fld "size" (CNamed "__u32")]).

Definition struct_latency_record : cdecl :=
  decl "struct latency_record" (CStruct false [
    fld "backtrace" (CArray c_ulong 12);
    fld "count" c_uint;
    fld "time" c_ulong;
    fld "max" c_ulong]).

Definition struct_kmap_ctrl : cdecl :=
  decl "struct kmap_ctrl" (CStruct false []).

Definition struct_timer_list : cdecl :=
  decl "struct timer_list" (CStruct false [
    fld "entry" (CNamed "struct hlist_node");
    fld "expires" c_ulong;
    fld "function" (CPtr (CFun CVoid));
    fld "flags" (CNamed "u32")]).

Definition struct_llist_head : cdecl :=
  decl "struct llist_head" (CStruct false [
    fld "first" (CPtr (CNamed "struct llist_node"))]).

Definition struct_da_monitor : cdecl :=
  decl "struct da_monitor" (CStruct false [
    fld "monitoring" (CNamed "bool");
    fld "curr_state" c_uint]).

Definition union_rv_task_monitor : cdecl :=
  decl "union rv_task_monitor" (CUnion false [
    fld "da_mon" (CNamed "struct da_monitor")]).

Definition struct_desc_struct : cdecl :=
  decl "struct desc_struct" (CStruct false [
    fld "limit0" (CNamed "u16");
    fld "base0" (CNamed "u16");
    bitf "base1" (CNamed "u16") 8;
    bitf "type" (CNamed "u16") 4;
    bitf "s" (CNamed "u16") 1;
    bitf "dpl" (CNamed "u16") 2;
    bitf "p" (CNamed "u16") 1;
    bitf "limit1" (CNamed "u16") 4;
    bitf "avl" (CNamed "u16") 1;
    bitf "l" (CNamed "u16") 1;
    bitf "d" (CNamed "u16") 1;
    bitf "g" (CNamed "u16") 1;
    bitf "base2" (CNamed "u16") 8]).

Definition struct_thread_shstk : cdecl :=
  decl "struct thread_shstk" (CStruct false [
    fld "base" (CNamed "u64");
    fld "size" (CNamed "u64")]).

Definition struct_fpu_state_perm : cdecl :=
  decl "struct fpu_state_perm" (CStruct false [
    fld "__state_perm" (CNamed "u64");
    fld "__state_size" c_uint;
    fld "__user_state_size" c_uint]).

Definition struct_fregs_state : cdecl :=
  decl "struct fregs_state" (CStruct false [
    fld "cwd" (CNamed "u32");
    fld "swd" (CNamed "u32");
    fld "twd" (CNamed "u32");
    fld "fip" (CNamed "u32");
    fld "fcs" (CNamed "u32");
    fld "foo" (CNamed "u32");
    fld "fos" (CNamed "u32");
    fld "st_space" (CArray (CNamed "u32") 20);
    fld "status" (CNamed "u32")]).

Definition struct_fxregs_state : cdecl :=
  decl "struct fxregs_state" (CStruct false [
    fld "cwd" (CNamed "u16");
    fld "swd" (CNamed "u16");
    fld "twd" (CNamed "u16");
    fld "fop" (CNamed "u16");
    anon (CUnion false [
      anon (CStruct false [
        fld "rip" (CNamed "u64");
        fld "rdp" (CNamed "u64")]);
      anon (CStruct false [
        fld "fip" (CNamed "u32");
        fld "fcs" (CNamed "u32");
        fld "foo" (CNamed "u32");
        fld "fos" (CNamed "u32")])]);
    fld "mxcsr" (CNamed "u32");
    fld "mxcsr_mask" (CNamed "u32");
    fld "st_space" (CArray (CNamed "u32") 32);
    fld "xmm_space" (CArray (CNamed "u32") 64);
    fld "padding" (CArray (CNamed "u32") 12);
    anon (CUnion false [
      fld "padding1" (CArray (CNamed "u32") 12);
      fld "sw_reserved" (CArray (CNamed "u32") 12)])]).

Definition struct_swregs_state : cdecl :=
  decl "struct swregs_state" (CStruct false [
    fld "cwd" (CNamed "u32");
    fld "swd" (CNamed "u32");
    fld "twd" (CNamed "u32");
    fld "fip" (CNamed "u32");
    fld "fcs" (CNamed "u32");
    fld "foo" (CNamed "u32");
    fld "fos" (CNamed "u32");
    fld "st_space" (CArray (CNamed "u32") 20);
    fld "ftop" (CNamed "u8");
    fld "changed" (CNamed "u8");
    fld "lookahead" (CNamed "u8");
    fld "no_update" (CNamed "u8");
    fld "rm" (CNamed "u8");
    fld "alimit" (CNamed "u8");
    fld "info" (CPtr (CNamed "struct math_emu_info"));
    fld "entry_eip" (CNamed "u32")]).

Definition struct_xstate_header : cdecl :=
  decl "struct xstate_header" (CStruct false [
    fld "xfeatures" (CNamed "u64");
    fld "xcomp_bv" (CNamed "u64");
    fld "reserved" (CArray (CNamed "u64") 6)]).

Definition struct_xregs_state : cdecl :=
  decl "struct xregs_state" (CStruct false [
    fld "i387" (CNamed "struct fxregs_state");
    fld "header" (CNamed "struct xstate_header");
    fld "extended_state_area" (CArray (CNamed "u8") 0)]).

Definition union_fpregs_state : cdecl :=
  decl "union fpregs_state" (CUnion false [
    fld "fsave" (CNamed "struct fregs_state");
    fld "fxsave" (CNamed "struct fxregs_state");
    fld "soft" (CNamed "struct swregs_state");
    fld "xsave" (CNamed "struct xregs_state");
    fld "__padding" (CArray (CNamed "u8") 4096)]).

Definition struct_fpstate : cdecl :=
  decl "struct fpstate" (CStruct false [
    fld "size" c_uint;
    fld "user_size" c_uint;
    fld "xfeatures" (CNamed "u64");
    fld "user_xfeatures" (CNamed "u64");
    fld "xfd" (CNamed "u64");
    bitf "is_valloc" c_uint 1;
    bitf "is_guest" c_uint 1;
    bitf "is_confidential" c_uint 1;
    bitf "in_use" c_uint 1;
    pad c_long 64;
    pad c_long 64;
    pad c_long 64;
    fld "regs" (CNamed "union fpregs_state")]).

Definition struct_fpu : cdecl :=
  decl "struct fpu" (CStruct false [
    fld "last_cpu" c_uint;
    fld "avx512_timestamp" c_ulong;
    fld "fpstate" (CPtr (CNamed "struct fpstate"));
    fld "__task_fpstate" (CPtr (CNamed "struct fpstate"));
    fld "perm" (CNamed "struct fpu_state_perm");
    fld "guest_perm" (CNamed "struct fpu_state_perm");
    fld "__fpstate" (CNamed "struct fpstate")]).

Definition struct_thread_struct : cdecl :=
  decl "struct thread_struct" (CStruct false [
    fld "tls_array" (CArray (CNamed "struct desc_struct") 3);
    fld "sp" c_ulong;
    fld "es" c_ushort;
    fld "ds" c_ushort;
    fld "fsindex" c_ushort;
    fld "gsindex" c_ushort;
    fld "fsbase" c_ulong;
    fld "gsbase" c_ulong;
    fld "ptrace_bps" (CArray (CPtr (CNamed "struct perf_event")) 4);
    fld "virtual_dr6" c_ulong;
    fld "ptrace_dr7" c_ulong;
    fld "cr2" c_ulong;
    fld "trap_nr" c_ulong;
    fld "error_code" c_ulong;
    fld "io_bitmap" (CPtr (CNamed "struct io_bitmap"));
    fld "iopl_emul" c_ulong;
    bitf "iopl_warn" c_uint 1;
    fld "pkru" (CNamed "u32");
    fld "features" c_ulong;
    fld "features_locked" c_ulong;
    fld "shstk" (CNamed "struct thread_shstk");
    pad c_long 64;
    fld "fpu" (CNamed "struct fpu")]).

Definition struct_task_struct_members_1 : list member :=
  [
    fld "thread_info" (CNamed "struct thread_info");
    fld "__state" c_uint;
    fld "saved_state" c_uint;
    fld "stack" (CPtr CVoid);
    fld "usage" (CNamed "refcount_t");
    fld "flags" c_uint;
    fld "ptrace" c_uint;
    fld "on_cpu" c_int;
    fld "wake_entry" (CNamed "struct __call_single_node");
    fld "wakee_flips" c_uint;
    fld "wakee_flip_decay_ts" c_ulong;
    fld "last_wakee" (CPtr (CNamed "struct task_struct"));
    fld "recent_used_cpu" c_int;
    fld "wake_cpu" c_int;
    fld "on_rq" c_int;
    fld "prio" c_int;
    fld "static_prio" c_int;
    fld "normal_prio" c_int;
    fld "rt_priority" c_uint;
    fld "se" (CNamed "struct sched_entity");
    fld "rt" (CNamed "struct sched_rt_entity");
    fld "dl" (CNamed "struct sched_dl_entity");
    fld "dl_server" (CPtr (CNamed "struct sched_dl_entity"));
    fld "sched_class" (CPtr (CNamed "struct sched_class"));
    fld "core_node" (CNamed "struct rb_node");
    fld "core_cookie" c_ulong;
    fld "core_occupation" c_uint;
    fld "sched_task_group" (CPtr (CNamed "struct task_group"));
    fld "uclamp_req" (CArray (CNamed "struct uclamp_se") 2);
    fld "uclamp" (CArray (CNamed "struct uclamp_se") 2);
    pad c_long 64;
    fld "stats" (CNamed "struct sched_statistics");
    fld "preempt_notifiers" (CNamed "struct hlist_head");
    fld "btrace_seq" c_uint;
    fld "policy" c_uint;
    fld "nr_cpus_allowed" c_int;
    fld "cpus_ptr" (CPtr (CNamed "cpumask_t"));
    fld "user_cpus_ptr" (CPtr (CNamed "cpumask_t"));
    fld "cpus_mask" (CNamed "cpumask_t");
    fld "migration_pending" (CPtr CVoid);
    fld "migration_disabled" c_ushort;
    fld "migration_flags" c_ushort;
    fld "rcu_read_lock_nesting" c_int;
    fld "rcu_read_unlock_special" (CNamed "union rcu_special");
    fld "rcu_node_entry" (CNamed "struct list_head");
    fld "rcu_blocked_node" (CPtr (CNamed "struct rcu_node"));
    fld "rcu_tasks_nvcsw" c_ulong;
    fld "rcu_tasks_holdout" (CNamed "u8");
    fld "rcu_tasks_idx" (CNamed "u8");
    fld "rcu_tasks_idle_cpu" c_int;
    fld "rcu_tasks_holdout_list" (CNamed "struct list_head");
    fld "rcu_tasks_exit_cpu" c_int;
    fld "rcu_tasks_exit_list" (CNamed "struct list_head");
    fld "trc_reader_nesting" c_int;
    fld "trc_ipi_to_cpu" c_int;
    fld "trc_reader_special" (CNamed "union rcu_special");
    fld "trc_holdout_list" (CNamed "struct list_head");
    fld "trc_blkd_node" (CNamed "struct list_head");
    fld "trc_blkd_cpu" c_int;
    fld "sched_info" (CNamed "struct sched_info");
    fld "tasks" (CNamed "struct list_head");
    fld "pushable_tasks" (CNamed "struct plist_node");
    fld "pushable_dl_tasks" (CNamed "struct rb_node");
    fld "mm" (CPtr (CNamed "struct mm_struct"));
    fld "active_mm" (CPtr (CNamed "struct mm_struct"));
    fld "faults_disabled_mapping" (CPtr (CNamed "struct address_space"));
    fld "exit_state" c_int;
    fld "exit_code" c_int;
    fld "exit_signal" c_int;
    fld "pdeath_signal" c_int;
    fld "jobctl" c_ulong;
    fld "personality" c_uint;
    bitf "sched_reset_on_fork" c_uint 1;
    bitf "sched_contributes_to_load" c_uint 1;
    bitf "sched_migrated" c_uint 1;
    bitf "sched_task_hot" c_uint 1;
    pad c_long 28;
    bitf "sched_remote_wakeup" c_uint 1;
    bitf "sched_rt_mutex" c_uint 1;
    bitf "in_execve" c_uint 1;
    bitf "in_iowait" c_uint 1;
    bitf "restore_sigmask" c_uint 1;
    bitf "in_user_fault" c_uint 1;
    bitf "in_lru_fault" c_uint 1;
    bitf "no_cgroup_migration" c_uint 1;
    bitf "frozen" c_uint 1;
    bitf "use_memdelay" c_uint 1;
    bitf "in_memstall" c_uint 1;
    bitf "in_eventfd" c_uint 1;
    bitf "pasid_activated" c_uint 1;
    bitf "reported_split_lock" c_uint 1;
    bitf "in_thrashing" c_uint 1;
    fld "atomic_flags" c_ulong;
    fld "restart_block" (CNamed "struct restart_block");
    fld "pid" (CNamed "pid_t");
    fld "tgid" (CNamed "pid_t");
    fld "stack_canary" c_ulong;
    fld "real_parent" (CPtr (CNamed "struct task_struct"));
    fld "parent" (CPtr (CNamed "struct task_struct"));
    fld "children" (CNamed "struct list_head");
    fld "sibling" (CNamed "struct list_head");
    fld "group_leader" (CPtr (CNamed "struct task_struct"));
    fld "ptraced" (CNamed "struct list_head");
    fld "ptrace_entry" (CNamed "struct list_head");
    fld "thread_pid" (CPtr (CNamed "struct pid"));
    fld "pid_links" (CArray (CNamed "struct hlist_node") 4);
    fld "thread_node" (CNamed "struct list_head");
    fld "vfork_done" (CPtr (CNamed "struct completion"));
    fld "set_child_tid" (CPtr c_int);
    fld "clear_child_tid" (CPtr c_int)].

Definition struct_task_struct_members_2 : list member :=
  [
    fld "worker_private" (CPtr CVoid);
    fld "utime" (CNamed "u64");
    fld "stime" (CNamed "u64");
    fld "gtime" (CNamed "u64");
    fld "prev_cputime" (CNamed "struct prev_cputime");
    fld "vtime" (CNamed "struct vtime");
    fld "tick_dep_mask" (CNamed "atomic_t");
    fld "nvcsw" c_ulong;
    fld "nivcsw" c_ulong;
    fld "start_time" (CNamed "u64");
    fld "start_boottime" (CNamed "u64");
    fld "min_flt" c_ulong;
    fld "maj_flt" c_ulong;
    fld "posix_cputimers" (CNamed "struct posix_cputimers");
    fld "posix_cputimers_work" (CNamed "struct posix_cputimers_work");
    fld "ptracer_cred" (CPtr (CNamed "struct cred"));
    fld "real_cred" (CPtr (CNamed "struct cred"));
    fld "cred" (CPtr (CNamed "struct cred"));
    fld "cached_requested_key" (CPtr (CNamed "struct key"));
    fld "comm" (CArray c_char 16);
    fld "nameidata" (CPtr (CNamed "struct nameidata"));
    fld "sysvsem" (CNamed "struct sysv_sem");
    fld "sysvshm" (CNamed "struct sysv_shm");
    fld "last_switch_count" c_ulong;
    fld "last_switch_time" c_ulong;
    fld "fs" (CPtr (CNamed "struct fs_struct"));
    fld "files" (CPtr (CNamed "struct files_struct"));
    fld "io_uring" (CPtr (CNamed "struct io_uring_task"));
    fld "nsproxy" (CPtr (CNamed "struct nsproxy"));
    fld "signal" (CPtr (CNamed "struct signal_struct"));
    fld "sighand" (CPtr (CNamed "struct sighand_struct"));
    fld "blocked" (CNamed "sigset_t");
    fld "real_blocked" (CNamed "sigset_t");
    fld "saved_sigmask" (CNamed "sigset_t");
    fld "pending" (CNamed "struct sigpending");
    fld "sas_ss_sp" c_ulong;
    fld "sas_ss_size" (CNamed "size_t");
    fld "sas_ss_flags" c_uint;
    fld "task_works" (CPtr (CNamed "struct callback_head"));
    fld "audit_context" (CPtr (CNamed "struct audit_context"));
    fld "loginuid" (CNamed "kuid_t");
    fld "sessionid" c_uint;
    fld "seccomp" (CNamed "struct seccomp");
    fld "syscall_dispatch" (CNamed "struct syscall_user_dispatch");
    fld "parent_exec_id" (CNamed "u64");
    fld "self_exec_id" (CNamed "u64");
    fld "alloc_lock" (CNamed "spinlock_t");
    fld "pi_lock" (CNamed "raw_spinlock_t");
    fld "wake_q" (CNamed "struct wake_q_node");
    fld "pi_waiters" (CNamed "struct rb_root_cached");
    fld "pi_top_task" (CPtr (CNamed "struct task_struct"));
    fld "pi_blocked_on" (CPtr (CNamed "struct rt_mutex_waiter"));
    fld "in_ubsan" c_uint;
    fld "journal_info" (CPtr CVoid);
    fld "bio_list" (CPtr (CNamed "struct bio_list"));
    fld "plug" (CPtr (CNamed "struct blk_plug"));
    fld "reclaim_state" (CPtr (CNamed "struct reclaim_state"));
    fld "io_context" (CPtr (CNamed "struct io_context"));
    fld "capture_control" (CPtr (CNamed "struct capture_control"));
    fld "ptrace_message" c_ulong;
    fld "last_siginfo" (CPtr (CNamed "kernel_siginfo_t"));
    fld "ioac" (CNamed "struct task_io_accounting");
    fld "psi_flags" c_uint;
    fld "acct_rss_mem1" (CNamed "u64");
    fld "acct_vm_mem1" (CNamed "u64");
    fld "acct_timexpd" (CNamed "u64");
    fld "mems_allowed" (CNamed "nodemask_t");
    fld "mems_allowed_seq" (CNamed "seqcount_spinlock_t");
    fld "cpuset_mem_spread_rotor" c_int;
    fld "cpuset_slab_spread_rotor" c_int;
    fld "cgroups" (CPtr (CNamed "struct css_set"));
    fld "cg_list" (CNamed "struct list_head");
    fld "closid" (CNamed "u32");
    fld "rmid" (CNamed "u32");
    fld "robust_list" (CPtr (CNamed "struct robust_list_head"));
    fld "compat_robust_list" (CPtr (CNamed "struct compat_robust_list_head"));
    fld "pi_state_list" (CNamed "struct list_head");
    fld "pi_state_cache" (CPtr (CNamed "struct futex_pi_state"));
    fld "futex_exit_mutex" (CNamed "struct mutex");
    fld "futex_state" c_uint;
    fld "perf_event_ctxp" (CPtr (CNamed "struct perf_event_context"));
    fld "perf_event_mutex" (CNamed "struct mutex");
    fld "perf_event_list" (CNamed "struct list_head");
    fld "mempolicy" (CPtr (CNamed "struct mempolicy"));
    fld "il_prev" c_short;
    fld "pref_node_fork" c_short;
    fld "numa_scan_seq" c_int;
    fld "numa_scan_period" c_uint;
    fld "numa_scan_period_max" c_uint;
    fld "numa_preferred_nid" c_int;
    fld "numa_migrate_retry" c_ulong;
    fld "node_stamp" (CNamed "u64");
    fld "last_task_numa_placement" (CNamed "u64");
    fld "last_sum_exec_runtime" (CNamed "u64");
    fld "numa_work" (CNamed "struct callback_head");
    fld "numa_group" (CPtr (CNamed "struct numa_group"));
    fld "numa_faults" (CPtr c_ulong);
    fld "total_numa_faults" c_ulong;
    fld "numa_faults_locality" (CArray c_ulong 3);
    fld "numa_pages_migrated" c_ulong;
    fld "rseq" (CPtr (CNamed "struct rseq"));
    fld "rseq_len" (CNamed "u32");
    fld "rseq_sig" (CNamed "u32");
    fld "rseq_event_mask" c_ulong;
    fld "mm_cid" c_int;
    fld "last_mm_cid" c_int;
    fld "migrate_from_cpu" c_int;
    fld "mm_cid_active" c_int;
    fld "cid_work" (CNamed "struct callback_head");
    fld "tlb_ubc" (CNamed "struct tlbflush_unmap_batch")].

Definition struct_task_struct_members_3 : list member :=
  [
    fld "splice_pipe" (CPtr (CNamed "struct pipe_inode_info"));
    fld "task_frag" (CNamed "struct page_frag");
    fld "delays" (CPtr (CNamed "struct task_delay_info"));
    fld "nr_dirtied" c_int;
    fld "nr_dirtied_pause" c_int;
    fld "dirty_paused_when" c_ulong;
    fld "latency_record_count" c_int;
    fld "latency_record" (CArray (CNamed "struct latency_record") 32);
    fld "timer_slack_ns" (CNamed "u64");
    fld "default_timer_slack_ns" (CNamed "u64");
    fld "curr_ret_stack" c_int;
    fld "curr_ret_depth" c_int;
    fld "ret_stack" (CPtr (CNamed "struct ftrace_ret_stack"));
    fld "ftrace_timestamp" c_ullong;
    fld "trace_overrun" (CNamed "atomic_t");
    fld "tracing_graph_pause" (CNamed "atomic_t");
    fld "trace_recursion" c_ulong;
    fld "memcg_in_oom" (CPtr (CNamed "struct mem_cgroup"));
    fld "memcg_oom_gfp_mask" (CNamed "gfp_t");
    fld "memcg_oom_order" c_int;
    fld "memcg_nr_pages_over_high" c_uint;
    fld "active_memcg" (CPtr (CNamed "struct mem_cgroup"));
    fld "objcg" (CPtr (CNamed "struct obj_cgroup"));
    fld "throttle_disk" (CPtr (CNamed "struct gendisk"));
    fld "utask" (CPtr (CNamed "struct uprobe_task"));
    fld "sequential_io" c_uint;
    fld "sequential_io_avg" c_uint;
    fld "kmap_ctrl" (CNamed "struct kmap_ctrl");
    fld "rcu" (CNamed "struct callback_head");
    fld "rcu_users" (CNamed "refcount_t");
    fld "pagefault_disabled" c_int;
    fld "oom_reaper_list" (CPtr (CNamed "struct task_struct"));
    fld "oom_reaper_timer" (CNamed "struct timer_list");
    fld "stack_vm_area" (CPtr (CNamed "struct vm_struct"));
    fld "stack_refcount" (CNamed "refcount_t");
    fld "patch_state" c_int;
    fld "security" (CPtr CVoid);
    fld "bpf_storage" (CPtr (CNamed "struct bpf_local_storage"));
    fld "bpf_ctx" (CPtr (CNamed "struct bpf_run_ctx"));
    fld "mce_vaddr" (CPtr CVoid);
    fld "mce_kflags" (CNamed "__u64");
    fld "mce_addr" (CNamed "u64");
    bitf "mce_ripv" (CNamed "__u64") 1;
    bitf "mce_whole_page" (CNamed "__u64") 1;
    bitf "__mce_reserved" (CNamed "__u64") 62;
    fld "mce_kill_me" (CNamed "struct callback_head");
    fld "mce_count" c_int;
    fld "kretprobe_instances" (CNamed "struct llist_head");
    fld "rethooks" (CNamed "struct llist_head");
    fld "l1d_flush_kill" (CNamed "struct callback_head");
    fld "rv" (CArray (CNamed "union rv_task_monitor") 1);
    fld "user_event_mm" (CPtr (CNamed "struct user_event_mm"));
    fld "thread" (CNamed "struct thread_struct")].

Definition struct_task_struct : cdecl :=
  decl "struct task_struct" (CStruct false (struct_task_struct_members_1 ++ struct_task_struct_members_2 ++ struct_task_struct_members_3)).

Definition struct_fred_cs : cdecl :=
  decl "struct fred_cs" (CStruct false [
    bitf "cs" (CNamed "u64") 16;
    bitf "sl" (CNamed "u64") 2;
    bitf "wfe" (CNamed "u64") 1]).

Definition struct_fred_ss : cdecl :=
  decl "struct fred_ss" (CStruct false [
    bitf "ss" (CNamed "u64") 16;
    bitf "sti" (CNamed "u64") 1;
    bitf "swevent" (CNamed "u64") 1;
    bitf "nmi" (CNamed "u64") 1;
    pad c_int 13;
    bitf "vector" (CNamed "u64") 8;
    pad c_short 8;
    bitf "type" (CNamed "u64") 4;
    pad c_char 4;
    bitf "enclave" (CNamed "u64") 1;
    bitf "lm" (CNamed "u64") 1;
    bitf "nested" (CNamed "u64") 1;
    pad c_char 1;
    bitf "insnlen" (CNamed "u64") 4]).

Definition struct_pt_regs : cdecl :=
  decl "struct pt_regs" (CStruct false [
    fld "r15" c_ulong;
    fld "r14" c_ulong;
    fld "r13" c_ulong;
    fld "r12" c_ulong;
    fld "bp" c_ulong;
    fld "bx" c_ulong;
    fld "r11" c_ulong;
    fld "r10" c_ulong;
    fld "r9" c_ulong;
    fld "r8" c_ulong;
    fld "ax" c_ulong;
    fld "cx" c_ulong;
    fld "dx" c_ulong;
    fld "si" c_ulong;
    fld "di" c_ulong;
    fld "orig_ax" c_ulong;
    fld "ip" c_ulong;
    anon (CUnion false [
      fld "cs" (CNamed "u16");
      fld "csx" (CNamed "u64");
      fld "fred_cs" (CNamed "struct fred_cs")]);
    fld "flags" c_ulong;
    fld "sp" c_ulong;
    anon (CUnion false [
      fld "ss" (CNamed "u16");
      fld "ssx" (CNamed "u64");
      fld "fred_ss" (CNamed "struct fred_ss")])]).

Definition struct_perf_event_attr : cdecl :=
  decl "struct perf_event_attr" (CStruct false [
    fld "type" (CNamed "__u32");
    fld "size" (CNamed "__u32");
    fld "config" (CNamed "__u64");
    anon (CUnion false [
      fld "sample_period" (CNamed "__u64");
      fld "sample_freq" (CNamed "__u64")]);
    fld "sample_type" (CNamed "__u64");
    fld "read_format" (CNamed "__u64");
    bitf "disabled" (CNamed "__u64") 1;
    bitf "inherit" (CNamed "__u64") 1;
    bitf "pinned" (CNamed "__u64") 1;
    bitf "exclusive" (CNamed "__u64") 1;
    bitf "exclude_user" (CNamed "__u64") 1;
    bitf "exclude_kernel" (CNamed "__u64") 1;
    bitf "exclude_hv" (CNamed "__u64") 1;
    bitf "exclude_idle" (CNamed "__u64") 1;
    bitf "mmap" (CNamed "__u64") 1;
    bitf "comm" (CNamed "__u64") 1;
    bitf "freq" (CNamed "__u64") 1;
    bitf "inherit_stat" (CNamed "__u64") 1;
    bitf "enable_on_exec" (CNamed "__u64") 1;
    bitf "task" (CNamed "__u64") 1;
    bitf "watermark" (CNamed "__u64") 1;
    bitf "precise_ip" (CNamed "__u64") 2;
    bitf "mmap_data" (CNamed "__u64") 1;
    bitf "sample_id_all" (CNamed "__u64") 1;
    bitf "exclude_host" (CNamed "__u64") 1;
    bitf "exclude_guest" (CNamed "__u64") 1;
    bitf "exclude_callchain_kernel" (CNamed "__u64") 1;
    bitf "exclude_callchain_user" (CNamed "__u64") 1;
    bitf "mmap2" (CNamed "__u64") 1;
    bitf "comm_exec" (CNamed "__u64") 1;
    bitf "use_clockid" (CNamed "__u64") 1;
    bitf "context_switch" (CNamed "__u64") 1;
    bitf "write_backward" (CNamed "__u64") 1;
    bitf "namespaces" (CNamed "__u64") 1;
    bitf "ksymbol" (CNamed "__u64") 1;
    bitf "bpf_event" (CNamed "__u64") 1;
    bitf "aux_output" (CNamed "__u64") 1;
    bitf "cgroup" (CNamed "__u64") 1;
    bitf "text_poke" (CNamed "__u64") 1;
    bitf "build_id" (CNamed "__u64") 1;
    bitf "inherit_thread" (CNamed "__u64") 1;
    bitf "remove_on_exec" (CNamed "__u64") 1;
    bitf "sigtrap" (CNamed "__u64") 1;
    bitf "__reserved_1" (CNamed "__u64") 26;
    anon (CUnion false [
      fld "wakeup_events" (CNamed "__u32");
      fld "wakeup_watermark" (CNamed "__u32")]);
    fld "bp_type" (CNamed "__u32");
    anon (CUnion false [
      fld "bp_addr" (CNamed "__u64");
      fld "kprobe_func" (CNamed "__u64");
      fld "uprobe_path" (CNamed "__u64");
      fld "config1" (CNamed "__u64")]);
    anon (CUnion false [
      fld "bp_len" (CNamed "__u64");
      fld "kprobe_addr" (CNamed "__u64");
      fld "probe_offset" (CNamed "__u64");
      fld "config2" (CNamed "__u64")]);
    fld "branch_sample_type" (CNamed "__u64");
    fld "sample_regs_user" (CNamed "__u64");
    fld "sample_stack_user" (CNamed "__u32");
    fld "clockid" (CNamed "__s32");
    fld "sample_regs_intr" (CNamed "__u64");
    fld "aux_watermark" (CNamed "__u32");
    fld "sample_max_stack" (CNamed "__u16");
    fld "__reserved_2" (CNamed "__u16");
    fld "aux_sample_size" (CNamed "__u32");
    fld "__reserved_3" (CNamed "__u32");
    fld "sig_data" (CNamed "__u64");
    fld "config3" (CNamed "__u64")]).

Definition struct_rcuwait : cdecl :=
  decl "struct rcuwait" (CStruct false [
    fld "task" (CPtr (CNamed "struct task_struct"))]).

Definition struct_irq_work : cdecl :=
  decl "struct irq_work" (CStruct false [
    fld "node" (CNamed "struct __call_single_node");
    fld "func" (CPtr (CFun CVoid));
    fld "irqwait" (CNamed "struct rcuwait")]).

Definition typedef_ftrace_func_t : cdecl :=
  decl "ftrace_func_t" (CPtr (CFun CVoid)).

Definition struct_ftrace_ops_hash : cdecl :=
  decl "struct ftrace_ops_hash" (CStruct false [
    fld "notrace_hash" (CPtr (CNamed "struct ftrace_hash"));
    fld "filter_hash" (CPtr (CNamed "struct ftrace_hash"));
    fld "regex_lock" (CNamed "struct mutex")]).

Definition typedef_ftrace_ops_func_t : cdecl :=
  decl "ftrace_ops_func_t" (CPtr (CFun c_int)).

Definition struct_ftrace_ops : cdecl :=
  decl "struct ftrace_ops" (CStruct false [
    fld "func" (CNamed "ftrace_func_t");
    fld "next" (CPtr (CNamed "struct ftrace_ops"));
    fld "flags" c_ulong;
    fld "private" (CPtr CVoid);
    fld "saved_func" (CNamed "ftrace_func_t");
    fld "local_hash" (CNamed "struct ftrace_ops_hash");
    fld "func_hash" (CPtr (CNamed "struct ftrace_ops_hash"));
    fld "old_hash" (CNamed "struct ftrace_ops_hash");
    fld "trampoline" c_ulong;
    fld "trampoline_size" c_ulong;
    fld "list" (CNamed "struct list_head");
    fld "ops_func" (CNamed "ftrace_ops_func_t");
    fld "direct_call" c_ulong]).

Definition typedef_rwlock_t : cdecl :=
  decl "rwlock_t" (CStruct false [
    fld "raw_lock" (CNamed "arch_rwlock_t")]).

Definition typedef___be16 : cdecl :=
  decl "__be16" (CNamed "__u16").

Definition typedef___be32 : cdecl :=
  decl "__be32" (CNamed "__u32").

Definition typedef___wsum : cdecl :=
  decl "__wsum" (CNamed "__u32").

Definition struct_sk_buff_list : cdecl :=
  decl "struct sk_buff_list" (CStruct false [
    fld "next" (CPtr (CNamed "struct sk_buff"));
    fld "prev" (CPtr (CNamed "struct sk_buff"))]).

Definition struct_sk_buff_head : cdecl :=
  decl "struct sk_buff_head" (CStruct false [
    anon (CUnion false [
      anon (CStruct false [
        fld "next" (CPtr (CNamed "struct sk_buff"));
        fld "prev" (CPtr (CNamed "struct sk_buff"))]);
      fld "list" (CNamed "struct sk_buff_list")]);
    fld "qlen" (CNamed "__u32");
    fld "lock" (CNamed "spinlock_t")]).

(** Declarations that stand together in the header, by its lines. *)
Definition vmlinux_8_30 : list cdecl := [typedef___u8; typedef___u16; typedef___s32; typedef___u32; typedef___s64;
  typedef___u64; typedef_u8; typedef_u16; typedef_s32; typedef_u32; typedef_s64; typedef_u64].

Definition vmlinux_37_39 : list cdecl := [typedef___kernel_ulong_t; typedef___kernel_uid32_t].

Definition vmlinux_53_55 : list cdecl := [typedef_bool; typedef_uid_t].

Definition vmlinux_71_82 : list cdecl := [typedef_atomic_t; typedef_atomic64_t; struct_list_head].

Definition vmlinux_86_98 : list cdecl := [struct_hlist_head; struct_hlist_node; struct_callback_head].

Definition vmlinux_106_126 : list cdecl := [struct_qspinlock; typedef_arch_spinlock_t; struct_raw_spinlock;
  typedef_raw_spinlock_t].

Definition vmlinux_138_157 : list cdecl := [typedef_atomic_long_t; struct_spinlock; typedef_spinlock_t;
  struct_wait_queue_head; typedef_wait_queue_head_t; struct_optimistic_spin_queue].

Definition vmlinux_186_190 : list cdecl := [struct_refcount_struct; typedef_refcount_t].

Definition vmlinux_211_217 : list cdecl := [typedef_work_func_t; struct_work_struct].

Definition vmlinux_307_318 : list cdecl := [struct_rb_node; struct_percpu_counter].

Definition vmlinux_645_651 : list cdecl := [typedef_s16; typedef___kernel_long_t; typedef___kernel_pid_t;
  typedef___kernel_ssize_t].

Definition vmlinux_663_669 : list cdecl := [typedef_pid_t; typedef_clockid_t; typedef_ssize_t; typedef_ktime_t].

Definition vmlinux_709_720 : list cdecl := [struct_qrwlock; typedef_arch_rwlock_t].

Definition vmlinux_822_831 : list cdecl := [struct_mutex; struct_latch_tree_node].

Definition vmlinux_1067_1103 : list cdecl := [struct_thread_info; struct_llist_node; struct___call_single_node;
  struct_load_weight; struct_sched_avg].

Definition vmlinux_1107_1144 : list cdecl := [struct_sched_entity; struct_sched_rt_entity; struct_timerqueue_node].

Definition vmlinux_1166_1168 : list cdecl := [typedef_dl_server_has_tasks_f; typedef_dl_server_pick_f].

Definition vmlinux_1172_1270 : list cdecl := [struct_sched_dl_entity; struct_uclamp_se; struct_sched_statistics;
  struct_cpumask; typedef_cpumask_t; union_rcu_special; struct_sched_info; struct_plist_node; enum_timespec_type].

Definition vmlinux_1278_1363 : list cdecl := [struct_restart_block; struct_prev_cputime; struct_seqcount;
  typedef_seqcount_t; enum_vtime_state; struct_vtime; struct_rb_root_cached; struct_timerqueue_head;
  struct_posix_cputimer_base; struct_posix_cputimers; struct_posix_cputimers_work].

Definition vmlinux_1367_1382 : list cdecl := [struct_sysv_sem; struct_sysv_shm; typedef_sigset_t; struct_sigpending].

Definition vmlinux_1386_1431 : list cdecl := [struct_seccomp; struct_syscall_user_dispatch; struct_wake_q_node;
  struct_task_io_accounting; typedef_nodemask_t; struct_seqcount_spinlock; typedef_seqcount_spinlock_t;
  struct_arch_tlbflush_unmap_batch; struct_tlbflush_unmap_batch].

Definition vmlinux_1435_1535 : list cdecl := [struct_page_frag; struct_latency_record; struct_kmap_ctrl;
  struct_timer_list; struct_llist_head; struct_da_monitor; union_rv_task_monitor; struct_desc_struct;
  struct_thread_shstk; struct_fpu_state_perm; struct_fregs_state; struct_fxregs_state].

Definition vmlinux_1539_1602 : list cdecl := [struct_swregs_state; struct_xstate_header; struct_xregs_state;
  union_fpregs_state; struct_fpstate; struct_fpu].

Definition vmlinux_1990_2043 : list cdecl := [struct_fred_cs; struct_fred_ss; struct_pt_regs].

Definition vmlinux_2553_2561 : list cdecl := [struct_rcuwait; struct_irq_work].

Definition vmlinux_2593_2609 : list cdecl := [typedef_ftrace_ops_func_t; struct_ftrace_ops].

Definition vmlinux_6169_6173 : list cdecl := [typedef___be16; typedef___be32; typedef___wsum].

Definition vmlinux_6799_6814 : list cdecl := [struct_sk_buff_list; struct_sk_buff_head].

(** The declarations above, in textual order. *)
Definition vmlinuxcore_decls : list cdecl :=
  vmlinux_8_30 ++
  vmlinux_37_39 ++
  [typedef___kernel_size_t] ++
  vmlinux_53_55 ++
  [typedef_size_t;
   typedef_gfp_t] ++
  vmlinux_71_82 ++
  vmlinux_86_98 ++
  vmlinux_106_126 ++
  vmlinux_138_157 ++
  [typedef_kuid_t] ++
  vmlinux_186_190 ++
  vmlinux_211_217 ++
  [struct_rb_root] ++
  vmlinux_307_318 ++
  [struct_lock_class_key;
   typedef___s16] ++
  vmlinux_645_651 ++
  [typedef___kernel_clockid_t] ++
  vmlinux_663_669 ++
  vmlinux_709_720 ++
  vmlinux_822_831 ++
  vmlinux_1067_1103 ++
  vmlinux_1107_1144 ++
  [struct_hrtimer] ++
  vmlinux_1166_1168 ++
  vmlinux_1172_1270 ++
  vmlinux_1278_1363 ++
  vmlinux_1367_1382 ++
  vmlinux_1386_1431 ++
  vmlinux_1435_1535 ++
  vmlinux_1539_1602 ++
  [struct_thread_struct;
   struct_task_struct] ++
  vmlinux_1990_2043 ++
  [struct_perf_event_attr] ++
  vmlinux_2553_2561 ++
  [typedef_ftrace_func_t;
   struct_ftrace_ops_hash] ++
  vmlinux_2593_2609 ++
  [typedef_rwlock_t] ++
  vmlinux_6169_6173 ++
  vmlinux_6799_6814.
