(* ===== verification/VmlinuxNet.v ===== *)
(** * Kernel types of [vmlinux.h], lines 7075 to 28896: socket buffers, sockets and BPF objects

    One definition per declaration of [agent/ebpf/bpf/vmlinux.h] that the BPF
    program, its helpers or its attachment reach by value, transcribed member
    by member in the order of the header.  Qualifiers and function parameter
    types, which have no effect on layout, are dropped. *)
From S2P Require Import Prelude CTypes.

Definition typedef_sk_buff_data_t : cdecl :=
  decl "sk_buff_data_t" c_uint.

Definition struct_sk_buff_members_1 : list member :=
  [
    anon (CUnion false [
      anon (CStruct false [
        fld "next" (CPtr (CNamed "struct sk_buff"));
        fld "prev" (CPtr (CNamed "struct sk_buff"));
        anon (CUnion false [
          fld "dev" (CPtr (CNamed "struct net_device"));
          fld "dev_scratch" c_ulong])]);
      fld "rbnode" (CNamed "struct rb_node");
      fld "list" (CNamed "struct list_head");
      fld "ll_node" (CNamed "struct llist_node")]);
    fld "sk" (CPtr (CNamed "struct sock"));
    anon (CUnion false [
      fld "tstamp" (CNamed "ktime_t");
      fld "skb_mstamp_ns" (CNamed "u64")]);
    fld "cb" (CArray c_char 48);
    anon (CUnion false [
      anon (CStruct false [
        fld "_skb_refdst" c_ulong;
        fld "destructor" (CPtr (CFun CVoid))]);
      fld "tcp_tsorted_anchor" (CNamed "struct list_head");
      fld "_sk_redir" c_ulong]);
    fld "_nfct" c_ulong;
    fld "len" c_uint;
    fld "data_len" c_uint;
    fld "mac_len" (CNamed "__u16");
    fld "hdr_len" (CNamed "__u16");
    fld "queue_mapping" (CNamed "__u16");
    fld "__cloned_offset" (CArray (CNamed "__u8") 0);
    bitf "cloned" (CNamed "__u8") 1;
    bitf "nohdr" (CNamed "__u8") 1;
    bitf "fclone" (CNamed "__u8") 2;
    bitf "peeked" (CNamed "__u8") 1;
    bitf "head_frag" (CNamed "__u8") 1;
    bitf "pfmemalloc" (CNamed "__u8") 1;
    bitf "pp_recycle" (CNamed "__u8") 1;
    fld "active_extensions" (CNamed "__u8")].

Definition struct_sk_buff_members_2 : list member :=
  [
    anon (CUnion false [
      anon (CStruct false [
        fld "__pkt_type_offset" (CArray (CNamed "__u8") 0);
        bitf "pkt_type" (CNamed "__u8") 3;
        bitf "ignore_df" (CNamed "__u8") 1;
        bitf "dst_pending_confirm" (CNamed "__u8") 1;
        bitf "ip_summed" (CNamed "__u8") 2;
        bitf "ooo_okay" (CNamed "__u8") 1;
        fld "__mono_tc_offset" (CArray (CNamed "__u8") 0);
        bitf "tstamp_type" (CNamed "__u8") 1;
        bitf "tc_at_ingress" (CNamed "__u8") 1;
        bitf "tc_skip_classify" (CNamed "__u8") 1;
        bitf "remcsum_offload" (CNamed "__u8") 1;
        bitf "csum_complete_sw" (CNamed "__u8") 1;
        bitf "csum_level" (CNamed "__u8") 2;
        bitf "inner_protocol_type" (CNamed "__u8") 1;
        bitf "l4_hash" (CNamed "__u8") 1;
        bitf "sw_hash" (CNamed "__u8") 1;
        bitf "wifi_acked_valid" (CNamed "__u8") 1;
        bitf "wifi_acked" (CNamed "__u8") 1;
        bitf "no_fcs" (CNamed "__u8") 1;
        bitf "encapsulation" (CNamed "__u8") 1;
        bitf "encap_hdr_csum" (CNamed "__u8") 1;
        bitf "csum_valid" (CNamed "__u8") 1;
        bitf "ndisc_nodetype" (CNamed "__u8") 2;
        bitf "ipvs_property" (CNamed "__u8") 1;
        bitf "nf_trace" (CNamed "__u8") 1;
        bitf "offload_fwd_mark" (CNamed "__u8") 1;
        bitf "offload_l3_fwd_mark" (CNamed "__u8") 1;
        bitf "redirected" (CNamed "__u8") 1;
        bitf "from_ingress" (CNamed "__u8") 1;
        bitf "nf_skip_egress" (CNamed "__u8") 1;
        bitf "decrypted" (CNamed "__u8") 1;
        bitf "slow_gro" (CNamed "__u8") 1;
        bitf "csum_not_inet" (CNamed "__u8") 1;
        fld "tc_index" (CNamed "__u16");
        fld "alloc_cpu" (CNamed "u16");
        anon (CUnion false [
          fld "csum" (CNamed "__wsum");
          anon (CStruct false [
            fld "csum_start" (CNamed "__u16");
            fld "csum_offset" (CNamed "__u16")])]);
        fld "priority" (CNamed "__u32");
        fld "skb_iif" c_int;
        fld "hash" (CNamed "__u32");
        anon (CUnion false [
          fld "vlan_all" (CNamed "u32");
          anon (CStruct false [
            fld "vlan_proto" (CNamed "__be16");
            fld "vlan_tci" (CNamed "__u16")])]);
        anon (CUnion false [
          fld "napi_id" c_uint;
          fld "sender_cpu" c_uint]);
        fld "secmark" (CNamed "__u32");
        anon (CUnion false [
          fld "mark" (CNamed "__u32");
          fld "reserved_tailroom" (CNamed "__u32")]);
        anon (CUnion false [
          fld "inner_protocol" (CNamed "__be16");
          fld "inner_ipproto" (CNamed "__u8")]);
        fld "inner_transport_header" (CNamed "__u16");
        fld "inner_network_header" (CNamed "__u16");
        fld "inner_mac_header" (CNamed "__u16");
        fld "protocol" (CNamed "__be16");
        fld "transport_header" (CNamed "__u16");
        fld "network_header" (CNamed "__u16");
        fld "mac_header" (CNamed "__u16")]);
      fld "headers" (CStruct false [
        fld "__pkt_type_offset" (CArray (CNamed "__u8") 0);
        bitf "pkt_type" (CNamed "__u8") 3;
        bitf "ignore_df" (CNamed "__u8") 1;
        bitf "dst_pending_confirm" (CNamed "__u8") 1;
        bitf "ip_summed" (CNamed "__u8") 2;
        bitf "ooo_okay" (CNamed "__u8") 1;
        fld "__mono_tc_offset" (CArray (CNamed "__u8") 0);
        bitf "tstamp_type" (CNamed "__u8") 1;
        bitf "tc_at_ingress" (CNamed "__u8") 1;
        bitf "tc_skip_classify" (CNamed "__u8") 1;
        bitf "remcsum_offload" (CNamed "__u8") 1;
        bitf "csum_complete_sw" (CNamed "__u8") 1;
        bitf "csum_level" (CNamed "__u8") 2;
        bitf "inner_protocol_type" (CNamed "__u8") 1;
        bitf "l4_hash" (CNamed "__u8") 1;
        bitf "sw_hash" (CNamed "__u8") 1;
        bitf "wifi_acked_valid" (CNamed "__u8") 1;
        bitf "wifi_acked" (CNamed "__u8") 1;
        bitf "no_fcs" (CNamed "__u8") 1;
        bitf "encapsulation" (CNamed "__u8") 1;
        bitf "encap_hdr_csum" (CNamed "__u8") 1;
        bitf "csum_valid" (CNamed "__u8") 1;
        bitf "ndisc_nodetype" (CNamed "__u8") 2;
        bitf "ipvs_property" (CNamed "__u8") 1;
        bitf "nf_trace" (CNamed "__u8") 1;
        bitf "offload_fwd_mark" (CNamed "__u8") 1;
        bitf "offload_l3_fwd_mark" (CNamed "__u8") 1;
        bitf "redirected" (CNamed "__u8") 1;
        bitf "from_ingress" (CNamed "__u8") 1;
        bitf "nf_skip_egress" (CNamed "__u8") 1;
        bitf "decrypted" (CNamed "__u8") 1;
        bitf "slow_gro" (CNamed "__u8") 1;
        bitf "csum_not_inet" (CNamed "__u8") 1;
        fld "tc_index" (CNamed "__u16");
        fld "alloc_cpu" (CNamed "u16");
        anon (CUnion false [
          fld "csum" (CNamed "__wsum");
          anon (CStruct false [
            fld "csum_start" (CNamed "__u16");
            fld "csum_offset" (CNamed "__u16")])]);
        fld "priority" (CNamed "__u32");
        fld "skb_iif" c_int;
        fld "hash" (CNamed "__u32");
        anon (CUnion false [
          fld "vlan_all" (CNamed "u32");
          anon (CStruct false [
            fld "vlan_proto" (CNamed "__be16");
            fld "vlan_tci" (CNamed "__u16")])]);
        anon (CUnion false [
          fld "napi_id" c_uint;
          fld "sender_cpu" c_uint]);
        fld "secmark" (CNamed "__u32");
        anon (CUnion false [
          fld "mark" (CNamed "__u32");
          fld "reserved_tailroom" (CNamed "__u32")]);
        anon (CUnion false [
          fld "inner_protocol" (CNamed "__be16");
          fld "inner_ipproto" (CNamed "__u8")]);
        fld "inner_transport_header" (CNamed "__u16");
        fld "inner_network_header" (CNamed "__u16");
        fld "inner_mac_header" (CNamed "__u16");
        fld "protocol" (CNamed "__be16");
        fld "transport_header" (CNamed "__u16");
        fld "network_header" (CNamed "__u16");
        fld "mac_header" (CNamed "__u16")])])].

Definition struct_sk_buff_members_3 : list member :=
  [
    fld "tail" (CNamed "sk_buff_data_t");
    fld "end" (CNamed "sk_buff_data_t");
    fld "head" (CPtr c_uchar);
    fld "data" (CPtr c_uchar);
    fld "truesize" c_uint;
    fld "users" (CNamed "refcount_t");
    fld "extensions" (CPtr (CNamed "struct skb_ext"))].

Definition struct_sk_buff : cdecl :=
  decl "struct sk_buff" (CStruct false (struct_sk_buff_members_1 ++ struct_sk_buff_members_2 ++ struct_sk_buff_members_3)).

Definition struct_in6_addr : cdecl :=
  decl "struct in6_addr" (CStruct false [
    fld "in6_u" (CUnion false [
      fld "u6_addr8" (CArray (CNamed "__u8") 16);
      fld "u6_addr16" (CArray (CNamed "__be16") 8);
      fld "u6_addr32" (CArray (CNamed "__be32") 4)])]).

Definition struct_hlist_nulls_node : cdecl :=
  decl "struct hlist_nulls_node" (CStruct false [
    fld "next" (CPtr (CNamed "struct hlist_nulls_node"));
    fld "pprev" (CPtr (CPtr (CNamed "struct hlist_nulls_node")))]).

Definition typedef_kprobe_opcode_t : cdecl :=
  decl "kprobe_opcode_t" (CNamed "u8").

Definition struct_arch_specific_insn : cdecl :=
  decl "struct arch_specific_insn" (CStruct false [
    fld "insn" (CPtr (CNamed "kprobe_opcode_t"));
    bitf "boostable" c_uint 1;
    fld "size" c_uchar;
    anon (CUnion false [
      fld "opcode" c_uchar;
      fld "jcc" (CStruct false [
        fld "type" c_uchar]);
      fld "loop" (CStruct false [
        fld "type" c_uchar;
        fld "asize" c_uchar]);
      fld "indirect" (CStruct false [
        fld "reg" c_uchar])]);
    fld "rel32" (CNamed "s32");
    fld "emulate_op" (CPtr (CFun CVoid));
    fld "tp_len" c_int]).

Definition typedef_kprobe_pre_handler_t : cdecl :=
  decl "kprobe_pre_handler_t" (CPtr (CFun c_int)).

Definition typedef_kprobe_post_handler_t : cdecl :=
  decl "kprobe_post_handler_t" (CPtr (CFun CVoid)).

Definition struct_kprobe : cdecl :=
  decl "struct kprobe" (CStruct false [
    fld "hlist" (CNamed "struct hlist_node");
    fld "list" (CNamed "struct list_head");
    fld "nmissed" c_ulong;
    fld "addr" (CPtr (CNamed "kprobe_opcode_t"));
    fld "symbol_name" (CPtr c_char);
    fld "offset" c_uint;
    fld "pre_handler" (CNamed "kprobe_pre_handler_t");
    fld "post_handler" (CNamed "kprobe_post_handler_t");
    fld "opcode" (CNamed "kprobe_opcode_t");
    fld "ainsn" (CNamed "struct arch_specific_insn");
    fld "flags" (CNamed "u32")]).

Definition typedef_slab_flags_t : cdecl :=
  decl "slab_flags_t" c_uint.

Definition typedef___be64 : cdecl :=
  decl "__be64" (CNamed "__u64").

Definition struct_sock_cgroup_data : cdecl :=
  decl "struct sock_cgroup_data" (CStruct false [
    fld "cgroup" (CPtr (CNamed "struct cgroup"));
    fld "classid" (CNamed "u32");
    fld "prioidx" (CNamed "u16")]).

Definition struct_bpf_insn : cdecl :=
  decl "struct bpf_insn" (CStruct false [
    fld "code" (CNamed "__u8");
    bitf "dst_reg" (CNamed "__u8") 4;
    bitf "src_reg" (CNamed "__u8") 4;
    fld "off" (CNamed "__s16");
    fld "imm" (CNamed "__s32")]).

Definition enum_bpf_map_type : cdecl :=
  decl "enum bpf_map_type" (CEnum 4 [
    ("BPF_MAP_TYPE_UNSPEC", 0);
    ("BPF_MAP_TYPE_HASH", 1);
    ("BPF_MAP_TYPE_ARRAY", 2);
    ("BPF_MAP_TYPE_PROG_ARRAY", 3);
    ("BPF_MAP_TYPE_PERF_EVENT_ARRAY", 4);
    ("BPF_MAP_TYPE_PERCPU_HASH", 5);
    ("BPF_MAP_TYPE_PERCPU_ARRAY", 6);
    ("BPF_MAP_TYPE_STACK_TRACE", 7);
    ("BPF_MAP_TYPE_CGROUP_ARRAY", 8);
    ("BPF_MAP_TYPE_LRU_HASH", 9);
    ("BPF_MAP_TYPE_LRU_PERCPU_HASH", 10);
    ("BPF_MAP_TYPE_LPM_TRIE", 11);
    ("BPF_MAP_TYPE_ARRAY_OF_MAPS", 12);
    ("BPF_MAP_TYPE_HASH_OF_MAPS", 13);
    ("BPF_MAP_TYPE_DEVMAP", 14);
    ("BPF_MAP_TYPE_SOCKMAP", 15);
    ("BPF_MAP_TYPE_CPUMAP", 16);
    ("BPF_MAP_TYPE_XSKMAP", 17);
    ("BPF_MAP_TYPE_SOCKHASH", 18);
    ("BPF_MAP_TYPE_CGROUP_STORAGE_DEPRECATED", 19);
    ("BPF_MAP_TYPE_CGROUP_STORAGE", 19);
    ("BPF_MAP_TYPE_REUSEPORT_SOCKARRAY", 20);
    ("BPF_MAP_TYPE_PERCPU_CGROUP_STORAGE_DEPRECATED", 21);
    ("BPF_MAP_TYPE_PERCPU_CGROUP_STORAGE", 21);
    ("BPF_MAP_TYPE_QUEUE", 22);
    ("BPF_MAP_TYPE_STACK", 23);
    ("BPF_MAP_TYPE_SK_STORAGE", 24);
    ("BPF_MAP_TYPE_DEVMAP_HASH", 25);
    ("BPF_MAP_TYPE_STRUCT_OPS", 26);
    ("BPF_MAP_TYPE_RINGBUF", 27);
    ("BPF_MAP_TYPE_INODE_STORAGE", 28);
    ("BPF_MAP_TYPE_TASK_STORAGE", 29);
    ("BPF_MAP_TYPE_BLOOM_FILTER", 30);
    ("BPF_MAP_TYPE_USER_RINGBUF", 31);
    ("BPF_MAP_TYPE_CGRP_STORAGE", 32)]).

Definition enum_bpf_prog_type : cdecl :=
  decl "enum bpf_prog_type" (CEnum 4 [
    ("BPF_PROG_TYPE_UNSPEC", 0);
    ("BPF_PROG_TYPE_SOCKET_FILTER", 1);
    ("BPF_PROG_TYPE_KPROBE", 2);
    ("BPF_PROG_TYPE_SCHED_CLS", 3);
    ("BPF_PROG_TYPE_SCHED_ACT", 4);
    ("BPF_PROG_TYPE_TRACEPOINT", 5);
    ("BPF_PROG_TYPE_XDP", 6);
    ("BPF_PROG_TYPE_PERF_EVENT", 7);
    ("BPF_PROG_TYPE_CGROUP_SKB", 8);
    ("BPF_PROG_TYPE_CGROUP_SOCK", 9);
    ("BPF_PROG_TYPE_LWT_IN", 10);
    ("BPF_PROG_TYPE_LWT_OUT", 11);
    ("BPF_PROG_TYPE_LWT_XMIT", 12);
    ("BPF_PROG_TYPE_SOCK_OPS", 13);
    ("BPF_PROG_TYPE_SK_SKB", 14);
    ("BPF_PROG_TYPE_CGROUP_DEVICE", 15);
    ("BPF_PROG_TYPE_SK_MSG", 16);
    ("BPF_PROG_TYPE_RAW_TRACEPOINT", 17);
    ("BPF_PROG_TYPE_CGROUP_SOCK_ADDR", 18);
    ("BPF_PROG_TYPE_LWT_SEG6LOCAL", 19);
    ("BPF_PROG_TYPE_LIRC_MODE2", 20);
    ("BPF_PROG_TYPE_SK_REUSEPORT", 21);
    ("BPF_PROG_TYPE_FLOW_DISSECTOR", 22);
    ("BPF_PROG_TYPE_CGROUP_SYSCTL", 23);
    ("BPF_PROG_TYPE_RAW_TRACEPOINT_WRITABLE", 24);
    ("BPF_PROG_TYPE_CGROUP_SOCKOPT", 25);
    ("BPF_PROG_TYPE_TRACING", 26);
    ("BPF_PROG_TYPE_STRUCT_OPS", 27);
    ("BPF_PROG_TYPE_EXT", 28);
    ("BPF_PROG_TYPE_LSM", 29);
    ("BPF_PROG_TYPE_SK_LOOKUP", 30);
    ("BPF_PROG_TYPE_SYSCALL", 31);
    ("BPF_PROG_TYPE_NETFILTER", 32);
    ("__MAX_BPF_PROG_TYPE", 33)]).

Definition enum_bpf_attach_type : cdecl :=
  decl "enum bpf_attach_type" (CEnum 4 [
    ("BPF_CGROUP_INET_INGRESS", 0);
    ("BPF_CGROUP_INET_EGRESS", 1);
    ("BPF_CGROUP_INET_SOCK_CREATE", 2);
    ("BPF_CGROUP_SOCK_OPS", 3);
    ("BPF_SK_SKB_STREAM_PARSER", 4);
    ("BPF_SK_SKB_STREAM_VERDICT", 5);
    ("BPF_CGROUP_DEVICE", 6);
    ("BPF_SK_MSG_VERDICT", 7);
    ("BPF_CGROUP_INET4_BIND", 8);
    ("BPF_CGROUP_INET6_BIND", 9);
    ("BPF_CGROUP_INET4_CONNECT", 10);
    ("BPF_CGROUP_INET6_CONNECT", 11);
    ("BPF_CGROUP_INET4_POST_BIND", 12);
    ("BPF_CGROUP_INET6_POST_BIND", 13);
    ("BPF_CGROUP_UDP4_SENDMSG", 14);
    ("BPF_CGROUP_UDP6_SENDMSG", 15);
    ("BPF_LIRC_MODE2", 16);
    ("BPF_FLOW_DISSECTOR", 17);
    ("BPF_CGROUP_SYSCTL", 18);
    ("BPF_CGROUP_UDP4_RECVMSG", 19);
    ("BPF_CGROUP_UDP6_RECVMSG", 20);
    ("BPF_CGROUP_GETSOCKOPT", 21);
    ("BPF_CGROUP_SETSOCKOPT", 22);
    ("BPF_TRACE_RAW_TP", 23);
    ("BPF_TRACE_FENTRY", 24);
    ("BPF_TRACE_FEXIT", 25);
    ("BPF_MODIFY_RETURN", 26);
    ("BPF_LSM_MAC", 27);
    ("BPF_TRACE_ITER", 28);
    ("BPF_CGROUP_INET4_GETPEERNAME", 29);
    ("BPF_CGROUP_INET6_GETPEERNAME", 30);
    ("BPF_CGROUP_INET4_GETSOCKNAME", 31);
    ("BPF_CGROUP_INET6_GETSOCKNAME", 32);
    ("BPF_XDP_DEVMAP", 33);
    ("BPF_CGROUP_INET_SOCK_RELEASE", 34);
    ("BPF_XDP_CPUMAP", 35);
    ("BPF_SK_LOOKUP", 36);
    ("BPF_XDP", 37);
    ("BPF_SK_SKB_VERDICT", 38);
    ("BPF_SK_REUSEPORT_SELECT", 39);
    ("BPF_SK_REUSEPORT_SELECT_OR_MIGRATE", 40);
    ("BPF_PERF_EVENT", 41);
    ("BPF_TRACE_KPROBE_MULTI", 42);
    ("BPF_LSM_CGROUP", 43);
    ("BPF_STRUCT_OPS", 44);
    ("BPF_NETFILTER", 45);
    ("BPF_TCX_INGRESS", 46);
    ("BPF_TCX_EGRESS", 47);
    ("BPF_TRACE_UPROBE_MULTI", 48);
    ("BPF_CGROUP_UNIX_CONNECT", 49);
    ("BPF_CGROUP_UNIX_SENDMSG", 50);
    ("BPF_CGROUP_UNIX_RECVMSG", 51);
    ("BPF_CGROUP_UNIX_GETPEERNAME", 52);
    ("BPF_CGROUP_UNIX_GETSOCKNAME", 53);
    ("BPF_NETKIT_PRIMARY", 54);
    ("BPF_NETKIT_PEER", 55);
    ("__MAX_BPF_ATTACH_TYPE", 56)]).

Definition union_bpf_attr_members_1 : list member :=
  [
    anon (CStruct false [
      fld "map_type" (CNamed "__u32");
      fld "key_size" (CNamed "__u32");
      fld "value_size" (CNamed "__u32");
      fld "max_entries" (CNamed "__u32");
      fld "map_flags" (CNamed "__u32");
      fld "inner_map_fd" (CNamed "__u32");
      fld "numa_node" (CNamed "__u32");
      fld "map_name" (CArray c_char 16);
      fld "map_ifindex" (CNamed "__u32");
      fld "btf_fd" (CNamed "__u32");
      fld "btf_key_type_id" (CNamed "__u32");
      fld "btf_value_type_id" (CNamed "__u32");
      fld "btf_vmlinux_value_type_id" (CNamed "__u32");
      fld "map_extra" (CNamed "__u64")]);
    anon (CStruct false [
      fld "map_fd" (CNamed "__u32");
      fld "key" (CNamed "__u64");
      anon (CUnion false [
        fld "value" (CNamed "__u64");
        fld "next_key" (CNamed "__u64")]);
      fld "flags" (CNamed "__u64")]);
    fld "batch" (CStruct false [
      fld "in_batch" (CNamed "__u64");
      fld "out_batch" (CNamed "__u64");
      fld "keys" (CNamed "__u64");
      fld "values" (CNamed "__u64");
      fld "count" (CNamed "__u32");
      fld "map_fd" (CNamed "__u32");
      fld "elem_flags" (CNamed "__u64");
      fld "flags" (CNamed "__u64")]);
    anon (CStruct false [
      fld "prog_type" (CNamed "__u32");
      fld "insn_cnt" (CNamed "__u32");
      fld "insns" (CNamed "__u64");
      fld "license" (CNamed "__u64");
      fld "log_level" (CNamed "__u32");
      fld "log_size" (CNamed "__u32");
      fld "log_buf" (CNamed "__u64");
      fld "kern_version" (CNamed "__u32");
      fld "prog_flags" (CNamed "__u32");
      fld "prog_name" (CArray c_char 16);
      fld "prog_ifindex" (CNamed "__u32");
      fld "expected_attach_type" (CNamed "__u32");
      fld "prog_btf_fd" (CNamed "__u32");
      fld "func_info_rec_size" (CNamed "__u32");
      fld "func_info" (CNamed "__u64");
      fld "func_info_cnt" (CNamed "__u32");
      fld "line_info_rec_size" (CNamed "__u32");
      fld "line_info" (CNamed "__u64");
      fld "line_info_cnt" (CNamed "__u32");
      fld "attach_btf_id" (CNamed "__u32");
      anon (CUnion false [
        fld "attach_prog_fd" (CNamed "__u32");
        fld "attach_btf_obj_fd" (CNamed "__u32")]);
      fld "core_relo_cnt" (CNamed "__u32");
      fld "fd_array" (CNamed "__u64");
      fld "core_relos" (CNamed "__u64");
      fld "core_relo_rec_size" (CNamed "__u32");
      fld "log_true_size" (CNamed "__u32")]);
    anon (CStruct false [
      fld "pathname" (CNamed "__u64");
      fld "bpf_fd" (CNamed "__u32");
      fld "file_flags" (CNamed "__u32");
      fld "path_fd" (CNamed "__s32")]);
    anon (CStruct false [
      anon (CUnion false [
        fld "target_fd" (CNamed "__u32");
        fld "target_ifindex" (CNamed "__u32")]);
      fld "attach_bpf_fd" (CNamed "__u32");
      fld "attach_type" (CNamed "__u32");
      fld "attach_flags" (CNamed "__u32");
      fld "replace_bpf_fd" (CNamed "__u32");
      anon (CUnion false [
        fld "relative_fd" (CNamed "__u32");
        fld "relative_id" (CNamed "__u32")]);
      fld "expected_revision" (CNamed "__u64")]);
    fld "test" (CStruct false [
      fld "prog_fd" (CNamed "__u32");
      fld "retval" (CNamed "__u32");
      fld "data_size_in" (CNamed "__u32");
      fld "data_size_out" (CNamed "__u32");
      fld "data_in" (CNamed "__u64");
      fld "data_out" (CNamed "__u64");
      fld "repeat" (CNamed "__u32");
      fld "duration" (CNamed "__u32");
      fld "ctx_size_in" (CNamed "__u32");
      fld "ctx_size_out" (CNamed "__u32");
      fld "ctx_in" (CNamed "__u64");
      fld "ctx_out" (CNamed "__u64");
      fld "flags" (CNamed "__u32");
      fld "cpu" (CNamed "__u32");
      fld "batch_size" (CNamed "__u32")])].

Definition union_bpf_attr_members_2 : list member :=
  [
    anon (CStruct false [
      anon (CUnion false [
        fld "start_id" (CNamed "__u32");
        fld "prog_id" (CNamed "__u32");
        fld "map_id" (CNamed "__u32");
        fld "btf_id" (CNamed "__u32");
        fld "link_id" (CNamed "__u32")]);
      fld "next_id" (CNamed "__u32");
      fld "open_flags" (CNamed "__u32")]);
    fld "info" (CStruct false [
      fld "bpf_fd" (CNamed "__u32");
      fld "info_len" (CNamed "__u32");
      fld "info" (CNamed "__u64")]);
    fld "query" (CStruct false [
      anon (CUnion false [
        fld "target_fd" (CNamed "__u32");
        fld "target_ifindex" (CNamed "__u32")]);
      fld "attach_type" (CNamed "__u32");
      fld "query_flags" (CNamed "__u32");
      fld "attach_flags" (CNamed "__u32");
      fld "prog_ids" (CNamed "__u64");
      anon (CUnion false [
        fld "prog_cnt" (CNamed "__u32");
        fld "count" (CNamed "__u32")]);
      fld "prog_attach_flags" (CNamed "__u64");
      fld "link_ids" (CNamed "__u64");
      fld "link_attach_flags" (CNamed "__u64");
      fld "revision" (CNamed "__u64")]);
    fld "raw_tracepoint" (CStruct false [
      fld "name" (CNamed "__u64");
      fld "prog_fd" (CNamed "__u32")]);
    anon (CStruct false [
      fld "btf" (CNamed "__u64");
      fld "btf_log_buf" (CNamed "__u64");
      fld "btf_size" (CNamed "__u32");
      fld "btf_log_size" (CNamed "__u32");
      fld "btf_log_level" (CNamed "__u32");
      fld "btf_log_true_size" (CNamed "__u32")]);
    fld "task_fd_query" (CStruct false [
      fld "pid" (CNamed "__u32");
      fld "fd" (CNamed "__u32");
      fld "flags" (CNamed "__u32");
      fld "buf_len" (CNamed "__u32");
      fld "buf" (CNamed "__u64");
      fld "prog_id" (CNamed "__u32");
      fld "fd_type" (CNamed "__u32");
      fld "probe_offset" (CNamed "__u64");
      fld "probe_addr" (CNamed "__u64")])].

Definition union_bpf_attr_members_3 : list member :=
  [
    fld "link_create" (CStruct false [
      anon (CUnion false [
        fld "prog_fd" (CNamed "__u32");
        fld "map_fd" (CNamed "__u32")]);
      anon (CUnion false [
        fld "target_fd" (CNamed "__u32");
        fld "target_ifindex" (CNamed "__u32")]);
      fld "attach_type" (CNamed "__u32");
      fld "flags" (CNamed "__u32");
      anon (CUnion false [
        fld "target_btf_id" (CNamed "__u32");
        anon (CStruct false [
          fld "iter_info" (CNamed "__u64");
          fld "iter_info_len" (CNamed "__u32")]);
        fld "perf_event" (CStruct false [
          fld "bpf_cookie" (CNamed "__u64")]);
        fld "kprobe_multi" (CStruct false [
          fld "flags" (CNamed "__u32");
          fld "cnt" (CNamed "__u32");
          fld "syms" (CNamed "__u64");
          fld "addrs" (CNamed "__u64");
          fld "cookies" (CNamed "__u64")]);
        fld "tracing" (CStruct false [
          fld "target_btf_id" (CNamed "__u32");
          fld "cookie" (CNamed "__u64")]);
        fld "netfilter" (CStruct false [
          fld "pf" (CNamed "__u32");
          fld "hooknum" (CNamed "__u32");
          fld "priority" (CNamed "__s32");
          fld "flags" (CNamed "__u32")]);
        fld "tcx" (CStruct false [
          anon (CUnion false [
            fld "relative_fd" (CNamed "__u32");
            fld "relative_id" (CNamed "__u32")]);
          fld "expected_revision" (CNamed "__u64")]);
        fld "uprobe_multi" (CStruct false [
          fld "path" (CNamed "__u64");
          fld "offsets" (CNamed "__u64");
          fld "ref_ctr_offsets" (CNamed "__u64");
          fld "cookies" (CNamed "__u64");
          fld "cnt" (CNamed "__u32");
          fld "flags" (CNamed "__u32");
          fld "pid" (CNamed "__u32")]);
        fld "netkit" (CStruct false [
          anon (CUnion false [
            fld "relative_fd" (CNamed "__u32");
            fld "relative_id" (CNamed "__u32")]);
          fld "expected_revision" (CNamed "__u64")])])]);
    fld "link_update" (CStruct false [
      fld "link_fd" (CNamed "__u32");
      anon (CUnion false [
        fld "new_prog_fd" (CNamed "__u32");
        fld "new_map_fd" (CNamed "__u32")]);
      fld "flags" (CNamed "__u32");
      anon (CUnion false [
        fld "old_prog_fd" (CNamed "__u32");
        fld "old_map_fd" (CNamed "__u32")])]);
    fld "link_detach" (CStruct false [
      fld "link_fd" (CNamed "__u32")]);
    fld "enable_stats" (CStruct false [
      fld "type" (CNamed "__u32")]);
    fld "iter_create" (CStruct false [
      fld "link_fd" (CNamed "__u32");
      fld "flags" (CNamed "__u32")]);
    fld "prog_bind_map" (CStruct false [
      fld "prog_fd" (CNamed "__u32");
      fld "map_fd" (CNamed "__u32");
      fld "flags" (CNamed "__u32")])].

Definition union_bpf_attr : cdecl :=
  decl "union bpf_attr" (CUnion false (union_bpf_attr_members_1 ++ union_bpf_attr_members_2 ++ union_bpf_attr_members_3)).

Definition struct_sock_filter : cdecl :=
  decl "struct sock_filter" (CStruct false [
    fld "code" (CNamed "__u16");
    fld "jt" (CNamed "__u8");
    fld "jf" (CNamed "__u8");
    fld "k" (CNamed "__u32")]).

Definition typedef___kernel_sa_family_t : cdecl :=
  decl "__kernel_sa_family_t" c_ushort.

Definition typedef_sa_family_t : cdecl :=
  decl "sa_family_t" (CNamed "__kernel_sa_family_t").

Definition struct_sockaddr : cdecl :=
  decl "struct sockaddr" (CStruct false [
    fld "sa_family" (CNamed "sa_family_t");
    anon (CUnion false [
      fld "sa_data_min" (CArray c_char 14);
      anon (CStruct false [
        fld "__empty_sa_data" (CStruct false []);
        fld "sa_data" (CArray c_char 0)])])]).

Definition typedef___addrpair : cdecl :=
  decl "__addrpair" (CNamed "__u64").

Definition typedef___portpair : cdecl :=
  decl "__portpair" (CNamed "__u32").

Definition typedef_possible_net_t : cdecl :=
  decl "possible_net_t" (CStruct false [
    fld "net" (CPtr (CNamed "struct net"))]).

Definition struct_sock_common : cdecl :=
  decl "struct sock_common" (CStruct false [
    anon (CUnion false [
      fld "skc_addrpair" (CNamed "__addrpair");
      anon (CStruct false [
        fld "skc_daddr" (CNamed "__be32");
        fld "skc_rcv_saddr" (CNamed "__be32")])]);
    anon (CUnion false [
      fld "skc_hash" c_uint;
      fld "skc_u16hashes" (CArray (CNamed "__u16") 2)]);
    anon (CUnion false [
      fld "skc_portpair" (CNamed "__portpair");
      anon (CStruct false [
        fld "skc_dport" (CNamed "__be16");
        fld "skc_num" (CNamed "__u16")])]);
    fld "skc_family" c_ushort;
    fld "skc_state" c_uchar;
    bitf "skc_reuse" c_uchar 4;
    bitf "skc_reuseport" c_uchar 1;
    bitf "skc_ipv6only" c_uchar 1;
    bitf "skc_net_refcnt" c_uchar 1;
    fld "skc_bound_dev_if" c_int;
    anon (CUnion false [
      fld "skc_bind_node" (CNamed "struct hlist_node");
      fld "skc_portaddr_node" (CNamed "struct hlist_node")]);
    fld "skc_prot" (CPtr (CNamed "struct proto"));
    fld "skc_net" (CNamed "possible_net_t");
    fld "skc_v6_daddr" (CNamed "struct in6_addr");
    fld "skc_v6_rcv_saddr" (CNamed "struct in6_addr");
    fld "skc_cookie" (CNamed "atomic64_t");
    anon (CUnion false [
      fld "skc_flags" c_ulong;
      fld "skc_listener" (CPtr (CNamed "struct sock"));
      fld "skc_tw_dr" (CPtr (CNamed "struct inet_timewait_death_row"))]);
    fld "skc_dontcopy_begin" (CArray c_int 0);
    anon (CUnion false [
      fld "skc_node" (CNamed "struct hlist_node");
      fld "skc_nulls_node" (CNamed "struct hlist_nulls_node")]);
    fld "skc_tx_queue_mapping" c_ushort;
    fld "skc_rx_queue_mapping" c_ushort;
    anon (CUnion false [
      fld "skc_incoming_cpu" c_int;
      fld "skc_rcv_wnd" (CNamed "u32");
      fld "skc_tw_rcv_nxt" (CNamed "u32")]);
    fld "skc_refcnt" (CNamed "refcount_t");
    fld "skc_dontcopy_end" (CArray c_int 0);
    anon (CUnion false [
      fld "skc_rxhash" (CNamed "u32");
      fld "skc_window_clamp" (CNamed "u32");
      fld "skc_tw_snd_nxt" (CNamed "u32")])]).

Definition typedef_socket_lock_t : cdecl :=
  decl "socket_lock_t" (CStruct false [
    fld "slock" (CNamed "spinlock_t");
    fld "owned" c_int;
    fld "wq" (CNamed "wait_queue_head_t")]).

Definition typedef_netdev_features_t : cdecl :=
  decl "netdev_features_t" (CNamed "u64").

Definition typedef_netns_tracker : cdecl :=
  decl "netns_tracker" (CStruct false []).

Definition struct_sock : cdecl :=
  decl "struct sock" (CStruct false [
    fld "__sk_common" (CNamed "struct sock_common");
    fld "sk_rx_dst" (CPtr (CNamed "struct dst_entry"));
    fld "sk_rx_dst_ifindex" c_int;
    fld "sk_rx_dst_cookie" (CNamed "u32");
    fld "sk_lock" (CNamed "socket_lock_t");
    fld "sk_drops" (CNamed "atomic_t");
    fld "sk_rcvlowat" c_int;
    fld "sk_error_queue" (CNamed "struct sk_buff_head");
    fld "sk_receive_queue" (CNamed "struct sk_buff_head");
    fld "sk_backlog" (CStruct false [
      fld "rmem_alloc" (CNamed "atomic_t");
      fld "len" c_int;
      fld "head" (CPtr (CNamed "struct sk_buff"));
      fld "tail" (CPtr (CNamed "struct sk_buff"))]);
    fld "sk_forward_alloc" c_int;
    fld "sk_reserved_mem" (CNamed "u32");
    fld "sk_ll_usec" c_uint;
    fld "sk_napi_id" c_uint;
    fld "sk_rcvbuf" c_int;
    fld "sk_disconnects" c_int;
    fld "sk_filter" (CPtr (CNamed "struct sk_filter"));
    anon (CUnion false [
      fld "sk_wq" (CPtr (CNamed "struct socket_wq"));
      fld "sk_wq_raw" (CPtr (CNamed "struct socket_wq"))]);
    fld "sk_policy" (CArray (CPtr (CNamed "struct xfrm_policy")) 2);
    fld "sk_dst_cache" (CPtr (CNamed "struct dst_entry"));
    fld "sk_omem_alloc" (CNamed "atomic_t");
    fld "sk_sndbuf" c_int;
    fld "sk_wmem_queued" c_int;
    fld "sk_wmem_alloc" (CNamed "refcount_t");
    fld "sk_tsq_flags" c_ulong;
    anon (CUnion false [
      fld "sk_send_head" (CPtr (CNamed "struct sk_buff"));
      fld "tcp_rtx_queue" (CNamed "struct rb_root")]);
    fld "sk_write_queue" (CNamed "struct sk_buff_head");
    fld "sk_peek_off" (CNamed "__s32");
    fld "sk_write_pending" c_int;
    fld "sk_dst_pending_confirm" (CNamed "__u32");
    fld "sk_pacing_status" (CNamed "u32");
    fld "sk_sndtimeo" c_long;
    fld "sk_timer" (CNamed "struct timer_list");
    fld "sk_priority" (CNamed "__u32");
    fld "sk_mark" (CNamed "__u32");
    fld "sk_pacing_rate" c_ulong;
    fld "sk_max_pacing_rate" c_ulong;
    fld "sk_frag" (CNamed "struct page_frag");
    fld "sk_route_caps" (CNamed "netdev_features_t");
    fld "sk_gso_type" c_int;
    fld "sk_gso_max_size" c_uint;
    fld "sk_allocation" (CNamed "gfp_t");
    fld "sk_txhash" (CNamed "__u32");
    bitf "sk_gso_disabled" (CNamed "u8") 1;
    bitf "sk_kern_sock" (CNamed "u8") 1;
    bitf "sk_no_check_tx" (CNamed "u8") 1;
    bitf "sk_no_check_rx" (CNamed "u8") 1;
    bitf "sk_userlocks" (CNamed "u8") 4;
    fld "sk_pacing_shift" (CNamed "u8");
    fld "sk_type" (CNamed "u16");
    fld "sk_protocol" (CNamed "u16");
    fld "sk_gso_max_segs" (CNamed "u16");
    fld "sk_lingertime" c_ulong;
    fld "sk_prot_creator" (CPtr (CNamed "struct proto"));
    fld "sk_callback_lock" (CNamed "rwlock_t");
    fld "sk_err" c_int;
    fld "sk_err_soft" c_int;
    fld "sk_ack_backlog" (CNamed "u32");
    fld "sk_max_ack_backlog" (CNamed "u32");
    fld "sk_uid" (CNamed "kuid_t");
    fld "sk_txrehash" (CNamed "u8");
    fld "sk_prefer_busy_poll" (CNamed "u8");
    fld "sk_busy_poll_budget" (CNamed "u16");
    fld "sk_peer_lock" (CNamed "spinlock_t");
    fld "sk_bind_phc" c_int;
    fld "sk_peer_pid" (CPtr (CNamed "struct pid"));
    fld "sk_peer_cred" (CPtr (CNamed "struct cred"));
    fld "sk_rcvtimeo" c_long;
    fld "sk_stamp" (CNamed "ktime_t");
    fld "sk_tskey" (CNamed "atomic_t");
    fld "sk_zckey" (CNamed "atomic_t");
    fld "sk_tsflags" (CNamed "u32");
    fld "sk_shutdown" (CNamed "u8");
    fld "sk_clockid" (CNamed "u8");
    bitf "sk_txtime_deadline_mode" (CNamed "u8") 1;
    bitf "sk_txtime_report_errors" (CNamed "u8") 1;
    bitf "sk_txtime_unused" (CNamed "u8") 6;
    fld "sk_use_task_frag" (CNamed "bool");
    fld "sk_socket" (CPtr (CNamed "struct socket"));
    fld "sk_user_data" (CPtr CVoid);
    fld "sk_security" (CPtr CVoid);
    fld "sk_cgrp_data" (CNamed "struct sock_cgroup_data");
    fld "sk_memcg" (CPtr (CNamed "struct mem_cgroup"));
    fld "sk_state_change" (CPtr (CFun CVoid));
    fld "sk_data_ready" (CPtr (CFun CVoid));
    fld "sk_write_space" (CPtr (CFun CVoid));
    fld "sk_error_report" (CPtr (CFun CVoid));
    fld "sk_backlog_rcv" (CPtr (CFun c_int));
    fld "sk_validate_xmit_skb" (CPtr (CFun (CPtr (CNamed "struct sk_buff"))));
    fld "sk_destruct" (CPtr (CFun CVoid));
    fld "sk_reuseport_cb" (CPtr (CNamed "struct sock_reuseport"));
    fld "sk_bpf_storage" (CPtr (CNamed "struct bpf_local_storage"));
    fld "sk_rcu" (CNamed "struct callback_head");
    fld "ns_tracker" (CNamed "netns_tracker")]).

Definition struct_bpf_prog : cdecl :=
  decl "struct bpf_prog" (CStruct false [
    fld "pages" (CNamed "u16");
    bitf "jited" (CNamed "u16") 1;
    bitf "jit_requested" (CNamed "u16") 1;
    bitf "gpl_compatible" (CNamed "u16") 1;
    bitf "cb_access" (CNamed "u16") 1;
    bitf "dst_needed" (CNamed "u16") 1;
    bitf "blinding_requested" (CNamed "u16") 1;
    bitf "blinded" (CNamed "u16") 1;
    bitf "is_func" (CNamed "u16") 1;
    bitf "kprobe_override" (CNamed "u16") 1;
    bitf "has_callchain_buf" (CNamed "u16") 1;
    bitf "enforce_expected_attach_type" (CNamed "u16") 1;
    bitf "call_get_stack" (CNamed "u16") 1;
    bitf "call_get_func_ip" (CNamed "u16") 1;
    bitf "tstamp_type_access" (CNamed "u16") 1;
    fld "type" (CNamed "enum bpf_prog_type");
    fld "expected_attach_type" (CNamed "enum bpf_attach_type");
    fld "len" (CNamed "u32");
    fld "jited_len" (CNamed "u32");
    fld "tag" (CArray (CNamed "u8") 8);
    fld "stats" (CPtr (CNamed "struct bpf_prog_stats"));
    fld "active" (CPtr c_int);
    fld "bpf_func" (CPtr (CFun c_uint));
    fld "aux" (CPtr (CNamed "struct bpf_prog_aux"));
    fld "orig_prog" (CPtr (CNamed "struct sock_fprog_kern"));
    anon (CUnion false [
      anon (CStruct false [
        fld "__empty_insns" (CStruct false []);
        fld "insns" (CArray (CNamed "struct sock_filter") 0)]);
      anon (CStruct false [
        fld "__empty_insnsi" (CStruct false []);
        fld "insnsi" (CArray (CNamed "struct bpf_insn") 0)])])]).

Definition struct_bpf_map_ops : cdecl :=
  decl "struct bpf_map_ops" (CStruct false [
    fld "map_alloc_check" (CPtr (CFun c_int));
    fld "map_alloc" (CPtr (CFun (CPtr (CNamed "struct bpf_map"))));
    fld "map_release" (CPtr (CFun CVoid));
    fld "map_free" (CPtr (CFun CVoid));
    fld "map_get_next_key" (CPtr (CFun c_int));
    fld "map_release_uref" (CPtr (CFun CVoid));
    fld "map_lookup_elem_sys_only" (CPtr (CFun (CPtr CVoid)));
    fld "map_lookup_batch" (CPtr (CFun c_int));
    fld "map_lookup_and_delete_elem" (CPtr (CFun c_int));
    fld "map_lookup_and_delete_batch" (CPtr (CFun c_int));
    fld "map_update_batch" (CPtr (CFun c_int));
    fld "map_delete_batch" (CPtr (CFun c_int));
    fld "map_lookup_elem" (CPtr (CFun (CPtr CVoid)));
    fld "map_update_elem" (CPtr (CFun c_long));
    fld "map_delete_elem" (CPtr (CFun c_long));
    fld "map_push_elem" (CPtr (CFun c_long));
    fld "map_pop_elem" (CPtr (CFun c_long));
    fld "map_peek_elem" (CPtr (CFun c_long));
    fld "map_lookup_percpu_elem" (CPtr (CFun (CPtr CVoid)));
    fld "map_fd_get_ptr" (CPtr (CFun (CPtr CVoid)));
    fld "map_fd_put_ptr" (CPtr (CFun CVoid));
    fld "map_gen_lookup" (CPtr (CFun c_int));
    fld "map_fd_sys_lookup_elem" (CPtr (CFun (CNamed "u32")));
    fld "map_seq_show_elem" (CPtr (CFun CVoid));
    fld "map_check_btf" (CPtr (CFun c_int));
    fld "map_poke_track" (CPtr (CFun c_int));
    fld "map_poke_untrack" (CPtr (CFun CVoid));
    fld "map_poke_run" (CPtr (CFun CVoid));
    fld "map_direct_value_addr" (CPtr (CFun c_int));
    fld "map_direct_value_meta" (CPtr (CFun c_int));
    fld "map_mmap" (CPtr (CFun c_int));
    fld "map_poll" (CPtr (CFun (CNamed "__poll_t")));
    fld "map_local_storage_charge" (CPtr (CFun c_int));
    fld "map_local_storage_uncharge" (CPtr (CFun CVoid));
    fld "map_owner_storage_ptr" (CPtr (CFun (CPtr (CPtr (CNamed "struct bpf_local_storage")))));
    fld "map_redirect" (CPtr (CFun c_long));
    fld "map_meta_equal" (CPtr (CFun (CNamed "bool")));
    fld "map_set_for_each_callback_args" (CPtr (CFun c_int));
    fld "map_for_each_callback" (CPtr (CFun c_long));
    fld "map_mem_usage" (CPtr (CFun (CNamed "u64")));
    fld "map_btf_id" (CPtr c_int);
    fld "iter_seq_info" (CPtr (CNamed "struct bpf_iter_seq_info"))]).

Definition struct_bpf_map : cdecl :=
  decl "struct bpf_map" (CStruct false [
    fld "ops" (CPtr (CNamed "struct bpf_map_ops"));
    fld "inner_map_meta" (CPtr (CNamed "struct bpf_map"));
    fld "security" (CPtr CVoid);
    fld "map_type" (CNamed "enum bpf_map_type");
    fld "key_size" (CNamed "u32");
    fld "value_size" (CNamed "u32");
    fld "max_entries" (CNamed "u32");
    fld "map_extra" (CNamed "u64");
    fld "map_flags" (CNamed "u32");
    fld "id" (CNamed "u32");
    fld "record" (CPtr (CNamed "struct btf_record"));
    fld "numa_node" c_int;
    fld "btf_key_type_id" (CNamed "u32");
    fld "btf_value_type_id" (CNamed "u32");
    fld "btf_vmlinux_value_type_id" (CNamed "u32");
    fld "btf" (CPtr (CNamed "struct btf"));
    fld "objcg" (CPtr (CNamed "struct obj_cgroup"));
    fld "name" (CArray c_char 16);
    pad c_long 64;
    pad c_long 64;
    fld "refcnt" (CNamed "atomic64_t");
    fld "usercnt" (CNamed "atomic64_t");
    anon (CUnion false [
      fld "work" (CNamed "struct work_struct");
      fld "rcu" (CNamed "struct callback_head")]);
    fld "freeze_mutex" (CNamed "struct mutex");
    fld "writecnt" (CNamed "atomic64_t");
    fld "owner_lock" (CNamed "spinlock_t");
    fld "owner" (CPtr (CNamed "struct bpf_map_owner"));
    fld "bypass_spec_v1" (CNamed "bool");
    fld "frozen" (CNamed "bool");
    fld "free_after_mult_rcu_gp" (CNamed "bool");
    fld "free_after_rcu_gp" (CNamed "bool");
    fld "sleepable_refcnt" (CNamed "atomic64_t");
    fld "elem_count" (CPtr (CNamed "s64"));
    fld "cookie" (CNamed "u64");
    pad c_long 64;
    pad c_long 64;
    pad c_long 64;
    pad c_long 64;
    pad c_long 64;
    pad c_long 64;
    pad c_long 64]).

Definition struct_bpf_ksym : cdecl :=
  decl "struct bpf_ksym" (CStruct false [
    fld "start" c_ulong;
    fld "end" c_ulong;
    fld "name" (CArray c_char 512);
    fld "lnode" (CNamed "struct list_head");
    fld "tnode" (CNamed "struct latch_tree_node");
    fld "prog" (CNamed "bool")]).

Definition struct_bpf_prog_aux : cdecl :=
  decl "struct bpf_prog_aux" (CStruct false [
    fld "refcnt" (CNamed "atomic64_t");
    fld "used_map_cnt" (CNamed "u32");
    fld "used_btf_cnt" (CNamed "u32");
    fld "max_ctx_offset" (CNamed "u32");
    fld "max_pkt_offset" (CNamed "u32");
    fld "max_tp_access" (CNamed "u32");
    fld "stack_depth" (CNamed "u32");
    fld "id" (CNamed "u32");
    fld "func_cnt" (CNamed "u32");
    fld "real_func_cnt" (CNamed "u32");
    fld "func_idx" (CNamed "u32");
    fld "attach_btf_id" (CNamed "u32");
    fld "ctx_arg_info_size" (CNamed "u32");
    fld "max_rdonly_access" (CNamed "u32");
    fld "max_rdwr_access" (CNamed "u32");
    fld "attach_btf" (CPtr (CNamed "struct btf"));
    fld "ctx_arg_info" (CPtr (CNamed "struct bpf_ctx_arg_aux"));
    fld "dst_mutex" (CNamed "struct mutex");
    fld "dst_prog" (CPtr (CNamed "struct bpf_prog"));
    fld "dst_trampoline" (CPtr (CNamed "struct bpf_trampoline"));
    fld "saved_dst_prog_type" (CNamed "enum bpf_prog_type");
    fld "saved_dst_attach_type" (CNamed "enum bpf_attach_type");
    fld "verifier_zext" (CNamed "bool");
    fld "dev_bound" (CNamed "bool");
    fld "offload_requested" (CNamed "bool");
    fld "attach_btf_trace" (CNamed "bool");
    fld "attach_tracing_prog" (CNamed "bool");
    fld "func_proto_unreliable" (CNamed "bool");
    fld "sleepable" (CNamed "bool");
    fld "tail_call_reachable" (CNamed "bool");
    fld "xdp_has_frags" (CNamed "bool");
    fld "exception_cb" (CNamed "bool");
    fld "exception_boundary" (CNamed "bool");
    fld "is_extended" (CNamed "bool");
    fld "prog_array_member_cnt" (CNamed "u64");
    fld "ext_mutex" (CNamed "struct mutex");
    fld "attach_func_proto" (CPtr (CNamed "struct btf_type"));
    fld "attach_func_name" (CPtr c_char);
    fld "func" (CPtr (CPtr (CNamed "struct bpf_prog")));
    fld "jit_data" (CPtr CVoid);
    fld "poke_tab" (CPtr (CNamed "struct bpf_jit_poke_descriptor"));
    fld "kfunc_tab" (CPtr (CNamed "struct bpf_kfunc_desc_tab"));
    fld "kfunc_btf_tab" (CPtr (CNamed "struct bpf_kfunc_btf_tab"));
    fld "size_poke_tab" (CNamed "u32");
    fld "ksym" (CNamed "struct bpf_ksym");
    fld "ops" (CPtr (CNamed "struct bpf_prog_ops"));
    fld "used_maps" (CPtr (CPtr (CNamed "struct bpf_map")));
    fld "used_maps_mutex" (CNamed "struct mutex");
    fld "used_btfs" (CPtr (CNamed "struct btf_mod_pair"));
    fld "prog" (CPtr (CNamed "struct bpf_prog"));
    fld "user" (CPtr (CNamed "struct user_struct"));
    fld "load_time" (CNamed "u64");
    fld "verified_insns" (CNamed "u32");
    fld "cgroup_atype" c_int;
    fld "cgroup_storage" (CArray (CPtr (CNamed "struct bpf_map")) 2);
    fld "name" (CArray c_char 16);
    fld "bpf_exception_cb" (CPtr (CFun (CNamed "u64")));
    fld "security" (CPtr CVoid);
    fld "offload" (CPtr (CNamed "struct bpf_prog_offload"));
    fld "btf" (CPtr (CNamed "struct btf"));
    fld "func_info" (CPtr (CNamed "struct bpf_func_info"));
    fld "func_info_aux" (CPtr (CNamed "struct bpf_func_info_aux"));
    fld "linfo" (CPtr (CNamed "struct bpf_line_info"));
    fld "jited_linfo" (CPtr (CPtr CVoid));
    fld "func_info_cnt" (CNamed "u32");
    fld "nr_linfo" (CNamed "u32");
    fld "linfo_idx" (CNamed "u32");
    fld "mod" (CPtr (CNamed "struct module"));
    fld "num_exentries" (CNamed "u32");
    fld "extable" (CPtr (CNamed "struct exception_table_entry"));
    anon (CUnion false [
      fld "work" (CNamed "struct work_struct");
      fld "rcu" (CNamed "struct callback_head")])]).

Definition struct_flowi_tunnel : cdecl :=
  decl "struct flowi_tunnel" (CStruct false [
    fld "tun_id" (CNamed "__be64")]).

Definition struct_flowi_common : cdecl :=
  decl "struct flowi_common" (CStruct false [
    fld "flowic_oif" c_int;
    fld "flowic_iif" c_int;
    fld "flowic_l3mdev" c_int;
    fld "flowic_mark" (CNamed "__u32");
    fld "flowic_tos" (CNamed "__u8");
    fld "flowic_scope" (CNamed "__u8");
    fld "flowic_proto" (CNamed "__u8");
    fld "flowic_flags" (CNamed "__u8");
    fld "flowic_secid" (CNamed "__u32");
    fld "flowic_uid" (CNamed "kuid_t");
    fld "flowic_multipath_hash" (CNamed "__u32");
    fld "flowic_tun_key" (CNamed "struct flowi_tunnel")]).

Definition union_flowi_uli : cdecl :=
  decl "union flowi_uli" (CUnion false [
    fld "ports" (CStruct false [
      fld "dport" (CNamed "__be16");
      fld "sport" (CNamed "__be16")]);
    fld "icmpt" (CStruct false [
      fld "type" (CNamed "__u8");
      fld "code" (CNamed "__u8")]);
    fld "gre_key" (CNamed "__be32");
    fld "mht" (CStruct false [
      fld "type" (CNamed "__u8")])]).

Definition struct_flowi4 : cdecl :=
  decl "struct flowi4" (CStruct false [
    fld "__fl_common" (CNamed "struct flowi_common");
    fld "saddr" (CNamed "__be32");
    fld "daddr" (CNamed "__be32");
    fld "uli" (CNamed "union flowi_uli")]).

Definition struct_flowi6 : cdecl :=
  decl "struct flowi6" (CStruct false [
    fld "__fl_common" (CNamed "struct flowi_common");
    fld "daddr" (CNamed "struct in6_addr");
    fld "saddr" (CNamed "struct in6_addr");
    fld "flowlabel" (CNamed "__be32");
    fld "uli" (CNamed "union flowi_uli");
    fld "mp_hash" (CNamed "__u32")]).

Definition struct_flowi : cdecl :=
  decl "struct flowi" (CStruct false [
    fld "u" (CUnion false [
      fld "__fl_common" (CNamed "struct flowi_common");
      fld "ip4" (CNamed "struct flowi4");
      fld "ip6" (CNamed "struct flowi6")])]).

Definition typedef_socket_state : cdecl :=
  decl "socket_state" (CEnum 4 [
    ("SS_FREE", 0);
    ("SS_UNCONNECTED", 1);
    ("SS_CONNECTING", 2);
    ("SS_CONNECTED", 3);
    ("SS_DISCONNECTING", 4)]).

Definition struct_socket_wq : cdecl :=
  decl "struct socket_wq" (CStruct false [
    fld "wait" (CNamed "wait_queue_head_t");
    fld "fasync_list" (CPtr (CNamed "struct fasync_struct"));
    fld "flags" c_ulong;
    fld "rcu" (CNamed "struct callback_head");
    pad c_long 64]).

Definition struct_socket : cdecl :=
  decl "struct socket" (CStruct false [
    fld "state" (CNamed "socket_state");
    fld "type" c_short;
    fld "flags" c_ulong;
    fld "file" (CPtr (CNamed "struct file"));
    fld "sk" (CPtr (CNamed "struct sock"));
    fld "ops" (CPtr (CNamed "struct proto_ops"));
    pad c_long 64;
    pad c_long 64;
    pad c_long 64;
    fld "wq" (CNamed "struct socket_wq")]).

Definition struct_proto : cdecl :=
  decl "struct proto" (CStruct false [
    fld "close" (CPtr (CFun CVoid));
    fld "pre_connect" (CPtr (CFun c_int));
    fld "connect" (CPtr (CFun c_int));
    fld "disconnect" (CPtr (CFun c_int));
    fld "accept" (CPtr (CFun (CPtr (CNamed "struct sock"))));
    fld "ioctl" (CPtr (CFun c_int));
    fld "init" (CPtr (CFun c_int));
    fld "destroy" (CPtr (CFun CVoid));
    fld "shutdown" (CPtr (CFun CVoid));
    fld "setsockopt" (CPtr (CFun c_int));
    fld "getsockopt" (CPtr (CFun c_int));
    fld "keepalive" (CPtr (CFun CVoid));
    fld "compat_ioctl" (CPtr (CFun c_int));
    fld "sendmsg" (CPtr (CFun c_int));
    fld "recvmsg" (CPtr (CFun c_int));
    fld "splice_eof" (CPtr (CFun CVoid));
    fld "bind" (CPtr (CFun c_int));
    fld "bind_add" (CPtr (CFun c_int));
    fld "backlog_rcv" (CPtr (CFun c_int));
    fld "bpf_bypass_getsockopt" (CPtr (CFun (CNamed "bool")));
    fld "release_cb" (CPtr (CFun CVoid));
    fld "hash" (CPtr (CFun c_int));
    fld "unhash" (CPtr (CFun CVoid));
    fld "rehash" (CPtr (CFun CVoid));
    fld "get_port" (CPtr (CFun c_int));
    fld "put_port" (CPtr (CFun CVoid));
    fld "psock_update_sk_prot" (CPtr (CFun c_int));
    fld "inuse_idx" c_uint;
    fld "forward_alloc_get" (CPtr (CFun c_int));
    fld "stream_memory_free" (CPtr (CFun (CNamed "bool")));
    fld "sock_is_readable" (CPtr (CFun (CNamed "bool")));
    fld "enter_memory_pressure" (CPtr (CFun CVoid));
    fld "leave_memory_pressure" (CPtr (CFun CVoid));
    fld "memory_allocated" (CPtr (CNamed "atomic_long_t"));
    fld "per_cpu_fw_alloc" (CPtr c_int);
    fld "sockets_allocated" (CPtr (CNamed "struct percpu_counter"));
    fld "memory_pressure" (CPtr c_ulong);
    fld "sysctl_mem" (CPtr c_long);
    fld "sysctl_wmem" (CPtr c_int);
    fld "sysctl_rmem" (CPtr c_int);
    fld "sysctl_wmem_offset" (CNamed "u32");
    fld "sysctl_rmem_offset" (CNamed "u32");
    fld "max_header" c_int;
    fld "no_autobind" (CNamed "bool");
    fld "slab" (CPtr (CNamed "struct kmem_cache"));
    fld "obj_size" c_uint;
    fld "ipv6_pinfo_offset" c_uint;
    fld "slab_flags" (CNamed "slab_flags_t");
    fld "useroffset" c_uint;
    fld "usersize" c_uint;
    fld "orphan_count" (CPtr c_uint);
    fld "rsk_prot" (CPtr (CNamed "struct request_sock_ops"));
    fld "twsk_prot" (CPtr (CNamed "struct timewait_sock_ops"));
    fld "h" (CUnion false [
      fld "hashinfo" (CPtr (CNamed "struct inet_hashinfo"));
      fld "udp_table" (CPtr (CNamed "struct udp_table"));
      fld "raw_hash" (CPtr (CNamed "struct raw_hashinfo"));
      fld "smc_hash" (CPtr (CNamed "struct smc_hashinfo"))]);
    fld "owner" (CPtr (CNamed "struct module"));
    fld "name" (CArray c_char 32);
    fld "node" (CNamed "struct list_head");
    fld "diag_destroy" (CPtr (CFun c_int))]).

(** Declarations that stand together in the header, by its lines. *)
Definition vmlinux_19408_19446 : list cdecl := [struct_arch_specific_insn; typedef_kprobe_pre_handler_t;
  typedef_kprobe_post_handler_t; struct_kprobe].

Definition vmlinux_25083_25178 : list cdecl := [enum_bpf_prog_type; enum_bpf_attach_type].

Definition vmlinux_25445_25465 : list cdecl := [struct_sock_filter; typedef___kernel_sa_family_t; typedef_sa_family_t;
  struct_sockaddr].

Definition vmlinux_25493_25499 : list cdecl := [typedef___addrpair; typedef___portpair; typedef_possible_net_t].

Definition vmlinux_25564_25572 : list cdecl := [typedef_socket_lock_t; typedef_netdev_features_t;
  typedef_netns_tracker].

Definition vmlinux_26900_26956 : list cdecl := [struct_flowi_tunnel; struct_flowi_common; union_flowi_uli;
  struct_flowi4; struct_flowi6; struct_flowi].

Definition vmlinux_27605_27619 : list cdecl := [typedef_socket_state; struct_socket_wq].

(** The declarations above, in textual order. *)
Definition vmlinuxnet_decls : list cdecl :=
  [typedef_sk_buff_data_t;
   struct_sk_buff;
   struct_in6_addr;
   struct_hlist_nulls_node;
   typedef_kprobe_opcode_t] ++
  vmlinux_19408_19446 ++
  [typedef_slab_flags_t;
   typedef___be64;
   struct_sock_cgroup_data;
   struct_bpf_insn;
   enum_bpf_map_type] ++
  vmlinux_25083_25178 ++
  [union_bpf_attr] ++
  vmlinux_25445_25465 ++
  vmlinux_25493_25499 ++
  [struct_sock_common] ++
  vmlinux_25564_25572 ++
  [struct_sock;
   struct_bpf_prog;
   struct_bpf_map_ops;
   struct_bpf_map;
   struct_bpf_ksym;
   struct_bpf_prog_aux] ++
  vmlinux_26900_26956 ++
  vmlinux_27605_27619 ++
  [struct_socket;
   struct_proto].
