(* ===== verification/VmlinuxBpf.v ===== *)
(** * Kernel types of [vmlinux.h], lines 31040 to 136019: BPF helper identifiers, maps, kprobes and the TCP socket types

    One definition per declaration of [agent/ebpf/bpf/vmlinux.h] that the BPF
    program, its helpers or its attachment reach by value, transcribed member
    by member in the order of the header.  Qualifiers and function parameter
    types, which have no effect on layout, are dropped. *)
From S2P Require Import Prelude CTypes.

Definition struct_dyn_event : cdecl :=
  decl "struct dyn_event" (CStruct false [
    fld "list" (CNamed "struct list_head");
    fld "ops" (CPtr (CNamed "struct dyn_event_operations"))]).

Definition struct_fprobe : cdecl :=
  decl "struct fprobe" (CStruct false [
    fld "ops" (CNamed "struct ftrace_ops");
    fld "nmissed" c_ulong;
    fld "flags" c_uint;
    fld "rethook" (CPtr (CNamed "struct rethook"));
    fld "entry_data_size" (CNamed "size_t");
    fld "nr_maxactive" c_int;
    fld "entry_handler" (CPtr (CFun c_int));
    fld "exit_handler" (CPtr (CFun CVoid))]).

Definition enum_bpf_func_id_constants_1 : list (string * Z) := [
    ("BPF_FUNC_unspec", 0);
    ("BPF_FUNC_map_lookup_elem", 1);
    ("BPF_FUNC_map_update_elem", 2);
    ("BPF_FUNC_map_delete_elem", 3);
    ("BPF_FUNC_probe_read", 4);
    ("BPF_FUNC_ktime_get_ns", 5);
    ("BPF_FUNC_trace_printk", 6);
    ("BPF_FUNC_get_prandom_u32", 7);
    ("BPF_FUNC_get_smp_processor_id", 8);
    ("BPF_FUNC_skb_store_bytes", 9);
    ("BPF_FUNC_l3_csum_replace", 10);
    ("BPF_FUNC_l4_csum_replace", 11);
    ("BPF_FUNC_tail_call", 12);
    ("BPF_FUNC_clone_redirect", 13);
    ("BPF_FUNC_get_current_pid_tgid", 14);
    ("BPF_FUNC_get_current_uid_gid", 15);
    ("BPF_FUNC_get_current_comm", 16);
    ("BPF_FUNC_get_cgroup_classid", 17);
    ("BPF_FUNC_skb_vlan_push", 18);
    ("BPF_FUNC_skb_vlan_pop", 19);
    ("BPF_FUNC_skb_get_tunnel_key", 20);
    ("BPF_FUNC_skb_set_tunnel_key", 21);
    ("BPF_FUNC_perf_event_read", 22);
    ("BPF_FUNC_redirect", 23);
    ("BPF_FUNC_get_route_realm", 24);
    ("BPF_FUNC_perf_event_output", 25);
    ("BPF_FUNC_skb_load_bytes", 26);
    ("BPF_FUNC_get_stackid", 27);
    ("BPF_FUNC_csum_diff", 28);
    ("BPF_FUNC_skb_get_tunnel_opt", 29);
    ("BPF_FUNC_skb_set_tunnel_opt", 30);
    ("BPF_FUNC_skb_change_proto", 31);
    ("BPF_FUNC_skb_change_type", 32);
    ("BPF_FUNC_skb_under_cgroup", 33);
    ("BPF_FUNC_get_hash_recalc", 34);
    ("BPF_FUNC_get_current_task", 35);
    ("BPF_FUNC_probe_write_user", 36);
    ("BPF_FUNC_current_task_under_cgroup", 37);
    ("BPF_FUNC_skb_change_tail", 38);
    ("BPF_FUNC_skb_pull_data", 39);
    ("BPF_FUNC_csum_update", 40);
    ("BPF_FUNC_set_hash_invalid", 41);
    ("BPF_FUNC_get_numa_node_id", 42);
    ("BPF_FUNC_skb_change_head", 43);
    ("BPF_FUNC_xdp_adjust_head", 44);
    ("BPF_FUNC_probe_read_str", 45);
    ("BPF_FUNC_get_socket_cookie", 46);
    ("BPF_FUNC_get_socket_uid", 47);
    ("BPF_FUNC_set_hash", 48);
    ("BPF_FUNC_setsockopt", 49);
    ("BPF_FUNC_skb_adjust_room", 50);
    ("BPF_FUNC_redirect_map", 51);
    ("BPF_FUNC_sk_redirect_map", 52);
    ("BPF_FUNC_sock_map_update", 53);
    ("BPF_FUNC_xdp_adjust_meta", 54);
    ("BPF_FUNC_perf_event_read_value", 55);
    ("BPF_FUNC_perf_prog_read_value", 56);
    ("BPF_FUNC_getsockopt", 57);
    ("BPF_FUNC_override_return", 58);
    ("BPF_FUNC_sock_ops_cb_flags_set", 59);
    ("BPF_FUNC_msg_redirect_map", 60);
    ("BPF_FUNC_msg_apply_bytes", 61);
    ("BPF_FUNC_msg_cork_bytes", 62);
    ("BPF_FUNC_msg_pull_data", 63);
    ("BPF_FUNC_bind", 64);
    ("BPF_FUNC_xdp_adjust_tail", 65);
    ("BPF_FUNC_skb_get_xfrm_state", 66);
    ("BPF_FUNC_get_stack", 67);
    ("BPF_FUNC_skb_load_bytes_relative", 68);
    ("BPF_FUNC_fib_lookup", 69);
    ("BPF_FUNC_sock_hash_update", 70);
    ("BPF_FUNC_msg_redirect_hash", 71);
    ("BPF_FUNC_sk_redirect_hash", 72);
    ("BPF_FUNC_lwt_push_encap", 73);
    ("BPF_FUNC_lwt_seg6_store_bytes", 74);
    ("BPF_FUNC_lwt_seg6_adjust_srh", 75);
    ("BPF_FUNC_lwt_seg6_action", 76);
    ("BPF_FUNC_rc_repeat", 77);
    ("BPF_FUNC_rc_keydown", 78);
    ("BPF_FUNC_skb_cgroup_id", 79);
    ("BPF_FUNC_get_current_cgroup_id", 80);
    ("BPF_FUNC_get_local_storage", 81);
    ("BPF_FUNC_sk_select_reuseport", 82);
    ("BPF_FUNC_skb_ancestor_cgroup_id", 83);
    ("BPF_FUNC_sk_lookup_tcp", 84);
    ("BPF_FUNC_sk_lookup_udp", 85);
    ("BPF_FUNC_sk_release", 86);
    ("BPF_FUNC_map_push_elem", 87);
    ("BPF_FUNC_map_pop_elem", 88);
    ("BPF_FUNC_map_peek_elem", 89);
    ("BPF_FUNC_msg_push_data", 90);
    ("BPF_FUNC_msg_pop_data", 91);
    ("BPF_FUNC_rc_pointer_rel", 92);
    ("BPF_FUNC_spin_lock", 93);
    ("BPF_FUNC_spin_unlock", 94);
    ("BPF_FUNC_sk_fullsock", 95);
    ("BPF_FUNC_tcp_sock", 96);
    ("BPF_FUNC_skb_ecn_set_ce", 97);
    ("BPF_FUNC_get_listener_sock", 98);
    ("BPF_FUNC_skc_lookup_tcp", 99);
    ("BPF_FUNC_tcp_check_syncookie", 100);
    ("BPF_FUNC_sysctl_get_name", 101);
    ("BPF_FUNC_sysctl_get_current_value", 102);
    ("BPF_FUNC_sysctl_get_new_value", 103);
    ("BPF_FUNC_sysctl_set_new_value", 104);
    ("BPF_FUNC_strtol", 105)].

Definition enum_bpf_func_id_constants_2 : list (string * Z) := [
    ("BPF_FUNC_strtoul", 106);
    ("BPF_FUNC_sk_storage_get", 107);
    ("BPF_FUNC_sk_storage_delete", 108);
    ("BPF_FUNC_send_signal", 109);
    ("BPF_FUNC_tcp_gen_syncookie", 110);
    ("BPF_FUNC_skb_output", 111);
    ("BPF_FUNC_probe_read_user", 112);
    ("BPF_FUNC_probe_read_kernel", 113);
    ("BPF_FUNC_probe_read_user_str", 114);
    ("BPF_FUNC_probe_read_kernel_str", 115);
    ("BPF_FUNC_tcp_send_ack", 116);
    ("BPF_FUNC_send_signal_thread", 117);
    ("BPF_FUNC_jiffies64", 118);
    ("BPF_FUNC_read_branch_records", 119);
    ("BPF_FUNC_get_ns_current_pid_tgid", 120);
    ("BPF_FUNC_xdp_output", 121);
    ("BPF_FUNC_get_netns_cookie", 122);
    ("BPF_FUNC_get_current_ancestor_cgroup_id", 123);
    ("BPF_FUNC_sk_assign", 124);
    ("BPF_FUNC_ktime_get_boot_ns", 125);
    ("BPF_FUNC_seq_printf", 126);
    ("BPF_FUNC_seq_write", 127);
    ("BPF_FUNC_sk_cgroup_id", 128);
    ("BPF_FUNC_sk_ancestor_cgroup_id", 129);
    ("BPF_FUNC_ringbuf_output", 130);
    ("BPF_FUNC_ringbuf_reserve", 131);
    ("BPF_FUNC_ringbuf_submit", 132);
    ("BPF_FUNC_ringbuf_discard", 133);
    ("BPF_FUNC_ringbuf_query", 134);
    ("BPF_FUNC_csum_level", 135);
    ("BPF_FUNC_skc_to_tcp6_sock", 136);
    ("BPF_FUNC_skc_to_tcp_sock", 137);
    ("BPF_FUNC_skc_to_tcp_timewait_sock", 138);
    ("BPF_FUNC_skc_to_tcp_request_sock", 139);
    ("BPF_FUNC_skc_to_udp6_sock", 140);
    ("BPF_FUNC_get_task_stack", 141);
    ("BPF_FUNC_load_hdr_opt", 142);
    ("BPF_FUNC_store_hdr_opt", 143);
    ("BPF_FUNC_reserve_hdr_opt", 144);
    ("BPF_FUNC_inode_storage_get", 145);
    ("BPF_FUNC_inode_storage_delete", 146);
    ("BPF_FUNC_d_path", 147);
    ("BPF_FUNC_copy_from_user", 148);
    ("BPF_FUNC_snprintf_btf", 149);
    ("BPF_FUNC_seq_printf_btf", 150);
    ("BPF_FUNC_skb_cgroup_classid", 151);
    ("BPF_FUNC_redirect_neigh", 152);
    ("BPF_FUNC_per_cpu_ptr", 153);
    ("BPF_FUNC_this_cpu_ptr", 154);
    ("BPF_FUNC_redirect_peer", 155);
    ("BPF_FUNC_task_storage_get", 156);
    ("BPF_FUNC_task_storage_delete", 157);
    ("BPF_FUNC_get_current_task_btf", 158);
    ("BPF_FUNC_bprm_opts_set", 159);
    ("BPF_FUNC_ktime_get_coarse_ns", 160);
    ("BPF_FUNC_ima_inode_hash", 161);
    ("BPF_FUNC_sock_from_file", 162);
    ("BPF_FUNC_check_mtu", 163);
    ("BPF_FUNC_for_each_map_elem", 164);
    ("BPF_FUNC_snprintf", 165);
    ("BPF_FUNC_sys_bpf", 166);
    ("BPF_FUNC_btf_find_by_name_kind", 167);
    ("BPF_FUNC_sys_close", 168);
    ("BPF_FUNC_timer_init", 169);
    ("BPF_FUNC_timer_set_callback", 170);
    ("BPF_FUNC_timer_start", 171);
    ("BPF_FUNC_timer_cancel", 172);
    ("BPF_FUNC_get_func_ip", 173);
    ("BPF_FUNC_get_attach_cookie", 174);
    ("BPF_FUNC_task_pt_regs", 175);
    ("BPF_FUNC_get_branch_snapshot", 176);
    ("BPF_FUNC_trace_vprintk", 177);
    ("BPF_FUNC_skc_to_unix_sock", 178);
    ("BPF_FUNC_kallsyms_lookup_name", 179);
    ("BPF_FUNC_find_vma", 180);
    ("BPF_FUNC_loop", 181);
    ("BPF_FUNC_strncmp", 182);
    ("BPF_FUNC_get_func_arg", 183);
    ("BPF_FUNC_get_func_ret", 184);
    ("BPF_FUNC_get_func_arg_cnt", 185);
    ("BPF_FUNC_get_retval", 186);
    ("BPF_FUNC_set_retval", 187);
    ("BPF_FUNC_xdp_get_buff_len", 188);
    ("BPF_FUNC_xdp_load_bytes", 189);
    ("BPF_FUNC_xdp_store_bytes", 190);
    ("BPF_FUNC_copy_from_user_task", 191);
    ("BPF_FUNC_skb_set_tstamp", 192);
    ("BPF_FUNC_ima_file_hash", 193);
    ("BPF_FUNC_kptr_xchg", 194);
    ("BPF_FUNC_map_lookup_percpu_elem", 195);
    ("BPF_FUNC_skc_to_mptcp_sock", 196);
    ("BPF_FUNC_dynptr_from_mem", 197);
    ("BPF_FUNC_ringbuf_reserve_dynptr", 198);
    ("BPF_FUNC_ringbuf_submit_dynptr", 199);
    ("BPF_FUNC_ringbuf_discard_dynptr", 200);
    ("BPF_FUNC_dynptr_read", 201);
    ("BPF_FUNC_dynptr_write", 202);
    ("BPF_FUNC_dynptr_data", 203);
    ("BPF_FUNC_tcp_raw_gen_syncookie_ipv4", 204);
    ("BPF_FUNC_tcp_raw_gen_syncookie_ipv6", 205);
    ("BPF_FUNC_tcp_raw_check_syncookie_ipv4", 206);
    ("BPF_FUNC_tcp_raw_check_syncookie_ipv6", 207);
    ("BPF_FUNC_ktime_get_tai_ns", 208);
    ("BPF_FUNC_user_ringbuf_drain", 209);
    ("BPF_FUNC_cgrp_storage_get", 210);
    ("BPF_FUNC_cgrp_storage_delete", 211);
    ("__BPF_FUNC_MAX_ID", 212)].

Definition enum_bpf_func_id : cdecl :=
  decl "enum bpf_func_id" (CEnum 4 (enum_bpf_func_id_constants_1 ++ enum_bpf_func_id_constants_2)).

Definition struct_bpf_mem_alloc : cdecl :=
  decl "struct bpf_mem_alloc" (CStruct false [
    fld "caches" (CPtr (CNamed "struct bpf_mem_caches"));
    fld "cache" (CPtr (CNamed "struct bpf_mem_cache"));
    fld "objcg" (CPtr (CNamed "struct obj_cgroup"));
    fld "percpu" (CNamed "bool");
    fld "work" (CNamed "struct work_struct")]).

Definition enum_BPF_ANY : cdecl :=
  decl "enum BPF_ANY" (CEnum 4 [
    ("BPF_ANY", 0);
    ("BPF_NOEXIST", 1);
    ("BPF_EXIST", 2);
    ("BPF_F_LOCK", 4)]).

Definition struct_pcpu_freelist_head : cdecl :=
  decl "struct pcpu_freelist_head" (CStruct false [
    fld "first" (CPtr (CNamed "struct pcpu_freelist_node"));
    fld "lock" (CNamed "raw_spinlock_t")]).

Definition struct_pcpu_freelist_node : cdecl :=
  decl "struct pcpu_freelist_node" (CStruct false [
    fld "next" (CPtr (CNamed "struct pcpu_freelist_node"))]).

Definition struct_pcpu_freelist : cdecl :=
  decl "struct pcpu_freelist" (CStruct false [
    fld "freelist" (CPtr (CNamed "struct pcpu_freelist_head"));
    fld "extralist" (CNamed "struct pcpu_freelist_head")]).

Definition struct_bpf_lru_node : cdecl :=
  decl "struct bpf_lru_node" (CStruct false [
    fld "list" (CNamed "struct list_head");
    fld "cpu" (CNamed "u16");
    fld "type" (CNamed "u8");
    fld "ref" (CNamed "u8")]).

Definition struct_bpf_lru_list : cdecl :=
  decl "struct bpf_lru_list" (CStruct false [
    fld "lists" (CArray (CNamed "struct list_head") 3);
    fld "counts" (CArray c_uint 2);
    fld "next_inactive_rotation" (CPtr (CNamed "struct list_head"));
    fld "lock" (CNamed "raw_spinlock_t");
    pad c_long 64;
    pad c_long 64;
    pad c_long 64;
    pad c_long 64;
    pad c_long 64;
    pad c_long 64;
    pad c_long 64]).

Definition struct_bpf_common_lru : cdecl :=
  decl "struct bpf_common_lru" (CStruct false [
    fld "lru_list" (CNamed "struct bpf_lru_list");
    fld "local_list" (CPtr (CNamed "struct bpf_lru_locallist"));
    pad c_long 64;
    pad c_long 64;
    pad c_long 64;
    pad c_long 64;
    pad c_long 64;
    pad c_long 64;
    pad c_long 64]).

Definition typedef_del_from_htab_func : cdecl :=
  decl "del_from_htab_func" (CPtr (CFun (CNamed "bool"))).

Definition struct_bpf_lru : cdecl :=
  decl "struct bpf_lru" (CStruct false [
    anon (CUnion false [
      fld "common_lru" (CNamed "struct bpf_common_lru");
      fld "percpu_lru" (CPtr (CNamed "struct bpf_lru_list"))]);
    fld "del_from_htab" (CNamed "del_from_htab_func");
    fld "del_arg" (CPtr CVoid);
    fld "hash_offset" c_uint;
    fld "target_free" c_uint;
    fld "nr_scans" c_uint;
    fld "percpu" (CNamed "bool");
    pad c_long 64;
    pad c_long 64;
    pad c_long 64;
    pad c_long 64]).

Definition struct_bpf_htab : cdecl :=
  decl "struct bpf_htab" (CStruct false [
    fld "map" (CNamed "struct bpf_map");
    fld "ma" (CNamed "struct bpf_mem_alloc");
    fld "pcpu_ma" (CNamed "struct bpf_mem_alloc");
    fld "buckets" (CPtr (CNamed "struct bucket"));
    fld "elems" (CPtr CVoid);
    pad c_long 64;
    pad c_long 64;
    pad c_long 64;
    pad c_long 64;
    pad c_long 64;
    pad c_long 64;
    anon (CUnion false [
      fld "freelist" (CNamed "struct pcpu_freelist");
      fld "lru" (CNamed "struct bpf_lru")]);
    fld "extra_elems" (CPtr (CPtr (CNamed "struct htab_elem")));
    fld "pcount" (CNamed "struct percpu_counter");
    fld "count" (CNamed "atomic_t");
    fld "use_percpu_counter" (CNamed "bool");
    fld "n_buckets" (CNamed "u32");
    fld "elem_size" (CNamed "u32");
    fld "hashrnd" (CNamed "u32");
    fld "lockdep_key" (CNamed "struct lock_class_key");
    fld "map_locked" (CArray (CPtr c_int) 8);
    pad c_long 64;
    pad c_long 64;
    pad c_long 64;
    pad c_long 64;
    pad c_long 64;
    pad c_long 64;
    pad c_long 64]).

Definition struct_htab_elem : cdecl :=
  decl "struct htab_elem" (CStruct false [
    anon (CUnion false [
      fld "hash_node" (CNamed "struct hlist_nulls_node");
      anon (CStruct false [
        fld "padding" (CPtr CVoid);
        anon (CUnion false [
          fld "fnode" (CNamed "struct pcpu_freelist_node");
          fld "batch_flink" (CPtr (CNamed "struct htab_elem"))])])]);
    anon (CUnion false [
      fld "ptr_to_pptr" (CPtr CVoid);
      fld "lru_node" (CNamed "struct bpf_lru_node")]);
    fld "hash" (CNamed "u32");
    pad c_long 0;
    fld "key" (CArray c_char 0)]).

Definition struct_bpf_ringbuf : cdecl :=
  decl "struct bpf_ringbuf" (CStruct false ([
    fld "waitq" (CNamed "wait_queue_head_t");
    fld "work" (CNamed "struct irq_work");
    fld "mask" (CNamed "u64");
    fld "pages" (CPtr (CPtr (CNamed "struct page")));
    fld "nr_pages" c_int;
    pad c_long 64;
    pad c_long 64;
    pad c_long 64;
    pad c_long 64;
    pad c_long 64;
    pad c_long 64;
    fld "spinlock" (CNamed "raw_spinlock_t");
    pad c_long 64;
    pad c_long 64;
    pad c_long 64;
    pad c_long 64;
    pad c_long 64;
    pad c_long 64;
    pad c_long 64;
    fld "busy" (CNamed "atomic_t")] ++ pads 487 c_long 64 ++ [
    fld "consumer_pos" c_ulong] ++ pads 511 c_long 64 ++ [
    fld "producer_pos" c_ulong;
    fld "pending_pos" c_ulong] ++ pads 510 c_long 64 ++ [
    fld "data" (CArray c_char 0)])).

Definition struct_bpf_ringbuf_map : cdecl :=
  decl "struct bpf_ringbuf_map" (CStruct false [
    fld "map" (CNamed "struct bpf_map");
    fld "rb" (CPtr (CNamed "struct bpf_ringbuf"));
    pad c_long 64;
    pad c_long 64;
    pad c_long 64;
    pad c_long 64;
    pad c_long 64;
    pad c_long 64;
    pad c_long 64]).

Definition struct_bpf_ringbuf_hdr : cdecl :=
  decl "struct bpf_ringbuf_hdr" (CStruct false [
    fld "len" (CNamed "u32");
    fld "pg_off" (CNamed "u32")]).

Definition enum_bpf_link_type : cdecl :=
  decl "enum bpf_link_type" (CEnum 4 [
    ("BPF_LINK_TYPE_UNSPEC", 0);
    ("BPF_LINK_TYPE_RAW_TRACEPOINT", 1);
    ("BPF_LINK_TYPE_TRACING", 2);
    ("BPF_LINK_TYPE_CGROUP", 3);
    ("BPF_LINK_TYPE_ITER", 4);
    ("BPF_LINK_TYPE_NETNS", 5);
    ("BPF_LINK_TYPE_XDP", 6);
    ("BPF_LINK_TYPE_PERF_EVENT", 7);
    ("BPF_LINK_TYPE_KPROBE_MULTI", 8);
    ("BPF_LINK_TYPE_STRUCT_OPS", 9);
    ("BPF_LINK_TYPE_NETFILTER", 10);
    ("BPF_LINK_TYPE_TCX", 11);
    ("BPF_LINK_TYPE_UPROBE_MULTI", 12);
    ("BPF_LINK_TYPE_NETKIT", 13);
    ("__MAX_BPF_LINK_TYPE", 14)]).

Definition struct_bpf_link : cdecl :=
  decl "struct bpf_link" (CStruct false [
    fld "refcnt" (CNamed "atomic64_t");
    fld "id" (CNamed "u32");
    fld "type" (CNamed "enum bpf_link_type");
    fld "ops" (CPtr (CNamed "struct bpf_link_ops"));
    fld "prog" (CPtr (CNamed "struct bpf_prog"));
    anon (CUnion false [
      fld "rcu" (CNamed "struct callback_head");
      fld "work" (CNamed "struct work_struct")])]).

Definition struct_request_sock : cdecl :=
  decl "struct request_sock" (CStruct false [
    fld "__req_common" (CNamed "struct sock_common");
    fld "dl_next" (CPtr (CNamed "struct request_sock"));
    fld "mss" (CNamed "u16");
    fld "num_retrans" (CNamed "u8");
    bitf "syncookie" (CNamed "u8") 1;
    bitf "num_timeout" (CNamed "u8") 7;
    fld "ts_recent" (CNamed "u32");
    fld "rsk_timer" (CNamed "struct timer_list");
    fld "rsk_ops" (CPtr (CNamed "struct request_sock_ops"));
    fld "sk" (CPtr (CNamed "struct sock"));
    fld "saved_syn" (CPtr (CNamed "struct saved_syn"));
    fld "secid" (CNamed "u32");
    fld "peer_secid" (CNamed "u32");
    fld "timeout" (CNamed "u32")]).

Definition struct_in6_pktinfo : cdecl :=
  decl "struct in6_pktinfo" (CStruct false [
    fld "ipi6_addr" (CNamed "struct in6_addr");
    fld "ipi6_ifindex" c_int]).

Definition struct_inet_cork : cdecl :=
  decl "struct inet_cork" (CStruct false [
    fld "flags" c_uint;
    fld "addr" (CNamed "__be32");
    fld "opt" (CPtr (CNamed "struct ip_options"));
    fld "fragsize" c_uint;
    fld "length" c_int;
    fld "dst" (CPtr (CNamed "struct dst_entry"));
    fld "tx_flags" (CNamed "u8");
    fld "ttl" (CNamed "__u8");
    fld "tos" (CNamed "__s16");
    fld "priority" c_char;
    fld "gso_size" (CNamed "__u16");
    fld "transmit_time" (CNamed "u64");
    fld "mark" (CNamed "u32")]).

Definition struct_inet_cork_full : cdecl :=
  decl "struct inet_cork_full" (CStruct false [
    fld "base" (CNamed "struct inet_cork");
    fld "fl" (CNamed "struct flowi")]).

Definition struct_inet_sock : cdecl :=
  decl "struct inet_sock" (CStruct false [
    fld "sk" (CNamed "struct sock");
    fld "pinet6" (CPtr (CNamed "struct ipv6_pinfo"));
    fld "inet_flags" c_ulong;
    fld "inet_saddr" (CNamed "__be32");
    fld "uc_ttl" (CNamed "__s16");
    fld "inet_sport" (CNamed "__be16");
    fld "inet_opt" (CPtr (CNamed "struct ip_options_rcu"));
    fld "inet_id" (CNamed "atomic_t");
    fld "tos" (CNamed "__u8");
    fld "min_ttl" (CNamed "__u8");
    fld "mc_ttl" (CNamed "__u8");
    fld "pmtudisc" (CNamed "__u8");
    fld "rcv_tos" (CNamed "__u8");
    fld "convert_csum" (CNamed "__u8");
    fld "uc_index" c_int;
    fld "mc_index" c_int;
    fld "mc_addr" (CNamed "__be32");
    fld "local_port_range" (CNamed "u32");
    fld "mc_list" (CPtr (CNamed "struct ip_mc_socklist"));
    fld "cork" (CNamed "struct inet_cork_full")]).

Definition struct_inet6_cork : cdecl :=
  decl "struct inet6_cork" (CStruct false [
    fld "opt" (CPtr (CNamed "struct ipv6_txoptions"));
    fld "hop_limit" (CNamed "u8");
    fld "tclass" (CNamed "u8")]).

Definition struct_ipv6_pinfo : cdecl :=
  decl "struct ipv6_pinfo" (CStruct false [
    fld "saddr" (CNamed "struct in6_addr");
    fld "sticky_pktinfo" (CNamed "struct in6_pktinfo");
    fld "daddr_cache" (CPtr (CNamed "struct in6_addr"));
    fld "saddr_cache" (CPtr (CNamed "struct in6_addr"));
    fld "flow_label" (CNamed "__be32");
    fld "frag_size" (CNamed "__u32");
    fld "hop_limit" (CNamed "s16");
    fld "mcast_hops" (CNamed "u8");
    fld "ucast_oif" c_int;
    fld "mcast_oif" c_int;
    fld "rxopt" (CUnion false [
      fld "bits" (CStruct false [
        bitf "srcrt" (CNamed "__u16") 1;
        bitf "osrcrt" (CNamed "__u16") 1;
        bitf "rxinfo" (CNamed "__u16") 1;
        bitf "rxoinfo" (CNamed "__u16") 1;
        bitf "rxhlim" (CNamed "__u16") 1;
        bitf "rxohlim" (CNamed "__u16") 1;
        bitf "hopopts" (CNamed "__u16") 1;
        bitf "ohopopts" (CNamed "__u16") 1;
        bitf "dstopts" (CNamed "__u16") 1;
        bitf "odstopts" (CNamed "__u16") 1;
        bitf "rxflow" (CNamed "__u16") 1;
        bitf "rxtclass" (CNamed "__u16") 1;
        bitf "rxpmtu" (CNamed "__u16") 1;
        bitf "rxorigdstaddr" (CNamed "__u16") 1;
        bitf "recvfragsize" (CNamed "__u16") 1]);
      fld "all" (CNamed "__u16")]);
    fld "srcprefs" (CNamed "__u8");
    fld "pmtudisc" (CNamed "__u8");
    fld "min_hopcount" (CNamed "__u8");
    fld "tclass" (CNamed "__u8");
    fld "rcv_flowinfo" (CNamed "__be32");
    fld "dst_cookie" (CNamed "__u32");
    fld "ipv6_mc_list" (CPtr (CNamed "struct ipv6_mc_socklist"));
    fld "ipv6_ac_list" (CPtr (CNamed "struct ipv6_ac_socklist"));
    fld "ipv6_fl_list" (CPtr (CNamed "struct ipv6_fl_socklist"));
    fld "opt" (CPtr (CNamed "struct ipv6_txoptions"));
    fld "pktoptions" (CPtr (CNamed "struct sk_buff"));
    fld "rxpmtu" (CPtr (CNamed "struct sk_buff"));
    fld "cork" (CNamed "struct inet6_cork")]).

Definition struct_in_addr : cdecl :=
  decl "struct in_addr" (CStruct false [
    fld "s_addr" (CNamed "__be32")]).

Definition enum_bpf_cmd : cdecl :=
  decl "enum bpf_cmd" (CEnum 4 [
    ("BPF_MAP_CREATE", 0);
    ("BPF_MAP_LOOKUP_ELEM", 1);
    ("BPF_MAP_UPDATE_ELEM", 2);
    ("BPF_MAP_DELETE_ELEM", 3);
    ("BPF_MAP_GET_NEXT_KEY", 4);
    ("BPF_PROG_LOAD", 5);
    ("BPF_OBJ_PIN", 6);
    ("BPF_OBJ_GET", 7);
    ("BPF_PROG_ATTACH", 8);
    ("BPF_PROG_DETACH", 9);
    ("BPF_PROG_TEST_RUN", 10);
    ("BPF_PROG_RUN", 10);
    ("BPF_PROG_GET_NEXT_ID", 11);
    ("BPF_MAP_GET_NEXT_ID", 12);
    ("BPF_PROG_GET_FD_BY_ID", 13);
    ("BPF_MAP_GET_FD_BY_ID", 14);
    ("BPF_OBJ_GET_INFO_BY_FD", 15);
    ("BPF_PROG_QUERY", 16);
    ("BPF_RAW_TRACEPOINT_OPEN", 17);
    ("BPF_BTF_LOAD", 18);
    ("BPF_BTF_GET_FD_BY_ID", 19);
    ("BPF_TASK_FD_QUERY", 20);
    ("BPF_MAP_LOOKUP_AND_DELETE_ELEM", 21);
    ("BPF_MAP_FREEZE", 22);
    ("BPF_BTF_GET_NEXT_ID", 23);
    ("BPF_MAP_LOOKUP_BATCH", 24);
    ("BPF_MAP_LOOKUP_AND_DELETE_BATCH", 25);
    ("BPF_MAP_UPDATE_BATCH", 26);
    ("BPF_MAP_DELETE_BATCH", 27);
    ("BPF_LINK_CREATE", 28);
    ("BPF_LINK_UPDATE", 29);
    ("BPF_LINK_GET_FD_BY_ID", 30);
    ("BPF_LINK_GET_NEXT_ID", 31);
    ("BPF_ENABLE_STATS", 32);
    ("BPF_ITER_CREATE", 33);
    ("BPF_LINK_DETACH", 34);
    ("BPF_PROG_BIND_MAP", 35)]).

Definition struct_sockaddr_in : cdecl :=
  decl "struct sockaddr_in" (CStruct false [
    fld "sin_family" (CNamed "__kernel_sa_family_t");
    fld "sin_port" (CNamed "__be16");
    fld "sin_addr" (CNamed "struct in_addr");
    fld "__pad" (CArray c_uchar 8)]).

Definition struct_fastopen_queue : cdecl :=
  decl "struct fastopen_queue" (CStruct false [
    fld "rskq_rst_head" (CPtr (CNamed "struct request_sock"));
    fld "rskq_rst_tail" (CPtr (CNamed "struct request_sock"));
    fld "lock" (CNamed "spinlock_t");
    fld "qlen" c_int;
    fld "max_qlen" c_int;
    fld "ctx" (CPtr (CNamed "struct tcp_fastopen_context"))]).

Definition struct_request_sock_queue : cdecl :=
  decl "struct request_sock_queue" (CStruct false [
    fld "rskq_lock" (CNamed "spinlock_t");
    fld "rskq_defer_accept" (CNamed "u8");
    fld "synflood_warned" (CNamed "u32");
    fld "qlen" (CNamed "atomic_t");
    fld "young" (CNamed "atomic_t");
    fld "rskq_accept_head" (CPtr (CNamed "struct request_sock"));
    fld "rskq_accept_tail" (CPtr (CNamed "struct request_sock"));
    fld "fastopenq" (CNamed "struct fastopen_queue")]).

Definition struct_minmax_sample : cdecl :=
  decl "struct minmax_sample" (CStruct false [
    fld "t" (CNamed "u32");
    fld "v" (CNamed "u32")]).

Definition struct_minmax : cdecl :=
  decl "struct minmax" (CStruct false [
    fld "s" (CArray (CNamed "struct minmax_sample") 3)]).

Definition struct_inet_connection_sock_af_ops : cdecl :=
  decl "struct inet_connection_sock_af_ops" (CStruct false [
    fld "queue_xmit" (CPtr (CFun c_int));
    fld "send_check" (CPtr (CFun CVoid));
    fld "rebuild_header" (CPtr (CFun c_int));
    fld "sk_rx_dst_set" (CPtr (CFun CVoid));
    fld "conn_request" (CPtr (CFun c_int));
    fld "syn_recv_sock" (CPtr (CFun (CPtr (CNamed "struct sock"))));
    fld "net_header_len" (CNamed "u16");
    fld "sockaddr_len" (CNamed "u16");
    fld "setsockopt" (CPtr (CFun c_int));
    fld "getsockopt" (CPtr (CFun c_int));
    fld "addr2sockaddr" (CPtr (CFun CVoid));
    fld "mtu_reduced" (CPtr (CFun CVoid))]).

Definition struct_inet_connection_sock : cdecl :=
  decl "struct inet_connection_sock" (CStruct false [
    fld "icsk_inet" (CNamed "struct inet_sock");
    fld "icsk_accept_queue" (CNamed "struct request_sock_queue");
    fld "icsk_bind_hash" (CPtr (CNamed "struct inet_bind_bucket"));
    fld "icsk_bind2_hash" (CPtr (CNamed "struct inet_bind2_bucket"));
    fld "icsk_timeout" c_ulong;
    fld "icsk_retransmit_timer" (CNamed "struct timer_list");
    fld "icsk_delack_timer" (CNamed "struct timer_list");
    fld "icsk_rto" (CNamed "__u32");
    fld "icsk_rto_min" (CNamed "__u32");
    fld "icsk_delack_max" (CNamed "__u32");
    fld "icsk_pmtu_cookie" (CNamed "__u32");
    fld "icsk_ca_ops" (CPtr (CNamed "struct tcp_congestion_ops"));
    fld "icsk_af_ops" (CPtr (CNamed "struct inet_connection_sock_af_ops"));
    fld "icsk_ulp_ops" (CPtr (CNamed "struct tcp_ulp_ops"));
    fld "icsk_ulp_data" (CPtr CVoid);
    fld "icsk_clean_acked" (CPtr (CFun CVoid));
    fld "icsk_sync_mss" (CPtr (CFun c_uint));
    bitf "icsk_ca_state" (CNamed "__u8") 5;
    bitf "icsk_ca_initialized" (CNamed "__u8") 1;
    bitf "icsk_ca_setsockopt" (CNamed "__u8") 1;
    bitf "icsk_ca_dst_locked" (CNamed "__u8") 1;
    fld "icsk_retransmits" (CNamed "__u8");
    fld "icsk_pending" (CNamed "__u8");
    fld "icsk_backoff" (CNamed "__u8");
    fld "icsk_syn_retries" (CNamed "__u8");
    fld "icsk_probes_out" (CNamed "__u8");
    fld "icsk_ext_hdr_len" (CNamed "__u16");
    fld "icsk_ack" (CStruct false [
      fld "pending" (CNamed "__u8");
      fld "quick" (CNamed "__u8");
      fld "pingpong" (CNamed "__u8");
      fld "retry" (CNamed "__u8");
      bitf "ato" (CNamed "__u32") 8;
      bitf "lrcv_flowlabel" (CNamed "__u32") 20;
      bitf "unused" (CNamed "__u32") 4;
      fld "timeout" c_ulong;
      fld "lrcvtime" (CNamed "__u32");
      fld "last_seg_size" (CNamed "__u16");
      fld "rcv_mss" (CNamed "__u16")]);
    fld "icsk_mtup" (CStruct false [
      fld "search_high" c_int;
      fld "search_low" c_int;
      bitf "probe_size" (CNamed "u32") 31;
      bitf "enabled" (CNamed "u32") 1;
      fld "probe_timestamp" (CNamed "u32")]);
    fld "icsk_probes_tstamp" (CNamed "u32");
    fld "icsk_user_timeout" (CNamed "u32");
    fld "icsk_ca_priv" (CArray (CNamed "u64") 13)]).

Definition struct_inet_timewait_sock : cdecl :=
  decl "struct inet_timewait_sock" (CStruct false [
    fld "__tw_common" (CNamed "struct sock_common");
    fld "tw_mark" (CNamed "__u32");
    fld "tw_substate" c_uchar;
    fld "tw_rcv_wscale" c_uchar;
    fld "tw_sport" (CNamed "__be16");
    bitf "tw_transparent" c_uint 1;
    bitf "tw_flowlabel" c_uint 20;
    bitf "tw_usec_ts" c_uint 1;
    bitf "tw_pad" c_uint 2;
    bitf "tw_tos" c_uint 8;
    fld "tw_txhash" (CNamed "u32");
    fld "tw_priority" (CNamed "u32");
    fld "tw_timer" (CNamed "struct timer_list");
    fld "tw_tb" (CPtr (CNamed "struct inet_bind_bucket"));
    fld "tw_tb2" (CPtr (CNamed "struct inet_bind2_bucket"))]).

Definition struct_tcp_sack_block : cdecl :=
  decl "struct tcp_sack_block" (CStruct false [
    fld "start_seq" (CNamed "u32");
    fld "end_seq" (CNamed "u32")]).

Definition struct_tcp_options_received : cdecl :=
  decl "struct tcp_options_received" (CStruct false [
    fld "ts_recent_stamp" c_int;
    fld "ts_recent" (CNamed "u32");
    fld "rcv_tsval" (CNamed "u32");
    fld "rcv_tsecr" (CNamed "u32");
    bitf "saw_tstamp" (CNamed "u16") 1;
    bitf "tstamp_ok" (CNamed "u16") 1;
    bitf "dsack" (CNamed "u16") 1;
    bitf "wscale_ok" (CNamed "u16") 1;
    bitf "sack_ok" (CNamed "u16") 3;
    bitf "smc_ok" (CNamed "u16") 1;
    bitf "snd_wscale" (CNamed "u16") 4;
    bitf "rcv_wscale" (CNamed "u16") 4;
    bitf "saw_unknown" (CNamed "u8") 1;
    bitf "unused" (CNamed "u8") 7;
    fld "num_sacks" (CNamed "u8");
    fld "user_mss" (CNamed "u16");
    fld "mss_clamp" (CNamed "u16")]).

Definition struct_tcp_rack : cdecl :=
  decl "struct tcp_rack" (CStruct false [
    fld "mstamp" (CNamed "u64");
    fld "rtt_us" (CNamed "u32");
    fld "end_seq" (CNamed "u32");
    fld "last_delivered" (CNamed "u32");
    fld "reo_wnd_steps" (CNamed "u8");
    bitf "reo_wnd_persist" (CNamed "u8") 5;
    bitf "dsack_seen" (CNamed "u8") 1;
    bitf "advanced" (CNamed "u8") 1]).

Definition struct_tcp_sock_members_1 : list member :=
  [
    fld "inet_conn" (CNamed "struct inet_connection_sock");
    fld "__cacheline_group_begin__tcp_sock_read_tx" (CArray (CNamed "__u8") 0);
    fld "max_window" (CNamed "u32");
    fld "rcv_ssthresh" (CNamed "u32");
    fld "reordering" (CNamed "u32");
    fld "notsent_lowat" (CNamed "u32");
    fld "gso_segs" (CNamed "u16");
    fld "lost_skb_hint" (CPtr (CNamed "struct sk_buff"));
    fld "retransmit_skb_hint" (CPtr (CNamed "struct sk_buff"));
    fld "__cacheline_group_end__tcp_sock_read_tx" (CArray (CNamed "__u8") 0);
    fld "__cacheline_group_begin__tcp_sock_read_txrx" (CArray (CNamed "__u8") 0);
    fld "tsoffset" (CNamed "u32");
    fld "snd_wnd" (CNamed "u32");
    fld "mss_cache" (CNamed "u32");
    fld "snd_cwnd" (CNamed "u32");
    fld "prr_out" (CNamed "u32");
    fld "lost_out" (CNamed "u32");
    fld "sacked_out" (CNamed "u32");
    fld "tcp_header_len" (CNamed "u16");
    fld "scaling_ratio" (CNamed "u8");
    bitf "chrono_type" (CNamed "u8") 2;
    bitf "repair" (CNamed "u8") 1;
    bitf "tcp_usec_ts" (CNamed "u8") 1;
    bitf "is_sack_reneg" (CNamed "u8") 1;
    bitf "is_cwnd_limited" (CNamed "u8") 1;
    fld "__cacheline_group_end__tcp_sock_read_txrx" (CArray (CNamed "__u8") 0);
    fld "__cacheline_group_begin__tcp_sock_read_rx" (CArray (CNamed "__u8") 0);
    fld "copied_seq" (CNamed "u32");
    fld "rcv_tstamp" (CNamed "u32");
    fld "snd_wl1" (CNamed "u32");
    fld "tlp_high_seq" (CNamed "u32");
    fld "rttvar_us" (CNamed "u32");
    fld "retrans_out" (CNamed "u32");
    fld "advmss" (CNamed "u16");
    fld "urg_data" (CNamed "u16");
    fld "lost" (CNamed "u32");
    fld "rtt_min" (CNamed "struct minmax");
    fld "out_of_order_queue" (CNamed "struct rb_root");
    fld "snd_ssthresh" (CNamed "u32");
    fld "__cacheline_group_end__tcp_sock_read_rx" (CArray (CNamed "__u8") 0);
    pad c_long 64;
    fld "__cacheline_group_begin__tcp_sock_write_tx" (CArray (CNamed "__u8") 0);
    fld "segs_out" (CNamed "u32");
    fld "data_segs_out" (CNamed "u32");
    fld "bytes_sent" (CNamed "u64");
    fld "snd_sml" (CNamed "u32");
    fld "chrono_start" (CNamed "u32");
    fld "chrono_stat" (CArray (CNamed "u32") 3);
    fld "write_seq" (CNamed "u32");
    fld "pushed_seq" (CNamed "u32");
    fld "lsndtime" (CNamed "u32");
    fld "mdev_us" (CNamed "u32");
    fld "tcp_wstamp_ns" (CNamed "u64");
    fld "tcp_clock_cache" (CNamed "u64");
    fld "tcp_mstamp" (CNamed "u64");
    fld "rtt_seq" (CNamed "u32");
    fld "tsorted_sent_queue" (CNamed "struct list_head");
    fld "highest_sack" (CPtr (CNamed "struct sk_buff"));
    fld "ecn_flags" (CNamed "u8");
    fld "__cacheline_group_end__tcp_sock_write_tx" (CArray (CNamed "__u8") 0);
    fld "__cacheline_group_begin__tcp_sock_write_txrx" (CArray (CNamed "__u8") 0);
    fld "pred_flags" (CNamed "__be32");
    fld "rcv_nxt" (CNamed "u32");
    fld "snd_nxt" (CNamed "u32");
    fld "snd_una" (CNamed "u32");
    fld "window_clamp" (CNamed "u32");
    fld "srtt_us" (CNamed "u32");
    fld "packets_out" (CNamed "u32");
    fld "snd_up" (CNamed "u32");
    fld "delivered" (CNamed "u32");
    fld "delivered_ce" (CNamed "u32");
    fld "app_limited" (CNamed "u32");
    fld "rcv_wnd" (CNamed "u32");
    fld "rx_opt" (CNamed "struct tcp_options_received");
    bitf "nonagle" (CNamed "u8") 4;
    bitf "rate_app_limited" (CNamed "u8") 1;
    fld "__cacheline_group_end__tcp_sock_write_txrx" (CArray (CNamed "__u8") 0);
    fld "__cacheline_group_begin__tcp_sock_write_rx" (CArray (CNamed "__u8") 0);
    fld "bytes_received" (CNamed "u64");
    fld "segs_in" (CNamed "u32");
    fld "data_segs_in" (CNamed "u32");
    fld "rcv_wup" (CNamed "u32");
    fld "max_packets_out" (CNamed "u32");
    fld "cwnd_usage_seq" (CNamed "u32");
    fld "rate_delivered" (CNamed "u32");
    fld "rate_interval_us" (CNamed "u32");
    fld "rcv_rtt_last_tsecr" (CNamed "u32");
    fld "first_tx_mstamp" (CNamed "u64");
    fld "delivered_mstamp" (CNamed "u64");
    fld "bytes_acked" (CNamed "u64");
    fld "rcv_rtt_est" (CStruct false [
      fld "rtt_us" (CNamed "u32");
      fld "seq" (CNamed "u32");
      fld "time" (CNamed "u64")]);
    fld "rcvq_space" (CStruct false [
      fld "space" c_int;
      fld "seq" (CNamed "u32");
      fld "time" (CNamed "u64")]);
    fld "__cacheline_group_end__tcp_sock_write_rx" (CArray (CNamed "__u8") 0);
    fld "dsack_dups" (CNamed "u32");
    fld "last_oow_ack_time" (CNamed "u32");
    fld "compressed_ack_rcv_nxt" (CNamed "u32");
    fld "tsq_node" (CNamed "struct list_head");
    fld "rack" (CNamed "struct tcp_rack");
    fld "compressed_ack" (CNamed "u8");
    bitf "dup_ack_counter" (CNamed "u8") 2;
    bitf "tlp_retrans" (CNamed "u8") 1;
    bitf "unused" (CNamed "u8") 5].

Definition struct_tcp_sock_members_2 : list member :=
  [
    bitf "thin_lto" (CNamed "u8") 1;
    bitf "recvmsg_inq" (CNamed "u8") 1;
    bitf "fastopen_connect" (CNamed "u8") 1;
    bitf "fastopen_no_cookie" (CNamed "u8") 1;
    bitf "fastopen_client_fail" (CNamed "u8") 2;
    bitf "frto" (CNamed "u8") 1;
    fld "repair_queue" (CNamed "u8");
    bitf "save_syn" (CNamed "u8") 2;
    bitf "syn_data" (CNamed "u8") 1;
    bitf "syn_fastopen" (CNamed "u8") 1;
    bitf "syn_fastopen_exp" (CNamed "u8") 1;
    bitf "syn_fastopen_ch" (CNamed "u8") 1;
    bitf "syn_data_acked" (CNamed "u8") 1;
    fld "tcp_tx_delay" (CNamed "u32");
    fld "mdev_max_us" (CNamed "u32");
    fld "keepalive_probes" (CNamed "u8");
    fld "reord_seen" (CNamed "u32");
    fld "snd_cwnd_cnt" (CNamed "u32");
    fld "snd_cwnd_clamp" (CNamed "u32");
    fld "snd_cwnd_used" (CNamed "u32");
    fld "snd_cwnd_stamp" (CNamed "u32");
    fld "prior_cwnd" (CNamed "u32");
    fld "prr_delivered" (CNamed "u32");
    fld "pacing_timer" (CNamed "struct hrtimer");
    fld "compressed_ack_timer" (CNamed "struct hrtimer");
    fld "ooo_last_skb" (CPtr (CNamed "struct sk_buff"));
    fld "duplicate_sack" (CArray (CNamed "struct tcp_sack_block") 1);
    fld "selective_acks" (CArray (CNamed "struct tcp_sack_block") 4);
    fld "recv_sack_cache" (CArray (CNamed "struct tcp_sack_block") 4);
    fld "lost_cnt_hint" c_int;
    fld "prior_ssthresh" (CNamed "u32");
    fld "high_seq" (CNamed "u32");
    fld "retrans_stamp" (CNamed "u32");
    fld "undo_marker" (CNamed "u32");
    fld "undo_retrans" c_int;
    fld "bytes_retrans" (CNamed "u64");
    fld "total_retrans" (CNamed "u32");
    fld "rto_stamp" (CNamed "u32");
    fld "total_rto" (CNamed "u16");
    fld "total_rto_recoveries" (CNamed "u16");
    fld "total_rto_time" (CNamed "u32");
    fld "urg_seq" (CNamed "u32");
    fld "keepalive_time" c_uint;
    fld "keepalive_intvl" c_uint;
    fld "linger2" c_int;
    fld "bpf_sock_ops_cb_flags" (CNamed "u8");
    bitf "bpf_chg_cc_inprogress" (CNamed "u8") 1;
    fld "timeout_rehash" (CNamed "u16");
    fld "rcv_ooopack" (CNamed "u32");
    fld "mtu_probe" (CStruct false [
      fld "probe_seq_start" (CNamed "u32");
      fld "probe_seq_end" (CNamed "u32")]);
    fld "plb_rehash" (CNamed "u32");
    fld "mtu_info" (CNamed "u32");
    fld "is_mptcp" (CNamed "bool");
    fld "smc_hs_congested" (CPtr (CFun (CNamed "bool")));
    fld "syn_smc" (CNamed "bool");
    fld "af_specific" (CPtr (CNamed "struct tcp_sock_af_ops"));
    fld "md5sig_info" (CPtr (CNamed "struct tcp_md5sig_info"));
    fld "ao_info" (CPtr (CNamed "struct tcp_ao_info"));
    fld "fastopen_req" (CPtr (CNamed "struct tcp_fastopen_request"));
    fld "fastopen_rsk" (CPtr (CNamed "struct request_sock"));
    fld "saved_syn" (CPtr (CNamed "struct saved_syn"));
    pad c_long 64].

Definition struct_tcp_sock : cdecl :=
  decl "struct tcp_sock" (CStruct false (struct_tcp_sock_members_1 ++ struct_tcp_sock_members_2)).

Definition struct_tcp_timewait_sock : cdecl :=
  decl "struct tcp_timewait_sock" (CStruct false [
    fld "tw_sk" (CNamed "struct inet_timewait_sock");
    fld "tw_rcv_wnd" (CNamed "u32");
    fld "tw_ts_offset" (CNamed "u32");
    fld "tw_ts_recent" (CNamed "u32");
    fld "tw_last_oow_ack_time" (CNamed "u32");
    fld "tw_ts_recent_stamp" c_int;
    fld "tw_tx_delay" (CNamed "u32");
    fld "tw_md5_key" (CPtr (CNamed "struct tcp_md5sig_key"));
    fld "ao_info" (CPtr (CNamed "struct tcp_ao_info"))]).

Definition struct_tcp6_sock : cdecl :=
  decl "struct tcp6_sock" (CStruct false [
    fld "tcp" (CNamed "struct tcp_sock");
    fld "inet6" (CNamed "struct ipv6_pinfo");
    pad c_long 64;
    pad c_long 64;
    pad c_long 64;
    pad c_long 64]).

Definition struct_inet_request_sock : cdecl :=
  decl "struct inet_request_sock" (CStruct false [
    fld "req" (CNamed "struct request_sock");
    bitf "snd_wscale" (CNamed "u16") 4;
    bitf "rcv_wscale" (CNamed "u16") 4;
    bitf "tstamp_ok" (CNamed "u16") 1;
    bitf "sack_ok" (CNamed "u16") 1;
    bitf "wscale_ok" (CNamed "u16") 1;
    bitf "ecn_ok" (CNamed "u16") 1;
    bitf "acked" (CNamed "u16") 1;
    bitf "no_srccheck" (CNamed "u16") 1;
    bitf "smc_ok" (CNamed "u16") 1;
    fld "ir_mark" (CNamed "u32");
    anon (CUnion false [
      fld "ireq_opt" (CPtr (CNamed "struct ip_options_rcu"));
      anon (CStruct false [
        fld "ipv6_opt" (CPtr (CNamed "struct ipv6_txoptions"));
        fld "pktopts" (CPtr (CNamed "struct sk_buff"))])])]).

Definition struct_tcp_request_sock : cdecl :=
  decl "struct tcp_request_sock" (CStruct false [
    fld "req" (CNamed "struct inet_request_sock");
    fld "af_specific" (CPtr (CNamed "struct tcp_request_sock_ops"));
    fld "snt_synack" (CNamed "u64");
    fld "tfo_listener" (CNamed "bool");
    fld "is_mptcp" (CNamed "bool");
    fld "req_usec_ts" (CNamed "bool");
    fld "drop_req" (CNamed "bool");
    fld "txhash" (CNamed "u32");
    fld "rcv_isn" (CNamed "u32");
    fld "snt_isn" (CNamed "u32");
    fld "ts_off" (CNamed "u32");
    fld "last_oow_ack_time" (CNamed "u32");
    fld "rcv_nxt" (CNamed "u32");
    fld "syn_tos" (CNamed "u8");
    fld "ao_keyid" (CNamed "u8");
    fld "ao_rcv_next" (CNamed "u8");
    fld "used_tcp_ao" (CNamed "bool")]).

Definition struct_probe_arg : cdecl :=
  decl "struct probe_arg" (CStruct false [
    fld "code" (CPtr (CNamed "struct fetch_insn"));
    fld "dynamic" (CNamed "bool");
    fld "offset" c_uint;
    fld "count" c_uint;
    fld "name" (CPtr c_char);
    fld "comm" (CPtr c_char);
    fld "fmt" (CPtr c_char);
    fld "type" (CPtr (CNamed "struct fetch_type"))]).

Definition struct_trace_probe : cdecl :=
  decl "struct trace_probe" (CStruct false [
    fld "list" (CNamed "struct list_head");
    fld "event" (CPtr (CNamed "struct trace_probe_event"));
    fld "size" (CNamed "ssize_t");
    fld "nr_args" c_uint;
    fld "entry_arg" (CPtr (CNamed "struct probe_entry_arg"));
    fld "args" (CArray (CNamed "struct probe_arg") 0)]).

Definition struct_bpf_kprobe_multi_link : cdecl :=
  decl "struct bpf_kprobe_multi_link" (CStruct false [
    fld "link" (CNamed "struct bpf_link");
    fld "fp" (CNamed "struct fprobe");
    fld "addrs" (CPtr c_ulong);
    fld "cookies" (CPtr (CNamed "u64"));
    fld "cnt" (CNamed "u32");
    fld "mods_cnt" (CNamed "u32");
    fld "mods" (CPtr (CPtr (CNamed "struct module")));
    fld "flags" (CNamed "u32")]).

Definition typedef_kretprobe_handler_t : cdecl :=
  decl "kretprobe_handler_t" (CPtr (CFun c_int)).

Definition struct_kretprobe : cdecl :=
  decl "struct kretprobe" (CStruct false [
    fld "kp" (CNamed "struct kprobe");
    fld "handler" (CNamed "kretprobe_handler_t");
    fld "entry_handler" (CNamed "kretprobe_handler_t");
    fld "maxactive" c_int;
    fld "nmissed" c_int;
    fld "data_size" (CNamed "size_t");
    fld "rh" (CPtr (CNamed "struct rethook"))]).

Definition struct_trace_kprobe : cdecl :=
  decl "struct trace_kprobe" (CStruct false [
    fld "devent" (CNamed "struct dyn_event");
    fld "rp" (CNamed "struct kretprobe");
    fld "nhit" (CPtr c_ulong);
    fld "symbol" (CPtr c_char);
    fld "tp" (CNamed "struct trace_probe")]).

Definition struct_bpf_perf_link : cdecl :=
  decl "struct bpf_perf_link" (CStruct false [
    fld "link" (CNamed "struct bpf_link");
    fld "perf_file" (CPtr (CNamed "struct file"))]).

(** Declarations that stand together in the header, by its lines. *)
Definition vmlinux_33184_33217 : list cdecl := [struct_pcpu_freelist_head; struct_pcpu_freelist_node;
  struct_pcpu_freelist; struct_bpf_lru_node; struct_bpf_lru_list].

Definition vmlinux_33225_33254 : list cdecl := [struct_bpf_common_lru; typedef_del_from_htab_func; struct_bpf_lru].

Definition vmlinux_33263_33315 : list cdecl := [struct_bpf_htab; struct_htab_elem].

Definition vmlinux_34878_34893 : list cdecl := [struct_bpf_ringbuf_map; struct_bpf_ringbuf_hdr].

Definition vmlinux_46326_46345 : list cdecl := [struct_inet_cork; struct_inet_cork_full].

Definition vmlinux_46351_46378 : list cdecl := [struct_inet_sock; struct_inet6_cork].

Definition vmlinux_81317_81335 : list cdecl := [struct_fastopen_queue; struct_request_sock_queue].

Definition vmlinux_81370_81392 : list cdecl := [struct_minmax_sample; struct_minmax;
  struct_inet_connection_sock_af_ops].

Definition vmlinux_81515_81549 : list cdecl := [struct_tcp_sack_block; struct_tcp_options_received; struct_tcp_rack].

(** The declarations above, in textual order. *)
Definition vmlinuxbpf_decls : list cdecl :=
  [struct_dyn_event;
   struct_fprobe;
   enum_bpf_func_id;
   struct_bpf_mem_alloc;
   enum_BPF_ANY] ++
  vmlinux_33184_33217 ++
  vmlinux_33225_33254 ++
  vmlinux_33263_33315 ++
  [struct_bpf_ringbuf] ++
  vmlinux_34878_34893 ++
  [enum_bpf_link_type;
   struct_bpf_link;
   struct_request_sock;
   struct_in6_pktinfo] ++
  vmlinux_46326_46345 ++
  vmlinux_46351_46378 ++
  [struct_ipv6_pinfo;
   struct_in_addr;
   enum_bpf_cmd;
   struct_sockaddr_in] ++
  vmlinux_81317_81335 ++
  vmlinux_81370_81392 ++
  [struct_inet_connection_sock;
   struct_inet_timewait_sock] ++
  vmlinux_81515_81549 ++
  [struct_tcp_sock;
   struct_tcp_timewait_sock;
   struct_tcp6_sock;
   struct_inet_request_sock;
   struct_tcp_request_sock;
   struct_probe_arg;
   struct_trace_probe;
   struct_bpf_kprobe_multi_link;
   typedef_kretprobe_handler_t;
   struct_kretprobe;
   struct_trace_kprobe;
   struct_bpf_perf_link].
