(* ===== verification/Vmlinux.v ===== *)
(** * The kernel header as a translation unit

    The declarations of the three [Vmlinux*] files in the order of the header,
    elaborated, and the layout facts the BPF program relies on. *)
From S2P Require Import Prelude CTypes VmlinuxCore VmlinuxNet VmlinuxBpf.

Definition vmlinux : list cdecl := vmlinuxcore_decls ++ vmlinuxnet_decls ++ vmlinuxbpf_decls.

Definition kernel_env : env := default ∅ (elaborate ∅ vmlinux).


Lemma vmlinux_elaborates : is_Some (elaborate ∅ vmlinux).
Proof.
  assert (H : bool_decide (is_Some (elaborate ∅ vmlinux)) = true) by (vm_compute; reflexivity).
  by apply bool_decide_eq_true in H.
Qed.

Lemma kernel_env_elaborated : elaborate ∅ vmlinux = Some kernel_env.
Proof. destruct vmlinux_elaborates as [Γ HΓ]. unfold kernel_env. by rewrite HΓ. Qed.

#[global] Opaque kernel_env.

Lemma kernel_env_wf : wf_env kernel_env.
Proof. exact (elaborate_preserves_wf _ _ _ wf_env_empty kernel_env_elaborated). Qed.

(**  In every structure of the header whose members are the members of one
    unpacked struct, distinct members occupy disjoint bit ranges in declaration
    order, inside the structure, and members that are not bit-fields are
    aligned. *)
Theorem struct_members_disjoint ms ss i j p s q t :
  mapM (elab_member kernel_env) ms = Some ss ->
  (place false 0 ss).1 !! i = Some (p, s) -> (place false 0 ss).1 !! j = Some (q, t) -> (i < j)%nat ->
  0 <= p /\ p + slot_width s <= q /\ q + slot_width t <= 8 * e_size (layout_struct false ss) /\
  (s_bits t = None -> (8 * e_align (s_entry t) | q)).
Proof.
  intros Hss Hi Hj Hij.
  assert (Hwf : Forall (wf_slot kernel_env) ss).
  { eapply elab_members_wf; [|exact Hss]. apply Forall_forall. intros [n ty b] _ e.
    apply elab_wf, kernel_env_wf. }
  unfold layout_struct. destruct (place false 0 ss) as [ps stop] eqn:Hp. cbn [fst e_size] in *.
  pose proof (slots_align_pow2 _ false _ Hwf) as Ha%pow2_pos.
  assert (s_bits t = None -> (8 * e_align (s_entry t) | q)) as Hal.
  { intros Hb. destruct (place_aligned _ _ _ _ _ _ _ _ Hp Hj Hb) as [m ->]. by exists m. }
  apply place_laid_out with (Γ := kernel_env) in Hp as [Hl <-]; [|done].
  destruct (laid_out_bounds _ _ _ _ _ _ _ Hwf Hl Hi) as [? _].
  destruct (laid_out_bounds _ _ _ _ _ _ _ Hwf Hl Hj) as [_ ?].
  pose proof (laid_out_disjoint _ _ _ _ _ _ _ _ _ _ Hwf Hl Hij Hi Hj).
  rewrite padded_size by done.
  match goal with |- context [align_up stop ?a] => pose proof (align_up_bounds stop a) end.
  repeat split; [lia..|done].
Qed.

Lemma struct_members_disjoint_witness :
  exists ms ss s t, d_type struct_list_head = CStruct false ms /\
    mapM (elab_member kernel_env) ms = Some ss /\ (place false 0 ss).1 = [(0, s); (64, t)] /\
    0 + slot_width s <= 64 /\ 64 + slot_width t <= 8 * e_size (layout_struct false ss).
Proof.
  eexists [_; _], [_; _], _, _. split; [reflexivity|]. split; [reflexivity|]. split; [reflexivity|].
  pose proof (struct_members_disjoint
    [fld "next" (CPtr (CNamed "struct list_head")); fld "prev" (CPtr (CNamed "struct list_head"))]
    _ 0 1 0 _ 64 _ eq_refl eq_refl eq_refl ltac:(lia)) as (_ & H1 & H2 & _).
  split; [exact H1 | exact H2].
Defined.

(** The sockets a TCP probe may be handed, with the path to their common part. *)
Definition socket_types : list (string * list string) := [
  ("struct sock", ["__sk_common"]);
  ("struct inet_sock", ["sk"; "__sk_common"]);
  ("struct inet_connection_sock", ["icsk_inet"; "sk"; "__sk_common"]);
  ("struct tcp_sock", ["inet_conn"; "icsk_inet"; "sk"; "__sk_common"]);
  ("struct tcp6_sock", ["tcp"; "inet_conn"; "icsk_inet"; "sk"; "__sk_common"]);
  ("struct request_sock", ["__req_common"]);
  ("struct tcp_request_sock", ["req"; "req"; "__req_common"]);
  ("struct inet_timewait_sock", ["__tw_common"]);
  ("struct tcp_timewait_sock", ["tw_sk"; "__tw_common"])].

(** Byte offset and size of the common members the program reads. *)
Definition common_members : list (string * (Z * Z)) := [
  ("skc_daddr", (0, 4)); ("skc_rcv_saddr", (4, 4)); ("skc_dport", (12, 2)); ("skc_num", (14, 2));
  ("skc_family", (16, 2))].

Definition member_at (t : string) (path : list string) (off n : Z) : bool :=
  match resolve kernel_env (CNamed t) path with
  | Some f => (f_off f =? 8 * off) && (f_bits f =? 8 * n)
  | None => false
  end.

(**  Whatever kind of TCP socket the kernel hands to a probe as a
    [struct sock *] (full, IPv6, request or timewait socket), the members the
    program reads are at the same offsets from the pointer. *)
Theorem common_members_of_every_socket :
  forall t path m off n, (t, path) ∈ socket_types -> (m, (off, n)) ∈ common_members ->
    member_at t (path ++ [m]) off n = true.
Proof.
  assert (H : forallb (fun '(t, path) => forallb (fun '(m, (off, n)) => member_at t (path ++ [m]) off n)
                common_members) socket_types = true) by (vm_compute; reflexivity).
  intros t path m off n Ht%list_elem_of_In Hm%list_elem_of_In.
  apply (proj1 (forallb_forall _ _) H) in Ht. exact (proj1 (forallb_forall _ _) Ht _ Hm).
Qed.

Lemma common_members_of_every_socket_witness :
  member_at "struct tcp_sock" ["inet_conn"; "icsk_inet"; "sk"; "__sk_common"; "skc_dport"] 12 2 = true.
Proof.
  refine (common_members_of_every_socket "struct tcp_sock"
            ["inet_conn"; "icsk_inet"; "sk"; "__sk_common"] "skc_dport" 12 2 _ _); repeat constructor.
Defined.
