(* ===== verification/Bpf.v ===== *)
(** * The BPF execution environment

    The kernel helpers and libbpf macros that [tcp_metrics.bpf.c] calls are not
    part of the repository.  They are an interface: [BpfRuntime] is the set of
    operations the program uses and [BpfLaws] the documented behaviour it relies
    on, stated through a view of the kernel state. *)
From S2P Require Import Prelude CTypes Vmlinux.

(** A map definition of the object's [.maps] section. *)
Record bpf_map_def := {
  map_type : Z;
  max_entries : Z;
  key_size : Z;
  value_size : Z
}.

(** State-passing computations over the kernel state. *)
Definition bpf (K A : Type) : Type := K -> A * K.
#[export] Instance bpf_ret {K} : MRet (bpf K) := fun A a k => (a, k).
#[export] Instance bpf_bind {K} : MBind (bpf K) := fun A B f c k => let '(a, k') := c k in f a k'.

Class BpfRuntime (K : Type) := {
  (** [BPF_CORE_READ(p, path)] with [p] a pointer to the given type. *)
  BPF_CORE_READ : ctype -> list string -> Z -> bpf K Z;
  bpf_ktime_get_ns : bpf K Z;
  bpf_get_current_pid_tgid : bpf K Z;
  (** The bytes written into a buffer of the given size. *)
  bpf_get_current_comm : Z -> bpf K (list Z);
  (** [None] is the null pointer; a reservation is exclusively owned. *)
  bpf_ringbuf_reserve : bpf_map_def -> Z -> bpf K (option Z);
  bpf_ringbuf_submit : Z -> list Z -> bpf K unit;
  bpf_map_lookup_elem : bpf_map_def -> Z -> bpf K (option (list Z));
  bpf_map_update_elem : bpf_map_def -> Z -> list Z -> Z -> bpf K Z;
  bpf_map_delete_elem : bpf_map_def -> Z -> bpf K Z
}.

(** What the program can observe of the kernel: readable memory, the clock, the
    current thread, the records published so far, which reservations the ring
    buffer has room for, the hash map and which keys it takes an update of. *)
Record kview := {
  v_mem : Z -> Z -> option (list Z);
  v_now : Z;
  v_tid : Z;
  v_comm : list Z;
  v_ring : list (list Z);
  v_room : bpf_map_def -> Z -> bool;
  v_map : gmap Z (list Z);
  v_accepts : bpf_map_def -> Z -> bool
}.

Definition set_now (v : kview) (t : Z) : kview :=
  {| v_mem := v_mem v; v_now := t; v_tid := v_tid v; v_comm := v_comm v;
     v_ring := v_ring v; v_room := v_room v; v_map := v_map v; v_accepts := v_accepts v |}.
Definition set_ring (v : kview) (r : list (list Z)) : kview :=
  {| v_mem := v_mem v; v_now := v_now v; v_tid := v_tid v; v_comm := v_comm v;
     v_ring := r; v_room := v_room v; v_map := v_map v; v_accepts := v_accepts v |}.
Definition set_room (v : kview) (room : bpf_map_def -> Z -> bool) : kview :=
  {| v_mem := v_mem v; v_now := v_now v; v_tid := v_tid v; v_comm := v_comm v;
     v_ring := v_ring v; v_room := room; v_map := v_map v; v_accepts := v_accepts v |}.
Definition set_map (v : kview) (m : gmap Z (list Z)) (accepts : bpf_map_def -> Z -> bool) : kview :=
  {| v_mem := v_mem v; v_now := v_now v; v_tid := v_tid v; v_comm := v_comm v;
     v_ring := v_ring v; v_room := v_room v; v_map := m; v_accepts := accepts |}.

(** The value at [p.path] in the running kernel, whose types are [target]:
    the bytes at the target's offset, as many as the program's own declaration
    of the member says; zero when the memory is not readable. *)
Definition kernel_read (target : env) (v : kview) (t : ctype) (path : list string) (p : Z) : Z :=
  match resolve kernel_env t path, offset_of target t path with
  | Some f, Some off =>
      match v_mem v (p + off) (f_bits f / 8) with Some bs => le_val bs | None => 0 end
  | _, _ => 0
  end.

Class BpfLaws (K : Type) `{!BpfRuntime K} (target : env) := {
  view : K -> kview;
  (** Reading memory has no effect; CO-RE relocates member offsets. *)
  law_core_read t path p k :
    view (BPF_CORE_READ t path p k).2 = view k /\
    (is_Some (resolve kernel_env t path) -> is_Some (offset_of target t path) ->
     (BPF_CORE_READ t path p k).1 = kernel_read target (view k) t path p);
  law_mem_bytes k p n bs : v_mem (view k) p n = Some bs -> bytes_ok bs /\ Z.of_nat (length bs) = n;
  (** The clock is monotonic and does not wrap. *)
  law_ktime k :
    let '(t, k') := bpf_ktime_get_ns k in v_now (view k) <= t < 2 ^ 64 /\ view k' = set_now (view k) t;
  law_now k : 0 <= v_now (view k);
  law_tid k : bpf_get_current_pid_tgid k = (v_tid (view k), k) /\ is_u 64 (v_tid (view k));
  law_comm k n : 0 <= n ->
    (bpf_get_current_comm n k).1 = take (Z.to_nat n) (v_comm (view k)) /\
    view (bpf_get_current_comm n k).2 = view k;
  law_comm_bytes k : bytes_ok (v_comm (view k)) /\ length (v_comm (view k)) = 16%nat;
  (** A reservation succeeds exactly when there is room; it takes of the room only. *)
  law_reserve m n k :
    let '(r, k') := bpf_ringbuf_reserve m n k in
    bool_decide (is_Some r) = v_room (view k) m n /\ exists room, view k' = set_room (view k) room;
  law_submit h bs k :
    view (bpf_ringbuf_submit h bs k).2 = set_ring (view k) (v_ring (view k) ++ [bs]);
  law_lookup m key k :
    (bpf_map_lookup_elem m key k).1 = v_map (view k) !! key /\ view (bpf_map_lookup_elem m key k).2 = view k;
  (** Flag 0 is [BPF_ANY]; a refused update (a full map) changes nothing. *)
  law_update m key bs k :
    let '(r, k') := bpf_map_update_elem m key bs 0 k in
    (r =? 0) = v_accepts (view k) m key /\
    exists accepts, view k' = (if r =? 0 then set_map (view k) (<[key := bs]> (v_map (view k))) accepts else view k);
  law_delete m key k :
    exists accepts, view (bpf_map_delete_elem m key k).2 = set_map (view k) (delete key (v_map (view k))) accepts
}.

(** ** Reasoning about programs *)

(** [wp c k Q]: running [c] from [k] ends with a result and a state in [Q]. *)
Definition wp {K A} (c : bpf K A) (k : K) (Q : A -> K -> Prop) : Prop := Q (c k).1 (c k).2.

Lemma wp_ret {K A} (a : A) (k : K) Q : Q a k -> wp (mret a) k Q.
Proof. done. Qed.

Lemma wp_bind {K A B} (c : bpf K A) (f : A -> bpf K B) (k : K) Q :
  wp c k (fun a k' => wp (f a) k' Q) -> wp (c ≫= f) k Q.
Proof. unfold wp, mbind, bpf_bind. by destruct (c k). Qed.

Lemma wp_mono {K A} (c : bpf K A) (k : K) (P Q : A -> K -> Prop) :
  wp c k P -> (forall a k', P a k' -> Q a k') -> wp c k Q.
Proof. unfold wp. auto. Qed.

(** The members a program reads must exist in the running kernel, or the object
    does not load. *)
Definition relocatable (target : env) (t : ctype) (path : list string) : Prop :=
  is_Some (resolve kernel_env t path) /\ is_Some (offset_of target t path).

Section Rules.
Context {K : Type} `{!BpfRuntime K} {target : env} `{!BpfLaws K target}.
Implicit Types (k : K).

Lemma wp_core_read t path p k Q :
  relocatable target t path ->
  (forall k', view k' = view k -> Q (kernel_read target (view k) t path p) k') ->
  wp (BPF_CORE_READ t path p) k Q.
Proof.
  intros [Hl Ht] HQ. unfold wp. destruct (law_core_read t path p k) as [Hv Hr].
  rewrite (Hr Hl Ht). by apply HQ.
Qed.

Lemma wp_ktime k Q :
  (forall t k', v_now (view k) <= t < 2 ^ 64 -> view k' = set_now (view k) t -> Q t k') ->
  wp bpf_ktime_get_ns k Q.
Proof.
  intros HQ. unfold wp. pose proof (law_ktime k) as H. destruct (bpf_ktime_get_ns k) as [t k'].
  destruct H. by apply HQ.
Qed.

Lemma wp_tid k Q :
  (is_u 64 (v_tid (view k)) -> Q (v_tid (view k)) k) -> wp bpf_get_current_pid_tgid k Q.
Proof. intros HQ. unfold wp. destruct (law_tid k) as [-> Hr]. by apply HQ. Qed.

Lemma wp_comm n k Q :
  0 <= n ->
  (forall k', view k' = view k -> Q (take (Z.to_nat n) (v_comm (view k))) k') ->
  wp (bpf_get_current_comm n) k Q.
Proof. intros Hn HQ. unfold wp. destruct (law_comm k n Hn) as [-> Hv]. by apply HQ. Qed.

Lemma wp_reserve m n k Q :
  (forall r k' room, bool_decide (is_Some r) = v_room (view k) m n -> view k' = set_room (view k) room -> Q r k') ->
  wp (bpf_ringbuf_reserve m n) k Q.
Proof.
  intros HQ. unfold wp. pose proof (law_reserve m n k) as H. destruct (bpf_ringbuf_reserve m n k) as [r k'].
  destruct H as [Hr [room Hv]]. by eapply HQ.
Qed.

Lemma wp_submit h bs k Q :
  (forall k', view k' = set_ring (view k) (v_ring (view k) ++ [bs]) -> Q tt k') ->
  wp (bpf_ringbuf_submit h bs) k Q.
Proof.
  intros HQ. unfold wp. destruct (bpf_ringbuf_submit h bs k).1. apply HQ. apply law_submit.
Qed.

Lemma wp_lookup m key k Q :
  (forall k', view k' = view k -> Q (v_map (view k) !! key) k') -> wp (bpf_map_lookup_elem m key) k Q.
Proof. intros HQ. unfold wp. destruct (law_lookup m key k) as [-> Hv]. by apply HQ. Qed.

Lemma wp_update m key bs k Q :
  (forall r k' accepts,
    view k' = (if v_accepts (view k) m key then set_map (view k) (<[key := bs]> (v_map (view k))) accepts else view k) ->
    Q r k') ->
  wp (bpf_map_update_elem m key bs 0) k Q.
Proof.
  intros HQ. unfold wp. pose proof (law_update m key bs k) as H.
  destruct (bpf_map_update_elem m key bs 0 k) as [r k']. destruct H as [Hr [accepts Hv]]. rewrite Hr in Hv. by eapply HQ.
Qed.

Lemma wp_delete m key k Q :
  (forall r k' accepts, view k' = set_map (view k) (delete key (v_map (view k))) accepts -> Q r k') ->
  wp (bpf_map_delete_elem m key) k Q.
Proof. intros HQ. destruct (law_delete m key k) as [accepts Hv]. by eapply HQ. Qed.

(** A read value fits the member it was read from. *)
Lemma kernel_read_range k t path p f :
  resolve kernel_env t path = Some f -> 0 <= f_bits f -> f_bits f `mod` 8 = 0 ->
  is_u (f_bits f) (kernel_read target (view k) t path p).
Proof.
  intros Hf Hn Hm. unfold kernel_read, is_u. rewrite Hf.
  assert (0 < 2 ^ f_bits f) by lia.
  destruct (offset_of target t path) as [off|]; [|lia].
  destruct (v_mem _ _ _) as [bs|] eqn:Hbs; [|lia].
  apply law_mem_bytes in Hbs as [Hb Hl]. pose proof (le_val_range _ Hb) as Hr. rewrite Hl in Hr.
  replace (8 * (f_bits f / 8)) with (f_bits f) in Hr; [done|].
  pose proof (Z.div_mod (f_bits f) 8 ltac:(lia)). lia.
Qed.
End Rules.
