(* ===== verification/TcpMetrics.v ===== *)
(** * The BPF program [agent/ebpf/bpf/tcp_metrics.bpf.c]

    The event and connect-start objects, the two maps, the socket readers and
    the three probe handlers, over any [BpfRuntime].  Objects are byte sequences
    and every assignment goes through the layout of the declaration, so the wire
    format user space receives is computed, not assumed. *)
From S2P Require Import Prelude CTypes VmlinuxCore VmlinuxNet VmlinuxBpf Vmlinux Bpf.

(** ** Declarations *)

Definition AEGIS_EVENT_RETRANSMIT : Z := 1.
Definition AEGIS_EVENT_CONNECT : Z := 2.
Definition AEGIS_TASK_COMM_LEN : Z := 16.

Definition struct_tcp_event_members : list member := [
  fld "timestamp_ns" (CNamed "__u64");
  fld "pid" (CNamed "__u32");
  fld "type" (CNamed "__u32");
  fld "family" (CNamed "__u16");
  fld "sport" (CNamed "__u16");
  fld "dport" (CNamed "__u16");
  fld "pad" (CNamed "__u16");
  fld "ret" (CNamed "__s32");
  fld "saddr_v4" (CNamed "__u32");
  fld "daddr_v4" (CNamed "__u32");
  fld "connect_latency_ns" (CNamed "__u64");
  fld "comm" (CArray c_char AEGIS_TASK_COMM_LEN)].

Definition struct_tcp_event : cdecl := decl "struct tcp_event" (CStruct false struct_tcp_event_members).

Definition struct_connect_start : cdecl := decl "struct connect_start" (CStruct false [
  fld "timestamp_ns" (CNamed "__u64");
  fld "pid" (CNamed "__u32");
  fld "family" (CNamed "__u16");
  fld "sport" (CNamed "__u16");
  fld "dport" (CNamed "__u16");
  fld "pad" (CNamed "__u16");
  fld "saddr_v4" (CNamed "__u32");
  fld "daddr_v4" (CNamed "__u32");
  fld "comm" (CArray c_char AEGIS_TASK_COMM_LEN)]).

(** The types in scope after the header and the two structures. *)
Definition bpf_env : env := default ∅ (elaborate kernel_env [struct_tcp_event; struct_connect_start]).

#[global] Opaque bpf_env.

Abbreviation tcp_event_t := (CNamed "struct tcp_event").
Abbreviation connect_start_t := (CNamed "struct connect_start").
Abbreviation sock_t := (CNamed "struct sock").
Abbreviation sockaddr_in_t := (CNamed "struct sockaddr_in").

(** The value of an enumeration constant of the header. *)
Definition enum_value (d : cdecl) (c : string) : Z :=
  match d_type d with
  | CEnum _ cs => default 0 (snd <$> (snd <$> list_find (fun p => p.1 = c) cs))
  | _ => 0
  end.

Definition events : bpf_map_def := {|
  map_type := enum_value enum_bpf_map_type "BPF_MAP_TYPE_RINGBUF";
  max_entries := Z.shiftl 1 20;
  key_size := 0;
  value_size := 0
|}.

Definition connect_starts : bpf_map_def := {|
  map_type := enum_value enum_bpf_map_type "BPF_MAP_TYPE_HASH";
  max_entries := 16384;
  key_size := sizeof bpf_env (CNamed "__u64");
  value_size := sizeof bpf_env connect_start_t
|}.

Definition BPF_ANY : Z := enum_value enum_BPF_ANY "BPF_ANY".

(** [__builtin_bswap16], what [bpf_ntohs] is on a little-endian target. *)
Definition bpf_ntohs (x : Z) : Z :=
  Z.lor (Z.shiftl (Z.land x 255) 8) (Z.land (Z.shiftr x 8) 255).

(** ** Handlers *)

Section Program.
Context {K : Type} `{!BpfRuntime K}.

Definition read_family (sk : Z) : bpf K Z :=
  v ← BPF_CORE_READ sock_t ["__sk_common"; "skc_family"] sk;
  mret (wrapu 16 v).

Definition read_sport (sk : Z) : bpf K Z :=
  v ← BPF_CORE_READ sock_t ["__sk_common"; "skc_num"] sk;
  mret (wrapu 16 v).

Definition read_dport (sk : Z) : bpf K Z :=
  dport ← BPF_CORE_READ sock_t ["__sk_common"; "skc_dport"] sk;
  mret (bpf_ntohs (wrapu 16 dport)).

Definition read_saddr_v4 (sk : Z) : bpf K Z :=
  v ← BPF_CORE_READ sock_t ["__sk_common"; "skc_rcv_saddr"] sk;
  mret (wrapu 32 v).

Definition read_daddr_v4 (sk : Z) : bpf K Z :=
  v ← BPF_CORE_READ sock_t ["__sk_common"; "skc_daddr"] sk;
  mret (wrapu 32 v).

(** [event] is updated in place; the updated object is returned. *)
Definition fill_tuple (event : list Z) (sk : Z) : bpf K (list Z) :=
  family ← read_family sk;
  let event := store bpf_env tcp_event_t ["family"] family event in
  sport ← read_sport sk;
  let event := store bpf_env tcp_event_t ["sport"] sport event in
  dport ← read_dport sk;
  let event := store bpf_env tcp_event_t ["dport"] dport event in
  saddr ← read_saddr_v4 sk;
  let event := store bpf_env tcp_event_t ["saddr_v4"] saddr event in
  daddr ← read_daddr_v4 sk;
  let event := store bpf_env tcp_event_t ["daddr_v4"] daddr event in
  mret event.

Definition fill_start_tuple (start : list Z) (sk addr : Z) : bpf K (list Z) :=
  family ← read_family sk;
  let start := store bpf_env connect_start_t ["family"] family start in
  sport ← read_sport sk;
  let start := store bpf_env connect_start_t ["sport"] sport start in
  saddr ← read_saddr_v4 sk;
  let start := store bpf_env connect_start_t ["saddr_v4"] saddr start in
  port ← BPF_CORE_READ sockaddr_in_t ["sin_port"] addr;
  let start := store bpf_env connect_start_t ["dport"] (bpf_ntohs (wrapu 16 port)) start in
  daddr ← BPF_CORE_READ sockaddr_in_t ["sin_addr"; "s_addr"] addr;
  let start := store bpf_env connect_start_t ["daddr_v4"] (wrapu 32 daddr) start in
  mret start.

(** kprobe/tcp_retransmit_skb *)
Definition aegis_tcp_retransmit (sk : Z) : bpf K Z :=
  if sk =? 0 then mret 0 else
  reserved ← bpf_ringbuf_reserve events (sizeof bpf_env tcp_event_t);
  match reserved with
  | None => mret 0
  | Some slot =>
      let event := zeroed bpf_env tcp_event_t in
      pid_tgid ← bpf_get_current_pid_tgid;
      now ← bpf_ktime_get_ns;
      let event := store bpf_env tcp_event_t ["timestamp_ns"] now event in
      let event := store bpf_env tcp_event_t ["pid"] (Z.shiftr pid_tgid 32) event in
      let event := store bpf_env tcp_event_t ["type"] AEGIS_EVENT_RETRANSMIT event in
      event ← fill_tuple event sk;
      comm ← bpf_get_current_comm (sizeof_field bpf_env tcp_event_t ["comm"]);
      let event := store_bytes bpf_env tcp_event_t ["comm"] comm event in
      _ ← bpf_ringbuf_submit slot event;
      mret 0
  end.

(** kprobe/tcp_v4_connect *)
Definition aegis_tcp_v4_connect (sk uaddr : Z) : bpf K Z :=
  let start := zeroed bpf_env connect_start_t in
  let addr := uaddr in
  if (sk =? 0) || (addr =? 0) then mret 0 else
  pid_tgid ← bpf_get_current_pid_tgid;
  now ← bpf_ktime_get_ns;
  let start := store bpf_env connect_start_t ["timestamp_ns"] now start in
  let start := store bpf_env connect_start_t ["pid"] (Z.shiftr pid_tgid 32) start in
  start ← fill_start_tuple start sk addr;
  comm ← bpf_get_current_comm (sizeof_field bpf_env connect_start_t ["comm"]);
  let start := store_bytes bpf_env connect_start_t ["comm"] comm start in
  _ ← bpf_map_update_elem connect_starts pid_tgid start BPF_ANY;
  mret 0.

(** kretprobe/tcp_v4_connect *)
Definition aegis_tcp_v4_connect_ret (ret : Z) : bpf K Z :=
  pid_tgid ← bpf_get_current_pid_tgid;
  now ← bpf_ktime_get_ns;
  found ← bpf_map_lookup_elem connect_starts pid_tgid;
  match found with
  | None => mret 0
  | Some start =>
      reserved ← bpf_ringbuf_reserve events (sizeof bpf_env tcp_event_t);
      match reserved with
      | None =>
          _ ← bpf_map_delete_elem connect_starts pid_tgid;
          mret 0
      | Some slot =>
          let get f := load bpf_env connect_start_t [f] start in
          let event := zeroed bpf_env tcp_event_t in
          let event := store bpf_env tcp_event_t ["timestamp_ns"] now event in
          let event := store bpf_env tcp_event_t ["pid"] (get "pid") event in
          let event := store bpf_env tcp_event_t ["type"] AEGIS_EVENT_CONNECT event in
          let event := store bpf_env tcp_event_t ["family"] (get "family") event in
          let event := store bpf_env tcp_event_t ["sport"] (get "sport") event in
          let event := store bpf_env tcp_event_t ["dport"] (get "dport") event in
          let event := store bpf_env tcp_event_t ["ret"] ret event in
          let event := store bpf_env tcp_event_t ["saddr_v4"] (get "saddr_v4") event in
          let event := store bpf_env tcp_event_t ["daddr_v4"] (get "daddr_v4") event in
          let event := store bpf_env tcp_event_t ["connect_latency_ns"]
                         (wrapu 64 (now - get "timestamp_ns")) event in
          let event := store_bytes bpf_env tcp_event_t ["comm"]
                         (load_bytes bpf_env connect_start_t ["comm"] start) event in
          _ ← bpf_ringbuf_submit slot event;
          _ ← bpf_map_delete_elem connect_starts pid_tgid;
          mret 0
      end
  end.
End Program.
