(* ===== verification/ObjectLayouts.v ===== *)
(** * The layouts of the model against the compiled probe object

    The repository ships the probes compiled, as
    [agent/ebpf/bpf/tcp_metrics.bpf.o].  The object carries the debug
    information clang wrote for the translation unit: for each type it reaches,
    its size, how it is defined, and for each designatable member the bit
    offset, the width in bits and the type.  The first part of this file is that
    record, as [readelf --debug-dump=info] prints it, for the types that the
    [Vmlinux*] files and [TcpMetrics] declare, in the order of their
    declarations.  Members of anonymous aggregates are promoted, members of an
    unnamed type behind a named member are given by their path ([a.b]), integer
    types are spelled by signedness and width, and qualifiers are left out.  The
    second part compares the record with what the declarations elaborate to. *)
From stdpp Require Import pretty.
From S2P Require Import Prelude CTypes VmlinuxCore VmlinuxNet VmlinuxBpf Vmlinux Bpf TcpMetrics.

(** ** The record *)

(** A member: its designator, bit offset, width in bits and type. *)
Record recorded_member := mem { m_name : string; m_off : Z; m_bits : Z; m_type : string }.

(** A type: its name, how it is defined, its size in bytes and its members. *)
Record recorded_type := typ { r_name : string; r_kind : string; r_size : Z; r_members : list recorded_member }.

(** An enumeration: its name, size and constants. *)
Record recorded_enum := enm { n_name : string; n_size : Z; n_constants : list (string * Z) }.

Definition object_types_0 : list recorded_type := [
  typ "__u8" "u8" 1 [];
  typ "__u16" "u16" 2 [];
  typ "__s32" "s32" 4 [];
  typ "__u32" "u32" 4 [];
  typ "__s64" "s64" 8 [];
  typ "__u64" "u64" 8 [];
  typ "u8" "__u8" 1 [];
  typ "u16" "__u16" 2 [];
  typ "s32" "__s32" 4 [];
  typ "u32" "__u32" 4 [];
  typ "s64" "__s64" 8 [];
  typ "u64" "__u64" 8 [];
  typ "__kernel_ulong_t" "u64" 8 [];
  typ "__kernel_uid32_t" "u32" 4 [];
  typ "__kernel_size_t" "__kernel_ulong_t" 8 [];
  typ "bool" "u8" 1 [];
  typ "uid_t" "__kernel_uid32_t" 4 [];
  typ "size_t" "__kernel_size_t" 8 [];
  typ "gfp_t" "u32" 4 [];
  typ "atomic_t" "struct" 4 [
    mem "counter" 0 32 "s32"];
  typ "atomic64_t" "struct" 8 [
    mem "counter" 0 64 "s64"];
  typ "struct list_head" "struct" 16 [
    mem "next" 0 64 "struct list_head *"; mem "prev" 64 64 "struct list_head *"];
  typ "struct hlist_head" "struct" 8 [
    mem "first" 0 64 "struct hlist_node *"];
  typ "struct hlist_node" "struct" 16 [
    mem "next" 0 64 "struct hlist_node *"; mem "pprev" 64 64 "struct hlist_node * *"];
  typ "struct callback_head" "struct" 16 [
    mem "next" 0 64 "struct callback_head *"; mem "func" 64 64 "void () *"];
  typ "struct qspinlock" "struct" 4 [
    mem "val" 0 32 "atomic_t"; mem "locked" 0 8 "u8"; mem "pending" 8 8 "u8"; mem "locked_pending" 0 16 "u16";
    mem "tail" 16 16 "u16"];
  typ "arch_spinlock_t" "struct qspinlock" 4 [
    mem "val" 0 32 "atomic_t"; mem "locked" 0 8 "u8"; mem "pending" 8 8 "u8"; mem "locked_pending" 0 16 "u16";
    mem "tail" 16 16 "u16"];
  typ "struct raw_spinlock" "struct" 4 [
    mem "raw_lock" 0 32 "arch_spinlock_t"];
  typ "raw_spinlock_t" "struct raw_spinlock" 4 [
    mem "raw_lock" 0 32 "arch_spinlock_t"];
  typ "atomic_long_t" "atomic64_t" 8 [
    mem "counter" 0 64 "s64"]].

Definition object_types_1 : list recorded_type := [
  typ "struct spinlock" "struct" 4 [
    mem "rlock" 0 32 "struct raw_spinlock"];
  typ "spinlock_t" "struct spinlock" 4 [
    mem "rlock" 0 32 "struct raw_spinlock"];
  typ "struct wait_queue_head" "struct" 24 [
    mem "lock" 0 32 "spinlock_t"; mem "head" 64 128 "struct list_head"];
  typ "wait_queue_head_t" "struct wait_queue_head" 24 [
    mem "lock" 0 32 "spinlock_t"; mem "head" 64 128 "struct list_head"];
  typ "struct optimistic_spin_queue" "struct" 4 [
    mem "tail" 0 32 "atomic_t"];
  typ "kuid_t" "struct" 4 [
    mem "val" 0 32 "uid_t"];
  typ "struct refcount_struct" "struct" 4 [
    mem "refs" 0 32 "atomic_t"];
  typ "refcount_t" "struct refcount_struct" 4 [
    mem "refs" 0 32 "atomic_t"];
  typ "work_func_t" "void () *" 8 [];
  typ "struct work_struct" "struct" 32 [
    mem "data" 0 64 "atomic_long_t"; mem "entry" 64 128 "struct list_head"; mem "func" 192 64 "work_func_t"];
  typ "struct rb_root" "struct" 8 [
    mem "rb_node" 0 64 "struct rb_node *"];
  typ "struct rb_node" "struct" 24 [
    mem "__rb_parent_color" 0 64 "u64"; mem "rb_right" 64 64 "struct rb_node *";
    mem "rb_left" 128 64 "struct rb_node *"];
  typ "struct percpu_counter" "struct" 40 [
    mem "lock" 0 32 "raw_spinlock_t"; mem "count" 64 64 "s64"; mem "list" 128 128 "struct list_head";
    mem "counters" 256 64 "s32 *"];
  typ "struct lock_class_key" "struct" 0 [];
  typ "__s16" "s16" 2 [];
  typ "s16" "__s16" 2 [];
  typ "__kernel_long_t" "s64" 8 [];
  typ "__kernel_pid_t" "s32" 4 [];
  typ "__kernel_ssize_t" "__kernel_long_t" 8 [];
  typ "__kernel_clockid_t" "s32" 4 [];
  typ "pid_t" "__kernel_pid_t" 4 [];
  typ "clockid_t" "__kernel_clockid_t" 4 [];
  typ "ssize_t" "__kernel_ssize_t" 8 [];
  typ "ktime_t" "s64" 8 [];
  typ "struct qrwlock" "struct" 8 [
    mem "cnts" 0 32 "atomic_t"; mem "wlocked" 0 8 "u8"; mem "__lstate" 8 24 "u8 [3]";
    mem "wait_lock" 32 32 "arch_spinlock_t"];
  typ "arch_rwlock_t" "struct qrwlock" 8 [
    mem "cnts" 0 32 "atomic_t"; mem "wlocked" 0 8 "u8"; mem "__lstate" 8 24 "u8 [3]";
    mem "wait_lock" 32 32 "arch_spinlock_t"];
  typ "struct mutex" "struct" 32 [
    mem "owner" 0 64 "atomic_long_t"; mem "wait_lock" 64 32 "raw_spinlock_t";
    mem "osq" 96 32 "struct optimistic_spin_queue"; mem "wait_list" 128 128 "struct list_head"];
  typ "struct latch_tree_node" "struct" 48 [
    mem "node" 0 384 "struct rb_node [2]"];
  typ "struct thread_info" "struct" 24 [
    mem "flags" 0 64 "u64"; mem "syscall_work" 64 64 "u64"; mem "status" 128 32 "u32"; mem "cpu" 160 32 "u32"];
  typ "struct llist_node" "struct" 8 [
    mem "next" 0 64 "struct llist_node *"]].

Definition object_types_2 : list recorded_type := [
  typ "struct __call_single_node" "struct" 16 [
    mem "llist" 0 64 "struct llist_node"; mem "u_flags" 64 32 "u32"; mem "a_flags" 64 32 "atomic_t";
    mem "src" 96 16 "u16"; mem "dst" 112 16 "u16"];
  typ "struct load_weight" "struct" 16 [
    mem "weight" 0 64 "u64"; mem "inv_weight" 64 32 "u32"];
  typ "struct sched_avg" "struct" 64 [
    mem "last_update_time" 0 64 "u64"; mem "load_sum" 64 64 "u64"; mem "runnable_sum" 128 64 "u64";
    mem "util_sum" 192 32 "u32"; mem "period_contrib" 224 32 "u32"; mem "load_avg" 256 64 "u64";
    mem "runnable_avg" 320 64 "u64"; mem "util_avg" 384 64 "u64"; mem "util_est" 448 32 "u32"];
  typ "struct sched_entity" "struct" 256 [
    mem "load" 0 128 "struct load_weight"; mem "run_node" 128 192 "struct rb_node"; mem "deadline" 320 64 "u64";
    mem "min_vruntime" 384 64 "u64"; mem "group_node" 448 128 "struct list_head"; mem "on_rq" 576 32 "u32";
    mem "exec_start" 640 64 "u64"; mem "sum_exec_runtime" 704 64 "u64";
    mem "prev_sum_exec_runtime" 768 64 "u64"; mem "vruntime" 832 64 "u64"; mem "vlag" 896 64 "s64";
    mem "slice" 960 64 "u64"; mem "nr_migrations" 1024 64 "u64"; mem "depth" 1088 32 "s32";
    mem "parent" 1152 64 "struct sched_entity *"; mem "cfs_rq" 1216 64 "struct cfs_rq *";
    mem "my_q" 1280 64 "struct cfs_rq *"; mem "runnable_weight" 1344 64 "u64";
    mem "avg" 1536 512 "struct sched_avg"];
  typ "struct sched_rt_entity" "struct" 48 [
    mem "run_list" 0 128 "struct list_head"; mem "timeout" 128 64 "u64"; mem "watchdog_stamp" 192 64 "u64";
    mem "time_slice" 256 32 "u32"; mem "on_rq" 288 16 "u16"; mem "on_list" 304 16 "u16";
    mem "back" 320 64 "struct sched_rt_entity *"];
  typ "struct timerqueue_node" "struct" 32 [
    mem "node" 0 192 "struct rb_node"; mem "expires" 192 64 "ktime_t"];
  typ "struct hrtimer" "struct" 64 [
    mem "node" 0 256 "struct timerqueue_node"; mem "_softexpires" 256 64 "ktime_t";
    mem "function" 320 64 "enum hrtimer_restart () *"; mem "base" 384 64 "struct hrtimer_clock_base *";
    mem "state" 448 8 "u8"; mem "is_rel" 456 8 "u8"; mem "is_soft" 464 8 "u8"; mem "is_hard" 472 8 "u8"];
  typ "dl_server_has_tasks_f" "bool () *" 8 [];
  typ "dl_server_pick_f" "struct task_struct * () *" 8 [];
  typ "struct sched_dl_entity" "struct" 248 [
    mem "rb_node" 0 192 "struct rb_node"; mem "dl_runtime" 192 64 "u64"; mem "dl_deadline" 256 64 "u64";
    mem "dl_period" 320 64 "u64"; mem "dl_bw" 384 64 "u64"; mem "dl_density" 448 64 "u64";
    mem "runtime" 512 64 "s64"; mem "deadline" 576 64 "u64"; mem "flags" 640 32 "u32";
    mem "dl_throttled" 672 1 "u32"; mem "dl_yielded" 673 1 "u32"; mem "dl_non_contending" 674 1 "u32";
    mem "dl_overrun" 675 1 "u32"; mem "dl_server" 676 1 "u32"; mem "dl_timer" 704 512 "struct hrtimer";
    mem "inactive_timer" 1216 512 "struct hrtimer"; mem "rq" 1728 64 "struct rq *";
    mem "server_has_tasks" 1792 64 "dl_server_has_tasks_f"; mem "server_pick" 1856 64 "dl_server_pick_f";
    mem "pi_se" 1920 64 "struct sched_dl_entity *"];
  typ "struct uclamp_se" "struct" 4 [
    mem "value" 0 11 "u32"; mem "bucket_id" 11 3 "u32"; mem "active" 14 1 "u32"; mem "user_defined" 15 1 "u32"];
  typ "struct sched_statistics" "struct" 256 [
    mem "wait_start" 0 64 "u64"; mem "wait_max" 64 64 "u64"; mem "wait_count" 128 64 "u64";
    mem "wait_sum" 192 64 "u64"; mem "iowait_count" 256 64 "u64"; mem "iowait_sum" 320 64 "u64";
    mem "sleep_start" 384 64 "u64"; mem "sleep_max" 448 64 "u64"; mem "sum_sleep_runtime" 512 64 "s64";
    mem "block_start" 576 64 "u64"; mem "block_max" 640 64 "u64"; mem "sum_block_runtime" 704 64 "s64";
    mem "exec_max" 768 64 "s64"; mem "slice_max" 832 64 "u64"; mem "nr_migrations_cold" 896 64 "u64";
    mem "nr_failed_migrations_affine" 960 64 "u64"; mem "nr_failed_migrations_running" 1024 64 "u64";
    mem "nr_failed_migrations_hot" 1088 64 "u64"; mem "nr_forced_migrations" 1152 64 "u64";
    mem "nr_wakeups" 1216 64 "u64"; mem "nr_wakeups_sync" 1280 64 "u64"; mem "nr_wakeups_migrate" 1344 64 "u64";
    mem "nr_wakeups_local" 1408 64 "u64"; mem "nr_wakeups_remote" 1472 64 "u64";
    mem "nr_wakeups_affine" 1536 64 "u64"; mem "nr_wakeups_affine_attempts" 1600 64 "u64";
    mem "nr_wakeups_passive" 1664 64 "u64"; mem "nr_wakeups_idle" 1728 64 "u64";
    mem "core_forceidle_sum" 1792 64 "u64"];
  typ "struct cpumask" "struct" 1024 [
    mem "bits" 0 8192 "u64 [128]"];
  typ "cpumask_t" "struct cpumask" 1024 [
    mem "bits" 0 8192 "u64 [128]"];
  typ "union rcu_special" "union" 4 [
    mem "b" 0 32 "struct"; mem "b.blocked" 0 8 "u8"; mem "b.need_qs" 8 8 "u8"; mem "b.exp_hint" 16 8 "u8";
    mem "b.need_mb" 24 8 "u8"; mem "s" 0 32 "u32"];
  typ "struct sched_info" "struct" 32 [
    mem "pcount" 0 64 "u64"; mem "run_delay" 64 64 "u64"; mem "last_arrival" 128 64 "u64";
    mem "last_queued" 192 64 "u64"];
  typ "struct plist_node" "struct" 40 [
    mem "prio" 0 32 "s32"; mem "prio_list" 64 128 "struct list_head"; mem "node_list" 192 128 "struct list_head"];
  typ "enum timespec_type" "enum" 4 [];
  typ "struct restart_block" "struct" 56 [
    mem "arch_data" 0 64 "u64"; mem "fn" 64 64 "s64 () *"; mem "futex" 128 320 "struct";
    mem "futex.uaddr" 128 64 "u32 *"; mem "futex.val" 192 32 "u32"; mem "futex.flags" 224 32 "u32";
    mem "futex.bitset" 256 32 "u32"; mem "futex.time" 320 64 "u64"; mem "futex.uaddr2" 384 64 "u32 *";
    mem "nanosleep" 128 192 "struct"; mem "nanosleep.clockid" 128 32 "clockid_t";
    mem "nanosleep.type" 160 32 "enum timespec_type"; mem "nanosleep.rmtp" 192 64 "struct __kernel_timespec *";
    mem "nanosleep.compat_rmtp" 192 64 "struct old_timespec32 *"; mem "nanosleep.expires" 256 64 "u64";
    mem "poll" 128 256 "struct"; mem "poll.ufds" 128 64 "struct pollfd *"; mem "poll.nfds" 192 32 "s32";
    mem "poll.has_timeout" 224 32 "s32"; mem "poll.tv_sec" 256 64 "u64"; mem "poll.tv_nsec" 320 64 "u64"];
  typ "struct prev_cputime" "struct" 24 [
    mem "utime" 0 64 "u64"; mem "stime" 64 64 "u64"; mem "lock" 128 32 "raw_spinlock_t"];
  typ "struct seqcount" "struct" 4 [
    mem "sequence" 0 32 "u32"];
  typ "seqcount_t" "struct seqcount" 4 [
    mem "sequence" 0 32 "u32"];
  typ "enum vtime_state" "enum" 4 [];
  typ "struct vtime" "struct" 48 [
    mem "seqcount" 0 32 "seqcount_t"; mem "starttime" 64 64 "u64"; mem "state" 128 32 "enum vtime_state";
    mem "cpu" 160 32 "u32"; mem "utime" 192 64 "u64"; mem "stime" 256 64 "u64"; mem "gtime" 320 64 "u64"];
  typ "struct rb_root_cached" "struct" 16 [
    mem "rb_root" 0 64 "struct rb_root"; mem "rb_leftmost" 64 64 "struct rb_node *"];
  typ "struct timerqueue_head" "struct" 16 [
    mem "rb_root" 0 128 "struct rb_root_cached"];
  typ "struct posix_cputimer_base" "struct" 24 [
    mem "nextevt" 0 64 "u64"; mem "tqhead" 64 128 "struct timerqueue_head"];
  typ "struct posix_cputimers" "struct" 80 [
    mem "bases" 0 576 "struct posix_cputimer_base [3]"; mem "timers_active" 576 32 "u32";
    mem "expiry_active" 608 32 "u32"];
  typ "struct posix_cputimers_work" "struct" 56 [
    mem "work" 0 128 "struct callback_head"; mem "mutex" 128 256 "struct mutex"; mem "scheduled" 384 32 "u32"];
  typ "struct sysv_sem" "struct" 8 [
    mem "undo_list" 0 64 "struct sem_undo_list *"]].

Definition object_types_3 : list recorded_type := [
  typ "struct sysv_shm" "struct" 16 [
    mem "shm_clist" 0 128 "struct list_head"];
  typ "sigset_t" "struct" 8 [
    mem "sig" 0 64 "u64 [1]"];
  typ "struct sigpending" "struct" 24 [
    mem "list" 0 128 "struct list_head"; mem "signal" 128 64 "sigset_t"];
  typ "struct seccomp" "struct" 16 [
    mem "mode" 0 32 "s32"; mem "filter_count" 32 32 "atomic_t"; mem "filter" 64 64 "struct seccomp_filter *"];
  typ "struct syscall_user_dispatch" "struct" 32 [
    mem "selector" 0 64 "s8 *"; mem "offset" 64 64 "u64"; mem "len" 128 64 "u64"; mem "on_dispatch" 192 8 "bool"];
  typ "struct wake_q_node" "struct" 8 [
    mem "next" 0 64 "struct wake_q_node *"];
  typ "struct task_io_accounting" "struct" 56 [
    mem "rchar" 0 64 "u64"; mem "wchar" 64 64 "u64"; mem "syscr" 128 64 "u64"; mem "syscw" 192 64 "u64";
    mem "read_bytes" 256 64 "u64"; mem "write_bytes" 320 64 "u64"; mem "cancelled_write_bytes" 384 64 "u64"];
  typ "nodemask_t" "struct" 128 [
    mem "bits" 0 1024 "u64 [16]"];
  typ "struct seqcount_spinlock" "struct" 4 [
    mem "seqcount" 0 32 "seqcount_t"];
  typ "seqcount_spinlock_t" "struct seqcount_spinlock" 4 [
    mem "seqcount" 0 32 "seqcount_t"];
  typ "struct arch_tlbflush_unmap_batch" "struct" 1024 [
    mem "cpumask" 0 8192 "struct cpumask"];
  typ "struct tlbflush_unmap_batch" "struct" 1032 [
    mem "arch" 0 8192 "struct arch_tlbflush_unmap_batch"; mem "flush_required" 8192 8 "bool";
    mem "writable" 8200 8 "bool"];
  typ "struct page_frag" "struct" 16 [
    mem "page" 0 64 "struct page *"; mem "offset" 64 32 "__u32"; mem "size" 96 32 "__u32"];
  typ "struct latency_record" "struct" 120 [
    mem "backtrace" 0 768 "u64 [12]"; mem "count" 768 32 "u32"; mem "time" 832 64 "u64"; mem "max" 896 64 "u64"];
  typ "struct kmap_ctrl" "struct" 0 [];
  typ "struct timer_list" "struct" 40 [
    mem "entry" 0 128 "struct hlist_node"; mem "expires" 128 64 "u64"; mem "function" 192 64 "void () *";
    mem "flags" 256 32 "u32"];
  typ "struct llist_head" "struct" 8 [
    mem "first" 0 64 "struct llist_node *"];
  typ "struct da_monitor" "struct" 8 [
    mem "monitoring" 0 8 "bool"; mem "curr_state" 32 32 "u32"];
  typ "union rv_task_monitor" "union" 8 [
    mem "da_mon" 0 64 "struct da_monitor"];
  typ "struct desc_struct" "struct" 8 [
    mem "limit0" 0 16 "u16"; mem "base0" 16 16 "u16"; mem "base1" 32 8 "u16"; mem "type" 40 4 "u16";
    mem "s" 44 1 "u16"; mem "dpl" 45 2 "u16"; mem "p" 47 1 "u16"; mem "limit1" 48 4 "u16"; mem "avl" 52 1 "u16";
    mem "l" 53 1 "u16"; mem "d" 54 1 "u16"; mem "g" 55 1 "u16"; mem "base2" 56 8 "u16"];
  typ "struct thread_shstk" "struct" 16 [
    mem "base" 0 64 "u64"; mem "size" 64 64 "u64"];
  typ "struct fpu_state_perm" "struct" 16 [
    mem "__state_perm" 0 64 "u64"; mem "__state_size" 64 32 "u32"; mem "__user_state_size" 96 32 "u32"];
  typ "struct fregs_state" "struct" 112 [
    mem "cwd" 0 32 "u32"; mem "swd" 32 32 "u32"; mem "twd" 64 32 "u32"; mem "fip" 96 32 "u32";
    mem "fcs" 128 32 "u32"; mem "foo" 160 32 "u32"; mem "fos" 192 32 "u32"; mem "st_space" 224 640 "u32 [20]";
    mem "status" 864 32 "u32"];
  typ "struct fxregs_state" "struct" 512 [
    mem "cwd" 0 16 "u16"; mem "swd" 16 16 "u16"; mem "twd" 32 16 "u16"; mem "fop" 48 16 "u16";
    mem "rip" 64 64 "u64"; mem "rdp" 128 64 "u64"; mem "fip" 64 32 "u32"; mem "fcs" 96 32 "u32";
    mem "foo" 128 32 "u32"; mem "fos" 160 32 "u32"; mem "mxcsr" 192 32 "u32"; mem "mxcsr_mask" 224 32 "u32";
    mem "st_space" 256 1024 "u32 [32]"; mem "xmm_space" 1280 2048 "u32 [64]"; mem "padding" 3328 384 "u32 [12]";
    mem "padding1" 3712 384 "u32 [12]"; mem "sw_reserved" 3712 384 "u32 [12]"];
  typ "struct swregs_state" "struct" 136 [
    mem "cwd" 0 32 "u32"; mem "swd" 32 32 "u32"; mem "twd" 64 32 "u32"; mem "fip" 96 32 "u32";
    mem "fcs" 128 32 "u32"; mem "foo" 160 32 "u32"; mem "fos" 192 32 "u32"; mem "st_space" 224 640 "u32 [20]";
    mem "ftop" 864 8 "u8"; mem "changed" 872 8 "u8"; mem "lookahead" 880 8 "u8"; mem "no_update" 888 8 "u8";
    mem "rm" 896 8 "u8"; mem "alimit" 904 8 "u8"; mem "info" 960 64 "struct math_emu_info *";
    mem "entry_eip" 1024 32 "u32"];
  typ "struct xstate_header" "struct" 64 [
    mem "xfeatures" 0 64 "u64"; mem "xcomp_bv" 64 64 "u64"; mem "reserved" 128 384 "u64 [6]"];
  typ "struct xregs_state" "struct" 576 [
    mem "i387" 0 4096 "struct fxregs_state"; mem "header" 4096 512 "struct xstate_header";
    mem "extended_state_area" 4608 0 "u8 [0]"];
  typ "union fpregs_state" "union" 4096 [
    mem "fsave" 0 896 "struct fregs_state"; mem "fxsave" 0 4096 "struct fxregs_state";
    mem "soft" 0 1088 "struct swregs_state"; mem "xsave" 0 4608 "struct xregs_state";
    mem "__padding" 0 32768 "u8 [4096]"];
  typ "struct fpstate" "struct" 4160 [
    mem "size" 0 32 "u32"; mem "user_size" 32 32 "u32"; mem "xfeatures" 64 64 "u64";
    mem "user_xfeatures" 128 64 "u64"; mem "xfd" 192 64 "u64"; mem "is_valloc" 256 1 "u32";
    mem "is_guest" 257 1 "u32"; mem "is_confidential" 258 1 "u32"; mem "in_use" 259 1 "u32";
    mem "regs" 512 32768 "union fpregs_state"];
  typ "struct fpu" "struct" 4224 [
    mem "last_cpu" 0 32 "u32"; mem "avx512_timestamp" 64 64 "u64"; mem "fpstate" 128 64 "struct fpstate *";
    mem "__task_fpstate" 192 64 "struct fpstate *"; mem "perm" 256 128 "struct fpu_state_perm";
    mem "guest_perm" 384 128 "struct fpu_state_perm"; mem "__fpstate" 512 33280 "struct fpstate"]].

Definition object_types_4 : list recorded_type := [
  typ "struct thread_struct" "struct" 4416 [
    mem "tls_array" 0 192 "struct desc_struct [3]"; mem "sp" 192 64 "u64"; mem "es" 256 16 "u16";
    mem "ds" 272 16 "u16"; mem "fsindex" 288 16 "u16"; mem "gsindex" 304 16 "u16"; mem "fsbase" 320 64 "u64";
    mem "gsbase" 384 64 "u64"; mem "ptrace_bps" 448 256 "struct perf_event * [4]";
    mem "virtual_dr6" 704 64 "u64"; mem "ptrace_dr7" 768 64 "u64"; mem "cr2" 832 64 "u64";
    mem "trap_nr" 896 64 "u64"; mem "error_code" 960 64 "u64"; mem "io_bitmap" 1024 64 "struct io_bitmap *";
    mem "iopl_emul" 1088 64 "u64"; mem "iopl_warn" 1152 1 "u32"; mem "pkru" 1184 32 "u32";
    mem "features" 1216 64 "u64"; mem "features_locked" 1280 64 "u64";
    mem "shstk" 1344 128 "struct thread_shstk"; mem "fpu" 1536 33792 "struct fpu"];
  typ "struct task_struct" "struct" 13696 [
    mem "thread_info" 0 192 "struct thread_info"; mem "__state" 192 32 "u32"; mem "saved_state" 224 32 "u32";
    mem "stack" 256 64 "void *"; mem "usage" 320 32 "refcount_t"; mem "flags" 352 32 "u32";
    mem "ptrace" 384 32 "u32"; mem "on_cpu" 416 32 "s32"; mem "wake_entry" 448 128 "struct __call_single_node";
    mem "wakee_flips" 576 32 "u32"; mem "wakee_flip_decay_ts" 640 64 "u64";
    mem "last_wakee" 704 64 "struct task_struct *"; mem "recent_used_cpu" 768 32 "s32";
    mem "wake_cpu" 800 32 "s32"; mem "on_rq" 832 32 "s32"; mem "prio" 864 32 "s32";
    mem "static_prio" 896 32 "s32"; mem "normal_prio" 928 32 "s32"; mem "rt_priority" 960 32 "u32";
    mem "se" 1024 2048 "struct sched_entity"; mem "rt" 3072 384 "struct sched_rt_entity";
    mem "dl" 3456 1984 "struct sched_dl_entity"; mem "dl_server" 5440 64 "struct sched_dl_entity *";
    mem "sched_class" 5504 64 "struct sched_class *"; mem "core_node" 5568 192 "struct rb_node";
    mem "core_cookie" 5760 64 "u64"; mem "core_occupation" 5824 32 "u32";
    mem "sched_task_group" 5888 64 "struct task_group *"; mem "uclamp_req" 5952 64 "struct uclamp_se [2]";
    mem "uclamp" 6016 64 "struct uclamp_se [2]"; mem "stats" 6144 2048 "struct sched_statistics";
    mem "preempt_notifiers" 8192 64 "struct hlist_head"; mem "btrace_seq" 8256 32 "u32";
    mem "policy" 8288 32 "u32"; mem "nr_cpus_allowed" 8320 32 "s32"; mem "cpus_ptr" 8384 64 "cpumask_t *";
    mem "user_cpus_ptr" 8448 64 "cpumask_t *"; mem "cpus_mask" 8512 8192 "cpumask_t";
    mem "migration_pending" 16704 64 "void *"; mem "migration_disabled" 16768 16 "u16";
    mem "migration_flags" 16784 16 "u16"; mem "rcu_read_lock_nesting" 16800 32 "s32";
    mem "rcu_read_unlock_special" 16832 32 "union rcu_special";
    mem "rcu_node_entry" 16896 128 "struct list_head"; mem "rcu_blocked_node" 17024 64 "struct rcu_node *";
    mem "rcu_tasks_nvcsw" 17088 64 "u64"; mem "rcu_tasks_holdout" 17152 8 "u8";
    mem "rcu_tasks_idx" 17160 8 "u8"; mem "rcu_tasks_idle_cpu" 17184 32 "s32";
    mem "rcu_tasks_holdout_list" 17216 128 "struct list_head"; mem "rcu_tasks_exit_cpu" 17344 32 "s32";
    mem "rcu_tasks_exit_list" 17408 128 "struct list_head"; mem "trc_reader_nesting" 17536 32 "s32";
    mem "trc_ipi_to_cpu" 17568 32 "s32"; mem "trc_reader_special" 17600 32 "union rcu_special";
    mem "trc_holdout_list" 17664 128 "struct list_head"; mem "trc_blkd_node" 17792 128 "struct list_head";
    mem "trc_blkd_cpu" 17920 32 "s32"; mem "sched_info" 17984 256 "struct sched_info";
    mem "tasks" 18240 128 "struct list_head"; mem "pushable_tasks" 18368 320 "struct plist_node";
    mem "pushable_dl_tasks" 18688 192 "struct rb_node"; mem "mm" 18880 64 "struct mm_struct *";
    mem "active_mm" 18944 64 "struct mm_struct *";
    mem "faults_disabled_mapping" 19008 64 "struct address_space *"; mem "exit_state" 19072 32 "s32";
    mem "exit_code" 19104 32 "s32"; mem "exit_signal" 19136 32 "s32"; mem "pdeath_signal" 19168 32 "s32";
    mem "jobctl" 19200 64 "u64"; mem "personality" 19264 32 "u32"; mem "sched_reset_on_fork" 19296 1 "u32";
    mem "sched_contributes_to_load" 19297 1 "u32"; mem "sched_migrated" 19298 1 "u32";
    mem "sched_task_hot" 19299 1 "u32"; mem "sched_remote_wakeup" 19328 1 "u32";
    mem "sched_rt_mutex" 19329 1 "u32"; mem "in_execve" 19330 1 "u32"; mem "in_iowait" 19331 1 "u32";
    mem "restore_sigmask" 19332 1 "u32"; mem "in_user_fault" 19333 1 "u32"; mem "in_lru_fault" 19334 1 "u32";
    mem "no_cgroup_migration" 19335 1 "u32"; mem "frozen" 19336 1 "u32"; mem "use_memdelay" 19337 1 "u32";
    mem "in_memstall" 19338 1 "u32"; mem "in_eventfd" 19339 1 "u32"; mem "pasid_activated" 19340 1 "u32";
    mem "reported_split_lock" 19341 1 "u32"; mem "in_thrashing" 19342 1 "u32";
    mem "atomic_flags" 19392 64 "u64"; mem "restart_block" 19456 448 "struct restart_block";
    mem "pid" 19904 32 "pid_t"; mem "tgid" 19936 32 "pid_t"; mem "stack_canary" 19968 64 "u64";
    mem "real_parent" 20032 64 "struct task_struct *"; mem "parent" 20096 64 "struct task_struct *";
    mem "children" 20160 128 "struct list_head"; mem "sibling" 20288 128 "struct list_head";
    mem "group_leader" 20416 64 "struct task_struct *"; mem "ptraced" 20480 128 "struct list_head";
    mem "ptrace_entry" 20608 128 "struct list_head"; mem "thread_pid" 20736 64 "struct pid *";
    mem "pid_links" 20800 512 "struct hlist_node [4]"; mem "thread_node" 21312 128 "struct list_head";
    mem "vfork_done" 21440 64 "struct completion *"; mem "set_child_tid" 21504 64 "s32 *";
    mem "clear_child_tid" 21568 64 "s32 *"; mem "worker_private" 21632 64 "void *"; mem "utime" 21696 64 "u64";
    mem "stime" 21760 64 "u64"; mem "gtime" 21824 64 "u64"; mem "prev_cputime" 21888 192 "struct prev_cputime";
    mem "vtime" 22080 384 "struct vtime"; mem "tick_dep_mask" 22464 32 "atomic_t"; mem "nvcsw" 22528 64 "u64";
    mem "nivcsw" 22592 64 "u64"; mem "start_time" 22656 64 "u64"; mem "start_boottime" 22720 64 "u64";
    mem "min_flt" 22784 64 "u64"; mem "maj_flt" 22848 64 "u64";
    mem "posix_cputimers" 22912 640 "struct posix_cputimers";
    mem "posix_cputimers_work" 23552 448 "struct posix_cputimers_work";
    mem "ptracer_cred" 24000 64 "struct cred *"; mem "real_cred" 24064 64 "struct cred *";
    mem "cred" 24128 64 "struct cred *"; mem "cached_requested_key" 24192 64 "struct key *";
    mem "comm" 24256 128 "s8 [16]"; mem "nameidata" 24384 64 "struct nameidata *";
    mem "sysvsem" 24448 64 "struct sysv_sem"; mem "sysvshm" 24512 128 "struct sysv_shm";
    mem "last_switch_count" 24640 64 "u64"; mem "last_switch_time" 24704 64 "u64";
    mem "fs" 24768 64 "struct fs_struct *"; mem "files" 24832 64 "struct files_struct *";
    mem "io_uring" 24896 64 "struct io_uring_task *"; mem "nsproxy" 24960 64 "struct nsproxy *";
    mem "signal" 25024 64 "struct signal_struct *"; mem "sighand" 25088 64 "struct sighand_struct *";
    mem "blocked" 25152 64 "sigset_t"; mem "real_blocked" 25216 64 "sigset_t";
    mem "saved_sigmask" 25280 64 "sigset_t"; mem "pending" 25344 192 "struct sigpending";
    mem "sas_ss_sp" 25536 64 "u64"; mem "sas_ss_size" 25600 64 "size_t"; mem "sas_ss_flags" 25664 32 "u32";
    mem "task_works" 25728 64 "struct callback_head *"; mem "audit_context" 25792 64 "struct audit_context *";
    mem "loginuid" 25856 32 "kuid_t"; mem "sessionid" 25888 32 "u32"; mem "seccomp" 25920 128 "struct seccomp";
    mem "syscall_dispatch" 26048 256 "struct syscall_user_dispatch"; mem "parent_exec_id" 26304 64 "u64";
    mem "self_exec_id" 26368 64 "u64"; mem "alloc_lock" 26432 32 "spinlock_t";
    mem "pi_lock" 26464 32 "raw_spinlock_t"; mem "wake_q" 26496 64 "struct wake_q_node";
    mem "pi_waiters" 26560 128 "struct rb_root_cached"; mem "pi_top_task" 26688 64 "struct task_struct *";
    mem "pi_blocked_on" 26752 64 "struct rt_mutex_waiter *"; mem "in_ubsan" 26816 32 "u32";
    mem "journal_info" 26880 64 "void *"; mem "bio_list" 26944 64 "struct bio_list *";
    mem "plug" 27008 64 "struct blk_plug *"; mem "reclaim_state" 27072 64 "struct reclaim_state *";
    mem "io_context" 27136 64 "struct io_context *"; mem "capture_control" 27200 64 "struct capture_control *";
    mem "ptrace_message" 27264 64 "u64"; mem "last_siginfo" 27328 64 "kernel_siginfo_t *";
    mem "ioac" 27392 448 "struct task_io_accounting"; mem "psi_flags" 27840 32 "u32";
    mem "acct_rss_mem1" 27904 64 "u64"; mem "acct_vm_mem1" 27968 64 "u64"; mem "acct_timexpd" 28032 64 "u64";
    mem "mems_allowed" 28096 1024 "nodemask_t"; mem "mems_allowed_seq" 29120 32 "seqcount_spinlock_t";
    mem "cpuset_mem_spread_rotor" 29152 32 "s32"; mem "cpuset_slab_spread_rotor" 29184 32 "s32";
    mem "cgroups" 29248 64 "struct css_set *"; mem "cg_list" 29312 128 "struct list_head";
    mem "closid" 29440 32 "u32"; mem "rmid" 29472 32 "u32";
    mem "robust_list" 29504 64 "struct robust_list_head *";
    mem "compat_robust_list" 29568 64 "struct compat_robust_list_head *";
    mem "pi_state_list" 29632 128 "struct list_head"; mem "pi_state_cache" 29760 64 "struct futex_pi_state *";
    mem "futex_exit_mutex" 29824 256 "struct mutex"; mem "futex_state" 30080 32 "u32";
    mem "perf_event_ctxp" 30144 64 "struct perf_event_context *";
    mem "perf_event_mutex" 30208 256 "struct mutex"; mem "perf_event_list" 30464 128 "struct list_head";
    mem "mempolicy" 30592 64 "struct mempolicy *"; mem "il_prev" 30656 16 "s16";
    mem "pref_node_fork" 30672 16 "s16"; mem "numa_scan_seq" 30688 32 "s32";
    mem "numa_scan_period" 30720 32 "u32"; mem "numa_scan_period_max" 30752 32 "u32";
    mem "numa_preferred_nid" 30784 32 "s32"; mem "numa_migrate_retry" 30848 64 "u64";
    mem "node_stamp" 30912 64 "u64"; mem "last_task_numa_placement" 30976 64 "u64";
    mem "last_sum_exec_runtime" 31040 64 "u64"; mem "numa_work" 31104 128 "struct callback_head";
    mem "numa_group" 31232 64 "struct numa_group *"; mem "numa_faults" 31296 64 "u64 *";
    mem "total_numa_faults" 31360 64 "u64"; mem "numa_faults_locality" 31424 192 "u64 [3]";
    mem "numa_pages_migrated" 31616 64 "u64"; mem "rseq" 31680 64 "struct rseq *";
    mem "rseq_len" 31744 32 "u32"; mem "rseq_sig" 31776 32 "u32"; mem "rseq_event_mask" 31808 64 "u64";
    mem "mm_cid" 31872 32 "s32"; mem "last_mm_cid" 31904 32 "s32"; mem "migrate_from_cpu" 31936 32 "s32";
    mem "mm_cid_active" 31968 32 "s32"; mem "cid_work" 32000 128 "struct callback_head";
    mem "tlb_ubc" 32128 8256 "struct tlbflush_unmap_batch";
    mem "splice_pipe" 40384 64 "struct pipe_inode_info *"; mem "task_frag" 40448 128 "struct page_frag";
    mem "delays" 40576 64 "struct task_delay_info *"; mem "nr_dirtied" 40640 32 "s32";
    mem "nr_dirtied_pause" 40672 32 "s32"; mem "dirty_paused_when" 40704 64 "u64";
    mem "latency_record_count" 40768 32 "s32"; mem "latency_record" 40832 30720 "struct latency_record [32]";
    mem "timer_slack_ns" 71552 64 "u64"; mem "default_timer_slack_ns" 71616 64 "u64";
    mem "curr_ret_stack" 71680 32 "s32"; mem "curr_ret_depth" 71712 32 "s32";
    mem "ret_stack" 71744 64 "struct ftrace_ret_stack *"; mem "ftrace_timestamp" 71808 64 "u64";
    mem "trace_overrun" 71872 32 "atomic_t"; mem "tracing_graph_pause" 71904 32 "atomic_t";
    mem "trace_recursion" 71936 64 "u64"; mem "memcg_in_oom" 72000 64 "struct mem_cgroup *";
    mem "memcg_oom_gfp_mask" 72064 32 "gfp_t"; mem "memcg_oom_order" 72096 32 "s32";
    mem "memcg_nr_pages_over_high" 72128 32 "u32"; mem "active_memcg" 72192 64 "struct mem_cgroup *";
    mem "objcg" 72256 64 "struct obj_cgroup *"; mem "throttle_disk" 72320 64 "struct gendisk *";
    mem "utask" 72384 64 "struct uprobe_task *"; mem "sequential_io" 72448 32 "u32";
    mem "sequential_io_avg" 72480 32 "u32"; mem "kmap_ctrl" 72512 0 "struct kmap_ctrl";
    mem "rcu" 72512 128 "struct callback_head"; mem "rcu_users" 72640 32 "refcount_t";
    mem "pagefault_disabled" 72672 32 "s32"; mem "oom_reaper_list" 72704 64 "struct task_struct *";
    mem "oom_reaper_timer" 72768 320 "struct timer_list"; mem "stack_vm_area" 73088 64 "struct vm_struct *";
    mem "stack_refcount" 73152 32 "refcount_t"; mem "patch_state" 73184 32 "s32";
    mem "security" 73216 64 "void *"; mem "bpf_storage" 73280 64 "struct bpf_local_storage *";
    mem "bpf_ctx" 73344 64 "struct bpf_run_ctx *"; mem "mce_vaddr" 73408 64 "void *";
    mem "mce_kflags" 73472 64 "__u64"; mem "mce_addr" 73536 64 "u64"; mem "mce_ripv" 73600 1 "__u64";
    mem "mce_whole_page" 73601 1 "__u64"; mem "__mce_reserved" 73602 62 "__u64";
    mem "mce_kill_me" 73664 128 "struct callback_head"; mem "mce_count" 73792 32 "s32";
    mem "kretprobe_instances" 73856 64 "struct llist_head"; mem "rethooks" 73920 64 "struct llist_head";
    mem "l1d_flush_kill" 73984 128 "struct callback_head"; mem "rv" 74112 64 "union rv_task_monitor [1]";
    mem "user_event_mm" 74176 64 "struct user_event_mm *"; mem "thread" 74240 35328 "struct thread_struct"];
  typ "struct fred_cs" "struct" 8 [
    mem "cs" 0 16 "u64"; mem "sl" 16 2 "u64"; mem "wfe" 18 1 "u64"];
  typ "struct fred_ss" "struct" 8 [
    mem "ss" 0 16 "u64"; mem "sti" 16 1 "u64"; mem "swevent" 17 1 "u64"; mem "nmi" 18 1 "u64";
    mem "vector" 32 8 "u64"; mem "type" 48 4 "u64"; mem "enclave" 56 1 "u64"; mem "lm" 57 1 "u64";
    mem "nested" 58 1 "u64"; mem "insnlen" 60 4 "u64"];
  typ "struct pt_regs" "struct" 168 [
    mem "r15" 0 64 "u64"; mem "r14" 64 64 "u64"; mem "r13" 128 64 "u64"; mem "r12" 192 64 "u64";
    mem "bp" 256 64 "u64"; mem "bx" 320 64 "u64"; mem "r11" 384 64 "u64"; mem "r10" 448 64 "u64";
    mem "r9" 512 64 "u64"; mem "r8" 576 64 "u64"; mem "ax" 640 64 "u64"; mem "cx" 704 64 "u64";
    mem "dx" 768 64 "u64"; mem "si" 832 64 "u64"; mem "di" 896 64 "u64"; mem "orig_ax" 960 64 "u64";
    mem "ip" 1024 64 "u64"; mem "cs" 1088 16 "u16"; mem "csx" 1088 64 "u64";
    mem "fred_cs" 1088 64 "struct fred_cs"; mem "flags" 1152 64 "u64"; mem "sp" 1216 64 "u64";
    mem "ss" 1280 16 "u16"; mem "ssx" 1280 64 "u64"; mem "fred_ss" 1280 64 "struct fred_ss"];
  typ "struct perf_event_attr" "struct" 136 [
    mem "type" 0 32 "__u32"; mem "size" 32 32 "__u32"; mem "config" 64 64 "__u64";
    mem "sample_period" 128 64 "__u64"; mem "sample_freq" 128 64 "__u64"; mem "sample_type" 192 64 "__u64";
    mem "read_format" 256 64 "__u64"; mem "disabled" 320 1 "__u64"; mem "inherit" 321 1 "__u64";
    mem "pinned" 322 1 "__u64"; mem "exclusive" 323 1 "__u64"; mem "exclude_user" 324 1 "__u64";
    mem "exclude_kernel" 325 1 "__u64"; mem "exclude_hv" 326 1 "__u64"; mem "exclude_idle" 327 1 "__u64";
    mem "mmap" 328 1 "__u64"; mem "comm" 329 1 "__u64"; mem "freq" 330 1 "__u64";
    mem "inherit_stat" 331 1 "__u64"; mem "enable_on_exec" 332 1 "__u64"; mem "task" 333 1 "__u64";
    mem "watermark" 334 1 "__u64"; mem "precise_ip" 335 2 "__u64"; mem "mmap_data" 337 1 "__u64";
    mem "sample_id_all" 338 1 "__u64"; mem "exclude_host" 339 1 "__u64"; mem "exclude_guest" 340 1 "__u64";
    mem "exclude_callchain_kernel" 341 1 "__u64"; mem "exclude_callchain_user" 342 1 "__u64";
    mem "mmap2" 343 1 "__u64"; mem "comm_exec" 344 1 "__u64"; mem "use_clockid" 345 1 "__u64";
    mem "context_switch" 346 1 "__u64"; mem "write_backward" 347 1 "__u64"; mem "namespaces" 348 1 "__u64";
    mem "ksymbol" 349 1 "__u64"; mem "bpf_event" 350 1 "__u64"; mem "aux_output" 351 1 "__u64";
    mem "cgroup" 352 1 "__u64"; mem "text_poke" 353 1 "__u64"; mem "build_id" 354 1 "__u64";
    mem "inherit_thread" 355 1 "__u64"; mem "remove_on_exec" 356 1 "__u64"; mem "sigtrap" 357 1 "__u64";
    mem "__reserved_1" 358 26 "__u64"; mem "wakeup_events" 384 32 "__u32";
    mem "wakeup_watermark" 384 32 "__u32"; mem "bp_type" 416 32 "__u32"; mem "bp_addr" 448 64 "__u64";
    mem "kprobe_func" 448 64 "__u64"; mem "uprobe_path" 448 64 "__u64"; mem "config1" 448 64 "__u64";
    mem "bp_len" 512 64 "__u64"; mem "kprobe_addr" 512 64 "__u64"; mem "probe_offset" 512 64 "__u64";
    mem "config2" 512 64 "__u64"; mem "branch_sample_type" 576 64 "__u64";
    mem "sample_regs_user" 640 64 "__u64"; mem "sample_stack_user" 704 32 "__u32"; mem "clockid" 736 32 "__s32";
    mem "sample_regs_intr" 768 64 "__u64"; mem "aux_watermark" 832 32 "__u32";
    mem "sample_max_stack" 864 16 "__u16"; mem "__reserved_2" 880 16 "__u16";
    mem "aux_sample_size" 896 32 "__u32"; mem "__reserved_3" 928 32 "__u32"; mem "sig_data" 960 64 "__u64";
    mem "config3" 1024 64 "__u64"];
  typ "struct rcuwait" "struct" 8 [
    mem "task" 0 64 "struct task_struct *"];
  typ "struct irq_work" "struct" 32 [
    mem "node" 0 128 "struct __call_single_node"; mem "func" 128 64 "void () *";
    mem "irqwait" 192 64 "struct rcuwait"];
  typ "ftrace_func_t" "void () *" 8 [];
  typ "struct ftrace_ops_hash" "struct" 48 [
    mem "notrace_hash" 0 64 "struct ftrace_hash *"; mem "filter_hash" 64 64 "struct ftrace_hash *";
    mem "regex_lock" 128 256 "struct mutex"];
  typ "ftrace_ops_func_t" "s32 () *" 8 [];
  typ "struct ftrace_ops" "struct" 192 [
    mem "func" 0 64 "ftrace_func_t"; mem "next" 64 64 "struct ftrace_ops *"; mem "flags" 128 64 "u64";
    mem "private" 192 64 "void *"; mem "saved_func" 256 64 "ftrace_func_t";
    mem "local_hash" 320 384 "struct ftrace_ops_hash"; mem "func_hash" 704 64 "struct ftrace_ops_hash *";
    mem "old_hash" 768 384 "struct ftrace_ops_hash"; mem "trampoline" 1152 64 "u64";
    mem "trampoline_size" 1216 64 "u64"; mem "list" 1280 128 "struct list_head";
    mem "ops_func" 1408 64 "ftrace_ops_func_t"; mem "direct_call" 1472 64 "u64"];
  typ "rwlock_t" "struct" 8 [
    mem "raw_lock" 0 64 "arch_rwlock_t"];
  typ "__be16" "__u16" 2 [];
  typ "__be32" "__u32" 4 [];
  typ "__wsum" "__u32" 4 [];
  typ "struct sk_buff_list" "struct" 16 [
    mem "next" 0 64 "struct sk_buff *"; mem "prev" 64 64 "struct sk_buff *"];
  typ "struct sk_buff_head" "struct" 24 [
    mem "next" 0 64 "struct sk_buff *"; mem "prev" 64 64 "struct sk_buff *";
    mem "list" 0 128 "struct sk_buff_list"; mem "qlen" 128 32 "__u32"; mem "lock" 160 32 "spinlock_t"];
  typ "sk_buff_data_t" "u32" 4 [];
  typ "struct sk_buff" "struct" 232 [
    mem "next" 0 64 "struct sk_buff *"; mem "prev" 64 64 "struct sk_buff *";
    mem "dev" 128 64 "struct net_device *"; mem "dev_scratch" 128 64 "u64"; mem "rbnode" 0 192 "struct rb_node";
    mem "list" 0 128 "struct list_head"; mem "ll_node" 0 64 "struct llist_node";
    mem "sk" 192 64 "struct sock *"; mem "tstamp" 256 64 "ktime_t"; mem "skb_mstamp_ns" 256 64 "u64";
    mem "cb" 320 384 "s8 [48]"; mem "_skb_refdst" 704 64 "u64"; mem "destructor" 768 64 "void () *";
    mem "tcp_tsorted_anchor" 704 128 "struct list_head"; mem "_sk_redir" 704 64 "u64"; mem "_nfct" 832 64 "u64";
    mem "len" 896 32 "u32"; mem "data_len" 928 32 "u32"; mem "mac_len" 960 16 "__u16";
    mem "hdr_len" 976 16 "__u16"; mem "queue_mapping" 992 16 "__u16"; mem "__cloned_offset" 1008 0 "__u8 [0]";
    mem "cloned" 1008 1 "__u8"; mem "nohdr" 1009 1 "__u8"; mem "fclone" 1010 2 "__u8";
    mem "peeked" 1012 1 "__u8"; mem "head_frag" 1013 1 "__u8"; mem "pfmemalloc" 1014 1 "__u8";
    mem "pp_recycle" 1015 1 "__u8"; mem "active_extensions" 1016 8 "__u8";
    mem "__pkt_type_offset" 1024 0 "__u8 [0]"; mem "pkt_type" 1024 3 "__u8"; mem "ignore_df" 1027 1 "__u8";
    mem "dst_pending_confirm" 1028 1 "__u8"; mem "ip_summed" 1029 2 "__u8"; mem "ooo_okay" 1031 1 "__u8";
    mem "__mono_tc_offset" 1032 0 "__u8 [0]"; mem "tstamp_type" 1032 1 "__u8";
    mem "tc_at_ingress" 1033 1 "__u8"; mem "tc_skip_classify" 1034 1 "__u8";
    mem "remcsum_offload" 1035 1 "__u8"; mem "csum_complete_sw" 1036 1 "__u8"; mem "csum_level" 1037 2 "__u8";
    mem "inner_protocol_type" 1039 1 "__u8"; mem "l4_hash" 1040 1 "__u8"; mem "sw_hash" 1041 1 "__u8";
    mem "wifi_acked_valid" 1042 1 "__u8"; mem "wifi_acked" 1043 1 "__u8"; mem "no_fcs" 1044 1 "__u8";
    mem "encapsulation" 1045 1 "__u8"; mem "encap_hdr_csum" 1046 1 "__u8"; mem "csum_valid" 1047 1 "__u8";
    mem "ndisc_nodetype" 1048 2 "__u8"; mem "ipvs_property" 1050 1 "__u8"; mem "nf_trace" 1051 1 "__u8";
    mem "offload_fwd_mark" 1052 1 "__u8"; mem "offload_l3_fwd_mark" 1053 1 "__u8";
    mem "redirected" 1054 1 "__u8"; mem "from_ingress" 1055 1 "__u8"; mem "nf_skip_egress" 1056 1 "__u8";
    mem "decrypted" 1057 1 "__u8"; mem "slow_gro" 1058 1 "__u8"; mem "csum_not_inet" 1059 1 "__u8";
    mem "tc_index" 1072 16 "__u16"; mem "alloc_cpu" 1088 16 "u16"; mem "csum" 1120 32 "__wsum";
    mem "csum_start" 1120 16 "__u16"; mem "csum_offset" 1136 16 "__u16"; mem "priority" 1152 32 "__u32";
    mem "skb_iif" 1184 32 "s32"; mem "hash" 1216 32 "__u32"; mem "vlan_all" 1248 32 "u32";
    mem "vlan_proto" 1248 16 "__be16"; mem "vlan_tci" 1264 16 "__u16"; mem "napi_id" 1280 32 "u32";
    mem "sender_cpu" 1280 32 "u32"; mem "secmark" 1312 32 "__u32"; mem "mark" 1344 32 "__u32";
    mem "reserved_tailroom" 1344 32 "__u32"; mem "inner_protocol" 1376 16 "__be16";
    mem "inner_ipproto" 1376 8 "__u8"; mem "inner_transport_header" 1392 16 "__u16";
    mem "inner_network_header" 1408 16 "__u16"; mem "inner_mac_header" 1424 16 "__u16";
    mem "protocol" 1440 16 "__be16"; mem "transport_header" 1456 16 "__u16";
    mem "network_header" 1472 16 "__u16"; mem "mac_header" 1488 16 "__u16"; mem "headers" 1024 480 "struct";
    mem "headers.__pkt_type_offset" 1024 0 "__u8 [0]"; mem "headers.pkt_type" 1024 3 "__u8";
    mem "headers.ignore_df" 1027 1 "__u8"; mem "headers.dst_pending_confirm" 1028 1 "__u8";
    mem "headers.ip_summed" 1029 2 "__u8"; mem "headers.ooo_okay" 1031 1 "__u8";
    mem "headers.__mono_tc_offset" 1032 0 "__u8 [0]"; mem "headers.tstamp_type" 1032 1 "__u8";
    mem "headers.tc_at_ingress" 1033 1 "__u8"; mem "headers.tc_skip_classify" 1034 1 "__u8";
    mem "headers.remcsum_offload" 1035 1 "__u8"; mem "headers.csum_complete_sw" 1036 1 "__u8";
    mem "headers.csum_level" 1037 2 "__u8"; mem "headers.inner_protocol_type" 1039 1 "__u8";
    mem "headers.l4_hash" 1040 1 "__u8"; mem "headers.sw_hash" 1041 1 "__u8";
    mem "headers.wifi_acked_valid" 1042 1 "__u8"; mem "headers.wifi_acked" 1043 1 "__u8";
    mem "headers.no_fcs" 1044 1 "__u8"; mem "headers.encapsulation" 1045 1 "__u8";
    mem "headers.encap_hdr_csum" 1046 1 "__u8"; mem "headers.csum_valid" 1047 1 "__u8";
    mem "headers.ndisc_nodetype" 1048 2 "__u8"; mem "headers.ipvs_property" 1050 1 "__u8";
    mem "headers.nf_trace" 1051 1 "__u8"; mem "headers.offload_fwd_mark" 1052 1 "__u8";
    mem "headers.offload_l3_fwd_mark" 1053 1 "__u8"; mem "headers.redirected" 1054 1 "__u8";
    mem "headers.from_ingress" 1055 1 "__u8"; mem "headers.nf_skip_egress" 1056 1 "__u8";
    mem "headers.decrypted" 1057 1 "__u8"; mem "headers.slow_gro" 1058 1 "__u8";
    mem "headers.csum_not_inet" 1059 1 "__u8"; mem "headers.tc_index" 1072 16 "__u16";
    mem "headers.alloc_cpu" 1088 16 "u16"; mem "headers.csum" 1120 32 "__wsum";
    mem "headers.csum_start" 1120 16 "__u16"; mem "headers.csum_offset" 1136 16 "__u16";
    mem "headers.priority" 1152 32 "__u32"; mem "headers.skb_iif" 1184 32 "s32";
    mem "headers.hash" 1216 32 "__u32"; mem "headers.vlan_all" 1248 32 "u32";
    mem "headers.vlan_proto" 1248 16 "__be16"; mem "headers.vlan_tci" 1264 16 "__u16";
    mem "headers.napi_id" 1280 32 "u32"; mem "headers.sender_cpu" 1280 32 "u32";
    mem "headers.secmark" 1312 32 "__u32"; mem "headers.mark" 1344 32 "__u32";
    mem "headers.reserved_tailroom" 1344 32 "__u32"; mem "headers.inner_protocol" 1376 16 "__be16";
    mem "headers.inner_ipproto" 1376 8 "__u8"; mem "headers.inner_transport_header" 1392 16 "__u16";
    mem "headers.inner_network_header" 1408 16 "__u16"; mem "headers.inner_mac_header" 1424 16 "__u16";
    mem "headers.protocol" 1440 16 "__be16"; mem "headers.transport_header" 1456 16 "__u16";
    mem "headers.network_header" 1472 16 "__u16"; mem "headers.mac_header" 1488 16 "__u16";
    mem "tail" 1504 32 "sk_buff_data_t"; mem "end" 1536 32 "sk_buff_data_t"; mem "head" 1600 64 "u8 *";
    mem "data" 1664 64 "u8 *"; mem "truesize" 1728 32 "u32"; mem "users" 1760 32 "refcount_t";
    mem "extensions" 1792 64 "struct skb_ext *"];
  typ "struct in6_addr" "struct" 16 [
    mem "in6_u" 0 128 "union"; mem "in6_u.u6_addr8" 0 128 "__u8 [16]"; mem "in6_u.u6_addr16" 0 128 "__be16 [8]";
    mem "in6_u.u6_addr32" 0 128 "__be32 [4]"];
  typ "struct hlist_nulls_node" "struct" 16 [
    mem "next" 0 64 "struct hlist_nulls_node *"; mem "pprev" 64 64 "struct hlist_nulls_node * *"];
  typ "slab_flags_t" "u32" 4 [];
  typ "__be64" "__u64" 8 [];
  typ "struct sock_cgroup_data" "struct" 16 [
    mem "cgroup" 0 64 "struct cgroup *"; mem "classid" 64 32 "u32"; mem "prioidx" 96 16 "u16"];
  typ "struct bpf_insn" "struct" 8 [
    mem "code" 0 8 "__u8"; mem "dst_reg" 8 4 "__u8"; mem "src_reg" 12 4 "__u8"; mem "off" 16 16 "__s16";
    mem "imm" 32 32 "__s32"];
  typ "enum bpf_map_type" "enum" 4 [];
  typ "enum bpf_prog_type" "enum" 4 [];
  typ "enum bpf_attach_type" "enum" 4 [];
  typ "union bpf_attr" "union" 144 [
    mem "map_type" 0 32 "__u32"; mem "key_size" 32 32 "__u32"; mem "value_size" 64 32 "__u32";
    mem "max_entries" 96 32 "__u32"; mem "map_flags" 128 32 "__u32"; mem "inner_map_fd" 160 32 "__u32";
    mem "numa_node" 192 32 "__u32"; mem "map_name" 224 128 "s8 [16]"; mem "map_ifindex" 352 32 "__u32";
    mem "btf_fd" 384 32 "__u32"; mem "btf_key_type_id" 416 32 "__u32"; mem "btf_value_type_id" 448 32 "__u32";
    mem "btf_vmlinux_value_type_id" 480 32 "__u32"; mem "map_extra" 512 64 "__u64"; mem "map_fd" 0 32 "__u32";
    mem "key" 64 64 "__u64"; mem "value" 128 64 "__u64"; mem "next_key" 128 64 "__u64";
    mem "flags" 192 64 "__u64"; mem "batch" 0 448 "struct"; mem "batch.in_batch" 0 64 "__u64";
    mem "batch.out_batch" 64 64 "__u64"; mem "batch.keys" 128 64 "__u64"; mem "batch.values" 192 64 "__u64";
    mem "batch.count" 256 32 "__u32"; mem "batch.map_fd" 288 32 "__u32"; mem "batch.elem_flags" 320 64 "__u64";
    mem "batch.flags" 384 64 "__u64"; mem "prog_type" 0 32 "__u32"; mem "insn_cnt" 32 32 "__u32";
    mem "insns" 64 64 "__u64"; mem "license" 128 64 "__u64"; mem "log_level" 192 32 "__u32";
    mem "log_size" 224 32 "__u32"; mem "log_buf" 256 64 "__u64"; mem "kern_version" 320 32 "__u32";
    mem "prog_flags" 352 32 "__u32"; mem "prog_name" 384 128 "s8 [16]"; mem "prog_ifindex" 512 32 "__u32";
    mem "expected_attach_type" 544 32 "__u32"; mem "prog_btf_fd" 576 32 "__u32";
    mem "func_info_rec_size" 608 32 "__u32"; mem "func_info" 640 64 "__u64"; mem "func_info_cnt" 704 32 "__u32";
    mem "line_info_rec_size" 736 32 "__u32"; mem "line_info" 768 64 "__u64"; mem "line_info_cnt" 832 32 "__u32";
    mem "attach_btf_id" 864 32 "__u32"; mem "attach_prog_fd" 896 32 "__u32";
    mem "attach_btf_obj_fd" 896 32 "__u32"; mem "core_relo_cnt" 928 32 "__u32"; mem "fd_array" 960 64 "__u64";
    mem "core_relos" 1024 64 "__u64"; mem "core_relo_rec_size" 1088 32 "__u32";
    mem "log_true_size" 1120 32 "__u32"; mem "pathname" 0 64 "__u64"; mem "bpf_fd" 64 32 "__u32";
    mem "file_flags" 96 32 "__u32"; mem "path_fd" 128 32 "__s32"; mem "target_fd" 0 32 "__u32";
    mem "target_ifindex" 0 32 "__u32"; mem "attach_bpf_fd" 32 32 "__u32"; mem "attach_type" 64 32 "__u32";
    mem "attach_flags" 96 32 "__u32"; mem "replace_bpf_fd" 128 32 "__u32"; mem "relative_fd" 160 32 "__u32";
    mem "relative_id" 160 32 "__u32"; mem "expected_revision" 192 64 "__u64"; mem "test" 0 640 "struct";
    mem "test.prog_fd" 0 32 "__u32"; mem "test.retval" 32 32 "__u32"; mem "test.data_size_in" 64 32 "__u32";
    mem "test.data_size_out" 96 32 "__u32"; mem "test.data_in" 128 64 "__u64";
    mem "test.data_out" 192 64 "__u64"; mem "test.repeat" 256 32 "__u32"; mem "test.duration" 288 32 "__u32";
    mem "test.ctx_size_in" 320 32 "__u32"; mem "test.ctx_size_out" 352 32 "__u32";
    mem "test.ctx_in" 384 64 "__u64"; mem "test.ctx_out" 448 64 "__u64"; mem "test.flags" 512 32 "__u32";
    mem "test.cpu" 544 32 "__u32"; mem "test.batch_size" 576 32 "__u32"; mem "start_id" 0 32 "__u32";
    mem "prog_id" 0 32 "__u32"; mem "map_id" 0 32 "__u32"; mem "btf_id" 0 32 "__u32";
    mem "link_id" 0 32 "__u32"; mem "next_id" 32 32 "__u32"; mem "open_flags" 64 32 "__u32";
    mem "info" 0 128 "struct"; mem "info.bpf_fd" 0 32 "__u32"; mem "info.info_len" 32 32 "__u32";
    mem "info.info" 64 64 "__u64"; mem "query" 0 512 "struct"; mem "query.target_fd" 0 32 "__u32";
    mem "query.target_ifindex" 0 32 "__u32"; mem "query.attach_type" 32 32 "__u32";
    mem "query.query_flags" 64 32 "__u32"; mem "query.attach_flags" 96 32 "__u32";
    mem "query.prog_ids" 128 64 "__u64"; mem "query.prog_cnt" 192 32 "__u32"; mem "query.count" 192 32 "__u32";
    mem "query.prog_attach_flags" 256 64 "__u64"; mem "query.link_ids" 320 64 "__u64";
    mem "query.link_attach_flags" 384 64 "__u64"; mem "query.revision" 448 64 "__u64";
    mem "raw_tracepoint" 0 128 "struct"; mem "raw_tracepoint.name" 0 64 "__u64";
    mem "raw_tracepoint.prog_fd" 64 32 "__u32"; mem "btf" 0 64 "__u64"; mem "btf_log_buf" 64 64 "__u64";
    mem "btf_size" 128 32 "__u32"; mem "btf_log_size" 160 32 "__u32"; mem "btf_log_level" 192 32 "__u32";
    mem "btf_log_true_size" 224 32 "__u32"; mem "task_fd_query" 0 384 "struct";
    mem "task_fd_query.pid" 0 32 "__u32"; mem "task_fd_query.fd" 32 32 "__u32";
    mem "task_fd_query.flags" 64 32 "__u32"; mem "task_fd_query.buf_len" 96 32 "__u32";
    mem "task_fd_query.buf" 128 64 "__u64"; mem "task_fd_query.prog_id" 192 32 "__u32";
    mem "task_fd_query.fd_type" 224 32 "__u32"; mem "task_fd_query.probe_offset" 256 64 "__u64";
    mem "task_fd_query.probe_addr" 320 64 "__u64"; mem "link_create" 0 512 "struct";
    mem "link_create.prog_fd" 0 32 "__u32"; mem "link_create.map_fd" 0 32 "__u32";
    mem "link_create.target_fd" 32 32 "__u32"; mem "link_create.target_ifindex" 32 32 "__u32";
    mem "link_create.attach_type" 64 32 "__u32"; mem "link_create.flags" 96 32 "__u32";
    mem "link_create.target_btf_id" 128 32 "__u32"; mem "link_create.iter_info" 128 64 "__u64";
    mem "link_create.iter_info_len" 192 32 "__u32"; mem "link_create.perf_event" 128 64 "struct";
    mem "link_create.perf_event.bpf_cookie" 128 64 "__u64"; mem "link_create.kprobe_multi" 128 256 "struct";
    mem "link_create.kprobe_multi.flags" 128 32 "__u32"; mem "link_create.kprobe_multi.cnt" 160 32 "__u32";
    mem "link_create.kprobe_multi.syms" 192 64 "__u64"; mem "link_create.kprobe_multi.addrs" 256 64 "__u64";
    mem "link_create.kprobe_multi.cookies" 320 64 "__u64"; mem "link_create.tracing" 128 128 "struct";
    mem "link_create.tracing.target_btf_id" 128 32 "__u32"; mem "link_create.tracing.cookie" 192 64 "__u64";
    mem "link_create.netfilter" 128 128 "struct"; mem "link_create.netfilter.pf" 128 32 "__u32";
    mem "link_create.netfilter.hooknum" 160 32 "__u32"; mem "link_create.netfilter.priority" 192 32 "__s32";
    mem "link_create.netfilter.flags" 224 32 "__u32"; mem "link_create.tcx" 128 128 "struct";
    mem "link_create.tcx.relative_fd" 128 32 "__u32"; mem "link_create.tcx.relative_id" 128 32 "__u32";
    mem "link_create.tcx.expected_revision" 192 64 "__u64"; mem "link_create.uprobe_multi" 128 384 "struct";
    mem "link_create.uprobe_multi.path" 128 64 "__u64"; mem "link_create.uprobe_multi.offsets" 192 64 "__u64";
    mem "link_create.uprobe_multi.ref_ctr_offsets" 256 64 "__u64";
    mem "link_create.uprobe_multi.cookies" 320 64 "__u64"; mem "link_create.uprobe_multi.cnt" 384 32 "__u32";
    mem "link_create.uprobe_multi.flags" 416 32 "__u32"; mem "link_create.uprobe_multi.pid" 448 32 "__u32";
    mem "link_create.netkit" 128 128 "struct"; mem "link_create.netkit.relative_fd" 128 32 "__u32";
    mem "link_create.netkit.relative_id" 128 32 "__u32";
    mem "link_create.netkit.expected_revision" 192 64 "__u64"; mem "link_update" 0 128 "struct";
    mem "link_update.link_fd" 0 32 "__u32"; mem "link_update.new_prog_fd" 32 32 "__u32";
    mem "link_update.new_map_fd" 32 32 "__u32"; mem "link_update.flags" 64 32 "__u32";
    mem "link_update.old_prog_fd" 96 32 "__u32"; mem "link_update.old_map_fd" 96 32 "__u32";
    mem "link_detach" 0 32 "struct"; mem "link_detach.link_fd" 0 32 "__u32"; mem "enable_stats" 0 32 "struct";
    mem "enable_stats.type" 0 32 "__u32"; mem "iter_create" 0 64 "struct";
    mem "iter_create.link_fd" 0 32 "__u32"; mem "iter_create.flags" 32 32 "__u32";
    mem "prog_bind_map" 0 96 "struct"; mem "prog_bind_map.prog_fd" 0 32 "__u32";
    mem "prog_bind_map.map_fd" 32 32 "__u32"; mem "prog_bind_map.flags" 64 32 "__u32"]].

Definition object_types_5 : list recorded_type := [
  typ "struct sock_filter" "struct" 8 [
    mem "code" 0 16 "__u16"; mem "jt" 16 8 "__u8"; mem "jf" 24 8 "__u8"; mem "k" 32 32 "__u32"];
  typ "__kernel_sa_family_t" "u16" 2 [];
  typ "sa_family_t" "__kernel_sa_family_t" 2 [];
  typ "struct sockaddr" "struct" 16 [
    mem "sa_family" 0 16 "sa_family_t"; mem "sa_data_min" 16 112 "s8 [14]"; mem "__empty_sa_data" 16 0 "struct";
    mem "sa_data" 16 0 "s8 [0]"];
  typ "__addrpair" "__u64" 8 [];
  typ "__portpair" "__u32" 4 [];
  typ "possible_net_t" "struct" 8 [
    mem "net" 0 64 "struct net *"];
  typ "struct sock_common" "struct" 136 [
    mem "skc_addrpair" 0 64 "__addrpair"; mem "skc_daddr" 0 32 "__be32"; mem "skc_rcv_saddr" 32 32 "__be32";
    mem "skc_hash" 64 32 "u32"; mem "skc_u16hashes" 64 32 "__u16 [2]"; mem "skc_portpair" 96 32 "__portpair";
    mem "skc_dport" 96 16 "__be16"; mem "skc_num" 112 16 "__u16"; mem "skc_family" 128 16 "u16";
    mem "skc_state" 144 8 "u8"; mem "skc_reuse" 152 4 "u8"; mem "skc_reuseport" 156 1 "u8";
    mem "skc_ipv6only" 157 1 "u8"; mem "skc_net_refcnt" 158 1 "u8"; mem "skc_bound_dev_if" 160 32 "s32";
    mem "skc_bind_node" 192 128 "struct hlist_node"; mem "skc_portaddr_node" 192 128 "struct hlist_node";
    mem "skc_prot" 320 64 "struct proto *"; mem "skc_net" 384 64 "possible_net_t";
    mem "skc_v6_daddr" 448 128 "struct in6_addr"; mem "skc_v6_rcv_saddr" 576 128 "struct in6_addr";
    mem "skc_cookie" 704 64 "atomic64_t"; mem "skc_flags" 768 64 "u64";
    mem "skc_listener" 768 64 "struct sock *"; mem "skc_tw_dr" 768 64 "struct inet_timewait_death_row *";
    mem "skc_dontcopy_begin" 832 0 "s32 [0]"; mem "skc_node" 832 128 "struct hlist_node";
    mem "skc_nulls_node" 832 128 "struct hlist_nulls_node"; mem "skc_tx_queue_mapping" 960 16 "u16";
    mem "skc_rx_queue_mapping" 976 16 "u16"; mem "skc_incoming_cpu" 992 32 "s32";
    mem "skc_rcv_wnd" 992 32 "u32"; mem "skc_tw_rcv_nxt" 992 32 "u32"; mem "skc_refcnt" 1024 32 "refcount_t";
    mem "skc_dontcopy_end" 1056 0 "s32 [0]"; mem "skc_rxhash" 1056 32 "u32";
    mem "skc_window_clamp" 1056 32 "u32"; mem "skc_tw_snd_nxt" 1056 32 "u32"];
  typ "socket_lock_t" "struct" 32 [
    mem "slock" 0 32 "spinlock_t"; mem "owned" 32 32 "s32"; mem "wq" 64 192 "wait_queue_head_t"];
  typ "netdev_features_t" "u64" 8 [];
  typ "netns_tracker" "struct" 0 [];
  typ "struct sock" "struct" 760 [
    mem "__sk_common" 0 1088 "struct sock_common"; mem "sk_rx_dst" 1088 64 "struct dst_entry *";
    mem "sk_rx_dst_ifindex" 1152 32 "s32"; mem "sk_rx_dst_cookie" 1184 32 "u32";
    mem "sk_lock" 1216 256 "socket_lock_t"; mem "sk_drops" 1472 32 "atomic_t"; mem "sk_rcvlowat" 1504 32 "s32";
    mem "sk_error_queue" 1536 192 "struct sk_buff_head"; mem "sk_receive_queue" 1728 192 "struct sk_buff_head";
    mem "sk_backlog" 1920 192 "struct"; mem "sk_backlog.rmem_alloc" 1920 32 "atomic_t";
    mem "sk_backlog.len" 1952 32 "s32"; mem "sk_backlog.head" 1984 64 "struct sk_buff *";
    mem "sk_backlog.tail" 2048 64 "struct sk_buff *"; mem "sk_forward_alloc" 2112 32 "s32";
    mem "sk_reserved_mem" 2144 32 "u32"; mem "sk_ll_usec" 2176 32 "u32"; mem "sk_napi_id" 2208 32 "u32";
    mem "sk_rcvbuf" 2240 32 "s32"; mem "sk_disconnects" 2272 32 "s32";
    mem "sk_filter" 2304 64 "struct sk_filter *"; mem "sk_wq" 2368 64 "struct socket_wq *";
    mem "sk_wq_raw" 2368 64 "struct socket_wq *"; mem "sk_policy" 2432 128 "struct xfrm_policy * [2]";
    mem "sk_dst_cache" 2560 64 "struct dst_entry *"; mem "sk_omem_alloc" 2624 32 "atomic_t";
    mem "sk_sndbuf" 2656 32 "s32"; mem "sk_wmem_queued" 2688 32 "s32"; mem "sk_wmem_alloc" 2720 32 "refcount_t";
    mem "sk_tsq_flags" 2752 64 "u64"; mem "sk_send_head" 2816 64 "struct sk_buff *";
    mem "tcp_rtx_queue" 2816 64 "struct rb_root"; mem "sk_write_queue" 2880 192 "struct sk_buff_head";
    mem "sk_peek_off" 3072 32 "__s32"; mem "sk_write_pending" 3104 32 "s32";
    mem "sk_dst_pending_confirm" 3136 32 "__u32"; mem "sk_pacing_status" 3168 32 "u32";
    mem "sk_sndtimeo" 3200 64 "s64"; mem "sk_timer" 3264 320 "struct timer_list";
    mem "sk_priority" 3584 32 "__u32"; mem "sk_mark" 3616 32 "__u32"; mem "sk_pacing_rate" 3648 64 "u64";
    mem "sk_max_pacing_rate" 3712 64 "u64"; mem "sk_frag" 3776 128 "struct page_frag";
    mem "sk_route_caps" 3904 64 "netdev_features_t"; mem "sk_gso_type" 3968 32 "s32";
    mem "sk_gso_max_size" 4000 32 "u32"; mem "sk_allocation" 4032 32 "gfp_t"; mem "sk_txhash" 4064 32 "__u32";
    mem "sk_gso_disabled" 4096 1 "u8"; mem "sk_kern_sock" 4097 1 "u8"; mem "sk_no_check_tx" 4098 1 "u8";
    mem "sk_no_check_rx" 4099 1 "u8"; mem "sk_userlocks" 4100 4 "u8"; mem "sk_pacing_shift" 4104 8 "u8";
    mem "sk_type" 4112 16 "u16"; mem "sk_protocol" 4128 16 "u16"; mem "sk_gso_max_segs" 4144 16 "u16";
    mem "sk_lingertime" 4160 64 "u64"; mem "sk_prot_creator" 4224 64 "struct proto *";
    mem "sk_callback_lock" 4288 64 "rwlock_t"; mem "sk_err" 4352 32 "s32"; mem "sk_err_soft" 4384 32 "s32";
    mem "sk_ack_backlog" 4416 32 "u32"; mem "sk_max_ack_backlog" 4448 32 "u32"; mem "sk_uid" 4480 32 "kuid_t";
    mem "sk_txrehash" 4512 8 "u8"; mem "sk_prefer_busy_poll" 4520 8 "u8";
    mem "sk_busy_poll_budget" 4528 16 "u16"; mem "sk_peer_lock" 4544 32 "spinlock_t";
    mem "sk_bind_phc" 4576 32 "s32"; mem "sk_peer_pid" 4608 64 "struct pid *";
    mem "sk_peer_cred" 4672 64 "struct cred *"; mem "sk_rcvtimeo" 4736 64 "s64";
    mem "sk_stamp" 4800 64 "ktime_t"; mem "sk_tskey" 4864 32 "atomic_t"; mem "sk_zckey" 4896 32 "atomic_t";
    mem "sk_tsflags" 4928 32 "u32"; mem "sk_shutdown" 4960 8 "u8"; mem "sk_clockid" 4968 8 "u8";
    mem "sk_txtime_deadline_mode" 4976 1 "u8"; mem "sk_txtime_report_errors" 4977 1 "u8";
    mem "sk_txtime_unused" 4978 6 "u8"; mem "sk_use_task_frag" 4984 8 "bool";
    mem "sk_socket" 4992 64 "struct socket *"; mem "sk_user_data" 5056 64 "void *";
    mem "sk_security" 5120 64 "void *"; mem "sk_cgrp_data" 5184 128 "struct sock_cgroup_data";
    mem "sk_memcg" 5312 64 "struct mem_cgroup *"; mem "sk_state_change" 5376 64 "void () *";
    mem "sk_data_ready" 5440 64 "void () *"; mem "sk_write_space" 5504 64 "void () *";
    mem "sk_error_report" 5568 64 "void () *"; mem "sk_backlog_rcv" 5632 64 "s32 () *";
    mem "sk_validate_xmit_skb" 5696 64 "struct sk_buff * () *"; mem "sk_destruct" 5760 64 "void () *";
    mem "sk_reuseport_cb" 5824 64 "struct sock_reuseport *";
    mem "sk_bpf_storage" 5888 64 "struct bpf_local_storage *"; mem "sk_rcu" 5952 128 "struct callback_head";
    mem "ns_tracker" 6080 0 "netns_tracker"];
  typ "struct bpf_prog" "struct" 72 [
    mem "pages" 0 16 "u16"; mem "jited" 16 1 "u16"; mem "jit_requested" 17 1 "u16";
    mem "gpl_compatible" 18 1 "u16"; mem "cb_access" 19 1 "u16"; mem "dst_needed" 20 1 "u16";
    mem "blinding_requested" 21 1 "u16"; mem "blinded" 22 1 "u16"; mem "is_func" 23 1 "u16";
    mem "kprobe_override" 24 1 "u16"; mem "has_callchain_buf" 25 1 "u16";
    mem "enforce_expected_attach_type" 26 1 "u16"; mem "call_get_stack" 27 1 "u16";
    mem "call_get_func_ip" 28 1 "u16"; mem "tstamp_type_access" 29 1 "u16";
    mem "type" 32 32 "enum bpf_prog_type"; mem "expected_attach_type" 64 32 "enum bpf_attach_type";
    mem "len" 96 32 "u32"; mem "jited_len" 128 32 "u32"; mem "tag" 160 64 "u8 [8]";
    mem "stats" 256 64 "struct bpf_prog_stats *"; mem "active" 320 64 "s32 *"; mem "bpf_func" 384 64 "u32 () *";
    mem "aux" 448 64 "struct bpf_prog_aux *"; mem "orig_prog" 512 64 "struct sock_fprog_kern *";
    mem "__empty_insns" 576 0 "struct"; mem "insns" 576 0 "struct sock_filter [0]";
    mem "__empty_insnsi" 576 0 "struct"; mem "insnsi" 576 0 "struct bpf_insn [0]"];
  typ "struct bpf_map_ops" "struct" 336 [
    mem "map_alloc_check" 0 64 "s32 () *"; mem "map_alloc" 64 64 "struct bpf_map * () *";
    mem "map_release" 128 64 "void () *"; mem "map_free" 192 64 "void () *";
    mem "map_get_next_key" 256 64 "s32 () *"; mem "map_release_uref" 320 64 "void () *";
    mem "map_lookup_elem_sys_only" 384 64 "void * () *"; mem "map_lookup_batch" 448 64 "s32 () *";
    mem "map_lookup_and_delete_elem" 512 64 "s32 () *"; mem "map_lookup_and_delete_batch" 576 64 "s32 () *";
    mem "map_update_batch" 640 64 "s32 () *"; mem "map_delete_batch" 704 64 "s32 () *";
    mem "map_lookup_elem" 768 64 "void * () *"; mem "map_update_elem" 832 64 "s64 () *";
    mem "map_delete_elem" 896 64 "s64 () *"; mem "map_push_elem" 960 64 "s64 () *";
    mem "map_pop_elem" 1024 64 "s64 () *"; mem "map_peek_elem" 1088 64 "s64 () *";
    mem "map_lookup_percpu_elem" 1152 64 "void * () *"; mem "map_fd_get_ptr" 1216 64 "void * () *";
    mem "map_fd_put_ptr" 1280 64 "void () *"; mem "map_gen_lookup" 1344 64 "s32 () *";
    mem "map_fd_sys_lookup_elem" 1408 64 "u32 () *"; mem "map_seq_show_elem" 1472 64 "void () *";
    mem "map_check_btf" 1536 64 "s32 () *"; mem "map_poke_track" 1600 64 "s32 () *";
    mem "map_poke_untrack" 1664 64 "void () *"; mem "map_poke_run" 1728 64 "void () *";
    mem "map_direct_value_addr" 1792 64 "s32 () *"; mem "map_direct_value_meta" 1856 64 "s32 () *";
    mem "map_mmap" 1920 64 "s32 () *"; mem "map_poll" 1984 64 "__poll_t () *";
    mem "map_local_storage_charge" 2048 64 "s32 () *"; mem "map_local_storage_uncharge" 2112 64 "void () *";
    mem "map_owner_storage_ptr" 2176 64 "struct bpf_local_storage * * () *";
    mem "map_redirect" 2240 64 "s64 () *"; mem "map_meta_equal" 2304 64 "bool () *";
    mem "map_set_for_each_callback_args" 2368 64 "s32 () *"; mem "map_for_each_callback" 2432 64 "s64 () *";
    mem "map_mem_usage" 2496 64 "u64 () *"; mem "map_btf_id" 2560 64 "s32 *";
    mem "iter_seq_info" 2624 64 "struct bpf_iter_seq_info *"];
  typ "struct bpf_map" "struct" 320 [
    mem "ops" 0 64 "struct bpf_map_ops *"; mem "inner_map_meta" 64 64 "struct bpf_map *";
    mem "security" 128 64 "void *"; mem "map_type" 192 32 "enum bpf_map_type"; mem "key_size" 224 32 "u32";
    mem "value_size" 256 32 "u32"; mem "max_entries" 288 32 "u32"; mem "map_extra" 320 64 "u64";
    mem "map_flags" 384 32 "u32"; mem "id" 416 32 "u32"; mem "record" 448 64 "struct btf_record *";
    mem "numa_node" 512 32 "s32"; mem "btf_key_type_id" 544 32 "u32"; mem "btf_value_type_id" 576 32 "u32";
    mem "btf_vmlinux_value_type_id" 608 32 "u32"; mem "btf" 640 64 "struct btf *";
    mem "objcg" 704 64 "struct obj_cgroup *"; mem "name" 768 128 "s8 [16]"; mem "refcnt" 1024 64 "atomic64_t";
    mem "usercnt" 1088 64 "atomic64_t"; mem "work" 1152 256 "struct work_struct";
    mem "rcu" 1152 128 "struct callback_head"; mem "freeze_mutex" 1408 256 "struct mutex";
    mem "writecnt" 1664 64 "atomic64_t"; mem "owner_lock" 1728 32 "spinlock_t";
    mem "owner" 1792 64 "struct bpf_map_owner *"; mem "bypass_spec_v1" 1856 8 "bool";
    mem "frozen" 1864 8 "bool"; mem "free_after_mult_rcu_gp" 1872 8 "bool";
    mem "free_after_rcu_gp" 1880 8 "bool"; mem "sleepable_refcnt" 1920 64 "atomic64_t";
    mem "elem_count" 1984 64 "s64 *"; mem "cookie" 2048 64 "u64"];
  typ "struct bpf_ksym" "struct" 600 [
    mem "start" 0 64 "u64"; mem "end" 64 64 "u64"; mem "name" 128 4096 "s8 [512]";
    mem "lnode" 4224 128 "struct list_head"; mem "tnode" 4352 384 "struct latch_tree_node";
    mem "prog" 4736 8 "bool"];
  typ "struct bpf_prog_aux" "struct" 1112 [
    mem "refcnt" 0 64 "atomic64_t"; mem "used_map_cnt" 64 32 "u32"; mem "used_btf_cnt" 96 32 "u32";
    mem "max_ctx_offset" 128 32 "u32"; mem "max_pkt_offset" 160 32 "u32"; mem "max_tp_access" 192 32 "u32";
    mem "stack_depth" 224 32 "u32"; mem "id" 256 32 "u32"; mem "func_cnt" 288 32 "u32";
    mem "real_func_cnt" 320 32 "u32"; mem "func_idx" 352 32 "u32"; mem "attach_btf_id" 384 32 "u32";
    mem "ctx_arg_info_size" 416 32 "u32"; mem "max_rdonly_access" 448 32 "u32";
    mem "max_rdwr_access" 480 32 "u32"; mem "attach_btf" 512 64 "struct btf *";
    mem "ctx_arg_info" 576 64 "struct bpf_ctx_arg_aux *"; mem "dst_mutex" 640 256 "struct mutex";
    mem "dst_prog" 896 64 "struct bpf_prog *"; mem "dst_trampoline" 960 64 "struct bpf_trampoline *";
    mem "saved_dst_prog_type" 1024 32 "enum bpf_prog_type";
    mem "saved_dst_attach_type" 1056 32 "enum bpf_attach_type"; mem "verifier_zext" 1088 8 "bool";
    mem "dev_bound" 1096 8 "bool"; mem "offload_requested" 1104 8 "bool"; mem "attach_btf_trace" 1112 8 "bool";
    mem "attach_tracing_prog" 1120 8 "bool"; mem "func_proto_unreliable" 1128 8 "bool";
    mem "sleepable" 1136 8 "bool"; mem "tail_call_reachable" 1144 8 "bool"; mem "xdp_has_frags" 1152 8 "bool";
    mem "exception_cb" 1160 8 "bool"; mem "exception_boundary" 1168 8 "bool"; mem "is_extended" 1176 8 "bool";
    mem "prog_array_member_cnt" 1216 64 "u64"; mem "ext_mutex" 1280 256 "struct mutex";
    mem "attach_func_proto" 1536 64 "struct btf_type *"; mem "attach_func_name" 1600 64 "s8 *";
    mem "func" 1664 64 "struct bpf_prog * *"; mem "jit_data" 1728 64 "void *";
    mem "poke_tab" 1792 64 "struct bpf_jit_poke_descriptor *";
    mem "kfunc_tab" 1856 64 "struct bpf_kfunc_desc_tab *";
    mem "kfunc_btf_tab" 1920 64 "struct bpf_kfunc_btf_tab *"; mem "size_poke_tab" 1984 32 "u32";
    mem "ksym" 2048 4800 "struct bpf_ksym"; mem "ops" 6848 64 "struct bpf_prog_ops *";
    mem "used_maps" 6912 64 "struct bpf_map * *"; mem "used_maps_mutex" 6976 256 "struct mutex";
    mem "used_btfs" 7232 64 "struct btf_mod_pair *"; mem "prog" 7296 64 "struct bpf_prog *";
    mem "user" 7360 64 "struct user_struct *"; mem "load_time" 7424 64 "u64";
    mem "verified_insns" 7488 32 "u32"; mem "cgroup_atype" 7520 32 "s32";
    mem "cgroup_storage" 7552 128 "struct bpf_map * [2]"; mem "name" 7680 128 "s8 [16]";
    mem "bpf_exception_cb" 7808 64 "u64 () *"; mem "security" 7872 64 "void *";
    mem "offload" 7936 64 "struct bpf_prog_offload *"; mem "btf" 8000 64 "struct btf *";
    mem "func_info" 8064 64 "struct bpf_func_info *"; mem "func_info_aux" 8128 64 "struct bpf_func_info_aux *";
    mem "linfo" 8192 64 "struct bpf_line_info *"; mem "jited_linfo" 8256 64 "void * *";
    mem "func_info_cnt" 8320 32 "u32"; mem "nr_linfo" 8352 32 "u32"; mem "linfo_idx" 8384 32 "u32";
    mem "mod" 8448 64 "struct module *"; mem "num_exentries" 8512 32 "u32";
    mem "extable" 8576 64 "struct exception_table_entry *"; mem "work" 8640 256 "struct work_struct";
    mem "rcu" 8640 128 "struct callback_head"];
  typ "struct flowi_tunnel" "struct" 8 [
    mem "tun_id" 0 64 "__be64"];
  typ "struct flowi_common" "struct" 40 [
    mem "flowic_oif" 0 32 "s32"; mem "flowic_iif" 32 32 "s32"; mem "flowic_l3mdev" 64 32 "s32";
    mem "flowic_mark" 96 32 "__u32"; mem "flowic_tos" 128 8 "__u8"; mem "flowic_scope" 136 8 "__u8";
    mem "flowic_proto" 144 8 "__u8"; mem "flowic_flags" 152 8 "__u8"; mem "flowic_secid" 160 32 "__u32";
    mem "flowic_uid" 192 32 "kuid_t"; mem "flowic_multipath_hash" 224 32 "__u32";
    mem "flowic_tun_key" 256 64 "struct flowi_tunnel"];
  typ "union flowi_uli" "union" 4 [
    mem "ports" 0 32 "struct"; mem "ports.dport" 0 16 "__be16"; mem "ports.sport" 16 16 "__be16";
    mem "icmpt" 0 16 "struct"; mem "icmpt.type" 0 8 "__u8"; mem "icmpt.code" 8 8 "__u8";
    mem "gre_key" 0 32 "__be32"; mem "mht" 0 8 "struct"; mem "mht.type" 0 8 "__u8"];
  typ "struct flowi4" "struct" 56 [
    mem "__fl_common" 0 320 "struct flowi_common"; mem "saddr" 320 32 "__be32"; mem "daddr" 352 32 "__be32";
    mem "uli" 384 32 "union flowi_uli"];
  typ "struct flowi6" "struct" 88 [
    mem "__fl_common" 0 320 "struct flowi_common"; mem "daddr" 320 128 "struct in6_addr";
    mem "saddr" 448 128 "struct in6_addr"; mem "flowlabel" 576 32 "__be32"; mem "uli" 608 32 "union flowi_uli";
    mem "mp_hash" 640 32 "__u32"];
  typ "struct flowi" "struct" 88 [
    mem "u" 0 704 "union"; mem "u.__fl_common" 0 320 "struct flowi_common"; mem "u.ip4" 0 448 "struct flowi4";
    mem "u.ip6" 0 704 "struct flowi6"];
  typ "socket_state" "enum" 4 [];
  typ "struct socket_wq" "struct" 64 [
    mem "wait" 0 192 "wait_queue_head_t"; mem "fasync_list" 192 64 "struct fasync_struct *";
    mem "flags" 256 64 "u64"; mem "rcu" 320 128 "struct callback_head"];
  typ "struct socket" "struct" 128 [
    mem "state" 0 32 "socket_state"; mem "type" 32 16 "s16"; mem "flags" 64 64 "u64";
    mem "file" 128 64 "struct file *"; mem "sk" 192 64 "struct sock *"; mem "ops" 256 64 "struct proto_ops *";
    mem "wq" 512 512 "struct socket_wq"];
  typ "struct proto" "struct" 464 [
    mem "close" 0 64 "void () *"; mem "pre_connect" 64 64 "s32 () *"; mem "connect" 128 64 "s32 () *";
    mem "disconnect" 192 64 "s32 () *"; mem "accept" 256 64 "struct sock * () *"; mem "ioctl" 320 64 "s32 () *";
    mem "init" 384 64 "s32 () *"; mem "destroy" 448 64 "void () *"; mem "shutdown" 512 64 "void () *";
    mem "setsockopt" 576 64 "s32 () *"; mem "getsockopt" 640 64 "s32 () *"; mem "keepalive" 704 64 "void () *";
    mem "compat_ioctl" 768 64 "s32 () *"; mem "sendmsg" 832 64 "s32 () *"; mem "recvmsg" 896 64 "s32 () *";
    mem "splice_eof" 960 64 "void () *"; mem "bind" 1024 64 "s32 () *"; mem "bind_add" 1088 64 "s32 () *";
    mem "backlog_rcv" 1152 64 "s32 () *"; mem "bpf_bypass_getsockopt" 1216 64 "bool () *";
    mem "release_cb" 1280 64 "void () *"; mem "hash" 1344 64 "s32 () *"; mem "unhash" 1408 64 "void () *";
    mem "rehash" 1472 64 "void () *"; mem "get_port" 1536 64 "s32 () *"; mem "put_port" 1600 64 "void () *";
    mem "psock_update_sk_prot" 1664 64 "s32 () *"; mem "inuse_idx" 1728 32 "u32";
    mem "forward_alloc_get" 1792 64 "s32 () *"; mem "stream_memory_free" 1856 64 "bool () *";
    mem "sock_is_readable" 1920 64 "bool () *"; mem "enter_memory_pressure" 1984 64 "void () *";
    mem "leave_memory_pressure" 2048 64 "void () *"; mem "memory_allocated" 2112 64 "atomic_long_t *";
    mem "per_cpu_fw_alloc" 2176 64 "s32 *"; mem "sockets_allocated" 2240 64 "struct percpu_counter *";
    mem "memory_pressure" 2304 64 "u64 *"; mem "sysctl_mem" 2368 64 "s64 *"; mem "sysctl_wmem" 2432 64 "s32 *";
    mem "sysctl_rmem" 2496 64 "s32 *"; mem "sysctl_wmem_offset" 2560 32 "u32";
    mem "sysctl_rmem_offset" 2592 32 "u32"; mem "max_header" 2624 32 "s32"; mem "no_autobind" 2656 8 "bool";
    mem "slab" 2688 64 "struct kmem_cache *"; mem "obj_size" 2752 32 "u32";
    mem "ipv6_pinfo_offset" 2784 32 "u32"; mem "slab_flags" 2816 32 "slab_flags_t";
    mem "useroffset" 2848 32 "u32"; mem "usersize" 2880 32 "u32"; mem "orphan_count" 2944 64 "u32 *";
    mem "rsk_prot" 3008 64 "struct request_sock_ops *"; mem "twsk_prot" 3072 64 "struct timewait_sock_ops *";
    mem "h" 3136 64 "union"; mem "h.hashinfo" 3136 64 "struct inet_hashinfo *";
    mem "h.udp_table" 3136 64 "struct udp_table *"; mem "h.raw_hash" 3136 64 "struct raw_hashinfo *";
    mem "h.smc_hash" 3136 64 "struct smc_hashinfo *"; mem "owner" 3200 64 "struct module *";
    mem "name" 3264 256 "s8 [32]"; mem "node" 3520 128 "struct list_head"; mem "diag_destroy" 3648 64 "s32 () *"];
  typ "enum bpf_func_id" "enum" 4 [];
  typ "struct bpf_mem_alloc" "struct" 64 [
    mem "caches" 0 64 "struct bpf_mem_caches *"; mem "cache" 64 64 "struct bpf_mem_cache *";
    mem "objcg" 128 64 "struct obj_cgroup *"; mem "percpu" 192 8 "bool"; mem "work" 256 256 "struct work_struct"];
  typ "enum bpf_link_type" "enum" 4 []].

Definition object_types_6 : list recorded_type := [
  typ "struct bpf_link" "struct" 64 [
    mem "refcnt" 0 64 "atomic64_t"; mem "id" 64 32 "u32"; mem "type" 96 32 "enum bpf_link_type";
    mem "ops" 128 64 "struct bpf_link_ops *"; mem "prog" 192 64 "struct bpf_prog *";
    mem "rcu" 256 128 "struct callback_head"; mem "work" 256 256 "struct work_struct"];
  typ "struct request_sock" "struct" 232 [
    mem "__req_common" 0 1088 "struct sock_common"; mem "dl_next" 1088 64 "struct request_sock *";
    mem "mss" 1152 16 "u16"; mem "num_retrans" 1168 8 "u8"; mem "syncookie" 1176 1 "u8";
    mem "num_timeout" 1177 7 "u8"; mem "ts_recent" 1184 32 "u32"; mem "rsk_timer" 1216 320 "struct timer_list";
    mem "rsk_ops" 1536 64 "struct request_sock_ops *"; mem "sk" 1600 64 "struct sock *";
    mem "saved_syn" 1664 64 "struct saved_syn *"; mem "secid" 1728 32 "u32"; mem "peer_secid" 1760 32 "u32";
    mem "timeout" 1792 32 "u32"];
  typ "struct in_addr" "struct" 4 [
    mem "s_addr" 0 32 "__be32"];
  typ "struct sockaddr_in" "struct" 16 [
    mem "sin_family" 0 16 "__kernel_sa_family_t"; mem "sin_port" 16 16 "__be16";
    mem "sin_addr" 32 32 "struct in_addr"; mem "__pad" 64 64 "u8 [8]"];
  typ "struct tcp_event" "struct" 64 [
    mem "timestamp_ns" 0 64 "__u64"; mem "pid" 64 32 "__u32"; mem "type" 96 32 "__u32";
    mem "family" 128 16 "__u16"; mem "sport" 144 16 "__u16"; mem "dport" 160 16 "__u16";
    mem "pad" 176 16 "__u16"; mem "ret" 192 32 "__s32"; mem "saddr_v4" 224 32 "__u32";
    mem "daddr_v4" 256 32 "__u32"; mem "connect_latency_ns" 320 64 "__u64"; mem "comm" 384 128 "s8 [16]"];
  typ "struct connect_start" "struct" 48 [
    mem "timestamp_ns" 0 64 "__u64"; mem "pid" 64 32 "__u32"; mem "family" 96 16 "__u16";
    mem "sport" 112 16 "__u16"; mem "dport" 128 16 "__u16"; mem "pad" 144 16 "__u16";
    mem "saddr_v4" 160 32 "__u32"; mem "daddr_v4" 192 32 "__u32"; mem "comm" 224 128 "s8 [16]"]].

Definition object_types : list recorded_type :=
  object_types_0 ++ object_types_1 ++ object_types_2 ++ object_types_3 ++ object_types_4 ++ object_types_5 ++ object_types_6.

Definition object_enums : list recorded_enum := [
  enm "enum timespec_type" 4 [
    ("TT_NONE", 0); ("TT_NATIVE", 1); ("TT_COMPAT", 2)];
  enm "enum vtime_state" 4 [
    ("VTIME_INACTIVE", 0); ("VTIME_IDLE", 1); ("VTIME_SYS", 2); ("VTIME_USER", 3); ("VTIME_GUEST", 4)];
  enm "enum bpf_map_type" 4 [
    ("BPF_MAP_TYPE_UNSPEC", 0); ("BPF_MAP_TYPE_HASH", 1); ("BPF_MAP_TYPE_ARRAY", 2);
    ("BPF_MAP_TYPE_PROG_ARRAY", 3); ("BPF_MAP_TYPE_PERF_EVENT_ARRAY", 4); ("BPF_MAP_TYPE_PERCPU_HASH", 5);
    ("BPF_MAP_TYPE_PERCPU_ARRAY", 6); ("BPF_MAP_TYPE_STACK_TRACE", 7); ("BPF_MAP_TYPE_CGROUP_ARRAY", 8);
    ("BPF_MAP_TYPE_LRU_HASH", 9); ("BPF_MAP_TYPE_LRU_PERCPU_HASH", 10); ("BPF_MAP_TYPE_LPM_TRIE", 11);
    ("BPF_MAP_TYPE_ARRAY_OF_MAPS", 12); ("BPF_MAP_TYPE_HASH_OF_MAPS", 13); ("BPF_MAP_TYPE_DEVMAP", 14);
    ("BPF_MAP_TYPE_SOCKMAP", 15); ("BPF_MAP_TYPE_CPUMAP", 16); ("BPF_MAP_TYPE_XSKMAP", 17);
    ("BPF_MAP_TYPE_SOCKHASH", 18); ("BPF_MAP_TYPE_CGROUP_STORAGE_DEPRECATED", 19);
    ("BPF_MAP_TYPE_CGROUP_STORAGE", 19); ("BPF_MAP_TYPE_REUSEPORT_SOCKARRAY", 20);
    ("BPF_MAP_TYPE_PERCPU_CGROUP_STORAGE_DEPRECATED", 21); ("BPF_MAP_TYPE_PERCPU_CGROUP_STORAGE", 21);
    ("BPF_MAP_TYPE_QUEUE", 22); ("BPF_MAP_TYPE_STACK", 23); ("BPF_MAP_TYPE_SK_STORAGE", 24);
    ("BPF_MAP_TYPE_DEVMAP_HASH", 25); ("BPF_MAP_TYPE_STRUCT_OPS", 26); ("BPF_MAP_TYPE_RINGBUF", 27);
    ("BPF_MAP_TYPE_INODE_STORAGE", 28); ("BPF_MAP_TYPE_TASK_STORAGE", 29); ("BPF_MAP_TYPE_BLOOM_FILTER", 30);
    ("BPF_MAP_TYPE_USER_RINGBUF", 31); ("BPF_MAP_TYPE_CGRP_STORAGE", 32)];
  enm "enum bpf_prog_type" 4 [
    ("BPF_PROG_TYPE_UNSPEC", 0); ("BPF_PROG_TYPE_SOCKET_FILTER", 1); ("BPF_PROG_TYPE_KPROBE", 2);
    ("BPF_PROG_TYPE_SCHED_CLS", 3); ("BPF_PROG_TYPE_SCHED_ACT", 4); ("BPF_PROG_TYPE_TRACEPOINT", 5);
    ("BPF_PROG_TYPE_XDP", 6); ("BPF_PROG_TYPE_PERF_EVENT", 7); ("BPF_PROG_TYPE_CGROUP_SKB", 8);
    ("BPF_PROG_TYPE_CGROUP_SOCK", 9); ("BPF_PROG_TYPE_LWT_IN", 10); ("BPF_PROG_TYPE_LWT_OUT", 11);
    ("BPF_PROG_TYPE_LWT_XMIT", 12); ("BPF_PROG_TYPE_SOCK_OPS", 13); ("BPF_PROG_TYPE_SK_SKB", 14);
    ("BPF_PROG_TYPE_CGROUP_DEVICE", 15); ("BPF_PROG_TYPE_SK_MSG", 16); ("BPF_PROG_TYPE_RAW_TRACEPOINT", 17);
    ("BPF_PROG_TYPE_CGROUP_SOCK_ADDR", 18); ("BPF_PROG_TYPE_LWT_SEG6LOCAL", 19);
    ("BPF_PROG_TYPE_LIRC_MODE2", 20); ("BPF_PROG_TYPE_SK_REUSEPORT", 21); ("BPF_PROG_TYPE_FLOW_DISSECTOR", 22);
    ("BPF_PROG_TYPE_CGROUP_SYSCTL", 23); ("BPF_PROG_TYPE_RAW_TRACEPOINT_WRITABLE", 24);
    ("BPF_PROG_TYPE_CGROUP_SOCKOPT", 25); ("BPF_PROG_TYPE_TRACING", 26); ("BPF_PROG_TYPE_STRUCT_OPS", 27);
    ("BPF_PROG_TYPE_EXT", 28); ("BPF_PROG_TYPE_LSM", 29); ("BPF_PROG_TYPE_SK_LOOKUP", 30);
    ("BPF_PROG_TYPE_SYSCALL", 31); ("BPF_PROG_TYPE_NETFILTER", 32); ("__MAX_BPF_PROG_TYPE", 33)];
  enm "enum bpf_attach_type" 4 [
    ("BPF_CGROUP_INET_INGRESS", 0); ("BPF_CGROUP_INET_EGRESS", 1); ("BPF_CGROUP_INET_SOCK_CREATE", 2);
    ("BPF_CGROUP_SOCK_OPS", 3); ("BPF_SK_SKB_STREAM_PARSER", 4); ("BPF_SK_SKB_STREAM_VERDICT", 5);
    ("BPF_CGROUP_DEVICE", 6); ("BPF_SK_MSG_VERDICT", 7); ("BPF_CGROUP_INET4_BIND", 8);
    ("BPF_CGROUP_INET6_BIND", 9); ("BPF_CGROUP_INET4_CONNECT", 10); ("BPF_CGROUP_INET6_CONNECT", 11);
    ("BPF_CGROUP_INET4_POST_BIND", 12); ("BPF_CGROUP_INET6_POST_BIND", 13); ("BPF_CGROUP_UDP4_SENDMSG", 14);
    ("BPF_CGROUP_UDP6_SENDMSG", 15); ("BPF_LIRC_MODE2", 16); ("BPF_FLOW_DISSECTOR", 17);
    ("BPF_CGROUP_SYSCTL", 18); ("BPF_CGROUP_UDP4_RECVMSG", 19); ("BPF_CGROUP_UDP6_RECVMSG", 20);
    ("BPF_CGROUP_GETSOCKOPT", 21); ("BPF_CGROUP_SETSOCKOPT", 22); ("BPF_TRACE_RAW_TP", 23);
    ("BPF_TRACE_FENTRY", 24); ("BPF_TRACE_FEXIT", 25); ("BPF_MODIFY_RETURN", 26); ("BPF_LSM_MAC", 27);
    ("BPF_TRACE_ITER", 28); ("BPF_CGROUP_INET4_GETPEERNAME", 29); ("BPF_CGROUP_INET6_GETPEERNAME", 30);
    ("BPF_CGROUP_INET4_GETSOCKNAME", 31); ("BPF_CGROUP_INET6_GETSOCKNAME", 32); ("BPF_XDP_DEVMAP", 33);
    ("BPF_CGROUP_INET_SOCK_RELEASE", 34); ("BPF_XDP_CPUMAP", 35); ("BPF_SK_LOOKUP", 36); ("BPF_XDP", 37);
    ("BPF_SK_SKB_VERDICT", 38); ("BPF_SK_REUSEPORT_SELECT", 39); ("BPF_SK_REUSEPORT_SELECT_OR_MIGRATE", 40);
    ("BPF_PERF_EVENT", 41); ("BPF_TRACE_KPROBE_MULTI", 42); ("BPF_LSM_CGROUP", 43); ("BPF_STRUCT_OPS", 44);
    ("BPF_NETFILTER", 45); ("BPF_TCX_INGRESS", 46); ("BPF_TCX_EGRESS", 47); ("BPF_TRACE_UPROBE_MULTI", 48);
    ("BPF_CGROUP_UNIX_CONNECT", 49); ("BPF_CGROUP_UNIX_SENDMSG", 50); ("BPF_CGROUP_UNIX_RECVMSG", 51);
    ("BPF_CGROUP_UNIX_GETPEERNAME", 52); ("BPF_CGROUP_UNIX_GETSOCKNAME", 53); ("BPF_NETKIT_PRIMARY", 54);
    ("BPF_NETKIT_PEER", 55); ("__MAX_BPF_ATTACH_TYPE", 56)];
  enm "enum bpf_func_id" 4 [
    ("BPF_FUNC_unspec", 0); ("BPF_FUNC_map_lookup_elem", 1); ("BPF_FUNC_map_update_elem", 2);
    ("BPF_FUNC_map_delete_elem", 3); ("BPF_FUNC_probe_read", 4); ("BPF_FUNC_ktime_get_ns", 5);
    ("BPF_FUNC_trace_printk", 6); ("BPF_FUNC_get_prandom_u32", 7); ("BPF_FUNC_get_smp_processor_id", 8);
    ("BPF_FUNC_skb_store_bytes", 9); ("BPF_FUNC_l3_csum_replace", 10); ("BPF_FUNC_l4_csum_replace", 11);
    ("BPF_FUNC_tail_call", 12); ("BPF_FUNC_clone_redirect", 13); ("BPF_FUNC_get_current_pid_tgid", 14);
    ("BPF_FUNC_get_current_uid_gid", 15); ("BPF_FUNC_get_current_comm", 16);
    ("BPF_FUNC_get_cgroup_classid", 17); ("BPF_FUNC_skb_vlan_push", 18); ("BPF_FUNC_skb_vlan_pop", 19);
    ("BPF_FUNC_skb_get_tunnel_key", 20); ("BPF_FUNC_skb_set_tunnel_key", 21); ("BPF_FUNC_perf_event_read", 22);
    ("BPF_FUNC_redirect", 23); ("BPF_FUNC_get_route_realm", 24); ("BPF_FUNC_perf_event_output", 25);
    ("BPF_FUNC_skb_load_bytes", 26); ("BPF_FUNC_get_stackid", 27); ("BPF_FUNC_csum_diff", 28);
    ("BPF_FUNC_skb_get_tunnel_opt", 29); ("BPF_FUNC_skb_set_tunnel_opt", 30); ("BPF_FUNC_skb_change_proto", 31);
    ("BPF_FUNC_skb_change_type", 32); ("BPF_FUNC_skb_under_cgroup", 33); ("BPF_FUNC_get_hash_recalc", 34);
    ("BPF_FUNC_get_current_task", 35); ("BPF_FUNC_probe_write_user", 36);
    ("BPF_FUNC_current_task_under_cgroup", 37); ("BPF_FUNC_skb_change_tail", 38);
    ("BPF_FUNC_skb_pull_data", 39); ("BPF_FUNC_csum_update", 40); ("BPF_FUNC_set_hash_invalid", 41);
    ("BPF_FUNC_get_numa_node_id", 42); ("BPF_FUNC_skb_change_head", 43); ("BPF_FUNC_xdp_adjust_head", 44);
    ("BPF_FUNC_probe_read_str", 45); ("BPF_FUNC_get_socket_cookie", 46); ("BPF_FUNC_get_socket_uid", 47);
    ("BPF_FUNC_set_hash", 48); ("BPF_FUNC_setsockopt", 49); ("BPF_FUNC_skb_adjust_room", 50);
    ("BPF_FUNC_redirect_map", 51); ("BPF_FUNC_sk_redirect_map", 52); ("BPF_FUNC_sock_map_update", 53);
    ("BPF_FUNC_xdp_adjust_meta", 54); ("BPF_FUNC_perf_event_read_value", 55);
    ("BPF_FUNC_perf_prog_read_value", 56); ("BPF_FUNC_getsockopt", 57); ("BPF_FUNC_override_return", 58);
    ("BPF_FUNC_sock_ops_cb_flags_set", 59); ("BPF_FUNC_msg_redirect_map", 60); ("BPF_FUNC_msg_apply_bytes", 61);
    ("BPF_FUNC_msg_cork_bytes", 62); ("BPF_FUNC_msg_pull_data", 63); ("BPF_FUNC_bind", 64);
    ("BPF_FUNC_xdp_adjust_tail", 65); ("BPF_FUNC_skb_get_xfrm_state", 66); ("BPF_FUNC_get_stack", 67);
    ("BPF_FUNC_skb_load_bytes_relative", 68); ("BPF_FUNC_fib_lookup", 69); ("BPF_FUNC_sock_hash_update", 70);
    ("BPF_FUNC_msg_redirect_hash", 71); ("BPF_FUNC_sk_redirect_hash", 72); ("BPF_FUNC_lwt_push_encap", 73);
    ("BPF_FUNC_lwt_seg6_store_bytes", 74); ("BPF_FUNC_lwt_seg6_adjust_srh", 75);
    ("BPF_FUNC_lwt_seg6_action", 76); ("BPF_FUNC_rc_repeat", 77); ("BPF_FUNC_rc_keydown", 78);
    ("BPF_FUNC_skb_cgroup_id", 79); ("BPF_FUNC_get_current_cgroup_id", 80); ("BPF_FUNC_get_local_storage", 81);
    ("BPF_FUNC_sk_select_reuseport", 82); ("BPF_FUNC_skb_ancestor_cgroup_id", 83);
    ("BPF_FUNC_sk_lookup_tcp", 84); ("BPF_FUNC_sk_lookup_udp", 85); ("BPF_FUNC_sk_release", 86);
    ("BPF_FUNC_map_push_elem", 87); ("BPF_FUNC_map_pop_elem", 88); ("BPF_FUNC_map_peek_elem", 89);
    ("BPF_FUNC_msg_push_data", 90); ("BPF_FUNC_msg_pop_data", 91); ("BPF_FUNC_rc_pointer_rel", 92);
    ("BPF_FUNC_spin_lock", 93); ("BPF_FUNC_spin_unlock", 94); ("BPF_FUNC_sk_fullsock", 95);
    ("BPF_FUNC_tcp_sock", 96); ("BPF_FUNC_skb_ecn_set_ce", 97); ("BPF_FUNC_get_listener_sock", 98);
    ("BPF_FUNC_skc_lookup_tcp", 99); ("BPF_FUNC_tcp_check_syncookie", 100); ("BPF_FUNC_sysctl_get_name", 101);
    ("BPF_FUNC_sysctl_get_current_value", 102); ("BPF_FUNC_sysctl_get_new_value", 103);
    ("BPF_FUNC_sysctl_set_new_value", 104); ("BPF_FUNC_strtol", 105); ("BPF_FUNC_strtoul", 106);
    ("BPF_FUNC_sk_storage_get", 107); ("BPF_FUNC_sk_storage_delete", 108); ("BPF_FUNC_send_signal", 109);
    ("BPF_FUNC_tcp_gen_syncookie", 110); ("BPF_FUNC_skb_output", 111); ("BPF_FUNC_probe_read_user", 112);
    ("BPF_FUNC_probe_read_kernel", 113); ("BPF_FUNC_probe_read_user_str", 114);
    ("BPF_FUNC_probe_read_kernel_str", 115); ("BPF_FUNC_tcp_send_ack", 116);
    ("BPF_FUNC_send_signal_thread", 117); ("BPF_FUNC_jiffies64", 118); ("BPF_FUNC_read_branch_records", 119);
    ("BPF_FUNC_get_ns_current_pid_tgid", 120); ("BPF_FUNC_xdp_output", 121); ("BPF_FUNC_get_netns_cookie", 122);
    ("BPF_FUNC_get_current_ancestor_cgroup_id", 123); ("BPF_FUNC_sk_assign", 124);
    ("BPF_FUNC_ktime_get_boot_ns", 125); ("BPF_FUNC_seq_printf", 126); ("BPF_FUNC_seq_write", 127);
    ("BPF_FUNC_sk_cgroup_id", 128); ("BPF_FUNC_sk_ancestor_cgroup_id", 129); ("BPF_FUNC_ringbuf_output", 130);
    ("BPF_FUNC_ringbuf_reserve", 131); ("BPF_FUNC_ringbuf_submit", 132); ("BPF_FUNC_ringbuf_discard", 133);
    ("BPF_FUNC_ringbuf_query", 134); ("BPF_FUNC_csum_level", 135); ("BPF_FUNC_skc_to_tcp6_sock", 136);
    ("BPF_FUNC_skc_to_tcp_sock", 137); ("BPF_FUNC_skc_to_tcp_timewait_sock", 138);
    ("BPF_FUNC_skc_to_tcp_request_sock", 139); ("BPF_FUNC_skc_to_udp6_sock", 140);
    ("BPF_FUNC_get_task_stack", 141); ("BPF_FUNC_load_hdr_opt", 142); ("BPF_FUNC_store_hdr_opt", 143);
    ("BPF_FUNC_reserve_hdr_opt", 144); ("BPF_FUNC_inode_storage_get", 145);
    ("BPF_FUNC_inode_storage_delete", 146); ("BPF_FUNC_d_path", 147); ("BPF_FUNC_copy_from_user", 148);
    ("BPF_FUNC_snprintf_btf", 149); ("BPF_FUNC_seq_printf_btf", 150); ("BPF_FUNC_skb_cgroup_classid", 151);
    ("BPF_FUNC_redirect_neigh", 152); ("BPF_FUNC_per_cpu_ptr", 153); ("BPF_FUNC_this_cpu_ptr", 154);
    ("BPF_FUNC_redirect_peer", 155); ("BPF_FUNC_task_storage_get", 156); ("BPF_FUNC_task_storage_delete", 157);
    ("BPF_FUNC_get_current_task_btf", 158); ("BPF_FUNC_bprm_opts_set", 159);
    ("BPF_FUNC_ktime_get_coarse_ns", 160); ("BPF_FUNC_ima_inode_hash", 161); ("BPF_FUNC_sock_from_file", 162);
    ("BPF_FUNC_check_mtu", 163); ("BPF_FUNC_for_each_map_elem", 164); ("BPF_FUNC_snprintf", 165);
    ("BPF_FUNC_sys_bpf", 166); ("BPF_FUNC_btf_find_by_name_kind", 167); ("BPF_FUNC_sys_close", 168);
    ("BPF_FUNC_timer_init", 169); ("BPF_FUNC_timer_set_callback", 170); ("BPF_FUNC_timer_start", 171);
    ("BPF_FUNC_timer_cancel", 172); ("BPF_FUNC_get_func_ip", 173); ("BPF_FUNC_get_attach_cookie", 174);
    ("BPF_FUNC_task_pt_regs", 175); ("BPF_FUNC_get_branch_snapshot", 176); ("BPF_FUNC_trace_vprintk", 177);
    ("BPF_FUNC_skc_to_unix_sock", 178); ("BPF_FUNC_kallsyms_lookup_name", 179); ("BPF_FUNC_find_vma", 180);
    ("BPF_FUNC_loop", 181); ("BPF_FUNC_strncmp", 182); ("BPF_FUNC_get_func_arg", 183);
    ("BPF_FUNC_get_func_ret", 184); ("BPF_FUNC_get_func_arg_cnt", 185); ("BPF_FUNC_get_retval", 186);
    ("BPF_FUNC_set_retval", 187); ("BPF_FUNC_xdp_get_buff_len", 188); ("BPF_FUNC_xdp_load_bytes", 189);
    ("BPF_FUNC_xdp_store_bytes", 190); ("BPF_FUNC_copy_from_user_task", 191); ("BPF_FUNC_skb_set_tstamp", 192);
    ("BPF_FUNC_ima_file_hash", 193); ("BPF_FUNC_kptr_xchg", 194); ("BPF_FUNC_map_lookup_percpu_elem", 195);
    ("BPF_FUNC_skc_to_mptcp_sock", 196); ("BPF_FUNC_dynptr_from_mem", 197);
    ("BPF_FUNC_ringbuf_reserve_dynptr", 198); ("BPF_FUNC_ringbuf_submit_dynptr", 199);
    ("BPF_FUNC_ringbuf_discard_dynptr", 200); ("BPF_FUNC_dynptr_read", 201); ("BPF_FUNC_dynptr_write", 202);
    ("BPF_FUNC_dynptr_data", 203); ("BPF_FUNC_tcp_raw_gen_syncookie_ipv4", 204);
    ("BPF_FUNC_tcp_raw_gen_syncookie_ipv6", 205); ("BPF_FUNC_tcp_raw_check_syncookie_ipv4", 206);
    ("BPF_FUNC_tcp_raw_check_syncookie_ipv6", 207); ("BPF_FUNC_ktime_get_tai_ns", 208);
    ("BPF_FUNC_user_ringbuf_drain", 209); ("BPF_FUNC_cgrp_storage_get", 210);
    ("BPF_FUNC_cgrp_storage_delete", 211); ("__BPF_FUNC_MAX_ID", 212)];
  enm "enum bpf_link_type" 4 [
    ("BPF_LINK_TYPE_UNSPEC", 0); ("BPF_LINK_TYPE_RAW_TRACEPOINT", 1); ("BPF_LINK_TYPE_TRACING", 2);
    ("BPF_LINK_TYPE_CGROUP", 3); ("BPF_LINK_TYPE_ITER", 4); ("BPF_LINK_TYPE_NETNS", 5);
    ("BPF_LINK_TYPE_XDP", 6); ("BPF_LINK_TYPE_PERF_EVENT", 7); ("BPF_LINK_TYPE_KPROBE_MULTI", 8);
    ("BPF_LINK_TYPE_STRUCT_OPS", 9); ("BPF_LINK_TYPE_NETFILTER", 10); ("BPF_LINK_TYPE_TCX", 11);
    ("BPF_LINK_TYPE_UPROBE_MULTI", 12); ("BPF_LINK_TYPE_NETKIT", 13); ("__MAX_BPF_LINK_TYPE", 14)]].

(** ** The comparison *)

(** The declarations of the translation unit, the header's first. *)
Definition translation_unit : list cdecl := vmlinux ++ [struct_tcp_event; struct_connect_start].

(** A type as the record spells it. *)
Fixpoint spell (t : ctype) : string :=
  match t with
  | CVoid => "void"
  | CInt n true => "s" +:+ pretty (8 * n)
  | CInt n false => "u" +:+ pretty (8 * n)
  | CPtr t => spell t +:+ " *"
  | CFun t => spell t +:+ " ()"
  | CArray t n => spell t +:+ " [" +:+ pretty n +:+ "]"
  | CNamed n => n
  | CEnum _ _ => "enum"
  | CStruct _ _ => "struct"
  | CUnion _ _ => "union"
  end.

(** The designatable members of an elaborated type; those of an unnamed type
    behind a named member by their path, to nesting depth [depth]. *)
Fixpoint designators (depth : nat) (Γ : env) (e : entry) : list recorded_member :=
  e_fields e ≫= fun f =>
    mem (f_name f) (f_off f) (f_bits f) (spell (f_type f)) ::
    match depth, f_type f with
    | S depth', (CStruct _ _ | CUnion _ _) as t =>
        (fun m => mem (f_name f +:+ "." +:+ m_name m) (f_off f + m_off m) (m_bits m) (m_type m)) <$>
          (e' ← option_list (elab Γ t); designators depth' Γ e')
    | _, _ => []
    end.

(** A declaration as the object would record it. *)
Definition recorded (Γ : env) (d : cdecl) : option recorded_type :=
  e ← Γ !! d_name d; Some (typ (d_name d) (spell (d_type d)) (e_size e) (designators 8 Γ e)).

Definition declared (n : string) : option cdecl :=
  snd <$> list_find (fun d => d_name d = n) translation_unit.

Definition constants (d : cdecl) : option recorded_enum :=
  match d_type d with CEnum n cs => Some (enm (d_name d) n cs) | _ => None end.

#[global] Instance recorded_member_eq_dec : EqDecision recorded_member.
Proof. solve_decision. Defined.

#[global] Instance recorded_type_eq_dec : EqDecision recorded_type.
Proof. solve_decision. Defined.

#[global] Instance recorded_enum_eq_dec : EqDecision recorded_enum.
Proof. solve_decision. Defined.

Lemma bpf_env_elaborated : elaborate ∅ translation_unit = Some bpf_env.
Proof.
  assert (H : bool_decide (is_Some (elaborate kernel_env [struct_tcp_event; struct_connect_start])) = true)
    by (vm_compute; reflexivity).
  apply bool_decide_eq_true in H as [Γ HΓ].
  assert (Happ : forall ds ds' Γ1 Γ2, elaborate Γ1 ds = Some Γ2 -> elaborate Γ1 (ds ++ ds') = elaborate Γ2 ds').
  { induction ds as [|d ds IH]; intros ds' Γ1 Γ2; simpl; [by intros [= ->]|].
    destruct (add_decl Γ1 d); simpl; [apply IH | done]. }
  unfold translation_unit. rewrite (Happ _ _ _ _ kernel_env_elaborated), HΓ.
  with_strategy transparent [bpf_env] unfold bpf_env. by rewrite HΓ.
Qed.

Lemma bpf_env_wf : wf_env bpf_env.
Proof. exact (elaborate_preserves_wf _ _ _ wf_env_empty bpf_env_elaborated). Qed.

(** The record names each type of the object once and finds it declared. *)
Lemma object_types_match : Forall (fun r => (declared (r_name r) ≫= recorded bpf_env) = Some r) object_types.
Proof.
  apply (bool_decide_eq_true_1 (Forall _ object_types)). vm_compute. reflexivity.
Qed.

Lemma object_enums_match : Forall (fun n => (declared (n_name n) ≫= constants) = Some n) object_enums.
Proof.
  apply (bool_decide_eq_true_1 (Forall _ object_enums)). vm_compute. reflexivity.
Qed.

(** C30.  The layouts the probes are modelled with are the compiler's.  The
    declarations of the header and of the program elaborate in textual order,
    each complete before it is used by value; in the result sizes are multiples
    of a power-of-two alignment and a member designator, at any depth, stays
    inside the object it is applied to; and each of the 186 declared types that
    the debug information of the shipped [tcp_metrics.bpf.o] records ([struct
    sock], [struct sock_common], [struct sockaddr_in], [struct tcp_event] and
    [struct connect_start] among them) has exactly the recorded definition,
    size, and members in order, with their bit offsets, widths and types, as
    the recorded enumerations have exactly the recorded constants.  The
    remaining 50 declarations are not in the object's record; for them only the
    first two statements are made. *)
Theorem layouts_match_object :
  elaborate ∅ translation_unit = Some bpf_env /\ wf_env bpf_env /\
  (forall t path f, resolve bpf_env t path = Some f ->
     exists e, elab bpf_env t = Some e /\ 0 <= f_off f /\ 0 <= f_bits f /\ f_off f + f_bits f <= 8 * e_size e) /\
  (forall r, r ∈ object_types -> exists d, d ∈ translation_unit /\ recorded bpf_env d = Some r) /\
  (forall n, n ∈ object_enums -> exists d, d ∈ translation_unit /\ constants d = Some n).
Proof.
  assert (Hdecl : forall n d, declared n = Some d -> d ∈ translation_unit).
  { unfold declared. intros n d ((i & d') & (Hi & _)%list_find_Some & ->)%fmap_Some.
    by apply list_elem_of_lookup_2 in Hi. }
  split; [exact bpf_env_elaborated|]. split; [exact bpf_env_wf|].
  split; [intros t path f; apply resolve_in_bounds, bpf_env_wf|]. split.
  - intros r Hr. pose proof (proj1 (Forall_forall _ _) object_types_match r Hr) as (d & Hd & ?)%bind_Some. eauto.
  - intros n Hn. pose proof (proj1 (Forall_forall _ _) object_enums_match n Hn) as (d & Hd & ?)%bind_Some. eauto.
Qed.

Lemma layouts_match_object_witness :
  (exists e, elab bpf_env sock_t = Some e /\ 96 + 16 <= 8 * e_size e) /\
  (exists r d, r_name r = "struct sock_common" /\ mem "skc_dport" 96 16 "__be16" ∈ r_members r /\
     d ∈ translation_unit /\ recorded bpf_env d = Some r).
Proof.
  destruct layouts_match_object as (_ & _ & Hin & Hrec & _). split.
  - destruct (Hin sock_t ["__sk_common"; "skc_dport"]
      {| f_name := "skc_dport"; f_off := 96; f_bits := 16; f_type := CNamed "__be16" |}) as (e & He & _ & _ & Hb);
      [vm_compute; reflexivity|].
    exists e. split; [exact He | exact Hb].
  - assert (H : list_find (fun r => r_name r = "struct sock_common") object_types <> None) by (vm_compute; discriminate).
    destruct (list_find _ object_types) as [[i r]|] eqn:Hr; [|by destruct H].
    pose proof Hr as (Hi & Hn & _)%list_find_Some.
    destruct (Hrec r) as (d & Hd & Hd'); [exact (list_elem_of_lookup_2 _ _ _ Hi)|].
    exists r, d. split; [exact Hn|]. split; [|exact (conj Hd Hd')].
    assert (Hm : bool_decide (mem "skc_dport" 96 16 "__be16" ∈ default [] (r_members ∘ snd <$>
      list_find (fun r => r_name r = "struct sock_common") object_types)) = true) by (vm_compute; reflexivity).
    rewrite Hr in Hm. exact (bool_decide_eq_true_1 _ Hm).
Defined.
