(* ===== verification/WireFormat.v ===== *)
(** * The memory images of the two structures

    [struct tcp_event] and [struct connect_start] as records, their byte images
    under the C layout, and what a sequence of member assignments writes. *)
From S2P Require Import Prelude CTypes Vmlinux Bpf TcpMetrics.

Record tcp_event := {
  ev_timestamp_ns : Z;
  ev_pid : Z;
  ev_type : Z;
  ev_family : Z;
  ev_sport : Z;
  ev_dport : Z;
  ev_pad : Z;
  ev_ret : Z;
  ev_saddr_v4 : Z;
  ev_daddr_v4 : Z;
  ev_connect_latency_ns : Z;
  ev_comm : list Z
}.

Record connect_start := {
  cs_timestamp_ns : Z;
  cs_pid : Z;
  cs_family : Z;
  cs_sport : Z;
  cs_dport : Z;
  cs_pad : Z;
  cs_saddr_v4 : Z;
  cs_daddr_v4 : Z;
  cs_comm : list Z
}.

(** The bytes of each member, in order; the chunk of four zero bytes before
    [connect_latency_ns], and the one after [comm] of a connect start, is the
    padding that aligns the structure. *)
Definition tcp_event_chunks (e : tcp_event) : list (list Z) := [
  le_bytes 8 (ev_timestamp_ns e); le_bytes 4 (ev_pid e); le_bytes 4 (ev_type e);
  le_bytes 2 (ev_family e); le_bytes 2 (ev_sport e); le_bytes 2 (ev_dport e); le_bytes 2 (ev_pad e);
  le_bytes 4 (ev_ret e); le_bytes 4 (ev_saddr_v4 e); le_bytes 4 (ev_daddr_v4 e); replicate 4 0;
  le_bytes 8 (ev_connect_latency_ns e); ev_comm e].

Definition connect_start_chunks (s : connect_start) : list (list Z) := [
  le_bytes 8 (cs_timestamp_ns s); le_bytes 4 (cs_pid s);
  le_bytes 2 (cs_family s); le_bytes 2 (cs_sport s); le_bytes 2 (cs_dport s); le_bytes 2 (cs_pad s);
  le_bytes 4 (cs_saddr_v4 s); le_bytes 4 (cs_daddr_v4 s); cs_comm s; replicate 4 0].

Definition encode_event (e : tcp_event) : list Z := concat (tcp_event_chunks e).
Definition encode_start (s : connect_start) : list Z := concat (connect_start_chunks s).

Definition event_lens : list nat := [8; 4; 4; 2; 2; 2; 2; 4; 4; 4; 4; 8; 16]%nat.
Definition start_lens : list nat := [8; 4; 2; 2; 2; 2; 4; 4; 16; 4]%nat.

Definition event_index : list (string * nat) := [
  ("timestamp_ns", 0); ("pid", 1); ("type", 2); ("family", 3); ("sport", 4); ("dport", 5);
  ("pad", 6); ("ret", 7); ("saddr_v4", 8); ("daddr_v4", 9); ("connect_latency_ns", 11); ("comm", 12)]%nat.
Definition start_index : list (string * nat) := [
  ("timestamp_ns", 0); ("pid", 1); ("family", 2); ("sport", 3); ("dport", 4);
  ("pad", 5); ("saddr_v4", 6); ("daddr_v4", 7); ("comm", 8)]%nat.

Definition zero_event : tcp_event :=
  {| ev_timestamp_ns := 0; ev_pid := 0; ev_type := 0; ev_family := 0; ev_sport := 0; ev_dport := 0;
     ev_pad := 0; ev_ret := 0; ev_saddr_v4 := 0; ev_daddr_v4 := 0; ev_connect_latency_ns := 0;
     ev_comm := replicate 16 0 |}.
Definition zero_start : connect_start :=
  {| cs_timestamp_ns := 0; cs_pid := 0; cs_family := 0; cs_sport := 0; cs_dport := 0; cs_pad := 0;
     cs_saddr_v4 := 0; cs_daddr_v4 := 0; cs_comm := replicate 16 0 |}.

(** The members of the two structures sit where the chunks say. *)
Lemma event_layout_check :
  forallb (fun '(n, i) => is_chunk bpf_env event_lens tcp_event_t [n] i) event_index = true.
Proof. vm_compute. reflexivity. Qed.

Lemma start_layout_check :
  forallb (fun '(n, i) => is_chunk bpf_env start_lens connect_start_t [n] i) start_index = true.
Proof. vm_compute. reflexivity. Qed.

Lemma event_zeroed : zeroed bpf_env tcp_event_t = concat (tcp_event_chunks zero_event).
Proof. vm_compute. reflexivity. Qed.

Lemma start_zeroed : zeroed bpf_env connect_start_t = concat (connect_start_chunks zero_start).
Proof. vm_compute. reflexivity. Qed.

Lemma event_chunk n i : (n, i) ∈ event_index -> is_chunk bpf_env event_lens tcp_event_t [n] i = true.
Proof.
  rewrite list_elem_of_In. intros Hin.
  exact (proj1 (forallb_forall _ _) event_layout_check _ Hin).
Qed.

Lemma start_chunk n i : (n, i) ∈ start_index -> is_chunk bpf_env start_lens connect_start_t [n] i = true.
Proof.
  rewrite list_elem_of_In. intros Hin.
  exact (proj1 (forallb_forall _ _) start_layout_check _ Hin).
Qed.

(** Assignment to, and reading of, a member of an object in chunks. *)
Section Members.
Context (ls : list (list Z)).

Lemma event_store n i w v :
  (n, i) ∈ event_index -> event_lens !! i = Some w -> length <$> ls = event_lens ->
  store bpf_env tcp_event_t [n] v (concat ls) = concat (<[i := le_bytes w v]> ls).
Proof. intros Hn%event_chunk Hw Hls. by apply (store_chunk _ event_lens). Qed.

Lemma start_store n i w v :
  (n, i) ∈ start_index -> start_lens !! i = Some w -> length <$> ls = start_lens ->
  store bpf_env connect_start_t [n] v (concat ls) = concat (<[i := le_bytes w v]> ls).
Proof. intros Hn%start_chunk Hw Hls. by apply (store_chunk _ start_lens). Qed.

Lemma event_store_comm bs :
  length bs = 16%nat -> length <$> ls = event_lens ->
  store_bytes bpf_env tcp_event_t ["comm"] bs (concat ls) = concat (<[12%nat := bs]> ls).
Proof.
  intros Hbs Hls. apply (store_bytes_chunk _ event_lens); [by apply event_chunk; repeat constructor | done | by rewrite Hbs].
Qed.

Lemma start_store_comm bs :
  length bs = 16%nat -> length <$> ls = start_lens ->
  store_bytes bpf_env connect_start_t ["comm"] bs (concat ls) = concat (<[8%nat := bs]> ls).
Proof.
  intros Hbs Hls. apply (store_bytes_chunk _ start_lens); [by apply start_chunk; repeat constructor | done | by rewrite Hbs].
Qed.

Lemma start_load n i w v :
  (n, i) ∈ start_index -> length <$> ls = start_lens -> ls !! i = Some (le_bytes w v) ->
  is_u (8 * Z.of_nat w) v -> load bpf_env connect_start_t [n] (concat ls) = v.
Proof.
  intros Hn%start_chunk Hls Hi Hv. rewrite (load_chunk _ start_lens i _ _ v _ w) by done.
  by apply Z.mod_small.
Qed.
End Members.

Lemma event_chunks_lens e : length (ev_comm e) = 16%nat -> length <$> tcp_event_chunks e = event_lens.
Proof. intros H. unfold tcp_event_chunks. simpl. by rewrite H. Qed.

Lemma start_chunks_lens s : length (cs_comm s) = 16%nat -> length <$> connect_start_chunks s = start_lens.
Proof. intros H. unfold connect_start_chunks. simpl. by rewrite H. Qed.

Lemma length_encode_event e : length (ev_comm e) = 16%nat -> length (encode_event e) = 64%nat.
Proof. intros H. unfold encode_event. by rewrite length_concat_sum, event_chunks_lens. Qed.

Lemma length_encode_start s : length (cs_comm s) = 16%nat -> length (encode_start s) = 48%nat.
Proof. intros H. unfold encode_start. by rewrite length_concat_sum, start_chunks_lens. Qed.

Lemma sizeof_tcp_event : sizeof bpf_env tcp_event_t = 64.
Proof. vm_compute. reflexivity. Qed.

Lemma sizeof_event_comm : sizeof_field bpf_env tcp_event_t ["comm"] = 16.
Proof. vm_compute. reflexivity. Qed.

Lemma sizeof_start_comm : sizeof_field bpf_env connect_start_t ["comm"] = 16.
Proof. vm_compute. reflexivity. Qed.

(** Field values in the range of their members. *)
Record wf_start (s : connect_start) : Prop := {
  wfs_timestamp_ns : is_u 64 (cs_timestamp_ns s);
  wfs_pid : is_u 32 (cs_pid s);
  wfs_family : is_u 16 (cs_family s);
  wfs_sport : is_u 16 (cs_sport s);
  wfs_dport : is_u 16 (cs_dport s);
  wfs_pad : cs_pad s = 0;
  wfs_saddr_v4 : is_u 32 (cs_saddr_v4 s);
  wfs_daddr_v4 : is_u 32 (cs_daddr_v4 s);
  wfs_comm : bytes_ok (cs_comm s) /\ length (cs_comm s) = 16%nat
}.

Record wf_event (e : tcp_event) : Prop := {
  wfe_timestamp_ns : is_u 64 (ev_timestamp_ns e);
  wfe_pid : is_u 32 (ev_pid e);
  wfe_type : ev_type e = AEGIS_EVENT_RETRANSMIT \/ ev_type e = AEGIS_EVENT_CONNECT;
  wfe_family : is_u 16 (ev_family e);
  wfe_sport : is_u 16 (ev_sport e);
  wfe_dport : is_u 16 (ev_dport e);
  wfe_pad : ev_pad e = 0;
  wfe_ret : is_s 32 (ev_ret e);
  wfe_saddr_v4 : is_u 32 (ev_saddr_v4 e);
  wfe_daddr_v4 : is_u 32 (ev_daddr_v4 e);
  wfe_connect_latency_ns : is_u 64 (ev_connect_latency_ns e);
  wfe_comm : bytes_ok (ev_comm e) /\ length (ev_comm e) = 16%nat
}.

(** Reading back the members of a stored connect start. *)
Lemma load_start s :
  wf_start s ->
  load bpf_env connect_start_t ["timestamp_ns"] (encode_start s) = cs_timestamp_ns s /\
  load bpf_env connect_start_t ["pid"] (encode_start s) = cs_pid s /\
  load bpf_env connect_start_t ["family"] (encode_start s) = cs_family s /\
  load bpf_env connect_start_t ["sport"] (encode_start s) = cs_sport s /\
  load bpf_env connect_start_t ["dport"] (encode_start s) = cs_dport s /\
  load bpf_env connect_start_t ["saddr_v4"] (encode_start s) = cs_saddr_v4 s /\
  load bpf_env connect_start_t ["daddr_v4"] (encode_start s) = cs_daddr_v4 s /\
  load_bytes bpf_env connect_start_t ["comm"] (encode_start s) = cs_comm s.
Proof.
  intros []. destruct wfs_comm0 as [_ Hc]. pose proof (start_chunks_lens s Hc) as Hl.
  unfold encode_start.
  repeat split.
  all: try (eapply start_load; [repeat constructor | exact Hl | reflexivity | assumption]).
  apply (load_bytes_chunk _ start_lens 8); [apply start_chunk; repeat constructor | exact Hl | reflexivity].
Qed.

(** The image of a well-formed connect start determines it. *)
Lemma encode_start_inj s s' : wf_start s -> wf_start s' -> encode_start s = encode_start s' -> s = s'.
Proof.
  intros Hs Hs' Heq.
  destruct (load_start s Hs) as (E1 & E2 & E3 & E4 & E5 & E6 & E7 & E8).
  destruct (load_start s' Hs') as (F1 & F2 & F3 & F4 & F5 & F6 & F7 & F8).
  rewrite Heq in *. pose proof (wfs_pad _ Hs). pose proof (wfs_pad _ Hs').
  destruct s, s'; simpl in *. congruence.
Qed.
