(* ===== verification/TcpMetricsSpec.v ===== *)
(** * What the probe handlers do

    Functional specifications of the three handlers against [BpfLaws]: on every
    branch, the records they publish and the map they leave. *)
From S2P Require Import Prelude CTypes Vmlinux Bpf TcpMetrics WireFormat.

Lemma bpf_ntohs_alt x : bpf_ntohs x = (x `mod` 256) * 256 + (x / 256) `mod` 256.
Proof.
  unfold bpf_ntohs. change 255 with (Z.ones 8). rewrite !Z.land_ones, Z.shiftr_div_pow2 by lia.
  rewrite lor_shiftl; [reflexivity | lia | apply Z.mod_pos_bound; lia].
Qed.

Lemma bpf_ntohs_range x : is_u 16 (bpf_ntohs x).
Proof.
  rewrite bpf_ntohs_alt. pose proof (Z.mod_pos_bound x 256). pose proof (Z.mod_pos_bound (x / 256) 256).
  unfold is_u. change (2 ^ 16) with 65536. lia.
Qed.

Lemma bpf_ntohs_involutive x : is_u 16 x -> bpf_ntohs (bpf_ntohs x) = x.
Proof.
  intros Hx. unfold is_u in Hx. change (2 ^ 16) with 65536 in Hx. rewrite !bpf_ntohs_alt.
  assert (0 <= x / 256 < 256) by (split; [apply Z.div_pos | apply Z.div_lt_upper_bound]; lia).
  rewrite (Z.mod_small (x / 256)) by lia. set (hi := x / 256) in *.
  replace (x `mod` 256 * 256 + hi) with (hi + x `mod` 256 * 256) by lia.
  rewrite Z.mod_add, Z.div_add, (Z.mod_small hi), (Z.div_small hi), Z.add_0_l, Zmod_mod by lia.
  pose proof (Z.div_mod x 256). lia.
Qed.

(** The kernel members the program reads. *)
Definition core_members : list (ctype * list string) := [
  (sock_t, ["__sk_common"; "skc_family"]); (sock_t, ["__sk_common"; "skc_num"]);
  (sock_t, ["__sk_common"; "skc_dport"]); (sock_t, ["__sk_common"; "skc_rcv_saddr"]);
  (sock_t, ["__sk_common"; "skc_daddr"]);
  (sockaddr_in_t, ["sin_port"]); (sockaddr_in_t, ["sin_addr"; "s_addr"])].

(** A kernel in which those members exist: the object loads. *)
Definition compatible (target : env) : Prop :=
  Forall (fun '(t, path) => is_Some (offset_of target t path)) core_members.

#[export] Instance compatible_dec target : Decision (compatible target).
Proof. unfold compatible. apply Forall_dec. intros [t p]. apply _. Defined.

Lemma core_members_local :
  forallb (fun '(t, path) => bool_decide (is_Some (resolve kernel_env t path))) core_members = true.
Proof. vm_compute. reflexivity. Qed.

Lemma compatible_relocatable target t path :
  compatible target -> (t, path) ∈ core_members -> relocatable target t path.
Proof.
  intros Hc Hin. split.
  - apply list_elem_of_In in Hin.
    pose proof (proj1 (forallb_forall _ _) core_members_local _ Hin) as H. simpl in H.
    by apply bool_decide_eq_true in H.
  - unfold compatible in Hc. rewrite Forall_forall in Hc. exact (Hc _ Hin).
Qed.

(** The address tuple of a socket, and of a connect target. *)
Section Tuples.
Context (target : env) (v : kview).

Definition sk_family (sk : Z) : Z := kernel_read target v sock_t ["__sk_common"; "skc_family"] sk.
Definition sk_num (sk : Z) : Z := kernel_read target v sock_t ["__sk_common"; "skc_num"] sk.
Definition sk_dport (sk : Z) : Z := kernel_read target v sock_t ["__sk_common"; "skc_dport"] sk.
Definition sk_rcv_saddr (sk : Z) : Z := kernel_read target v sock_t ["__sk_common"; "skc_rcv_saddr"] sk.
Definition sk_daddr (sk : Z) : Z := kernel_read target v sock_t ["__sk_common"; "skc_daddr"] sk.
Definition addr_port (addr : Z) : Z := kernel_read target v sockaddr_in_t ["sin_port"] addr.
Definition addr_ip (addr : Z) : Z := kernel_read target v sockaddr_in_t ["sin_addr"; "s_addr"] addr.

(** The event a retransmission of [sk] at time [now] must produce. *)
Definition retransmit_event (now sk : Z) : tcp_event := {|
  ev_timestamp_ns := now; ev_pid := Z.shiftr (v_tid v) 32; ev_type := AEGIS_EVENT_RETRANSMIT;
  ev_family := sk_family sk; ev_sport := sk_num sk; ev_dport := bpf_ntohs (sk_dport sk);
  ev_pad := 0; ev_ret := 0; ev_saddr_v4 := sk_rcv_saddr sk; ev_daddr_v4 := sk_daddr sk;
  ev_connect_latency_ns := 0; ev_comm := v_comm v |}.

(** The pending connect of [sk] to [addr] begun at [now]. *)
Definition start_of (now sk addr : Z) : connect_start := {|
  cs_timestamp_ns := now; cs_pid := Z.shiftr (v_tid v) 32;
  cs_family := sk_family sk; cs_sport := sk_num sk; cs_dport := bpf_ntohs (addr_port addr);
  cs_pad := 0; cs_saddr_v4 := sk_rcv_saddr sk; cs_daddr_v4 := addr_ip addr; cs_comm := v_comm v |}.
End Tuples.

(** The event that ends a pending connect with result [ret] at time [now]. *)
Definition connect_event (s : connect_start) (now ret : Z) : tcp_event := {|
  ev_timestamp_ns := now; ev_pid := cs_pid s; ev_type := AEGIS_EVENT_CONNECT;
  ev_family := cs_family s; ev_sport := cs_sport s; ev_dport := cs_dport s; ev_pad := 0; ev_ret := ret;
  ev_saddr_v4 := cs_saddr_v4 s; ev_daddr_v4 := cs_daddr_v4 s;
  ev_connect_latency_ns := wrapu 64 (now - cs_timestamp_ns s); ev_comm := cs_comm s |}.

Ltac chunk_lens :=
  repeat (apply fmap_length_insert; [|simpl; rewrite ?length_le_bytes; first [reflexivity | by f_equal]]);
  first [assumption | apply event_chunks_lens; reflexivity | apply start_chunks_lens; reflexivity].

Ltac store_event :=
  erewrite event_store; [|repeat constructor|reflexivity|chunk_lens].
Ltac store_start :=
  erewrite start_store; [|repeat constructor|reflexivity|chunk_lens].

Section Handlers.
Context {K : Type} `{!BpfRuntime K} {target : env} `{!BpfLaws K target}.
Context (Hc : compatible target).
Implicit Types (k : K).

(** A member read through CO-RE is the member of the running kernel; its
    conversion to the member's width loses nothing. *)
Lemma wp_read_member t path p w k Q :
  (t, path) ∈ core_members -> (f_bits <$> resolve kernel_env t path) = Some w -> 0 <= w -> w `mod` 8 = 0 ->
  (forall k', view k' = view k -> wrapu w (kernel_read target (view k) t path p) = kernel_read target (view k) t path p ->
    Q (kernel_read target (view k) t path p) k') ->
  wp (BPF_CORE_READ t path p) k Q.
Proof.
  intros Hin Hw H0 H8 HQ. apply wp_core_read; [by apply compatible_relocatable|].
  intros k' Hk'. apply HQ; [done|]. apply wrapu_small.
  apply fmap_Some in Hw as (f & Hf & ->). by apply kernel_read_range.
Qed.

Ltac read_member :=
  intros HQ; apply wp_bind; eapply wp_read_member;
    [repeat constructor | vm_compute; reflexivity | lia | reflexivity |];
  intros k' Hk' Hr; apply wp_ret; rewrite Hr; by apply HQ.

Lemma wp_read_family sk k Q :
  (forall k', view k' = view k -> Q (sk_family target (view k) sk) k') -> wp (read_family sk) k Q.
Proof. read_member. Qed.

Lemma wp_read_sport sk k Q :
  (forall k', view k' = view k -> Q (sk_num target (view k) sk) k') -> wp (read_sport sk) k Q.
Proof. read_member. Qed.

Lemma wp_read_dport sk k Q :
  (forall k', view k' = view k -> Q (bpf_ntohs (sk_dport target (view k) sk)) k') ->
  wp (read_dport sk) k Q.
Proof. read_member. Qed.

Lemma wp_read_saddr_v4 sk k Q :
  (forall k', view k' = view k -> Q (sk_rcv_saddr target (view k) sk) k') -> wp (read_saddr_v4 sk) k Q.
Proof. read_member. Qed.

Lemma wp_read_daddr_v4 sk k Q :
  (forall k', view k' = view k -> Q (sk_daddr target (view k) sk) k') -> wp (read_daddr_v4 sk) k Q.
Proof. read_member. Qed.

Lemma wp_fill_tuple ls sk k Q :
  length <$> ls = event_lens ->
  (forall k', view k' = view k ->
    let v := view k in
    Q (concat (<[9%nat := le_bytes 4 (sk_daddr target v sk)]>
              (<[8%nat := le_bytes 4 (sk_rcv_saddr target v sk)]>
              (<[5%nat := le_bytes 2 (bpf_ntohs (sk_dport target v sk))]>
              (<[4%nat := le_bytes 2 (sk_num target v sk)]>
              (<[3%nat := le_bytes 2 (sk_family target v sk)]> ls)))))) k') ->
  wp (fill_tuple (concat ls) sk) k Q.
Proof.
  intros Hls HQ. unfold fill_tuple.
  apply wp_bind, wp_read_family. intros k1 H1. store_event.
  apply wp_bind, wp_read_sport. intros k2 H2. store_event.
  apply wp_bind, wp_read_dport. intros k3 H3. store_event.
  apply wp_bind, wp_read_saddr_v4. intros k4 H4. store_event.
  apply wp_bind, wp_read_daddr_v4. intros k5 H5. store_event.
  apply wp_ret. rewrite H4, H3, H2, H1. apply HQ. congruence.
Qed.

Lemma wp_fill_start_tuple ls sk addr k Q :
  length <$> ls = start_lens ->
  (forall k', view k' = view k ->
    let v := view k in
    Q (concat (<[7%nat := le_bytes 4 (addr_ip target v addr)]>
              (<[4%nat := le_bytes 2 (bpf_ntohs (addr_port target v addr))]>
              (<[6%nat := le_bytes 4 (sk_rcv_saddr target v sk)]>
              (<[3%nat := le_bytes 2 (sk_num target v sk)]>
              (<[2%nat := le_bytes 2 (sk_family target v sk)]> ls)))))) k') ->
  wp (fill_start_tuple (concat ls) sk addr) k Q.
Proof.
  intros Hls HQ. unfold fill_start_tuple.
  apply wp_bind, wp_read_family. intros k1 H1. store_start.
  apply wp_bind, wp_read_sport. intros k2 H2. store_start.
  apply wp_bind, wp_read_saddr_v4. intros k3 H3. store_start.
  apply wp_bind. eapply (wp_read_member sockaddr_in_t ["sin_port"] addr 16);
    [repeat constructor | vm_compute; reflexivity | lia | reflexivity |].
  intros k4 H4 R4. rewrite R4. store_start.
  apply wp_bind. eapply (wp_read_member sockaddr_in_t ["sin_addr"; "s_addr"] addr 32);
    [repeat constructor | vm_compute; reflexivity | lia | reflexivity |].
  intros k5 H5 R5. rewrite R5. store_start.
  apply wp_ret. rewrite H4, H3, H2, H1. apply HQ. congruence.
Qed.
Lemma comm_full k : take (Z.to_nat 16) (v_comm (view k)) = v_comm (view k).
Proof. destruct (law_comm_bytes k) as [_ H]. apply take_ge. rewrite H. reflexivity. Qed.

(** The retransmit probe publishes one event, or drops it when there is no
    socket or no room in the ring buffer. *)
Lemma wp_retransmit sk k :
  wp (aegis_tcp_retransmit sk) k (fun r k' => r = 0 /\
    if (sk =? 0) || negb (v_room (view k) events 64)
    then exists room, view k' = set_room (view k) room
    else exists now room, v_now (view k) <= now < 2 ^ 64 /\
      view k' = set_ring (set_now (set_room (view k) room) now)
        (v_ring (view k) ++ [encode_event (retransmit_event target (view k) now sk)])).
Proof.
  unfold aegis_tcp_retransmit. destruct (Z.eqb_spec sk 0) as [-> | Hsk]; cbn [orb].
  { apply wp_ret. split; [done|]. exists (v_room (view k)). by destruct (view k). }
  rewrite sizeof_tcp_event. apply wp_bind, wp_reserve. intros [slot|] k1 room <- H1; cbn.
  2:{ apply wp_ret. eauto. }
  apply wp_bind, wp_tid. intros _. apply wp_bind, wp_ktime. intros now k2 Hnow H2.
  rewrite event_zeroed. do 3 store_event.
  apply wp_bind, wp_fill_tuple; [chunk_lens|]. intros k3 H3.
  apply wp_bind. rewrite sizeof_event_comm. apply wp_comm; [lia|]. intros k4 H4. rewrite comm_full.
  assert (length (v_comm (view k3)) = 16%nat) as Hcomm by apply law_comm_bytes.
  rewrite event_store_comm by (done || chunk_lens).
  apply wp_bind, wp_submit. intros k5 H5. apply wp_ret. split; [done|]. exists now, room.
  rewrite H1 in *. split; [done|]. rewrite H5, H4, H3, H2. reflexivity.
Qed.

(** The connect probe records the attempt under the calling thread; when the
    map refuses it only time has passed. *)
Lemma wp_connect sk uaddr k :
  wp (aegis_tcp_v4_connect sk uaddr) k (fun r k' => r = 0 /\
    if (sk =? 0) || (uaddr =? 0) then view k' = view k
    else exists now accepts, v_now (view k) <= now < 2 ^ 64 /\
      view k' = if v_accepts (view k) connect_starts (v_tid (view k))
        then set_map (set_now (view k) now)
          (<[v_tid (view k) := encode_start (start_of target (view k) now sk uaddr)]> (v_map (view k))) accepts
        else set_now (view k) now).
Proof.
  unfold aegis_tcp_v4_connect. destruct (_ || _); [by apply wp_ret|].
  apply wp_bind, wp_tid. intros _. apply wp_bind, wp_ktime. intros now k1 Hnow H1.
  rewrite start_zeroed. do 2 store_start.
  apply wp_bind, wp_fill_start_tuple; [chunk_lens|]. intros k2 H2.
  apply wp_bind. rewrite sizeof_start_comm. apply wp_comm; [lia|]. intros k3 H3. rewrite comm_full.
  assert (length (v_comm (view k2)) = 16%nat) as Hcomm by apply law_comm_bytes.
  rewrite start_store_comm by (done || chunk_lens).
  apply wp_bind, wp_update. intros r k4 accepts H4. apply wp_ret. split; [done|]. exists now, accepts.
  split; [done|]. rewrite H4, H3, H2, H1. reflexivity.
Qed.

(** The return probe consumes the attempt of the calling thread, if any, and
    publishes it with its result and latency when the ring buffer has room. *)
Lemma wp_connect_ret ret k :
  (forall bs, v_map (view k) !! v_tid (view k) = Some bs -> exists s, wf_start s /\ bs = encode_start s) ->
  wp (aegis_tcp_v4_connect_ret ret) k (fun r k' => r = 0 /\
    exists now room accepts, v_now (view k) <= now < 2 ^ 64 /\
      match v_map (view k) !! v_tid (view k) with
      | None => view k' = set_now (view k) now
      | Some bs => exists s, wf_start s /\ bs = encode_start s /\
          view k' = set_map
            (set_ring (set_room (set_now (view k) now) room)
               (v_ring (view k) ++ if v_room (view k) events 64 then [encode_event (connect_event s now ret)] else []))
            (delete (v_tid (view k)) (v_map (view k))) accepts
      end).
Proof.
  intros Hwf. unfold aegis_tcp_v4_connect_ret.
  apply wp_bind, wp_tid. intros _. apply wp_bind, wp_ktime. intros now k1 Hnow H1.
  apply wp_bind, wp_lookup. intros k2 H2. rewrite H1. cbn [v_map set_now].
  destruct (v_map (view k) !! v_tid (view k)) as [bs|] eqn:Hm.
  2:{ apply wp_ret. split; [done|]. exists now, (v_room (view k)), (v_accepts (view k)). split; [done|]. congruence. }
  destruct (Hwf bs eq_refl) as (s & Hs & ->). pose proof (load_start s Hs) as Hl.
  destruct Hl as (E1 & E2 & E3 & E4 & E5 & E6 & E7 & E8). rewrite sizeof_tcp_event.
  apply wp_bind, wp_reserve. rewrite H2, H1. cbn [v_room set_now]. intros [slot|] k3 room <- H3;
    (rewrite bool_decide_true by eauto) || (rewrite bool_decide_false by (by intros [? ?])).
  - rewrite E1, E2, E3, E4, E5, E6, E7, E8, event_zeroed. do 10 store_event.
    destruct (wfs_comm _ Hs) as [_ Hcomm]. rewrite event_store_comm by (done || chunk_lens).
    apply wp_bind, wp_submit. intros k4 H4. apply wp_bind, wp_delete. intros r k5 accepts H5. apply wp_ret.
    split; [done|]. exists now, room, accepts. split; [done|]. exists s. split; [done|]. split; [done|].
    rewrite H5, H4, H3. reflexivity.
  - apply wp_bind, wp_delete. intros r k4 accepts H4. apply wp_ret.
    split; [done|]. exists now, room, accepts. split; [done|]. exists s. split; [done|]. split; [done|].
    rewrite H4, H3. unfold set_map, set_ring, set_room, set_now. simpl. by rewrite app_nil_r.
Qed.
End Handlers.

(** ** Properties *)

(**  The return probe always clears the attempt of the calling thread and
    no other, whether or not the ring buffer has room, and publishes at most one
    record, and none when the thread had no attempt. *)
Theorem connect_return_always_clears {K} `{!BpfRuntime K} {target} `{!BpfLaws K target} (k : K) ret :
  let '(r, k') := aegis_tcp_v4_connect_ret ret k in
  r = 0 /\ v_map (view k') = delete (v_tid (view k)) (v_map (view k)) /\
  (v_ring (view k') = v_ring (view k) \/
   (exists rec, v_ring (view k') = v_ring (view k) ++ [rec]) /\
   is_Some (v_map (view k) !! v_tid (view k))).
Proof.
  assert (H : wp (aegis_tcp_v4_connect_ret ret) k (fun r k' =>
    r = 0 /\ v_map (view k') = delete (v_tid (view k)) (v_map (view k)) /\
    (v_ring (view k') = v_ring (view k) \/
     (exists rec, v_ring (view k') = v_ring (view k) ++ [rec]) /\ is_Some (v_map (view k) !! v_tid (view k))))).
  2:{ unfold wp in H. by destruct (aegis_tcp_v4_connect_ret ret k). }
  unfold aegis_tcp_v4_connect_ret. apply wp_bind, wp_tid. intros _.
  apply wp_bind, wp_ktime. intros now k1 _ H1. apply wp_bind, wp_lookup. intros k2 H2.
  rewrite H1. cbn [v_map set_now]. destruct (v_map (view k) !! v_tid (view k)) as [start|] eqn:Hm.
  2:{ apply wp_ret. rewrite H2, H1. cbn [v_map v_ring set_now]. rewrite delete_id by done. auto. }
  apply wp_bind, wp_reserve. intros [slot|] k3 room _ H3.
  - apply wp_bind, wp_submit. intros k4 H4. apply wp_bind, wp_delete. intros r k5 accepts H5. apply wp_ret.
    rewrite H5, H4, H3, H2, H1. cbn [v_map v_ring set_now set_map set_ring set_room]. eauto 10.
  - apply wp_bind, wp_delete. intros r k4 accepts H4. apply wp_ret.
    rewrite H4, H3, H2, H1. cbn [v_map v_ring set_now set_map set_ring set_room]. auto.
Qed.

(**  The entry probe publishes nothing and touches at most the entry of the
    calling thread; what it stores there is the image of the attempt: time,
    process, local address and port of the socket, and destination of the
    sockaddr in host order. *)
Theorem connect_entry_records {K} `{!BpfRuntime K} {target} `{!BpfLaws K target} (k : K) sk uaddr :
  compatible target ->
  let '(r, k') := aegis_tcp_v4_connect sk uaddr k in
  r = 0 /\ v_ring (view k') = v_ring (view k) /\
  (v_map (view k') = v_map (view k) \/
   sk <> 0 /\ uaddr <> 0 /\ exists now, v_now (view k) <= now /\
     v_map (view k') = <[v_tid (view k) := encode_start (start_of target (view k) now sk uaddr)]> (v_map (view k))).
Proof.
  intros Hc. pose proof (wp_connect Hc sk uaddr k) as H. unfold wp in H.
  destruct (aegis_tcp_v4_connect sk uaddr k) as [r k']. simpl in H. destruct H as [Hr H].
  split; [done|]. destruct (Z.eqb_spec sk 0), (Z.eqb_spec uaddr 0); cbn [orb] in H; try (rewrite H; by auto).
  destruct H as (now & accepts & Hnow & ->). destruct (v_accepts _ _ _); [|by auto].
  split; [done|]. right. do 2 (split; [done|]). exists now. split; [lia | done].
Qed.

(**  The retransmit probe never touches the map; it publishes exactly one
    event, the image of the socket's tuple at that time, when there is a socket
    and the ring buffer has room, and otherwise drops it silently. *)
Theorem retransmit_publishes_or_drops {K} `{!BpfRuntime K} {target} `{!BpfLaws K target} (k : K) sk :
  compatible target ->
  let '(r, k') := aegis_tcp_retransmit sk k in
  r = 0 /\ v_map (view k') = v_map (view k) /\
  if (sk =? 0) || negb (v_room (view k) events 64)
  then v_ring (view k') = v_ring (view k)
  else exists now, v_now (view k) <= now < 2 ^ 64 /\
    v_ring (view k') = v_ring (view k) ++ [encode_event (retransmit_event target (view k) now sk)].
Proof.
  intros Hc. pose proof (wp_retransmit Hc sk k) as H. unfold wp in H.
  destruct (aegis_tcp_retransmit sk k) as [r k']. simpl in H. destruct H as [Hr H].
  split; [done|]. destruct (_ || _); [by destruct H as [room ->]|].
  destruct H as (now & room & Hnow & ->). split; [done|]. by exists now.
Qed.

(**  The tuple written into an event does not depend on where the running
    kernel keeps the members: on two kernels with different layouts, sockets
    with the same member values give the same bytes. *)
Theorem fill_tuple_kernel_independent {K1 K2} `{!BpfRuntime K1, !BpfRuntime K2} {target1 target2}
    `{!BpfLaws K1 target1, !BpfLaws K2 target2} (k1 : K1) (k2 : K2) sk1 sk2 e :
  compatible target1 -> compatible target2 -> length (ev_comm e) = 16%nat ->
  (forall m f off1 off2, (sock_t, ["__sk_common"; m]) ∈ core_members ->
     resolve kernel_env sock_t ["__sk_common"; m] = Some f ->
     offset_of target1 sock_t ["__sk_common"; m] = Some off1 ->
     offset_of target2 sock_t ["__sk_common"; m] = Some off2 ->
     v_mem (view k1) (sk1 + off1) (f_bits f / 8) = v_mem (view k2) (sk2 + off2) (f_bits f / 8)) ->
  (fill_tuple (encode_event e) sk1 k1).1 = (fill_tuple (encode_event e) sk2 k2).1.
Proof.
  intros Hc1 Hc2 Hlen Hmem.
  assert (Hread : forall m, (sock_t, ["__sk_common"; m]) ∈ core_members ->
    kernel_read target1 (view k1) sock_t ["__sk_common"; m] sk1 =
    kernel_read target2 (view k2) sock_t ["__sk_common"; m] sk2).
  { intros m Hin. destruct (compatible_relocatable _ _ _ Hc1 Hin) as [[f Hf] [o1 H1]].
    destruct (compatible_relocatable _ _ _ Hc2 Hin) as [_ [o2 H2]].
    unfold kernel_read. rewrite Hf, H1, H2. by erewrite Hmem. }
  pose proof (event_chunks_lens e Hlen) as Hl.
  assert (E1 := wp_fill_tuple Hc1 (tcp_event_chunks e) sk1 k1 (fun a _ => a = (fill_tuple (encode_event e) sk2 k2).1) Hl).
  apply E1. intros k1' _ v1. clear E1. symmetry.
  apply (wp_fill_tuple Hc2 (tcp_event_chunks e) sk2 k2 (fun a _ => a = _) Hl). intros k2' _ v2.
  unfold sk_daddr, sk_rcv_saddr, sk_dport, sk_num, sk_family. subst v1 v2.
  rewrite !Hread by repeat constructor. reflexivity.
Qed.
