(* ===== verification/BpfModel.v ===== *)
(** * An executable BPF runtime

    A concrete kernel state satisfying [BpfLaws], for any kernel type layout: the
    laws are consistent, and the handlers run on it by evaluation. *)
From S2P Require Import Prelude CTypes Vmlinux Bpf.

Record kstate := {
  ks_mem : gmap Z Z;          (** byte-addressed kernel memory *)
  ks_clock : N;               (** current time *)
  ks_tick : N;                (** time taken by one clock reading *)
  ks_tid : Z;
  ks_comm : list Z;
  ks_ring : list (list Z);    (** published records, oldest first *)
  ks_room : Z;                (** free bytes of the ring buffer *)
  ks_map : gmap Z (list Z)
}.

Definition clock_max : Z := 2 ^ 64 - 1.

Definition read_bytes (m : gmap Z Z) (p n : Z) : option (list Z) :=
  if n <? 0 then None
  else mapM (fun i => (fun b => b `mod` 256) <$> m !! (p + Z.of_nat i)) (seq 0 (Z.to_nat n)).

Definition pad_comm (c : list Z) : list Z := take 16 (((fun b => b `mod` 256) <$> c) ++ replicate 16 0).

(** A hash map takes an update of a key it has, or of a new one while it is not full. *)
Definition takes (entries : gmap Z (list Z)) (m : bpf_map_def) (key : Z) : bool :=
  bool_decide (is_Some (entries !! key)) || (Z.of_nat (size entries) <? max_entries m).

Definition ks_view (k : kstate) : kview := {|
  v_mem := read_bytes (ks_mem k);
  v_now := Z.min (Z.of_N (ks_clock k)) clock_max;
  v_tid := wrapu 64 (ks_tid k);
  v_comm := pad_comm (ks_comm k);
  v_ring := ks_ring k;
  v_room := fun _ n => n <=? ks_room k;
  v_map := ks_map k;
  v_accepts := takes (ks_map k)
|}.

Definition ks_set_clock (k : kstate) (c : N) : kstate := {|
  ks_mem := ks_mem k; ks_clock := c; ks_tick := ks_tick k; ks_tid := ks_tid k; ks_comm := ks_comm k;
  ks_ring := ks_ring k; ks_room := ks_room k; ks_map := ks_map k |}.
Definition ks_set_ring (k : kstate) (r : list (list Z)) (room : Z) : kstate := {|
  ks_mem := ks_mem k; ks_clock := ks_clock k; ks_tick := ks_tick k; ks_tid := ks_tid k; ks_comm := ks_comm k;
  ks_ring := r; ks_room := room; ks_map := ks_map k |}.
Definition ks_set_map (k : kstate) (m : gmap Z (list Z)) : kstate := {|
  ks_mem := ks_mem k; ks_clock := ks_clock k; ks_tick := ks_tick k; ks_tid := ks_tid k; ks_comm := ks_comm k;
  ks_ring := ks_ring k; ks_room := ks_room k; ks_map := m |}.

Definition E2BIG : Z := 7.
Definition ENOENT : Z := 2.

Section Runtime.
Context (target : env).

#[local] Instance model_runtime : BpfRuntime kstate := {|
  BPF_CORE_READ t path p k := (kernel_read target (ks_view k) t path p, k);
  bpf_ktime_get_ns k :=
    let c := (ks_clock k + ks_tick k)%N in (Z.min (Z.of_N c) clock_max, ks_set_clock k c);
  bpf_get_current_pid_tgid k := (wrapu 64 (ks_tid k), k);
  bpf_get_current_comm n k := (take (Z.to_nat n) (pad_comm (ks_comm k)), k);
  bpf_ringbuf_reserve m n k :=
    if n <=? ks_room k then (Some 0, ks_set_ring k (ks_ring k) (ks_room k - n)) else (None, k);
  bpf_ringbuf_submit h bs k := (tt, ks_set_ring k (ks_ring k ++ [bs]) (ks_room k));
  bpf_map_lookup_elem m key k := (ks_map k !! key, k);
  bpf_map_update_elem m key bs flags k :=
    if takes (ks_map k) m key
    then (0, ks_set_map k (<[key := bs]> (ks_map k)))
    else (- E2BIG, k);
  bpf_map_delete_elem m key k :=
    (match ks_map k !! key with Some _ => 0 | None => - ENOENT end, ks_set_map k (delete key (ks_map k)))
|}.

Lemma read_bytes_spec m p n bs :
  read_bytes m p n = Some bs -> bytes_ok bs /\ Z.of_nat (length bs) = n.
Proof.
  unfold read_bytes. destruct (Z.ltb_spec n 0); [done|]. intros Hbs. split.
  - apply mapM_Some in Hbs. induction Hbs as [|i b ? ? Hb]; constructor; [|done].
    apply fmap_Some in Hb as (? & _ & ->). apply Z.mod_pos_bound. lia.
  - apply length_mapM in Hbs. rewrite length_seq in Hbs. lia.
Qed.

Lemma pad_comm_spec c : bytes_ok (pad_comm c) /\ length (pad_comm c) = 16%nat.
Proof.
  unfold pad_comm. split.
  - apply Forall_take, Forall_app. split; [|apply bytes_ok_zeros].
    apply Forall_fmap, Forall_forall. intros b _. apply Z.mod_pos_bound. lia.
  - rewrite length_take, length_app, length_replicate. lia.
Qed.

#[local] Instance model_laws : BpfLaws kstate target.
Proof.
  refine {| view := ks_view |}.
  - done.
  - intros k p n bs. apply read_bytes_spec.
  - intros k. cbn. unfold clock_max. split; [lia|]. done.
  - intros k. cbn. unfold clock_max. lia.
  - intros k. split; [done|]. apply wrapu_range. lia.
  - done.
  - intros k. apply pad_comm_spec.
  - intros m n k. cbn. destruct (n <=? ks_room k); (split; [done|]); [|by eexists].
    by exists (fun _ n' => n' <=? ks_room k - n).
  - done.
  - done.
  - intros m key bs k. cbn. destruct (takes (ks_map k) m key); (split; [done|]); [|by exists (takes ∅)].
    by exists (takes (<[key := bs]> (ks_map k))).
  - intros m key k. cbn. by exists (takes (delete key (ks_map k))).
Defined.
End Runtime.

(** A kernel with one socket: 127.0.0.1:40000 talking to 10.0.0.3:7002. *)
Definition demo_sock : Z := 4096.
Definition demo_addr : Z := 8192.

Definition bytes_at (p : Z) (bs : list Z) : list (Z * Z) := imap (fun i b => (p + Z.of_nat i, b)) bs.

Definition demo_mem : gmap Z Z := list_to_map (
  bytes_at demo_sock ([10; 0; 0; 3] ++ [127; 0; 0; 1] ++ replicate 4 0 ++ [27; 90] ++ [64; 156] ++ [2; 0]) ++
  bytes_at demo_addr ([2; 0] ++ [27; 90] ++ [10; 0; 0; 3])).

Definition demo_kernel : kstate := {|
  ks_mem := demo_mem; ks_clock := 1000; ks_tick := 500; ks_tid := Z.shiftl 4242 32 + 4243;
  ks_comm := [99; 117; 114; 108]; ks_ring := []; ks_room := 4096; ks_map := ∅ |}.
