(* ===== verification/TcpSystem.v ===== *)
(** * The probes as a system

    Probes fire on any thread in any order, interleaved with the rest of the
    kernel.  The abstract system keeps one pending attempt per thread and a list
    of events; the concrete one is the handlers on a [BpfRuntime].  The handlers
    refine the abstract system, and the invariants of the wire stream follow by
    induction on the interleaving. *)
From S2P Require Import Prelude CTypes Vmlinux Bpf TcpMetrics WireFormat TcpMetricsSpec.

(** ** Abstract system *)

Record aview := { a_pending : gmap Z connect_start; a_events : list tcp_event }.

(** What happens: a probe fires with its arguments, or the kernel does something else. *)
Inductive probe :=
| RetransmitSkb (sk : Z)
| ConnectEntry (sk uaddr : Z)
| ConnectReturn (ret : Z)
| KernelActivity.

(** What it makes of the abstract state, when it finds the kernel in [v] and reads
    the clock at [now].  A retransmission of a socket is published if there is room;
    an attempt to connect is recorded for the running thread if the map takes it; a
    return ends the attempt of the running thread, and is published if there is room. *)
Definition spec_next (target : env) (p : probe) (v : kview) (now : Z) (a : aview) : aview :=
  match p with
  | RetransmitSkb sk =>
      if bool_decide (sk <> 0) && v_room v events 64
      then {| a_pending := a_pending a; a_events := a_events a ++ [retransmit_event target v now sk] |} else a
  | ConnectEntry sk uaddr =>
      if bool_decide (sk <> 0 /\ uaddr <> 0) && v_accepts v connect_starts (v_tid v)
      then {| a_pending := <[v_tid v := start_of target v now sk uaddr]> (a_pending a); a_events := a_events a |} else a
  | ConnectReturn ret =>
      match a_pending a !! v_tid v with
      | Some s => {| a_pending := delete (v_tid v) (a_pending a);
                     a_events := a_events a ++ if v_room v events 64 then [connect_event s now ret] else [] |}
      | None => a
      end
  | KernelActivity => a
  end.

(** ** Concrete system *)

Section System.
Context {K : Type} `{!BpfRuntime K} {target : env} `{!BpfLaws K target}.
Context (Hc : compatible target).
Implicit Types (k : K).

(** The handlers do their part; the rest of the kernel may schedule another thread,
    change memory, consume records and let time pass, but only the program touches
    its map and publishes records. *)
Inductive fires : probe -> K -> K -> Prop :=
| step_retransmit sk k : fires (RetransmitSkb sk) k (aegis_tcp_retransmit sk k).2
| step_connect sk uaddr k : fires (ConnectEntry sk uaddr) k (aegis_tcp_v4_connect sk uaddr k).2
| step_connect_ret ret k : is_s 32 ret -> fires (ConnectReturn ret) k (aegis_tcp_v4_connect_ret ret k).2
| step_kernel k k' :
    v_map (view k') = v_map (view k) -> v_ring (view k') = v_ring (view k) ->
    v_now (view k) <= v_now (view k') -> fires KernelActivity k k'.

Definition probe_step (k k' : K) : Prop := exists p, fires p k k'.

(** Pending attempts are well-formed, of the process of their thread and not from
    the future; events are well-formed and their latency does not exceed their
    timestamp. *)
Definition pending_ok (now : Z) (tid : Z) (s : connect_start) : Prop :=
  wf_start s /\ cs_pid s = Z.shiftr tid 32 /\ cs_timestamp_ns s <= now.

Definition event_ok (e : tcp_event) : Prop :=
  wf_event e /\ ev_connect_latency_ns e <= ev_timestamp_ns e /\
  (ev_type e = AEGIS_EVENT_RETRANSMIT -> ev_ret e = 0 /\ ev_connect_latency_ns e = 0).

Record refines (k : K) (a : aview) : Prop := {
  ref_map : v_map (view k) = encode_start <$> a_pending a;
  ref_ring : v_ring (view k) = encode_event <$> a_events a;
  ref_pending : map_Forall (pending_ok (v_now (view k))) (a_pending a);
  ref_events : Forall event_ok (a_events a)
}.

(** Every value read from the kernel fits its member. *)
Lemma member_range k t path p w :
  (f_bits <$> resolve kernel_env t path) = Some w -> 0 <= w -> w `mod` 8 = 0 ->
  is_u w (kernel_read target (view k) t path p).
Proof. intros (f & Hf & ->)%fmap_Some ? ?. by apply kernel_read_range. Qed.

Ltac member_range :=
  unfold sk_family, sk_num, sk_rcv_saddr, sk_daddr, addr_ip;
  match goal with
  | |- is_u ?w (kernel_read _ (view ?k) ?t ?path ?p) =>
      apply (member_range k t path p w); [vm_compute; reflexivity | lia | reflexivity]
  end.

Lemma tgid_range k : is_u 32 (Z.shiftr (v_tid (view k)) 32).
Proof.
  destruct (law_tid k) as [_ [H0 H1]]. unfold is_u. rewrite Z.shiftr_div_pow2 by lia.
  split; [apply Z.div_pos; lia | apply Z.div_lt_upper_bound; lia].
Qed.

Lemma start_of_wf k now sk addr :
  is_u 64 now -> wf_start (start_of target (view k) now sk addr).
Proof.
  intros Hn. split; cbn [start_of cs_timestamp_ns cs_pid cs_family cs_sport cs_dport cs_pad cs_saddr_v4 cs_daddr_v4 cs_comm].
  - exact Hn.
  - apply tgid_range.
  - member_range.
  - member_range.
  - apply bpf_ntohs_range.
  - reflexivity.
  - member_range.
  - member_range.
  - apply law_comm_bytes.
Qed.

Lemma retransmit_event_ok k now sk :
  is_u 64 now -> event_ok (retransmit_event target (view k) now sk).
Proof.
  intros Hn. split; [|split; [simpl; unfold is_u in Hn; lia | done]].
  split; cbn [retransmit_event ev_timestamp_ns ev_pid ev_type ev_family ev_sport ev_dport ev_pad ev_ret
              ev_saddr_v4 ev_daddr_v4 ev_connect_latency_ns ev_comm].
  - exact Hn.
  - apply tgid_range.
  - by left.
  - member_range.
  - member_range.
  - apply bpf_ntohs_range.
  - reflexivity.
  - unfold is_s. lia.
  - member_range.
  - member_range.
  - unfold is_u. lia.
  - apply law_comm_bytes.
Qed.

Lemma connect_event_ok s now ret tid :
  pending_ok now tid s -> now < 2 ^ 64 -> is_s 32 ret -> event_ok (connect_event s now ret).
Proof.
  intros ([] & _ & Hle) Hn Hr. unfold is_u in *. split; [|split; [|done]].
  - split; simpl; try done; [unfold is_u; lia | by right | apply wrapu_range; lia].
  - simpl. rewrite wrapu_small by (unfold is_u; lia). lia.
Qed.

Lemma pending_ok_later now now' tid s : now <= now' -> pending_ok now tid s -> pending_ok now' tid s.
Proof. intros H (? & ? & ?). repeat split; try done; [apply H0..|]. lia. Qed.

(** A state with the same map and records, later in time, refines the same
    abstract state. *)
Lemma refines_later k k' a :
  refines k a -> v_map (view k') = v_map (view k) -> v_ring (view k') = v_ring (view k) ->
  v_now (view k) <= v_now (view k') -> refines k' a.
Proof.
  intros [Hm Hr Hp He] Em Er Hn. split; [congruence | congruence | | done].
  intros tid s Hs. eapply pending_ok_later; [exact Hn|]. by apply Hp.
Qed.

(** The state [k'] the probe [p] leaves represents what the specification makes of [a]. *)
Definition simulated (p : probe) (k k' : K) (a : aview) : Prop :=
  exists now, v_now (view k) <= now <= v_now (view k') /\ refines k' (spec_next target p (view k) now a).

Lemma simulate_retransmit k a sk : refines k a -> simulated (RetransmitSkb sk) k (aegis_tcp_retransmit sk k).2 a.
Proof.
  intros Hr. destruct (wp_retransmit Hc sk k) as [_ H]. unfold simulated, spec_next.
  assert (E : (sk =? 0) || negb (v_room (view k) events 64) = negb (bool_decide (sk <> 0) && v_room (view k) events 64)).
  { case_bool_decide as E; [apply Z.eqb_neq in E; by rewrite E|by subst]. }
  rewrite E in H. destruct (bool_decide _ && _); cbn [negb] in H.
  - destruct H as (now & room & Hnow & Hv). pose proof (law_now k). exists now. rewrite Hv. split; [cbn; lia|].
    destruct Hr as [Hm Hr Hp He]. split; rewrite ?Hv; simpl.
    + done.
    + by rewrite fmap_app, Hr.
    + intros t s Hs. eapply pending_ok_later; [|by apply Hp]. lia.
    + apply Forall_app. split; [done|]. constructor; [|constructor].
      apply retransmit_event_ok. unfold is_u. lia.
  - destruct H as [room Hv]. exists (v_now (view k)). rewrite Hv. split; [cbn; lia|].
    apply (refines_later k); rewrite ?Hv; cbn; [done..|lia].
Qed.

Lemma simulate_connect k a sk uaddr : refines k a -> simulated (ConnectEntry sk uaddr) k (aegis_tcp_v4_connect sk uaddr k).2 a.
Proof.
  intros Hr. destruct (wp_connect Hc sk uaddr k) as [_ H]. unfold simulated, spec_next.
  destruct (Z.eqb_spec sk 0), (Z.eqb_spec uaddr 0); cbn [orb] in H;
    [rewrite bool_decide_false by tauto; exists (v_now (view k)); rewrite H; split; [lia|];
     apply (refines_later k); rewrite ?H; [done..|lia] ..|].
  rewrite bool_decide_true by done. cbn [andb]. destruct H as (now & accepts & Hnow & Hv). pose proof (law_now k).
  exists now. rewrite Hv. destruct (v_accepts _ _ _); (split; [cbn; lia|]).
  - destruct Hr as [Hm Hr Hp He]. split; rewrite ?Hv; simpl.
    + by rewrite fmap_insert, Hm.
    + done.
    + apply map_Forall_insert_2.
      * split; [apply start_of_wf; unfold is_u; lia|]. split; [done | simpl; lia].
      * intros t s' Hs. eapply pending_ok_later; [|by apply Hp]. lia.
    + done.
  - apply (refines_later k); rewrite ?Hv; cbn; [done..|lia].
Qed.

Lemma simulate_connect_ret k a ret :
  is_s 32 ret -> refines k a -> simulated (ConnectReturn ret) k (aegis_tcp_v4_connect_ret ret k).2 a.
Proof.
  intros Hret Href. pose proof Href as [Hm Hr Hp He]. pose proof (law_now k) as H0. unfold simulated, spec_next.
  destruct (wp_connect_ret ret k) as [_ (now & room & accepts & Hnow & H)].
  { intros bs. rewrite Hm, lookup_fmap. intros (s & Hs & ->)%fmap_Some. exists s.
    split; [|done]. by apply (Hp _ s Hs). }
  exists now. rewrite Hm, lookup_fmap in H. destruct (a_pending a !! v_tid (view k)) as [s|] eqn:Hs; cbn [fmap option_fmap option_map] in H.
  - destruct H as (s' & Hwf & Henc & Hv).
    apply (encode_start_inj s s') in Henc; [subst s' | by apply (Hp _ s Hs) | done].
    rewrite Hv. split; [cbn; lia|]. split; rewrite ?Hv; simpl.
    + by rewrite fmap_delete.
    + rewrite fmap_app, Hr. by destruct (v_room _ _ _).
    + intros t s' [_ Hs']%lookup_delete_Some. eapply pending_ok_later; [|by apply Hp]. lia.
    + apply Forall_app. split; [done|]. destruct (v_room _ _ _); constructor; [|constructor].
      eapply connect_event_ok; [|lia|done]. eapply pending_ok_later; [|by apply Hp]. lia.
  - rewrite H. split; [cbn; lia|]. apply (refines_later k); rewrite ?H; cbn; [done..|lia].
Qed.

Lemma fires_simulated p k k' a : refines k a -> fires p k k' -> simulated p k k' a.
Proof.
  intros Hr Hs. destruct Hs as [sk k | sk u k | ret k Hret | k k' Hm Hg Hn].
  - by apply simulate_retransmit.
  - by apply simulate_connect.
  - by apply simulate_connect_ret.
  - exists (v_now (view k)). split; [lia|]. by eapply refines_later.
Qed.

(** Nothing published and nothing pending. *)
Definition initial (k : K) : Prop := v_map (view k) = ∅ /\ v_ring (view k) = [].

Lemma initial_refines k : initial k -> refines k {| a_pending := ∅; a_events := [] |}.
Proof. intros [Hm Hr]. split; simpl; [by rewrite Hm, fmap_empty | done | apply map_Forall_empty | constructor]. Qed.

Lemma reachable_refines k0 k : initial k0 -> rtc probe_step k0 k -> exists a, refines k a.
Proof.
  intros Hi Hs. apply initial_refines in Hi. revert Hi. generalize {| a_pending := ∅; a_events := [] |}.
  induction Hs as [k | k0 k1 k Hs _ IH]; intros a Ha; [eauto|].
  destruct Hs as [p Hs]. destruct (fires_simulated _ _ _ _ Ha Hs) as (now & _ & Ha'). eauto.
Qed.

(** ** Interleavings seen by one thread *)

(** Steps that are not a connect or a connect return of thread [tid]. *)
Inductive other_step (tid : Z) : K -> K -> Prop :=
| other_retransmit sk k : other_step tid k (aegis_tcp_retransmit sk k).2
| other_connect sk uaddr k :
    v_tid (view k) <> tid -> other_step tid k (aegis_tcp_v4_connect sk uaddr k).2
| other_connect_ret ret k :
    v_tid (view k) <> tid -> is_s 32 ret -> other_step tid k (aegis_tcp_v4_connect_ret ret k).2
| other_kernel k k' :
    v_map (view k') = v_map (view k) -> v_ring (view k') = v_ring (view k) ->
    v_now (view k) <= v_now (view k') -> other_step tid k k'.

Lemma other_step_probe tid k k' : other_step tid k k' -> probe_step k k'.
Proof. intros []; eexists; by constructor. Qed.

(** Other threads leave a pending attempt alone and never un-publish. *)
Lemma other_step_pending tid k k' a :
  refines k a -> other_step tid k k' -> exists a', refines k' a' /\ a_pending a' !! tid = a_pending a !! tid.
Proof.
  intros Hr Hs. destruct Hs as [sk k | sk u k Hne | ret k Hne Hret | k k' Hm Hg Hn].
  - destruct (simulate_retransmit k a sk Hr) as (now & _ & Ha'). eexists. split; [exact Ha'|].
    cbn. by destruct (_ && _).
  - destruct (simulate_connect k a sk u Hr) as (now & _ & Ha'). eexists. split; [exact Ha'|].
    cbn. destruct (_ && _); [|done]. by apply lookup_insert_ne.
  - destruct (simulate_connect_ret k a ret Hret Hr) as (now & _ & Ha'). eexists. split; [exact Ha'|].
    cbn. destruct (a_pending a !! v_tid (view k)); [|done]. by apply lookup_delete_ne.
  - exists a. split; [by eapply refines_later | done].
Qed.

(** A recorded attempt is the pending attempt of its thread. *)
Lemma connect_recorded k a sk uaddr :
  refines k a -> v_map (view k) !! v_tid (view k) = None ->
  is_Some (v_map (view (aegis_tcp_v4_connect sk uaddr k).2) !! v_tid (view k)) ->
  exists t0 a1, v_now (view k) <= t0 /\ refines (aegis_tcp_v4_connect sk uaddr k).2 a1 /\
    a_pending a1 !! v_tid (view k) = Some (start_of target (view k) t0 sk uaddr).
Proof.
  intros Ha Hnone [bs Hsome]. destruct (simulate_connect k a sk uaddr Ha) as (now & Hnow & Ha1).
  exists now, (spec_next target (ConnectEntry sk uaddr) (view k) now a). split; [lia|]. split; [done|].
  rewrite (ref_map _ _ Ha1) in Hsome. cbn in *. destruct (_ && _); cbn in *; [by rewrite lookup_insert_eq|].
  rewrite <- (ref_map _ _ Ha) in Hsome. congruence.
Qed.

Lemma others_keep_pending tid k k' a :
  rtc (other_step tid) k k' -> refines k a ->
  exists a', refines k' a' /\ a_pending a' !! tid = a_pending a !! tid.
Proof.
  intros Hs. revert a. induction Hs as [k | k k1 k' Hs _ IH]; intros a Ha; [eauto|].
  destruct (other_step_pending _ _ _ _ Ha Hs) as (a1 & Ha1 & E). rewrite <- E. by apply IH.
Qed.

(** The return probe consumes the pending attempt and publishes it or not. *)
Lemma return_consumes k a s ret :
  refines k a -> a_pending a !! v_tid (view k) = Some s ->
  exists t1, v_now (view k) <= t1 < 2 ^ 64 /\
    let v := view (aegis_tcp_v4_connect_ret ret k).2 in
    v_map v = delete (v_tid (view k)) (v_map (view k)) /\
    (v_ring v = v_ring (view k) \/ v_ring v = v_ring (view k) ++ [encode_event (connect_event s t1 ret)]).
Proof.
  intros Ha Hp. destruct (ref_pending _ _ Ha _ _ Hp) as (Hwf & _ & _).
  assert (Hlk : v_map (view k) !! v_tid (view k) = Some (encode_start s)).
  { by rewrite (ref_map _ _ Ha), lookup_fmap, Hp. }
  destruct (wp_connect_ret ret k) as [_ (t1 & room & accepts & Ht1 & H)]; [intros bs Hbs; exists s; split; [done | congruence]|].
  rewrite Hlk in H. destruct H as (s' & Hs' & Henc & Hv).
  apply encode_start_inj in Henc; [subst s' | done | done].
  exists t1. split; [done|]. rewrite Hv. simpl. split; [done|].
  destruct (v_room _ _ _); [by right | left; apply app_nil_r].
Qed.

(** ** Where the entries of the map come from *)

(** Steps that leave the attempt of [tid] as it is: whatever is not a connect or a
    return of that thread, and a connect of it that is not recorded. *)
Inductive quiet_step (tid : Z) : K -> K -> Prop :=
| quiet_other k k' : other_step tid k k' -> quiet_step tid k k'
| quiet_refused sk uaddr k :
    v_tid (view k) = tid -> sk = 0 \/ uaddr = 0 \/ v_accepts (view k) connect_starts tid = false ->
    quiet_step tid k (aegis_tcp_v4_connect sk uaddr k).2.

(** The bytes [bs] of [tid] in [k] are those an entry probe of that thread recorded in
    a run from [k0], with nothing of that thread recorded or returned since. *)
Definition recorded_by (k0 k : K) (tid : Z) (bs : list Z) : Prop :=
  exists k1 sk uaddr t0, rtc probe_step k0 k1 /\ v_tid (view k1) = tid /\ sk <> 0 /\ uaddr <> 0 /\
    v_now (view k1) <= t0 <= v_now (view (aegis_tcp_v4_connect sk uaddr k1).2) /\
    bs = encode_start (start_of target (view k1) t0 sk uaddr) /\
    rtc (quiet_step tid) (aegis_tcp_v4_connect sk uaddr k1).2 k.

Lemma return_clears ret k : v_map (view (aegis_tcp_v4_connect_ret ret k).2) = delete (v_tid (view k)) (v_map (view k)).
Proof. pose proof (connect_return_always_clears k ret) as H. destruct (aegis_tcp_v4_connect_ret ret k). apply H. Qed.

Lemma recorded_quiet k0 k k' tid bs : recorded_by k0 k tid bs -> quiet_step tid k k' -> recorded_by k0 k' tid bs.
Proof.
  intros (k1 & sk & uaddr & t0 & H1 & H2 & H3 & H4 & H5 & H6 & H7) Hq. exists k1, sk, uaddr, t0.
  repeat (split; [done|]). by eapply rtc_r.
Qed.

Lemma recorded_connect k0 k sk uaddr :
  rtc probe_step k0 k -> map_Forall (recorded_by k0 k) (v_map (view k)) ->
  map_Forall (recorded_by k0 (aegis_tcp_v4_connect sk uaddr k).2) (v_map (view (aegis_tcp_v4_connect sk uaddr k).2)).
Proof.
  intros Hrun Hall. destruct (wp_connect Hc sk uaddr k) as [_ H].
  assert (Hkeep : forall tid bs, v_map (view k) !! tid = Some bs ->
    v_tid (view k) <> tid \/ sk = 0 \/ uaddr = 0 \/ v_accepts (view k) connect_starts (v_tid (view k)) = false ->
    recorded_by k0 (aegis_tcp_v4_connect sk uaddr k).2 tid bs).
  { intros tid bs Hbs Hor. eapply recorded_quiet; [by apply Hall|]. destruct (decide (v_tid (view k) = tid)) as [<-|Hne].
    - apply quiet_refused; [done|]. by destruct Hor.
    - by apply quiet_other, other_connect. }
  destruct (Z.eqb_spec sk 0), (Z.eqb_spec uaddr 0); cbn [orb] in H;
    [rewrite H; intros tid bs Hbs; apply Hkeep; auto..|].
  destruct H as (now & accepts & Hnow & Hv). destruct (v_accepts _ _ _) eqn:Ea; rewrite Hv; intros tid bs Hbs; [|by apply Hkeep; auto].
  cbn in Hbs. apply lookup_insert_Some in Hbs as [[<- <-]|[Hne Hbs]]; [|by apply Hkeep; auto].
  exists k, sk, uaddr, now. repeat (split; [done|]). rewrite Hv. split; [cbn; lia|]. split; [done|]. apply rtc_refl.
Qed.

Lemma recorded_step k0 k k' :
  rtc probe_step k0 k -> map_Forall (recorded_by k0 k) (v_map (view k)) -> probe_step k k' ->
  map_Forall (recorded_by k0 k') (v_map (view k')).
Proof.
  intros Hrun Hall [p Hs]. destruct Hs as [sk k | sk u k | ret k Hret | k k' Hm Hg Hn].
  - intros tid bs Hbs. eapply recorded_quiet; [apply Hall|apply quiet_other, other_retransmit].
    destruct (wp_retransmit Hc sk k) as [_ H]. destruct (_ || _); [destruct H as [room Hv]|destruct H as (now & room & _ & Hv)];
      by rewrite Hv in Hbs.
  - by apply recorded_connect.
  - intros tid bs Hbs. pose proof (return_clears ret k) as E. rewrite E in Hbs. apply lookup_delete_Some in Hbs as [Hne Hbs].
    eapply recorded_quiet; [by apply Hall|by apply quiet_other, other_connect_ret].
  - intros tid bs Hbs. rewrite Hm in Hbs. eapply recorded_quiet; [by apply Hall|by apply quiet_other, other_kernel].
Qed.

Lemma reachable_recorded k0 k : initial k0 -> rtc probe_step k0 k -> map_Forall (recorded_by k0 k) (v_map (view k)).
Proof.
  intros [Hi _]. revert k. apply rtc_ind_r; [rewrite Hi; apply map_Forall_empty|].
  intros k k' Hs Hst IH. by eapply recorded_step.
Qed.
End System.

(** ** Properties *)

(** C1.  The handlers implement the abstract system: from a kernel state that
    represents an abstract state, every probe firing, on any thread, and every
    other kernel activity, leads to a state that represents exactly what the
    specification makes of it: a retransmission is published if and only if there is
    a socket and room in the ring buffer, an attempt is recorded if and only if there
    is an address and the map takes it, and a return always ends the attempt of its
    thread, publishing it if and only if there is room, with the clock read during
    the step.  A freshly loaded program represents the empty state. *)
Theorem probes_refine_spec {K} `{!BpfRuntime K} {target} `{!BpfLaws K target} (k k' : K) p a :
  compatible target ->
  (initial k -> refines k {| a_pending := ∅; a_events := [] |}) /\
  (refines k a -> fires p k k' ->
   exists now, v_now (view k) <= now <= v_now (view k') /\ refines k' (spec_next target p (view k) now a)).
Proof.
  intros Hc. split; [apply initial_refines|]. intros Hr Hs. by apply (fires_simulated Hc).
Qed.

(** C2.  Each connect is measured against its own start: when a thread enters
    [tcp_v4_connect] and the attempt is recorded, then whatever retransmissions
    and connects of other threads happen in between, the event its return
    publishes carries the addresses of that attempt, its result, and as latency
    exactly the time between the two probes; the attempt is gone afterwards. *)
Theorem connect_pairing {K} `{!BpfRuntime K} {target} `{!BpfLaws K target} (k0 k k2 : K) sk uaddr ret :
  compatible target -> initial k0 -> rtc probe_step k0 k ->
  v_map (view k) !! v_tid (view k) = None ->
  let k1 := (aegis_tcp_v4_connect sk uaddr k).2 in
  is_Some (v_map (view k1) !! v_tid (view k)) ->
  rtc (other_step (v_tid (view k))) k1 k2 -> v_tid (view k2) = v_tid (view k) -> is_s 32 ret ->
  let k3 := (aegis_tcp_v4_connect_ret ret k2).2 in
  exists t0 t1, v_now (view k) <= t0 <= t1 /\
    let e := connect_event (start_of target (view k) t0 sk uaddr) t1 ret in
    ev_connect_latency_ns e = t1 - t0 /\
    v_map (view k3) = delete (v_tid (view k)) (v_map (view k2)) /\
    (v_ring (view k3) = v_ring (view k2) \/ v_ring (view k3) = v_ring (view k2) ++ [encode_event e]).
Proof.
  intros Hc Hi Hreach Hnone k1 Hsome Hother Htid Hret k3.
  destruct (reachable_refines Hc _ _ Hi Hreach) as [a Ha].
  destruct (connect_recorded Hc k a sk uaddr Ha Hnone Hsome) as (t0 & a1 & Ht0 & Ha1 & Hp1).
  destruct (others_keep_pending Hc _ _ _ _ Hother Ha1) as (a2 & Ha2 & E). rewrite Hp1, <- Htid in E.
  destruct (ref_pending _ _ Ha2 _ _ E) as (_ & _ & Hle). simpl in Hle.
  destruct (return_consumes k2 a2 _ ret Ha2 E) as (t1 & Ht1 & Hm & Hring). rewrite Htid in Hm.
  exists t0, t1. split; [lia|]. split; [|by split].
  simpl. apply wrapu_small. pose proof (law_now k). unfold is_u. lia.
Qed.

(** C3.  At every point of every interleaving the records published so far are
    64-byte images of well-formed events whose latency does not exceed their
    timestamp (no wrap-around), and every map entry is the 48-byte image of a
    well-formed attempt, not from the future, that the very thread that is its key
    began: the entry probe of that thread recorded it, and since then that thread has
    had no return and no other attempt recorded. *)
Theorem published_stream_invariant {K} `{!BpfRuntime K} {target} `{!BpfLaws K target} (k0 k : K) :
  compatible target -> initial k0 -> rtc probe_step k0 k ->
  Forall (fun r => exists e, r = encode_event e /\ event_ok e /\ length r = 64%nat) (v_ring (view k)) /\
  map_Forall (fun tid r => length r = 48%nat /\ recorded_by k0 k tid r /\
                exists s, r = encode_start s /\ pending_ok (v_now (view k)) tid s)
    (v_map (view k)).
Proof.
  intros Hc Hi Hs. destruct (reachable_refines Hc _ _ Hi Hs) as [a [Hm Hr Hp He]]. split.
  - rewrite Hr. apply Forall_fmap. eapply Forall_impl; [exact He|]. intros e Hok. exists e.
    split; [done|]. split; [done|]. apply length_encode_event, Hok.
  - intros tid r Hlk. pose proof (reachable_recorded Hc _ _ Hi Hs tid r Hlk) as Hrec.
    rewrite Hm, lookup_fmap in Hlk. apply fmap_Some in Hlk as (s & Hs' & ->).
    pose proof (Hp _ _ Hs') as Hok. split; [apply length_encode_start, Hok|]. split; [done|]. by exists s.
Qed.
