(* ===== verification/GoStd.v ===== *)
(** * What the agent uses of the Go standard library

    Strings are sequences of bytes ([list ascii]; [string] at the boundary),
    [int] is 64 bits wide, [time.Time] is the number of nanoseconds since the
    Unix epoch.  The functions follow the library's algorithms branch by branch;
    error values are reduced to the fact of failure. *)
From Stdlib Require Import Ascii String.
From S2P Require Import Prelude.

Abbreviation chars := (list ascii).

Definition to_chars (s : string) : chars := list_ascii_of_string s.
Definition of_chars (cs : chars) : string := string_of_list_ascii cs.

Lemma to_of_chars cs : to_chars (of_chars cs) = cs.
Proof. apply list_ascii_of_string_of_list_ascii. Qed.

Lemma of_to_chars s : of_chars (to_chars s) = s.
Proof. apply string_of_list_ascii_of_string. Qed.

Definition byte_of (c : ascii) : Z := Z.of_N (N_of_ascii c).

(** ** Searching *)

(** [bytealg.IndexByteString] and [LastIndexByteString]; [None] is [-1]. *)
Fixpoint index_byte (c : ascii) (s : chars) : option nat :=
  match s with
  | [] => None
  | x :: s' => if Ascii.eqb x c then Some 0%nat else S <$> index_byte c s'
  end.

Fixpoint last_index_byte (c : ascii) (s : chars) : option nat :=
  match s with
  | [] => None
  | x :: s' =>
      match last_index_byte c s' with
      | Some i => Some (S i)
      | None => if Ascii.eqb x c then Some 0%nat else None
      end
  end.

Definition contains_byte (c : ascii) (s : chars) : bool :=
  match index_byte c s with Some _ => true | None => false end.

(** ** Trimming *)

(** Whether bytes are the UTF-8 encoding of a whitespace character ([unicode.IsSpace]). *)
Definition is_space (bs : list Z) : bool :=
  match bs with
  | [a] => (9 <=? a) && (a <=? 13) || (a =? 32)
  | [a; b] => (a =? 194) && ((b =? 133) || (b =? 160))
  | [a; b; c] =>
      (a =? 225) && (b =? 154) && (c =? 128) || (a =? 227) && (b =? 128) && (c =? 128)
      || (a =? 226) && (b =? 129) && (c =? 159)
      || (a =? 226) && (b =? 128)
         && ((128 <=? c) && (c <=? 138) || (c =? 168) || (c =? 169) || (c =? 175))
  | _ => false
  end.

(** The length of the whitespace character at the front of the bytes, 0 if there
    is none; and at the end of bytes given in reverse. *)
Definition space_len (s : list Z) : nat :=
  default 0%nat (list_find (fun n => is_space (take n s) = true) [1; 2; 3]%nat ≫= fun p => Some p.2).

Definition space_len_rev (s : list Z) : nat :=
  default 0%nat (list_find (fun n => is_space (reverse (take n s)) = true) [1; 2; 3]%nat ≫= fun p => Some p.2).

(** Drop what [len] finds at the front while it finds something; [fuel] is the
    length of the text. *)
Fixpoint trim_with (len : list Z -> nat) (fuel : nat) (s : chars) : chars :=
  match fuel with
  | O => s
  | S fuel' => match len (byte_of <$> s) with O => s | n => trim_with len fuel' (drop n s) end
  end.

(** [strings.TrimSpace] *)
Definition TrimSpace (s : string) : string :=
  let left := trim_with space_len (String.length s) (to_chars s) in
  of_chars (reverse (trim_with space_len_rev (length left) (reverse left))).

(** ** Decimal numbers *)

Definition digit (d : Z) : ascii := ascii_of_N (Z.to_N (48 + d)).

Definition digit_val (c : ascii) : option Z :=
  if (48 <=? byte_of c) && (byte_of c <=? 57) then Some (byte_of c - 48) else None.

(** [strconv.Itoa] of a non-negative int: at most 20 digits. *)
Fixpoint itoa_fuel (fuel : nat) (n : Z) : chars :=
  match fuel with
  | O => []
  | S fuel' => (if n <? 10 then [] else itoa_fuel fuel' (n / 10)) ++ [digit (n `mod` 10)]
  end.

Definition Itoa (n : Z) : chars := itoa_fuel 20 n.

Definition int_max : Z := 2 ^ 63 - 1.
Definition int_min : Z := - 2 ^ 63.

Fixpoint digits_val (acc : Z) (s : chars) : option Z :=
  match s with
  | [] => Some acc
  | c :: s' => d ← digit_val c; digits_val (acc * 10 + d) s'
  end.

(** [strconv.Atoi]: optional sign, at least one digit, in the range of [int]. *)
Definition Atoi (s : chars) : option Z :=
  let '(neg, ds) :=
    match s with
    | c :: s' => if Ascii.eqb c "-" then (true, s') else if Ascii.eqb c "+" then (false, s') else (false, s)
    | [] => (false, s)
    end in
  match ds with
  | [] => None
  | _ =>
      v ← digits_val 0 ds;
      let n := if neg then - v else v in
      if (int_min <=? n) && (n <=? int_max) then Some n else None
  end.

(** ** Host and port *)

(** [net.SplitHostPort]. *)
Definition SplitHostPort (hostport : chars) : option (chars * chars) :=
  match last_index_byte ":" hostport with
  | None => None
  | Some i =>
      let port := drop (S i) hostport in
      match hostport with
      | "["%char :: _ =>
          match index_byte "]" hostport with
          | None => None
          | Some e =>
              if bool_decide (S e = i) then
                if contains_byte "[" (drop 1 hostport) || contains_byte "]" (drop (S e) hostport) then None
                else Some (take (e - 1) (drop 1 hostport), port)
              else None
          end
      | _ =>
          let host := take i hostport in
          if contains_byte ":" host || contains_byte "[" hostport || contains_byte "]" hostport then None
          else Some (host, port)
      end
  end.

(** [net.JoinHostPort]. *)
Definition JoinHostPort (host port : chars) : chars :=
  if contains_byte ":" host then ["["%char] ++ host ++ ["]"; ":"]%char ++ port
  else host ++ [":"%char] ++ port.

(** ** IP addresses *)

(** [netip.parseIPv4Fields]: [val], [digLen] describe the current octet and
    [done] the finished ones. *)
Fixpoint parseIPv4_loop (first : bool) (val : Z) (digLen : nat) (fin : list Z) (s : chars) : option (list Z) :=
  match s with
  | [] => if bool_decide (length fin < 3)%nat then None else Some (fin ++ [val])
  | c :: s' =>
      match digit_val c with
      | Some d =>
          if bool_decide (digLen = 1%nat) && (val =? 0) then None
          else
            let val' := val * 10 + d in
            if 255 <? val' then None else parseIPv4_loop false val' (S digLen) fin s'
      | None =>
          if Ascii.eqb c "." then
            if first || bool_decide (s' = []) || bool_decide (digLen = 0%nat) then None
            else if bool_decide (length fin = 3%nat) then None
            else parseIPv4_loop false 0 0 (fin ++ [val]) s'
          else None
      end
  end.

Definition parseIPv4Fields (s : chars) : option (list Z) := parseIPv4_loop true 0 0 [] s.

Definition hex_val (c : ascii) : option Z :=
  let b := byte_of c in
  if (48 <=? b) && (b <=? 57) then Some (b - 48)
  else if (97 <=? b) && (b <=? 102) then Some (b - 97 + 10)
  else if (65 <=? b) && (b <=? 70) then Some (b - 65 + 10)
  else None.

(** A group of at most four hexadecimal digits and what follows it; [None] when
    a fifth digit follows. *)
Fixpoint hex_group (fuel : nat) (acc : Z) (s : chars) : option (Z * chars) :=
  match s with
  | c :: s' =>
      match hex_val c with
      | Some d => match fuel with O => None | S fuel' => hex_group fuel' (acc * 16 + d) s' end
      | None => Some (acc, s)
      end
  | [] => Some (acc, s)
  end.

(** The loop of [netip.parseIPv6]: [ip] holds the bytes parsed so far (two per
    iteration, so eight iterations exhaust the sixteen bytes) and [ellipsis]
    the position of "::". *)
Fixpoint parseIPv6_loop (fuel : nat) (ip : list Z) (ellipsis : option nat) (s : chars)
    : option (list Z * option nat * chars) :=
  match fuel with
  | O => Some (ip, ellipsis, s)
  | S fuel' =>
      '(acc, rest) ← hex_group 4 0 s;
      if bool_decide (length rest = length s) then None
      else
        match rest with
        | "."%char :: _ =>
            if bool_decide (ellipsis = None) && negb (bool_decide (length ip = 12%nat)) then None
            else if bool_decide (16 < length ip + 4)%nat then None
            else v4 ← parseIPv4Fields s; Some (ip ++ v4, ellipsis, [])
        | [] => Some (ip ++ [acc / 256; acc `mod` 256], ellipsis, [])
        | ":"%char :: [] => None
        | ":"%char :: ":"%char :: rest' =>
            let ip' := ip ++ [acc / 256; acc `mod` 256] in
            match ellipsis with
            | Some _ => None
            | None =>
                match rest' with
                | [] => Some (ip', Some (length ip'), [])
                | _ => parseIPv6_loop fuel' ip' (Some (length ip')) rest'
                end
            end
        | ":"%char :: rest' => parseIPv6_loop fuel' (ip ++ [acc / 256; acc `mod` 256]) ellipsis rest'
        | _ => None
        end
  end.

(** The address bytes and whether there is a zone. *)
Definition parseIPv6 (s : chars) : option (list Z * bool) :=
  let '(body, zone) :=
    match index_byte "%" s with Some i => (take i s, Some (drop (S i) s)) | None => (s, None) end in
  if bool_decide (zone = Some []) then None
  else
    let has_zone := bool_decide (zone <> None) in
    let '(ellipsis, rest) :=
      match body with ":"%char :: ":"%char :: r => (Some 0%nat, r) | _ => (None, body) end in
    if bool_decide (ellipsis = Some 0%nat) && bool_decide (rest = []) then Some (replicate 16 0, has_zone)
    else
      '(ip, ell, rest') ← parseIPv6_loop 8 [] ellipsis rest;
      if negb (bool_decide (rest' = [])) then None
      else if bool_decide (length ip < 16)%nat then
        match ell with
        | None => None
        | Some e => Some (take e ip ++ replicate (16 - length ip) 0 ++ drop e ip, has_zone)
        end
      else match ell with Some _ => None | None => Some (ip, has_zone) end.

(** The first of '.', ':' and '%' selects the syntax ([netip.ParseAddr]). *)
Fixpoint addr_syntax (s : chars) : option ascii :=
  match s with
  | [] => None
  | c :: s' =>
      if Ascii.eqb c "." || Ascii.eqb c ":" || Ascii.eqb c "%" then Some c else addr_syntax s'
  end.

(** [net.ParseIP]: sixteen bytes; IPv4 addresses in their mapped form. *)
Definition ParseIP (s : chars) : option (list Z) :=
  match addr_syntax s with
  | Some "."%char => (fun v4 => replicate 10 0 ++ [255; 255] ++ v4) <$> parseIPv4Fields s
  | Some ":"%char =>
      '(ip, has_zone) ← parseIPv6 s; if (has_zone : bool) then None else Some ip
  | _ => None
  end.

(** [IP.To4]. *)
Definition To4 (ip : list Z) : option (list Z) :=
  if bool_decide (take 12 ip = replicate 10 0 ++ [255; 255]) then Some (drop 12 ip) else None.

(** [net.IPv4(a, b, c, d).String()]. *)
Definition IPv4_String (a b c d : Z) : chars :=
  Itoa a ++ ["."%char] ++ Itoa b ++ ["."%char] ++ Itoa c ++ ["."%char] ++ Itoa d.

(** ** Time *)

(** [time.Time{}], the first instant of year 1. *)
Definition zero_time : Z := - 62135596800 * 1000000000.

Definition IsZero (t : Z) : bool := t =? zero_time.

(** [time.Unix(sec, nsec)] and [Time.UnixMilli]. *)
Definition time_Unix (sec nsec : Z) : Z := sec * 1000000000 + nsec.
Definition UnixMilli (t : Z) : Z := t / 1000000.

(** [Time.Sub] saturates at the bounds of [Duration]. *)
Definition time_Sub (t u : Z) : Z := Z.max (- 2 ^ 63) (Z.min (2 ^ 63 - 1) (t - u)).

(** ** Decimal formatting and parsing are inverse *)

Definition is_digit (c : ascii) : Prop := 48 <= byte_of c <= 57.

Lemma digit_byte d : 0 <= d < 10 -> byte_of (digit d) = 48 + d.
Proof.
  intros Hd. unfold byte_of, digit. rewrite N_ascii_embedding by lia. lia.
Qed.

Lemma digit_is_digit d : 0 <= d < 10 -> is_digit (digit d).
Proof. intros Hd. unfold is_digit. rewrite digit_byte; lia. Qed.

Lemma digit_val_digit d : 0 <= d < 10 -> digit_val (digit d) = Some d.
Proof.
  intros Hd. unfold digit_val. rewrite digit_byte by done.
  rewrite (proj2 (andb_true_iff _ _)); [f_equal; lia | split; apply Z.leb_le; lia].
Qed.

Lemma digits_val_app acc s t : digits_val acc (s ++ t) = digits_val acc s ≫= fun v => digits_val v t.
Proof.
  revert acc. induction s as [|c s IH]; intros acc; simpl; [done|]. destruct (digit_val c); simpl; auto.
Qed.

Lemma div10_bounds n f : 10 <= n < 10 ^ Z.of_nat (S f) -> 1 <= n / 10 < 10 ^ Z.of_nat f.
Proof.
  intros Hn. rewrite Nat2Z.inj_succ, Z.pow_succ_r in Hn by lia.
  split; [apply Z.div_le_lower_bound | apply Z.div_lt_upper_bound]; lia.
Qed.

Lemma itoa_fuel_digits f n : 0 <= n -> Forall is_digit (itoa_fuel f n).
Proof.
  revert n. induction f as [|f IH]; intros n Hn; simpl; [constructor|].
  apply Forall_app. split.
  - case_test; [constructor|]. apply IH. apply Z.div_pos; lia.
  - constructor; [|constructor]. apply digit_is_digit. apply Z.mod_pos_bound. lia.
Qed.

Lemma itoa_fuel_val f n : 0 <= n < 10 ^ Z.of_nat f -> digits_val 0 (itoa_fuel f n) = Some n.
Proof.
  revert n. induction f as [|f IH]; intros n Hn; cbn [itoa_fuel].
  - simpl in *. f_equal. lia.
  - pose proof (Z.mod_pos_bound n 10 ltac:(lia)). rewrite digits_val_app.
    destruct (Z.ltb_spec n 10).
    + cbn [digits_val mbind option_bind]. rewrite digit_val_digit by done. simpl. rewrite Z.mod_small; [done|lia].
    + rewrite IH by (pose proof (div10_bounds n f); lia). cbn [digits_val mbind option_bind].
      rewrite digit_val_digit by done. simpl. f_equal. pose proof (Z.div_mod n 10). lia.
Qed.

Lemma Itoa_digits n : 0 <= n -> Forall is_digit (Itoa n).
Proof. apply itoa_fuel_digits. Qed.

Lemma Itoa_nonempty n : Itoa n <> [].
Proof. unfold Itoa. cbn [itoa_fuel]. by destruct (if n <? 10 then [] else _). Qed.

Lemma digit_eqb c x : is_digit c -> (byte_of x < 48 \/ 57 < byte_of x) -> Ascii.eqb c x = false.
Proof. intros Hc Hx. apply Ascii.eqb_neq. intros ->. unfold is_digit in Hc. lia. Qed.

Lemma Itoa_cons n : 0 <= n -> exists c s, Itoa n = c :: s /\ is_digit c.
Proof.
  intros Hn. pose proof (Itoa_nonempty n). pose proof (Itoa_digits n Hn) as Hd.
  destruct (Itoa n) as [|c s]; [done|]. apply Forall_cons in Hd as [? _]. eauto.
Qed.

Lemma Atoi_Itoa n : 0 <= n < 2 ^ 63 -> Atoi (Itoa n) = Some n.
Proof.
  intros Hn. assert (Hv : digits_val 0 (Itoa n) = Some n) by (apply itoa_fuel_val; lia).
  destruct (Itoa_cons n) as (c & s & E & Hc); [lia|]. unfold Atoi. rewrite E in *.
  rewrite !digit_eqb by (done || (vm_compute; intuition congruence)).
  rewrite Hv. cbn [mbind option_bind]. rewrite (proj2 (andb_true_iff _ _)); [done|].
  unfold int_min, int_max. split; apply Z.leb_le; lia.
Qed.

(** ** Dotted quads *)

Lemma parseIPv4_octet f first n fin rest :
  0 <= n < 10 ^ Z.of_nat f -> n <= 255 -> f <> O ->
  parseIPv4_loop first 0 0 fin (itoa_fuel f n ++ rest) =
  parseIPv4_loop false n (length (itoa_fuel f n)) fin rest.
Proof.
  revert n rest. induction f as [|f IH]; intros n rest Hn H255 Hf; [done|].
  pose proof (Z.mod_pos_bound n 10 ltac:(lia)). cbn [itoa_fuel]. destruct (Z.ltb_spec n 10).
  - cbn [app length parseIPv4_loop]. rewrite digit_val_digit by done. rewrite Z.mod_small by lia.
    rewrite bool_decide_eq_false_2 by done. cbn [andb]. rewrite Z.mul_0_l, Z.add_0_l.
    by destruct (Z.ltb_spec 255 n); [lia|].
  - pose proof (div10_bounds n f ltac:(lia)). pose proof (Z.div_le_upper_bound n 10 n).
    rewrite <- app_assoc, IH; [|lia|lia|intros ->; simpl in *; lia].
    cbn [app length parseIPv4_loop]. rewrite digit_val_digit by done.
    destruct (Z.eqb_spec (n / 10) 0); [lia|]. rewrite andb_false_r.
    replace (n / 10 * 10 + n `mod` 10) with n by (pose proof (Z.div_mod n 10); lia).
    destruct (Z.ltb_spec 255 n); [lia|]. rewrite length_app. simpl. f_equal. lia.
Qed.

Definition is_octet (n : Z) : Prop := 0 <= n <= 255.

Lemma parseIPv4_Itoa first n fin rest :
  is_octet n -> parseIPv4_loop first 0 0 fin (Itoa n ++ rest) = parseIPv4_loop false n (length (Itoa n)) fin rest.
Proof. intros []. apply parseIPv4_octet; lia. Qed.

Lemma parseIPv4_dot n m fin rest :
  rest <> [] -> m <> O -> (length fin < 3)%nat ->
  parseIPv4_loop false n m fin ("."%char :: rest) = parseIPv4_loop false 0 0 (fin ++ [n]) rest.
Proof.
  intros Hr Hm Hf. cbn [parseIPv4_loop]. change (digit_val ".") with (@None Z).
  change (Ascii.eqb "." ".") with true. cbn match.
  rewrite (bool_decide_eq_false_2 (rest = [])), (bool_decide_eq_false_2 (m = 0%nat)) by done.
  rewrite bool_decide_eq_false_2 by lia. done.
Qed.

Lemma parseIPv4_String a b c d :
  is_octet a -> is_octet b -> is_octet c -> is_octet d ->
  parseIPv4Fields (IPv4_String a b c d) = Some [a; b; c; d].
Proof.
  intros Ha Hb Hc Hd. unfold parseIPv4Fields, IPv4_String.
  assert (Hlen : forall n, length (Itoa n) <> O).
  { intros n. pose proof (Itoa_nonempty n). by destruct (Itoa n). }
  assert (Happ : forall n (s : chars), Itoa n ++ s <> []).
  { intros n s. pose proof (Itoa_nonempty n). by destruct (Itoa n). }
  do 3 (rewrite parseIPv4_Itoa by done; cbn [app];
        rewrite parseIPv4_dot by (apply Itoa_nonempty || apply Happ || apply Hlen || simpl; lia)).
  rewrite <- (app_nil_r (Itoa d)), parseIPv4_Itoa by done. done.
Qed.

Lemma addr_syntax_digits s t : Forall is_digit s -> addr_syntax (s ++ t) = addr_syntax t.
Proof.
  induction 1 as [|c s Hc _ IH]; simpl; [done|].
  by rewrite !digit_eqb by (done || (vm_compute; intuition congruence)).
Qed.

Lemma ParseIP_String a b c d :
  is_octet a -> is_octet b -> is_octet c -> is_octet d ->
  ParseIP (IPv4_String a b c d) = Some (replicate 10 0 ++ [255; 255; a; b; c; d]).
Proof.
  intros Ha Hb Hc Hd. unfold ParseIP. unfold IPv4_String at 1.
  rewrite addr_syntax_digits by (apply Itoa_digits; apply Ha). cbn [app addr_syntax].
  change (Ascii.eqb "." ".") with true. cbn [orb]. by rewrite parseIPv4_String.
Qed.

(** ** Joining and splitting host and port *)

Lemma index_byte_app_none c s t : index_byte c s = None -> index_byte c (s ++ t) = (fun i => length s + i)%nat <$> index_byte c t.
Proof.
  induction s as [|x s IH]; simpl; [intros _; by destruct (index_byte c t)|].
  destruct (Ascii.eqb x c); [done|]. intros H%fmap_None. rewrite IH by done. by destruct (index_byte c t).
Qed.

Lemma index_byte_none c s : Forall (fun x => Ascii.eqb x c = false) s -> index_byte c s = None.
Proof. induction 1 as [|x s Hx _ IH]; simpl; [done|]. by rewrite Hx, IH. Qed.

Lemma last_index_byte_none c s : Forall (fun x => Ascii.eqb x c = false) s -> last_index_byte c s = None.
Proof. induction 1 as [|x s Hx _ IH]; simpl; [done|]. by rewrite IH, Hx. Qed.

Lemma last_index_byte_app c s t :
  Forall (fun x => Ascii.eqb x c = false) t -> last_index_byte c (s ++ c :: t) = Some (length s).
Proof.
  intros Ht. induction s as [|x s IH]; simpl; [|by rewrite IH].
  by rewrite last_index_byte_none, Ascii.eqb_refl.
Qed.

(** Characters of a dotted quad or of a port: neither colon nor bracket. *)
Definition plain (c : ascii) : Prop :=
  Ascii.eqb c ":" = false /\ Ascii.eqb c "[" = false /\ Ascii.eqb c "]" = false.

Lemma digit_plain c : is_digit c -> plain c.
Proof. intros Hc. repeat split; apply digit_eqb; try done; vm_compute; intuition congruence. Qed.

Lemma Itoa_plain n : 0 <= n -> Forall plain (Itoa n).
Proof. intros Hn. eapply Forall_impl; [by apply Itoa_digits | apply digit_plain]. Qed.

Lemma IPv4_String_plain a b c d :
  is_octet a -> is_octet b -> is_octet c -> is_octet d -> Forall plain (IPv4_String a b c d).
Proof.
  intros [] [] [] []. unfold IPv4_String.
  assert (Forall plain ["."%char]) by (constructor; [done | constructor]).
  rewrite !Forall_app. repeat split; try done; apply Itoa_plain; lia.
Qed.

Lemma plain_no_byte c s :
  c ∈ [":"; "["; "]"]%char -> Forall plain s -> Forall (fun x => Ascii.eqb x c = false) s.
Proof.
  intros Hc Hs. eapply Forall_impl; [exact Hs|]. intros x (? & ? & ?). set_unfold in Hc.
  destruct Hc as [-> | [-> | [-> | []]]]; done.
Qed.

Lemma contains_plain c s : c ∈ [":"; "["; "]"]%char -> Forall plain s -> contains_byte c s = false.
Proof.
  intros Hc Hs. unfold contains_byte. by rewrite index_byte_none by eauto using plain_no_byte.
Qed.

Lemma contains_plain_port c h p :
  c ∈ ["["; "]"]%char -> Forall plain h -> Forall plain p -> contains_byte c (h ++ ":"%char :: p) = false.
Proof.
  intros Hc Hh Hp. assert (c ∈ [":"; "["; "]"]%char) by (apply elem_of_cons; auto).
  unfold contains_byte. rewrite index_byte_app_none by (apply index_byte_none; eauto using plain_no_byte).
  cbn [index_byte]. rewrite (index_byte_none c p) by eauto using plain_no_byte.
  set_unfold in Hc. destruct Hc as [-> | [-> | []]]; done.
Qed.

Lemma drop_S_cons_app (s t : chars) c : drop (S (length s)) (s ++ c :: t) = t.
Proof. induction s; simpl; auto. Qed.

Lemma SplitHostPort_JoinHostPort h p :
  Forall plain h -> h <> [] -> Forall plain p -> SplitHostPort (JoinHostPort h p) = Some (h, p).
Proof.
  intros Hh Hne Hp. unfold JoinHostPort. rewrite contains_plain; [|set_solver|done]. cbn [app].
  unfold SplitHostPort. rewrite last_index_byte_app by (apply plain_no_byte; [set_solver|done]).
  destruct h as [|x h]; [done|]. pose proof Hh as [Hx _]%Forall_cons.
  assert (x <> "["%char) as Hnb by (intros ->; by destruct Hx as (_ & ? & _)).
  set (s := (x :: h) ++ ":"%char :: p).
  assert (E : (if contains_byte ":" (take (length (x :: h)) s) || contains_byte "[" s || contains_byte "]" s
               then None else Some (take (length (x :: h)) s, drop (S (length (x :: h))) s)) = Some (x :: h, p)).
  { unfold s. rewrite take_app_length, contains_plain, !contains_plain_port by (done || set_solver).
    cbn [orb]. by rewrite drop_S_cons_app. }
  rewrite <- E. unfold s. cbn [app].
  destruct x as [[] [] [] [] [] [] [] []]; try reflexivity. done.
Qed.

(** ** Parsed addresses consist of octets *)

Lemma digit_val_range c d : digit_val c = Some d -> 0 <= d < 10.
Proof. unfold digit_val. case_test; [|done]. intros [= <-]. bool_facts. lia. Qed.

Lemma hex_val_range c d : hex_val c = Some d -> 0 <= d < 16.
Proof. unfold hex_val. repeat case_test; intros [= <-]; bool_facts; lia. Qed.

Lemma parseIPv4_loop_octets first val n fin s ip :
  is_octet val -> Forall is_octet fin -> parseIPv4_loop first val n fin s = Some ip ->
  Forall is_octet ip /\ length ip = 4%nat \/ (3 < length fin)%nat.
Proof.
  revert first val n fin. induction s as [|c s IH]; intros first val n fin Hv Hf; cbn [parseIPv4_loop].
  - case_bool_decide; [done|]. intros [= <-]. destruct (decide (length fin = 3%nat)) as [E|]; [left | right; lia].
    rewrite Forall_app, length_app, E. auto.
  - destruct (digit_val c) as [d|] eqn:Hd.
    + apply digit_val_range in Hd. case_test; [done|]. destruct (Z.ltb_spec 255 (val * 10 + d)); [done|].
      apply IH; [|done]. unfold is_octet in *. lia.
    + case_test; [|done]. case_test; [done|]. destruct (bool_decide (length fin = 3%nat)) eqn:H3; [done|].
      apply bool_decide_eq_false in H3.
      intros Hl. destruct (IH false 0 O (fin ++ [val])) as [H | H]; [by split | | done | by left |].
      * apply Forall_app. auto.
      * rewrite length_app in H. simpl in H. right. lia.
Qed.

Lemma parseIPv4Fields_octets s ip : parseIPv4Fields s = Some ip -> Forall is_octet ip /\ length ip = 4%nat.
Proof. intros [H | H]%parseIPv4_loop_octets; [done | simpl in H; lia | done | constructor]. Qed.

Lemma hex_group_range fuel acc s v rest :
  0 <= acc -> hex_group fuel acc s = Some (v, rest) -> 0 <= v < (acc + 1) * 16 ^ Z.of_nat fuel.
Proof.
  revert acc s. induction fuel as [|fuel IH]; intros acc s Ha.
  - destruct s as [|c s]; simpl; [intros [= <- <-]; lia|]. destruct (hex_val c); [done|]. intros [= <- <-]. lia.
  - rewrite Nat2Z.inj_succ, Z.pow_succ_r by lia. assert (0 < 16 ^ Z.of_nat fuel) by lia.
    destruct s as [|c s]; cbn [hex_group]; [intros [= <- <-]; nia|].
    destruct (hex_val c) as [d|] eqn:Hd; [|intros [= <- <-]; nia].
    apply hex_val_range in Hd. intros Hg%IH; [|lia]. nia.
Qed.

Lemma group_octets acc : 0 <= acc < 65536 -> is_octet (acc / 256) /\ is_octet (acc `mod` 256).
Proof.
  intros H. pose proof (Z.mod_pos_bound acc 256). pose proof (Z.div_mod acc 256). unfold is_octet. lia.
Qed.

Lemma parseIPv6_loop_octets fuel ip ell s ip' ell' rest :
  Forall is_octet ip -> parseIPv6_loop fuel ip ell s = Some (ip', ell', rest) -> Forall is_octet ip'.
Proof.
  revert ip ell s. induction fuel as [|fuel IH]; intros ip ell s Hip; cbn [parseIPv6_loop]; [congruence|].
  intros ([acc r] & Hg & H)%bind_Some. apply hex_group_range in Hg; [|lia].
  apply group_octets in Hg as [Hhi Hlo].
  assert (Hip' : Forall is_octet (ip ++ [acc / 256; acc `mod` 256])) by (apply Forall_app; auto).
  case_bool_decide; [done|]. destruct r as [|c r]; [congruence|].
  destruct c as [[] [] [] [] [] [] [] []]; try done.
  - destruct (_ && _); [done|]. case_bool_decide; [done|].
    apply bind_Some in H as (v4 & [Hv4 _]%parseIPv4Fields_octets & H). simplify_eq. by apply Forall_app.
  - destruct r as [|c' r]; [done|].
    destruct c' as [[] [] [] [] [] [] [] []]; eauto.
    destruct ell; [done|]. destruct r; simplify_eq; eauto.
Qed.

Lemma parseIPv6_octets s ip z : parseIPv6 s = Some (ip, z) -> Forall is_octet ip.
Proof.
  assert (Hz : forall n, Forall is_octet (replicate n 0)) by (intros; apply Forall_replicate; by split).
  unfold parseIPv6. destruct (match index_byte _ s with Some _ => _ | None => _ end) as [body zone].
  case_bool_decide; [done|]. destruct (match body with [] => _ | _ => _ end) as [ell rest].
  case_test; [intros [= <- <-]; exact (Hz 16%nat)|].
  intros ([[ip' ell'] rest'] & Hl & H')%bind_Some. apply parseIPv6_loop_octets in Hl; [|constructor].
  case_test; [done|]. case_bool_decide.
  - destruct ell'; [|done]. simplify_eq.
    apply Forall_app_2; [by apply Forall_take|]. apply Forall_app_2; [apply Hz | by apply Forall_drop].
  - by destruct ell'; simplify_eq.
Qed.

Lemma ParseIP_octets s ip : ParseIP s = Some ip -> Forall is_octet ip.
Proof.
  assert (Hz : forall n, Forall is_octet (replicate n 0)) by (intros; apply Forall_replicate; by split).
  unfold ParseIP. destruct (addr_syntax s) as [c|]; [|done].
  destruct c as [[] [] [] [] [] [] [] []]; try done.
  - intros (v4 & [H _]%parseIPv4Fields_octets & ->)%fmap_Some.
    apply (Forall_app_2 _ (replicate 10 0)); [apply Hz|]. by repeat constructor.
  - intros ([ip' z] & H%parseIPv6_octets & H')%bind_Some. destruct z; [done|]. congruence.
Qed.

Lemma ParseIP_To4_octets s ip ip4 :
  ParseIP s = Some ip -> To4 ip = Some ip4 -> Forall is_octet ip4.
Proof.
  intros H%ParseIP_octets. unfold To4. case_bool_decide; [|done]. intros [= <-]. by apply Forall_drop.
Qed.
