(* ===== verification/GoSort.v ===== *)
(** * Go's [sort.Slice]

    The library permutes the slice into the order of a comparison function and
    leaves the order of equivalent elements unspecified; here they keep the order
    in which the slice was filled.  What a sorted listing promises follows from the
    comparison alone. *)
From Stdlib Require Import String.
From stdpp Require Import sorting.
From S2P Require Import Prelude.

Section Sort.
Context {A : Type} (less : A -> A -> bool).

Fixpoint insert_by (x : A) (l : list A) : list A :=
  match l with
  | [] => [x]
  | y :: l' => if less y x then y :: insert_by x l' else x :: l
  end.

Definition Slice (l : list A) : list A := foldr insert_by [] l.

(** [x] may stand before [y]. *)
Definition not_after (x y : A) : Prop := less y x = false.

(** What [sort.Slice] requires of its argument: a strict weak order. *)
Class StrictWeak : Prop := {
  less_asym x y : less x y = true -> not_after x y;
  #[global] not_after_trans :: Transitive not_after
}.

Lemma insert_by_perm x l : insert_by x l ≡ₚ x :: l.
Proof.
  induction l as [|y l IH]; simpl; [done|]. destruct (less y x); [|done].
  rewrite IH. apply Permutation_swap.
Qed.

Lemma Slice_perm l : Slice l ≡ₚ l.
Proof. induction l as [|x l IH]; simpl; [done|]. by rewrite insert_by_perm, IH. Qed.

Lemma insert_by_hd x y l : not_after y x -> HdRel not_after y l -> HdRel not_after y (insert_by x l).
Proof. intros Hx Hl. destruct l as [|z l]; simpl; [by constructor|]. destruct (less z x); constructor; [by inv Hl | done]. Qed.

Context `{!StrictWeak}.

Lemma insert_by_sorted x l : Sorted not_after l -> Sorted not_after (insert_by x l).
Proof.
  induction 1 as [|y l Hl IH Hy]; simpl; [by repeat constructor|]. destruct (less y x) eqn:E.
  - constructor; [done|]. apply insert_by_hd; [|done]. by apply less_asym.
  - constructor; [by constructor|]. by constructor.
Qed.

Lemma Slice_sorted l : Sorted not_after (Slice l).
Proof. induction l; simpl; [constructor | by apply insert_by_sorted]. Qed.

(** Without equivalent elements the result is determined by the elements. *)
Lemma Slice_unique l1 l2 :
  (forall x y, x ∈ l1 -> y ∈ l1 -> not_after x y -> not_after y x -> x = y) -> l1 ≡ₚ l2 -> Slice l1 = Slice l2.
Proof.
  intros Hanti Hp. apply (Sorted_unique_strong not_after);
    [| apply Slice_sorted | apply Slice_sorted | by rewrite !Slice_perm].
  intros x y Hx Hy. rewrite Slice_perm in Hx, Hy. rewrite <- Hp in Hy. by apply Hanti.
Qed.
End Sort.

#[global] Arguments StrictWeak {A} less.

(** ** Comparing by strings *)

Lemma string_ltb_spec s t : String.ltb s t = true <-> s <> t /\ ~ String.ltb t s = true.
Proof.
  unfold String.ltb. rewrite (String.compare_antisym t s). destruct (s ?= t)%string eqn:E.
  - apply String.compare_eq_iff in E. naive_solver.
  - split; [|done]. intros _. split; [|done]. intros ->.
    pose proof (String.compare_antisym t t) as H. by rewrite E in H.
  - simpl. split; [done|]. intros [_ H]. by destruct H.
Qed.

Lemma string_ltb_trans s t u : String.ltb t s = false -> String.ltb u t = false -> String.ltb u s = false.
Proof.
  assert (H : forall a b, String.ltb b a = false <-> String.le a b).
  { intros a b. unfold String.ltb, String.le, String.leb. rewrite (String.compare_antisym b a).
    by destruct (a ?= b)%string. }
  rewrite !H. intros. by transitivity t.
Qed.

(** Lexicographic comparison of the keys, as a chain of [if a.X != b.X] tests. *)
Fixpoint keys_less (ks ls : list string) : bool :=
  match ks, ls with
  | k :: ks', l :: ls' => if bool_decide (k = l) then keys_less ks' ls' else String.ltb k l
  | [], _ :: _ => true
  | _, [] => false
  end.

Lemma keys_less_asym ks ls : keys_less ks ls = true -> keys_less ls ks = false.
Proof.
  revert ls. induction ks as [|k ks IH]; intros [|l ls]; simpl; try done.
  case_bool_decide as E; [rewrite bool_decide_eq_true_2 by done; apply IH|].
  rewrite bool_decide_eq_false_2 by congruence. rewrite string_ltb_spec. intros [_ H]. by apply not_true_iff_false.
Qed.

Lemma keys_less_total ks ls : keys_less ks ls = false -> keys_less ls ks = false -> ks = ls.
Proof.
  revert ls. induction ks as [|k ks IH]; intros [|l ls]; simpl; try done.
  case_bool_decide as E; [subst; rewrite bool_decide_eq_true_2 by done; intros; f_equal; auto|].
  rewrite bool_decide_eq_false_2 by congruence. intros H1 H2. exfalso.
  apply not_true_iff_false in H2. by apply H2, string_ltb_spec; split; [|apply not_true_iff_false].
Qed.

Lemma keys_less_trans ks ls ms : keys_less ls ks = false -> keys_less ms ls = false -> keys_less ms ks = false.
Proof.
  revert ls ms. induction ks as [|k ks IH]; intros [|l ls] [|m ms]; simpl; try done.
  destruct (decide (l = k)) as [->|Hlk]; [rewrite (bool_decide_eq_true_2 (k = k)) by done|rewrite (bool_decide_eq_false_2 (l = k)) by done].
  - case_bool_decide; [apply IH | done].
  - intros H1. destruct (decide (m = l)) as [->|Hml].
    + rewrite (bool_decide_eq_false_2 (l = k)) by done. done.
    + rewrite (bool_decide_eq_false_2 (m = l)) by done. intros H2.
      case_bool_decide as E; [|by eapply string_ltb_trans].
      subst m. exfalso. apply not_true_iff_false in H1. apply H1, string_ltb_spec. split; [done|]. by apply not_true_iff_false.
Qed.

Section Keys.
Context {A : Type} (keys : A -> list string).

Definition by_keys (x y : A) : bool := keys_less (keys x) (keys y).

#[export] Instance by_keys_order : StrictWeak by_keys.
Proof.
  split.
  - intros x y. apply keys_less_asym.
  - intros x y z. unfold not_after, by_keys. apply keys_less_trans.
Qed.

(** With distinct keys a listing does not depend on the order it was filled in. *)
Lemma Slice_by_keys_unique l1 l2 : NoDup (keys <$> l1) -> l1 ≡ₚ l2 -> Slice by_keys l1 = Slice by_keys l2.
Proof.
  intros Hd Hp. apply Slice_unique; [apply _ | | done]. intros x y Hx Hy H1 H2.
  pose proof (keys_less_total _ _ H2 H1) as Heq.
  apply list_elem_of_lookup in Hx as [i Hi]. apply list_elem_of_lookup in Hy as [j Hj].
  assert (i = j) as ->; [|congruence].
  apply (NoDup_lookup _ i j (keys x) Hd); by rewrite list_lookup_fmap, ?Hi, ?Hj; simpl; rewrite ?Heq.
Qed.
End Keys.

(** Sorted by one string without repetitions, the listing ascends strictly. *)
Lemma Slice_by_key_strict {A} (key : A -> string) (l : list A) :
  NoDup (key <$> l) ->
  StronglySorted (fun x y => String.ltb (key x) (key y) = true) (Slice (by_keys (fun x => [key x])) l).
Proof.
  intros Hd. pose proof (Slice_sorted (by_keys (fun x => [key x])) l) as Hs.
  apply Sorted_StronglySorted in Hs; [|apply _].
  assert (Hd' : NoDup (key <$> Slice (by_keys (fun x => [key x])) l)) by by rewrite Slice_perm.
  clear Hd. induction Hs as [|x l' _ IH Hx]; [constructor|].
  apply NoDup_cons in Hd' as [Hn Hd']. constructor; [by apply IH|].
  apply Forall_forall. intros y Hy. rewrite Forall_forall in Hx. specialize (Hx y Hy).
  unfold not_after, by_keys in Hx. simpl in Hx. apply string_ltb_spec. split.
  - intros He. apply Hn. rewrite He. by apply list_elem_of_fmap_2.
  - case_bool_decide as E; [|by rewrite Hx]. exfalso. apply Hn. rewrite <- E. by apply list_elem_of_fmap_2.
Qed.
