(* ===== verification/GoHeap.v ===== *)
(** * Go's [container/heap]

    [heap.Push] and [heap.Pop] on a slice with its [Less]: sifting up and down by
    swaps, as the library does.  On a heap they are the operations of a priority
    queue. *)
From S2P Require Import Prelude GoSort.

Section Heap.
Context {A : Type} (less : A -> A -> bool).

(** [h.Less(i, j)]; the indices used are in range. *)
Definition less_at (h : list A) (i j : nat) : bool :=
  match h !! i, h !! j with Some x, Some y => less x y | _, _ => false end.

Definition swap (h : list A) (i j : nat) : list A :=
  match h !! i, h !! j with Some x, Some y => <[i := y]> (<[j := x]> h) | _, _ => h end.

(** [up]: [fuel] bounds the iterations. *)
Fixpoint up (fuel : nat) (h : list A) (j : nat) : list A :=
  match fuel with
  | O => h
  | S fuel' =>
      let i := ((j - 1) / 2)%nat in
      if (i =? j)%nat || negb (less_at h j i) then h else up fuel' (swap h i j) i
  end.

(** [down], below index [n]. *)
Fixpoint down (fuel : nat) (h : list A) (i n : nat) : list A :=
  match fuel with
  | O => h
  | S fuel' =>
      let j1 := (2 * i + 1)%nat in
      if (n <=? j1)%nat then h else
      let j := if (j1 + 1 <? n)%nat && less_at h (j1 + 1) j1 then (j1 + 1)%nat else j1 in
      if negb (less_at h j i) then h else down fuel' (swap h i j) j n
  end.

Definition Push (h : list A) (x : A) : list A := let h := h ++ [x] in up (length h) h (length h - 1).

(** The slice that is left and the element removed; [None] for an empty slice,
    where the library would panic. *)
Definition Pop (h : list A) : option (A * list A) :=
  let n := (length h - 1)%nat in
  let h := down (length h) (swap h 0 n) 0 n in
  match h !! n with Some x => Some (x, take n h) | None => None end.

(** ** Heaps *)

Definition parent (i : nat) : nat := ((i - 1) / 2)%nat.

(** No element is before its parent. *)
Definition heap_ordered (h : list A) : Prop := forall i, (0 < i < length h)%nat -> less_at h i (parent i) = false.

Lemma parent_lt i : (0 < i)%nat -> (parent i < i)%nat.
Proof. intros Hi. unfold parent. apply Nat.Div0.div_lt_upper_bound. lia. Qed.

Lemma parent_child i k : (0 < k)%nat -> parent k = i <-> k = (2 * i + 1)%nat \/ k = (2 * i + 2)%nat.
Proof.
  intros Hk. unfold parent. pose proof (Nat.div_mod_eq (k - 1) 2). pose proof (Nat.mod_upper_bound (k - 1) 2). lia.
Qed.

(** ** Swaps *)

Lemma delete_insert_eq (l : list A) i y : delete i (<[i := y]> l) = delete i l.
Proof. revert i. induction l as [|x l IH]; intros [|i]; cbn; [done..|]. f_equal. apply IH. Qed.

Lemma insert_delete_perm (l : list A) i y : (i < length l)%nat -> <[i := y]> l ≡ₚ y :: delete i l.
Proof.
  intros Hi. assert (E : <[i := y]> l !! i = Some y) by (by apply list_lookup_insert_eq).
  rewrite (delete_Permutation _ _ _ E). by rewrite delete_insert_eq.
Qed.

Lemma swap_perm h i j : swap h i j ≡ₚ h.
Proof.
  unfold swap. destruct (h !! i) as [x|] eqn:Hi, (h !! j) as [y|] eqn:Hj; try done.
  pose proof (lookup_lt_Some _ _ _ Hi). pose proof (lookup_lt_Some _ _ _ Hj). destruct (decide (i = j)) as [->|Hne].
  { rewrite Hi in Hj. injection Hj as ->. rewrite !list_insert_id; [done | done|]. by rewrite list_insert_id. }
  assert (E : <[j := x]> h !! i = Some x) by (by rewrite list_lookup_insert_ne).
  apply (Permutation_cons_inv (a := x)). rewrite insert_delete_perm by (by rewrite length_insert).
  rewrite Permutation_swap, <- (delete_Permutation _ _ _ E), insert_delete_perm by done.
  by rewrite Permutation_swap, <- (delete_Permutation _ _ _ Hj).
Qed.

Lemma length_swap h i j : length (swap h i j) = length h.
Proof. apply Permutation_length, swap_perm. Qed.

Lemma lookup_swap h i j k :
  (i < length h)%nat -> (j < length h)%nat ->
  swap h i j !! k = if decide (k = i) then h !! j else if decide (k = j) then h !! i else h !! k.
Proof.
  intros Hi Hj. unfold swap. destruct (lookup_lt_is_Some_2 h i Hi) as [x Ex], (lookup_lt_is_Some_2 h j Hj) as [y Ey].
  rewrite Ex, Ey. destruct (decide (k = i)) as [->|Hki]; [by rewrite list_lookup_insert_eq by (by rewrite length_insert)|].
  rewrite list_lookup_insert_ne by done. destruct (decide (k = j)) as [->|Hkj].
  - by rewrite list_lookup_insert_eq.
  - by rewrite list_lookup_insert_ne.
Qed.

Lemma less_at_swap h i j a b :
  (i < length h)%nat -> (j < length h)%nat ->
  less_at (swap h i j) a b = less_at h (if decide (a = i) then j else if decide (a = j) then i else a)
                                     (if decide (b = i) then j else if decide (b = j) then i else b).
Proof.
  intros Hi Hj. unfold less_at. rewrite !lookup_swap by done.
  destruct (decide (a = i)), (decide (a = j)), (decide (b = i)), (decide (b = j)); done.
Qed.

Context `{!StrictWeak less}.

Lemma less_at_asym h i j : less_at h i j = true -> less_at h j i = false.
Proof. unfold less_at. destruct (h !! i), (h !! j); try done. by apply less_asym. Qed.

Lemma less_at_trans h a b c : (b < length h)%nat -> less_at h b a = false -> less_at h c b = false -> less_at h c a = false.
Proof.
  intros [y Hb]%lookup_lt_is_Some_2. unfold less_at. rewrite Hb. destruct (h !! a) as [x|], (h !! c) as [z|]; try done.
  intros H1 H2. exact (not_after_trans less x y z H1 H2).
Qed.

(** ** Sifting up *)

(** Heap order holds except between [j] and its parent. *)
Definition up_ready (h : list A) (j : nat) : Prop :=
  (forall k, (0 < k < length h)%nat -> k <> j -> less_at h k (parent k) = false) /\
  (forall k, (0 < k < length h)%nat -> parent k = j -> (0 < j)%nat -> less_at h k (parent j) = false).

Lemma up_ready_step h j :
  (0 < j < length h)%nat -> up_ready h j -> less_at h j (parent j) = true -> up_ready (swap h (parent j) j) (parent j).
Proof.
  intros Hj [H1 H2] Hlt. pose proof (parent_lt j ltac:(lia)) as Hp. pose proof (less_at_asym _ _ _ Hlt) as Has.
  set (i := parent j) in *. split; intros k Hk; rewrite length_swap in Hk; pose proof (parent_lt k ltac:(lia)) as Hpk.
  - intros Hki. rewrite less_at_swap by lia. rewrite (decide_False (P := k = i)) by done.
    destruct (decide (k = j)) as [->|Hkj]; [by rewrite decide_True by done|].
    destruct (decide (parent k = i)) as [E|E].
    + apply (less_at_trans h j i k); [lia | done|]. rewrite <- E. by apply H1.
    + destruct (decide (parent k = j)) as [E'|E']; [apply H2; [done | done | lia]|]. by apply H1.
  - intros E Hi. pose proof (parent_lt i Hi). rewrite less_at_swap by lia.
    rewrite (decide_False (P := parent i = i)), (decide_False (P := parent i = j)), (decide_False (P := k = i)) by lia.
    assert (Hii : less_at h i (parent i) = false) by (apply H1; lia).
    destruct (decide (k = j)) as [->|Hkj]; [done|].
    apply (less_at_trans h (parent i) i k); [lia | done|]. rewrite <- E. by apply H1.
Qed.

Lemma up_spec fuel h j :
  (j < fuel)%nat -> (j < length h)%nat -> up_ready h j -> heap_ordered (up fuel h j) /\ up fuel h j ≡ₚ h.
Proof.
  revert h j. induction fuel as [|fuel IH]; intros h j Hf Hj Hr; [lia|]. cbn [up]. fold (parent j).
  destruct (Nat.eqb_spec (parent j) j) as [E|E]; cbn [orb].
  { split; [|done]. intros k Hk. apply Hr; [done|]. intros ->. pose proof (parent_lt j). lia. }
  assert (Hj0 : (0 < j)%nat) by (destruct j; [done | lia]). pose proof (parent_lt j Hj0).
  destruct (less_at h j (parent j)) eqn:Hlt; cbn [negb].
  - destruct (IH (swap h (parent j) j) (parent j)) as [Ho Hp]; [lia | rewrite length_swap; lia | by apply up_ready_step; [lia|..]|].
    split; [done|]. by rewrite Hp, swap_perm.
  - split; [|done]. intros k Hk. destruct (decide (k = j)) as [->|Hne]; [done|]. by apply Hr.
Qed.

Lemma less_at_app h x k j : (k < length h)%nat -> (j < length h)%nat -> less_at (h ++ [x]) k j = less_at h k j.
Proof. intros Hk Hj. unfold less_at. by rewrite !lookup_app_l. Qed.

Lemma Push_spec h x : heap_ordered h -> heap_ordered (Push h x) /\ Push h x ≡ₚ x :: h.
Proof.
  intros Hh. unfold Push. cbv zeta. destruct (up_spec (length (h ++ [x])) (h ++ [x]) (length (h ++ [x]) - 1)) as [Ho Hp].
  - rewrite length_app. cbn. lia.
  - rewrite length_app. cbn. lia.
  - rewrite length_app. cbn. split; intros k Hk; rewrite length_app in Hk; cbn in Hk.
    + intros Hne. pose proof (parent_lt k ltac:(lia)). rewrite less_at_app by lia. apply Hh. lia.
    + intros E _. pose proof (parent_lt k ltac:(lia)). lia.
  - split; [done|]. by rewrite Hp, Permutation_app_comm.
Qed.

(** ** Sifting down *)

(** Below index [n], heap order holds except between [i] and its children. *)
Definition down_ready (h : list A) (i n : nat) : Prop :=
  (forall k, (0 < k < n)%nat -> parent k <> i -> less_at h k (parent k) = false) /\
  (forall k, (0 < k < n)%nat -> parent k = i -> (0 < i)%nat -> less_at h k (parent i) = false).

(** The child [down] compares with. *)
Definition child (h : list A) (i n : nat) : nat :=
  if (2 * i + 1 + 1 <? n)%nat && less_at h (2 * i + 1 + 1) (2 * i + 1) then (2 * i + 1 + 1)%nat else (2 * i + 1)%nat.

Lemma child_spec h i n :
  (2 * i + 1 < n)%nat ->
  (i < child h i n < n)%nat /\ parent (child h i n) = i /\
  forall k, (0 < k < n)%nat -> parent k = i -> less_at h k (child h i n) = false.
Proof.
  intros Hn. unfold child.
  assert (Hself : forall k, less_at h k k = false).
  { intros k. destruct (less_at h k k) eqn:E; [|done]. by apply less_at_asym in E as E'; congruence. }
  destruct (Nat.ltb_spec (2 * i + 1 + 1) n) as [H2|H2]; cbn [andb].
  - destruct (less_at h (2 * i + 1 + 1) (2 * i + 1)) eqn:E.
    + split; [lia|]. split; [apply parent_child; lia|].
      intros k Hk [-> | ->]%parent_child; [by apply less_at_asym | | lia]. replace (2 * i + 2)%nat with (2 * i + 1 + 1)%nat by lia. apply Hself.
    + split; [lia|]. split; [apply parent_child; lia|].
      intros k Hk [-> | ->]%parent_child; [apply Hself | | lia]. by replace (2 * i + 2)%nat with (2 * i + 1 + 1)%nat by lia.
  - split; [lia|]. split; [apply parent_child; lia|]. intros k Hk [-> | ->]%parent_child; [apply Hself | lia | lia].
Qed.

Lemma down_ready_step h i n :
  (n <= length h)%nat -> (2 * i + 1 < n)%nat -> down_ready h i n -> less_at h (child h i n) i = true ->
  down_ready (swap h i (child h i n)) (child h i n) n.
Proof.
  intros Hl Hn [H1 H2] Hlt. destruct (child_spec h i n Hn) as (Hj & Hpj & Hmin). set (j := child h i n) in *.
  split; intros k Hk E; pose proof (parent_lt k ltac:(lia)) as Hpk; rewrite less_at_swap by lia.
  - destruct (decide (k = i)) as [->|Hki].
    { rewrite !decide_False by lia. apply H2; lia. }
    destruct (decide (k = j)) as [->|Hkj].
    { rewrite Hpj, decide_True by done. by apply less_at_asym. }
    destruct (decide (parent k = i)) as [Ep|Ep]; [by apply Hmin|]. rewrite decide_False by done. by apply H1.
  - intros _. rewrite (decide_False (P := k = i)), (decide_False (P := k = j)) by lia. rewrite Hpj, decide_True by done.
    rewrite <- E. apply H1; [done | lia].
Qed.

Lemma down_spec fuel h i n :
  (n <= length h)%nat -> (n <= i + fuel)%nat -> down_ready h i n ->
  let r := down fuel h i n in
  (forall k, (0 < k < n)%nat -> less_at r k (parent k) = false) /\ r ≡ₚ h /\ (forall k, (n <= k)%nat -> r !! k = h !! k).
Proof.
  revert h i. induction fuel as [|fuel IH]; intros h i Hl Hf Hr; cbn [down].
  { split; [|done]. intros k Hk. apply Hr; [done|]. intros [-> | ->]%parent_child; lia. }
  destruct (Nat.leb_spec n (2 * i + 1)) as [Hn|Hn].
  { split; [|done]. intros k Hk. apply Hr; [done|]. intros [-> | ->]%parent_child; lia. }
  destruct (child_spec h i n Hn) as (Hj & Hpj & Hmin). fold (child h i n).
  destruct (less_at h (child h i n) i) eqn:Hlt; cbn [negb].
  - destruct (IH (swap h i (child h i n)) (child h i n)) as (Ho & Hp & Hk); [by rewrite length_swap | lia | by apply down_ready_step|].
    split; [done|]. split; [by rewrite Hp, swap_perm|]. intros k Hkn. rewrite Hk, lookup_swap by lia.
    by rewrite !decide_False by lia.
  - split; [|done]. intros k Hk. destruct (decide (parent k = i)) as [E|E]; [|by apply Hr].
    rewrite E. apply (less_at_trans h i (child h i n) k); [lia | done|]. by apply Hmin.
Qed.

(** The root is the least element. *)
Lemma heap_root h k : heap_ordered h -> (k < length h)%nat -> less_at h k 0 = false.
Proof.
  intros Hh. induction k as [k IH] using lt_wf_ind. intros Hk. destruct (decide (k = 0%nat)) as [->|Hne].
  { destruct (less_at h 0 0) eqn:E; [|done]. by apply less_at_asym in E as E'; congruence. }
  pose proof (parent_lt k ltac:(lia)). apply (less_at_trans h 0 (parent k) k); [lia | apply IH; lia | apply Hh; lia].
Qed.

Lemma heap_min h x : heap_ordered h -> h !! 0%nat = Some x -> Forall (not_after less x) h.
Proof.
  intros Hh Hx. apply Forall_lookup. intros k y Hy. pose proof (heap_root h k Hh (lookup_lt_Some _ _ _ Hy)) as H.
  unfold less_at in H. by rewrite Hy, Hx in H.
Qed.

Lemma Pop_spec h :
  heap_ordered h ->
  match Pop h with
  | None => h = []
  | Some (x, rest) => h !! 0%nat = Some x /\ h ≡ₚ x :: rest /\ heap_ordered rest /\ Forall (not_after less x) rest
  end.
Proof.
  intros Hh. unfold Pop. cbv zeta. destruct h as [|x0 h0] eqn:Eh; [done|]. rewrite <- Eh in *.
  assert (Hlen : (0 < length h)%nat) by (subst h; cbn; lia). assert (H0 : h !! 0%nat = Some x0) by (by subst h).
  set (n := (length h - 1)%nat).
  destruct (down_spec (length h) (swap h 0 n) 0 n) as (Ho & Hp & Hk).
  { rewrite length_swap. lia. } { lia. }
  { split; intros k Hk; [|lia]. intros Hne. pose proof (parent_lt k ltac:(lia)). rewrite less_at_swap by lia.
    rewrite !decide_False by lia. apply Hh. lia. }
  set (r := down (length h) (swap h 0 n) 0 n) in *.
  assert (Hlr : length r = length h) by (by rewrite Hp, length_swap).
  assert (Hrn : r !! n = Some x0).
  { rewrite Hk, lookup_swap by lia. destruct (decide (n = 0%nat)) as [->|]; [done|]. by rewrite decide_True by done. }
  rewrite Hrn. assert (Hperm : h ≡ₚ x0 :: take n r).
  { rewrite <- (swap_perm h 0 n), <- Hp, <- (take_drop n r) at 1.
    rewrite (drop_S r x0 n Hrn), drop_ge by lia. by rewrite Permutation_app_comm. }
  split; [done|]. split; [done|]. split.
  - intros k Hkn. rewrite length_take in Hkn. pose proof (parent_lt k ltac:(lia)). unfold less_at.
    rewrite !lookup_take_lt by lia. apply Ho. lia.
  - pose proof (heap_min h x0 Hh H0) as Hf. rewrite Hperm in Hf. by apply Forall_cons in Hf as [_ Hf].
Qed.
End Heap.
