(* ===== verification/GoText.v ===== *)
(** * Splitting and folding text

    What the configuration parsers use of Go's [strings].  The separators are
    ASCII, so splitting by characters is splitting by bytes.  Lower-casing text that
    is not ASCII needs Unicode's tables and is the class [Unicode]. *)
From Stdlib Require Import Ascii String.
From S2P Require Import Prelude GoStd.

Definition is_ascii (c : ascii) : bool := byte_of c <? 128.

Definition lower_ascii (c : ascii) : ascii :=
  if (65 <=? byte_of c) && (byte_of c <=? 90) then ascii_of_N (N_of_ascii c + 32) else c.

(** [strings.ToLower] on text that is not ASCII. *)
Class Unicode := unicode_lower : string -> string.

(** [strings.ToLower] *)
Definition ToLower `{Unicode} (s : string) : string :=
  if forallb is_ascii (to_chars s) then of_chars (lower_ascii <$> to_chars s) else unicode_lower s.

(** [strings.EqualFold] against lower-case ASCII text without [k] and [s], the two
    letters that characters outside ASCII fold to. *)
Definition equal_fold_plain (s lower : string) : bool := bool_decide (lower_ascii <$> to_chars s = to_chars lower).

(** [strings.HasPrefix], and the text after the first [n] bytes. *)
Definition HasPrefix (s p : string) : bool := String.prefix p s.

Definition skip (n : nat) (s : string) : string := of_chars (drop n (to_chars s)).

(** [strings.Cut] at a byte. *)
Definition Cut (sep : ascii) (s : string) : string * string * bool :=
  match index_byte sep (to_chars s) with
  | Some i => (of_chars (take i (to_chars s)), of_chars (drop (S i) (to_chars s)), true)
  | None => (s, ""%string, false)
  end.

(** The pieces between separators. *)
Fixpoint pieces (sep : ascii -> bool) (s : chars) : list chars :=
  match s with
  | [] => [[]]
  | c :: s =>
      if sep c then [] :: pieces sep s
      else match pieces sep s with w :: ws => (c :: w) :: ws | [] => [[c]] end
  end.

(** [strings.Split] at a byte, and [strings.FieldsFunc]. *)
Definition Split (sep : ascii) (s : string) : list string := of_chars <$> pieces (Ascii.eqb sep) (to_chars s).

Definition FieldsFunc (sep : ascii -> bool) (s : string) : list string :=
  of_chars <$> filter (fun w => w <> []) (pieces sep (to_chars s)).

(** [strings.ReplaceAll] of a byte by a byte. *)
Definition replace_byte (a b : ascii) (s : string) : string :=
  of_chars ((fun c => if Ascii.eqb c a then b else c) <$> to_chars s).

(** ** Lemmas *)

Lemma of_chars_inj a b : of_chars a = of_chars b -> a = b.
Proof. intros H. by rewrite <- (to_of_chars a), <- (to_of_chars b), H. Qed.

Lemma to_chars_inj a b : to_chars a = to_chars b -> a = b.
Proof. intros H. by rewrite <- (of_to_chars a), <- (of_to_chars b), H. Qed.

Lemma to_chars_app a b : to_chars (a ++ b)%string = to_chars a ++ to_chars b.
Proof. induction a as [|c a IH]; [done|]. simpl. by f_equal. Qed.

Lemma of_chars_app a b : of_chars (a ++ b) = (of_chars a ++ of_chars b)%string.
Proof. apply to_chars_inj. by rewrite to_chars_app, !to_of_chars. Qed.

Lemma string_app_cancel (a b c : string) : (a ++ b)%string = (a ++ c)%string -> b = c.
Proof. induction a as [|x a IH]; [done|]. intros [= ?]. by apply IH. Qed.

Lemma string_app_assoc (a b c : string) : ((a ++ b) ++ c)%string = (a ++ (b ++ c))%string.
Proof. induction a as [|x a IH]; [done|]. exact (f_equal (String x) IH). Qed.

Lemma HasPrefix_app a b : HasPrefix (a ++ b) a = true.
Proof. unfold HasPrefix. induction a as [|c a IH]; [by destruct b|]. cbv [String.append] in *. cbn [String.prefix]. destruct (ascii_dec c c); [exact IH|congruence]. Qed.

Lemma skip_app a b : skip (String.length a) (a ++ b) = b.
Proof.
  unfold skip. induction a as [|c a IH]; cbn [String.length String.append to_chars list_ascii_of_string drop]; [apply of_to_chars|done].
Qed.

Lemma HasPrefix_spec s p : HasPrefix s p = true <-> exists t, s = (p ++ t)%string.
Proof.
  unfold HasPrefix. revert s. induction p as [|c p IH]; intros [|d s]; cbn.
  - split; [by exists ""%string|done].
  - split; [by exists (String d s)|done].
  - split; [done|]. by intros [t [=]].
  - destruct (ascii_dec c d) as [<-|Hne]; [|split; [done|by intros [t [=]]]]. rewrite IH. split.
    + intros [t ->]. by exists t.
    + intros [t [= ->]]. by exists t.
Qed.

Lemma index_byte_app c s t : c ∉ s -> index_byte c (s ++ c :: t) = Some (length s).
Proof.
  induction s as [|x s IH]; intros Hn; simpl; [by rewrite Ascii.eqb_refl|].
  apply not_elem_of_cons in Hn as [Hx Hn]. destruct (Ascii.eqb_spec x c); [congruence|]. by rewrite IH.
Qed.

Lemma index_byte_None c s : index_byte c s = None <-> c ∉ s.
Proof.
  induction s as [|x s IH]; simpl; [split; [intros _; apply not_elem_of_nil|done]|].
  rewrite not_elem_of_cons. destruct (Ascii.eqb_spec x c) as [->|Hne]; [naive_solver|].
  rewrite <- IH. destruct (index_byte c s); naive_solver.
Qed.

Lemma index_byte_Some c s i : index_byte c s = Some i -> s = take i s ++ c :: drop (S i) s /\ c ∉ take i s.
Proof.
  revert i. induction s as [|x s IH]; intros i; simpl; [done|]. destruct (Ascii.eqb_spec x c) as [->|Hne].
  - intros [= <-]. split; [done|]. apply not_elem_of_nil.
  - destruct (index_byte c s) as [j|]; [|done]. intros [= <-]. destruct (IH j eq_refl) as [Hs Hn]. simpl.
    split; [f_equal; exact Hs|]. apply not_elem_of_cons. split; [congruence|done].
Qed.

Lemma Cut_found sep a b : sep ∉ to_chars a -> Cut sep (a ++ String sep b) = (a, b, true).
Proof.
  intros Hn. unfold Cut. rewrite to_chars_app. simpl. rewrite index_byte_app by done.
  rewrite take_app_length, drop_app_ge by lia. replace (S (length (to_chars a)) - length (to_chars a))%nat with 1%nat by lia.
  cbn [drop]. rewrite drop_0. by rewrite !of_to_chars.
Qed.

Lemma Cut_missing sep s : sep ∉ to_chars s -> Cut sep s = (s, ""%string, false).
Proof. intros Hn. unfold Cut. by apply index_byte_None in Hn as ->. Qed.

Lemma pieces_nonempty sep s : pieces sep s <> [].
Proof. destruct s as [|c s]; simpl; [done|]. destruct (sep c); [done|]. by destruct (pieces sep s). Qed.

Lemma pieces_app sep s c t :
  Forall (fun x => sep x = false) s -> sep c = true -> pieces sep (s ++ c :: t) = s :: pieces sep t.
Proof.
  intros Hs Hc. induction Hs as [|x s Hx _ IH]; simpl; [by rewrite Hc|]. by rewrite Hx, IH.
Qed.

Lemma pieces_single sep s : Forall (fun x => sep x = false) s -> pieces sep s = [s].
Proof. induction 1 as [|x s Hx _ IH]; simpl; [done|]. by rewrite Hx, IH. Qed.

(** Joining, the inverse of splitting. *)
Fixpoint join (sep : ascii) (ws : list string) : string :=
  match ws with [] => "" | [w] => w | w :: ws => w ++ String sep (join sep ws) end.

Lemma pieces_join sep f ws :
  ws <> [] -> f sep = true -> Forall (fun w => Forall (fun c => f c = false) (to_chars w)) ws ->
  pieces f (to_chars (join sep ws)) = to_chars <$> ws.
Proof.
  intros Hne Hsep Hws. induction Hws as [|w ws Hw Hws IH]; [done|]. destruct ws as [|w' ws]; simpl.
  - by apply pieces_single.
  - rewrite to_chars_app. simpl. rewrite pieces_app by done. f_equal. by apply IH.
Qed.

Lemma Split_join sep ws :
  ws <> [] -> Forall (fun w => sep ∉ to_chars w) ws -> Split sep (join sep ws) = ws.
Proof.
  intros Hne Hws. unfold Split. rewrite (pieces_join sep); [|done|apply Ascii.eqb_refl|].
  - rewrite <- list_fmap_compose. etrans; [|apply list_fmap_id]. apply list_fmap_ext. intros i w _. apply of_to_chars.
  - eapply Forall_impl; [done|]. intros w Hw. apply Forall_forall. intros c Hc. apply Ascii.eqb_neq. by intros ->.
Qed.

Lemma filter_all {A} (P : A -> Prop) `{forall x, Decision (P x)} l : Forall P l -> filter P l = l.
Proof. induction 1 as [|x l Hx _ IH]; [done|]. by rewrite filter_cons_True, IH. Qed.

Lemma FieldsFunc_join sep f ws :
  f sep = true -> Forall (fun w => w <> ""%string /\ Forall (fun c => f c = false) (to_chars w)) ws ->
  FieldsFunc f (join sep ws) = ws.
Proof.
  intros Hsep Hws. unfold FieldsFunc. destruct ws as [|w ws]; [done|].
  rewrite (pieces_join sep); [|done|done|by eapply Forall_impl; [done|]; intros ? []].
  rewrite filter_all.
  - rewrite <- list_fmap_compose. etrans; [|apply list_fmap_id]. apply list_fmap_ext. intros i x _. apply of_to_chars.
  - apply Forall_fmap. eapply Forall_impl; [done|]. intros x [Hx _]. simpl. intros E. apply Hx, to_chars_inj. by rewrite E.
Qed.

(** ** Text without spaces at its ends *)

Definition graphic (c : ascii) : bool := (33 <=? byte_of c) && (byte_of c <=? 126).

(** Empty, or with visible ASCII characters at both ends. *)
Definition edges (s : string) : Prop :=
  match head (to_chars s), last (to_chars s) with
  | Some a, Some b => graphic a = true /\ graphic b = true
  | _, _ => True
  end.

Lemma graphic_range c : graphic c = true -> 33 <= byte_of c <= 126.
Proof. unfold graphic. lia. Qed.

Lemma trim_stop len fuel s : len (byte_of <$> s) = 0%nat -> trim_with len fuel s = s.
Proof. intros H. destruct fuel; simpl; [done|]. by rewrite H. Qed.

Lemma space_len_graphic c s : graphic c = true -> space_len (byte_of <$> (c :: s)) = 0%nat.
Proof.
  intros Hc%graphic_range. unfold space_len. rewrite (proj2 (list_find_None _ _)); [done|]. cbn [fmap list_fmap].
  do 3 (apply Forall_cons_2; [rewrite not_true_iff_false; destruct (byte_of <$> s) as [|b [|d t]]; cbn -[Z.leb Z.eqb byte_of]; rewrite ?take_0; cbn -[Z.leb Z.eqb byte_of]; lia|]). constructor.
Qed.

Lemma space_len_rev_graphic c s : graphic c = true -> space_len_rev (byte_of <$> (c :: s)) = 0%nat.
Proof.
  intros Hc%graphic_range. unfold space_len_rev. rewrite (proj2 (list_find_None _ _)); [done|]. cbn [fmap list_fmap].
  do 3 (apply Forall_cons_2; [rewrite not_true_iff_false; destruct (byte_of <$> s) as [|b [|d t]]; cbn -[Z.leb Z.eqb byte_of]; rewrite ?take_0; cbn -[Z.leb Z.eqb byte_of]; lia|]). constructor.
Qed.

Lemma TrimSpace_edges s : edges s -> TrimSpace s = s.
Proof.
  unfold edges, TrimSpace. destruct (to_chars s) as [|c t] eqn:E; intros Hs.
  { rewrite (trim_stop space_len) by done. cbn. by rewrite <- (of_to_chars s), E. }
  assert (Hlast : exists b u, reverse (c :: t) = b :: u /\ graphic b = true).
  { destruct (exists_last (l := c :: t)) as (u & b & Hb); [done|]. rewrite Hb in *. rewrite last_snoc in Hs.
    exists b, (reverse u). rewrite reverse_snoc. destruct u; simpl in Hs; by destruct Hs. }
  assert (Hc : graphic c = true) by (simpl in Hs; destruct Hlast; destruct (last (c :: t)) eqn:El; [by destruct Hs|by apply last_None in El]).
  rewrite (trim_stop space_len) by by apply space_len_graphic.
  destruct Hlast as (b & u & Hb & Hg). rewrite (trim_stop space_len_rev).
  - rewrite reverse_involutive, <- E. apply of_to_chars.
  - rewrite Hb. by apply space_len_rev_graphic.
Qed.

(** Visible ASCII throughout. *)
Definition visible (s : string) : Prop := Forall (fun c => graphic c = true) (to_chars s).

Lemma visible_edges s : visible s -> edges s.
Proof.
  unfold visible, edges. intros Hs. destruct (head (to_chars s)) eqn:Eh; [|done]. destruct (last (to_chars s)) eqn:El; [|done].
  rewrite Forall_forall in Hs. split; apply Hs.
  - apply head_Some_elem_of in Eh. done.
  - by apply last_Some_elem_of.
Qed.

Lemma visible_trim s : visible s -> TrimSpace s = s.
Proof. intros Hs. by apply TrimSpace_edges, visible_edges. Qed.

Lemma visible_app a b : visible (a ++ b)%string <-> visible a /\ visible b.
Proof. unfold visible. by rewrite to_chars_app, Forall_app. Qed.

Lemma visible_join sep ws : graphic sep = true -> Forall visible ws -> visible (join sep ws).
Proof.
  intros Hsep Hws. induction Hws as [|w ws Hw Hws IH]; [by constructor|]. destruct ws as [|w' ws]; [done|].
  cbn [join]. apply visible_app. split; [done|]. constructor; [done|]. exact IH.
Qed.
