(* ===== verification/GoUrl.v ===== *)
(** * Path segments ([net/url] and [path])

    Escaping of path segments, and [path.Clean] on rooted paths. *)
From Stdlib Require Import Ascii String.
From S2P Require Import Prelude GoStd GoText.

(** [shouldEscape] for path segments. *)
Definition kept (c : ascii) : bool :=
  let b := byte_of c in
  (97 <=? b) && (b <=? 122) || (65 <=? b) && (b <=? 90) || (48 <=? b) && (b <=? 57)
  || bool_decide (c ∈ ["-"; "_"; "."; "~"; "$"; "&"; "+"; ":"; "="; "@"]%char).

Definition hex_digit (n : Z) : ascii := ascii_of_N (Z.to_N (if n <? 10 then 48 + n else 55 + n)).

Definition unhex (c : ascii) : option Z :=
  let b := byte_of c in
  if (48 <=? b) && (b <=? 57) then Some (b - 48)
  else if (97 <=? b) && (b <=? 102) then Some (b - 87)
  else if (65 <=? b) && (b <=? 70) then Some (b - 55)
  else None.

Definition escape_char (c : ascii) : chars :=
  if kept c then [c] else ["%"%char; hex_digit (Z.shiftr (byte_of c) 4); hex_digit (Z.land (byte_of c) 15)].

(** [url.PathEscape] *)
Definition PathEscape (s : string) : string := of_chars (concat (escape_char <$> to_chars s)).

Fixpoint unescape (s : chars) : option chars :=
  match s with
  | [] => Some []
  | c :: s =>
      if Ascii.eqb c "%" then
        match s with
        | a :: b :: s =>
            match unhex a, unhex b with
            | Some x, Some y => (fun t => ascii_of_N (Z.to_N (Z.lor (Z.shiftl x 4) y)) :: t) <$> unescape s
            | _, _ => None
            end
        | _ => None
        end
      else (fun t => c :: t) <$> unescape s
  end.

(** [url.PathUnescape] *)
Definition PathUnescape (s : string) : option string := of_chars <$> unescape (to_chars s).

(** [path.Clean] of a path that begins with a slash: [out] holds the elements so far,
    last first. *)
Fixpoint clean_elements (out : list string) (elements : list string) : list string :=
  match elements with
  | [] => reverse out
  | e :: es =>
      if bool_decide (e = ""%string \/ e = "."%string) then clean_elements out es
      else if bool_decide (e = ".."%string) then clean_elements (tail out) es
      else clean_elements (e :: out) es
  end.

Definition Clean_rooted (p : string) : string := "/" ++ join "/" (clean_elements [] (Split "/" p)).

(** [strings.TrimRight] of a byte. *)
Fixpoint drop_byte (c : ascii) (s : chars) : chars :=
  match s with x :: s' => if Ascii.eqb x c then drop_byte c s' else s | [] => [] end.

Definition TrimRight (c : ascii) (s : string) : string := of_chars (reverse (drop_byte c (reverse (to_chars s)))).

(** ** Round trips *)

Definition all_ascii : list ascii := ascii_of_N <$> (N.of_nat <$> seq 0 256).

Lemma elem_of_all_ascii c : c ∈ all_ascii.
Proof.
  unfold all_ascii. apply list_elem_of_fmap. exists (N_of_ascii c). split; [by rewrite ascii_N_embedding|].
  apply list_elem_of_fmap. exists (N.to_nat (N_of_ascii c)). split; [by rewrite N2Nat.id|].
  apply elem_of_seq. pose proof (N_ascii_bounded c). lia.
Qed.

Lemma all_ascii_forall (P : ascii -> bool) : forallb P all_ascii = true -> forall c, P c = true.
Proof. intros H c. rewrite forallb_forall in H. apply H, list_elem_of_In, elem_of_all_ascii. Qed.

(** Escaping a character leaves no slash, is not empty, and is undone. *)
Lemma escape_char_spec c :
  ("/"%char ∉ escape_char c) /\ escape_char c <> [] /\ forall s, unescape (escape_char c ++ s) = (fun t => c :: t) <$> unescape s.
Proof.
  assert (H : forall c, (negb (contains_byte "/" (escape_char c)) && bool_decide (unescape (escape_char c) = Some [c]) &&
    (if kept c then negb (Ascii.eqb c "%") else true)) = true) by (apply all_ascii_forall; vm_compute; reflexivity).
  specialize (H c). apply andb_prop in H as [[H1 H2%bool_decide_eq_true]%andb_prop H3]. split; [|split].
  - apply index_byte_None. unfold contains_byte in H1. by destruct (index_byte "/" (escape_char c)).
  - unfold escape_char. by destruct (kept c).
  - intros s. unfold escape_char in *. destruct (kept c).
    + cbn [app unescape]. by destruct (Ascii.eqb c "%").
    + revert H2. generalize (hex_digit (Z.shiftr (byte_of c) 4)), (hex_digit (Z.land (byte_of c) 15)). intros a b. cbn [app unescape Ascii.eqb].
      change (Ascii.eqb "%" "%") with true. cbn iota. destruct (unhex a), (unhex b); try done. cbn. by intros [= ->].
Qed.

Lemma PathUnescape_PathEscape s : PathUnescape (PathEscape s) = Some s.
Proof.
  unfold PathUnescape, PathEscape. rewrite to_of_chars.
  assert (H : forall l, unescape (concat (escape_char <$> l)) = Some l).
  { induction l as [|c l IH]; [done|]. cbn. rewrite (proj2 (proj2 (escape_char_spec c))), IH. done. }
  rewrite H. cbn. by rewrite of_to_chars.
Qed.

Lemma PathEscape_no_slash s : "/"%char ∉ to_chars (PathEscape s).
Proof.
  unfold PathEscape. rewrite to_of_chars. intros Hin. apply list_elem_of_In, in_concat in Hin as (w & Hw & Hin).
  apply list_elem_of_In, list_elem_of_fmap in Hw as (c & -> & _). by apply list_elem_of_In, escape_char_spec in Hin.
Qed.

Lemma PathEscape_empty s : PathEscape s = ""%string <-> s = ""%string.
Proof.
  split; [|by intros ->]. destruct s as [|c s]; [done|]. intros H. exfalso. unfold PathEscape in H.
  cbn [to_chars list_ascii_of_string fmap list_fmap concat] in H. destruct (escape_char_spec c) as (_ & Hne & _).
  destruct (escape_char c); [done|]. discriminate H.
Qed.

Lemma PathEscape_inj s t : PathEscape s = PathEscape t -> s = t.
Proof. intros He. pose proof (PathUnescape_PathEscape s) as Hs. rewrite He, PathUnescape_PathEscape in Hs. congruence. Qed.
