(* ===== verification/GoBytes.v ===== *)
(** * Byte strings, big-endian words and checksums of the Go standard library

    [encoding/binary.BigEndian], conversions between [string] and bytes, and
    [hash/crc32] with the Castagnoli polynomial. *)
From Stdlib Require Import Ascii String.
From S2P Require Import Prelude GoStd.

(** ** Big-endian words *)

Definition be_bytes (n : nat) (v : Z) : list Z := reverse (le_bytes n v).
Definition be_val (bs : list Z) : Z := le_val (reverse bs).

Lemma length_be_bytes n v : length (be_bytes n v) = n.
Proof. unfold be_bytes. by rewrite length_reverse, length_le_bytes. Qed.

Lemma be_bytes_ok n v : bytes_ok (be_bytes n v).
Proof. apply Forall_reverse, le_bytes_ok. Qed.

Lemma be_val_be_bytes n v : be_val (be_bytes n v) = v `mod` 2 ^ (8 * Z.of_nat n).
Proof. unfold be_val, be_bytes. by rewrite reverse_involutive, le_val_le_bytes. Qed.

Lemma be_val_small n v : 0 <= v < 2 ^ (8 * Z.of_nat n) -> be_val (be_bytes n v) = v.
Proof. intros Hv. rewrite be_val_be_bytes. by apply Z.mod_small. Qed.

Lemma be_val_range bs : bytes_ok bs -> 0 <= be_val bs < 2 ^ (8 * Z.of_nat (length bs)).
Proof. intros H. unfold be_val. rewrite <- (length_reverse bs). apply le_val_range. by apply Forall_reverse. Qed.

Lemma be_val_inj bs1 bs2 :
  bytes_ok bs1 -> bytes_ok bs2 -> length bs1 = length bs2 -> be_val bs1 = be_val bs2 -> bs1 = bs2.
Proof.
  unfold be_val. intros H1 H2 Hlen E. rewrite <- (reverse_involutive bs1), <- (reverse_involutive bs2). f_equal.
  rewrite <- (le_bytes_le_val (reverse bs1)), <- (le_bytes_le_val (reverse bs2)) by by apply Forall_reverse.
  by rewrite E, !length_reverse, Hlen.
Qed.

(** ** Strings as bytes *)

Definition string_bytes (s : string) : list Z := byte_of <$> to_chars s.

Definition ascii_of_byte (b : Z) : ascii := ascii_of_N (Z.to_N b).
Definition bytes_string (bs : list Z) : string := of_chars (ascii_of_byte <$> bs).

Lemma byte_of_range c : is_byte (byte_of c).
Proof. unfold byte_of, is_byte. pose proof (N_ascii_bounded c). lia. Qed.

Lemma ascii_of_byte_of c : ascii_of_byte (byte_of c) = c.
Proof. unfold ascii_of_byte, byte_of. by rewrite N2Z.id, ascii_N_embedding. Qed.

Lemma byte_of_ascii_of b : is_byte b -> byte_of (ascii_of_byte b) = b.
Proof. intros Hb. unfold is_byte in Hb. unfold ascii_of_byte, byte_of. rewrite N_ascii_embedding; lia. Qed.

Lemma string_bytes_ok s : bytes_ok (string_bytes s).
Proof. apply Forall_fmap, Forall_forall. intros c _. apply byte_of_range. Qed.

Lemma bytes_string_bytes s : bytes_string (string_bytes s) = s.
Proof.
  unfold bytes_string, string_bytes. rewrite <- list_fmap_compose.
  rewrite (list_fmap_ext _ id); [by rewrite list_fmap_id, of_to_chars|]. intros _ c _. apply ascii_of_byte_of.
Qed.

Lemma string_bytes_string bs : bytes_ok bs -> string_bytes (bytes_string bs) = bs.
Proof.
  intros H. unfold bytes_string, string_bytes. rewrite to_of_chars, <- list_fmap_compose.
  rewrite (list_fmap_ext _ id); [by rewrite list_fmap_id|]. intros i b Hb. apply byte_of_ascii_of.
  by apply (Forall_lookup_1 _ _ _ _ H Hb).
Qed.

Lemma string_bytes_nil s : string_bytes s = [] <-> s = ""%string.
Proof.
  split; [|by intros ->]. intros E. rewrite <- (bytes_string_bytes s), E. done.
Qed.

#[export] Hint Resolve be_bytes_ok string_bytes_ok : aegis.
#[export] Hint Rewrite length_be_bytes : aegis.

(** ** [crc32.Checksum] with [crc32.MakeTable(crc32.Castagnoli)] *)

Definition Castagnoli : Z := 0x82f63b78.

Definition crc_shift (c : Z) : Z :=
  if Z.testbit c 0 then Z.lxor (Z.shiftr c 1) Castagnoli else Z.shiftr c 1.

(** An entry of the table, and the loop over the data. *)
Definition crc_table (i : Z) : Z := Nat.iter 8 crc_shift i.

Definition crc_update (c v : Z) : Z := Z.lxor (crc_table (Z.lxor (Z.land c 255) v)) (Z.shiftr c 8).

Definition crc_ones : Z := 2 ^ 32 - 1.

Definition crc_Checksum (data : list Z) : Z := Z.lxor (foldl crc_update crc_ones data) crc_ones.

Definition table_indices : list Z := Z.of_nat <$> seq 0 256.

Arguments crc_table : simpl never.
Arguments crc_update : simpl never.
Arguments table_indices : simpl never.

(** Distinct entries differ in their top byte, and all entries are 32-bit words. *)
Lemma crc_table_tops :
  NoDup ((fun i => Z.shiftr (crc_table i) 24) <$> table_indices) /\
  Forall (fun i => 0 <= crc_table i < 2 ^ 32) table_indices.
Proof.
  split.
  - apply (bool_decide_eq_true_1 _). vm_compute. reflexivity.
  - apply Forall_forall. intros i Hi%list_elem_of_In.
    assert (H : forallb (fun i => (0 <=? crc_table i) && (crc_table i <? 2 ^ 32)) table_indices = true)
      by (vm_compute; reflexivity).
    pose proof (proj1 (forallb_forall _ _) H i Hi) as Hr. cbv beta in Hr. apply andb_true_iff in Hr as [?%Z.leb_le ?%Z.ltb_lt]. split; assumption.
Qed.

Lemma table_index i : is_byte i -> table_indices !! Z.to_nat i = Some i.
Proof.
  unfold is_byte. intros Hi. unfold table_indices. rewrite list_lookup_fmap, lookup_seq_lt by lia. simpl. f_equal. lia.
Qed.

Lemma crc_table_range i : is_byte i -> 0 <= crc_table i < 2 ^ 32.
Proof. intros Hi. exact (Forall_lookup_1 _ _ _ _ (proj2 crc_table_tops) (table_index i Hi)). Qed.

Lemma crc_table_top_inj i j :
  is_byte i -> is_byte j -> Z.shiftr (crc_table i) 24 = Z.shiftr (crc_table j) 24 -> i = j.
Proof.
  intros Hi Hj E.
  assert (Z.to_nat i = Z.to_nat j) as En.
  { apply (NoDup_lookup _ _ _ (Z.shiftr (crc_table i) 24) (proj1 crc_table_tops)); rewrite list_lookup_fmap, table_index;
      simpl; congruence. }
  unfold is_byte in *. lia.
Qed.

Lemma lxor_byte a b : is_byte a -> is_byte b -> is_byte (Z.lxor a b).
Proof.
  unfold is_byte. intros Ha Hb. split; [apply Z.lxor_nonneg; lia|].
  destruct (Z.eq_dec (Z.lxor a b) 0) as [->|Hn]; [lia|].
  assert (Hp : 0 < Z.lxor a b) by (pose proof (Z.lxor_nonneg a b); lia).
  apply Z.log2_lt_pow2 with (b := 8); [done|].
  pose proof (Z.log2_lxor a b ltac:(lia) ltac:(lia)).
  assert (Z.log2 a < 8 /\ Z.log2 b < 8); [|lia].
  split; (destruct (Z.eq_dec a 0) as [->|]; destruct (Z.eq_dec b 0) as [->|]; try (simpl; lia); apply Z.log2_lt_pow2; lia).
Qed.

Lemma land_byte c : is_byte (Z.land c 255).
Proof. unfold is_byte. change 255 with (Z.ones 8). rewrite Z.land_ones by lia. apply Z.mod_pos_bound. lia. Qed.

Lemma lxor_word w a b : 0 <= w -> 0 <= a < 2 ^ w -> 0 <= b < 2 ^ w -> 0 <= Z.lxor a b < 2 ^ w.
Proof.
  intros Hw Ha Hb. rewrite <- (Z.mod_small a (2 ^ w)), <- (Z.mod_small b (2 ^ w)) by done.
  rewrite <- !Z.land_ones by done.
  assert (E : Z.lxor (Z.land a (Z.ones w)) (Z.land b (Z.ones w)) = Z.land (Z.lxor a b) (Z.ones w)).
  { apply Z.bits_inj'. intros n Hn. rewrite Z.lxor_spec, !Z.land_spec, Z.lxor_spec.
    by destruct (Z.testbit a n), (Z.testbit b n), (Z.testbit (Z.ones w) n). }
  rewrite E, Z.land_ones by done. apply Z.mod_pos_bound. lia.
Qed.

Lemma crc_update_range c v : 0 <= c < 2 ^ 32 -> is_byte v -> 0 <= crc_update c v < 2 ^ 32.
Proof.
  intros Hc Hv. apply lxor_word; [lia | apply crc_table_range, lxor_byte; [apply land_byte | done] |].
  rewrite Z.shiftr_div_pow2 by lia. split; [apply Z.div_pos; lia|]. apply Z.div_lt_upper_bound; lia.
Qed.

(** The update is injective in the byte, and in the state. *)
Lemma crc_update_inj c v c' v' :
  0 <= c < 2 ^ 32 -> 0 <= c' < 2 ^ 32 -> is_byte v -> is_byte v' -> crc_update c v = crc_update c' v' ->
  Z.lxor (Z.land c 255) v = Z.lxor (Z.land c' 255) v' /\ Z.shiftr c 8 = Z.shiftr c' 8.
Proof.
  intros Hc Hc' Hv Hv' E.
  pose proof (lxor_byte _ _ (land_byte c) Hv) as Hi. pose proof (lxor_byte _ _ (land_byte c') Hv') as Hi'.
  assert (Htop : forall x, 0 <= x < 2 ^ 32 -> Z.shiftr (Z.shiftr x 8) 24 = 0).
  { intros x Hx. rewrite Z.shiftr_shiftr, Z.shiftr_div_pow2 by lia. by apply Z.div_small. }
  assert (Ei : Z.lxor (Z.land c 255) v = Z.lxor (Z.land c' 255) v').
  { apply crc_table_top_inj; [done..|]. apply (f_equal (fun x => Z.shiftr x 24)) in E. unfold crc_update in E.
    by rewrite !Z.shiftr_lxor, !Htop, !Z.lxor_0_r in E by done. }
  split; [done|]. unfold crc_update in E. rewrite Ei in E. apply (f_equal (Z.lxor (crc_table (Z.lxor (Z.land c' 255) v')))) in E.
  by rewrite <- !Z.lxor_assoc, !Z.lxor_nilpotent, !Z.lxor_0_l in E.
Qed.

Lemma lxor_cancel_l a b c : Z.lxor a b = Z.lxor a c -> b = c.
Proof.
  intros E. apply (f_equal (Z.lxor a)) in E. by rewrite <- !Z.lxor_assoc, !Z.lxor_nilpotent, !Z.lxor_0_l in E.
Qed.

Lemma lxor_cancel_r a b c : Z.lxor b a = Z.lxor c a -> b = c.
Proof. rewrite !(Z.lxor_comm _ a). apply lxor_cancel_l. Qed.

Lemma crc_state_range data c : 0 <= c < 2 ^ 32 -> bytes_ok data -> 0 <= foldl crc_update c data < 2 ^ 32.
Proof.
  intros Hc Hd. revert c Hc. induction Hd as [|v data Hv _ IH]; intros c Hc; [done|].
  simpl. apply IH, crc_update_range; done.
Qed.

Lemma crc_Checksum_range data : bytes_ok data -> 0 <= crc_Checksum data < 2 ^ 32.
Proof. intros Hd. apply lxor_word; [lia | by apply crc_state_range | done]. Qed.

(** States that differ stay different over the same data. *)
Lemma crc_state_inj data c c' :
  0 <= c < 2 ^ 32 -> 0 <= c' < 2 ^ 32 -> bytes_ok data ->
  foldl crc_update c data = foldl crc_update c' data -> c = c'.
Proof.
  intros Hc Hc' Hd. revert c c' Hc Hc'. induction Hd as [|v data Hv _ IH]; intros c c' Hc Hc' E; [done|].
  simpl in E. apply IH in E; [|by apply crc_update_range..].
  apply crc_update_inj in E as [El Eh]; [|done..]. apply lxor_cancel_r in El.
  change 255 with (Z.ones 8) in El. rewrite !Z.land_ones in El by lia. rewrite !Z.shiftr_div_pow2 in Eh by lia.
  rewrite (Z.div_mod c (2 ^ 8)), (Z.div_mod c' (2 ^ 8)) by lia. congruence.
Qed.

(** A checksum changes whenever one byte does. *)
Lemma crc_detects_byte a x y b :
  bytes_ok a -> bytes_ok b -> is_byte x -> is_byte y -> x <> y ->
  crc_Checksum (a ++ x :: b) <> crc_Checksum (a ++ y :: b).
Proof.
  intros Ha Hb Hx Hy Hne E. apply lxor_cancel_r in E. rewrite !foldl_app in E. simpl in E.
  pose proof (crc_state_range a crc_ones ltac:(unfold crc_ones; lia) Ha) as Hs.
  apply crc_state_inj in E; [|by apply crc_update_range..|done].
  apply crc_update_inj in E as [E _]; [|done..]. apply lxor_cancel_l in E. done.
Qed.

(** The check value of the CRC-32C standard. *)
Lemma crc_check_value : crc_Checksum (string_bytes "123456789") = 0xe3069283.
Proof. vm_compute. reflexivity. Qed.
