(* ===== verification/Endpoint.v ===== *)
(** * Endpoint keys ([agent/ebpf/endpoint.go])

    An IPv4 address, first octet in the low byte, and a port packed in 48 bits;
    its textual form and the parser.  Formatting and parsing are inverse. *)
From Stdlib Require Import Ascii String.
From S2P Require Import Prelude GoStd.

Definition packEndpoint (ipv4 port : Z) : Z :=
  if (ipv4 =? 0) || (port =? 0) then 0
  else Z.lor (Z.shiftl ipv4 16) port.

Definition FormatEndpoint (key : Z) : string :=
  if key =? 0 then "" else
  let v := key in
  let port := wrapu 16 v in
  let ipv4 := wrapu 32 (Z.shiftr v 16) in
  let ip := IPv4_String (wrapu 8 ipv4) (wrapu 8 (Z.shiftr ipv4 8))
                        (wrapu 8 (Z.shiftr ipv4 16)) (wrapu 8 (Z.shiftr ipv4 24)) in
  of_chars (JoinHostPort ip (Itoa port)).

(** [None] is a non-nil error, with which the key is 0. *)
Definition ParseEndpointKey (addr : string) : option Z :=
  if bool_decide (addr = ""%string) then Some 0 else
  '(host, portStr) ← SplitHostPort (to_chars addr);
  port ← Atoi portStr;
  if (port <=? 0) || (65535 <? port) then None else
  ip ← ParseIP host;
  ip4 ← To4 ip;
  match ip4 with
  | [a; b; c; d] =>
      let ipv4 := Z.lor (Z.lor (Z.lor a (Z.shiftl b 8)) (Z.shiftl c 16)) (Z.shiftl d 24) in
      Some (packEndpoint ipv4 (wrapu 16 port))
  | _ => None
  end.

(** ** Packing *)

Definition valid_endpoint (ipv4 port : Z) : Prop := 0 < ipv4 < 2 ^ 32 /\ 0 < port < 2 ^ 16.

Lemma packEndpoint_alt ipv4 port :
  valid_endpoint ipv4 port -> packEndpoint ipv4 port = ipv4 * 2 ^ 16 + port.
Proof.
  intros [Hi Hp]. unfold packEndpoint.
  destruct (Z.eqb_spec ipv4 0), (Z.eqb_spec port 0); [lia..|]. cbn [orb]. apply lor_shiftl; lia.
Qed.

Lemma packEndpoint_unpack ipv4 port :
  valid_endpoint ipv4 port ->
  wrapu 16 (packEndpoint ipv4 port) = port /\ wrapu 32 (Z.shiftr (packEndpoint ipv4 port) 16) = ipv4.
Proof.
  intros H. rewrite packEndpoint_alt by done. destruct H as [Hi Hp]. unfold wrapu.
  rewrite Z.shiftr_div_pow2 by lia.
  replace (ipv4 * 2 ^ 16 + port) with (port + ipv4 * 2 ^ 16) by lia.
  rewrite Z.mod_add, Z.div_add, (Z.mod_small port), (Z.div_small port), Z.add_0_l by lia.
  split; [done|]. apply Z.mod_small. lia.
Qed.

Lemma packEndpoint_zero ipv4 port : packEndpoint ipv4 port = 0 <-> ipv4 = 0 \/ port = 0 \/ Z.lor (Z.shiftl ipv4 16) port = 0.
Proof.
  unfold packEndpoint. destruct (Z.eqb_spec ipv4 0), (Z.eqb_spec port 0); cbn [orb]; tauto.
Qed.

(** ** Octets *)

Definition octet (i ipv4 : Z) : Z := wrapu 8 (Z.shiftr ipv4 (8 * i)).

Lemma octet_range i ipv4 : is_octet (octet i ipv4).
Proof. unfold is_octet, octet. pose proof (wrapu_range 8 (Z.shiftr ipv4 (8 * i)) ltac:(lia)) as H. unfold is_u in H. lia. Qed.

Lemma octets_alt ipv4 :
  0 <= ipv4 < 2 ^ 32 ->
  octet 0 ipv4 + octet 1 ipv4 * 2 ^ 8 + octet 2 ipv4 * 2 ^ 16 + octet 3 ipv4 * 2 ^ 24 = ipv4.
Proof.
  intros H. pose proof (le_val_le_bytes 4 ipv4) as E. rewrite Z.mod_small in E by done.
  cbn [le_bytes le_val] in E. unfold octet, wrapu. rewrite !Z.shiftr_div_pow2 by lia.
  change (2 ^ (8 * 0)) with 1. rewrite Z.div_1_r.
  change (2 ^ (8 * 1)) with 256. change (2 ^ (8 * 2)) with (256 * 256).
  change (2 ^ (8 * 3)) with (256 * 256 * 256). rewrite <- !Z.div_div by lia.
  change (2 ^ 8) with 256. lia.
Qed.

Lemma octets_lor a b c d :
  is_octet a -> is_octet b -> is_octet c -> is_octet d ->
  Z.lor (Z.lor (Z.lor a (Z.shiftl b 8)) (Z.shiftl c 16)) (Z.shiftl d 24) =
  a + b * 2 ^ 8 + c * 2 ^ 16 + d * 2 ^ 24.
Proof.
  unfold is_octet. intros Ha Hb Hc Hd.
  rewrite (Z.lor_comm a), lor_shiftl by lia. rewrite (Z.lor_comm (b * _ + _)), lor_shiftl by lia.
  rewrite (Z.lor_comm (c * _ + _)), lor_shiftl by lia. lia.
Qed.

(** ** Formatting and parsing *)

Lemma FormatEndpoint_pack ipv4 port :
  valid_endpoint ipv4 port ->
  FormatEndpoint (packEndpoint ipv4 port) =
  of_chars (JoinHostPort (IPv4_String (octet 0 ipv4) (octet 1 ipv4) (octet 2 ipv4) (octet 3 ipv4)) (Itoa port)).
Proof.
  intros H. unfold FormatEndpoint. destruct (packEndpoint_unpack _ _ H) as [-> ->].
  destruct (Z.eqb_spec (packEndpoint ipv4 port) 0) as [E|]; [|reflexivity].
  rewrite packEndpoint_alt in E by done. destruct H. lia.
Qed.

Lemma ParseEndpointKey_string a b c d port :
  is_octet a -> is_octet b -> is_octet c -> is_octet d -> 0 < port < 2 ^ 16 ->
  ParseEndpointKey (of_chars (JoinHostPort (IPv4_String a b c d) (Itoa port))) =
  Some (packEndpoint (a + b * 2 ^ 8 + c * 2 ^ 16 + d * 2 ^ 24) port).
Proof.
  intros Ha Hb Hc Hd Hp. unfold ParseEndpointKey.
  assert (Hhost : IPv4_String a b c d <> []).
  { unfold IPv4_String. pose proof (Itoa_nonempty a). by destruct (Itoa a). }
  assert (Hsplit : SplitHostPort (JoinHostPort (IPv4_String a b c d) (Itoa port))
                   = Some (IPv4_String a b c d, Itoa port)).
  { apply SplitHostPort_JoinHostPort; [by apply IPv4_String_plain | done | apply Itoa_plain; lia]. }
  rewrite bool_decide_eq_false_2.
  2:{ intros E%(f_equal to_chars). rewrite to_of_chars in E. by rewrite E in Hsplit. }
  rewrite to_of_chars, Hsplit. cbn [mbind option_bind]. rewrite Atoi_Itoa by lia. cbn [mbind option_bind].
  destruct (Z.leb_spec port 0), (Z.ltb_spec 65535 port); [lia..|]. cbn [orb].
  rewrite ParseIP_String by done. cbn [mbind option_bind].
  change (To4 _) with (Some [a; b; c; d]). cbn [mbind option_bind].
  rewrite octets_lor by done. rewrite wrapu_small; [done|]. unfold is_u. lia.
Qed.

(** ** Properties *)

(**  Formatting and parsing endpoint keys are inverse: the text of a key
    parses back to the key, whatever the address and port, and distinct
    endpoints have distinct keys and distinct texts. *)
Theorem endpoint_key_roundtrip ipv4 port :
  valid_endpoint ipv4 port ->
  ParseEndpointKey (FormatEndpoint (packEndpoint ipv4 port)) = Some (packEndpoint ipv4 port) /\
  forall ipv4' port', valid_endpoint ipv4' port' ->
    FormatEndpoint (packEndpoint ipv4 port) = FormatEndpoint (packEndpoint ipv4' port') ->
    ipv4 = ipv4' /\ port = port'.
Proof.
  intros H.
  assert (Hrt : forall i p, valid_endpoint i p -> ParseEndpointKey (FormatEndpoint (packEndpoint i p)) = Some (packEndpoint i p)).
  { intros i p Hip. rewrite FormatEndpoint_pack by done. destruct Hip as [Hi Hp].
    rewrite ParseEndpointKey_string by (apply octet_range || done). do 2 f_equal. apply octets_alt. lia. }
  split; [by apply Hrt|]. intros i p Hip E. pose proof (Hrt _ _ H) as E1. rewrite E, Hrt in E1 by done.
  injection E1 as E1. destruct (packEndpoint_unpack _ _ H), (packEndpoint_unpack _ _ Hip).
  split; congruence.
Qed.

Lemma endpoint_key_roundtrip_witness :
  FormatEndpoint (packEndpoint 33554442 7001) = "10.0.0.2:7001"%string /\
  ParseEndpointKey "10.0.0.2:7001" = Some (packEndpoint 33554442 7001).
Proof.
  split; [reflexivity|]. refine (proj1 (endpoint_key_roundtrip 33554442 7001 _)). split; lia.
Defined.

(**  Whatever text is parsed, a key it yields is 0 or the packing of a valid
    address and port: never a key with one half missing, nor one wider than 48
    bits. *)
Theorem parsed_key_valid addr key :
  ParseEndpointKey addr = Some key ->
  key = 0 \/ exists ipv4 port, valid_endpoint ipv4 port /\ key = packEndpoint ipv4 port.
Proof.
  unfold ParseEndpointKey. case_bool_decide; [intros [= <-]; by left|].
  intros ([host ps] & _ & Hk)%bind_Some. apply bind_Some in Hk as (port & _ & Hk).
  destruct (Z.leb_spec port 0), (Z.ltb_spec 65535 port); [done..|]. cbn [orb] in Hk.
  apply bind_Some in Hk as (ip & Hip & Hk). apply bind_Some in Hk as (ip4 & H4 & Hk).
  destruct ip4 as [|a [|b [|c [|d []]]]]; try done. injection Hk as <-.
  pose proof (ParseIP_To4_octets _ _ _ Hip H4) as Ho. rewrite !Forall_cons in Ho. destruct Ho as (Ha & Hb & Hc & Hd & _).
  rewrite octets_lor, wrapu_small by (done || (unfold is_u; lia)).
  set (ipv4 := a + b * 2 ^ 8 + c * 2 ^ 16 + d * 2 ^ 24).
  assert (0 <= ipv4 < 2 ^ 32) by (unfold is_octet in *; lia).
  destruct (decide (ipv4 = 0)) as [-> | Hne]; [by left|].
  right. exists ipv4, port. split; [split; lia | done].
Qed.

Lemma parsed_key_valid_witness :
  exists ipv4 port, valid_endpoint ipv4 port /\ ParseEndpointKey "[::ffff:10.0.0.2]:7001" = Some (packEndpoint ipv4 port).
Proof.
  destruct (parsed_key_valid "[::ffff:10.0.0.2]:7001" 2199023917913 eq_refl) as [H | (ip & port & Hv & Hk)];
    [discriminate H|].
  exists ip, port. split; [exact Hv|]. rewrite <- Hk. reflexivity.
Defined.
