(* ===== verification/Event.v ===== *)
(** * Decoding ring-buffer records ([agent/ebpf/event.go])

    [DecodeRawTCPEvent] as written, with the offset table of the file, and what
    it makes of the records the BPF program really publishes. *)
From Stdlib Require Import Ascii String.
From S2P Require Import Prelude CTypes Vmlinux Bpf TcpMetrics WireFormat GoStd Endpoint.

(** ** Data *)

Definition rawTCPEventSize : Z := 60.
Definition offTimestampNS : Z := 0.
Definition offPID : Z := 8.
Definition offType : Z := 12.
Definition offSport : Z := 18.
Definition offDport : Z := 20.
Definition offRet : Z := 24.
Definition offSaddrV4 : Z := 28.
Definition offDaddrV4 : Z := 32.
Definition offConnectLatencyNS : Z := 36.
Definition offComm : Z := 44.

Definition EventTypeUnspecified : Z := 0.
Definition EventTypeRetransmit : Z := 1.
Definition EventTypeConnect : Z := 2.

Definition EventType_String (t : Z) : string :=
  if t =? EventTypeRetransmit then "retransmit"
  else if t =? EventTypeConnect then "connect"
  else "unspecified".

Record TCPEvent := {
  RemoteKey : Z;
  LocalKey : Z;
  Type_ : Z;
  RemoteAddr : string;
  LocalAddr : string;
  PID : Z;
  Comm : list Z;
  Retransmits : Z;
  ConnectErrors : Z;
  ConnectLatency : Z;
  ObservedAt : Z
}.

Inductive event_error := ErrShortSample.

(** ** Decoding *)

(** [binary.LittleEndian.UintN(sample[off:])]. *)
Definition uint_at (n off : Z) (sample : list Z) : Z := le_val (slice off n sample).

Definition DecodeRawTCPEvent (sample : list Z) : event_error + TCPEvent :=
  if Z.of_nat (length sample) <? rawTCPEventSize then inl ErrShortSample else
  let eventType := uint_at 4 offType sample in
  let daddrV4 := uint_at 4 offDaddrV4 sample in
  let dport := uint_at 2 offDport sample in
  let saddrV4 := uint_at 4 offSaddrV4 sample in
  let sport := uint_at 2 offSport sample in
  let ret := wraps 32 (uint_at 4 offRet sample) in
  inr {|
    Type_ := eventType;
    RemoteKey := packEndpoint daddrV4 dport;
    LocalKey := packEndpoint saddrV4 sport;
    PID := uint_at 4 offPID sample;
    ConnectLatency := wraps 64 (uint_at 8 offConnectLatencyNS sample);
    ObservedAt := time_Unix 0 (wraps 64 (uint_at 8 offTimestampNS sample));
    Comm := slice offComm 16 sample;
    RemoteAddr := "";
    LocalAddr := "";
    Retransmits := if eventType =? EventTypeRetransmit then 1 else 0;
    ConnectErrors :=
      if eventType =? EventTypeRetransmit then 0
      else if eventType =? EventTypeConnect then (if negb (ret =? 0) then 1 else 0)
      else 0
  |}.

Fixpoint until_nul (bs : list Z) : list Z :=
  match bs with
  | [] => []
  | b :: bs' => if b =? 0 then [] else b :: until_nul bs'
  end.

Definition commString (comm : list Z) : string :=
  of_chars ((fun b => ascii_of_N (Z.to_N b)) <$> until_nul comm).

(** ** The two layouts *)

(** The wire image of [struct tcp_event] if it were packed: no padding before
    the latency.  It is what the decoder's offset table describes. *)
Definition packed_lens : list nat := [8; 4; 4; 2; 2; 2; 2; 4; 4; 4; 8; 16]%nat.

Definition packed_chunks (e : tcp_event) : list (list Z) := [
  le_bytes 8 (ev_timestamp_ns e); le_bytes 4 (ev_pid e); le_bytes 4 (ev_type e);
  le_bytes 2 (ev_family e); le_bytes 2 (ev_sport e); le_bytes 2 (ev_dport e); le_bytes 2 (ev_pad e);
  le_bytes 4 (ev_ret e); le_bytes 4 (ev_saddr_v4 e); le_bytes 4 (ev_daddr_v4 e);
  le_bytes 8 (ev_connect_latency_ns e); ev_comm e].

Definition encode_packed (e : tcp_event) : list Z := concat (packed_chunks e).

(** The decoder's view of an event: the fields it is meant to deliver. *)
Definition decoded (e : tcp_event) (latency : Z) (comm : list Z) : TCPEvent := {|
  Type_ := ev_type e;
  RemoteKey := packEndpoint (ev_daddr_v4 e) (ev_dport e);
  LocalKey := packEndpoint (ev_saddr_v4 e) (ev_sport e);
  PID := ev_pid e;
  ConnectLatency := latency;
  ObservedAt := wraps 64 (ev_timestamp_ns e);
  Comm := comm;
  RemoteAddr := "";
  LocalAddr := "";
  Retransmits := if ev_type e =? EventTypeRetransmit then 1 else 0;
  ConnectErrors :=
    if ev_type e =? EventTypeRetransmit then 0
    else if ev_type e =? EventTypeConnect then (if negb (ev_ret e =? 0) then 1 else 0)
    else 0
|}.

Lemma packed_chunks_lens e : length (ev_comm e) = 16%nat -> length <$> packed_chunks e = packed_lens.
Proof. intros H. unfold packed_chunks. simpl. by rewrite H. Qed.

(** A fixed-width field of a buffer in chunks. *)
Lemma slice_chunk i n off ls b :
  ls !! i = Some b -> n = Z.of_nat (length b) ->
  off = Z.of_nat (sum_list (take i (length <$> ls))) -> slice off n (concat ls) = b.
Proof. intros. apply slice_concat with i; [done..|]. by rewrite length_concat_take. Qed.

Lemma uint_at_mod i n off w v ls :
  ls !! i = Some (le_bytes w v) -> n = Z.of_nat w ->
  off = Z.of_nat (sum_list (take i (length <$> ls))) ->
  uint_at n off (concat ls) = v `mod` 2 ^ (8 * n).
Proof.
  intros Hi Hn Hoff. unfold uint_at. rewrite (slice_chunk i n off ls (le_bytes w v)); [|done| |done].
  - by rewrite le_val_le_bytes, <- Hn.
  - by rewrite length_le_bytes.
Qed.

Lemma uint_at_chunk i n off w v ls :
  ls !! i = Some (le_bytes w v) -> n = Z.of_nat w ->
  off = Z.of_nat (sum_list (take i (length <$> ls))) -> is_u (8 * n) v ->
  uint_at n off (concat ls) = v.
Proof. intros Hi Hn Hoff Hv. rewrite (uint_at_mod i n off w v) by done. by apply Z.mod_small. Qed.

Lemma ret_zero_iff r : is_s 32 r -> (wraps 32 (r `mod` 2 ^ 32) =? 0) = (r =? 0).
Proof.
  intros Hr. f_equal. unfold wraps, wrapu. rewrite Zmod_mod. exact (wraps_small 32 r ltac:(lia) Hr).
Qed.

(** Records of either layout share the members before the latency. *)
Definition head_chunks (e : tcp_event) : list (list Z) := [
  le_bytes 8 (ev_timestamp_ns e); le_bytes 4 (ev_pid e); le_bytes 4 (ev_type e);
  le_bytes 2 (ev_family e); le_bytes 2 (ev_sport e); le_bytes 2 (ev_dport e); le_bytes 2 (ev_pad e);
  le_bytes 4 (ev_ret e); le_bytes 4 (ev_saddr_v4 e); le_bytes 4 (ev_daddr_v4 e)].

(** The decoder on a record with the shared head, whatever bytes it finds at the
    offsets it takes for the latency and the command name. *)
Lemma decode_head e lat comm tail :
  wf_event e -> length lat = 8%nat -> length comm = 16%nat ->
  DecodeRawTCPEvent (concat (head_chunks e ++ [lat; comm; tail])) =
  inr (decoded e (wraps 64 (le_val lat)) comm).
Proof.
  intros Hwf Hlat Hcomm. set (ls := head_chunks e ++ [lat; comm; tail]).
  assert (Hlens : length <$> ls = [8; 4; 4; 2; 2; 2; 2; 4; 4; 4; 8; 16; length tail]%nat)
    by (simpl; by rewrite Hlat, Hcomm).
  assert (is_u 32 (ev_type e)) 
    by (unfold is_u; destruct (wfe_type _ Hwf) as [-> | ->]; vm_compute; intuition congruence).
  destruct Hwf.
  unfold DecodeRawTCPEvent. rewrite length_concat_sum, Hlens.
  destruct (Z.ltb_spec (Z.of_nat (sum_list [8; 4; 4; 2; 2; 2; 2; 4; 4; 4; 8; 16; length tail]%nat)) rawTCPEventSize)
    as [Hs|_]; [unfold rawTCPEventSize in Hs; simpl in Hs; lia|].
  rewrite (uint_at_chunk 2 4 offType 4 (ev_type e)), (uint_at_chunk 9 4 offDaddrV4 4 (ev_daddr_v4 e)),
    (uint_at_chunk 5 2 offDport 2 (ev_dport e)), (uint_at_chunk 8 4 offSaddrV4 4 (ev_saddr_v4 e)),
    (uint_at_chunk 4 2 offSport 2 (ev_sport e)), (uint_at_chunk 1 4 offPID 4 (ev_pid e)),
    (uint_at_chunk 0 8 offTimestampNS 8 (ev_timestamp_ns e)), (uint_at_mod 7 4 offRet 4 (ev_ret e)),
    (slice_chunk 11 16 offComm ls comm)
    by (done || (rewrite Hlens; done) || (by rewrite Hcomm)).
  unfold uint_at. rewrite (slice_chunk 10 8 offConnectLatencyNS ls lat) by (done || (by rewrite Hlat) || (rewrite Hlens; done)).
  rewrite ret_zero_iff by done. unfold time_Unix. rewrite Z.mul_0_l, Z.add_0_l. reflexivity.
Qed.

Lemma encode_packed_head e : encode_packed e = concat (head_chunks e ++ [le_bytes 8 (ev_connect_latency_ns e); ev_comm e; []]).
Proof. reflexivity. Qed.

Lemma encode_event_head e :
  length (ev_comm e) = 16%nat ->
  encode_event e = concat (head_chunks e ++
    [replicate 4 0 ++ le_bytes 4 (ev_connect_latency_ns e);
     le_bytes 4 (ev_connect_latency_ns e / 2 ^ 32) ++ take 12 (ev_comm e); drop 12 (ev_comm e)]).
Proof.
  intros Hc. unfold encode_event, tcp_event_chunks, head_chunks. cbn [concat app].
  pose proof (le_bytes_app 4 4 (ev_connect_latency_ns e)) as E.
  change (4 + 4)%nat with 8%nat in E. change (8 * Z.of_nat 4) with 32 in E.
  rewrite E, <- !app_assoc, !app_nil_r, take_drop. done.
Qed.

(** What the decoder finds where it looks for the latency and the command. *)
Definition misread_latency (e : tcp_event) : Z := wraps 64 ((ev_connect_latency_ns e) `mod` 2 ^ 32 * 2 ^ 32).
Definition misread_comm (e : tcp_event) : list Z :=
  le_bytes 4 (ev_connect_latency_ns e / 2 ^ 32) ++ take 12 (ev_comm e).

Lemma decode_encode_event e :
  wf_event e -> DecodeRawTCPEvent (encode_event e) = inr (decoded e (misread_latency e) (misread_comm e)).
Proof.
  intros Hwf. destruct (wfe_comm _ Hwf) as [_ Hc]. rewrite encode_event_head by done.
  rewrite decode_head; [|done|done|].
  - unfold misread_latency, misread_comm. rewrite le_val_app, le_val_zeros, le_val_le_bytes. do 3 f_equal.
    rewrite length_replicate. change (8 * Z.of_nat 4) with 32. lia.
  - rewrite length_app, length_le_bytes, length_take, Hc. done.
Qed.

(** ** Properties *)

(**  A sample is rejected exactly when it is shorter than the decoder's
    record size, and an accepted sample counts as at most one retransmission or
    one connect error, according to its type. *)
Theorem decode_errors_and_counters sample :
  bytes_ok sample ->
  (DecodeRawTCPEvent sample = inl ErrShortSample <-> Z.of_nat (length sample) < rawTCPEventSize) /\
  forall ev, DecodeRawTCPEvent sample = inr ev ->
    is_u 32 (Type_ ev) /\ is_u 32 (PID ev) /\ is_s 64 (ConnectLatency ev) /\ is_s 64 (ObservedAt ev) /\
    length (Comm ev) = 16%nat /\
    (Retransmits ev = 1 /\ Type_ ev = EventTypeRetransmit /\ ConnectErrors ev = 0 \/
     Retransmits ev = 0 /\ Type_ ev <> EventTypeRetransmit /\
     (ConnectErrors ev = 0 \/ ConnectErrors ev = 1 /\ Type_ ev = EventTypeConnect)).
Proof.
  intros Hb. unfold DecodeRawTCPEvent. destruct (Z.ltb_spec (Z.of_nat (length sample)) rawTCPEventSize) as [Hs|Hs].
  { split; [tauto | done]. }
  split; [split; [done | lia]|]. intros ev [= <-]. cbn [Type_ PID ConnectLatency ObservedAt Comm Retransmits ConnectErrors].
  unfold rawTCPEventSize in Hs.
  assert (Hr : forall n off, 0 <= n -> 0 <= off -> off + n <= 60 -> is_u (8 * n) (uint_at n off sample)).
  { intros n off Hn Ho Hle. unfold uint_at, slice.
    pose proof (le_val_range (take (Z.to_nat n) (drop (Z.to_nat off) sample))) as H.
    rewrite length_take, length_drop in H. unfold is_u.
    replace (8 * n) with (8 * Z.of_nat (Z.to_nat n `min` (length sample - Z.to_nat off))) by lia.
    apply H. by apply Forall_take, Forall_drop. }
  split; [apply (Hr 4); unfold offType; lia|]. split; [apply (Hr 4); unfold offPID; lia|].
  split; [apply wraps_range; lia|]. split; [unfold time_Unix; rewrite Z.mul_0_l, Z.add_0_l; apply wraps_range; lia|].
  split; [unfold slice, offComm; rewrite length_take, length_drop; lia|].
  destruct (Z.eqb_spec (uint_at 4 offType sample) EventTypeRetransmit); [tauto|].
  destruct (Z.eqb_spec (uint_at 4 offType sample) EventTypeConnect); [|tauto].
  right. split; [done|]. split; [done|]. destruct (negb _); tauto.
Qed.

Lemma decode_errors_and_counters_witness :
  bytes_ok [1; 2; 3] /\ (DecodeRawTCPEvent [1; 2; 3] = inl ErrShortSample <-> 3 < rawTCPEventSize).
Proof.
  assert (Hb : bytes_ok [1; 2; 3]) by (repeat constructor; done).
  split; [exact Hb|]. exact (proj1 (decode_errors_and_counters [1; 2; 3] Hb)).
Defined.

(**  On the packed layout the decoder's offset table describes, decoding
    recovers every field of the event. *)
Theorem decode_packed_roundtrip e :
  wf_event e ->
  DecodeRawTCPEvent (encode_packed e) = inr (decoded e (wraps 64 (ev_connect_latency_ns e)) (ev_comm e)).
Proof.
  intros Hwf. destruct (wfe_comm _ Hwf) as [_ Hc]. rewrite encode_packed_head, decode_head by done.
  rewrite le_val_le_bytes, Z.mod_small; [done|]. apply (wfe_connect_latency_ns _ Hwf).
Qed.

Definition sample_event : tcp_event := {|
  ev_timestamp_ns := 5000000000; ev_pid := 4242; ev_type := AEGIS_EVENT_CONNECT; ev_family := 2;
  ev_sport := 40000; ev_dport := 7002; ev_pad := 0; ev_ret := -111; ev_saddr_v4 := 16777343;
  ev_daddr_v4 := 50331658; ev_connect_latency_ns := 25000000;
  ev_comm := [100; 101; 109; 111; 45; 117; 115; 101; 114; 0; 0; 0; 0; 0; 0; 0] |}.

Lemma sample_event_wf : wf_event sample_event.
Proof. split; cbn; try (vm_compute; intuition congruence). split; [|done]. repeat constructor; done. Qed.

Lemma decode_packed_roundtrip_witness :
  DecodeRawTCPEvent (encode_packed sample_event) = inr (decoded sample_event 25000000 (ev_comm sample_event)).
Proof. exact (decode_packed_roundtrip sample_event sample_event_wf). Defined.

(** C6.  On the records the BPF program publishes, whose layout has four bytes
    of padding before the latency, the decoder delivers the type, addresses,
    process and counters of the event, but a latency that is the low half of the
    real one shifted by 32 bits and a command name shifted by four bytes, so a
    connect that took between 1 ns and 2.1 s is reported as 2^32 times longer
    and its command name as empty. *)
Theorem decode_kernel_record e :
  wf_event e ->
  DecodeRawTCPEvent (encode_event e) = inr (decoded e (misread_latency e) (misread_comm e)) /\
  (ev_connect_latency_ns e < 2 ^ 32 -> commString (misread_comm e) = ""%string) /\
  (0 < ev_connect_latency_ns e < 2 ^ 31 ->
   misread_latency e = 2 ^ 32 * ev_connect_latency_ns e /\ misread_latency e <> ev_connect_latency_ns e).
Proof.
  intros Hwf. split; [by apply decode_encode_event|]. pose proof (wfe_connect_latency_ns _ Hwf) as [Hl _].
  split.
  - intros Hlt. unfold misread_comm. by rewrite Z.div_small.
  - intros Hlt. unfold misread_latency. rewrite Z.mod_small by lia. rewrite wraps_small; [lia|lia|].
    unfold is_s. lia.
Qed.

Lemma decode_kernel_record_witness :
  DecodeRawTCPEvent (encode_event sample_event)
    = inr (decoded sample_event (2 ^ 32 * 25000000) (misread_comm sample_event)) /\
  commString (misread_comm sample_event) = ""%string /\ commString (ev_comm sample_event) = "demo-user"%string.
Proof.
  destruct (decode_kernel_record sample_event sample_event_wf) as (H1 & H2 & _).
  split; [exact H1|]. split; [apply H2; reflexivity | reflexivity].
Defined.

(** The same structure with [__attribute__((packed))]. *)
Definition packed_tcp_event_t : ctype := CStruct true struct_tcp_event_members.

Definition decoder_offsets : list (string * Z) := [
  ("timestamp_ns", offTimestampNS); ("pid", offPID); ("type", offType); ("sport", offSport);
  ("dport", offDport); ("ret", offRet); ("saddr_v4", offSaddrV4); ("daddr_v4", offDaddrV4);
  ("connect_latency_ns", offConnectLatencyNS); ("comm", offComm)].

(**  The decoder's offset table and record size are those of the packed
    structure.  The structure the program is compiled with is not packed: it is
    64 bytes long, and of the ten members the decoder reads exactly the latency
    and the command name are elsewhere, four bytes further. *)
Theorem decoder_table_is_packed_layout :
  Forall (fun '(m, off) => offset_of bpf_env packed_tcp_event_t [m] = Some off) decoder_offsets /\
  size_of bpf_env packed_tcp_event_t = Some rawTCPEventSize /\
  size_of bpf_env tcp_event_t = Some 64 /\
  Forall (fun '(m, off) => offset_of bpf_env tcp_event_t [m] =
    Some (if bool_decide (m = "connect_latency_ns" \/ m = "comm")%string then off + 4 else off)) decoder_offsets.
Proof.
  assert (H : bool_decide (Forall (fun '(m, off) => offset_of bpf_env packed_tcp_event_t [m] = Some off) decoder_offsets) = true)
    by (vm_compute; reflexivity).
  assert (H' : bool_decide (Forall (fun '(m, off) => offset_of bpf_env tcp_event_t [m] =
    Some (if bool_decide (m = "connect_latency_ns" \/ m = "comm")%string then off + 4 else off)) decoder_offsets) = true)
    by (vm_compute; reflexivity).
  apply bool_decide_eq_true in H. apply bool_decide_eq_true in H'.
  split; [exact H|]. split; [vm_compute; reflexivity|]. split; [vm_compute; reflexivity | exact H'].
Qed.
