(* ===== verification/Aggregator.v ===== *)
(** * Per-endpoint aggregation ([agent/ebpf/aggregator.go], [telemetry.go])

    Events are folded into one row per remote endpoint; a snapshot closes the
    window and starts the next.  Go iterates over maps in an unspecified order:
    where the code ranges over a map, the order is an argument. *)
From Stdlib Require Import Ascii String Sorted.
From stdpp Require Import sorting.
From S2P Require Import Prelude GoStd GoSort Endpoint Event.

Record EndpointRef := { Service : string; InstanceID : string; Address : string }.

Record networkRow := {
  ref : EndpointRef;
  retransmits : Z;
  connectErrors : Z;
  connectLatency : Z;
  windowStart : Z;
  windowEnd : Z
}.

Record NetworkSample := {
  ns_Service : string;
  ns_InstanceID : string;
  ns_Address : string;
  TCPRetransmit : Z;
  ConnectError : Z;
  ns_ConnectLatency : Z;
  WindowStart : Z;
  WindowEnd : Z
}.

Record Aggregator := { endpoints : gmap Z EndpointRef; rows : gmap Z networkRow }.

(** ** Events *)

Definition RemoteAddress (e : TCPEvent) : string :=
  if bool_decide (RemoteAddr e <> ""%string) then RemoteAddr e else FormatEndpoint (RemoteKey e).

Definition LocalAddress (e : TCPEvent) : string :=
  if bool_decide (LocalAddr e <> ""%string) then LocalAddr e else FormatEndpoint (LocalKey e).

Definition CommString (e : TCPEvent) : string := commString (Comm e).

Definition remoteEndpointKey (e : TCPEvent) : Z :=
  if negb (RemoteKey e =? 0) then RemoteKey e
  else if bool_decide (RemoteAddr e = ""%string) then 0
  else match ParseEndpointKey (RemoteAddr e) with Some key => key | None => 0 end.

(** ** Operations *)

(** [ord] is the order in which the configuration map is traversed. *)
Definition NewAggregator (ord : list (string * EndpointRef)) : Aggregator :=
  let refs := foldl (fun refs '(addr, ref) =>
    match ParseEndpointKey addr with
    | None => refs
    | Some key =>
        let ref := if bool_decide (Address ref = ""%string)
                   then {| Service := Service ref; InstanceID := InstanceID ref; Address := addr |} else ref in
        <[key := ref]> refs
    end) ∅ ord in
  {| endpoints := refs; rows := ∅ |}.

Definition Observe (a : Aggregator) (event : TCPEvent) : Aggregator :=
  let key := remoteEndpointKey event in
  if key =? 0 then a else
  let ep :=
    match endpoints a !! key with
    | Some ep => ep
    | None => let addr := FormatEndpoint key in {| Service := ""; Address := addr; InstanceID := addr |}
    end in
  let row :=
    match rows a !! key with
    | Some row => row
    | None => {| ref := ep; retransmits := 0; connectErrors := 0; connectLatency := 0;
                 windowStart := ObservedAt event; windowEnd := zero_time |}
    end in
  let row := {|
    ref := ref row;
    retransmits := wraps 64 (retransmits row + Retransmits event);
    connectErrors := wraps 64 (connectErrors row + ConnectErrors event);
    connectLatency := wraps 64 (connectLatency row + ConnectLatency event);
    windowStart := if IsZero (windowStart row) then ObservedAt event else windowStart row;
    windowEnd := ObservedAt event |} in
  {| endpoints := endpoints a; rows := <[key := row]> (rows a) |}.

Definition sample_of (row : networkRow) : NetworkSample := {|
  ns_Service := Service (ref row);
  ns_InstanceID := InstanceID (ref row);
  ns_Address := Address (ref row);
  TCPRetransmit := retransmits row;
  ConnectError := connectErrors row;
  ns_ConnectLatency := connectLatency row;
  WindowStart := windowStart row;
  WindowEnd := windowEnd row |}.

(** [sort.Slice] by address. *)
Definition address_less : NetworkSample -> NetworkSample -> bool := by_keys (fun s => [ns_Address s]).

Definition sort_samples (l : list NetworkSample) : list NetworkSample := Slice address_less l.

(** [ord] is the order in which the rows are traversed. *)
Definition SnapshotAndReset (a : Aggregator) (ord : list (Z * networkRow)) : list NetworkSample * Aggregator :=
  (sort_samples (sample_of <$> ord.*2), {| endpoints := endpoints a; rows := ∅ |}).

(** ** Telemetry messages *)

Record EndpointStatsSample := {
  Source : string;
  es_Service : string;
  es_InstanceId : string;
  EndpointAddress : string;
  TcpRetransmit : Z;
  es_ConnectError : Z;
  WindowStartUnixMillis : Z;
  WindowEndUnixMillis : Z
}.

Definition NetworkSamplesToTelemetrySamples (samples : list NetworkSample) : list EndpointStatsSample :=
  (fun sample => {|
    Source := "ebpf";
    es_Service := ns_Service sample;
    es_InstanceId := ns_InstanceID sample;
    EndpointAddress := ns_Address sample;
    TcpRetransmit := TCPRetransmit sample;
    es_ConnectError := ConnectError sample;
    WindowStartUnixMillis := UnixMilli (WindowStart sample);
    WindowEndUnixMillis := UnixMilli (WindowEnd sample) |}) <$> samples.

(** ** What a window of events amounts to *)

(** The first observation time that is set. *)
Definition first_time (ts : list Z) : Z := foldl (fun w t => if IsZero w then t else w) zero_time ts.

Definition endpoint_ref (eps : gmap Z EndpointRef) (key : Z) : EndpointRef :=
  default {| Service := ""; Address := FormatEndpoint key; InstanceID := FormatEndpoint key |} (eps !! key).

(** The row of the events [es] observed for [key], in order. *)
Definition summary (eps : gmap Z EndpointRef) (key : Z) (es : list TCPEvent) : option networkRow :=
  if bool_decide (es = []) then None
  else Some {|
    ref := endpoint_ref eps key;
    retransmits := wraps 64 (sumZ (Retransmits <$> es));
    connectErrors := wraps 64 (sumZ (ConnectErrors <$> es));
    connectLatency := wraps 64 (sumZ (ConnectLatency <$> es));
    windowStart := first_time (ObservedAt <$> es);
    windowEnd := default zero_time (last (ObservedAt <$> es)) |}.

Definition events_for (key : Z) (es : list TCPEvent) : list TCPEvent :=
  filter (fun e => remoteEndpointKey e = key) es.

Lemma first_time_snoc ts t : first_time (ts ++ [t]) = if IsZero (first_time ts) then t else first_time ts.
Proof. unfold first_time. by rewrite foldl_snoc. Qed.

Lemma observe_summary eps es a key :
  rows a = ∅ -> endpoints a = eps -> key <> 0 ->
  endpoints (foldl Observe a es) = eps /\ rows (foldl Observe a es) !! key = summary eps key (events_for key es).
Proof.
  intros Hr He Hk. induction es as [|e es IH] using rev_ind.
  { simpl. rewrite Hr. split; [done | by rewrite lookup_empty]. }
  rewrite foldl_snoc. destruct IH as [He' Hrow]. unfold events_for in *. rewrite filter_app.
  set (a' := foldl Observe a es) in *. unfold Observe.
  destruct (Z.eqb_spec (remoteEndpointKey e) 0) as [H0 | H0].
  { rewrite filter_cons_False by congruence. by rewrite filter_nil, app_nil_r. }
  split; [done|]. cbn [rows].
  destruct (decide (remoteEndpointKey e = key)) as [Heq | Hne].
  2:{ rewrite lookup_insert_ne, filter_cons_False by done. by rewrite filter_nil, app_nil_r. }
  rewrite Heq, lookup_insert_eq, filter_cons_True, filter_nil, Hrow, He' by done.
  set (fs := filter _ es) in *. unfold summary. rewrite (bool_decide_eq_false_2 (fs ++ [e] = [])) by (by destruct fs).
  rewrite !fmap_app, !sumZ_app. change (ObservedAt <$> [e]) with [ObservedAt e]. rewrite last_snoc, first_time_snoc.
  f_equal. destruct (bool_decide (fs = [])) eqn:Hfs.
  - apply bool_decide_eq_true in Hfs. rewrite Hfs. unfold endpoint_ref.
    destruct (eps !! key); simpl; unfold sumZ; simpl; rewrite ?Z.add_0_r; f_equal; by destruct (IsZero _).
  - simpl. rewrite !wraps_add by lia. by rewrite !sumZ_singleton.
Qed.

(** ** Grouping *)

(** The endpoints the events [es] concern. *)
Definition window_keys (es : list TCPEvent) : list Z :=
  remove_dups (filter (fun key => key <> 0) (remoteEndpointKey <$> es)).

(** Group by endpoint, then summarise each group. *)
Definition window_reference (eps : gmap Z EndpointRef) (es : list TCPEvent) : list (Z * networkRow) :=
  omap (fun key => (key,.) <$> summary eps key (events_for key es)) (window_keys es).

Lemma window_keys_NoDup es : NoDup (window_keys es).
Proof. apply NoDup_remove_dups. Qed.

Lemma elem_of_window_keys es key :
  key ∈ window_keys es <-> key <> 0 /\ events_for key es <> [].
Proof.
  unfold window_keys. rewrite elem_of_remove_dups, list_elem_of_filter, list_elem_of_fmap.
  apply and_iff_compat_l. unfold events_for. split.
  - intros (e & -> & He) Hnil. assert (Hf : e ∈ filter (fun e' => remoteEndpointKey e' = remoteEndpointKey e) es).
    { by apply list_elem_of_filter. }
    rewrite Hnil in Hf. set_solver.
  - destruct (filter _ es) as [|e fs] eqn:E; [done|]. intros _. exists e.
    assert (Hf : e ∈ filter (fun e => remoteEndpointKey e = key) es) by (rewrite E; left).
    apply list_elem_of_filter in Hf. intuition.
Qed.

Lemma observe_key_0 a es : rows a !! 0 = None -> rows (foldl Observe a es) !! 0 = None.
Proof.
  revert a. induction es as [|e es IH]; intros a Ha; [done|]. simpl. apply IH. unfold Observe.
  destruct (Z.eqb_spec (remoteEndpointKey e) 0); [done|]. cbn [rows]. by rewrite lookup_insert_ne.
Qed.

Lemma elem_of_window_reference eps es key row :
  (key, row) ∈ window_reference eps es <-> key <> 0 /\ summary eps key (events_for key es) = Some row.
Proof.
  unfold window_reference. rewrite list_elem_of_omap. split.
  - intros (k & Hk & Hs). apply elem_of_window_keys in Hk.
    destruct (summary eps k _) eqn:E; naive_solver.
  - intros [Hk Hs]. exists key. rewrite Hs. split; [|done]. apply elem_of_window_keys. split; [done|].
    intros Hnil. unfold summary in Hs. by rewrite Hnil in Hs.
Qed.

Lemma window_reference_NoDup eps es : NoDup (window_reference eps es).
Proof.
  unfold window_reference. generalize (window_keys_NoDup es). generalize (window_keys es) as ks.
  induction ks as [|k ks IH]; simpl; intros Hd; [constructor|].
  apply NoDup_cons in Hd as [Hk Hd]. destruct (summary eps k _) eqn:E; simpl; [|by apply IH].
  constructor; [|by apply IH]. rewrite list_elem_of_omap. intros (k' & Hk' & Heq).
  destruct (summary eps k' _); naive_solver.
Qed.

Lemma rows_reference a es :
  rows a = ∅ -> map_to_list (rows (foldl Observe a es)) ≡ₚ window_reference (endpoints a) es.
Proof.
  intros Ha. apply NoDup_Permutation; [apply NoDup_map_to_list | apply window_reference_NoDup |].
  intros [key row]. rewrite elem_of_map_to_list, elem_of_window_reference.
  destruct (decide (key = 0)) as [-> | Hk].
  - rewrite observe_key_0 by (by rewrite Ha). naive_solver.
  - destruct (observe_summary (endpoints a) es a key Ha eq_refl Hk) as [_ ->]. naive_solver.
Qed.

(** ** Sorting *)

Definition address_le (x y : NetworkSample) : Prop := String.le (ns_Address x) (ns_Address y).

Lemma not_after_address x y : not_after address_less x y -> address_le x y.
Proof.
  unfold not_after, address_less, by_keys, address_le. simpl. case_bool_decide as E; [by rewrite E|].
  unfold String.ltb, String.le, String.leb. rewrite (String.compare_antisym (ns_Address x) (ns_Address y)).
  by destruct (ns_Address y ?= ns_Address x)%string.
Qed.

Lemma sort_samples_perm l : sort_samples l ≡ₚ l.
Proof. apply Slice_perm. Qed.

Lemma sort_samples_sorted l : Sorted address_le (sort_samples l).
Proof.
  pose proof (Slice_sorted address_less l) as H. unfold sort_samples. induction H as [|x k _ IH Hx]; constructor; [done|].
  destruct Hx; constructor. by apply not_after_address.
Qed.

(** ** Windows *)

(** C7. A window reports every endpoint its events concern exactly once: after
    the events [es], from an aggregator with no open row, a snapshot (whatever the
    traversal order) is sorted by address, is a permutation of the events grouped
    by remote endpoint and summarised, and leaves no row behind. *)
Theorem window_aggregates a es ord :
  rows a = ∅ -> ord ≡ₚ map_to_list (rows (foldl Observe a es)) ->
  let '(out, a') := SnapshotAndReset (foldl Observe a es) ord in
  Sorted address_le out /\
  out ≡ₚ (sample_of <$> (window_reference (endpoints a) es).*2) /\
  a' = {| endpoints := endpoints a; rows := ∅ |}.
Proof.
  intros Ha Hord. simpl. split; [apply sort_samples_sorted|]. split.
  - by rewrite sort_samples_perm, Hord, rows_reference.
  - f_equal. by apply (observe_summary (endpoints a) es a 1).
Qed.

Lemma sort_samples_unique l1 l2 :
  NoDup (ns_Address <$> l1) -> l1 ≡ₚ l2 -> sort_samples l1 = sort_samples l2.
Proof.
  intros Hd Hp. apply Slice_by_keys_unique; [|done].
  rewrite (list_fmap_compose ns_Address (fun a => [a])). apply NoDup_fmap_2; [|done]. by intros ? ? [= ->].
Qed.

(** When the configured addresses are pairwise distinct, the snapshot does
    not depend on the order in which Go traverses the rows. *)
Theorem snapshot_order_independent a ord1 ord2 :
  ord1 ≡ₚ map_to_list (rows a) -> ord2 ≡ₚ map_to_list (rows a) ->
  NoDup ((fun row => Address (ref row)) <$> ord1.*2) ->
  SnapshotAndReset a ord1 = SnapshotAndReset a ord2.
Proof.
  intros H1 H2 Hd. unfold SnapshotAndReset. f_equal. apply sort_samples_unique.
  - by rewrite <- list_fmap_compose.
  - by rewrite H1, H2.
Qed.

(** ** No event is lost or counted twice *)

Section Conservation.
Context (f : TCPEvent -> Z).

Lemma sumZ_split key ks es :
  key ∉ ks ->
  sumZ (f <$> filter (fun e => remoteEndpointKey e ∈ key :: ks) es) =
  sumZ (f <$> events_for key es) + sumZ (f <$> filter (fun e => remoteEndpointKey e ∈ ks) es).
Proof.
  intros Hk. unfold events_for. induction es as [|e es IH]; [done|].
  rewrite !filter_cons.
  repeat destruct (decide _); rewrite ?fmap_cons, ?sumZ_cons; try lia; exfalso; set_solver.
Qed.

Lemma sumZ_groups ks es :
  NoDup ks ->
  sumZ ((fun key => sumZ (f <$> events_for key es)) <$> ks) =
  sumZ (f <$> filter (fun e => remoteEndpointKey e ∈ ks) es).
Proof.
  induction 1 as [|key ks Hk _ IH].
  - induction es as [|e es IH]; [done|]. rewrite filter_cons. destruct (decide _); [set_solver | done].
  - rewrite sumZ_split, fmap_cons, sumZ_cons, IH by done. done.
Qed.

Lemma sumZ_window_keys es :
  sumZ ((fun key => sumZ (f <$> events_for key es)) <$> window_keys es) =
  sumZ (f <$> filter (fun e => remoteEndpointKey e <> 0) es).
Proof.
  rewrite sumZ_groups by apply window_keys_NoDup. do 2 f_equal. apply filter_ext_in.
  intros e He. rewrite elem_of_window_keys. split; [naive_solver|]. intros Hk. split; [done|].
  intros Hnil. assert (Hin : e ∈ events_for (remoteEndpointKey e) es) by (by apply list_elem_of_filter).
  rewrite Hnil in Hin. set_solver.
Qed.

Context (g : networkRow -> Z).
Hypothesis g_summary : forall eps key es row,
  summary eps key es = Some row -> g row = wraps 64 (sumZ (f <$> es)).

Lemma sumZ_reference eps es :
  Forall (fun e => 0 <= f e) es -> sumZ (f <$> es) < 2 ^ 63 ->
  sumZ (g <$> (window_reference eps es).*2) = sumZ (f <$> filter (fun e => remoteEndpointKey e <> 0) es).
Proof.
  intros Hf Hlt. rewrite <- sumZ_window_keys. unfold window_reference.
  assert (Hks : forall key, key ∈ window_keys es -> events_for key es <> []).
  { intros key Hk. by apply elem_of_window_keys in Hk as [_ ?]. }
  revert Hks. generalize (window_keys es) as ks. induction ks as [|key ks IH]; intros Hks; [done|].
  simpl. destruct (summary eps key (events_for key es)) as [row|] eqn:E; simpl.
  - rewrite !sumZ_cons. f_equal; [|apply IH; intros k Hk; apply Hks; by right].
    rewrite (g_summary _ _ _ _ E). apply wraps_small; [lia|].
    pose proof (sumZ_filter_le (fun e => remoteEndpointKey e = key) f es Hf). unfold is_s, events_for. lia.
  - exfalso. unfold summary in E. rewrite bool_decide_eq_false_2 in E; [done|]. apply Hks. left.
Qed.
End Conservation.

Lemma fmap_sample_of {B} (p : NetworkSample -> B) (rs : list networkRow) :
  p <$> (sample_of <$> rs) = (fun row => p (sample_of row)) <$> rs.
Proof. by rewrite <- list_fmap_compose. Qed.

(** The counters are conserved: while a window's totals fit [int64], the
    retransmits and connect errors of a snapshot add up to those of the events that
    name a remote endpoint. *)
Theorem window_conserves a es ord :
  rows a = ∅ -> ord ≡ₚ map_to_list (rows (foldl Observe a es)) ->
  Forall (fun e => 0 <= Retransmits e /\ 0 <= ConnectErrors e) es ->
  sumZ (Retransmits <$> es) < 2 ^ 63 -> sumZ (ConnectErrors <$> es) < 2 ^ 63 ->
  let out := (SnapshotAndReset (foldl Observe a es) ord).1 in
  let known := filter (fun e => remoteEndpointKey e <> 0) es in
  sumZ (TCPRetransmit <$> out) = sumZ (Retransmits <$> known) /\
  sumZ (ConnectError <$> out) = sumZ (ConnectErrors <$> known).
Proof.
  intros Ha Hord Hpos Hr Hc out known. subst out known. cbn [SnapshotAndReset fst].
  rewrite !sort_samples_perm, Hord, rows_reference, !fmap_sample_of by done. cbn.
  assert (Hs : forall eps key fs row, summary eps key fs = Some row ->
    retransmits row = wraps 64 (sumZ (Retransmits <$> fs)) /\ connectErrors row = wraps 64 (sumZ (ConnectErrors <$> fs))).
  { intros eps key fs row. unfold summary. destruct (bool_decide _); naive_solver. }
  split.
  - apply (sumZ_reference _ retransmits); [intros; by eapply Hs | | done].
    eapply Forall_impl; [exact Hpos|]. by intros ? [? ?].
  - apply (sumZ_reference _ connectErrors); [intros; by eapply Hs | | done].
    eapply Forall_impl; [exact Hpos|]. by intros ? [? ?].
Qed.

(** ** Configuration *)

Definition config_entry (x : string * EndpointRef) : option (Z * EndpointRef) :=
  let '(addr, r) := x in
  key ← ParseEndpointKey addr;
  Some (key, if bool_decide (Address r = ""%string)
             then {| Service := Service r; InstanceID := InstanceID r; Address := addr |} else r).

Lemma new_aggregator_endpoints ord :
  endpoints (NewAggregator ord) = list_to_map (reverse (omap config_entry ord)).
Proof.
  unfold NewAggregator. cbn [endpoints]. induction ord as [|[addr r] ord IH] using rev_ind; [done|].
  rewrite foldl_snoc, IH, omap_app, reverse_app. cbn. destruct (ParseEndpointKey addr) as [key|]; cbn; [|done].
  unfold reverse. cbn. done.
Qed.

(** When no two configured addresses denote the same endpoint, the configured
    identities do not depend on the order in which the configuration map is
    traversed. *)
Theorem config_order_independent ord1 ord2 :
  ord1 ≡ₚ ord2 -> NoDup (omap config_entry ord1).*1 -> NewAggregator ord1 = NewAggregator ord2.
Proof.
  intros Hp Hd. assert (He : endpoints (NewAggregator ord1) = endpoints (NewAggregator ord2)).
  - rewrite !new_aggregator_endpoints. apply list_to_map_proper.
    + by rewrite reverse_Permutation.
    + by rewrite !reverse_Permutation, Hp.
  - unfold NewAggregator in *. cbn [endpoints] in He. by rewrite He.
Qed.

(** ** A concrete window *)

Definition demo_tcp_event (key : Z) (addr : string) (r c t : Z) : TCPEvent := {|
  RemoteKey := key; LocalKey := 0; Type_ := EventTypeConnect; RemoteAddr := addr; LocalAddr := "";
  PID := 1; Comm := replicate 16 0; Retransmits := r; ConnectErrors := c; ConnectLatency := 5; ObservedAt := t |}.

Definition demo_config : list (string * EndpointRef) := [
  ("10.0.0.3:7002"%string, {| Service := "order"; InstanceID := "order-1"; Address := "" |});
  ("not an address"%string, {| Service := "x"; InstanceID := "y"; Address := "" |});
  ("10.0.0.1:7001"%string, {| Service := "user"; InstanceID := "user-1"; Address := "10.0.0.1:7001" |})].

Definition demo_events : list TCPEvent := [
  demo_tcp_event 0 "10.0.0.3:7002" 1 0 100; demo_tcp_event 0 "10.0.0.1:7001" 0 1 110;
  demo_tcp_event 0 "" 1 1 115; demo_tcp_event 0 "10.0.0.3:7002" 2 0 120].

Definition demo_aggregator : Aggregator := foldl Observe (NewAggregator demo_config) demo_events.

Lemma window_aggregates_witness :
  let '(out, a') := SnapshotAndReset demo_aggregator (map_to_list (rows demo_aggregator)) in
  out ≡ₚ (sample_of <$> (window_reference (endpoints (NewAggregator demo_config)) demo_events).*2) /\
  (ns_Address <$> out) = ["10.0.0.1:7001"; "10.0.0.3:7002"]%string /\
  (TCPRetransmit <$> out) = [0; 3] /\ rows a' = ∅.
Proof.
  destruct (window_aggregates (NewAggregator demo_config) demo_events (map_to_list (rows demo_aggregator)))
    as (_ & Hp & _); [reflexivity | reflexivity |].
  split; [exact Hp|]. vm_compute. done.
Defined.

Lemma snapshot_order_independent_witness :
  SnapshotAndReset demo_aggregator (map_to_list (rows demo_aggregator)) =
  SnapshotAndReset demo_aggregator (reverse (map_to_list (rows demo_aggregator))).
Proof.
  apply snapshot_order_independent; [reflexivity | apply reverse_Permutation |].
  apply (bool_decide_eq_true _). vm_compute. reflexivity.
Defined.

Lemma window_conserves_witness :
  sumZ (TCPRetransmit <$> (SnapshotAndReset demo_aggregator (map_to_list (rows demo_aggregator))).1) = 3.
Proof.
  destruct (window_conserves (NewAggregator demo_config) demo_events (map_to_list (rows demo_aggregator)))
    as [Hr _].
  - reflexivity.
  - reflexivity.
  - repeat constructor; vm_compute; discriminate.
  - vm_compute. reflexivity.
  - vm_compute. reflexivity.
  - etransitivity; [exact Hr|]. vm_compute. reflexivity.
Defined.

Lemma config_order_independent_witness : NewAggregator demo_config = NewAggregator (reverse demo_config).
Proof.
  apply config_order_independent; [symmetry; apply reverse_Permutation|].
  apply (bool_decide_eq_true _). vm_compute. reflexivity.
Defined.
