(* ===== verification/Agent.v ===== *)
(** * The agent: collector and reporter ([agent/ebpf/collector_linux.go], [reporter.go])

    The collector's read loop decodes ring-buffer records into a bounded channel;
    reporter goroutines receive from the channel, fold the events into the
    aggregator, and close windows.  The goroutines interleave: a label per atomic
    action, and what every interleaving accounts for. *)
From Stdlib Require Import Ascii String Sorted.
From S2P Require Import Prelude GoStd Endpoint Event Aggregator.

Definition eventBufferSize : nat := 1024.

(** 5 seconds. *)
Definition defaultReportInterval : Z := 5 * 1000000000.

(** The collector's side of the channel, and the calls made to its drop counter. *)
Record linuxCollector := { events : list TCPEvent; drops : list string }.

Definition IncDropped (reason : string) (c : linuxCollector) : linuxCollector :=
  {| events := events c; drops := drops c ++ [reason] |}.

(** One iteration of the read loop on a record read without error. *)
Definition readLoop_body (raw : list Z) (c : linuxCollector) : linuxCollector :=
  match DecodeRawTCPEvent raw with
  | inl _ => c
  | inr event =>
      if (length (events c) <? eventBufferSize)%nat
      then {| events := events c ++ [event]; drops := drops c |}
      else IncDropped "channel_full" c
  end.

Section Reporter.
(** The controller's answer to an upload: [None] when the call succeeds. *)
Context {err : Type} (ReportEndpointStats : list EndpointStatsSample -> option err).

(** [client] is whether a client is configured. *)
Record Reporter := {
  collector : option linuxCollector;
  client : bool;
  aggregator : option Aggregator;
  interval : Z
}.

Definition NewReporter (cfg : Reporter) : Reporter :=
  if interval cfg <=? 0
  then {| collector := collector cfg; client := client cfg; aggregator := aggregator cfg;
          interval := defaultReportInterval |}
  else cfg.

(** Receive until the channel is empty. *)
Fixpoint drain (es : list TCPEvent) (a : Aggregator) : Aggregator :=
  match es with
  | [] => a
  | event :: es' => drain es' (Observe a event)
  end.

Definition drainEvents (c : option linuxCollector) (a : Aggregator) : option linuxCollector * Aggregator :=
  match c with
  | None => (None, a)
  | Some c => (Some {| events := []; drops := drops c |}, drain (events c) a)
  end.

(** The result of the upload, the samples sent, and the reporter afterwards. *)
Definition ReportOnce (ord : Aggregator -> list (Z * networkRow)) (r : Reporter)
  : option err * option (list EndpointStatsSample) * Reporter :=
  match client r, aggregator r with
  | true, Some a =>
      let '(c, a) := drainEvents (collector r) a in
      let '(out, a') := SnapshotAndReset a (ord a) in
      let samples := NetworkSamplesToTelemetrySamples out in
      let r' := {| collector := c; client := true; aggregator := Some a'; interval := interval r |} in
      if (length samples =? 0)%nat then (None, None, r')
      else (ReportEndpointStats samples, Some samples, r')
  | _, _ => (None, None, r)
  end.
End Reporter.

(** ** Interleavings *)

(** The shared state, and the events goroutines have received and are about to
    observe. *)
Record agent := { coll : linuxCollector; held : list TCPEvent; agg : Aggregator }.

Inductive action :=
| Read (raw : list Z)
| Receive (e : TCPEvent)
| Observed (e : TCPEvent)
| Report (samples : list EndpointStatsSample).

Inductive agent_step : agent -> action -> agent -> Prop :=
| step_read s raw :
    agent_step s (Read raw) {| coll := readLoop_body raw (coll s); held := held s; agg := agg s |}
| step_receive s e es :
    events (coll s) = e :: es ->
    agent_step s (Receive e)
      {| coll := {| events := es; drops := drops (coll s) |}; held := e :: held s; agg := agg s |}
| step_observe s e h1 h2 :
    held s = h1 ++ e :: h2 ->
    agent_step s (Observed e) {| coll := coll s; held := h1 ++ h2; agg := Observe (agg s) e |}
| step_report s ord out a' :
    ord ≡ₚ map_to_list (rows (agg s)) -> SnapshotAndReset (agg s) ord = (out, a') ->
    agent_step s (Report (NetworkSamplesToTelemetrySamples out)) {| coll := coll s; held := held s; agg := a' |}.

Inductive agent_run : agent -> list action -> agent -> Prop :=
| run_nil s : agent_run s [] s
| run_snoc s ls s' l s'' : agent_run s ls s' -> agent_step s' l s'' -> agent_run s (ls ++ [l]) s''.

(** ** What a trace did *)

(** The events decoded, the window still open, and the windows closed with what
    was reported for each. *)
Record history := {
  h_decoded : list TCPEvent;
  h_open : list TCPEvent;
  h_closed : list (list TCPEvent * list EndpointStatsSample)
}.

Definition decode_ok (raw : list Z) : list TCPEvent :=
  match DecodeRawTCPEvent raw with inl _ => [] | inr e => [e] end.

Definition history_step (h : history) (l : action) : history :=
  match l with
  | Read raw => {| h_decoded := h_decoded h ++ decode_ok raw; h_open := h_open h; h_closed := h_closed h |}
  | Receive _ => h
  | Observed e => {| h_decoded := h_decoded h; h_open := h_open h ++ [e]; h_closed := h_closed h |}
  | Report samples =>
      {| h_decoded := h_decoded h; h_open := []; h_closed := h_closed h ++ [(h_open h, samples)] |}
  end.

Definition history_of (ls : list action) : history :=
  foldl history_step {| h_decoded := []; h_open := []; h_closed := [] |} ls.

(** What a window of events is reported as, up to order. *)
Definition report_reference (eps : gmap Z EndpointRef) (es : list TCPEvent) : list EndpointStatsSample :=
  NetworkSamplesToTelemetrySamples (sample_of <$> (window_reference eps es).*2).

Definition agent_initial (s : agent) : Prop :=
  coll s = {| events := []; drops := [] |} /\ held s = [] /\ rows (agg s) = ∅.

Record agent_inv (eps : gmap Z EndpointRef) (s : agent) (h : history) (lost : list TCPEvent) : Prop := {
  inv_account : h_decoded h ≡ₚ lost ++ events (coll s) ++ held s ++ h_open h ++ concat (h_closed h).*1;
  inv_drops : drops (coll s) = replicate (length lost) "channel_full"%string;
  inv_bound : (length (events (coll s)) <= eventBufferSize)%nat;
  inv_agg : agg s = foldl Observe {| endpoints := eps; rows := ∅ |} (h_open h);
  inv_closed : Forall (fun w => w.2 ≡ₚ report_reference eps w.1) (h_closed h)
}.

Ltac agent_simpl := cbn [coll held agg events drops h_decoded h_open h_closed IncDropped history_step].

Lemma agent_inv_step eps s h lost l s' :
  agent_inv eps s h lost -> agent_step s l s' -> exists lost', agent_inv eps s' (history_step h l) lost'.
Proof.
  intros [Ha Hd Hb Hg Hc] Hstep. destruct Hstep as [s raw | s e es He | s e h1 h2 Hh | s ord out a' Hord Hsnap].
  - agent_simpl. unfold decode_ok, readLoop_body.
    destruct (DecodeRawTCPEvent raw) as [|e]; [exists lost; split; agent_simpl; by rewrite ?app_nil_r|].
    destruct (Nat.ltb_spec (length (events (coll s))) eventBufferSize).
    + exists lost. split; agent_simpl; try done; [|rewrite length_app; simpl; lia].
      rewrite Ha. solve_Permutation.
    + exists (lost ++ [e]). split; agent_simpl; try done; [rewrite Ha; solve_Permutation|].
      rewrite Hd, length_app, replicate_add. done.
  - exists lost. split; agent_simpl; try done.
    + rewrite Ha, He. solve_Permutation.
    + rewrite He in Hb. cbn in Hb. lia.
  - exists lost. split; agent_simpl; try done.
    + rewrite Ha, Hh. solve_Permutation.
    + by rewrite Hg, foldl_snoc.
  - exists lost. split; agent_simpl; try done.
    + rewrite Ha, fmap_app, concat_app. cbn. rewrite app_nil_r. solve_Permutation.
    + injection Hsnap as _ <-. rewrite Hg. cbn [foldl]. f_equal.
      by apply (observe_summary eps (h_open h) {| endpoints := eps; rows := ∅ |} 1).
    + apply Forall_app. split; [done|]. constructor; [|done]. cbn.
      injection Hsnap as <- _. unfold report_reference, NetworkSamplesToTelemetrySamples.
      rewrite sort_samples_perm, Hord, Hg. by rewrite rows_reference.
Qed.

Lemma agent_inv_run s0 ls s :
  agent_initial s0 -> agent_run s0 ls s -> exists lost, agent_inv (endpoints (agg s0)) s (history_of ls) lost.
Proof.
  intros (Hc & Hh & Hr) Hrun. induction Hrun as [s | s ls s' l s'' Hrun IH Hstep].
  - exists []. unfold history_of. split; agent_simpl; rewrite ?Hc, ?Hh; try done.
    + unfold eventBufferSize. cbn. lia.
    + destruct (agg s); cbn in *. by subst.
  - destruct (IH Hc Hh Hr) as [lost Hinv]. unfold history_of. rewrite foldl_snoc. by eapply agent_inv_step.
Qed.

(** C5. In every interleaving of the read loop, the goroutines receiving from the
    channel and those closing windows, every decoded event is in exactly one place:
    dropped because the channel was full (as many as the drop counter says), queued,
    in a goroutine's hands, in the open window, or in one closed window; the channel
    stays within its buffer; and each report is the summary by endpoint of exactly
    its window's events. *)
Theorem agent_accounting s0 ls s :
  agent_initial s0 -> agent_run s0 ls s ->
  let h := history_of ls in
  (exists lost, h_decoded h ≡ₚ lost ++ events (coll s) ++ held s ++ h_open h ++ concat (h_closed h).*1 /\
    drops (coll s) = replicate (length lost) "channel_full"%string) /\
  (length (events (coll s)) <= eventBufferSize)%nat /\
  map_to_list (rows (agg s)) ≡ₚ window_reference (endpoints (agg s0)) (h_open h) /\
  Forall (fun w => w.2 ≡ₚ report_reference (endpoints (agg s0)) w.1) (h_closed h).
Proof.
  intros Hi Hrun h. destruct (agent_inv_run _ _ _ Hi Hrun) as [lost [Ha Hd Hb Hg Hc]].
  split; [by exists lost|]. split; [done|]. split; [|done]. rewrite Hg.
  by rewrite (rows_reference {| endpoints := endpoints (agg s0); rows := ∅ |}).
Qed.

(** ** A report by one goroutine *)

Lemma drain_foldl es a : drain es a = foldl Observe a es.
Proof. revert a. induction es; intros a'; simpl; auto. Qed.

Lemma length_telemetry out : length (NetworkSamplesToTelemetrySamples out) = length out.
Proof. apply length_fmap. Qed.

(** [ReportOnce] closes the window over everything observed before and
    everything queued: it uploads the summary by endpoint of all of it, or makes no
    call when no event names an endpoint, and leaves the channel and the aggregator
    empty whatever the controller answers; the controller's error is returned. *)
Theorem report_once_closes_window {err} (send : list EndpointStatsSample -> option err) ord r c eps seen :
  (forall a, ord a ≡ₚ map_to_list (rows a)) ->
  client r = true -> collector r = Some c ->
  aggregator r = Some (foldl Observe {| endpoints := eps; rows := ∅ |} seen) ->
  let '(res, sent, r') := ReportOnce send ord r in
  let es := seen ++ events c in
  collector r' = Some {| events := []; drops := drops c |} /\
  aggregator r' = Some {| endpoints := eps; rows := ∅ |} /\
  match sent with
  | None => res = None /\ window_reference eps es = []
  | Some samples => res = send samples /\ samples <> [] /\ samples ≡ₚ report_reference eps es
  end.
Proof.
  intros Hord Hcl Hco Hag. unfold ReportOnce. rewrite Hcl, Hag, Hco. cbn [drainEvents SnapshotAndReset].
  rewrite drain_foldl, <- foldl_app. set (es := seen ++ events c).
  set (a := foldl Observe {| endpoints := eps; rows := ∅ |} es).
  assert (He : endpoints a = eps) by (by apply (observe_summary eps es {| endpoints := eps; rows := ∅ |} 1)).
  assert (Hp : NetworkSamplesToTelemetrySamples (sort_samples (sample_of <$> (ord a).*2)) ≡ₚ report_reference eps es).
  { unfold report_reference, NetworkSamplesToTelemetrySamples. rewrite sort_samples_perm, Hord. subst a.
    by rewrite rows_reference. }
  revert Hp. set (samples := NetworkSamplesToTelemetrySamples _). intros Hp. cbv zeta.
  destruct (Nat.eqb_spec (length samples) 0) as [H0 | H0]; cbn [collector aggregator]; rewrite He.
  - repeat (split; [done|]). apply length_zero_iff_nil in H0. rewrite H0 in Hp.
    apply Permutation_nil_l in Hp. symmetry in Hp. unfold report_reference, NetworkSamplesToTelemetrySamples in Hp.
    by apply fmap_nil_inv, fmap_nil_inv, fmap_nil_inv in Hp.
  - repeat (split; [done|]). split; [|done]. intros ->. done.
Qed.

(** ** Concrete runs *)

Definition demo_record : list Z :=
  le_bytes 8 2000 ++ le_bytes 4 4242 ++ le_bytes 4 2 ++ le_bytes 2 2 ++ le_bytes 2 40000 ++ le_bytes 2 7002 ++
  [0; 0] ++ le_bytes 4 (-111) ++ [127; 0; 0; 1] ++ [10; 0; 0; 3] ++ replicate 28 0.

Definition demo_agent : agent :=
  {| coll := {| events := []; drops := [] |}; held := []; agg := NewAggregator demo_config |}.

Definition demo_decoded : TCPEvent :=
  match DecodeRawTCPEvent demo_record with inr e => e | inl _ => demo_tcp_event 0 "" 0 0 0 end.

Definition demo_s1 : agent :=
  {| coll := readLoop_body demo_record (coll demo_agent); held := []; agg := NewAggregator demo_config |}.
Definition demo_s2 : agent :=
  {| coll := {| events := []; drops := drops (coll demo_s1) |}; held := [demo_decoded]; agg := agg demo_s1 |}.
Definition demo_s3 : agent := {| coll := coll demo_s2; held := []; agg := Observe (agg demo_s2) demo_decoded |}.
Definition demo_snapshot : list NetworkSample * Aggregator :=
  SnapshotAndReset (agg demo_s3) (map_to_list (rows (agg demo_s3))).
Definition demo_s4 : agent := {| coll := coll demo_s3; held := held demo_s3; agg := demo_snapshot.2 |}.

Lemma agent_accounting_witness :
  exists samples,
    samples ≡ₚ report_reference (endpoints (NewAggregator demo_config)) [demo_decoded] /\
    (es_ConnectError <$> samples) = [1].
Proof.
  set (samples := NetworkSamplesToTelemetrySamples demo_snapshot.1).
  destruct (agent_accounting demo_agent
    (((([] ++ [Read demo_record]) ++ [Receive demo_decoded]) ++ [Observed demo_decoded]) ++ [Report samples]) demo_s4)
    as (_ & _ & _ & Hw).
  - done.
  - apply run_snoc with demo_s3; [apply run_snoc with demo_s2; [apply run_snoc with demo_s1|]|].
    + apply run_snoc with demo_agent; [apply run_nil | apply (step_read demo_agent)].
    + apply (step_receive demo_s1 demo_decoded []). vm_compute. reflexivity.
    + apply (step_observe demo_s2 demo_decoded [] []). reflexivity.
    + apply (step_report demo_s3 (map_to_list (rows (agg demo_s3)))); reflexivity.
  - exists samples. split; [|vm_compute; reflexivity]. by inversion Hw.
Defined.

Definition demo_reporter : Reporter := {|
  collector := Some {| events := demo_events; drops := [] |}; client := true;
  aggregator := Some (foldl Observe {| endpoints := endpoints (NewAggregator demo_config); rows := ∅ |} [demo_decoded]);
  interval := 0 |}.

Lemma report_once_closes_window_witness :
  exists samples, ReportOnce (fun _ => Some tt) (fun a => map_to_list (rows a)) demo_reporter =
    (Some tt, Some samples, {| collector := Some {| events := []; drops := [] |}; client := true;
      aggregator := Some {| endpoints := endpoints (NewAggregator demo_config); rows := ∅ |}; interval := 0 |}) /\
    samples ≡ₚ report_reference (endpoints (NewAggregator demo_config)) (demo_decoded :: demo_events).
Proof.
  pose proof (report_once_closes_window (fun _ => Some tt) (fun a => map_to_list (rows a)) demo_reporter
    {| events := demo_events; drops := [] |} (endpoints (NewAggregator demo_config)) [demo_decoded]) as H.
  specialize (H ltac:(reflexivity) ltac:(reflexivity) ltac:(reflexivity) ltac:(reflexivity)).
  destruct (ReportOnce _ _ demo_reporter) as [[res sent] r'] eqn:E. vm_compute in E.
  injection E as <- <- <-. destruct H as (_ & _ & _ & _ & Hp). eexists. split; [reflexivity|]. exact Hp.
Defined.
