(* ===== verification/Pipeline.v ===== *)
(** * From the kernel to the controller

    The probes, the decoder and the aggregator composed: what the counters an
    endpoint is reported with say about what happened in the kernel. *)
From Stdlib Require Import Ascii String.
From S2P Require Import Prelude CTypes Vmlinux Bpf TcpMetrics WireFormat TcpMetricsSpec BpfModel TcpSystem.
From S2P Require Import GoStd Endpoint Event Aggregator Agent.

(** The endpoint an event is about. *)
Definition event_key (e : tcp_event) : Z := packEndpoint (ev_daddr_v4 e) (ev_dport e).

Definition is_retransmit (e : tcp_event) : Prop := ev_type e = AEGIS_EVENT_RETRANSMIT.
Definition is_failed_connect (e : tcp_event) : Prop := ev_type e = AEGIS_EVENT_CONNECT /\ ev_ret e <> 0.

#[local] Instance is_retransmit_dec e : Decision (is_retransmit e).
Proof. unfold is_retransmit. apply _. Defined.
#[local] Instance is_failed_connect_dec e : Decision (is_failed_connect e).
Proof. unfold is_failed_connect. apply _. Defined.

Definition count (P : tcp_event -> Prop) `{forall e, Decision (P e)} (es : list tcp_event) : Z :=
  Z.of_nat (length (filter P es)).

(** Decoding everything read from the ring buffer. *)
Definition decode_all (records : list (list Z)) : list TCPEvent := concat (decode_ok <$> records).

Definition as_decoded (e : tcp_event) : TCPEvent := decoded e (misread_latency e) (misread_comm e).

Lemma decode_all_events es : Forall wf_event es -> decode_all (encode_event <$> es) = as_decoded <$> es.
Proof.
  induction 1 as [|e es He _ IH]; [done|]. unfold decode_all in *. rewrite !fmap_cons. cbn [concat].
  rewrite IH. unfold decode_ok. by rewrite decode_encode_event.
Qed.

Lemma as_decoded_key e : remoteEndpointKey (as_decoded e) = event_key e.
Proof.
  unfold remoteEndpointKey, as_decoded, event_key. cbn. destruct (Z.eqb_spec (packEndpoint (ev_daddr_v4 e) (ev_dport e)) 0); done.
Qed.

Lemma events_for_decoded key es :
  events_for key (as_decoded <$> es) = as_decoded <$> filter (fun e => event_key e = key) es.
Proof.
  unfold events_for. induction es as [|e es IH]; [done|]. rewrite fmap_cons, !filter_cons.
  rewrite as_decoded_key, IH. by destruct (decide (event_key e = key)).
Qed.

Lemma count_sum (P : tcp_event -> Prop) `{forall e, Decision (P e)} (f : TCPEvent -> Z) es :
  (forall e, f (as_decoded e) = if decide (P e) then 1 else 0) -> sumZ (f <$> (as_decoded <$> es)) = count P es.
Proof.
  intros Hf. unfold count. induction es as [|e es IH]; [done|]. rewrite !fmap_cons, sumZ_cons, IH, Hf, filter_cons.
  destruct (decide (P e)); cbn [length]; lia.
Qed.

Lemma retransmits_decoded e : Retransmits (as_decoded e) = if decide (is_retransmit e) then 1 else 0.
Proof.
  cbn. unfold is_retransmit, EventTypeRetransmit, AEGIS_EVENT_RETRANSMIT. destruct (Z.eqb_spec (ev_type e) 1); by case_decide.
Qed.

Lemma connect_errors_decoded e : ConnectErrors (as_decoded e) = if decide (is_failed_connect e) then 1 else 0.
Proof.
  cbn. unfold is_failed_connect, EventTypeRetransmit, EventTypeConnect, AEGIS_EVENT_CONNECT.
  destruct (Z.eqb_spec (ev_type e) 1), (Z.eqb_spec (ev_type e) 2), (Z.eqb_spec (ev_ret e) 0); cbn; case_decide; lia.
Qed.

Lemma count_range (P : tcp_event -> Prop) `{forall e, Decision (P e)} es :
  Z.of_nat (length es) < 2 ^ 63 -> is_s 64 (count P es).
Proof. pose proof (length_filter P es). unfold count, is_s. lia. Qed.

(** C4. The counters reported for an endpoint count what happened in the kernel:
    in any interleaving of the probes, if everything published is read and folded
    into a fresh aggregator, then every record is decoded, an endpoint has a row
    exactly when some published event is about it, and the row's retransmit and
    connect-error counters are the numbers of retransmits and failed connects
    published for that endpoint. *)
Theorem pipeline_counts {K} `{!BpfRuntime K} {target} `{!BpfLaws K target} (k0 k : K) eps :
  compatible target -> initial k0 -> rtc probe_step k0 k ->
  Z.of_nat (length (v_ring (view k))) < 2 ^ 63 ->
  exists es, v_ring (view k) = encode_event <$> es /\
    length (decode_all (v_ring (view k))) = length es /\
    forall key, key <> 0 ->
      let mine := filter (fun e => event_key e = key) es in
      match rows (foldl Observe {| endpoints := eps; rows := ∅ |} (decode_all (v_ring (view k)))) !! key with
      | None => mine = []
      | Some row => mine <> [] /\ retransmits row = count is_retransmit mine /\
                    connectErrors row = count is_failed_connect mine
      end.
Proof.
  intros Hc Hi Hs Hlen. destruct (reachable_refines Hc _ _ Hi Hs) as [a [_ Hr _ He]].
  exists (a_events a). rewrite Hr in *. rewrite length_fmap in Hlen.
  rewrite decode_all_events by (eapply Forall_impl; [exact He | by intros e [Hwf _]]).
  split; [done|]. split; [by rewrite length_fmap|]. intros key Hk mine.
  set (a0 := {| endpoints := eps; rows := ∅ |}).
  destruct (observe_summary eps (as_decoded <$> a_events a) a0 key eq_refl eq_refl Hk) as [_ ->].
  rewrite events_for_decoded. fold mine.
  assert (Hm : Z.of_nat (length mine) < 2 ^ 63).
  { pose proof (length_filter (fun e => event_key e = key) (a_events a)). subst mine. lia. }
  unfold summary. destruct (decide (mine = [])) as [-> | Hne]; [done|].
  rewrite bool_decide_eq_false_2 by (by intros ?%fmap_nil_inv). cbn [retransmits connectErrors].
  rewrite (count_sum is_retransmit) by apply retransmits_decoded.
  rewrite (count_sum is_failed_connect) by apply connect_errors_decoded.
  rewrite !wraps_small by (try lia; by apply count_range). done.
Qed.
