(* ===== verification/TcpWitness.v ===== *)
(** * The probes on a concrete kernel

    The properties of the probe system instantiated at the executable runtime:
    their hypotheses hold there, and the runs are evaluated. *)
From S2P Require Import Prelude CTypes Vmlinux Bpf TcpMetrics WireFormat TcpMetricsSpec BpfModel TcpSystem.
From S2P Require Import Endpoint Event Aggregator Agent Pipeline.

#[local] Existing Instance model_runtime.
#[local] Existing Instance model_laws.

Lemma kernel_env_compatible : compatible kernel_env.
Proof.
  assert (H : bool_decide (compatible kernel_env) = true) by (vm_compute; reflexivity).
  by apply bool_decide_eq_true in H.
Qed.

#[local] Instance demo_runtime : BpfRuntime kstate := model_runtime kernel_env.
#[local] Instance demo_laws : BpfLaws kstate kernel_env := model_laws kernel_env.

Lemma demo_initial : initial demo_kernel.
Proof. split; reflexivity. Qed.

Definition after_connect : kstate := (aegis_tcp_v4_connect demo_sock demo_addr demo_kernel).2.
Definition after_return : kstate := (aegis_tcp_v4_connect_ret (-111) after_connect).2.

Definition demo_event : tcp_event := {|
  ev_timestamp_ns := 2000; ev_pid := 4242; ev_type := AEGIS_EVENT_CONNECT; ev_family := 2; ev_sport := 40000;
  ev_dport := 7002; ev_pad := 0; ev_ret := -111; ev_saddr_v4 := 16777343; ev_daddr_v4 := 50331658;
  ev_connect_latency_ns := 500; ev_comm := [99; 117; 114; 108; 0; 0; 0; 0; 0; 0; 0; 0; 0; 0; 0; 0] |}.

(** The run publishes exactly the expected bytes and leaves the map empty. *)
Example demo_run : v_ring (view after_return) = [encode_event demo_event] /\ v_map (view after_return) = ∅.
Proof. split; vm_compute; reflexivity. Qed.

Lemma demo_reachable : rtc probe_step demo_kernel after_return.
Proof.
  apply rtc_l with after_connect; [eexists; apply step_connect|]. apply rtc_once. eexists. apply step_connect_ret. unfold is_s. lia.
Qed.

(** The attempt is recorded; after its return it is gone, and published. *)
Lemma probes_refine_spec_witness :
  exists a1 now1 now2, refines after_connect a1 /\ refines after_return (spec_next kernel_env (ConnectReturn (-111)) (view after_connect) now2 a1) /\
    a1 = spec_next kernel_env (ConnectEntry demo_sock demo_addr) (view demo_kernel) now1 {| a_pending := ∅; a_events := [] |} /\
    1000 <= now1 /\ dom (a_pending a1) = {[v_tid (view demo_kernel)]} /\
    length (a_events (spec_next kernel_env (ConnectReturn (-111)) (view after_connect) now2 a1)) = 1%nat.
Proof.
  destruct (proj2 (probes_refine_spec demo_kernel after_connect (ConnectEntry demo_sock demo_addr) {| a_pending := ∅; a_events := [] |} kernel_env_compatible))
    as (now1 & Hn1 & H1).
  - exact (proj1 (probes_refine_spec demo_kernel after_connect KernelActivity {| a_pending := ∅; a_events := [] |} kernel_env_compatible) demo_initial).
  - apply step_connect.
  - destruct (proj2 (probes_refine_spec after_connect after_return (ConnectReturn (-111)) _ kernel_env_compatible) H1) as (now2 & Hn2 & H2).
    + apply step_connect_ret. unfold is_s. lia.
    + eexists _, now1, now2. split; [exact H1|]. split; [exact H2|]. split; [reflexivity|]. split; [exact (proj1 Hn1)|].
      split; vm_compute; reflexivity.
Defined.

Lemma connect_pairing_witness :
  exists t0 t1, 1000 <= t0 <= t1 /\
    v_map (view after_return) = delete (v_tid (view demo_kernel)) (v_map (view after_connect)) /\
    (v_ring (view after_return) = [] \/ v_ring (view after_return) =
       [encode_event (connect_event (start_of kernel_env (view demo_kernel) t0 demo_sock demo_addr) t1 (-111))]).
Proof.
  destruct (connect_pairing demo_kernel demo_kernel after_connect demo_sock demo_addr (-111))
    as (t0 & t1 & Ht & _ & Hm & Hr).
  - exact kernel_env_compatible.
  - exact demo_initial.
  - apply rtc_refl.
  - vm_compute. reflexivity.
  - vm_compute. eexists. reflexivity.
  - apply rtc_refl.
  - vm_compute. reflexivity.
  - unfold is_s. lia.
  - exists t0, t1. split; [exact Ht|]. split; [exact Hm|]. exact Hr.
Defined.

Lemma published_stream_invariant_witness :
  Forall (fun r => exists e, r = encode_event e /\ event_ok e /\ length r = 64%nat) (v_ring (view after_return)) /\
  v_ring (view after_return) <> [] /\
  map_Forall (fun tid r => recorded_by demo_kernel after_connect tid r) (v_map (view after_connect)) /\
  v_map (view after_connect) <> ∅.
Proof.
  split; [|split; [vm_compute; discriminate|split; [|vm_compute; discriminate]]].
  - apply (published_stream_invariant demo_kernel after_return).
    + exact kernel_env_compatible.
    + exact demo_initial.
    + exact demo_reachable.
  - intros tid r Hr. apply (published_stream_invariant demo_kernel after_connect) in Hr as (_ & Hr & _).
    + exact Hr.
    + exact kernel_env_compatible.
    + exact demo_initial.
    + apply rtc_once. eexists. apply step_connect.
Defined.

Lemma pipeline_counts_witness :
  exists row,
    rows (foldl Observe {| endpoints := ∅; rows := ∅ |} (decode_all (v_ring (view after_return)))) !!
      event_key demo_event = Some row /\ retransmits row = 0 /\ connectErrors row = 1.
Proof.
  destruct (pipeline_counts demo_kernel after_return ∅) as (es & Hr & _ & Hkey).
  - exact kernel_env_compatible.
  - exact demo_initial.
  - exact demo_reachable.
  - vm_compute. reflexivity.
  - clear Hr. specialize (Hkey (event_key demo_event) ltac:(vm_compute; discriminate)).
    destruct (rows _ !! _) as [row|] eqn:E; [|vm_compute in E; discriminate].
    exists row. split; [reflexivity|]. vm_compute in E. injection E as <-. split; reflexivity.
Defined.

Lemma connect_return_always_clears_witness :
  v_map (view after_connect) <> ∅ /\
  v_map (view after_return) = delete (v_tid (view after_connect)) (v_map (view after_connect)).
Proof.
  split; [vm_compute; discriminate|].
  pose proof (connect_return_always_clears after_connect (-111)) as H. unfold after_return.
  destruct (aegis_tcp_v4_connect_ret (-111) after_connect) as [r k']. exact (proj1 (proj2 H)).
Defined.

Lemma connect_entry_records_witness :
  v_ring (view after_connect) = v_ring (view demo_kernel) /\
  exists now, v_map (view after_connect) =
    <[v_tid (view demo_kernel) := encode_start (start_of kernel_env (view demo_kernel) now demo_sock demo_addr)]>
      (v_map (view demo_kernel)).
Proof.
  pose proof (connect_entry_records demo_kernel demo_sock demo_addr kernel_env_compatible) as H.
  assert (Hne : v_map (view after_connect) <> v_map (view demo_kernel)) by (vm_compute; discriminate).
  unfold after_connect in *. destruct (aegis_tcp_v4_connect demo_sock demo_addr demo_kernel) as [r k'].
  destruct H as (_ & Hr & [Hm | (_ & _ & now & _ & Hm)]); [by destruct Hne|]. split; [exact Hr|]. by exists now.
Defined.

Definition after_retransmit : kstate := (aegis_tcp_retransmit demo_sock demo_kernel).2.

Lemma retransmit_publishes_or_drops_witness :
  exists now, 1000 <= now < 2 ^ 64 /\
    v_ring (view after_retransmit) = [encode_event (retransmit_event kernel_env (view demo_kernel) now demo_sock)].
Proof.
  pose proof (retransmit_publishes_or_drops demo_kernel demo_sock kernel_env_compatible) as H.
  unfold after_retransmit. destruct (aegis_tcp_retransmit demo_sock demo_kernel) as [r k'].
  exact (proj2 (proj2 H)).
Defined.

(** Another kernel, with the socket members in another order. *)
Definition other_header : list cdecl := [
  decl "__be16" c_ushort; decl "__be32" c_uint;
  decl "struct sock_common" (CStruct false [
    fld "skc_state" c_uchar; fld "skc_family" c_ushort; fld "skc_num" c_ushort; fld "skc_cookie" c_ulong;
    fld "skc_dport" (CNamed "__be16"); fld "skc_rcv_saddr" (CNamed "__be32"); fld "skc_daddr" (CNamed "__be32")]);
  decl "struct sock" (CStruct false [fld "sk_lock" c_ulong; fld "__sk_common" (CNamed "struct sock_common")]);
  decl "struct in_addr" (CStruct false [fld "s_addr" (CNamed "__be32")]);
  decl "struct sockaddr_in" (CStruct false [
    fld "sin_family" c_ushort; fld "sin_port" (CNamed "__be16"); fld "sin_addr" (CNamed "struct in_addr")])].

Definition other_env : env := default ∅ (elaborate ∅ other_header).

Definition other_kernel : kstate := {|
  ks_mem := list_to_map (bytes_at demo_sock (
    replicate 8 0 ++ [1; 0] ++ [2; 0] ++ [64; 156] ++ replicate 2 0 ++ replicate 8 0 ++ [27; 90] ++ [0; 0] ++
    [127; 0; 0; 1] ++ [10; 0; 0; 3]));
  ks_clock := 7; ks_tick := 1; ks_tid := 0; ks_comm := []; ks_ring := []; ks_room := 0; ks_map := ∅ |}.

Lemma other_env_compatible : compatible other_env.
Proof.
  assert (H : bool_decide (compatible other_env) = true) by (vm_compute; reflexivity).
  by apply bool_decide_eq_true in H.
Qed.

Lemma fill_tuple_kernel_independent_witness :
  offset_of kernel_env sock_t ["__sk_common"; "skc_daddr"] <> offset_of other_env sock_t ["__sk_common"; "skc_daddr"] /\
  (@fill_tuple kstate (model_runtime kernel_env) (encode_event demo_event) demo_sock demo_kernel).1 =
  (@fill_tuple kstate (model_runtime other_env) (encode_event demo_event) demo_sock other_kernel).1.
Proof.
  split; [vm_compute; discriminate|].
  apply (@fill_tuple_kernel_independent kstate kstate (model_runtime kernel_env) (model_runtime other_env)
    kernel_env other_env (model_laws kernel_env) (model_laws other_env)).
  - exact kernel_env_compatible.
  - exact other_env_compatible.
  - reflexivity.
  - intros m f off1 off2 Hin Hf H1 H2. unfold core_members in Hin. rewrite !elem_of_cons in Hin.
    destruct Hin as [E | [E | [E | [E | [E | [E | [E | E]]]]]]].
    6-7: discriminate E.
    6: inversion E.
    all: injection E as ->.
    all: vm_compute in Hf.
    all: vm_compute in H1, H2.
    all: injection Hf as <-; injection H1 as <-; injection H2 as <-.
    all: vm_compute; reflexivity.
Defined.
