(* ===== verification/GoFloat.v ===== *)
(** * Go's [float64]

    IEEE 754 binary64 with round-to-nearest-even, by the executable
    specification of the standard library; each operation is rounded on its own,
    as on amd64 where the compiler does not fuse multiply and add.  Comparisons
    with NaN are false, as in Go. *)
From Stdlib Require Import SpecFloat.
From S2P Require Import Prelude.

Abbreviation float64 := spec_float.

Definition prec64 : Z := 53.
Definition emax64 : Z := 1024.

Definition fadd : float64 -> float64 -> float64 := SFadd prec64 emax64.
Definition fsub : float64 -> float64 -> float64 := SFsub prec64 emax64.
Definition fmul : float64 -> float64 -> float64 := SFmul prec64 emax64.
Definition fdiv : float64 -> float64 -> float64 := SFdiv prec64 emax64.

Definition flt (x y : float64) : bool := SFltb x y.
Definition fle (x y : float64) : bool := SFleb x y.
Definition feq (x y : float64) : bool := SFeqb x y.

(** [float64(n)] for an integer. *)
Definition of_int (n : Z) : float64 := binary_normalize prec64 emax64 n 0 false.

(** The constant [n/d], for literals such as [0.95]: the quotient of two exact
    values, correctly rounded. *)
Definition flit (n d : Z) : float64 := fdiv (of_int n) (of_int d).

Definition fzero : float64 := S754_zero false.

(** [math.IsNaN] *)
Definition IsNaN (x : float64) : bool := match x with S754_nan => true | _ => false end.

(** [math.Abs] *)
Definition fabs : float64 -> float64 := SFabs.

(** [math.Max], with its special cases. *)
Definition fmax (x y : float64) : float64 :=
  match x, y with
  | S754_infinity false, _ | _, S754_infinity false => S754_infinity false
  | S754_nan, _ | _, S754_nan => S754_nan
  | S754_zero sx, S754_zero _ => if sx then y else x
  | _, _ => if flt y x then x else y
  end.

(** The integer part of a finite value, towards minus infinity and towards zero. *)
Definition floorZ (m e : Z) : Z := if 0 <=? e then m * 2 ^ e else m / 2 ^ (- e).
Definition truncZ (m e : Z) : Z := if 0 <=? e then m * 2 ^ e else Z.quot m (2 ^ (- e)).

Definition signed (s : bool) (m : positive) : Z := if s then Z.neg m else Z.pos m.

(** [math.Floor] *)
Definition ffloor (x : float64) : float64 :=
  match x with
  | S754_finite s m e => if 0 <=? e then x else
      binary_normalize prec64 emax64 (floorZ (signed s m) e) 0 s
  | _ => x
  end.

(** [int64(x)]: truncation; what amd64 gives for a value out of range. *)
Definition to_int64 (x : float64) : Z :=
  match x with
  | S754_zero _ => 0
  | S754_finite s m e =>
      let n := truncZ (signed s m) e in
      if (- 2 ^ 63 <=? n) && (n <? 2 ^ 63) then n else - 2 ^ 63
  | _ => - 2 ^ 63
  end.

(** [uint64(x)]: truncation; what amd64 gives for a value out of range. *)
Definition to_uint64 (x : float64) : Z :=
  match x with
  | S754_zero _ => 0
  | S754_finite s m e =>
      let n := truncZ (signed s m) e in
      if n <? 2 ^ 63 then wrapu 64 (to_int64 x) else if n <? 2 ^ 64 then n else 2 ^ 63
  | _ => 2 ^ 63
  end.

(** [math.Round]: to the nearest integer, halves away from zero. *)
Definition fround (x : float64) : float64 :=
  match x with
  | S754_finite s m e => if 0 <=? e then x else
      let n := (2 * Z.pos m + 2 ^ (- e)) / 2 ^ (1 - e) in
      binary_normalize prec64 emax64 (if s then - n else n) 0 s
  | _ => x
  end.

(** ** Order *)

(** The position of a value that is not NaN, in lexicographic order. *)
Definition fkey (x : float64) : option (Z * Z * Z) :=
  match x with
  | S754_nan => None
  | S754_infinity s => Some (if s then -2 else 2, 0, 0)
  | S754_zero _ => Some (0, 0, 0)
  | S754_finite s m e => Some (if s then (-1, - e, Z.neg m) else (1, e, Z.pos m))
  end.

Definition lex_lt (a b : Z * Z * Z) : Prop :=
  a.1.1 < b.1.1 \/ a.1.1 = b.1.1 /\ (a.1.2 < b.1.2 \/ a.1.2 = b.1.2 /\ a.2 < b.2).

Lemma SFcompare_key x y :
  match SFcompare x y, fkey x, fkey y with
  | Some Lt, Some a, Some b => lex_lt a b
  | Some Gt, Some a, Some b => lex_lt b a
  | Some Eq, Some a, Some b => a = b
  | None, a, b => a = None \/ b = None
  | _, _, _ => False
  end.
Proof.
  destruct x as [s | s | | s m e], y as [s' | s' | | s' m' e']; simpl; auto;
    repeat match goal with b : bool |- _ => destruct b end; simpl; unfold lex_lt; simpl; auto; try lia;
    (destruct (Z.compare_spec e e'); subst; simpl; try lia);
    change (PosDef.Pos.compare_cont Eq m m') with (Pos.compare m m');
    destruct (Pos.compare_spec m m'); subst; simpl; try reflexivity; lia.
Qed.

Definition lex_le (a b : Z * Z * Z) : Prop := lex_lt a b \/ a = b.

Definition key_rel (R : Z * Z * Z -> Z * Z * Z -> Prop) (x y : float64) : Prop :=
  match fkey x, fkey y with Some a, Some b => R a b | _, _ => False end.

Lemma lex_asym a b : lex_lt a b -> ~ lex_le b a.
Proof. unfold lex_le, lex_lt. destruct a as [[? ?] ?], b as [[? ?] ?]; simpl. intros ? [? | ?]; simplify_eq; lia. Qed.

Lemma fle_key x y : fle x y = true <-> key_rel lex_le x y.
Proof.
  pose proof (SFcompare_key x y) as H. unfold fle, SFleb, key_rel.
  destruct (SFcompare x y) as [[]|], (fkey x) as [a|], (fkey y) as [b|]; split; intros H'; try done.
  - by right.
  - by left.
  - by apply lex_asym in H.
  - by destruct H.
Qed.

Lemma flt_key x y : flt x y = true <-> key_rel lex_lt x y.
Proof.
  pose proof (SFcompare_key x y) as H. unfold flt, SFltb, key_rel.
  destruct (SFcompare x y) as [[]|], (fkey x) as [a|], (fkey y) as [b|]; split; intros H'; try done.
  - subst. exfalso. apply (lex_asym b b H'). by right.
  - exfalso. apply (lex_asym _ _ H). by left.
  - by destruct H.
Qed.

Lemma lex_le_trans a b c : lex_le a b -> lex_le b c -> lex_le a c.
Proof.
  unfold lex_le, lex_lt. destruct a as [[? ?] ?], b as [[? ?] ?], c as [[? ?] ?]; simpl.
  intros [? | ?] [? | ?]; simplify_eq; try tauto; left; lia.
Qed.

Lemma lex_total a b : lex_le a b \/ lex_lt b a.
Proof.
  unfold lex_le, lex_lt. destruct a as [[a1 a2] a3], b as [[b1 b2] b3]; simpl.
  destruct (Z.lt_trichotomy a1 b1) as [? | [-> | ?]]; [lia | | lia].
  destruct (Z.lt_trichotomy a2 b2) as [? | [-> | ?]]; [lia | | lia].
  destruct (Z.lt_trichotomy a3 b3) as [? | [-> | ?]]; [lia | tauto | lia].
Qed.

Lemma fle_trans x y z : fle x y = true -> fle y z = true -> fle x z = true.
Proof.
  rewrite !fle_key. unfold key_rel. destruct (fkey x), (fkey y), (fkey z); try done. apply lex_le_trans.
Qed.

(** On values that are not NaN the order is total. *)
Lemma fle_total x y : IsNaN x = false -> IsNaN y = false -> fle x y = true \/ flt y x = true.
Proof.
  intros Hx Hy. rewrite fle_key, flt_key. unfold key_rel. destruct x, y; try done; simpl; apply lex_total.
Qed.

Lemma flt_fle_false x y : flt x y = true -> fle y x = false.
Proof.
  intros H. destruct (fle y x) eqn:E; [|done]. apply fle_key in E. apply flt_key in H.
  unfold key_rel in *. destruct (fkey x), (fkey y); try done. by apply lex_asym in H.
Qed.

Lemma flt_fle x y : flt x y = true -> fle x y = true.
Proof. rewrite flt_key, fle_key. unfold key_rel. destruct (fkey x), (fkey y); try done. by left. Qed.

Lemma feq_key x y : feq x y = true <-> key_rel eq x y.
Proof.
  pose proof (SFcompare_key x y) as H. unfold feq, SFeqb, key_rel.
  destruct (SFcompare x y) as [[]|], (fkey x) as [a|], (fkey y) as [b|]; split; intros H'; try done.
  - subst. exfalso. apply (lex_asym b b H). by right.
  - subst. exfalso. apply (lex_asym b b H). by right.
  - by destruct H.
Qed.

Lemma feq_trans x y z : feq x y = true -> feq y z = true -> feq x z = true.
Proof. rewrite !feq_key. unfold key_rel. destruct (fkey x), (fkey y), (fkey z); try done. congruence. Qed.
