(* ===== verification/Status.v ===== *)
(** * Health status codes ([pkg/status/status.go]) *)
From Stdlib Require Import String.
From S2P Require Import Prelude.

Inductive Code := Unspecified | Healthy | Degraded | Ejected | Probing | Dead | Unavailable.

#[export] Instance Code_eq_dec : EqDecision Code.
Proof. solve_decision. Defined.

Definition Parse (s : string) : Code :=
  if bool_decide (s = "" \/ s = "HEALTHY")%string then Healthy
  else if bool_decide (s = "DEGRADED")%string then Degraded
  else if bool_decide (s = "EJECTED")%string then Ejected
  else if bool_decide (s = "PROBING")%string then Probing
  else if bool_decide (s = "DEAD")%string then Dead
  else if bool_decide (s = "UNAVAILABLE")%string then Unavailable
  else Unspecified.

Definition Code_String (c : Code) : string :=
  match c with
  | Healthy => "HEALTHY"
  | Degraded => "DEGRADED"
  | Ejected => "EJECTED"
  | Probing => "PROBING"
  | Dead => "DEAD"
  | Unavailable => "UNAVAILABLE"
  | Unspecified => "HEALTHY"
  end.

Definition Normalized (c : Code) : Code := match c with Unspecified => Healthy | _ => c end.

Definition Routable (c : Code) : bool :=
  match Normalized c with Healthy | Degraded | Probing => true | _ => false end.

Definition NormalTraffic (c : Code) : bool :=
  match Normalized c with Healthy | Degraded => true | _ => false end.

Definition IsProbing (c : Code) : bool := match c with Probing => true | _ => false end.

(** Printing and parsing lose only the distinction the code does not make. *)
Lemma Parse_String c : Parse (Code_String c) = Normalized c.
Proof. by destruct c. Qed.

Lemma String_Parse s : Parse s <> Unspecified -> Code_String (Parse s) = s \/ s = ""%string.
Proof. unfold Parse. intros H. repeat case_bool_decide; subst; naive_solver. Qed.

Lemma Routable_split c : Routable c = NormalTraffic c || IsProbing c.
Proof. by destruct c. Qed.
