(* ===== verification/StateMachine.v ===== *)
(** * The endpoint state machine ([pkg/fault/state_machine.go])

    Degradation, ejection, probing and recovery of one endpoint, driven by slow
    scores.  [clock] is the wall clock, read when an input carries no time. *)
From Stdlib Require Import String.
From S2P Require Import Prelude GoStd GoFloat Status.

(** ** Configuration *)

Record StateMachineConfig := {
  DegradedThreshold : float64;
  EjectThreshold : float64;
  ConsecutiveWindows : Z;
  EjectionDuration : Z;
  RecoveryThreshold : float64;
  ProbeSuccessThreshold : float64
}.

Definition DefaultStateMachineConfig : StateMachineConfig := {|
  DegradedThreshold := flit 15 10;
  EjectThreshold := flit 25 10;
  ConsecutiveWindows := 3;
  EjectionDuration := 30 * 1000000000;
  RecoveryThreshold := flit 1 1;
  ProbeSuccessThreshold := flit 95 100
|}.

Definition default_float (x d : float64) : float64 := if fle x fzero then d else x.
Definition default_int (x d : Z) : Z := if x <=? 0 then d else x.

Definition defaultStateMachineConfig (cfg : StateMachineConfig) : StateMachineConfig :=
  let defaults := DefaultStateMachineConfig in {|
    DegradedThreshold := default_float (DegradedThreshold cfg) (DegradedThreshold defaults);
    EjectThreshold := default_float (EjectThreshold cfg) (EjectThreshold defaults);
    ConsecutiveWindows := default_int (ConsecutiveWindows cfg) (ConsecutiveWindows defaults);
    EjectionDuration := default_int (EjectionDuration cfg) (EjectionDuration defaults);
    RecoveryThreshold := default_float (RecoveryThreshold cfg) (RecoveryThreshold defaults);
    ProbeSuccessThreshold := default_float (ProbeSuccessThreshold cfg) (ProbeSuccessThreshold defaults)
  |}.

Definition override_float (x base : float64) : float64 := if flt fzero x then x else base.
Definition override_int (x base : Z) : Z := if 0 <? x then x else base.

Definition resolveStateMachineConfig (base override : StateMachineConfig) : StateMachineConfig :=
  let base := defaultStateMachineConfig base in {|
    DegradedThreshold := override_float (DegradedThreshold override) (DegradedThreshold base);
    EjectThreshold := override_float (EjectThreshold override) (EjectThreshold base);
    ConsecutiveWindows := override_int (ConsecutiveWindows override) (ConsecutiveWindows base);
    EjectionDuration := override_int (EjectionDuration override) (EjectionDuration base);
    RecoveryThreshold := override_float (RecoveryThreshold override) (RecoveryThreshold base);
    ProbeSuccessThreshold := override_float (ProbeSuccessThreshold override) (ProbeSuccessThreshold base)
  |}.

(** ** Endpoint health *)

Record StateInput := { Now : Z; in_SlowScore : float64; SuccessRate : float64 }.

Record EndpointHealth := {
  Service : string;
  InstanceID : string;
  Address : string;
  RegistrationEpoch : string;
  State : Code;
  SlowScore : float64;
  ConsecutiveSlowWindows : Z;
  ConsecutiveEjectWindows : Z;
  LastTransitionAt : Z;
  EjectedAt : Z;
  UpdatedAt : Z
}.

#[export] Instance EndpointHealth_eq_dec : EqDecision EndpointHealth.
Proof.
  assert (EqDecision float64) by (unfold EqDecision; solve_decision). solve_decision.
Defined.

Definition NewEndpointHealth (service instanceID address epoch : string) : EndpointHealth := {|
  Service := service; InstanceID := instanceID; Address := address; RegistrationEpoch := epoch;
  State := Healthy; SlowScore := fzero; ConsecutiveSlowWindows := 0; ConsecutiveEjectWindows := 0;
  LastTransitionAt := zero_time; EjectedAt := zero_time; UpdatedAt := zero_time |}.

Definition set_state (h : EndpointHealth) (st : Code) : EndpointHealth := {|
  Service := Service h; InstanceID := InstanceID h; Address := Address h; RegistrationEpoch := RegistrationEpoch h;
  State := st; SlowScore := SlowScore h; ConsecutiveSlowWindows := ConsecutiveSlowWindows h;
  ConsecutiveEjectWindows := ConsecutiveEjectWindows h; LastTransitionAt := LastTransitionAt h;
  EjectedAt := EjectedAt h; UpdatedAt := UpdatedAt h |}.

Definition set_score (h : EndpointHealth) (score : float64) : EndpointHealth := {|
  Service := Service h; InstanceID := InstanceID h; Address := Address h; RegistrationEpoch := RegistrationEpoch h;
  State := State h; SlowScore := score; ConsecutiveSlowWindows := ConsecutiveSlowWindows h;
  ConsecutiveEjectWindows := ConsecutiveEjectWindows h; LastTransitionAt := LastTransitionAt h;
  EjectedAt := EjectedAt h; UpdatedAt := UpdatedAt h |}.

Definition set_windows (h : EndpointHealth) (slow eject : Z) : EndpointHealth := {|
  Service := Service h; InstanceID := InstanceID h; Address := Address h; RegistrationEpoch := RegistrationEpoch h;
  State := State h; SlowScore := SlowScore h; ConsecutiveSlowWindows := slow;
  ConsecutiveEjectWindows := eject; LastTransitionAt := LastTransitionAt h;
  EjectedAt := EjectedAt h; UpdatedAt := UpdatedAt h |}.

Definition set_times (h : EndpointHealth) (last ejected : Z) : EndpointHealth := {|
  Service := Service h; InstanceID := InstanceID h; Address := Address h; RegistrationEpoch := RegistrationEpoch h;
  State := State h; SlowScore := SlowScore h; ConsecutiveSlowWindows := ConsecutiveSlowWindows h;
  ConsecutiveEjectWindows := ConsecutiveEjectWindows h; LastTransitionAt := last;
  EjectedAt := ejected; UpdatedAt := UpdatedAt h |}.

(** ** Transitions *)

Definition transition (health : EndpointHealth) (next : Code) (now : Z) : EndpointHealth :=
  if decide (State health = next) then health else
  let health := set_windows (set_state health next) 0 0 in
  set_times health now
    (match next with Ejected => now | Healthy => zero_time | _ => EjectedAt health end).

(** The window counters after an input, outside ejection and probing. *)
Definition count_windows (cfg : StateMachineConfig) (health : EndpointHealth) (score : float64) : EndpointHealth :=
  if fle (EjectThreshold cfg) score
  then set_windows health (wraps 64 (ConsecutiveSlowWindows health + 1)) (wraps 64 (ConsecutiveEjectWindows health + 1))
  else if fle (DegradedThreshold cfg) score
  then set_windows health (wraps 64 (ConsecutiveSlowWindows health + 1)) 0
  else set_windows health 0 0.

(** [Apply] on a non-nil health record, with the configuration of the machine. *)
Definition Apply (clock : Z) (cfg : StateMachineConfig) (health : EndpointHealth) (input : StateInput) : EndpointHealth :=
  let now := if IsZero (Now input) then clock else Now input in
  let score := in_SlowScore input in
  let health := match State health with Unspecified => set_state health Healthy | _ => health end in
  let health := set_score health score in
  match State health with
  | Ejected =>
      if negb (IsZero (EjectedAt health)) && (EjectionDuration cfg <=? time_Sub now (EjectedAt health))
      then transition health Probing now else health
  | Probing =>
      if flt (SuccessRate input) (ProbeSuccessThreshold cfg) || fle (DegradedThreshold cfg) score
      then transition health Ejected now
      else if fle score (RecoveryThreshold cfg) then transition health Healthy now else health
  | _ =>
      let health := count_windows cfg health score in
      if ConsecutiveWindows cfg <=? ConsecutiveEjectWindows health then transition health Ejected now
      else if ConsecutiveWindows cfg <=? ConsecutiveSlowWindows health then transition health Degraded now
      else if bool_decide (State health = Degraded) && fle score (RecoveryThreshold cfg)
      then transition health Healthy now else health
  end.

(** A machine fed a sequence of inputs. *)
Definition run (clock : Z) (cfg : StateMachineConfig) (health : EndpointHealth) (inputs : list StateInput) : EndpointHealth :=
  foldl (Apply clock cfg) health inputs.

(** ** The invariant *)

(** States in which windows are counted. *)
Definition counting (st : Code) : bool := match st with Ejected | Probing => false | _ => true end.

Definition valid_config (cfg : StateMachineConfig) : Prop :=
  1 <= ConsecutiveWindows cfg < 2 ^ 63 /\ 1 <= EjectionDuration cfg < 2 ^ 63.

Record health_ok (cfg : StateMachineConfig) (h : EndpointHealth) : Prop := {
  ok_eject : 0 <= ConsecutiveEjectWindows h < ConsecutiveWindows cfg;
  ok_slow : State h <> Degraded -> 0 <= ConsecutiveSlowWindows h < ConsecutiveWindows cfg;
  ok_idle : counting (State h) = false -> ConsecutiveEjectWindows h = 0 /\ ConsecutiveSlowWindows h = 0
}.

Lemma transition_state h next now : State (transition h next now) = next.
Proof. unfold transition. by destruct (decide _). Qed.

Lemma transition_windows h next now :
  State h <> next ->
  ConsecutiveSlowWindows (transition h next now) = 0 /\ ConsecutiveEjectWindows (transition h next now) = 0.
Proof. intros H. unfold transition. by destruct (decide _). Qed.

Lemma transition_ok cfg h next now : valid_config cfg -> State h <> next -> health_ok cfg (transition h next now).
Proof.
  intros [Hw _] Hn. destruct (transition_windows h next now Hn) as [Hs He].
  split; intros; rewrite ?Hs, ?He; lia.
Qed.

(** What [Apply] starts from. *)
Definition entered (h : EndpointHealth) (score : float64) : EndpointHealth :=
  set_score (set_state h (Normalized (State h))) score.

Lemma Apply_entered clock cfg h i :
  Apply clock cfg h i =
  let now := if IsZero (Now i) then clock else Now i in
  let score := in_SlowScore i in
  let h := entered h score in
  match State h with
  | Ejected =>
      if negb (IsZero (EjectedAt h)) && (EjectionDuration cfg <=? time_Sub now (EjectedAt h))
      then transition h Probing now else h
  | Probing =>
      if flt (SuccessRate i) (ProbeSuccessThreshold cfg) || fle (DegradedThreshold cfg) score
      then transition h Ejected now
      else if fle score (RecoveryThreshold cfg) then transition h Healthy now else h
  | _ =>
      let h := count_windows cfg h score in
      if ConsecutiveWindows cfg <=? ConsecutiveEjectWindows h then transition h Ejected now
      else if ConsecutiveWindows cfg <=? ConsecutiveSlowWindows h then transition h Degraded now
      else if bool_decide (State h = Degraded) && fle score (RecoveryThreshold cfg)
      then transition h Healthy now else h
  end.
Proof. destruct h as [? ? ? ? [] ? ? ? ? ? ?]; reflexivity. Qed.

Lemma entered_state h score : State (entered h score) = Normalized (State h).
Proof. done. Qed.

Lemma count_windows_state cfg h score : State (count_windows cfg h score) = State h.
Proof. unfold count_windows. by repeat case_test. Qed.

(** The outcomes of an input, with what justifies each. *)
Inductive outcome (clock : Z) (cfg : StateMachineConfig) (h : EndpointHealth) (i : StateInput) : EndpointHealth -> Prop :=
| out_wait h' :
    Normalized (State h) = Ejected -> h' = entered h (in_SlowScore i) -> outcome clock cfg h i h'
| out_probe now :
    Normalized (State h) = Ejected -> IsZero (EjectedAt h) = false ->
    EjectionDuration cfg <= time_Sub now (EjectedAt h) -> now = (if IsZero (Now i) then clock else Now i) ->
    outcome clock cfg h i (transition (entered h (in_SlowScore i)) Probing now)
| out_reeject now :
    Normalized (State h) = Probing ->
    flt (SuccessRate i) (ProbeSuccessThreshold cfg) = true \/ fle (DegradedThreshold cfg) (in_SlowScore i) = true ->
    outcome clock cfg h i (transition (entered h (in_SlowScore i)) Ejected now)
| out_recover now :
    Normalized (State h) = Probing ->
    flt (SuccessRate i) (ProbeSuccessThreshold cfg) = false -> fle (DegradedThreshold cfg) (in_SlowScore i) = false ->
    fle (in_SlowScore i) (RecoveryThreshold cfg) = true ->
    outcome clock cfg h i (transition (entered h (in_SlowScore i)) Healthy now)
| out_hold :
    Normalized (State h) = Probing -> outcome clock cfg h i (entered h (in_SlowScore i))
| out_count h' :
    counting (Normalized (State h)) = true ->
    h' = count_windows cfg (entered h (in_SlowScore i)) (in_SlowScore i) ->
    ConsecutiveEjectWindows h' < ConsecutiveWindows cfg ->
    (ConsecutiveWindows cfg <= ConsecutiveSlowWindows h' -> State h' = Degraded) -> outcome clock cfg h i h'
| out_move h' next now :
    counting (Normalized (State h)) = true ->
    h' = count_windows cfg (entered h (in_SlowScore i)) (in_SlowScore i) -> State h' <> next ->
    match next with
    | Ejected => ConsecutiveWindows cfg <= ConsecutiveEjectWindows h'
    | Degraded => ConsecutiveWindows cfg <= ConsecutiveSlowWindows h'
    | Healthy => State h' = Degraded /\ fle (in_SlowScore i) (RecoveryThreshold cfg) = true
    | _ => False
    end -> outcome clock cfg h i (transition h' next now).

Lemma Apply_outcome clock cfg h i : outcome clock cfg h i (Apply clock cfg h i).
Proof.
  rewrite Apply_entered. cbv zeta. set (now := if IsZero (Now i) then clock else Now i).
  rewrite entered_state.
  assert (Hcount : counting (Normalized (State h)) = true -> outcome clock cfg h i
    (let h := count_windows cfg (entered h (in_SlowScore i)) (in_SlowScore i) in
     if ConsecutiveWindows cfg <=? ConsecutiveEjectWindows h then transition h Ejected now
     else if ConsecutiveWindows cfg <=? ConsecutiveSlowWindows h then transition h Degraded now
     else if bool_decide (State h = Degraded) && fle (in_SlowScore i) (RecoveryThreshold cfg)
     then transition h Healthy now else h)).
  { intros Hc. cbv zeta. set (h' := count_windows _ _ _).
    assert (Hst : counting (State h') = true) by (unfold h'; by rewrite count_windows_state).
    destruct (Z.leb_spec (ConsecutiveWindows cfg) (ConsecutiveEjectWindows h')) as [He | He].
    { eapply out_move; [done | done | | done]. intros E. by rewrite E in Hst. }
    destruct (Z.leb_spec (ConsecutiveWindows cfg) (ConsecutiveSlowWindows h')) as [Hs | Hs].
    { destruct (decide (State h' = Degraded)) as [Hd | Hd].
      - unfold transition. rewrite decide_True by done. by apply out_count.
      - eapply out_move; done. }
    destruct (bool_decide (State h' = Degraded)) eqn:Hd; [|by apply (out_count _ _ _ _ h'); [..|intros ?%Z.le_ngt]].
    apply bool_decide_eq_true in Hd.
    destruct (fle (in_SlowScore i) (RecoveryThreshold cfg)) eqn:Hr; [|by apply (out_count _ _ _ _ h'); [..|intros ?%Z.le_ngt]].
    eapply out_move; [done | done | by rewrite Hd | done]. }
  destruct (Normalized (State h)) eqn:Hn; try (by apply Hcount); cbn [andb orb negb].
  - change (EjectedAt (entered h (in_SlowScore i))) with (EjectedAt h).
    destruct (IsZero (EjectedAt h)) eqn:Hz; cbn [andb negb]; [by apply out_wait|].
    destruct (Z.leb_spec (EjectionDuration cfg) (time_Sub now (EjectedAt h))); [by apply out_probe | by apply out_wait].
  - destruct (flt (SuccessRate i) _) eqn:H1, (fle (DegradedThreshold cfg) _) eqn:H2; cbn [orb];
      try (apply out_reeject; by auto).
    destruct (fle (in_SlowScore i) (RecoveryThreshold cfg)) eqn:H3; [by apply out_recover | by apply out_hold].
Qed.

(** An input never changes who the endpoint is. *)
Definition identity (h : EndpointHealth) : string * string * string * string :=
  (Service h, InstanceID h, Address h, RegistrationEpoch h).

Lemma transition_identity h next now :
  identity (transition h next now) = identity h /\ SlowScore (transition h next now) = SlowScore h.
Proof. unfold transition. by destruct (decide _). Qed.

Lemma count_windows_identity cfg h score :
  identity (count_windows cfg h score) = identity h /\ SlowScore (count_windows cfg h score) = SlowScore h.
Proof. unfold count_windows. by repeat case_test. Qed.

Lemma Apply_identity clock cfg h i :
  identity (Apply clock cfg h i) = identity h /\ SlowScore (Apply clock cfg h i) = in_SlowScore i.
Proof.
  destruct (Apply_outcome clock cfg h i) as [? _ -> | | | | | ? _ -> _ _ | ? ? ? _ -> _ _];
    rewrite ?(proj1 (transition_identity _ _ _)), ?(proj2 (transition_identity _ _ _)),
      ?(proj1 (count_windows_identity _ _ _)), ?(proj2 (count_windows_identity _ _ _)); done.
Qed.

Lemma count_windows_bounds cfg h score :
  valid_config cfg -> health_ok cfg h ->
  0 <= ConsecutiveEjectWindows (count_windows cfg h score) <= ConsecutiveWindows cfg /\
  (State h <> Degraded -> 0 <= ConsecutiveSlowWindows (count_windows cfg h score) <= ConsecutiveWindows cfg).
Proof.
  intros [Hw _] [He Hs _]. unfold count_windows.
  destruct (fle (EjectThreshold cfg) score), (fle (DegradedThreshold cfg) score); cbn;
    (split; [|intros Hd; specialize (Hs Hd)]); rewrite ?wraps_small by (unfold is_s; lia); lia.
Qed.

Lemma entered_ok cfg h score : health_ok cfg h -> health_ok cfg (entered h score).
Proof. intros [He Hs Hi]. split; cbn; [done | destruct (State h) | destruct (State h)]; naive_solver. Qed.

Lemma Apply_ok clock cfg h i : valid_config cfg -> health_ok cfg h -> health_ok cfg (Apply clock cfg h i).
Proof.
  intros Hv Hok. pose proof (entered_ok cfg h (in_SlowScore i) Hok) as Hen.
  destruct (Apply_outcome clock cfg h i) as
    [h' _ -> | now Hn _ _ _ | now Hn _ | now Hn _ _ _ | Hn | h' Hc Hh' He Hs | h' next now _ Hh' Hne _].
  - done.
  - apply transition_ok; [done | by rewrite entered_state, Hn].
  - apply transition_ok; [done | by rewrite entered_state, Hn].
  - apply transition_ok; [done | by rewrite entered_state, Hn].
  - done.
  - destruct (count_windows_bounds cfg _ (in_SlowScore i) Hv Hen) as [H1 H2]. rewrite <- Hh' in H1, H2.
    assert (Hst : State h' = Normalized (State h)) by (by rewrite Hh', count_windows_state).
    rewrite entered_state, <- Hst in H2. split; [lia | | by rewrite Hst, Hc].
    intros Hd. specialize (H2 Hd). split; [lia|].
    destruct (Z.lt_ge_cases (ConsecutiveSlowWindows h') (ConsecutiveWindows cfg)) as [|Hge]; [done|].
    by apply Hs in Hge.
  - by apply transition_ok.
Qed.

(** ** Evidence *)

(** The last [n] scores, newest first, all satisfy [P]. *)
Definition last_n (n : Z) (P : StateInput -> Prop) (hist : list StateInput) : Prop :=
  (Z.to_nat n <= length hist)%nat /\ Forall P (take (Z.to_nat n) hist).

Definition ejectable (cfg : StateMachineConfig) (i : StateInput) : Prop :=
  fle (EjectThreshold cfg) (in_SlowScore i) = true.
Definition slow (cfg : StateMachineConfig) (i : StateInput) : Prop :=
  fle (EjectThreshold cfg) (in_SlowScore i) = true \/ fle (DegradedThreshold cfg) (in_SlowScore i) = true.

Lemma last_n_0 P hist : last_n 0 P hist.
Proof. split; simpl; [lia | constructor]. Qed.

Lemma last_n_S n P hist i : 0 <= n -> P i -> last_n n P hist -> last_n (n + 1) P (i :: hist).
Proof.
  intros Hn Hi [Hl HP]. unfold last_n. rewrite Z2Nat.inj_add by lia. rewrite Nat.add_comm. simpl.
  split; [lia | by constructor].
Qed.

Lemma last_n_le n m P hist : m <= n -> last_n n P hist -> last_n m P hist.
Proof.
  intros Hm [Hl HP]. split; [lia|]. replace (take (Z.to_nat m) hist) with (take (Z.to_nat m) (take (Z.to_nat n) hist)).
  - by apply Forall_take.
  - rewrite take_take. f_equal. lia.
Qed.

Record justified (cfg : StateMachineConfig) (h : EndpointHealth) (hist : list StateInput) : Prop := {
  just_eject : last_n (ConsecutiveEjectWindows h) (ejectable cfg) hist;
  just_slow : State h <> Degraded -> last_n (ConsecutiveSlowWindows h) (slow cfg) hist
}.

Lemma justified_idle cfg h hist :
  ConsecutiveEjectWindows h = 0 -> ConsecutiveSlowWindows h = 0 -> justified cfg h hist.
Proof. intros He Hs. split; rewrite ?He, ?Hs; intros; apply last_n_0. Qed.

Lemma count_windows_justified cfg h i hist :
  valid_config cfg -> health_ok cfg h -> justified cfg h hist ->
  justified cfg (count_windows cfg h (in_SlowScore i)) (i :: hist).
Proof.
  intros [Hw _] [He Hs _] [Je Js]. unfold count_windows.
  destruct (fle (EjectThreshold cfg) (in_SlowScore i)) eqn:E1;
    [|destruct (fle (DegradedThreshold cfg) (in_SlowScore i)) eqn:E2]; split; cbn; intros; rewrite ?wraps_small by
    (unfold is_s; try specialize (Hs ltac:(assumption)); lia); try apply last_n_0;
    apply last_n_S; try done; try (by left); try (by right); try (by apply Js); try lia; by apply Hs.
Qed.

Lemma Apply_justified clock cfg h i hist :
  valid_config cfg -> health_ok cfg h -> justified cfg h hist -> justified cfg (Apply clock cfg h i) (i :: hist).
Proof.
  intros Hv Hok Hj. pose proof (entered_ok cfg h (in_SlowScore i) Hok) as Hen.
  assert (Hj' : justified cfg (entered h (in_SlowScore i)) hist).
  { destruct Hj as [Je Js]. split; [done|]. intros Hd. apply Js. intros Hd'. apply Hd. cbn. by rewrite Hd'. }
  assert (Hidle : counting (Normalized (State h)) = false -> justified cfg (entered h (in_SlowScore i)) (i :: hist)).
  { intros Hc. destruct (ok_idle _ _ Hen Hc) as [? ?]. by apply justified_idle. }
  assert (Hmove : forall h' next now, State h' <> next -> justified cfg (transition h' next now) (i :: hist)).
  { intros h' next now Hne. destruct (transition_windows h' next now Hne) as [? ?]. by apply justified_idle. }
  destruct (Apply_outcome clock cfg h i) as
    [h' Hn -> | now Hn _ _ _ | now Hn _ | now Hn _ _ _ | Hn | h' _ -> _ _ | h' next now _ Hh' Hne _];
    try (apply Hmove; try done; rewrite entered_state, Hn; done); try (by apply Hidle; rewrite Hn).
  by apply count_windows_justified.
Qed.

Lemma run_justified clock cfg h0 inputs :
  valid_config cfg -> ConsecutiveEjectWindows h0 = 0 -> ConsecutiveSlowWindows h0 = 0 ->
  health_ok cfg (run clock cfg h0 inputs) /\ justified cfg (run clock cfg h0 inputs) (reverse inputs).
Proof.
  intros Hv He Hs. induction inputs as [|i inputs [IHo IHj]] using rev_ind.
  - split; [|by apply justified_idle]. destruct Hv. split; cbn; intros; rewrite ?He, ?Hs; lia.
  - unfold run. rewrite foldl_snoc, reverse_app. change (reverse [i]) with [i]. split.
    + by apply Apply_ok.
    + by apply Apply_justified.
Qed.

(** ** Properties *)

(** What there must be for an input [i] to bring an endpoint from one state to another;
    [hist] are the inputs so far, the newest, [i], first. *)
Definition reason (clock : Z) (cfg : StateMachineConfig) (h : EndpointHealth) (i : StateInput) (hist : list StateInput) (next : Code) : Prop :=
  match Normalized (State h), next with
  | Ejected, Probing =>
      IsZero (EjectedAt h) = false /\ EjectionDuration cfg <= time_Sub (if IsZero (Now i) then clock else Now i) (EjectedAt h)
  | Probing, Ejected =>
      flt (SuccessRate i) (ProbeSuccessThreshold cfg) = true \/ fle (DegradedThreshold cfg) (in_SlowScore i) = true
  | Probing, Healthy =>
      flt (SuccessRate i) (ProbeSuccessThreshold cfg) = false /\ fle (DegradedThreshold cfg) (in_SlowScore i) = false /\
      fle (in_SlowScore i) (RecoveryThreshold cfg) = true
  | Ejected, _ | Probing, _ => False
  | Degraded, Healthy => fle (in_SlowScore i) (RecoveryThreshold cfg) = true
  | _, Ejected => last_n (ConsecutiveWindows cfg) (ejectable cfg) hist
  | _, Degraded => last_n (ConsecutiveWindows cfg) (slow cfg) hist
  | _, _ => False
  end.

(** C31. Hysteresis: an endpoint that started with clear counters changes its state for
    a reason only.  Outside ejection and probation it is ejected only if each of its
    last [ConsecutiveWindows] scores reached the ejection threshold, becomes degraded
    only if each of them reached one of the two thresholds, and healthy only from
    degraded with a score within the recovery threshold; from ejection it goes nowhere
    but to probation, once the ejection has lasted [EjectionDuration]; from probation
    to ejection only with a success rate under its threshold or a degraded score, to
    healthy only without either and within the recovery threshold, and nowhere else. *)
Theorem state_changes_justified clock cfg h0 inputs i :
  valid_config cfg -> ConsecutiveEjectWindows h0 = 0 -> ConsecutiveSlowWindows h0 = 0 ->
  let h := run clock cfg h0 inputs in
  let h' := Apply clock cfg h i in
  State h' <> Normalized (State h) -> reason clock cfg h i (reverse (inputs ++ [i])) (State h').
Proof.
  intros Hv He Hs h h'. destruct (run_justified clock cfg h0 inputs Hv He Hs) as [Hok Hj]. fold h in Hok, Hj.
  pose proof (entered_ok cfg h (in_SlowScore i) Hok) as Hen. set (hist := reverse (inputs ++ [i])).
  assert (Hj' : justified cfg (count_windows cfg (entered h (in_SlowScore i)) (in_SlowScore i)) hist).
  { unfold hist. rewrite reverse_app. apply count_windows_justified; [done..|].
    destruct Hj as [Je Js]. split; [done|]. intros Hd. apply Js. intros Hd'. apply Hd. cbn. by rewrite Hd'. }
  unfold h', reason. clear h'. destruct (Apply_outcome clock cfg h i) as
    [? Hn -> | ? Hn Hz Hd -> | ? Hn Hor | ? Hn H1 H2 H3 | Hn | h1 _ -> _ _ | h1 next now Hc -> Hne Hwhy];
    rewrite ?transition_state, ?count_windows_state, ?entered_state; try done; try (by rewrite Hn).
  intros Hch. rewrite count_windows_state, entered_state in Hne. destruct Hj' as [Je Js].
  rewrite count_windows_state, entered_state in Js, Hwhy.
  assert (Hd : next = Degraded -> last_n (ConsecutiveWindows cfg) (slow cfg) hist) by (intros ->; by apply (last_n_le _ _ _ _ Hwhy), Js).
  assert (Hx : next = Ejected -> last_n (ConsecutiveWindows cfg) (ejectable cfg) hist) by (intros ->; by apply (last_n_le _ _ _ _ Hwhy)).
  assert (Hr : next = Healthy -> Normalized (State h) = Degraded /\ fle (in_SlowScore i) (RecoveryThreshold cfg) = true) by (by intros ->).
  destruct (Normalized (State h)), next; naive_solver.
Qed.

(** How many more ejectable scores can be absorbed. *)
Definition patience (cfg : StateMachineConfig) (h : EndpointHealth) : Z :=
  if decide (Normalized (State h) = Degraded) then ConsecutiveWindows cfg - ConsecutiveEjectWindows h
  else 2 * ConsecutiveWindows cfg - ConsecutiveSlowWindows h.

Definition sane_config (cfg : StateMachineConfig) : Prop :=
  valid_config cfg /\ flt (RecoveryThreshold cfg) (EjectThreshold cfg) = true.

Lemma ejectable_not_recovered cfg i :
  sane_config cfg -> ejectable cfg i -> fle (in_SlowScore i) (RecoveryThreshold cfg) = false.
Proof.
  intros [_ Hlt] Hi. destruct (fle (in_SlowScore i) _) eqn:E; [|done].
  apply flt_fle_false in Hlt. by rewrite (fle_trans _ _ _ Hi E) in Hlt.
Qed.

Lemma Apply_ejectable clock cfg h i :
  sane_config cfg -> health_ok cfg h -> counting (Normalized (State h)) = true -> ejectable cfg i ->
  State (Apply clock cfg h i) = Ejected \/
  counting (Normalized (State (Apply clock cfg h i))) = true /\ patience cfg (Apply clock cfg h i) < patience cfg h.
Proof.
  intros Hsane [He Hs _] Hc Hi. pose proof (ejectable_not_recovered _ _ Hsane Hi) as Hrec.
  destruct Hsane as [Hv _]. unfold ejectable in Hi. unfold patience at 2.
  assert (Hcount : forall h', h' = count_windows cfg (entered h (in_SlowScore i)) (in_SlowScore i) ->
    State h' = Normalized (State h) /\ ConsecutiveEjectWindows h' = ConsecutiveEjectWindows h + 1 /\
    (State h <> Degraded -> ConsecutiveSlowWindows h' = ConsecutiveSlowWindows h + 1)).
  { intros h' ->. rewrite count_windows_state. split; [done|]. unfold count_windows. rewrite Hi. cbn. destruct Hv.
    split; [|intros Hd; specialize (Hs Hd)]; apply wraps_small; unfold is_s; lia. }
  destruct (Apply_outcome clock cfg h i) as
    [? Hn _ | ? Hn _ _ _ | ? Hn _ | ? Hn _ _ _ | Hn | h1 _ Hh1 _ Hd1 | h1 next now _ Hh1 Hne Hwhy];
    try (by rewrite Hn in Hc); destruct (Hcount _ Hh1) as (Hst & Ee & Es).
  - right. assert (E : Normalized (State h1) = Normalized (State h)) by (rewrite Hst; by destruct (State h)).
    rewrite E. split; [done|]. unfold patience. rewrite E.
    destruct (decide (Normalized (State h) = Degraded)) as [Hd | Hd]; [lia|].
    rewrite Es by (intros Hd'; by rewrite Hd' in Hd). lia.
  - rewrite transition_state. destruct next; try done; [by destruct Hwhy; congruence | | by left].
    right. split; [done|]. destruct (transition_windows h1 Degraded now Hne) as [_ Ez].
    unfold patience. rewrite transition_state, Ez. cbn [Normalized].
    rewrite decide_True by done. rewrite Hst in Hne. rewrite decide_False by done.
    specialize (Hs ltac:(intros E; by rewrite E in Hne)). rewrite Es in Hwhy by (intros E; by rewrite E in Hne). lia.
Qed.

Lemma ejects_within clock cfg n h inputs :
  sane_config cfg -> health_ok cfg h -> counting (Normalized (State h)) = true ->
  Forall (ejectable cfg) inputs -> patience cfg h <= Z.of_nat n -> (n <= length inputs)%nat ->
  exists k, (k <= n)%nat /\ State (run clock cfg h (take k inputs)) = Ejected.
Proof.
  intros Hs. revert h inputs. induction n as [|n IH]; intros h inputs Hok Hc Hall Hp Hl.
  - exfalso. destruct Hok as [He Hsl _]. unfold patience in Hp. destruct (decide _) as [|Hd]; [lia|].
    specialize (Hsl ltac:(intros E; by rewrite E in Hd)). destruct Hs as [[? _] _]. lia.
  - destruct inputs as [|i inputs]; simpl in Hl; [lia|]. apply Forall_cons in Hall as [Hi Hall].
    destruct (Apply_ejectable clock cfg h i Hs Hok Hc Hi) as [E | [Hc' Hlt]].
    + exists 1%nat. split; [lia|]. exact E.
    + destruct (IH (Apply clock cfg h i) inputs) as (k & Hk & E); [|done|done|lia|lia|].
      * by apply Apply_ok; [apply Hs|].
      * exists (S k). split; [lia|]. done.
Qed.

(** C32. Sustained slowness ejects: from any endpoint outside ejection and
    probing, among any [2 * ConsecutiveWindows] inputs whose scores all reach the
    ejection threshold there is one after which the endpoint is ejected. *)
Theorem sustained_slowness_ejects clock cfg h inputs :
  sane_config cfg -> health_ok cfg h -> counting (Normalized (State h)) = true ->
  Forall (ejectable cfg) inputs -> Z.of_nat (length inputs) = 2 * ConsecutiveWindows cfg ->
  exists k, State (run clock cfg h (take k inputs)) = Ejected.
Proof.
  intros Hs Hok Hc Hall Hl. destruct (ejects_within clock cfg (length inputs) h inputs Hs Hok Hc Hall) as (k & _ & E);
    [|done|by exists k].
  destruct Hok as [He Hsl _]. unfold patience. destruct (decide _) as [|Hd]; [lia|].
  specialize (Hsl ltac:(intros E; by rewrite E in Hd)). lia.
Qed.

(** ** Ejection and probing *)

Definition at_time (t : Z) (i : StateInput) : Prop := Now i = t /\ IsZero t = false.

Lemma Apply_ejected_waits clock cfg h i :
  State h = Ejected -> IsZero (Now i) = false -> time_Sub (Now i) (EjectedAt h) < EjectionDuration cfg ->
  Apply clock cfg h i = set_score h (in_SlowScore i).
Proof.
  intros Hst Hz Hlt. unfold Apply. rewrite Hz, Hst. cbn [State set_score]. rewrite Hst.
  change (EjectedAt (set_score h (in_SlowScore i))) with (EjectedAt h).
  destruct (Z.leb_spec (EjectionDuration cfg) (time_Sub (Now i) (EjectedAt h))); [lia|]. by rewrite andb_false_r.
Qed.

Lemma Apply_ejected_done clock cfg h i :
  State h = Ejected -> IsZero (EjectedAt h) = false -> IsZero (Now i) = false ->
  EjectionDuration cfg <= time_Sub (Now i) (EjectedAt h) ->
  Apply clock cfg h i = transition (set_score h (in_SlowScore i)) Probing (Now i).
Proof.
  intros Hs Hz Hi Hge. unfold Apply. rewrite Hi, Hs. cbn [State set_score]. rewrite Hs. cbn [EjectedAt set_score].
  rewrite Hz. by rewrite (proj2 (Z.leb_le _ _) Hge).
Qed.

Lemma Apply_probing_bad clock cfg h i :
  State h = Probing -> IsZero (Now i) = false ->
  flt (SuccessRate i) (ProbeSuccessThreshold cfg) || fle (DegradedThreshold cfg) (in_SlowScore i) = true ->
  Apply clock cfg h i = transition (set_score h (in_SlowScore i)) Ejected (Now i).
Proof.
  intros Hst Hz Hbad. unfold Apply. rewrite Hz, Hst. cbn [State set_score]. by rewrite Hst, Hbad.
Qed.

(** An ejected endpoint stays ejected, whatever its scores, until the
    ejection duration has passed since it was ejected; the first input after that
    puts it on probation, with clear counters, again whatever the score. *)
Theorem ejection_lasts clock cfg h inputs i :
  State h = Ejected -> IsZero (EjectedAt h) = false ->
  Forall (fun j => IsZero (Now j) = false /\ time_Sub (Now j) (EjectedAt h) < EjectionDuration cfg) inputs ->
  IsZero (Now i) = false -> EjectionDuration cfg <= time_Sub (Now i) (EjectedAt h) ->
  let h' := run clock cfg h inputs in
  State h' = Ejected /\ EjectedAt h' = EjectedAt h /\
  State (Apply clock cfg h' i) = Probing /\
  ConsecutiveSlowWindows (Apply clock cfg h' i) = 0 /\ ConsecutiveEjectWindows (Apply clock cfg h' i) = 0 /\
  LastTransitionAt (Apply clock cfg h' i) = Now i.
Proof.
  intros Hst Hz Hall Hi Hge h'.
  assert (Hh : State h' = Ejected /\ EjectedAt h' = EjectedAt h).
  { subst h'. induction inputs as [|j inputs IH] using rev_ind; [done|]. apply Forall_app in Hall as [Hall Hj].
    apply Forall_singleton in Hj as [Hjz Hjl]. unfold run. rewrite foldl_snoc. destruct (IH Hall) as [IHs IHe].
    fold (run clock cfg h inputs). rewrite Apply_ejected_waits; [done | done | done | by rewrite IHe]. }
  destruct Hh as [Hs He]. split; [done|]. split; [done|].
  assert (E : Apply clock cfg h' i = transition (set_score h' (in_SlowScore i)) Probing (Now i)).
  { apply Apply_ejected_done; by rewrite ?He. }
  rewrite E. assert (Hne : State (set_score h' (in_SlowScore i)) <> Probing) by (cbn; by rewrite Hs).
  rewrite transition_state. destruct (transition_windows _ _ (Now i) Hne) as [-> ->].
  unfold transition. by rewrite decide_False.
Qed.

(** On probation a single input decides: a low success rate or a score at the
    degradation threshold ejects again, restarting the ejection period; otherwise
    a score at or below the recovery threshold returns the endpoint to full traffic
    at once; otherwise it stays on probation. *)
Theorem probation_decided_at_once clock cfg h i :
  State h = Probing -> IsZero (Now i) = false ->
  let h' := Apply clock cfg h i in
  let bad := flt (SuccessRate i) (ProbeSuccessThreshold cfg) || fle (DegradedThreshold cfg) (in_SlowScore i) in
  let good := fle (in_SlowScore i) (RecoveryThreshold cfg) in
  (bad = true -> State h' = Ejected /\ EjectedAt h' = Now i) /\
  (bad = false -> good = true -> State h' = Healthy /\ EjectedAt h' = zero_time) /\
  (bad = false -> good = false -> h' = set_score h (in_SlowScore i)).
Proof.
  intros Hst Hz h' bad good. subst h'. unfold Apply. rewrite Hz, Hst. cbn [State set_score]. rewrite Hst.
  fold bad good. unfold transition. cbn [State set_score]. rewrite Hst.
  destruct bad, good; repeat split; intros; try discriminate; done.
Qed.

(** ** Configurations in effect *)

Lemma default_int_pos x d : 1 <= d -> 1 <= default_int x d.
Proof. intros. unfold default_int. destruct (Z.leb_spec x 0); lia. Qed.

Lemma default_fixed_float x d : fle d fzero = false -> default_float (default_float x d) d = default_float x d.
Proof. intros Hd. unfold default_float. destruct (fle x fzero) eqn:E; by rewrite ?Hd, ?E. Qed.

Lemma override_fixed_float x b d :
  fle d fzero = false -> default_float (override_float x (default_float b d)) d = override_float x (default_float b d).
Proof.
  intros Hd. unfold override_float. destruct (flt fzero x) eqn:E; [|by apply default_fixed_float].
  unfold default_float at 1. by rewrite (flt_fle_false _ _ E).
Qed.

Lemma override_fixed_int x b d :
  1 <= d -> default_int (override_int x (default_int b d)) d = override_int x (default_int b d).
Proof.
  intros Hd. pose proof (default_int_pos b d Hd). unfold override_int. unfold default_int at 1.
  destruct (Z.ltb_spec 0 x); [by rewrite (proj2 (Z.leb_gt _ _))|]. by rewrite (proj2 (Z.leb_gt _ _)) by lia.
Qed.

(** Resolving yields a configuration the constructor of a machine leaves alone. *)
Lemma resolve_fixed base override :
  defaultStateMachineConfig (resolveStateMachineConfig base override) = resolveStateMachineConfig base override.
Proof.
  unfold resolveStateMachineConfig, defaultStateMachineConfig. cbn -[fle flt flit default_int override_int].
  rewrite !override_fixed_float by (vm_compute; reflexivity).
  rewrite (override_fixed_int (ConsecutiveWindows override)), (override_fixed_int (EjectionDuration override)) by lia.
  done.
Qed.

Definition int_fields (cfg : StateMachineConfig) : Prop :=
  is_s 64 (ConsecutiveWindows cfg) /\ is_s 64 (EjectionDuration cfg).

Lemma resolve_valid base override :
  int_fields base -> int_fields override -> valid_config (resolveStateMachineConfig base override).
Proof.
  unfold int_fields, is_s. intros [Hb1 Hb2] [Ho1 Ho2]. split; cbn; unfold override_int, default_int; repeat case_test;
    bool_facts; lia.
Qed.

(** ** Concrete runs *)

Definition demo_input (t : Z) (n d : Z) : StateInput := {| Now := t; in_SlowScore := flit n d; SuccessRate := flit 1 1 |}.

Definition demo_health : EndpointHealth := NewEndpointHealth "user" "user-1" "10.0.0.1:7001" "".

Lemma default_config_sane : sane_config DefaultStateMachineConfig.
Proof. split; [split; cbn; lia | vm_compute; reflexivity]. Qed.

Lemma state_changes_justified_witness :
  State (run 0 DefaultStateMachineConfig demo_health [demo_input 1 3 1; demo_input 2 3 1; demo_input 3 3 1]) = Ejected /\
  last_n 3 (ejectable DefaultStateMachineConfig) [demo_input 3 3 1; demo_input 2 3 1; demo_input 1 3 1].
Proof.
  split; [vm_compute; reflexivity|].
  apply (state_changes_justified 0 DefaultStateMachineConfig demo_health [demo_input 1 3 1; demo_input 2 3 1] (demo_input 3 3 1)).
  - exact (proj1 default_config_sane).
  - reflexivity.
  - reflexivity.
  - vm_compute. discriminate.
Defined.

Lemma sustained_slowness_ejects_witness :
  exists k, State (run 0 DefaultStateMachineConfig demo_health (take k ((fun t => demo_input t 3 1) <$> [1; 2; 3; 4; 5; 6]))) = Ejected.
Proof.
  apply (sustained_slowness_ejects 0 DefaultStateMachineConfig demo_health).
  - exact default_config_sane.
  - split; cbn; intros; try discriminate; lia.
  - reflexivity.
  - repeat constructor.
  - reflexivity.
Defined.

Definition demo_ejected : EndpointHealth :=
  run 0 DefaultStateMachineConfig demo_health [demo_input 1 3 1; demo_input 2 3 1; demo_input 3 3 1].

Lemma ejection_lasts_witness :
  let h' := run 0 DefaultStateMachineConfig demo_ejected [demo_input 1000 0 1; demo_input 29999999999 9 1] in
  State h' = Ejected /\ State (Apply 0 DefaultStateMachineConfig h' (demo_input 30000000003 9 1)) = Probing.
Proof.
  destruct (ejection_lasts 0 DefaultStateMachineConfig demo_ejected
    [demo_input 1000 0 1; demo_input 29999999999 9 1] (demo_input 30000000003 9 1)) as (H1 & _ & H2 & _).
  - vm_compute. reflexivity.
  - vm_compute. reflexivity.
  - repeat constructor; vm_compute; reflexivity.
  - vm_compute. reflexivity.
  - vm_compute. discriminate.
  - split; [exact H1 | exact H2].
Defined.

Lemma probation_decided_at_once_witness :
  let h := Apply 0 DefaultStateMachineConfig demo_ejected (demo_input 30000000003 9 1) in
  State (Apply 0 DefaultStateMachineConfig h (demo_input 30000000004 1 2)) = Healthy /\
  State (Apply 0 DefaultStateMachineConfig h (demo_input 30000000004 9 1)) = Ejected.
Proof.
  set (h := Apply 0 DefaultStateMachineConfig demo_ejected (demo_input 30000000003 9 1)).
  split.
  - apply (probation_decided_at_once 0 DefaultStateMachineConfig h (demo_input 30000000004 1 2)); vm_compute; reflexivity.
  - apply (probation_decided_at_once 0 DefaultStateMachineConfig h (demo_input 30000000004 9 1)); vm_compute; reflexivity.
Defined.
