(* ===== verification/SlowScore.v ===== *)
(** * Slow scores ([pkg/fault/slow_score.go])

    Samples of one report are aggregated per endpoint, and each endpoint is
    scored against the other endpoints of its service.  Where Go ranges over a
    map, the order is an argument. *)
From Stdlib Require Import Ascii String SpecFloat Sorted.
From stdpp Require Import sorting.
From S2P Require Import Prelude GoStd GoSort GoFloat.

Record ScoreWeights := {
  LatencyWeight : float64; ErrorWeight : float64; InflightWeight : float64; RetransmitWeight : float64 }.

Definition DefaultScoreWeights : ScoreWeights := {|
  LatencyWeight := flit 45 100; ErrorWeight := flit 25 100;
  InflightWeight := flit 20 100; RetransmitWeight := flit 10 100 |}.

Definition scoreEpsilon : float64 := flit 1 1000000000.

Record EndpointSample := {
  s_Service : string;
  s_InstanceID : string;
  s_Address : string;
  s_RegistrationEpoch : string;
  s_Method : string;
  RequestCount : Z;
  ErrorCount : Z;
  TimeoutCount : Z;
  Inflight : Z;
  Capacity : Z;
  LatencyEWMA : Z;
  LatencyP95 : Z;
  s_TCPRetransmit : Z;
  s_ConnectError : Z
}.

Record EndpointScore := {
  c_Service : string;
  c_InstanceID : string;
  c_Address : string;
  c_RegistrationEpoch : string;
  c_Method : string;
  Score : float64;
  LatencyScore : float64;
  ErrorScore : float64;
  InflightScore : float64;
  RetransmitScore : float64
}.

Record ScoreCalculator := { weights : ScoreWeights; latencySLO : Z }.

Definition NewScoreCalculatorWithConfig (w : ScoreWeights) (slo : Z) : ScoreCalculator :=
  let total := fadd (fadd (fadd (LatencyWeight w) (ErrorWeight w)) (InflightWeight w)) (RetransmitWeight w) in
  {| weights := if fle total fzero || IsNaN total then DefaultScoreWeights else w;
     latencySLO := if slo <? 0 then 0 else slo |}.

(** [Duration.Seconds] *)
Definition Seconds (d : Z) : float64 :=
  fadd (of_int (Z.quot d 1000000000)) (fdiv (of_int (Z.rem d 1000000000)) (of_int 1000000000)).

(** ** Helpers *)

Definition rate (count total : Z) : float64 := if total <=? 0 then fzero else fdiv (of_int count) (of_int total).

Definition networkRate (count total : Z) : float64 :=
  if count <=? 0 then fzero
  else if total <=? 0 then of_int count
  else fdiv (of_int count) (of_int total).

Definition capacity (value : Z) : Z := if value <=? 0 then 100 else value.

(** [sort.Float64s]: NaN first, then ascending. *)
Definition float_less (x y : float64) : bool := flt x y || IsNaN x && negb (IsNaN y).

Definition Float64s (l : list float64) : list float64 := Slice float_less l.

Definition median (values : list float64) : float64 :=
  if (length values =? 0)%nat then fzero else
  let sorted := Float64s values in
  let mid := (length sorted / 2)%nat in
  if (length sorted mod 2 =? 1)%nat then nth mid sorted fzero
  else fdiv (fadd (nth (mid - 1) sorted fzero) (nth mid sorted fzero)) (of_int 2).

Definition medianAbsoluteDeviation (values : list float64) (med : float64) : float64 :=
  if (length values =? 0)%nat then fzero
  else median ((fun value => fabs (fsub value med)) <$> values).

Definition average (values : list float64) : float64 :=
  if (length values =? 0)%nat then fzero
  else fdiv (foldl fadd fzero values) (of_int (Z.of_nat (length values))).

Definition ScoreKey (service instanceID : string) : string := (service +:+ "/" +:+ instanceID)%string.

(** ** Aggregation *)

Definition zero_sample : EndpointSample := {|
  s_Service := ""; s_InstanceID := ""; s_Address := ""; s_RegistrationEpoch := ""; s_Method := "";
  RequestCount := 0; ErrorCount := 0; TimeoutCount := 0; Inflight := 0; Capacity := 0; LatencyEWMA := 0;
  LatencyP95 := 0; s_TCPRetransmit := 0; s_ConnectError := 0 |}.

Definition aggregateEndpointSample (current sample : EndpointSample) : EndpointSample :=
  if bool_decide (s_Service current = ""%string) then sample else {|
    s_Service := s_Service current;
    s_InstanceID := s_InstanceID current;
    s_Address := if bool_decide (s_Address current = ""%string) then s_Address sample else s_Address current;
    s_RegistrationEpoch :=
      if bool_decide (s_RegistrationEpoch current = ""%string) then s_RegistrationEpoch sample
      else if bool_decide (s_RegistrationEpoch sample <> ""%string /\ s_RegistrationEpoch current <> s_RegistrationEpoch sample)
      then ""%string else s_RegistrationEpoch current;
    s_Method :=
      if bool_decide (s_Method current <> ""%string /\ s_Method sample <> ""%string /\ s_Method current <> s_Method sample)
      then ""%string else s_Method current;
    RequestCount := wraps 64 (RequestCount current + RequestCount sample);
    ErrorCount := wraps 64 (ErrorCount current + ErrorCount sample);
    TimeoutCount := wraps 64 (TimeoutCount current + TimeoutCount sample);
    Inflight := wraps 64 (Inflight current + Inflight sample);
    Capacity := if Capacity current <? Capacity sample then Capacity sample else Capacity current;
    LatencyEWMA := if LatencyEWMA current <? LatencyEWMA sample then LatencyEWMA sample else LatencyEWMA current;
    LatencyP95 := if LatencyP95 current <? LatencyP95 sample then LatencyP95 sample else LatencyP95 current;
    s_TCPRetransmit := wraps 64 (s_TCPRetransmit current + s_TCPRetransmit sample);
    s_ConnectError := wraps 64 (s_ConnectError current + s_ConnectError sample)
  |}.

Definition identified (sample : EndpointSample) : bool :=
  negb (bool_decide (s_Service sample = ""%string) || bool_decide (s_InstanceID sample = ""%string)).

Definition by_service (samples : list EndpointSample) : gmap string (gmap string EndpointSample) :=
  foldl (fun m sample =>
    if identified sample then
      let serviceSamples := default ∅ (m !! s_Service sample) in
      let current := default zero_sample (serviceSamples !! s_InstanceID sample) in
      <[s_Service sample := <[s_InstanceID sample := aggregateEndpointSample current sample]> serviceSamples]> m
    else m) ∅ samples.

(** ** Scoring *)

Definition absoluteLatencyScore (c : ScoreCalculator) (latency : Z) : float64 :=
  if (latencySLO c <=? 0) || (latency <=? 0) then fzero
  else fdiv (Seconds latency) (Seconds (latencySLO c)).

(** The baselines of a service. *)
Record baseline := { medianLatency : float64; madLatency : float64; avgErrorRate : float64; avgRetransmitRate : float64 }.

Definition network_events (sample : EndpointSample) : Z := wraps 64 (s_TCPRetransmit sample + s_ConnectError sample).

Definition baseline_of (samples : list EndpointSample) : baseline :=
  let latencies := (fun s => Seconds (LatencyP95 s)) <$> samples in
  let errorRates := (fun s => rate (ErrorCount s) (RequestCount s)) <$> samples in
  let retransmitRates := (fun s => networkRate (network_events s) (RequestCount s)) <$> samples in
  {| medianLatency := median latencies;
     madLatency := medianAbsoluteDeviation latencies (median latencies);
     avgErrorRate := average errorRates;
     avgRetransmitRate := average retransmitRates |}.

Definition score_sample (c : ScoreCalculator) (service : string) (b : baseline) (sample : EndpointSample) : EndpointScore :=
  let relativeLatencyScore :=
    fdiv (fmax fzero (fsub (Seconds (LatencyP95 sample)) (medianLatency b))) (fmax (madLatency b) (flit 1 1000)) in
  let latencyScore := fmax relativeLatencyScore (absoluteLatencyScore c (LatencyP95 sample)) in
  let errorScore :=
    if 0 <? ErrorCount sample
    then fdiv (rate (ErrorCount sample) (RequestCount sample)) (fmax (avgErrorRate b) scoreEpsilon) else fzero in
  let inflightScore := fdiv (of_int (Inflight sample)) (of_int (capacity (Capacity sample))) in
  let networkEvents := network_events sample in
  let retransmitScore :=
    if 0 <? networkEvents
    then fdiv (networkRate networkEvents (RequestCount sample)) (fmax (avgRetransmitRate b) scoreEpsilon) else fzero in
  let w := weights c in
  {| c_Service := service;
     c_InstanceID := s_InstanceID sample;
     c_Address := s_Address sample;
     c_RegistrationEpoch := s_RegistrationEpoch sample;
     c_Method := s_Method sample;
     Score := fadd (fadd (fadd (fmul (LatencyWeight w) latencyScore) (fmul (ErrorWeight w) errorScore))
                     (fmul (InflightWeight w) inflightScore)) (fmul (RetransmitWeight w) retransmitScore);
     LatencyScore := latencyScore;
     ErrorScore := errorScore;
     InflightScore := inflightScore;
     RetransmitScore := retransmitScore |}.

Definition calculateService (c : ScoreCalculator) (service : string) (samples : list EndpointSample)
    (out : gmap string EndpointScore) : gmap string EndpointScore :=
  let b := baseline_of samples in
  foldl (fun out sample => <[ScoreKey service (s_InstanceID sample) := score_sample c service b sample]> out) out samples.

(** The second loop, over the groups in the order they are traversed. *)
Definition calculate_groups (c : ScoreCalculator) (groups : list (string * list EndpointSample)) : gmap string EndpointScore :=
  foldl (fun out '(service, aggregated) => calculateService c service aggregated out) ∅ groups.

(** [ord] is the order in which the services and their endpoints are traversed. *)
Definition group_order : Type := gmap string (gmap string EndpointSample) -> list (string * list EndpointSample).

Definition Calculate (c : ScoreCalculator) (ord : group_order) (samples : list EndpointSample) : gmap string EndpointScore :=
  calculate_groups c (ord (by_service samples)).

(** [ord] is a traversal of the samples grouped by service and endpoint. *)
Definition traversal (samples : list EndpointSample) (ord : list (string * list EndpointSample)) : Prop :=
  ord.*1 ≡ₚ (map_to_list (by_service samples)).*1 /\
  Forall (fun '(service, l) => exists m, by_service samples !! service = Some m /\ l ≡ₚ (map_to_list m).*2) ord.

(** The order visits every service and every endpoint of it once. *)
Definition visits (ord : group_order) (samples : list EndpointSample) : Prop := traversal samples (ord (by_service samples)).

(** One order, that of the model's maps. *)
Definition canonical_order : group_order :=
  fun groups => (fun '(service, m) => (service, (map_to_list m).*2)) <$> map_to_list groups.

(** ** What aggregation computes *)

(** The largest element of a list that is not empty. *)
Definition largest (l : list Z) : Z := match l with [] => 0 | x :: l => foldl Z.max x l end.

Definition samples_for (service instanceID : string) (samples : list EndpointSample) : list EndpointSample :=
  filter (fun s => s_Service s = service /\ s_InstanceID s = instanceID) samples.

Definition aggregated (service instanceID : string) (samples : list EndpointSample) : option EndpointSample :=
  m ← by_service samples !! service; m !! instanceID.

Lemma by_service_snoc samples sample :
  by_service (samples ++ [sample]) =
  if identified sample then
    let serviceSamples := default ∅ (by_service samples !! s_Service sample) in
    let current := default zero_sample (serviceSamples !! s_InstanceID sample) in
    <[s_Service sample := <[s_InstanceID sample := aggregateEndpointSample current sample]> serviceSamples]>
      (by_service samples)
  else by_service samples.
Proof. unfold by_service. by rewrite foldl_snoc. Qed.

Lemma aggregated_snoc service instanceID samples sample :
  aggregated service instanceID (samples ++ [sample]) =
  if decide (identified sample = true /\ s_Service sample = service /\ s_InstanceID sample = instanceID)
  then Some (aggregateEndpointSample (default zero_sample (aggregated service instanceID samples)) sample)
  else aggregated service instanceID samples.
Proof.
  unfold aggregated. rewrite by_service_snoc. destruct (identified sample) eqn:Hid.
  2:{ by rewrite decide_False by naive_solver. }
  destruct (decide (s_Service sample = service)) as [<- | Hs].
  - rewrite lookup_insert_eq. cbn. destruct (decide (s_InstanceID sample = instanceID)) as [<- | Hi].
    + rewrite lookup_insert_eq, decide_True by done. by destruct (by_service samples !! s_Service sample).
    + rewrite lookup_insert_ne, decide_False by naive_solver.
      by destruct (by_service samples !! s_Service sample).
  - by rewrite lookup_insert_ne, decide_False by naive_solver.
Qed.

(** The fields of an aggregate that the scores are computed from. *)
Definition sums_up (es : list EndpointSample) (a : EndpointSample) : Prop :=
  RequestCount a = wraps 64 (sumZ (RequestCount <$> es)) /\
  ErrorCount a = wraps 64 (sumZ (ErrorCount <$> es)) /\
  Inflight a = wraps 64 (sumZ (Inflight <$> es)) /\
  s_TCPRetransmit a = wraps 64 (sumZ (s_TCPRetransmit <$> es)) /\
  s_ConnectError a = wraps 64 (sumZ (s_ConnectError <$> es)) /\
  Capacity a = largest (Capacity <$> es) /\ LatencyP95 a = largest (LatencyP95 <$> es) /\ LatencyEWMA a = largest (LatencyEWMA <$> es).

(** The counters are 64-bit integers. *)
Definition sample_ok (s : EndpointSample) : Prop :=
  is_s 64 (RequestCount s) /\ is_s 64 (ErrorCount s) /\ is_s 64 (Inflight s) /\ is_s 64 (s_TCPRetransmit s) /\
  is_s 64 (s_ConnectError s).

Lemma largest_snoc l x : l <> [] -> largest (l ++ [x]) = Z.max (largest l) x.
Proof. destruct l as [|y l]; [done|]. intros _. cbn. by rewrite foldl_snoc. Qed.

Lemma largest_nonneg l : Forall (fun x => 0 <= x) l -> 0 <= largest l.
Proof.
  destruct l as [|x l]; [done|]. intros [Hx Hl]%Forall_cons. cbn. revert x Hx. induction Hl as [|y l Hy _ IH]; intros x Hx; cbn; [done|].
  apply IH. lia.
Qed.

Lemma sums_up_single s : sample_ok s -> sums_up [s] s.
Proof.
  intros (? & ? & ? & ? & ?). unfold sums_up. cbn [fmap list_fmap]. rewrite !sumZ_singleton, !wraps_small by (done || lia).
  repeat split; done.
Qed.

Lemma sums_up_snoc es a s :
  es <> [] -> s_Service a <> ""%string -> sample_ok s -> sums_up es a -> sums_up (es ++ [s]) (aggregateEndpointSample a s).
Proof.
  intros Hes Ha (? & ? & ? & ? & ?) (E1 & E2 & E3 & E4 & E5 & E6 & E7 & E8). unfold aggregateEndpointSample.
  rewrite bool_decide_eq_false_2 by done. unfold sums_up. cbn -[wraps largest].
  rewrite !fmap_snoc, !sumZ_app, !largest_snoc, E1, E2, E3, E4, E5, E6, E7, E8, !wraps_add, !sumZ_singleton by (lia || by destruct es).
  repeat split; case_test; bool_facts; lia.
Qed.

Lemma aggregate_identity a s :
  s_Service a <> ""%string ->
  s_Service (aggregateEndpointSample a s) = s_Service a /\ s_InstanceID (aggregateEndpointSample a s) = s_InstanceID a.
Proof. intros Ha. unfold aggregateEndpointSample. by rewrite bool_decide_eq_false_2. Qed.

Lemma aggregated_spec service instanceID samples :
  service <> ""%string -> instanceID <> ""%string -> Forall sample_ok samples ->
  match aggregated service instanceID samples with
  | None => samples_for service instanceID samples = []
  | Some a => samples_for service instanceID samples <> [] /\ s_Service a = service /\ s_InstanceID a = instanceID /\
              sums_up (samples_for service instanceID samples) a
  end.
Proof.
  intros Hs Hi. induction samples as [|s samples IH] using rev_ind; intros Hok; [done|].
  apply Forall_app in Hok as [Hok Hsok]. rewrite Forall_singleton in Hsok. specialize (IH Hok). rewrite aggregated_snoc.
  unfold samples_for in *. rewrite filter_app.
  destruct (decide (s_Service s = service /\ s_InstanceID s = instanceID)) as [[Es Ei] | Hne].
  2:{ rewrite decide_False by naive_solver. rewrite filter_cons_False by done. by rewrite filter_nil, app_nil_r. }
  assert (Hid : identified s = true).
  { unfold identified. rewrite !bool_decide_eq_false_2 by congruence. done. }
  rewrite decide_True, filter_cons_True, filter_nil by done.
  split; [by destruct (filter _ samples)|].
  destruct (aggregated service instanceID samples) as [a|]; simpl.
  - destruct IH as (Hne & Ea & Eai & Hsum). destruct (aggregate_identity a s) as [-> ->]; [congruence|].
    split; [done|]. split; [done|]. apply sums_up_snoc; try done. congruence.
  - rewrite IH. unfold aggregateEndpointSample. rewrite bool_decide_eq_true_2 by done.
    split; [done|]. split; [done|]. by apply sums_up_single.
Qed.

(** ** Order independence of the latency scores *)

(** A value without a sign bit. *)
Definition unsigned (x : float64) : Prop :=
  match x with
  | S754_zero s | S754_infinity s | S754_finite s _ _ => s = false
  | S754_nan => True
  end.

Lemma unsigned_round_aux m e l : unsigned (binary_round_aux prec64 emax64 false m e l).
Proof.
  unfold binary_round_aux. destruct (shr_fexp _ _ _ _ _) as [mrs e']. cbv zeta.
  destruct (shr_fexp _ _ _ _ _) as [mrs' e'']. destruct (shr_m mrs'); [done | | done].
  by destruct (_ <=? _).
Qed.

Lemma unsigned_normalize m e : 0 <= m -> unsigned (binary_normalize prec64 emax64 m e false).
Proof.
  intros Hm. destruct m as [|m|m]; [done | | lia]. simpl. unfold binary_round.
  destruct (shl_align _ _ _). apply unsigned_round_aux.
Qed.

Lemma unsigned_of_int n : 0 <= n -> unsigned (of_int n).
Proof. apply unsigned_normalize. Qed.

Lemma unsigned_add x y : unsigned x -> unsigned y -> unsigned (fadd x y).
Proof.
  intros Hx Hy. destruct x as [[]|[]| |[] mx ex], y as [[]|[]| |[] my ey]; try done.
  unfold fadd, SFadd. apply unsigned_normalize.
  destruct (shl_align mx ex _) as [px ?]. destruct (shl_align my ey _) as [py ?]. simpl. lia.
Qed.

Lemma unsigned_div x y : unsigned x -> unsigned y -> unsigned (fdiv x y).
Proof.
  intros Hx Hy. destruct x as [[]|[]| |[] mx ex], y as [[]|[]| |[] my ey]; try done.
  unfold fdiv, SFdiv. destruct (SFdiv_core_binary _ _ _ _ _ _) as [[mz ez] lz]. apply unsigned_round_aux.
Qed.

Lemma unsigned_abs x : unsigned (fabs x).
Proof. by destruct x. Qed.

Lemma unsigned_Seconds d : 0 <= d -> unsigned (Seconds d).
Proof.
  intros Hd. unfold Seconds. apply unsigned_add; [|apply unsigned_div]; apply unsigned_of_int; [|apply Z.rem_nonneg | ]; try lia.
  apply Z.quot_pos; lia.
Qed.

(** The order [Float64s] sorts by. *)
Definition float_le : float64 -> float64 -> Prop := not_after float_less.

Lemma float_less_key x y :
  float_less x y = true <->
  match fkey x, fkey y with Some a, Some b => lex_lt a b | None, Some _ => True | _, None => False end.
Proof.
  assert (Hn : forall z, IsNaN z = match fkey z with None => true | Some _ => false end) by (by intros []).
  unfold float_less. rewrite orb_true_iff, flt_key, !Hn. unfold key_rel.
  destruct (fkey x), (fkey y); simpl; intuition discriminate.
Qed.

Lemma float_le_key x y :
  float_le x y <->
  match fkey x, fkey y with Some a, Some b => lex_le a b | Some _, None => False | None, _ => True end.
Proof.
  unfold float_le, not_after. rewrite <- not_true_iff_false, float_less_key.
  destruct (fkey x) as [a|], (fkey y) as [b|]; try tauto.
  split; [intros H; destruct (lex_total a b); tauto | intros H1 H2; by apply lex_asym in H2].
Qed.

#[local] Instance float_le_trans : Transitive float_le.
Proof.
  intros x y z. rewrite !float_le_key. destruct (fkey x), (fkey y), (fkey z); try done. apply lex_le_trans.
Qed.

Lemma float_le_antisym x y : unsigned x -> unsigned y -> float_le x y -> float_le y x -> x = y.
Proof.
  rewrite !float_le_key. intros Hx Hy H1 H2.
  assert (E : fkey x = fkey y).
  { destruct (fkey x), (fkey y); try done. destruct H1 as [H1 | ->]; [by apply lex_asym in H1 | done]. }
  destruct x as [[]|[]| |[] mx ex], y as [[]|[]| |[] my ey]; simpl in *; simplify_eq; done.
Qed.

Lemma float_less_le x y : float_less x y = true -> float_le x y.
Proof.
  rewrite float_less_key, float_le_key. destruct (fkey x), (fkey y); try done. by left.
Qed.

#[local] Instance float_less_order : StrictWeak float_less.
Proof. split; [apply float_less_le | apply float_le_trans]. Qed.

Lemma Float64s_unique l1 l2 : Forall unsigned l1 -> l1 ≡ₚ l2 -> Float64s l1 = Float64s l2.
Proof.
  intros Hu Hp. apply Slice_unique; [apply _ | | done]. rewrite Forall_forall in Hu. intros x y Hx Hy.
  by apply float_le_antisym; apply Hu.
Qed.

Lemma median_perm l1 l2 : Forall unsigned l1 -> l1 ≡ₚ l2 -> median l1 = median l2.
Proof. intros Hu Hp. unfold median. rewrite (Float64s_unique l1 l2) by done. by rewrite Hp. Qed.

Lemma mad_perm l1 l2 med : l1 ≡ₚ l2 -> medianAbsoluteDeviation l1 med = medianAbsoluteDeviation l2 med.
Proof.
  intros Hp. unfold medianAbsoluteDeviation. rewrite Hp. destruct (_ =? _)%nat; [done|]. apply median_perm.
  - apply Forall_fmap, Forall_true. intros x. apply unsigned_abs.
  - by rewrite Hp.
Qed.

(** ** Keys *)

Fixpoint no_slash (s : string) : bool :=
  match s with
  | EmptyString => true
  | String c s' => negb (Ascii.eqb c "/"%char) && no_slash s'
  end.

Lemma ScoreKey_inj s1 i1 s2 i2 :
  no_slash s1 = true -> no_slash s2 = true -> ScoreKey s1 i1 = ScoreKey s2 i2 -> s1 = s2 /\ i1 = i2.
Proof.
  unfold ScoreKey. revert s2. induction s1 as [|c1 s1 IH]; intros [|c2 s2] H1 H2 E; simpl in *.
  - by simplify_eq.
  - injection E as <- E. by rewrite Ascii.eqb_refl in H2.
  - injection E as -> E. by rewrite Ascii.eqb_refl in H1.
  - injection E as -> E. apply andb_true_iff in H1 as [_ H1], H2 as [_ H2].
    destruct (IH s2 H1 H2 E) as [-> ->]. done.
Qed.

(** Neither name followed by a slash begins the other. *)
Definition separate (s t : string) : Prop := String.prefix (s +:+ "/") t = false /\ String.prefix (t +:+ "/") s = false.

#[export] Instance separate_dec s t : Decision (separate s t).
Proof. unfold separate. apply _. Defined.

(** Two services share a key only if one name, with a slash, begins the other. *)
Lemma ScoreKey_separate s i t j : ScoreKey s i = ScoreKey t j -> separate s t \/ s = t -> s = t /\ i = j.
Proof.
  unfold ScoreKey, separate. revert t. induction s as [|c s IH]; intros [|c' t] E Hor; simpl in E.
  - by simplify_eq.
  - injection E as <- _. destruct Hor as [[Hor _]|[=]]. simpl in Hor. by destruct t.
  - injection E as -> _. destruct Hor as [[_ Hor]|[=]]. simpl in Hor. by destruct s.
  - injection E as -> E. destruct (IH t E) as [-> ->]; [|done]. destruct Hor as [[H1 H2]|[= ->]]; [left|by right].
    simpl in H1, H2. by destruct (ascii_dec c' c').
Qed.

Lemma aggregated_id service instanceID samples a :
  aggregated service instanceID samples = Some a ->
  s_Service a = service /\ s_InstanceID a = instanceID /\ (service <> ""%string /\ instanceID <> ""%string) /\
  exists s, s ∈ samples /\ s_Service s = service.
Proof.
  revert a. induction samples as [|s samples IH] using rev_ind; intros a; [done|].
  rewrite aggregated_snoc. destruct (decide _) as [(Hid & Es & Ei) | _].
  - intros [= <-]. unfold identified in Hid. apply negb_true_iff, orb_false_iff in Hid as [H1 H2].
    apply bool_decide_eq_false in H1, H2.
    assert (Hin : exists s', s' ∈ samples ++ [s] /\ s_Service s' = service) by (exists s; set_solver).
    destruct (aggregated service instanceID samples) as [b|].
    + destruct (IH b eq_refl) as (Eb & Ebi & _). simpl.
      destruct (aggregate_identity b s) as [-> ->]; [congruence|]. repeat split; congruence || done.
    + simpl. unfold aggregateEndpointSample. rewrite bool_decide_eq_true_2 by done. repeat split; congruence || done.
  - intros Ha. destruct (IH a Ha) as (? & ? & ? & s' & Hs' & Es'). do 3 (split; [done|]).
    exists s'. set_solver.
Qed.

Lemma by_service_id samples service m instanceID a :
  by_service samples !! service = Some m -> m !! instanceID = Some a -> s_InstanceID a = instanceID.
Proof.
  intros Hm Ha. apply (aggregated_id service instanceID samples). unfold aggregated. by rewrite Hm.
Qed.

(** ** Scores *)

Lemma calculateService_other c service l out key :
  (forall a, a ∈ l -> ScoreKey service (s_InstanceID a) <> key) -> calculateService c service l out !! key = out !! key.
Proof.
  unfold calculateService. generalize (baseline_of l) as b. intros b. revert out.
  induction l as [|a l IH]; intros out Hne; simpl; [done|].
  rewrite IH by (intros; apply Hne; by right). apply lookup_insert_ne, Hne. left.
Qed.

Lemma calculateService_own c service l out a :
  no_slash service = true -> NoDup (s_InstanceID <$> l) -> a ∈ l ->
  calculateService c service l out !! ScoreKey service (s_InstanceID a) = Some (score_sample c service (baseline_of l) a).
Proof.
  intros Hns. unfold calculateService. generalize (baseline_of l) as b. intros b. revert out.
  induction l as [|x l IH]; intros out Hd Ha; [set_solver|]. simpl. apply NoDup_cons in Hd as [Hx Hd].
  apply elem_of_cons in Ha as [-> | Ha]; [|by apply IH].
  assert (Hne : forall y, y ∈ l -> s_InstanceID y <> s_InstanceID x).
  { intros y Hy E. apply Hx. apply list_elem_of_fmap. by exists y. }
  clear IH Hd Hx. set (out' := <[_ := _]> out).
  assert (Hout : out' !! ScoreKey service (s_InstanceID x) = Some (score_sample c service b x)) by apply lookup_insert_eq.
  clearbody out'. revert out' Hout. induction l as [|y l IH]; intros out' Hout; simpl; [done|].
  apply IH; [intros; apply Hne; by right|]. rewrite lookup_insert_ne; [done|].
  intros E%ScoreKey_inj; [|done|done]. apply (Hne y); [left | apply E].
Qed.

Section Traversal.
Context (samples : list EndpointSample) (ord : list (string * list EndpointSample)).
Hypothesis Hord : traversal samples ord.
Hypothesis Hns : Forall (fun s => no_slash (s_Service s) = true) samples.

Lemma traversal_group service l :
  (service, l) ∈ ord ->
  exists m, by_service samples !! service = Some m /\ l ≡ₚ (map_to_list m).*2.
Proof. intros H. destruct Hord as [_ Hall]. rewrite Forall_forall in Hall. apply (Hall _ H). Qed.

Lemma traversal_instances service l : (service, l) ∈ ord -> NoDup (s_InstanceID <$> l).
Proof.
  intros Hin. destruct (traversal_group service l Hin) as (m & Hm & ->).
  replace (s_InstanceID <$> (map_to_list m).*2) with (map_to_list m).*1; [apply NoDup_fst_map_to_list|].
  rewrite <- list_fmap_compose. apply list_fmap_ext. intros i [k a] Hi. simpl.
  symmetry. eapply by_service_id; [exact Hm|]. apply elem_of_map_to_list. by eapply list_elem_of_lookup_2.
Qed.

Lemma traversal_slash service l : (service, l) ∈ ord -> l <> [] -> no_slash service = true.
Proof.
  intros Hin Hl. destruct (traversal_group service l Hin) as (m & Hm & Hp).
  destruct l as [|a l]; [done|].
  assert (Ha : a ∈ (map_to_list m).*2) by (rewrite <- Hp; left).
  apply list_elem_of_fmap in Ha as ([k a'] & -> & Ha). apply elem_of_map_to_list in Ha.
  destruct (aggregated_id service k samples a') as (_ & _ & _ & s & Hs & <-).
  { unfold aggregated. by rewrite Hm. }
  rewrite Forall_forall in Hns. by apply Hns.
Qed.

Lemma traversal_covers service instanceID a :
  aggregated service instanceID samples = Some a -> exists l, (service, l) ∈ ord /\ a ∈ l.
Proof.
  unfold aggregated. destruct (by_service samples !! service) as [m|] eqn:Hm; [|done]. simpl. intros Ha.
  assert (Hs : service ∈ ord.*1).
  { destruct Hord as [-> _]. apply list_elem_of_fmap. exists (service, m). split; [done|]. by apply elem_of_map_to_list. }
  apply list_elem_of_fmap in Hs as ([service' l] & E & Hin). simpl in E. subst service'. exists l. split; [done|].
  destruct (traversal_group service l Hin) as (m' & Hm' & ->). rewrite Hm in Hm'. simplify_eq.
  apply list_elem_of_fmap. exists (instanceID, a). split; [done|]. by apply elem_of_map_to_list.
Qed.

Lemma traversal_services : NoDup ord.*1.
Proof. destruct Hord as [-> _]. apply NoDup_fst_map_to_list. Qed.

Lemma calculate_groups_lookup c service instanceID a l :
  aggregated service instanceID samples = Some a -> (service, l) ∈ ord -> a ∈ l ->
  calculate_groups c ord !! ScoreKey service instanceID = Some (score_sample c service (baseline_of l) a).
Proof.
  intros Ha Hl Hal. destruct (aggregated_id _ _ _ _ Ha) as (_ & <- & _).
  assert (Hsl : no_slash service = true) by (eapply traversal_slash; [exact Hl | by destruct l; set_solver]).
  unfold calculate_groups. generalize (∅ : gmap string EndpointScore) as out.
  pose proof traversal_services as Hd. pose proof traversal_instances as Hi. pose proof traversal_slash as Hsl'.
  clear Hord Hns. induction ord as [|[service' l'] ord' IH]; intros out; [set_solver|]. cbn in Hd.
  apply NoDup_cons in Hd as [Hs' Hd]. cbn [foldl].
  apply elem_of_cons in Hl as [[= -> ->] | Hl].
  - assert (Hlook : calculateService c service' l' out !! ScoreKey service' (s_InstanceID a) =
        Some (score_sample c service' (baseline_of l') a)).
    { apply calculateService_own; [done | apply (Hi service'); left | done]. }
    revert Hlook. generalize (calculateService c service' l' out) as out'. clear IH Hd.
    induction ord' as [|[service2 l2] ord' IH]; intros out' Hlook; [done|]. cbn [foldl].
    apply IH.
    + intros H. apply Hs'. cbn. by right.
    + intros s0 l0 H0. apply (Hi s0). set_solver.
    + intros s0 l0 H0. apply (Hsl' s0). set_solver.
    + rewrite calculateService_other; [done|]. intros b Hb E.
      apply ScoreKey_inj in E as [-> _]; [| apply (Hsl' _ l2); [set_solver | by destruct l2; set_solver] | done].
      apply Hs'. cbn. left.
  - apply IH; [done | done | |].
    + intros s0 l0 H0. apply (Hi s0). by right.
    + intros s0 l0 H0. apply (Hsl' s0). by right.
Qed.
End Traversal.

(** C33. Every endpoint that reported under a service and an instance name gets
    exactly one score, computed from the sums of its counters and the maxima of its
    latencies and its capacity over all its samples, against the baselines of its own
    service: the median latency and its deviation, and the mean error and
    network-event rates, over all endpoints of that service.  The services have no
    slash in their names, and the counters are 64-bit integers. *)
Theorem every_endpoint_scored c samples ord service instanceID :
  visits ord samples -> Forall (fun s => no_slash (s_Service s) = true) samples -> Forall sample_ok samples ->
  service <> ""%string -> instanceID <> ""%string -> samples_for service instanceID samples <> [] ->
  exists a l, (service, l) ∈ ord (by_service samples) /\ a ∈ l /\ sums_up (samples_for service instanceID samples) a /\
    Calculate c ord samples !! ScoreKey service instanceID = Some (score_sample c service (baseline_of l) a).
Proof.
  intros Hord Hns Hok Hs Hi Hne. pose proof (aggregated_spec service instanceID samples Hs Hi Hok) as H.
  destruct (aggregated service instanceID samples) as [a|] eqn:Ha; [|done]. destruct H as (_ & _ & _ & Hsum).
  destruct (traversal_covers samples _ Hord _ _ _ Ha) as (l & Hl & Hal).
  exists a, l. split; [done|]. split; [done|]. split; [done|].
  exact (calculate_groups_lookup samples _ Hord Hns c _ _ _ _ Ha Hl Hal).
Qed.

Lemma baseline_latency l1 l2 :
  Forall (fun s => 0 <= LatencyP95 s) l1 -> l1 ≡ₚ l2 ->
  medianLatency (baseline_of l1) = medianLatency (baseline_of l2) /\ madLatency (baseline_of l1) = madLatency (baseline_of l2).
Proof.
  intros Hpos Hp. cbn.
  assert (E : median ((fun s => Seconds (LatencyP95 s)) <$> l1) = median ((fun s => Seconds (LatencyP95 s)) <$> l2)).
  { apply median_perm; [|by rewrite Hp]. apply Forall_fmap. eapply Forall_impl; [exact Hpos|].
    intros s Hs. by apply unsigned_Seconds. }
  split; [exact E|]. rewrite E. apply mad_perm. by rewrite Hp.
Qed.

(** The latency part of a score does not depend on the order in which Go
    traverses its maps (the medians are those of a sorted copy), while latencies
    are not negative. *)
Theorem latency_score_order_independent c samples ord1 ord2 service instanceID :
  visits ord1 samples -> visits ord2 samples ->
  Forall (fun s => no_slash (s_Service s) = true) samples -> Forall sample_ok samples -> Forall (fun s => 0 <= LatencyP95 s) samples ->
  service <> ""%string -> instanceID <> ""%string -> samples_for service instanceID samples <> [] ->
  LatencyScore <$> (Calculate c ord1 samples !! ScoreKey service instanceID) =
  LatencyScore <$> (Calculate c ord2 samples !! ScoreKey service instanceID).
Proof.
  intros H1 H2 Hns Hok Hlat Hs Hi Hne. unfold Calculate.
  pose proof (aggregated_spec service instanceID samples Hs Hi Hok) as H.
  destruct (aggregated service instanceID samples) as [a|] eqn:Ha; [|done].
  destruct (traversal_covers samples _ H1 _ _ _ Ha) as (l1 & Hl1 & Ha1).
  destruct (traversal_covers samples _ H2 _ _ _ Ha) as (l2 & Hl2 & Ha2).
  rewrite (calculate_groups_lookup samples _ H1 Hns c _ _ _ _ Ha Hl1 Ha1).
  rewrite (calculate_groups_lookup samples _ H2 Hns c _ _ _ _ Ha Hl2 Ha2). cbn [fmap option_fmap option_map]. f_equal.
  destruct (traversal_group samples _ H1 _ _ Hl1) as (m & Hm & Hp1).
  destruct (traversal_group samples _ H2 _ _ Hl2) as (m' & Hm' & Hp2). rewrite Hm in Hm'. injection Hm' as <-.
  destruct (baseline_latency l1 l2) as [E1 E2]; [|by rewrite Hp1, Hp2|].
  - rewrite Hp1. apply Forall_fmap, Forall_forall. intros [i b] Hb%elem_of_map_to_list. simpl.
    assert (Hab : aggregated service i samples = Some b) by (unfold aggregated; by rewrite Hm).
    destruct (aggregated_id _ _ _ _ Hab) as (_ & _ & [_ Hi'] & _).
    pose proof (aggregated_spec service i samples Hs Hi' Hok) as Hb'. rewrite Hab in Hb'.
    destruct Hb' as (_ & _ & _ & _ & _ & _ & _ & _ & _ & -> & _).
    apply largest_nonneg, Forall_fmap, Forall_forall. intros x [_ Hx]%list_elem_of_filter. rewrite Forall_forall in Hlat. by apply Hlat.
  - unfold score_sample, LatencyScore. by rewrite E1, E2.
Qed.

(** ** A concrete report *)

Definition demo_sample (service instanceID method : string) (requests errors p95 : Z) : EndpointSample := {|
  s_Service := service; s_InstanceID := instanceID; s_Address := ""; s_RegistrationEpoch := ""; s_Method := method;
  RequestCount := requests; ErrorCount := errors; TimeoutCount := 0; Inflight := 1; Capacity := 0;
  LatencyEWMA := 0; LatencyP95 := p95; s_TCPRetransmit := 0; s_ConnectError := 0 |}.

Definition demo_samples : list EndpointSample := [
  demo_sample "user" "a" "Get" 100 0 10000000; demo_sample "user" "b" "Get" 100 50 400000000;
  demo_sample "user" "a" "Put" 10 1 20000000; demo_sample "user" "c" "Get" 100 0 12000000;
  demo_sample "" "x" "Get" 1 1 1].

Lemma canonical_order_visits samples : visits canonical_order samples.
Proof.
  split.
  - unfold canonical_order. rewrite <- list_fmap_compose.
    by rewrite (list_fmap_ext _ fst) by (by intros ? [? ?]).
  - apply Forall_fmap, Forall_forall. intros [service m] Hm%elem_of_map_to_list. exists m. done.
Qed.

Definition demo_calculator : ScoreCalculator := NewScoreCalculatorWithConfig DefaultScoreWeights 100000000.

Lemma demo_samples_ok :
  Forall (fun s => no_slash (s_Service s) = true) demo_samples /\ Forall sample_ok demo_samples.
Proof. split; repeat constructor; cbn; unfold is_s; lia. Qed.

Lemma every_endpoint_scored_witness :
  exists a, sums_up [demo_sample "user" "a" "Get" 100 0 10000000; demo_sample "user" "a" "Put" 10 1 20000000] a /\
    LatencyP95 a = 20000000 /\ RequestCount a = 110.
Proof.
  destruct (every_endpoint_scored demo_calculator demo_samples canonical_order "user" "a")
    as (a & l & _ & _ & Hsum & _).
  - exact (canonical_order_visits _).
  - exact (proj1 demo_samples_ok).
  - exact (proj2 demo_samples_ok).
  - discriminate.
  - discriminate.
  - vm_compute. discriminate.
  - exists a. split; [exact Hsum|]. destruct Hsum as (E1 & _ & _ & _ & _ & _ & E7 & _). rewrite E1, E7. split; reflexivity.
Defined.

Definition reversed (ord : group_order) : group_order :=
  fun groups => (fun '(service, l) => (service, reverse l)) <$> ord groups.

Lemma visits_reversed ord samples : visits ord samples -> visits (reversed ord) samples.
Proof.
  intros [H1 H2]. split.
  - rewrite <- H1. unfold reversed. rewrite <- list_fmap_compose. by rewrite (list_fmap_ext _ fst) by (by intros ? [? ?]).
  - apply Forall_fmap. eapply Forall_impl; [exact H2|]. intros [service l] (m & Hm & Hp). exists m.
    split; [done|]. by rewrite reverse_Permutation.
Qed.

Lemma latency_score_order_independent_witness :
  LatencyScore <$> (Calculate demo_calculator canonical_order demo_samples !! ScoreKey "user" "b") =
  LatencyScore <$> (Calculate demo_calculator (reversed canonical_order) demo_samples !! ScoreKey "user" "b").
Proof.
  apply (latency_score_order_independent demo_calculator demo_samples).
  - exact (canonical_order_visits _).
  - exact (visits_reversed _ _ (canonical_order_visits _)).
  - exact (proj1 demo_samples_ok).
  - exact (proj2 demo_samples_ok).
  - repeat constructor; cbn; lia.
  - discriminate.
  - discriminate.
  - vm_compute. discriminate.
Defined.
