(* ===== verification/HealthManager.v ===== *)
(** * The health manager ([pkg/fault/manager.go])

    Telemetry reports and timer ticks drive one state machine per endpoint;
    every observable change of a service's endpoints advances that service's
    revision, which watchers wait for.  [now] is a reading of the manager's clock
    and [clock] one of the wall clock. *)
From Stdlib Require Import String.
From stdpp Require Import sorting.
From S2P Require Import Prelude GoStd GoSort GoFloat Status StateMachine SlowScore.

Record EndpointIdentity := { id_Service : string; id_InstanceID : string; id_RegistrationEpoch : string }.

#[export] Instance EndpointIdentity_eq_dec : EqDecision EndpointIdentity.
Proof. solve_decision. Defined.
#[export] Instance EndpointIdentity_countable : Countable EndpointIdentity.
Proof.
  refine (inj_countable' (fun i => (id_Service i, id_InstanceID i, id_RegistrationEpoch i))
    (fun '(s, i, e) => {| id_Service := s; id_InstanceID := i; id_RegistrationEpoch := e |}) _).
  by intros [].
Defined.

(** [notify] counts the notification channels closed so far: a watcher that
    captured it waits until it has grown. *)
Record HealthManager := {
  calculator : ScoreCalculator;
  baseStateMachine : StateMachineConfig;
  serviceStateMachines : gmap string StateMachineConfig;
  health : gmap string EndpointHealth;
  revision : Z;
  serviceRevisions : gmap string Z;
  notify : N
}.

Definition set_health (m : HealthManager) (h : gmap string EndpointHealth) : HealthManager := {|
  calculator := calculator m; baseStateMachine := baseStateMachine m; serviceStateMachines := serviceStateMachines m;
  health := h; revision := revision m; serviceRevisions := serviceRevisions m; notify := notify m |}.

Definition set_configs (m : HealthManager) (cs : gmap string StateMachineConfig) : HealthManager := {|
  calculator := calculator m; baseStateMachine := baseStateMachine m; serviceStateMachines := cs;
  health := health m; revision := revision m; serviceRevisions := serviceRevisions m; notify := notify m |}.

(** ** Comparisons: Go's [==] on structs, with [float64] equality *)

Definition config_eqb (a b : StateMachineConfig) : bool :=
  feq (DegradedThreshold a) (DegradedThreshold b) && feq (EjectThreshold a) (EjectThreshold b) &&
  (ConsecutiveWindows a =? ConsecutiveWindows b) && (EjectionDuration a =? EjectionDuration b) &&
  feq (RecoveryThreshold a) (RecoveryThreshold b) && feq (ProbeSuccessThreshold a) (ProbeSuccessThreshold b).

Definition endpointHealthEqualIgnoringUpdatedAt (a b : EndpointHealth) : bool :=
  bool_decide (Service a = Service b) && bool_decide (InstanceID a = InstanceID b) &&
  bool_decide (Address a = Address b) && bool_decide (RegistrationEpoch a = RegistrationEpoch b) &&
  bool_decide (State a = State b) && feq (SlowScore a) (SlowScore b) &&
  (ConsecutiveSlowWindows a =? ConsecutiveSlowWindows b) &&
  (ConsecutiveEjectWindows a =? ConsecutiveEjectWindows b) &&
  (LastTransitionAt a =? LastTransitionAt b) && (EjectedAt a =? EjectedAt b).

Definition health_eqb (a b : EndpointHealth) : bool :=
  endpointHealthEqualIgnoringUpdatedAt a b && (UpdatedAt a =? UpdatedAt b).

(** ** Field updates *)

Definition with_identity (h : EndpointHealth) (address epoch : string) : EndpointHealth := {|
  Service := Service h; InstanceID := InstanceID h; Address := address; RegistrationEpoch := epoch;
  State := State h; SlowScore := SlowScore h; ConsecutiveSlowWindows := ConsecutiveSlowWindows h;
  ConsecutiveEjectWindows := ConsecutiveEjectWindows h; LastTransitionAt := LastTransitionAt h;
  EjectedAt := EjectedAt h; UpdatedAt := UpdatedAt h |}.

Definition with_updated (h : EndpointHealth) (t : Z) : EndpointHealth := {|
  Service := Service h; InstanceID := InstanceID h; Address := Address h; RegistrationEpoch := RegistrationEpoch h;
  State := State h; SlowScore := SlowScore h; ConsecutiveSlowWindows := ConsecutiveSlowWindows h;
  ConsecutiveEjectWindows := ConsecutiveEjectWindows h; LastTransitionAt := LastTransitionAt h;
  EjectedAt := EjectedAt h; UpdatedAt := t |}.

(** The zero value of the struct: what a missing map entry reads as. *)
Definition zero_health : EndpointHealth := set_state (NewEndpointHealth "" "" "" "") Unspecified.

Definition zero_config : StateMachineConfig := {|
  DegradedThreshold := fzero; EjectThreshold := fzero; ConsecutiveWindows := 0; EjectionDuration := 0;
  RecoveryThreshold := fzero; ProbeSuccessThreshold := fzero |}.

(** ** Helpers *)

Definition endpointAddressChanged (h : EndpointHealth) (address : string) : bool :=
  bool_decide (address <> ""%string /\ Address h <> ""%string /\ Address h <> address).

Definition endpointRegistrationEpochChanged (h : EndpointHealth) (epoch : string) : bool :=
  bool_decide (epoch <> ""%string /\ RegistrationEpoch h <> ""%string /\ RegistrationEpoch h <> epoch).

Definition endpointAddressMatches (healthAddress registeredAddress : string) : bool :=
  bool_decide (healthAddress = ""%string \/ registeredAddress = ""%string \/ healthAddress = registeredAddress).

Definition successRate (sample : EndpointSample) : float64 :=
  if RequestCount sample <=? 0 then of_int 1 else
  let successes := wraps 64 (RequestCount sample - ErrorCount sample) in
  let successes := if successes <? 0 then 0 else successes in
  fdiv (of_int successes) (of_int (RequestCount sample)).

Definition stateMachineConfigLocked (m : HealthManager) (service : string) : StateMachineConfig :=
  resolveStateMachineConfig (baseStateMachine m) (default zero_config (serviceStateMachines m !! service)).

(** The machine of a service; the cache of the source only avoids building it twice. *)
Definition stateMachineForLocked (m : HealthManager) (service : string) : StateMachineConfig :=
  defaultStateMachineConfig (stateMachineConfigLocked m service).

Definition bumpIfChangedLocked (m : HealthManager) (changed : gset string) : HealthManager :=
  if bool_decide (changed = ∅) then m else
  let rev := wraps 64 (revision m + 1) in
  {| calculator := calculator m; baseStateMachine := baseStateMachine m; serviceStateMachines := serviceStateMachines m;
     health := health m; revision := rev;
     serviceRevisions := set_to_map (fun service => (service, rev)) changed ∪ serviceRevisions m;
     notify := notify m + 1 |}.

Definition healthVersionLocked (m : HealthManager) (service : string) : Z :=
  if bool_decide (service = ""%string) then revision m else default 0 (serviceRevisions m !! service).

(** ** Listing *)

Definition health_less : EndpointHealth -> EndpointHealth -> bool := by_keys (fun h => [Service h; InstanceID h]).

(** The order in which Go traverses the endpoints. *)
Definition health_order : Type := gmap string EndpointHealth -> list (string * EndpointHealth).

Definition listLocked (visit : health_order) (m : HealthManager) (service : string) : list EndpointHealth :=
  Slice health_less
    (filter (fun h => service = ""%string \/ Service h = service) (visit (health m)).*2).

(** ** Operations *)

Definition cloneStateMachineConfigs (src : gmap string StateMachineConfig) : gmap string StateMachineConfig :=
  delete ""%string src.

Definition NewHealthManager (w : ScoreWeights) (slo : Z) (sm : StateMachineConfig)
    (services : gmap string StateMachineConfig) : HealthManager :=
  let zero := feq (LatencyWeight w) fzero && feq (ErrorWeight w) fzero &&
              feq (InflightWeight w) fzero && feq (RetransmitWeight w) fzero in
  {| calculator := NewScoreCalculatorWithConfig (if zero then DefaultScoreWeights else w) slo;
     baseStateMachine := defaultStateMachineConfig sm;
     serviceStateMachines := cloneStateMachineConfigs services;
     health := ∅; revision := 0; serviceRevisions := ∅; notify := 0 |}.

(** The endpoint a sample is applied to: a new owner of the address or of the
    registration starts afresh. *)
Definition sample_target (before : EndpointHealth) (sample : EndpointSample) : EndpointHealth :=
  let h :=
    if bool_decide (Service before = ""%string) || endpointAddressChanged before (s_Address sample)
       || endpointRegistrationEpochChanged before (s_RegistrationEpoch sample)
    then NewEndpointHealth (s_Service sample) (s_InstanceID sample) (s_Address sample) (s_RegistrationEpoch sample)
    else before in
  with_identity h
    (if bool_decide (s_Address sample <> ""%string) then s_Address sample else Address h)
    (if bool_decide (s_RegistrationEpoch sample <> ""%string) then s_RegistrationEpoch sample else RegistrationEpoch h).

(** One sample of a report. *)
Definition update_sample (clock now : Z) (scores : gmap string EndpointScore)
    (acc : HealthManager * gset string) (sample : EndpointSample) : HealthManager * gset string :=
  let '(m, changed) := acc in
  if negb (identified sample) then acc else
  let key := ScoreKey (s_Service sample) (s_InstanceID sample) in
  let existed := bool_decide (is_Some (health m !! key)) in
  let before := default zero_health (health m !! key) in
  let h := sample_target before sample in
  let score := match scores !! key with Some sc => Score sc | None => fzero end in
  let h := Apply clock (stateMachineForLocked m (Service h)) h
    {| Now := now; in_SlowScore := score; SuccessRate := successRate sample |} in
  if negb existed || negb (endpointHealthEqualIgnoringUpdatedAt before h)
  then (set_health m (<[key := with_updated h now]> (health m)), {[s_Service sample]} ∪ changed)
  else (set_health m (<[key := h]> (health m)), changed).

(** [ord] is the traversal order of the score calculation, [visit] that of the listing. *)
Definition Update (clock now : Z) (ord : group_order) (visit : health_order) (samples : list EndpointSample)
    (m : HealthManager) : list EndpointHealth * HealthManager :=
  let scores := Calculate (calculator m) ord samples in
  let '(m, changed) := foldl (update_sample clock now scores) (m, ∅) samples in
  let m := bumpIfChangedLocked m changed in
  (listLocked visit m "", m).

Definition tick_health (clock now : Z) (m : HealthManager) (before : EndpointHealth) : EndpointHealth :=
  let h := Apply clock (stateMachineForLocked m (Service before)) before
    {| Now := now; in_SlowScore := SlowScore before; SuccessRate := of_int 1 |} in
  if health_eqb before h then h else with_updated h now.

Definition tick_changed (clock now : Z) (m : HealthManager) (before : EndpointHealth) : bool :=
  negb (health_eqb before (Apply clock (stateMachineForLocked m (Service before)) before
    {| Now := now; in_SlowScore := SlowScore before; SuccessRate := of_int 1 |})).

(** The endpoints are visited in any order: each visit touches its own entry only. *)
Definition Tick (clock now : Z) (visit : health_order) (m : HealthManager) : list EndpointHealth * HealthManager :=
  let changed := list_to_set ((fun h => Service h) <$> filter (fun h => tick_changed clock now m h = true) (map_to_list (health m)).*2) in
  let m := bumpIfChangedLocked (set_health m (tick_health clock now m <$> health m)) changed in
  (listLocked visit m "", m).

Definition reset_counters (now : Z) (service : string) (h : EndpointHealth) : EndpointHealth :=
  if bool_decide (Service h <> service) then h
  else if (ConsecutiveSlowWindows h =? 0) && (ConsecutiveEjectWindows h =? 0) then h
  else with_updated (set_windows h 0 0) now.

Definition resetStateMachineCountersLocked (now : Z) (m : HealthManager) (service : string) : HealthManager :=
  set_health m (reset_counters now service <$> health m).

Definition SetServiceStateMachineConfig (now : Z) (service : string) (cfg : StateMachineConfig) (m : HealthManager)
  : bool * HealthManager :=
  if bool_decide (service = ""%string) then (false, m) else
  let before := stateMachineConfigLocked m service in
  let m := set_configs m (<[service := cfg]> (serviceStateMachines m)) in
  if config_eqb before (stateMachineConfigLocked m service) then (false, m)
  else (true, bumpIfChangedLocked (resetStateMachineCountersLocked now m service) {[service]}).

(** [ord] is the order in which the changed services are traversed; [now] are the
    readings of the clock, one per changed service. *)
Definition ReplaceServiceStateMachineConfigs (now : string -> Z) (configs : gmap string StateMachineConfig)
    (ord : gset string -> list string) (m : HealthManager) : Z * HealthManager :=
  let configs := cloneStateMachineConfigs configs in
  let effective c := resolveStateMachineConfig (baseStateMachine m) c in
  let differs old new := negb (config_eqb (effective old) (effective new)) in
  let changed_old := filter (fun service => differs (default zero_config (serviceStateMachines m !! service))
                                (default zero_config (configs !! service)) = true) (dom (serviceStateMachines m)) in
  let changed_new := filter (fun service => serviceStateMachines m !! service = None /\
                                differs zero_config (default zero_config (configs !! service)) = true) (dom configs) in
  let changed := changed_old ∪ changed_new in
  let m := set_configs m configs in
  let m := foldl (fun m service => resetStateMachineCountersLocked (now service) m service) m (ord changed) in
  (Z.of_nat (size changed), bumpIfChangedLocked m changed).

(** One endpoint of a snapshot. *)
Definition merge_one (now : Z) (acc : HealthManager * gset string) (h : EndpointHealth) : HealthManager * gset string :=
  let '(m, changed) := acc in
  if bool_decide (Service h = ""%string) || bool_decide (InstanceID h = ""%string) then acc else
  let h := match State h with Unspecified => set_state h Healthy | _ => h end in
  let h := if IsZero (UpdatedAt h) then with_updated h now else h in
  let key := ScoreKey (Service h) (InstanceID h) in
  match health m !! key with
  | Some current =>
      if UpdatedAt h <? UpdatedAt current then acc
      else if endpointHealthEqualIgnoringUpdatedAt current h then
        if UpdatedAt current <? UpdatedAt h
        then (set_health m (<[key := with_updated current (UpdatedAt h)]> (health m)), changed)
        else acc
      else (set_health m (<[key := h]> (health m)), {[Service h]} ∪ changed)
  | None => (set_health m (<[key := h]> (health m)), {[Service h]} ∪ changed)
  end.

Definition MergeSnapshot (now : Z) (snapshot : list EndpointHealth) (m : HealthManager) : Z * HealthManager :=
  let '(m, changed) := foldl (merge_one now) (m, ∅) snapshot in
  (Z.of_nat (size changed), bumpIfChangedLocked m changed).

(** [ord] is the order in which the retained endpoints are traversed. *)
Definition retainedEndpointAddress (retain : gmap EndpointIdentity string) (ord : list (EndpointIdentity * string))
    (h : EndpointHealth) : option string :=
  match retain !! {| id_Service := Service h; id_InstanceID := InstanceID h; id_RegistrationEpoch := RegistrationEpoch h |} with
  | Some address => Some address
  | None =>
      match retain !! {| id_Service := Service h; id_InstanceID := InstanceID h; id_RegistrationEpoch := "" |} with
      | Some address => Some address
      | None =>
          if bool_decide (RegistrationEpoch h = ""%string)
          then snd <$> (snd <$> list_find (fun '(c, _) => id_Service c = Service h /\ id_InstanceID c = InstanceID h) ord)
          else None
      end
  end.

Definition retained (retain : gmap EndpointIdentity string) (ord : list (EndpointIdentity * string))
    (h : EndpointHealth) : bool :=
  match retainedEndpointAddress retain ord h with
  | Some registeredAddress => endpointAddressMatches (Address h) registeredAddress
  | None => false
  end.

Definition PruneMissing (retain : option (gmap EndpointIdentity string)) (ord : list (EndpointIdentity * string))
    (m : HealthManager) : Z * HealthManager :=
  match retain with
  | None => (0, m)
  | Some retain =>
      let gone := filter (fun p => retained retain ord p.2 = false) (health m) in
      let changed := list_to_set ((fun h => Service h) <$> (map_to_list gone).*2) in
      (Z.of_nat (size gone), bumpIfChangedLocked (set_health m (health m ∖ gone)) changed)
  end.

(** ** Readers *)

Definition Get (m : HealthManager) (service instanceID : string) : option EndpointHealth :=
  health m !! ScoreKey service instanceID.

Definition HealthState (m : HealthManager) (service instanceID : string) : Code * bool :=
  match Get m service instanceID with Some h => (State h, true) | None => (Unspecified, false) end.

Definition EffectiveStateMachineConfig (m : HealthManager) (service : string) : StateMachineConfig :=
  stateMachineConfigLocked m service.

Definition List (visit : health_order) (m : HealthManager) (service : string) : list EndpointHealth :=
  listLocked visit m service.

Definition Snapshot (visit : health_order) (m : HealthManager) : list EndpointHealth := List visit m "".

Definition HealthVersion (m : HealthManager) (service : string) : Z := healthVersionLocked m service.

(** ** Revisions *)

(** Two entries a watcher cannot tell apart. *)
Definition same_entry (a b : option EndpointHealth) : Prop :=
  a = b \/ exists x y, a = Some x /\ b = Some y /\ endpointHealthEqualIgnoringUpdatedAt x y = true.

Record manager_ok (m : HealthManager) : Prop := {
  ok_keys : map_Forall (fun key h => key = ScoreKey (Service h) (InstanceID h) /\
              no_slash (Service h) = true /\ Service h <> ""%string) (health m);
  ok_service_revisions : map_Forall (fun _ v => 0 <= v <= revision m) (serviceRevisions m);
  ok_revision : 0 <= revision m
}.

Inductive manager_step (m : HealthManager) : HealthManager -> Prop :=
| step_update clock now ord visit samples :
    Forall (fun s => no_slash (s_Service s) = true) samples -> manager_step m (Update clock now ord visit samples m).2
| step_tick clock now visit : manager_step m (Tick clock now visit m).2
| step_set now service cfg : manager_step m (SetServiceStateMachineConfig now service cfg m).2
| step_replace now configs ord :
    (forall X, ord X ≡ₚ elements X) -> manager_step m (ReplaceServiceStateMachineConfigs now configs ord m).2
| step_merge now snapshot :
    Forall (fun h => no_slash (Service h) = true) snapshot -> manager_step m (MergeSnapshot now snapshot m).2
| step_prune retain ord : manager_step m (PruneMissing retain ord m).2.

(** Every entry that differs belongs to a service in [changed]. *)
Definition covers (h0 h1 : gmap string EndpointHealth) (changed : gset string) : Prop :=
  forall key h, ~ same_entry (h0 !! key) (h1 !! key) -> h0 !! key = Some h \/ h1 !! key = Some h -> Service h ∈ changed.

Lemma equal_ignoring_trans a b c :
  endpointHealthEqualIgnoringUpdatedAt a b = true -> endpointHealthEqualIgnoringUpdatedAt b c = true ->
  endpointHealthEqualIgnoringUpdatedAt a c = true.
Proof.
  unfold endpointHealthEqualIgnoringUpdatedAt. rewrite !andb_true_iff, !bool_decide_eq_true, !Z.eqb_eq.
  intros H1 H2. destruct_and!. repeat split; try congruence. by eapply feq_trans.
Qed.

Lemma same_entry_trans a b c : same_entry a b -> same_entry b c -> same_entry a c.
Proof.
  intros [-> | (x & y & -> & -> & E1)]; [done|]. intros [<- | (y' & z & [= <-] & -> & E2)]; [right; eauto 10|].
  right. exists x, z. split; [done|]. split; [done|]. by eapply equal_ignoring_trans.
Qed.

Lemma equal_ignoring_identity a b :
  endpointHealthEqualIgnoringUpdatedAt a b = true -> Service a = Service b /\ InstanceID a = InstanceID b.
Proof.
  unfold endpointHealthEqualIgnoringUpdatedAt. rewrite !andb_true_iff, !bool_decide_eq_true. naive_solver.
Qed.

Lemma equal_ignoring_updated a b t :
  endpointHealthEqualIgnoringUpdatedAt a b = true -> endpointHealthEqualIgnoringUpdatedAt a (with_updated a t) = true.
Proof.
  unfold endpointHealthEqualIgnoringUpdatedAt. rewrite !andb_true_iff, !bool_decide_eq_true, !Z.eqb_eq. cbn.
  intros H. destruct_and!. repeat split; try done. rewrite feq_key in *. unfold key_rel in *.
  by destruct (fkey (SlowScore a)).
Qed.

Lemma bump_fields m changed :
  health (bumpIfChangedLocked m changed) = health m.
Proof. unfold bumpIfChangedLocked. by case_bool_decide. Qed.

Lemma set_to_map_const (X : gset string) (v : Z) s :
  (set_to_map (fun s => (s, v)) X : gmap string Z) !! s = if decide (s ∈ X) then Some v else None.
Proof.
  destruct (decide (s ∈ X)) as [Hs | Hs].
  - apply lookup_set_to_map; [naive_solver|]. by exists s.
  - apply eq_None_not_Some. intros [w Hw]. apply lookup_set_to_map in Hw; naive_solver.
Qed.

Lemma bump_version m changed s :
  s <> ""%string -> revision m < 2 ^ 63 - 1 -> 0 <= revision m ->
  healthVersionLocked (bumpIfChangedLocked m changed) s =
  if decide (s ∈ changed) then revision m + 1 else healthVersionLocked m s.
Proof.
  intros Hs Hlt Hge. unfold healthVersionLocked. rewrite !bool_decide_eq_false_2 by done. unfold bumpIfChangedLocked.
  destruct (bool_decide (changed = ∅)) eqn:E; [apply bool_decide_eq_true in E; subst; by rewrite decide_False by set_solver|].
  cbn [serviceRevisions]. rewrite lookup_union, set_to_map_const.
  destruct (decide (s ∈ changed)).
  - rewrite union_Some_l. cbn. apply wraps_small; unfold is_s; lia.
  - by destruct (serviceRevisions m !! s).
Qed.

Lemma bump_ok m changed : manager_ok m -> revision m < 2 ^ 63 - 1 -> manager_ok (bumpIfChangedLocked m changed).
Proof.
  intros [Hk Hs Hr] Hlt. unfold bumpIfChangedLocked. case_bool_decide; [done|].
  assert (E : wraps 64 (revision m + 1) = revision m + 1) by (apply wraps_small; unfold is_s; lia).
  split; cbn [health serviceRevisions revision]; rewrite ?E; [done | | lia].
  intros s v. rewrite lookup_union, set_to_map_const. destruct (decide (s ∈ changed)).
  - rewrite union_Some_l. intros [= <-]. lia.
  - intros Hv. assert (Hv' : serviceRevisions m !! s = Some v) by (by destruct (serviceRevisions m !! s)).
    specialize (Hs _ _ Hv'). cbn in Hs. lia.
Qed.

Definition keyed (hs : gmap string EndpointHealth) : Prop :=
  map_Forall (fun key h => key = ScoreKey (Service h) (InstanceID h) /\
    no_slash (Service h) = true /\ Service h <> ""%string) hs.

(** [m1] differs from [m] in the endpoints only, and only in those of [changed]. *)
Record changes (m m1 : HealthManager) (changed : gset string) : Prop := {
  ch_keyed : keyed (health m1);
  ch_revision : revision m1 = revision m;
  ch_service_revisions : serviceRevisions m1 = serviceRevisions m;
  ch_covers : covers (health m) (health m1) changed
}.

Definition tracks (m m' : HealthManager) : Prop :=
  revision m <= revision m' /\
  (forall s, s <> ""%string -> HealthVersion m s <= HealthVersion m' s) /\
  forall key h, ~ same_entry (health m !! key) (health m' !! key) ->
    health m !! key = Some h \/ health m' !! key = Some h -> HealthVersion m (Service h) < HealthVersion m' (Service h).

Lemma version_bound m s : manager_ok m -> s <> ""%string -> healthVersionLocked m s <= revision m.
Proof.
  intros [_ Hs Hr] Hne. unfold healthVersionLocked. rewrite bool_decide_eq_false_2 by done.
  destruct (serviceRevisions m !! s) as [v|] eqn:E; simpl; [|done]. apply Hs in E. cbn in E. lia.
Qed.

Lemma changes_tracked m m1 changed :
  manager_ok m -> revision m < 2 ^ 63 - 1 -> changes m m1 changed ->
  manager_ok (bumpIfChangedLocked m1 changed) /\ tracks m (bumpIfChangedLocked m1 changed).
Proof.
  intros Hok Hlt [Hk Er Es Hc]. pose proof (ok_revision _ Hok) as Hr.
  assert (Hok1 : manager_ok m1).
  { destruct Hok. split; [exact Hk | by rewrite Er, Es | by rewrite Er]. }
  assert (Hv : forall s, s <> ""%string -> HealthVersion (bumpIfChangedLocked m1 changed) s =
    if decide (s ∈ changed) then revision m + 1 else HealthVersion m s).
  { intros s Hs. unfold HealthVersion. rewrite bump_version; [|done|lia|lia]. rewrite Er.
    unfold healthVersionLocked. by rewrite Er, Es. }
  split; [apply bump_ok; rewrite ?Er; done|]. split; [|split].
  - unfold bumpIfChangedLocked. case_bool_decide; cbn; [lia|]. rewrite wraps_small by (unfold is_s; lia). lia.
  - intros s Hs. rewrite Hv by done. pose proof (version_bound m s Hok Hs). unfold HealthVersion in *.
    destruct (decide _); lia.
  - rewrite bump_fields. intros key h Hd Hin. pose proof (Hc key h Hd Hin) as Hch.
    assert (Hne : Service h <> ""%string) by (destruct Hin as [Hin | Hin]; [apply (ok_keys _ Hok) in Hin | apply Hk in Hin]; naive_solver).
    rewrite Hv, decide_True by done. pose proof (version_bound m _ Hok Hne). unfold HealthVersion. lia.
Qed.

(** ** The operations change what they say *)

Lemma covers_refl hs : covers hs hs ∅.
Proof. intros key h Hd. exfalso. apply Hd. by left. Qed.

(** Replacing one entry by one of the same identity. *)
Lemma covers_insert h0 h1 changed key h :
  covers h0 h1 changed -> keyed h0 -> keyed h1 -> key = ScoreKey (Service h) (InstanceID h) -> no_slash (Service h) = true ->
  covers h0 (<[key := h]> h1) ({[Service h]} ∪ changed).
Proof.
  intros Hc Hk0 Hk1 Hkey Hns key' h' Hd Hin. destruct (decide (key' = key)) as [-> | Hne].
  - rewrite lookup_insert_eq in *. destruct Hin as [Hin | [= ->]]; [|set_solver].
    apply Hk0 in Hin as (E & Hns' & _). rewrite Hkey in E. apply ScoreKey_inj in E as [E _]; [|done|done]. set_solver.
  - rewrite lookup_insert_ne in * by done. specialize (Hc key' h' Hd Hin). set_solver.
Qed.

Lemma covers_insert_same h0 h1 changed key h x :
  covers h0 h1 changed -> h1 !! key = Some x -> endpointHealthEqualIgnoringUpdatedAt x h = true ->
  covers h0 (<[key := h]> h1) changed.
Proof.
  intros Hc Hx He key' h' Hd Hin. destruct (decide (key' = key)) as [-> | Hne].
  - rewrite lookup_insert_eq in *.
    assert (Hd' : ~ same_entry (h0 !! key) (h1 !! key)).
    { intros Hs. apply Hd. apply (same_entry_trans _ _ _ Hs). right. eauto 10. }
    destruct Hin as [Hin | [= ->]]; [by apply (Hc key h'); [|left]|].
    destruct (equal_ignoring_identity _ _ He) as [<- _]. apply (Hc key x); [done|]. by right.
  - rewrite lookup_insert_ne in * by done. by apply (Hc key' h').
Qed.

Lemma keyed_insert hs key h :
  keyed hs -> key = ScoreKey (Service h) (InstanceID h) -> no_slash (Service h) = true -> Service h <> ""%string ->
  keyed (<[key := h]> hs).
Proof. intros Hk E Hns Hne. apply map_Forall_insert_2; [done|]. exact Hk. Qed.

#[local] Opaque Apply.

Lemma Apply_service clock cfg h i :
  Service (Apply clock cfg h i) = Service h /\ InstanceID (Apply clock cfg h i) = InstanceID h.
Proof. destruct (Apply_identity clock cfg h i) as [E _]. by injection E. Qed.

Lemma identified_service s : identified s = true -> s_Service s <> ""%string /\ s_InstanceID s <> ""%string.
Proof.
  unfold identified. rewrite negb_true_iff, orb_false_iff, !bool_decide_eq_false. done.
Qed.

Lemma sample_target_identity hs sample :
  keyed hs -> no_slash (s_Service sample) = true ->
  let h := sample_target (default zero_health (hs !! ScoreKey (s_Service sample) (s_InstanceID sample))) sample in
  Service h = s_Service sample /\ InstanceID h = s_InstanceID sample.
Proof.
  intros Hk Hns h. subst h. unfold sample_target.
  destruct (hs !! ScoreKey (s_Service sample) (s_InstanceID sample)) as [b|] eqn:Hb; simpl; [|done].
  apply Hk in Hb as (E & Hns' & _). apply ScoreKey_inj in E as [-> ->]; [|done|done]. by destruct (_ || _).
Qed.

Lemma update_sample_changes clock now scores m m1 ch sample :
  keyed (health m) -> changes m m1 ch -> no_slash (s_Service sample) = true ->
  changes m (update_sample clock now scores (m1, ch) sample).1 (update_sample clock now scores (m1, ch) sample).2.
Proof.
  intros Hk0 Hch Hns. unfold update_sample. destruct (identified sample) eqn:Hid; cbn [negb]; [|done].
  apply identified_service in Hid as [Hs _]. destruct Hch as [Hk Er Es Hc].
  set (key := ScoreKey (s_Service sample) (s_InstanceID sample)).
  set (before := default zero_health (health m1 !! key)).
  cbv zeta.
  set (h := Apply clock _ (sample_target before sample) _).
  destruct (sample_target_identity (health m1) sample Hk Hns) as [E1 E2]. fold key before in E1, E2.
  destruct (Apply_service clock (stateMachineForLocked m1 (Service (sample_target before sample))) (sample_target before sample)
    {| Now := now; in_SlowScore := match scores !! key with Some sc => Score sc | None => fzero end;
       SuccessRate := successRate sample |}) as [F1 F2]. fold h in F1, F2. rewrite E1 in F1. rewrite E2 in F2.
  clearbody h.
  destruct (negb (bool_decide (is_Some (health m1 !! key))) || negb (endpointHealthEqualIgnoringUpdatedAt before h)) eqn:Ht;
    cbn [fst snd]; split; cbn [set_health health revision serviceRevisions]; try done.
  - apply keyed_insert; cbn; rewrite ?F1, ?F2; done.
  - rewrite <- F1. apply (covers_insert _ _ _ _ (with_updated h now)); cbn; rewrite ?F1, ?F2; done.
  - apply keyed_insert; rewrite ?F1, ?F2; done.
  - apply orb_false_iff in Ht as [Hex He]. apply negb_false_iff in Hex, He. apply bool_decide_eq_true in Hex as [b Hb].
    apply (covers_insert_same _ _ _ _ _ b); [done | done|]. unfold before in He. by rewrite Hb in He.
Qed.

Lemma update_changes clock now scores m samples :
  keyed (health m) -> Forall (fun s => no_slash (s_Service s) = true) samples ->
  changes m (foldl (update_sample clock now scores) (m, ∅) samples).1
            (foldl (update_sample clock now scores) (m, ∅) samples).2.
Proof.
  intros Hk Hns. induction samples as [|s samples IH] using rev_ind.
  - split; [done.. | apply covers_refl].
  - apply Forall_app in Hns as [Hns Hs]. rewrite Forall_singleton in Hs. rewrite foldl_snoc. specialize (IH Hns).
    destruct (foldl (update_sample clock now scores) (m, ∅) samples) as [m1 ch]. by apply update_sample_changes.
Qed.

Lemma merge_one_changes now m m1 ch h :
  keyed (health m) -> changes m m1 ch -> no_slash (Service h) = true ->
  changes m (merge_one now (m1, ch) h).1 (merge_one now (m1, ch) h).2.
Proof.
  intros Hk0 Hch Hns. unfold merge_one.
  destruct (bool_decide (Service h = ""%string)) eqn:E1; [done|].
  destruct (bool_decide (InstanceID h = ""%string)) eqn:E2; [done|]. cbn [orb].
  apply bool_decide_eq_false in E1, E2. destruct Hch as [Hk Er Es Hc].
  set (h1 := match State h with Unspecified => set_state h Healthy | _ => h end).
  set (h2 := if IsZero (UpdatedAt h1) then with_updated h1 now else h1).
  assert (Hid : Service h2 = Service h /\ InstanceID h2 = InstanceID h).
  { unfold h2, h1. by destruct (IsZero _), (State h). }
  destruct Hid as [F1 F2]. cbv zeta. set (key := ScoreKey (Service h2) (InstanceID h2)).
  assert (Hnew : changes m (set_health m1 (<[key := h2]> (health m1))) ({[Service h2]} ∪ ch)).
  { split; cbn; [apply keyed_insert; [done | done | |]; by rewrite F1 | done | done |].
    apply covers_insert; [done.. | by rewrite F1]. }
  destruct (health m1 !! key) as [current|] eqn:Hcur; [|done].
  destruct (UpdatedAt h2 <? UpdatedAt current); [done|].
  destruct (endpointHealthEqualIgnoringUpdatedAt current h2) eqn:He; [|done].
  destruct (UpdatedAt current <? UpdatedAt h2); [|done]. cbn [fst snd].
  pose proof (Hk _ _ Hcur) as (K1 & K2 & K3).
  split; cbn; [by apply keyed_insert | done | done|]. apply (covers_insert_same _ _ _ _ _ current); [done | done|].
  by eapply equal_ignoring_updated.
Qed.

Lemma merge_changes now m snapshot :
  keyed (health m) -> Forall (fun h => no_slash (Service h) = true) snapshot ->
  changes m (foldl (merge_one now) (m, ∅) snapshot).1 (foldl (merge_one now) (m, ∅) snapshot).2.
Proof.
  intros Hk Hns. induction snapshot as [|h snapshot IH] using rev_ind.
  - split; [done.. | apply covers_refl].
  - apply Forall_app in Hns as [Hns Hh]. rewrite Forall_singleton in Hh. rewrite foldl_snoc. specialize (IH Hns).
    destruct (foldl (merge_one now) (m, ∅) snapshot) as [m1 ch]. by apply merge_one_changes.
Qed.

(** Rewriting every entry by a function that keeps its identity. *)
Lemma fmap_changes m (f : EndpointHealth -> EndpointHealth) changed :
  keyed (health m) -> (forall h, Service (f h) = Service h /\ InstanceID (f h) = InstanceID h) ->
  (forall key h, health m !! key = Some h -> ~ same_entry (Some h) (Some (f h)) -> Service h ∈ changed) ->
  changes m (set_health m (f <$> health m)) changed.
Proof.
  intros Hk Hid Hch. split; cbn; [| done | done |].
  - intros key h'. rewrite lookup_fmap. intros (h & Hh & ->)%fmap_Some. destruct (Hid h) as [E1 E2]. rewrite E1, E2.
    by apply Hk.
  - intros key h'. rewrite lookup_fmap. destruct (health m !! key) as [h|] eqn:Hh; cbn; [|naive_solver].
    intros Hd Hin. specialize (Hch key h Hh Hd). destruct Hin as [[= <-] | [= <-]]; [done|]. by rewrite (proj1 (Hid h)).
Qed.

Lemma tick_changes clock now m :
  keyed (health m) ->
  changes m (set_health m (tick_health clock now m <$> health m))
    (list_to_set ((fun h => Service h) <$> filter (fun h => tick_changed clock now m h = true) (map_to_list (health m)).*2)).
Proof.
  intros Hk. apply fmap_changes; [done | |].
  - intros h. unfold tick_health. destruct (health_eqb _ _); cbn; apply Apply_service.
  - intros key h Hh Hd. rewrite elem_of_list_to_set, list_elem_of_fmap. exists h. split; [done|].
    apply list_elem_of_filter. split.
    + unfold tick_changed. unfold tick_health in Hd. destruct (health_eqb h _) eqn:E; [|done]. exfalso. apply Hd.
      right. unfold health_eqb in E. apply andb_true_iff in E as [E _]. eauto 10.
    + apply list_elem_of_fmap. exists (key, h). split; [done|]. by apply elem_of_map_to_list.
Qed.

Lemma reset_identity now service h :
  Service (reset_counters now service h) = Service h /\ InstanceID (reset_counters now service h) = InstanceID h.
Proof. unfold reset_counters. by case_bool_decide; [|destruct (_ && _)]. Qed.

Lemma reset_other now service h : Service h <> service -> reset_counters now service h = h.
Proof. intros H. unfold reset_counters. by rewrite bool_decide_eq_true_2. Qed.

Lemma reset_changes now m cs service :
  keyed (health m) -> changes m (resetStateMachineCountersLocked now (set_configs m cs) service) {[service]}.
Proof.
  intros Hk. assert (H : changes m (set_health m (reset_counters now service <$> health m)) {[service]}).
  { apply fmap_changes; [done | apply reset_identity|]. intros key h _ Hd.
    destruct (decide (Service h = service)) as [<- | Hne]; [set_solver|]. exfalso. apply Hd. left. by rewrite reset_other. }
  destruct H. by split.
Qed.

Definition reset_all (now : string -> Z) (services : list string) (h : EndpointHealth) : EndpointHealth :=
  foldl (fun h service => reset_counters (now service) service h) h services.

Definition reset_services (now : string -> Z) (m : HealthManager) (services : list string) : HealthManager :=
  foldl (fun m service => resetStateMachineCountersLocked (now service) m service) m services.

Lemma reset_all_health now services m :
  health (reset_services now m services) = reset_all now services <$> health m /\
  revision (reset_services now m services) = revision m /\
  serviceRevisions (reset_services now m services) = serviceRevisions m.
Proof.
  revert m. induction services as [|s services IH]; intros m; simpl.
  - split; [|done]. symmetry. apply map_fmap_id.
  - destruct (IH (resetStateMachineCountersLocked (now s) m s)) as (-> & -> & ->). split; [|done].
    cbn. by rewrite <- map_fmap_compose.
Qed.

Lemma reset_all_identity now services h :
  Service (reset_all now services h) = Service h /\ InstanceID (reset_all now services h) = InstanceID h.
Proof.
  revert h. induction services as [|s services IH]; intros h; [done|].
  change (reset_all now (s :: services) h) with (reset_all now services (reset_counters (now s) s h)).
  destruct (IH (reset_counters (now s) s h)) as [-> ->]. apply reset_identity.
Qed.

Lemma reset_all_other now services h : Service h ∉ services -> reset_all now services h = h.
Proof.
  revert h. induction services as [|s services IH]; intros h Hn; [done|].
  change (reset_all now (s :: services) h) with (reset_all now services (reset_counters (now s) s h)).
  rewrite reset_other by set_solver. apply IH. set_solver.
Qed.

Lemma replace_changes now m cs services changed :
  keyed (health m) -> services ≡ₚ elements changed ->
  changes m (reset_services now (set_configs m cs) services) changed.
Proof.
  intros Hk Hp. assert (H : changes m (set_health m (reset_all now services <$> health m)) changed).
  { apply fmap_changes; [done | apply reset_all_identity|]. intros key h _ Hd.
    destruct (decide (Service h ∈ changed)) as [|Hne]; [done|]. exfalso. apply Hd. left. f_equal. symmetry.
    apply reset_all_other. by rewrite Hp, elem_of_elements. }
  destruct (reset_all_health now services (set_configs m cs)) as (Eh & Er & Es). destruct H as [Hk' _ _ Hc].
  split; rewrite ?Eh; done.
Qed.

Lemma prune_changes m (gone : gmap string EndpointHealth) :
  keyed (health m) -> gone ⊆ health m ->
  changes m (set_health m (health m ∖ gone)) (list_to_set ((fun h => Service h) <$> (map_to_list gone).*2)).
Proof.
  intros Hk Hsub. split; cbn; [| done | done |].
  - intros key h [Hh _]%lookup_difference_Some. by apply Hk.
  - intros key h Hd Hin. rewrite elem_of_list_to_set, list_elem_of_fmap. exists h. split; [done|].
    apply list_elem_of_fmap. exists (key, h). split; [done|]. apply elem_of_map_to_list.
    destruct (gone !! key) as [g|] eqn:Hg.
    + pose proof (lookup_weaken _ _ _ _ Hg Hsub) as Hm. destruct Hin as [Hin | [Hin _]%lookup_difference_Some]; congruence.
    + exfalso. apply Hd. left. symmetry. destruct (health m !! key) as [x|] eqn:Hx.
      * by apply lookup_difference_Some.
      * by apply lookup_difference_None; left.
Qed.

(** C34. Revisions tell watchers everything: whatever is done to the manager (a
    report, a tick, a change of configuration, a merged snapshot, a pruning), its
    revision and those of all services never decrease, and whenever an endpoint
    appears, disappears or changes in anything but its update time, the revision of
    its service strictly increases.  The services of the endpoints, of the reports and
    of the snapshots have no slash in their names ([score_keys_collide] is what
    happens otherwise), and the revision is below its maximum. *)
Theorem revisions_track_changes m m' :
  manager_ok m -> revision m < 2 ^ 63 - 1 -> manager_step m m' -> manager_ok m' /\ tracks m m'.
Proof.
  intros Hok Hlt Hstep. pose proof (ok_keys _ Hok) as Hk. fold (keyed (health m)) in Hk.
  assert (Hsame : forall cs, manager_ok (set_configs m cs) /\ tracks m (set_configs m cs)).
  { intros cs. split; [by destruct Hok; split|]. split; [done|]. split; [done|]. intros key h Hd. exfalso. apply Hd. by left. }
  assert (Hid : manager_ok m /\ tracks m m).
  { split; [done|]. split; [done|]. split; [done|]. intros key h Hd. exfalso. apply Hd. by left. }
  destruct Hstep as [clock now ord visit samples Hns | clock now visit | now service cfg | now configs ord Hord | now snapshot Hns | retain ord].
  - unfold Update. pose proof (update_changes clock now (Calculate (calculator m) ord samples) m samples Hk Hns) as Hc.
    destruct (foldl _ _ samples) as [m1 ch]. by apply changes_tracked.
  - by apply changes_tracked; [..|apply tick_changes].
  - unfold SetServiceStateMachineConfig. case_bool_decide; [exact Hid|].
    cbv zeta. destruct (config_eqb _ _); [apply Hsame|]. by apply changes_tracked; [..|apply reset_changes].
  - unfold ReplaceServiceStateMachineConfigs. cbv zeta. by apply changes_tracked; [..|apply replace_changes].
  - unfold MergeSnapshot. pose proof (merge_changes now m snapshot Hk Hns) as Hc.
    destruct (foldl _ _ snapshot) as [m1 ch]. by apply changes_tracked.
  - unfold PruneMissing. destruct retain as [retain|]; [|exact Hid].
    cbv zeta. apply changes_tracked; [done | done|]. apply prune_changes; [done|]. apply map_filter_subseteq.
Qed.

(** ** Listings *)

(** Whatever order Go visits the endpoints in, a listing is the same: the
    endpoints of the service, sorted by service and instance. *)
Theorem listing_order_independent m visit1 visit2 service :
  manager_ok m -> visit1 (health m) ≡ₚ map_to_list (health m) -> visit2 (health m) ≡ₚ map_to_list (health m) ->
  listLocked visit1 m service = listLocked visit2 m service /\
  listLocked visit1 m service ≡ₚ filter (fun h => service = ""%string \/ Service h = service) (map_to_list (health m)).*2 /\
  Sorted (not_after health_less) (listLocked visit1 m service).
Proof.
  intros Hok H1 H2. unfold listLocked. split; [|split; [by rewrite Slice_perm, H1 | apply Slice_sorted, _]].
  apply Slice_by_keys_unique; [|by rewrite H1, H2]. rewrite H1.
  assert (Hd : NoDup ((fun h => [Service h; InstanceID h]) <$> (map_to_list (health m)).*2)).
  2:{ by apply NoDup_fmap_filter. }
  rewrite <- list_fmap_compose.
  apply (NoDup_fmap_1 (fun l => match l with [s; i] => ScoreKey s i | _ => ""%string end)). rewrite <- list_fmap_compose.
  rewrite (list_fmap_ext _ fst); [apply NoDup_fst_map_to_list|].
  intros i [key h] Hin%list_elem_of_lookup_2%elem_of_map_to_list. simpl. by destruct (ok_keys _ Hok key h Hin) as [-> _].
Qed.

(** ** Ticks *)

Lemma transition_updated h t next now : transition (with_updated h t) next now = with_updated (transition h next now) t.
Proof. unfold transition. cbn [State with_updated]. by destruct (decide _). Qed.

Lemma count_windows_updated cfg h t score :
  count_windows cfg (with_updated h t) score = with_updated (count_windows cfg h score) t.
Proof. unfold count_windows. by destruct (fle (EjectThreshold cfg) score), (fle (DegradedThreshold cfg) score). Qed.

Lemma Apply_updated clock cfg h t i : Apply clock cfg (with_updated h t) i = with_updated (Apply clock cfg h i) t.
Proof.
  rewrite !Apply_entered. cbv zeta. change (entered (with_updated h t) (in_SlowScore i)) with (with_updated (entered h (in_SlowScore i)) t).
  rewrite count_windows_updated, !transition_updated. cbn [State EjectedAt with_updated ConsecutiveEjectWindows ConsecutiveSlowWindows].
  destruct (State (entered h (in_SlowScore i))); repeat case_test; done.
Qed.

(** What a tick feeds the machine of an endpoint: its last score, again. *)
Definition tick_input (score : float64) (now : Z) : StateInput :=
  {| Now := now; in_SlowScore := score; SuccessRate := of_int 1 |}.

(** The manager after ticks at the given times; what they list is not used. *)
Definition ticks (clock : Z) (m : HealthManager) (nows : list Z) : HealthManager :=
  foldl (fun m now => (Tick clock now map_to_list m).2) m nows.

Lemma Tick_lookup clock now visit m key : health (Tick clock now visit m).2 !! key = tick_health clock now m <$> health m !! key.
Proof. unfold Tick. cbn [snd]. rewrite bump_fields. cbn. by rewrite lookup_fmap. Qed.

Lemma Tick_config clock now visit m service :
  stateMachineForLocked (Tick clock now visit m).2 service = stateMachineForLocked m service.
Proof. unfold Tick, bumpIfChangedLocked. cbn [snd]. by case_bool_decide. Qed.

Lemma ticks_config clock m nows service : stateMachineForLocked (ticks clock m nows) service = stateMachineForLocked m service.
Proof.
  induction nows as [|now nows IH] using rev_ind; [done|]. unfold ticks. rewrite foldl_snoc. fold (ticks clock m nows).
  by rewrite Tick_config.
Qed.

Lemma tick_health_alt clock now m h :
  exists t, tick_health clock now m h =
    with_updated (Apply clock (stateMachineForLocked m (Service h)) h (tick_input (SlowScore h) now)) t.
Proof.
  unfold tick_health. fold (tick_input (SlowScore h) now).
  set (h' := Apply _ _ _ _). destruct (health_eqb h h'); [|by exists now]. exists (UpdatedAt h'). by destruct h'.
Qed.

(** Ticks replay the last score into the machine. *)
Lemma ticks_run clock m key h nows :
  health m !! key = Some h ->
  exists t, health (ticks clock m nows) !! key =
    Some (with_updated (run clock (stateMachineForLocked m (Service h)) h (tick_input (SlowScore h) <$> nows)) t).
Proof.
  intros Hh. induction nows as [|now nows (t & IH)] using rev_ind.
  { exists (UpdatedAt h). change (ticks clock m []) with m. rewrite Hh. by destruct h. }
  unfold ticks, run. rewrite fmap_snoc, !foldl_snoc. fold (ticks clock m nows).
  fold (run clock (stateMachineForLocked m (Service h)) h (tick_input (SlowScore h) <$> nows)).
  set (r := run _ _ _ _) in *. rewrite Tick_lookup, IH. cbn [fmap option_fmap option_map].
  destruct (tick_health_alt clock now (ticks clock m nows) (with_updated r t)) as [t' ->].
  rewrite Apply_updated, ticks_config.
  assert (Hr : Service r = Service h /\ SlowScore r = SlowScore h).
  { subst r. clear. induction nows as [|n nows [IH1 IH2]] using rev_ind; [done|]. unfold run. rewrite fmap_snoc, foldl_snoc.
    fold (run clock (stateMachineForLocked m (Service h)) h (tick_input (SlowScore h) <$> nows)).
    rewrite (proj1 (Apply_service _ _ _ _)), (proj2 (Apply_identity _ _ _ _)). done. }
  destruct Hr as [E1 E2]. cbn [Service SlowScore with_updated]. rewrite E1, E2. exists t'. done.
Qed.

(** Ticks count as slow windows: an endpoint whose last reported score
    reached the ejection threshold is ejected by ticks alone, without any further
    telemetry, within [2 * ConsecutiveWindows] ticks. *)
Theorem ticks_alone_eject clock m key h nows :
  let cfg := stateMachineForLocked m (Service h) in
  health m !! key = Some h -> sane_config cfg -> health_ok cfg h -> counting (Normalized (State h)) = true ->
  fle (EjectThreshold cfg) (SlowScore h) = true -> Z.of_nat (length nows) = 2 * ConsecutiveWindows cfg ->
  exists k h', health (ticks clock m (take k nows)) !! key = Some h' /\ State h' = Ejected.
Proof.
  intros cfg Hh Hs Hok Hc He Hl.
  destruct (ejects_within clock cfg (length nows) h (tick_input (SlowScore h) <$> nows) Hs Hok Hc) as (k & _ & E).
  - apply Forall_fmap, Forall_true. intros now. exact He.
  - destruct Hok as [Hej Hsl _]. unfold patience. destruct (decide _) as [|Hd]; [lia|].
    specialize (Hsl ltac:(intros E; by rewrite E in Hd)). lia.
  - by rewrite length_fmap.
  - destruct (ticks_run clock m key h (take k nows) Hh) as (t & Ht). eexists k, _. split; [exact Ht|].
    cbn. rewrite <- E. unfold run. by rewrite fmap_take.
Qed.

(** Probation ends at the next tick unless telemetry arrives first: an
    ejected endpoint whose last score is at the degradation threshold goes on
    probation at the first tick after its ejection period, and the tick after that
    ejects it again and restarts the period. *)
Theorem probation_lost_at_next_tick clock m key h t1 t2 :
  let cfg := stateMachineForLocked m (Service h) in
  health m !! key = Some h -> State h = Ejected -> IsZero (EjectedAt h) = false ->
  IsZero t1 = false -> IsZero t2 = false -> EjectionDuration cfg <= time_Sub t1 (EjectedAt h) ->
  fle (DegradedThreshold cfg) (SlowScore h) = true ->
  exists h1 h2, health (ticks clock m [t1]) !! key = Some h1 /\ State h1 = Probing /\
    health (ticks clock m [t1; t2]) !! key = Some h2 /\ State h2 = Ejected /\ EjectedAt h2 = t2.
Proof.
  intros cfg Hh Hst Hz H1 H2 Hd Hf.
  destruct (ticks_run clock m key h [t1] Hh) as (u1 & E1). destruct (ticks_run clock m key h [t1; t2] Hh) as (u2 & E2).
  fold cfg in E1, E2. cbn [fmap list_fmap run foldl] in E1, E2.
  set (p := Apply clock cfg h (tick_input (SlowScore h) t1)) in *.
  assert (Hps : State p = Probing) by (unfold p; rewrite Apply_ejected_done by done; apply transition_state).
  eexists _, _. split; [exact E1|]. split; [exact Hps|]. split; [exact E2|]. cbn [State EjectedAt with_updated].
  rewrite Apply_probing_bad by (try done; cbn [in_SlowScore tick_input]; by rewrite Hf, orb_true_r). rewrite transition_state. split; [done|].
  unfold transition. rewrite decide_False by (cbn; by rewrite Hps). done.
Qed.

(** ** New owners *)

Lemma changed_identity_differs before sample clock cfg i :
  endpointAddressChanged before (s_Address sample) || endpointRegistrationEpochChanged before (s_RegistrationEpoch sample) = true ->
  endpointHealthEqualIgnoringUpdatedAt before (Apply clock cfg (sample_target before sample) i) = false.
Proof.
  intros Hch. apply not_true_iff_false. intros E. unfold endpointHealthEqualIgnoringUpdatedAt in E.
  rewrite !andb_true_iff, !bool_decide_eq_true in E. destruct_and!.
  destruct (Apply_identity clock cfg (sample_target before sample) i) as [Eid _].
  pose proof (f_equal (fun p => p.1.2) Eid) as Ea. pose proof (f_equal snd Eid) as Ee. unfold identity in Ea, Ee. cbn [fst snd] in Ea, Ee.
  apply orb_true_iff in Hch as [Hch | Hch]; apply bool_decide_eq_true in Hch as (K1 & K2 & K3).
  - apply K3. assert (Et : Address (sample_target before sample) = s_Address sample).
    { unfold sample_target. cbn [Address with_identity]. by rewrite bool_decide_eq_true_2. }
    congruence.
  - apply K3. assert (Et : RegistrationEpoch (sample_target before sample) = s_RegistrationEpoch sample).
    { unfold sample_target. cbn [RegistrationEpoch with_identity]. by rewrite bool_decide_eq_true_2. }
    congruence.
Qed.

(** A new owner starts afresh: when a sample carries another address or
    another registration epoch than the endpoint's, the endpoint ends up exactly as
    if it had never been seen, so state, counters and ejection of the previous owner
    do not carry over. *)
Theorem new_owner_starts_afresh clock now scores m ch sample before :
  let key := ScoreKey (s_Service sample) (s_InstanceID sample) in
  identified sample = true -> health m !! key = Some before ->
  endpointAddressChanged before (s_Address sample) || endpointRegistrationEpochChanged before (s_RegistrationEpoch sample) = true ->
  let forgotten := set_health m (delete key (health m)) in
  health (update_sample clock now scores (m, ch) sample).1 !! key =
  health (update_sample clock now scores (forgotten, ch) sample).1 !! key /\
  s_Service sample ∈ (update_sample clock now scores (m, ch) sample).2.
Proof.
  intros key Hid Hb Hch forgotten. unfold update_sample. rewrite Hid. cbn [negb]. fold key. cbv zeta.
  assert (E : sample_target before sample = sample_target zero_health sample).
  { unfold sample_target. rewrite <- orb_assoc, Hch, orb_true_r. done. }
  unfold forgotten. cbn [health set_health]. rewrite lookup_delete_eq, Hb.
  change (default zero_health (Some before)) with before. change (default zero_health None) with zero_health.
  rewrite changed_identity_differs by done. rewrite orb_true_r, bool_decide_eq_false_2 by (by intros []).
  cbn [negb orb fst snd health set_health]. rewrite !lookup_insert_eq, E. split; [done | set_solver].
Qed.

(** ** Snapshots *)

Definition normalized (now : Z) (h : EndpointHealth) : EndpointHealth :=
  let h := match State h with Unspecified => set_state h Healthy | _ => h end in
  if IsZero (UpdatedAt h) then with_updated h now else h.

Definition named (h : EndpointHealth) : Prop := Service h <> ""%string /\ InstanceID h <> ""%string.

Lemma normalized_identity now h :
  Service (normalized now h) = Service h /\ InstanceID (normalized now h) = InstanceID h.
Proof. unfold normalized. by destruct (IsZero _), (State h). Qed.

Definition entry_key (h : EndpointHealth) : string := ScoreKey (Service h) (InstanceID h).

(** At [key] the entry is at least as recent as [t]. *)
Definition at_least (hs : gmap string EndpointHealth) (key : string) (t : Z) : Prop :=
  exists h, hs !! key = Some h /\ t <= UpdatedAt h.

Lemma merge_one_recent now m ch h key t :
  at_least (health m) key t -> at_least (health (merge_one now (m, ch) h).1) key t.
Proof.
  intros (x & Hx & Ht). unfold merge_one. destruct (_ || _); [by exists x|].
  fold (normalized now h). cbv zeta. set (h' := normalized now h). set (k := ScoreKey (Service h') (InstanceID h')).
  destruct (decide (k = key)) as [-> | Hne].
  - rewrite Hx. destruct (Z.ltb_spec (UpdatedAt h') (UpdatedAt x)); [by exists x|].
    destruct (endpointHealthEqualIgnoringUpdatedAt x h').
    + destruct (Z.ltb_spec (UpdatedAt x) (UpdatedAt h')); [|by exists x].
      eexists. cbn. rewrite lookup_insert_eq. split; [done|]. cbn. lia.
    + exists h'. cbn. rewrite lookup_insert_eq. split; [done | lia].
  - exists x. split; [|done]. destruct (health m !! k) as [c|]; repeat case_test; cbn; rewrite ?lookup_insert_ne; done.
Qed.

Lemma merge_one_own now m ch h :
  named h -> at_least (health (merge_one now (m, ch) h).1) (entry_key h) (UpdatedAt (normalized now h)).
Proof.
  intros [Hs Hi]. unfold merge_one. rewrite !bool_decide_eq_false_2 by done. cbn [orb].
  fold (normalized now h). cbv zeta. destruct (normalized_identity now h) as [E1 E2]. rewrite !E1, !E2.
  fold (entry_key h). set (h' := normalized now h).
  destruct (health m !! entry_key h) as [c|] eqn:Hc; [|exists h'; cbn; by rewrite lookup_insert_eq].
  destruct (Z.ltb_spec (UpdatedAt h') (UpdatedAt c)); [exists c; split; [done | lia]|].
  destruct (endpointHealthEqualIgnoringUpdatedAt c h').
  - destruct (Z.ltb_spec (UpdatedAt c) (UpdatedAt h')).
    + eexists. cbn. rewrite lookup_insert_eq. split; [done|]. cbn. lia.
    + exists c. split; [done | lia].
  - exists h'. cbn. by rewrite lookup_insert_eq.
Qed.

Lemma merge_fold_recent now snapshot acc key t :
  at_least (health acc.1) key t -> at_least (health (foldl (merge_one now) acc snapshot).1) key t.
Proof.
  revert acc. induction snapshot as [|h snapshot IH]; intros [m ch] H; [done|]. cbn [foldl]. apply IH.
  by apply merge_one_recent.
Qed.

(** Merging a snapshot never goes back in time: afterwards every endpoint
    that was known, and every named endpoint of the snapshot, is present with an
    update time no older than either copy's. *)
Theorem merge_keeps_newest now snapshot m :
  let m' := (MergeSnapshot now snapshot m).2 in
  (forall key h, health m !! key = Some h -> at_least (health m') key (UpdatedAt h)) /\
  (forall h, h ∈ snapshot -> named h -> at_least (health m') (entry_key h) (UpdatedAt (normalized now h))).
Proof.
  unfold MergeSnapshot. destruct (foldl (merge_one now) (m, ∅) snapshot) as [m1 ch] eqn:E. cbn [snd].
  rewrite bump_fields. replace (health m1) with (health (foldl (merge_one now) (m, ∅) snapshot).1) by (by rewrite E).
  split.
  - intros key h Hh. apply merge_fold_recent. exists h. split; [done | lia].
  - intros h Hin Hn. apply list_elem_of_split in Hin as (s1 & s2 & ->). rewrite foldl_app. cbn [foldl].
    apply merge_fold_recent. destruct (foldl (merge_one now) (m, ∅) s1) as [m2 ch2]. by apply merge_one_own.
Qed.

(** ** Concrete runs *)

Definition demo_manager : HealthManager := NewHealthManager DefaultScoreWeights 0 zero_config ∅.

Definition demo_reported : HealthManager := (Update 0 1000 canonical_order map_to_list demo_samples demo_manager).2.

Definition demo_key : string := ScoreKey "user" "b".

Definition demo_slow : EndpointHealth := default zero_health (health demo_reported !! demo_key).

(** One slow report, then two ticks: ejected. *)
Example demo_ticks_eject :
  State demo_slow = Healthy /\ ConsecutiveEjectWindows demo_slow = 1 /\
  State (default zero_health (health (ticks 0 demo_reported [2000; 3000]) !! demo_key)) = Ejected.
Proof. vm_compute. done. Qed.

(** An endpoint of the service [pay/x] is reported, then one of the service [pay]
    whose name begins with [x/]: they have the same key, so the second report goes to
    the record of the first, no revision of its service tells, and the second has no
    record of its own. *)
Example score_keys_collide :
  let m1 := (Update 0 1000 canonical_order map_to_list [demo_sample "pay/x" "u1" "Get" 10 5 10000000] demo_manager).2 in
  let m2 := (Update 0 2000 canonical_order map_to_list [demo_sample "pay" "x/u1" "Get" 10 0 10000000] m1).2 in
  SlowScore <$> Get m1 "pay/x" "u1" <> SlowScore <$> Get m2 "pay/x" "u1" /\
  HealthVersion m2 "pay/x" = HealthVersion m1 "pay/x" /\ List map_to_list m2 "pay" = [].
Proof. vm_compute. done. Qed.

Lemma demo_manager_ok : manager_ok demo_manager.
Proof. split; [apply map_Forall_empty | apply map_Forall_empty | done]. Qed.

Lemma revisions_track_changes_witness :
  HealthVersion demo_manager "user" < HealthVersion demo_reported "user" /\ manager_ok demo_reported.
Proof.
  destruct (revisions_track_changes demo_manager demo_reported) as (Hok & _ & _ & Hc).
  - exact demo_manager_ok.
  - reflexivity.
  - apply step_update. exact (proj1 demo_samples_ok).
  - split; [|exact Hok]. apply (Hc demo_key demo_slow).
    + intros [E | (x & y & E & _)]; vm_compute in E; discriminate.
    + right. vm_compute. reflexivity.
Defined.

Lemma ticks_alone_eject_witness :
  exists k h', health (ticks 0 demo_reported (take k [2000; 3000; 4000; 5000; 6000; 7000])) !! demo_key = Some h' /\
    State h' = Ejected.
Proof.
  apply (ticks_alone_eject 0 demo_reported demo_key demo_slow).
  - vm_compute. reflexivity.
  - split; [split; split; vm_compute; done | vm_compute; reflexivity].
  - split; [vm_compute; done | intros _; vm_compute; done | intros H; vm_compute in H; discriminate].
  - vm_compute. reflexivity.
  - vm_compute. reflexivity.
  - vm_compute. reflexivity.
Defined.

Definition demo_ejected_manager : HealthManager := ticks 0 demo_reported [2000; 3000].

Lemma probation_lost_at_next_tick_witness :
  exists h1 h2, health (ticks 0 demo_ejected_manager [31000000000]) !! demo_key = Some h1 /\ State h1 = Probing /\
    health (ticks 0 demo_ejected_manager [31000000000; 32000000000]) !! demo_key = Some h2 /\ State h2 = Ejected.
Proof.
  destruct (probation_lost_at_next_tick 0 demo_ejected_manager demo_key
    (default zero_health (health demo_ejected_manager !! demo_key)) 31000000000 32000000000)
    as (h1 & h2 & E1 & S1 & E2 & S2 & _).
  - vm_compute. reflexivity.
  - vm_compute. reflexivity.
  - vm_compute. reflexivity.
  - reflexivity.
  - reflexivity.
  - vm_compute. discriminate.
  - vm_compute. reflexivity.
  - exists h1, h2. split; [exact E1|]. split; [exact S1|]. split; [exact E2 | exact S2].
Defined.

Definition moved_sample : EndpointSample := {|
  s_Service := "user"; s_InstanceID := "b"; s_Address := "10.0.0.9:7001"; s_RegistrationEpoch := "e2"; s_Method := "";
  RequestCount := 1; ErrorCount := 0; TimeoutCount := 0; Inflight := 0; Capacity := 0; LatencyEWMA := 0; LatencyP95 := 1;
  s_TCPRetransmit := 0; s_ConnectError := 0 |}.

Definition demo_moved : HealthManager :=
  set_health demo_ejected_manager
    (<[demo_key := with_identity (default zero_health (health demo_ejected_manager !! demo_key)) "10.0.0.2:7001" "e1"]>
      (health demo_ejected_manager)).

Lemma new_owner_starts_afresh_witness :
  State <$> health (update_sample 0 4000 ∅ (demo_moved, ∅) moved_sample).1 !! demo_key = Some Healthy /\
  health (update_sample 0 4000 ∅ (demo_moved, ∅) moved_sample).1 !! demo_key =
  health (update_sample 0 4000 ∅ (set_health demo_moved (delete demo_key (health demo_moved)), ∅) moved_sample).1 !! demo_key.
Proof.
  split; [vm_compute; reflexivity|].
  apply (new_owner_starts_afresh 0 4000 ∅ demo_moved ∅ moved_sample
    (with_identity (default zero_health (health demo_ejected_manager !! demo_key)) "10.0.0.2:7001" "e1")); vm_compute; reflexivity.
Defined.
