(* ===== verification/Breaker.v ===== *)
(** * The circuit breaker ([pkg/circuitbreaker/breaker.go])

    A limiter counts the requests in flight to one endpoint with an atomic
    counter: acquire and release are compare-and-swap loops that any number of
    goroutines run at once, while the limit can be changed under them.  The loops
    are modelled one atomic access at a time. *)
From Stdlib Require Import String.
From S2P Require Import Prelude.

Definition defaultMaxInflightPerEndpoint : Z := 128.

Definition normalizeMaxInflight (max : Z) : Z := if max <=? 0 then defaultMaxInflightPerEndpoint else max.

(** [MaxInflight.Set] stores a normalised value, which [Load] normalises again. *)
Definition MaxInflight_Set (max : Z) : Z := normalizeMaxInflight max.
Definition MaxInflight_Load (value : Z) : Z := normalizeMaxInflight value.

(** ** One goroutine *)

(** Where a goroutine is: outside, in [TryAcquire] (before loading the counter,
    before comparing with the limit, before the swap, before the second
    comparison), holding the capacity, or in [Release]. *)
Inductive pc :=
| Idle
| AcqLoad
| AcqCheck (current : Z)
| AcqSwap (current : Z)
| AcqRecheck (current : Z)
| Held
| RelLoad
| RelSwap (current : Z).

Record limiter := { inflight : Z; max : Z }.

(** The next atomic access of a goroutine; [None] when it is not running. *)
Definition pc_step (p : pc) (l : limiter) : option (pc * limiter) :=
  match p with
  | Idle | Held => None
  | AcqLoad => Some (AcqCheck (inflight l), l)
  | AcqCheck current => if MaxInflight_Load (max l) <=? current then Some (Idle, l) else Some (AcqSwap current, l)
  | AcqSwap current =>
      if inflight l =? current then Some (AcqRecheck current, {| inflight := wraps 64 (current + 1); max := max l |})
      else Some (AcqLoad, l)
  | AcqRecheck current =>
      if wraps 64 (current + 1) <=? MaxInflight_Load (max l) then Some (Held, l) else Some (RelLoad, l)
  | RelLoad => if inflight l <=? 0 then Some (Idle, l) else Some (RelSwap (inflight l), l)
  | RelSwap current =>
      if inflight l =? current then Some (Idle, {| inflight := wraps 64 (current - 1); max := max l |})
      else Some (RelLoad, l)
  end.

(** ** All goroutines *)

Record system := { shared : limiter; procs : list pc }.

(** [bound] is the highest limit ever set. *)
Inductive limiter_step (bound : Z) : system -> system -> Prop :=
| step_run s i p p' l' :
    procs s !! i = Some p -> pc_step p (shared s) = Some (p', l') ->
    limiter_step bound s {| shared := l'; procs := <[i := p']> (procs s) |}
| step_acquire s i :
    procs s !! i = Some Idle -> limiter_step bound s {| shared := shared s; procs := <[i := AcqLoad]> (procs s) |}
| step_release s i :
    procs s !! i = Some Held -> limiter_step bound s {| shared := shared s; procs := <[i := RelLoad]> (procs s) |}
| step_set_max s v :
    MaxInflight_Set v <= bound ->
    limiter_step bound s {| shared := {| inflight := inflight (shared s); max := MaxInflight_Set v |}; procs := procs s |}
| step_spawn s : limiter_step bound s {| shared := shared s; procs := procs s ++ [Idle] |}.

(** Between the successful swap of an acquire and that of the matching release. *)
Definition owns (p : pc) : Prop := match p with AcqRecheck _ | Held | RelLoad | RelSwap _ => True | _ => False end.
#[export] Instance owns_dec p : Decision (owns p).
Proof. destruct p; apply _. Defined.

Definition holding (p : pc) : Prop := p = Held.
#[export] Instance pc_eq_dec : EqDecision pc.
Proof. solve_decision. Defined.
#[export] Instance holding_dec p : Decision (holding p) := decide_rel (=) p Held.

Definition owners (ps : list pc) : Z := Z.of_nat (length (filter owns ps)).
Definition holders (ps : list pc) : Z := Z.of_nat (length (filter holding ps)).

Definition weight (p : pc) : Z := if decide (owns p) then 1 else 0.

Lemma owners_cons p ps : owners (p :: ps) = weight p + owners ps.
Proof. unfold owners, weight. rewrite filter_cons. destruct (decide (owns p)); cbn [length]; lia. Qed.

Lemma owners_app ps qs : owners (ps ++ qs) = owners ps + owners qs.
Proof. unfold owners. rewrite filter_app, length_app. lia. Qed.

Lemma owners_insert i p p' ps : ps !! i = Some p -> owners (<[i := p']> ps) = owners ps - weight p + weight p'.
Proof.
  revert i. induction ps as [|q ps IH]; intros [|i] H; simpl in *; [done | done | |].
  - simplify_eq. rewrite !owners_cons. lia.
  - rewrite !owners_cons, (IH i) by done. lia.
Qed.

Lemma holders_owners ps : holders ps <= owners ps.
Proof.
  unfold holders, owners. induction ps as [|p ps IH]; [done|]. rewrite !filter_cons. unfold holding, owns in *.
  destruct (decide (p = Held)) as [-> | ?]; [cbn [length]; destruct (decide True); [cbn; lia | done]|].
  destruct (decide _); cbn [length]; lia.
Qed.

(** The counter counts the owners, a swap is attempted only from a value the
    limit allowed, and no limit ever set exceeds [bound]. *)
Record limiter_inv (bound : Z) (s : system) : Prop := {
  inv_count : inflight (shared s) = owners (procs s);
  inv_count_bound : inflight (shared s) <= bound;
  inv_max : 1 <= MaxInflight_Load (max (shared s)) <= bound;
  inv_swap : Forall (fun p => match p with AcqSwap c => c < bound | _ => True end) (procs s)
}.

Lemma weight_range p : 0 <= weight p <= 1.
Proof. unfold weight. destruct (decide _); lia. Qed.

Lemma owners_pos i p ps : ps !! i = Some p -> owns p -> 1 <= owners ps.
Proof.
  intros H Hp. pose proof (owners_insert i p Idle ps H) as E. unfold weight at 1 in E. rewrite decide_True in E by done.
  assert (0 <= owners (<[i := Idle]> ps)) by (unfold owners; lia). change (weight Idle) with 0 in E. lia.
Qed.

Lemma normalize_pos v : 1 <= normalizeMaxInflight v.
Proof. unfold normalizeMaxInflight, defaultMaxInflightPerEndpoint. destruct (Z.leb_spec v 0); lia. Qed.

Lemma normalize_idem v : normalizeMaxInflight (normalizeMaxInflight v) = normalizeMaxInflight v.
Proof. pose proof (normalize_pos v). unfold normalizeMaxInflight at 1. destruct (Z.leb_spec (normalizeMaxInflight v) 0); lia. Qed.

(** What an access of an owner, or of a goroutine that tries to become one, does to the counter. *)
Lemma pc_step_counts bound p l p' l' :
  bound < 2 ^ 63 -> weight p <= inflight l <= bound -> MaxInflight_Load (max l) <= bound ->
  (forall c, p = AcqSwap c -> c < bound) -> pc_step p l = Some (p', l') ->
  inflight l' = inflight l - weight p + weight p' /\ inflight l' <= bound /\ max l' = max l /\ (forall c, p' = AcqSwap c -> c < bound).
Proof.
  intros Hb Hc Hm Hs Hstep. destruct p as [| | c | c | c | | | c]; cbn in Hstep; try done;
    repeat case_test; simplify_eq; bool_facts; subst; unfold weight in *; repeat (case_decide; cbn [owns] in *; try tauto);
    cbn [inflight max]; try (split; [lia|]; split; [lia|]; split; [done|]; by intros ? [= ->]).
  - split; [lia|]. split; [lia|]. split; [done|]. intros ? [= ->]. unfold MaxInflight_Load in *. lia.
  - specialize (Hs _ eq_refl). rewrite wraps_small by (unfold is_s; lia). split; [lia|]. split; [lia|]. by split.
  - rewrite wraps_small by (unfold is_s; lia). split; [lia|]. split; [lia|]. by split.
Qed.

(** A goroutine's access keeps the invariant. *)
Lemma pc_step_inv bound s i p p' l' :
  bound < 2 ^ 63 -> limiter_inv bound s -> procs s !! i = Some p -> pc_step p (shared s) = Some (p', l') ->
  limiter_inv bound {| shared := l'; procs := <[i := p']> (procs s) |}.
Proof.
  intros Hb [Hc Hcb Hm Hs] Hi Hstep.
  assert (Hp : match p with AcqSwap c => c < bound | _ => True end) by (by eapply Forall_lookup in Hs).
  assert (Hw : weight p <= inflight (shared s)).
  { rewrite Hc. unfold weight. destruct (decide (owns p)); [by eapply owners_pos|unfold owners; lia]. }
  destruct (pc_step_counts bound p (shared s) p' l') as (Hn & Hn' & Hmx & Hsw); try done; [lia|by intros c ->|].
  split; cbn; [rewrite (owners_insert _ p) by done; lia|done|by rewrite Hmx|].
  apply Forall_insert; [done|]. destruct p'; try done. by apply Hsw.
Qed.

Lemma limiter_step_inv bound s s' :
  bound < 2 ^ 63 -> limiter_inv bound s -> limiter_step bound s s' -> limiter_inv bound s'.
Proof.
  intros Hb Hinv Hstep. destruct Hstep as [s i p p' l' Hi Hp | s i Hi | s i Hi | s v Hv | s]; [by eapply pc_step_inv|..];
    destruct Hinv as [Hc Hcb Hm Hs].
  - split; cbn; [rewrite (owners_insert _ _ _ _ Hi) | done | done | by apply Forall_insert].
    change (weight Idle) with 0. change (weight AcqLoad) with 0. lia.
  - split; cbn; [rewrite (owners_insert _ _ _ _ Hi) | done | done | by apply Forall_insert].
    change (weight Held) with 1. change (weight RelLoad) with 1. lia.
  - split; cbn; [done | done | | done]. unfold MaxInflight_Load, MaxInflight_Set in *. rewrite normalize_idem.
    split; [apply normalize_pos | done].
  - split; cbn; [rewrite owners_app; change (owners [Idle]) with 0; lia | done | done | apply Forall_app; by repeat constructor].
Qed.

Definition limiter_initial (bound : Z) (s : system) : Prop :=
  inflight (shared s) = 0 /\ Forall (fun p => p = Idle) (procs s) /\ 1 <= MaxInflight_Load (max (shared s)) <= bound.

Lemma owners_idle ps : Forall (fun p => p = Idle) ps -> owners ps = 0.
Proof. induction 1 as [|p ps -> _ IH]; [done|]. by rewrite owners_cons, IH. Qed.

(** C35. In every interleaving of acquires, releases and changes of the limit the
    counter is exactly the number of goroutines between a successful swap and the
    matching release; so the goroutines holding capacity never outnumber the
    highest limit that was set, no release is lost or finds the counter at zero,
    and when all goroutines are outside, the counter is zero. *)
Theorem breaker_counts_holders bound s0 s :
  bound < 2 ^ 63 -> limiter_initial bound s0 -> rtc (limiter_step bound) s0 s ->
  inflight (shared s) = owners (procs s) /\ holders (procs s) <= inflight (shared s) <= bound /\
  (RelLoad ∈ procs s -> 0 < inflight (shared s)) /\
  (Forall (fun p => p = Idle) (procs s) -> inflight (shared s) = 0).
Proof.
  intros Hb (H0 & Hidle & Hm) Hrun.
  assert (Hinv : limiter_inv bound s).
  { assert (Hinv0 : limiter_inv bound s0).
    { split; [by rewrite owners_idle | lia | done|]. eapply Forall_impl; [exact Hidle|]. by intros ? ->. }
    revert Hinv0. clear H0 Hidle Hm. induction Hrun as [|s0 s1 s Hstep _ IH]; [done|]. intros Hinv0. apply IH.
    by eapply limiter_step_inv. }
  destruct Hinv as [Hc Hcb _ _]. split; [done|]. split; [pose proof (holders_owners (procs s)); lia|]. split.
  - intros (i & Hi)%list_elem_of_lookup. pose proof (owners_pos i RelLoad (procs s) Hi I). lia.
  - intros Hall. by rewrite Hc, owners_idle.
Qed.

(** ** A goroutine running alone *)

(** At most [n] accesses. *)
Fixpoint solo (n : nat) (p : pc) (l : limiter) : pc * limiter :=
  match n with
  | O => (p, l)
  | S n' => match pc_step p l with Some (p', l') => solo n' p' l' | None => (p, l) end
  end.

(** The accesses an uncontended acquire that is then refused again needs; an
    admitted acquire needs four, a release two. *)
Definition solo_fuel : nat := 6.

(** What the loops compute without contention. *)
Definition EndpointLimiter_TryAcquire (l : limiter) : bool * limiter :=
  let '(p, l') := solo solo_fuel AcqLoad l in (bool_decide (p = Held), l').

Definition EndpointLimiter_Release (l : limiter) : limiter := (solo solo_fuel RelLoad l).2.

Lemma solo_acquire l :
  0 <= inflight l -> inflight l < 2 ^ 63 - 1 ->
  EndpointLimiter_TryAcquire l =
  if inflight l <? MaxInflight_Load (max l)
  then (true, {| inflight := inflight l + 1; max := max l |}) else (false, l).
Proof.
  intros H0 H1. unfold EndpointLimiter_TryAcquire, solo_fuel.
  assert (E : wraps 64 (inflight l + 1) = inflight l + 1) by (apply wraps_small; unfold is_s; lia).
  cbn [solo pc_step]. destruct (Z.ltb_spec (inflight l) (MaxInflight_Load (max l))).
  - rewrite (proj2 (Z.leb_gt _ _)) by lia. cbn [solo pc_step]. rewrite Z.eqb_refl. cbn [solo pc_step max].
    rewrite E, (proj2 (Z.leb_le _ _)) by lia. done.
  - rewrite (proj2 (Z.leb_le _ _)) by lia. done.
Qed.

Lemma solo_release l :
  inflight l < 2 ^ 63 ->
  EndpointLimiter_Release l = if inflight l <=? 0 then l else {| inflight := inflight l - 1; max := max l |}.
Proof.
  intros H. unfold EndpointLimiter_Release, solo_fuel. cbn [solo pc_step].
  destruct (Z.leb_spec (inflight l) 0); [done|]. cbn [solo pc_step]. rewrite Z.eqb_refl. cbn [solo pc_step snd].
  f_equal. apply wraps_small; unfold is_s; lia.
Qed.

(** ** The breaker: a limiter per endpoint, one limit for all *)

Record Breaker := { b_max : Z; limiters : gmap string Z }.

Definition normalizeEndpoint (endpoint : string) : string :=
  if bool_decide (endpoint = ""%string) then "unknown"%string else endpoint.

Definition NewBreaker (MaxInflightPerEndpoint : Z) : Breaker :=
  {| b_max := MaxInflight_Set MaxInflightPerEndpoint; limiters := ∅ |}.

Definition SetMaxInflightPerEndpoint (v : Z) (b : Breaker) : Breaker :=
  {| b_max := MaxInflight_Set v; limiters := limiters b |}.

(** The limiter of an endpoint, created on first use. *)
Definition get_limiter (b : Breaker) (endpoint : string) : limiter :=
  {| inflight := default 0 (limiters b !! normalizeEndpoint endpoint); max := b_max b |}.

Definition put_limiter (b : Breaker) (endpoint : string) (l : limiter) : Breaker :=
  {| b_max := b_max b; limiters := <[normalizeEndpoint endpoint := inflight l]> (limiters b) |}.

(** [false] is [ErrOpen]. *)
Definition TryAcquire (endpoint : string) (b : Breaker) : bool * Breaker :=
  let '(ok, l) := EndpointLimiter_TryAcquire (get_limiter b endpoint) in (ok, put_limiter b endpoint l).

Definition Release (endpoint : string) (b : Breaker) : Breaker :=
  match limiters b !! normalizeEndpoint endpoint with
  | Some _ => put_limiter b endpoint (EndpointLimiter_Release (get_limiter b endpoint))
  | None => b
  end.

Definition Inflight (endpoint : string) (b : Breaker) : Z := default 0 (limiters b !! normalizeEndpoint endpoint).

(** The callback [Acquire] returns: its [released] flag, and a call of it. *)
Record callback := { cb_endpoint : string; released : bool }.

Definition Acquire (endpoint : string) (b : Breaker) : option callback * Breaker :=
  let endpoint := normalizeEndpoint endpoint in
  let '(ok, b') := TryAcquire endpoint b in
  (if ok then Some {| cb_endpoint := endpoint; released := false |} else None, b').

Definition call (cb : callback) (b : Breaker) : callback * Breaker :=
  if released cb then (cb, b)
  else ({| cb_endpoint := cb_endpoint cb; released := true |}, Release (cb_endpoint cb) b).

Fixpoint calls (n : nat) (cb : callback) (b : Breaker) : callback * Breaker :=
  match n with O => (cb, b) | S n' => let '(cb', b') := call cb b in calls n' cb' b' end.

Definition breaker_ok (b : Breaker) : Prop := map_Forall (fun _ n => 0 <= n < 2 ^ 63 - 1) (limiters b).

Lemma normalizeEndpoint_idem e : normalizeEndpoint (normalizeEndpoint e) = normalizeEndpoint e.
Proof. unfold normalizeEndpoint. by repeat case_bool_decide. Qed.

Lemma Inflight_range b e : breaker_ok b -> 0 <= Inflight e b < 2 ^ 63 - 1.
Proof.
  intros Hok. unfold Inflight. destruct (limiters b !! normalizeEndpoint e) eqn:E; cbn; [|lia]. by apply Hok in E.
Qed.

Lemma calls_released n cb b : released cb = true -> calls n cb b = (cb, b).
Proof. intros H. induction n as [|n IH]; [done|]. cbn. unfold call. by rewrite H. Qed.

Lemma Inflight_put e e' b l :
  Inflight e' (put_limiter b e l) =
  if decide (normalizeEndpoint e' = normalizeEndpoint e) then inflight l else Inflight e' b.
Proof.
  unfold Inflight, put_limiter. cbn. destruct (decide _) as [-> | Hne]; [by rewrite lookup_insert_eq|].
  by rewrite lookup_insert_ne.
Qed.

(** [Acquire] admits exactly while the endpoint is below the limit, counting
    one more request for that endpoint and leaving the others alone; whatever the
    number of times the returned callback is called, it gives back that one
    request once. *)
Theorem acquire_release_once endpoint b n :
  breaker_ok b ->
  let '(cb, b1) := Acquire endpoint b in
  (is_Some cb <-> Inflight endpoint b < MaxInflight_Load (b_max b)) /\
  (forall e, Inflight e b1 = Inflight e b +
     if decide (is_Some cb /\ normalizeEndpoint e = normalizeEndpoint endpoint) then 1 else 0) /\
  match cb with
  | None => True
  | Some cb => forall e, Inflight e (calls (S n) cb b1).2 = Inflight e b
  end.
Proof.
  intros Hok. pose proof (Inflight_range b endpoint Hok) as Hr. unfold Acquire, TryAcquire.
  assert (Hg : get_limiter b (normalizeEndpoint endpoint) = {| inflight := Inflight endpoint b; max := b_max b |}).
  { unfold get_limiter. by rewrite normalizeEndpoint_idem. }
  rewrite Hg, solo_acquire by (cbn; lia). cbn [inflight max].
  destruct (Z.ltb_spec (Inflight endpoint b) (MaxInflight_Load (b_max b))) as [Hlt | Hge].
  - set (b1 := put_limiter _ _ _). assert (H1 : forall e, Inflight e b1 = Inflight e b +
      if decide (normalizeEndpoint e = normalizeEndpoint endpoint) then 1 else 0).
    { intros e. unfold b1. rewrite Inflight_put, normalizeEndpoint_idem. cbn [inflight].
      destruct (decide _) as [E |]; [|lia]. unfold Inflight. by rewrite E. }
    split; [done|]. split.
    + intros e. rewrite H1. destruct (decide (normalizeEndpoint e = normalizeEndpoint endpoint)) as [E | E].
      * rewrite decide_True; [done|]. split; [by eexists | done].
      * rewrite decide_False; [done | tauto].
    + intros e. cbn [calls call released cb_endpoint]. rewrite calls_released by done. cbn [snd].
      unfold Release. destruct (limiters b1 !! normalizeEndpoint (normalizeEndpoint endpoint)) eqn:El.
      2:{ exfalso. unfold b1, put_limiter in El. cbn in El. by rewrite lookup_insert_eq in El. }
      rewrite Inflight_put, normalizeEndpoint_idem.
      assert (Hg1 : get_limiter b1 (normalizeEndpoint endpoint) = {| inflight := Inflight endpoint b + 1; max := b_max b |}).
      { unfold get_limiter. f_equal. fold (Inflight (normalizeEndpoint endpoint) b1). rewrite H1, decide_True by apply normalizeEndpoint_idem.
        unfold Inflight. by rewrite normalizeEndpoint_idem. }
      rewrite Hg1, solo_release by (cbn; lia). cbn [inflight]. rewrite (proj2 (Z.leb_gt _ _)) by lia. cbn [inflight].
      destruct (decide _) as [E | Hne].
      * unfold Inflight at 2. rewrite E. unfold Inflight. lia.
      * rewrite H1, decide_False by done. lia.
  - split; [split; [by intros [] | lia]|]. split; [|done]. intros e. rewrite decide_False by (by intros [[] _]).
    rewrite Inflight_put, normalizeEndpoint_idem. cbn [inflight]. destruct (decide _) as [E|]; [|lia].
    unfold Inflight. rewrite E. lia.
Qed.

(** ** Concrete runs *)

Definition demo_system : system := {| shared := {| inflight := 0; max := 1 |}; procs := [Idle; Idle] |}.

Definition demo_contended : system := {| shared := {| inflight := 1; max := 1 |}; procs := [Held; AcqSwap 0] |}.

Lemma breaker_counts_holders_witness :
  inflight (shared demo_contended) = owners (procs demo_contended) /\ holders (procs demo_contended) = 1.
Proof.
  split; [|reflexivity]. apply (breaker_counts_holders 1 demo_system demo_contended); [done | |].
  - split; [done|]. split; [by repeat constructor | vm_compute; done].
  - assert (Hrun : forall s i p p' l', procs s !! i = Some p -> pc_step p (shared s) = Some (p', l') ->
      rtc (limiter_step 1) {| shared := l'; procs := <[i := p']> (procs s) |} demo_contended ->
      rtc (limiter_step 1) s demo_contended).
    { intros s i p p' l' Hi Hp Hr. eapply rtc_l; [|exact Hr]. by apply (step_run 1 s i p p' l'). }
    eapply rtc_l; [apply (step_acquire 1 demo_system 0); reflexivity|].
    eapply rtc_l; [apply (step_acquire 1 _ 1); reflexivity|].
    do 2 (eapply (Hrun _ 1%nat); [reflexivity | vm_compute; reflexivity |]).
    do 4 (eapply (Hrun _ 0%nat); [reflexivity | vm_compute; reflexivity |]).
    apply rtc_refl.
Defined.

Lemma acquire_release_once_witness :
  let '(cb, b1) := Acquire "" (NewBreaker 0) in
  Inflight "unknown" b1 = 1 /\ match cb with None => False | Some cb => Inflight "" (calls 3 cb b1).2 = 0 end.
Proof.
  pose proof (acquire_release_once "" (NewBreaker 0) 2 (map_Forall_empty _)) as H.
  destruct (Acquire "" (NewBreaker 0)) as [cb b1] eqn:E. destruct H as (H1 & H2 & H3).
  destruct cb as [cb|]; [|vm_compute in E; discriminate]. split; [rewrite (H2 "unknown"%string); vm_compute; reflexivity|].
  rewrite (H3 ""%string). reflexivity.
Defined.
