(* ===== verification/RetryBudget.v ===== *)
(** * The retry budget ([pkg/retry/budget.go])

    Retries are admitted in proportion to the original requests of the current
    window.  Operations hold the read lock while they touch the atomic counters;
    only a rollover, under the write lock, resets them. *)
From Stdlib Require Import SpecFloat.
From S2P Require Import Prelude GoStd GoFloat.

Record BudgetConfig := { BudgetRatio : float64; MinBudget : Z; Window : Z }.

Record Budget := { cfg : BudgetConfig; windowStart : Z; originalRequests : Z; retryRequests : Z }.

(** [now] is the reading of the configured clock. *)
Definition NewBudget (c : BudgetConfig) (now : Z) : Budget := {|
  cfg := {| BudgetRatio := if flt (BudgetRatio c) fzero || IsNaN (BudgetRatio c) then fzero else BudgetRatio c;
            MinBudget := if MinBudget c <? 0 then 0 else MinBudget c;
            Window := if Window c <=? 0 then 10 * 1000000000 else Window c |};
  windowStart := now; originalRequests := 0; retryRequests := 0 |}.

Definition set_counters (b : Budget) (o r : Z) : Budget :=
  {| cfg := cfg b; windowStart := windowStart b; originalRequests := o; retryRequests := r |}.

(** The two readings of the clock: before the read lock, and under the write lock. *)
Definition lockCurrentWindow (now1 now2 : Z) (b : Budget) : Budget :=
  if time_Sub now1 (windowStart b) <? Window (cfg b) then b
  else if Window (cfg b) <=? time_Sub now2 (windowStart b)
  then {| cfg := cfg b; windowStart := now2; originalRequests := 0; retryRequests := 0 |}
  else b.

Definition allowedRetriesFor (c : BudgetConfig) (originals : Z) : Z :=
  let ratioBudget :=
    to_int64 (ffloor (fadd (fmul (of_int originals) (BudgetRatio c)) (flit 1 1000000000))) in
  if ratioBudget <? MinBudget c then MinBudget c else ratioBudget.

Definition allowedRetries (b : Budget) : Z := allowedRetriesFor (cfg b) (originalRequests b).

(** ** Operations, each run without interference *)

Definition RecordOriginal (now1 now2 : Z) (b : Budget) : Budget :=
  let b := lockCurrentWindow now1 now2 b in
  set_counters b (wraps 64 (originalRequests b + 1)) (retryRequests b).

Definition RecordRetry (now1 now2 : Z) (b : Budget) : Budget :=
  let b := lockCurrentWindow now1 now2 b in
  set_counters b (originalRequests b) (wraps 64 (retryRequests b + 1)).

Definition AllowRetry (now1 now2 : Z) (b : Budget) : bool * Budget :=
  let b := lockCurrentWindow now1 now2 b in (retryRequests b <? allowedRetries b, b).

Definition TryAcquireRetry (now1 now2 : Z) (b : Budget) : bool * Budget :=
  let b := lockCurrentWindow now1 now2 b in
  let allowed := allowedRetries b in
  if allowed <=? 0 then (false, b) else
  let retries := wraps 64 (retryRequests b + 1) in
  let b' := set_counters b (originalRequests b) retries in
  if retries <=? allowed then (true, b')
  else (false, set_counters b' (originalRequests b) (wraps 64 (retries - 1))).

Record Snapshot := { OriginalRequests : Z; RetryRequests : Z; AllowedRetries : Z; WindowStart : Z; WindowEnd : Z }.

Definition Budget_Snapshot (now1 now2 now3 : Z) (b : Budget) : Snapshot * Budget :=
  let b := lockCurrentWindow now1 now2 b in
  ({| OriginalRequests := originalRequests b; RetryRequests := retryRequests b;
      AllowedRetries := allowedRetriesFor (cfg b) (originalRequests b);
      WindowStart := windowStart b; WindowEnd := now3 |}, b).

Definition counters_ok (b : Budget) : Prop := 0 <= originalRequests b < 2 ^ 63 - 1 /\ 0 <= retryRequests b < 2 ^ 63 - 1.

Lemma lock_ok now1 now2 b : counters_ok b -> counters_ok (lockCurrentWindow now1 now2 b).
Proof. unfold lockCurrentWindow, counters_ok. intros. repeat case_test; cbn; lia. Qed.

(** Without interference [TryAcquireRetry] admits a retry exactly when
    [AllowRetry] would say yes, and then counts it; a refusal leaves the counters as
    they were.  Once the window has passed, both start from empty counters. *)
Theorem try_acquire_matches_allow now1 now2 b :
  counters_ok b ->
  let b1 := lockCurrentWindow now1 now2 b in
  let '(ok, b') := TryAcquireRetry now1 now2 b in
  ok = (AllowRetry now1 now2 b).1 /\
  b' = set_counters b1 (originalRequests b1) (retryRequests b1 + if ok then 1 else 0) /\
  (Window (cfg b) <= time_Sub now1 (windowStart b) -> Window (cfg b) <= time_Sub now2 (windowStart b) ->
   b1 = {| cfg := cfg b; windowStart := now2; originalRequests := 0; retryRequests := 0 |}).
Proof.
  intros Hok b1. pose proof (lock_ok now1 now2 b Hok) as [Ho Hr]. fold b1 in Ho, Hr.
  unfold TryAcquireRetry, AllowRetry. fold b1. cbv zeta.
  assert (Hroll : Window (cfg b) <= time_Sub now1 (windowStart b) -> Window (cfg b) <= time_Sub now2 (windowStart b) ->
   b1 = {| cfg := cfg b; windowStart := now2; originalRequests := 0; retryRequests := 0 |}).
  { intros H1 H2. unfold b1, lockCurrentWindow. rewrite (proj2 (Z.ltb_ge _ _) H1). by rewrite (proj2 (Z.leb_le _ _) H2). }
  assert (Hsame : set_counters b1 (originalRequests b1) (retryRequests b1 + 0) = b1).
  { rewrite Z.add_0_r. by destruct b1. }
  assert (E : wraps 64 (retryRequests b1 + 1) = retryRequests b1 + 1) by (apply wraps_small; unfold is_s; lia).
  cbn [fst]. destruct (Z.leb_spec (allowedRetries b1) 0).
  { split; [symmetry; apply Z.ltb_ge; lia|]. by rewrite Hsame. }
  rewrite E. destruct (Z.leb_spec (retryRequests b1 + 1) (allowedRetries b1)).
  - split; [symmetry; apply Z.ltb_lt; lia|]. done.
  - split; [symmetry; apply Z.ltb_ge; lia|]. split; [|done]. cbn [set_counters].
    rewrite Hsame. replace (retryRequests b1 + 1 - 1) with (retryRequests b1) by lia.
    rewrite wraps_small by (unfold is_s; lia). by destruct b1.
Qed.

(** ** Interleavings *)

(** Where a goroutine is inside the read-locked part of an operation. *)
Inductive pc :=
| Outside
| TryLoad                      (** [TryAcquireRetry], before loading the originals *)
| TryAdd (allowed : Z)         (** before the optimistic increment *)
| TryRollback                  (** before giving the increment back *)
| AddOriginal | AddRetry.      (** [RecordOriginal], [RecordRetry] *)

(** [granted] and [recorded] count, since the last rollover, the calls of
    [TryAcquireRetry] that returned true and the increments of [RecordRetry]. *)
Record system := { budget : Budget; procs : list pc; granted : Z; recorded : Z }.

Inductive pc_step (b : Budget) : pc -> pc -> Budget -> Z -> Z -> Prop :=
| step_load : pc_step b TryLoad (TryAdd (allowedRetries b)) b 0 0
| step_none allowed : allowed <= 0 -> pc_step b (TryAdd allowed) Outside b 0 0
| step_grant allowed :
    0 < allowed -> wraps 64 (retryRequests b + 1) <= allowed ->
    pc_step b (TryAdd allowed) Outside (set_counters b (originalRequests b) (wraps 64 (retryRequests b + 1))) 1 0
| step_refuse allowed :
    0 < allowed -> allowed < wraps 64 (retryRequests b + 1) ->
    pc_step b (TryAdd allowed) TryRollback (set_counters b (originalRequests b) (wraps 64 (retryRequests b + 1))) 0 0
| step_rollback :
    pc_step b TryRollback Outside (set_counters b (originalRequests b) (wraps 64 (retryRequests b - 1))) 0 0
| step_original :
    pc_step b AddOriginal Outside (set_counters b (wraps 64 (originalRequests b + 1)) (retryRequests b)) 0 0
| step_retry :
    pc_step b AddRetry Outside (set_counters b (originalRequests b) (wraps 64 (retryRequests b + 1))) 0 1.

Inductive budget_step : system -> system -> Prop :=
| step_run s i p p' b' g r :
    procs s !! i = Some p -> pc_step (budget s) p p' b' g r ->
    budget_step s {| budget := b'; procs := <[i := p']> (procs s); granted := granted s + g; recorded := recorded s + r |}
| step_enter s i p :
    procs s !! i = Some Outside -> p = TryLoad \/ p = AddOriginal \/ p = AddRetry ->
    budget_step s {| budget := budget s; procs := <[i := p]> (procs s); granted := granted s; recorded := recorded s |}
| step_spawn s :
    budget_step s {| budget := budget s; procs := procs s ++ [Outside]; granted := granted s; recorded := recorded s |}
| step_rollover s now :
    Forall (fun p => p = Outside) (procs s) ->
    Window (cfg (budget s)) <= time_Sub now (windowStart (budget s)) ->
    budget_step s {| budget := {| cfg := cfg (budget s); windowStart := now; originalRequests := 0; retryRequests := 0 |};
                     procs := procs s; granted := 0; recorded := 0 |}.

Definition rolling (p : pc) : Z := match p with TryRollback => 1 | _ => 0 end.
Definition rollbacks (ps : list pc) : Z := sumZ (rolling <$> ps).

Lemma rollbacks_insert i p p' ps :
  ps !! i = Some p -> rollbacks (<[i := p']> ps) = rollbacks ps - rolling p + rolling p'.
Proof.
  unfold rollbacks. revert i. induction ps as [|q ps IH]; intros [|i] H; simpl in *; [done | done | |].
  - simplify_eq. rewrite !sumZ_cons. lia.
  - rewrite !sumZ_cons. specialize (IH i H). unfold fmap in IH. rewrite IH. lia.
Qed.

Lemma rollbacks_nonneg ps : 0 <= rollbacks ps.
Proof. apply sumZ_nonneg, Forall_fmap, Forall_true. by intros []. Qed.

Lemma rollbacks_pos i ps : ps !! i = Some TryRollback -> 1 <= rollbacks ps.
Proof.
  intros H. pose proof (rollbacks_insert i TryRollback Outside ps H) as E. cbn [rolling] in E.
  pose proof (rollbacks_nonneg (<[i := Outside]> ps)). lia.
Qed.

Lemma rollbacks_outside ps : Forall (fun p => p = Outside) ps -> rollbacks ps = 0.
Proof. unfold rollbacks. induction 1 as [|p ps -> _ IH]; [done|]. by rewrite fmap_cons, sumZ_cons, IH. Qed.

(** [a] was computed from a number of originals seen in this window. *)
Definition budgeted (b : Budget) (a : Z) : Prop :=
  exists o, 0 <= o <= originalRequests b /\ a = allowedRetriesFor (cfg b) o.

Record budget_inv (n : nat) (s : system) : Prop := {
  inv_retries : retryRequests (budget s) = granted s + recorded s + rollbacks (procs s);
  inv_steps : retryRequests (budget s) <= Z.of_nat n /\ 0 <= originalRequests (budget s) <= Z.of_nat n;
  inv_nonneg : 0 <= granted s /\ 0 <= recorded s;
  inv_pending : Forall (fun p => match p with TryAdd a => budgeted (budget s) a | _ => True end) (procs s);
  inv_granted : granted s = 0 \/ exists a, budgeted (budget s) a /\ granted s <= a
}.

Lemma budgeted_mono b b' a :
  cfg b' = cfg b -> originalRequests b <= originalRequests b' -> budgeted b a -> budgeted b' a.
Proof. intros E Ho (o & Hr & ->). exists o. rewrite E. split; [lia | done]. Qed.

Lemma budget_step_inv n s s' :
  Z.of_nat n < 2 ^ 63 - 1 -> budget_inv n s -> budget_step s s' -> budget_inv (S n) s'.
Proof.
  intros Hn [Hr [Hrn Hon] Hnn Hp Hg] Hstep. pose proof (rollbacks_nonneg (procs s)) as Hrb.
  assert (Hmono : forall b', cfg b' = cfg (budget s) -> originalRequests (budget s) <= originalRequests b' ->
    Forall (fun p => match p with TryAdd a => budgeted b' a | _ => True end) (procs s) /\
    (granted s = 0 \/ exists a, budgeted b' a /\ granted s <= a)).
  { intros b' Ec Ho. split.
    - eapply Forall_impl; [exact Hp|]. intros []; try done. by apply budgeted_mono.
    - destruct Hg as [Hg | (a & Ha & Hle)]; [by left|]. right. exists a. split; [|done]. by eapply budgeted_mono. }
  destruct Hstep as [s i p p' b' g r Hi Hpc | s i p Hi Hin | s | s now Hout Hw].
  - pose proof (rollbacks_insert i p p' (procs s) Hi) as Eins.
    assert (Hpi : match p with TryAdd a => budgeted (budget s) a | _ => True end) by (by eapply Forall_lookup in Hp).
    assert (E1 : wraps 64 (retryRequests (budget s) + 1) = retryRequests (budget s) + 1) by (apply wraps_small; unfold is_s; lia).
    assert (E2 : wraps 64 (originalRequests (budget s) + 1) = originalRequests (budget s) + 1) by (apply wraps_small; unfold is_s; lia).
    destruct Hpc as [| a Ha | a Ha Hle | a Ha Hlt | | |]; cbn [rolling] in Eins; rewrite ?E1, ?E2 in *.
    + split; cbn; rewrite ?Eins, ?Z.add_0_r; [lia | lia | lia | | exact Hg].
      apply Forall_insert; [done|]. exists (originalRequests (budget s)). split; [lia | done].
    + split; cbn; rewrite ?Eins, ?Z.add_0_r; [lia | lia | lia | by apply Forall_insert | exact Hg].
    + destruct (Hmono (set_counters (budget s) (originalRequests (budget s)) (retryRequests (budget s) + 1)) eq_refl (Z.le_refl _)) as [Hp' _].
      split; cbn; rewrite ?Eins, ?Z.add_0_r; [lia | lia | lia | by apply Forall_insert|].
      right. exists a. split; [exact Hpi | lia].
    + destruct (Hmono (set_counters (budget s) (originalRequests (budget s)) (retryRequests (budget s) + 1)) eq_refl (Z.le_refl _)) as [Hp' Hg'].
      split; cbn; rewrite ?Eins, ?Z.add_0_r; [lia | lia | lia | by apply Forall_insert | exact Hg'].
    + pose proof (rollbacks_pos i (procs s) Hi).
      assert (E3 : wraps 64 (retryRequests (budget s) - 1) = retryRequests (budget s) - 1) by (apply wraps_small; unfold is_s; lia).
      destruct (Hmono (set_counters (budget s) (originalRequests (budget s)) (retryRequests (budget s) - 1)) eq_refl (Z.le_refl _)) as [Hp' Hg'].
      rewrite E3. split; cbn; rewrite ?Eins, ?Z.add_0_r; [lia | lia | lia | by apply Forall_insert | exact Hg'].
    + destruct (Hmono (set_counters (budget s) (originalRequests (budget s) + 1) (retryRequests (budget s))) eq_refl ltac:(cbn; lia)) as [Hp' Hg'].
      split; cbn; rewrite ?Eins, ?Z.add_0_r; [lia | lia | lia | by apply Forall_insert | exact Hg'].
    + destruct (Hmono (set_counters (budget s) (originalRequests (budget s)) (retryRequests (budget s) + 1)) eq_refl (Z.le_refl _)) as [Hp' Hg'].
      split; cbn; rewrite ?Eins, ?Z.add_0_r; [lia | lia | lia | by apply Forall_insert | exact Hg'].
  - pose proof (rollbacks_insert i Outside p (procs s) Hi) as Eins.
    split; cbn; [rewrite Eins; destruct Hin as [-> | [-> | ->]]; cbn; lia | lia | lia | | done].
    apply Forall_insert; [done|]. by destruct Hin as [-> | [-> | ->]].
  - split; cbn; [|lia | lia | apply Forall_app; by repeat constructor | done].
    unfold rollbacks in *. rewrite fmap_app, sumZ_app. cbn. change (sumZ [0]) with 0. lia.
  - split; cbn; [by rewrite rollbacks_outside | lia | lia | | by left].
    eapply Forall_impl; [exact Hout|]. by intros ? ->.
Qed.

Definition budget_initial (s : system) : Prop :=
  originalRequests (budget s) = 0 /\ retryRequests (budget s) = 0 /\ granted s = 0 /\ recorded s = 0 /\
  Forall (fun p => p = Outside) (procs s).

(** C36. In every interleaving the retries admitted in a window stay within the
    budget of some number of original requests already counted in that window, and
    once no operation is under way the retry counter is exactly the retries admitted
    and recorded: refused attempts consume nothing.  ([n] bounds the steps, so that
    the counters have not wrapped.) *)
Theorem retries_within_budget n s0 s :
  Z.of_nat n < 2 ^ 63 -> budget_initial s0 -> nsteps budget_step n s0 s ->
  (granted s = 0 \/
   exists o, 0 <= o <= originalRequests (budget s) /\ granted s <= allowedRetriesFor (cfg (budget s)) o) /\
  (Forall (fun p => p = Outside) (procs s) -> retryRequests (budget s) = granted s + recorded s).
Proof.
  intros Hn (H1 & H2 & H3 & H4 & H5) Hrun.
  assert (Hinv : budget_inv n s).
  { assert (H0 : budget_inv 0 s0).
    { split; rewrite ?H1, ?H2, ?H3, ?H4; cbn; [by rewrite rollbacks_outside | lia | lia | | by left].
      eapply Forall_impl; [exact H5|]. by intros ? ->. }
    clear H1 H2 H3 H4 H5. revert s Hn Hrun. induction n as [|n IH]; intros s Hn Hrun.
    - inversion Hrun. by subst.
    - apply nsteps_inv_r in Hrun as (s1 & Hrun & Hstep). eapply budget_step_inv; [|apply IH; [|done]|done]; lia. }
  destruct Hinv as [Hr _ _ _ Hg]. split.
  - destruct Hg as [Hg | (a & (o & Ho & ->) & Hle)]; [by left|]. right. by exists o.
  - intros Hout. rewrite Hr, rollbacks_outside by done. lia.
Qed.

(** ** Concrete runs *)

Definition demo_budget : Budget :=
  NewBudget {| BudgetRatio := flit 2 10; MinBudget := 1; Window := 1000 |} 0.

(** Ten originals at a ratio of 0.2 allow two retries. *)
Example demo_allowed : allowedRetriesFor (cfg demo_budget) 10 = 2 /\ allowedRetriesFor (cfg demo_budget) 3 = 1.
Proof. vm_compute. done. Qed.

Lemma try_acquire_matches_allow_witness :
  (TryAcquireRetry 5 5 demo_budget).1 = true /\ (AllowRetry 5 5 demo_budget).1 = true /\
  lockCurrentWindow 2000 2001 (set_counters demo_budget 7 3) =
    {| cfg := cfg demo_budget; windowStart := 2001; originalRequests := 0; retryRequests := 0 |}.
Proof.
  split; [vm_compute; reflexivity|]. split; [vm_compute; reflexivity|].
  pose proof (try_acquire_matches_allow 2000 2001 (set_counters demo_budget 7 3)) as H.
  destruct (TryAcquireRetry 2000 2001 (set_counters demo_budget 7 3)) as [ok b']. apply H.
  - split; cbn; lia.
  - vm_compute. discriminate.
  - vm_compute. discriminate.
Defined.

Definition demo_system : system := {| budget := demo_budget; procs := [Outside; Outside]; granted := 0; recorded := 0 |}.

Definition demo_granted : system :=
  {| budget := set_counters demo_budget 0 1; procs := [Outside; TryAdd 1]; granted := 1; recorded := 0 |}.

Lemma retries_within_budget_witness :
  exists o, 0 <= o <= 0 /\ granted demo_granted <= allowedRetriesFor (cfg demo_budget) o.
Proof.
  destruct (retries_within_budget 5 demo_system demo_granted) as [[H | H] _].
  - reflexivity.
  - repeat split; by repeat constructor.
  - eapply nsteps_l; [apply (step_enter demo_system 0 TryLoad); [reflexivity | by left]|].
    eapply nsteps_l; [eapply (step_enter _ 1 TryLoad); [reflexivity | by left]|].
    eapply nsteps_l; [eapply (step_run _ 1 TryLoad); [reflexivity | apply step_load]|].
    eapply nsteps_l; [eapply (step_run _ 0 TryLoad); [reflexivity | apply step_load]|].
    eapply nsteps_l; [eapply (step_run _ 0); [reflexivity | apply step_grant; vm_compute; [reflexivity | discriminate]]|].
    apply nsteps_O.
  - discriminate H.
  - exact H.
Defined.
