(* ===== verification/Routing.v ===== *)
(** * Endpoint pickers ([pkg/routing/round_robin.go])

    Round robin over the healthy endpoints, and power of two choices over the
    routable ones.  The results of the random source are arguments. *)
From Stdlib Require Import String SpecFloat.
From S2P Require Import Prelude GoStd GoFloat Status SlowScore.

Record Endpoint := {
  ID : string;
  Address : string;
  Status_ : Code;
  Inflight : Z;
  LatencyEWMA : Z;
  Weight : float64;
  SlowScore : float64
}.

Inductive pick_error := ErrNoEndpoint | ErrContext.

(** ** Round robin *)

Record RoundRobinPicker := { endpoints : list Endpoint; next : nat }.

Definition RR_Update (p : RoundRobinPicker) (es : list Endpoint) : RoundRobinPicker :=
  {| endpoints := es; next := if (length es =? 0)%nat then 0%nat else (next p mod length es)%nat |}.

Definition NewRoundRobinPicker (es : list Endpoint) : RoundRobinPicker :=
  RR_Update {| endpoints := []; next := 0 |} es.

Definition healthy (e : Endpoint) : bool := bool_decide (Normalized (Status_ e) = Healthy).

(** The remaining attempts of the loop, from position [nxt]. *)
Fixpoint rr_loop (attempts : nat) (es : list Endpoint) (nxt : nat) : (pick_error + Endpoint) * nat :=
  match attempts with
  | O => (inl ErrNoEndpoint, nxt)
  | S attempts' =>
      let idx := (nxt mod length es)%nat in
      let nxt' := ((nxt + 1) mod length es)%nat in
      match es !! idx with
      | Some e => if healthy e then (inr e, nxt') else rr_loop attempts' es nxt'
      | None => (inl ErrNoEndpoint, nxt')
      end
  end.

(** [ctxErr] is whether the context is done. *)
Definition RR_Pick (ctxErr : bool) (p : RoundRobinPicker) : (pick_error + Endpoint) * RoundRobinPicker :=
  if ctxErr then (inl ErrContext, p)
  else if (length (endpoints p) =? 0)%nat then (inl ErrNoEndpoint, p)
  else let '(r, n) := rr_loop (length (endpoints p)) (endpoints p) (next p) in
       (r, {| endpoints := endpoints p; next := n |}).

Definition rr_ok (p : RoundRobinPicker) : Prop := endpoints p = [] \/ (next p < length (endpoints p))%nat.

Definition is_healthy_at (es : list Endpoint) (i : nat) : Prop := exists e, es !! i = Some e /\ healthy e = true.

(** The loop stops at the first healthy endpoint in cyclic order. *)
Lemma rr_loop_spec es n nxt :
  (nxt < length es)%nat ->
  (exists k e, (k < n)%nat /\ es !! ((nxt + k) mod length es)%nat = Some e /\ healthy e = true /\
    (forall j, (j < k)%nat -> ~ is_healthy_at es ((nxt + j) mod length es)%nat) /\
    rr_loop n es nxt = (inr e, ((nxt + k + 1) mod length es)%nat)) \/
  ((forall j, (j < n)%nat -> ~ is_healthy_at es ((nxt + j) mod length es)%nat) /\
    rr_loop n es nxt = (inl ErrNoEndpoint, ((nxt + n) mod length es)%nat)).
Proof.
  revert nxt. induction n as [|n IH]; intros nxt Hlt.
  { right. split; [lia|]. cbn. by rewrite Nat.add_0_r, Nat.mod_small. }
  cbn. rewrite (Nat.mod_small nxt) by done. destruct (lookup_lt_is_Some_2 es nxt Hlt) as [e He]. rewrite He.
  destruct (healthy e) eqn:Hh.
  { left. exists 0%nat, e. rewrite Nat.add_0_r, Nat.mod_small by done. repeat split; [lia | done | done | lia]. }
  assert (Hn : ~ is_healthy_at es nxt) by (intros (e' & He' & Hh'); congruence).
  assert (Hlt' : ((nxt + 1) mod length es < length es)%nat) by (apply Nat.mod_upper_bound; lia).
  assert (Em : forall j, (((nxt + 1) mod length es + j) mod length es = (nxt + S j) mod length es)%nat).
  { intros j. rewrite Nat.Div0.add_mod_idemp_l. f_equal. lia. }
  destruct (IH _ Hlt') as [(k & e' & Hk & He' & Hh' & Hno & E) | [Hno E]].
  - left. exists (S k), e'. rewrite Em in He'. split; [lia|]. split; [done|]. split; [done|]. split.
    + intros [|j] Hj; [by rewrite Nat.add_0_r, Nat.mod_small | rewrite <- Em; apply Hno; lia].
    + rewrite E. f_equal. rewrite <- Nat.add_assoc, Em. f_equal. lia.
  - right. split.
    + intros [|j] Hj; [by rewrite Nat.add_0_r, Nat.mod_small | rewrite <- Em; apply Hno; lia].
    + rewrite E, Em. done.
Qed.

(** [n] picks in a row. *)
Fixpoint rr_picks (n : nat) (p : RoundRobinPicker) : list (pick_error + Endpoint) :=
  match n with O => [] | S n' => let '(r, p') := RR_Pick false p in r :: rr_picks n' p' end.

(** How far ahead position [j] is. *)
Definition distance (len j nxt : nat) : nat := ((j + len - nxt) mod len)%nat.

Lemma distance_0 len j nxt : (j < len)%nat -> (nxt < len)%nat -> ((nxt + distance len j nxt) mod len = j)%nat.
Proof.
  intros Hj Hn. unfold distance. rewrite Nat.Div0.add_mod_idemp_r.
  replace (nxt + (j + len - nxt))%nat with (j + 1 * len)%nat by lia.
  rewrite Nat.Div0.mod_add. by apply Nat.mod_small.
Qed.

Lemma distance_step len j nxt k :
  (j < len)%nat -> (nxt < len)%nat -> (k < distance len j nxt)%nat ->
  distance len j ((nxt + k + 1) mod len) = (distance len j nxt - (k + 1))%nat.
Proof.
  intros Hj Hn Hk. unfold distance in *.
  assert (Hd : ((j + len - nxt) mod len = if decide (nxt <= j)%nat then (j - nxt)%nat else (j + len - nxt)%nat)%nat).
  { destruct (decide (nxt <= j)%nat).
    - replace (j + len - nxt)%nat with (j - nxt + 1 * len)%nat by lia. rewrite Nat.Div0.mod_add. apply Nat.mod_small. lia.
    - apply Nat.mod_small. lia. }
  rewrite Hd in Hk. rewrite Hd. destruct (decide (nxt <= j)%nat).
  - rewrite (Nat.mod_small (nxt + k + 1)) by lia.
    replace (j + len - (nxt + k + 1))%nat with (j - nxt - (k + 1) + 1 * len)%nat by lia.
    rewrite Nat.Div0.mod_add. apply Nat.mod_small. lia.
  - destruct (Nat.lt_ge_cases (nxt + k + 1) len).
    + rewrite (Nat.mod_small (nxt + k + 1)) by lia. rewrite Nat.mod_small by lia. lia.
    + replace (nxt + k + 1)%nat with (nxt + k + 1 - len + 1 * len)%nat by lia. rewrite Nat.Div0.mod_add.
      rewrite (Nat.mod_small (nxt + k + 1 - len)) by lia.
      replace (j + len - (nxt + k + 1 - len))%nat with (j + len - nxt - (k + 1) + 1 * len)%nat by lia.
      rewrite Nat.Div0.mod_add. apply Nat.mod_small. lia.
Qed.

Lemma RR_Pick_spec p j e :
  rr_ok p -> endpoints p !! j = Some e -> healthy e = true ->
  exists k e', (k <= distance (length (endpoints p)) j (next p))%nat /\
    endpoints p !! ((next p + k) mod length (endpoints p))%nat = Some e' /\ healthy e' = true /\
    RR_Pick false p =
      (inr e', {| endpoints := endpoints p; next := ((next p + k + 1) mod length (endpoints p))%nat |}).
Proof.
  intros Hok He Hh. assert (Hj : (j < length (endpoints p))%nat) by (by eapply lookup_lt_Some).
  assert (Hn : (next p < length (endpoints p))%nat) by (destruct Hok as [E | ?]; [by rewrite E in Hj; simpl in Hj; lia | done]).
  pose proof (distance_0 _ _ _ Hj Hn) as Hd.
  assert (Hdl : (distance (length (endpoints p)) j (next p) < length (endpoints p))%nat) by (apply Nat.mod_upper_bound; lia).
  unfold RR_Pick. rewrite (proj2 (Nat.eqb_neq _ _)) by lia.
  destruct (rr_loop_spec (endpoints p) (length (endpoints p)) (next p) Hn) as [(k & e' & Hk & He' & Hh' & Hno & E) | [Hno _]].
  - exists k, e'. rewrite E. split; [|done]. destruct (Nat.le_gt_cases k (distance (length (endpoints p)) j (next p))) as [|Hgt]; [done|].
    exfalso. apply (Hno _ Hgt). rewrite Hd. by exists e.
  - exfalso. apply (Hno _ Hdl). rewrite Hd. by exists e.
Qed.

Lemma rr_picks_reach m p j e :
  rr_ok p -> endpoints p !! j = Some e -> healthy e = true ->
  (distance (length (endpoints p)) j (next p) < m)%nat -> inr e ∈ rr_picks m p.
Proof.
  revert p. induction m as [|m IH]; intros p Hok He Hh Hd; [lia|].
  assert (Hj : (j < length (endpoints p))%nat) by (by eapply lookup_lt_Some).
  assert (Hn : (next p < length (endpoints p))%nat) by (destruct Hok as [E | ?]; [by rewrite E in Hj; simpl in Hj; lia | done]).
  destruct (RR_Pick_spec p j e Hok He Hh) as (k & e' & Hk & He' & _ & E). cbn [rr_picks]. rewrite E.
  destruct (decide (k = distance (length (endpoints p)) j (next p))) as [-> | Hne].
  - rewrite distance_0 in He' by done. replace e' with e by congruence. left.
  - right. assert (Hz : length (endpoints p) <> 0%nat) by lia.
    apply IH; [right; by apply Nat.mod_upper_bound | done | done|]. cbn [endpoints next]. rewrite distance_step by lia. lia.
Qed.

Lemma rr_picks_healthy m p j e :
  rr_ok p -> endpoints p !! j = Some e -> healthy e = true ->
  Forall (fun r => exists e', r = inr e' /\ e' ∈ endpoints p /\ healthy e' = true) (rr_picks m p).
Proof.
  intros Hok He Hh. revert p Hok He. induction m as [|m IH]; intros p Hok He; [constructor|].
  destruct (RR_Pick_spec p j e Hok He Hh) as (k & e' & _ & He' & Hh' & E). cbn [rr_picks]. rewrite E. constructor.
  - exists e'. split; [done|]. split; [by eapply list_elem_of_lookup_2 | done].
  - assert (Hj : (j < length (endpoints p))%nat) by (by eapply lookup_lt_Some).
    assert (Hz : length (endpoints p) <> 0%nat) by lia.
    set (p' := {| endpoints := endpoints p; next := _ |}). apply (IH p'); [right; by apply Nat.mod_upper_bound | done].
Qed.

(** C37. Round robin serves only healthy endpoints and starves none: among any
    [n] consecutive picks over [n] endpoints, every pick is a healthy endpoint and
    each healthy endpoint is picked. *)
Theorem round_robin_fair p j e :
  rr_ok p -> endpoints p !! j = Some e -> healthy e = true ->
  let picks := rr_picks (length (endpoints p)) p in
  inr e ∈ picks /\
  Forall (fun r => exists e', r = inr e' /\ e' ∈ endpoints p /\ healthy e' = true) picks.
Proof.
  intros Hok He Hh picks. split; [|by eapply rr_picks_healthy]. eapply rr_picks_reach; [done | done | done|].
  apply Nat.mod_upper_bound. apply lookup_lt_Some in He. lia.
Qed.

(** ** Power of two choices *)

(** The random source is represented by its results.  No code reads
    [LeastBadFallback]. *)
Record AdaptiveP2CConfig := {
  LatencyPenalty : float64;
  SlowPenalty : float64;
  ProbeRatio : float64;
  LeastBadFallback : bool
}.

Definition p2c_config (c : AdaptiveP2CConfig) : AdaptiveP2CConfig := {|
  LatencyPenalty := if fle (LatencyPenalty c) fzero then of_int 1 else LatencyPenalty c;
  SlowPenalty := if fle (SlowPenalty c) fzero then of_int 1 else SlowPenalty c;
  ProbeRatio :=
    let r := if fle (ProbeRatio c) fzero then flit 2 100 else ProbeRatio c in
    if flt (of_int 1) r then of_int 1 else r;
  LeastBadFallback := LeastBadFallback c
|}.

Record AdaptiveP2CPicker := { p2c_endpoints : list Endpoint; p2c_cfg : AdaptiveP2CConfig }.

Definition NewAdaptiveP2CPicker (es : list Endpoint) (c : AdaptiveP2CConfig) : AdaptiveP2CPicker :=
  {| p2c_endpoints := es; p2c_cfg := p2c_config c |}.

Definition P2C_Update (p : AdaptiveP2CPicker) (es : list Endpoint) : AdaptiveP2CPicker :=
  {| p2c_endpoints := es; p2c_cfg := p2c_cfg p |}.

Definition endpointCost (e : Endpoint) (c : AdaptiveP2CConfig) : float64 :=
  let weight := if fle (Weight e) fzero || GoFloat.IsNaN (Weight e) then of_int 1 else Weight e in
  let slowScore := fmax fzero (SlowScore e) in
  let effectiveWeight := fdiv weight (fadd (of_int 1) slowScore) in
  let effectiveWeight := if fle effectiveWeight fzero then of_int 1 else effectiveWeight in
  let inflightCost := fdiv (of_int (Z.max (Inflight e) 0)) effectiveWeight in
  let latencyCost := fmul (Seconds (LatencyEWMA e)) (LatencyPenalty c) in
  let slowCost := fmul slowScore (SlowPenalty c) in
  let slowCost := if bool_decide (Status_ e = Degraded) then fadd slowCost (of_int 1) else slowCost in
  fadd (fadd inflightCost latencyCost) slowCost.

Definition normal_endpoints (es : list Endpoint) : list Endpoint := filter (fun e => NormalTraffic (Status_ e) = true) es.
Definition probing_endpoints (es : list Endpoint) : list Endpoint :=
  filter (fun e => NormalTraffic (Status_ e) = false /\ IsProbing (Status_ e) = true) es.

(** [draw] is the result of [Intn(100)]. *)
Definition pickCandidates (c : AdaptiveP2CConfig) (es : list Endpoint) (draw : Z) : list Endpoint :=
  let normal := normal_endpoints es in
  let probing := probing_endpoints es in
  if (length probing =? 0)%nat || (length normal =? 0)%nat then normal ++ probing else
  let threshold := to_int64 (fmul (ProbeRatio c) (of_int 100)) in
  if (0 <? threshold) && (draw <? threshold) then probing else normal.

(** [draw], [a] and [b] are the results of [Intn(100)], [Intn(n)], [Intn(n-1)]. *)
Definition P2C_Pick (ctxErr : bool) (draw : Z) (a b : nat) (p : AdaptiveP2CPicker) : pick_error + Endpoint :=
  if ctxErr then inl ErrContext else
  let candidates := pickCandidates (p2c_cfg p) (p2c_endpoints p) draw in
  match candidates with
  | [] => inl ErrNoEndpoint
  | [e] => inr e
  | _ =>
      let b := if (a <=? b)%nat then (b + 1)%nat else b in
      match candidates !! a, candidates !! b with
      | Some ea, Some eb => if fle (endpointCost ea (p2c_cfg p)) (endpointCost eb (p2c_cfg p)) then inr ea else inr eb
      | _, _ => inl ErrNoEndpoint
      end
  end.

(** The draws the random source can give for [n] candidates. *)
Definition draws_ok (draw : Z) (a b n : nat) : Prop :=
  0 <= draw < 100 /\ ((n <= 1)%nat \/ (a < n)%nat /\ (b < n - 1)%nat).

Lemma candidates_routable c es draw e :
  e ∈ pickCandidates c es draw -> e ∈ es /\ Routable (Status_ e) = true.
Proof.
  assert (Hn : e ∈ normal_endpoints es -> e ∈ es /\ Routable (Status_ e) = true).
  { unfold normal_endpoints. rewrite list_elem_of_filter. intros [H ?]. split; [done|]. by rewrite Routable_split, H. }
  assert (Hp : e ∈ probing_endpoints es -> e ∈ es /\ Routable (Status_ e) = true).
  { unfold probing_endpoints. rewrite list_elem_of_filter. intros [[_ H] ?]. split; [done|]. by rewrite Routable_split, H, orb_true_r. }
  unfold pickCandidates. cbv zeta. destruct (_ || _); [rewrite elem_of_app; tauto|]. by destruct (_ && _).
Qed.

Lemma candidates_nonempty c es draw e :
  e ∈ es -> Routable (Status_ e) = true -> pickCandidates c es draw <> [].
Proof.
  intros He Hr. rewrite Routable_split in Hr.
  assert (Hin : e ∈ normal_endpoints es ++ probing_endpoints es).
  { rewrite elem_of_app. unfold normal_endpoints, probing_endpoints. rewrite !list_elem_of_filter.
    destruct (NormalTraffic (Status_ e)); [by left|]. by right. }
  unfold pickCandidates. cbv zeta. destruct (Nat.eqb_spec (length (probing_endpoints es)) 0) as [|Hp]; cbn [orb].
  { intros E. rewrite E in Hin. set_solver. }
  destruct (Nat.eqb_spec (length (normal_endpoints es)) 0) as [|Hn].
  { intros E. rewrite E in Hin. set_solver. }
  destruct (_ && _); intros E; [by rewrite E in Hp | by rewrite E in Hn].
Qed.

(** The adaptive picker routes only where it may, to the cheaper of two: it
    fails exactly when no endpoint is routable; otherwise it returns an endpoint of
    its list that is routable, and one that is merely on probation only when there
    is no other traffic to serve it or the draw falls under the probe ratio; with
    several candidates it compares two different ones, and the one it leaves is not
    strictly cheaper. *)
Theorem p2c_picks_cheaper_routable p draw a b :
  let cs := pickCandidates (p2c_cfg p) (p2c_endpoints p) draw in
  draws_ok draw a b (length cs) ->
  match P2C_Pick false draw a b p with
  | inl err => err = ErrNoEndpoint /\ Forall (fun e => Routable (Status_ e) = false) (p2c_endpoints p)
  | inr e =>
      e ∈ p2c_endpoints p /\ Routable (Status_ e) = true /\
      (NormalTraffic (Status_ e) = false -> normal_endpoints (p2c_endpoints p) = [] \/
         draw < to_int64 (fmul (ProbeRatio (p2c_cfg p)) (of_int 100))) /\
      ((2 <= length cs)%nat -> exists i j other, i <> j /\ cs !! i = Some e /\ cs !! j = Some other /\
         flt (endpointCost other (p2c_cfg p)) (endpointCost e (p2c_cfg p)) = false)
  end.
Proof.
  intros cs [Hd Hab]. 
  assert (Hprobe : forall e, e ∈ cs -> e ∈ p2c_endpoints p /\ Routable (Status_ e) = true /\
    (NormalTraffic (Status_ e) = false -> normal_endpoints (p2c_endpoints p) = [] \/
         draw < to_int64 (fmul (ProbeRatio (p2c_cfg p)) (of_int 100)))).
  { intros e He. destruct (candidates_routable _ _ _ _ He) as [? ?]. split; [done|]. split; [done|]. intros Hn.
    unfold cs, pickCandidates in He. cbv zeta in He.
    destruct (normal_endpoints (p2c_endpoints p)) as [|x l] eqn:En; [by left|]. right. rewrite orb_false_r in He.
    assert (Hnot : e ∉ normal_endpoints (p2c_endpoints p)) by (unfold normal_endpoints; rewrite list_elem_of_filter; intros [? _]; congruence).
    rewrite En in Hnot. destruct (Nat.eqb_spec (length (probing_endpoints (p2c_endpoints p))) 0) as [E0|]; cbn [orb] in He.
    - apply length_zero_iff_nil in E0. rewrite E0, app_nil_r in He. done.
    - destruct (_ && _) eqn:Ht; [|done]. apply andb_true_iff in Ht as [_ Ht]. by apply Z.ltb_lt in Ht. }
  unfold P2C_Pick. fold cs. destruct cs as [|e1 [|e2 l]] eqn:Ecs.
  - split; [done|]. apply Forall_forall. intros e He. destruct (Routable (Status_ e)) eqn:Hr; [|done].
    exfalso. by apply (candidates_nonempty (p2c_cfg p) _ draw e He Hr).
  - destruct (Hprobe e1) as (? & ? & ?); [left|]. repeat (split; [done|]). simpl. lia.
  - destruct Hab as [Hab | [Ha Hb]]; [simpl in Hab; lia|]. set (cs' := e1 :: e2 :: l) in *.
    set (b' := if (a <=? b)%nat then (b + 1)%nat else b).
    assert (Hb' : (b' < length cs')%nat /\ a <> b').
    { unfold b'. destruct (Nat.leb_spec a b); lia. }
    destruct Hb' as [Hb' Hne].
    destruct (lookup_lt_is_Some_2 cs' a Ha) as [ea Ea]. destruct (lookup_lt_is_Some_2 cs' b' Hb') as [eb Eb].
    rewrite Ea, Eb. destruct (fle (endpointCost ea (p2c_cfg p)) (endpointCost eb (p2c_cfg p))) eqn:Ef.
    + destruct (Hprobe ea) as (? & ? & ?); [by eapply list_elem_of_lookup_2|]. repeat (split; [done|]). intros _.
      exists a, b', eb. repeat (split; [done|]). destruct (flt _ _) eqn:Ef'; [|done].
      apply flt_fle_false in Ef'. congruence.
    + destruct (Hprobe eb) as (? & ? & ?); [by eapply list_elem_of_lookup_2|]. repeat (split; [done|]). intros _.
      exists b', a, ea. split; [done|]. repeat (split; [done|]). destruct (flt _ _) eqn:Ef'; [|done].
      apply flt_fle in Ef'. congruence.
Qed.

(** ** Concrete picks *)

Definition demo_endpoint (id : string) (st : Code) (inflight : Z) : Endpoint := {|
  ID := id; Address := id; Status_ := st; Inflight := inflight; LatencyEWMA := 5000000; Weight := fzero; SlowScore := fzero |}.

Definition demo_picker : RoundRobinPicker :=
  NewRoundRobinPicker [demo_endpoint "a" Healthy 0; demo_endpoint "b" Ejected 0; demo_endpoint "c" Unspecified 0].

Lemma round_robin_fair_witness :
  rr_picks 3 demo_picker = [inr (demo_endpoint "a" Healthy 0); inr (demo_endpoint "c" Unspecified 0);
                            inr (demo_endpoint "a" Healthy 0)] /\
  inr (demo_endpoint "c" Unspecified 0) ∈ rr_picks 3 demo_picker.
Proof.
  split; [vm_compute; reflexivity|].
  apply (round_robin_fair demo_picker 2 (demo_endpoint "c" Unspecified 0)).
  - right. cbn. lia.
  - reflexivity.
  - reflexivity.
Defined.

Definition demo_p2c : AdaptiveP2CPicker := NewAdaptiveP2CPicker
  [demo_endpoint "a" Healthy 9; demo_endpoint "b" Probing 0; demo_endpoint "c" Healthy 1]
  {| LatencyPenalty := fzero; SlowPenalty := fzero; ProbeRatio := fzero; LeastBadFallback := false |}.

(** With the default ratio of 0.02, draws 0 and 1 go to the probed endpoint. *)
Example demo_p2c_probe :
  P2C_Pick false 1 0 0 demo_p2c = inr (demo_endpoint "b" Probing 0) /\
  P2C_Pick false 2 0 0 demo_p2c = inr (demo_endpoint "c" Healthy 1).
Proof. vm_compute. done. Qed.

Lemma p2c_picks_cheaper_routable_witness :
  exists e, P2C_Pick false 2 0 0 demo_p2c = inr e /\ Routable (Status_ e) = true /\
    exists i j other, i <> j /\ pickCandidates (p2c_cfg demo_p2c) (p2c_endpoints demo_p2c) 2 !! i = Some e /\
      pickCandidates (p2c_cfg demo_p2c) (p2c_endpoints demo_p2c) 2 !! j = Some other /\
      flt (endpointCost other (p2c_cfg demo_p2c)) (endpointCost e (p2c_cfg demo_p2c)) = false.
Proof.
  pose proof (p2c_picks_cheaper_routable demo_p2c 2 0 0) as H.
  specialize (H ltac:(split; [lia | right; vm_compute; lia])).
  destruct (P2C_Pick false 2 0 0 demo_p2c) as [err|e] eqn:E; [vm_compute in E; discriminate|].
  destruct H as (_ & Hr & _ & Hc). exists e. split; [reflexivity|]. split; [exact Hr|]. apply Hc. vm_compute. lia.
Defined.
