(* ===== verification/Histogram.v ===== *)
(** * Latency histograms ([pkg/telemetry/latency_histogram.go], the buckets of [recorder.go])

    Latencies are counted in 128 buckets whose upper bounds grow by about one
    seventh; a quantile is the upper bound of the bucket its rank falls in.  The
    recorder spreads the counts over eight shards. *)
From Stdlib Require Import SpecFloat.
From stdpp Require Import sorting.
From S2P Require Import Prelude GoFloat.

Definition latencyHistogramBuckets : nat := 128.
Definition maxLatencyBucketNanos : Z := 3600 * 1000000000.

(** ** Buckets *)

Definition next_bound (bound : Z) : Z :=
  let next := wrapu 64 (bound + wrapu 64 (bound + 6) / 7) in
  if (next <=? bound) || (maxLatencyBucketNanos <=? next) then maxLatencyBucketNanos else next.

(** The bounds assigned by [n] iterations of the loop. *)
Fixpoint bounds_loop (n : nat) (bound : Z) : list Z :=
  match n with O => [] | S n' => bound :: bounds_loop n' (next_bound bound) end.

Definition buildLatencyBucketUpperBounds : list Z :=
  0 :: bounds_loop (latencyHistogramBuckets - 2) 1000 ++ [maxLatencyBucketNanos].

Definition latencyBucketUpperBounds : list Z := buildLatencyBucketUpperBounds.

(** An element of the array; the indices used are below 128. *)
Definition bound_at (i : nat) : Z := default 0 (latencyBucketUpperBounds !! i).

(** The halving loop; [fuel] bounds its iterations. *)
Fixpoint search (fuel : nat) (nanos : Z) (lo hi : nat) : nat :=
  match fuel with
  | O => lo
  | S fuel' =>
      if (lo <? hi)%nat then
        let mid := (lo + (hi - lo) / 2)%nat in
        if nanos <=? bound_at mid then search fuel' nanos lo mid else search fuel' nanos (mid + 1) hi
      else lo
  end.

Definition latencyBucketIndex (nanos : Z) : nat :=
  search latencyHistogramBuckets nanos 0 (latencyHistogramBuckets - 1).

(** ** One histogram *)

Record latencyHistogram := { count : Z; buckets : list Z }.

Definition empty_histogram : latencyHistogram := {| count := 0; buckets := replicate latencyHistogramBuckets 0 |}.

Definition clamp (sample : Z) : Z := if sample <? 0 then 0 else sample.

(** [buckets[idx]++] *)
Definition bump (idx : nat) (bs : list Z) : list Z := alter (fun c => wrapu 64 (c + 1)) idx bs.

Definition Hist_Record (h : latencyHistogram) (sample : Z) : latencyHistogram :=
  {| count := wrapu 64 (count h + 1); buckets := bump (latencyBucketIndex (clamp sample)) (buckets h) |}.

(** The number of samples at or below the quantile [q] of [total]. *)
Definition target_of (q : float64) (total : Z) : Z :=
  let target := to_uint64 (fadd (fmul q (of_int total)) (flit 999999999 1000000000)) in
  if target =? 0 then 1 else target.

Definition clamp_quantile (q : float64) : float64 :=
  let q := if fle q fzero then fzero else q in
  if flt (of_int 1) q then of_int 1 else q.

(** The loop over the buckets, with the bounds alongside. *)
Fixpoint scan (seen target : Z) (bs bounds : list Z) : Z :=
  match bs, bounds with
  | c :: bs', b :: bounds' =>
      let seen := wrapu 64 (seen + c) in
      if target <=? seen then b else scan seen target bs' bounds'
  | _, _ => default 0 (last latencyBucketUpperBounds)
  end.

Definition Hist_Quantile (h : latencyHistogram) (q : float64) : Z :=
  if count h =? 0 then 0 else scan 0 (target_of (clamp_quantile q) (count h)) (buckets h) latencyBucketUpperBounds.

Definition Hist_Reset (h : latencyHistogram) : latencyHistogram :=
  {| count := 0; buckets := (fun _ => 0) <$> buckets h |}.

(** ** Shards *)

Definition latencyHistShardCount : nat := 8.

Abbreviation latencyHistShard := latencyHistogram.
Abbreviation shardedLatencyHistogram := (list latencyHistShard).

Definition empty_shards : shardedLatencyHistogram := replicate latencyHistShardCount empty_histogram.

(** The shared sequence number after the call, and the shard. *)
Definition latencyHistShardIndex (seq : Z) : Z * nat :=
  let seq := wrapu 32 (seq + 1) in (seq, Z.to_nat (Z.land seq (Z.of_nat latencyHistShardCount - 1))).

Definition Sharded_Record (seq : Z) (h : shardedLatencyHistogram) (sample : Z) : Z * shardedLatencyHistogram :=
  let idx := latencyBucketIndex (clamp sample) in
  let '(seq, k) := latencyHistShardIndex seq in
  (seq, alter (fun shard => {| count := wrapu 64 (count shard + 1); buckets := bump idx (buckets shard) |}) k h).

(** [total] and [merged] after the shards. *)
Definition merge_shard (acc : latencyHistogram) (shard : latencyHistShard) : latencyHistogram :=
  {| count := wrapu 64 (count acc + count shard);
     buckets := zip_with (fun m c => wrapu 64 (m + c)) (buckets acc) (buckets shard) |}.

Definition merge_shards (h : shardedLatencyHistogram) : latencyHistogram := foldl merge_shard empty_histogram h.

Definition Sharded_Quantile (h : shardedLatencyHistogram) (q : float64) : Z :=
  let q := clamp_quantile q in
  let merged := merge_shards h in
  if count merged =? 0 then 0 else scan 0 (target_of q (count merged)) (buckets merged) latencyBucketUpperBounds.

Definition Sharded_Reset (h : shardedLatencyHistogram) : shardedLatencyHistogram := Hist_Reset <$> h.

(** ** The bounds *)

Lemma bounds_length : length latencyBucketUpperBounds = 128%nat.
Proof. vm_compute. reflexivity. Qed.

Lemma bounds_step i : (i < 127)%nat -> bound_at i < bound_at (S i).
Proof.
  assert (H : forallb (fun i => bound_at i <? bound_at (S i)) (seq 0 127) = true) by (vm_compute; reflexivity).
  intros Hi. rewrite forallb_forall in H. apply Z.ltb_lt, H, in_seq. lia.
Qed.

Lemma bounds_mono i j : (i < j < 128)%nat -> bound_at i < bound_at j.
Proof.
  intros [Hij Hj]. induction Hij as [|j Hij IH].
  - apply bounds_step. lia.
  - etrans; [apply IH; lia | apply bounds_step; lia].
Qed.

(** The least bucket whose bound is not below the sample, or the last. *)
Definition is_bucket (nanos : Z) (i : nat) : Prop :=
  (i < 128)%nat /\ (forall j, (j < i)%nat -> bound_at j < nanos) /\ (nanos <= bound_at i \/ i = 127%nat).

Lemma is_bucket_unique nanos i j : is_bucket nanos i -> is_bucket nanos j -> i = j.
Proof.
  intros (Hi & Hbi & Hi') (Hj & Hbj & Hj'). destruct (Nat.lt_trichotomy i j) as [H | [H | H]]; [|done|].
  - specialize (Hbj i H). lia.
  - specialize (Hbi j H). lia.
Qed.

(** The search by linear scan. *)
Definition linear_bucket (nanos : Z) : nat :=
  match list_find (fun b => nanos <= b) latencyBucketUpperBounds with Some (i, _) => i | None => 127 end.

Lemma linear_bucket_spec nanos : is_bucket nanos (linear_bucket nanos).
Proof.
  unfold linear_bucket, is_bucket, bound_at. destruct (list_find _ _) as [[i b]|] eqn:E.
  - apply list_find_Some in E as (Hi & Hb & Hlt). pose proof (lookup_lt_Some _ _ _ Hi) as Hl. rewrite bounds_length in Hl.
    split; [done|]. split; [|left; by rewrite Hi]. intros j Hj.
    destruct (lookup_lt_is_Some_2 latencyBucketUpperBounds j) as [c Hc]; [rewrite bounds_length; lia|].
    specialize (Hlt j c Hc Hj). rewrite Hc. simpl. lia.
  - apply list_find_None in E. split; [lia|]. split; [|by right]. intros j Hj.
    destruct (lookup_lt_is_Some_2 latencyBucketUpperBounds j) as [c Hc]; [rewrite bounds_length; lia|].
    eapply Forall_lookup_1 in E; [|exact Hc]. rewrite Hc. simpl. lia.
Qed.

Lemma search_spec fuel nanos lo hi :
  (lo <= hi < 128)%nat -> (hi - lo < 2 ^ fuel)%nat ->
  (forall j, (j < lo)%nat -> bound_at j < nanos) -> nanos <= bound_at hi \/ hi = 127%nat ->
  is_bucket nanos (search fuel nanos lo hi).
Proof.
  revert lo hi. induction fuel as [|fuel IH]; intros lo hi Hr Hf Hlo Hhi; cbn [search].
  { assert (lo = hi) as -> by (cbn in Hf; lia). split; [lia | done]. }
  destruct (Nat.ltb_spec lo hi) as [Hlt | Hge].
  2:{ assert (lo = hi) as -> by lia. split; [lia | done]. }
  set (mid := (lo + (hi - lo) / 2)%nat).
  pose proof (Nat.div_mod_eq (hi - lo) 2) as Hd. pose proof (Nat.mod_upper_bound (hi - lo) 2 ltac:(lia)).
  rewrite Nat.pow_succ_r' in Hf. destruct (Z.leb_spec nanos (bound_at mid)) as [Hm | Hm].
  - apply IH; [lia | lia | done | by left].
  - apply IH; [lia | lia | | done]. intros j Hj.
    destruct (decide (j = mid)) as [-> | Hne]; [done|].
    pose proof (bounds_mono j mid). lia.
Qed.

Lemma search_bucket fuel nanos : (7 <= fuel)%nat -> is_bucket nanos (search fuel nanos 0 127).
Proof.
  intros Hf. apply search_spec; [lia | | lia | by right].
  pose proof (Nat.pow_le_mono_r 2 7 fuel ltac:(lia) Hf). change (2 ^ 7)%nat with 128%nat in *. lia.
Qed.

Lemma latencyBucketIndex_spec nanos : is_bucket nanos (latencyBucketIndex nanos).
Proof. apply search_bucket. unfold latencyHistogramBuckets. lia. Qed.

(** The binary search of a latency's bucket terminates within seven
    iterations and finds what a linear scan of the bounds finds. *)
Theorem bucket_search_terminates fuel nanos :
  (7 <= fuel)%nat -> search fuel nanos 0 (latencyHistogramBuckets - 1) = linear_bucket nanos.
Proof. intros Hf. eapply is_bucket_unique; [by apply search_bucket | apply linear_bucket_spec]. Qed.

Lemma bucket_search_terminates_witness : search 7 123456789 0 (latencyHistogramBuckets - 1) = linear_bucket 123456789.
Proof. apply (bucket_search_terminates 7 123456789). lia. Defined.

#[global] Opaque latencyBucketIndex latencyBucketUpperBounds.

Lemma latencyBucketIndex_mono x y : x <= y -> (latencyBucketIndex x <= latencyBucketIndex y)%nat.
Proof.
  intros Hxy. destruct (latencyBucketIndex_spec x) as (Hx & Hbx & _), (latencyBucketIndex_spec y) as (Hy & _ & Hby).
  destruct (Nat.le_gt_cases (latencyBucketIndex x) (latencyBucketIndex y)) as [|Hlt]; [done|].
  specialize (Hbx _ Hlt). lia.
Qed.

(** ** Shards do not matter *)

Lemma zip_with_alter_l {A B C} (f : A -> B -> C) g h i (l : list A) (k : list B) :
  (forall x y, f (g x) y = h (f x y)) -> zip_with f (alter g i l) k = alter h i (zip_with f l k).
Proof.
  intros E. revert i k. induction l as [|x l IH]; intros i k; [done|].
  destruct i as [|i], k as [|y k]; cbn; [done | by rewrite E | done | by f_equal].
Qed.

Lemma zip_with_alter_r {A B C} (f : A -> B -> C) g h i (l : list A) (k : list B) :
  (forall x y, f x (g y) = h (f x y)) -> zip_with f l (alter g i k) = alter h i (zip_with f l k).
Proof.
  intros E. revert i k. induction l as [|x l IH]; intros i k; [done|].
  destruct i as [|i], k as [|y k]; cbn; [done | by rewrite E | done | by f_equal].
Qed.

Lemma wrapu_bump_l a b : wrapu 64 (wrapu 64 (a + 1) + b) = wrapu 64 (wrapu 64 (a + b) + 1).
Proof. unfold wrapu. rewrite !Z.add_mod_idemp_l by lia. f_equal. lia. Qed.

Lemma wrapu_bump_r a b : wrapu 64 (a + wrapu 64 (b + 1)) = wrapu 64 (wrapu 64 (a + b) + 1).
Proof. unfold wrapu. rewrite Z.add_mod_idemp_l, Z.add_mod_idemp_r by lia. f_equal. lia. Qed.

Lemma merge_record_acc acc x s : merge_shard (Hist_Record acc s) x = Hist_Record (merge_shard acc x) s.
Proof.
  unfold merge_shard, Hist_Record, bump. cbn. rewrite wrapu_bump_l. f_equal.
  apply zip_with_alter_l. intros. apply wrapu_bump_l.
Qed.

Lemma merge_record_shard acc x s : merge_shard acc (Hist_Record x s) = Hist_Record (merge_shard acc x) s.
Proof.
  unfold merge_shard, Hist_Record, bump. cbn. rewrite wrapu_bump_r. f_equal.
  apply zip_with_alter_r. intros. apply wrapu_bump_r.
Qed.

Lemma merge_fold_record acc h s : foldl merge_shard (Hist_Record acc s) h = Hist_Record (foldl merge_shard acc h) s.
Proof. revert acc. induction h as [|x h IH]; intros acc; cbn; [done|]. by rewrite merge_record_acc, IH. Qed.

Lemma merge_fold_alter acc h k s :
  (k < length h)%nat ->
  foldl merge_shard acc (alter (fun x => Hist_Record x s) k h) = Hist_Record (foldl merge_shard acc h) s.
Proof.
  revert acc k. induction h as [|x h IH]; intros acc k Hk; cbn in Hk; [lia|]. destruct k as [|k]; cbn.
  - by rewrite merge_record_shard, merge_fold_record.
  - apply IH. lia.
Qed.

Lemma shard_index_bound seq : ((latencyHistShardIndex seq).2 < 8)%nat.
Proof.
  unfold latencyHistShardIndex. cbn [snd]. change (Z.of_nat latencyHistShardCount - 1) with (Z.ones 3).
  rewrite Z.land_ones by lia. pose proof (Z.mod_pos_bound (wrapu 32 (seq + 1)) (2 ^ 3) ltac:(lia)). lia.
Qed.

Lemma merge_sharded_record seq h s :
  length h = latencyHistShardCount -> merge_shards (Sharded_Record seq h s).2 = Hist_Record (merge_shards h) s.
Proof.
  intros Hl. unfold Sharded_Record. pose proof (shard_index_bound seq) as Hk.
  destruct (latencyHistShardIndex seq) as [seq' k]. cbn [snd] in *. apply merge_fold_alter. by rewrite Hl.
Qed.

(** Recording a sequence of samples. *)
Definition record_all (samples : list Z) : latencyHistogram := foldl Hist_Record empty_histogram samples.

Definition sharded_record_all (seq : Z) (samples : list Z) : Z * shardedLatencyHistogram :=
  foldl (fun '(seq, h) s => Sharded_Record seq h s) (seq, empty_shards) samples.

Lemma length_sharded_record seq h s : length (Sharded_Record seq h s).2 = length h.
Proof. unfold Sharded_Record. destruct (latencyHistShardIndex seq). apply length_alter. Qed.

Lemma merge_sharded_record_all seq samples :
  length (sharded_record_all seq samples).2 = latencyHistShardCount /\
  merge_shards (sharded_record_all seq samples).2 = record_all samples.
Proof.
  induction samples as [|s samples [IH1 IH2]] using rev_ind.
  { split; vm_compute; reflexivity. }
  unfold sharded_record_all, record_all. rewrite !foldl_snoc.
  fold (sharded_record_all seq samples) (record_all samples).
  destruct (sharded_record_all seq samples) as [seq' h]. cbn [snd] in *.
  rewrite length_sharded_record, merge_sharded_record, IH2 by done. done.
Qed.

Lemma sharded_quantile_merged h q : Sharded_Quantile h q = Hist_Quantile (merge_shards h) q.
Proof. done. Qed.

(** ** What a quantile is *)

Definition countZ {A} (P : A -> Prop) `{forall x, Decision (P x)} (l : list A) : Z := Z.of_nat (length (filter P l)).

Lemma countZ_cons {A} (P : A -> Prop) `{forall x, Decision (P x)} x l :
  countZ P (x :: l) = (if decide (P x) then 1 else 0) + countZ P l.
Proof. unfold countZ. rewrite filter_cons. destruct (decide (P x)); cbn; lia. Qed.

Lemma countZ_snoc {A} (P : A -> Prop) `{forall x, Decision (P x)} x l :
  countZ P (l ++ [x]) = countZ P l + (if decide (P x) then 1 else 0).
Proof. unfold countZ. rewrite filter_app, length_app, filter_cons. destruct (decide (P x)); cbn; lia. Qed.

Lemma countZ_nonneg {A} (P : A -> Prop) `{forall x, Decision (P x)} l : 0 <= countZ P l.
Proof. unfold countZ. lia. Qed.

Lemma countZ_le {A} (P Q : A -> Prop) `{forall x, Decision (P x), forall x, Decision (Q x)} l :
  (forall x, P x -> Q x) -> countZ P l <= countZ Q l.
Proof.
  intros HPQ. induction l as [|x l IH]; [done|]. rewrite !countZ_cons.
  destruct (decide (P x)), (decide (Q x)); [lia | naive_solver | lia | lia].
Qed.

Lemma countZ_none {A} (P : A -> Prop) `{forall x, Decision (P x)} l : (forall x, x ∈ l -> ~ P x) -> countZ P l = 0.
Proof.
  induction l as [|x l IH]; intros Hn; [done|]. rewrite countZ_cons, decide_False, IH by set_solver. done.
Qed.

Lemma countZ_all {A} (P : A -> Prop) `{forall x, Decision (P x)} l :
  (forall x, x ∈ l -> P x) -> countZ P l = Z.of_nat (length l).
Proof.
  induction l as [|x l IH]; intros Ha; [done|]. rewrite countZ_cons, decide_True, IH by set_solver. cbn. lia.
Qed.

Lemma countZ_total {A} (P : A -> Prop) `{forall x, Decision (P x)} l : countZ P l <= Z.of_nat (length l).
Proof. unfold countZ. pose proof (length_filter P l). lia. Qed.

(** The samples of each bucket. *)
Definition bucket_counts (samples : list Z) : list Z :=
  (fun i => countZ (fun s => latencyBucketIndex (clamp s) = i) samples) <$> seq 0 128.

Lemma record_all_spec samples :
  Z.of_nat (length samples) < 2 ^ 64 ->
  record_all samples = {| count := Z.of_nat (length samples); buckets := bucket_counts samples |}.
Proof.
  induction samples as [|s samples IH] using rev_ind; intros Hl.
  { vm_compute. reflexivity. }
  rewrite length_app in Hl. cbn in Hl. unfold record_all. rewrite foldl_snoc. fold (record_all samples).
  rewrite IH by lia. unfold Hist_Record. cbn [count buckets]. f_equal.
  { rewrite length_app. cbn. rewrite wrapu_small by (unfold is_u; lia). lia. }
  unfold bump, bucket_counts. apply list_eq. intros i. set (k := latencyBucketIndex (clamp s)).
  rewrite list_lookup_fmap. destruct (decide (i = k)) as [-> | Hne].
  - rewrite list_lookup_alter_eq, list_lookup_fmap. destruct (seq 0 128 !! k) as [j|] eqn:Ej; [|done].
    apply lookup_seq in Ej as [-> Hk]. cbn [fmap option_fmap option_map]. f_equal.
    rewrite countZ_snoc, decide_True by (fold k; lia). pose proof (countZ_nonneg (fun s0 => latencyBucketIndex (clamp s0) = (0 + k)%nat) samples).
    pose proof (countZ_total (fun s0 => latencyBucketIndex (clamp s0) = (0 + k)%nat) samples).
    rewrite wrapu_small by (unfold is_u; lia). done.
  - rewrite list_lookup_alter_ne, list_lookup_fmap by done. destruct (seq 0 128 !! i) as [j|] eqn:Ej; [|done].
    apply lookup_seq in Ej as [-> Hi]. cbn [fmap option_fmap option_map]. f_equal.
    rewrite countZ_snoc, decide_False by (fold k; lia). lia.
Qed.

Lemma sumZ_take_counts samples i :
  (i <= 128)%nat -> sumZ (take i (bucket_counts samples)) = countZ (fun s => (latencyBucketIndex (clamp s) < i)%nat) samples.
Proof.
  intros Hi. unfold bucket_counts. rewrite <- fmap_take, take_seq, Nat.min_l by done. clear Hi.
  induction i as [|i IH].
  - rewrite countZ_none; [done|]. intros s _. lia.
  - rewrite seq_S, fmap_snoc, sumZ_app, sumZ_singleton, IH. clear IH. cbn [Nat.add].
    induction samples as [|s samples IH]; [done|]. rewrite !countZ_cons.
    destruct (decide (latencyBucketIndex (clamp s) < i)%nat), (decide (latencyBucketIndex (clamp s) = i)),
      (decide (latencyBucketIndex (clamp s) < S i)%nat); lia.
Qed.

(** The scan stops at the first bucket that reaches the target. *)
Lemma scan_spec seen target bs bounds :
  Forall (fun c => 0 <= c) bs -> 0 <= seen < target -> target <= seen + sumZ bs -> seen + sumZ bs < 2 ^ 64 ->
  length bs = length bounds ->
  exists i b, bounds !! i = Some b /\ scan seen target bs bounds = b /\
    seen + sumZ (take i bs) < target <= seen + sumZ (take (S i) bs).
Proof.
  revert seen bounds. induction bs as [|c bs IH]; intros seen bounds Hpos Hs Ht Hm Hl.
  { change (sumZ []) with 0 in *. lia. }
  destruct bounds as [|b bounds]; [done|]. apply Forall_cons in Hpos as [Hc Hpos]. rewrite sumZ_cons in *.
  pose proof (sumZ_nonneg bs Hpos). cbn [scan]. rewrite wrapu_small by (unfold is_u; lia).
  destruct (Z.leb_spec target (seen + c)).
  - exists 0%nat, b. change (take 1 (c :: bs)) with [c]. change (sumZ (take 0 (c :: bs))) with 0.
    rewrite sumZ_singleton. split; [done|]. split; [done|]. lia.
  - destruct (IH (seen + c) bounds) as (i & b' & Hb & E & Hlt); [done | lia | lia | lia | cbn in Hl; lia|].
    exists (S i), b'. rewrite !firstn_cons, !sumZ_cons. split; [done|]. split; [done|]. lia.
Qed.

(** Rank in a sorted list. *)
Lemma sorted_rank (l : list Z) k x :
  StronglySorted Z.le l -> l !! k = Some x ->
  countZ (fun y => y < x) l <= Z.of_nat k < countZ (fun y => y <= x) l.
Proof.
  intros Hs. revert k. induction Hs as [|y l Hs IH Hy]; intros k Hk; [done|]. rewrite !countZ_cons.
  destruct k as [|k]; cbn in Hk.
  - injection Hk as ->. rewrite decide_False, decide_True by lia.
    assert (countZ (fun y => y < x) l <= 0).
    { rewrite countZ_none; [done|]. intros z Hz. rewrite Forall_forall in Hy. specialize (Hy z Hz). lia. }
    pose proof (countZ_nonneg (fun y => y <= x) l). lia.
  - specialize (IH k Hk). assert (y <= x). { rewrite Forall_forall in Hy. apply Hy. by eapply list_elem_of_lookup_2. }
    destruct (decide (y < x)), (decide (y <= x)); lia.
Qed.

Lemma countZ_perm {A} (P : A -> Prop) `{forall x, Decision (P x)} l1 l2 : l1 ≡ₚ l2 -> countZ P l1 = countZ P l2.
Proof. intros Hp. unfold countZ. by rewrite Hp. Qed.

Lemma countZ_fmap {A B} (f : A -> B) (P : B -> Prop) `{forall x, Decision (P x)} l :
  countZ P (f <$> l) = countZ (fun x => P (f x)) l.
Proof. induction l as [|x l IH]; [done|]. rewrite fmap_cons, !countZ_cons, IH. done. Qed.

(** The bucket a sample falls in rounds it up, by at most a seventh. *)
Lemma bucket_accuracy x :
  0 <= x <= bound_at 126 ->
  x <= bound_at (latencyBucketIndex x) /\ 7 * (bound_at (latencyBucketIndex x) - x) <= Z.max x 7000 + 6.
Proof.
  assert (H : forallb (fun i => 7 * (bound_at (S i) - bound_at i) <=? bound_at i + 6) (seq 1 125) = true)
    by (vm_compute; reflexivity).
  intros [H0 Hx]. destruct (latencyBucketIndex_spec x) as (Hi & Hlow & Hup). set (i := latencyBucketIndex x) in *.
  assert (Hb : x <= bound_at i). { destruct Hup as [|E]; [done|]. specialize (Hlow 126%nat). lia. }
  split; [done|]. destruct i as [|[|i]].
  - change (bound_at 0) with 0 in *. lia.
  - assert (E : bound_at 1 = 1000) by (vm_compute; reflexivity). rewrite E in *. lia.
  - rewrite forallb_forall in H. assert (Hi' : (S i < 126)%nat).
    { destruct (decide (S (S i) = 127%nat)) as [E|]; [|lia]. specialize (Hlow 126%nat). lia. }
    specialize (H (S i) ltac:(apply in_seq; lia)). apply Z.leb_le in H. specialize (Hlow (S i) ltac:(lia)). lia.
Qed.

(** A quantile is an order statistic: however the samples were spread over
    the shards, the reported quantile is the bound of the bucket of the sample at
    the quantile's rank in sorted order, negative samples counting as zero.  Up to
    the second to last bound it exceeds that sample by at most a seventh, or by a
    microsecond for the shortest ones. *)
Theorem quantile_is_order_statistic seq q samples :
  let n := Z.of_nat (length samples) in
  let t := target_of (clamp_quantile q) n in
  n < 2 ^ 64 -> 1 <= t <= n ->
  exists x, merge_sort Z.le (clamp <$> samples) !! Z.to_nat (t - 1) = Some x /\
    let r := Sharded_Quantile (sharded_record_all seq samples).2 q in
    r = bound_at (latencyBucketIndex x) /\
    (x <= bound_at 126 -> x <= r /\ 7 * (r - x) <= Z.max x 7000 + 6).
Proof.
  intros n t Hn Ht. set (sorted := merge_sort Z.le (clamp <$> samples)).
  assert (Hp : sorted ≡ₚ clamp <$> samples) by apply merge_sort_Permutation.
  assert (Hs : StronglySorted Z.le sorted) by (apply StronglySorted_merge_sort; apply _).
  destruct (lookup_lt_is_Some_2 sorted (Z.to_nat (t - 1))) as [x Hx].
  { rewrite Hp, length_fmap. lia. }
  exists x. split; [done|]. pose proof (sorted_rank sorted _ x Hs Hx) as Hr.
  rewrite !(countZ_perm _ _ _ Hp), !countZ_fmap in Hr.
  assert (E : Sharded_Quantile (sharded_record_all seq samples).2 q = bound_at (latencyBucketIndex x)).
  2:{ cbv zeta. rewrite E. split; [done|]. intros Hx'. apply bucket_accuracy. split; [|done].
      assert (Hin : x ∈ clamp <$> samples) by (rewrite <- Hp; by eapply list_elem_of_lookup_2).
      apply list_elem_of_fmap in Hin as (s & -> & _). unfold clamp. case_test; bool_facts; lia. }
  rewrite sharded_quantile_merged, (proj2 (merge_sharded_record_all _ _)), record_all_spec by done.
  unfold Hist_Quantile. cbn [count buckets]. fold n. fold t. destruct (Z.eqb_spec n 0) as [|_]; [lia|].
  assert (Hlen : length (bucket_counts samples) = 128%nat) by (unfold bucket_counts; by rewrite length_fmap, length_seq).
  assert (Hsum : sumZ (bucket_counts samples) = n).
  { rewrite <- (take_ge (bucket_counts samples) 128), sumZ_take_counts by lia.
    apply countZ_all. intros s _. apply latencyBucketIndex_spec. }
  destruct (scan_spec 0 t (bucket_counts samples) latencyBucketUpperBounds) as (i & b & Hb & -> & Hlt & Hge).
  { apply Forall_fmap, Forall_true. intros. apply countZ_nonneg. }
  { lia. } { lia. } { lia. } { by rewrite Hlen, bounds_length. }
  pose proof (lookup_lt_Some _ _ _ Hb) as Hi. rewrite bounds_length in Hi. rewrite !sumZ_take_counts in Hlt, Hge by lia.
  assert (Ei : latencyBucketIndex x = i); [|unfold bound_at; by rewrite Ei, Hb].
  destruct (Nat.lt_trichotomy (latencyBucketIndex x) i) as [Hc | [Hc | Hc]]; [exfalso | done | exfalso].
  - assert (countZ (fun s => clamp s <= x) samples <= countZ (fun s => (latencyBucketIndex (clamp s) < i)%nat) samples); [|lia].
    apply countZ_le. intros s Hle. pose proof (latencyBucketIndex_mono _ _ Hle). lia.
  - assert (countZ (fun s => (latencyBucketIndex (clamp s) < S i)%nat) samples <= countZ (fun s => clamp s < x) samples); [|lia].
    apply countZ_le. intros s Hlt'. destruct (Z.lt_ge_cases (clamp s) x) as [|Hx']; [done|].
    pose proof (latencyBucketIndex_mono _ _ Hx'). lia.
Qed.

(** The ranks of the 95th percentile: the least integer that is at least 95% of
    the count. *)
Lemma p95_rank n : 1 <= n <= 1000 -> target_of (clamp_quantile (flit 95 100)) n = (95 * n + 99) / 100.
Proof.
  assert (H : forallb (fun k => target_of (clamp_quantile (flit 95 100)) (Z.of_nat k) =? (95 * Z.of_nat k + 99) / 100)
    (seq 1 1000) = true) by (vm_compute; reflexivity).
  intros Hn. rewrite forallb_forall in H. specialize (H (Z.to_nat n) ltac:(apply in_seq; lia)).
  rewrite Z2Nat.id in H by lia. by apply Z.eqb_eq.
Qed.

(** A latency of eighteen seconds is reported as an hour. *)
Example quantile_cliff : Sharded_Quantile (sharded_record_all 0 [18000000000]).2 (flit 95 100) = maxLatencyBucketNanos.
Proof. vm_compute. reflexivity. Qed.

Lemma quantile_is_order_statistic_witness :
  exists x, merge_sort Z.le (clamp <$> [30000000; -5; 10000000; 20000000]) !! 3%nat = Some x /\
    x <= Sharded_Quantile (sharded_record_all 6 [30000000; -5; 10000000; 20000000]).2 (flit 95 100) <= 34285716.
Proof.
  destruct (quantile_is_order_statistic 6 (flit 95 100) [30000000; -5; 10000000; 20000000]) as (x & Hx & _ & Hacc).
  - reflexivity.
  - split; vm_compute; discriminate.
  - exists x. assert (E : x = 30000000) by (vm_compute in Hx; congruence). split; [exact Hx|].
    subst x. destruct Hacc as [H1 H2]; [vm_compute; discriminate|]. lia.
Defined.
