(* ===== verification/Recorder.v ===== *)
(** * The telemetry recorder ([pkg/telemetry/recorder.go], [ewma.go])

    Requests are accounted per destination, method and endpoint, in 64 shards of
    rows.  A snapshot reports the open window of every row and may start the next
    one.  [now] are readings of the recorder's clock. *)
From Stdlib Require Import String SpecFloat.
From stdpp Require Import sorting.
From S2P Require Import Prelude GoStd GoSort GoFloat Histogram.

(** ** Moving averages *)

Definition defaultEWMAAlpha : float64 := flit 2 10.

Record EWMA := { alpha : float64; value : float64; ewma_count : Z }.

Definition NewEWMA (alpha : float64) : EWMA :=
  {| alpha := if fle alpha fzero || flt (of_int 1) alpha || IsNaN alpha then defaultEWMAAlpha else alpha;
     value := fzero; ewma_count := 0 |}.

Definition EWMA_Observe (e : EWMA) (sample : Z) : EWMA :=
  let v := of_int (clamp sample) in
  {| alpha := alpha e;
     value := if ewma_count e =? 0 then v
              else fadd (fmul (alpha e) v) (fmul (fsub (of_int 1) (alpha e)) (value e));
     ewma_count := wraps 64 (ewma_count e + 1) |}.

Definition EWMA_Value (e : EWMA) : Z := to_int64 (fround (value e)).

(** ** Data *)

Record Observation := {
  o_Source : string;
  o_Destination : string;
  o_Method : string;
  o_EndpointID : string;
  o_RegistrationEpoch : string;
  o_Upstream : string;
  o_Status : string;
  o_Latency : Z;
  o_Error : bool;
  o_Timeout : bool
}.

Record EndpointStats := {
  Source : string;
  Destination : string;
  Method : string;
  EndpointID : string;
  RegistrationEpoch : string;
  Upstream : string;
  RequestCount : Z;
  ErrorCount : Z;
  TimeoutCount : Z;
  Inflight : Z;
  LatencyEWMA : Z;
  LatencyP95 : Z;
  WindowStart : Z;
  WindowEnd : Z
}.

Record statsKey := {
  destination : string;
  method : string;
  endpointID : string;
  registrationEpoch : string;
  upstream : string
}.

#[export] Instance statsKey_eq_dec : EqDecision statsKey.
Proof. solve_decision. Defined.
#[export] Instance statsKey_countable : Countable statsKey.
Proof.
  refine (inj_countable' (fun k => (destination k, method k, endpointID k, registrationEpoch k, upstream k))
    (fun '(d, m, i, r, u) => {| destination := d; method := m; endpointID := i; registrationEpoch := r; upstream := u |}) _).
  by intros [].
Defined.

Record statsCounters := { requestCount : Z; errorCount : Z; timeoutCount : Z; inflight : Z }.

(** A row; whether it is bound to a metrics sink. *)
Record statsRow := {
  row_key : statsKey;
  metrics : bool;
  counters : statsCounters;
  ewma : EWMA;
  activeHist : shardedLatencyHistogram;
  scratchHist : shardedLatencyHistogram;
  windowStart : Z
}.

(** A call of a row's metrics. *)
Record metric_call := {
  mc_source : string;
  mc_key : statsKey;
  mc_status : string;
  mc_latency : Z;
  mc_ewma : Z;
  mc_inflight : Z
}.

(** What [metrics any] holds: nothing, a value of one of the two sink
    interfaces, or something else. *)
Inductive metrics_value := NoSink | RowSink | LegacySink | OtherValue.

Definition recorderShardCount : nat := 64.

(** The recorder, the shared shard sequence of the histograms, and the calls made
    to the sink. *)
Record Recorder := {
  source : string;
  sink : metrics_value;
  shards : list (gmap statsKey statsRow);
  shardSeq : Z;
  calls : list metric_call
}.

Definition NewRecorderWithClock (source : string) (sink : metrics_value) : Recorder :=
  {| source := if bool_decide (source = ""%string) then "unknown" else source;
     sink := sink; shards := replicate recorderShardCount ∅; shardSeq := 0; calls := [] |}.

(** ** Helpers *)

Definition firstNonEmpty (value fallback : string) : string :=
  if bool_decide (value <> ""%string) then value else fallback.

Definition makeStatsKey (destination method endpointID registrationEpoch upstream : string) : statsKey := {|
  destination := firstNonEmpty destination "unknown";
  method := firstNonEmpty method "unknown";
  endpointID := TrimSpace endpointID;
  registrationEpoch := TrimSpace registrationEpoch;
  upstream := firstNonEmpty upstream "unknown" |}.

Definition normalizeStatus (status : string) : string :=
  let status := TrimSpace status in if bool_decide (status = ""%string) then "OK" else status.

Definition prime64 : Z := 1099511628211.

Definition hash_byte (h b : Z) : Z := wrapu 64 (Z.lxor h b * prime64).

Definition hashString (h : Z) (value : string) : Z :=
  hash_byte (foldl (fun h c => hash_byte h (byte_of c)) h (to_chars value)) 255.

Definition statsKeyHash (key : statsKey) : Z :=
  foldl hashString 1469598103934665603
    [destination key; method key; endpointID key; registrationEpoch key; upstream key].

Definition shardFor (key : statsKey) : nat :=
  Z.to_nat (Z.land (statsKeyHash key) (Z.of_nat recorderShardCount - 1)).

(** The loop of [decrementPositive], run without interference. *)
Definition decrementPositive (v : Z) : Z := if v <=? 0 then v else v - 1.

(** ** Rows *)

Definition set_shards (r : Recorder) (s : list (gmap statsKey statsRow)) : Recorder :=
  {| source := source r; sink := sink r; shards := s; shardSeq := shardSeq r; calls := calls r |}.

Definition lookup_row (r : Recorder) (key : statsKey) : option statsRow :=
  shards r !! shardFor key ≫= fun rows => rows !! key.

Definition store_row (r : Recorder) (key : statsKey) (row : statsRow) : Recorder :=
  set_shards r (alter (fun rows => <[key := row]> rows) (shardFor key) (shards r)).

Definition bindMetrics (r : Recorder) : bool :=
  match sink r with RowSink | LegacySink => true | NoSink | OtherValue => false end.

Definition new_row (r : Recorder) (key : statsKey) (now : Z) : statsRow :=
  {| row_key := key; metrics := bindMetrics r;
     counters := {| requestCount := 0; errorCount := 0; timeoutCount := 0; inflight := 0 |};
     ewma := NewEWMA defaultEWMAAlpha; activeHist := empty_shards; scratchHist := empty_shards; windowStart := now |}.

Definition rowFor (r : Recorder) (key : statsKey) (now : Z) : statsRow * Recorder :=
  match lookup_row r key with
  | Some row => (row, r)
  | None => let row := new_row r key now in (row, store_row r key row)
  end.

(** ** Operations *)

Definition is_error (obs : Observation) : bool := o_Error obs || bool_decide (o_Status obs <> "OK"%string).
Definition is_timeout (obs : Observation) : bool := o_Timeout obs || bool_decide (o_Status obs = "DEADLINE_EXCEEDED"%string).

Definition count_observation (c : statsCounters) (obs : Observation) (decrementInflight : bool) : statsCounters := {|
  requestCount := wraps 64 (requestCount c + 1);
  errorCount := if is_error obs then wraps 64 (errorCount c + 1) else errorCount c;
  timeoutCount := if is_timeout obs then wraps 64 (timeoutCount c + 1) else timeoutCount c;
  inflight := if decrementInflight then decrementPositive (inflight c) else inflight c |}.

Definition recordObservation (r : Recorder) (row : statsRow) (obs : Observation) (decrementInflight : bool) : Recorder :=
  let c := count_observation (counters row) obs decrementInflight in
  let e := EWMA_Observe (ewma row) (o_Latency obs) in
  let '(seq, hist) := Sharded_Record (shardSeq r) (activeHist row) (o_Latency obs) in
  let row' := {| row_key := row_key row; metrics := metrics row; counters := c; ewma := e; activeHist := hist;
                 scratchHist := scratchHist row; windowStart := windowStart row |} in
  let r := store_row r (row_key row) row' in
  {| source := source r; sink := sink r; shards := shards r; shardSeq := seq;
     calls := calls r ++ (if metrics row then
       [{| mc_source := source r; mc_key := row_key row; mc_status := o_Status obs; mc_latency := o_Latency obs;
           mc_ewma := EWMA_Value e; mc_inflight := inflight c |}] else []) |}.

Definition Observe (now : Z) (obs : Observation) (r : Recorder) : Recorder :=
  let key := makeStatsKey (o_Destination obs) (o_Method obs) (o_EndpointID obs) (o_RegistrationEpoch obs) (o_Upstream obs) in
  let obs := {| o_Source := source r; o_Destination := destination key; o_Method := method key;
    o_EndpointID := endpointID key; o_RegistrationEpoch := registrationEpoch key; o_Upstream := upstream key;
    o_Status := normalizeStatus (o_Status obs); o_Latency := o_Latency obs; o_Error := o_Error obs;
    o_Timeout := o_Timeout obs |} in
  let '(row, r) := rowFor r key now in
  recordObservation r row obs false.

(** A request started and not yet completed: the closure [Start] returns, and
    whether it has run. *)
Record pending := { p_key : statsKey; p_started : Z; p_done : bool }.

Definition Start (now : Z) (destination method upstream : string) (r : Recorder) : pending * Recorder :=
  let key := makeStatsKey destination method "" "" upstream in
  let '(row, r) := rowFor r key now in
  let c := counters row in
  let row := {| row_key := row_key row; metrics := metrics row;
    counters := {| requestCount := requestCount c; errorCount := errorCount c; timeoutCount := timeoutCount c;
                   inflight := wraps 64 (inflight c + 1) |};
    ewma := ewma row; activeHist := activeHist row; scratchHist := scratchHist row; windowStart := windowStart row |} in
  ({| p_key := key; p_started := now; p_done := false |}, store_row r key row).

(** The closure: [once.Do], then [finish]. *)
Definition Finish (now : Z) (status : string) (p : pending) (r : Recorder) : pending * Recorder :=
  if p_done p then (p, r) else
  match lookup_row r (p_key p) with
  | None => (p, r)
  | Some row =>
      ({| p_key := p_key p; p_started := p_started p; p_done := true |},
       recordObservation r row {| o_Source := source r; o_Destination := destination (p_key p); o_Method := method (p_key p);
         o_EndpointID := endpointID (p_key p); o_RegistrationEpoch := registrationEpoch (p_key p);
         o_Upstream := upstream (p_key p); o_Status := normalizeStatus status;
         o_Latency := time_Sub now (p_started p); o_Error := false; o_Timeout := false |} true)
  end.

(** ** Snapshots *)

(** One row: what it reports, and the row that is left. *)
Definition row_snapshot (source : string) (now : Z) (reset : bool) (row : statsRow) : option EndpointStats * statsRow :=
  let c := counters row in
  let key := row_key row in
  if (requestCount c =? 0) && (inflight c =? 0) then (None, row) else
  (Some {| Source := source; Destination := destination key; Method := method key; EndpointID := endpointID key;
           RegistrationEpoch := registrationEpoch key; Upstream := upstream key; RequestCount := requestCount c;
           ErrorCount := errorCount c; TimeoutCount := timeoutCount c; Inflight := inflight c;
           LatencyEWMA := EWMA_Value (ewma row); LatencyP95 := Sharded_Quantile (activeHist row) (flit 95 100);
           WindowStart := windowStart row; WindowEnd := now |},
   if reset then
     {| row_key := key; metrics := metrics row;
        counters := {| requestCount := 0; errorCount := 0; timeoutCount := 0; inflight := inflight c |};
        ewma := ewma row; activeHist := Sharded_Reset (scratchHist row); scratchHist := Sharded_Reset (activeHist row);
        windowStart := now |}
   else row).

Definition stats_less : EndpointStats -> EndpointStats -> bool :=
  by_keys (fun s => [Destination s; Upstream s; EndpointID s; Method s]).

(** [visit] is the order in which Go traverses the rows of a shard. *)
Definition row_order : Type := gmap statsKey statsRow -> list (statsKey * statsRow).

(** One shard: what its rows report, and the rows that are left. *)
Definition shard_stats (source : string) (now : Z) (visit : row_order) (reset : bool) (rows : gmap statsKey statsRow)
  : list EndpointStats :=
  omap (fun p : statsKey * statsRow => (row_snapshot source now reset p.2).1) (visit rows).

Definition shard_after (source : string) (now : Z) (reset : bool) (rows : gmap statsKey statsRow) : gmap statsKey statsRow :=
  (fun row => (row_snapshot source now reset row).2) <$> rows.

Definition snapshot (now : Z) (visit : row_order) (reset : bool) (r : Recorder) : list EndpointStats * Recorder :=
  (Slice stats_less (concat (shard_stats (source r) now visit reset <$> shards r)),
   set_shards r (shard_after (source r) now reset <$> shards r)).

(** Go returns nil for no stats; here that is the empty list. *)
Definition Snapshot (now : Z) (visit : row_order) (r : Recorder) : list EndpointStats := (snapshot now visit false r).1.

Definition SnapshotAndReset (now : Z) (visit : row_order) (r : Recorder) : list EndpointStats * Recorder :=
  snapshot now visit true r.

(** ** The recorder as one table of windows *)

(** What a row stands for: the observations of its open window, all latencies
    it ever saw, the requests in flight, and when the window opened. *)
Record rowSpec := { window : list Observation; history : list Z; open : Z; since : Z }.

Abbreviation table := (gmap statsKey rowSpec).

Definition spec_row (now : Z) (key : statsKey) (t : table) : rowSpec :=
  default {| window := []; history := []; open := 0; since := now |} (t !! key).

Definition spec_record (now : Z) (key : statsKey) (obs : Observation) (completes : bool) (t : table) : table :=
  let s := spec_row now key t in
  <[key := {| window := window s ++ [obs]; history := history s ++ [o_Latency obs];
              open := if completes then decrementPositive (open s) else open s; since := since s |}]> t.

Definition spec_start (now : Z) (key : statsKey) (t : table) : table :=
  let s := spec_row now key t in
  <[key := {| window := window s; history := history s; open := wraps 64 (open s + 1); since := since s |}]> t.

(** A number of observations, as the code's 64-bit counters hold it. *)
Definition tally (P : Observation -> bool) (w : list Observation) : Z :=
  wraps 64 (Z.of_nat (length (filter (fun o => P o = true) w))).

Definition spec_counters (s : rowSpec) : statsCounters :=
  {| requestCount := tally (fun _ => true) (window s); errorCount := tally is_error (window s);
     timeoutCount := tally is_timeout (window s); inflight := open s |}.

Definition idle (s : rowSpec) : bool := (tally (fun _ => true) (window s) =? 0) && (open s =? 0).

(** The summary of a window. *)
Definition summary (source : string) (now : Z) (key : statsKey) (s : rowSpec) : option EndpointStats :=
  if idle s then None else
  Some {| Source := source; Destination := destination key; Method := method key; EndpointID := endpointID key;
          RegistrationEpoch := registrationEpoch key; Upstream := upstream key;
          RequestCount := requestCount (spec_counters s); ErrorCount := errorCount (spec_counters s);
          TimeoutCount := timeoutCount (spec_counters s); Inflight := open s;
          LatencyEWMA := EWMA_Value (foldl EWMA_Observe (NewEWMA defaultEWMAAlpha) (history s));
          LatencyP95 := Hist_Quantile (record_all (o_Latency <$> window s)) (flit 95 100);
          WindowStart := since s; WindowEnd := now |}.

Definition spec_close (now : Z) (s : rowSpec) : rowSpec :=
  if idle s then s else {| window := []; history := history s; open := open s; since := now |}.

Definition hist_ok (h : shardedLatencyHistogram) : Prop :=
  length h = latencyHistShardCount /\ Forall (fun shard => length (buckets shard) = latencyHistogramBuckets) h.

Record row_ok (key : statsKey) (row : statsRow) (s : rowSpec) : Prop := {
  ok_key : row_key row = key;
  ok_counters : counters row = spec_counters s;
  ok_ewma : ewma row = foldl EWMA_Observe (NewEWMA defaultEWMAAlpha) (history s);
  ok_hist : merge_shards (activeHist row) = record_all (o_Latency <$> window s);
  ok_active : hist_ok (activeHist row);
  ok_scratch : hist_ok (scratchHist row);
  ok_start : windowStart row = since s
}.

(** The recorder holds the table, each row in the shard of its key. *)
Record holds (r : Recorder) (t : table) : Prop := {
  holds_shards : length (shards r) = recorderShardCount;
  holds_place i rows key : shards r !! i = Some rows -> is_Some (rows !! key) -> i = shardFor key;
  holds_rows key : option_Forall2 (row_ok key) (lookup_row r key) (t !! key)
}.

(** ** Storing rows *)

Lemma shardFor_bound key : (shardFor key < recorderShardCount)%nat.
Proof.
  unfold shardFor, recorderShardCount. change (Z.of_nat 64 - 1) with (Z.ones 6). rewrite Z.land_ones by lia.
  pose proof (Z.mod_pos_bound (statsKeyHash key) (2 ^ 6) ltac:(lia)). lia.
Qed.

#[local] Opaque shardFor statsKeyHash.

Lemma shard_is_Some r key : length (shards r) = recorderShardCount -> is_Some (shards r !! shardFor key).
Proof. intros Hl. apply lookup_lt_is_Some_2. rewrite Hl. apply shardFor_bound. Qed.

Lemma lookup_store r key row key' :
  length (shards r) = recorderShardCount ->
  lookup_row (store_row r key row) key' = if decide (key = key') then Some row else lookup_row r key'.
Proof.
  intros Hl. unfold lookup_row, store_row, set_shards. cbn [shards].
  destruct (shard_is_Some r key' Hl) as [rows Hrows]. destruct (decide (shardFor key = shardFor key')) as [E|E].
  - rewrite E, list_lookup_alter_eq, Hrows. cbn. destruct (decide (key = key')) as [->|Hne].
    + by rewrite lookup_insert_eq.
    + by rewrite lookup_insert_ne.
  - rewrite list_lookup_alter_ne by done. destruct (decide (key = key')) as [->|]; [done|]. done.
Qed.

Lemma holds_store r t key row s : holds r t -> row_ok key row s -> holds (store_row r key row) (<[key := s]> t).
Proof.
  intros [Hl Hp Hr] Hrow. split.
  - cbn. by rewrite length_alter.
  - intros i rows key'. cbn. destruct (decide (shardFor key = i)) as [<-|Hne].
    + rewrite list_lookup_alter_eq. destruct (shards r !! shardFor key) as [rows0|] eqn:E; [|done].
      intros [= <-]. destruct (decide (key = key')) as [->|Hk]; [done|]. rewrite lookup_insert_ne by done. by apply Hp.
    + rewrite list_lookup_alter_ne by done. apply Hp.
  - intros key'. rewrite lookup_store by done. destruct (decide (key = key')) as [->|Hk].
    + rewrite lookup_insert_eq. by constructor.
    + rewrite lookup_insert_ne by done. apply Hr.
Qed.

Lemma holds_shards_eq r r' t : shards r' = shards r -> holds r t -> holds r' t.
Proof.
  intros E [Hl Hp Hr]. split; [by rewrite E | by rewrite E | intros key; unfold lookup_row; rewrite E; apply Hr].
Qed.

Lemma new_row_ok r key now :
  row_ok key (new_row r key now) {| window := []; history := []; open := 0; since := now |}.
Proof.
  assert (H : hist_ok empty_shards) by (split; [done | by apply Forall_replicate]).
  split; [done | done | done | vm_compute; reflexivity | done | done | done].
Qed.

Lemma rowFor_holds r t key now :
  holds r t ->
  let '(row, r') := rowFor r key now in
  holds r' (<[key := spec_row now key t]> t) /\ row_ok key row (spec_row now key t) /\ source r' = source r.
Proof.
  intros Hh. unfold rowFor, spec_row. pose proof (holds_rows _ _ Hh key) as Hr.
  destruct (lookup_row r key) as [row|] eqn:E; inv Hr; cbn [default].
  - split; [|done]. by rewrite insert_id.
  - split; [|split; [apply new_row_ok | done]]. apply holds_store; [done | apply new_row_ok].
Qed.

(** ** Recording *)

Lemma tally_snoc P w o : tally P (w ++ [o]) = if P o then wraps 64 (tally P w + 1) else tally P w.
Proof.
  unfold tally. rewrite filter_app, length_app, filter_cons.
  destruct (P o) eqn:E; [rewrite decide_True by done | rewrite decide_False by done]; cbn.
  - rewrite wraps_add by lia. f_equal. lia.
  - f_equal. lia.
Qed.

Lemma hist_ok_record seq h s : hist_ok h -> hist_ok (Sharded_Record seq h s).2.
Proof.
  intros [Hl Hf]. split; [by rewrite length_sharded_record|]. unfold Sharded_Record.
  destruct (latencyHistShardIndex seq) as [seq' k]. cbn [snd]. apply Forall_alter; [done|].
  intros x Hx Hb. cbn [buckets]. unfold bump. by rewrite length_alter.
Qed.

Lemma record_row_ok key row s seq obs completes :
  row_ok key row s ->
  row_ok key {| row_key := row_key row; metrics := metrics row; counters := count_observation (counters row) obs completes;
    ewma := EWMA_Observe (ewma row) (o_Latency obs); activeHist := (Sharded_Record seq (activeHist row) (o_Latency obs)).2;
    scratchHist := scratchHist row; windowStart := windowStart row |}
    {| window := window s ++ [obs]; history := history s ++ [o_Latency obs];
       open := if completes then decrementPositive (open s) else open s; since := since s |}.
Proof.
  intros [Hk Hc He Hh Ha Hs Hw].
  split; cbn [row_key counters ewma activeHist scratchHist windowStart window history open since]; [done | | | | by apply hist_ok_record | done | done].
  - rewrite Hc. unfold count_observation, spec_counters. cbn. by rewrite !tally_snoc.
  - by rewrite He, foldl_snoc.
  - rewrite merge_sharded_record, Hh, fmap_snoc by apply Ha. unfold record_all. by rewrite foldl_snoc.
Qed.

Lemma recordObservation_holds r t now key row obs completes :
  holds r (<[key := spec_row now key t]> t) -> row_ok key row (spec_row now key t) ->
  holds (recordObservation r row obs completes) (spec_record now key obs completes t).
Proof.
  intros Hh Hrow. unfold recordObservation. pose proof (record_row_ok key row _ (shardSeq r) obs completes Hrow) as Hr'.
  destruct (Sharded_Record (shardSeq r) (activeHist row) (o_Latency obs)) as [seq hist].
  cbn [snd] in Hr'. rewrite (ok_key _ _ _ Hrow) in *.
  eapply (holds_shards_eq (store_row r key _)); [reflexivity|].
  pose proof (holds_store _ _ key _ _ Hh Hr') as H. rewrite insert_insert_eq in H. exact H.
Qed.

(** ** Requests in flight, and the operations together *)

Inductive op :=
| OpObserve (now : Z) (obs : Observation)
| OpStart (now : Z) (destination method upstream : string)
| OpFinish (now : Z) (status : string) (i : nat)
| OpReset (now : Z) (visit : row_order).

(** What is reported, the recorder, and the requests started so far. *)
Definition run_op (o : op) (st : Recorder * list pending) : list EndpointStats * (Recorder * list pending) :=
  let '(r, ps) := st in
  match o with
  | OpObserve now obs => ([], (Observe now obs r, ps))
  | OpStart now d m u => let '(p, r) := Start now d m u r in ([], (r, ps ++ [p]))
  | OpFinish now status i =>
      match ps !! i with
      | Some p => let '(p, r) := Finish now status p r in ([], (r, <[i := p]> ps))
      | None => ([], st)
      end
  | OpReset now visit => let '(out, r) := SnapshotAndReset now visit r in (out, (r, ps))
  end.

Definition normalized (source : string) (key : statsKey) (status : string) (latency : Z) (error timeout : bool) : Observation :=
  {| o_Source := source; o_Destination := destination key; o_Method := method key; o_EndpointID := endpointID key;
     o_RegistrationEpoch := registrationEpoch key; o_Upstream := upstream key; o_Status := normalizeStatus status;
     o_Latency := latency; o_Error := error; o_Timeout := timeout |}.

(** The same on the table. *)
Definition spec_op (source : string) (o : op) (st : table * list pending) : list EndpointStats * (table * list pending) :=
  let '(t, ps) := st in
  match o with
  | OpObserve now obs =>
      let key := makeStatsKey (o_Destination obs) (o_Method obs) (o_EndpointID obs) (o_RegistrationEpoch obs) (o_Upstream obs) in
      ([], (spec_record now key (normalized source key (o_Status obs) (o_Latency obs) (o_Error obs) (o_Timeout obs)) false t, ps))
  | OpStart now d m u =>
      let key := makeStatsKey d m "" "" u in
      ([], (spec_start now key t, ps ++ [{| p_key := key; p_started := now; p_done := false |}]))
  | OpFinish now status i =>
      match ps !! i with
      | Some p =>
          if p_done p then ([], st) else
          ([], (spec_record now (p_key p) (normalized source (p_key p) status (time_Sub now (p_started p)) false false) true t,
                <[i := {| p_key := p_key p; p_started := p_started p; p_done := true |}]> ps))
      | None => ([], st)
      end
  | OpReset now _ => (omap (fun p => summary source now p.1 p.2) (map_to_list t), (spec_close now <$> t, ps))
  end.

(** The requests started belong to rows of the table. *)
Definition pendings_ok (t : table) (ps : list pending) : Prop := Forall (fun p => is_Some (t !! p_key p)) ps.

Definition visits_all (o : op) : Prop :=
  match o with OpReset _ visit => forall rows, visit rows ≡ₚ map_to_list rows | _ => True end.

(** ** Snapshots *)

Lemma reset_hist h : hist_ok h -> Sharded_Reset h = empty_shards.
Proof.
  intros [Hl Hf]. unfold Sharded_Reset, empty_shards. rewrite <- Hl. clear Hl.
  induction Hf as [|x h Hx Hf IH]; [done|]. cbn [fmap list_fmap length replicate]. f_equal; [|exact IH].
  unfold Hist_Reset, empty_histogram. f_equal. rewrite <- Hx. generalize (buckets x) as l. clear.
  induction l as [|y l IH]; [done|]. cbn. by f_equal.
Qed.

Lemma row_snapshot_ok source now key row s :
  row_ok key row s ->
  (row_snapshot source now true row).1 = summary source now key s /\
  row_ok key (row_snapshot source now true row).2 (spec_close now s).
Proof.
  intros [Hk Hc He Hh Ha Hs Hw]. unfold row_snapshot, summary, spec_close, idle. rewrite Hc, Hk, He, Hw.
  cbn [requestCount inflight spec_counters]. destruct ((_ =? 0) && (open s =? 0)); [done|]. split.
  - cbn [fst]. by rewrite sharded_quantile_merged, Hh.
  - cbn [snd]. rewrite !reset_hist by done.
    assert (H : hist_ok empty_shards) by (split; [done | by apply Forall_replicate]).
    split; [done | done | done | vm_compute; reflexivity | done | done | done].
Qed.

Lemma lookup_row_after r source now key :
  lookup_row (set_shards r (shard_after source now true <$> shards r)) key =
  (fun row => (row_snapshot source now true row).2) <$> lookup_row r key.
Proof.
  unfold lookup_row, set_shards. cbn [shards]. rewrite list_lookup_fmap.
  destruct (shards r !! shardFor key) as [rows|]; [|done]. cbn. unfold shard_after. by rewrite lookup_fmap.
Qed.

Lemma omap_fst {A B C} (l : list (A * B)) (g : A * B -> option C) (h : A -> option C) :
  (forall p, p ∈ l -> g p = h p.1) -> omap g l = omap h l.*1.
Proof.
  induction l as [|p l IH]; intros Hg; [done|]. cbn. rewrite Hg by left. rewrite IH by (intros; apply Hg; by right). done.
Qed.

Lemma omap_concat {A B} (g : A -> option B) (ls : list (list A)) : 
  omap g (concat ls) = concat ((fun l : list A => omap g l : list B) <$> ls).
Proof. induction ls as [|l ls IH]; [done|]. cbn. by rewrite omap_app, IH. Qed.

Section Places.
Context (f : statsKey -> nat).

Definition placed (off : nat) (ms : list (gmap statsKey statsRow)) : Prop :=
  forall i rows key, ms !! i = Some rows -> is_Some (rows !! key) -> f key = (off + i)%nat.

Lemma elem_of_concat_maps (ms : list (gmap statsKey statsRow)) key row :
  (key, row) ∈ concat (map_to_list <$> ms) <-> exists (i : nat) rows, ms !! i = Some rows /\ rows !! key = Some row.
Proof.
  induction ms as [|m ms IH]; cbn.
  - split; [by intros ?%not_elem_of_nil | by intros (i & rows & H & _)].
  - rewrite elem_of_app, IH, elem_of_map_to_list. split.
    + intros [H | (i & rows & H)]; [by exists 0%nat, m | by exists (S i), rows].
    + intros ([|i] & rows & H & Hr); cbn in H; [left; by simplify_eq | right; eauto].
Qed.

Lemma placed_cons off m ms : placed off (m :: ms) -> placed (S off) ms.
Proof. intros Hp i rows key Hi Hk. rewrite (Hp (S i) rows key Hi Hk). lia. Qed.

Lemma NoDup_concat_maps off ms : placed off ms -> NoDup (concat (map_to_list <$> ms)).*1.
Proof.
  revert off. induction ms as [|m ms IH]; intros off Hp; cbn; [constructor|].
  rewrite fmap_app. apply NoDup_app. split; [apply NoDup_fst_map_to_list|].
  split; [|by eapply IH, placed_cons].
  intros key ((k & row) & -> & H1)%list_elem_of_fmap ((k' & row') & E & H2)%list_elem_of_fmap. cbn in E. subst k'. cbn in *.
  apply elem_of_map_to_list in H1. apply elem_of_concat_maps in H2 as (i & rows & Hi & Hr).
  pose proof (Hp 0%nat m k eq_refl ltac:(eauto)). pose proof (Hp (S i) rows k Hi ltac:(eauto)). lia.
Qed.
End Places.

Lemma shards_lookup r t key row :
  holds r t -> (key, row) ∈ concat (map_to_list <$> shards r) <-> lookup_row r key = Some row.
Proof.
  intros [Hl Hp Hr]. rewrite elem_of_concat_maps. unfold lookup_row. split.
  - intros (i & rows & Hi & Hk). rewrite (Hp i rows key Hi ltac:(eauto)) in Hi. by rewrite Hi.
  - intros (rows & Hi & Hk)%bind_Some. eauto.
Qed.

Lemma shards_keys r t : holds r t -> (concat (map_to_list <$> shards r)).*1 ≡ₚ (map_to_list t).*1.
Proof.
  intros Hh. apply NoDup_Permutation.
  - apply (NoDup_concat_maps shardFor 0). intros i rows key Hi Hk. symmetry. by eapply holds_place.
  - apply NoDup_fst_map_to_list.
  - intros key. pose proof (holds_rows _ _ Hh key) as Hr. rewrite !list_elem_of_fmap. split.
    + intros ([k row] & -> & Hin). cbn in *. apply (shards_lookup _ _ _ _ Hh) in Hin. rewrite Hin in Hr. inv Hr.
      eexists (k, _). split; [done|]. by apply elem_of_map_to_list.
    + intros ([k s] & -> & Hin%elem_of_map_to_list). cbn in *. rewrite Hin in Hr. inv Hr.
      eexists (k, _). split; [done|]. by apply (shards_lookup _ _ _ _ Hh).
Qed.

Lemma snapshot_stats r t now visit :
  holds r t -> (forall rows, visit rows ≡ₚ map_to_list rows) ->
  (SnapshotAndReset now visit r).1 ≡ₚ omap (fun p => summary (source r) now p.1 p.2) (map_to_list t).
Proof.
  intros Hh Hv. unfold SnapshotAndReset, snapshot. cbn [fst]. rewrite Slice_perm.
  set (g := fun p : statsKey * statsRow => (row_snapshot (source r) now true p.2).1).
  transitivity (omap g (concat (map_to_list <$> shards r))).
  { rewrite omap_concat, <- list_fmap_compose. generalize (shards r) as ms. induction ms as [|m ms IH]; [done|].
    rewrite !fmap_cons. cbn [concat]. f_equiv; [|exact IH]. cbn. unfold shard_stats. fold g. by rewrite Hv. }
  rewrite (omap_fst _ g (fun key => lookup_row r key ≫= fun row => (row_snapshot (source r) now true row).1)).
  2:{ intros [key row] Hin%(shards_lookup _ _ _ _ Hh). cbn. by rewrite Hin. }
  rewrite (omap_fst (map_to_list t) _ (fun key => t !! key ≫= summary (source r) now key)).
  2:{ intros [key s] Hin%elem_of_map_to_list. cbn. by rewrite Hin. }
  rewrite (shards_keys r t Hh). match goal with |- ?a ≡ₚ ?b => enough (a = b) as -> by done end.
  apply list_omap_ext, Forall_Forall2_diag, Forall_true. intros key. pose proof (holds_rows _ _ Hh key) as Hr. inv Hr; [|done].
  cbn. by apply row_snapshot_ok.
Qed.

Lemma snapshot_holds r t now visit : holds r t -> holds (SnapshotAndReset now visit r).2 (spec_close now <$> t).
Proof.
  intros Hh. unfold SnapshotAndReset, snapshot. cbn [snd]. destruct Hh as [Hl Hp Hr]. split.
  - cbn. by rewrite length_fmap.
  - intros i rows key. cbn. rewrite list_lookup_fmap. destruct (shards r !! i) as [rows0|] eqn:E; [|done].
    intros [= <-]. unfold shard_after. rewrite lookup_fmap, fmap_is_Some. by apply Hp.
  - intros key. rewrite lookup_row_after, lookup_fmap. specialize (Hr key). inv Hr; constructor. by apply row_snapshot_ok.
Qed.

(** ** Refinement *)

Lemma observe_holds r t now obs :
  holds r t -> holds (Observe now obs r) (spec_op (source r) (OpObserve now obs) (t, [])).2.1.
Proof.
  intros Hh. unfold Observe. cbn [spec_op fst snd]. set (key := makeStatsKey _ _ _ _ _).
  pose proof (rowFor_holds r t key now Hh) as H. destruct (rowFor r key now) as [row r'].
  destruct H as (Hh' & Hrow & _). by apply recordObservation_holds.
Qed.

Lemma start_holds r t now d m u :
  holds r t ->
  (Start now d m u r).1 = {| p_key := makeStatsKey d m "" "" u; p_started := now; p_done := false |} /\
  holds (Start now d m u r).2 (spec_start now (makeStatsKey d m "" "" u) t).
Proof.
  intros Hh. unfold Start. set (key := makeStatsKey _ _ _ _ _).
  pose proof (rowFor_holds r t key now Hh) as H. destruct (rowFor r key now) as [row r'].
  destruct H as (Hh' & Hrow & _). cbn [fst snd]. split; [done|]. unfold spec_start.
  rewrite <- (insert_insert_eq t key _ (spec_row now key t)).
  apply holds_store; [done|]. destruct Hrow as [Hk Hc He Hhi Ha Hs Hw]. split; cbn; try done. by rewrite Hc.
Qed.

Lemma finish_holds r t now status p :
  holds r t -> is_Some (t !! p_key p) -> p_done p = false ->
  (Finish now status p r).1 = {| p_key := p_key p; p_started := p_started p; p_done := true |} /\
  holds (Finish now status p r).2
    (spec_record now (p_key p) (normalized (source r) (p_key p) status (time_Sub now (p_started p)) false false) true t).
Proof.
  intros Hh [s Hs] Hd. unfold Finish. rewrite Hd. pose proof (holds_rows _ _ Hh (p_key p)) as Hr. rewrite Hs in Hr.
  inv Hr as [row ? Hrow Hrow' |]. cbn [fst snd]. split; [done|].
  apply recordObservation_holds; unfold spec_row; rewrite Hs; [|done]. cbn [default]. by rewrite insert_id.
Qed.

Lemma pendings_insert t key s ps : pendings_ok t ps -> pendings_ok (<[key := s]> t) ps.
Proof. intros H. eapply Forall_impl; [exact H|]. intros p Hp. by apply lookup_insert_is_Some'; right. Qed.

Lemma run_op_refines o r t ps :
  holds r t -> pendings_ok t ps -> visits_all o ->
  let '(out, (r', ps')) := run_op o (r, ps) in
  let '(reported, (t', ps'')) := spec_op (source r) o (t, ps) in
  holds r' t' /\ ps' = ps'' /\ pendings_ok t' ps' /\ out ≡ₚ reported /\ Sorted (not_after stats_less) out.
Proof.
  intros Hh Hp Hv. destruct o as [now obs | now d m u | now status i | now visit]; cbn [run_op spec_op].
  - split; [by apply observe_holds|]. split; [done|]. split; [by apply pendings_insert|]. by split.
  - pose proof (start_holds r t now d m u Hh) as [E Hs]. destruct (Start now d m u r) as [p r']. cbn [fst snd] in *. subst p.
    split; [done|]. split; [done|]. split; [|by split]. apply Forall_app. split; [by apply pendings_insert|].
    apply Forall_singleton. cbn. unfold spec_start. rewrite lookup_insert_eq. eauto.
  - destruct (ps !! i) as [p|] eqn:Ei; [|done]. destruct (p_done p) eqn:Ed.
    + unfold Finish. rewrite Ed, list_insert_id by done. done.
    + assert (Ht : is_Some (t !! p_key p)) by (by eapply Forall_lookup in Hp).
      pose proof (finish_holds r t now status p Hh Ht Ed) as [E Hf]. destruct (Finish now status p r) as [p' r'].
      cbn [fst snd] in *. subst p'. split; [done|]. split; [done|]. split; [|by split].
      apply Forall_insert; [by apply pendings_insert|]. cbn. unfold spec_record. rewrite lookup_insert_eq. eauto.
  - pose proof (snapshot_stats r t now visit Hh Hv) as Ho. pose proof (snapshot_holds r t now visit Hh) as Hs.
    assert (Hsort : Sorted (not_after stats_less) (SnapshotAndReset now visit r).1) by apply Slice_sorted, _.
    destruct (SnapshotAndReset now visit r) as [out r']. cbn [fst snd] in *.
    split; [done|]. split; [done|]. split; [|done]. eapply Forall_impl; [exact Hp|].
    intros p Hs'. cbn. by rewrite lookup_fmap, fmap_is_Some.
Qed.

(** C19. The recorder is one table of windows: 64 shards, sharded histograms and
    swapped buffers included, each operation does what it does on a table that
    keeps, per destination, method and endpoint, the observations of the open
    window.  A snapshot with reset reports the summary of every window that is not
    idle, in sorted order whatever order Go visits the rows in, and starts new ones. *)
Theorem recorder_refines_windows o r t ps :
  holds r t -> pendings_ok t ps -> visits_all o ->
  let '(out, (r', ps')) := run_op o (r, ps) in
  let '(reported, (t', ps'')) := spec_op (source r) o (t, ps) in
  holds r' t' /\ ps' = ps'' /\ pendings_ok t' ps' /\ out ≡ₚ reported /\ Sorted (not_after stats_less) out.
Proof. apply run_op_refines. Qed.

(** ** Requests in flight *)

Lemma countZ_insert {A} (P : A -> Prop) `{forall x, Decision (P x)} (l : list A) i x y :
  l !! i = Some x ->
  countZ P (<[i := y]> l) = countZ P l - (if decide (P x) then 1 else 0) + (if decide (P y) then 1 else 0).
Proof.
  revert i. induction l as [|z l IH]; intros [|i] Hi; cbn in Hi; [done | done | |].
  - injection Hi as ->. change (<[0%nat := y]> (x :: l)) with (y :: l). rewrite !countZ_cons. lia.
  - change (<[S i := y]> (z :: l)) with (z :: <[i := y]> l). rewrite !countZ_cons, (IH i Hi). lia.
Qed.

(** The requests of a row that were started and not completed. *)
Definition started (key : statsKey) (ps : list pending) : Z := countZ (fun p => p_key p = key /\ p_done p = false) ps.

Definition balanced (t : table) (ps : list pending) : Prop := forall key, open (spec_row 0 key t) = started key ps.

Lemma open_row now key t : open (spec_row now key t) = open (spec_row 0 key t).
Proof. unfold spec_row. by destruct (t !! key). Qed.

Lemma open_insert key s t key' :
  open (spec_row 0 key' (<[key := s]> t)) = if decide (key = key') then open s else open (spec_row 0 key' t).
Proof.
  unfold spec_row at 1. destruct (decide (key = key')) as [->|Hne]; [by rewrite lookup_insert_eq|].
  by rewrite lookup_insert_ne.
Qed.

Lemma spec_op_balanced source o t ps :
  balanced t ps -> Z.of_nat (length ps) < 2 ^ 63 - 1 ->
  balanced (spec_op source o (t, ps)).2.1 (spec_op source o (t, ps)).2.2.
Proof.
  intros Hb Hl. destruct o as [now obs | now d m u | now status i | now visit]; cbn [spec_op fst snd]; intros key.
  - unfold spec_record. rewrite open_insert. destruct (decide _) as [<-|]; [|apply Hb]. cbn. by rewrite open_row.
  - unfold spec_start. rewrite open_insert. unfold started. rewrite countZ_snoc. cbn [p_key p_done].
    fold (started key ps). specialize (Hb key). pose proof (countZ_total (fun p => p_key p = key /\ p_done p = false) ps) as Ht.
    pose proof (countZ_nonneg (fun p => p_key p = key /\ p_done p = false) ps). fold (started key ps) in *.
    destruct (decide (makeStatsKey d m "" "" u = key)) as [E|E].
    + rewrite decide_True by done. cbn [open]. rewrite open_row, E, Hb. apply wraps_small; [lia | unfold is_s; lia].
    + rewrite decide_False by naive_solver. lia.
  - destruct (ps !! i) as [p|] eqn:Ei; [|apply Hb]. destruct (p_done p) eqn:Ed; [apply Hb|]. cbn [fst snd].
    unfold spec_record. rewrite open_insert. unfold started. rewrite (countZ_insert _ _ _ _ _ Ei). cbn [p_key p_done].
    rewrite (decide_False (P := p_key p = key /\ true = false)) by naive_solver. fold (started key ps). specialize (Hb key).
    destruct (decide (p_key p = key)) as [E|E].
    + rewrite decide_True by done. cbn [open]. rewrite open_row, E, Hb. unfold decrementPositive.
      assert (1 <= started key ps); [|destruct (Z.leb_spec (started key ps) 0); lia].
      pose proof (countZ_insert (fun p => p_key p = key /\ p_done p = false) ps i p
        {| p_key := key; p_started := 0; p_done := true |} Ei) as H. cbn [p_key p_done] in H.
      rewrite decide_True, decide_False in H by naive_solver.
      pose proof (countZ_nonneg (fun p => p_key p = key /\ p_done p = false) (<[i:={| p_key := key; p_started := 0; p_done := true |}]> ps)).
      unfold started. lia.
    + rewrite decide_False by naive_solver. lia.
  - specialize (Hb key). rewrite <- Hb. unfold spec_row. rewrite lookup_fmap. destruct (t !! key) as [s|]; [|done].
    cbn. unfold spec_close. by destruct (idle s).
Qed.

Definition run_ops (os : list op) (st : Recorder * list pending) : Recorder * list pending :=
  foldl (fun st o => (run_op o st).2) st os.

Lemma new_holds source sink : holds (NewRecorderWithClock source sink) ∅.
Proof.
  split; [done | |].
  - intros i rows key Hi. apply lookup_replicate in Hi as [-> _]. rewrite lookup_empty. by intros [? ?].
  - intros key. unfold lookup_row. cbn [shards NewRecorderWithClock].
    rewrite lookup_replicate_2 by apply shardFor_bound. cbn. rewrite !lookup_empty. constructor.
Qed.

Lemma run_ops_holds source sink os :
  Forall visits_all os -> Z.of_nat (length os) < 2 ^ 63 ->
  let st := run_ops os (NewRecorderWithClock source sink, []) in
  Z.of_nat (length st.2) <= Z.of_nat (length os) /\
  exists t, holds st.1 t /\ pendings_ok t st.2 /\ balanced t st.2.
Proof.
  induction os as [|o os IH] using rev_ind; intros Hv Hl st.
  { split; [done|]. exists ∅. split; [apply new_holds|]. by split; [constructor|intros key]. }
  apply Forall_app in Hv as [Hv Ho]. rewrite Forall_singleton in Ho. rewrite length_app in Hl. cbn in Hl.
  destruct IH as (Hlen & t & Hh & Hp & Hb); [done | lia|]. subst st. unfold run_ops. rewrite foldl_snoc.
  fold (run_ops os (NewRecorderWithClock source sink, [])). set (st := run_ops os _) in *. destruct st as [r ps]. cbn [fst snd] in *.
  pose proof (spec_op_balanced (Recorder.source r) o t ps Hb ltac:(lia)) as Hb'.
  pose proof (run_op_refines o r t ps Hh Hp Ho) as H. destruct (run_op o (r, ps)) as [out [r' ps']] eqn:E.
  destruct (spec_op (Recorder.source r) o (t, ps)) as [rep [t' ps'']]. cbn [fst snd] in *.
  destruct H as (Hh' & <- & Hp' & _). split; [|by exists t']. rewrite length_app. cbn.
  assert (length ps' <= S (length ps))%nat; [|lia].
  destruct o as [now obs | now d m u | now status i | now visit]; cbn [run_op] in E.
  - injection E as _ _ <-. lia.
  - destruct (Start now d m u r) as [p r0]. injection E as _ _ <-. rewrite length_app. cbn. lia.
  - destruct (ps !! i); [|injection E as _ _ <-; lia]. destruct (Finish now status p r) as [p' r0].
    injection E as _ _ <-. rewrite length_insert. lia.
  - destruct (SnapshotAndReset now visit r) as [out0 r0]. injection E as _ _ <-. lia.
Qed.

(** The requests in flight are exactly those started and not completed: after
    any sequence of operations on a new recorder, in which completions may be
    repeated and windows closed in between, the in-flight count of every row is the
    number of its requests whose completion has not run. *)
Theorem inflight_counts_open_requests source sink os key row :
  Forall visits_all os -> Z.of_nat (length os) < 2 ^ 63 ->
  let st := run_ops os (NewRecorderWithClock source sink, []) in
  lookup_row st.1 key = Some row -> inflight (counters row) = started key st.2.
Proof.
  intros Hv Hl st Hrow. destruct (run_ops_holds source sink os Hv Hl) as (_ & t & Hh & _ & Hb).
  fold st in Hh, Hb. rewrite <- Hb. pose proof (holds_rows _ _ Hh key) as Hr. rewrite Hrow in Hr.
  unfold spec_row. destruct (t !! key) as [s|]; inv Hr as [? ? Hok|]. by rewrite (ok_counters _ _ _ Hok).
Qed.

(** ** A concrete run *)

Definition demo_obs (status : string) (latency : Z) : Observation :=
  {| o_Source := ""; o_Destination := "user"; o_Method := "Get"; o_EndpointID := " u1 "; o_RegistrationEpoch := "";
     o_Upstream := "10.0.0.1:7001"; o_Status := status; o_Latency := latency; o_Error := false; o_Timeout := false |}.

Definition demo_ops : list op :=
  [OpObserve 10 (demo_obs "" 2000000); OpStart 11 "user" "Get" "10.0.0.1:7001"; OpStart 12 "user" "Get" "10.0.0.1:7001";
   OpObserve 13 (demo_obs "DEADLINE_EXCEEDED" 3000000); OpFinish 1000011 "OK" 0; OpFinish 1000012 "OK" 0].

Definition demo_state : Recorder * list pending := run_ops demo_ops (NewRecorderWithClock "frontend" RowSink, []).

Definition demo_key : statsKey := makeStatsKey "user" "Get" "" "" "10.0.0.1:7001".

Example demo_report :
  (fun s => (EndpointID s, RequestCount s, ErrorCount s, TimeoutCount s, Inflight s)) <$>
    (run_op (OpReset 2000000 map_to_list) demo_state).1 =
  [(""%string, 1, 0, 0, 1); ("u1"%string, 2, 1, 1, 0)].
Proof. vm_compute. reflexivity. Qed.

Lemma demo_visits : Forall visits_all demo_ops.
Proof. repeat constructor. Qed.

Lemma inflight_counts_open_requests_witness :
  exists row, lookup_row demo_state.1 demo_key = Some row /\ inflight (counters row) = started demo_key demo_state.2 /\
    started demo_key demo_state.2 = 1.
Proof.
  destruct (lookup_row demo_state.1 demo_key) as [row|] eqn:E; [|vm_compute in E; discriminate].
  exists row. split; [reflexivity|]. split; [|vm_compute; reflexivity].
  apply (inflight_counts_open_requests "frontend" RowSink demo_ops demo_key row demo_visits).
  - reflexivity.
  - exact E.
Defined.

Lemma recorder_refines_windows_witness :
  exists t, holds demo_state.1 t /\
    (run_op (OpReset 2000000 map_to_list) demo_state).1 ≡ₚ (spec_op "frontend" (OpReset 2000000 map_to_list) (t, demo_state.2)).1.
Proof.
  destruct (run_ops_holds "frontend" RowSink demo_ops demo_visits eq_refl) as (_ & t & Hh & Hp & _).
  fold demo_state in Hh, Hp. exists t. split; [exact Hh|].
  pose proof (recorder_refines_windows (OpReset 2000000 map_to_list) demo_state.1 t demo_state.2 Hh Hp (fun rows => reflexivity _)) as H.
  assert (E : source demo_state.1 = "frontend"%string) by (vm_compute; reflexivity). rewrite E in H.
  rewrite <- surjective_pairing in H. destruct (run_op _ demo_state) as [out [r' ps']]. cbn [spec_op fst] in *.
  destruct H as (_ & _ & _ & H & _). exact H.
Defined.
