(* ===== verification/RecorderRace.v ===== *)
(** * A recorder's row under concurrency ([pkg/telemetry/recorder.go])

    Observers add to the atomic counters of a row before they take its lock; a
    snapshot holds the lock while it reads the counters and stores zero into them.
    One atomic access, or one critical section, is one step.  What the reports then
    account for: the latencies exactly, and the requests but for those that overtake a
    snapshot between its reading and its clearing of the counter. *)
From S2P Require Import Prelude.

(** Where a goroutine is.  [error] and [timeout] are what its observation counts as. *)
Inductive pc :=
| Idle
| StartAdd                                 (** [Start]: before [inflight.Add(1)] *)
| DecLoad (error timeout : bool)           (** [recordObservation], [decrementPositive]: before the load *)
| DecSwap (cur : Z) (error timeout : bool) (** before the compare-and-swap *)
| ObsRequest (error timeout : bool)        (** before [requestCount.Add(1)] *)
| ObsError (error timeout : bool)          (** before the test of the error *)
| ObsTimeout (timeout : bool)              (** before the test of the timeout *)
| ObsLatency                               (** before the critical section of the latency *)
| SnapLock                                 (** [snapshot(reset)]: before [mu.Lock] *)
| SnapRequest                              (** before [requestCount.Load] *)
| SnapInflight (req : Z)                   (** before [inflight.Load] *)
| SnapError (req : Z)                      (** before [errorCount.Load] *)
| SnapTimeout (req err : Z)                (** before [timeoutCount.Load] *)
| SnapStoreRequest (req err tmo : Z)       (** before [requestCount.Store(0)] *)
| SnapStoreError (req err tmo : Z)
| SnapStoreTimeout (req err tmo : Z)
| SnapReset (req err tmo : Z).             (** before the histogram is reset and [mu.Unlock] *)

Record report := { rep_requests : Z; rep_errors : Z; rep_timeouts : Z; rep_latencies : Z }.

(** The counters, the number of latencies in the active histogram, the lock, the
    goroutines, what was reported, and three ghost counts: the observations that
    have counted their request, those that have recorded their latency, and the
    requests counted after a snapshot read the counter and before it cleared it. *)
Record row := {
  requestCount : Z;
  errorCount : Z;
  timeoutCount : Z;
  inflight : Z;
  latencies : Z;
  locked : option nat;
  procs : list pc;
  reports : list report;
  observed : Z;
  recorded : Z;
  overtaken : Z
}.

Definition critical (p : pc) : bool :=
  match p with
  | SnapRequest | SnapInflight _ | SnapError _ | SnapTimeout _ _ | SnapStoreRequest _ _ _ | SnapStoreError _ _ _ | SnapStoreTimeout _ _ _
  | SnapReset _ _ _ => true
  | _ => false
  end.

Definition move (s : row) (i : nat) (p : pc) : row := {|
  requestCount := requestCount s; errorCount := errorCount s; timeoutCount := timeoutCount s; inflight := inflight s;
  latencies := latencies s; locked := locked s; procs := <[i := p]> (procs s); reports := reports s; observed := observed s; recorded := recorded s; overtaken := overtaken s |}.

Definition set_counts (s : row) (req err tmo : Z) : row := {|
  requestCount := req; errorCount := err; timeoutCount := tmo; inflight := inflight s; latencies := latencies s; locked := locked s;
  procs := procs s; reports := reports s; observed := observed s; recorded := recorded s; overtaken := overtaken s |}.

Definition set_lock (s : row) (l : option nat) : row := {|
  requestCount := requestCount s; errorCount := errorCount s; timeoutCount := timeoutCount s; inflight := inflight s;
  latencies := latencies s; locked := l; procs := procs s; reports := reports s; observed := observed s; recorded := recorded s; overtaken := overtaken s |}.

Definition set_inflight (s : row) (n : Z) : row := {|
  requestCount := requestCount s; errorCount := errorCount s; timeoutCount := timeoutCount s; inflight := n;
  latencies := latencies s; locked := locked s; procs := procs s; reports := reports s; observed := observed s;
  recorded := recorded s; overtaken := overtaken s |}.

(** The snapshot that read [req] clears the request counter. *)
Definition clear_requests (s : row) (req : Z) : row := {|
  requestCount := 0; errorCount := errorCount s; timeoutCount := timeoutCount s; inflight := inflight s; latencies := latencies s;
  locked := locked s; procs := procs s; reports := reports s; observed := observed s; recorded := recorded s;
  overtaken := overtaken s + (requestCount s - req) |}.

(** One more observation is counted. *)
Definition count_request (s : row) : row := {|
  requestCount := wraps 64 (requestCount s + 1); errorCount := errorCount s; timeoutCount := timeoutCount s;
  inflight := inflight s; latencies := latencies s; locked := locked s; procs := procs s; reports := reports s;
  observed := observed s + 1; recorded := recorded s; overtaken := overtaken s |}.

(** The critical section of an observation. *)
Definition record_latency (s : row) : row := {|
  requestCount := requestCount s; errorCount := errorCount s; timeoutCount := timeoutCount s; inflight := inflight s;
  latencies := latencies s + 1; locked := locked s; procs := procs s; reports := reports s; observed := observed s;
  recorded := recorded s + 1; overtaken := overtaken s |}.

(** The end of a snapshot: the histogram is reset, the lock released and the report returned. *)
Definition close_window (s : row) (req err tmo : Z) : row := {|
  requestCount := requestCount s; errorCount := errorCount s; timeoutCount := timeoutCount s; inflight := inflight s;
  latencies := 0; locked := None; procs := procs s;
  reports := reports s ++ [{| rep_requests := req; rep_errors := err; rep_timeouts := tmo; rep_latencies := latencies s |}];
  observed := observed s; recorded := recorded s; overtaken := overtaken s |}.

Definition incr (b : bool) (n : Z) : Z := if b then wraps 64 (n + 1) else n.

(** What goroutine [i] does next; [None] when it waits or has nothing to do. *)
Definition pc_step (s : row) (i : nat) (p : pc) : option row :=
  match p with
  | Idle => None
  | StartAdd => Some (move (set_inflight s (wraps 64 (inflight s + 1))) i Idle)
  | DecLoad e t => Some (move s i (if inflight s <=? 0 then ObsRequest e t else DecSwap (inflight s) e t))
  | DecSwap cur e t =>
      if inflight s =? cur then Some (move (set_inflight s (wraps 64 (cur - 1))) i (ObsRequest e t))
      else Some (move s i (DecLoad e t))
  | ObsRequest e t => Some (move (count_request s) i (ObsError e t))
  | ObsError e t => Some (move (set_counts s (requestCount s) (incr e (errorCount s)) (timeoutCount s)) i (ObsTimeout t))
  | ObsTimeout t => Some (move (set_counts s (requestCount s) (errorCount s) (incr t (timeoutCount s))) i ObsLatency)
  | ObsLatency => match locked s with Some _ => None | None => Some (move (record_latency s) i Idle) end
  | SnapLock => match locked s with Some _ => None | None => Some (move (set_lock s (Some i)) i SnapRequest) end
  | SnapRequest => Some (move s i (SnapInflight (requestCount s)))
  | SnapInflight req =>
      if (req =? 0) && (inflight s =? 0) then Some (move (set_lock s None) i Idle) else Some (move s i (SnapError req))
  | SnapError req => Some (move s i (SnapTimeout req (errorCount s)))
  | SnapTimeout req err => Some (move s i (SnapStoreRequest req err (timeoutCount s)))
  | SnapStoreRequest req err tmo =>
      Some (move (clear_requests s req) i (SnapStoreError req err tmo))
  | SnapStoreError req err tmo =>
      Some (move (set_counts s (requestCount s) 0 (timeoutCount s)) i (SnapStoreTimeout req err tmo))
  | SnapStoreTimeout req err tmo =>
      Some (move (set_counts s (requestCount s) (errorCount s) 0) i (SnapReset req err tmo))
  | SnapReset req err tmo => Some (move (close_window s req err tmo) i Idle)
  end.

Inductive row_step (s : row) : row -> Prop :=
| step_run i p s' : procs s !! i = Some p -> pc_step s i p = Some s' -> row_step s s'
| step_start i : procs s !! i = Some Idle -> row_step s (move s i StartAdd)
| step_finish i e t : procs s !! i = Some Idle -> row_step s (move s i (DecLoad e t))
| step_observe i e t : procs s !! i = Some Idle -> row_step s (move s i (ObsRequest e t))
| step_snapshot i : procs s !! i = Some Idle -> row_step s (move s i SnapLock).

Definition initial (n : nat) : row := {|
  requestCount := 0; errorCount := 0; timeoutCount := 0; inflight := 0; latencies := 0; locked := None; procs := replicate n Idle;
  reports := []; observed := 0; recorded := 0; overtaken := 0 |}.

(** ** Invariant *)

Definition reported_requests (s : row) : Z := sumZ (rep_requests <$> reports s).
Definition reported_latencies (s : row) : Z := sumZ (rep_latencies <$> reports s).

(** The requests a snapshot has read and already cleared, but not reported. *)
Definition in_hand (p : pc) : Z :=
  match p with SnapStoreError req _ _ | SnapStoreTimeout req _ _ | SnapReset req _ _ => req | _ => 0 end.

(** The requests it has read and will clear. *)
Definition will_clear (p : pc) : Z :=
  match p with SnapInflight req | SnapError req | SnapTimeout req _ | SnapStoreRequest req _ _ => req | _ => 0 end.

Definition hands (s : row) : Z := sumZ (in_hand <$> procs s).

Record row_inv (s : row) : Prop := {
  inv_lock i p : procs s !! i = Some p -> critical p = true -> locked s = Some i;
  inv_clear i p : procs s !! i = Some p -> will_clear p <= requestCount s;
  inv_nonneg : 0 <= requestCount s /\ Forall (fun p => 0 <= in_hand p /\ 0 <= will_clear p) (procs s) /\ 0 <= reported_requests s;
  inv_requests : reported_requests s + hands s + requestCount s + overtaken s = observed s;
  inv_overtaken : 0 <= overtaken s;
  inv_latencies : reported_latencies s + latencies s = recorded s
}.

Lemma hands_move s i p p' : procs s !! i = Some p -> hands (move s i p') = hands s - in_hand p + in_hand p'.
Proof.
  unfold hands. cbn. generalize (procs s) as ps. clear s. intros ps. revert i.
  induction ps as [|q ps IH]; intros [|i] Hi; cbn in Hi; [done | done | |].
  - injection Hi as ->. change (<[0%nat := p']> (p :: ps)) with (p' :: ps). rewrite !fmap_cons, !sumZ_cons. lia.
  - change (<[S i := p']> (q :: ps)) with (q :: <[i := p']> ps). rewrite !fmap_cons, !sumZ_cons, (IH i Hi). lia.
Qed.

Lemma hands_bound s i p : row_inv s -> procs s !! i = Some p -> 0 <= in_hand p <= hands s.
Proof.
  intros [_ _ (_ & Hn & _) _ _ _] Hi. revert i Hi. unfold hands. induction Hn as [|q ps [Hq _] Hn IH]; intros i Hi; [done|].
  rewrite fmap_cons, sumZ_cons.
  assert (0 <= sumZ (in_hand <$> ps)) by (apply sumZ_nonneg, Forall_fmap; eapply Forall_impl; [exact Hn | naive_solver]).
  destruct i as [|i]; cbn in Hi; [injection Hi as ->; lia|]. specialize (IH i Hi). lia.
Qed.

(** What a step of one goroutine has to keep. *)
Lemma move_inv s s1 i p p' :
  row_inv s -> procs s !! i = Some p -> procs s1 = procs s ->
  (forall j q, j <> i -> procs s !! j = Some q -> critical q = true -> locked s1 = Some j) ->
  (critical p' = true -> locked s1 = Some i) ->
  (forall j q, j <> i -> procs s !! j = Some q -> will_clear q <= requestCount s1) ->
  0 <= will_clear p' <= requestCount s1 -> 0 <= in_hand p' -> 0 <= reported_requests s1 ->
  reported_requests s1 + in_hand p' + requestCount s1 + overtaken s1 - observed s1 =
    reported_requests s + in_hand p + requestCount s + overtaken s - observed s ->
  overtaken s <= overtaken s1 ->
  reported_latencies s1 + latencies s1 - recorded s1 = reported_latencies s + latencies s - recorded s ->
  row_inv (move s1 i p').
Proof.
  intros Hinv Hi Ep Hl Hl' Hc Hc' Hh Hrep Hreq Hov Hlat.
  assert (Hlen : (i < length (procs s))%nat) by (by eapply lookup_lt_Some).
  destruct Hinv as [Il Ic (In & If & Ir) Iq Io Ia]. split.
  - intros j q. cbn. rewrite Ep. destruct (decide (i = j)) as [<-|Hne].
    + rewrite list_lookup_insert_eq by done. intros [= <-]. done.
    + rewrite list_lookup_insert_ne by done. intros Hj Hq. by eapply Hl.
  - intros j q. cbn. rewrite Ep. destruct (decide (i = j)) as [<-|Hne].
    + rewrite list_lookup_insert_eq by done. intros [= <-]. lia.
    + rewrite list_lookup_insert_ne by done. intros Hj. by eapply Hc.
  - cbn. split; [lia|]. split; [|exact Hrep]. rewrite Ep. apply Forall_insert; [done|]. lia.
  - rewrite (hands_move s1 i p p') by (by rewrite Ep).
    change (reported_requests (move s1 i p')) with (reported_requests s1).
    replace (hands s1) with (hands s) by (unfold hands; by rewrite Ep). cbn. lia.
  - cbn. lia.
  - change (reported_latencies (move s1 i p')) with (reported_latencies s1). cbn. lia.
Qed.

Lemma not_critical p : critical p = false -> will_clear p = 0 /\ in_hand p = 0.
Proof. by destruct p. Qed.

(** The lock's owner is alone in its critical section. *)
Lemma alone s i p j q :
  row_inv s -> procs s !! i = Some p -> critical p = true -> j <> i -> procs s !! j = Some q -> critical q = false.
Proof.
  intros Hinv Hi Hp Hne Hj. destruct (critical q) eqn:E; [|done].
  pose proof (inv_lock _ Hinv i p Hi Hp). pose proof (inv_lock _ Hinv j q Hj E). congruence.
Qed.

(** What [move_inv] asks of the other goroutines and of the sums. *)
Ltac others Hl Hcl Halone :=
  cbn; auto; try lia; try done;
  try (intros j q ? Hj; by apply Hl);
  try (intros j q Hne Hj Hq; by rewrite (Halone eq_refl j q Hne Hj) in Hq);
  try (intros j q ? Hj; specialize (Hcl j q Hj); lia);
  try (intros j q Hne Hj; specialize (Halone eq_refl j q Hne Hj); apply not_critical in Halone; lia);
  try (unfold reported_requests, reported_latencies in *; cbn; rewrite ?fmap_snoc, ?sumZ_app, ?sumZ_singleton; cbn; lia).

Lemma row_pc_step_inv s i p s' :
  observed s' < 2 ^ 63 -> row_inv s -> procs s !! i = Some p -> pc_step s i p = Some s' -> row_inv s'.
Proof.
  intros Hb Hinv Hi Hs. pose proof (inv_clear _ Hinv i p Hi) as Hc.
  pose proof (inv_lock _ Hinv) as Hl. pose proof (inv_clear _ Hinv) as Hcl.
  destruct (inv_nonneg _ Hinv) as (Hr & Hf & Hrep).
  assert (Hw : 0 <= in_hand p /\ 0 <= will_clear p) by (eapply Forall_lookup_1 in Hf; [|exact Hi]; done).
  assert (Hlock : critical p = true -> locked s = Some i) by (by apply Hl).
  (* a step that changes neither the request counter nor the lock *)
  assert (Hkeep : forall s1 p', procs s1 = procs s -> reports s1 = reports s -> requestCount s1 = requestCount s ->
    locked s1 = locked s -> observed s1 = observed s -> overtaken s1 = overtaken s -> latencies s1 - recorded s1 = latencies s - recorded s ->
    (critical p' = true -> critical p = true) -> 0 <= will_clear p' <= requestCount s ->
    in_hand p' = in_hand p -> row_inv (move s1 i p')).
  { intros s1 p' E1 E2 E3 E4 E5 E7 E6 H1 H2 H3. unfold reported_requests, reported_latencies in *.
    apply (move_inv s s1 i p p'); unfold reported_requests, reported_latencies; rewrite ?E2, ?E3, ?E4; auto; try lia;
      intros j q _ Hj; [by apply Hl | by eapply Hcl]. }
  assert (Halone : critical p = true -> forall j q, j <> i -> procs s !! j = Some q -> critical q = false).
  { intros Hp j q Hj Hq. by apply (alone s i p j q). }
  destruct p; cbn [pc_step] in Hs; try discriminate Hs.
  - injection Hs as <-. apply Hkeep; try done; cbn in *; lia.
  - injection Hs as <-. destruct (inflight s <=? 0); apply Hkeep; try done; cbn in *; lia.
  - destruct (inflight s =? cur); injection Hs as <-; apply Hkeep; try done; cbn in *; lia.
  - injection Hs as <-. cbn in Hb. pose proof (inv_requests _ Hinv) as Hq. pose proof (inv_overtaken _ Hinv).
    assert (0 <= hands s) by (apply sumZ_nonneg, Forall_fmap; eapply Forall_impl; [exact Hf | naive_solver]).
    assert (E : requestCount (count_request s) = requestCount s + 1) by (cbn; apply wraps_small; unfold is_s; lia).
    apply (move_inv s _ i _ _ Hinv Hi); rewrite ?E; others Hl Hcl Halone.
  - injection Hs as <-. apply Hkeep; try done; cbn in *; lia.
  - injection Hs as <-. apply Hkeep; try done; cbn in *; lia.
  - destruct (locked s) eqn:El; [discriminate|]. injection Hs as <-. apply Hkeep; try done; cbn in *; lia.
  - destruct (locked s) eqn:El; [discriminate|]. injection Hs as <-. apply (move_inv s _ i _ _ Hinv Hi); others Hl Hcl Halone.
    intros j q _ Hj Hq. specialize (Hl j q Hj Hq). congruence.
  - injection Hs as <-. apply Hkeep; try done; cbn in *; lia.
  - destruct ((req =? 0) && (inflight s =? 0)); injection Hs as <-; [|apply Hkeep; try done; cbn in *; lia].
    apply (move_inv s _ i _ _ Hinv Hi); others Hl Hcl Halone.
  - injection Hs as <-. apply Hkeep; try done; cbn in *; lia.
  - injection Hs as <-. apply Hkeep; try done; cbn in *; lia.
  - injection Hs as <-. cbn in Hc, Hw. apply (move_inv s _ i _ _ Hinv Hi); others Hl Hcl Halone.
  - injection Hs as <-. apply Hkeep; try done; cbn in *; lia.
  - injection Hs as <-. apply Hkeep; try done; cbn in *; lia.
  - injection Hs as <-. cbn in Hw. apply (move_inv s _ i _ _ Hinv Hi); others Hl Hcl Halone.
Qed.

Lemma step_inv s s' : observed s' < 2 ^ 63 -> row_inv s -> row_step s s' -> row_inv s'.
Proof.
  intros Hb Hinv Hs. assert (Hbegin : forall i p, procs s !! i = Some Idle -> critical p = false -> row_inv (move s i p)).
  { intros i p Hi Hp. destruct (not_critical p Hp) as [E1 E2]. pose proof (inv_nonneg _ Hinv) as (Hr & _ & Hrep).
    apply (move_inv s s i Idle p Hinv Hi); rewrite ?E1, ?E2; cbn; try lia; try done.
    - intros j q _. apply Hinv.
    - by rewrite Hp.
    - intros j q _. apply Hinv. }
  destruct Hs; [by eapply row_pc_step_inv | by apply Hbegin..].
Qed.

Lemma step_observed s s' : row_step s s' -> observed s <= observed s'.
Proof. intros [i p s0 _ Hp| | | |]; [|done..]. destruct p; cbn in Hp; repeat case_match; simplify_eq; cbn; lia. Qed.

Lemma row_initial_inv n : row_inv (initial n).
Proof.
  assert (Hz : forall l, Forall (fun p => p = Idle) l -> sumZ (in_hand <$> l) = 0).
  { induction 1 as [|p l -> _ IH]; [done|]. rewrite fmap_cons, sumZ_cons, IH. done. }
  split; cbn.
  - intros i p Hi. apply lookup_replicate in Hi as [-> _]. done.
  - intros i p Hi. apply lookup_replicate in Hi as [-> _]. done.
  - split; [done|]. split; [|done]. by apply Forall_replicate.
  - unfold hands. cbn. rewrite Hz by (by apply Forall_replicate). done.
  - done.
  - done.
Qed.

Lemma row_reachable_inv n s : rtc row_step (initial n) s -> observed s < 2 ^ 63 -> row_inv s.
Proof.
  intros Hr. refine (rtc_ind_r (fun s => observed s < 2 ^ 63 -> row_inv s) _ _ _ _ Hr); [intros _; apply row_initial_inv|].
  intros s1 s2 _ Hs IH Hb. eapply step_inv; [done | | exact Hs]. apply IH. pose proof (step_observed _ _ Hs). lia.
Qed.

(** ** Calm runs *)

(** A snapshot between reading the request counter and clearing it. *)
Definition reading (p : pc) : bool :=
  match p with SnapInflight _ | SnapError _ | SnapTimeout _ _ | SnapStoreRequest _ _ _ => true | _ => false end.

(** No request is counted while a snapshot is between reading and clearing. *)
Definition calm_step (s s' : row) : Prop :=
  row_step s s' /\ (observed s' = observed s \/ Forall (fun p => reading p = false) (procs s)).

(** What the snapshots have read is what they will clear, and nothing was overtaken. *)
Definition calm (s : row) : Prop :=
  overtaken s = 0 /\ Forall (fun p => reading p = true -> will_clear p = requestCount s) (procs s).

Lemma calm_move s s1 i p' :
  calm s -> procs s1 = procs s -> overtaken s1 = 0 -> requestCount s1 = requestCount s \/ (forall j q, j <> i -> procs s !! j = Some q -> reading q = false) ->
  (reading p' = true -> will_clear p' = requestCount s1) -> calm (move s1 i p').
Proof.
  intros [_ Hp] Ep Ho Hor Hp'. split; [done|]. cbn. rewrite Ep. apply Forall_lookup_2. intros j q Hj.
  destruct (decide (i = j)) as [<-|Hne].
  - assert (Hlt : (i < length (procs s))%nat) by (apply lookup_lt_Some in Hj; by rewrite length_insert in Hj).
    rewrite list_lookup_insert_eq in Hj by done. injection Hj as <-. done.
  - rewrite list_lookup_insert_ne in Hj by done. destruct Hor as [->|Hor]; [exact (Forall_lookup_1 _ _ _ _ Hp Hj)|].
    intros Hq. by rewrite (Hor j q) in Hq.
Qed.

Lemma reading_critical p : critical p = false -> reading p = false.
Proof. by destruct p. Qed.

Lemma calm_pc_step s i p s' :
  row_inv s -> calm s -> procs s !! i = Some p -> pc_step s i p = Some s' ->
  observed s' = observed s \/ Forall (fun p => reading p = false) (procs s) -> calm s'.
Proof.
  intros Hinv Hcalm Hi Hs Hor. pose proof Hcalm as [Ho Hp]. pose proof (Forall_lookup_1 _ _ _ _ Hp Hi) as Hpi.
  pose proof (fun H j q Hj Hq => reading_critical q (alone s i p j q Hinv Hi H Hj Hq)) as Halone.
  destruct p; cbn [pc_step reading will_clear] in *; repeat case_match; simplify_eq;
    try (apply (calm_move s _ i _ Hcalm); cbn; [done|done|by left|by auto]).
  - apply (calm_move s _ i _ Hcalm); cbn; [done|done| |done]. right. intros j q _ Hj.
    destruct Hor as [Hor|Hor]; [cbn in Hor; lia|]. by eapply (Forall_lookup_1 _ _ j q) in Hor.
  - specialize (Hpi eq_refl). apply (calm_move s _ i _ Hcalm); cbn; [done|lia| |done]. right. by apply Halone.
Qed.

Lemma calm_reachable n s : rtc calm_step (initial n) s -> observed s < 2 ^ 63 -> calm s.
Proof.
  intros Hr. refine (rtc_ind_r (fun s => observed s < 2 ^ 63 -> calm s) _ _ _ _ Hr).
  - intros _. split; [done|]. cbn. by apply Forall_replicate.
  - intros s1 s2 Hrun [Hs Hor] IH Hb. pose proof (step_observed _ _ Hs). specialize (IH ltac:(lia)).
    assert (Hinv : row_inv s1).
    { apply (row_reachable_inv n); [|lia]. eapply rtc_subrel; [|exact Hrun]. by intros x y [? _]. }
    destruct Hs; [by eapply calm_pc_step|by (apply (calm_move _ _ _ _ IH); cbn; [done|apply IH|by left|done])..].
Qed.

(** Reports account for every request: whatever the interleaving of observations and
    snapshots, the requests reported, those a snapshot has taken but not reported yet,
    those still counted and those that overtook a snapshot between its reading and its
    clearing of the counter are together exactly those observed; the latencies
    reported and still in the histogram are exactly those recorded; and a run in which
    no request overtakes a snapshot loses none. *)
Theorem reports_account n s :
  rtc row_step (initial n) s -> observed s < 2 ^ 63 ->
  reported_requests s + hands s + requestCount s + overtaken s = observed s /\ 0 <= hands s /\ 0 <= overtaken s /\
  reported_latencies s + latencies s = recorded s /\
  (rtc calm_step (initial n) s -> overtaken s = 0).
Proof.
  intros Hr Hb. pose proof (row_reachable_inv n s Hr Hb) as Hinv. pose proof (inv_nonneg _ Hinv) as (_ & Hf & _).
  split; [apply Hinv|]. split; [apply sumZ_nonneg, Forall_fmap; eapply Forall_impl; [exact Hf | naive_solver]|].
  split; [apply Hinv|]. split; [apply Hinv|]. intros Hc. by apply (calm_reachable n).
Qed.

(** ** A schedule that loses a request *)

Inductive event := Begin (i : nat) (p : pc) | Run (i : nat).

Definition begins (p : pc) : bool :=
  match p with StartAdd | DecLoad _ _ | ObsRequest _ _ | SnapLock => true | _ => false end.

Definition exec (s : row) (e : event) : option row :=
  match e with
  | Begin i p => q ← procs s !! i; match q with Idle => if begins p then Some (move s i p) else None | _ => None end
  | Run i => p ← procs s !! i; pc_step s i p
  end.

Fixpoint exec_all (s : row) (es : list event) : option row :=
  match es with [] => Some s | e :: es' => s' ← exec s e; exec_all s' es' end.

Lemma exec_step s e s' : exec s e = Some s' -> row_step s s'.
Proof.
  destruct e as [i p|i]; cbn; intros (q & Hq & H)%bind_Some; [|by eapply step_run].
  destruct q; try discriminate H. destruct p; cbn in H; simplify_eq; by constructor.
Qed.

Lemma exec_all_steps s es s' : exec_all s es = Some s' -> rtc row_step s s'.
Proof.
  revert s. induction es as [|e es IH]; intros s; cbn; [intros [= ->]; done|].
  intros (s1 & H1 & H)%bind_Some. eapply rtc_l; [by eapply exec_step | by apply IH].
Qed.

(** A request completes; a snapshot starts and reads the request counter; a
    failing request is counted; the snapshot reads the other counters, clears them
    all and ends; the request records its latency. *)
Definition losing_schedule : list event :=
  [Begin 0 (ObsRequest false false); Run 0; Run 0; Run 0; Run 0;
   Begin 1 SnapLock; Run 1; Run 1;
   Begin 0 (ObsRequest true false); Run 0; Run 0; Run 0;
   Run 1; Run 1; Run 1; Run 1; Run 1; Run 1; Run 1;
   Run 0].

(** A snapshot with reset can lose requests: two goroutines reach a state in
    which two requests were observed and completed, one of them failed, and the
    only report has one request and one error, while the counters are back at zero;
    both latencies are accounted for. *)
Theorem reset_loses_requests :
  exists s, rtc row_step (initial 2) s /\ procs s = [Idle; Idle] /\ observed s = 2 /\ recorded s = 2 /\
    reports s = [{| rep_requests := 1; rep_errors := 1; rep_timeouts := 0; rep_latencies := 1 |}] /\
    requestCount s = 0 /\ errorCount s = 0 /\ latencies s = 1.
Proof.
  destruct (exec_all (initial 2) losing_schedule) as [s|] eqn:E; [|vm_compute in E; discriminate].
  exists s. split; [by eapply exec_all_steps|]. vm_compute in E. injection E as <-. done.
Qed.

Lemma reports_account_witness :
  exists s, rtc row_step (initial 2) s /\ procs s = [Idle; Idle] /\ reported_requests s + requestCount s + overtaken s = 2 /\ overtaken s = 1.
Proof.
  destruct (exec_all (initial 2) losing_schedule) as [s|] eqn:E; [|vm_compute in E; discriminate].
  pose proof (exec_all_steps _ _ _ E) as Hr. assert (Ho : observed s = 2) by (vm_compute in E; injection E as <-; reflexivity).
  assert (Hh : hands s = 0 /\ procs s = [Idle; Idle] /\ overtaken s = 1) by (vm_compute in E; injection E as <-; by vm_compute).
  destruct Hh as (Hh & Hp & Hov). destruct (reports_account 2 s Hr) as (H & _); [rewrite Ho; reflexivity|].
  exists s. split; [exact Hr|]. split; [exact Hp|]. split; [lia|exact Hov].
Defined.
