(* ===== verification/Watch.v ===== *)
(** * Watch channels ([pkg/fault/manager.go], [pkg/registry/registry.go])

    A watcher goroutine forwards the newest version of a service's state through a
    channel of capacity one, replacing a value the consumer has not fetched yet.
    The health manager ([WatchHealth], [sendLatestVersion]) and the registry
    ([watch], [sendLatestSnapshot]) run the same loop; the registry's waits also end
    when a lease expires.  One channel operation, or one read of the published
    state under its lock, is one step. *)
From stdpp Require Import sorting.
From S2P Require Import Prelude.

Section Watch.
Context {A : Type} (ver : A -> Z) (timer : bool).

(** Where the watcher is. *)
Inductive pc :=
| Read                      (** the head of the loop *)
| Entry (v : A)             (** sending: before the first check of the context *)
| TrySend (v : A)           (** before the attempt to send *)
| Drain (v : A)             (** the channel was full: before the receive *)
| Resend (v : A)            (** before the second send *)
| Wait (notify : nat)       (** waiting for the captured notification channel *)
| Stopped.

(** The published state, the number of notification channels closed so far, the
    context, the channel, and the watcher with the version it sent last;
    [received] are the values the consumer has fetched. *)
Record watch := {
  current : A;
  closed : nat;
  cancelled : bool;
  updates : option A;
  watcher : pc;
  lastVersion : Z;
  received : list A
}.

Definition goto (s : watch) (p : pc) : watch := {|
  current := current s; closed := closed s; cancelled := cancelled s; updates := updates s; watcher := p;
  lastVersion := lastVersion s; received := received s |}.

Definition set_updates (s : watch) (u : option A) : watch := {|
  current := current s; closed := closed s; cancelled := cancelled s; updates := u; watcher := watcher s;
  lastVersion := lastVersion s; received := received s |}.

(** A step of the watcher. *)
Inductive watcher_step (s : watch) : watch -> Prop :=
| read_newer :
    watcher s = Read -> lastVersion s < ver (current s) ->
    watcher_step s {| current := current s; closed := closed s; cancelled := cancelled s; updates := updates s;
                      watcher := Entry (current s); lastVersion := ver (current s); received := received s |}
| read_same : watcher s = Read -> ver (current s) <= lastVersion s -> watcher_step s (goto s (Wait (closed s)))
| entry_done v : watcher s = Entry v -> cancelled s = true -> watcher_step s (goto s Stopped)
| entry_go v : watcher s = Entry v -> cancelled s = false -> watcher_step s (goto s (TrySend v))
| try_send v : watcher s = TrySend v -> updates s = None -> watcher_step s (goto (set_updates s (Some v)) Read)
| try_done v : watcher s = TrySend v -> cancelled s = true -> watcher_step s (goto s Stopped)
| try_default v u : watcher s = TrySend v -> updates s = Some u -> cancelled s = false -> watcher_step s (goto s (Drain v))
| drain_receive v u : watcher s = Drain v -> updates s = Some u -> watcher_step s (goto (set_updates s None) (Resend v))
| drain_done v : watcher s = Drain v -> cancelled s = true -> watcher_step s (goto s Stopped)
| resend_send v : watcher s = Resend v -> updates s = None -> watcher_step s (goto (set_updates s (Some v)) Read)
| resend_done v : watcher s = Resend v -> cancelled s = true -> watcher_step s (goto s Stopped)
| wait_notified n : watcher s = Wait n -> n <> closed s -> watcher_step s (goto s Read)
| wait_expired n : watcher s = Wait n -> timer = true -> watcher_step s (goto s Read)
| wait_done n : watcher s = Wait n -> cancelled s = true -> watcher_step s (goto s Stopped).

(** The others: the state is published with a version that is not smaller, and
    the watchers are notified; the consumer fetches. *)
Inductive other_step (s : watch) : watch -> Prop :=
| publish a : ver (current s) <= ver a ->
    other_step s {| current := a; closed := S (closed s); cancelled := cancelled s; updates := updates s;
                    watcher := watcher s; lastVersion := lastVersion s; received := received s |}
| fetch v : updates s = Some v ->
    other_step s {| current := current s; closed := closed s; cancelled := cancelled s; updates := None;
                    watcher := watcher s; lastVersion := lastVersion s; received := received s ++ [v] |}.

(** Steps as long as the context is not cancelled, and all steps. *)
Definition live_step (s s' : watch) : Prop := watcher_step s s' \/ other_step s s'.

Inductive watch_step (s : watch) : watch -> Prop :=
| step_live s' : live_step s s' -> watch_step s s'
| step_cancel : watch_step s {| current := current s; closed := closed s; cancelled := true; updates := updates s;
                                watcher := watcher s; lastVersion := lastVersion s; received := received s |}.

Definition initial (a : A) (afterVersion : Z) : watch := {|
  current := a; closed := 0; cancelled := false; updates := None; watcher := Read; lastVersion := afterVersion;
  received := [] |}.

(** ** Invariant *)

(** The value the watcher holds to send. *)
Definition in_flight (p : pc) : option A :=
  match p with Entry v | TrySend v | Drain v | Resend v => Some v | _ => None end.

(** Everything the consumer has, will find, or is about to be sent, in order. *)
Definition sequence (s : watch) : list A := received s ++ option_list (updates s) ++ option_list (in_flight (watcher s)).

Definition increasing (after : Z) (l : list A) : Prop := StronglySorted Z.lt (after :: (ver <$> l)).

Record watch_inv (after : Z) (s : watch) : Prop := {
  inv_increasing : increasing after (sequence s);
  inv_last : watcher s <> Stopped -> last (after :: (ver <$> sequence s)) = Some (lastVersion s);
  inv_wait n : watcher s = Wait n -> (n <= closed s)%nat /\ (n = closed s -> ver (current s) <= lastVersion s)
}.

(** A sequence loses elements but keeps its order. *)
Lemma increasing_drop after l1 l2 l3 : increasing after (l1 ++ l2 ++ l3) -> increasing after (l1 ++ l3).
Proof.
  unfold increasing. rewrite !fmap_app, !app_comm_cons, !StronglySorted_app. intros (H1 & H2 & _ & _ & H5).
  split; [|done]. intros x y Hx Hy. apply H1; set_solver.
Qed.

Lemma increasing_snoc after l v lv :
  increasing after l -> last (after :: (ver <$> l)) = Some lv -> lv < ver v -> increasing after (l ++ [v]).
Proof.
  unfold increasing. rewrite fmap_app, app_comm_cons. intros Hs [k Hk]%last_Some Hlt.
  apply StronglySorted_app_2; [|done | repeat constructor]. rewrite Hk in *.
  intros x y Hx ->%list_elem_of_singleton. apply elem_of_app in Hx as [Hx | ->%list_elem_of_singleton]; [|done].
  pose proof (StronglySorted_app_1_elem_of Z.lt _ _ x lv Hs Hx ltac:(left)). lia.
Qed.

Lemma watch_initial_inv a after : watch_inv after (initial a after).
Proof. split; [repeat constructor | done | done]. Qed.

Lemma watcher_step_inv after s s' : watch_inv after s -> watcher_step s s' -> watch_inv after s'.
Proof.
  intros [Hi Hl Hw] Hs. unfold sequence in *.
  (* the watcher gives up: what it held is lost *)
  assert (Hstop : watch_inv after (goto s Stopped)).
  { split; [|done | done]. unfold sequence. cbn. rewrite !app_nil_r.
    rewrite <- (app_nil_r (_ ++ _)). eapply increasing_drop. rewrite app_nil_r, <- app_assoc. exact Hi. }
  destruct Hs as [E H | E H | v E H | v E H | v E H | v E H | v u E H C | v u E H | v E H | v E H | v E H | n E H | n E H | n E H];
    try exact Hstop; rewrite ?E, ?H in *; cbn in *; rewrite ?app_nil_r in *.
  - specialize (Hl ltac:(done)). split; unfold sequence; cbn; [| |done].
    + rewrite app_assoc. by eapply increasing_snoc.
    + intros _. by rewrite app_assoc, fmap_snoc, app_comm_cons, last_snoc.
  - split; unfold sequence; cbn; rewrite ?app_nil_r; [done | auto |]. by intros n [= <-].
  - split; unfold sequence; cbn; rewrite ?app_nil_r; [done | auto | done].
  - split; unfold sequence; cbn; rewrite ?app_nil_r; [done | auto | done].
  - split; unfold sequence; cbn; rewrite ?H; [done | auto | done].
  - split; unfold sequence; cbn; [by eapply (increasing_drop after (received s) [u]) | | done].
    intros _. specialize (Hl ltac:(done)). change [u; v] with ([u] ++ [v]) in Hl.
    rewrite app_assoc, fmap_snoc, app_comm_cons, last_snoc in Hl. by rewrite fmap_snoc, app_comm_cons, last_snoc.
  - split; unfold sequence; cbn; rewrite ?app_nil_r; [done | auto | done].
  - split; unfold sequence; cbn; rewrite ?app_nil_r; [done | auto | done].
  - split; unfold sequence; cbn; rewrite ?app_nil_r; [done | auto | done].
Qed.

Lemma other_step_inv after s s' : watch_inv after s -> other_step s s' -> watch_inv after s'.
Proof.
  intros [Hi Hl Hw] Hs. unfold sequence in *. destruct Hs as [a Ha | v Hv].
  - split; unfold sequence; cbn; [done | done|]. intros n Hn. destruct (Hw n Hn). lia.
  - rewrite Hv in *. cbn in *. split; unfold sequence; cbn; rewrite <- ?app_assoc; done.
Qed.

Lemma reachable_inv a after s : rtc watch_step (initial a after) s -> watch_inv after s.
Proof.
  intros Hr. pose proof (watch_initial_inv a after) as H0. induction Hr as [|s1 s2 s Hs _ IH]; [done|]. apply IH.
  destruct Hs as [s' [Hs | Hs] | ]; [by eapply watcher_step_inv | by eapply other_step_inv|].
  destruct H0 as [Hi Hl Hw]. by split.
Qed.

(** A watch is in order and ends at the newest version: the versions a
    consumer receives increase strictly from the version it asked for, and whenever
    the watcher waits for the next notification, the last value received or waiting
    in the channel is not older than the published one. *)
Theorem watch_in_order a after s :
  rtc watch_step (initial a after) s ->
  increasing after (received s) /\
  (watcher s = Wait (closed s) ->
   exists v, last (after :: (ver <$> received s ++ option_list (updates s))) = Some v /\ ver (current s) <= v).
Proof.
  intros [Hi Hl Hw]%reachable_inv. unfold sequence in *. split.
  - rewrite <- (app_nil_r (received s)). eapply increasing_drop. by rewrite app_nil_r.
  - intros Ew. exists (lastVersion s). rewrite Ew in *. cbn in *. rewrite app_nil_r in *.
    split; [by apply Hl|]. by apply (Hw (closed s)).
Qed.

(** The watcher found the channel full, and before it could take the old value
    out, the consumer fetched it. *)
Definition stalled (v : A) (s : watch) : Prop := watcher s = Drain v /\ updates s = None /\ cancelled s = false.

Lemma stalled_forever v s s' : stalled v s -> rtc live_step s s' -> stalled v s' /\ received s' = received s.
Proof.
  intros Hst Hr. induction Hr as [|s s1 s' Hs _ IH]; [done|].
  assert (H : stalled v s1 /\ received s1 = received s).
  { destruct Hst as (E1 & E2 & E3). destruct Hs as [Hs | Hs].
    - destruct Hs; congruence.
    - destruct Hs as [a Ha | u Hu]; [done | congruence]. }
  destruct H as [H1 <-]. by apply IH.
Qed.
End Watch.

(** ** The stall is reachable *)

Section Stall.
Context (timer : bool).

Abbreviation hw := (@watch Z).
Abbreviation step := (watch_step (fun v : Z => v) timer).

Definition at_ (current : Z) (closed : nat) (updates : option Z) (w : @pc Z) (last : Z) (received : list Z) : hw :=
  {| current := current; closed := closed; cancelled := false; updates := updates; watcher := w; lastVersion := last;
     received := received |}.

Definition before_stall : hw := at_ 2 2 (Some 1) (Drain 2) 2 [].

Section Reach.
Context (goal : hw).

Lemma reach_watcher s s' : watcher_step (fun v : Z => v) timer s s' -> rtc step s' goal -> rtc step s goal.
Proof. intros Hs Hr. eapply rtc_l; [|exact Hr]. by do 2 left. Qed.

Lemma reach_publish s v :
  current s <= v ->
  rtc step {| current := v; closed := S (closed s); cancelled := cancelled s; updates := updates s;
              watcher := watcher s; lastVersion := lastVersion s; received := received s |} goal ->
  rtc step s goal.
Proof. intros Hv Hr. eapply rtc_l; [|exact Hr]. left. right. by apply publish. Qed.
End Reach.

Lemma sent_reachable : rtc step (initial 0 0) (at_ 1 1 (Some 1) Read 1 []).
Proof.
  apply (reach_publish _ _ 1); [done|]. eapply reach_watcher; [by apply read_newer|].
  eapply reach_watcher; [by eapply entry_go|]. eapply reach_watcher; [by eapply try_send|]. apply rtc_refl.
Qed.

Lemma before_stall_reachable : rtc step (initial 0 0) before_stall.
Proof.
  etrans; [apply sent_reachable|]. apply (reach_publish _ _ 2); [done|]. eapply reach_watcher; [by apply read_newer|].
  eapply reach_watcher; [by eapply entry_go|]. eapply reach_watcher; [by eapply try_default|]. apply rtc_refl.
Qed.

(** The consumer has fetched the newest version and the watcher waits. *)
Definition waiting : hw := at_ 1 1 None (Wait 1) 1 [1].

Lemma waiting_reachable : rtc step (initial 0 0) waiting.
Proof.
  etrans; [apply sent_reachable|]. eapply reach_watcher; [by apply read_same|].
  apply rtc_once. left. right. by apply (fetch _ (at_ 1 1 (Some 1) (Wait 1) 1 []) 1).
Qed.

(** A watch can stop for good: the watcher finds its channel full, the
    consumer fetches the value before the watcher takes it out, and from then on,
    until the context is cancelled, the watcher waits to receive from the channel it
    alone sends to.  Whatever is published after that, the consumer gets nothing. *)
Theorem watch_can_stall :
  exists s, rtc step (initial 0 0) s /\ received s = [1] /\ current s = 2 /\
    forall s', rtc (live_step (fun v : Z => v) timer) s s' -> received s' = [1] /\ updates s' = None.
Proof.
  exists (at_ 2 2 None (Drain 2) 2 [1]). split.
  - eapply rtc_r; [apply before_stall_reachable|]. left. right. by apply (fetch _ before_stall 1).
  - split; [done|]. split; [done|]. intros s' Hr.
    assert (Hst : stalled 2 (at_ 2 2 None (Drain 2) 2 [1])) by done.
    destruct (stalled_forever (fun v : Z => v) timer 2 _ _ Hst Hr) as [(_ & Hu & _) ->]. done.
Qed.
End Stall.

Lemma watch_in_order_witness :
  increasing (fun v : Z => v) 0 [1] /\
  exists v, last (0 :: ((fun v : Z => v) <$> received waiting ++ option_list (updates waiting))) = Some v /\ current waiting <= v.
Proof.
  destruct (watch_in_order (fun v : Z => v) false 0 0 waiting (waiting_reachable false)) as [H1 H2].
  split; [exact H1|]. apply H2. reflexivity.
Defined.
