(* ===== verification/Registry.v ===== *)
(** * The in-memory registry ([pkg/registry/registry.go])

    Service instances hold leases: they register, send heartbeats fenced by the
    epoch and token of their registration, and disappear when the lease expires.
    Each service publishes an immutable snapshot under a growing version; a heap of
    deadlines drives the sweeper.  [now] are readings of the registry's clock, and
    the random epochs and tokens are arguments.  Each operation is one step: the
    locks of a service and of the heap are not held together, and the model does not
    interleave what happens between them. *)
From Stdlib Require Import String.
From stdpp Require Import sorting.
From S2P Require Import Prelude GoStd GoSort GoHeap Status.

Record Instance := {
  ID : string;
  Service : string;
  Address : string;
  Status_ : Code;
  Labels : option (gmap string string);
  LastSeen : Z;
  RegistrationEpoch : string;
  OwnerToken : string
}.

Record InstanceSnapshot := {
  snap_Service : string;
  Version : Z;
  Instances : list Instance;
  nextExpiresAt : Z
}.

Record record := { instance : Instance; expiresAt : Z; generation : Z }.

(** [notify] counts the notification channels closed so far. *)
Record serviceState := { records : gmap string record; snapshot : InstanceSnapshot; version : Z; notify : N }.

Record expiryEntry := { e_service : string; e_id : string; e_expiresAt : Z; e_generation : Z }.

Record MemoryRegistry := { services : gmap string serviceState; expiries : list expiryEntry; generations : Z }.

Inductive registry_error := ErrContext | ErrInvalidInstance | ErrInstanceNotFound | ErrRegistrationEpochMismatch.

Definition NewMemoryRegistry : MemoryRegistry := {| services := ∅; expiries := []; generations := 0 |}.

(** [time.Time.Add] within the range of the representation. *)
Definition time_Add (t d : Z) : Z := t + d.

(** The order of the heap. *)
Definition entry_less (a b : expiryEntry) : bool := e_expiresAt a <? e_expiresAt b.

#[export] Instance entry_less_order : StrictWeak entry_less.
Proof.
  split.
  - intros x y. unfold not_after, entry_less. rewrite Z.ltb_lt, Z.ltb_ge. lia.
  - intros x y z. unfold not_after, entry_less. rewrite !Z.ltb_ge. lia.
Qed.

Definition pushExpiry (r : MemoryRegistry) (e : expiryEntry) : MemoryRegistry :=
  {| services := services r; expiries := Push entry_less (expiries r) e; generations := generations r |}.

(** The entry removed, if the earliest deadline has passed. *)
Definition popExpired (r : MemoryRegistry) (now : Z) : option (expiryEntry * MemoryRegistry) :=
  match expiries r !! 0%nat with
  | None => None
  | Some e =>
      if now <? e_expiresAt e then None
      else match Pop entry_less (expiries r) with
           | Some (e, rest) => Some (e, {| services := services r; expiries := rest; generations := generations r |})
           | None => None
           end
  end.

(** ** Services *)

Definition newServiceState (service : string) : serviceState := {|
  records := ∅; snapshot := {| snap_Service := service; Version := 0; Instances := []; nextExpiresAt := zero_time |};
  version := 0; notify := 0 |}.

(** The state of a service, created when there is none. *)
Definition get_service (r : MemoryRegistry) (service : string) : serviceState :=
  default (newServiceState service) (services r !! service).

Definition set_service (r : MemoryRegistry) (service : string) (s : serviceState) : MemoryRegistry :=
  {| services := <[service := s]> (services r); expiries := expiries r; generations := generations r |}.

Definition next_generation (r : MemoryRegistry) : MemoryRegistry :=
  {| services := services r; expiries := expiries r; generations := wrapu 64 (generations r + 1) |}.

Definition set_records (s : serviceState) (recs : gmap string record) : serviceState :=
  {| records := recs; snapshot := snapshot s; version := version s; notify := notify s |}.

(** The order in which Go traverses the records of a service. *)
Definition record_order : Type := gmap string record -> list (string * record).

Definition live (now : Z) (rec : record) : bool := now <? expiresAt rec.

(** The loop's running minimum. *)
Definition earliest (next : Z) (rec : record) : Z :=
  if IsZero next || (expiresAt rec <? next) then expiresAt rec else next.

Definition rebuildSnapshotLocked (visit : record_order) (service : string) (now : Z) (s : serviceState) : serviceState :=
  let lives := filter (fun rec => live now rec = true) (visit (records s)).*2 in
  let v := wraps 64 (version s + 1) in
  {| records := records s;
     snapshot := {| snap_Service := service; Version := v;
                    Instances := Slice (by_keys (fun i => [ID i])) (instance <$> lives);
                    nextExpiresAt := foldl earliest zero_time lives |};
     version := v; notify := notify s + 1 |}.

Definition snapshotNeedsExpiry (snap : InstanceSnapshot) (now : Z) : bool :=
  negb (IsZero (nextExpiresAt snap)) && negb (now <? nextExpiresAt snap).

(** ** Operations *)

Section Operations.
Context (visit : record_order).

Definition store_record (r : MemoryRegistry) (now : Z) (rec : record) : MemoryRegistry :=
  let service := Service (instance rec) in
  let s := get_service r service in
  set_service r service (rebuildSnapshotLocked visit service now (set_records s (<[ID (instance rec) := rec]> (records s)))).

(** [ctxErr] is whether the context is done; [epoch] and [token] are the new
    registration epoch and owner token. *)
Definition registerAt (ctxErr : bool) (epoch token : string) (inst : Instance) (ttl now : Z) (r : MemoryRegistry)
  : option registry_error * MemoryRegistry :=
  if ctxErr then (Some ErrContext, r)
  else if bool_decide (ID inst = ""%string \/ Service inst = ""%string \/ Address inst = ""%string) then (Some ErrInvalidInstance, r)
  else if ttl <=? 0 then (Some ErrInvalidInstance, r)
  else
    let inst := {| ID := ID inst; Service := Service inst; Address := Address inst;
      Status_ := if bool_decide (Status_ inst = Unspecified) then Healthy else Status_ inst; Labels := Labels inst; LastSeen := now;
      RegistrationEpoch := epoch; OwnerToken := token |} in
    let expires := time_Add (LastSeen inst) ttl in
    let r := next_generation r in
    let gen := generations r in
    let r := store_record r now {| instance := inst; expiresAt := expires; generation := gen |} in
    (None, pushExpiry r {| e_service := Service inst; e_id := ID inst; e_expiresAt := expires; e_generation := gen |}).

Definition heartbeatAtWithOwner (ctxErr : bool) (service id registrationEpoch ownerToken : string) (ttl now : Z)
    (requireEpoch requireOwner : bool) (r : MemoryRegistry) : option registry_error * MemoryRegistry :=
  if ctxErr then (Some ErrContext, r)
  else if bool_decide (service = ""%string \/ id = ""%string) || (ttl <=? 0) then (Some ErrInvalidInstance, r)
  else
    match services r !! service with
    | None => (Some ErrInstanceNotFound, r)
    | Some state =>
        let expires := time_Add now ttl in
        let r := next_generation r in
        let gen := generations r in
        match records state !! id with
        | None => (Some ErrInstanceNotFound, r)
        | Some rec =>
            let inst := instance rec in
            if requireEpoch && bool_decide (RegistrationEpoch inst <> registrationEpoch)
            then (Some ErrRegistrationEpochMismatch, r)
            else if requireOwner && bool_decide (OwnerToken inst <> ownerToken)
            then (Some ErrRegistrationEpochMismatch, r)
            else
              let rec := {| instance := {| ID := ID inst; Service := Service inst; Address := Address inst;
                  Status_ := Status_ inst; Labels := Labels inst; LastSeen := now;
                  RegistrationEpoch := RegistrationEpoch inst; OwnerToken := OwnerToken inst |};
                expiresAt := expires; generation := gen |} in
              let state := rebuildSnapshotLocked visit service now (set_records state (<[id := rec]> (records state))) in
              (None, pushExpiry (set_service r service state)
                       {| e_service := service; e_id := id; e_expiresAt := expires; e_generation := gen |})
        end
    end.

(** The checks of a heartbeat without its effect. *)
Definition validateHeartbeatWithOwner (ctxErr : bool) (service id registrationEpoch ownerToken : string) (ttl : Z)
    (requireEpoch requireOwner : bool) (r : MemoryRegistry) : option registry_error :=
  if ctxErr then Some ErrContext
  else if bool_decide (service = ""%string \/ id = ""%string) || (ttl <=? 0) then Some ErrInvalidInstance
  else
    match services r !! service with
    | None => Some ErrInstanceNotFound
    | Some state =>
        match records state !! id with
        | None => Some ErrInstanceNotFound
        | Some rec =>
            if requireEpoch && bool_decide (RegistrationEpoch (instance rec) <> registrationEpoch)
            then Some ErrRegistrationEpochMismatch
            else if requireOwner && bool_decide (OwnerToken (instance rec) <> ownerToken)
            then Some ErrRegistrationEpochMismatch
            else None
        end
    end.

Definition Heartbeat (ctxErr : bool) (service id : string) (ttl now : Z) (r : MemoryRegistry) :=
  heartbeatAtWithOwner ctxErr service id "" "" ttl now false false r.

Definition HeartbeatWithEpoch (ctxErr : bool) (service id registrationEpoch : string) (ttl now : Z) (r : MemoryRegistry) :=
  if bool_decide (registrationEpoch = ""%string) then (Some ErrInvalidInstance, r)
  else heartbeatAtWithOwner ctxErr service id registrationEpoch "" ttl now true false r.

Definition HeartbeatWithOwner (ctxErr : bool) (service id registrationEpoch ownerToken : string) (ttl now : Z)
    (r : MemoryRegistry) :=
  if bool_decide (registrationEpoch = ""%string \/ ownerToken = ""%string) then (Some ErrInvalidInstance, r)
  else heartbeatAtWithOwner ctxErr service id registrationEpoch ownerToken ttl now true true r.

(** [sweepExpiredForService]: the number of records removed. *)
Definition sweepExpiredForService (ctxErr : bool) (service : string) (now : Z) (r : MemoryRegistry) : Z * MemoryRegistry :=
  if ctxErr then (0, r) else
  match services r !! service with
  | None => (0, r)
  | Some state =>
      let kept := filter (fun p => live now p.2 = true) (records state) in
      let expired := Z.of_nat (size (records state)) - Z.of_nat (size kept) in
      if 0 <? expired
      then (expired, set_service r service (rebuildSnapshotLocked visit service now (set_records state kept)))
      else (0, r)
  end.

(** [Snapshot]; the labels are copied, which the model's values are anyway.  The
    context is read twice: on entry ([ctxErr]) and by the sweep ([ctxErr2]). *)
Definition Snapshot (ctxErr ctxErr2 : bool) (service : string) (now : Z) (r : MemoryRegistry)
  : (registry_error + InstanceSnapshot) * MemoryRegistry :=
  if ctxErr then (inl ErrContext, r)
  else if bool_decide (service = ""%string) then (inl ErrInvalidInstance, r)
  else
    match services r !! service with
    | None => (inr {| snap_Service := service; Version := 0; Instances := []; nextExpiresAt := zero_time |}, r)
    | Some state =>
        if snapshotNeedsExpiry (snapshot state) now then
          let r := (sweepExpiredForService ctxErr2 service now r).2 in
          (inr (snapshot (get_service r service)), r)
        else (inr (snapshot state), r)
    end.

Definition List (ctxErr ctxErr2 : bool) (service : string) (now : Z) (r : MemoryRegistry)
  : (registry_error + list Instance) * MemoryRegistry :=
  let '(res, r) := Snapshot ctxErr ctxErr2 service now r in
  (match res with inl e => inl e | inr snap => inr (Instances snap) end, r).

(** What [Watch] does to the registry: the service exists afterwards. *)
Definition Watch (ctxErr : bool) (service : string) (r : MemoryRegistry) : option registry_error * MemoryRegistry :=
  if ctxErr then (Some ErrContext, r)
  else if bool_decide (service = ""%string) then (Some ErrInvalidInstance, r)
  else (None, set_service r service (get_service r service)).

(** One turn of the loop of [watch] up to its decision to send: the snapshot read. *)
Definition watch_poll (ctxErr : bool) (service : string) (now : Z) (r : MemoryRegistry) : InstanceSnapshot * MemoryRegistry :=
  let r := if snapshotNeedsExpiry (snapshot (get_service r service)) now
           then (sweepExpiredForService ctxErr service now r).2 else r in
  (snapshot (get_service r service), r).

(** The delay of the timer that wakes a watcher, if it sets one. *)
Definition nextExpiryTimer (snap : InstanceSnapshot) (now : Z) : option Z :=
  if IsZero (nextExpiresAt snap) then None else Some (Z.max 0 (nextExpiresAt snap - now)).

(** The loop of the sweeper: [cancel] is after how many entries the context is
    done, [None] if it stays alive; [fuel] bounds the iterations.  It returns the
    records removed. *)
Fixpoint sweep_loop (fuel : nat) (cancel : option nat) (now : Z) (expired : list (string * string)) (r : MemoryRegistry)
  : list (string * string) * MemoryRegistry :=
  match fuel with
  | O => (expired, r)
  | S fuel' =>
      match popExpired r now with
      | None => (expired, r)
      | Some (entry, r) =>
          match cancel with
          | Some O => (expired, r)
          | _ =>
              let next := sweep_loop fuel' (pred <$> cancel) now in
              match services r !! e_service entry with
              | None => next expired r
              | Some state =>
                  match records state !! e_id entry with
                  | Some rec =>
                      if (generation rec =? e_generation entry) && negb (live now rec) then
                        next (expired ++ [(e_service entry, e_id entry)])
                          (set_service r (e_service entry) (set_records state (delete (e_id entry) (records state))))
                      else next expired r
                  | None => next expired r
                  end
              end
          end
      end
  end.

(** The services that lost a record publish a new snapshot; [ord] is the order in
    which they are traversed. *)
Definition rebuild_dirty (now : Z) (r : MemoryRegistry) (service : string) : MemoryRegistry :=
  match services r !! service with
  | Some state => set_service r service (rebuildSnapshotLocked visit service now state)
  | None => r
  end.

Definition sweepExpiredRecords (ctxErr : bool) (cancel : option nat) (ord : gset string -> list string) (now : Z)
    (r : MemoryRegistry) : list (string * string) * MemoryRegistry :=
  if ctxErr then ([], r) else
  let '(expired, r) := sweep_loop (S (length (expiries r))) cancel now [] r in
  (expired, foldl (rebuild_dirty now) r (ord (list_to_set expired.*1))).

Definition SweepExpired (ctxErr : bool) (cancel : option nat) (ord : gset string -> list string) (now : Z)
    (r : MemoryRegistry) : Z * MemoryRegistry :=
  let '(expired, r) := sweepExpiredRecords ctxErr cancel ord now r in (Z.of_nat (length expired), r).

Definition recordExists (service id : string) (r : MemoryRegistry) : bool :=
  match services r !! service with Some state => bool_decide (is_Some (records state !! id)) | None => false end.

Definition deleteRecord (service id : string) (now : Z) (r : MemoryRegistry) : bool * MemoryRegistry :=
  match services r !! service with
  | None => (false, r)
  | Some state =>
      match records state !! id with
      | None => (false, r)
      | Some _ => (true, set_service r service
          (rebuildSnapshotLocked visit service now (set_records state (delete id (records state)))))
      end
  end.

(** [now1] and [now2] are the readings of the clock for the filter and for the
    snapshot; [epoch] and [token] replace missing ones. *)
Definition restoreRecord (epoch token : string) (inst : Instance) (expires : Z) (filterExpired : bool) (now1 now2 : Z)
    (r : MemoryRegistry) : MemoryRegistry :=
  if bool_decide (ID inst = ""%string \/ Service inst = ""%string \/ Address inst = ""%string) then r
  else if filterExpired && negb (now1 <? expires) then r
  else
    let inst := {| ID := ID inst; Service := Service inst; Address := Address inst;
      Status_ := if bool_decide (Status_ inst = Unspecified) then Healthy else Status_ inst; Labels := Labels inst;
      LastSeen := LastSeen inst;
      RegistrationEpoch := if bool_decide (RegistrationEpoch inst = ""%string) then epoch else RegistrationEpoch inst;
      OwnerToken := if bool_decide (OwnerToken inst = ""%string) then token else OwnerToken inst |} in
    let r := next_generation r in
    let gen := generations r in
    let r := store_record r now2 {| instance := inst; expiresAt := expires; generation := gen |} in
    pushExpiry r {| e_service := Service inst; e_id := ID inst; e_expiresAt := expires; e_generation := gen |}.

Definition restore (epoch token : string) (inst : Instance) (expires now1 now2 : Z) (r : MemoryRegistry) : MemoryRegistry :=
  restoreRecord epoch token inst expires true now1 now2 r.

Definition restoreHistorical (epoch token : string) (inst : Instance) (expires now : Z) (r : MemoryRegistry)
  : MemoryRegistry := restoreRecord epoch token inst expires false now now r.
End Operations.
