(* ===== verification/RegistrySpec.v ===== *)
(** * The contract of the registry

    A table of leases, written only by accepted registrations, heartbeats,
    deletions and restorations, explains every answer of the registry: sweeping is
    invisible in it.  The heap of deadlines finds every expired record, and every
    change of a published snapshot is announced under the next version. *)
From Stdlib Require Import String.
From stdpp Require Import sorting.
From S2P Require Import Prelude GoStd GoSort GoHeap Status Registry.

(** ** The table of leases *)

Record lease := { l_instance : Instance; l_expires : Z }.

(** What a reader is shown at [now]: the live leases of the service, ascending by ID. *)
Definition listing (L : gmap (string * string) lease) (service : string) (now : Z) (insts : list Instance) : Prop :=
  StronglySorted (fun i j => String.ltb (ID i) (ID j) = true) insts /\
  forall inst, inst ∈ insts <-> exists id l, L !! (service, id) = Some l /\ now < l_expires l /\ inst = l_instance l.

Definition registered (inst : Instance) (epoch token : string) (seen : Z) : Instance :=
  {| ID := ID inst; Service := Service inst; Address := Address inst; Status_ := Normalized (Status_ inst);
     Labels := Labels inst; LastSeen := seen; RegistrationEpoch := epoch; OwnerToken := token |}.

Definition renewed (inst : Instance) (now : Z) : Instance :=
  {| ID := ID inst; Service := Service inst; Address := Address inst; Status_ := Status_ inst;
     Labels := Labels inst; LastSeen := now; RegistrationEpoch := RegistrationEpoch inst; OwnerToken := OwnerToken inst |}.

Definition complete (inst : Instance) : Prop :=
  ID inst <> ""%string /\ Service inst <> ""%string /\ Address inst <> ""%string.

#[export] Instance complete_dec inst : Decision (complete inst).
Proof. unfold complete. apply _. Defined.

(** The caller holds the registration, as far as it is asked to prove it. *)
Definition fence (requireEpoch requireOwner : bool) (epoch token : string) (inst : Instance) : Prop :=
  (requireEpoch = true -> RegistrationEpoch inst = epoch) /\ (requireOwner = true -> OwnerToken inst = token).

(** ** Events *)

Inductive op :=
| ORegister (ctxErr : bool) (epoch token : string) (inst : Instance) (ttl : Z)
| OHeartbeat (ctxErr : bool) (service id epoch token : string) (ttl : Z) (requireEpoch requireOwner : bool)
| OSnapshot (ctxErr ctxErr2 : bool) (service : string)
| OWatch (ctxErr : bool) (service : string)
| OPoll (ctxErr : bool) (service : string)
| OSweep (ctxErr : bool) (cancel : option nat)
| ODelete (service id : string)
| ORestore (epoch token : string) (inst : Instance) (expires : Z) (filterExpired : bool) (now1 : Z).

Inductive result :=
| Done (e : option registry_error)
| Shown (s : registry_error + InstanceSnapshot)
| Polled (s : InstanceSnapshot)
| Swept (expired : list (string * string))
| Deleted (b : bool)
| Restored.

(** An operation with the clock it reads and the orders of Go's map traversals. *)
Record event := { at_ : Z; visits : record_order; dirty_order : gset string -> list string; action : op }.

Definition traverses (e : event) : Prop :=
  (forall m, visits e m ≡ₚ map_to_list m) /\ (forall X, dirty_order e X ≡ₚ elements X).

Definition step (e : event) (r : MemoryRegistry) : result * MemoryRegistry :=
  let v := visits e in
  let now := at_ e in
  match action e with
  | ORegister c epoch token inst ttl => let '(x, r) := registerAt v c epoch token inst ttl now r in (Done x, r)
  | OHeartbeat c s id epoch token ttl re ro =>
      let '(x, r) := heartbeatAtWithOwner v c s id epoch token ttl now re ro r in (Done x, r)
  | OSnapshot c c2 s => let '(x, r) := Snapshot v c c2 s now r in (Shown x, r)
  | OWatch c s => let '(x, r) := Watch c s r in (Done x, r)
  | OPoll c s => let '(x, r) := watch_poll v c s now r in (Polled x, r)
  | OSweep c cancel => let '(x, r) := sweepExpiredRecords v c cancel (dirty_order e) now r in (Swept x, r)
  | ODelete s id => let '(x, r) := deleteRecord v s id now r in (Deleted x, r)
  | ORestore epoch token inst ex f now1 => (Restored, restoreRecord v epoch token inst ex f now1 now r)
  end.

(** ** The contract *)

Definition contract (now : Z) (o : op) (L : gmap (string * string) lease) (x : result) (L' : gmap (string * string) lease) : Prop :=
  match o, x with
  | ORegister c epoch token inst ttl, Done x =>
      if decide (c = false /\ complete inst /\ 0 < ttl)
      then x = None /\
           L' = <[(Service inst, ID inst) := {| l_instance := registered inst epoch token now; l_expires := now + ttl |}]> L
      else is_Some x /\ L' = L
  | OHeartbeat c s id epoch token ttl re ro, Done None =>
      exists l, L !! (s, id) = Some l /\ fence re ro epoch token (l_instance l) /\
        L' = <[(s, id) := {| l_instance := renewed (l_instance l) now; l_expires := now + ttl |}]> L
  | OHeartbeat c s id epoch token ttl re ro, Done (Some _) =>
      L' = L /\ forall l, L !! (s, id) = Some l -> now < l_expires l -> c = false -> s <> ""%string -> id <> ""%string ->
        0 < ttl -> ~ fence re ro epoch token (l_instance l)
  | OSnapshot c _ s, Shown (inl _) => L' = L /\ (c = true \/ s = ""%string)
  | OSnapshot c c2 s, Shown (inr snap) => L' = L /\ (c2 = false -> listing L s now (Instances snap))
  | OWatch c s, Done x => L' = L /\ (x = None <-> c = false /\ s <> ""%string)
  | OPoll c s, Polled snap => L' = L /\ (c = false -> listing L s now (Instances snap))
  | OSweep _ _, Swept expired =>
      L' = L /\ forall s id, (s, id) ∈ expired -> exists l, L !! (s, id) = Some l /\ l_expires l <= now
  | ODelete s id, Deleted b =>
      if b then L' = delete (s, id) L else L' = L /\ forall l, L !! (s, id) = Some l -> l_expires l <= now
  | ORestore epoch token inst ex f now1, Restored =>
      if decide (complete inst /\ (f = true -> now1 < ex))
      then L' = <[(Service inst, ID inst) := {| l_instance := registered inst
                    (if bool_decide (RegistrationEpoch inst = ""%string) then epoch else RegistrationEpoch inst)
                    (if bool_decide (OwnerToken inst = ""%string) then token else OwnerToken inst) (LastSeen inst);
                    l_expires := ex |}]> L
      else L' = L
  | _, _ => False
  end.

(** A run of the registry, and the runs of the table its results allow. *)
Fixpoint run (es : list event) (r : MemoryRegistry) : list result * MemoryRegistry :=
  match es with
  | [] => ([], r)
  | e :: es => let '(x, r) := step e r in let '(xs, r) := run es r in (x :: xs, r)
  end.

Inductive explains : list event -> gmap (string * string) lease -> list result -> gmap (string * string) lease -> Prop :=
| explains_nil L : explains [] L [] L
| explains_cons e es L x L' xs L'' :
    contract (at_ e) (action e) L x L' -> explains es L' xs L'' -> explains (e :: es) L (x :: xs) L''.

(** The clock does not go back. *)
Fixpoint clock_from (t : Z) (es : list event) : Prop :=
  match es with [] => True | e :: es => t <= at_ e /\ clock_from (at_ e) es end.

(** ** The relation between registry and table *)

Definition lookup_record (r : MemoryRegistry) (s id : string) : option record :=
  services r !! s ≫= fun st => records st !! id.

Definition keyed (recs : gmap string record) : Prop := map_Forall (fun id rec => ID (instance rec) = id) recs.

Definition lives (v : record_order) (b : Z) (recs : gmap string record) : list record :=
  filter (fun rec => live b rec = true) (v recs).*2.

(** The snapshot was built from these records at some earlier time. *)
Definition published (clock : Z) (st : serviceState) : Prop :=
  exists v b, (forall m, v m ≡ₚ map_to_list m) /\ zero_time <= b <= clock /\
    Instances (snapshot st) = Slice (by_keys (fun i => [ID i])) (instance <$> lives v b (records st)) /\
    nextExpiresAt (snapshot st) = foldl earliest zero_time (lives v b (records st)).

Definition state_ok (clock : Z) (st : serviceState) : Prop := keyed (records st) /\ published clock st.

Definition to_lease (rec : record) : lease := {| l_instance := instance rec; l_expires := expiresAt rec |}.

(** The services in [D] have yet to publish a deletion. *)
Record refines (D : gset string) (clock : Z) (r : MemoryRegistry) (L : gmap (string * string) lease) : Prop := {
  refines_keyed : forall s st, services r !! s = Some st -> keyed (records st);
  refines_published : forall s st, services r !! s = Some st -> s ∉ D -> published clock st;
  refines_sound : forall s id rec, lookup_record r s id = Some rec -> L !! (s, id) = Some (to_lease rec);
  refines_live : forall s id l, L !! (s, id) = Some l -> clock < l_expires l ->
    exists rec, lookup_record r s id = Some rec /\ to_lease rec = l
}.

(** ** Snapshots *)

Lemma foldl_earliest b recs acc :
  zero_time <= b -> Forall (fun rec => b < expiresAt rec) recs -> acc = zero_time \/ b < acc ->
  let n := foldl earliest acc recs in
  (n = zero_time <-> acc = zero_time /\ recs = []) /\
  (n <> zero_time -> n = acc \/ exists rec, rec ∈ recs /\ expiresAt rec = n) /\
  (acc <> zero_time -> n <= acc) /\ Forall (fun rec => n <= expiresAt rec) recs.
Proof.
  intros Hb. revert acc. induction recs as [|rec recs IH]; intros acc Hr Hacc; simpl.
  { split; [naive_solver|]. split; [auto|]. split; [lia|constructor]. }
  apply Forall_cons in Hr as [Hrec Hr].
  assert (He : earliest acc rec = if decide (acc = zero_time) then expiresAt rec else Z.min acc (expiresAt rec)).
  { unfold earliest, IsZero. destruct (Z.eqb_spec acc zero_time), (Z.ltb_spec (expiresAt rec) acc); simpl;
      case_decide; lia. }
  destruct (IH (earliest acc rec) Hr) as (H1 & H2 & H3 & H4); [rewrite He; case_decide; lia|].
  assert (Hne : earliest acc rec <> zero_time) by (rewrite He; case_decide; lia).
  assert (Hle : earliest acc rec <= expiresAt rec /\ (acc <> zero_time -> earliest acc rec <= acc))
    by (rewrite He; case_decide; lia).
  specialize (H3 Hne). split; [|split; [|split]].
  - split; [intros Hn; apply H1 in Hn; naive_solver|intros [_ H]; done].
  - intros Hn. destruct (H2 Hn) as [E|(rec' & ? & ?)]; [|right; exists rec'; set_solver].
    rewrite E, He. case_decide; [right; exists rec; set_solver|].
    destruct (Z.min_spec acc (expiresAt rec)) as [[_ ->]|[_ ->]]; [by left|right; exists rec; set_solver].
  - intros Ha. destruct Hle as [_ Hle]. specialize (Hle Ha). lia.
  - constructor; [lia|done].
Qed.

Section Lives.
Context (v : record_order) (Hv : forall m, v m ≡ₚ map_to_list m).

Lemma elem_of_lives b recs rec :
  rec ∈ lives v b recs <-> b < expiresAt rec /\ exists id, recs !! id = Some rec.
Proof.
  unfold lives, live. rewrite list_elem_of_filter, Z.ltb_lt, list_elem_of_fmap. apply and_iff_compat_l. split.
  - intros ([id rec'] & -> & Hin). rewrite Hv in Hin. apply elem_of_map_to_list in Hin. by exists id.
  - intros [id Hid]. exists (id, rec). split; [done|]. rewrite Hv. by apply elem_of_map_to_list.
Qed.

Lemma lives_ids b recs : keyed recs -> NoDup (ID <$> (instance <$> lives v b recs)).
Proof.
  intros Hk. unfold lives. rewrite <- list_fmap_compose. apply NoDup_fmap_filter.
  rewrite <- list_fmap_compose.
  assert (E : (ID ∘ instance) ∘ snd <$> v recs = (v recs).*1).
  { apply list_fmap_ext. intros i [id rec] Hi. apply list_elem_of_lookup_2 in Hi. rewrite Hv in Hi.
    apply elem_of_map_to_list in Hi. by apply (Hk id rec). }
  rewrite E, Hv. apply NoDup_fst_map_to_list.
Qed.

(** The instances of a snapshot built at [b] are the live ones, as long as none
    of them has expired since. *)
Lemma build_shows b now recs inst :
  zero_time <= b <= now ->
  let next := foldl earliest zero_time (lives v b recs) in
  IsZero next = true \/ now < next ->
  inst ∈ Slice (by_keys (fun i => [ID i])) (instance <$> lives v b recs) <->
  exists id rec, recs !! id = Some rec /\ now < expiresAt rec /\ inst = instance rec.
Proof.
  intros Hb next Hnext.
  assert (Hall : Forall (fun rec => b < expiresAt rec) (lives v b recs))
    by (apply Forall_forall; intros rec; rewrite elem_of_lives; tauto).
  destruct (foldl_earliest b (lives v b recs) zero_time) as (H1 & _ & _ & H4); [lia|done|by left|].
  rewrite Slice_perm, list_elem_of_fmap. split.
  - intros (rec & -> & Hin). destruct Hnext as [Hz|Hn].
    + apply Z.eqb_eq, H1 in Hz as [_ Hz]. rewrite Hz in Hin. set_solver.
    + rewrite Forall_forall in H4. pose proof (H4 _ Hin) as Hle. apply elem_of_lives in Hin as [_ [id Hid]].
      exists id, rec. split; [done|]. split; [fold next in Hle; lia|done].
  - intros (id & rec & Hid & Hlt & ->). exists rec. split; [done|]. apply elem_of_lives. split; [lia|eauto].
Qed.
End Lives.

Lemma published_mono clock now st : clock <= now -> published clock st -> published now st.
Proof. intros Hle (v & b & Hv & Hb & H). exists v, b. split; [done|]. split; [lia|done]. Qed.

Lemma rebuild_ok v service now st :
  (forall m, v m ≡ₚ map_to_list m) -> zero_time <= now -> keyed (records st) ->
  state_ok now (rebuildSnapshotLocked v service now st).
Proof. intros Hv Hz Hk. split; [done|]. exists v, now. split; [done|]. split; [lia|done]. Qed.

Lemma newServiceState_ok clock service : zero_time <= clock -> state_ok clock (newServiceState service).
Proof.
  intros Hz. split; [apply map_Forall_empty|]. exists map_to_list, clock. split; [done|]. split; [lia|].
  unfold lives. simpl. by rewrite map_to_list_empty.
Qed.

(** ** Preservation *)

Lemma lookup_set_service r s st s' id :
  lookup_record (set_service r s st) s' id = if decide (s = s') then records st !! id else lookup_record r s' id.
Proof. unfold lookup_record. simpl. case_decide; [subst; by rewrite lookup_insert_eq | by rewrite lookup_insert_ne]. Qed.

Lemma get_service_records r s id : records (get_service r s) !! id = lookup_record r s id.
Proof. unfold get_service, lookup_record. by destruct (services r !! s). Qed.

Lemma lookup_record_services r s st id : services r !! s = Some st -> lookup_record r s id = records st !! id.
Proof. intros H. unfold lookup_record. by rewrite H. Qed.

Lemma get_service_ok D clock r L s :
  zero_time <= clock -> refines D clock r L -> keyed (records (get_service r s)) /\ (s ∉ D -> published clock (get_service r s)).
Proof.
  intros Hz [Hk Hp _ _]. unfold get_service. destruct (services r !! s) as [st|] eqn:E; simpl; [split; eauto|].
  destruct (newServiceState_ok clock s Hz). auto.
Qed.

Lemma refines_mono D clock now r L : clock <= now -> refines D clock r L -> refines D now r L.
Proof.
  intros Hle [Hk Hp Hs Hl]. split; [done | | done |].
  - intros s st Hst HD. by apply (published_mono clock), (Hp s).
  - intros s id l HL Hlt. apply (Hl s id l HL). lia.
Qed.

(** The registry matters only through its services. *)
Lemma refines_services D clock r r' L : services r' = services r -> refines D clock r L -> refines D clock r' L.
Proof. intros E [Hk Hp Hs Hl]. split; unfold lookup_record in *; rewrite E; done. Qed.

(** One service changes, and with it its part of the table. *)
Lemma refines_set D D' now r s st L L' :
  refines D now r L -> keyed (records st) -> (s ∉ D' -> published now st) -> D ⊆ D' ∪ {[s]} ->
  (forall id rec, records st !! id = Some rec -> L' !! (s, id) = Some (to_lease rec)) ->
  (forall id l, L' !! (s, id) = Some l -> now < l_expires l -> exists rec, records st !! id = Some rec /\ to_lease rec = l) ->
  (forall s' id, s <> s' -> L' !! (s', id) = L !! (s', id)) ->
  refines D' now (set_service r s st) L'.
Proof.
  intros [Hk Hp Hs Hl] Hkst Hpst HD Hsound Hlive Hother. split.
  - intros s' st' Hst'. simpl in Hst'. apply lookup_insert_Some in Hst' as [[<- <-]|[Hne Hst']]; eauto.
  - intros s' st' Hst' HD'. simpl in Hst'. apply lookup_insert_Some in Hst' as [[<- <-]|[Hne Hst']]; [auto|].
    apply (Hp s'); [done|]. set_solver.
  - intros s' id rec. rewrite lookup_set_service. case_decide; [subst; auto|]. rewrite Hother by done. apply Hs.
  - intros s' id l. rewrite lookup_set_service. case_decide; [subst; auto|]. rewrite Hother by done. apply Hl.
Qed.

Section Preservation.
Context (v : record_order) (Hv : forall m, v m ≡ₚ map_to_list m) (now : Z) (Hz : zero_time <= now).

(** A lease is written. *)
Lemma refines_insert r L s id rec :
  refines ∅ now r L -> ID (instance rec) = id ->
  refines ∅ now (set_service r s (rebuildSnapshotLocked v s now
      (set_records (get_service r s) (<[id := rec]> (records (get_service r s))))))
    (<[(s, id) := to_lease rec]> L).
Proof.
  intros HR Hid. destruct (get_service_ok _ _ _ _ s Hz HR) as [Hk _].
  assert (Hk' : keyed (<[id := rec]> (records (get_service r s)))) by by apply map_Forall_insert_2.
  apply (refines_set ∅ ∅ now r s _ L); [done | done | | set_solver | | |].
  - intros _. by apply rebuild_ok.
  - intros id' rec'. simpl. rewrite lookup_insert_Some. intros [[<- <-]|[Hne Hr]]; [by rewrite lookup_insert_eq|].
    rewrite lookup_insert_ne by congruence. rewrite get_service_records in Hr. by apply (refines_sound _ _ _ _ HR).
  - intros id' l. simpl. destruct (decide (id = id')) as [<-|Hne].
    + rewrite !lookup_insert_eq. intros [= <-] _. eauto.
    + rewrite !lookup_insert_ne by congruence. rewrite get_service_records. apply (refines_live _ _ _ _ HR).
  - intros s' id' Hne. by rewrite lookup_insert_ne by congruence.
Qed.

(** Some expired records are dropped. *)
Lemma refines_shrink D D' r L s st st' :
  refines D now r L -> services r !! s = Some st -> records st' ⊆ records st ->
  (forall id rec, records st !! id = Some rec -> now < expiresAt rec -> records st' !! id = Some rec) ->
  (s ∉ D' -> published now st') -> D ⊆ D' ∪ {[s]} -> refines D' now (set_service r s st') L.
Proof.
  intros HR Hst Hsub Hkeep Hp HD. pose proof HR as [Hk _ Hs Hl].
  apply (refines_set D D' now r s st' L); [done | | done | done | | | done].
  - intros id rec Hr. apply (Hk s st Hst id). by apply (lookup_weaken _ _ _ _ Hr).
  - intros id rec Hr. apply Hs. rewrite (lookup_record_services _ _ _ _ Hst). by apply (lookup_weaken _ _ _ _ Hr).
  - intros id l HL Hlt. destruct (Hl s id l HL Hlt) as (rec & Hr & <-). exists rec. split; [|done].
    rewrite (lookup_record_services _ _ _ _ Hst) in Hr. by apply Hkeep.
Qed.

Lemma sweep_service_refines D c s r L :
  refines D now r L -> refines D now (sweepExpiredForService v c s now r).2 L.
Proof.
  intros HR. unfold sweepExpiredForService. destruct c; [done|]. destruct (services r !! s) as [st|] eqn:Hst; [|done].
  destruct (Z.ltb_spec 0 (Z.of_nat (size (records st)) - Z.of_nat (size (filter (fun p => live now p.2 = true) (records st)))));
    [|done]. simpl.
  apply (refines_shrink D D r L s st); [done | done | apply map_filter_subseteq | | | set_solver].
  - intros id rec Hr Hlt. simpl. apply map_lookup_filter_Some. split; [done|]. by apply Z.ltb_lt.
  - intros _. apply rebuild_ok; [done..|]. intros id rec Hr. simpl in Hr. apply map_lookup_filter_Some in Hr as [Hr _].
    by apply (refines_keyed _ _ _ _ HR s st Hst id).
Qed.

Lemma refines_delete D r L s st id :
  refines D now r L -> services r !! s = Some st -> D = ∅ ->
  refines ∅ now (set_service r s (rebuildSnapshotLocked v s now (set_records st (delete id (records st))))) (delete (s, id) L).
Proof.
  intros HR Hst ->. pose proof HR as [Hk _ Hs Hl].
  assert (Hk' : keyed (delete id (records st))) by (apply map_Forall_delete, (Hk s st Hst)).
  apply (refines_set ∅ ∅ now r s _ L); [done | done | | set_solver | | |].
  - intros _. by apply rebuild_ok.
  - intros id' rec Hr. simpl in Hr. apply lookup_delete_Some in Hr as [Hne Hr].
    rewrite lookup_delete_ne by congruence. apply Hs. by rewrite (lookup_record_services _ _ _ _ Hst).
  - intros id' l Hlk Hlt. apply lookup_delete_Some in Hlk as [Hne HL]. simpl.
    rewrite lookup_delete_ne by congruence. rewrite <- (lookup_record_services _ _ _ _ Hst). by apply Hl.
  - intros s' id' Hne. by rewrite lookup_delete_ne by congruence.
Qed.
End Preservation.

(** ** Sweeping *)

Lemma popExpired_services r now e r' : popExpired r now = Some (e, r') -> services r' = services r.
Proof. unfold popExpired. intros H. repeat case_match; by simplify_eq. Qed.

(** The leases of these records have lapsed. *)
Definition lapsed (L : gmap (string * string) lease) (now : Z) (expired : list (string * string)) : Prop :=
  forall s id, (s, id) ∈ expired -> exists l, L !! (s, id) = Some l /\ l_expires l <= now.

Lemma lapsed_nil L now : lapsed L now [].
Proof. intros s id H. inv H. Qed.

Lemma sweep_loop_refines now fuel cancel expired r L :
  refines (list_to_set expired.*1) now r L -> lapsed L now expired ->
  let '(expired', r') := sweep_loop fuel cancel now expired r in
  refines (list_to_set expired'.*1) now r' L /\ lapsed L now expired'.
Proof.
  revert cancel expired r. induction fuel as [|fuel IH]; intros cancel expired r HR Hlap; [done|]. cbn [sweep_loop].
  destruct (popExpired r now) as [[e r1]|] eqn:Hpop; [|done].
  apply popExpired_services in Hpop. apply (refines_services _ _ _ r1) in HR; [|done].
  assert (Hgo : forall c, let '(expired', r') := sweep_loop fuel c now expired r1 in
    refines (list_to_set expired'.*1) now r' L /\ lapsed L now expired') by (intros c; by apply IH).
  destruct cancel as [[|k]|]; [done| |];
    (destruct (services r1 !! e_service e) as [st|] eqn:Hst; [|apply Hgo];
     destruct (records st !! e_id e) as [rec|] eqn:Hrec; [|apply Hgo];
     destruct ((generation rec =? e_generation e) && negb (live now rec)) eqn:Hg; [|apply Hgo];
     apply andb_true_iff in Hg as [_ Hdead]; apply negb_true_iff, Z.ltb_ge in Hdead; apply IH).
  all: try (intros s id [Hin|Hin%list_elem_of_singleton]%elem_of_app; [by apply Hlap|]; simplify_eq;
    exists (to_lease rec); split; [|done]; apply (refines_sound _ _ _ _ HR);
    by rewrite (lookup_record_services _ _ _ _ Hst)).
  all: rewrite fmap_app, list_to_set_app_L; apply (refines_shrink now _ _ _ _ _ st _ HR Hst);
    [apply delete_subseteq | | set_solver | set_solver].
  all: intros id rec' Hr Hlt; simpl; rewrite lookup_delete_ne; [done|]; intros <-; simplify_eq; lia.
Qed.

Section Rebuild.
Context (v : record_order) (Hv : forall m, v m ≡ₚ map_to_list m) (now : Z) (Hz : zero_time <= now).

Lemma rebuild_dirty_refines D r L s : refines D now r L -> refines (D ∖ {[s]}) now (rebuild_dirty v now r s) L.
Proof.
  intros HR. unfold rebuild_dirty. destruct (services r !! s) as [st|] eqn:Hst.
  - apply (refines_shrink now D _ r L s st); [done | done | done | done | |].
    + intros _. apply rebuild_ok; [done..|]. by apply (refines_keyed _ _ _ _ HR s).
    + intros x Hx. destruct (decide (x = s)); set_solver.
  - destruct HR as [Hk Hp Hs Hl]. split; [done | | done | done]. intros s' st' Hst' HD.
    apply (Hp s' st' Hst'). assert (s' <> s) by congruence. set_solver.
Qed.

Lemma rebuild_all_refines l D r L :
  refines D now r L -> D ⊆ list_to_set l -> refines ∅ now (foldl (rebuild_dirty v now) r l) L.
Proof.
  revert D r. induction l as [|s l IH]; intros D r HR HD; simpl.
  - assert (D = ∅) as <- by set_solver. done.
  - apply (IH (D ∖ {[s]})); [by apply rebuild_dirty_refines | set_solver].
Qed.

(** ** What a reader is shown *)

Lemma fresh_listing r L s st :
  refines ∅ now r L -> services r !! s = Some st -> snapshotNeedsExpiry (snapshot st) now = false ->
  listing L s now (Instances (snapshot st)).
Proof.
  intros HR Hst Hfresh. pose proof HR as [Hk Hp Hs Hl].
  destruct (Hp s st Hst) as (w & b & Hw & Hb & Hi & Hn); [set_solver|]. rewrite Hi. split.
  { apply Slice_by_key_strict, lives_ids; [done|]. by apply (Hk s). }
  intros inst. rewrite (build_shows w Hw b now); [|lia|].
  - split; intros (id & x & Hx & Hlt & ->).
    + exists id, (to_lease x). split; [|done]. apply Hs. by rewrite (lookup_record_services _ _ _ _ Hst).
    + destruct (Hl s id x Hx Hlt) as (rec & Hr & <-). rewrite (lookup_record_services _ _ _ _ Hst) in Hr. by exists id, rec.
  - unfold snapshotNeedsExpiry in Hfresh. rewrite Hn in Hfresh.
    apply andb_false_iff in Hfresh as [H%negb_false_iff|H%negb_false_iff]; [by left | right; by apply Z.ltb_lt].
Qed.

Lemma absent_listing r L s : refines ∅ now r L -> services r !! s = None -> listing L s now [].
Proof.
  intros HR Hst. split; [constructor|]. intros inst. split; [set_solver|]. intros (id & l & HL & Hlt & _).
  destruct (refines_live _ _ _ _ HR s id l HL Hlt) as (rec & Hr & _). unfold lookup_record in Hr. by rewrite Hst in Hr.
Qed.

Lemma rebuild_fresh s st : snapshotNeedsExpiry (snapshot (rebuildSnapshotLocked v s now st)) now = false.
Proof.
  unfold snapshotNeedsExpiry. apply not_true_iff_false. intros [H1%negb_true_iff H2%negb_true_iff]%andb_true_iff.
  apply Z.eqb_neq in H1. apply Z.ltb_ge in H2. simpl in *. fold (lives v now (records st)) in *.
  assert (Hall : Forall (fun rec => now < expiresAt rec) (lives v now (records st)))
    by (apply Forall_forall; intros rec; rewrite elem_of_lives by done; tauto).
  destruct (foldl_earliest now (lives v now (records st)) zero_time) as (_ & Hex & _); [lia|done|by left|].
  destruct (Hex H1) as [?|(rec & Hin & He)]; [done|]. rewrite Forall_forall in Hall. specialize (Hall _ Hin). lia.
Qed.

(** Some record of a stale snapshot has expired, so the sweep publishes. *)
Lemma sweep_fresh r L s st :
  refines ∅ now r L -> services r !! s = Some st -> snapshotNeedsExpiry (snapshot st) now = true ->
  exists st', services (sweepExpiredForService v false s now r).2 !! s = Some st' /\
    snapshotNeedsExpiry (snapshot st') now = false.
Proof.
  intros HR Hst Hstale. unfold sweepExpiredForService. rewrite Hst.
  set (kept := filter (fun p => live now p.2 = true) (records st)).
  assert (Hsize : (size kept < size (records st))%nat).
  { apply map_subset_size. split; [apply map_filter_subseteq|]. intros Hsub.
    destruct (refines_published _ _ _ _ HR s st Hst) as (w & b & Hw & Hb & _ & Hn); [set_solver|].
    apply andb_true_iff in Hstale as [H1%negb_true_iff H2%negb_true_iff]. apply Z.eqb_neq in H1. apply Z.ltb_ge in H2.
    destruct (foldl_earliest b (lives w b (records st)) zero_time) as (_ & Hex & _);
      [lia | apply Forall_forall; intros rec; rewrite elem_of_lives by done; tauto | by left |].
    rewrite <- Hn in Hex. destruct (Hex H1) as [?|(rec & Hin & He)]; [done|].
    apply elem_of_lives in Hin as [_ [id Hid]]; [|done]. apply (lookup_weaken _ _ _ _ Hid) in Hsub.
    apply map_lookup_filter_Some in Hsub as [_ Hlive]. simpl in Hlive. apply Z.ltb_lt in Hlive. lia. }
  rewrite (proj2 (Z.ltb_lt _ _)) by lia. simpl. rewrite lookup_insert_eq. eexists. split; [done|]. apply rebuild_fresh.
Qed.
End Rebuild.

(** ** Every operation keeps the contract *)

Section Contract.
Context (v : record_order) (Hv : forall m, v m ≡ₚ map_to_list m) (now : Z) (Hz : zero_time <= now).
Context (r : MemoryRegistry) (L : gmap (string * string) lease) (HR : refines ∅ now r L).

(** The table moves with the registry, and the result is one it allows. *)
Definition kept (o : op) (x : result) (r' : MemoryRegistry) : Prop :=
  exists L', contract now o L x L' /\ refines ∅ now r' L'.

Lemma default_status c : (if bool_decide (c = Unspecified) then Healthy else c) = Normalized c.
Proof. by destruct c. Qed.

Lemma register_kept c epoch token inst ttl :
  let '(x, r') := registerAt v c epoch token inst ttl now r in kept (ORegister c epoch token inst ttl) (Done x) r'.
Proof.
  unfold registerAt, kept. destruct c; [exists L; unfold contract; rewrite decide_False by naive_solver; eauto|].
  case_bool_decide as Hc; [exists L; unfold contract; rewrite decide_False by (unfold complete; naive_solver); eauto|].
  destruct (Z.leb_spec ttl 0); [exists L; unfold contract; rewrite decide_False by lia; eauto|].
  eexists. unfold contract. rewrite decide_True by (unfold complete; naive_solver). split; [done|]. rewrite default_status.
  apply (refines_services _ _ (store_record v (next_generation r) now {|
    instance := registered inst epoch token now; expiresAt := now + ttl; generation := generations (next_generation r) |}));
    [done|].
  apply (refines_insert v Hv now Hz (next_generation r) L (Service inst) (ID inst) {|
    instance := registered inst epoch token now; expiresAt := now + ttl; generation := generations (next_generation r) |});
    [by apply (refines_services _ _ r) | done].
Qed.

Lemma restore_kept epoch token inst ex f now1 :
  kept (ORestore epoch token inst ex f now1) Restored (restoreRecord v epoch token inst ex f now1 now r).
Proof.
  unfold restoreRecord, kept.
  case_bool_decide as Hc; [exists L; unfold contract; rewrite decide_False by (unfold complete; naive_solver); eauto|].
  destruct (f && negb (now1 <? ex)) eqn:Hf.
  { apply andb_true_iff in Hf as [-> Hf%negb_true_iff%Z.ltb_ge]. exists L. unfold contract.
    rewrite decide_False by (intros [_ H]; specialize (H eq_refl); lia). done. }
  assert (Hg : f = true -> now1 < ex) by (intros ->; apply negb_false_iff, Z.ltb_lt in Hf; lia).
  eexists. unfold contract. rewrite decide_True by (unfold complete; naive_solver). split; [done|]. rewrite default_status.
  set (rec := {| instance := registered inst
      (if bool_decide (RegistrationEpoch inst = ""%string) then epoch else RegistrationEpoch inst)
      (if bool_decide (OwnerToken inst = ""%string) then token else OwnerToken inst) (LastSeen inst);
    expiresAt := ex; generation := generations (next_generation r) |}).
  assert (HI : refines ∅ now (store_record v (next_generation r) now rec) (<[(Service inst, ID inst) := to_lease rec]> L))
    by (apply (refines_insert v Hv now Hz (next_generation r) L (Service inst) (ID inst) rec);
        [by apply (refines_services _ _ r) | done]).
  by apply (refines_services _ _ (store_record v (next_generation r) now rec)).
Qed.

Lemma fence_spec re ro epoch token inst :
  fence re ro epoch token inst <->
  re && bool_decide (RegistrationEpoch inst <> epoch) = false /\ ro && bool_decide (OwnerToken inst <> token) = false.
Proof. unfold fence. destruct re, ro; simpl; rewrite ?bool_decide_eq_false; split; intros [H1 H2]; split; try done; auto;
  try (by apply dec_stable); intros; try (by apply dec_stable). all: naive_solver. Qed.

(** A refused heartbeat leaves the services alone. *)
Lemma heartbeat_error c s id epoch token ttl re ro r0 :
  let '(x, r') := heartbeatAtWithOwner v c s id epoch token ttl now re ro r0 in is_Some x -> services r' = services r0.
Proof. unfold heartbeatAtWithOwner. repeat case_match; simplify_eq; naive_solver. Qed.

Lemma heartbeat_kept c s id epoch token ttl re ro :
  let '(x, r') := heartbeatAtWithOwner v c s id epoch token ttl now re ro r in
  kept (OHeartbeat c s id epoch token ttl re ro) (Done x) r'.
Proof.
  pose proof (heartbeat_error c s id epoch token ttl re ro r) as Herr.
  destruct (heartbeatAtWithOwner v c s id epoch token ttl now re ro r) as [[x|] r'] eqn:Hb.
  - exists L. split; [split; [done|]|apply (refines_services _ _ r); eauto].
    intros l HL Hlt -> Hs Hid Httl Hfence. destruct (refines_live _ _ _ _ HR s id l HL Hlt) as (rec & Hr & <-).
    unfold lookup_record in Hr. unfold heartbeatAtWithOwner in Hb. rewrite bool_decide_eq_false_2 in Hb by naive_solver.
    rewrite (proj2 (Z.leb_gt _ _)) in Hb by lia. simpl in Hb. destruct (services r !! s) as [st|]; [|done]. simpl in Hr.
    rewrite Hr in Hb. apply fence_spec in Hfence as [H1 H2]. simpl in H1, H2. rewrite H1, H2 in Hb. done.
  - clear Herr. unfold heartbeatAtWithOwner in Hb. destruct c; [done|]. destruct (_ || _) eqn:?; [done|].
    destruct (services r !! s) as [st|] eqn:Hst; [|done]. destruct (records st !! id) as [rec|] eqn:Hrec; [|done].
    destruct (re && _) eqn:H1; [done|]. destruct (ro && _) eqn:H2; [done|]. injection Hb as <-.
    assert (HL : L !! (s, id) = Some (to_lease rec))
      by (apply (refines_sound _ _ _ _ HR); by rewrite (lookup_record_services _ _ _ _ Hst)).
    exists (<[(s, id) := {| l_instance := renewed (instance rec) now; l_expires := now + ttl |}]> L).
    split; [exists (to_lease rec); split; [done|]; split; [by apply fence_spec|done]|].
    set (rec' := {| instance := renewed (instance rec) now; expiresAt := now + ttl; generation := generations (next_generation r) |}).
    assert (Hid : ID (instance rec') = id) by by apply (refines_keyed _ _ _ _ HR s st Hst id rec).
    pose proof (refines_insert v Hv now Hz r L s id rec' HR Hid) as HI.
    unfold get_service in HI. rewrite Hst in HI. by eapply refines_services, HI.
Qed.

Lemma snapshot_kept c c2 s : let '(x, r') := Snapshot v c c2 s now r in kept (OSnapshot c c2 s) (Shown x) r'.
Proof.
  unfold Snapshot, kept. destruct c; [exists L; simpl; auto|]. case_bool_decide; [exists L; simpl; auto|].
  destruct (services r !! s) as [st|] eqn:Hst; [|exists L; simpl; eauto using absent_listing].
  destruct (snapshotNeedsExpiry (snapshot st) now) eqn:Hn; exists L; [|simpl; eauto using fresh_listing].
  assert (HR' : refines ∅ now (sweepExpiredForService v c2 s now r).2 L) by by apply sweep_service_refines.
  split; [|done]. split; [done|]. intros ->. destruct (sweep_fresh v Hv now Hz r L s st HR Hst Hn) as (st' & Hst' & Hf).
  unfold get_service. rewrite Hst'. by eapply fresh_listing.
Qed.

Lemma poll_kept c s : let '(x, r') := watch_poll v c s now r in kept (OPoll c s) (Polled x) r'.
Proof.
  unfold watch_poll, kept. destruct (services r !! s) as [st|] eqn:Hst.
  - assert (Hg : get_service r s = st) by (unfold get_service; by rewrite Hst).
    rewrite Hg. destruct (snapshotNeedsExpiry (snapshot st) now) eqn:Hn; exists L.
    + assert (HR' : refines ∅ now (sweepExpiredForService v c s now r).2 L) by by apply sweep_service_refines.
      split; [|done]. split; [done|]. intros ->. destruct (sweep_fresh v Hv now Hz r L s st HR Hst Hn) as (st' & Hst' & Hf).
      unfold get_service. rewrite Hst'. by eapply fresh_listing.
    + split; [|done]. split; [done|]. intros _. rewrite Hg. by eapply fresh_listing.
  - assert (Hg : get_service r s = newServiceState s) by (unfold get_service; by rewrite Hst).
    rewrite Hg. simpl. rewrite ?Hg. exists L. split; [|done]. split; [done|]. intros _. by eapply absent_listing.
Qed.

Lemma watch_kept c s : let '(x, r') := Watch c s r in kept (OWatch c s) (Done x) r'.
Proof.
  unfold Watch, kept. destruct c; [exists L; simpl; naive_solver|]. case_bool_decide; [exists L; simpl; naive_solver|].
  exists L. split; [simpl; naive_solver|]. destruct (get_service_ok _ _ _ _ s Hz HR) as [Hk Hp].
  apply (refines_set ∅ ∅ now r s _ L); [done | done | done | set_solver | | | done].
  - intros id rec. rewrite get_service_records. apply (refines_sound _ _ _ _ HR).
  - intros id l. rewrite get_service_records. apply (refines_live _ _ _ _ HR).
Qed.

Lemma sweep_kept c cancel ord :
  (forall X, ord X ≡ₚ elements X) ->
  let '(x, r') := sweepExpiredRecords v c cancel ord now r in kept (OSweep c cancel) (Swept x) r'.
Proof.
  intros Hord. unfold sweepExpiredRecords, kept. destruct c; [exists L; split; [split; [done|apply lapsed_nil]|done]|].
  pose proof (sweep_loop_refines now (S (length (expiries r))) cancel [] r L) as H.
  destruct (sweep_loop (S (length (expiries r))) cancel now [] r) as [expired r'].
  destruct H as [HR' Hlap]; [done | apply lapsed_nil |]. exists L. split; [done|].
  apply (rebuild_all_refines v Hv now Hz _ _ _ _ HR'). intros s Hs. rewrite elem_of_list_to_set, Hord. by apply elem_of_elements.
Qed.

Lemma delete_kept s id : let '(x, r') := deleteRecord v s id now r in kept (ODelete s id) (Deleted x) r'.
Proof.
  unfold deleteRecord, kept.
  assert (Hno : lookup_record r s id = None -> forall l, L !! (s, id) = Some l -> l_expires l <= now).
  { intros Hnone l HL. apply Z.nlt_ge. intros Hlt. destruct (refines_live _ _ _ _ HR s id l HL Hlt) as (rec & Hr & _). congruence. }
  unfold lookup_record in Hno. destruct (services r !! s) as [st|] eqn:Hst; [|exists L; simpl; auto]. simpl in Hno.
  destruct (records st !! id) eqn:Hid; [|exists L; simpl; auto].
  eexists. split; [done|]. by apply (refines_delete v Hv now Hz ∅).
Qed.
End Contract.

Lemma step_refines e clock r L :
  traverses e -> zero_time <= clock <= at_ e -> refines ∅ clock r L ->
  let '(x, r') := step e r in exists L', contract (at_ e) (action e) L x L' /\ refines ∅ (at_ e) r' L'.
Proof.
  intros [Hv Hord] Hz HR. apply (refines_mono _ _ (at_ e)) in HR; [|lia]. assert (Hz' : zero_time <= at_ e) by lia.
  unfold step. destruct (action e) as [c epoch token inst ttl|c s id epoch token ttl re ro|c c2 s|c s|c s|c cancel|s id|epoch token inst ex f now1].
  - pose proof (register_kept _ Hv _ Hz' _ _ HR c epoch token inst ttl). by case_match.
  - pose proof (heartbeat_kept _ Hv _ Hz' _ _ HR c s id epoch token ttl re ro). by case_match.
  - pose proof (snapshot_kept _ Hv _ Hz' _ _ HR c c2 s). by case_match.
  - pose proof (watch_kept _ Hv _ Hz' _ _ HR c s). by case_match.
  - pose proof (poll_kept _ Hv _ Hz' _ _ HR c s). by case_match.
  - pose proof (sweep_kept _ Hv _ Hz' _ _ HR c cancel _ Hord). by case_match.
  - pose proof (delete_kept _ Hv _ Hz' _ _ HR s id). by case_match.
  - apply (restore_kept _ Hv _ Hz' _ _ HR epoch token inst ex f now1).
Qed.

Lemma new_refines clock : refines ∅ clock NewMemoryRegistry ∅.
Proof. split; unfold lookup_record; simpl; intros *; rewrite lookup_empty; done. Qed.

Lemma run_refines clock es r L :
  Forall traverses es -> zero_time <= clock -> clock_from clock es -> refines ∅ clock r L ->
  let '(xs, r') := run es r in
  exists L' clock', explains es L xs L' /\ clock <= clock' /\
    (forall t, clock <= t -> Forall (fun e => at_ e <= t) es -> clock' <= t) /\ refines ∅ clock' r' L'.
Proof.
  revert clock r L. induction es as [|e es IH]; intros clock r L Ht Hz Hc HR; cbn [run].
  { exists L, clock. split; [constructor|]. split; [lia|]. by split. }
  apply Forall_cons in Ht as [He Ht]. destruct Hc as [Hle Hc].
  pose proof (step_refines e clock r L He (conj Hz Hle) HR) as Hs.
  destruct (step e r) as [x r1]. destruct Hs as (L1 & Hcon & HR1).
  pose proof (IH (at_ e) r1 L1 Ht ltac:(lia) Hc HR1) as H. destruct (run es r1) as [xs r2].
  destruct H as (L2 & clock' & Hex & Hcl & Hmax & HR2). exists L2, clock'. split; [by econstructor|]. split; [lia|].
  split; [|done]. intros t Hct Hall. apply Forall_cons in Hall as [Het Hall]. by apply Hmax.
Qed.

(** C8. The registry implements the table of leases: every run from the empty
    registry, under a clock that does not go back, is explained by a table that only
    accepted registrations, heartbeats, deletions and restorations write.  A reader
    whose context stays alive is shown exactly the live leases of the service,
    ascending by ID, whenever sweeps run and however maps are traversed; a holder
    whose lease is live is never refused; and only lapsed leases are swept. *)
Theorem registry_refines_leases t0 es :
  Forall traverses es -> zero_time <= t0 -> clock_from t0 es ->
  exists L, explains es ∅ (run es NewMemoryRegistry).1 L.
Proof.
  intros Ht Hz Hc. pose proof (run_refines t0 es NewMemoryRegistry ∅ Ht Hz Hc (new_refines t0)) as H.
  destruct (run es NewMemoryRegistry) as [xs r]. destruct H as (L & _ & H & _). by exists L.
Qed.

Definition demo_instance (id : string) : Instance :=
  {| ID := id; Service := "pay"; Address := "10.0.0.1:80"; Status_ := Unspecified; Labels := None; LastSeen := 0;
     RegistrationEpoch := ""; OwnerToken := "" |}.

Definition demo_event (t : Z) (o : op) : event := {| at_ := t; visits := map_to_list; dirty_order := elements; action := o |}.

(** Two instances register, one renews its lease, the other's runs out. *)
Definition demo_events : list event := [
  demo_event 100 (ORegister false "e1" "t1" (demo_instance "b") 10);
  demo_event 101 (ORegister false "e2" "t2" (demo_instance "a") 10);
  demo_event 105 (OSnapshot false false "pay");
  demo_event 108 (OHeartbeat false "pay" "b" "e1" "t1" 10 true true);
  demo_event 112 (OSnapshot false false "pay");
  demo_event 119 (OSweep false None);
  demo_event 120 (OHeartbeat false "pay" "b" "e1" "t1" 10 true true) ].

Definition shown_ids (x : result) : option (list string) :=
  match x with Shown (inr s) => Some (ID <$> Instances s) | _ => None end.

Lemma demo_traverses : Forall traverses demo_events.
Proof. by repeat (apply Forall_cons; split; [by split|]). Qed.

Lemma registry_refines_leases_witness :
  (shown_ids <$> (run demo_events NewMemoryRegistry).1)
    = [None; None; Some ["a"; "b"]; None; Some ["b"]; None; None]%string /\
  exists L, explains demo_events ∅ (run demo_events NewMemoryRegistry).1 L.
Proof.
  split; [by vm_compute|]. apply (registry_refines_leases 100).
  - apply demo_traverses.
  - by vm_compute.
  - cbn. lia.
Defined.

(** C39. A registration fences the holders before it.  After it, a heartbeat under
    another epoch or another token is refused with the mismatch error and changes
    neither records nor deadlines, and the new holder's heartbeat extends the lease. *)
Theorem registration_fences v w inst epoch token ttl now r :
  complete inst -> 0 < ttl -> epoch <> ""%string -> token <> ""%string ->
  let s := Service inst in
  let id := ID inst in
  let r1 := (registerAt v false epoch token inst ttl now r).2 in
  forall epoch' token' ttl' now', epoch' <> ""%string -> token' <> ""%string -> 0 < ttl' ->
  let '(x, r2) := HeartbeatWithOwner w false s id epoch' token' ttl' now' r1 in
  if decide (epoch' = epoch /\ token' = token)
  then x = None /\ to_lease <$> lookup_record r2 s id
         = Some {| l_instance := registered inst epoch token now'; l_expires := now' + ttl' |}
  else x = Some ErrRegistrationEpochMismatch /\ services r2 = services r1 /\ expiries r2 = expiries r1.
Proof.
  intros (Hid & Hs & Ha) Httl He Ht s id r1 epoch' token' ttl' now' He' Ht' Httl'.
  subst r1. unfold registerAt. rewrite (bool_decide_eq_false_2 (_ \/ _)) by naive_solver.
  rewrite (proj2 (Z.leb_gt ttl 0)) by lia. rewrite default_status.
  unfold HeartbeatWithOwner. rewrite (bool_decide_eq_false_2 (_ \/ _)) by naive_solver.
  unfold heartbeatAtWithOwner. rewrite (bool_decide_eq_false_2 (_ \/ _)) by naive_solver.
  rewrite (proj2 (Z.leb_gt ttl' 0)) by lia. simpl. subst s id. rewrite lookup_insert_eq. simpl. rewrite lookup_insert_eq. simpl.
  destruct (decide (epoch = epoch')) as [<-|Hne].
  - rewrite (bool_decide_eq_false_2 (epoch <> epoch)) by naive_solver. destruct (decide (token = token')) as [<-|Hne].
    + rewrite (bool_decide_eq_false_2 (token <> token)) by naive_solver. rewrite decide_True by done. split; [done|].
      unfold lookup_record. simpl. rewrite lookup_insert_eq. simpl. by rewrite lookup_insert_eq.
    + rewrite (bool_decide_eq_true_2 (token <> token')) by done. by rewrite decide_False by naive_solver.
  - rewrite (bool_decide_eq_true_2 (epoch <> epoch')) by done. by rewrite decide_False by naive_solver.
Qed.

Lemma registration_fences_witness :
  (HeartbeatWithOwner map_to_list false "pay" "a" "e1" "t1" 10 105
     (registerAt map_to_list false "e2" "t2" (demo_instance "a") 10 104
        (registerAt map_to_list false "e1" "t1" (demo_instance "a") 10 100 NewMemoryRegistry).2).2).1
  = Some ErrRegistrationEpochMismatch.
Proof.
  pose proof (registration_fences map_to_list map_to_list (demo_instance "a") "e2" "t2" 10 104
    (registerAt map_to_list false "e1" "t1" (demo_instance "a") 10 100 NewMemoryRegistry).2
    ltac:(by unfold complete) ltac:(lia) ltac:(done) ltac:(done) "e1" "t1" 10 105 ltac:(done) ltac:(done) ltac:(lia)) as H.
  cbn [Service ID demo_instance] in H. destruct (HeartbeatWithOwner _ _ _ _ _ _ _ _ _) as [x r2].
  rewrite decide_False in H by naive_solver. apply H.
Defined.
