(* ===== verification/RegistrySweep.v ===== *)
(** * The sweeper and the announcements of the registry

    The heap of deadlines holds an entry for every record, so a sweep that is not
    interrupted removes exactly the expired records; every change of a service is
    published once, under the next version. *)
From Stdlib Require Import String.
From stdpp Require Import sorting.
From S2P Require Import Prelude GoStd GoSort GoHeap Status Registry RegistrySpec.

(** ** Deadlines *)

Definition entry_of (s id : string) (rec : record) : expiryEntry :=
  {| e_service := s; e_id := id; e_expiresAt := expiresAt rec; e_generation := generation rec |}.

(** The heap is ordered and holds the deadline of every record. *)
Definition heap_ok (r : MemoryRegistry) : Prop :=
  heap_ordered entry_less (expiries r) /\
  forall s id rec, lookup_record r s id = Some rec -> entry_of s id rec ∈ expiries r.

Lemma heap_ok_new : heap_ok NewMemoryRegistry.
Proof. split; [intros i Hi; simpl in Hi; lia|]. intros s id rec H. unfold lookup_record in H. simpl in H. by rewrite lookup_empty in H. Qed.

Lemma heap_ok_services r r' : services r' = services r -> expiries r' = expiries r -> heap_ok r -> heap_ok r'.
Proof. unfold heap_ok, lookup_record. by intros -> ->. Qed.

(** A record is stored, and then its deadline. *)
Lemma heap_ok_store r s id rec st :
  heap_ok r -> records st = <[id := rec]> (records (get_service r s)) ->
  heap_ok (pushExpiry (set_service r s st) (entry_of s id rec)).
Proof.
  intros [Ho He] Hst. destruct (Push_spec entry_less (expiries r) (entry_of s id rec) Ho) as [Ho' Hp].
  split; [done|]. intros s' id' rec'. change (lookup_record (pushExpiry ?x _)) with (lookup_record x). simpl. rewrite Hp.
  rewrite lookup_set_service. case_decide; [subst; rewrite Hst, lookup_insert_Some|intros H'; apply list_elem_of_further, (He _ _ _ H')].
  intros [[<- <-]|[_ Hr]]; [by apply list_elem_of_here|]. rewrite get_service_records in Hr.
  by apply list_elem_of_further, He.
Qed.

Lemma heap_ok_shrink r s st : heap_ok r -> records st ⊆ records (get_service r s) -> heap_ok (set_service r s st).
Proof.
  intros [Ho He] Hsub. split; [done|]. intros s' id rec. rewrite lookup_set_service. case_decide; [subst|apply He].
  intros Hr. apply (lookup_weaken _ _ _ _ Hr) in Hsub. rewrite get_service_records in Hsub. by apply He.
Qed.

Lemma get_service_Some r s st : services r !! s = Some st -> get_service r s = st.
Proof. unfold get_service. by intros ->. Qed.

(** ** The loop of the sweeper *)

Lemma popExpired_spec r now :
  heap_ordered entry_less (expiries r) ->
  match popExpired r now with
  | None => Forall (fun e => now < e_expiresAt e) (expiries r)
  | Some (e, r') => services r' = services r /\ expiries r ≡ₚ e :: expiries r' /\
      heap_ordered entry_less (expiries r') /\ e_expiresAt e <= now
  end.
Proof.
  intros Ho. unfold popExpired. pose proof (Pop_spec entry_less (expiries r) Ho) as HP.
  destruct (expiries r !! 0%nat) as [e|] eqn:H0; [|by destruct (expiries r)].
  destruct (Z.ltb_spec now (e_expiresAt e)) as [Hlt|Hge].
  - eapply Forall_impl; [apply (heap_min entry_less _ _ Ho H0)|]. intros e'. unfold not_after, entry_less. rewrite Z.ltb_ge. lia.
  - destruct (Pop entry_less (expiries r)) as [[e' rest]|]; [|by rewrite HP in H0].
    destruct HP as (H0' & Hp & Ho' & _). simplify_eq/=. done.
Qed.

(** [expired] are records of [r0] that are past their deadline; the others are untouched. *)
Record swept (now : Z) (r0 r : MemoryRegistry) (expired : list (string * string)) : Prop := {
  swept_nodup : NoDup expired;
  swept_gone s id : (s, id) ∈ expired ->
    lookup_record r s id = None /\ exists rec, lookup_record r0 s id = Some rec /\ expiresAt rec <= now;
  swept_same s id : (s, id) ∉ expired -> lookup_record r s id = lookup_record r0 s id
}.

Lemma swept_delete now r0 r expired s st id rec :
  swept now r0 r expired -> services r !! s = Some st -> records st !! id = Some rec -> expiresAt rec <= now ->
  swept now r0 (set_service r s (set_records st (delete id (records st)))) (expired ++ [(s, id)]).
Proof.
  intros [Hn Hg Hsame] Hst Hrec Hexp.
  assert (Hlk : lookup_record r s id = Some rec) by by rewrite (lookup_record_services _ _ _ _ Hst).
  assert (Hnot : (s, id) ∉ expired) by (intros Hin; destruct (Hg _ _ Hin); congruence).
  assert (Hget : forall s' id', lookup_record (set_service r s (set_records st (delete id (records st)))) s' id'
    = if decide ((s, id) = (s', id')) then None else lookup_record r s' id').
  { intros s' id'. rewrite lookup_set_service. simpl. destruct (decide (s = s')) as [<-|]; [|by rewrite decide_False by congruence].
    rewrite (lookup_record_services _ _ _ _ Hst). destruct (decide (id = id')) as [<-|].
    - rewrite decide_True by done. apply lookup_delete_eq.
    - rewrite decide_False by congruence. by apply lookup_delete_ne. }
  split.
  - apply NoDup_app. split; [done|]. split; [intros x Hx ->%list_elem_of_singleton; done|apply NoDup_singleton].
  - intros s' id' Hin. rewrite Hget. case_decide as E; [simplify_eq; split; [done|]; exists rec; by rewrite <- Hsame|].
    apply Hg. apply elem_of_app in Hin as [|Hin%list_elem_of_singleton]; [done|congruence].
  - intros s' id' Hin. rewrite Hget. rewrite elem_of_app, list_elem_of_singleton in Hin.
    rewrite decide_False by naive_solver. apply Hsame. naive_solver.
Qed.

(** Without the popped entry every record still has its deadline, unless the entry
    was the deadline of a record that is due. *)
Lemma heap_ok_pop r r1 e now :
  heap_ok r -> services r1 = services r -> expiries r ≡ₚ e :: expiries r1 -> heap_ordered entry_less (expiries r1) ->
  (forall rec, lookup_record r1 (e_service e) (e_id e) = Some rec ->
     (generation rec =? e_generation e) && negb (live now rec) = false) -> e_expiresAt e <= now -> heap_ok r1.
Proof.
  intros [_ He] Hs Hp Ho Hno Hle. split; [done|]. intros s id rec Hr. pose proof Hr as Hr'.
  unfold lookup_record in Hr'. rewrite Hs in Hr'. apply He in Hr'. rewrite Hp in Hr'.
  apply elem_of_cons in Hr' as [<-|]; [|done]. specialize (Hno rec Hr). simpl in *.
  rewrite Z.eqb_refl in Hno. apply negb_false_iff, Z.ltb_lt in Hno. lia.
Qed.

Lemma heap_ok_drop r r1 e st :
  heap_ok r -> services r1 = services r -> expiries r ≡ₚ e :: expiries r1 -> heap_ordered entry_less (expiries r1) ->
  services r1 !! e_service e = Some st ->
  heap_ok (set_service r1 (e_service e) (set_records st (delete (e_id e) (records st)))).
Proof.
  intros [_ He] Hs Hp Ho Hst. split; [done|]. intros s id rec. rewrite lookup_set_service. simpl.
  assert (Hin : lookup_record r1 s id = Some rec -> (e_service e, e_id e) <> (s, id) -> entry_of s id rec ∈ expiries r1).
  { unfold lookup_record. rewrite Hs. intros Hr Hne. apply He in Hr. rewrite Hp in Hr.
    apply elem_of_cons in Hr as [<-|]; done. }
  case_decide as E; [|intros; apply Hin; [done|congruence]]. subst.
  rewrite lookup_delete_Some. intros [Hne Hr]. apply Hin; [by rewrite (lookup_record_services _ _ _ _ Hst)|congruence].
Qed.

Lemma sweep_loop_spec now r0 fuel expired r :
  (length (expiries r) < fuel)%nat -> heap_ok r -> swept now r0 r expired ->
  let '(expired', r') := sweep_loop fuel None now expired r in
  heap_ok r' /\ swept now r0 r' expired' /\ Forall (fun e => now < e_expiresAt e) (expiries r').
Proof.
  revert expired r. induction fuel as [|fuel IH]; intros expired r Hlen Hok Hsw; [lia|]. cbn [sweep_loop].
  pose proof (popExpired_spec r now (proj1 Hok)) as Hpop.
  destruct (popExpired r now) as [[e r1]|]; [|done]. destruct Hpop as (Hs & Hp & Ho & Hle).
  assert (Hlen1 : (length (expiries r1) < fuel)%nat) by (apply Permutation_length in Hp; simpl in Hp; lia).
  assert (Hsw1 : swept now r0 r1 expired) by (destruct Hsw; split; unfold lookup_record in *; rewrite ?Hs; done).
  cbn [fmap option_fmap option_map].
  destruct (services r1 !! e_service e) as [st|] eqn:Hst;
    [destruct (records st !! e_id e) as [rec|] eqn:Hrec;
      [destruct ((generation rec =? e_generation e) && negb (live now rec)) eqn:Hg|]|].
  - apply IH; [done | by apply (heap_ok_drop r) |].
    apply andb_true_iff in Hg as [_ Hd%negb_true_iff%Z.ltb_ge]. by apply (swept_delete _ _ _ _ _ _ _ rec).
  - apply IH; [done | | done]. apply (heap_ok_pop r r1 e now); try done.
    rewrite (lookup_record_services _ _ _ _ Hst). intros rec' H. by simplify_eq.
  - apply IH; [done | | done]. apply (heap_ok_pop r r1 e now); try done.
    rewrite (lookup_record_services _ _ _ _ Hst). intros rec' H. by simplify_eq.
  - apply IH; [done | | done]. apply (heap_ok_pop r r1 e now); try done.
    unfold lookup_record. rewrite Hst. done.
Qed.

(** ** Publishing *)

Lemma rebuild_dirty_get v now r s s' :
  s' ∈ dom (services r) ->
  get_service (rebuild_dirty v now r s') s
  = if decide (s' = s) then rebuildSnapshotLocked v s now (get_service r s) else get_service r s.
Proof.
  intros [st Hst]%elem_of_dom. unfold rebuild_dirty. rewrite Hst. unfold get_service. simpl.
  case_decide; [subst; by rewrite lookup_insert_eq, Hst | by rewrite lookup_insert_ne].
Qed.

Lemma rebuild_dirty_dom v now r s : dom (services (rebuild_dirty v now r s)) = dom (services r).
Proof. unfold rebuild_dirty. destruct (services r !! s) eqn:E; [|done]. simpl. rewrite dom_insert_lookup_L; [done|by eexists]. Qed.

(** Each service of the list publishes once. *)
Lemma rebuild_all_get v now l r s :
  NoDup l -> (forall s', s' ∈ l -> s' ∈ dom (services r)) ->
  get_service (foldl (rebuild_dirty v now) r l) s
  = if decide (s ∈ l) then rebuildSnapshotLocked v s now (get_service r s) else get_service r s.
Proof.
  revert r. induction l as [|s' l IH]; intros r Hd Hdom; simpl; [done|]. apply NoDup_cons in Hd as [Hn Hd].
  rewrite IH; [|done|intros x Hx; rewrite rebuild_dirty_dom; apply Hdom; by apply list_elem_of_further].
  rewrite rebuild_dirty_get by (apply Hdom, list_elem_of_here).
  destruct (decide (s' = s)) as [->|Hne].
  - rewrite decide_False by done. by rewrite decide_True by apply list_elem_of_here.
  - destruct (decide (s ∈ l)); [rewrite decide_True by by apply list_elem_of_further|rewrite decide_False by set_solver]; done.
Qed.

Lemma rebuild_all_records v now l r s id :
  lookup_record (foldl (rebuild_dirty v now) r l) s id = lookup_record r s id.
Proof.
  revert r. induction l as [|s' l IH]; intros r; simpl; [done|]. rewrite IH. unfold rebuild_dirty.
  destruct (services r !! s') as [st|] eqn:Hst; [|done]. rewrite lookup_set_service. case_decide; [|done].
  subst. by rewrite (lookup_record_services _ _ _ _ Hst).
Qed.

Lemma rebuild_all_expiries v now l r : expiries (foldl (rebuild_dirty v now) r l) = expiries r.
Proof. revert r. induction l as [|s' l IH]; intros r; simpl; [done|]. rewrite IH. unfold rebuild_dirty. by case_match. Qed.

Lemma sweep_exact_ok v ord now r :
  heap_ok r ->
  let '(expired, r') := sweepExpiredRecords v false None ord now r in
  heap_ok r' /\ swept now r r' expired /\ Forall (fun e => now < e_expiresAt e) (expiries r').
Proof.
  intros Hok. unfold sweepExpiredRecords.
  pose proof (sweep_loop_spec now r (S (length (expiries r))) [] r ltac:(lia) Hok) as H.
  destruct (sweep_loop (S (length (expiries r))) None now [] r) as [expired r1].
  destruct H as ([Ho He] & [Hn Hg Hs] & Hf); [split; [constructor | intros s id Hin; inv Hin | done]|].
  rewrite rebuild_all_expiries. split; [split; [by rewrite rebuild_all_expiries|]|split; [split; [done| |]|done]].
  - intros s id rec. rewrite rebuild_all_records, rebuild_all_expiries. apply He.
  - intros s id Hin. rewrite rebuild_all_records. by apply Hg.
  - intros s id Hin. rewrite rebuild_all_records. by apply Hs.
Qed.

(** ** Runs *)

Lemma heap_ok_sweep_service v c s now r : heap_ok r -> heap_ok (sweepExpiredForService v c s now r).2.
Proof.
  intros Hok. unfold sweepExpiredForService. destruct c; [done|]. destruct (services r !! s) as [st|] eqn:Hst; [|done].
  case_match; [|done]. apply heap_ok_shrink; [done|]. rewrite (get_service_Some _ _ _ Hst). apply map_filter_subseteq.
Qed.

(** No sweep of the event is interrupted. *)
Definition uninterrupted (e : event) : Prop := match action e with OSweep _ cancel => cancel = None | _ => True end.

Lemma heap_ok_store_record v now rec r :
  heap_ok r -> heap_ok (pushExpiry (store_record v (next_generation r) now rec)
                          (entry_of (Service (instance rec)) (ID (instance rec)) rec)).
Proof. intros Hok. apply heap_ok_store; [by apply (heap_ok_services r)|done]. Qed.

(** Applied to the record the goal stores. *)
Ltac stored :=
  match goal with |- heap_ok (pushExpiry (store_record ?v _ ?now ?rec) _) => by apply (heap_ok_store_record v now rec) end.

Lemma heap_ok_register v c epoch token inst ttl now r :
  heap_ok r -> heap_ok (registerAt v c epoch token inst ttl now r).2.
Proof.
  intros Hok. unfold registerAt. destruct c; [done|]. case_bool_decide; [done|]. case_match; [done|].
  cbn [snd]. stored.
Qed.

Lemma heap_ok_heartbeat v c s id epoch token ttl now re ro r :
  heap_ok r -> heap_ok (heartbeatAtWithOwner v c s id epoch token ttl now re ro r).2.
Proof.
  intros Hok. assert (Hn : heap_ok (next_generation r)) by by apply (heap_ok_services r).
  unfold heartbeatAtWithOwner. destruct c; [done|]. destruct (_ || _); [done|].
  destruct (services r !! s) as [st|] eqn:Hst; [|done]. destruct (records st !! id) as [rec|] eqn:Hrec; [|done].
  destruct (re && _); [done|]. destruct (ro && _); [done|]. cbn [snd].
  apply (heap_ok_store (next_generation r) s id {| instance := renewed (instance rec) now; expiresAt := now + ttl;
    generation := generations (next_generation r) |}); [done|]. by rewrite (get_service_Some (next_generation r) s st Hst).
Qed.

Lemma heap_ok_restore v epoch token inst ex f now1 now r :
  heap_ok r -> heap_ok (restoreRecord v epoch token inst ex f now1 now r).
Proof.
  intros Hok. unfold restoreRecord. case_bool_decide; [done|]. case_match; [done|].
  stored.
Qed.

Lemma heap_ok_step e r : uninterrupted e -> heap_ok r -> heap_ok (step e r).2.
Proof.
  unfold uninterrupted, step. intros Hu Hok.
  destruct (action e) as [c epoch token inst ttl|c s id epoch token ttl re ro|c c2 s|c s|c s|c cancel|s id|epoch token inst ex f now1].
  - pose proof (heap_ok_register (visits e) c epoch token inst ttl (at_ e) r Hok). by case_match.
  - pose proof (heap_ok_heartbeat (visits e) c s id epoch token ttl (at_ e) re ro r Hok). by case_match.
  - unfold Snapshot. repeat case_match; simplify_eq; try done. by apply heap_ok_sweep_service.
  - unfold Watch. repeat case_match; simplify_eq; try done. by apply heap_ok_shrink.
  - unfold watch_poll. case_match; [by apply heap_ok_sweep_service|done].
  - subst. destruct c; [done|]. pose proof (sweep_exact_ok (visits e) (dirty_order e) (at_ e) r Hok).
    destruct (sweepExpiredRecords _ _ _ _ _ _). naive_solver.
  - unfold deleteRecord. destruct (services r !! s) as [st|] eqn:Hst; [|done]. destruct (records st !! id); [|done].
    apply heap_ok_shrink; [done|]. rewrite (get_service_Some _ _ _ Hst). apply delete_subseteq.
  - by apply heap_ok_restore.
Qed.

Lemma heap_ok_run es r : Forall uninterrupted es -> heap_ok r -> heap_ok (run es r).2.
Proof.
  revert r. induction es as [|e es IH]; intros r Hu Hok; [done|]. apply Forall_cons in Hu as [He Hu]. cbn [run].
  pose proof (heap_ok_step e r He Hok) as Hs. destruct (step e r) as [x r1]. specialize (IH r1 Hu Hs).
  by destruct (run es r1).
Qed.

(** C22. A sweep that is not interrupted terminates and is exact: after any run
    whose sweeps were not interrupted it removes, once each, exactly the records
    whose deadline has passed, keeps the others as they are, and leaves only
    deadlines in the heap that are still ahead. *)
Theorem sweep_removes_exactly_expired es v ord now :
  Forall uninterrupted es ->
  let r := (run es NewMemoryRegistry).2 in
  let '(expired, r') := sweepExpiredRecords v false None ord now r in
  NoDup expired /\
  (forall s id, (s, id) ∈ expired <-> exists rec, lookup_record r s id = Some rec /\ expiresAt rec <= now) /\
  (forall s id rec, lookup_record r' s id = Some rec <-> lookup_record r s id = Some rec /\ now < expiresAt rec) /\
  Forall (fun e => now < e_expiresAt e) (expiries r').
Proof.
  intros Hu r. pose proof (sweep_exact_ok v ord now r (heap_ok_run es _ Hu heap_ok_new)) as H.
  destruct (sweepExpiredRecords v false None ord now r) as [expired r'].
  destruct H as ([_ He] & [Hn Hg Hs] & Hf).
  assert (Hlive : forall s id rec, lookup_record r' s id = Some rec -> now < expiresAt rec).
  { intros s id rec Hr. rewrite Forall_forall in Hf. apply (Hf _ (He _ _ _ Hr)). }
  split; [done|]. split; [|split; [|done]].
  - intros s id. split; [intros Hin; by destruct (Hg _ _ Hin)|]. intros (rec & Hr & Hle).
    destruct (decide ((s, id) ∈ expired)) as [|Hnot]; [done|]. rewrite <- Hs in Hr by done. apply Hlive in Hr. lia.
  - intros s id rec. destruct (decide ((s, id) ∈ expired)) as [Hin|Hnot].
    + destruct (Hg _ _ Hin) as (Hnone & rec' & Hr' & Hle). rewrite Hnone. split; [done|]. intros [Hr Hlt]. simplify_eq. lia.
    + rewrite <- Hs by done. naive_solver.
Qed.

Lemma sweep_removes_exactly_expired_witness :
  (sweepExpiredRecords map_to_list false None elements 111 (run (take 4 demo_events) NewMemoryRegistry).2).1 = [("pay", "a")]%string /\
  NoDup (sweepExpiredRecords map_to_list false None elements 111 (run (take 4 demo_events) NewMemoryRegistry).2).1.
Proof.
  split; [by vm_compute|].
  pose proof (sweep_removes_exactly_expired (take 4 demo_events) map_to_list elements 111
    ltac:(by repeat (apply Forall_cons; split; [done|]))) as H. cbv zeta in H.
  destruct (sweepExpiredRecords _ _ _ _ _ _) as [expired r']. apply H.
Defined.

(** A sweep interrupted by its context has already taken a deadline off the
    heap and drops it: the record it belonged to stays, past its deadline, and no
    later sweep removes it; a heartbeat revives it long after it expired. *)
Theorem interrupted_sweep_leaks :
  let es := [demo_event 100 (ORegister false "e1" "t1" (demo_instance "b") 10); demo_event 120 (OSweep false (Some 0%nat))] in
  let r := (run es NewMemoryRegistry).2 in
  let '(removed, r1) := SweepExpired map_to_list false None elements 1000 r in
  removed = 0 /\ recordExists "pay" "b" r1 = true /\ expiresAt <$> lookup_record r1 "pay" "b" = Some 110 /\
  (HeartbeatWithOwner map_to_list false "pay" "b" "e1" "t1" 10 2000 r1).1 = None.
Proof. by vm_compute. Qed.

(** ** Announcements *)

(** The service is as it was, or has published its records once. *)
Definition moves (s : string) (st st' : serviceState) : Prop :=
  st' = st \/ exists v now recs, st' = rebuildSnapshotLocked v s now (set_records st recs).

Lemma get_set_service r s st s' : get_service (set_service r s st) s' = if decide (s = s') then st else get_service r s'.
Proof. unfold get_service. simpl. case_decide; [subst; by rewrite lookup_insert_eq | by rewrite lookup_insert_ne]. Qed.

Lemma moves_set r s v now recs s' :
  moves s' (get_service r s') (get_service (set_service r s (rebuildSnapshotLocked v s now (set_records (get_service r s) recs))) s').
Proof. rewrite get_set_service. case_decide; [subst; right; eauto | by left]. Qed.

Lemma moves_sweep_service v c s now r s' : moves s' (get_service r s') (get_service (sweepExpiredForService v c s now r).2 s').
Proof.
  unfold sweepExpiredForService. destruct c; [by left|]. destruct (services r !! s) as [st|] eqn:Hst; [|by left].
  case_match; [|by left]. rewrite <- (get_service_Some _ _ _ Hst). apply moves_set.
Qed.

(** The services the loop of the sweeper has written are those of [expired]. *)
Definition unpublished (r0 r : MemoryRegistry) (expired : list (string * string)) : Prop :=
  (forall s, s ∈ expired.*1 -> s ∈ dom (services r)) /\
  forall s, exists recs, get_service r s = set_records (get_service r0 s) recs /\
    (s ∉ expired.*1 -> get_service r s = get_service r0 s).

Lemma unpublished_delete r0 r expired s st id :
  unpublished r0 r expired -> services r !! s = Some st ->
  unpublished r0 (set_service r s (set_records st (delete id (records st)))) (expired ++ [(s, id)]).
Proof.
  intros [Hd Hu] Hst. split.
  - intros s' Hin. simpl. rewrite fmap_app in Hin. apply dom_insert, elem_of_union.
    apply elem_of_app in Hin as [Hin|Hin%list_elem_of_singleton]; [right; by apply Hd | left; set_solver].
  - intros s'. rewrite get_set_service, fmap_app. destruct (Hu s') as (recs & Hr & Hsame). case_decide as E.
    + subst. rewrite (get_service_Some _ _ _ Hst) in Hr. exists (delete id (records st)). split; [by rewrite Hr|].
      intros Hn. destruct Hn. apply elem_of_app. right. by apply list_elem_of_singleton.
    + exists recs. split; [done|]. intros Hn. apply Hsame. intros Hin. apply Hn, elem_of_app. by left.
Qed.

Lemma sweep_loop_unpublished now r0 fuel cancel expired r :
  unpublished r0 r expired ->
  let '(expired', r') := sweep_loop fuel cancel now expired r in unpublished r0 r' expired'.
Proof.
  revert cancel expired r. induction fuel as [|fuel IH]; intros cancel expired r Hu; [done|]. cbn [sweep_loop].
  destruct (popExpired r now) as [[e r1]|] eqn:Hpop; [|done]. apply popExpired_services in Hpop.
  assert (Hu1 : unpublished r0 r1 expired) by (unfold unpublished, get_service in *; by rewrite Hpop).
  assert (Hgo : forall c, let '(expired', r') := sweep_loop fuel c now expired r1 in unpublished r0 r' expired')
    by (intros c; by apply IH).
  destruct cancel as [[|k]|]; [done| |];
    (destruct (services r1 !! e_service e) as [st|] eqn:Hst; [|apply Hgo];
     destruct (records st !! e_id e) as [rec|]; [|apply Hgo];
     destruct (_ && _); [|apply Hgo]; apply IH; by apply unpublished_delete).
Qed.

Lemma moves_sweep v c cancel ord now r s :
  (forall X, ord X ≡ₚ elements X) ->
  moves s (get_service r s) (get_service (sweepExpiredRecords v c cancel ord now r).2 s).
Proof.
  intros Hord. unfold sweepExpiredRecords. destruct c; [by left|].
  pose proof (sweep_loop_unpublished now r (S (length (expiries r))) cancel [] r) as H.
  destruct (sweep_loop (S (length (expiries r))) cancel now [] r) as [expired r'].
  destruct H as [Hd Hu].
  { split; [intros s' Hin; inv Hin|]. intros s'. exists (records (get_service r s')). split; [by destruct (get_service r s')|done]. }
  assert (Hin : forall s', s' ∈ ord (list_to_set expired.*1) <-> s' ∈ expired.*1)
    by (intros s'; rewrite Hord, elem_of_elements; apply elem_of_list_to_set).
  cbn [snd]. rewrite rebuild_all_get; [|rewrite Hord; apply NoDup_elements|intros s' Hs'; by apply Hd, Hin].
  destruct (Hu s) as (recs & Hr & Hsame). case_decide as E.
  - right. exists v, now, recs. by rewrite Hr.
  - left. apply Hsame. by rewrite <- Hin.
Qed.

Lemma step_moves e r s : traverses e -> moves s (get_service r s) (get_service (step e r).2 s).
Proof.
  intros [_ Hord]. unfold step.
  destruct (action e) as [c epoch token inst ttl|c s' id epoch token ttl re ro|c c2 s'|c s'|c s'|c cancel|s' id|epoch token inst ex f now1].
  - unfold registerAt. destruct c; [by left|]. case_bool_decide; [by left|]. destruct (ttl <=? 0); [by left|].
    apply (moves_set (next_generation r)).
  - unfold heartbeatAtWithOwner. destruct c; [by left|]. destruct (_ || _); [by left|].
    destruct (services r !! s') as [st|] eqn:Hst; [|by left]. destruct (records st !! id); [|by left].
    destruct (re && _); [by left|]. destruct (ro && _); [by left|]. rewrite <- (get_service_Some _ _ _ Hst).
    apply (moves_set (next_generation r)).
  - unfold Snapshot. destruct c; [by left|]. case_bool_decide; [by left|]. destruct (services r !! s'); [|by left].
    destruct (snapshotNeedsExpiry _ _); [apply moves_sweep_service | by left].
  - unfold Watch. destruct c; [by left|]. case_bool_decide; [by left|]. left. simpl. rewrite get_set_service.
    case_decide; by subst.
  - unfold watch_poll. destruct (snapshotNeedsExpiry _ _); [apply moves_sweep_service | by left].
  - pose proof (moves_sweep (visits e) c cancel _ (at_ e) r s Hord). by case_match.
  - unfold deleteRecord. destruct (services r !! s') as [st|] eqn:Hst; [|by left]. destruct (records st !! id); [|by left].
    rewrite <- (get_service_Some _ _ _ Hst). apply moves_set.
  - unfold restoreRecord. case_bool_decide; [by left|]. destruct (f && _); [by left|]. apply (moves_set (next_generation r)).
Qed.

(** Versions count the publications. *)
Definition versioned (n : Z) (st : serviceState) : Prop :=
  Version (snapshot st) = version st /\ 0 <= version st <= n.

Lemma moves_versioned n s st st' : 0 <= n < 2 ^ 63 - 1 -> versioned n st -> moves s st st' -> versioned (n + 1) st'.
Proof.
  intros Hn [Hv Hb] [->|(v & now & recs & ->)]; [split; [done|lia]|]. split; [done|]. simpl.
  rewrite wraps_small by (unfold is_s; lia). lia.
Qed.

Lemma run_versioned es r n s :
  Forall traverses es -> 0 <= n -> n + Z.of_nat (length es) < 2 ^ 63 -> versioned n (get_service r s) ->
  versioned (n + Z.of_nat (length es)) (get_service (run es r).2 s).
Proof.
  revert r n. induction es as [|e es IH]; intros r n Ht Hn Hlt Hv; cbn [run length]; [by rewrite Z.add_0_r|].
  apply Forall_cons in Ht as [He Ht]. pose proof (step_moves e r s He) as Hm. destruct (step e r) as [x r1].
  simpl in Hlt. pose proof (moves_versioned n s _ _ ltac:(lia) Hv Hm) as Hv1.
  specialize (IH r1 (n + 1) Ht ltac:(lia) ltac:(lia) Hv1). destruct (run es r1) as [xs r2]. simpl in *.
  by replace (n + Z.of_nat (S (length es))) with (n + 1 + Z.of_nat (length es)) by lia.
Qed.

(** Every change of a service is announced: after any run, an operation
    leaves a service, its records and its snapshot as they were, or publishes a
    snapshot whose version is the next one and closes the notification channel the
    watchers wait on, exactly once. *)
Theorem changes_are_announced es e s :
  Forall traverses (es ++ [e]) -> Z.of_nat (length es) < 2 ^ 63 - 1 ->
  let r := (run es NewMemoryRegistry).2 in
  let st := get_service r s in
  let st' := get_service (step e r).2 s in
  st' = st \/ Version (snapshot st') = Version (snapshot st) + 1 /\ notify st' = (notify st + 1)%N.
Proof.
  intros [Ht [He _]%Forall_cons]%Forall_app Hlt r st st'. destruct (step_moves e r s He) as [E|(v & now & recs & E)]; [by left|].
  right. subst st'. rewrite E. simpl.
  destruct (run_versioned es NewMemoryRegistry 0 s Ht ltac:(lia) ltac:(lia)) as [Hv Hb]; [done|]. fold r in Hv, Hb. fold st in Hv, Hb.
  rewrite Hv. split; [|done]. fold st. rewrite wraps_small by (unfold is_s; lia). done.
Qed.

Lemma changes_are_announced_witness :
  let r := (run (take 4 demo_events) NewMemoryRegistry).2 in
  let st := get_service r "pay" in
  let st' := get_service (step (demo_event 112 (OSnapshot false false "pay")) r).2 "pay" in
  Version (snapshot st') = 4 /\
  (st' = st \/ Version (snapshot st') = Version (snapshot st) + 1 /\ notify st' = (notify st + 1)%N).
Proof.
  split; [by vm_compute|]. apply (changes_are_announced (take 4 demo_events) (demo_event 112 (OSnapshot false false "pay"))).
  - by repeat (apply Forall_cons; split; [by split|]).
  - by vm_compute.
Defined.
