(* ===== verification/PolicyTypes.v ===== *)
(** * Policy messages ([api/proto/aegis/v1/policy.proto])

    The messages the policy stores build, the controller serves and the client SDK
    compiles.  A pointer to a message is an [option]; 64- and 32-bit integers are
    numbers, doubles are binary64. *)
From Stdlib Require Import String.
From S2P Require Import Prelude GoFloat.

Record PbRetryPolicy := {
  Enabled : bool;
  pb_MaxAttempts : Z;
  pb_BudgetRatio : float64;
  pb_MinBudget : Z;
  WindowSeconds : Z;
  PerTryTimeoutMillis : Z
}.

Record OutlierDetectionPolicy := {
  pb_DegradedThreshold : float64;
  pb_EjectThreshold : float64;
  pb_ConsecutiveWindows : Z;
  EjectionDurationSeconds : Z;
  pb_RecoveryThreshold : float64;
  pb_ProbeSuccessThreshold : float64
}.

Record MethodPolicy := { Method : string; Idempotent : bool; TimeoutMillis : Z; m_Retry : option PbRetryPolicy }.

(** [MaxInflight] is the circuit breaker's cap, if the policy has one. *)
Record PolicySnapshot := {
  p_Service : string;
  Revision : Z;
  pb_RoutingPolicy : string;
  p_Retry : option PbRetryPolicy;
  OutlierDetection : option OutlierDetectionPolicy;
  MaxInflight : option Z;
  Methods : gmap string (option MethodPolicy)
}.
