(* ===== verification/SdkRetry.v ===== *)
(** * Retries of the client SDK ([sdk/go/aegisgrpc])

    [retry.go] (compiled policies and the retry loop of a unary call),
    [dial_options.go] (options and the initial policy) and [policy.go] (policies
    published by the controller and the budget of each method).  gRPC status codes
    are numbers, the invoker is a function from the attempt to its status code, and
    budgets are shared objects, addressed in a store. *)
From Stdlib Require Import String SpecFloat.
From S2P Require Import Prelude GoStd GoFloat PolicyTypes Breaker RetryBudget.

(** ** Retry policies ([retry.go]) *)

Definition Unavailable : Z := 14.
Definition DeadlineExceeded : Z := 4.

Definition defaultRetryableMask : Z := Z.lor (Z.shiftl 1 Unavailable) (Z.shiftl 1 DeadlineExceeded).

Record RetryPolicy := { MaxAttempts : Z; PerTryTimeout : Z; RetryableCodes : list Z }.

Record compiledRetry := {
  mode : string;
  maxAttempts : Z;
  perTryTimeout : Z;
  retryableMask : Z;
  budget_cfg : BudgetConfig
}.

Definition RetryBudget_ : string := "budget".
Definition RetryWithoutBudget : string := "without_budget".
Definition RetryOff : string := "off".

Definition zero_budget : BudgetConfig := {| BudgetRatio := fzero; MinBudget := 0; Window := 0 |}.

(** Codes are 32-bit unsigned. *)
Definition retryableCodeBit (code : Z) : Z := if 64 <=? code then 0 else Z.shiftl 1 code.

Definition retryableCodeMask (codes : list Z) : Z := foldl (fun mask code => Z.lor mask (retryableCodeBit code)) 0 codes.

Definition compileRetryPolicy (policy : RetryPolicy) : compiledRetry := {|
  mode := ""; maxAttempts := if MaxAttempts policy <=? 0 then 1 else MaxAttempts policy;
  perTryTimeout := PerTryTimeout policy;
  retryableMask := match RetryableCodes policy with [] => defaultRetryableMask | codes => retryableCodeMask codes end;
  budget_cfg := zero_budget |}.

Definition IsRetryable (r : compiledRetry) (code : Z) : bool := negb (Z.land (retryableMask r) (retryableCodeBit code) =? 0).

(** The 64 codes a mask can hold. *)
Definition mask_codes : list Z := Z.of_nat <$> seq 0 64.

Definition retryableCodesFromMask (mask : Z) : list Z :=
  if mask =? 0 then [] else filter (fun code => Z.land mask (Z.shiftl 1 code) <> 0) mask_codes.

Definition toPolicy (r : compiledRetry) : RetryPolicy :=
  {| MaxAttempts := maxAttempts r; PerTryTimeout := perTryTimeout r; RetryableCodes := retryableCodesFromMask (retryableMask r) |}.

Definition defaultRetryPolicy : RetryPolicy :=
  {| MaxAttempts := 2; PerTryTimeout := 750 * 1000000; RetryableCodes := [Unavailable; DeadlineExceeded] |}.

Definition set_attempts (r : compiledRetry) (m : string) (n : Z) : compiledRetry :=
  {| mode := m; maxAttempts := n; perTryTimeout := perTryTimeout r; retryableMask := retryableMask r; budget_cfg := budget_cfg r |}.

(** ** The retry loop *)

Section Loop.
(** The status code of an attempt ([None] when it succeeds), and the readings of
    the budget's clock: for the original request ([0]) and after each attempt. *)
Context (invoker : Z -> option Z) (clock : Z -> Z * Z).

(** [budget] is [None] for a nil budget; the result carries the attempts made, as
    numbers and timeouts. *)
Fixpoint attempts (fuel : nat) (retry : compiledRetry) (attempt : Z) (budget : option Budget)
  : option Z * option Budget * list (Z * option Z) :=
  match fuel with
  | O => (None, budget, [])
  | S fuel' =>
      let made := (attempt, if 0 <? perTryTimeout retry then Some (perTryTimeout retry) else None) in
      match invoker attempt with
      | None => (None, budget, [made])
      | Some code =>
          if attempt =? maxAttempts retry then (Some code, budget, [made])
          else if negb (IsRetryable retry code) then (Some code, budget, [made])
          else
            let go b := let '(err, b, l) := attempts fuel' retry (attempt + 1) b in (err, b, made :: l) in
            match budget with
            | None => go None
            | Some b =>
                let '(ok, b) := TryAcquireRetry (clock attempt).1 (clock attempt).2 b in
                if ok then go (Some b) else (Some code, Some b, [made])
            end
      end
  end.

Definition invokeWithRetryPolicy (retry : compiledRetry) (budget : option Budget)
  : option Z * option Budget * list (Z * option Z) :=
  let retry := if maxAttempts retry <=? 0 then set_attempts retry (mode retry) 1 else retry in
  attempts (Z.to_nat (maxAttempts retry)) retry 1 (RecordOriginal (clock 0).1 (clock 0).2 <$> budget).
End Loop.

(** ** Dial options ([dial_options.go]) *)

Definition RoutingAdaptiveP2C : string := "adaptive_p2c".
Definition RoutingRoundRobin : string := "round_robin".

(** [HasNow] is whether the budget configuration has a clock of its own. *)
Record DialOptions := {
  o_RoutingPolicy : string;
  o_RetryMode : string;
  o_RetryPolicy : RetryPolicy;
  o_RetryBudget : BudgetConfig;
  HasNow : bool
}.

Definition DefaultDialOptions : DialOptions := {|
  o_RoutingPolicy := RoutingAdaptiveP2C; o_RetryMode := RetryBudget_; o_RetryPolicy := defaultRetryPolicy;
  o_RetryBudget := {| BudgetRatio := flit 15 100; MinBudget := 10; Window := 10 * 1000000000 |}; HasNow := false |}.

Definition isZeroBudgetConfig (cfg : BudgetConfig) (hasNow : bool) : bool :=
  feq (BudgetRatio cfg) fzero && (MinBudget cfg =? 0) && (Window cfg =? 0) && negb hasNow.

Definition normalizeDialOptions (o : DialOptions) : DialOptions := {|
  o_RoutingPolicy := if bool_decide (o_RoutingPolicy o = ""%string) then o_RoutingPolicy DefaultDialOptions else o_RoutingPolicy o;
  o_RetryMode := if bool_decide (o_RetryMode o = ""%string) then o_RetryMode DefaultDialOptions else o_RetryMode o;
  o_RetryPolicy := if MaxAttempts (o_RetryPolicy o) =? 0 then o_RetryPolicy DefaultDialOptions else o_RetryPolicy o;
  o_RetryBudget := if isZeroBudgetConfig (o_RetryBudget o) (HasNow o) then o_RetryBudget DefaultDialOptions else o_RetryBudget o;
  HasNow := HasNow o |}.

Definition policyRetryHasAnyField (policy : option PbRetryPolicy) : bool :=
  match policy with
  | None => false
  | Some p => Enabled p || negb (pb_MaxAttempts p =? 0) || negb (feq (pb_BudgetRatio p) fzero) || negb (pb_MinBudget p =? 0)
              || negb (WindowSeconds p =? 0) || negb (PerTryTimeoutMillis p =? 0)
  end.

Definition applyRetryPolicyToDialOptions (o : DialOptions) (policy : option PbRetryPolicy) : DialOptions :=
  if negb (policyRetryHasAnyField policy) then o else
  match policy with
  | None => o
  | Some p =>
      let rp := o_RetryPolicy o in
      let rb := o_RetryBudget o in
      if negb (Enabled p) then {|
        o_RoutingPolicy := o_RoutingPolicy o; o_RetryMode := RetryOff;
        o_RetryPolicy := {| MaxAttempts := 1; PerTryTimeout := PerTryTimeout rp; RetryableCodes := RetryableCodes rp |};
        o_RetryBudget := rb; HasNow := HasNow o |}
      else {|
        o_RoutingPolicy := o_RoutingPolicy o; o_RetryMode := RetryBudget_;
        o_RetryPolicy := {|
          MaxAttempts := if 0 <? pb_MaxAttempts p then pb_MaxAttempts p else MaxAttempts rp;
          PerTryTimeout := if 0 <? PerTryTimeoutMillis p then wraps 64 (PerTryTimeoutMillis p * 1000000) else PerTryTimeout rp;
          RetryableCodes := RetryableCodes rp |};
        o_RetryBudget := {|
          BudgetRatio := if flt fzero (pb_BudgetRatio p) then pb_BudgetRatio p else BudgetRatio rb;
          MinBudget := if 0 <? pb_MinBudget p then pb_MinBudget p else MinBudget rb;
          Window := if 0 <? WindowSeconds p then wraps 64 (WindowSeconds p * 1000000000) else Window rb |};
        HasNow := HasNow o |}
  end.

Definition applyPolicySnapshotToDialOptions (o : DialOptions) (snapshot : option PolicySnapshot) : DialOptions :=
  match snapshot with
  | None => o
  | Some s =>
      let o := {| o_RoutingPolicy := if bool_decide (pb_RoutingPolicy s = ""%string) then o_RoutingPolicy o else pb_RoutingPolicy s;
                  o_RetryMode := o_RetryMode o; o_RetryPolicy := o_RetryPolicy o; o_RetryBudget := o_RetryBudget o;
                  HasNow := HasNow o |} in
      applyRetryPolicyToDialOptions o (p_Retry s)
  end.

(** ** Published policies ([policy.go]) *)

Definition adaptiveDefaultMaxInflightPerTarget : Z := 128.

Record compiledRetryPatch := {
  has : bool;
  enabled : bool;
  patch_maxAttempts : Z;
  patch_perTryTimeout : Z;
  budgetRatio : float64;
  minBudget : Z;
  window : Z
}.

Record compiledMethod := { idempotent : bool; timeout : Z; method_retry : compiledRetryPatch }.

Record compiledPolicy := {
  version : Z;
  routing : string;
  defaultRetry : compiledRetryPatch;
  maxInflightPerEndpoint : Z;
  methods : gmap string compiledMethod
}.

Definition durationMillis (ms : Z) : Z := if ms <=? 0 then 0 else wraps 64 (ms * 1000000).
Definition durationSeconds (seconds : Z) : Z := if seconds <=? 0 then 0 else wraps 64 (seconds * 1000000000).

Definition no_patch : compiledRetryPatch :=
  {| has := false; enabled := false; patch_maxAttempts := 0; patch_perTryTimeout := 0; budgetRatio := fzero; minBudget := 0; window := 0 |}.

Definition compileRetryPatch (policy : option PbRetryPolicy) : compiledRetryPatch :=
  match policy with
  | Some p =>
      if negb (policyRetryHasAnyField policy) then no_patch else
      {| has := true; enabled := Enabled p; patch_maxAttempts := pb_MaxAttempts p;
         patch_perTryTimeout := durationMillis (PerTryTimeoutMillis p); budgetRatio := pb_BudgetRatio p;
         minBudget := pb_MinBudget p; window := durationSeconds (WindowSeconds p) |}
  | None => no_patch
  end.

Definition compileCircuitBreakerPolicy (maxInflight : option Z) : Z :=
  match maxInflight with
  | Some m => if 0 <? m then m else adaptiveDefaultMaxInflightPerTarget
  | None => adaptiveDefaultMaxInflightPerTarget
  end.

(** One entry of the snapshot's map of methods. *)
Definition compile_method (ms : gmap string compiledMethod) (entry : string * option MethodPolicy) : gmap string compiledMethod :=
  match entry.2 with
  | None => ms
  | Some m =>
      <[if bool_decide (entry.1 = ""%string) then Method m else entry.1 :=
        {| idempotent := Idempotent m; timeout := durationMillis (TimeoutMillis m); method_retry := compileRetryPatch (m_Retry m) |}]> ms
  end.

(** The order in which Go traverses the methods of a snapshot. *)
Definition method_order : Type := gmap string (option MethodPolicy) -> list (string * option MethodPolicy).

Definition compilePolicySnapshot (visit : method_order) (s : PolicySnapshot) : compiledPolicy := {|
  version := Revision s; routing := pb_RoutingPolicy s; defaultRetry := compileRetryPatch (p_Retry s);
  maxInflightPerEndpoint := compileCircuitBreakerPolicy (MaxInflight s);
  methods := foldl compile_method ∅ (visit (Methods s)) |}.

Definition compileRetryFromDialOptions (o : DialOptions) : compiledRetry :=
  let o := normalizeDialOptions o in
  let r := compileRetryPolicy (o_RetryPolicy o) in
  {| mode := o_RetryMode o; maxAttempts := if bool_decide (o_RetryMode o = RetryOff) then 1 else maxAttempts r;
     perTryTimeout := perTryTimeout r; retryableMask := retryableMask r; budget_cfg := o_RetryBudget o |}.

Definition applyCompiledRetryPatch (retry : compiledRetry) (patch : compiledRetryPatch) : compiledRetry :=
  if negb (has patch) then retry
  else if negb (enabled patch) then set_attempts retry RetryOff 1
  else
    let b := budget_cfg retry in
    {| mode := RetryBudget_;
       maxAttempts := if 0 <? patch_maxAttempts patch then patch_maxAttempts patch else maxAttempts retry;
       perTryTimeout := if 0 <? patch_perTryTimeout patch then patch_perTryTimeout patch else perTryTimeout retry;
       retryableMask := retryableMask retry;
       budget_cfg := {|
         BudgetRatio := if flt fzero (budgetRatio patch) then budgetRatio patch else BudgetRatio b;
         MinBudget := if 0 <? minBudget patch then minBudget patch else MinBudget b;
         Window := if 0 <? window patch then window patch else Window b |} |}.

Definition applyCompiledMethod (retry : compiledRetry) (m : compiledMethod) : compiledRetry :=
  let retry :=
    if 0 <? timeout m
    then {| mode := mode retry; maxAttempts := maxAttempts retry; perTryTimeout := timeout m;
            retryableMask := retryableMask retry; budget_cfg := budget_cfg retry |}
    else retry in
  if has (method_retry m) then applyCompiledRetryPatch retry (method_retry m)
  else if negb (idempotent m) then set_attempts retry RetryOff 1
  else retry.

(** [pool] is the cap of the limiter pool, when the manager has one. *)
Record policyManager := { v_policy : option compiledPolicy; pool : option Z }.

Definition Manager_Update (visit : method_order) (snapshot : option PolicySnapshot) (m : policyManager) : policyManager :=
  match snapshot with
  | None => m
  | Some s =>
      let policy := compilePolicySnapshot visit s in
      {| v_policy := Some policy; pool := (fun _ => MaxInflight_Set (maxInflightPerEndpoint policy)) <$> pool m |}
  end.

(** The budgets of the methods: [budgets] maps a method to its budget's address in
    [store]; a replaced budget stays for the calls that still hold it. *)
Record dynamicRetrySource := {
  defaults : compiledRetry;
  manager : policyManager;
  budgets : gmap string nat;
  budgetRevisions : gmap string Z;
  store : list Budget
}.

Definition newDynamicRetrySource (o : DialOptions) (m : policyManager) : dynamicRetrySource :=
  {| defaults := compileRetryFromDialOptions o; manager := m; budgets := ∅; budgetRevisions := ∅; store := [] |}.

Definition Source_Update (visit : method_order) (snapshot : option PolicySnapshot) (s : dynamicRetrySource) : dynamicRetrySource :=
  {| defaults := defaults s; manager := Manager_Update visit snapshot (manager s); budgets := budgets s;
     budgetRevisions := budgetRevisions s; store := store s |}.

(** [now] is read when a budget is created. *)
Definition budgetForMethod (now : Z) (method : string) (revision : Z) (cfg : BudgetConfig) (s : dynamicRetrySource)
  : nat * dynamicRetrySource :=
  match budgets s !! method with
  | Some a =>
      if default 0 (budgetRevisions s !! method) =? revision then (a, s)
      else (length (store s), {| defaults := defaults s; manager := manager s;
             budgets := <[method := length (store s)]> (budgets s);
             budgetRevisions := <[method := revision]> (budgetRevisions s); store := store s ++ [NewBudget cfg now] |})
  | None => (length (store s), {| defaults := defaults s; manager := manager s;
             budgets := <[method := length (store s)]> (budgets s);
             budgetRevisions := <[method := revision]> (budgetRevisions s); store := store s ++ [NewBudget cfg now] |})
  end.

(** The retry settings of a method under the published policy. *)
Definition retry_for (s : dynamicRetrySource) (method : string) : compiledRetry * Z :=
  match v_policy (manager s) with
  | None => (defaults s, 0)
  | Some policy =>
      let retry := applyCompiledRetryPatch (defaults s) (defaultRetry policy) in
      (match methods policy !! method with Some m => applyCompiledMethod retry m | None => retry end, version policy)
  end.

Definition PolicyForMethod (now : Z) (method : string) (s : dynamicRetrySource)
  : compiledRetry * option nat * dynamicRetrySource :=
  let '(retry, revision) := retry_for s method in
  if bool_decide (mode retry = RetryOff \/ mode retry = RetryWithoutBudget) then (retry, None, s)
  else let '(a, s) := budgetForMethod now method revision (budget_cfg retry) s in (retry, Some a, s).

(** A unary call through the interceptor, undisturbed by others. *)
Definition call_method (invoker : Z -> option Z) (clock : Z -> Z * Z) (now : Z) (method : string) (s : dynamicRetrySource)
  : option Z * list (Z * option Z) * dynamicRetrySource :=
  let '(retry, a, s) := PolicyForMethod now method s in
  let '(err, b, l) := invokeWithRetryPolicy invoker clock retry (a ≫= fun a => store s !! a) in
  (err, l, match a, b with
           | Some a, Some b => {| defaults := defaults s; manager := manager s; budgets := budgets s;
                                  budgetRevisions := budgetRevisions s; store := <[a := b]> (store s) |}
           | _, _ => s
           end).

(** What dialling does with the policy the controller answered with. *)
Definition dial (visit : method_order) (o : DialOptions) (initial : option PolicySnapshot) : dynamicRetrySource :=
  let o := normalizeDialOptions o in
  let m := Manager_Update visit initial {| v_policy := None; pool := Some (MaxInflight_Set adaptiveDefaultMaxInflightPerTarget) |} in
  newDynamicRetrySource (applyPolicySnapshotToDialOptions o initial) m.

(** ** The loop *)

(** A failed attempt the policy lets be repeated. *)
Definition retryable (invoker : Z -> option Z) (retry : compiledRetry) (k : Z) : Prop :=
  exists code, invoker k = Some code /\ IsRetryable retry code = true.

(** The window of the budget stays open during the call. *)
Definition in_window (clock : Z -> Z * Z) (b : Budget) : Prop :=
  forall k, time_Sub (clock k).1 (windowStart b) < Window (cfg b).

Lemma in_window_lock clock b k : in_window clock b -> lockCurrentWindow (clock k).1 (clock k).2 b = b.
Proof. intros H. unfold lockCurrentWindow. by rewrite (proj2 (Z.ltb_lt _ _) (H k)). Qed.

Lemma TryAcquire_in_window clock b k :
  in_window clock b -> 0 <= retryRequests b < 2 ^ 63 - 1 ->
  TryAcquireRetry (clock k).1 (clock k).2 b
  = if retryRequests b <? allowedRetries b then (true, set_counters b (originalRequests b) (retryRequests b + 1)) else (false, b).
Proof.
  intros Hw Hr. unfold TryAcquireRetry. rewrite in_window_lock by done.
  destruct (Z.leb_spec (allowedRetries b) 0); [by rewrite (proj2 (Z.ltb_ge _ _)) by lia|].
  rewrite (wraps_small 64 (retryRequests b + 1)) by (unfold is_s; lia).
  destruct (Z.leb_spec (retryRequests b + 1) (allowedRetries b)).
  - by rewrite (proj2 (Z.ltb_lt _ _)) by lia.
  - rewrite (proj2 (Z.ltb_ge _ _)) by lia. f_equal. replace (retryRequests b + 1 - 1) with (retryRequests b) by lia.
    rewrite wraps_small by (unfold is_s; lia). by destruct b.
Qed.

Section LoopFacts.
Context (invoker : Z -> option Z) (clock : Z -> Z * Z) (retry : compiledRetry).

(** Why the loop ended after attempt [n]; [refused] is the budget's part. *)
Definition stopped (n : Z) (refused : Prop) : Prop :=
  invoker n = None \/ n = maxAttempts retry \/ (exists code, invoker n = Some code /\ IsRetryable retry code = false) \/ refused.

Lemma attempts_spec fuel k budget :
  k <= maxAttempts retry -> Z.of_nat fuel = maxAttempts retry - k + 1 ->
  let '(err, b', l) := attempts invoker clock fuel retry k budget in
  exists n, k <= n <= maxAttempts retry /\ l.*1 = seqZ k (n - k + 1) /\ err = invoker n /\
    (forall j, k <= j < n -> retryable invoker retry j) /\ stopped n (budget <> None).
Proof.
  revert k budget. induction fuel as [|fuel IH]; intros k budget Hk Hf; [lia|]. cbn [attempts].
  set (made := (k, _ : option Z)).
  assert (Hone : forall (err : option Z) (b' : option Budget), err = invoker k -> stopped k (budget <> None) ->
    let '(err, _, l) := (err, b', [made]) in
    exists n, k <= n <= maxAttempts retry /\ l.*1 = seqZ k (n - k + 1) /\ err = invoker n /\
      (forall j, k <= j < n -> retryable invoker retry j) /\ stopped n (budget <> None)).
  { intros err b' -> Hs. exists k. split; [lia|]. rewrite (seqZ_cons k) by lia. replace (Z.pred (k - k + 1)) with 0 by lia.
    split; [done|]. split; [done|]. split; [lia|done]. }
  destruct (invoker k) as [code|] eqn:Hinv; [|apply (Hone None budget); [done|by left]].
  destruct (Z.eqb_spec k (maxAttempts retry)) as [Hmax|Hmax]; [apply (Hone (Some code) budget); [done|right; by left]|].
  destruct (IsRetryable retry code) eqn:Hret; cbn [negb];
    [|apply (Hone (Some code) budget); [done|right; right; left; eauto]].
  assert (Hgo : forall b1, (b1 <> None -> budget <> None) ->
    let '(err, b', l) := (let '(err, b, l) := attempts invoker clock fuel retry (k + 1) b1 in (err, b, made :: l)) in
    exists n, k <= n <= maxAttempts retry /\ l.*1 = seqZ k (n - k + 1) /\ err = invoker n /\
      (forall j, k <= j < n -> retryable invoker retry j) /\ stopped n (budget <> None)).
  { intros b1 Hb1. specialize (IH (k + 1) b1 ltac:(lia) ltac:(lia)).
    destruct (attempts invoker clock fuel retry (k + 1) b1) as [[err b'] l].
    destruct IH as (n & Hn & Hl & He & Hr & Hs). exists n. split; [lia|].
    split; [rewrite (seqZ_cons k) by lia; cbn; f_equal; rewrite Hl; f_equal; lia|]. split; [done|].
    split; [intros j Hj; destruct (decide (j = k)) as [->|]; [by exists code | apply Hr; lia]|].
    destruct Hs as [?|[?|[?|?]]]; unfold stopped; auto 6. }
  destruct budget as [b|]; [|apply Hgo; done].
  destruct (TryAcquireRetry _ _ b) as [ok b1]. destruct ok; [by apply Hgo|].
  apply (Hone (Some code) (Some b1)); [done|]. do 3 right. done.
Qed.

(** What the budget pays for the attempts. *)
Lemma attempts_budget fuel k b :
  k <= maxAttempts retry -> Z.of_nat fuel = maxAttempts retry - k + 1 -> in_window clock b ->
  0 <= retryRequests b -> retryRequests b + (maxAttempts retry - k) < 2 ^ 63 - 1 ->
  let '(err, b', l) := attempts invoker clock fuel retry k (Some b) in
  let n := k + Z.of_nat (length l) - 1 in
  b' = Some (set_counters b (originalRequests b) (retryRequests b + (n - k))) /\
  (k < n -> retryRequests b + (n - k) <= allowedRetries b) /\
  stopped n (allowedRetries b <= retryRequests b + (n - k)).
Proof.
  revert k b. induction fuel as [|fuel IH]; intros k b Hk Hf Hw H0 Hlt; [lia|]. cbn [attempts].
  set (made := (k, _ : option Z)).
  assert (Hsame : set_counters b (originalRequests b) (retryRequests b + (k + Z.of_nat (length [made]) - 1 - k)) = b).
  { cbn [length]. replace (k + Z.of_nat 1 - 1 - k) with 0 by lia. rewrite Z.add_0_r. by destruct b. }
  assert (Hone : k + Z.of_nat (length [made]) - 1 = k) by (cbn [length]; lia).
  destruct (invoker k) as [code|] eqn:Hinv.
  2: { rewrite Hsame, Hone. split; [done|]. split; [lia|by left]. }
  destruct (Z.eqb_spec k (maxAttempts retry)) as [Hmax|Hmax].
  { rewrite Hsame, Hone. split; [done|]. split; [lia|right; by left]. }
  destruct (IsRetryable retry code) eqn:Hret; cbn [negb].
  2: { rewrite Hsame, Hone. split; [done|]. split; [lia|right; right; left; eauto]. }
  rewrite TryAcquire_in_window by (done || lia).
  destruct (Z.ltb_spec (retryRequests b) (allowedRetries b)) as [Hok|Hno].
  2: { rewrite Hsame, Hone. split; [done|]. split; [lia|]. do 3 right. lia. }
  set (b1 := set_counters b (originalRequests b) (retryRequests b + 1)).
  specialize (IH (k + 1) b1 ltac:(lia) ltac:(lia) Hw ltac:(cbn; lia) ltac:(cbn; lia)).
  destruct (attempts invoker clock fuel retry (k + 1) (Some b1)) as [[err b'] l]. cbn [length]. cbv zeta in IH |- *.
  replace (k + Z.of_nat (S (length l)) - 1) with (k + 1 + Z.of_nat (length l) - 1) by lia.
  set (n := k + 1 + Z.of_nat (length l) - 1) in *. destruct IH as (Hb & Hle & Hs).
  change (allowedRetries b1) with (allowedRetries b) in *. cbn [b1 set_counters retryRequests originalRequests] in *.
  replace (retryRequests b + 1 + (n - (k + 1))) with (retryRequests b + (n - k)) in * by lia.
  split; [by rewrite Hb|]. split; [|done]. intros Hkn. destruct (decide (n = k + 1)) as [E|]; [rewrite E; lia|apply Hle; lia].
Qed.
End LoopFacts.

(** ** Masks *)

Lemma testbit_code_bit code i : 0 <= code -> 0 <= i -> Z.testbit (retryableCodeBit code) i = bool_decide (i = code /\ i < 64).
Proof.
  intros Hc Hi. unfold retryableCodeBit. destruct (Z.leb_spec 64 code).
  - rewrite Z.bits_0. symmetry. apply bool_decide_eq_false. lia.
  - rewrite Z.shiftl_1_l, Z.pow2_bits_eqb by lia. apply eq_true_iff_eq. rewrite Z.eqb_eq, bool_decide_eq_true. lia.
Qed.

Lemma testbit_mask codes i :
  Forall (fun c => 0 <= c) codes -> 0 <= i ->
  Z.testbit (retryableCodeMask codes) i = bool_decide (i ∈ codes /\ i < 64).
Proof.
  intros Hc Hi. unfold retryableCodeMask.
  assert (H : forall acc, Z.testbit (foldl (fun mask code => Z.lor mask (retryableCodeBit code)) acc codes) i
    = Z.testbit acc i || bool_decide (i ∈ codes /\ i < 64)).
  { induction Hc as [|c codes Hc0 _ IH]; intros acc; cbn [foldl].
    - case_bool_decide as E; [destruct E as [E _]; inv E | by rewrite orb_false_r].
    - rewrite IH, Z.lor_spec, testbit_code_bit by lia. rewrite <- orb_assoc. f_equal. apply eq_true_iff_eq.
      rewrite orb_true_iff, !bool_decide_eq_true. set_solver. }
  by rewrite H, Z.bits_0.
Qed.

Lemma land_bit mask code : 0 <= code < 64 -> Z.land mask (retryableCodeBit code) = 0 <-> Z.testbit mask code = false.
Proof.
  intros Hc. split.
  - intros H. apply (f_equal (fun z => Z.testbit z code)) in H.
    rewrite Z.land_spec, testbit_code_bit, Z.bits_0, bool_decide_eq_true_2, andb_true_r in H by lia. done.
  - intros H. apply Z.bits_inj_0. intros i. destruct (Z.ltb_spec i 0); [by apply Z.testbit_neg_r|].
    rewrite Z.land_spec, testbit_code_bit by lia. case_bool_decide as E; [|apply andb_false_r]. destruct E as [-> _]. by rewrite H.
Qed.

Lemma IsRetryable_spec r code : 0 <= code < 64 -> IsRetryable r code = Z.testbit (retryableMask r) code.
Proof.
  intros Hc. unfold IsRetryable. pose proof (land_bit (retryableMask r) code Hc) as H.
  destruct (Z.eqb_spec (Z.land (retryableMask r) (retryableCodeBit code)) 0) as [E|E]; simpl.
  - symmetry. by apply H.
  - destruct (Z.testbit (retryableMask r) code); [done|]. by destruct E; apply H.
Qed.

Lemma elem_of_codes_from mask code :
  code ∈ retryableCodesFromMask mask <-> 0 <= code < 64 /\ Z.testbit mask code = true.
Proof.
  unfold retryableCodesFromMask. destruct (Z.eqb_spec mask 0) as [->|Hne].
  { rewrite Z.bits_0. set_solver. }
  rewrite list_elem_of_filter. unfold mask_codes. rewrite list_elem_of_fmap. split.
  - intros [H (n & -> & Hn)]. apply elem_of_seq in Hn. split; [lia|].
    pose proof (land_bit mask (Z.of_nat n) ltac:(lia)) as Hb. unfold retryableCodeBit in Hb.
    rewrite (proj2 (Z.leb_gt 64 (Z.of_nat n))) in Hb by lia. apply not_false_iff_true. tauto.
  - intros [Hc Ht]. pose proof (land_bit mask code Hc) as Hb. unfold retryableCodeBit in Hb.
    rewrite (proj2 (Z.leb_gt 64 code)) in Hb by lia. split; [rewrite Hb; by rewrite Ht|].
    exists (Z.to_nat code). split; [lia|]. apply elem_of_seq. lia.
Qed.

(** The codes of a policy; none given means the default ones. *)
Definition policy_codes (p : RetryPolicy) : list Z :=
  match RetryableCodes p with [] => [Unavailable; DeadlineExceeded] | codes => codes end.

Lemma compiled_mask p i :
  Forall (fun c => 0 <= c) (RetryableCodes p) -> 0 <= i ->
  Z.testbit (retryableMask (compileRetryPolicy p)) i = bool_decide (i ∈ policy_codes p /\ i < 64).
Proof.
  intros Hc Hi. unfold compileRetryPolicy, policy_codes. cbn [retryableMask].
  destruct (RetryableCodes p) as [|c codes]; [|by apply testbit_mask].
  rewrite <- (testbit_mask [Unavailable; DeadlineExceeded] i); [done | by repeat constructor | done].
Qed.

(** Compiling a retry policy loses nothing of it: a status code is retried
    exactly when the policy lists it (or lists none and it is one of the two default
    codes), and printing the compiled policy and compiling that gives the same. *)
Theorem retry_policy_roundtrip p :
  Forall (fun c => 0 <= c < 64) (RetryableCodes p) ->
  (forall code, 0 <= code < 64 -> IsRetryable (compileRetryPolicy p) code = bool_decide (code ∈ policy_codes p)) /\
  compileRetryPolicy (toPolicy (compileRetryPolicy p)) = compileRetryPolicy p.
Proof.
  intros Hc. assert (Hc0 : Forall (fun c => 0 <= c) (RetryableCodes p)) by (eapply Forall_impl; [done|]; simpl; lia).
  assert (Hlt : forall code, code ∈ policy_codes p -> 0 <= code < 64).
  { unfold policy_codes. destruct (RetryableCodes p); [unfold Unavailable, DeadlineExceeded; set_solver by lia|].
    intros code Hin. rewrite Forall_forall in Hc. by apply Hc. }
  split.
  - intros code Hcode. rewrite IsRetryable_spec, compiled_mask by (done || lia). apply bool_decide_ext. intuition lia.
  - set (r := compileRetryPolicy p).
    assert (Hmask : retryableMask (compileRetryPolicy (toPolicy r)) = retryableMask r).
    { apply Z.bits_inj'. intros i Hi. rewrite compiled_mask; [|apply Forall_forall; intros c; cbn; rewrite elem_of_codes_from; lia|done].
      assert (Hr : Z.testbit (retryableMask r) i = bool_decide (i ∈ policy_codes p /\ i < 64)) by by apply compiled_mask.
      rewrite Hr. apply bool_decide_ext. unfold policy_codes at 1. cbn [toPolicy RetryableCodes].
      destruct (retryableCodesFromMask (retryableMask r)) as [|c cs] eqn:E.
      - exfalso. destruct (policy_codes p) as [|c cs] eqn:Ep; [unfold policy_codes in Ep; by destruct (RetryableCodes p)|].
        assert (Hin : c ∈ retryableCodesFromMask (retryableMask r)); [|rewrite E in Hin; inv Hin].
        apply elem_of_codes_from. specialize (Hlt c (list_elem_of_here _ _)). split; [lia|].
        unfold r. rewrite compiled_mask by (done || lia). apply bool_decide_eq_true. rewrite Ep. split; [apply list_elem_of_here|lia].
      - rewrite <- E, elem_of_codes_from, Hr, bool_decide_eq_true. intuition lia. }
    unfold r, compileRetryPolicy in *. cbn in *. f_equal; [|done]. destruct (Z.leb_spec (MaxAttempts p) 0); [done|].
    by rewrite (proj2 (Z.leb_gt _ _)) by lia.
Qed.

Lemma retry_policy_roundtrip_witness :
  IsRetryable (compileRetryPolicy {| MaxAttempts := 3; PerTryTimeout := 0; RetryableCodes := [8; 14] |}) 8 = true /\
  toPolicy (compileRetryPolicy {| MaxAttempts := 3; PerTryTimeout := 0; RetryableCodes := [14; 8] |})
    = {| MaxAttempts := 3; PerTryTimeout := 0; RetryableCodes := [8; 14] |}.
Proof.
  split; [|by vm_compute].
  by rewrite (proj1 (retry_policy_roundtrip {| MaxAttempts := 3; PerTryTimeout := 0; RetryableCodes := [8; 14] |}
    ltac:(repeat constructor; lia))) by lia.
Defined.

(** ** Calls *)

Lemma invoke_attempts invoker clock retry budget :
  let retry' := if maxAttempts retry <=? 0 then set_attempts retry (mode retry) 1 else retry in
  maxAttempts retry' = Z.max 1 (maxAttempts retry) /\
  (forall code, IsRetryable retry' code = IsRetryable retry code) /\
  invokeWithRetryPolicy invoker clock retry budget
  = attempts invoker clock (Z.to_nat (maxAttempts retry')) retry' 1 (RecordOriginal (clock 0).1 (clock 0).2 <$> budget).
Proof. cbv zeta. split; [destruct (Z.leb_spec (maxAttempts retry) 0); cbn; lia|]. split; [by destruct (maxAttempts retry <=? 0)|done]. Qed.

(** The retry loop of a call terminates after at most the policy's attempts
    (one, if the policy allows none), numbered from one; it returns the outcome of
    the last; every attempt before it failed with a retryable code; and it ends only
    on success, at the limit, on a code that is not retryable, or when there is a
    budget, which may refuse. *)
Theorem retry_loop_bounded invoker clock retry budget :
  let limit := Z.max 1 (maxAttempts retry) in
  let '(err, _, made) := invokeWithRetryPolicy invoker clock retry budget in
  exists n, 1 <= n <= limit /\ made.*1 = seqZ 1 n /\ err = invoker n /\
    (forall k, 1 <= k < n -> retryable invoker retry k) /\
    (err = None \/ n = limit \/ (exists code, err = Some code /\ IsRetryable retry code = false) \/ budget <> None).
Proof.
  cbv zeta. destruct (invoke_attempts invoker clock retry budget) as (Hmax & Hret & ->). cbv zeta in *.
  set (retry' := if maxAttempts retry <=? 0 then _ else _) in *.
  pose proof (attempts_spec invoker clock retry' (Z.to_nat (maxAttempts retry')) 1
    (RecordOriginal (clock 0).1 (clock 0).2 <$> budget) ltac:(lia) ltac:(lia)) as H.
  destruct (attempts _ _ _ _ _ _) as [[err b'] made]. destruct H as (n & Hn & Hl & -> & Hr & Hs).
  exists n. split; [lia|]. split; [rewrite Hl; f_equal; lia|]. split; [done|].
  split; [intros k Hk; destruct (Hr k ltac:(lia)) as (c & ? & Hc); exists c; by rewrite <- Hret|].
  destruct Hs as [?|[?|[(c & ? & Hc)|Hb]]]; [by left | right; left; lia | right; right; left; exists c; by rewrite <- Hret |].
  do 3 right. by destruct budget.
Qed.

(** A call pays for its retries: while the window of the budget is open, a
    call counts as one original request and each attempt after the first as one
    retry; the retries counted never exceed the budget's allowance, and the budget
    is the reason to stop only when it is used up. *)
Theorem call_spends_budget invoker clock retry b :
  in_window clock b -> counters_ok b -> retryRequests b + Z.max 1 (maxAttempts retry) < 2 ^ 63 - 1 ->
  let '(err, b', made) := invokeWithRetryPolicy invoker clock retry (Some b) in
  let retries := Z.of_nat (length made) - 1 in
  let b1 := set_counters b (originalRequests b + 1) (retryRequests b) in
  b' = Some (set_counters b (originalRequests b + 1) (retryRequests b + retries)) /\
  (0 < retries -> retryRequests b + retries <= allowedRetries b1) /\
  (err = None \/ retries + 1 = Z.max 1 (maxAttempts retry) \/ (exists code, err = Some code /\ IsRetryable retry code = false) \/
   allowedRetries b1 <= retryRequests b + retries).
Proof.
  intros Hw [Ho Hr] Hlt. destruct (invoke_attempts invoker clock retry (Some b)) as (Hmax & Hret & ->). cbv zeta in *.
  set (retry' := if maxAttempts retry <=? 0 then _ else _) in *. set (b1 := set_counters b (originalRequests b + 1) (retryRequests b)).
  assert (E : RecordOriginal (clock 0).1 (clock 0).2 <$> Some b = Some b1).
  { cbn. unfold RecordOriginal. rewrite in_window_lock by done. by rewrite wraps_small by (unfold is_s; lia). }
  rewrite E.
  pose proof (attempts_spec invoker clock retry' (Z.to_nat (maxAttempts retry')) 1 (Some b1) ltac:(lia) ltac:(lia)) as H.
  pose proof (attempts_budget invoker clock retry' (Z.to_nat (maxAttempts retry')) 1 b1 ltac:(lia) ltac:(lia) Hw
    ltac:(cbn; lia) ltac:(cbn; lia)) as HB.
  destruct (attempts _ _ _ _ _ _) as [[err b'] made]. destruct H as (n & Hn & Hl & -> & _ & _). cbv zeta in HB.
  assert (Hlen : Z.of_nat (length made) = n).
  { apply (f_equal length) in Hl. rewrite length_fmap, length_seqZ in Hl. lia. }
  rewrite Hlen in *. replace (1 + n - 1) with n in HB by lia. destruct HB as (Hb & Hle & Hs).
  split; [done|]. split; [intros; apply Hle; lia|].
  destruct Hs as [?|[?|[(c & ? & Hc)|Hx]]]; [by left | right; left; lia | right; right; left; exists c; by rewrite <- Hret |].
  by do 3 right.
Qed.

(** A service that is down: every attempt is answered [Unavailable]. *)
Definition down (attempt : Z) : option Z := Some Unavailable.

Definition demo_retry : compiledRetry := set_attempts (compileRetryPolicy defaultRetryPolicy) RetryBudget_ 5.

Definition demo_sdk_budget : Budget := NewBudget {| BudgetRatio := fzero; MinBudget := 2; Window := 1000 |} 0.

Lemma call_spends_budget_witness :
  (invokeWithRetryPolicy down (fun _ => (1, 1)) demo_retry (Some demo_sdk_budget)).2.*1 = [1; 2; 3] /\
  (invokeWithRetryPolicy down (fun _ => (1, 1)) demo_retry (Some demo_sdk_budget)).1.2
  = Some (set_counters demo_sdk_budget 1 2).
Proof.
  split; [by vm_compute|].
  pose proof (call_spends_budget down (fun _ => (1, 1)) demo_retry demo_sdk_budget
    ltac:(by intros k; vm_compute) ltac:(by vm_compute) ltac:(by vm_compute)) as H.
  destruct (invokeWithRetryPolicy _ _ _ _) as [[err b'] made] eqn:E. vm_compute in E. injection E as <- <- <-. apply H.
Defined.

(** C38. A method that the policy in force lists, does not call idempotent and has no
    retry settings for, is never retried: the call makes one attempt, returns its
    outcome and touches no budget, whatever the defaults say.  (A method the policy
    does not list follows the defaults, as [unlisted_method_retried] shows.) *)
Theorem non_idempotent_never_retried invoker clock now method s policy m :
  v_policy (manager s) = Some policy -> methods policy !! method = Some m ->
  has (method_retry m) = false -> idempotent m = false ->
  let '(err, made, s') := call_method invoker clock now method s in
  err = invoker 1 /\ made.*1 = [1] /\ s' = s.
Proof.
  intros Hp Hm Hh Hi. unfold call_method, PolicyForMethod, retry_for. rewrite Hp, Hm. unfold applyCompiledMethod.
  rewrite Hh, Hi. cbn [negb]. cbv zeta. set (retry := if 0 <? timeout m then _ else _).
  rewrite bool_decide_eq_true_2 by by left.
  unfold invokeWithRetryPolicy. cbn [set_attempts maxAttempts mode Z.leb Z.compare mbind option_bind fmap option_fmap option_map].
  change (Z.to_nat 1) with 1%nat. cbn [attempts maxAttempts set_attempts].
  destruct (invoker 1); done.
Qed.

Definition demo_method : MethodPolicy := {| Method := "/Pay"; Idempotent := false; TimeoutMillis := 100; m_Retry := None |}.

Definition demo_snapshot : PolicySnapshot :=
  {| p_Service := "pay"; Revision := 7; pb_RoutingPolicy := ""; p_Retry := None; OutlierDetection := None; MaxInflight := None; Methods := {["/Pay" := Some demo_method]} |}.

Definition demo_source : dynamicRetrySource := dial map_to_list DefaultDialOptions (Some demo_snapshot).

Lemma non_idempotent_never_retried_witness :
  (call_method down (fun _ => (1, 1)) 0 "/Pay" demo_source).1.2 = [(1, Some 100000000)] /\
  (call_method down (fun _ => (1, 1)) 0 "/Pay" demo_source).1.1 = Some Unavailable.
Proof.
  split; [by vm_compute|].
  pose proof (non_idempotent_never_retried down (fun _ => (1, 1)) 0 "/Pay" demo_source
    (compilePolicySnapshot map_to_list demo_snapshot)
    {| idempotent := false; timeout := 100000000; method_retry := no_patch |} eq_refl
    ltac:(by vm_compute) eq_refl eq_refl) as H.
  destruct (call_method _ _ _ _ _) as [[err made] s']. apply H.
Defined.

(** A method that the same policy does not list is retried under the defaults. *)
Example unlisted_method_retried :
  1 < Z.of_nat (length (call_method down (fun _ => (1, 1)) 0 "/Refund" demo_source).1.2).
Proof. vm_compute. done. Qed.

(** ** Budgets *)

Definition budget_of (s : dynamicRetrySource) (method : string) : option Budget := budgets s !! method ≫= fun a => store s !! a.

(** Methods have budgets of their own. *)
Definition source_ok (s : dynamicRetrySource) : Prop :=
  (forall m a, budgets s !! m = Some a -> (a < length (store s))%nat) /\
  (forall m m' a, budgets s !! m = Some a -> budgets s !! m' = Some a -> m = m').

(** What [budgetForMethod] does to the budgets of a good source. *)
Lemma budgetForMethod_spec now method revision c s :
  source_ok s ->
  let '(a, s') := budgetForMethod now method revision c s in
  source_ok s' /\ budgets s' !! method = Some a /\ forall m', m' <> method -> budget_of s' m' = budget_of s m'.
Proof.
  intros [Hlt Hinj]. unfold budgetForMethod.
  set (fresh := {| defaults := defaults s; manager := manager s; budgets := <[method := length (store s)]> (budgets s);
    budgetRevisions := <[method := revision]> (budgetRevisions s); store := store s ++ [NewBudget c now] |}).
  assert (Hf : source_ok fresh /\ budgets fresh !! method = Some (length (store s)) /\
    forall m', m' <> method -> budget_of fresh m' = budget_of s m').
  { split; [split|split].
    - intros m a. cbn. rewrite length_app, lookup_insert_Some. cbn. intros [[_ <-]|[_ H%Hlt]]; lia.
    - intros m m' a. cbn. rewrite !lookup_insert_Some. intros [[<- <-]|[Hm H]] [[<- E]|[Hm' H']]; try done.
      + apply Hlt in H'. lia.
      + subst. apply Hlt in H. lia.
      + by apply (Hinj _ _ a).
    - cbn. by rewrite lookup_insert_eq.
    - intros m' Hm. unfold budget_of. cbn. rewrite lookup_insert_ne by done. destruct (budgets s !! m') as [a|] eqn:E; [|done].
      cbn. apply lookup_app_l. by apply (Hlt m'). }
  destruct (budgets s !! method) as [a|] eqn:E; [|done]. destruct (_ =? revision); [|done]. done.
Qed.

Lemma call_method_spec invoker clock now method s :
  source_ok s ->
  let s' := (call_method invoker clock now method s).2 in
  source_ok s' /\ forall m', m' <> method -> budget_of s' m' = budget_of s m'.
Proof.
  intros Hok. unfold call_method, PolicyForMethod. destruct (retry_for s method) as [retry revision].
  case_bool_decide; [by destruct (invokeWithRetryPolicy _ _ _ _) as [[? ?] ?]|].
  pose proof (budgetForMethod_spec now method revision (budget_cfg retry) s Hok) as H'.
  destruct (budgetForMethod _ _ _ _ _) as [a s1]. destruct H' as ([Hlt Hinj] & Ha & Hother).
  destruct (invokeWithRetryPolicy _ _ _ _) as [[err [b|]] l]; [|done]. cbn. split.
  - split; cbn; [|done]. intros m a'. rewrite length_insert. apply Hlt.
  - intros m' Hm. rewrite <- Hother by done. unfold budget_of. cbn. destruct (budgets s1 !! m') as [a'|] eqn:E; [|done].
    cbn. apply list_lookup_insert_ne. intros ->. by apply Hm, (Hinj _ _ a').
Qed.

(** What happens to a connection: calls, and policies the controller publishes. *)
Inductive sdk_event :=
| Called (invoker : Z -> option Z) (clock : Z -> Z * Z) (now : Z) (method : string)
| Published (visit : method_order) (snapshot : option PolicySnapshot).

Definition sdk_step (s : dynamicRetrySource) (e : sdk_event) : dynamicRetrySource :=
  match e with
  | Called invoker clock now method => (call_method invoker clock now method s).2
  | Published visit snapshot => Source_Update visit snapshot s
  end.

Lemma sdk_run_ok es s : source_ok s -> source_ok (foldl sdk_step s es).
Proof.
  revert s. induction es as [|e es IH]; intros s Hok; [done|]. cbn [foldl]. apply IH.
  destruct e; cbn [sdk_step]; [by apply call_method_spec|done].
Qed.

(** Retry budgets do not bleed across methods: whatever calls were made and
    policies published on a connection, a call of one method leaves the budget of
    every other method as it was. *)
Theorem budgets_are_isolated visit o initial es invoker clock now method other :
  other <> method ->
  let s := foldl sdk_step (dial visit o initial) es in
  budget_of (call_method invoker clock now method s).2 other = budget_of s other.
Proof.
  intros Hne s. apply call_method_spec; [|done]. apply sdk_run_ok. split; cbn; intros *; by rewrite lookup_empty.
Qed.

Lemma budgets_are_isolated_witness :
  let s := foldl sdk_step (dial map_to_list DefaultDialOptions None) [Called down (fun _ => (1, 1)) 0 "/Get"] in
  retryRequests <$> budget_of s "/Get" = Some 1 /\
  budget_of (call_method down (fun _ => (2, 2)) 2 "/List" s).2 "/Get" = budget_of s "/Get".
Proof.
  split; [by vm_compute|].
  apply (budgets_are_isolated map_to_list DefaultDialOptions None [Called down (fun _ => (1, 1)) 0 "/Get"]). done.
Defined.

(** The retry settings of the policy in force when a connection is dialled
    are built into its defaults and outlive that policy: after one that disables
    retries, a later policy without retry settings, as the controller sends it when
    the policy is deleted, leaves every method without retries. *)
Theorem initial_policy_outlives_deletion visit o initial p tombstone method :
  p_Retry initial = Some p -> policyRetryHasAnyField (Some p) = true -> Enabled p = false ->
  p_Retry tombstone = None -> Methods tombstone = ∅ -> visit ∅ = [] ->
  let s := Source_Update visit (Some tombstone) (dial visit o (Some initial)) in
  mode (retry_for s method).1 = RetryOff /\ maxAttempts (retry_for s method).1 = 1.
Proof.
  intros Hi Hany Hen Ht Hm Hv s. unfold s, retry_for, Source_Update, dial, newDynamicRetrySource, Manager_Update.
  cbn [manager defaults v_policy]. unfold compilePolicySnapshot. cbn [methods defaultRetry version].
  rewrite Ht, Hm, Hv. cbn [foldl]. rewrite lookup_empty. cbn [compileRetryPatch applyCompiledRetryPatch has no_patch negb fst].
  unfold applyPolicySnapshotToDialOptions, applyRetryPolicyToDialOptions. rewrite Hi, Hany, Hen. done.
Qed.

Definition demo_disabled : PbRetryPolicy :=
  {| Enabled := false; pb_MaxAttempts := 3; pb_BudgetRatio := fzero; pb_MinBudget := 0; WindowSeconds := 0; PerTryTimeoutMillis := 0 |}.

Definition demo_initial : PolicySnapshot :=
  {| p_Service := "pay"; Revision := 7; pb_RoutingPolicy := ""; p_Retry := Some demo_disabled; OutlierDetection := None; MaxInflight := None; Methods := ∅ |}.

Definition demo_tombstone : PolicySnapshot :=
  {| p_Service := "pay"; Revision := -1; pb_RoutingPolicy := ""; p_Retry := None; OutlierDetection := None; MaxInflight := None; Methods := ∅ |}.

Lemma initial_policy_outlives_deletion_witness :
  maxAttempts (retry_for (dial map_to_list DefaultDialOptions None) "/Get").1 = 2 /\
  maxAttempts (retry_for (Source_Update map_to_list (Some demo_tombstone)
    (dial map_to_list DefaultDialOptions (Some demo_initial))) "/Get").1 = 1.
Proof.
  split; [by vm_compute|].
  by apply (initial_policy_outlives_deletion map_to_list DefaultDialOptions demo_initial demo_disabled demo_tombstone "/Get").
Defined.
