(* ===== verification/Controller.v ===== *)
(** * The controller's services ([pkg/controller])

    [telemetry_service.go] (reports of the SDKs), [registry_service.go]
    (registration, heartbeats, listings with the health overlay) and
    [policy_hot_apply.go], composed from the registry and the health manager.
    Authorisation of the caller happens before these definitions. *)
From Stdlib Require Import String SpecFloat.
From stdpp Require Import sorting.
From S2P Require Import Prelude GoStd GoFloat GoSort GoHeap Status StateMachine SlowScore HealthManager Registry RegistrySpec.

(** ** The registry as the services see it *)

(** [registry.Registry], as far as reports use it: the store may change as it lists. *)
Class RegistryStore (S : Type) := store_List : string -> S -> (registry_error + list Instance) * S.

(** The in-memory store, at one reading of its clock. *)
#[export] Instance memory_store (visit : record_order) (now : Z) : RegistryStore MemoryRegistry :=
  fun service r => Registry.List visit false false service now r.

(** What a store promises: its listings hold only what [P] says, in every state
    that [I] describes. *)
Class RegistryStoreLaw (S : Type) `{!RegistryStore S} (I : S -> Prop) (P : string -> Instance -> Prop) : Prop :=
  store_law : forall service s, I s ->
    let '(x, s') := store_List service s in I s' /\ match x with inr l => Forall (P service) l | inl _ => True end.

(** ** Reports ([telemetry_service.go]) *)

(** [EndpointStatsSample], the fields the controller reads. *)
Record PbSample := {
  pb_Service : string;
  pb_InstanceId : string;
  pb_EndpointAddress : string;
  pb_Method : string;
  pb_RequestCount : Z;
  pb_ErrorCount : Z;
  pb_TimeoutCount : Z;
  pb_Inflight : Z;
  pb_LatencyEwmaSeconds : float64;
  pb_LatencyP95Seconds : float64;
  pb_TcpRetransmit : Z;
  pb_Capacity : Z;
  pb_ConnectError : Z;
  pb_RegistrationEpoch : string
}.

Record telemetryServiceInstances := { byAddress : gmap string Instance; byID : gmap string Instance }.

Definition secondsToDuration (seconds : float64) : Z :=
  if fle seconds fzero then 0 else to_int64 (fmul seconds (of_int 1000000000)).

Definition healthMatchesInstanceAddress (healthAddress instanceAddress : string) : bool :=
  bool_decide (healthAddress = ""%string \/ instanceAddress = ""%string \/ healthAddress = instanceAddress).

Definition index_instance (x : telemetryServiceInstances) (inst : Instance) : telemetryServiceInstances := {|
  byAddress := if bool_decide (Registry.Address inst <> ""%string) then <[Registry.Address inst := inst]> (byAddress x) else byAddress x;
  byID := if bool_decide (ID inst <> ""%string) then <[ID inst := inst]> (byID x) else byID x |}.

Definition no_instances : telemetryServiceInstances := {| byAddress := ∅; byID := ∅ |}.

(** The order in which Go traverses the instances by address. *)
Definition address_order : Type := gmap string Instance -> list (string * Instance).

Definition port_of (address : string) : option string := (fun hp => of_chars hp.2) <$> SplitHostPort (to_chars address).

(** The loop: [found] is the match so far, and a second one gives up. *)
Fixpoint match_port (port : string) (found : option Instance) (l : list (string * Instance)) : option Instance :=
  match l with
  | [] => found
  | (registeredAddress, inst) :: l =>
      if bool_decide (port_of registeredAddress = Some port) then
        match found with
        | Some m => if bool_decide (ID m <> ""%string /\ ID m <> ID inst) then None else match_port port (Some inst) l
        | None => match_port port (Some inst) l
        end
      else match_port port found l
  end.

Definition resolveInstanceByUniquePort (visit : address_order) (byAddress : gmap string Instance) (observedAddress : string)
  : option Instance :=
  match port_of observedAddress with
  | None => None
  | Some observedPort =>
      if bool_decide (observedPort = ""%string) then None
      else match match_port observedPort None (visit byAddress) with
           | Some m => if bool_decide (ID m = ""%string) then None else Some m
           | None => None
           end
  end.

Section Reports.
Context {S : Type} `{!RegistryStore S} (visit : address_order).

(** The cache lists a service once per report. *)
Definition telemetryInstances (cache : gmap string telemetryServiceInstances) (service : string) (s : S)
  : (registry_error + telemetryServiceInstances) * gmap string telemetryServiceInstances * S :=
  if bool_decide (service = ""%string) then (inr no_instances, cache, s) else
  match cache !! service with
  | Some instances => (inr instances, cache, s)
  | None =>
      let '(listed, s) := store_List service s in
      match listed with
      | inl e => (inl e, cache, s)
      | inr listed =>
          let instances := foldl index_instance no_instances listed in
          (inr instances, <[service := instances]> cache, s)
      end
  end.

Definition resolve_in (instances : telemetryServiceInstances) (p : PbSample) : option Instance :=
  if bool_decide (pb_InstanceId p <> ""%string) then
    match byID instances !! pb_InstanceId p with
    | None => None
    | Some inst =>
        if bool_decide (pb_EndpointAddress p <> ""%string) && negb (healthMatchesInstanceAddress (pb_EndpointAddress p) (Registry.Address inst))
        then None else Some inst
    end
  else if bool_decide (pb_EndpointAddress p = ""%string) then None
  else match byAddress instances !! pb_EndpointAddress p with
       | Some inst => Some inst
       | None => resolveInstanceByUniquePort visit (byAddress instances) (pb_EndpointAddress p)
       end.

Definition resolveTelemetryInstance (cache : gmap string telemetryServiceInstances) (p : PbSample) (s : S)
  : (registry_error + option Instance) * gmap string telemetryServiceInstances * S :=
  let '(x, cache, s) := telemetryInstances cache (pb_Service p) s in
  (match x with inl e => inl e | inr instances => inr (resolve_in instances p) end, cache, s).

(** Stale samples must not revive a superseded registration. *)
Definition sample_of (p : PbSample) (inst : Instance) : option EndpointSample :=
  if bool_decide (pb_RegistrationEpoch p <> ""%string /\ Registry.RegistrationEpoch inst <> ""%string
                  /\ pb_RegistrationEpoch p <> Registry.RegistrationEpoch inst)
  then None
  else Some {|
    s_Service := pb_Service p; s_InstanceID := ID inst;
    s_Address := if bool_decide (pb_EndpointAddress p = ""%string) then Registry.Address inst else pb_EndpointAddress p;
    s_RegistrationEpoch := if bool_decide (pb_RegistrationEpoch p = ""%string) then Registry.RegistrationEpoch inst else pb_RegistrationEpoch p;
    s_Method := pb_Method p; RequestCount := pb_RequestCount p; ErrorCount := pb_ErrorCount p;
    TimeoutCount := pb_TimeoutCount p; Inflight := pb_Inflight p; Capacity := pb_Capacity p;
    LatencyEWMA := secondsToDuration (pb_LatencyEwmaSeconds p); LatencyP95 := secondsToDuration (pb_LatencyP95Seconds p);
    s_TCPRetransmit := pb_TcpRetransmit p; s_ConnectError := pb_ConnectError p |}.

(** A nil sample is [None]. *)
Fixpoint samplesFromProto (cache : gmap string telemetryServiceInstances) (ps : list (option PbSample)) (s : S)
  : (registry_error + list EndpointSample) * S :=
  match ps with
  | [] => (inr [], s)
  | None :: ps => samplesFromProto cache ps s
  | Some p :: ps =>
      if bool_decide (pb_Service p = ""%string) then samplesFromProto cache ps s else
      let '(x, cache, s) := resolveTelemetryInstance cache p s in
      match x with
      | inl e => (inl e, s)
      | inr found =>
          let '(rest, s) := samplesFromProto cache ps s in
          (match rest with
           | inl e => inl e
           | inr rest => inr (match found ≫= sample_of p with Some x => x :: rest | None => rest end)
           end, s)
      end
  end.

(** The answer lists every endpoint; the metrics sink and the health store only see it. *)
Definition ReportEndpointStats (clock now : Z) (ord : group_order) (visit_health : health_order) (ps : list (option PbSample))
    (s : S) (m : HealthManager) : (registry_error + list EndpointHealth) * S * HealthManager :=
  let '(x, s) := samplesFromProto ∅ ps s in
  match x with
  | inl e => (inl e, s, m)
  | inr samples => let '(health, m) := Update clock now ord visit_health samples m in (inr health, s, m)
  end.
End Reports.

(** ** What a report can touch *)

(** A live lease of the table. *)
Definition leased (L : gmap (string * string) lease) (now : Z) (service : string) (inst : Instance) : Prop :=
  exists l, L !! (service, ID inst) = Some l /\ now < l_expires l /\ inst = l_instance l.

(** The in-memory registry keeps the promise: it lists live leases. *)
Lemma memory_store_law visit now L :
  (forall m, visit m ≡ₚ map_to_list m) -> zero_time <= now ->
  @RegistryStoreLaw MemoryRegistry (memory_store visit now) (fun r => refines ∅ now r L) (leased L now).
Proof.
  intros Hv Hz service r HR. unfold store_List, memory_store, Registry.List.
  pose proof (snapshot_kept visit Hv now Hz r L HR false false service) as H.
  destruct (Registry.Snapshot visit false false service now r) as [[e|snap] r'] eqn:E; destruct H as (L' & HC & HR').
  { destruct HC as [-> _]. done. }
  destruct HC as [-> HC]. destruct (HC eq_refl) as [_ Hin]. split; [done|]. apply Forall_forall. intros inst Hi.
  apply Hin in Hi as (id & l & HL & Hlt & ->). destruct (refines_live _ _ _ _ HR service id l HL Hlt) as (rec & Hr & <-).
  exists (to_lease rec). split; [|done]. unfold lookup_record in Hr.
  destruct (services r !! service) as [st|] eqn:Hst; [|done]. simpl in Hr.
  simpl. by rewrite (refines_keyed _ _ _ _ HR service st Hst id rec Hr).
Qed.

Section ReportFacts.
Context {S : Type} `{!RegistryStore S} (visit : address_order) (Hvisit : forall m, visit m ≡ₚ map_to_list m).
Context (I : S -> Prop) (P : string -> Instance -> Prop) `{!RegistryStoreLaw S I P}.

Definition instances_ok (Q : Instance -> Prop) (x : telemetryServiceInstances) : Prop :=
  map_Forall (fun _ => Q) (byAddress x) /\ map_Forall (fun _ => Q) (byID x).

Lemma index_ok Q x l : instances_ok Q x -> Forall Q l -> instances_ok Q (foldl index_instance x l).
Proof.
  revert x. induction l as [|inst l IH]; intros x Hx Hl; [done|]. apply Forall_cons in Hl as [Hi Hl]. cbn [foldl].
  apply IH; [|done]. destruct Hx as [Ha Hb]. unfold index_instance.
  split; cbn; case_bool_decide; try done; by apply map_Forall_insert_2.
Qed.

Lemma match_port_in port found l inst :
  match_port port found l = Some inst -> found = Some inst \/ exists a, (a, inst) ∈ l.
Proof.
  revert found. induction l as [|[a i] l IH]; intros found; cbn [match_port]; [by left|]. intros H.
  assert (Hgo : forall f, match_port port f l = Some inst -> (f = Some inst -> found = Some inst \/ inst = i) ->
    found = Some inst \/ exists a', (a', inst) ∈ (a, i) :: l).
  { intros f Hf Hor. destruct (IH f Hf) as [E|[a' Ha']]; [destruct (Hor E) as [?| ->]; [by left|right; exists a; apply list_elem_of_here]|].
    right. exists a'. by apply list_elem_of_further. }
  case_bool_decide; [|apply (Hgo found); auto].
  destruct found as [f|]; [case_bool_decide; [done|]|]; apply (Hgo (Some i)); auto; intros [= ->]; auto.
Qed.

Lemma resolve_in_ok Q x p inst : instances_ok Q x -> resolve_in visit x p = Some inst -> Q inst.
Proof.
  intros [Ha Hb]. unfold resolve_in. case_bool_decide.
  - destruct (byID x !! pb_InstanceId p) as [i|] eqn:E; [|done]. destruct (_ && _); [done|]. intros [= ->]. by apply (Hb (pb_InstanceId p)).
  - case_bool_decide; [done|]. destruct (byAddress x !! pb_EndpointAddress p) as [i|] eqn:E; [intros [= ->]; by apply (Ha (pb_EndpointAddress p))|].
    unfold resolveInstanceByUniquePort. destruct (port_of _); [|done]. case_bool_decide; [done|].
    destruct (match_port _ _ _) as [m|] eqn:Hm; [|done]. case_bool_decide; [done|]. intros [= ->].
    apply match_port_in in Hm as [|[a Hin]]; [done|]. rewrite Hvisit in Hin. apply elem_of_map_to_list in Hin. by apply (Ha a).
Qed.

(** The report does not come from a superseded registration of the instance. *)
Definition current (p : PbSample) (inst : Instance) : Prop :=
  pb_RegistrationEpoch p = ""%string \/ Registry.RegistrationEpoch inst = ""%string \/
  pb_RegistrationEpoch p = Registry.RegistrationEpoch inst.

(** The sample comes from one of the report, attributed to an instance [P] holds of. *)
Definition attributed (ps : list (option PbSample)) (x : EndpointSample) : Prop :=
  exists p inst, Some p ∈ ps /\ P (pb_Service p) inst /\ current p inst /\ s_Service x = pb_Service p /\ s_InstanceID x = ID inst.

Lemma sample_of_ok p ps inst x : P (pb_Service p) inst -> sample_of p inst = Some x -> attributed (Some p :: ps) x.
Proof.
  intros HP. unfold sample_of. case_bool_decide as E; [done|]. intros [= <-]. exists p, inst.
  split; [apply list_elem_of_here|]. split; [done|]. split; [|done]. unfold current.
  destruct (decide (pb_RegistrationEpoch p = ""%string)); [by left|].
  destruct (decide (Registry.RegistrationEpoch inst = ""%string)); [right; by left|]. do 2 right.
  apply dec_stable. intros Hne. by apply E.
Qed.

Lemma attributed_cons p ps l : Forall (attributed ps) l -> Forall (attributed (p :: ps)) l.
Proof.
  intros H. eapply Forall_impl; [done|]. intros x (q & inst & Hin & Hrest). exists q, inst. split; [by apply list_elem_of_further|done].
Qed.

Lemma samplesFromProto_ok cache ps s :
  I s -> map_Forall (fun service => instances_ok (P service)) cache ->
  let '(x, s') := samplesFromProto visit cache ps s in
  I s' /\ match x with inr l => Forall (attributed ps) l | inl _ => True end.
Proof.
  revert cache s. induction ps as [|[p|] ps IH]; intros cache s HI Hc; cbn [samplesFromProto]; [done| |].
  2: { specialize (IH cache s HI Hc). destruct (samplesFromProto visit cache ps s) as [[e|l] s']; [done|].
       destruct IH. split; [done|by apply attributed_cons]. }
  case_bool_decide as Hs.
  { specialize (IH cache s HI Hc). destruct (samplesFromProto visit cache ps s) as [[e|l] s']; [done|].
    destruct IH. split; [done|by apply attributed_cons]. }
  unfold resolveTelemetryInstance, telemetryInstances.
  rewrite bool_decide_eq_false_2 by done.
  assert (Hgo : forall x cache' s', I s' -> instances_ok (P (pb_Service p)) x -> map_Forall (fun service => instances_ok (P service)) cache' ->
    let '(y, s') := (let '(rest, s) := samplesFromProto visit cache' ps s' in
      (match rest with inl e => inl e
       | inr rest => inr (match resolve_in visit x p ≫= sample_of p with Some x => x :: rest | None => rest end) end, s)) in
    I s' /\ match y with inr l => Forall (attributed (Some p :: ps)) l | inl _ => True end).
  { intros x cache' s' HI' Hx Hc'. specialize (IH cache' s' HI' Hc').
    destruct (samplesFromProto visit cache' ps s') as [[e|rest] s2]; [done|]. destruct IH as [HI2 Hrest%(attributed_cons (Some p))]. split; [done|].
    destruct (resolve_in visit x p) as [inst|] eqn:Hr; cbn; [|done]. destruct (sample_of p inst) eqn:Hsm; [|done].
    constructor; [|done]. eapply sample_of_ok; [|done]. by apply (resolve_in_ok _ x p). }
  destruct (cache !! pb_Service p) as [x|] eqn:Hlk; [by apply Hgo; [..|apply (Hc (pb_Service p))|]|].
  pose proof (store_law (pb_Service p) s HI) as Hl. destruct (store_List (pb_Service p) s) as [[e|listed] s'];
    destruct Hl as [HI' Hl]; [done|].
  assert (Hx : instances_ok (P (pb_Service p)) (foldl index_instance no_instances listed))
    by (apply index_ok; [split; apply map_Forall_empty|done]).
  apply Hgo; [done|done|]. by apply map_Forall_insert_2.
Qed.
End ReportFacts.

(** ** The health manager *)

Lemma update_samples_other clock now scores samples m changed key :
  (forall x, x ∈ samples -> ScoreKey (s_Service x) (s_InstanceID x) <> key) ->
  health (foldl (update_sample clock now scores) (m, changed) samples).1 !! key = health m !! key.
Proof.
  revert m changed. induction samples as [|x samples IH]; intros m changed Hn; [done|]. cbn [foldl].
  assert (Hx : health (update_sample clock now scores (m, changed) x).1 !! key = health m !! key).
  { unfold update_sample. destruct (identified x); cbn [negb]; [|done].
    case_match; cbn; apply lookup_insert_ne, Hn, list_elem_of_here. }
  destruct (update_sample clock now scores (m, changed) x) as [m1 c1]. rewrite IH; [done|].
  intros y Hy. by apply Hn, list_elem_of_further.
Qed.

Lemma Update_other clock now ord visit samples m key :
  (forall x, x ∈ samples -> ScoreKey (s_Service x) (s_InstanceID x) <> key) ->
  health (Update clock now ord visit samples m).2 !! key = health m !! key.
Proof.
  intros Hn. unfold Update. pose proof (update_samples_other clock now (Calculate (calculator m) ord samples) samples m ∅ key Hn) as H.
  destruct (foldl _ _ _) as [m1 changed]. cbn [snd]. unfold bumpIfChangedLocked. by case_bool_decide.
Qed.

(** C20. Telemetry reaches only registered endpoints: whatever the registry has
    been through, a report changes the health found for an endpoint only if one of its
    samples names the service of a lease that is live at that moment, is attributed
    to the instance holding it, and does not carry the epoch of another registration
    of that instance, and that instance is the endpoint; or else the two services
    are such that one name, followed by a slash, begins the other. *)
Theorem report_touches_leased_only t0 es visit va now clock tick ord vh ps m :
  Forall traverses es -> zero_time <= t0 -> clock_from t0 es -> t0 <= now -> Forall (fun e => at_ e <= now) es ->
  (forall recs, visit recs ≡ₚ map_to_list recs) -> (forall insts, va insts ≡ₚ map_to_list insts) ->
  let '(xs, r) := run es NewMemoryRegistry in
  exists L, explains es ∅ xs L /\
  let '(_, _, m') := @ReportEndpointStats _ (memory_store visit now) va clock tick ord vh ps r m in
  forall service instanceID, Get m' service instanceID <> Get m service instanceID ->
  exists p inst, Some p ∈ ps /\ leased L now (pb_Service p) inst /\ current p inst /\
    ((pb_Service p = service /\ ID inst = instanceID) \/ (pb_Service p <> service /\ ~ separate (pb_Service p) service)).
Proof.
  intros Ht Hz Hc Hnow Hall Hv Hva. pose proof (run_refines t0 es NewMemoryRegistry ∅ Ht Hz Hc (new_refines t0)) as H.
  destruct (run es NewMemoryRegistry) as [xs r]. destruct H as (L & clock' & Hex & Hle & Hmax & HR). exists L. split; [done|].
  apply (refines_mono _ _ now) in HR; [|by apply Hmax]. unfold ReportEndpointStats.
  pose proof (@samplesFromProto_ok _ (memory_store visit now) va Hva _ _ (memory_store_law visit now L Hv ltac:(lia)) ∅ ps r HR
    (map_Forall_empty _)) as H.
  destruct (@samplesFromProto _ (memory_store visit now) va ∅ ps r) as [[e|samples] r']; [done|]. destruct H as [_ Hs].
  pose proof (Update_other clock tick ord vh samples m) as Hother. destruct (Update clock tick ord vh samples m) as [out m'].
  intros service instanceID Hkey. unfold Get in Hkey. set (key := ScoreKey service instanceID) in *.
  destruct (decide (Exists (fun x => ScoreKey (s_Service x) (s_InstanceID x) = key) samples)) as [Hex'|Hno].
  - apply Exists_exists in Hex' as (x & Hin & Ex). rewrite Forall_forall in Hs.
    destruct (Hs x Hin) as (p & inst & Hp & HP & Hcur & Hsv & Hid). exists p, inst. do 3 (split; [done|]). rewrite Hsv, Hid in Ex.
    pose proof (ScoreKey_separate _ _ _ _ Ex). destruct (decide (separate (pb_Service p) service)), (decide (pb_Service p = service)); tauto.
  - destruct Hkey. apply Hother. intros x Hin He. apply Hno, Exists_exists. by exists x.
Qed.

(** ** Attribution by port *)

(** The registered addresses with this port. *)
Definition with_port (port : string) (l : list (string * Instance)) : list (string * Instance) :=
  filter (fun p => port_of p.1 = Some port) l.

Lemma match_port_more port m l :
  ID m <> ""%string -> (forall a i, (a, i) ∈ l -> ID i <> ID m) ->
  match_port port (Some m) l = match with_port port l with [] => Some m | _ => None end.
Proof.
  intros Hm Hl. induction l as [|[a i] l IH]; [done|]. cbn [match_port]. unfold with_port in *. rewrite filter_cons. cbn [fst].
  assert (Hi : ID i <> ID m) by (apply (Hl a i), list_elem_of_here).
  case_bool_decide as Hp; [rewrite decide_True by done|rewrite decide_False by done].
  - by rewrite bool_decide_eq_true_2 by (split; congruence).
  - apply IH. intros a' i' Hin. apply (Hl a' i'). by apply list_elem_of_further.
Qed.

Lemma match_port_spec port l :
  NoDup (ID <$> l.*2) -> Forall (fun p => ID p.2 <> ""%string) l ->
  match_port port None l = match with_port port l with [(_, i)] => Some i | _ => None end.
Proof.
  induction l as [|[a i] l IH]; intros Hd Hn; [done|]. cbn in Hd. apply NoDup_cons in Hd as [Hni Hd].
  apply Forall_cons in Hn as [Hi Hn]. cbn [match_port]. unfold with_port in *. rewrite filter_cons. cbn [fst].
  case_bool_decide as Hp; [rewrite decide_True by done|rewrite decide_False by done; by apply IH].
  rewrite match_port_more; [by destruct (with_port port l) as [|[? ?] ?] eqn:E; unfold with_port in E; rewrite E | done |].
  intros a' i' Hin He. apply Hni. rewrite <- He. apply list_elem_of_fmap. exists i'. split; [done|].
  apply list_elem_of_fmap. by exists (a', i').
Qed.

Lemma index_by_address listed x a i :
  byAddress (foldl index_instance x listed) !! a = Some i -> byAddress x !! a = Some i \/ i ∈ listed /\ Registry.Address i = a.
Proof.
  revert x. induction listed as [|j listed IH]; intros x; cbn [foldl]; [by left|]. intros H.
  destruct (IH _ H) as [Hx|[Hin Ha]]; [|right; split; [by apply list_elem_of_further|done]].
  unfold index_instance in Hx. cbn in Hx. case_bool_decide; [|by left].
  apply lookup_insert_Some in Hx as [[<- <-]|[_ Hx]]; [right; split; [apply list_elem_of_here|done]|by left].
Qed.

(** Attribution by port does not depend on the traversal of Go's map: for the
    index of a listing with distinct IDs, an observed address is attributed to an
    instance exactly when it is the only one indexed under an address with that port. *)
Theorem port_attribution_deterministic visit listed observed :
  (forall m, visit m ≡ₚ map_to_list m) -> NoDup (ID <$> listed) -> Forall (fun i => ID i <> ""%string) listed ->
  let x := byAddress (foldl index_instance no_instances listed) in
  resolveInstanceByUniquePort visit x observed =
  match port_of observed with
  | Some port =>
      if bool_decide (port = ""%string) then None
      else match with_port port (map_to_list x) with [(_, i)] => Some i | _ => None end
  | None => None
  end.
Proof.
  intros Hv Hd Hn x. unfold resolveInstanceByUniquePort. destruct (port_of observed) as [port|]; [|done]. case_bool_decide; [done|].
  assert (Hx : forall a i, x !! a = Some i -> i ∈ listed /\ Registry.Address i = a).
  { intros a i Hi. apply index_by_address in Hi as [Hi|]; [change (byAddress no_instances) with (∅ : gmap string Instance) in Hi; by rewrite lookup_empty in Hi|done]. }
  assert (Hnon : Forall (fun p => ID p.2 <> ""%string) (visit x)).
  { apply Forall_forall. intros [a i] Hin. rewrite Hv in Hin. apply elem_of_map_to_list, Hx in Hin as [Hin _].
    rewrite Forall_forall in Hn. by apply Hn. }
  assert (Hids : NoDup (ID <$> (visit x).*2)).
  { rewrite Hv, <- list_fmap_compose. apply NoDup_fmap_2_strong; [|apply NoDup_map_to_list].
    intros [a i] [b j] [Hi Ha]%elem_of_map_to_list%Hx [Hj Hb]%elem_of_map_to_list%Hx Heq. cbn in Heq.
    assert (i = j) as ->; [|congruence].
    apply list_elem_of_lookup in Hi as [k Hk]. apply list_elem_of_lookup in Hj as [k' Hk'].
    assert (k = k') as ->; [|congruence].
    apply (NoDup_lookup _ k k' (ID i) Hd); by rewrite list_lookup_fmap, ?Hk, ?Hk'; cbn; rewrite ?Heq. }
  rewrite match_port_spec by done.
  assert (Hp : with_port port (visit x) ≡ₚ with_port port (map_to_list x)) by (unfold with_port; by rewrite Hv).
  assert (Hsub : forall a i, (a, i) ∈ with_port port (visit x) -> ID i <> ""%string).
  { intros a i Hin. unfold with_port in Hin. apply list_elem_of_filter in Hin as [_ Hin]. rewrite Forall_forall in Hnon.
    apply (Hnon (a, i) Hin). }
  destruct (with_port port (visit x)) as [|[a i] [|q l]].
  - apply Permutation_nil_l in Hp. by rewrite <- Hp.
  - symmetry in Hp. apply Permutation_singleton_r in Hp. rewrite Hp.
    by rewrite bool_decide_eq_false_2 by apply (Hsub a i), list_elem_of_here.
  - apply Permutation_length in Hp. by destruct (with_port port (map_to_list x)) as [|[? ?] [|? ?]].
Qed.

(** A report of one registered and one unknown endpoint. *)
Definition demo_sample (id epoch : string) : PbSample := {|
  pb_Service := "pay"; pb_InstanceId := id; pb_EndpointAddress := ""; pb_Method := ""; pb_RequestCount := 10; pb_ErrorCount := 0;
  pb_TimeoutCount := 0; pb_Inflight := 1; pb_LatencyEwmaSeconds := fzero; pb_LatencyP95Seconds := flit 1 10;
  pb_TcpRetransmit := 0; pb_Capacity := 0; pb_ConnectError := 0; pb_RegistrationEpoch := epoch |}.

Definition demo_report : list (option PbSample) := [Some (demo_sample "b" "e1"); Some (demo_sample "ghost" ""); Some (demo_sample "a" "e9")].

Lemma report_touches_leased_only_witness :
  let es := take 2 demo_events in
  let r := (run es NewMemoryRegistry).2 in
  let m' := (@ReportEndpointStats _ (memory_store map_to_list 105) map_to_list 0 105 canonical_order map_to_list demo_report r demo_manager).2 in
  dom (health m') = {[ScoreKey "pay" "b"]} /\
  exists L, explains es ∅ (run es NewMemoryRegistry).1 L /\ exists inst, leased L 105 "pay" inst.
Proof.
  cbv zeta.
  pose proof (report_touches_leased_only 100 (take 2 demo_events) map_to_list map_to_list 105 0 105 canonical_order map_to_list
    demo_report demo_manager ltac:(by repeat (apply Forall_cons; split; [by split|])) ltac:(by vm_compute) ltac:(cbn; lia)
    ltac:(lia) ltac:(by repeat (apply Forall_cons; split; [cbn; lia|])) ltac:(done) ltac:(done)) as H.
  assert (Hdom : dom (health (@ReportEndpointStats _ (memory_store map_to_list 105) map_to_list 0 105 canonical_order map_to_list
    demo_report (run (take 2 demo_events) NewMemoryRegistry).2 demo_manager).2) = {[ScoreKey "pay" "b"]}) by by vm_compute.
  split; [exact Hdom|].
  destruct (run (take 2 demo_events) NewMemoryRegistry) as [xs r]. destruct H as (L & Hex & H). exists L. split; [exact Hex|].
  destruct (ReportEndpointStats _ _ _ _ _ _ _ _) as [[x r'] m']. cbn [snd] in Hdom.
  assert (Hk : is_Some (health m' !! ScoreKey "pay" "b")) by (apply elem_of_dom; rewrite Hdom; set_solver).
  destruct (H "pay"%string "b"%string) as (p & inst & Hp & HL & _ & _).
  { unfold Get. destruct Hk as [h ->]. by vm_compute. }
  exists inst. assert (E : pb_Service p = "pay"%string).
  { unfold demo_report in Hp. rewrite !elem_of_cons in Hp. destruct Hp as [[= ->]|[[= ->]|[[= ->]|Hp]]]; [done..|inv Hp]. }
  by rewrite E in HL.
Defined.

Definition demo_at (id address : string) : Instance :=
  {| ID := id; Registry.Service := "pay"; Registry.Address := address; Status_ := Healthy; Labels := None; LastSeen := 0;
     Registry.RegistrationEpoch := "e"; OwnerToken := "t" |}.

Lemma port_attribution_deterministic_witness :
  resolveInstanceByUniquePort map_to_list
    (byAddress (foldl index_instance no_instances [demo_at "a" "10.0.0.1:80"; demo_at "b" "10.0.0.2:81"])) "127.0.0.1:81"
  = Some (demo_at "b" "10.0.0.2:81").
Proof.
  rewrite (port_attribution_deterministic map_to_list [demo_at "a" "10.0.0.1:80"; demo_at "b" "10.0.0.2:81"] "127.0.0.1:81").
  - by vm_compute.
  - done.
  - by apply (bool_decide_unpack _); vm_compute.
  - by repeat constructor.
Defined.

(** ** Registration and listing ([registry_service.go]) *)

Record PbInstance := {
  i_Id : string;
  i_Service : string;
  i_Address : string;
  i_Status : string;
  i_Labels : option (gmap string string);
  LastSeenUnixMillis : Z;
  i_SlowScore : float64;
  i_RegistrationEpoch : string
}.

Inductive status_code := InvalidArgument | NotFound | FailedPrecondition | Internal.

Definition statusFromRegistryError (e : registry_error) : status_code :=
  match e with
  | ErrInvalidInstance => InvalidArgument
  | ErrInstanceNotFound => NotFound
  | ErrRegistrationEpochMismatch => FailedPrecondition
  | ErrContext => Internal
  end.

Definition leaseTTL (defaultLease seconds : Z) : Z := if seconds <=? 0 then defaultLease else wraps 64 (seconds * 1000000000).

Definition instanceFromProto (inst : PbInstance) : Instance :=
  let statusValue := Parse (i_Status inst) in
  {| ID := i_Id inst; Registry.Service := i_Service inst; Registry.Address := i_Address inst;
     Status_ := if bool_decide (statusValue = Unspecified) then Healthy else statusValue;
     Labels := i_Labels inst; LastSeen := zero_time; Registry.RegistrationEpoch := ""; OwnerToken := "" |}.

(** [UnixMilli] rounds down. *)
Definition instanceToProto (inst : Instance) : PbInstance :=
  {| i_Id := ID inst; i_Service := Registry.Service inst; i_Address := Registry.Address inst; i_Status := Code_String (Status_ inst);
     i_Labels := Labels inst; LastSeenUnixMillis := LastSeen inst / 1000000; i_SlowScore := fzero;
     i_RegistrationEpoch := Registry.RegistrationEpoch inst |}.

(** The two readings of the clock and of the context: by the store's operation and by
    the listing after it; [ctx2'] is the listing's second look at the context. *)
Record two_reads := { now1 : Z; now2 : Z; ctx1 : bool; ctx2 : bool; ctx2' : bool }.

Section RegistryService.
Context (visit : record_order) (defaultLease : Z).

Definition find_instance (id : string) (l : list Instance) : option Instance := snd <$> list_find (fun i => ID i = id) l.

(** [req] is [None] when the request carries no instance. *)
Definition RegisterInstance (w : two_reads) (epoch token : string) (req : option PbInstance) (seconds : Z) (r : MemoryRegistry)
  : (status_code + PbInstance * string) * MemoryRegistry :=
  match req with
  | None => (inl InvalidArgument, r)
  | Some req =>
      let inst := instanceFromProto req in
      let '(x, r) := registerAt visit (ctx1 w) epoch token inst (leaseTTL defaultLease seconds) (now1 w) r in
      match x with
      | Some e => (inl (statusFromRegistryError e), r)
      | None =>
          let '(l, r) := Registry.List visit (ctx2 w) (ctx2' w) (Registry.Service inst) (now2 w) r in
          match l with
          | inl e => (inl (statusFromRegistryError e), r)
          | inr l =>
              match find_instance (ID inst) l with
              | Some i => (inr (instanceToProto i, OwnerToken i), r)
              | None => (inl Internal, r)
              end
          end
      end
  end.

Definition Service_Heartbeat (w : two_reads) (service id epoch token : string) (seconds : Z) (r : MemoryRegistry)
  : (status_code + PbInstance) * MemoryRegistry :=
  if bool_decide (epoch = ""%string \/ token = ""%string) then (inl InvalidArgument, r) else
  let '(x, r) := HeartbeatWithOwner visit (ctx1 w) service id epoch token (leaseTTL defaultLease seconds) (now1 w) r in
  match x with
  | Some e => (inl (statusFromRegistryError e), r)
  | None =>
      let '(l, r) := Registry.List visit (ctx2 w) (ctx2' w) service (now2 w) r in
      match l with
      | inl e => (inl (statusFromRegistryError e), r)
      | inr l => (match find_instance id l with Some i => inr (instanceToProto i) | None => inl NotFound end, r)
      end
  end.
End RegistryService.

(** ** The life of a registration *)

Section Registration.
Context (visit : record_order) (Hv : forall m, visit m ≡ₚ map_to_list m).

Lemma leased_key now r L s id l :
  refines ∅ now r L -> L !! (s, id) = Some l -> now < l_expires l -> ID (l_instance l) = id.
Proof.
  intros HR HL Hlt. destruct (refines_live _ _ _ _ HR s id l HL Hlt) as (rec & Hr & <-). unfold lookup_record in Hr.
  destruct (services r !! s) as [st|] eqn:Hst; [|done]. by apply (refines_keyed _ _ _ _ HR s st Hst id).
Qed.

(** A listing finds a live lease. *)
Lemma list_finds now r L s id l :
  refines ∅ now r L -> zero_time <= now -> s <> ""%string -> L !! (s, id) = Some l -> now < l_expires l ->
  let '(x, r') := Registry.List visit false false s now r in
  refines ∅ now r' L /\ exists insts, x = inr insts /\ find_instance id insts = Some (l_instance l).
Proof.
  intros HR Hz Hs HL Hlt. unfold Registry.List. pose proof (snapshot_kept visit Hv now Hz r L HR false false s) as H.
  destruct (Registry.Snapshot visit false false s now r) as [[e|snap] r']; destruct H as (L' & HC & HR').
  { destruct HC as [_ [?|?]]; done. }
  destruct HC as [-> HC]. destruct (HC eq_refl) as [_ Hin]. split; [done|]. eexists. split; [done|]. unfold find_instance.
  assert (Hl : l_instance l ∈ Instances snap) by (apply Hin; eauto).
  destruct (list_find_elem_of (fun i => ID i = id) _ _ Hl (leased_key _ _ _ _ _ _ HR HL Hlt)) as [[k i] Hf].
  rewrite Hf. cbn. f_equal. apply list_find_Some in Hf as (Hk & Hid & _). apply list_elem_of_lookup_2, Hin in Hk as (id' & l' & HL' & Hlt' & ->).
  assert (id' = id) as -> by (rewrite <- Hid; symmetry; by apply (leased_key now r L s)). congruence.
Qed.

(** The contexts stay alive and the clock moves on. *)
Definition undisturbed (w : two_reads) : Prop := ctx1 w = false /\ ctx2 w = false /\ ctx2' w = false /\ now1 w <= now2 w.

Lemma RegisterInstance_ok defaultLease w epoch token req seconds r L :
  let inst := instanceFromProto req in
  let ttl := leaseTTL defaultLease seconds in
  let l := {| l_instance := registered inst epoch token (now1 w); l_expires := now1 w + ttl |} in
  refines ∅ (now1 w) r L -> zero_time <= now1 w -> undisturbed w -> complete inst -> now2 w < now1 w + ttl ->
  let '(x, r') := RegisterInstance visit defaultLease w epoch token (Some req) seconds r in
  x = inr (instanceToProto (l_instance l), token) /\
  refines ∅ (now2 w) r' (<[(Registry.Service inst, ID inst) := l]> L).
Proof.
  intros inst ttl l HR Hz (H1 & H2 & H3 & Hle) Hc Hlt. unfold RegisterInstance. rewrite H1, H2, H3. fold inst ttl.
  pose proof (register_kept visit Hv (now1 w) Hz r L HR false epoch token inst ttl) as H.
  destruct (registerAt visit false epoch token inst ttl (now1 w) r) as [x r1]. destruct H as (L1 & HC & HR1).
  unfold contract in HC. rewrite decide_True in HC by (split; [done|]; split; [done|lia]). destruct HC as [-> ->].
  apply (refines_mono _ _ (now2 w)) in HR1; [|done].
  pose proof (list_finds (now2 w) r1 _ (Registry.Service inst) (ID inst) l HR1 ltac:(lia) (proj1 (proj2 Hc))
    ltac:(by rewrite lookup_insert_eq) Hlt) as H.
  destruct (Registry.List visit false false (Registry.Service inst) (now2 w) r1) as [y r2].
  destruct H as (HR2 & insts & -> & ->). done.
Qed.

Lemma Service_Heartbeat_ok defaultLease w s id l seconds r L :
  let ttl := leaseTTL defaultLease seconds in
  let inst := l_instance l in
  refines ∅ (now1 w) r L -> zero_time <= now1 w -> undisturbed w -> L !! (s, id) = Some l -> now1 w < l_expires l ->
  s <> ""%string -> id <> ""%string -> Registry.RegistrationEpoch inst <> ""%string -> OwnerToken inst <> ""%string ->
  now2 w < now1 w + ttl ->
  let '(x, r') := Service_Heartbeat visit defaultLease w s id (Registry.RegistrationEpoch inst) (OwnerToken inst) seconds r in
  x = inr (instanceToProto (renewed inst (now1 w))).
Proof.
  intros ttl inst HR Hz (H1 & H2 & H3 & Hle) HL Hlive Hs Hid He Ht Hlt. unfold Service_Heartbeat, HeartbeatWithOwner.
  rewrite !(bool_decide_eq_false_2 (_ \/ _)) by naive_solver. rewrite H1, H2, H3. fold ttl.
  pose proof (heartbeat_kept visit Hv (now1 w) Hz r L HR false s id (Registry.RegistrationEpoch inst) (OwnerToken inst) ttl true true) as H.
  destruct (heartbeatAtWithOwner _ _ _ _ _ _ _ _ _ _ _) as [[e|] r1]; destruct H as (L1 & HC & HR1).
  { destruct HC as [_ HC]. destruct (HC l HL Hlive eq_refl Hs Hid ltac:(lia)). by split. }
  destruct HC as (l' & HL' & _ & ->). assert (l' = l) as -> by congruence.
  apply (refines_mono _ _ (now2 w)) in HR1; [|done].
  pose proof (list_finds (now2 w) r1 _ s id {| l_instance := renewed inst (now1 w); l_expires := now1 w + ttl |} HR1 ltac:(lia) Hs
    ltac:(by rewrite lookup_insert_eq) Hlt) as H.
  destruct (Registry.List visit false false s (now2 w) r1) as [y r2]. destruct H as (_ & insts & -> & ->). done.
Qed.

End Registration.

(** C21. A registration is usable: whatever the registry has been through, a
    complete registration is answered with the instance as stored and the token of
    its owner, never with the internal error of an instance that is not visible; and
    the heartbeat of that owner, sent before the lease runs out, is answered with
    the renewed instance. *)
Theorem registration_is_usable visit defaultLease t0 es w w' epoch token req seconds seconds' :
  let inst := instanceFromProto req in
  let ttl := leaseTTL defaultLease seconds in
  let ttl' := leaseTTL defaultLease seconds' in
  (forall recs, visit recs ≡ₚ map_to_list recs) -> Forall traverses es -> zero_time <= t0 -> clock_from t0 es ->
  t0 <= now1 w -> Forall (fun e => at_ e <= now1 w) es -> undisturbed w -> undisturbed w' ->
  complete inst -> epoch <> ""%string -> token <> ""%string ->
  now2 w < now1 w + ttl -> now2 w <= now1 w' < now1 w + ttl -> now2 w' < now1 w' + ttl' ->
  let '(x, r1) := RegisterInstance visit defaultLease w epoch token (Some req) seconds (run es NewMemoryRegistry).2 in
  x = inr (instanceToProto (registered inst epoch token (now1 w)), token) /\
  (Service_Heartbeat visit defaultLease w' (i_Service req) (i_Id req) epoch token seconds' r1).1
  = inr (instanceToProto (registered inst epoch token (now1 w'))).
Proof.
  intros inst ttl ttl' Hv Ht Hz Hc Hnow Hall Hw Hw' Hcomp He Htok Hlt Hnow' Hlt'.
  pose proof (run_refines t0 es NewMemoryRegistry ∅ Ht Hz Hc (new_refines t0)) as H.
  destruct (run es NewMemoryRegistry) as [xs r]. destruct H as (L & clock & _ & _ & Hmax & HR).
  apply (refines_mono _ _ (now1 w)) in HR; [|by apply Hmax].
  pose proof (RegisterInstance_ok visit Hv defaultLease w epoch token req seconds r L HR (Z.le_trans _ _ _ Hz Hnow) Hw Hcomp Hlt) as H. cbn [snd].
  destruct (RegisterInstance visit defaultLease w epoch token (Some req) seconds r) as [x r1]. destruct H as [-> HR1].
  split; [done|]. apply (refines_mono _ _ (now1 w')) in HR1; [|lia]. destruct Hcomp as (Hid & Hs & _).
  assert (Hz' : zero_time <= now1 w') by (destruct Hw as (_ & _ & _ & ?); lia).
  pose proof (Service_Heartbeat_ok visit Hv defaultLease w' (i_Service req) (i_Id req)
    {| l_instance := registered inst epoch token (now1 w); l_expires := now1 w + ttl |} seconds' r1 _ HR1 Hz' Hw'
    ltac:(apply lookup_insert_eq) ltac:(cbn; lia) Hs Hid He Htok Hlt') as H.
  cbn [l_instance registered Registry.RegistrationEpoch OwnerToken] in H.
  destruct (Service_Heartbeat _ _ _ _ _ _ _ _ _) as [y r2]. exact H.
Qed.

Definition demo_request : PbInstance :=
  {| i_Id := "c"; i_Service := "pay"; i_Address := "10.0.0.3:80"; i_Status := ""; i_Labels := None; LastSeenUnixMillis := 0;
     i_SlowScore := fzero; i_RegistrationEpoch := "" |}.

Definition demo_reads (t : Z) : two_reads := {| now1 := t; now2 := t + 1; ctx1 := false; ctx2 := false; ctx2' := false |}.

Lemma registration_is_usable_witness :
  let r1 := RegisterInstance map_to_list 30 (demo_reads 200) "e7" "t7" (Some demo_request) 0 (run demo_events NewMemoryRegistry).2 in
  snd <$> (match r1.1 with inr x => Some x | inl _ => None end) = Some "t7"%string /\
  (Service_Heartbeat map_to_list 30 (demo_reads 210) "pay" "c" "e7" "t7" 0 r1.2).1
  = inr (instanceToProto (registered (instanceFromProto demo_request) "e7" "t7" 210)).
Proof.
  pose proof (registration_is_usable map_to_list 30 100 demo_events (demo_reads 200) (demo_reads 210) "e7" "t7" demo_request 0 0
    ltac:(done) demo_traverses ltac:(by vm_compute) ltac:(cbn; lia) ltac:(cbn; lia)
    ltac:(by repeat (apply Forall_cons; split; [cbn; lia|])) ltac:(by unfold undisturbed) ltac:(by unfold undisturbed)
    ltac:(by unfold complete) ltac:(done) ltac:(done) ltac:(by vm_compute) ltac:(by vm_compute) ltac:(by vm_compute)) as H.
  destruct (RegisterInstance _ _ _ _ _ _ _ _) as [x r1]. destruct H as [-> H]. cbv zeta. split; [done|]. exact H.
Defined.
