(* ===== verification/Policy.v ===== *)
(** * Policies: the file store and their distribution

    [pkg/policy/store.go] (policies read from a YAML file),
    [pkg/controller/policy_hot_apply.go] (outlier thresholds handed to the health
    manager) and [pkg/controller/policy_service.go] (the stream to the SDKs).
    Parsing YAML is a parameter; the file is seen through what reading it and asking
    for its modification time return. *)
From Stdlib Require Import String.
From stdpp Require Import sorting.
From S2P Require Import Prelude GoStd GoFloat GoSort Status StateMachine SlowScore HealthManager PolicyTypes.

(** ** The file store ([store.go]) *)

Record retryConfig := {
  rc_Enabled : bool; rc_MaxAttempts : Z; rc_BudgetRatio : float64; rc_MinBudget : Z; rc_WindowSeconds : Z; rc_PerTryTimeoutMillis : Z }.

Record outlierDetectionConfig := {
  oc_DegradedThreshold : float64; oc_EjectThreshold : float64; oc_ConsecutiveWindows : Z; oc_EjectionDurationSeconds : Z;
  oc_RecoveryThreshold : float64; oc_ProbeSuccessThreshold : float64 }.

Record methodPolicyConf := { mc_Idempotent : bool; mc_TimeoutMillis : Z; mc_Retry : retryConfig }.

Record serviceConfig := {
  sc_RoutingPolicy : string;
  sc_Retry : retryConfig;
  sc_OutlierDetection : outlierDetectionConfig;
  sc_MaxInflightPerEndpoint : Z;
  sc_Methods : gmap string methodPolicyConf
}.

Record FileStore := { modTime : Z; policies : gmap string PolicySnapshot }.

Definition retryToProto (c : retryConfig) : PbRetryPolicy := {|
  Enabled := rc_Enabled c; pb_MaxAttempts := rc_MaxAttempts c; pb_BudgetRatio := rc_BudgetRatio c; pb_MinBudget := rc_MinBudget c;
  WindowSeconds := rc_WindowSeconds c; PerTryTimeoutMillis := rc_PerTryTimeoutMillis c |}.

Definition outlierToProto (c : outlierDetectionConfig) : OutlierDetectionPolicy := {|
  pb_DegradedThreshold := oc_DegradedThreshold c; pb_EjectThreshold := oc_EjectThreshold c;
  pb_ConsecutiveWindows := oc_ConsecutiveWindows c; EjectionDurationSeconds := oc_EjectionDurationSeconds c;
  pb_RecoveryThreshold := oc_RecoveryThreshold c; pb_ProbeSuccessThreshold := oc_ProbeSuccessThreshold c |}.

Definition build_method (method : string) (c : methodPolicyConf) : option MethodPolicy :=
  Some {| Method := method; Idempotent := mc_Idempotent c; TimeoutMillis := mc_TimeoutMillis c; m_Retry := Some (retryToProto (mc_Retry c)) |}.

Definition build_policy (revision : Z) (service : string) (c : serviceConfig) : PolicySnapshot := {|
  p_Service := service; Revision := revision; pb_RoutingPolicy := sc_RoutingPolicy c; p_Retry := Some (retryToProto (sc_Retry c));
  OutlierDetection := Some (outlierToProto (sc_OutlierDetection c)); MaxInflight := Some (sc_MaxInflightPerEndpoint c);
  Methods := map_imap (fun method c => Some (build_method method c)) (sc_Methods c) |}.

(** The snapshots of a parsed file. *)
Definition build_policies (revision : Z) (services : gmap string serviceConfig) : gmap string PolicySnapshot :=
  map_imap (fun service c => Some (build_policy revision service c)) services.

Section FileStore.
Context (unmarshal : string -> option (gmap string serviceConfig)).

(** [raw] and [stat] are what reading the file and then asking for its
    modification time return; the flag is whether it succeeded. *)
Definition Reload (raw : option string) (stat : option Z) (s : FileStore) : bool * FileStore :=
  match raw with
  | None => (false, s)
  | Some raw =>
      match stat with
      | None => (false, s)
      | Some revision =>
          match unmarshal raw with
          | None => (false, s)
          | Some services => (true, {| modTime := revision; policies := build_policies revision services |})
          end
      end
  end.

(** [stat0] is the modification time seen first. *)
Definition ReloadIfChanged (stat0 : option Z) (raw : option string) (stat : option Z) (s : FileStore) : bool * FileStore :=
  match stat0 with
  | None => (false, s)
  | Some t => if t =? modTime s then (true, s) else Reload raw stat s
  end.

Definition NewFileStore (raw : option string) (stat : option Z) : option FileStore :=
  let '(ok, s) := Reload raw stat {| modTime := 0; policies := ∅ |} in if ok then Some s else None.
End FileStore.

Definition Store_Get (s : FileStore) (service : string) : option PolicySnapshot := policies s !! service.

(** The order in which Go traverses the policies. *)
Definition policy_order : Type := gmap string PolicySnapshot -> list (string * PolicySnapshot).

Definition Store_List (visit : policy_order) (s : FileStore) : list PolicySnapshot :=
  Slice (by_keys (fun p => [p_Service p])) (visit (policies s)).*2.

(** ** Outlier thresholds ([policy_hot_apply.go]) *)

Definition OutlierDetectionToStateMachineConfig (policy : option OutlierDetectionPolicy) : StateMachineConfig :=
  match policy with
  | None => zero_config
  | Some p => {|
      DegradedThreshold := pb_DegradedThreshold p; EjectThreshold := pb_EjectThreshold p;
      ConsecutiveWindows := pb_ConsecutiveWindows p;
      EjectionDuration := if 0 <? EjectionDurationSeconds p then wraps 64 (EjectionDurationSeconds p * 1000000000) else 0;
      RecoveryThreshold := pb_RecoveryThreshold p; ProbeSuccessThreshold := pb_ProbeSuccessThreshold p |}
  end.

Definition collect_config (configs : gmap string StateMachineConfig) (p : PolicySnapshot) : gmap string StateMachineConfig :=
  if bool_decide (p_Service p = ""%string) then configs
  else <[p_Service p := OutlierDetectionToStateMachineConfig (OutlierDetection p)]> configs.

Definition ApplyOutlierDetectionPolicies (now : string -> Z) (ord : gset string -> list string) (listed : list PolicySnapshot)
    (m : HealthManager) : Z * HealthManager :=
  ReplaceServiceStateMachineConfigs now (foldl collect_config ∅ listed) ord m.

(** ** The stream ([policy_service.go]) *)

Definition deletedPolicyRevision : Z := -1.

(** One look at the store: [None] ends the stream with [NotFound]; otherwise the
    snapshot sent, if any, and the revision sent last. *)
Definition sendIfChanged (stored : option PolicySnapshot) (service : string) (lastRevision : Z)
  : option (option PolicySnapshot * Z) :=
  match stored with
  | None =>
      if lastRevision =? 0 then None
      else if lastRevision =? deletedPolicyRevision then Some (None, lastRevision)
      else Some (Some {| p_Service := service; Revision := deletedPolicyRevision; pb_RoutingPolicy := ""; p_Retry := None;
                         OutlierDetection := None; MaxInflight := None; Methods := ∅ |}, deletedPolicyRevision)
  | Some snapshot =>
      if Revision snapshot =? lastRevision then Some (None, lastRevision) else Some (Some snapshot, Revision snapshot)
  end.

(** The snapshots of a stream that looks at these states of the store, and whether
    it is still open. *)
Fixpoint WatchPolicy (service : string) (lastRevision : Z) (stored : list (option PolicySnapshot)) : list PolicySnapshot * bool :=
  match stored with
  | [] => ([], true)
  | x :: stored =>
      match sendIfChanged x service lastRevision with
      | None => ([], false)
      | Some (sent, last) =>
          let '(l, open) := WatchPolicy service last stored in
          (match sent with Some p => p :: l | None => l end, open)
      end
  end.

(** ** Reloading *)

(** A policy file replaced while it is being read is lost: the old contents
    are stored under the modification time of the new ones, so every later check
    finds nothing to reload, and the new policies stay unseen until the file changes
    again. *)
Theorem reload_race_is_permanent unmarshal raw services t s raws :
  unmarshal raw = Some services ->
  let s1 := (Reload unmarshal (Some raw) (Some t) s).2 in
  let s2 := foldl (fun s new => (ReloadIfChanged unmarshal (Some t) (Some new) (Some t) s).2) s1 raws in
  s2 = s1 /\ forall service, Store_Get s2 service = build_policy t service <$> services !! service.
Proof.
  intros Hu s1 s2. assert (E : s1 = {| modTime := t; policies := build_policies t services |}) by (unfold s1, Reload; by rewrite Hu).
  assert (Hs : s2 = s1).
  { unfold s2. clear s2. induction raws as [|new raws IH]; [done|]. cbn [foldl]. unfold ReloadIfChanged at 2.
    rewrite E. cbn [modTime]. rewrite Z.eqb_refl. cbn [snd]. by rewrite <- E. }
  split; [done|]. intros service. rewrite Hs, E. unfold Store_Get, build_policies. cbn. rewrite map_lookup_imap.
  by destruct (services !! service).
Qed.

(** ** Hot apply *)

(** The store's policies are filed under their services. *)
Definition store_keyed (s : FileStore) : Prop := map_Forall (fun service p => p_Service p = service) (policies s).

Lemma build_policies_keyed revision services t : store_keyed {| modTime := t; policies := build_policies revision services |}.
Proof.
  intros service p. cbn. unfold build_policies. rewrite map_lookup_imap. destruct (services !! service); [|done]. by intros [= <-].
Qed.

Lemma collect_configs l configs service :
  NoDup (p_Service <$> l) -> service <> ""%string ->
  foldl collect_config configs l !! service =
  match list_find (fun p => p_Service p = service) l with
  | Some (_, p) => Some (OutlierDetectionToStateMachineConfig (OutlierDetection p))
  | None => configs !! service
  end.
Proof.
  revert configs. induction l as [|p l IH]; intros configs Hd Hs; [done|]. apply NoDup_cons in Hd as [Hp Hd].
  cbn [foldl]. rewrite IH by done. cbn [list_find]. destruct (decide (p_Service p = service)) as [E|E].
  - destruct (list_find (fun p => p_Service p = service) l) as [[i q]|] eqn:Hf.
    + apply list_find_Some in Hf as (Hi & Hq & _). destruct Hp. rewrite E, <- Hq. apply list_elem_of_fmap. exists q.
      split; [done|]. by apply list_elem_of_lookup_2 in Hi.
    + unfold collect_config. rewrite E, bool_decide_eq_false_2 by done. apply lookup_insert_eq.
  - destruct (list_find (fun p => p_Service p = service) l) as [[i q]|]; [done|]. cbn. unfold collect_config.
    case_bool_decide; [done|]. by apply lookup_insert_ne.
Qed.

Lemma list_services visit s :
  (forall m, visit m ≡ₚ map_to_list m) -> store_keyed s ->
  NoDup (p_Service <$> Store_List visit s) /\
  forall p, p ∈ Store_List visit s <-> policies s !! p_Service p = Some p.
Proof.
  intros Hv Hk. unfold Store_List. split.
  - rewrite Slice_perm, <- list_fmap_compose.
    assert (E : p_Service ∘ snd <$> visit (policies s) = (visit (policies s)).*1).
    { apply list_fmap_ext. intros i [service p] Hi. apply list_elem_of_lookup_2 in Hi. rewrite Hv in Hi.
      apply elem_of_map_to_list in Hi. by apply (Hk service p). }
    rewrite E, Hv. apply NoDup_fst_map_to_list.
  - intros p. rewrite Slice_perm, list_elem_of_fmap. split.
    + intros ([service q] & -> & Hin). rewrite Hv in Hin. apply elem_of_map_to_list in Hin. cbn.
      by rewrite (Hk service q Hin).
    + intros Hp. exists (p_Service p, p). split; [done|]. rewrite Hv. by apply elem_of_map_to_list.
Qed.

Lemma collect_listed visit s service :
  (forall m, visit m ≡ₚ map_to_list m) -> store_keyed s -> service <> ""%string ->
  foldl collect_config ∅ (Store_List visit s) !! service
  = (fun p => OutlierDetectionToStateMachineConfig (OutlierDetection p)) <$> policies s !! service.
Proof.
  intros Hv Hk Hs. destruct (list_services visit s Hv Hk) as [Hd Hin]. rewrite collect_configs by done.
  destruct (list_find _ _) as [[i p]|] eqn:Hf.
  - apply list_find_Some in Hf as (Hi & <- & _). apply list_elem_of_lookup_2, Hin in Hi. by rewrite Hi.
  - rewrite lookup_empty. destruct (policies s !! service) as [p|] eqn:Hp; [|done]. exfalso.
    apply list_find_None in Hf. rewrite Forall_forall in Hf. pose proof (Hk service p Hp) as E. cbn in E.
    apply (Hf p); [|done]. apply Hin. by rewrite E.
Qed.

Lemma reset_configs now l m :
  let m' := foldl (fun m service => resetStateMachineCountersLocked (now service) m service) m l in
  serviceStateMachines m' = serviceStateMachines m /\ baseStateMachine m' = baseStateMachine m.
Proof. revert m. induction l as [|s l IH]; intros m; [done|]. cbn [foldl]. cbv zeta in *. by destruct (IH (resetStateMachineCountersLocked (now s) m s)) as [-> ->]. Qed.

Lemma replace_configs now configs ord m :
  let m' := (ReplaceServiceStateMachineConfigs now configs ord m).2 in
  serviceStateMachines m' = cloneStateMachineConfigs configs /\ baseStateMachine m' = baseStateMachine m.
Proof.
  unfold ReplaceServiceStateMachineConfigs, bumpIfChangedLocked. cbv zeta. cbn [snd].
  case_bool_decide; cbn [serviceStateMachines baseStateMachine]; apply (reset_configs now _ (set_configs m _)).
Qed.

(** Outlier thresholds follow the file: after a reload and a hot apply, the
    machine of a service runs with the thresholds its policy in the file gives, each
    left at the manager's base value where the file gives none, and a service the
    file does not name runs with the base, whatever was applied before. *)
Theorem hot_apply_follows_file unmarshal raw services t s0 visit now ord m service :
  unmarshal raw = Some services -> (forall ps, visit ps ≡ₚ map_to_list ps) -> service <> ""%string ->
  let s := (Reload unmarshal (Some raw) (Some t) s0).2 in
  let m' := (ApplyOutlierDetectionPolicies now ord (Store_List visit s) m).2 in
  EffectiveStateMachineConfig m' service =
  resolveStateMachineConfig (baseStateMachine m)
    (match services !! service with
     | Some c => OutlierDetectionToStateMachineConfig (Some (outlierToProto (sc_OutlierDetection c)))
     | None => zero_config
     end).
Proof.
  intros Hu Hv Hs s m'. unfold EffectiveStateMachineConfig, stateMachineConfigLocked, m', ApplyOutlierDetectionPolicies.
  destruct (replace_configs now (foldl collect_config ∅ (Store_List visit s)) ord m) as [-> ->]. f_equal.
  unfold cloneStateMachineConfigs. rewrite lookup_delete_ne by done. unfold s, Reload. rewrite Hu. cbn [snd].
  rewrite collect_listed by (done || apply build_policies_keyed). cbn. unfold build_policies. rewrite map_lookup_imap.
  by destruct (services !! service).
Qed.

(** ** The stream *)

Definition tombstone (service : string) : PolicySnapshot :=
  {| p_Service := service; Revision := deletedPolicyRevision; pb_RoutingPolicy := ""; p_Retry := None; OutlierDetection := None;
     MaxInflight := None; Methods := ∅ |}.

(** Revisions tell the policies of the store apart, and from the two reserved ones. *)
Definition revisions_ok (stored : list (option PolicySnapshot)) : Prop :=
  forall p, Some p ∈ stored -> Revision p <> 0 /\ Revision p <> deletedPolicyRevision /\
    forall q, Some q ∈ stored -> Revision q = Revision p -> q = p.

Lemma revisions_ok_tail x stored : revisions_ok (x :: stored) -> revisions_ok stored.
Proof.
  intros H p Hp. destruct (H p ltac:(by apply list_elem_of_further)) as (H0 & H1 & H2).
  split; [done|]. split; [done|]. intros q Hq. apply H2. by apply list_elem_of_further.
Qed.

(** [seen] is what the client was sent last. *)
Definition client_at (service : string) (stored : list (option PolicySnapshot)) (seen : PolicySnapshot) : Prop :=
  Revision seen <> 0 /\ (Revision seen = deletedPolicyRevision -> seen = tombstone service) /\
  forall q, Some q ∈ stored -> Revision q = Revision seen -> q = seen.

Lemma watch_open service seen stored :
  client_at service stored seen -> revisions_ok stored ->
  let '(l, open) := WatchPolicy service (Revision seen) stored in
  open = true /\ last (seen :: l) = Some (match last stored with Some x => default (tombstone service) x | None => seen end).
Proof.
  revert seen. induction stored as [|x stored IH]; intros seen (H0 & Hd & Hs) Hr; cbn [WatchPolicy]; [by split|].
  assert (Hlast : forall y, match last (x :: stored) with Some x => default (tombstone service) x | None => y end
    = match last stored with Some x => default (tombstone service) x | None => default (tombstone service) x end)
    by (intros y; rewrite last_cons; by destruct (last stored)).
  assert (Hkeep : seen = default (tombstone service) x -> client_at service stored seen ->
    let '(l, open) := (let '(l, open) := WatchPolicy service (Revision seen) stored in (l, open)) in
    open = true /\ last (seen :: l) = Some (match last (x :: stored) with Some x => default (tombstone service) x | None => seen end)).
  { intros Hx Hc. specialize (IH seen Hc (revisions_ok_tail _ _ Hr)). destruct (WatchPolicy _ _ _) as [l open].
    destruct IH as [-> IH]. split; [done|]. by rewrite Hlast, IH, Hx. }
  assert (Hsend : let new := default (tombstone service) x in client_at service stored new ->
    let '(l, open) := (let '(l, open) := WatchPolicy service (Revision new) stored in (new :: l, open)) in
    open = true /\ last (seen :: l) = Some (match last (x :: stored) with Some x => default (tombstone service) x | None => seen end)).
  { cbv zeta. intros Hc. specialize (IH _ Hc (revisions_ok_tail _ _ Hr)). destruct (WatchPolicy _ _ _) as [l open].
    destruct IH as [-> IH]. split; [done|]. rewrite Hlast. by rewrite <- IH. }
  destruct x as [p|]; cbn [sendIfChanged default] in *.
  - destruct (Hr p (list_elem_of_here _ _)) as (Hp0 & Hp1 & Hpq).
    assert (Hc : client_at service stored p).
    { split; [done|]. split; [done|]. intros q Hq. apply Hpq. by apply list_elem_of_further. }
    destruct (Z.eqb_spec (Revision p) (Revision seen)) as [E|E]; [|by apply Hsend].
    assert (p = seen) as -> by (apply Hs; [apply list_elem_of_here|done]). by apply Hkeep.
  - rewrite (proj2 (Z.eqb_neq _ _) H0).
    assert (Hc : client_at service stored (tombstone service)).
    { split; [done|]. split; [done|]. intros q Hq Hrev.
      destruct (Hr q ltac:(by apply list_elem_of_further)) as (_ & Hq1 & _). done. }
    destruct (Z.eqb_spec (Revision seen) deletedPolicyRevision) as [E|E]; [|by apply Hsend].
    pose proof (Hd E) as ->. by apply Hkeep.
Qed.

(** A policy stream converges: if the service has a policy when the stream
    starts, the stream stays open whatever the store then holds, and after every
    look the client was sent last what the store holds, or the deletion mark if it
    holds nothing, provided revisions tell policies apart.  (A failed reload or send
    ends the stream; these are the looks before that.) *)
Theorem policy_stream_current service p stored :
  revisions_ok (Some p :: stored) ->
  let '(l, open) := WatchPolicy service 0 (Some p :: stored) in
  open = true /\ last l = Some (default (tombstone service) (default (Some p) (last stored))).
Proof.
  intros Hr. destruct (Hr p (list_elem_of_here _ _)) as (H0 & H1 & Hq). cbn [WatchPolicy sendIfChanged].
  rewrite (proj2 (Z.eqb_neq _ _) H0).
  assert (Hc : client_at service stored p).
  { split; [done|]. split; [done|]. intros q Hin. apply Hq. by apply list_elem_of_further. }
  pose proof (watch_open service p stored Hc (revisions_ok_tail _ _ Hr)) as H.
  destruct (WatchPolicy service (Revision p) stored) as [l open]. destruct H as [-> H]. split; [done|].
  rewrite H. by destruct (last stored).
Qed.

(** ** A file with one service *)

Definition demo_retry_config : retryConfig := {|
  rc_Enabled := true; rc_MaxAttempts := 3; rc_BudgetRatio := fzero; rc_MinBudget := 0; rc_WindowSeconds := 0; rc_PerTryTimeoutMillis := 0 |}.

Definition demo_service_config (eject : Z) : serviceConfig := {|
  sc_RoutingPolicy := ""; sc_Retry := demo_retry_config;
  sc_OutlierDetection := {| oc_DegradedThreshold := fzero; oc_EjectThreshold := of_int eject; oc_ConsecutiveWindows := 5;
    oc_EjectionDurationSeconds := 60; oc_RecoveryThreshold := fzero; oc_ProbeSuccessThreshold := fzero |};
  sc_MaxInflightPerEndpoint := 0; sc_Methods := ∅ |}.

(** A format whose files name an ejection threshold by their length. *)
Definition demo_unmarshal (raw : string) : option (gmap string serviceConfig) :=
  if bool_decide (raw = ""%string) then None
  else Some {["user"%string := demo_service_config (Z.of_nat (String.length raw))]}.

Lemma reload_race_is_permanent_witness :
  let s1 := (Reload demo_unmarshal (Some "old"%string) (Some 7) {| modTime := 1; policies := ∅ |}).2 in
  let s2 := (ReloadIfChanged demo_unmarshal (Some 7) (Some "newer"%string) (Some 7) s1).2 in
  Store_Get s2 "user" = Some (build_policy 7 "user" (demo_service_config 3)).
Proof.
  pose proof (reload_race_is_permanent demo_unmarshal "old" {["user"%string := demo_service_config 3]} 7
    {| modTime := 1; policies := ∅ |} ["newer"%string] eq_refl) as [_ H]. exact (H "user"%string).
Defined.

Lemma hot_apply_follows_file_witness :
  let s := (Reload demo_unmarshal (Some "abcd"%string) (Some 7) {| modTime := 1; policies := ∅ |}).2 in
  let m' := (ApplyOutlierDetectionPolicies (fun _ => 0) elements (Store_List map_to_list s) demo_manager).2 in
  EffectiveStateMachineConfig m' "user" = {|
    DegradedThreshold := flit 15 10; EjectThreshold := of_int 4; ConsecutiveWindows := 5; EjectionDuration := 60000000000;
    RecoveryThreshold := flit 1 1; ProbeSuccessThreshold := flit 95 100 |}.
Proof.
  cbv zeta.
  rewrite (hot_apply_follows_file demo_unmarshal "abcd" {["user"%string := demo_service_config 4]} 7 {| modTime := 1; policies := ∅ |}
    map_to_list (fun _ => 0) elements demo_manager "user" eq_refl (fun _ => reflexivity _) ltac:(done)).
  by vm_compute.
Defined.

Lemma policy_stream_current_witness :
  let p := build_policy 7 "user" (demo_service_config 3) in
  WatchPolicy "user" 0 [Some p; None; Some (build_policy 9 "user" (demo_service_config 4)); None]
    = ([p; tombstone "user"; build_policy 9 "user" (demo_service_config 4); tombstone "user"], true) /\
  last (WatchPolicy "user" 0 [Some p; None]).1 = Some (tombstone "user").
Proof.
  split; [by vm_compute|].
  pose proof (policy_stream_current "user" (build_policy 7 "user" (demo_service_config 3)) [None]) as H.
  destruct (WatchPolicy "user" 0 _) as [l open]. apply H.
  intros p Hp. apply elem_of_cons in Hp as [[= ->]|Hp]; [|by apply list_elem_of_singleton in Hp].
  split; [done|]. split; [done|]. intros q Hq _.
  apply elem_of_cons in Hq as [[= ->]|Hq]; [done|by apply list_elem_of_singleton in Hq].
Defined.
