(* ===== verification/InstancesView.v ===== *)
(** * What the controller shows of a service ([pkg/controller/registry_service.go])

    [ListInstances] and [WatchInstances] join the snapshot of the registry with the
    health of the endpoints, under a version computed from the versions of both. *)
From Stdlib Require Import String SpecFloat.
From stdpp Require Import sorting.
From S2P Require Import Prelude GoStd GoFloat Status StateMachine SlowScore HealthManager Registry RegistrySpec Controller.

Definition fnv_prime : Z := 1099511628211.
Definition fnv_offset : Z := 1469598103934665603.

(** One turn of the loop, and the loop: [n] bytes of [value], lowest first. *)
Definition fnv_step (hash byte : Z) : Z := wrapu 64 (Z.lxor hash byte * fnv_prime).

Fixpoint fnv_loop (n : nat) (hash value : Z) : Z :=
  match n with
  | O => hash
  | S n => fnv_loop n (fnv_step hash (Z.land value 255)) (Z.shiftr value 8)
  end.

Definition fnv64Mix (hash value : Z) : Z := fnv_loop 8 hash value.

(** The versions are signed and converted to unsigned. *)
Definition combineInstancesVersion (registryVersion healthVersion : Z) : Z :=
  let version := fnv64Mix (fnv64Mix fnv_offset (wrapu 64 registryVersion)) (wrapu 64 healthVersion) in
  let version := Z.land version (2 ^ 63 - 1) in
  if version =? 0 then 1 else version.

Definition healthMatchesInstanceRegistrationEpoch (healthEpoch instanceEpoch : string) : bool :=
  bool_decide (healthEpoch = ""%string \/ instanceEpoch = ""%string \/ healthEpoch = instanceEpoch).

Definition healthMatchesInstance (h : EndpointHealth) (inst : Instance) : bool :=
  healthMatchesInstanceAddress (StateMachine.Address h) (Registry.Address inst) &&
  healthMatchesInstanceRegistrationEpoch (StateMachine.RegistrationEpoch h) (Registry.RegistrationEpoch inst).

Definition with_status (inst : Instance) (c : Code) : Instance :=
  {| ID := ID inst; Registry.Service := Registry.Service inst; Registry.Address := Registry.Address inst; Status_ := c;
     Labels := Labels inst; LastSeen := LastSeen inst; Registry.RegistrationEpoch := Registry.RegistrationEpoch inst;
     OwnerToken := OwnerToken inst |}.

(** [health] is the health manager, when the service has one. *)
Definition overlayHealth (health : option HealthManager) (inst : Instance) : Instance * float64 :=
  match health with
  | None => (inst, fzero)
  | Some m =>
      match HealthManager.Get m (Registry.Service inst) (ID inst) with
      | Some h => if healthMatchesInstance h inst then (with_status inst (State h), StateMachine.SlowScore h) else (inst, fzero)
      | None => (inst, fzero)
      end
  end.

Definition with_score (i : PbInstance) (score : float64) : PbInstance :=
  {| i_Id := i_Id i; i_Service := i_Service i; i_Address := i_Address i; i_Status := i_Status i; i_Labels := i_Labels i;
     LastSeenUnixMillis := LastSeenUnixMillis i; i_SlowScore := score; i_RegistrationEpoch := i_RegistrationEpoch i |}.

Definition show_instance (health : option HealthManager) (inst : Instance) : PbInstance :=
  let '(inst, slowScore) := overlayHealth health inst in with_score (instanceToProto inst) slowScore.

Record instancesView := { shown : list PbInstance; view_version : Z; registryVersion : Z; healthVersion : Z }.

Definition instances_view (visit : record_order) (ctxErr ctxErr2 : bool) (service : string) (now : Z) (health : option HealthManager)
    (r : MemoryRegistry) : (status_code + instancesView) * MemoryRegistry :=
  let '(x, r) := Registry.Snapshot visit ctxErr ctxErr2 service now r in
  (match x with
   | inl e => inl (statusFromRegistryError e)
   | inr snap =>
       let hv := match health with Some m => HealthVersion m service | None => 0 end in
       inr {| shown := show_instance health <$> Instances snap; view_version := combineInstancesVersion (Version snap) hv;
              registryVersion := Version snap; healthVersion := hv |}
   end, r).

(** The part of a watch that decides to send: the view sent, if its version is new. *)
Definition sendInstancesIfChanged (view : instancesView) (lastSentVersion : Z) : option instancesView * Z :=
  if view_version view =? lastSentVersion then (None, lastSentVersion) else (Some view, view_version view).

(** ** Versions *)

Lemma mod_inj_prime x y : (x * fnv_prime) `mod` 2 ^ 63 = (y * fnv_prime) `mod` 2 ^ 63 -> x `mod` 2 ^ 63 = y `mod` 2 ^ 63.
Proof.
  intros H. set (inv := 5662801919009527163).
  assert (Hinv : (fnv_prime * inv) `mod` 2 ^ 63 = 1) by (vm_compute; reflexivity).
  assert (Hx : forall z, z `mod` 2 ^ 63 = ((z * fnv_prime) `mod` 2 ^ 63 * inv) `mod` 2 ^ 63).
  { intros z. rewrite Z.mul_mod_idemp_l, <- Z.mul_assoc, <- Z.mul_mod_idemp_r, Hinv, Z.mul_1_r by done. done. }
  by rewrite (Hx x), (Hx y), H.
Qed.

(** Equal but for the bit the version drops. *)
Definition same63 (x y : Z) : Prop := x `mod` 2 ^ 63 = y `mod` 2 ^ 63.

Lemma same63_bits x y : same63 x y <-> forall i, 0 <= i < 63 -> Z.testbit x i = Z.testbit y i.
Proof.
  unfold same63. split.
  - intros H i Hi. rewrite <- (Z.mod_pow2_bits_low x 63 i), <- (Z.mod_pow2_bits_low y 63 i) by lia. by rewrite H.
  - intros H. apply Z.bits_inj'. intros i Hi. destruct (Z.ltb_spec i 63).
    + rewrite !Z.mod_pow2_bits_low by lia. apply H. lia.
    + by rewrite !Z.mod_pow2_bits_high by lia.
Qed.

Lemma wrapu_mod63 z : wrapu 64 z `mod` 2 ^ 63 = z `mod` 2 ^ 63.
Proof. unfold wrapu. apply Z.mod_mod_divide. by exists 2. Qed.

Lemma same63_step x y b : same63 (fnv_step x b) (fnv_step y b) -> same63 x y.
Proof.
  intros H. unfold same63, fnv_step in H. rewrite !wrapu_mod63 in H. apply mod_inj_prime in H. fold (same63 (Z.lxor x b) (Z.lxor y b)) in H.
  rewrite same63_bits in H |- *. intros i Hi. specialize (H i Hi). rewrite !Z.lxor_spec in H.
  by destruct (Z.testbit x i), (Z.testbit y i), (Z.testbit b i).
Qed.

Lemma same63_byte h b c : 0 <= b < 256 -> 0 <= c < 256 -> same63 (fnv_step h b) (fnv_step h c) -> b = c.
Proof.
  intros Hb Hc H. unfold same63, fnv_step in H. rewrite !wrapu_mod63 in H. apply mod_inj_prime in H. fold (same63 (Z.lxor h b) (Z.lxor h c)) in H.
  assert (E : same63 b c).
  { rewrite same63_bits in H |- *. intros i Hi. specialize (H i Hi). rewrite !Z.lxor_spec in H.
    by destruct (Z.testbit h i), (Z.testbit b i), (Z.testbit c i). }
  unfold same63 in E. rewrite !Z.mod_small in E by lia. done.
Qed.

Lemma same63_loop n x y v : same63 (fnv_loop n x v) (fnv_loop n y v) -> same63 x y.
Proof. revert x y v. induction n as [|n IH]; intros x y v H; [done|]. cbn in H. apply IH in H. by apply same63_step in H. Qed.

Lemma same63_mix x y v : same63 (fnv64Mix x v) (fnv64Mix y v) -> same63 x y.
Proof. apply same63_loop. Qed.

Lemma fnv_loop_S n h v : fnv_loop (S n) h v = fnv_loop n (fnv_step h (Z.land v 255)) (Z.shiftr v 8).
Proof. reflexivity. Qed.

(** The three lowest bytes of a value, and the rest. *)
Lemma fnv64Mix_first h v :
  fnv64Mix h v = fnv_loop 5 (fnv_step (fnv_step (fnv_step h (v `mod` 256)) ((v / 256) `mod` 256)) ((v / 256 / 256) `mod` 256)) (v / 2 ^ 24).
Proof.
  unfold fnv64Mix. rewrite (fnv_loop_S 7), (fnv_loop_S 6), (fnv_loop_S 5). change 255 with (Z.ones 8). rewrite !Z.land_ones, !Z.shiftr_div_pow2 by lia.
  change (2 ^ 8) with 256. rewrite !Z.div_div by lia. done.
Qed.

(** A byte changes a number by little. *)
Lemma lxor_near x b : 0 <= b < 256 -> exists e, Z.lxor x b = x + e /\ -255 <= e <= 255.
Proof.
  intros Hb. exists (Z.lxor x b `mod` 256 - x `mod` 256). pose proof (Z.mod_pos_bound (Z.lxor x b) 256). pose proof (Z.mod_pos_bound x 256).
  split; [|lia]. assert (Hd : Z.lxor x b / 256 = x / 256).
  { change 256 with (2 ^ 8). rewrite <- !Z.shiftr_div_pow2, Z.shiftr_lxor by lia. rewrite (Z.shiftr_div_pow2 b), (Z.div_small b), Z.lxor_0_r by lia. done. }
  pose proof (Z.div_mod x 256). pose proof (Z.div_mod (Z.lxor x b) 256). lia.
Qed.

Lemma same63_diff x y : same63 x y -> exists k, x = y + k * 2 ^ 63.
Proof. intros H. exists (x / 2 ^ 63 - y / 2 ^ 63). unfold same63 in H. pose proof (Z.div_mod x (2 ^ 63)). pose proof (Z.div_mod y (2 ^ 63)). lia. Qed.

Lemma fnv_step_near h b : 0 <= b < 256 -> exists e k, fnv_step h b = (h + e) * fnv_prime + k * 2 ^ 64 /\ -255 <= e <= 255 /\ Z.lxor h b = h + e.
Proof.
  intros Hb. destruct (lxor_near h b Hb) as (e & He & Hr). exists e, (- (Z.lxor h b * fnv_prime / 2 ^ 64)). split; [|done].
  unfold fnv_step, wrapu. rewrite <- He. pose proof (Z.div_mod (Z.lxor h b * fnv_prime) (2 ^ 64)). lia.
Qed.

(** The prime is too sparse for small differences in three turns to cancel. *)
Lemma sparse_prime d e f k :
  -510 <= d <= 510 -> -510 <= e <= 510 -> -510 <= f <= 510 -> (d * fnv_prime + e) * fnv_prime + f = k * 2 ^ 63 -> d = 0 /\ e = 0.
Proof.
  unfold fnv_prime. intros Hd He Hf H.
  assert (E : (870 * 2 ^ 40 + 189225) * d + (2 ^ 40 + 435) * e + f = (k - 131072 * d) * 2 ^ 63) by lia.
  assert (k - 131072 * d = 0) by lia. lia.
Qed.

Lemma same63_three h b0 b1 b2 c0 c1 c2 :
  0 <= b0 < 256 -> 0 <= b1 < 256 -> 0 <= b2 < 256 -> 0 <= c0 < 256 -> 0 <= c1 < 256 -> 0 <= c2 < 256 ->
  same63 (fnv_step (fnv_step (fnv_step h b0) b1) b2) (fnv_step (fnv_step (fnv_step h c0) c1) c2) -> b0 = c0 /\ b1 = c1 /\ b2 = c2.
Proof.
  intros Hb0 Hb1 Hb2 Hc0 Hc1 Hc2 H. pose proof H as Hlast. unfold same63, fnv_step at 1 4 in H. rewrite !wrapu_mod63 in H.
  apply mod_inj_prime, same63_diff in H as [k Hk].
  destruct (lxor_near (fnv_step (fnv_step h b0) b1) b2 Hb2) as (e2 & E2 & R2). destruct (lxor_near (fnv_step (fnv_step h c0) c1) c2 Hc2) as (f2 & F2 & S2).
  destruct (fnv_step_near (fnv_step h b0) b1 Hb1) as (e1 & k1 & E1 & R1 & L1). destruct (fnv_step_near (fnv_step h c0) c1 Hc1) as (f1 & m1 & F1 & S1 & M1).
  destruct (fnv_step_near h b0 Hb0) as (e0 & k0 & E0 & R0 & L0). destruct (fnv_step_near h c0 Hc0) as (f0 & m0 & F0 & S0 & M0).
  destruct (sparse_prime (e0 - f0) (e1 - f1) (e2 - f2) (k + 2 * m1 - 2 * k1 + (2 * m0 - 2 * k0) * fnv_prime)) as [D0 D1]; [lia..| |].
  { unfold fnv_prime in *. lia. }
  assert (Hx : forall x b c, 0 <= b < 256 -> 0 <= c < 256 -> Z.lxor x b = Z.lxor x c -> b = c).
  { intros x b c Hb Hc E. apply (same63_byte x); [done..|]. unfold fnv_step. by rewrite E. }
  assert (b0 = c0) as -> by (apply (Hx h); [done..|lia]).
  assert (b1 = c1) as -> by (apply (Hx (fnv_step h c0)); [done..|lia]).
  split; [done|]. split; [done|]. by apply same63_byte in Hlast.
Qed.

(** Values that differ only in their three lowest bytes are told apart. *)
Lemma same63_low h v v' : v / 2 ^ 24 = v' / 2 ^ 24 -> same63 (fnv64Mix h v) (fnv64Mix h v') -> v = v'.
Proof.
  intros Hd H. rewrite !fnv64Mix_first, Hd in H. apply same63_loop, same63_three in H as (H0 & H1 & H2); [|apply Z.mod_pos_bound; lia..].
  change (2 ^ 24) with (256 * (256 * 256)) in Hd. rewrite <- !Z.div_div in Hd by lia.
  pose proof (Z.div_mod v 256). pose proof (Z.div_mod v' 256). pose proof (Z.div_mod (v / 256) 256). pose proof (Z.div_mod (v' / 256) 256).
  pose proof (Z.div_mod (v / 256 / 256) 256). pose proof (Z.div_mod (v' / 256 / 256) 256). lia.
Qed.

(** Equal versions other than one come from hashes that agree in 63 bits. *)
Lemma combine_same63 r h r' h' :
  combineInstancesVersion r h = combineInstancesVersion r' h' -> combineInstancesVersion r h <> 1 ->
  same63 (fnv64Mix (fnv64Mix fnv_offset (wrapu 64 r)) (wrapu 64 h)) (fnv64Mix (fnv64Mix fnv_offset (wrapu 64 r')) (wrapu 64 h')).
Proof.
  unfold combineInstancesVersion, same63. change (2 ^ 63 - 1) with (Z.ones 63). rewrite !Z.land_ones by lia.
  intros H Hne. destruct (Z.eqb_spec (fnv64Mix (fnv64Mix fnv_offset (wrapu 64 r)) (wrapu 64 h) `mod` 2 ^ 63) 0); [done|].
  destruct (Z.eqb_spec (fnv64Mix (fnv64Mix fnv_offset (wrapu 64 r')) (wrapu 64 h') `mod` 2 ^ 63) 0); [lia|done].
Qed.

(** C40. A watcher of a service is not kept from a change by its version, within 2^24
    versions: views that differ only in the version of the registry, or only in that
    of the health manager, and in no more than the three lowest bytes of it, have
    different versions, unless the hash is one of the two that are shown as version
    one; and versions are positive 64-bit numbers.  (Nothing is claimed for a change of
    both at once, or across a multiple of 2^24.) *)
Theorem view_versions_distinct r h :
  0 <= r < 2 ^ 63 -> 0 <= h < 2 ^ 63 ->
  1 <= combineInstancesVersion r h < 2 ^ 63 /\
  (forall h', 0 <= h' < 2 ^ 63 -> h / 2 ^ 24 = h' / 2 ^ 24 -> combineInstancesVersion r h = combineInstancesVersion r h' ->
     combineInstancesVersion r h = 1 \/ h = h') /\
  (forall r', 0 <= r' < 2 ^ 63 -> r / 2 ^ 24 = r' / 2 ^ 24 -> combineInstancesVersion r h = combineInstancesVersion r' h ->
     combineInstancesVersion r h = 1 \/ r = r').
Proof.
  intros Hr Hh. assert (Hw : forall z, 0 <= z < 2 ^ 63 -> wrapu 64 z = z) by (intros z Hz; apply wrapu_small; unfold is_u; lia).
  split; [|split].
  - unfold combineInstancesVersion. change (2 ^ 63 - 1) with (Z.ones 63). rewrite Z.land_ones by lia.
    pose proof (Z.mod_pos_bound (fnv64Mix (fnv64Mix fnv_offset (wrapu 64 r)) (wrapu 64 h)) (2 ^ 63) ltac:(lia)).
    destruct (Z.eqb_spec (fnv64Mix (fnv64Mix fnv_offset (wrapu 64 r)) (wrapu 64 h) `mod` 2 ^ 63) 0); lia.
  - intros h' Hh' Hd He. destruct (decide (combineInstancesVersion r h = 1)) as [|Hne]; [by left|]. right.
    pose proof (combine_same63 _ _ _ _ He Hne) as H. rewrite !Hw in H by done. by apply same63_low in H.
  - intros r' Hr' Hd He. destruct (decide (combineInstancesVersion r h = 1)) as [|Hne]; [by left|]. right.
    pose proof (combine_same63 _ _ _ _ He Hne) as H. rewrite !Hw in H by done. apply same63_mix in H. by apply same63_low in H.
Qed.

Lemma view_versions_distinct_witness :
  combineInstancesVersion 3 7 <> 1 /\ combineInstancesVersion 3 7 <> combineInstancesVersion 3 8.
Proof.
  split; [by vm_compute|]. intros He.
  destruct (view_versions_distinct 3 7 ltac:(lia) ltac:(lia)) as (_ & H & _).
  destruct (H 8 ltac:(lia) ltac:(done) He) as [H1|H1]; [by vm_compute in H1|lia].
Defined.

(** ** Views *)

(** The status shown is the registered one, or that of health known for this
    registration at this address. *)
Definition status_explained (health : option HealthManager) (inst : Instance) (p : PbInstance) : Prop :=
  i_Status p = Code_String (Status_ inst) \/
  exists m h, health = Some m /\ HealthManager.Get m (Registry.Service inst) (ID inst) = Some h /\
    i_Status p = Code_String (State h) /\ i_SlowScore p = StateMachine.SlowScore h /\
    (StateMachine.RegistrationEpoch h = ""%string \/ Registry.RegistrationEpoch inst = ""%string \/
     StateMachine.RegistrationEpoch h = Registry.RegistrationEpoch inst) /\
    (StateMachine.Address h = ""%string \/ Registry.Address inst = ""%string \/ StateMachine.Address h = Registry.Address inst).

Lemma show_instance_spec health inst :
  let p := show_instance health inst in
  i_Id p = ID inst /\ i_Address p = Registry.Address inst /\ i_RegistrationEpoch p = Registry.RegistrationEpoch inst /\
  status_explained health inst p.
Proof.
  cbv zeta. unfold show_instance, overlayHealth, status_explained. destruct health as [m|]; [|by repeat split; left].
  destruct (HealthManager.Get m (Registry.Service inst) (ID inst)) as [h|] eqn:Hg; [|by repeat split; left].
  destruct (healthMatchesInstance h inst) eqn:Hm; [|by repeat split; left].
  apply andb_true_iff in Hm as [Ha%bool_decide_eq_true He%bool_decide_eq_true].
  split; [done|]. split; [done|]. split; [done|]. right. exists m, h. done.
Qed.

(** C23. A listing of the controller is the registry's, overlaid: after any run it
    shows, ascending by ID, exactly the live leases of the service with their
    addresses and epochs, each with its registered status or the state of health
    known for that very registration and address, never that of a superseded one. *)
Theorem view_shows_live_leases t0 es visit now service health :
  Forall traverses es -> zero_time <= t0 -> clock_from t0 es -> t0 <= now -> Forall (fun e => at_ e <= now) es ->
  (forall recs, visit recs ≡ₚ map_to_list recs) -> service <> ""%string ->
  let '(xs, r) := run es NewMemoryRegistry in
  exists L insts view, explains es ∅ xs L /\ (instances_view visit false false service now health r).1 = inr view /\
    listing L service now insts /\
    Forall2 (fun inst p => i_Id p = ID inst /\ i_Address p = Registry.Address inst /\
      i_RegistrationEpoch p = Registry.RegistrationEpoch inst /\ status_explained health inst p) insts (shown view).
Proof.
  intros Ht Hz Hc Hnow Hall Hv Hs. pose proof (run_refines t0 es NewMemoryRegistry ∅ Ht Hz Hc (new_refines t0)) as H.
  destruct (run es NewMemoryRegistry) as [xs r]. destruct H as (L & clock & Hex & _ & Hmax & HR).
  apply (refines_mono _ _ now) in HR; [|by apply Hmax]. exists L.
  pose proof (snapshot_kept visit Hv now ltac:(lia) r L HR false false service) as H. unfold instances_view.
  destruct (Registry.Snapshot visit false false service now r) as [[e|snap] r']; destruct H as (L' & HC & _).
  { destruct HC as [_ [?|?]]; done. }
  destruct HC as [-> HC]. exists (Instances snap). eexists. split; [done|]. split; [done|]. split; [by apply HC|].
  apply Forall2_fmap_r, Forall_Forall2_diag, Forall_forall. intros inst _. apply show_instance_spec.
Qed.

Lemma view_shows_live_leases_witness :
  let es := take 4 demo_events in
  exists L insts view, explains es ∅ (run es NewMemoryRegistry).1 L /\
    (instances_view map_to_list false false "pay" 112 (Some demo_manager) (run es NewMemoryRegistry).2).1 = inr view /\
    i_Id <$> shown view = ["b"%string] /\ listing L "pay" 112 insts.
Proof.
  cbv zeta.
  pose proof (view_shows_live_leases 100 (take 4 demo_events) map_to_list 112 "pay" (Some demo_manager)
    ltac:(by repeat (apply Forall_cons; split; [by split|])) ltac:(by vm_compute) ltac:(cbn; lia) ltac:(lia)
    ltac:(by repeat (apply Forall_cons; split; [cbn; lia|])) ltac:(done) ltac:(done)) as H.
  assert (Hids : match (instances_view map_to_list false false "pay" 112 (Some demo_manager) (run (take 4 demo_events) NewMemoryRegistry).2).1
                 with inr view => i_Id <$> shown view = ["b"%string] | inl _ => False end) by by vm_compute.
  destruct (run (take 4 demo_events) NewMemoryRegistry) as [xs r]. destruct H as (L & insts & view & Hex & Hv & Hl & _).
  exists L, insts, view. cbn [snd fst] in *. rewrite Hv in Hids. done.
Defined.
