(* ===== verification/Wal.v ===== *)
(** * The write-ahead log of the file registry ([pkg/registry/file_registry_v2.go])

    The frames of the log: encoding, the checks of the reader, and the replay that
    stops at the first frame it cannot trust.  [now] is the clock that
    [encodeFileRegistryWALRecord] reads for a record without a time. *)
From Stdlib Require Import String.
From S2P Require Import Prelude GoStd GoBytes.

(** ** Records *)

(** [fileRegistryWALOp], a [uint8]. *)
Definition OpRegister : Z := 1.
Definition OpHeartbeat : Z := 2.
Definition OpDeleteExpired : Z := 3.
Definition OpSnapshotMark : Z := 4.

Definition WALMagic : Z := 0x41475257.
Definition WALVersion : Z := 1.
Definition WALHeaderSize : nat := 32.
Definition WALCRCSize : nat := 4.
Definition maxPayloadLen : Z := 2 ^ 20.

Record WALRecord := {
  w_op : Z;
  w_timestamp : Z;
  w_service : string;
  w_id : string;
  w_address : string;
  w_ttl : Z;
  w_payload : list Z;
  w_serviceLen : Z;
  w_idLen : Z;
  w_addressLen : Z;
  w_payloadLen : Z
}.

Definition newHeartbeatWALRecord (service id : string) (ttl now : Z) : WALRecord :=
  {| w_op := OpHeartbeat; w_timestamp := now; w_service := service; w_id := id; w_address := ""; w_ttl := ttl;
     w_payload := []; w_serviceLen := 0; w_idLen := 0; w_addressLen := 0; w_payloadLen := 0 |}.

Definition newDeleteExpiredWALRecord (service id : string) (now : Z) : WALRecord :=
  {| w_op := OpDeleteExpired; w_timestamp := now; w_service := service; w_id := id; w_address := ""; w_ttl := 0;
     w_payload := []; w_serviceLen := 0; w_idLen := 0; w_addressLen := 0; w_payloadLen := 0 |}.

Definition newSnapshotMarkWALRecord (now : Z) : WALRecord :=
  {| w_op := OpSnapshotMark; w_timestamp := now; w_service := ""; w_id := ""; w_address := ""; w_ttl := 0;
     w_payload := []; w_serviceLen := 0; w_idLen := 0; w_addressLen := 0; w_payloadLen := 0 |}.

Definition byte_len (s : string) : Z := Z.of_nat (length (string_bytes s)).

(** ** Encoding *)

(** The frame without its checksum. *)
Definition frame_body (now : Z) (r : WALRecord) : list Z :=
  let timestamp := if IsZero (w_timestamp r) then now else w_timestamp r in
  be_bytes 4 WALMagic ++ [WALVersion; wrapu 8 (w_op r)] ++ be_bytes 8 timestamp ++
  be_bytes 2 (byte_len (w_service r)) ++ be_bytes 2 (byte_len (w_id r)) ++ be_bytes 2 (byte_len (w_address r)) ++
  be_bytes 4 (Z.of_nat (length (w_payload r))) ++ be_bytes 8 (w_ttl r) ++
  string_bytes (w_service r) ++ string_bytes (w_id r) ++ string_bytes (w_address r) ++ w_payload r.

(** [None] is [errInvalidWALRecord]. *)
Definition encodeFileRegistryWALRecord (now : Z) (r : WALRecord) : option (list Z) :=
  if (0xffff <? byte_len (w_service r)) || (0xffff <? byte_len (w_id r)) || (0xffff <? byte_len (w_address r))
     || (maxPayloadLen <? Z.of_nat (length (w_payload r)))
  then None
  else let out := frame_body now r in Some (out ++ be_bytes WALCRCSize (crc_Checksum out)).

(** ** Reading a frame *)

Definition be_slice (off n : Z) (bs : list Z) : Z := be_val (slice off n bs).

(** The record of a header and the length of its body. *)
Definition parseFileRegistryWALHeader (header : list Z) : option (WALRecord * Z) :=
  if negb (Z.of_nat (length header) =? Z.of_nat WALHeaderSize) then None
  else if negb (be_slice 0 4 header =? WALMagic) || negb (be_slice 4 1 header =? WALVersion) then None
  else
    let op := be_slice 5 1 header in
    if negb ((op =? OpRegister) || (op =? OpHeartbeat) || (op =? OpDeleteExpired) || (op =? OpSnapshotMark)) then None
    else
      let serviceLen := be_slice 14 2 header in
      let idLen := be_slice 16 2 header in
      let addressLen := be_slice 18 2 header in
      let payloadLen := be_slice 20 4 header in
      if maxPayloadLen <? payloadLen then None
      else if (op =? OpRegister) && ((serviceLen =? 0) || (idLen =? 0) || (addressLen =? 0)) then None
      else if ((op =? OpHeartbeat) || (op =? OpDeleteExpired))
              && ((serviceLen =? 0) || (idLen =? 0) || negb (addressLen =? 0) || negb (payloadLen =? 0)) then None
      else if (op =? OpSnapshotMark)
              && (negb (serviceLen =? 0) || negb (idLen =? 0) || negb (addressLen =? 0) || negb (payloadLen =? 0)) then None
      else
        let ttl := wraps 64 (be_slice 24 8 header) in
        if ((op =? OpRegister) || (op =? OpHeartbeat)) && (ttl <=? 0) then None
        else if ((op =? OpDeleteExpired) || (op =? OpSnapshotMark)) && negb (ttl =? 0) then None
        else Some ({| w_op := op; w_timestamp := time_Unix 0 (wraps 64 (be_slice 6 8 header));
                      w_service := ""; w_id := ""; w_address := ""; w_ttl := ttl; w_payload := [];
                      w_serviceLen := serviceLen; w_idLen := idLen; w_addressLen := addressLen;
                      w_payloadLen := payloadLen |},
                   serviceLen + idLen + addressLen + payloadLen).

Definition populateFileRegistryWALBody (r : WALRecord) (body : list Z) : option WALRecord :=
  if negb (Z.of_nat (length body) =? w_serviceLen r + w_idLen r + w_addressLen r + w_payloadLen r) then None
  else Some
    {| w_op := w_op r; w_timestamp := w_timestamp r;
       w_service := bytes_string (slice 0 (w_serviceLen r) body);
       w_id := bytes_string (slice (w_serviceLen r) (w_idLen r) body);
       w_address := bytes_string (slice (w_serviceLen r + w_idLen r) (w_addressLen r) body);
       w_ttl := w_ttl r;
       w_payload := if 0 <? w_payloadLen r
                    then slice (w_serviceLen r + w_idLen r + w_addressLen r) (w_payloadLen r) body else w_payload r;
       w_serviceLen := w_serviceLen r; w_idLen := w_idLen r; w_addressLen := w_addressLen r;
       w_payloadLen := w_payloadLen r |}.

(** ** Replay *)

(** One turn of the reading loop: the end of the file, a tail that is not a
    frame, or a record with the length of its frame and the bytes after it. *)
Inductive read_result := REnd | RTruncated | RRecord (r : WALRecord) (frameLen : Z) (rest : list Z).

(** [io.ReadFull] of [n] bytes fails when fewer are left. *)
Definition read_frame (file : list Z) : read_result :=
  if bool_decide (file = []) then REnd
  else if bool_decide (length file < WALHeaderSize)%nat then RTruncated
  else
    let header := take WALHeaderSize file in
    match parseFileRegistryWALHeader header with
    | None => RTruncated
    | Some (parsed, bodyLen) =>
        let file := drop WALHeaderSize file in
        if bool_decide (length file < Z.to_nat bodyLen + WALCRCSize)%nat then RTruncated
        else
          let body := take (Z.to_nat bodyLen) file in
          let expectedCRC := be_val (take WALCRCSize (drop (Z.to_nat bodyLen) file)) in
          if negb (crc_Checksum (header ++ body) =? expectedCRC) then RTruncated
          else match populateFileRegistryWALBody parsed body with
               | None => RTruncated
               | Some r => RRecord r (Z.of_nat WALHeaderSize + bodyLen + Z.of_nat WALCRCSize)
                             (drop (Z.to_nat bodyLen + WALCRCSize) file)
               end
    end.

(** [fileRegistryWALReplayResult] *)
Record ReplayResult := { validBytes : Z; truncated : bool; replayed : Z }.

Section Replay.
Context {S E : Type} (apply : WALRecord -> S -> option E * S).

(** The loop of [replayFileRegistryWAL] over the contents of the file, with the
    error of [apply]; [None] is fuel exhausted. *)
Fixpoint replay_loop (fuel : nat) (file : list Z) (res : ReplayResult) (s : S) : option (option E * ReplayResult * S) :=
  match fuel with
  | O => None
  | Datatypes.S fuel =>
      match read_frame file with
      | REnd => Some (None, res, s)
      | RTruncated => Some (None, {| validBytes := validBytes res; truncated := true; replayed := replayed res |}, s)
      | RRecord r n rest =>
          match apply r s with
          | (Some e, s) => Some (Some e, res, s)
          | (None, s) =>
              replay_loop fuel rest {| validBytes := validBytes res + n; truncated := truncated res; replayed := replayed res + 1 |} s
          end
      end
  end.

(** [replayFileRegistryWAL]; [None] is a file that does not exist. *)
Definition replayFileRegistryWAL (file : option (list Z)) (s : S) : option (option E * ReplayResult * S) :=
  let start := {| validBytes := 0; truncated := false; replayed := 0 |} in
  match file with
  | None => Some (None, start, s)
  | Some file => replay_loop (Datatypes.S (length file)) file start s
  end.
End Replay.
