(* ===== verification/WalSpec.v ===== *)
(** * What the write-ahead log guarantees

    Frames read back as the records written, a torn or damaged frame ends the
    replay exactly where it starts, and the truncation that follows leaves a log
    that replays to the same state and can be appended to. *)
From Stdlib Require Import String.
From S2P Require Import Prelude GoStd GoBytes Wal.

(** ** Records the log accepts *)

(** The records the registry writes: what the reader demands of each operation. *)
Definition loggable (r : WALRecord) : Prop :=
  bytes_ok (w_payload r) /\
  ((w_op r = OpRegister /\ w_service r <> ""%string /\ w_id r <> ""%string /\ w_address r <> ""%string /\ 0 < w_ttl r < 2 ^ 63) \/
   (w_op r = OpHeartbeat /\ w_service r <> ""%string /\ w_id r <> ""%string /\ w_address r = ""%string /\ w_payload r = [] /\
      0 < w_ttl r < 2 ^ 63) \/
   (w_op r = OpDeleteExpired /\ w_service r <> ""%string /\ w_id r <> ""%string /\ w_address r = ""%string /\ w_payload r = [] /\
      w_ttl r = 0) \/
   (w_op r = OpSnapshotMark /\ w_service r = ""%string /\ w_id r = ""%string /\ w_address r = ""%string /\ w_payload r = [] /\
      w_ttl r = 0)).

(** The time written for a record. *)
Definition stamp (now : Z) (r : WALRecord) : Z := if IsZero (w_timestamp r) then now else w_timestamp r.

(** A record as it is read back. *)
Definition framed (now : Z) (r : WALRecord) : WALRecord :=
  {| w_op := w_op r; w_timestamp := stamp now r; w_service := w_service r; w_id := w_id r; w_address := w_address r;
     w_ttl := w_ttl r; w_payload := w_payload r; w_serviceLen := byte_len (w_service r); w_idLen := byte_len (w_id r);
     w_addressLen := byte_len (w_address r); w_payloadLen := Z.of_nat (length (w_payload r)) |}.

Lemma byte_len_0 s : byte_len s = 0 <-> s = ""%string.
Proof.
  unfold byte_len. rewrite <- string_bytes_nil. split; [|by intros ->].
  destruct (string_bytes s); simpl; [done|lia].
Qed.

Lemma byte_len_eqb s : (byte_len s =? 0) = bool_decide (s = ""%string).
Proof.
  destruct (Z.eqb_spec (byte_len s) 0) as [E|E]; rewrite byte_len_0 in E; symmetry;
    [by apply bool_decide_eq_true_2 | by apply bool_decide_eq_false_2].
Qed.

Lemma payload_eqb (bs : list Z) : (Z.of_nat (length bs) =? 0) = bool_decide (bs = []).
Proof. by destruct bs. Qed.

Lemma byte_len_nonneg s : 0 <= byte_len s.
Proof. unfold byte_len. lia. Qed.

(** ** The header *)

Definition header_chunks (now : Z) (r : WALRecord) : list (list Z) :=
  [be_bytes 4 WALMagic; [WALVersion]; [wrapu 8 (w_op r)]; be_bytes 8 (stamp now r); be_bytes 2 (byte_len (w_service r));
   be_bytes 2 (byte_len (w_id r)); be_bytes 2 (byte_len (w_address r)); be_bytes 4 (Z.of_nat (length (w_payload r)));
   be_bytes 8 (w_ttl r)].

Definition header_of (now : Z) (r : WALRecord) : list Z := concat (header_chunks now r).

Definition body_of (r : WALRecord) : list Z :=
  string_bytes (w_service r) ++ string_bytes (w_id r) ++ string_bytes (w_address r) ++ w_payload r.

Lemma frame_body_split now r : frame_body now r = header_of now r ++ body_of r.
Proof. unfold frame_body, header_of, header_chunks, body_of. cbn [concat]. by rewrite app_nil_r, <- !app_assoc. Qed.

Lemma length_header now r : length (header_of now r) = WALHeaderSize.
Proof. unfold header_of, header_chunks. rewrite length_concat_sum. cbn [fmap list_fmap]. by rewrite !length_be_bytes. Qed.

Definition body_len (r : WALRecord) : Z :=
  byte_len (w_service r) + byte_len (w_id r) + byte_len (w_address r) + Z.of_nat (length (w_payload r)).

Lemma length_body r : Z.of_nat (length (body_of r)) = body_len r.
Proof. unfold body_of, body_len, byte_len. rewrite !length_app. lia. Qed.

(** A field of the header reads back. *)
Lemma header_word now r i off n v :
  header_chunks now r !! i = Some (be_bytes (Z.to_nat n) v) -> 0 <= n ->
  off = Z.of_nat (length (concat (take i (header_chunks now r)))) ->
  be_slice off n (header_of now r) = wrapu (8 * n) v.
Proof.
  intros Hi Hn ->. unfold be_slice, header_of. erewrite slice_concat; [|done|rewrite length_be_bytes; lia|done].
  by rewrite be_val_be_bytes, Z2Nat.id.
Qed.

Lemma header_field now r i off n v :
  header_chunks now r !! i = Some (be_bytes (Z.to_nat n) v) -> 0 <= n ->
  off = Z.of_nat (length (concat (take i (header_chunks now r)))) -> 0 <= v < 2 ^ (8 * n) ->
  be_slice off n (header_of now r) = v.
Proof. intros Hi Hn Ho Hv. rewrite (header_word now r i off n v) by done. by apply wrapu_small. Qed.

Lemma wraps_wrapu w x : 0 < w -> wraps w (wrapu w x) = wraps w x.
Proof. intros Hw. unfold wraps. cbv zeta. unfold wrapu. by rewrite Z.mod_mod by lia. Qed.

Lemma encode_bounds now r bs :
  encodeFileRegistryWALRecord now r = Some bs ->
  byte_len (w_service r) <= 0xffff /\ byte_len (w_id r) <= 0xffff /\ byte_len (w_address r) <= 0xffff /\
  Z.of_nat (length (w_payload r)) <= maxPayloadLen /\
  bs = header_of now r ++ body_of r ++ be_bytes WALCRCSize (crc_Checksum (frame_body now r)).
Proof.
  unfold encodeFileRegistryWALRecord. case_test; [done|]. cbv zeta. intros H%Some_inj. subst bs. bool_facts.
  do 4 (split; [lia|]). by rewrite (app_assoc (header_of now r)), <- frame_body_split.
Qed.

Definition parsed_header (now : Z) (r : WALRecord) : WALRecord :=
  {| w_op := w_op r; w_timestamp := stamp now r; w_service := ""; w_id := ""; w_address := ""; w_ttl := w_ttl r;
     w_payload := []; w_serviceLen := byte_len (w_service r); w_idLen := byte_len (w_id r);
     w_addressLen := byte_len (w_address r); w_payloadLen := Z.of_nat (length (w_payload r)) |}.

Lemma parse_header now r bs :
  loggable r -> is_s 64 (stamp now r) -> encodeFileRegistryWALRecord now r = Some bs ->
  parseFileRegistryWALHeader (header_of now r) = Some (parsed_header now r, body_len r).
Proof.
  intros [_ Hr] Ht (Hs & Hi & Ha & Hp & _)%encode_bounds. unfold maxPayloadLen in Hp.
  pose proof (byte_len_nonneg (w_service r)). pose proof (byte_len_nonneg (w_id r)). pose proof (byte_len_nonneg (w_address r)).
  assert (Hop : w_op r = 1 \/ w_op r = 2 \/ w_op r = 3 \/ w_op r = 4) by (unfold OpRegister, OpHeartbeat, OpDeleteExpired, OpSnapshotMark in Hr; tauto).
  assert (Httl : is_s 64 (w_ttl r)) by (unfold is_s; lia).
  unfold parseFileRegistryWALHeader. rewrite length_header, Z.eqb_refl. cbn [negb].
  rewrite (header_field now r 0 0 4 WALMagic), Z.eqb_refl by done.
  rewrite (header_field now r 1 4 1 WALVersion), Z.eqb_refl by done.
  rewrite (header_field now r 2 5 1 (w_op r)) by (done || lia).
  rewrite (header_field now r 4 14 2 (byte_len (w_service r))) by (done || lia).
  rewrite (header_field now r 5 16 2 (byte_len (w_id r))) by (done || lia).
  rewrite (header_field now r 6 18 2 (byte_len (w_address r))) by (done || lia).
  rewrite (header_field now r 7 20 4 (Z.of_nat (length (w_payload r)))) by (done || lia).
  rewrite (header_word now r 8 24 8 (w_ttl r)), (header_word now r 3 6 8 (stamp now r)) by done.
  change (8 * 8) with 64. rewrite !wraps_wrapu, !wraps_small by (done || lia).
  unfold parsed_header, body_len, time_Unix, maxPayloadLen. rewrite Z.mul_0_l, Z.add_0_l, (proj2 (Z.ltb_ge _ _)) by done.
  rewrite !byte_len_eqb, payload_eqb.
  destruct Hr as [(E & ? & ? & ? & ?)|[(E & ? & ? & -> & -> & ?)|[(E & ? & ? & -> & -> & ->)|(E & -> & -> & -> & -> & ->)]]];
    rewrite E; rewrite ?bool_decide_eq_false_2 by done; cbn; try done; by rewrite (proj2 (Z.leb_gt _ _)) by lia.
Qed.

Definition body_chunks (r : WALRecord) : list (list Z) :=
  [string_bytes (w_service r); string_bytes (w_id r); string_bytes (w_address r); w_payload r].

Lemma body_slice r i off n b :
  body_chunks r !! i = Some b -> n = Z.of_nat (length b) -> off = Z.of_nat (length (concat (take i (body_chunks r)))) ->
  slice off n (body_of r) = b.
Proof.
  intros Hi Hn Ho. replace (body_of r) with (concat (body_chunks r)) by (unfold body_of; simpl; by rewrite app_nil_r).
  by apply slice_concat with (i := i).
Qed.

Lemma populate_body now r : populateFileRegistryWALBody (parsed_header now r) (body_of r) = Some (framed now r).
Proof.
  unfold populateFileRegistryWALBody. cbn [parsed_header w_serviceLen w_idLen w_addressLen w_payloadLen w_payload
    w_op w_timestamp w_ttl]. rewrite length_body. unfold body_len at 1. rewrite Z.eqb_refl. cbn [negb].
  rewrite (body_slice r 0 _ _ (string_bytes (w_service r))) by done.
  rewrite (body_slice r 1 _ _ (string_bytes (w_id r))) by (simpl; rewrite ?length_app; unfold byte_len; simpl; done || lia).
  rewrite (body_slice r 2 _ _ (string_bytes (w_address r))) by (simpl; rewrite ?length_app; unfold byte_len; simpl; done || lia).
  rewrite (body_slice r 3 _ _ (w_payload r)) by (simpl; rewrite ?length_app; unfold byte_len; simpl; done || lia).
  rewrite !bytes_string_bytes. unfold framed. do 2 f_equal.
  destruct (w_payload r); [done|]. by rewrite (proj2 (Z.ltb_lt _ _)) by (simpl; lia).
Qed.

(** ** Reading *)

Lemma be_slice_nonneg off n bs : bytes_ok bs -> 0 <= be_slice off n bs.
Proof. intros H. apply be_val_range. unfold slice. by apply Forall_take, Forall_drop. Qed.

Lemma parse_len_nonneg header parsed len :
  bytes_ok header -> parseFileRegistryWALHeader header = Some (parsed, len) -> 0 <= len.
Proof.
  intros Hb. unfold parseFileRegistryWALHeader. repeat (case_test; [done|]). intros [= _ <-].
  pose proof (fun off n => be_slice_nonneg off n header Hb) as Hn.
  pose proof (Hn 14 2). pose proof (Hn 16 2). pose proof (Hn 18 2). pose proof (Hn 20 4). lia.
Qed.

(** A file seen as header, body, checksum and the rest. *)
Lemma read_frame_chunks h b c rest parsed :
  length h = WALHeaderSize -> length c = WALCRCSize ->
  parseFileRegistryWALHeader h = Some (parsed, Z.of_nat (length b)) ->
  read_frame (h ++ b ++ c ++ rest) =
    if crc_Checksum (h ++ b) =? be_val c
    then match populateFileRegistryWALBody parsed b with
         | Some r => RRecord r (Z.of_nat (length (h ++ b ++ c))) rest
         | None => RTruncated
         end
    else RTruncated.
Proof.
  intros Hh Hc Hp. unfold read_frame.
  rewrite !bool_decide_eq_false_2; [|rewrite length_app; lia|by destruct h].
  rewrite (take_app_length' h), (drop_app_length' h), Hp, Nat2Z.id by done.
  rewrite bool_decide_eq_false_2 by (rewrite !length_app; lia).
  rewrite take_app_length, drop_app_length, (take_app_length' c) by done.
  destruct (_ =? _); [|done]. cbn [negb]. destruct (populateFileRegistryWALBody parsed b); [|done].
  rewrite (app_assoc b c rest), drop_app_length' by (rewrite length_app; lia).
  f_equal. rewrite !length_app. lia.
Qed.

Lemma read_frame_inv file r n rest :
  bytes_ok file -> read_frame file = RRecord r n rest ->
  exists h b c parsed, file = h ++ b ++ c ++ rest /\ length h = WALHeaderSize /\ length c = WALCRCSize /\
    parseFileRegistryWALHeader h = Some (parsed, Z.of_nat (length b)) /\
    n = Z.of_nat (length (h ++ b ++ c)) /\ crc_Checksum (h ++ b) = be_val c /\
    populateFileRegistryWALBody parsed b = Some r.
Proof.
  intros Hok H. pose proof H as H'. unfold read_frame in H'. repeat case_bool_decide; try done.
  destruct (parseFileRegistryWALHeader (take WALHeaderSize file)) as [[parsed len]|] eqn:Hparse; [|done].
  apply parse_len_nonneg in Hparse as Hlen; [|by apply Forall_take].
  case_bool_decide as Hshort; [done|]. clear H'.
  rewrite <- (take_drop WALHeaderSize file) in H |- *. set (f := drop WALHeaderSize file) in *.
  rewrite <- (take_drop (Z.to_nat len) f) in H |- *. set (g := drop (Z.to_nat len) f) in *.
  rewrite <- (take_drop WALCRCSize g) in H |- *.
  assert (length (take WALHeaderSize file) = WALHeaderSize) by (rewrite length_take; lia).
  assert (length (take (Z.to_nat len) f) = Z.to_nat len) as Hb by (rewrite length_take; lia).
  assert (length (take WALCRCSize g) = WALCRCSize) by (rewrite length_take; subst g; rewrite length_drop; lia).
  assert (Hp : parseFileRegistryWALHeader (take WALHeaderSize file) = Some (parsed, Z.of_nat (length (take (Z.to_nat len) f))))
    by (rewrite Hb, Z2Nat.id; done).
  rewrite (read_frame_chunks _ _ _ _ parsed) in H by done.
  destruct (Z.eqb_spec (crc_Checksum (take WALHeaderSize file ++ take (Z.to_nat len) f)) (be_val (take WALCRCSize g))) as [Hcrc|]; [|done].
  destruct (populateFileRegistryWALBody _ _) as [r'|] eqn:Hpop; [|done]. injection H as -> <- <-.
  by repeat eexists.
Qed.

(** What is read depends on the bytes of the frame alone. *)
Lemma read_frame_local file r n rest :
  bytes_ok file -> read_frame file = RRecord r n rest ->
  exists frame, file = frame ++ rest /\ Z.of_nat (length frame) = n /\ (WALHeaderSize <= length frame)%nat /\
    forall rest', read_frame (frame ++ rest') = RRecord r n rest'.
Proof.
  intros Hok (h & b & c & parsed & -> & Hh & Hc & Hp & -> & Hcrc & Hpop)%read_frame_inv; [|done].
  exists (h ++ b ++ c). split; [by rewrite <- !app_assoc|]. split; [done|]. split; [rewrite length_app; lia|].
  intros rest'. rewrite <- !app_assoc, (read_frame_chunks _ _ _ _ parsed) by done. by rewrite Hcrc, Z.eqb_refl, Hpop.
Qed.

Section Frame.
Context (now : Z) (r : WALRecord) (bs : list Z) (Hr : loggable r) (Ht : is_s 64 (stamp now r)).
Context (Hbs : encodeFileRegistryWALRecord now r = Some bs).

Lemma header_ok : bytes_ok (header_of now r).
Proof.
  unfold header_of. apply Forall_concat. unfold header_chunks.
  repeat (constructor; [auto with aegis; apply Forall_singleton; unfold is_byte; try done; apply wrapu_range; lia|]). constructor.
Qed.

Lemma body_ok : bytes_ok (body_of r).
Proof. destruct Hr. unfold body_of. rewrite !Forall_app. auto with aegis. Qed.

Lemma encode_ok : bytes_ok bs.
Proof.
  apply encode_bounds in Hbs as (_ & _ & _ & _ & ->). rewrite !Forall_app. split; [apply header_ok|]. split; [apply body_ok|apply be_bytes_ok].
Qed.

Lemma encode_length : Z.of_nat (length bs) = Z.of_nat WALHeaderSize + body_len r + Z.of_nat WALCRCSize.
Proof.
  apply encode_bounds in Hbs as (_ & _ & _ & _ & ->). rewrite !length_app, length_header, length_be_bytes, <- length_body. lia.
Qed.

(** A frame reads back as its record. *)
Lemma read_encoded rest : read_frame (bs ++ rest) = RRecord (framed now r) (Z.of_nat (length bs)) rest.
Proof.
  pose proof (parse_header _ _ _ Hr Ht Hbs) as Hp. rewrite <- length_body in Hp.
  pose proof Hbs as (_ & _ & _ & _ & E)%encode_bounds. rewrite E, <- !app_assoc, (read_frame_chunks _ _ _ _ (parsed_header now r));
    [|apply length_header | apply length_be_bytes | done].
  rewrite be_val_small, frame_body_split, Z.eqb_refl, populate_body, !app_assoc; [done|].
  rewrite frame_body_split. apply crc_Checksum_range, Forall_app. split; [apply header_ok|apply body_ok].
Qed.

(** A frame cut short is not read. *)
Lemma read_torn k : (k < length bs)%nat -> read_frame (take k bs) = if decide (k = 0%nat) then REnd else RTruncated.
Proof.
  intros Hk. unfold read_frame. case_decide as Hk0; [by subst|].
  assert (Hne : take k bs <> []) by (intros E%(f_equal length); rewrite length_take in E; simpl in E; lia).
  rewrite bool_decide_eq_false_2 by done. case_bool_decide as Hh; [done|]. rewrite length_take in Hh.
  pose proof Hbs as (_ & _ & _ & _ & E)%encode_bounds. pose proof encode_length as Hlen.
  rewrite take_take, Nat.min_l by lia. rewrite E at 1. rewrite (take_app_length' (header_of now r)) by by rewrite length_header.
  rewrite (parse_header _ _ _ Hr Ht Hbs), bool_decide_eq_true_2; [done|]. rewrite length_drop, length_take. lia.
Qed.
End Frame.

(** ** The frames of a file *)

Definition frame_for (frame : list Z) (r : WALRecord) : Prop :=
  frame <> [] /\ forall rest, read_frame (frame ++ rest) = RRecord r (Z.of_nat (length frame)) rest.

(** The file holds these records, followed by a tail that is not a frame. *)
Inductive scans : list Z -> list WALRecord -> list Z -> Prop :=
| scans_end tail : tail = [] \/ read_frame tail = RTruncated -> scans tail [] tail
| scans_frame frame r rest rs tail : frame_for frame r -> scans rest rs tail -> scans (frame ++ rest) (r :: rs) tail.

Lemma scans_total file : bytes_ok file -> exists rs tail, scans file rs tail.
Proof.
  remember (length file) as n eqn:Hn. revert file Hn. induction n as [n IH] using lt_wf_ind. intros file -> Hok.
  destruct (read_frame file) as [| |r n rest] eqn:Hread.
  - exists [], file. constructor. left. unfold read_frame in Hread. repeat case_bool_decide; try done.
    repeat (case_match; try done).
  - exists [], file. constructor. by right.
  - apply read_frame_local in Hread as (frame & -> & <- & Hlen & Hl); [|done]. apply Forall_app in Hok as [_ Hok].
    destruct (IH (length rest)) with (file := rest) as (rs & tail & Hs); [rewrite length_app; unfold WALHeaderSize in Hlen; lia | done | done |].
    exists (r :: rs), tail. constructor; [|done]. split; [|done]. intros ->. unfold WALHeaderSize in Hlen. simpl in Hlen. lia.
Qed.

(** The part before the tail can be continued with anything. *)
Lemma scans_prefix file rs tail :
  scans file rs tail -> exists good, file = good ++ tail /\
    forall file' rs' tail', scans file' rs' tail' -> scans (good ++ file') (rs ++ rs') tail'.
Proof.
  induction 1 as [tail Ht|frame r rest rs tail Hf _ (good & -> & Hgood)].
  - exists []. split; [done|]. done.
  - exists (frame ++ good). split; [by rewrite app_assoc|]. intros file' rs' tail' Hs. rewrite <- app_assoc. simpl.
    constructor; auto.
Qed.

Section Replays.
Context {S E : Type} (apply : WALRecord -> S -> option E * S).

(** Records applied in order, up to the first error. *)
Fixpoint apply_all (rs : list WALRecord) (s : S) : option E * S :=
  match rs with
  | [] => (None, s)
  | r :: rs => match apply r s with (Some e, s) => (Some e, s) | (None, s) => apply_all rs s end
  end.

Lemma apply_all_app rs1 rs2 s :
  apply_all (rs1 ++ rs2) s = match apply_all rs1 s with (Some e, s) => (Some e, s) | (None, s) => apply_all rs2 s end.
Proof. revert s. induction rs1 as [|r rs1 IH]; intros s; simpl; [done|]. by destruct (apply r s) as [[e|] s']. Qed.

Definition result_of (rs : list WALRecord) (valid : Z) (torn : bool) : ReplayResult :=
  {| validBytes := valid; truncated := torn; replayed := Z.of_nat (length rs) |}.

Lemma replay_loop_scans file rs tail fuel res s :
  scans file rs tail -> (length file < fuel)%nat ->
  exists res', replay_loop apply fuel file res s = Some ((apply_all rs s).1, res', (apply_all rs s).2) /\
    ((apply_all rs s).1 = None ->
     res' = {| validBytes := validBytes res + Z.of_nat (length file) - Z.of_nat (length tail);
               truncated := truncated res || bool_decide (tail <> []); replayed := replayed res + Z.of_nat (length rs) |}).
Proof.
  intros Hs. revert fuel res s. induction Hs as [tail Ht|frame r rest rs tail [Hne Hf] Hs IH]; intros fuel res s Hfuel.
  - destruct fuel as [|fuel]; [lia|]. cbn [replay_loop apply_all fst snd].
    destruct (decide (tail = [])) as [->|Hn].
    + exists res. split; [done|]. intros _. destruct res. cbn. rewrite orb_false_r. f_equal; lia.
    + destruct Ht as [|Ht]; [done|]; rewrite Ht. eexists. split; [done|]. intros _. cbn. rewrite bool_decide_eq_true_2, orb_true_r by done.
      f_equal; lia.
  - destruct fuel as [|fuel]; [lia|]. cbn [replay_loop apply_all]. rewrite Hf. destruct (apply r s) as [[e|] s'] eqn:Ha.
    + eexists. split; [done|]. done.
    + rewrite length_app in Hfuel. assert (length frame <> 0%nat) by by destruct frame.
      destruct (IH fuel {| validBytes := validBytes res + Z.of_nat (length frame); truncated := truncated res;
        replayed := replayed res + 1 |} s') as (res' & -> & Hres); [lia|].
      eexists. split; [done|]. intros He. rewrite (Hres He). cbn. f_equal; rewrite ?length_app; lia.
Qed.

Lemma replay_scans file rs tail s :
  scans file rs tail ->
  exists res, replayFileRegistryWAL apply (Some file) s = Some ((apply_all rs s).1, res, (apply_all rs s).2) /\
    ((apply_all rs s).1 = None ->
     res = result_of rs (Z.of_nat (length file) - Z.of_nat (length tail)) (bool_decide (tail <> []))).
Proof.
  intros Hs. unfold replayFileRegistryWAL.
  destruct (replay_loop_scans file rs tail (Datatypes.S (length file)) {| validBytes := 0; truncated := false; replayed := 0 |} s Hs)
    as (res & -> & Hres); [lia|].
  eexists. split; [done|]. intros He. rewrite (Hres He). done.
Qed.
End Replays.

(** ** Logs *)

(** Frames written by the registry: the clock and the record of each. *)
Definition written (e : Z * WALRecord) (bs : list Z) : Prop :=
  loggable e.2 /\ is_s 64 (stamp e.1 e.2) /\ encodeFileRegistryWALRecord e.1 e.2 = Some bs.

Definition as_read (e : Z * WALRecord) : WALRecord := framed e.1 e.2.

Lemma written_frame e bs : written e bs -> frame_for bs (as_read e).
Proof.
  destruct e as [now r]. intros (Hr & Ht & He). split; [|intros rest; by apply read_encoded].
  intros ->. apply encode_length in He. unfold body_len, WALHeaderSize, byte_len in He. simpl in He. lia.
Qed.

Lemma written_ok e bs : written e bs -> bytes_ok bs.
Proof. intros (Hr & Ht & He). by apply encode_ok in He. Qed.

Lemma written_scans es bss file rs tail :
  Forall2 written es bss -> scans file rs tail -> scans (concat bss ++ file) ((as_read <$> es) ++ rs) tail.
Proof.
  intros H Hs. induction H as [|e bs es bss He _ IH]; [done|]. simpl. rewrite <- app_assoc.
  constructor; [by apply written_frame | done].
Qed.

Lemma torn_scans e bs k : written e bs -> (k < length bs)%nat -> scans (take k bs) [] (take k bs).
Proof.
  intros (Hr & Ht & He) Hk. constructor. pose proof (read_torn _ _ _ Hr Ht He k Hk) as H. case_decide; [subst; by left | by right].
Qed.

(** ** Damage *)

Lemma crc_detects_insert l i x y :
  bytes_ok l -> is_byte y -> l !! i = Some x -> x <> y -> crc_Checksum (<[i := y]> l) <> crc_Checksum l.
Proof.
  intros Hl Hy Hi Hne E. rewrite insert_take_drop in E by by eapply lookup_lt_Some.
  rewrite <- (take_drop_middle l i x Hi) in E at 3. symmetry in E. revert E.
  apply crc_detects_byte; [by apply Forall_take | by apply Forall_drop | by apply (Forall_lookup_1 _ _ _ _ Hl Hi) | done | done].
Qed.

Lemma parse_len h parsed len :
  parseFileRegistryWALHeader h = Some (parsed, len) -> len = be_slice 14 2 h + be_slice 16 2 h + be_slice 18 2 h + be_slice 20 4 h.
Proof. unfold parseFileRegistryWALHeader. repeat (case_test; [done|]). by intros [= _ <-]. Qed.

Lemma slice_insert_outside off n i y l :
  (Z.of_nat i < off \/ off + n <= Z.of_nat i) -> 0 <= off -> 0 <= n -> slice off n (<[i := y]> l) = slice off n l.
Proof.
  intros Hi Ho Hn. unfold slice. apply list_eq. intros k. destruct (decide (k < Z.to_nat n)%nat).
  - rewrite !lookup_take_lt, !lookup_drop by done. rewrite list_lookup_insert_ne; [done|]. lia.
  - by rewrite !lookup_take_ge by lia.
Qed.

Lemma read_frame_bad_header h rest :
  length h = WALHeaderSize -> parseFileRegistryWALHeader h = None -> read_frame (h ++ rest) = RTruncated.
Proof.
  intros Hh Hp. unfold read_frame. rewrite !bool_decide_eq_false_2; [|rewrite length_app; lia|by destruct h].
  by rewrite (take_app_length' h), Hp.
Qed.

(** A byte of a frame, outside the length fields of the header, is overwritten. *)
Lemma read_damaged e bs i x y rest :
  written e bs -> bs !! i = Some x -> x <> y -> is_byte y -> (i < 14 \/ 24 <= i)%nat ->
  read_frame (<[i := y]> bs ++ rest) = RTruncated.
Proof.
  destruct e as [now r]. intros (Hr & Ht & He) Hi Hne Hy Hpos. cbn [fst snd] in *.
  pose proof (parse_header _ _ _ Hr Ht He) as Hp. rewrite <- length_body in Hp.
  pose proof (header_ok now r) as Hho. pose proof (body_ok r Hr) as Hbo.
  apply encode_bounds in He as (_ & _ & _ & _ & E). rewrite frame_body_split in E.
  pose proof (length_header now r) as Hh.
  set (h := header_of now r) in *. set (b := body_of r) in *. set (c := be_bytes WALCRCSize (crc_Checksum (h ++ b))) in *.
  assert (Hc : length c = WALCRCSize) by apply length_be_bytes.
  assert (Hcv : be_val c = crc_Checksum (h ++ b)) by (apply be_val_small, crc_Checksum_range, Forall_app; done).
  assert (Hhb : bytes_ok (h ++ b)) by by apply Forall_app.
  subst bs. destruct (decide (i < length h)%nat) as [Hih|Hih].
  - rewrite lookup_app_l in Hi by done. rewrite insert_app_l, <- !app_assoc by done.
    destruct (parseFileRegistryWALHeader (<[i := y]> h)) as [[parsed len]|] eqn:Hp';
      [|apply read_frame_bad_header; [by rewrite length_insert|done]].
    assert (len = Z.of_nat (length b)) as ->.
    { apply parse_len in Hp'. apply parse_len in Hp. unfold be_slice in *. rewrite !slice_insert_outside in Hp' by lia. congruence. }
    rewrite (read_frame_chunks _ _ _ _ parsed) by (rewrite ?length_insert; done).
    rewrite Hcv, <- insert_app_l by done.
    destruct (Z.eqb_spec (crc_Checksum (<[i:=y]> (h ++ b))) (crc_Checksum (h ++ b))) as [Heq|]; [|done].
    exfalso. revert Heq. apply (crc_detects_insert _ _ x); try done. by rewrite lookup_app_l.
  - destruct (decide (i < length (h ++ b))%nat) as [Hib|Hib].
    + rewrite insert_app_r_alt, insert_app_l, <- !app_assoc by (rewrite length_app in Hib; lia).
      rewrite (read_frame_chunks _ _ _ _ (parsed_header now r)) by (rewrite ?length_insert; done).
      rewrite Hcv, <- insert_app_r_alt by lia.
      destruct (Z.eqb_spec (crc_Checksum (<[i:=y]> (h ++ b))) (crc_Checksum (h ++ b))) as [Heq|]; [|done].
      exfalso. revert Heq. apply (crc_detects_insert _ _ x); try done. rewrite app_assoc, lookup_app_l in Hi; done.
    + rewrite (app_assoc h b c), insert_app_r_alt, <- !app_assoc by lia.
      rewrite (read_frame_chunks _ _ _ _ (parsed_header now r)) by (rewrite ?length_insert; done).
      destruct (Z.eqb_spec (crc_Checksum (h ++ b)) (be_val (<[(i - length (h ++ b))%nat := y]> c))) as [Heq|]; [|done].
      exfalso. rewrite <- Hcv in Heq. pose proof (be_bytes_ok WALCRCSize (crc_Checksum (h ++ b))).
      apply be_val_inj in Heq; [|done|by apply Forall_insert|by rewrite length_insert].
      rewrite app_assoc, lookup_app_r in Hi by lia.
      apply lookup_lt_Some in Hi as Hk. rewrite Heq, list_lookup_insert_eq in Hi by done. congruence.
Qed.

(** ** The guarantees *)

(** A log with two frames, for the witnesses. *)
Definition demo_entry (ttl : Z) : Z * WALRecord := (0, newHeartbeatWALRecord "svc" "a" ttl 100).
Definition demo_frame (ttl : Z) : list Z :=
  default [] (encodeFileRegistryWALRecord (demo_entry ttl).1 (demo_entry ttl).2).
Definition demo_apply (r : WALRecord) (s : list Z) : option unit * list Z := (None, s ++ [w_ttl r]).

Lemma demo_written ttl : 0 < ttl < 2 ^ 63 -> written (demo_entry ttl) (demo_frame ttl).
Proof.
  intros Ht. split; [|split; [done|]].
  - split; [constructor|]. right. left. cbn. repeat split; try done; lia.
  - unfold demo_frame, encodeFileRegistryWALRecord. by case_test.
Qed.

Lemma demo_log : Forall2 written [demo_entry 5; demo_entry 6] [demo_frame 5; demo_frame 6].
Proof. repeat (constructor; [apply demo_written; lia|]). constructor. Qed.

(**  Whatever records the registry has appended, replaying the log applies
    exactly those records, in order, even if the last write was cut short at any
    byte: the replay ends, the torn frame is reported and left out, and the
    position reported is where it starts. *)
Theorem log_replays {S E} (apply : WALRecord -> S -> option E * S) es bss e bs k s :
  Forall2 written es bss -> written e bs -> (k < length bs)%nat ->
  exists res, replayFileRegistryWAL apply (Some (concat bss ++ take k bs)) s =
      Some ((apply_all apply (as_read <$> es) s).1, res, (apply_all apply (as_read <$> es) s).2) /\
    ((apply_all apply (as_read <$> es) s).1 = None ->
     res = {| validBytes := Z.of_nat (length (concat bss)); truncated := bool_decide (k <> 0%nat);
              replayed := Z.of_nat (length es) |}).
Proof.
  intros Hes He Hk. pose proof (written_scans _ _ _ _ _ Hes (torn_scans _ _ _ He Hk)) as Hs. rewrite app_nil_r in Hs.
  destruct (replay_scans apply _ _ _ s Hs) as (res & -> & Hres). exists res. split; [done|]. intros Hn. rewrite (Hres Hn).
  unfold result_of. rewrite length_app, length_fmap. f_equal; [lia|].
  apply bool_decide_ext. rewrite <- length_zero_iff_nil, length_take. lia.
Qed.

Lemma log_replays_witness :
  exists res, replayFileRegistryWAL demo_apply (Some (concat [demo_frame 5; demo_frame 6] ++ take 17 (demo_frame 7))) [] =
    Some (None, res, [5; 6]) /\ validBytes res = 80 /\ truncated res = true /\ replayed res = 2.
Proof.
  destruct (log_replays demo_apply [demo_entry 5; demo_entry 6] [demo_frame 5; demo_frame 6] (demo_entry 7) (demo_frame 7) 17 []
    demo_log) as (res & Hrun & Hres); [apply demo_written; lia | apply (bool_decide_eq_true_1 _); vm_compute; reflexivity|].
  exists res. split; [exact Hrun|]. rewrite (Hres eq_refl). repeat split; vm_compute; reflexivity.
Defined.

(** C27.  For every content of the log file, the replay ends, and if it succeeds the
    log cut at the position it reports replays to the same state with nothing left
    over; records appended after the cut are replayed after the old ones. *)
Theorem recovered_log_is_clean {S E} (apply : WALRecord -> S -> option E * S) file s :
  bytes_ok file ->
  exists e res s', replayFileRegistryWAL apply (Some file) s = Some (e, res, s') /\
    (e = None ->
     0 <= validBytes res <= Z.of_nat (length file) /\
     (truncated res = false <-> validBytes res = Z.of_nat (length file)) /\
     forall es bss, Forall2 written es bss ->
       exists res', replayFileRegistryWAL apply (Some (take (Z.to_nat (validBytes res)) file ++ concat bss)) s =
           Some ((apply_all apply (as_read <$> es) s').1, res', (apply_all apply (as_read <$> es) s').2) /\
         ((apply_all apply (as_read <$> es) s').1 = None ->
          truncated res' = false /\ replayed res' = replayed res + Z.of_nat (length es))).
Proof.
  intros Hok. destruct (scans_total file Hok) as (rs & tail & Hs).
  destruct (replay_scans apply _ _ _ s Hs) as (res & Hrun & Hres). do 3 eexists. split; [exact Hrun|].
  intros Hn. specialize (Hres Hn). subst res. destruct (scans_prefix _ _ _ Hs) as (good & -> & Hgood).
  unfold result_of. cbn. rewrite length_app. replace (Z.of_nat (length good + length tail) - Z.of_nat (length tail)) with
    (Z.of_nat (length good)) by lia. split; [lia|]. split.
  - rewrite bool_decide_eq_false. destruct tail; simpl; [split; [lia|by intros _ []]|]. split; [|lia]. intros H. by destruct H.
  - intros es bss Hes. rewrite Nat2Z.id, take_app_length.
    pose proof (written_scans _ _ _ _ _ Hes (scans_end [] (or_introl eq_refl))) as Hs'. rewrite !app_nil_r in Hs'.
    destruct (replay_scans apply _ _ _ s (Hgood _ _ _ Hs')) as (res' & Hrun' & Hres').
    rewrite apply_all_app in Hrun', Hres'. destruct (apply_all apply rs s) as [e0 s0]. simpl in Hn. subst e0. cbn [snd].
    exists res'. split; [exact Hrun'|]. intros Hn'. rewrite (Hres' Hn'). unfold result_of. cbn.
    rewrite length_app, length_fmap. split; [done|lia].
Qed.

Lemma recovered_log_is_clean_witness :
  exists e res s', replayFileRegistryWAL demo_apply (Some (demo_frame 5 ++ [65; 71; 82])) [] = Some (e, res, s') /\
    e = None /\ validBytes res = 40 /\ truncated res = true /\
    exists res', replayFileRegistryWAL demo_apply (Some (take 40 (demo_frame 5 ++ [65; 71; 82]) ++ demo_frame 6)) [] =
      Some (None, res', [5; 6]) /\ truncated res' = false.
Proof.
  destruct (recovered_log_is_clean demo_apply (demo_frame 5 ++ [65; 71; 82]) []) as (e & res & s' & Hrun & H).
  { apply (bool_decide_eq_true_1 _). vm_compute. reflexivity. }
  exists e, res, s'. split; [done|]. vm_compute in Hrun. injection Hrun as <- <- <-. split; [done|]. split; [done|]. split; [done|].
  destruct (H eq_refl) as (_ & _ & Happ). destruct (Happ [demo_entry 6] [demo_frame 6]) as (res' & Hrun' & Hres').
  { constructor; [apply demo_written; lia|constructor]. }
  exists res'. split; [exact Hrun'|]. by destruct (Hres' eq_refl).
Defined.

(**  Overwriting one byte of a frame, anywhere but in its length fields, stops
    the replay in front of that frame: the records before it are applied, and
    neither it nor anything after it is. *)
Theorem damaged_frame_stops_replay {S E} (apply : WALRecord -> S -> option E * S) es bss e bs i x y rest s :
  Forall2 written es bss -> written e bs -> bs !! i = Some x -> x <> y -> is_byte y -> (i < 14 \/ 24 <= i)%nat ->
  exists res, replayFileRegistryWAL apply (Some (concat bss ++ <[i := y]> bs ++ rest)) s =
      Some ((apply_all apply (as_read <$> es) s).1, res, (apply_all apply (as_read <$> es) s).2) /\
    ((apply_all apply (as_read <$> es) s).1 = None ->
     res = {| validBytes := Z.of_nat (length (concat bss)); truncated := true; replayed := Z.of_nat (length es) |}).
Proof.
  intros Hes He Hi Hne Hy Hpos.
  assert (Hend : scans (<[i := y]> bs ++ rest) [] (<[i := y]> bs ++ rest))
    by (constructor; right; by apply (read_damaged e bs i x)).
  pose proof (written_scans _ _ _ _ _ Hes Hend) as Hs. rewrite app_nil_r in Hs.
  destruct (replay_scans apply _ _ _ s Hs) as (res & -> & Hres). exists res. split; [done|]. intros Hn. rewrite (Hres Hn).
  unfold result_of. rewrite length_app, length_fmap. f_equal; [lia|]. apply bool_decide_eq_true_2.
  intros [E0%(f_equal length) _]%app_eq_nil. rewrite length_insert in E0. by destruct bs.
Qed.

Lemma damaged_frame_stops_replay_witness :
  exists res, replayFileRegistryWAL demo_apply (Some (concat [demo_frame 5] ++ <[32%nat := 116]> (demo_frame 6) ++ demo_frame 7)) [] =
    Some (None, res, [5]) /\ validBytes res = 40 /\ truncated res = true /\ replayed res = 1.
Proof.
  destruct (damaged_frame_stops_replay demo_apply [demo_entry 5] [demo_frame 5] (demo_entry 6) (demo_frame 6) 32 115 116
    (demo_frame 7) []) as (res & Hrun & Hres); [constructor; [apply demo_written; lia|constructor] | apply demo_written; lia | reflexivity | done | done | lia |].
  exists res. split; [exact Hrun|]. rewrite (Hres eq_refl). repeat split; vm_compute; reflexivity.
Defined.
