(* ===== verification/WalWriter.v ===== *)
(** * The writer goroutine of the log ([pkg/registry/file_registry_v2.go])

    [run] serves the requests to the log one by one: it writes frames through a
    buffer, groups them into flushes, and acknowledges them before or after the
    flush depending on the mode.  Every call of the operating system can fail: its
    outcomes are an argument. *)
From S2P Require Import Prelude GoStd.

(** ** The file and its buffer *)

(** The outcome of one call: success, or failure after that many bytes. *)
Abbreviation outcome := (option nat).

(** [content] is what other processes read; the first [synced] bytes of it survive
    the machine.  [opened] is whether the handle is usable.  [buf] and [werr] are
    the [bufio.Writer]; [calls] are the outcomes of the coming calls, all
    successful once the list is used up. *)
Record wio := { content : list Z; synced : nat; opened : bool; buf : list Z; werr : bool; calls : list outcome }.

Definition next_call (io : wio) : outcome * list outcome :=
  match calls io with [] => (None, []) | o :: rest => (o, rest) end.

(** [os.File.Write]: how many bytes were written and whether it failed. *)
Definition file_Write (p : list Z) (io : wio) : nat * bool * wio :=
  let '(o, rest) := next_call io in
  let n := if opened io then match o with None => length p | Some n => Nat.min n (length p) end else 0%nat in
  let failed := negb (opened io) || bool_decide (o <> None) in
  (n, failed, {| content := content io ++ take n p; synced := synced io; opened := opened io; buf := buf io;
                 werr := werr io; calls := rest |}).

(** [os.File.Sync] *)
Definition file_Sync (io : wio) : bool * wio :=
  let '(o, rest) := next_call io in
  let failed := negb (opened io) || bool_decide (o <> None) in
  (failed, {| content := content io; synced := if failed then synced io else length (content io); opened := opened io;
              buf := buf io; werr := werr io; calls := rest |}).

(** [os.File.Close] *)
Definition file_Close (io : wio) : bool * wio :=
  let '(o, rest) := next_call io in
  (negb (opened io) || bool_decide (o <> None),
   {| content := content io; synced := synced io; opened := false; buf := buf io; werr := werr io; calls := rest |}).

(** [os.OpenFile] with [O_TRUNC]: the handle is replaced even by a failure. *)
Definition file_Reopen (io : wio) : bool * wio :=
  let '(o, rest) := next_call io in
  let failed := bool_decide (o <> None) in
  (failed, {| content := if failed then content io else []; synced := if failed then synced io else 0%nat;
              opened := negb failed; buf := buf io; werr := werr io; calls := rest |}).

Definition bufferSize : Z := 64 * 1024.

Definition Available (io : wio) : Z := bufferSize - Z.of_nat (length (buf io)).

Definition set_buf (b : list Z) (e : bool) (io : wio) : wio :=
  {| content := content io; synced := synced io; opened := opened io; buf := b; werr := e; calls := calls io |}.

(** [bufio.Writer.Flush]; the result is whether it failed. *)
Definition Flush (io : wio) : bool * wio :=
  if werr io then (true, io)
  else if bool_decide (buf io = []) then (false, io)
  else
    let '(n, failed, io') := file_Write (buf io) io in
    if failed then (true, set_buf (drop n (buf io)) true io') else (false, set_buf [] false io').

(** [bufio.Writer.Write]: at most a partly filled buffer is completed and flushed,
    the rest is written directly if it is larger than the buffer, and what remains
    is buffered; three turns are enough. *)
Fixpoint Write_loop (fuel : nat) (p : list Z) (io : wio) : list Z * wio :=
  match fuel with
  | O => (p, io)
  | S fuel =>
      if (Z.of_nat (length p) <=? Available io) || werr io then (p, io)
      else if bool_decide (buf io = []) then
        let '(n, failed, io') := file_Write p io in Write_loop fuel (drop n p) (set_buf (buf io') failed io')
      else
        let n := Z.to_nat (Available io) in
        Write_loop fuel (drop n p) (Flush (set_buf (buf io ++ take n p) (werr io) io)).2
  end.

Definition Write (p : list Z) (io : wio) : bool * wio :=
  let '(p, io) := Write_loop 3 p io in
  if werr io then (true, io) else (false, set_buf (buf io ++ p) (werr io) io).

(** ** The goroutine *)

Inductive FileRegistrySyncMode := SyncAlways | SyncBatch.

Record walConfig := { syncMode : FileRegistrySyncMode; flushRecords : Z; flushBytes : Z }.

#[export] Instance mode_eq_dec : EqDecision FileRegistrySyncMode.
Proof. solve_decision. Defined.

(** The variables of [run], and [size]; acknowledgement channels are numbers. *)
Record walState := {
  io : wio; size : Z; pendingAcks : list nat; pendingRecords : Z; pendingBytes : Z; fatalErr : bool; running : bool }.

Inductive request := RAppend (ack : nat) (data : list Z) | RReset (ack : nat) (data : list Z) | RClose (ack : nat) | RTick.

Section Run.
Context (cfg : walConfig).

(** [flush(true)] *)
Definition flush (w : walState) : bool * walState :=
  let '(failed, io1) := if bool_decide (buf (io w) = []) then (false, io w) else Flush (io w) in
  if failed
  then (true, {| io := io1; size := size w; pendingAcks := pendingAcks w; pendingRecords := pendingRecords w;
                 pendingBytes := pendingBytes w; fatalErr := fatalErr w; running := running w |})
  else
    let '(failed, io2) := file_Sync io1 in
    (failed, {| io := io2; size := size w; pendingAcks := pendingAcks w;
                pendingRecords := if failed then pendingRecords w else 0;
                pendingBytes := if failed then pendingBytes w else 0; fatalErr := fatalErr w; running := running w |}).

(** [ackPending]: the acknowledgements sent, [true] for success. *)
Definition ackPending (failed : bool) (w : walState) : list (nat * bool) * walState :=
  ((fun ack => (ack, negb failed)) <$> pendingAcks w,
   {| io := io w; size := size w; pendingAcks := []; pendingRecords := pendingRecords w; pendingBytes := pendingBytes w;
      fatalErr := fatalErr w; running := running w |}).

Definition set_fatal (failed : bool) (w : walState) : walState :=
  {| io := io w; size := size w; pendingAcks := pendingAcks w; pendingRecords := pendingRecords w;
     pendingBytes := pendingBytes w; fatalErr := failed || fatalErr w; running := running w |}.

Definition set_io (x : wio) (w : walState) : walState :=
  {| io := x; size := size w; pendingAcks := pendingAcks w; pendingRecords := pendingRecords w;
     pendingBytes := pendingBytes w; fatalErr := fatalErr w; running := running w |}.

Definition set_size (n : Z) (w : walState) : walState :=
  {| io := io w; size := n; pendingAcks := pendingAcks w; pendingRecords := pendingRecords w;
     pendingBytes := pendingBytes w; fatalErr := fatalErr w; running := running w |}.

Definition shouldFlush (w : walState) : bool :=
  (flushRecords cfg <=? pendingRecords w) || (flushBytes cfg <=? pendingBytes w).

Definition run_append (ack : nat) (data : list Z) (w : walState) : list (nat * bool) * walState :=
  if fatalErr w then ([(ack, false)], w)
  else
    let '(failed, io1) := Write data (io w) in
    if failed then ([(ack, false)], set_fatal true (set_io io1 w))
    else
      let batch := bool_decide (syncMode cfg = SyncBatch) in
      let n := Z.of_nat (length data) in
      let w := {| io := io1; size := size w + n; pendingAcks := if batch then pendingAcks w else pendingAcks w ++ [ack];
                  pendingRecords := pendingRecords w + 1; pendingBytes := pendingBytes w + n; fatalErr := fatalErr w;
                  running := running w |} in
      let now_acks := if batch then [(ack, true)] else [] in
      if bool_decide (syncMode cfg = SyncAlways) || shouldFlush w then
        let '(failed, w) := flush w in
        let '(acks, w) := ackPending failed (set_fatal failed w) in (now_acks ++ acks, w)
      else (now_acks, w).

Definition run_reset (ack : nat) (data : list Z) (w : walState) : list (nat * bool) * walState :=
  let '(failed, w) := flush w in
  let '(acks, w) := ackPending failed w in
  let '(failed, w) := if failed then (true, w) else let '(failed, x) := file_Close (io w) in (failed, set_io x w) in
  let '(failed, w) := if failed then (true, w) else let '(failed, x) := file_Reopen (io w) in (failed, set_io x w) in
  let '(failed, w) :=
    if failed then (true, w)
    else let '(failed, x) := Write data (set_buf [] false (io w)) in (failed, set_size 0 (set_io x w)) in
  let '(failed, w) := if failed then (true, w) else flush (set_size (size w + Z.of_nat (length data)) w) in
  (acks ++ [(ack, negb failed)], set_fatal failed w).

Definition run_close (ack : nat) (w : walState) : list (nat * bool) * walState :=
  let '(failed, w) := flush w in
  let '(acks, w) := ackPending failed w in
  let '(closeFailed, x) := file_Close (io w) in
  (acks ++ [(ack, negb (failed || closeFailed))],
   {| io := x; size := size w; pendingAcks := pendingAcks w; pendingRecords := pendingRecords w;
      pendingBytes := pendingBytes w; fatalErr := fatalErr w; running := false |}).

Definition run_tick (w : walState) : list (nat * bool) * walState :=
  if (pendingRecords w =? 0) && bool_decide (buf (io w) = []) then ([], w)
  else let '(failed, w) := flush w in ackPending failed (set_fatal failed w).

(** One turn of the loop of [run]: the acknowledgements it sends. *)
Definition run_step (q : request) (w : walState) : list (nat * bool) * walState :=
  if running w then
    match q with
    | RAppend ack data => run_append ack data w
    | RReset ack data => run_reset ack data w
    | RClose ack => run_close ack w
    | RTick => run_tick w
    end
  else ([], w).

Fixpoint run (qs : list request) (w : walState) : list (nat * bool) * walState :=
  match qs with
  | [] => ([], w)
  | q :: qs => let '(acks, w) := run_step q w in let '(acks', w) := run qs w in (acks ++ acks', w)
  end.
End Run.

(** [openFileRegistryWAL]: a log with this content, of which [durable] bytes are
    known to be on disk, on a file whose calls have these outcomes. *)
Definition openFileRegistryWAL (base : list Z) (durable : nat) (outcomes : list outcome) : walState :=
  {| io := {| content := base; synced := durable; opened := true; buf := []; werr := false; calls := outcomes |};
     size := Z.of_nat (length base); pendingAcks := []; pendingRecords := 0; pendingBytes := 0; fatalErr := false;
     running := true |}.
