(* ===== verification/WalCrash.v ===== *)
(** * What survives a crash of the file registry

    The writer of the log keeps the file a prefix of the frames it has been given.
    In the mode [always] every acknowledged frame is on disk; in the mode [batch]
    the frames that can be lost are at most a group.  With the guarantees of the
    replay, this says which records a restart recovers. *)
From Stdlib Require Import String.
From S2P Require Import Prelude GoStd GoBytes Wal WalSpec WalWriter.

(** ** The buffer *)

(** [p] was accepted: it is in the file or in the buffer, after what was there. *)
Record buffered (x y : wio) (p : list Z) : Prop := {
  buffered_all : content y ++ buf y = content x ++ buf x ++ p;
  buffered_grows : content x `prefix_of` content y;
  buffered_synced : synced y = synced x;
  buffered_opened : opened y = opened x;
  buffered_err : werr y = false;
  buffered_fits : Z.of_nat (length (buf y)) <= bufferSize
}.

(** Writing [p] failed: the file ends somewhere in it. *)
Record failing (x y : wio) (p : list Z) : Prop := {
  failing_grows : content x `prefix_of` content y;
  failing_within : content y `prefix_of` content x ++ buf x ++ p;
  failing_synced : synced y = synced x;
  failing_err : werr y = true
}.

Definition attempted (x y : wio) (p : list Z) (failed : bool) : Prop :=
  if failed then failing x y p else buffered x y p.

Lemma prefix_app_take {A} (l p : list A) n : l ++ take n p `prefix_of` l ++ p.
Proof. apply prefix_app. exists (drop n p). by rewrite take_drop. Qed.

Lemma file_Write_spec p x n failed y :
  file_Write p x = (n, failed, y) ->
  content y = content x ++ take n p /\ synced y = synced x /\ opened y = opened x /\ buf y = buf x /\ werr y = werr x /\
  (failed = false -> take n p = p /\ drop n p = []).
Proof.
  unfold file_Write. destruct (next_call x) as [o rest]. intros [= <- <- <-]. cbn. do 5 (split; [done|]).
  intros [Ho Ho']%orb_false_iff. apply negb_false_iff in Ho. apply bool_decide_eq_false in Ho'. rewrite Ho.
  destruct o; [destruct Ho'; congruence|]. split; [apply take_ge; lia | apply drop_ge; lia].
Qed.

Lemma Flush_spec x :
  werr x = false -> attempted x (Flush x).2 [] (Flush x).1 /\ ((Flush x).1 = false -> buf (Flush x).2 = []).
Proof.
  intros He. unfold Flush. rewrite He. case_bool_decide as Hb.
  - split; [|done]. constructor; cbn; try done; [by rewrite app_nil_r | by rewrite Hb].
  - destruct (file_Write (buf x) x) as [[n failed] y] eqn:E. apply file_Write_spec in E as (Hc & Hs & Ho & _ & _ & Hf).
    destruct failed; cbn; (split; [|done]).
    + constructor; cbn; rewrite ?Hc, ?Hs, ?app_nil_r; try done; [by exists (take n (buf x)) | apply prefix_app_take].
    + destruct Hf as [Ht _]; [done|]. constructor; cbn; rewrite ?Hc, ?Ht, ?app_nil_r; try done. by eexists.
Qed.

(** Two attempts in a row. *)
Lemma attempted_app x y z p q :
  buffered x y p -> forall failed, attempted y z q failed -> attempted x z (p ++ q) failed.
Proof.
  intros [Ha Hg Hs Ho He Hf] [|].
  - intros [Hg' Hw' Hs' He']. constructor; [by trans (content y) | | congruence | done].
    etrans; [done|]. rewrite (app_assoc (content y)), Ha, <- !app_assoc. done.
  - intros [Ha' Hg' Hs' Ho' He' Hf']. constructor; [|by trans (content y)|congruence|congruence|done|done].
    rewrite Ha', (app_assoc (content y)), Ha, <- !app_assoc. done.
Qed.

(** How far the loop of [Write] got. *)
Definition looped (x : wio) (p : list Z) (r : list Z * wio) : Prop :=
  if werr r.2 then failing x r.2 p
  else exists c, p = c ++ r.1 /\ buffered x r.2 c /\ Z.of_nat (length r.1) <= Available r.2.

Lemma looped_exit fuel x p :
  werr x = false -> Z.of_nat (length (buf x)) <= bufferSize -> Z.of_nat (length p) <= Available x ->
  looped x p (Write_loop (S fuel) p x).
Proof.
  intros He Hb Hp. cbn [Write_loop]. rewrite (proj2 (Z.leb_le _ _)) by done. unfold looped. cbn. rewrite He.
  exists []. split; [done|]. split; [|done]. constructor; rewrite ?app_nil_r; done.
Qed.

Lemma Write_loop_empty fuel p x : werr x = false -> buf x = [] -> looped x p (Write_loop (S (S fuel)) p x).
Proof.
  intros He Hb. destruct (decide (Z.of_nat (length p) <= Available x)) as [Hp|Hp].
  { apply looped_exit; [done | by rewrite Hb | done]. }
  remember (S fuel) as fuel' eqn:Hf. cbn [Write_loop]. rewrite (proj2 (Z.leb_gt _ _)), He by lia. cbn [orb].
  rewrite bool_decide_eq_true_2 by done. destruct (file_Write p x) as [[n failed] y] eqn:E.
  apply file_Write_spec in E as (Hc & Hs & Ho & Hbf & _ & Hok). subst fuel'. cbn [Write_loop]. destruct failed.
  - rewrite orb_true_r. unfold looped. cbn. constructor; cbn; rewrite ?Hc, ?Hb; try done; [by eexists | apply prefix_app_take].
  - destruct Hok as [Ht Hd]; [done|]. rewrite Hd, (proj2 (Z.leb_le _ _)) by (unfold Available; cbn; rewrite Hbf, Hb; done). cbn [orb]. unfold looped. cbn.
    exists p. rewrite app_nil_r. split; [done|]. split; [|unfold Available; cbn; rewrite Hbf, Hb; done].
    constructor; cbn; rewrite ?Hc, ?Ht, ?Hbf, ?Hb, ?app_nil_r; try done. by eexists.
Qed.

Lemma Write_loop_spec p x : werr x = false -> Z.of_nat (length (buf x)) <= bufferSize -> looped x p (Write_loop 3 p x).
Proof.
  intros He Hb. destruct (decide (buf x = [])) as [Hn|Hn]; [by apply Write_loop_empty|].
  destruct (decide (Z.of_nat (length p) <= Available x)) as [Hp|Hp]; [by apply looped_exit|].
  remember 2%nat as fuel eqn:Hf. cbn [Write_loop]. rewrite (proj2 (Z.leb_gt _ _)), He by lia. cbn [orb].
  rewrite bool_decide_eq_false_2 by done. set (n := Z.to_nat (Available x)).
  set (x1 := set_buf (buf x ++ take n p) false x).
  destruct (Flush_spec x1) as [Hfl Hbuf]; [done|]. destruct (Flush x1) as [failed y]. cbn [fst snd] in *. destruct failed.
  - destruct Hfl as [Hg Hw Hs Hy]. subst fuel. cbn [Write_loop]. rewrite Hy, orb_true_r. unfold looped. cbn. rewrite Hy.
    constructor; try done. etrans; [done|]. cbn. rewrite app_nil_r. do 2 apply prefix_app. exists (drop n p). by rewrite take_drop.
  - destruct Hfl as [Ha Hg Hs Ho Hy Hfit]. cbn in *. rewrite app_nil_r in Ha.
    assert (Hxy : buffered x y (take n p)) by (constructor; done).
    subst fuel. pose proof (Write_loop_empty 0 (drop n p) y Hy (Hbuf eq_refl)) as Hl. unfold looped in *.
    destruct (Write_loop 2 (drop n p) y) as [q z]. cbn [fst snd] in *. destruct (werr z).
    + rewrite <- (take_drop n p). apply (attempted_app x y z _ _ Hxy true). done.
    + destruct Hl as (c & Hc & Hyz & Hq). exists (take n p ++ c). rewrite <- app_assoc, <- Hc, take_drop.
      split; [done|]. split; [|done]. by apply (attempted_app x y z _ _ Hxy false).
Qed.

Lemma Write_spec p x :
  werr x = false -> Z.of_nat (length (buf x)) <= bufferSize -> attempted x (Write p x).2 p (Write p x).1.
Proof.
  intros He Hb. unfold Write. pose proof (Write_loop_spec p x He Hb) as Hl. unfold looped in Hl.
  destruct (Write_loop 3 p x) as [q y]. cbn [fst snd] in *. destruct (werr y) eqn:Hy; [done|].
  destruct Hl as (c & -> & Hxy & Hq). cbn. apply (attempted_app x y _ c q Hxy false). destruct Hxy.
  constructor; cbn; try done; unfold Available in Hq; rewrite length_app; lia.
Qed.

(** ** Flushing *)

Lemma file_Sync_spec x failed y :
  file_Sync x = (failed, y) ->
  content y = content x /\ buf y = buf x /\ werr y = werr x /\ opened y = opened x /\
  synced y = if failed then synced x else length (content x).
Proof. unfold file_Sync. destruct (next_call x) as [o rest]. by intros [= <- <-]. Qed.

(** The parts of the state a flush leaves alone. *)
Definition same_run (w w' : walState) : Prop :=
  size w' = size w /\ pendingAcks w' = pendingAcks w /\ fatalErr w' = fatalErr w /\ running w' = running w.

Lemma flush_spec w failed w' :
  werr (io w) = false -> (synced (io w) <= length (content (io w)))%nat -> flush w = (failed, w') ->
  same_run w w' /\ (synced (io w') <= length (content (io w')))%nat /\
  if failed
  then content (io w) `prefix_of` content (io w') /\ content (io w') `prefix_of` content (io w) ++ buf (io w) /\
       synced (io w') = synced (io w) /\ (werr (io w') = true \/ buf (io w') = [])
  else content (io w') = content (io w) ++ buf (io w) /\ buf (io w') = [] /\ werr (io w') = false /\
       opened (io w') = opened (io w) /\ synced (io w') = length (content (io w')) /\ pendingRecords w' = 0 /\ pendingBytes w' = 0.
Proof.
  intros He Hsy. unfold flush.
  set (fl := if bool_decide (buf (io w) = []) then (false, io w) else Flush (io w)).
  assert (Hfl : attempted (io w) fl.2 [] fl.1 /\ (fl.1 = false -> buf fl.2 = [])).
  { subst fl. case_bool_decide as Hb; [|by apply Flush_spec]. split; [|done].
    constructor; cbn; rewrite ?app_nil_r, ?Hb; done. }
  destruct fl as [failed1 io1]. cbn [fst snd] in Hfl. destruct Hfl as [Hfl Hbuf]. destruct failed1.
  - intros [= <- <-]. destruct Hfl as [Hg Hw Hs Hy]. rewrite app_nil_r in Hw. split; [done|]. cbn.
    apply prefix_length in Hg as Hlen. split; [lia|]. auto.
  - destruct Hfl as [Ha Hg Hs Ho Hy _]. specialize (Hbuf eq_refl). rewrite Hbuf, !app_nil_r in Ha.
    destruct (file_Sync io1) as [failed2 io2] eqn:E. apply file_Sync_spec in E as (Hc2 & Hb2 & He2 & Ho2 & Hs2).
    intros [= <- <-]. split; [done|]. cbn. apply prefix_length in Hg as Hlen. destruct failed2.
    + rewrite Hc2, Hs2, Hb2, Hs. split; [lia|]. split; [done|]. split; [by rewrite Ha|]. auto.
    + rewrite Hc2, Hs2, Hb2, He2, Ho2. split; [lia|]. repeat split; done.
Qed.

(** ** The log while it works and after it failed *)

Section Writer.
Context (cfg : walConfig) (base : list Z) (durable : nat) (Hdur : (durable <= length base)%nat).

(** How many acknowledged frames can be missing from the disk. *)
Definition slack : Z := match syncMode cfg with SyncAlways => 0 | SyncBatch => flushRecords cfg end.

Definition on_disk (old : list (list Z)) (x : wio) : Prop :=
  ((if decide (old = []) then durable else length (base ++ concat old)) <= synced x)%nat.

Record good (all : list (list Z)) (w : walState) : Prop := {
  good_all : content (io w) ++ buf (io w) = base ++ concat all;
  good_base : base `prefix_of` content (io w);
  good_synced : (synced (io w) <= length (content (io w)))%nat;
  good_err : werr (io w) = false;
  good_fits : Z.of_nat (length (buf (io w))) <= bufferSize;
  good_fatal : fatalErr w = false;
  good_acks : pendingAcks w = [];
  good_running : running w = true;
  good_group : exists old recent, all = old ++ recent /\ on_disk old (io w) /\
    pendingRecords w = Z.of_nat (length recent) /\ pendingBytes w = Z.of_nat (length (concat recent)) /\
    (recent = [] \/ Z.of_nat (length recent) < slack)
}.

(** What the file holds: [extra] is a frame that was refused, of which a part may
    have been written. *)
Record kept (all : list (list Z)) (extra : list Z) (w : walState) : Prop := {
  kept_base : base `prefix_of` content (io w);
  kept_within : content (io w) `prefix_of` base ++ concat all ++ extra;
  kept_synced : (synced (io w) <= length (content (io w)))%nat;
  kept_group : exists old recent, all = old ++ recent /\ on_disk old (io w) /\ Z.of_nat (length recent) <= slack
}.

Record stopped (all : list (list Z)) (extra : list Z) (w : walState) : Prop := {
  stopped_kept : kept all extra w;
  stopped_err : werr (io w) = true \/ buf (io w) = [];
  stopped_fatal : fatalErr w = true;
  stopped_acks : pendingAcks w = [];
  stopped_running : running w = true
}.

(** The log works, has failed, or was closed. *)
Definition sound (all : list (list Z)) (extra : list Z) (w : walState) : Prop :=
  (extra = [] /\ good all w) \/ stopped all extra w \/ (kept all extra w /\ running w = false).

Lemma kept_io all extra w w' :
  kept all extra w -> content (io w') = content (io w) -> (synced (io w) <= synced (io w') <= length (content (io w')))%nat ->
  kept all extra w'.
Proof.
  clear Hdur. intros [Hb Hw Hs (old & recent & Ha & Hd & Hr)] Hc Hsy. split; rewrite ?Hc; try done; [rewrite Hc in Hsy; lia|].
  exists old, recent. split; [done|]. split; [|done]. unfold on_disk in *. lia.
Qed.

(** A flush of a working log puts everything on disk or stops it. *)
Lemma flush_good all w w1 failed acks w2 :
  content (io w) ++ buf (io w) = base ++ concat all -> base `prefix_of` content (io w) ->
  (synced (io w) <= length (content (io w)))%nat -> werr (io w) = false -> running w = true -> fatalErr w = false ->
  flush w = (failed, w1) -> ackPending failed (set_fatal failed w1) = (acks, w2) ->
  acks = (fun a => (a, negb failed)) <$> pendingAcks w /\
  if failed
  then forall all' old recent extra, concat all `prefix_of` concat all' ++ extra -> all' = old ++ recent -> on_disk old (io w) ->
         Z.of_nat (length recent) <= slack -> stopped all' extra w2
  else good all w2.
Proof.
  intros Ha Hb Hs He Hr Hfat Hfl. apply flush_spec in Hfl as ((Hsz & Hpa & Hfe & Hru) & Hs1 & Hfl); [|done..].
  unfold ackPending, set_fatal. cbn. intros [= <- <-]. rewrite Hpa. split; [done|]. destruct failed.
  - destruct Hfl as (Hg & Hw & Hsy & Hstop). intros all' old recent extra Hpre -> Hod Hlen. split; cbn; try done; [split; cbn; try done|congruence].
    + by trans (content (io w)).
    + etrans; [done|]. rewrite Ha. apply prefix_app. done.
    + exists old, recent. split; [done|]. split; [|done]. unfold on_disk in *. by rewrite Hsy.
  - destruct Hfl as (Hc & Hbuf & He1 & _ & Hsy & Hpr & Hpb). split; cbn; try done.
    + by rewrite Hbuf, app_nil_r, Hc.
    + rewrite Hc. etrans; [done|]. by eexists.
    + by rewrite Hbuf.
    + by rewrite Hfe.
    + congruence.
    + exists all, []. rewrite app_nil_r. split; [done|]. split; [unfold on_disk; rewrite Hsy, Hc, Ha; case_decide; [rewrite length_app; lia|done]|]. rewrite Hpr, Hpb. auto.
Qed.

Context (Hcfg : 0 < flushRecords cfg).

Lemma on_disk_buffered old x y p : buffered x y p -> on_disk old x -> on_disk old y.
Proof. intros [_ _ Hs _ _ _]. unfold on_disk. by rewrite Hs. Qed.

Lemma append_good all w ack d acks w' :
  good all w -> run_append cfg ack d w = (acks, w') ->
  (acks = [(ack, true)] /\ sound (all ++ [d]) [] w') \/ (acks = [(ack, false)] /\ stopped all d w').
Proof.
  intros [Ha Hb Hs He Hf Hfat Hack Hrun (old & recent & Hall & Hod & Hpr & Hpb & Hrec)]. unfold run_append. rewrite Hfat.
  pose proof (Write_spec d (io w) He Hf) as Hw. destruct (Write d (io w)) as [failed io1]. cbn [fst snd] in Hw.
  assert (Hslack : Z.of_nat (length recent) <= slack /\ (syncMode cfg = SyncAlways -> recent = [])).
  { unfold slack in *. destruct (syncMode cfg); destruct Hrec as [->|]; simpl in *; split; try done; lia. }
  destruct failed.
  - intros [= <- <-]. right. split; [done|]. destruct Hw as [Hg Hwi Hsy Hy]. split; cbn; try done; [split; cbn; try done|by left].
    + by trans (content (io w)).
    + etrans; [done|]. rewrite app_assoc, Ha, <- app_assoc. done.
    + apply prefix_length in Hg. lia.
    + exists old, recent. split; [done|]. split; [|tauto]. unfold on_disk in *. by rewrite Hsy.
  - pose proof (on_disk_buffered _ _ _ _ Hw Hod) as Hod1. destruct Hw as [Ha1 Hg1 Hs1 _ He1 Hf1].
    assert (Ha1' : content io1 ++ buf io1 = base ++ concat (all ++ [d]))
      by (rewrite Ha1, app_assoc, Ha, concat_app; simpl; by rewrite app_nil_r, app_assoc).
    apply prefix_length in Hg1 as Hlen.
    assert (Hb1 : base `prefix_of` content io1) by by trans (content (io w)).
    set (w1 := {| io := io1; pendingRecords := pendingRecords w + 1 |}).
    destruct (bool_decide (syncMode cfg = SyncAlways) || shouldFlush cfg w1) eqn:Hflush.
    + destruct (flush w1) as [failed w2] eqn:Hfl.
      destruct (ackPending failed (set_fatal failed w2)) as [acks2 w3] eqn:Hack2.
      pose proof (flush_good (all ++ [d]) w1 w2 failed acks2 w3 Ha1' Hb1 ltac:(simpl; lia) He1 Hrun eq_refl Hfl Hack2) as [-> Hres].
      cbn [pendingAcks w1]. rewrite Hack. destruct (syncMode cfg) eqn:Hmode; cbn; intros [= <- <-].
      * destruct failed; [right|left]; (split; [done|]); [|by left].
        apply (Hres all old recent d); [rewrite concat_app; simpl; by rewrite app_nil_r | done | done | tauto].
      * left. split; [done|]. destruct failed; [right; left|by left].
        apply (Hres (all ++ [d]) old (recent ++ [d])); [by rewrite app_nil_r | by rewrite Hall, app_assoc | done|].
        unfold slack in *. rewrite Hmode in *. rewrite length_app. simpl. destruct Hrec as [->|]; simpl; lia.
    + apply orb_false_iff in Hflush as [Hm Hsf]. apply bool_decide_eq_false in Hm. destruct (syncMode cfg) eqn:Hmode; [done|].
      cbn. intros [= <- <-]. left. split; [done|]. left. split; [done|].
      unfold shouldFlush in Hsf. cbn in Hsf. bool_facts. split; cbn; try done; [by rewrite Hs1; lia|].
      exists old, (recent ++ [d]). split; [by rewrite Hall, app_assoc|]. split; [done|].
      rewrite length_app, concat_app, length_app. simpl. rewrite app_nil_r. split; [lia|]. split; [lia|]. right.
      unfold slack. rewrite Hmode. lia.
Qed.

Lemma append_stopped all extra w ack d :
  stopped all extra w -> run_append cfg ack d w = ([(ack, false)], w).
Proof. intros [_ _ Hf _ _]. unfold run_append. by rewrite Hf. Qed.

Lemma tick_good all w acks w' : good all w -> run_tick w = (acks, w') -> acks = [] /\ sound all [] w'.
Proof.
  intros Hg. unfold run_tick. case_test; [intros [= <- <-]; split; [done|by left]|].
  destruct (flush w) as [failed w1] eqn:Hfl. intros Hack. destruct Hg as [Ha Hb Hs He Hf Hfat Hpa Hrun (old & recent & Hall & Hod & _ & _ & Hrec)].
  pose proof (flush_good all w w1 failed acks w' Ha Hb Hs He Hrun Hfat Hfl Hack) as [-> Hres]. rewrite Hpa. split; [done|].
  destruct failed; [right; left|by left]. apply (Hres all old recent); [by rewrite app_nil_r | done | done|].
  unfold slack in *. destruct Hrec as [->|]; [|lia]. simpl. destruct (syncMode cfg); lia.
Qed.

(** A flush of a log that failed only syncs, if anything. *)
Lemma flush_stopped w failed w' :
  werr (io w) = true \/ buf (io w) = [] -> (synced (io w) <= length (content (io w)))%nat -> flush w = (failed, w') ->
  same_run w w' /\ content (io w') = content (io w) /\ (synced (io w) <= synced (io w') <= length (content (io w')))%nat /\
  buf (io w') = buf (io w) /\ werr (io w') = werr (io w).
Proof.
  clear Hdur Hcfg. intros He Hs. unfold flush.
  assert (Hfl : exists failed, (if bool_decide (buf (io w) = []) then (false, io w) else Flush (io w)) = (failed, io w)).
  { case_bool_decide; [by eexists|]. destruct He as [He|]; [|done]. unfold Flush. rewrite He. by eexists. }
  destruct Hfl as [[|] ->]; [by intros [= <- <-]|].
  destruct (file_Sync (io w)) as [failed2 io2] eqn:E. apply file_Sync_spec in E as (Hc2 & Hb2 & He2 & _ & Hs2).
  intros [= <- <-]. cbn. rewrite Hc2, Hb2, He2, Hs2. split; [done|]. split; [done|]. split; [destruct failed2; lia|done].
Qed.

Lemma tick_stopped all extra w acks w' : stopped all extra w -> run_tick w = (acks, w') -> acks = [] /\ stopped all extra w'.
Proof.
  intros Hst. unfold run_tick. case_test; [by intros [= <- <-]|]. destruct Hst as [Hk He Hf Hpa Hrun].
  destruct (flush w) as [failed w1] eqn:Hfl. apply flush_stopped in Hfl as ((_ & Hp1 & Hf1 & Hr1) & Hc & Hs & Hb & Hw); [|done|apply Hk].
  unfold ackPending, set_fatal. cbn. intros [= <- <-]. rewrite Hp1, Hpa. split; [done|].
  split; cbn; rewrite ?Hb, ?Hw, ?Hf1, ?Hf, ?orb_true_r; try done; [|congruence]. by eapply kept_io.
Qed.

(** A flush of a working log leaves what it had. *)
Lemma flush_kept all w failed w1 :
  good all w -> flush w = (failed, w1) ->
  kept all [] w1 /\ same_run w w1 /\ (werr (io w1) = true \/ buf (io w1) = []).
Proof.
  intros [Ha Hb Hs He Hf Hfat Hpa Hrun (old & recent & Hall & Hod & _ & _ & Hrec)] Hfl.
  apply flush_spec in Hfl as (Hsame & Hs1 & Hfl); [|done..].
  assert (Hslack : Z.of_nat (length recent) <= slack) by (unfold slack in *; destruct Hrec as [->|]; [|lia]; destruct (syncMode cfg); cbn; lia).
  destruct failed.
  - destruct Hfl as (Hg & Hw & Hsy & Hstop). split; [|done]. split; [by trans (content (io w))|by rewrite app_nil_r, <- Ha|done|].
    exists old, recent. split; [done|]. split; [|done]. unfold on_disk in *. by rewrite Hsy.
  - destruct Hfl as (Hc & Hbuf & _ & _ & Hsy & _). split; [|auto]. rewrite Ha in Hc. split; rewrite ?Hc, ?app_nil_r; [by eexists|done|by rewrite <- Hc|].
    exists old, recent. split; [done|]. split; [|done]. unfold on_disk in *. rewrite Hsy, Hc, Hall, concat_app, !length_app. case_decide; lia.
Qed.
End Writer.

(** ** Compaction and closing *)

Lemma file_Close_spec x failed y :
  file_Close x = (failed, y) -> content y = content x /\ synced y = synced x /\ buf y = buf x /\ werr y = werr x.
Proof. unfold file_Close. destruct (next_call x) as [o rest]. by intros [= <- <-]. Qed.

Lemma file_Reopen_spec x failed y :
  file_Reopen x = (failed, y) -> buf y = buf x /\ werr y = werr x /\
  content y = (if failed then content x else []) /\ synced y = if failed then synced x else 0%nat.
Proof. unfold file_Reopen. destruct (next_call x) as [o rest]. intros [= <- <-]. by case_bool_decide. Qed.

(** What becomes of the file in a reset: it is as the flush left it, or it was
    truncated and ends somewhere in the mark, or it holds the mark, on disk. *)
Inductive renewed_file (d : list Z) (x y : wio) : bool -> Prop :=
| renew_failed : content y = content x -> synced y = synced x -> buf y = buf x -> werr y = werr x -> renewed_file d x y false
| renew_torn :
    content y `prefix_of` d -> (synced y <= length (content y))%nat -> werr y = true \/ buf y = [] -> renewed_file d x y false
| renew_done : content y = d -> synced y = length d -> buf y = [] -> werr y = false -> renewed_file d x y true.

(** Writing the mark into the truncated file. *)
Lemma snapshot_mark_written d w x failed2 io2 failed3 w3 :
  content (io w) = [] -> synced (io w) = 0%nat -> Write d (set_buf [] false (io w)) = (failed2, io2) ->
  (if failed2 then (true, set_size 0 (set_io io2 w)) else flush (set_size (size (set_size 0 (set_io io2 w)) + Z.of_nat (length d)) (set_size 0 (set_io io2 w)))) = (failed3, w3) ->
  pendingAcks w3 = pendingAcks w /\ fatalErr w3 = fatalErr w /\ running w3 = running w /\
  renewed_file d x (io w3) (negb failed3) /\ (failed3 = false -> pendingRecords w3 = 0 /\ pendingBytes w3 = 0).
Proof.
  intros Hc0 Hs0 Hw. pose proof (Write_spec d (set_buf [] false (io w)) eq_refl ltac:(done)) as Ha. rewrite Hw in Ha. cbn [fst snd] in Ha.
  destruct failed2.
  - intros [= <- <-]. cbn. do 3 (split; [done|]). destruct Ha as [_ Hwi Hsy He]. cbn in *. rewrite Hc0 in Hwi. rewrite Hs0 in Hsy.
    split; [|done]. apply renew_torn; [done|lia|by left].
  - destruct Ha as [Hall _ Hsy _ He _]. cbn in Hall, Hsy. rewrite Hc0 in Hall. rewrite Hs0 in Hsy. cbn in Hall. intros Hfl.
    apply flush_spec in Hfl as ((_ & Hp & Hf & Hr) & Hs3 & Hfl); [|done|cbn; lia]. cbn in *. do 3 (split; [done|]). destruct failed3.
    + destruct Hfl as (_ & Hwi & _ & Hst). split; [|done]. apply renew_torn; [by rewrite <- Hall|done|done].
    + destruct Hfl as (Hc & Hb & He3 & _ & Hs & Hpr & Hpb). split; [|done]. rewrite Hall in Hc. apply renew_done; [done|by rewrite Hs, Hc|done|done].
Qed.

Lemma reset_spec ack d w failed1 w1 acks w' :
  flush w = (failed1, w1) -> pendingAcks w1 = [] -> run_reset ack d w = (acks, w') ->
  exists ok, acks = [(ack, ok)] /\ pendingAcks w' = [] /\ fatalErr w' = negb ok || fatalErr w1 /\ running w' = running w1 /\
    renewed_file d (io w1) (io w') ok /\ (ok = true -> pendingRecords w' = 0 /\ pendingBytes w' = 0).
Proof.
  intros Hfl Hpa. unfold run_reset. rewrite Hfl. unfold ackPending. rewrite Hpa. cbn [fmap list_fmap app].
  set (w2 := {| io := io w1; size := size w1; pendingAcks := [] |}).
  assert (Hstay : forall x, content x = content (io w1) -> synced x = synced (io w1) -> buf x = buf (io w1) -> werr x = werr (io w1) ->
    ([(ack, negb true)], set_fatal true (set_io x w2)) = (acks, w') ->
    exists ok, acks = [(ack, ok)] /\ pendingAcks w' = [] /\ fatalErr w' = negb ok || fatalErr w1 /\ running w' = running w1 /\
      renewed_file d (io w1) (io w') ok /\ (ok = true -> pendingRecords w' = 0 /\ pendingBytes w' = 0)).
  { intros x H1 H2 H3 H4 [= <- <-]. exists false. repeat (split; [done|]). split; [by apply renew_failed|done]. }
  destruct failed1; [by apply (Hstay (io w1))|]. cbn [io w2].
  destruct (file_Close (io w1)) as [f2 x2] eqn:E2. apply file_Close_spec in E2 as (Hc2 & Hs2 & Hb2 & He2). cbn.
  destruct f2; [by apply Hstay|]. cbn [io set_io].
  destruct (file_Reopen x2) as [f3 x3] eqn:E3. apply file_Reopen_spec in E3 as (Hb3 & He3 & Hc3 & Hs3).
  destruct f3; [apply Hstay; congruence|]. cbn [io set_io].
  destruct (Write d (set_buf [] false x3)) as [f4 x4] eqn:E4.
  match goal with |- context [if f4 then (true, ?a) else ?b] => destruct (if f4 then (true, a) else b) as [f5 w5] eqn:E5 end.
  destruct (snapshot_mark_written d (set_io x3 w2) (io w1) f4 x4 f5 w5 Hc3 Hs3 E4) as (Hp & Hf & Hr & Hfile & Hpend).
  { rewrite <- E5. by destruct f4. }
  intros [= <- <-]. exists (negb f5). split; [done|]. cbn. rewrite Hp, Hf, Hr, negb_involutive. repeat (split; [done|]).
  intros Hok. by apply Hpend, negb_true_iff.
Qed.

Lemma close_spec ack w failed1 w1 acks w' :
  flush w = (failed1, w1) -> run_close ack w = (acks, w') ->
  content (io w') = content (io w1) /\ synced (io w') = synced (io w1) /\ running w' = false.
Proof.
  intros Hfl. unfold run_close. rewrite Hfl. unfold ackPending. cbn. destruct (file_Close (io w1)) as [f2 x2] eqn:E.
  apply file_Close_spec in E as (Hc & Hs & _). by intros [= <- <-].
Qed.

(** ** Runs *)

(** The frames of the log before and after a request with these acknowledgements.  A
    compaction that is not acknowledged leaves the log as it was, or truncated. *)
Inductive entered : request -> list (nat * bool) -> list (list Z) -> list (list Z) -> Prop :=
| append_acked ack d acks l : (ack, true) ∈ acks -> entered (RAppend ack d) acks l (l ++ [d])
| append_refused ack d acks l : (ack, true) ∉ acks -> entered (RAppend ack d) acks l l
| reset_acked ack d acks l : (ack, true) ∈ acks -> entered (RReset ack d) acks l [d]
| reset_refused ack d acks l l' : (ack, true) ∉ acks -> l' = l \/ l' = [] -> entered (RReset ack d) acks l l'
| close_entered ack acks l : entered (RClose ack) acks l l
| tick_entered acks l : entered RTick acks l l.

(** The frames of the log before and after a run, as its acknowledgements tell. *)
Inductive logged (cfg : walConfig) : list request -> walState -> list (list Z) -> list (list Z) -> Prop :=
| logged_nil w l : logged cfg [] w l l
| logged_cons q qs w l1 l2 l3 :
    entered q (run_step cfg q w).1 l1 l2 -> logged cfg qs (run_step cfg q w).2 l2 l3 -> logged cfg (q :: qs) w l1 l3.

(** Some compaction was acknowledged. *)
Fixpoint renewed (cfg : walConfig) (qs : list request) (w : walState) : bool :=
  match qs with
  | [] => false
  | q :: qs =>
      let '(acks, w') := run_step cfg q w in
      match q with RReset ack _ => bool_decide ((ack, true) ∈ acks) | _ => false end || renewed cfg qs w'
  end.

Definition given (qs : list request) (d : list Z) : Prop := exists ack, RAppend ack d ∈ qs \/ RReset ack d ∈ qs.

(** What is known of the log: the frames it was opened with or that a compaction
    left, how much of them is on disk, the frames since, and a frame that was refused. *)
Record log := { opening : list (list Z); on_open : nat; since : list (list Z); refused : list Z }.

Definition frames (l : log) : list (list Z) := opening l ++ since l.

Definition log_sound (cfg : walConfig) (l : log) (w : walState) : Prop :=
  (on_open l <= length (concat (opening l)))%nat /\ sound cfg (concat (opening l)) (on_open l) (since l) (refused l) w.

(** What the log was opened with is what it was, or all on disk. *)
Definition opened_as (renewed : bool) (l l' : log) : Prop :=
  (opening l' = opening l /\ on_open l' = on_open l /\ renewed = false) \/ on_open l' = length (concat (opening l')).

Definition log_step (cfg : walConfig) (qs : list request) (w : walState) (l l' : log) : Prop :=
  logged cfg qs w (frames l) (frames l') /\ (refused l' = refused l \/ refused l' = [] \/ given qs (refused l')) /\ opened_as (renewed cfg qs w) l l'.

Lemma one_step cfg q w acks w' l l' :
  run_step cfg q w = (acks, w') -> entered q acks (frames l) (frames l') ->
  (refused l' = refused l \/ refused l' = [] \/ given [q] (refused l')) ->
  opened_as (match q with RReset ack _ => bool_decide ((ack, true) ∈ acks) | _ => false end) l l' -> log_step cfg [q] w l l'.
Proof.
  intros E He Hr Ho. split; [|split; [done|cbn; rewrite E, orb_false_r; done]].
  eapply logged_cons; [by rewrite E|]. constructor.
Qed.

Lemma no_ack (ack : nat) : (ack, true) ∉ [(ack, false)].
Proof. by intros ?%list_elem_of_singleton. Qed.

Lemma append_log cfg l w ack d acks w' :
  0 < flushRecords cfg -> log_sound cfg l w -> running w = true -> run_append cfg ack d w = (acks, w') ->
  exists l', log_sound cfg l' w' /\ log_step cfg [RAppend ack d] w l l'.
Proof.
  intros Hcfg [Hd Hw] Hrun E.
  assert (E' : run_step cfg (RAppend ack d) w = (acks, w')) by (unfold run_step; by rewrite Hrun).
  assert (Hkeep : forall extra, acks = [(ack, false)] -> sound cfg (concat (opening l)) (on_open l) (since l) extra w' ->
    extra = refused l \/ extra = d -> exists l', log_sound cfg l' w' /\ log_step cfg [RAppend ack d] w l l').
  { intros extra -> Hs Hx. exists {| opening := opening l; on_open := on_open l; since := since l; refused := extra |}. split; [done|].
    apply (one_step cfg _ w _ w' _ _ E'); [apply append_refused, no_ack| |by left]. destruct Hx as [->| ->]; [by left|]. right. right. exists ack. set_solver. }
  destruct Hw as [[Hr Hg]|[Hs|[_ Hend]]]; [|by rewrite (append_stopped _ _ _ _ _ _ _ _ Hs) in E; injection E as <- <-; apply (Hkeep (refused l)); [done|by right; left|by left]|congruence].
  destruct (append_good _ _ _ Hd Hcfg _ _ _ _ _ _ Hg E) as [[-> H]|[-> H]]; [|apply (Hkeep d); [done|by right; left|by right]].
  exists {| opening := opening l; on_open := on_open l; since := since l ++ [d]; refused := [] |}. split; [done|].
  apply (one_step cfg _ w _ w' _ _ E'); [|by right; left|by left]. unfold frames. cbn. rewrite app_assoc. constructor. set_solver.
Qed.

(** The log after a compaction. *)
Lemma reset_log cfg l w ack d failed1 w1 acks w' :
  kept cfg (concat (opening l)) (on_open l) (since l) (refused l) w1 -> werr (io w1) = true \/ buf (io w1) = [] -> pendingAcks w1 = [] ->
  (on_open l <= length (concat (opening l)))%nat -> running w = true -> running w1 = true ->
  flush w = (failed1, w1) -> run_reset ack d w = (acks, w') -> exists l', log_sound cfg l' w' /\ log_step cfg [RReset ack d] w l l'.
Proof.
  intros Hk He Hp Hd Hrun Hrun1 Hfl E. assert (E' : run_step cfg (RReset ack d) w = (acks, w')) by (unfold run_step; by rewrite Hrun).
  destruct (reset_spec _ _ _ _ _ _ _ Hfl Hp E) as (ok & -> & Hp' & Hf' & Hr' & Hfile & Hpend). rewrite Hrun1 in Hr'.
  destruct Hfile as [Hc Hs Hb Hw|Hc Hs Hb|Hc Hs Hb Hw].
  - exists l. split; [split; [done|]|].
    + right. left. split; [|by rewrite Hb, Hw|done..]. eapply kept_io; [done|done|]. destruct Hk as [_ _ Hks _]. rewrite Hc, Hs. lia.
    + apply (one_step cfg _ w _ w' _ _ E'); [by apply reset_refused; [apply no_ack|left]|by left|].
      left. by rewrite bool_decide_eq_false_2 by apply no_ack.
  - exists {| opening := []; on_open := 0; since := []; refused := d |}. split; [split; [done|]|].
    + right. left. split; [|done..]. split; cbn; [apply prefix_nil|done|done|]. exists [], []. split; [done|]. split; [unfold on_disk; case_decide; [lia|done]|].
      destruct Hk as [_ _ _ (old & recent & _ & _ & Hsl)]. cbn. lia.
    + apply (one_step cfg _ w _ w' _ _ E'); [by apply reset_refused; [apply no_ack|right]| |by right]. right. right. exists ack. set_solver.
  - destruct (Hpend eq_refl) as [Hpr Hpb]. exists {| opening := []; on_open := 0; since := [d]; refused := [] |}.
    assert (Hod : on_disk [] 0 [d] (io w')) by (unfold on_disk; rewrite Hs; cbn; by rewrite app_nil_r).
    split; [split; [done|]|].
    + unfold sound. cbn. destruct (fatalErr w1) eqn:Ef.
      * right. left. split; [|by right|by rewrite Hf'|done..]. split; cbn; [apply prefix_nil|by rewrite Hc, !app_nil_r|by rewrite Hs, Hc|].
        exists [d], []. split; [done|]. split; [done|]. pose proof Hk as [_ _ _ (old & recent & _ & _ & Hsl)]. cbn. lia.
      * left. split; [done|]. split; cbn; try done; [by rewrite Hc, Hb, !app_nil_r|apply prefix_nil|by rewrite Hs, Hc|by rewrite Hb|].
        exists [d], []. rewrite Hpr, Hpb. split; [done|]. split; [done|]. auto.
    + apply (one_step cfg _ w _ w' _ _ E'); [apply reset_acked; set_solver|by right; left|by right].
Qed.

Lemma run_step_sound cfg q l w :
  0 < flushRecords cfg -> log_sound cfg l w -> exists l', log_sound cfg l' (run_step cfg q w).2 /\ log_step cfg [q] w l l'.
Proof.
  intros Hcfg Hl. destruct (run_step cfg q w) as [acks w'] eqn:E. pose proof E as E0. unfold run_step in E0.
  assert (Hsame : log_sound cfg l w' -> (forall ack, (ack, true) ∉ acks) \/ (exists a, q = RClose a) \/ q = RTick -> log_step cfg [q] w l l).
  { intros Hl' Hor. apply (one_step cfg _ w _ w' _ _ E); [|by left|left].
    - destruct q; [apply append_refused|apply reset_refused; [|by left]|constructor..]; by destruct Hor as [?|[[? ?]|?]].
    - destruct q; try done. destruct Hor as [H|[[? ?]|?]]; [|done..]. by rewrite bool_decide_eq_false_2. }
  destruct (running w) eqn:Hrun; [|injection E0 as <- <-; exists l; split; [done|apply Hsame; [done|left; set_solver]]].
  destruct Hl as [Hd Hw]. assert (Hfl : forall failed w1, flush w = (failed, w1) ->
    kept cfg (concat (opening l)) (on_open l) (since l) (refused l) w1 /\ same_run w w1 /\ (werr (io w1) = true \/ buf (io w1) = []) /\ pendingAcks w = []).
  { intros failed w1 Hfl. destruct Hw as [[-> Hg]|[Hs|[_ Hend]]]; [| |congruence].
    - destruct (flush_kept _ _ _ Hd Hcfg _ _ _ _ Hg Hfl) as (? & ? & ?). by destruct Hg.
    - destruct Hs as [Hk He _ Hp _]. apply flush_stopped in Hfl as (? & Hc & Hs & Hb & He'); [|done|apply Hk].
      split; [by eapply kept_io|]. rewrite Hb, He'. done. }
  cbn [snd]. destruct q as [ack d|ack d|ack|].
  - by apply append_log with acks.
  - destruct (flush w) as [failed w1] eqn:Ef. destruct (Hfl _ _ eq_refl) as (Hk & (_ & Hp & _ & Hr) & He & Hpa).
    apply (reset_log cfg l w ack d failed w1 acks w'); congruence.
  - destruct (flush w) as [failed w1] eqn:Ef. destruct (Hfl _ _ eq_refl) as (Hk & _).
    destruct (close_spec _ _ _ _ _ _ Ef E0) as (Hc & Hs & Hr). assert (Hl' : log_sound cfg l w').
    { split; [done|]. right. right. split; [|done]. eapply kept_io; [done|done|]. destruct Hk as [_ _ Hks _]. rewrite Hc, Hs. lia. }
    exists l. split; [done|]. apply Hsame; [done|]. right. left. eauto.
  - assert (Hl' : log_sound cfg l w').
    { split; [done|]. destruct Hw as [[-> Hg]|[Hs|[_ Hend]]]; [| |congruence].
      - by apply (tick_good _ _ _ Hd Hcfg _ _ _ _ Hg E0).
      - right. left. by apply (tick_stopped cfg _ _ _ _ _ _ _ Hs E0). }
    exists l. split; [done|]. apply Hsame; auto.
Qed.

Lemma log_step_trans cfg q qs w l1 l2 l3 :
  log_step cfg [q] w l1 l2 -> log_step cfg qs (run_step cfg q w).2 l2 l3 -> log_step cfg (q :: qs) w l1 l3.
Proof.
  intros (H1 & R1 & O1) (H2 & R2 & O2). split; [|split].
  - inversion H1 as [|? ? ? ? ? ? He Hn]; subst. inversion Hn; subst. by eapply logged_cons.
  - destruct R2 as [->|[R2|[ack R2]]]; [destruct R1 as [R1|[R1|[ack R1]]]; [by left|by right; left|]|by right; left|]; right; right; exists ack; set_solver.
  - cbn in *. destruct (run_step cfg q w) as [acks w']. cbn in *. unfold opened_as in *. rewrite orb_false_r in O1.
    destruct O2 as [(Ea & Eb & ->)|?]; [|by right]. destruct O1 as [(Ea' & Eb' & ->)|Hfull]; [left|right]; [by rewrite Ea, Eb|congruence].
Qed.

Lemma run_sound cfg qs l w :
  0 < flushRecords cfg -> log_sound cfg l w -> exists l', log_sound cfg l' (run cfg qs w).2 /\ log_step cfg qs w l l'.
Proof.
  intros Hcfg. revert w l. induction qs as [|q qs IH]; intros w l Hl.
  { exists l. split; [done|]. split; [constructor|]. split; by left. }
  destruct (run_step_sound cfg q l w Hcfg Hl) as (l1 & H1 & S1). destruct (IH _ _ H1) as (l2 & H2 & S2). exists l2.
  split; [|by eapply log_step_trans]. cbn [run]. destruct (run_step cfg q w) as [acks w1]. cbn [snd] in *. by destruct (run cfg qs w1).
Qed.

Lemma open_good cfg base durable outcomes :
  (durable <= length base)%nat -> good cfg base durable [] (openFileRegistryWAL base durable outcomes).
Proof.
  intros Hd. split; cbn; try done. exists [], []. split; [done|]. split; [by left|]. auto.
Qed.

(** ** Prefixes of a sequence of frames *)

Lemma prefix_concat (img : list Z) (F : list (list Z)) :
  img `prefix_of` concat F ->
  exists m torn, img = concat (take m F) ++ torn /\
    ((m = length F /\ torn = []) \/ exists f k, F !! m = Some f /\ torn = take k f /\ (k < length f)%nat).
Proof.
  revert img. induction F as [|f F IH]; intros img Hp.
  { exists 0%nat, []. apply prefix_nil_inv in Hp. subst. auto. }
  simpl in Hp. destruct (decide (length f <= length img)%nat) as [Hle|Hlt].
  - assert (exists img', img = f ++ img') as [img' ->].
    { destruct Hp as [rest E]. exists (drop (length f) img). rewrite <- (take_drop (length f) img) at 1. f_equal.
      rewrite <- (take_app_le img rest), <- E, take_app_length; done. }
    apply prefix_app_inv in Hp.
    destruct (IH img' Hp) as (m & torn & -> & H). exists (S m), torn. simpl. rewrite app_assoc. split; [done|].
    destruct H as [[-> ->]|H]; [by left | by right].
  - exists 0%nat, img. split; [done|]. right. exists f, (length img). split; [done|]. split; [|lia].
    destruct Hp as [rest E]. trans (take (length img) (img ++ rest)); [by rewrite take_app_length|].
    by rewrite <- E, take_app_le by lia.
Qed.

(** ** Crashes *)

(** What the file may hold after a crash: killing the process keeps all of it, and
    losing the machine keeps some prefix of it with at least what was synced.  A
    truncation takes effect at once. *)
Definition crash_image (x : wio) (img : list Z) : Prop := img `prefix_of` content x /\ (synced x <= length img)%nat.

Lemma sound_kept cfg base durable all extra w : 0 < flushRecords cfg -> sound cfg base durable all extra w -> kept cfg base durable all extra w.
Proof.
  intros Hcfg [[-> [Ha Hb Hs _ _ _ _ _ (old & recent & H1 & H2 & _ & _ & H3)]]|[[Hk _ _ _ _]|[Hk _]]]; [|done..].
  split; [done|rewrite app_nil_r, <- Ha; by eexists|done|]. exists old, recent. split; [done|]. split; [done|].
  unfold slack in *. destruct H3 as [->|]; [|lia]. destruct (syncMode cfg); simpl; lia.
Qed.

Lemma logged_given cfg qs w l l' d : logged cfg qs w l l' -> d ∈ l' -> d ∈ l \/ given qs d.
Proof.
  unfold given. induction 1 as [w l|q qs w l1 l2 l3 He _ IH]; intros Hd; [by left|]. destruct (IH Hd) as [H|[ack H]]; [|right; exists ack; set_solver].
  destruct He as [ack d' acks l|ack d' acks l|ack d' acks l|ack d' acks l l' _ [->| ->]| |];
    try (apply elem_of_app in H as [H|H%list_elem_of_singleton]); try apply list_elem_of_singleton in H; subst; auto; try (by apply elem_of_nil in H);
    right; exists ack; set_solver.
Qed.

Lemma entries_of (bss : list (list Z)) :
  (forall d, d ∈ bss -> exists e, written e d) -> exists es, Forall2 written es bss.
Proof.
  induction bss as [|d bss IH]; intros H; [by exists []|].
  destruct (H d) as [e He]; [set_solver|]. destruct IH as [es Hes]; [set_solver|]. exists (e :: es). by constructor.
Qed.

(** A crash image of a log made of frames replays a prefix of their records. *)
Lemma image_scans es bss img :
  Forall2 written es bss -> img `prefix_of` concat bss ->
  exists m tail, scans img (as_read <$> take m es) tail /\
    forall n, (n <= length bss)%nat -> (length (concat (take n bss)) <= length img)%nat -> (n <= m)%nat.
Proof.
  intros Hes Hp. destruct (prefix_concat img bss Hp) as (m & torn & -> & Htorn). exists m, torn. split.
  - pose proof (Forall2_take _ _ _ m Hes) as Hm.
    assert (Hs : scans torn [] torn).
    { destruct Htorn as [[_ ->]|(f & k & Hf & -> & Hk)]; [constructor; by left|].
      destruct (Forall2_lookup_r _ _ _ _ _ Hes Hf) as (e & _ & He). by apply (torn_scans e). }
    pose proof (written_scans _ _ _ _ _ Hm Hs) as H. by rewrite app_nil_r in H.
  - intros n Hn Hlen. destruct Htorn as [[-> ->]|(f & k & Hf & -> & Hk)]; [done|].
    destruct (decide (n <= m)%nat) as [|Hgt]; [done|]. exfalso. apply lookup_lt_Some in Hf as Hlt.
    assert (Htake : take n bss = take m bss ++ f :: take (n - S m) (drop (S m) bss)).
    { rewrite <- (take_drop_middle bss m f Hf) at 1. rewrite take_app, length_take, Nat.min_l by lia.
      rewrite take_take, Nat.min_r by lia. replace (n - m)%nat with (S (n - S m)) by lia. done. }
    rewrite Htake, concat_app, !length_app in Hlen. simpl in Hlen. rewrite length_app, length_take in Hlen. lia.
Qed.

(** C11.  The records that were acknowledged survive a crash.  However the calls of
    the operating system fail, and whatever prefix of the file containing what was
    synced is left after the crash, the replay applies a prefix of the records of the
    log in the order they were given, then at most one that was refused.  The records
    of the log are those found when it was opened and those acknowledged since; an
    acknowledged compaction replaces them by its mark, one that failed leaves them or
    nothing, and closing keeps them.  In the mode [always] none of them is missing; in
    the mode [batch] at most [flushRecords] of the last ones are (where not all that
    was found at the opening was on disk: once a compaction was acknowledged or more
    than [flushRecords] records were). *)
Theorem acknowledged_records_survive {S E} (apply : WALRecord -> S -> option E * S) cfg bss0 durable outcomes qs img s :
  0 < flushRecords cfg -> (forall d, d ∈ bss0 \/ given qs d -> exists e, written e d) -> (durable <= length (concat bss0))%nat ->
  let w0 := openFileRegistryWAL (concat bss0) durable outcomes in
  crash_image (io (run cfg qs w0).2) img ->
  exists bss es extra m res,
    logged cfg qs w0 bss0 bss /\ Forall2 written es bss /\ (length extra <= 1)%nat /\
    replayFileRegistryWAL apply (Some img) s =
      Some ((apply_all apply (as_read <$> take m (es ++ extra)) s).1, res,
            (apply_all apply (as_read <$> take m (es ++ extra)) s).2) /\
    (durable = length (concat bss0) \/ renewed cfg qs w0 = true \/ slack cfg + Z.of_nat (length bss0) < Z.of_nat (length bss) ->
     Z.of_nat (length es) - slack cfg <= Z.of_nat m).
Proof.
  intros Hcfg Hwr Hd w0 [Hp Hlen].
  destruct (run_sound cfg qs {| opening := bss0; on_open := durable; since := []; refused := [] |} w0 Hcfg) as (l & [Hdl Hs] & Hlog & Hx & Hop);
    [split; [done|]; left; split; [done|by apply open_good]|]. unfold frames at 1 in Hlog. cbn in Hlog, Hx. rewrite app_nil_r in Hlog.
  destruct (sound_kept _ _ _ _ _ _ Hcfg Hs) as [_ Hc _ (old & recent & Hall & Hod & Hrec)].
  destruct (entries_of (frames l)) as [es Hes]; [intros d Hin; by apply Hwr, (logged_given _ _ _ _ _ _ Hlog)|].
  assert (exists ex bx, Forall2 written ex bx /\ concat bx = refused l /\ (length ex <= 1)%nat) as (ex & bx & Hex & Hbx & Hlex).
  { destruct Hx as [->|[->|Hx]]; [by exists [], []; auto..|]. destruct (Hwr _ (or_intror Hx)) as [e He]. exists [e], [refused l].
    split; [constructor; [done|constructor]|]. simpl. rewrite app_nil_r. auto. }
  assert (HF : Forall2 written (es ++ ex) (frames l ++ bx)) by by apply Forall2_app.
  destruct (image_scans _ _ img HF) as (m & tail & Hscan & Hm).
  { unfold frames. rewrite !concat_app, Hbx, <- app_assoc. etrans; [exact Hp|exact Hc]. }
  destruct (replay_scans apply _ _ _ s Hscan) as (res & Hrun & _).
  exists (frames l), es, ex, m, res. do 4 (split; [done|]). intros Hcase.
  apply Forall2_length in Hes as Hle.
  assert (Hn : (length (opening l ++ old) <= m)%nat).
  { apply Hm; [unfold frames; rewrite Hall, !length_app; lia|]. unfold frames. rewrite Hall, <- !app_assoc, (app_assoc (opening l)), take_app_length, concat_app.
    unfold on_disk in Hod. case_decide as Ho; [|lia]. subst old. simpl. rewrite app_nil_r.
    destruct Hop as [(Ea & Eb & Er)|Hfull]; [|lia]. cbn in Ea, Eb. rewrite Ea, Eb in *. destruct Hcase as [Hcase|[Hcase|Hcase]]; [lia|congruence|].
    simpl in Hall. unfold frames in Hcase. rewrite Ea, Hall, length_app in Hcase. lia. }
  rewrite length_app in Hn. rewrite Hle. unfold frames. rewrite Hall, !length_app. lia.
Qed.

(** The default configuration in either mode. *)
Definition demo_config (mode : FileRegistrySyncMode) : walConfig := {| syncMode := mode; flushRecords := 64; flushBytes := 64 * 1024 |}.

(** An append, a compaction, an append, and one whose write fails after three bytes. *)
Definition demo_requests : list request :=
  [RAppend 0 (demo_frame 6); RReset 1 (demo_frame 7); RTick; RAppend 2 (demo_frame 8); RAppend 3 (demo_frame 9); RClose 4].

Definition demo_outcomes : list outcome := replicate 9 None ++ [Some 3%nat].

Lemma acknowledged_records_survive_witness :
  let w0 := openFileRegistryWAL (concat [demo_frame 5]) 40 demo_outcomes in
  exists bss es extra m res,
    logged (demo_config SyncAlways) demo_requests w0 [demo_frame 5] bss /\ Forall2 written es bss /\ (length extra <= 1)%nat /\
    replayFileRegistryWAL demo_apply (Some (content (io (run (demo_config SyncAlways) demo_requests w0).2))) [] =
      Some ((apply_all demo_apply (as_read <$> take m (es ++ extra)) []).1, res,
            (apply_all demo_apply (as_read <$> take m (es ++ extra)) []).2) /\
    Z.of_nat (length es) <= Z.of_nat m /\
    (run (demo_config SyncAlways) demo_requests w0).1 = [(0%nat, true); (1%nat, true); (2%nat, true); (3%nat, false); (4%nat, false)].
Proof.
  intros w0. destruct (acknowledged_records_survive demo_apply (demo_config SyncAlways) [demo_frame 5] 40 demo_outcomes demo_requests
    (content (io (run (demo_config SyncAlways) demo_requests w0).2)) [])
    as (bss & es & extra & m & res & H0 & H1 & H2 & H3 & H4).
  - done.
  - assert (Hw : forall n, 5 <= n <= 9 -> exists e, written e (demo_frame n)) by (intros n Hn; eexists; apply demo_written; lia).
    intros d [Hd%list_elem_of_singleton|[ack [Hd|Hd]]]; [subst; apply Hw; lia|..]; apply list_elem_of_In in Hd;
      destruct Hd as [Hd|[Hd|[Hd|[Hd|[Hd|[Hd|[]]]]]]]; try discriminate Hd; injection Hd as _ <-; apply Hw; lia.
  - apply (bool_decide_eq_true_1 _). vm_compute. reflexivity.
  - split; [exists []; symmetry; apply app_nil_r|]. apply (bool_decide_eq_true_1 _). vm_compute. reflexivity.
  - exists bss, es, extra, m, res. split; [exact H0|]. split; [exact H1|]. split; [exact H2|]. split; [exact H3|]. split; [|vm_compute; reflexivity].
    assert (H5 : Z.of_nat (length es) - slack (demo_config SyncAlways) <= Z.of_nat m) by (apply H4; left; vm_compute; reflexivity).
    clear - H5. change (slack (demo_config SyncAlways)) with 0 in H5. lia.
Defined.

(** In the mode [batch], the default, an append is acknowledged while its frame is
    in the buffer of the process only, although [Append] is documented to wait until
    the writer durably accepts the record. *)
Example batch_ack_is_not_durable :
  let '(acks, w) := run (demo_config SyncBatch) [RAppend 0 (demo_frame 6)] (openFileRegistryWAL [] 0 []) in
  acks = [(0%nat, true)] /\ content (io w) = [].
Proof. vm_compute. split; reflexivity. Qed.
