(* ===== verification/FileRegistry.v ===== *)
(** * The file registries ([pkg/registry/file_registry.go], [file_registry_v2.go])

    Both keep the leases in a [MemoryRegistry].  [FileRegistry] rewrites a snapshot
    file after every change.  [FileRegistryV2] appends every change to a log before
    it applies it, and compacts the log into a snapshot file.  The JSON encoding of
    the snapshot and of the log's payload is the class [Json]; [encnow] is the clock
    the encoder of the log reads. *)
From Stdlib Require Import String.
From S2P Require Import Prelude GoStd GoSort GoHeap GoBytes Status Registry Wal WalWriter.

Record fileRegistryRecord := { f_Instance : Instance; f_ExpiresAt : Z }.

Record fileRegistryRegisterPayload := {
  p_Status : string; p_Labels : option (gmap string string); p_RegistrationEpoch : string; p_OwnerToken : string }.

(** [encoding/json] on the two types; [None] is an error. *)
Class Json := {
  marshal_snapshot : list fileRegistryRecord -> option (list Z);
  unmarshal_snapshot : list Z -> option (list fileRegistryRecord);
  marshal_payload : fileRegistryRegisterPayload -> option (list Z);
  unmarshal_payload : list Z -> option fileRegistryRegisterPayload
}.

(** The order in which [sync.Map.Range] visits the services. *)
Definition service_order : Type := gmap string serviceState -> list (string * serviceState).

(** [snapshot] and [snapshotMemoryRegistry]: the records that have not expired, in
    order. *)
Definition snapshotMemoryRegistry (range : service_order) (visit : record_order) (now : Z) (memory : MemoryRegistry)
  : list fileRegistryRecord :=
  Slice (by_keys (fun rec => [Service (f_Instance rec); ID (f_Instance rec)]))
    ((fun rec => {| f_Instance := instance rec; f_ExpiresAt := expiresAt rec |}) <$>
     filter (fun rec => live now rec = true) (concat ((fun p => (visit (records p.2)).*2) <$> range (services memory)))).

(** ** [FileRegistry] *)

Inductive file_error := ErrRegistry (e : registry_error) | ErrFile | ErrWAL | ErrCompact.

Record FileRegistryV1 := { v1_memory : MemoryRegistry; v1_file : option (list Z) }.

Section V1.
Context `{Json} (range : service_order) (visit : record_order).

(** [load]: the records are restored in order, at [now]; [fresh] draws the epoch and
    the token of those that have none. *)
Definition load (fresh : Instance -> string * string) (now : Z) (file : option (list Z)) (memory : MemoryRegistry)
  : option file_error * MemoryRegistry :=
  match file with
  | None | Some [] => (None, memory)
  | Some raw =>
      match unmarshal_snapshot raw with
      | None => (Some ErrFile, memory)
      | Some recs =>
          (None, foldl (fun m rec => let '(epoch, token) := fresh (f_Instance rec) in
                     restore visit epoch token (f_Instance rec) (f_ExpiresAt rec) now now m) memory recs)
      end
  end.

Definition NewFileRegistry (path : string) (fresh : Instance -> string * string) (now : Z) (file : option (list Z))
  : file_error + FileRegistryV1 :=
  if bool_decide (path = ""%string) then inl (ErrRegistry ErrInvalidInstance)
  else match load fresh now file NewMemoryRegistry with
       | (Some e, _) => inl e
       | (None, memory) => inr {| v1_memory := memory; v1_file := file |}
       end.

(** [persist]: [failed] is whether a call of the operating system fails; the file
    is replaced by a rename, so it has the old or the new content. *)
Definition write_snapshot (failed : bool) (recs : list fileRegistryRecord) (r : FileRegistryV1)
  : option file_error * FileRegistryV1 :=
  match marshal_snapshot recs with
  | None => (Some ErrFile, r)
  | Some raw => if failed then (Some ErrFile, r) else (None, {| v1_memory := v1_memory r; v1_file := Some raw |})
  end.

Definition persist (failed : bool) (now : Z) (r : FileRegistryV1) : option file_error * FileRegistryV1 :=
  write_snapshot failed (snapshotMemoryRegistry range visit now (v1_memory r)) r.

(** An operation of the memory registry followed by [persist] at [now2]. *)
Definition then_persist (res : option registry_error * MemoryRegistry) (failed : bool) (now2 : Z) (r : FileRegistryV1)
  : option file_error * FileRegistryV1 :=
  match res with
  | (Some e, m) => (Some (ErrRegistry e), {| v1_memory := m; v1_file := v1_file r |})
  | (None, m) => persist failed now2 {| v1_memory := m; v1_file := v1_file r |}
  end.

Definition v1_Register (ctxErr failed : bool) (epoch token : string) (inst : Instance) (ttl now now2 : Z) (r : FileRegistryV1) :=
  then_persist (registerAt visit ctxErr epoch token inst ttl now (v1_memory r)) failed now2 r.

Definition v1_Heartbeat (ctxErr failed : bool) (service id : string) (ttl now now2 : Z) (r : FileRegistryV1) :=
  then_persist (Heartbeat visit ctxErr service id ttl now (v1_memory r)) failed now2 r.

Definition v1_HeartbeatWithEpoch (ctxErr failed : bool) (service id epoch : string) (ttl now now2 : Z) (r : FileRegistryV1) :=
  then_persist (HeartbeatWithEpoch visit ctxErr service id epoch ttl now (v1_memory r)) failed now2 r.

Definition v1_HeartbeatWithOwner (ctxErr failed : bool) (service id epoch token : string) (ttl now now2 : Z)
    (r : FileRegistryV1) :=
  then_persist (HeartbeatWithOwner visit ctxErr service id epoch token ttl now (v1_memory r)) failed now2 r.

Definition v1_SweepExpired (ctxErr failed : bool) (cancel : option nat) (ord : gset string -> list string) (now now2 : Z)
    (r : FileRegistryV1) : Z * FileRegistryV1 :=
  let '(expired, m) := SweepExpired visit ctxErr cancel ord now (v1_memory r) in
  let r := {| v1_memory := m; v1_file := v1_file r |} in
  (expired, if 0 <? expired then (persist failed now2 r).2 else r).
End V1.

#[export] Instance registry_error_eq_dec : EqDecision registry_error.
Proof. solve_decision. Defined.

(** ** [FileRegistryV2] *)

(** [walCfg] holds what the log's goroutine decides by; the mode is one of the two
    that [NewFileRegistryV2] accepts. *)
Record fileRegistryV2Config := { walCfg : walConfig; flushInterval : Z; compactBytes : Z; requestBuffer : Z }.

Definition defaultFileRegistryV2Config : fileRegistryV2Config := {|
  walCfg := {| syncMode := SyncBatch; flushRecords := 64; flushBytes := 64 * 1024 |};
  flushInterval := 2 * 1000000; compactBytes := 16 * 1024 * 1024; requestBuffer := 1024 |}.

(** The options [WithFileRegistryV2SyncMode], [WithFileRegistryV2GroupCommit] and
    [WithFileRegistryV2CompactBytes]. *)
Definition WithSyncMode (mode : FileRegistrySyncMode) (cfg : fileRegistryV2Config) : fileRegistryV2Config :=
  {| walCfg := {| syncMode := mode; flushRecords := flushRecords (walCfg cfg); flushBytes := flushBytes (walCfg cfg) |};
     flushInterval := flushInterval cfg; compactBytes := compactBytes cfg; requestBuffer := requestBuffer cfg |}.

Definition WithGroupCommit (records bytes interval : Z) (cfg : fileRegistryV2Config) : fileRegistryV2Config :=
  {| walCfg := {| syncMode := syncMode (walCfg cfg);
                  flushRecords := if 0 <? records then records else flushRecords (walCfg cfg);
                  flushBytes := if 0 <? bytes then bytes else flushBytes (walCfg cfg) |};
     flushInterval := if 0 <? interval then interval else flushInterval cfg;
     compactBytes := compactBytes cfg; requestBuffer := requestBuffer cfg |}.

Definition WithCompactBytes (bytes : Z) (cfg : fileRegistryV2Config) : fileRegistryV2Config :=
  {| walCfg := walCfg cfg; flushInterval := flushInterval cfg; compactBytes := bytes; requestBuffer := requestBuffer cfg |}.

(** The configuration [NewFileRegistryV2] ends up with. *)
Definition configure (opts : list (fileRegistryV2Config -> fileRegistryV2Config)) : fileRegistryV2Config :=
  let cfg := foldl (fun c opt => opt c) defaultFileRegistryV2Config opts in
  {| walCfg := {| syncMode := syncMode (walCfg cfg);
                  flushRecords := if flushRecords (walCfg cfg) <=? 0 then 64 else flushRecords (walCfg cfg);
                  flushBytes := if flushBytes (walCfg cfg) <=? 0 then 64 * 1024 else flushBytes (walCfg cfg) |};
     flushInterval := if flushInterval cfg <=? 0 then 2 * 1000000 else flushInterval cfg;
     compactBytes := compactBytes cfg; requestBuffer := if requestBuffer cfg <=? 0 then 1024 else requestBuffer cfg |}.

Record FileRegistryV2 := { v2_memory : MemoryRegistry; v2_snapshot : option (list Z); v2_wal : walState }.

Section V2.
Context `{Json} (cfg : fileRegistryV2Config) (range : service_order) (visit : record_order).

(** [submit]: [refused] is whether the context is done, or the log closed, when the
    request is offered; then the caller waits for the acknowledgement. *)
Definition submit (refused : bool) (q : request) (ack : nat) (w : walState) : bool * walState :=
  if refused || negb (running w) then (false, w)
  else let '(acks, w) := run_step (walCfg cfg) q w in (bool_decide ((ack, true) ∈ acks), w).

Definition Append (refused : bool) (encnow : Z) (rec : WALRecord) (w : walState) : bool * walState :=
  match encodeFileRegistryWALRecord encnow rec with
  | None => (false, w)
  | Some data => submit refused (RAppend 0 data) 0 w
  end.

Definition wal_Reset (refused : bool) (encnow : Z) (mark : WALRecord) (w : walState) : bool * walState :=
  match encodeFileRegistryWALRecord encnow mark with
  | None => (false, w)
  | Some data => submit refused (RReset 0 data) 0 w
  end.

Definition newRegisterWALRecord (inst : Instance) (ttl now : Z) : option WALRecord :=
  payload ← marshal_payload {| p_Status := Code_String (Status_ inst); p_Labels := Labels inst;
                              p_RegistrationEpoch := RegistrationEpoch inst; p_OwnerToken := OwnerToken inst |};
  Some {| w_op := OpRegister; w_timestamp := now; w_service := Service inst; w_id := ID inst; w_address := Address inst;
          w_ttl := ttl; w_payload := payload; w_serviceLen := 0; w_idLen := 0; w_addressLen := 0; w_payloadLen := 0 |}.

Definition set_memory (m : MemoryRegistry) (r : FileRegistryV2) : FileRegistryV2 :=
  {| v2_memory := m; v2_snapshot := v2_snapshot r; v2_wal := v2_wal r |}.

Definition set_wal (w : walState) (r : FileRegistryV2) : FileRegistryV2 :=
  {| v2_memory := v2_memory r; v2_snapshot := v2_snapshot r; v2_wal := w |}.

(** What the operating system and the context do to a compaction, and the clock
    readings of the snapshot and of the mark. *)
Record compact_env := { c_ctxErr : bool; c_failed : bool; c_refused : bool; c_now : Z; c_mark : Z; c_encnow : Z }.

(** [writeFileRegistrySnapshotFile]: the file is replaced by a rename. *)
Definition writeFileRegistrySnapshotFile (failed : bool) (recs : list fileRegistryRecord) (r : FileRegistryV2)
  : bool * FileRegistryV2 :=
  match marshal_snapshot recs with
  | None => (false, r)
  | Some raw => if failed then (false, r)
                else (true, {| v2_memory := v2_memory r; v2_snapshot := Some raw; v2_wal := v2_wal r |})
  end.

(** The first half of [Compact]. *)
Definition compact_snapshot (env : compact_env) (r : FileRegistryV2) : bool * FileRegistryV2 :=
  writeFileRegistrySnapshotFile (c_failed env) (snapshotMemoryRegistry range visit (c_now env) (v2_memory r)) r.

Definition Compact (env : compact_env) (r : FileRegistryV2) : option file_error * FileRegistryV2 :=
  if c_ctxErr env then (Some (ErrRegistry ErrContext), r)
  else
    let '(ok, r) := compact_snapshot env r in
    if negb ok then (Some ErrFile, r)
    else
      let '(ok, w) := wal_Reset (c_refused env) (c_encnow env) (newSnapshotMarkWALRecord (c_mark env)) (v2_wal r) in
      (if ok then None else Some ErrCompact, set_wal w r).

Definition maybeCompact (env : compact_env) (r : FileRegistryV2) : option file_error * FileRegistryV2 :=
  if (compactBytes cfg <=? 0) || (size (v2_wal r) <? compactBytes cfg) then (None, r) else Compact env r.

(** [now] is the clock of the registration, [now2] of the snapshot published by the
    memory registry. *)
Definition v2_Register (ctxErr refused : bool) (env : compact_env) (epoch token : string) (inst : Instance)
    (ttl now now2 encnow : Z) (r : FileRegistryV2) : option file_error * FileRegistryV2 :=
  if ctxErr then (Some (ErrRegistry ErrContext), r)
  else if bool_decide (ID inst = ""%string \/ Service inst = ""%string \/ Address inst = ""%string) || (ttl <=? 0)
  then (Some (ErrRegistry ErrInvalidInstance), r)
  else
    let inst := {| ID := ID inst; Service := Service inst; Address := Address inst;
      Status_ := if bool_decide (Status_ inst = Unspecified) then Healthy else Status_ inst; Labels := Labels inst;
      LastSeen := now; RegistrationEpoch := epoch; OwnerToken := token |} in
    match newRegisterWALRecord inst ttl now with
    | None => (Some ErrFile, r)
    | Some record =>
        match Append refused encnow record (v2_wal r) with
        | (false, w) => (Some ErrWAL, set_wal w r)
        | (true, w) =>
            let m := restoreRecord visit epoch token inst (time_Add now ttl) false now2 now2 (v2_memory r) in
            maybeCompact env (set_memory m (set_wal w r))
        end
    end.

(** [heartbeat]; [mid] is what readers, which do not take the lock [writes], do to
    the memory registry between the append and the update. *)
Definition v2_heartbeat (ctxErr refused : bool) (env : compact_env) (mid : MemoryRegistry -> MemoryRegistry)
    (service id registrationEpoch ownerToken : string) (ttl now encnow : Z) (requireEpoch requireOwner : bool)
    (r : FileRegistryV2) : option file_error * FileRegistryV2 :=
  if ctxErr then (Some (ErrRegistry ErrContext), r)
  else if bool_decide (service = ""%string \/ id = ""%string) || (ttl <=? 0) then (Some (ErrRegistry ErrInvalidInstance), r)
  else
    let record := newHeartbeatWALRecord service id ttl now in
    match validateHeartbeatWithOwner false service id registrationEpoch ownerToken ttl requireEpoch requireOwner (v2_memory r) with
    | Some e => (Some (ErrRegistry e), r)
    | None =>
        match Append refused encnow record (v2_wal r) with
        | (false, w) => (Some ErrWAL, set_wal w r)
        | (true, w) =>
            match heartbeatAtWithOwner visit false service id registrationEpoch ownerToken ttl now requireEpoch requireOwner
                    (mid (v2_memory r)) with
            | (Some e, m) => (Some (ErrRegistry e), set_memory m (set_wal w r))
            | (None, m) => maybeCompact env (set_memory m (set_wal w r))
            end
        end
    end.

Definition v2_Heartbeat (ctxErr refused : bool) (env : compact_env) mid (service id : string) (ttl now encnow : Z) r :=
  v2_heartbeat ctxErr refused env mid service id "" "" ttl now encnow false false r.

Definition v2_HeartbeatWithEpoch (ctxErr refused : bool) (env : compact_env) mid (service id epoch : string)
    (ttl now encnow : Z) r :=
  if bool_decide (epoch = ""%string) then (Some (ErrRegistry ErrInvalidInstance), r)
  else v2_heartbeat ctxErr refused env mid service id epoch "" ttl now encnow true false r.

Definition v2_HeartbeatWithOwner (ctxErr refused : bool) (env : compact_env) mid (service id epoch token : string)
    (ttl now encnow : Z) r :=
  if bool_decide (epoch = ""%string \/ token = ""%string) then (Some (ErrRegistry ErrInvalidInstance), r)
  else v2_heartbeat ctxErr refused env mid service id epoch token ttl now encnow true true r.

(** [SweepExpired]: [clock] reads the time of the deletion of a record.  Failures to
    log a deletion are ignored. *)
Definition log_delete (refused : bool) (clock : string * string -> Z) (encnow : Z) (w : walState) (key : string * string)
  : walState := (Append refused encnow (newDeleteExpiredWALRecord key.1 key.2 (clock key)) w).2.

Definition v2_SweepExpired (ctxErr refused : bool) (env : compact_env) (cancel : option nat) (ord : gset string -> list string)
    (now : Z) (clock : string * string -> Z) (encnow : Z) (r : FileRegistryV2) : Z * FileRegistryV2 :=
  let '(expired, m) := sweepExpiredRecords visit ctxErr cancel ord now (v2_memory r) in
  let r := set_memory m (set_wal (foldl (log_delete refused clock encnow) (v2_wal r) expired) r) in
  (Z.of_nat (length expired), if bool_decide (expired = []) then r else (maybeCompact env r).2).

Definition v2_Close (refused : bool) (r : FileRegistryV2) : bool * FileRegistryV2 :=
  let '(ok, w) := submit refused (RClose 0) 0 (v2_wal r) in (ok, set_wal w r).

(** ** Recovery *)

(** [loadSnapshot] *)
Definition loadSnapshot (fresh : Instance -> string * string) (now : Z) (file : option (list Z)) (memory : MemoryRegistry)
  : option file_error * MemoryRegistry :=
  match file with
  | None | Some [] => (None, memory)
  | Some raw =>
      match unmarshal_snapshot raw with
      | None => (Some ErrFile, memory)
      | Some recs =>
          (None, foldl (fun m rec => let '(epoch, token) := fresh (f_Instance rec) in
                     restoreHistorical visit epoch token (f_Instance rec) (f_ExpiresAt rec) now m) memory recs)
      end
  end.

Definition applyWALRecord (fresh : Instance -> string * string) (now : Z) (record : WALRecord) (memory : MemoryRegistry)
  : option file_error * MemoryRegistry :=
  if w_op record =? OpRegister then
    let payload :=
      if bool_decide (w_payload record = [])
      then Some {| p_Status := ""; p_Labels := None; p_RegistrationEpoch := ""; p_OwnerToken := "" |}
      else unmarshal_payload (w_payload record) in
    match payload with
    | None => (Some ErrFile, memory)
    | Some payload =>
        let statusCode := Parse (p_Status payload) in
        let inst := {| ID := w_id record; Service := w_service record; Address := w_address record;
          Status_ := if bool_decide (statusCode = Unspecified) then Healthy else statusCode; Labels := p_Labels payload;
          LastSeen := w_timestamp record; RegistrationEpoch := p_RegistrationEpoch payload;
          OwnerToken := p_OwnerToken payload |} in
        let '(epoch, token) := fresh inst in
        (None, restoreHistorical visit epoch token inst (time_Add (w_timestamp record) (w_ttl record)) now memory)
    end
  else if w_op record =? OpHeartbeat then
    match heartbeatAtWithOwner visit false (w_service record) (w_id record) "" "" (w_ttl record) (w_timestamp record)
            false false memory with
    | (Some e, m) => (if bool_decide (e = ErrInstanceNotFound) then None else Some (ErrRegistry e), m)
    | (None, m) => (None, m)
    end
  else if w_op record =? OpDeleteExpired then
    (None, (deleteRecord visit (w_service record) (w_id record) (w_timestamp record) memory).2)
  else if w_op record =? OpSnapshotMark then (None, memory)
  else (Some ErrWAL, memory).

(** [replayWAL]: [truncFailed] is whether the truncation fails.  The content of the
    log afterwards. *)
Definition replayWAL (fresh : Instance -> string * string) (now : Z) (truncFailed : bool) (file : option (list Z))
    (memory : MemoryRegistry) : option (option file_error * option (list Z) * MemoryRegistry) :=
  match replayFileRegistryWAL (applyWALRecord fresh now) file memory with
  | None => None
  | Some (Some e, _, memory) => Some (Some e, file, memory)
  | Some (None, res, memory) =>
      if truncated res then
        if truncFailed then Some (Some ErrFile, file, memory)
        else Some (None, take (Z.to_nat (validBytes res)) <$> file, memory)
      else Some (None, file, memory)
  end.

(** [NewFileRegistryV2] on the files of an earlier run, under the configuration
    [configure] gives, with one reading of the clock; [None] is a replay that does
    not end.  [durable] and [outcomes] describe the log file that is opened. *)
Definition NewFileRegistryV2 (path : string) (fresh : Instance -> string * string) (now : Z) (ord : gset string -> list string)
    (truncFailed openFailed : bool) (env : compact_env) (durable : nat) (outcomes : list outcome)
    (snapshotFile walFile : option (list Z)) : option (file_error + FileRegistryV2) :=
  if bool_decide (path = ""%string) then Some (inl (ErrRegistry ErrInvalidInstance))
  else
    match loadSnapshot fresh now snapshotFile NewMemoryRegistry with
    | (Some e, _) => Some (inl e)
    | (None, memory) =>
        match replayWAL fresh now truncFailed walFile memory with
        | None => None
        | Some (Some e, _, _) => Some (inl e)
        | Some (None, walFile, memory) =>
            let memory := (SweepExpired visit false None ord now memory).2 in
            if openFailed then Some (inl ErrFile)
            else
              let r := {| v2_memory := memory; v2_snapshot := snapshotFile;
                          v2_wal := openFileRegistryWAL (default [] walFile) durable outcomes |} in
              if (0 <? compactBytes cfg) && (compactBytes cfg <=? size (v2_wal r)) then
                match Compact env r with
                | (Some e, _) => Some (inl e)
                | (None, r) => Some (inr r)
                end
              else Some (inr r)
        end
    end.
End V2.
