(* ===== verification/FileRecovery.v ===== *)
(** * What the files of the registry stand for

    A snapshot file and a log stand for a table of leases: the records of the
    snapshot, changed by the records of the log in order.  Recovery builds a memory
    registry with exactly those leases. *)
From Stdlib Require Import String.
From S2P Require Import Prelude GoStd GoSort GoHeap GoBytes Status Registry RegistrySpec Wal WalSpec WalWriter FileRegistry.

(** ** What [encoding/json] promises *)

(** [utf8.ValidString] on the bytes of a string. *)
Definition is_cont (b : Z) : bool := (128 <=? b) && (b <=? 191).

Fixpoint valid_utf8 (bs : list Z) : bool :=
  match bs with
  | [] => true
  | a :: t =>
      if a <? 128 then valid_utf8 t
      else match t with
      | [] => false
      | b :: t =>
          if (194 <=? a) && (a <=? 223) then is_cont b && valid_utf8 t
          else match t with
          | [] => false
          | c :: t =>
              if (224 <=? a) && (a <=? 239) then
                (if a =? 224 then 160 <=? b else true) && (if a =? 237 then b <=? 159 else true) && is_cont b && is_cont c && valid_utf8 t
              else match t with
              | [] => false
              | d :: t =>
                  (240 <=? a) && (a <=? 244) && (if a =? 240 then 144 <=? b else true) && (if a =? 244 then b <=? 143 else true)
                  && is_cont b && is_cont c && is_cont d && valid_utf8 t
              end
          end
      end
  end.

Definition ValidString (s : string) : bool := valid_utf8 (string_bytes s).

Definition valid_labels (labels : option (gmap string string)) : Prop :=
  match labels with Some m => map_Forall (fun k v => ValidString k = true /\ ValidString v = true) m | None => True end.

(** The years 0 to 9999, which [time.Time] marshals. *)
Definition json_time (t : Z) : Prop := - 62167219200 * 1000000000 <= t < 253402300800 * 1000000000.

Definition text_safe (inst : Instance) : Prop :=
  ValidString (ID inst) = true /\ ValidString (Service inst) = true /\ ValidString (Address inst) = true /\
  ValidString (RegistrationEpoch inst) = true /\ ValidString (OwnerToken inst) = true /\ valid_labels (Labels inst).

Definition record_safe (rec : fileRegistryRecord) : Prop :=
  text_safe (f_Instance rec) /\ json_time (LastSeen (f_Instance rec)) /\ json_time (f_ExpiresAt rec).

Definition payload_safe (p : fileRegistryRegisterPayload) : Prop :=
  ValidString (p_Status p) = true /\ valid_labels (p_Labels p) /\ ValidString (p_RegistrationEpoch p) = true /\
  ValidString (p_OwnerToken p) = true.

(** The payload omits empty fields, so an empty map is read back as nil. *)
Definition omit_empty (p : fileRegistryRegisterPayload) : fileRegistryRegisterPayload :=
  {| p_Status := p_Status p; p_Labels := if decide (p_Labels p = Some ∅) then None else p_Labels p;
     p_RegistrationEpoch := p_RegistrationEpoch p; p_OwnerToken := p_OwnerToken p |}.

(** Marshalling and unmarshalling invert each other on valid UTF-8 and on times
    within the years of RFC 3339. *)
Class JsonLaw `{Json} : Prop := {
  snapshot_roundtrip recs :
    Forall record_safe recs -> exists raw, marshal_snapshot recs = Some raw /\ raw <> [] /\ unmarshal_snapshot raw = Some recs;
  payload_roundtrip p :
    payload_safe p ->
    exists raw, marshal_payload p = Some raw /\ bytes_ok raw /\ raw <> [] /\ unmarshal_payload raw = Some (omit_empty p)
}.

(** ** Tables *)

Abbreviation table := (gmap (string * string) lease).

Definition put (rec : fileRegistryRecord) (T : table) : table :=
  <[(Service (f_Instance rec), ID (f_Instance rec)) := {| l_instance := f_Instance rec; l_expires := f_ExpiresAt rec |}]> T.

Definition table_of (recs : list fileRegistryRecord) : table := foldl (fun T rec => put rec T) ∅ recs.

(** A lease as the registry writes it. *)
Record lease_ok (key : string * string) (l : lease) : Prop := {
  ok_key : key = (Service (l_instance l), ID (l_instance l));
  ok_complete : complete (l_instance l);
  ok_status : Status_ (l_instance l) <> Unspecified;
  ok_epoch : RegistrationEpoch (l_instance l) <> ""%string;
  ok_token : OwnerToken (l_instance l) <> ""%string;
  ok_text : text_safe (l_instance l);
  ok_seen : json_time (LastSeen (l_instance l));
  ok_expires : json_time (l_expires l)
}.

Definition table_ok (T : table) : Prop := map_Forall lease_ok T.

Definition renew (t ttl : Z) (l : lease) : lease := {| l_instance := renewed (l_instance l) t; l_expires := t + ttl |}.

(** The instance of a registration record. *)
Definition logged_instance `{Json} (rec : WALRecord) : option Instance :=
  p ← unmarshal_payload (w_payload rec);
  Some {| ID := w_id rec; Service := w_service rec; Address := w_address rec; Status_ := Normalized (Parse (p_Status p));
          Labels := p_Labels p; LastSeen := w_timestamp rec; RegistrationEpoch := p_RegistrationEpoch p;
          OwnerToken := p_OwnerToken p |}.

(** What a record of the log does to the table. *)
Definition effect `{Json} (T : table) (rec : WALRecord) : table :=
  let key := (w_service rec, w_id rec) in
  if w_op rec =? OpRegister then
    match logged_instance rec with
    | Some inst => put {| f_Instance := inst; f_ExpiresAt := w_timestamp rec + w_ttl rec |} T
    | None => T
    end
  else if w_op rec =? OpHeartbeat then alter (renew (w_timestamp rec) (w_ttl rec)) key T
  else if w_op rec =? OpDeleteExpired then delete key T
  else T.

(** ** A registry that holds exactly a table *)

Record mirrors (now : Z) (m : MemoryRegistry) (T : table) : Prop := {
  mirrors_state s st : services m !! s = Some st -> state_ok now st;
  mirrors_exact s id : to_lease <$> lookup_record m s id = T !! (s, id)
}.

Lemma mirrors_refines now m T : mirrors now m T -> refines ∅ now m T.
Proof.
  intros [Hst Hex]. split.
  - intros s st H. by apply (Hst s).
  - intros s st H _. by apply (Hst s).
  - intros s id rec H. by rewrite <- Hex, H.
  - intros s id l H _. rewrite <- Hex in H. by apply fmap_Some in H as (rec & ? & ->); eauto.
Qed.

Lemma mirrors_new now : mirrors now NewMemoryRegistry ∅.
Proof. split; [done|]. intros s id. by rewrite lookup_empty. Qed.

Lemma mirrors_services now m m' T : services m' = services m -> mirrors now m T -> mirrors now m' T.
Proof. intros E [Hst Hex]. split; unfold lookup_record in *; rewrite E; done. Qed.

Lemma mirrors_set now m T T' s st :
  mirrors now m T -> state_ok now st -> (forall id, to_lease <$> records st !! id = T' !! (s, id)) ->
  (forall s' id, s <> s' -> T' !! (s', id) = T !! (s', id)) -> mirrors now (set_service m s st) T'.
Proof.
  intros [Hst Hex] Hok Hs Hother. split.
  - intros s' st'. simpl. intros [[<- <-]|[Hne H]]%lookup_insert_Some; [done|by apply (Hst s')].
  - intros s' id. rewrite lookup_set_service. case_decide; [by subst|]. by rewrite Hex, Hother.
Qed.

Lemma mirrors_get now m T s : zero_time <= now -> mirrors now m T -> state_ok now (get_service m s).
Proof.
  intros Hz [Hst _]. unfold get_service. destruct (services m !! s) as [st|] eqn:E; [by apply (Hst s)|].
  by apply newServiceState_ok.
Qed.

Section Recovery.
Context (v : record_order) (Hv : forall m, v m ≡ₚ map_to_list m) (now : Z).

(** The snapshot of a service is rebuilt at some time up to now. *)
Lemma rebuild_at_ok service b st :
  zero_time <= b <= now -> keyed (records st) -> state_ok now (rebuildSnapshotLocked v service b st).
Proof.
  intros Hb Hk. destruct (rebuild_ok v service b st Hv ltac:(lia) Hk) as [? Hp]. split; [done|].
  by apply (published_mono b); [lia|].
Qed.

Lemma mirrors_insert b m T s id rec :
  zero_time <= b <= now -> mirrors now m T -> ID (instance rec) = id ->
  mirrors now (set_service m s (rebuildSnapshotLocked v s b
      (set_records (get_service m s) (<[id := rec]> (records (get_service m s)))))) (<[(s, id) := to_lease rec]> T).
Proof.
  intros Hb Hm Hid. pose proof (mirrors_get now m T s ltac:(lia) Hm) as [Hk _].
  apply (mirrors_set now m T); [done | | |].
  - apply rebuild_at_ok; [done|]. by apply map_Forall_insert_2.
  - intros id'. simpl. destruct (decide (id = id')) as [<-|Hne]; [by rewrite !lookup_insert_eq|].
    rewrite !lookup_insert_ne by congruence. rewrite get_service_records. apply (mirrors_exact _ _ _ Hm).
  - intros s' id' Hne. by rewrite lookup_insert_ne by congruence.
Qed.

Lemma restore_mirrors epoch token m T rec :
  zero_time <= now -> mirrors now m T -> lease_ok (Service (f_Instance rec), ID (f_Instance rec))
    {| l_instance := f_Instance rec; l_expires := f_ExpiresAt rec |} ->
  mirrors now (restoreHistorical v epoch token (f_Instance rec) (f_ExpiresAt rec) now m) (put rec T).
Proof.
  intros Hz Hm [_ (Hid & Hs & Ha) Hst He Ht _ _ _]. cbn in *. unfold restoreHistorical, restoreRecord.
  rewrite (bool_decide_eq_false_2 (_ \/ _)) by naive_solver. cbn [andb].
  rewrite !(bool_decide_eq_false_2 (_ = _)) by done.
  eapply (mirrors_services _ (store_record v (next_generation m) now
    {| instance := f_Instance rec; expiresAt := f_ExpiresAt rec; generation := generations (next_generation m) |}));
    [by destruct (f_Instance rec)|].
  apply (mirrors_insert now (next_generation m) T _ _
    {| instance := f_Instance rec; expiresAt := f_ExpiresAt rec; generation := generations (next_generation m) |});
    [lia | by apply (mirrors_services _ m) | done].
Qed.

Lemma heartbeat_mirrors m T s id ttl t :
  zero_time <= t <= now -> mirrors now m T -> s <> ""%string -> id <> ""%string -> 0 < ttl ->
  exists m', mirrors now m' (alter (renew t ttl) (s, id) T) /\
    (heartbeatAtWithOwner v false s id "" "" ttl t false false m = (None, m') \/
     heartbeatAtWithOwner v false s id "" "" ttl t false false m = (Some ErrInstanceNotFound, m')).
Proof.
  intros Hb Hm Hs Hid Httl. unfold heartbeatAtWithOwner. rewrite (bool_decide_eq_false_2 (_ \/ _)) by naive_solver.
  rewrite (proj2 (Z.leb_gt _ _)) by lia. cbn [orb].
  pose proof (mirrors_exact _ _ _ Hm s id) as Hx. unfold lookup_record in Hx.
  assert (Hnone : T !! (s, id) = None -> alter (renew t ttl) (s, id) T = T).
  { intros HT. apply map_eq. intros k. destruct (decide ((s, id) = k)) as [<-|]; [by rewrite lookup_alter_eq, HT | by rewrite lookup_alter_ne]. }
  destruct (services m !! s) as [st|] eqn:Hst; [|simpl in Hx; rewrite Hnone by done; eauto].
  simpl in Hx. destruct (records st !! id) as [rec|] eqn:Hrec; [|simpl in Hx; rewrite Hnone by done; eexists; split; [|by right]].
  2: by apply (mirrors_services _ m).
  cbn [andb]. eexists. split; [|by left]. simpl in Hx.
  set (rec' := {| instance := renewed (instance rec) t; expiresAt := t + ttl; generation := generations (next_generation m) |}).
  pose proof (mirrors_state _ _ _ Hm s st Hst) as [Hk _].
  pose proof (mirrors_insert t m T s id rec' Hb Hm (Hk id rec Hrec)) as HI.
  assert (E : alter (renew t ttl) (s, id) T = <[(s, id) := to_lease rec']> T).
  { apply map_eq. intros k. destruct (decide ((s, id) = k)) as [<-|]; [by rewrite lookup_alter_eq, lookup_insert_eq, <- Hx|].
    by rewrite lookup_alter_ne, lookup_insert_ne. }
  rewrite E. unfold get_service in HI. rewrite Hst in HI. by eapply mirrors_services, HI.
Qed.

Lemma delete_mirrors m T s id t :
  zero_time <= t <= now -> mirrors now m T -> mirrors now (deleteRecord v s id t m).2 (delete (s, id) T).
Proof.
  intros Hb Hm. pose proof (mirrors_exact _ _ _ Hm s id) as Hx. unfold lookup_record in Hx. unfold deleteRecord.
  assert (Hnone : T !! (s, id) = None -> delete (s, id) T = T) by (intros HT; by apply delete_id).
  destruct (services m !! s) as [st|] eqn:Hst; [|by simpl in *; rewrite Hnone].
  simpl in Hx. destruct (records st !! id) as [rec|] eqn:Hrec; [|by simpl in *; rewrite Hnone]. cbn [snd].
  pose proof (mirrors_state _ _ _ Hm s st Hst) as [Hk _].
  apply (mirrors_set now m T); [done | apply rebuild_at_ok; [done|]; by apply map_Forall_delete | |].
  - intros id'. simpl. destruct (decide (id = id')) as [<-|Hne]; [by rewrite !lookup_delete_eq|].
    rewrite !lookup_delete_ne by congruence. rewrite <- (lookup_record_services _ _ _ _ Hst). apply (mirrors_exact _ _ _ Hm).
  - intros s' id' Hne. by rewrite lookup_delete_ne by congruence.
Qed.

Context `{Json} (fresh : Instance -> string * string).

(** The records of the log that recovery can apply. *)
Definition replayable (rec : WALRecord) : Prop :=
  zero_time <= w_timestamp rec <= now /\
  ((w_op rec = OpRegister /\ w_payload rec <> [] /\
    exists inst, logged_instance rec = Some inst /\
      lease_ok (w_service rec, w_id rec) {| l_instance := inst; l_expires := w_timestamp rec + w_ttl rec |}) \/
   (w_op rec = OpHeartbeat /\ w_service rec <> ""%string /\ w_id rec <> ""%string /\ 0 < w_ttl rec) \/
   w_op rec = OpDeleteExpired \/ w_op rec = OpSnapshotMark).

Lemma apply_mirrors m T rec :
  mirrors now m T -> replayable rec ->
  exists m', applyWALRecord v fresh now rec m = (None, m') /\ mirrors now m' (effect T rec).
Proof.
  intros Hm [Ht Hrec]. unfold applyWALRecord, effect.
  destruct Hrec as [(-> & Hp & inst & Hinst & Hok)|[(-> & Hs & Hid & Httl)|[->| ->]]]; cbn [Z.eqb OpRegister OpHeartbeat OpDeleteExpired OpSnapshotMark Pos.eqb].
  - rewrite bool_decide_eq_false_2 by done. rewrite Hinst. unfold logged_instance in Hinst.
    destruct (unmarshal_payload (w_payload rec)) as [p|]; [|done]. cbn [mbind option_bind] in Hinst. injection Hinst as <-.
    rewrite default_status. destruct (fresh _) as [epoch token]. eexists. split; [done|].
    apply (restore_mirrors epoch token m T {| f_Instance := _; f_ExpiresAt := _ |}); [lia | done | done].
  - destruct (heartbeat_mirrors m T (w_service rec) (w_id rec) (w_ttl rec) (w_timestamp rec) Ht Hm Hs Hid Httl) as (m' & Hm' & [-> | ->]).
    + by eexists.
    + rewrite bool_decide_eq_true_2 by done. by eexists.
  - eexists. split; [done|]. by apply delete_mirrors.
  - by eexists.
Qed.

Lemma apply_all_mirrors recs m T :
  mirrors now m T -> Forall replayable recs ->
  exists m', apply_all (applyWALRecord v fresh now) recs m = (None, m') /\ mirrors now m' (foldl effect T recs).
Proof.
  intros Hm Hrecs. revert m T Hm. induction Hrecs as [|rec recs Hrec _ IH]; intros m T Hm; cbn [apply_all foldl]; [by eexists|].
  destruct (apply_mirrors m T rec Hm Hrec) as (m1 & -> & Hm1). by apply IH.
Qed.

Lemma table_of_app recs rec : table_of (recs ++ [rec]) = put rec (table_of recs).
Proof. unfold table_of. by rewrite foldl_app. Qed.

(** Restoring the records of a snapshot. *)
Lemma load_mirrors recs m T :
  zero_time <= now -> mirrors now m T ->
  Forall (fun rec => lease_ok (Service (f_Instance rec), ID (f_Instance rec)) {| l_instance := f_Instance rec; l_expires := f_ExpiresAt rec |}) recs ->
  mirrors now (foldl (fun m rec => let '(epoch, token) := fresh (f_Instance rec) in
      restoreHistorical v epoch token (f_Instance rec) (f_ExpiresAt rec) now m) m recs)
    (foldl (fun T rec => put rec T) T recs).
Proof.
  intros Hz Hm Hrecs. revert m T Hm. induction Hrecs as [|rec recs Hrec _ IH]; intros m T Hm; cbn [foldl]; [done|].
  apply IH. destruct (fresh (f_Instance rec)) as [epoch token]. by apply restore_mirrors.
Qed.
End Recovery.
