(* ===== verification/FileRegistrySpec.v ===== *)
(** * The file registry keeps its leases across restarts

    The table the files stand for agrees with the leases the running registry
    honours, on every lease that has not expired: through registrations, heartbeats
    in time, sweeps, readers and compactions, including one that stops between its
    two halves.  A registry restarted from the files therefore serves the same
    leases.  A heartbeat that comes after its lease ran out is honoured by the
    running registry, and can be forgotten by a compaction. *)
From Stdlib Require Import String.
From S2P Require Import Prelude GoStd GoSort GoHeap GoBytes Status Registry RegistrySpec Wal WalSpec WalWriter WalCrash.
From S2P Require Import FileRegistry FileRecovery.

(** ** Replaying a log twice *)

Section Effects.
Context `{Json}.

(** What a record does to one entry of the table. *)
Definition entry_effect (key : string * string) (x : option lease) (rec : WALRecord) : option lease :=
  if decide (key = (w_service rec, w_id rec)) then
    if w_op rec =? OpRegister then
      match logged_instance rec with
      | Some inst => Some {| l_instance := inst; l_expires := w_timestamp rec + w_ttl rec |}
      | None => x
      end
    else if w_op rec =? OpHeartbeat then renew (w_timestamp rec) (w_ttl rec) <$> x
    else if w_op rec =? OpDeleteExpired then None
    else x
  else x.

Lemma effect_lookup T rec key : effect T rec !! key = entry_effect key (T !! key) rec.
Proof.
  unfold effect, entry_effect, put. destruct (w_op rec =? OpRegister) eqn:E1.
  - destruct (logged_instance rec) as [inst|] eqn:Hi; [|by case_decide]. unfold logged_instance in Hi.
    destruct (unmarshal_payload (w_payload rec)); [|done]. cbn [mbind option_bind] in Hi. injection Hi as <-. cbn.
    case_decide as Hk; [subst; by rewrite lookup_insert_eq | by rewrite lookup_insert_ne by congruence].
  - destruct (w_op rec =? OpHeartbeat).
    + case_decide as Hk; [subst; by rewrite lookup_alter_eq | by rewrite lookup_alter_ne by congruence].
    + destruct (w_op rec =? OpDeleteExpired); [|by case_decide].
      case_decide as Hk; [subst; by rewrite lookup_delete_eq | by rewrite lookup_delete_ne by congruence].
Qed.

Lemma effects_lookup recs T key : foldl effect T recs !! key = foldl (entry_effect key) (T !! key) recs.
Proof. revert T. induction recs as [|rec recs IH]; intros T; simpl; [done|]. by rewrite IH, effect_lookup. Qed.

Lemma renew_twice t ttl t' ttl' l : renew t ttl (renew t' ttl' l) = renew t ttl l.
Proof. done. Qed.

(** A log forgets the entry it starts from, renews it, or leaves it. *)
Lemma entry_effects_shape key recs :
  (exists c, forall x, foldl (entry_effect key) x recs = c) \/
  (exists t ttl, forall x, foldl (entry_effect key) x recs = renew t ttl <$> x) \/
  (forall x, foldl (entry_effect key) x recs = x).
Proof.
  induction recs as [|rec recs IH] using rev_ind; [by right; right|].
  assert (Hsnoc : forall x, foldl (entry_effect key) x (recs ++ [rec]) = entry_effect key (foldl (entry_effect key) x recs) rec)
    by (intros x; by rewrite foldl_app).
  assert (Hstep : (exists c, forall x, entry_effect key x rec = c) \/
    (exists t ttl, forall x, entry_effect key x rec = renew t ttl <$> x) \/ (forall x, entry_effect key x rec = x)).
  { unfold entry_effect. destruct (decide (key = (w_service rec, w_id rec))); [|auto].
    destruct (w_op rec =? OpRegister); [destruct (logged_instance rec); eauto|].
    destruct (w_op rec =? OpHeartbeat); [eauto|]. destruct (w_op rec =? OpDeleteExpired); eauto. }
  destruct Hstep as [[c Hc]|[(t & ttl & Hr)|Hid]].
  - left. exists c. intros x. by rewrite Hsnoc.
  - destruct IH as [[c IH]|[(t' & ttl' & IH)|IH]].
    + left. exists (renew t ttl <$> c). intros x. by rewrite Hsnoc, IH, Hr.
    + right. left. exists t, ttl. intros x. rewrite Hsnoc, IH, Hr. by destruct x.
    + right. left. exists t, ttl. intros x. by rewrite Hsnoc, IH, Hr.
  - destruct IH as [[c IH]|[(t' & ttl' & IH)|IH]].
    + left. exists c. intros x. by rewrite Hsnoc, IH, Hid.
    + right. left. exists t', ttl'. intros x. by rewrite Hsnoc, IH, Hid.
    + right. right. intros x. by rewrite Hsnoc, IH, Hid.
Qed.

Lemma entry_effects_idem key recs x :
  foldl (entry_effect key) (foldl (entry_effect key) x recs) recs = foldl (entry_effect key) x recs.
Proof.
  destruct (entry_effects_shape key recs) as [[c H1]|[(t & ttl & H1)|H1]]; rewrite !H1; [done | by destruct x | done].
Qed.

Lemma entry_effects_none key recs x :
  foldl (entry_effect key) None recs = foldl (entry_effect key) x recs \/ foldl (entry_effect key) None recs = None.
Proof.
  destruct (entry_effects_shape key recs) as [[c H1]|[(t & ttl & H1)|H1]]; rewrite !H1; auto.
Qed.
End Effects.

(** ** Agreement on live leases *)

Definition agree (clock : Z) (L T : table) : Prop :=
  forall key l, clock < l_expires l -> (L !! key = Some l <-> T !! key = Some l).

Lemma agree_mono clock now L T : clock <= now -> agree clock L T -> agree now L T.
Proof. intros Hle H key l Hl. apply H. lia. Qed.

Lemma agree_insert clock L T key l : agree clock L T -> agree clock (<[key := l]> L) (<[key := l]> T).
Proof.
  intros H key' l' Hl. destruct (decide (key = key')) as [<-|]; [by rewrite !lookup_insert_eq|].
  rewrite !lookup_insert_ne by done. by apply H.
Qed.

(** Deleting a lapsed lease. *)
Lemma agree_delete clock L T key l :
  agree clock L T -> L !! key = Some l -> l_expires l <= clock -> agree clock L (delete key T).
Proof.
  intros H Hl Hle key' l' Hl'. destruct (decide (key = key')) as [<-|].
  - rewrite lookup_delete_eq. split; [intros E; simplify_eq; lia | done].
  - rewrite lookup_delete_ne by done. by apply H.
Qed.

Lemma agree_listing clock L T s now insts :
  clock <= now -> agree clock L T -> listing T s now insts -> listing L s now insts.
Proof.
  intros Hle H [Hsort Hin]. split; [done|]. intros inst. rewrite Hin.
  split; intros (id & l & Hl & Hlt & ->); exists id, l; (split; [|done]); (apply (H (s, id) l); [lia|done]).
Qed.

(** Replaying a log over a table that holds the live leases it led to. *)
Lemma agree_replay `{Json} clock L T0 S recs :
  agree clock L (foldl effect T0 recs) ->
  (forall key l, S !! key = Some l <-> L !! key = Some l /\ clock < l_expires l) -> agree clock L (foldl effect S recs).
Proof.
  intros Hag HS key l Hl. pose proof (Hag key) as Hk. rewrite effects_lookup in Hk. rewrite effects_lookup.
  destruct (S !! key) as [l'|] eqn:HSk.
  - apply HS in HSk as [HL Hlt]. apply Hk in HL as HT; [|done]. rewrite <- HT, entry_effects_idem, HT, HL. done.
  - destruct (entry_effects_none key recs (T0 !! key)) as [-> | ->]; [by apply Hk|]. split; [|done].
    intros HL. assert (S !! key = Some l) by by apply HS. congruence.
Qed.

(** ** Snapshots of the memory registry *)

Definition rec_lease (rec : fileRegistryRecord) : lease := {| l_instance := f_Instance rec; l_expires := f_ExpiresAt rec |}.
Definition rec_key (rec : fileRegistryRecord) : string * string := (Service (f_Instance rec), ID (f_Instance rec)).

Lemma table_of_lookup recs key l :
  (forall a b, a ∈ recs -> b ∈ recs -> rec_key a = rec_key b -> rec_lease a = rec_lease b) ->
  table_of recs !! key = Some l <-> exists rec, rec ∈ recs /\ rec_key rec = key /\ rec_lease rec = l.
Proof.
  induction recs as [|rec recs IH] using rev_ind; intros Hf.
  { unfold table_of. simpl. rewrite lookup_empty. split; [done|]. intros (rec & Hin & _). by apply not_elem_of_nil in Hin. }
  rewrite table_of_app. unfold put. fold (rec_key rec) (rec_lease rec).
  rewrite lookup_insert_Some, IH by (intros a b Ha Hb; apply Hf; apply elem_of_app; auto).
  assert (Hrec : rec ∈ recs ++ [rec]) by (apply elem_of_app; right; by apply list_elem_of_singleton). split.
  - intros [[<- <-]|[Hne (rec' & ? & <- & <-)]]; [by exists rec|]. exists rec'. rewrite elem_of_app. auto.
  - intros (rec' & [Hin|Hin%list_elem_of_singleton]%elem_of_app & <- & <-); [|subst; auto].
    destruct (decide (rec_key rec = rec_key rec')) as [E|E]; [left; split; [done|] | right; split; [done|]; eauto].
    apply Hf; [done | by apply elem_of_app; left | done].
Qed.

Section Snapshots.
Context (range : service_order) (v : record_order).
Context (Hrange : forall m, range m ≡ₚ map_to_list m) (Hv : forall m, v m ≡ₚ map_to_list m).

Lemma elem_of_snapshot now m rec :
  rec ∈ snapshotMemoryRegistry range v now m <->
  exists s id r, lookup_record m s id = Some r /\ now < expiresAt r /\
    rec = {| f_Instance := instance r; f_ExpiresAt := expiresAt r |}.
Proof.
  unfold snapshotMemoryRegistry. rewrite Slice_perm, list_elem_of_fmap. split.
  - intros (r & -> & [Hl Hr]%list_elem_of_filter). apply list_elem_of_In, in_concat in Hr as (rs & Hrs & Hr).
    apply list_elem_of_In, list_elem_of_fmap in Hrs as ([s st] & -> & Hst). rewrite Hrange in Hst. apply elem_of_map_to_list in Hst.
    apply list_elem_of_In, list_elem_of_fmap in Hr as ([id r'] & -> & Hr). rewrite Hv in Hr. apply elem_of_map_to_list in Hr.
    exists s, id, r'. unfold lookup_record. rewrite Hst. split; [done|]. split; [by apply Z.ltb_lt|done].
  - intros (s & id & r & Hr & Hlt & ->). exists r. split; [done|]. apply list_elem_of_filter. split; [by apply Z.ltb_lt|].
    unfold lookup_record in Hr. apply bind_Some in Hr as (st & Hst & Hr).
    apply list_elem_of_In, in_concat. exists (v (records st)).*2. split; apply list_elem_of_In, list_elem_of_fmap.
    + exists (s, st). split; [done|]. rewrite Hrange. by apply elem_of_map_to_list.
    + exists (id, r). split; [done|]. rewrite Hv. by apply elem_of_map_to_list.
Qed.

(** The snapshot of a registry that refines a table holds its live leases. *)
Lemma snapshot_table now m L key l :
  refines ∅ now m L -> table_ok L ->
  table_of (snapshotMemoryRegistry range v now m) !! key = Some l <-> L !! key = Some l /\ now < l_expires l.
Proof.
  intros HR Hok.
  assert (Hmem : forall s id r, lookup_record m s id = Some r -> (s, id) = (Service (instance r), ID (instance r))).
  { intros s id r Hr. apply (refines_sound _ _ _ _ HR) in Hr. apply Hok in Hr as [Hk _ _ _ _ _ _ _]. done. }
  rewrite table_of_lookup.
  - split.
    + intros (rec & (s & id & r & Hr & Hlt & ->)%elem_of_snapshot & <- & <-). cbn. split; [|done].
      unfold rec_key. cbn. rewrite <- (Hmem _ _ _ Hr). by apply (refines_sound _ _ _ _ HR).
    + intros [HL Hlt]. destruct key as [s id]. destruct (refines_live _ _ _ _ HR s id l HL Hlt) as (r & Hr & <-).
      exists {| f_Instance := instance r; f_ExpiresAt := expiresAt r |}. split; [apply elem_of_snapshot; eauto 10|].
      unfold rec_key. cbn. by rewrite <- (Hmem _ _ _ Hr).
  - intros a b (s & id & r & Hr & _ & ->)%elem_of_snapshot (s' & id' & r' & Hr' & _ & ->)%elem_of_snapshot.
    unfold rec_key, rec_lease. cbn. rewrite <- (Hmem _ _ _ Hr), <- (Hmem _ _ _ Hr'). intros [= -> ->]. by simplify_eq.
Qed.

Lemma snapshot_ok now m L rec :
  refines ∅ now m L -> table_ok L -> rec ∈ snapshotMemoryRegistry range v now m -> lease_ok (rec_key rec) (rec_lease rec).
Proof.
  intros HR Hok (s & id & r & Hr & _ & ->)%elem_of_snapshot. apply (refines_sound _ _ _ _ HR) in Hr.
  apply Hok in Hr as Hl. pose proof (ok_key _ _ Hl) as Hk. unfold rec_key, rec_lease. cbn. rewrite Hk in Hl. exact Hl.
Qed.
End Snapshots.

(** ** The log on a file that works *)

Definition quiet (x : wio) : Prop := opened x = true /\ calls x = [] /\ werr x = false.

Lemma file_Write_quiet p x :
  quiet x -> file_Write p x = (length p, false, {| content := content x ++ p; synced := synced x; opened := true; buf := buf x;
                                                   werr := false; calls := [] |}).
Proof. intros (Ho & Hc & He). unfold file_Write, next_call. by rewrite Hc, Ho, firstn_all, He. Qed.

Lemma Flush_quiet x : quiet x -> (Flush x).1 = false /\ quiet (Flush x).2.
Proof.
  intros Hq. pose proof Hq as (Ho & Hc & He). unfold Flush. rewrite He. case_bool_decide; [done|].
  rewrite (file_Write_quiet _ _ Hq). done.
Qed.

Lemma Write_loop_quiet fuel p x : quiet x -> quiet (Write_loop fuel p x).2.
Proof.
  revert p x. induction fuel as [|fuel IH]; intros p x Hq; cbn [Write_loop]; [done|]. case_test; [done|].
  case_bool_decide.
  - rewrite (file_Write_quiet _ _ Hq). apply IH. done.
  - apply IH, Flush_quiet. destruct Hq as (? & ? & ->). done.
Qed.

Lemma Write_quiet p x :
  quiet x -> Z.of_nat (length (buf x)) <= bufferSize ->
  exists y, Write p x = (false, y) /\ quiet y /\ content y ++ buf y = content x ++ buf x ++ p /\ Z.of_nat (length (buf y)) <= bufferSize.
Proof.
  intros Hq Hf. pose proof Hq as (_ & _ & He). pose proof (Write_spec p x He Hf) as Hw.
  pose proof (Write_loop_quiet 3 p x Hq) as Hl. unfold Write in *. destruct (Write_loop 3 p x) as [q y].
  destruct Hl as (Ho & Hc & Hy). cbn [snd] in Ho, Hc, Hy. rewrite Hy in *. cbn [fst snd] in Hw. destruct Hw as [Ha _ _ _ _ Hfit].
  eexists. split; [done|]. split; [done|]. split; [exact Ha|exact Hfit].
Qed.

Section Working.
Context (cfg : walConfig).

(** The log has this content, counting what is buffered. *)
Record working (w : walState) (c : list Z) : Prop := {
  working_quiet : quiet (io w);
  working_fits : Z.of_nat (length (buf (io w))) <= bufferSize;
  working_content : content (io w) ++ buf (io w) = c;
  working_always : syncMode cfg = SyncAlways -> buf (io w) = [];
  working_fatal : fatalErr w = false;
  working_acks : pendingAcks w = [];
  working_running : running w = true
}.

Lemma flush_quiet w :
  quiet (io w) -> exists w', flush w = (false, w') /\ quiet (io w') /\ content (io w') = content (io w) ++ buf (io w) /\
    buf (io w') = [] /\ size w' = size w /\ pendingAcks w' = pendingAcks w /\ fatalErr w' = fatalErr w /\ running w' = running w.
Proof.
  intros Hq. pose proof Hq as (Ho & Hc & He). unfold flush. case_bool_decide as Hb.
  - unfold file_Sync, next_call. rewrite Hc, Ho. eexists. split; [done|]. cbn. rewrite Hb, app_nil_r. done.
  - unfold Flush. rewrite He, bool_decide_eq_false_2, (file_Write_quiet _ _ Hq) by done. cbn.
    eexists. split; [done|]. done.
Qed.

Lemma append_working w c d :
  working w c -> exists w', run_step cfg (RAppend 0 d) w = ([(0%nat, true)], w') /\ working w' (c ++ d).
Proof.
  intros [Hq Hf Hc Ha Hfat Hack Hrun]. unfold run_step, run_append. rewrite Hrun, Hfat.
  destruct (Write_quiet d (io w) Hq Hf) as (y & -> & Hy & Hcy & Hfy). rewrite app_assoc, Hc in Hcy.
  set (w1 := {| io := y; pendingRecords := pendingRecords w + 1 |}).
  destruct (bool_decide (syncMode cfg = SyncAlways) || shouldFlush cfg w1) eqn:Hfl.
  - destruct (flush_quiet w1) as (w2 & -> & Hq2 & Hc2 & Hb2 & _ & Hp2 & Hf2 & Hr2); [done|]. unfold ackPending, set_fatal. cbn in *.
    eexists. split; [rewrite Hp2, Hack; destruct (syncMode cfg); done|].
    split; cbn; try done; [by rewrite Hb2 | by rewrite Hb2, app_nil_r, Hc2].
  - apply orb_false_iff in Hfl as [Hm _]. destruct (syncMode cfg) eqn:Em; [done|]. cbn.
    eexists. split; [done|]. split; cbn; try done. by rewrite Em.
Qed.

Lemma tick_working w c : working w c -> exists w', run_step cfg RTick w = ([], w') /\ working w' c.
Proof.
  intros [Hq Hf Hc Ha Hfat Hack Hrun]. unfold run_step, run_tick. rewrite Hrun. case_test; [by eexists|].
  destruct (flush_quiet w Hq) as (w2 & -> & Hq2 & Hc2 & Hb2 & _ & Hp2 & Hf2 & Hr2). unfold ackPending, set_fatal. cbn.
  eexists. split; [by rewrite Hp2, Hack|]. split; cbn; try done; [by rewrite Hb2 | by rewrite Hb2, app_nil_r, Hc2 | by rewrite Hf2 | by rewrite Hr2].
Qed.

Lemma reset_working w c d :
  working w c -> exists w', run_step cfg (RReset 0 d) w = ([(0%nat, true)], w') /\ working w' d.
Proof.
  intros [Hq Hf Hc Ha Hfat Hack Hrun]. unfold run_step, run_reset. rewrite Hrun.
  destruct (flush_quiet w Hq) as (w2 & -> & (Ho2 & Hc2 & He2) & _ & _ & _ & Hp2 & Hf2 & Hr2).
  unfold ackPending. cbn [io pendingAcks]. unfold file_Close, next_call. rewrite Hc2, Ho2. cbn.
  match goal with |- context [Write d ?x] => destruct (Write_quiet d x) as (y & Ey & Hy & Hcy & Hfy); [done|done|] end.
  cbn in Hcy. cbn in Ey. rewrite Ey. cbn.
  match goal with |- context [flush ?w] => destruct (flush_quiet w) as (w3 & -> & Hq3 & Hc3 & Hb3 & _ & Hp3 & Hf3 & Hr3); [done|] end.
  cbn in *. rewrite Hp2, Hack. eexists. split; [done|].
  split; cbn; try done; [by rewrite Hb3 | by rewrite Hb3, app_nil_r, Hc3 | congruence | congruence].
Qed.

Lemma open_working base durable : working (openFileRegistryWAL base durable []) base.
Proof. split; cbn; try done. by rewrite app_nil_r. Qed.
End Working.
