(* ===== verification/FileRestart.v ===== *)
(** * Restarting the file registry

    The invariant of [FileRegistryV2] between its operations, and the theorem that a
    restart is invisible to readers. *)
From Stdlib Require Import String.
From stdpp Require Import sorting.
From S2P Require Import Prelude GoStd GoSort GoHeap GoBytes Status Registry RegistrySpec Wal WalSpec WalWriter WalCrash.
From S2P Require Import FileRegistry FileRecovery FileRegistrySpec.

(** ** Histories *)

Inductive v2_op :=
| VRegister (ctxErr refused : bool) (env : compact_env) (epoch token : string) (inst : Instance) (ttl encnow : Z)
| VHeartbeat (ctxErr refused : bool) (env : compact_env) (s id epoch token : string) (ttl encnow : Z) (re ro : bool)
| VSnapshot (ctxErr ctxErr2 : bool) (s : string)
| VWatch (ctxErr : bool) (s : string)
| VPoll (ctxErr : bool) (s : string)
| VSweep (ctxErr refused : bool) (env : compact_env) (cancel : option nat) (clock : string * string -> Z) (encnow : Z)
| VCompact (env : compact_env)
| VTick.

(** An operation, the clock when it starts and when it ends, and the orders of map
    traversals. *)
Record v2_event := {
  e_at : Z; e_until : Z; e_visit : record_order; e_range : service_order; e_dirty : gset string -> list string; e_op : v2_op }.

Section Histories.
Context `{Json} (cfg : fileRegistryV2Config).

Definition v2_step (e : v2_event) (r : FileRegistryV2) : FileRegistryV2 :=
  let v := e_visit e in
  let now := e_at e in
  match e_op e with
  | VRegister c refused env epoch token inst ttl encnow =>
      (v2_Register cfg (e_range e) v c refused env epoch token inst ttl now (e_until e) encnow r).2
  | VHeartbeat c refused env s id epoch token ttl encnow re ro =>
      (v2_heartbeat cfg (e_range e) v c refused env (fun m => m) s id epoch token ttl now encnow re ro r).2
  | VSnapshot c c2 s => set_memory (Snapshot v c c2 s now (v2_memory r)).2 r
  | VWatch c s => set_memory (Watch c s (v2_memory r)).2 r
  | VPoll c s => set_memory (watch_poll v c s now (v2_memory r)).2 r
  | VSweep c refused env cancel clock encnow =>
      (v2_SweepExpired cfg (e_range e) v c refused env cancel (e_dirty e) now clock encnow r).2
  | VCompact env => (Compact cfg (e_range e) v env r).2
  | VTick => set_wal (run_step (walCfg cfg) RTick (v2_wal r)).2 r
  end.

Definition v2_run (es : list v2_event) (r : FileRegistryV2) : FileRegistryV2 := foldl (fun r e => v2_step e r) r es.

(** The registry of a process that finds no files. *)
Definition v2_start : FileRegistryV2 :=
  {| v2_memory := NewMemoryRegistry; v2_snapshot := None; v2_wal := openFileRegistryWAL [] 0 [] |}.
End Histories.

(** The clock readings of an operation lie between its start and its end, in the
    range of the log's timestamps. *)
Definition within (e : v2_event) (t : Z) : Prop := e_at e <= t <= e_until e.

Definition env_valid (e : v2_event) (env : compact_env) : Prop :=
  c_now env = e_until e /\ within e (c_mark env).

Definition event_valid (e : v2_event) : Prop :=
  is_s 64 (e_at e) /\ is_s 64 (e_until e) /\ e_at e <= e_until e /\
  (forall m, e_visit e m ≡ₚ map_to_list m) /\ (forall m, e_range e m ≡ₚ map_to_list m) /\
  (forall X, e_dirty e X ≡ₚ elements X) /\
  match e_op e with
  | VRegister _ _ env epoch token inst ttl _ =>
      env_valid e env /\ is_s 64 ttl /\ epoch <> ""%string /\ token <> ""%string /\
      text_safe (registered inst epoch token 0) /\ Labels inst <> Some ∅
  | VHeartbeat _ _ env _ _ _ _ ttl _ _ _ => env_valid e env /\ is_s 64 ttl
  | VSweep _ _ env _ clock _ => env_valid e env /\ forall key, within e (clock key)
  | VCompact env => env_valid e env
  | _ => True
  end.

(** A heartbeat that finds a lease finds it unexpired. *)
Definition in_time (e : v2_event) (r : FileRegistryV2) : Prop :=
  match e_op e with
  | VHeartbeat _ _ _ s id _ _ _ _ _ _ =>
      forall rec, lookup_record (v2_memory r) s id = Some rec -> e_at e < expiresAt rec
  | _ => True
  end.

Fixpoint all_in_time `{Json} (cfg : fileRegistryV2Config) (es : list v2_event) (r : FileRegistryV2) : Prop :=
  match es with [] => True | e :: es => in_time e r /\ all_in_time cfg es (v2_step cfg e r) end.

Fixpoint v2_clock (t : Z) (es : list v2_event) : Prop :=
  match es with [] => True | e :: es => t <= e_at e /\ v2_clock (e_until e) es end.

(** ** The files *)

Section Files.
Context `{JsonLaw} (cfg : fileRegistryV2Config).

(** The snapshot file holds these records. *)
Definition snapshot_holds (file : option (list Z)) (recs : list fileRegistryRecord) : Prop :=
  (file = None /\ recs = []) \/ exists raw, file = Some raw /\ raw <> [] /\ unmarshal_snapshot raw = Some recs.

(** The files stand for the table, and recovery at any time from [clock] can read them. *)
Definition stands_for (clock : Z) (sn : option (list Z)) (w : walState) (T : table) : Prop :=
  exists recs es bss, snapshot_holds sn recs /\ Forall (fun rec => lease_ok (rec_key rec) (rec_lease rec)) recs /\
    Forall2 written es bss /\ working (walCfg cfg) w (concat bss) /\ Forall (replayable clock) (as_read <$> es) /\
    T = foldl effect (table_of recs) (as_read <$> es).

Lemma replayable_mono clock now rec : clock <= now -> replayable clock rec -> replayable now rec.
Proof. intros Hle [Ht Hr]. split; [lia|done]. Qed.

Lemma stands_for_mono clock now sn w T : clock <= now -> stands_for clock sn w T -> stands_for now sn w T.
Proof.
  intros Hle (recs & es & bss & H1 & H2 & H3 & H4 & H5 & H6). exists recs, es, bss. do 4 (split; [done|]). split; [|done].
  eapply Forall_impl; [done|]. intros rec. by apply replayable_mono.
Qed.

(** A record is offered to the log. *)
Lemma append_stands clock sn w T refused encnow rec ok w' :
  stands_for clock sn w T -> loggable rec -> is_s 64 (w_timestamp rec) -> replayable clock (framed encnow rec) ->
  Append cfg refused encnow rec w = (ok, w') ->
  stands_for clock sn w' (if ok then effect T (framed encnow rec) else T).
Proof.
  intros Hst Hl Ht Hr. unfold Append. destruct (encodeFileRegistryWALRecord encnow rec) as [data|] eqn:He;
    [|by intros [= <- <-]]. unfold submit. pose proof Hst as (recs & es & bss & H1 & H2 & H3 & H4 & H5 & ->).
  destruct (refused || negb (running w)); [by intros [= <- <-]|].
  destruct (append_working _ _ _ data H4) as (w1 & -> & Hw1). rewrite bool_decide_eq_true_2 by set_solver. intros [= <- <-].
  assert (Hstamp : stamp encnow rec = w_timestamp rec).
  { unfold stamp, IsZero. destruct (Z.eqb_spec (w_timestamp rec) zero_time) as [E|]; [|done].
    exfalso. unfold is_s, zero_time in *. lia. }
  assert (Hw : written (encnow, rec) data) by (split; [done|]; split; [cbn; by rewrite Hstamp|done]).
  exists recs, (es ++ [(encnow, rec)]), (bss ++ [data]). split; [done|]. split; [done|].
  split; [apply Forall2_app; [done|]; constructor; [exact Hw|constructor]|].
  split; [rewrite concat_app; simpl; by rewrite app_nil_r|]. rewrite fmap_app, foldl_app.
  split; [apply Forall_app; split; [done|]; by constructor|done].
Qed.

(** ** The invariant *)

Record inv (clock : Z) (r : FileRegistryV2) (L : table) : Prop := {
  inv_clock : zero_time <= clock;
  inv_refines : refines ∅ clock (v2_memory r) L;
  inv_table : table_ok L;
  inv_files : exists T, stands_for clock (v2_snapshot r) (v2_wal r) T /\ agree clock L T
}.

Lemma inv_mono clock now r L : clock <= now -> inv clock r L -> inv now r L.
Proof.
  intros Hle [Hz HR Hok (T & HT & Hag)]. split; [lia | by apply (refines_mono _ clock) | done|].
  exists T. split; [by apply (stands_for_mono clock) | by apply (agree_mono clock)].
Qed.

Section Compaction.
Context (range : service_order) (v : record_order).
Context (Hrange : forall m, range m ≡ₚ map_to_list m) (Hv : forall m, v m ≡ₚ map_to_list m).

(** The snapshot file is replaced while the log stays: replaying the old log over
    the new snapshot gives the same live leases. *)
Lemma compact_snapshot_inv clock env r L :
  inv clock r L -> c_now env = clock -> inv clock (compact_snapshot range v env r).2 L /\
  ((compact_snapshot range v env r).1 = true ->
   v2_wal (compact_snapshot range v env r).2 = v2_wal r /\
   snapshot_holds (v2_snapshot (compact_snapshot range v env r).2) (snapshotMemoryRegistry range v clock (v2_memory r))).
Proof.
  intros Hinv Hnow. pose proof Hinv as [Hz HR Hok (T & (recs & es & bss & H1 & H2 & H3 & H4 & H5 & ->) & Hag)].
  unfold compact_snapshot, writeFileRegistrySnapshotFile. rewrite Hnow.
  set (snap := snapshotMemoryRegistry range v clock (v2_memory r)).
  assert (Hsnap : Forall (fun rec => lease_ok (rec_key rec) (rec_lease rec)) snap)
    by (apply Forall_forall; intros rec; by apply snapshot_ok with (L := L)).
  destruct (snapshot_roundtrip snap) as (raw & -> & Hraw & Hun).
  { eapply Forall_impl; [exact Hsnap|]. intros rec Hl. split; [apply (ok_text _ _ Hl)|].
    split; [apply (ok_seen _ _ Hl) | apply (ok_expires _ _ Hl)]. }
  destruct (c_failed env); [by split|]. cbn. split; [|intros _; split; [done|right; eauto]]. split; cbn; [done..|].
  eexists. split; [exists snap, es, bss; split; [right; eauto|]; do 4 (split; [done|]); done|].
  apply (agree_replay _ _ (table_of recs)); [done|]. intros key l. by apply snapshot_table.
Qed.

Lemma stamp_in_range encnow rec : is_s 64 (w_timestamp rec) -> stamp encnow rec = w_timestamp rec.
Proof.
  intros Ht. unfold stamp, IsZero. destruct (Z.eqb_spec (w_timestamp rec) zero_time) as [E|]; [|done].
  exfalso. unfold is_s, zero_time in *. lia.
Qed.

Lemma mark_written encnow t data :
  is_s 64 t -> encodeFileRegistryWALRecord encnow (newSnapshotMarkWALRecord t) = Some data ->
  written (encnow, newSnapshotMarkWALRecord t) data.
Proof.
  intros Ht He. split; [|split; [|done]].
  - split; [constructor|]. right. right. right. done.
  - cbn. by rewrite stamp_in_range.
Qed.

Lemma Compact_inv clock until env r L :
  inv clock r L -> clock <= c_now env <= until -> zero_time <= c_mark env <= until -> is_s 64 (c_mark env) ->
  inv until (Compact cfg range v env r).2 L.
Proof.
  intros Hinv Hnow Hmark Hs. unfold Compact. destruct (c_ctxErr env); [apply (inv_mono clock); [lia|done]|].
  pose proof (compact_snapshot_inv (c_now env) env r L) as Hsn.
  destruct (compact_snapshot range v env r) as [ok r1]. cbn [fst snd] in Hsn.
  destruct Hsn as [Hinv1 Hfiles]; [apply (inv_mono clock); [lia|done] | done |].
  apply (inv_mono _ until) in Hinv1 as Hinv2; [|lia]. destruct ok; [|done]. cbn [negb]. destruct (Hfiles eq_refl) as [Hw Hsn].
  unfold wal_Reset. destruct (encodeFileRegistryWALRecord _ _) as [data|] eqn:He; [|by destruct r1]. unfold submit.
  destruct (_ || _); [by destruct r1|].
  pose proof Hinv2 as [Hz HR Hok (T & (recs & es & bss & H1 & H2 & H3 & H4 & H5 & ->) & Hag)].
  destruct (reset_working _ _ _ data H4) as (w2 & -> & Hw2). cbn. split; cbn; [done..|].
  pose proof Hinv as Hinv0. apply (inv_mono _ (c_now env)) in Hinv0 as [_ HR0 _ _]; [|lia].
  set (snap := snapshotMemoryRegistry range v (c_now env) (v2_memory r)) in *.
  exists (table_of snap). split.
  - exists snap, [(c_encnow env, newSnapshotMarkWALRecord (c_mark env))], [data]. split; [done|].
    split; [apply Forall_forall; intros rec; by apply snapshot_ok with (L := L)|].
    split; [constructor; [by apply mark_written|constructor]|]. split; [simpl; by rewrite app_nil_r|].
    split; [|done]. constructor; [|constructor]. split; [|by right; right; right]. cbn. by rewrite stamp_in_range.
  - apply (agree_mono (c_now env)); [lia|]. intros key l Hl.
    pose proof (snapshot_table range v Hrange Hv _ _ L key l HR0 Hok) as HS. fold snap in HS. rewrite HS. tauto.
Qed.

Lemma maybeCompact_inv clock until env r L :
  inv clock r L -> clock <= c_now env <= until -> zero_time <= c_mark env <= until -> is_s 64 (c_mark env) ->
  inv until (maybeCompact cfg range v env r).2 L.
Proof.
  intros Hinv Hnow Hmark Hs. unfold maybeCompact. case_test; [apply (inv_mono clock); [lia|done]|]. by apply (Compact_inv clock).
Qed.

(** ** The operations *)

Lemma json_times t ttl : is_s 64 t -> is_s 64 ttl -> json_time t /\ json_time (t + ttl).
Proof. unfold is_s, json_time. lia. Qed.

Lemma text_safe_seen inst epoch token t t' :
  text_safe (registered inst epoch token t) -> text_safe (registered inst epoch token t').
Proof. done. Qed.

(** A registration as the log records it. *)
Lemma register_logged inst epoch token ttl t rec :
  complete inst -> text_safe (registered inst epoch token 0) -> Labels inst <> Some ∅ -> epoch <> ""%string ->
  token <> ""%string -> is_s 64 t -> is_s 64 ttl -> 0 < ttl ->
  newRegisterWALRecord (registered inst epoch token t) ttl t = Some rec ->
  loggable rec /\ w_timestamp rec = t /\
  (forall encnow clock, zero_time <= t <= clock -> replayable clock (framed encnow rec)) /\
  (forall encnow T, effect T (framed encnow rec) =
     <[(Service inst, ID inst) := {| l_instance := registered inst epoch token t; l_expires := t + ttl |}]> T) /\
  lease_ok (Service inst, ID inst) {| l_instance := registered inst epoch token t; l_expires := t + ttl |}.
Proof.
  intros (Hid & Hs & Ha) Htext Hlab Hep Htok Ht Httl Hpos. unfold newRegisterWALRecord.
  set (p := {| p_Status := _; p_Labels := _; p_RegistrationEpoch := _; p_OwnerToken := _ |}).
  destruct (payload_roundtrip p) as (raw & -> & Hraw & Hne & Hun).
  { destruct Htext as (_ & _ & _ & He & Hto & Hla). split; [cbn; by destruct (Status_ inst)|]. done. }
  cbn [mbind option_bind]. intros [= <-]. destruct (json_times t ttl Ht Httl) as [Hj1 Hj2].
  assert (Hok : lease_ok (Service inst, ID inst) {| l_instance := registered inst epoch token t; l_expires := t + ttl |}).
  { split; cbn; try done. by destruct (Status_ inst). }
  set (rec := {| w_op := OpRegister |}).
  assert (Hlog : forall encnow, logged_instance (framed encnow rec) = Some (registered inst epoch token t)).
  { intros encnow. unfold logged_instance. cbn [framed w_payload rec w_id w_service w_address w_timestamp].
    rewrite Hun, stamp_in_range by done. cbn. unfold registered. f_equal. f_equal; [by destruct (Status_ inst)|].
    by rewrite decide_False. }
  split; [|split; [done|split; [|split; [|done]]]].
  - split; [done|]. left. unfold is_s in Httl. repeat split; try done; cbn; lia.
  - intros encnow clock Hc. split; [cbn; by rewrite stamp_in_range|]. left. split; [done|]. split; [done|].
    exists (registered inst epoch token t). split; [apply Hlog|]. cbn. by rewrite stamp_in_range.
  - intros encnow T. unfold effect. cbn [framed w_op rec]. rewrite Hlog. unfold put. cbn. by rewrite stamp_in_range.
Qed.

Lemma table_ok_insert L key l : table_ok L -> lease_ok key l -> table_ok (<[key := l]> L).
Proof. intros HL Hl. by apply map_Forall_insert_2. Qed.

Section Operation.
Context (clock now until : Z) (r : FileRegistryV2) (L : table) (Hinv : inv clock r L).
Context (Hclock : clock <= now) (Huntil : now <= until) (Hs1 : is_s 64 now) (Hs2 : is_s 64 until).
Context (env : compact_env) (Hcn : c_now env = until) (Hcm : now <= c_mark env <= until).

Lemma in_range_time t : now <= t <= until -> is_s 64 t /\ zero_time <= t.
Proof. unfold is_s, zero_time in *. lia. Qed.

(** After the operation proper, the log may be compacted. *)
Lemma then_compact r' L' : inv until r' L' -> exists L'', inv until (maybeCompact cfg range v env r').2 L''.
Proof.
  intros Hr'. exists L'. destruct (in_range_time _ Hcm). apply (maybeCompact_inv until); [done | lia | lia | done].
Qed.

Lemma Register_inv c refused epoch token inst ttl encnow :
  is_s 64 ttl -> epoch <> ""%string -> token <> ""%string -> text_safe (registered inst epoch token 0) -> Labels inst <> Some ∅ ->
  exists L', inv until (v2_Register cfg range v c refused env epoch token inst ttl now until encnow r).2 L'.
Proof.
  intros Hs3 Hep Htok Htext Hlab. assert (Hstay : inv until r L) by (apply (inv_mono clock); [lia|done]).
  unfold v2_Register. destruct c; [by exists L|]. destruct (_ || _) eqn:Hbad; [by exists L|]. rewrite default_status.
  fold (registered inst epoch token now). bool_facts.
  destruct (newRegisterWALRecord (registered inst epoch token now) ttl now) as [rec|] eqn:Hrec; [|by exists L].
  assert (Hcomp : complete inst) by (unfold complete; naive_solver).
  destruct (register_logged inst epoch token ttl now rec) as (Hl & Hts & Hrep & Heff & Hok); [done..|].
  destruct (Append cfg refused encnow rec (v2_wal r)) as [ok w'] eqn:Happ.
  destruct (in_range_time now ltac:(lia)) as [_ Hz]. destruct Hstay as [Hz' HR Htab (T & HT & Hag)].
  apply (append_stands until (v2_snapshot r) _ T) in Happ; [|done|done|by rewrite Hts|apply Hrep; lia].
  destruct ok; [|exists L; split; cbn; eauto]. rewrite Heff in Happ.
  set (l := {| l_instance := registered inst epoch token now; l_expires := now + ttl |}) in *.
  apply (then_compact _ (<[(Service inst, ID inst) := l]> L)). split; cbn; [done | | by apply table_ok_insert |].
  - destruct (restore_kept v Hv until Hz' _ L HR epoch token (registered inst epoch token now) (now + ttl) false until)
      as (L1 & Hcon & HR1).
    unfold contract in Hcon. rewrite decide_True in Hcon by (split; [done|done]). cbn in Hcon.
    rewrite !(bool_decide_eq_false_2 (_ = ""%string)) in Hcon by done. subst L1.
    eapply eq_ind; [exact HR1|]. f_equal. unfold l, registered. cbn. by destruct (Status_ inst).
  - exists (<[(Service inst, ID inst) := l]> T). split; [done|]. by apply agree_insert.
Qed.

Lemma validated_heartbeat m s id epoch token ttl t re ro :
  validateHeartbeatWithOwner false s id epoch token ttl re ro m = None ->
  exists m' rec, heartbeatAtWithOwner v false s id epoch token ttl t re ro m = (None, m') /\ lookup_record m s id = Some rec.
Proof.
  unfold validateHeartbeatWithOwner, heartbeatAtWithOwner, lookup_record. destruct (_ || _); [done|].
  destruct (services m !! s) as [st|]; [|done]. cbn. destruct (records st !! id) as [rec|]; [|done].
  destruct (re && _); [done|]. destruct (ro && _); [done|]. eauto.
Qed.

Lemma Heartbeat_inv c refused s id epoch token ttl encnow re ro :
  is_s 64 ttl -> (forall rec, lookup_record (v2_memory r) s id = Some rec -> now < expiresAt rec) ->
  exists L', inv until (v2_heartbeat cfg range v c refused env (fun m => m) s id epoch token ttl now encnow re ro r).2 L'.
Proof.
  intros Hs3 Htime. assert (Hstay : inv until r L) by (apply (inv_mono clock); [lia|done]).
  pose proof (inv_mono clock now r L Hclock Hinv) as [_ HRn _ (Tn & HTn & Hagn)].
  unfold v2_heartbeat. destruct c; [by exists L|]. destruct (_ || _) eqn:Hbad; [by exists L|]. bool_facts.
  destruct (validateHeartbeatWithOwner false s id epoch token ttl re ro (v2_memory r)) as [e|] eqn:Hval; [by exists L|].
  destruct (validated_heartbeat _ _ _ _ _ _ now _ _ Hval) as (m' & rec & Hhb & Hrec). rewrite Hhb.
  destruct (in_range_time now ltac:(lia)) as [_ Hz].
  destruct (Append cfg refused encnow _ (v2_wal r)) as [ok w'] eqn:Happ.
  assert (Hne : s <> ""%string /\ id <> ""%string) by naive_solver. unfold is_s in Hs3.
  apply (append_stands now (v2_snapshot r) _ Tn) in Happ;
    [|done| split; [constructor|]; right; left; cbn; repeat split; try tauto; lia | done
     | split; [cbn; rewrite stamp_in_range by done; cbn; lia|]; right; left; cbn; repeat split; try tauto; lia].
  destruct ok.
  2:{ destruct Hstay as [Hz' HR Htab _]. exists L. split; cbn; [done..|].
      exists Tn. split; [by apply (stands_for_mono now) | by apply (agree_mono now)]. }
  pose proof (heartbeat_kept v Hv now Hz (v2_memory r) L HRn false s id epoch token ttl re ro) as Hk. rewrite Hhb in Hk.
  destruct Hk as (L1 & (l & HL & _ & ->) & HR1).
  assert (El : l = to_lease rec) by (apply (refines_sound _ _ _ _ HRn) in Hrec; congruence).
  assert (Hlive : now < l_expires l) by (rewrite El; by apply Htime).
  assert (HTl : Tn !! (s, id) = Some l) by by apply Hagn.
  set (l' := renew now ttl l). apply (then_compact _ (<[(s, id) := l']> L)). apply (inv_mono now); [done|].
  destruct Hinv as [_ _ Htab _]. pose proof (Htab _ _ HL) as Hok.
  assert (Heff : effect Tn (framed encnow (newHeartbeatWALRecord s id ttl now)) = <[(s, id) := l']> Tn).
  { apply map_eq. intros k. rewrite effect_lookup. unfold entry_effect. cbn [framed w_service w_id newHeartbeatWALRecord w_op w_timestamp w_ttl].
    cbn [Z.eqb OpHeartbeat OpRegister Pos.eqb]. rewrite stamp_in_range by done. cbn [w_timestamp newHeartbeatWALRecord].
    case_decide as Ek; [subst k; by rewrite HTl, lookup_insert_eq | by rewrite lookup_insert_ne]. }
  rewrite Heff in Happ. split; cbn; [done | done | |].
  - apply table_ok_insert; [done|]. destruct Hok as [Hk1 Hk2 Hk3 Hk4 Hk5 Hk6 Hk7 Hk8].
    destruct (json_times now ttl Hs1 Hs3). split; done.
  - exists (<[(s, id) := l']> Tn). split; [done|]. by apply agree_insert.
Qed.

Lemma deletes_stand refused clockf encnow expired sn w T :
  (forall key, now <= clockf key <= until) -> lapsed L now expired -> stands_for until sn w T -> agree now L T ->
  exists T', stands_for until sn (foldl (log_delete cfg refused clockf encnow) w expired) T' /\ agree now L T'.
Proof.
  intros Hck. revert w T. induction expired as [|[s id] expired IH]; intros w T Hlap HT Hag; [by eexists|]. cbn [foldl].
  destruct (Hlap s id) as (l & HL & Hle); [set_solver|]. destruct (inv_table _ _ _ Hinv _ _ HL) as [Hk (Hid & Hs & _) _ _ _ _ _ _].
  injection Hk as -> ->. destruct (in_range_time _ (Hck (Service (l_instance l), ID (l_instance l)))) as [Hr1 Hr2].
  unfold log_delete at 2. cbn [fst snd]. destruct (Append cfg refused encnow _ w) as [ok w'] eqn:Happ.
  apply (append_stands until sn _ T) in Happ;
    [|done | split; [constructor|]; right; right; left; done | done
     | split; [cbn; rewrite stamp_in_range by done; cbn; pose proof (Hck (Service (l_instance l), ID (l_instance l))); lia | by right; right; left]].
  cbn [snd]. apply (IH _ (if ok then delete (Service (l_instance l), ID (l_instance l)) T else T));
    [intros s' id' Hin; apply Hlap; set_solver | by destruct ok |].
  destruct ok; [by apply (agree_delete now L T _ l) | done].
Qed.

Lemma Sweep_inv c refused cancel ord clockf encnow :
  (forall X, ord X ≡ₚ elements X) -> (forall key, now <= clockf key <= until) ->
  exists L', inv until (v2_SweepExpired cfg range v c refused env cancel ord now clockf encnow r).2 L'.
Proof.
  intros Hord Hck. pose proof (inv_mono clock now r L Hclock Hinv) as [Hz HRn Htab (Tn & HTn & Hagn)].
  unfold v2_SweepExpired. pose proof (sweep_kept v Hv now Hz (v2_memory r) L HRn c cancel ord Hord) as Hk.
  destruct (sweepExpiredRecords v c cancel ord now (v2_memory r)) as [expired m]. destruct Hk as (L1 & [-> Hlap] & HR1). cbn [snd].
  apply (stands_for_mono _ until) in HTn; [|done].
  destruct (deletes_stand refused clockf encnow expired _ _ _ Hck Hlap HTn Hagn) as (T' & HT' & Hag').
  assert (Hnew : inv until (set_memory m (set_wal (foldl (log_delete cfg refused clockf encnow) (v2_wal r) expired) r)) L).
  { split; cbn; [lia | by apply (refines_mono _ now) | done|]. exists T'. split; [done|]. by apply (agree_mono now). }
  case_bool_decide; [by exists L | by apply (then_compact _ L)].
Qed.

(** Readers change the memory registry only. *)
Lemma reader_inv m : refines ∅ now m L -> exists L', inv until (set_memory m r) L'.
Proof.
  intros HR. exists L. pose proof (inv_mono clock until r L ltac:(lia) Hinv) as [Hz _ Htab Hf].
  split; cbn; [done | by apply (refines_mono _ now) | done | done].
Qed.
End Operation.
End Compaction.

(** Every operation keeps the invariant, if heartbeats are in time. *)
Lemma file_step_inv e clock r L :
  event_valid e -> clock <= e_at e -> in_time e r -> inv clock r L -> exists L', inv (e_until e) (v2_step cfg e r) L'.
Proof.
  intros (Hs1 & Hs2 & Hu & Hv & Hra & Hord & Hop) Hc Htime Hinv.
  pose proof (inv_mono clock (e_at e) r L Hc Hinv) as [Hz HRn _ _].
  unfold v2_step, in_time in *. destruct (e_op e) as [c refused env epoch token inst ttl encnow|c refused env s id epoch token ttl encnow re ro
    |c c2 s|c s|c s|c refused env cancel clockf encnow|env|].
  - destruct Hop as ((? & ?) & ? & ? & ? & ? & ?). by apply (Register_inv _ _ Hra Hv clock (e_at e) (e_until e) r L).
  - destruct Hop as ((? & ?) & ?). by apply (Heartbeat_inv _ _ Hra Hv clock (e_at e) (e_until e) r L).
  - pose proof (snapshot_kept _ Hv _ Hz _ _ HRn c c2 s) as Hk. destruct (Snapshot (e_visit e) c c2 s (e_at e) (v2_memory r)) as [x m].
    destruct Hk as (L' & Hcon & HR). apply (reader_inv clock (e_at e) (e_until e) r L); [done|done|done|].
    destruct x; cbn in Hcon; destruct Hcon as [-> _]; done.
  - pose proof (watch_kept _ Hv _ Hz _ _ HRn c s) as Hk. destruct (Watch c s (v2_memory r)) as [x m].
    destruct Hk as (L' & Hcon & HR). apply (reader_inv clock (e_at e) (e_until e) r L); [done|done|done|].
    cbn in Hcon. destruct Hcon as [-> _]. done.
  - pose proof (poll_kept _ Hv _ Hz _ _ HRn c s) as Hk. destruct (watch_poll (e_visit e) c s (e_at e) (v2_memory r)) as [x m].
    destruct Hk as (L' & Hcon & HR). apply (reader_inv clock (e_at e) (e_until e) r L); [done|done|done|].
    cbn in Hcon. destruct Hcon as [-> _]. done.
  - destruct Hop as ((? & ?) & ?). by apply (Sweep_inv _ _ Hra Hv clock (e_at e) (e_until e) r L).
  - destruct Hop as [Hcn Hcm]. exists L. unfold within in Hcm. apply (Compact_inv _ _ Hra Hv clock); [done | lia | lia |].
    unfold is_s in *. lia.
  - exists L. pose proof (inv_mono clock (e_until e) r L ltac:(lia) Hinv) as [Hz' HR Htab (T & (recs & es & bss & H1 & H2 & H3 & H4 & H5 & H6) & Hag)].
    destruct (tick_working _ _ _ H4) as (w' & E & Hw'). rewrite E. split; cbn; [done..|]. exists T. split; [|done].
    exists recs, es, bss. done.
Qed.

Lemma run_inv es clock r L :
  Forall event_valid es -> v2_clock clock es -> all_in_time cfg es r -> inv clock r L ->
  exists clock' L', inv clock' (v2_run cfg es r) L' /\ clock <= clock' /\
    forall t, clock <= t -> Forall (fun e => e_until e <= t) es -> clock' <= t.
Proof.
  intros Hes. revert clock r L. induction Hes as [|e es He _ IH]; intros clock r L Hc Ht Hinv; [by exists clock, L|].
  destruct Hc as [Hc Hc']. destruct Ht as [Ht Ht']. destruct (file_step_inv e clock r L He Hc Ht Hinv) as (L1 & Hinv1).
  destruct (IH _ _ _ Hc' Ht' Hinv1) as (clock' & L2 & Hinv2 & Hle & Hmax). exists clock', L2. split; [done|].
  destruct He as (_ & _ & Hu & _). split; [lia|]. intros t Hct Hall. apply Forall_cons in Hall as [? Hall]. by apply Hmax.
Qed.

Lemma start_inv clock : zero_time <= clock -> inv clock v2_start ∅.
Proof.
  intros Hz. split; [done | apply new_refines | apply map_Forall_empty |]. exists ∅. split; [|done].
  exists [], [], []. split; [by left|]. split; [constructor|]. split; [constructor|]. split; [apply open_working|]. by split; [constructor|].
Qed.

(** ** Restarting *)

Lemma listing_unique T s now l1 l2 : listing T s now l1 -> listing T s now l2 -> l1 = l2.
Proof.
  intros [Hs1 H1] [Hs2 H2]. set (R := fun i j : Instance => String.ltb (ID i) (ID j) = true).
  assert (Hirr : forall x, ~ R x x) by (intros x Hx%string_ltb_spec; naive_solver).
  assert (Hnd : forall l, StronglySorted R l -> NoDup l).
  { induction 1 as [|x l _ IH Hx]; constructor; [|done]. intros Hin. rewrite Forall_forall in Hx. by apply (Hirr x), Hx. }
  apply (StronglySorted_unique_strong R); [|done|done|].
  - intros x y _ _ [_ Hxy]%string_ltb_spec Hyx. done.
  - apply NoDup_Permutation; [by apply Hnd | by apply Hnd |]. intros x. by rewrite H1, H2.
Qed.

Lemma Snapshot_listing v now m T s :
  (forall x, v x ≡ₚ map_to_list x) -> zero_time <= now -> refines ∅ now m T -> s <> ""%string ->
  exists snap, (Snapshot v false false s now m).1 = inr snap /\ listing T s now (Instances snap).
Proof.
  intros Hv Hz HR Hs. pose proof (snapshot_kept v Hv now Hz m T HR false false s) as Hk.
  destruct (Snapshot v false false s now m) as [[e|snap] m'] eqn:E; destruct Hk as (L' & Hcon & _); cbn in Hcon.
  - naive_solver.
  - exists snap. split; [done|]. destruct Hcon as [-> Hl]. auto.
Qed.

Section Restart.
Context (clock : Z) (r : FileRegistryV2) (L : table) (Hinv : inv clock r L).
Context (now : Z) (Hnow : clock <= now) (v : record_order) (Hv : forall m, v m ≡ₚ map_to_list m).
Context (range : service_order) (Hrange : forall m, range m ≡ₚ map_to_list m).
Context (Hbuf : syncMode (walCfg cfg) = SyncAlways \/ buf (io (v2_wal r)) = []).

(** The files replayed, up to the sweep that ends the recovery. *)
Lemma files_replay fresh :
  exists m m' T, loadSnapshot v fresh now (v2_snapshot r) NewMemoryRegistry = (None, m) /\
    replayWAL v fresh now false (Some (content (io (v2_wal r)))) m = Some (None, Some (content (io (v2_wal r))), m') /\
    mirrors now m' T /\ agree now L T.
Proof.
  pose proof (inv_mono clock now r L Hnow Hinv) as [Hz HR Htab (T & (recs & es & bss & Hsn & Hrecs & Hes & Hw & Hrep & ->) & Hag)].
  assert (Hload : exists m, loadSnapshot v fresh now (v2_snapshot r) NewMemoryRegistry = (None, m) /\ mirrors now m (table_of recs)).
  { unfold loadSnapshot. destruct Hsn as [[-> ->]|(raw & -> & Hraw & Hun)].
    - eexists. split; [done|]. apply mirrors_new.
    - destruct raw as [|b raw]; [done|]. rewrite Hun. eexists. split; [done|].
      apply (load_mirrors v Hv now fresh recs NewMemoryRegistry ∅); [done | apply mirrors_new | done]. }
  destruct Hload as (m & Hload & Hm).
  assert (Hc : content (io (v2_wal r)) = concat bss).
  { destruct Hw as [_ _ Hc Ha _ _ _]. rewrite <- Hc. destruct Hbuf as [Hmode|E]; [rewrite (Ha Hmode)|rewrite E]; by rewrite app_nil_r. }
  destruct (apply_all_mirrors v Hv now fresh (as_read <$> es) m (table_of recs) Hm Hrep) as (m' & Happ & Hm').
  pose proof (written_scans _ _ _ _ _ Hes (scans_end [] (or_introl eq_refl))) as Hscan. rewrite !app_nil_r in Hscan.
  destruct (replay_scans (applyWALRecord v fresh now) _ _ _ m Hscan) as (res & Hrun & Hres). rewrite Happ in Hrun, Hres.
  specialize (Hres eq_refl). subst res. eexists m, m', _. split; [done|]. split; [|done].
  unfold replayWAL. by rewrite Hc, Hrun.
Qed.

Lemma restart_inv path fresh ord env durable :
  path <> ""%string -> (forall X, ord X ≡ₚ elements X) -> c_ctxErr env = false -> c_failed env = false ->
  c_refused env = false -> c_now env = now ->
  exists r' T, NewFileRegistryV2 cfg range v path fresh now ord false false env durable [] (v2_snapshot r)
      (Some (content (io (v2_wal r)))) = Some (inr r') /\ refines ∅ now (v2_memory r') T /\ agree now L T.
Proof.
  intros Hpath Hord Hc1 Hc2 Hc3 Hc4. destruct (files_replay fresh) as (m & m' & T & Hload & Hreplay & Hm' & Hag).
  pose proof (inv_mono clock now r L Hnow Hinv) as [Hz _ Htab _].
  unfold NewFileRegistryV2. rewrite bool_decide_eq_false_2, Hload, Hreplay by done. unfold SweepExpired.
  pose proof (sweep_kept v Hv now Hz m' T (mirrors_refines _ _ _ Hm') false None ord Hord) as Hk.
  destruct (sweepExpiredRecords v false None ord now m') as [expired m2]. destruct Hk as (T2 & [-> _] & HR2). cbn [snd].
  case_test; [|eexists _, T; done].
  unfold Compact, compact_snapshot, writeFileRegistrySnapshotFile. rewrite Hc1, Hc2, Hc4. cbn [v2_memory].
  destruct (snapshot_roundtrip (snapshotMemoryRegistry range v now m2)) as (raw & -> & _ & _).
  { apply Forall_forall. intros rec (s & id & x & Hx & Hlt & ->)%elem_of_snapshot; [|done|done].
    apply (refines_sound _ _ _ _ HR2) in Hx. apply Hag in Hx; [|done]. destruct (Htab _ _ Hx) as [_ _ _ _ _ H1 H2 H3]. done. }
  cbn [negb v2_wal]. unfold wal_Reset, submit. rewrite Hc3.
  destruct (encodeFileRegistryWALRecord (c_encnow env) (newSnapshotMarkWALRecord (c_mark env))) as [data|] eqn:He;
    [|unfold encodeFileRegistryWALRecord in He; by case_test].
  destruct (reset_working (walCfg cfg) _ _ data (open_working (walCfg cfg) (content (io (v2_wal r))) durable)) as (w' & Hrun & _).
  cbn [orb negb running openFileRegistryWAL from_option].
  change (id (content (io (v2_wal r)))) with (content (io (v2_wal r))). rewrite Hrun.
  rewrite bool_decide_eq_true_2 by set_solver. eexists _, T. done.
Qed.
End Restart.
End Files.

(** C10.  A restart is invisible to readers.  After any history of registrations,
    heartbeats, reads, sweeps, ticks and compactions, with requests refused and
    compactions failing or stopping between their two halves, a registry started
    from the files lists for every service exactly the instances the old one would
    have listed, provided the log reached the file (always so in the mode
    [always]), and provided no heartbeat reached a lease that had run out. *)
Theorem restart_is_invisible `{JsonLaw} cfg es t0 now path fresh v range ord env durable :
  Forall event_valid es -> zero_time <= t0 -> v2_clock t0 es -> all_in_time cfg es v2_start ->
  let r := v2_run cfg es v2_start in
  syncMode (walCfg cfg) = SyncAlways \/ buf (io (v2_wal r)) = [] ->
  t0 <= now -> Forall (fun e => e_until e <= now) es -> path <> ""%string ->
  (forall m, v m ≡ₚ map_to_list m) -> (forall m, range m ≡ₚ map_to_list m) -> (forall X, ord X ≡ₚ elements X) ->
  c_ctxErr env = false -> c_failed env = false -> c_refused env = false -> c_now env = now ->
  exists r', NewFileRegistryV2 cfg range v path fresh now ord false false env durable [] (v2_snapshot r)
      (Some (content (io (v2_wal r)))) = Some (inr r') /\
    forall s, s <> ""%string -> exists old new,
      (Snapshot v false false s now (v2_memory r)).1 = inr old /\ (Snapshot v false false s now (v2_memory r')).1 = inr new /\
      Instances new = Instances old.
Proof.
  intros Hes Hz Hc Ht r Hbuf Hle Hall Hpath Hv Hra Hord H1 H2 H3 H4.
  destruct (run_inv cfg es t0 v2_start ∅ Hes Hc Ht (start_inv cfg t0 Hz)) as (clock & L & Hinv & _ & Hmax).
  specialize (Hmax now Hle Hall).
  destruct (restart_inv cfg clock r L Hinv now Hmax v Hv range Hra Hbuf path fresh ord env durable Hpath Hord H1 H2 H3 H4)
    as (r' & T & Hnew & HR' & Hag).
  exists r'. split; [done|]. intros s Hs. assert (Hz' : zero_time <= now) by lia.
  destruct (Snapshot_listing v now (v2_memory r) L s Hv Hz') as (old & Hold & Hlo); [|done|].
  { apply (refines_mono _ clock); [done|]. apply (inv_refines _ _ _ _ Hinv). }
  destruct (Snapshot_listing v now (v2_memory r') T s Hv Hz' HR' Hs) as (new & Hnewl & Hln).
  exists old, new. split; [done|]. split; [done|]. apply (listing_unique L s now); [|done].
  by apply (agree_listing now L T).
Qed.
