(* ===== verification/FileWitness.v ===== *)
(** * The file registry on concrete files

    An encoding with the laws of [JsonLaw], the restart theorem instantiated at it,
    and runs in which an acknowledged lease does not survive a restart. *)
From Stdlib Require Import String.
From S2P Require Import Prelude GoStd GoSort GoHeap GoBytes Status Registry RegistrySpec Wal WalSpec WalWriter WalCrash.
From S2P Require Import FileRegistry FileRecovery FileRegistrySpec FileRestart.

(** ** An encoding *)

(** A number is written bit by bit, its last bit as 2. *)
Fixpoint positive_bytes (p : positive) : list Z :=
  match p with xH => [2] | xO p => 0 :: positive_bytes p | xI p => 1 :: positive_bytes p end.

Fixpoint bytes_positive (bs : list Z) : option positive :=
  match bs with
  | [] => None
  | b :: bs => if b =? 2 then Some xH else p ← bytes_positive bs; Some (if b =? 0 then xO p else xI p)
  end.

Lemma positive_bytes_ok p : bytes_ok (positive_bytes p).
Proof. induction p; simpl; constructor; unfold is_byte; auto; lia. Qed.

Lemma positive_bytes_nonempty p : positive_bytes p <> [].
Proof. by destruct p. Qed.

Lemma bytes_positive_bytes p : bytes_positive (positive_bytes p) = Some p.
Proof. induction p as [p IH|p IH|]; simpl; [by rewrite IH | by rewrite IH | done]. Qed.

Definition code_number (c : Code) : Z :=
  match c with Unspecified => 0 | Healthy => 1 | Degraded => 2 | Ejected => 3 | Probing => 4 | Dead => 5 | Unavailable => 6 end.

Definition number_code (n : Z) : Code :=
  match n with 1 => Healthy | 2 => Degraded | 3 => Ejected | 4 => Probing | 5 => Dead | 6 => Unavailable | _ => Unspecified end.

Lemma number_code_number c : number_code (code_number c) = c.
Proof. by destruct c. Qed.

Definition record_fields (rec : fileRegistryRecord) : list positive :=
  let i := f_Instance rec in
  [encode (ID i); encode (Service i); encode (Address i); encode (code_number (Status_ i)); encode (Labels i);
   encode (LastSeen i); encode (RegistrationEpoch i); encode (OwnerToken i); encode (f_ExpiresAt rec)].

Definition fields_record (ps : list positive) : option fileRegistryRecord :=
  match ps with
  | [p1; p2; p3; p4; p5; p6; p7; p8; p9] =>
      id ← decode p1; service ← decode p2; address ← decode p3; code ← decode p4; labels ← decode p5; seen ← decode p6;
      epoch ← decode p7; token ← decode p8; expires ← decode p9;
      Some {| f_Instance := {| ID := id; Service := service; Address := address; Status_ := number_code code;
                Labels := labels; LastSeen := seen; RegistrationEpoch := epoch; OwnerToken := token |};
              f_ExpiresAt := expires |}
  | _ => None
  end.

Lemma fields_record_fields rec : fields_record (record_fields rec) = Some rec.
Proof.
  destruct rec as [[i1 i2 i3 i4 i5 i6 i7 i8] t]. unfold fields_record, record_fields. cbn [f_Instance f_ExpiresAt].
  by do 9 (rewrite decode_encode; cbn [mbind option_bind]); rewrite number_code_number.
Qed.

Definition payload_fields (p : fileRegistryRegisterPayload) : list positive :=
  [encode (p_Status p); encode (p_Labels p); encode (p_RegistrationEpoch p); encode (p_OwnerToken p)].

Definition fields_payload (ps : list positive) : option fileRegistryRegisterPayload :=
  match ps with
  | [p1; p2; p3; p4] =>
      status ← decode p1; labels ← decode p2; epoch ← decode p3; token ← decode p4;
      Some {| p_Status := status; p_Labels := labels; p_RegistrationEpoch := epoch; p_OwnerToken := token |}
  | _ => None
  end.

Lemma fields_payload_fields p : fields_payload (payload_fields p) = Some p.
Proof. destruct p. unfold fields_payload, payload_fields. by do 4 (rewrite decode_encode; cbn [mbind option_bind]). Qed.

#[export] Instance demo_json : Json := {
  marshal_snapshot recs := Some (positive_bytes (encode (record_fields <$> recs)));
  unmarshal_snapshot bs := p ← bytes_positive bs; pss ← decode p; mapM fields_record pss;
  marshal_payload p := Some (positive_bytes (encode (payload_fields (omit_empty p))));
  unmarshal_payload bs := p ← bytes_positive bs; ps ← decode p; fields_payload ps
}.

#[export] Instance demo_json_law : JsonLaw.
Proof.
  split.
  - intros recs _. eexists. split; [reflexivity|]. split; [apply positive_bytes_nonempty|].
    cbn [unmarshal_snapshot demo_json]. rewrite bytes_positive_bytes. cbn [mbind option_bind]. rewrite decode_encode. cbn [mbind option_bind].
    apply mapM_Some. apply Forall2_fmap_l, Forall_Forall2_diag, Forall_forall. intros rec _. apply fields_record_fields.
  - intros p _. eexists. split; [reflexivity|]. split; [apply positive_bytes_ok|]. split; [apply positive_bytes_nonempty|].
    cbn [unmarshal_payload demo_json]. rewrite bytes_positive_bytes. cbn [mbind option_bind]. rewrite decode_encode. cbn [mbind option_bind].
    apply fields_payload_fields.
Qed.

(** ** A run that restarts *)

Definition demo_registry_config : fileRegistryV2Config := 
  {| walCfg := demo_config SyncAlways; flushInterval := 2 * 1000000; compactBytes := 0; requestBuffer := 1024 |}.

Definition demo_env (t : Z) : compact_env :=
  {| c_ctxErr := false; c_failed := false; c_refused := false; c_now := t; c_mark := t; c_encnow := t |}.

Definition demo_instance (id : string) : Instance :=
  {| ID := id; Service := "pay"; Address := "10.0.0.3:80"; Status_ := Healthy; Labels := None; LastSeen := 0;
     RegistrationEpoch := ""; OwnerToken := "" |}.

Definition demo_at (t : Z) (op : v2_op) : v2_event :=
  {| e_at := t; e_until := t; e_visit := fun m => map_to_list m; e_range := fun m => map_to_list m;
     e_dirty := fun X => elements X; e_op := op |}.

Definition demo_register (t : Z) (id : string) (ttl : Z) : v2_event :=
  demo_at t (VRegister false false (demo_env t) "e1" "t1" (demo_instance id) ttl t).

Definition demo_heartbeat (t : Z) (id : string) (ttl : Z) : v2_event :=
  demo_at t (VHeartbeat false false (demo_env t) "pay" id "" "" ttl t false false).

Definition demo_history : list v2_event :=
  [demo_register 0 "a" 10; demo_register 1 "b" 3; demo_heartbeat 5 "a" 20; demo_at 6 (VCompact (demo_env 6));
   demo_register 7 "c" 9].

Definition demo_restart (now : Z) (r : FileRegistryV2) : option (file_error + FileRegistryV2) :=
  NewFileRegistryV2 demo_registry_config (fun m => map_to_list m) (fun m => map_to_list m) "registry.json"
    (fun _ => ("e2", "t2")%string) now (fun X => elements X) false false (demo_env now) 0 [] (v2_snapshot r)
    (Some (content (io (v2_wal r)))).

Definition demo_list (now : Z) (r : FileRegistryV2) : list string :=
  match (Snapshot (fun m => map_to_list m) false false "pay" now (v2_memory r)).1 with
  | inr snap => ID <$> Instances snap
  | inl _ => []
  end.

Definition demo_relist (now : Z) (r : FileRegistryV2) : option (list string) :=
  match demo_restart now r with Some (inr r') => Some (demo_list now r') | _ => None end.

Lemma demo_register_valid t id ttl :
  is_s 64 t -> is_s 64 ttl -> ValidString id = true -> event_valid (demo_register t id ttl).
Proof. intros Ht Httl Hid. repeat split; cbn; try done; try apply Ht; try apply Httl; try lia. Qed.

Lemma demo_history_valid : Forall event_valid demo_history.
Proof.
  repeat (apply Forall_cons; split); [apply demo_register_valid | apply demo_register_valid | | | apply demo_register_valid |];
    repeat split; cbn; try done; unfold is_s; lia.
Qed.

Lemma demo_history_in_time : all_in_time demo_registry_config demo_history v2_start.
Proof.
  unfold demo_history. repeat (apply conj; [try exact I|]); [|exact I].
  intros rec. vm_compute. intros [= <-]. reflexivity.
Qed.

Lemma demo_restarted now r r' l :
  demo_list now r = l ->
  NewFileRegistryV2 demo_registry_config (fun m => map_to_list m) (fun m => map_to_list m) "registry.json"
    (fun _ => ("e2", "t2")%string) now (fun X => elements X) false false (demo_env now) 0 [] (v2_snapshot r)
    (Some (content (io (v2_wal r)))) = Some (inr r') ->
  (forall s, s <> ""%string -> exists old new,
     (Snapshot (fun m => map_to_list m) false false s now (v2_memory r)).1 = inr old /\
     (Snapshot (fun m => map_to_list m) false false s now (v2_memory r')).1 = inr new /\ Instances new = Instances old) ->
  demo_restart now r = Some (inr r') /\ demo_list now r' = l.
Proof.
  intros Hl Hr' Hs. split; [exact Hr'|]. destruct (Hs "pay"%string) as (old & new & Ho & Hn & He); [discriminate|].
  unfold demo_list in *. rewrite Ho in Hl. by rewrite Hn, He.
Qed.

Lemma restart_is_invisible_witness :
  demo_list 8 (v2_run demo_registry_config demo_history v2_start) = ["a"; "c"]%string /\
  exists r', demo_restart 8 (v2_run demo_registry_config demo_history v2_start) = Some (inr r') /\
    demo_list 8 r' = ["a"; "c"]%string.
Proof.
  assert (Hl : demo_list 8 (v2_run demo_registry_config demo_history v2_start) = ["a"; "c"]%string) by (vm_compute; reflexivity).
  split; [exact Hl|].
  destruct (restart_is_invisible demo_registry_config demo_history 0 8 "registry.json" (fun _ => ("e2", "t2")%string)
    (fun m => map_to_list m) (fun m => map_to_list m) (fun X => elements X) (demo_env 8) 0) as (r' & Hr' & Hs).
  - exact demo_history_valid.
  - vm_compute. discriminate.
  - cbn. lia.
  - exact demo_history_in_time.
  - left. reflexivity.
  - lia.
  - repeat constructor; cbn; lia.
  - discriminate.
  - reflexivity.
  - reflexivity.
  - reflexivity.
  - reflexivity.
  - reflexivity.
  - reflexivity.
  - reflexivity.
  - exists r'. exact (demo_restarted 8 (v2_run demo_registry_config demo_history v2_start) r' _ Hl Hr' Hs).
Defined.

(** ** Runs that lose a lease *)

(** The lease of [a] has run out when the log is compacted, so the snapshot leaves
    it out; the heartbeat that follows still finds it in memory and is accepted,
    but its log record finds nothing when it is replayed. *)
Example compaction_forgets_renewed_lease :
  let r := v2_run demo_registry_config [demo_register 0 "a" 10; demo_at 11 (VCompact (demo_env 11))] v2_start in
  let '(e, r') := v2_Heartbeat demo_registry_config (fun m => map_to_list m) (fun m => map_to_list m) false false (demo_env 12)
    (fun m => m) "pay" "a" 20 12 12 r in
  e = None /\ demo_list 13 r' = ["a"%string] /\ demo_relist 13 r' = Some [].
Proof. vm_compute. repeat split. Qed.

(** Without the compaction the replay revives it. *)
Example heartbeat_revives_expired_lease :
  let r := v2_run demo_registry_config [demo_register 0 "a" 10; demo_heartbeat 12 "a" 20] v2_start in
  demo_list 13 r = ["a"%string] /\ demo_relist 13 r = Some ["a"%string].
Proof. vm_compute. repeat split. Qed.

(** A reader sweeps the expired lease between the append of a heartbeat and its
    application: the client is told the instance is unknown, and a restart revives it. *)
Example refused_heartbeat_revives_lease :
  let r := v2_run demo_registry_config [demo_register 0 "a" 10] v2_start in
  let '(e, r') := v2_Heartbeat demo_registry_config (fun m => map_to_list m) (fun m => map_to_list m) false false (demo_env 12)
    (fun m => (Snapshot (fun m => map_to_list m) false false "pay" 12 m).2) "pay" "a" 20 12 12 r in
  e = Some (ErrRegistry ErrInstanceNotFound) /\ demo_list 13 r' = [] /\ demo_relist 13 r' = Some ["a"%string].
Proof. vm_compute. repeat split. Qed.

(** The file of the first version after two registrations whose [persist] calls
    overlap: the one that read the memory first writes last. *)
Example overlapping_persist_loses_lease :
  let v : record_order := fun m => map_to_list m in
  let rng : service_order := fun m => map_to_list m in
  let register id m := (registerAt v false "e1" "t1" (demo_instance id) 10 0 m).2 in
  let m1 := register "a"%string NewMemoryRegistry in
  let m2 := register "b"%string m1 in
  let older := snapshotMemoryRegistry rng v 1 m1 in
  let newer := snapshotMemoryRegistry rng v 1 m2 in
  let r := (write_snapshot false older (write_snapshot false newer {| v1_memory := m2; v1_file := None |}).2).2 in
  match NewFileRegistry v "registry.json" (fun _ => ("e2", "t2")%string) 2 (v1_file r) with
  | inr r' => services (v1_memory r') !! "pay"%string ≫= (fun st => records st !! "b"%string) = None /\
              is_Some (services (v1_memory r) !! "pay"%string ≫= (fun st => records st !! "b"%string))
  | inl _ => False
  end.
Proof. vm_compute. split; [reflexivity|]. eexists. reflexivity. Qed.
