(* ===== verification/HealthStore.v ===== *)
(** * Sharing health between controllers ([pkg/fault/health_store.go])

    Controllers save their endpoints' health under one key each, with a
    compare-and-swap on the key's revision, and load what the others saved.  etcd is
    the class [EtcdKV]; the JSON encoding of a record is the class [HealthJson].
    Watching the prefix and dialling etcd are not modelled. *)
From Stdlib Require Import Ascii String SpecFloat.
From S2P Require Import Prelude GoStd GoFloat GoSort GoText GoUrl Status StateMachine SlowScore HealthManager.

(** ** Keys *)

Definition defaultEtcdHealthPrefix : string := "/aegismesh/health/v1".

Definition normalizeEtcdHealthPrefix (prefix : string) : string :=
  let prefix := TrimSpace prefix in
  let prefix := if bool_decide (prefix = ""%string) then defaultEtcdHealthPrefix else prefix in
  let prefix := if HasPrefix prefix "/" then prefix else ("/" ++ prefix)%string in
  TrimRight "/" (Clean_rooted prefix).

Definition healthInstancesPrefix (prefix : string) : string := normalizeEtcdHealthPrefix prefix ++ "/services/".

Definition HealthInstanceKey (prefix service instanceID : string) : string :=
  healthInstancesPrefix prefix ++ (PathEscape (TrimSpace service) ++ "/instances/" ++ PathEscape (TrimSpace instanceID)).

Definition healthIdentityFromKey (instancesPrefix key : string) : option (string * string) :=
  if negb (HasPrefix key instancesPrefix) then None
  else
    match Split "/" (skip (String.length instancesPrefix) key) with
    | [p0; p1; p2] =>
        if bool_decide (p1 <> "instances"%string \/ p0 = ""%string \/ p2 = ""%string) then None
        else
          match PathUnescape p0 with
          | None => None
          | Some service =>
              if bool_decide (service = ""%string) then None
              else match PathUnescape p2 with
                   | None => None
                   | Some id => if bool_decide (id = ""%string) then None else Some (service, id)
                   end
          end
    | _ => None
    end.

(** ** Records *)

Record healthRecord := {
  hr_Service : string; hr_InstanceID : string; hr_Address : string; hr_RegistrationEpoch : string; hr_State : string;
  hr_SlowScore : float64; hr_ConsecutiveSlowWindows : Z; hr_ConsecutiveEjectWindows : Z; hr_LastTransitionAt : Z;
  hr_EjectedAt : Z; hr_UpdatedAt : Z }.

(** [encoding/json] on the record; [None] is an error. *)
Class HealthJson := { marshal_health : healthRecord -> option (list Z); unmarshal_health : list Z -> option healthRecord }.

Section Records.
Context `{HealthJson}.

Definition record_of (h : EndpointHealth) : healthRecord := {|
  hr_Service := Service h; hr_InstanceID := InstanceID h; hr_Address := Address h; hr_RegistrationEpoch := RegistrationEpoch h;
  hr_State := Code_String (Normalized (State h)); hr_SlowScore := SlowScore h;
  hr_ConsecutiveSlowWindows := ConsecutiveSlowWindows h; hr_ConsecutiveEjectWindows := ConsecutiveEjectWindows h;
  hr_LastTransitionAt := LastTransitionAt h; hr_EjectedAt := EjectedAt h; hr_UpdatedAt := UpdatedAt h |}.

Definition encodeHealth (h : EndpointHealth) : option (list Z) := marshal_health (record_of h).

Definition decodeHealth (value : list Z) : option EndpointHealth :=
  r ← unmarshal_health value;
  if bool_decide (hr_Service r = ""%string \/ hr_InstanceID r = ""%string) then None
  else
    let state := Parse (hr_State r) in
    Some {| Service := hr_Service r; InstanceID := hr_InstanceID r; Address := hr_Address r;
            RegistrationEpoch := hr_RegistrationEpoch r; State := if bool_decide (state = Unspecified) then Healthy else state;
            SlowScore := hr_SlowScore r; ConsecutiveSlowWindows := hr_ConsecutiveSlowWindows r;
            ConsecutiveEjectWindows := hr_ConsecutiveEjectWindows r; LastTransitionAt := hr_LastTransitionAt r;
            EjectedAt := hr_EjectedAt r; UpdatedAt := hr_UpdatedAt r |}.

Definition with_names (service id : string) (h : EndpointHealth) : EndpointHealth := {|
  Service := service; InstanceID := id; Address := Address h; RegistrationEpoch := RegistrationEpoch h; State := State h;
  SlowScore := SlowScore h; ConsecutiveSlowWindows := ConsecutiveSlowWindows h;
  ConsecutiveEjectWindows := ConsecutiveEjectWindows h; LastTransitionAt := LastTransitionAt h; EjectedAt := EjectedAt h;
  UpdatedAt := UpdatedAt h |}.

(** [Some None] when the key names no endpoint, [None] when the value cannot be decoded. *)
Definition healthFromKV (instancesPrefix key : string) (value : list Z) : option (option EndpointHealth) :=
  match healthIdentityFromKey instancesPrefix key with
  | None => Some None
  | Some (service, id) =>
      match decodeHealth value with None => None | Some h => Some (Some (with_names service id h)) end
  end.
End Records.

(** ** The store *)

(** What the code uses of etcd: a read with the revision of the key's last change, a
    write conditional on it (0 for a key that does not exist) with the store's
    revision, and the keys below a prefix with theirs. *)
Class EtcdKV (K : Type) := {
  kv_get : string -> K -> option (list Z * Z);
  kv_put_if : string -> list Z -> Z -> K -> Z * bool * K;
  kv_list : string -> K -> list (string * list Z) * Z
}.

(** What happens around one request: other clients' changes before it; whether it
    fails, and then whether it took effect; whether the context is done after it. *)
Record kv_event (K : Type) := { ev_others : K -> K; ev_err : option bool; ev_ctxErr : bool }.
Arguments ev_others {K}.
Arguments ev_err {K}.
Arguments ev_ctxErr {K}.

Definition quiet {K} : kv_event K := {| ev_others := fun k => k; ev_err := None; ev_ctxErr := false |}.

Definition next_event {K} (evs : list (kv_event K)) : kv_event K * list (kv_event K) :=
  match evs with [] => (quiet, []) | e :: evs => (e, evs) end.

Section Store.
Context {K : Type} `{EtcdKV K} `{HealthJson} (prefix : string).
(** The comparison of two endpoints by [==]: it sees the representation of the times. *)
Context (same : EndpointHealth -> EndpointHealth -> bool).

Definition instancesPrefix : string := healthInstancesPrefix prefix.

Inductive save_result := Saved (revision : Z) | Kept | SaveFailed.

(** The retry loop of one endpoint; [None] when the fuel runs out. *)
Fixpoint save_loop (fuel : nat) (key : string) (value : list Z) (h : EndpointHealth) (evs : list (kv_event K)) (k : K)
  : option (save_result * list (kv_event K) * K) :=
  match fuel with
  | O => None
  | S fuel =>
      let '(e, evs) := next_event evs in
      let k := ev_others e k in
      match ev_err e with
      | Some _ => Some (SaveFailed, evs, k)
      | None =>
        let put expected :=
          let '(e, evs) := next_event evs in
          let k := ev_others e k in
          let '(revision, stored, k') := kv_put_if key value expected k in
          match ev_err e with
          | Some applied => Some (SaveFailed, evs, if applied then k' else k)
          | None =>
              if stored then Some (Saved revision, evs, k')
              else if ev_ctxErr e then Some (SaveFailed, evs, k')
              else save_loop fuel key value h evs k'
          end in
        match kv_get key k with
        | None => put 0
        | Some (current, modRevision) =>
            match healthFromKV instancesPrefix key current with
            | None => Some (SaveFailed, evs, k)
            | Some existing =>
                let existing := default zero_health existing in
                if (UpdatedAt h <? UpdatedAt existing) || same existing h then Some (Kept, evs, k) else put modRevision
            end
        end
      end
  end.

(** [Save]: the highest revision written, and whether it succeeded; [now] is the
    clock for endpoints without a time. *)
Fixpoint save_all (now : Z) (maxRevision : Z) (health : list EndpointHealth) (evs : list (kv_event K)) (k : K)
  : option (Z * bool * K) :=
  match health with
  | [] => Some (maxRevision, true, k)
  | h :: health =>
      if bool_decide (Service h = ""%string \/ InstanceID h = ""%string) then save_all now maxRevision health evs k
      else
        let h := if bool_decide (State h = Unspecified) then set_state h Healthy else h in
        let h := if IsZero (UpdatedAt h) then with_updated h now else h in
        match encodeHealth h with
        | None => Some (maxRevision, false, k)
        | Some value =>
            match save_loop (S (length evs)) (HealthInstanceKey prefix (Service h) (InstanceID h)) value h evs k with
            | None => None
            | Some (SaveFailed, _, k) => Some (maxRevision, false, k)
            | Some (Kept, evs, k) => save_all now maxRevision health evs k
            | Some (Saved revision, evs, k) => save_all now (Z.max maxRevision revision) health evs k
            end
        end
  end.

Definition Save (now : Z) (health : list EndpointHealth) (evs : list (kv_event K)) (k : K) : option (Z * bool * K) :=
  save_all now 0 health evs k.

(** [Load] *)
Definition Load (k : K) : option (list EndpointHealth * Z) :=
  let '(kvs, revision) := kv_list instancesPrefix k in
  endpoints ← mapM (fun kv => healthFromKV instancesPrefix kv.1 kv.2) kvs;
  Some (Slice health_less (omap id endpoints), revision).
End Store.
