(* ===== verification/HealthStoreSpec.v ===== *)
(** * What sharing health promises

    Keys are read back as the endpoints they were made for; the newest record of an
    endpoint wins however controllers interleave; a controller that restarts finds the
    health it saved. *)
From Stdlib Require Import Ascii String SpecFloat.
From S2P Require Import Prelude GoStd GoFloat GoSort GoText GoUrl Status StateMachine SlowScore HealthManager HealthStore FileRecovery.

(** ** Keys *)

Lemma identity_from_key prefix service id :
  TrimSpace service <> ""%string -> TrimSpace id <> ""%string ->
  healthIdentityFromKey (healthInstancesPrefix prefix) (HealthInstanceKey prefix service id) = Some (TrimSpace service, TrimSpace id).
Proof.
  intros Hs Hi. unfold healthIdentityFromKey, HealthInstanceKey. rewrite HasPrefix_app, skip_app. cbn [negb].
  set (a := PathEscape (TrimSpace service)). set (b := PathEscape (TrimSpace id)).
  assert (Hj : (a ++ "/instances/" ++ b)%string = join "/" [a; "instances"; b]%string) by done. rewrite Hj, Split_join; [|done|].
  - rewrite bool_decide_eq_false_2.
    + unfold a, b. rewrite !PathUnescape_PathEscape. by rewrite !bool_decide_eq_false_2 by done.
    + intros [?|[Ha|Hb]]; [done|by apply Hs, PathEscape_empty|by apply Hi, PathEscape_empty].
  - do 3 (apply Forall_cons_2; [first [apply PathEscape_no_slash|by apply index_byte_None]|]). constructor.
Qed.

(** ** Laws *)

(** The revisions of etcd: those of keys are positive and at most the store's, a
    conditional write succeeds exactly when the revision is the key's, and then takes
    a revision above all before it. *)
Class EtcdLaw (K : Type) `{EtcdKV K} := {
  kv_rev : K -> Z;
  kv_rev_bound key k v m : kv_get key k = Some (v, m) -> 0 < m <= kv_rev k;
  kv_put_law key v e k : let '(rev, ok, k') := kv_put_if key v e k in
    ok = bool_decide (e = match kv_get key k with Some (_, m) => m | None => 0 end) /\
    if ok then kv_rev k < rev /\ kv_rev k' = rev /\ kv_get key k' = Some (v, rev) /\
               forall key', key' <> key -> kv_get key' k' = kv_get key' k
    else k' = k;
  kv_list_law prefix k : NoDup (kv_list prefix k).1.*1 /\
    forall key v, (key, v) ∈ (kv_list prefix k).1 <-> HasPrefix key prefix = true /\ exists m, kv_get key k = Some (v, m)
}.

(** The record survives JSON: valid text, times within the years it can write, a
    finite score that is not the negative zero (an omitted field reads as zero). *)
Definition health_safe (h : EndpointHealth) : Prop :=
  ValidString (Service h) = true /\ ValidString (InstanceID h) = true /\ ValidString (Address h) = true /\
  ValidString (RegistrationEpoch h) = true /\ json_time (LastTransitionAt h) /\ json_time (EjectedAt h) /\ json_time (UpdatedAt h) /\
  is_s 64 (ConsecutiveSlowWindows h) /\ is_s 64 (ConsecutiveEjectWindows h) /\
  match SlowScore h with S754_zero s => s = false | S754_finite _ _ _ => True | _ => False end.

Class HealthJsonLaw `{HealthJson} : Prop :=
  health_roundtrip h : health_safe h ->
    exists raw, marshal_health (record_of h) = Some raw /\ unmarshal_health raw = Some (record_of h).

(** An endpoint that can be stored and found again. *)
Definition storable (h : EndpointHealth) : Prop :=
  health_safe h /\ TrimSpace (Service h) <> ""%string /\ TrimSpace (InstanceID h) <> ""%string.

Section Newest.
Context {K : Type} `{EtcdLaw K} `{HealthJsonLaw} (prefix : string) (same : EndpointHealth -> EndpointHealth -> bool).
Context (Hsame : forall a b, same a b = true -> a = b).

Definition key_of (h : EndpointHealth) : string := HealthInstanceKey prefix (Service h) (InstanceID h).

(** The record at a key. *)
Definition stored (key : string) (k : K) (h : EndpointHealth) : Prop :=
  exists v m, kv_get key k = Some (v, m) /\ healthFromKV (instancesPrefix prefix) key v = Some (Some h).

(** The second value is no older than the first. *)
Definition newer (key : string) (v1 v2 : list Z) : Prop :=
  forall h1, healthFromKV (instancesPrefix prefix) key v1 = Some (Some h1) ->
  exists h2, healthFromKV (instancesPrefix prefix) key v2 = Some (Some h2) /\ UpdatedAt h1 <= UpdatedAt h2.

(** What every controller may do to the store, and all it does: a key keeps its
    value, or takes a later revision with a value no older. *)
Record advances (k1 k2 : K) : Prop := {
  adv_rev : kv_rev k1 <= kv_rev k2;
  adv_new key v m : kv_get key k2 = Some (v, m) -> kv_get key k1 = Some (v, m) \/ kv_rev k1 < m;
  adv_old key v m : kv_get key k1 = Some (v, m) -> exists v' m', kv_get key k2 = Some (v', m') /\ newer key v v'
}.

Lemma newer_refl key v : newer key v v.
Proof. intros h Hh. exists h. split; [done|lia]. Qed.

Lemma newer_trans key v1 v2 v3 : newer key v1 v2 -> newer key v2 v3 -> newer key v1 v3.
Proof.
  intros N1 N2 h Hh. destruct (N1 h Hh) as (h2 & Hh2 & Hle). destruct (N2 h2 Hh2) as (h3 & Hh3 & Hle').
  exists h3. split; [done|lia].
Qed.

#[export] Instance advances_preorder : PreOrder advances.
Proof.
  split.
  - intros k. split; [done|by left|]. intros key v m Hk. exists v, m. split; [done|apply newer_refl].
  - intros k1 k2 k3 [A1 A2 A3] [B1 B2 B3]. split; [lia| |].
    + intros key v m Hk. destruct (B2 key v m Hk) as [Hk2|]; [|right; lia]. by apply A2.
    + intros key v m Hk. destruct (A3 key v m Hk) as (v2 & m2 & Hk2 & Hn). destruct (B3 key v2 m2 Hk2) as (v3 & m3 & Hk3 & Hn').
      exists v3, m3. split; [done|]. by eapply newer_trans.
Qed.

(** At least as recent as [t]. *)
Definition recent (key : string) (t : Z) (k : K) : Prop := exists h, stored key k h /\ t <= UpdatedAt h.

Lemma recent_advances key t k1 k2 : advances k1 k2 -> recent key t k1 -> recent key t k2.
Proof.
  intros [_ _ A3] (h & (v & m & Hk & Hh) & Ht). destruct (A3 key v m Hk) as (v' & m' & Hk' & Hn).
  destruct (Hn h Hh) as (h' & Hh' & Hle). exists h'. split; [by exists v', m'|lia].
Qed.

Lemma stored_decodes h : storable h ->
  exists raw, encodeHealth h = Some raw /\
    healthFromKV (instancesPrefix prefix) (key_of h) raw =
      Some (Some (with_names (TrimSpace (Service h)) (TrimSpace (InstanceID h)) (set_state h (Normalized (State h))))).
Proof.
  intros (Hsafe & Hs & Hi). destruct (health_roundtrip h Hsafe) as (raw & Hm & Hu). exists raw. split; [done|].
  unfold healthFromKV, key_of, instancesPrefix. rewrite identity_from_key by done. unfold decodeHealth. rewrite Hu. cbn [mbind option_bind].
  rewrite bool_decide_eq_false_2; [|cbn; intros [E|E]; rewrite E in *; done]. cbn. rewrite Parse_String.
  do 2 f_equal. unfold with_names, set_state. destruct h as [? ? ? ? st ? ? ? ? ? ?]. cbn. f_equal. by destruct st.
Qed.

Definition others_advance (evs : list (kv_event K)) : Prop := Forall (fun e => forall k, advances k (ev_others e k)) evs.

Lemma next_event_ok evs e evs' :
  others_advance evs -> next_event evs = (e, evs') ->
  (forall k, advances k (ev_others e k)) /\ others_advance evs' /\ (length evs' <= length evs)%nat /\ (evs = [] -> evs' = [] /\ e = quiet).
Proof.
  intros Hevs. unfold next_event. destruct Hevs as [|x l Hx Hl]; intros [= <- <-]; [|split; [done|]; split; [done|]; split; [cbn; lia|done]].
  split; [intros k; apply advances_preorder|]. split; [constructor|done].
Qed.

Section One.
Context (h : EndpointHealth) (value : list Z) (Hst : storable h) (Henc : encodeHealth h = Some value).

Lemma value_decodes :
  exists x, healthFromKV (instancesPrefix prefix) (key_of h) value = Some (Some x) /\ UpdatedAt x = UpdatedAt h.
Proof.
  destruct (stored_decodes h Hst) as (raw & Hraw & Hd). assert (raw = value) as -> by congruence. eexists. split; [exact Hd|done].
Qed.

(** A conditional write that overwrites only what the record is no older than. *)
Lemma put_ok expected k :
  (forall v m, kv_get (key_of h) k = Some (v, m) -> m = expected -> newer (key_of h) v value) ->
  let '(rev, ok, k') := kv_put_if (key_of h) value expected k in
  advances k k' /\ (ok = true -> recent (key_of h) (UpdatedAt h) k') /\ (ok = false -> k' = k).
Proof.
  intros Hnew. pose proof (kv_put_law (key_of h) value expected k) as Hlaw.
  destruct (kv_put_if (key_of h) value expected k) as [[rev ok] k']. destruct Hlaw as [Hok Hlaw]. destruct ok.
  2: { subst k'. split; [reflexivity|done]. }
  destruct Hlaw as (Hrev & Hrev' & Hget & Hother). symmetry in Hok. apply bool_decide_eq_true in Hok.
  split; [|split; [intros _|done]].
  - split; [lia| |].
    + intros key v m Hk. destruct (decide (key = key_of h)) as [->|Hne]; [|left; by rewrite <- Hother].
      rewrite Hget in Hk. injection Hk as <- <-. by right.
    + intros key v m Hk. destruct (decide (key = key_of h)) as [->|Hne].
      * exists value, rev. split; [done|]. rewrite Hk in Hok. by apply (Hnew v m).
      * exists v, m. split; [by rewrite Hother|apply newer_refl].
  - destruct value_decodes as (x & Hx & Ht). exists x. split; [by exists value, rev|lia].
Qed.

Lemma save_loop_ok fuel evs k res evs' k' :
  others_advance evs -> save_loop prefix same fuel (key_of h) value h evs k = Some (res, evs', k') ->
  advances k k' /\ others_advance evs' /\ (res <> SaveFailed -> recent (key_of h) (UpdatedAt h) k').
Proof.
  revert evs k. induction fuel as [|fuel IH]; intros evs k Hevs; cbn [save_loop]; [done|].
  destruct (next_event evs) as [e evs1] eqn:E1. destruct (next_event_ok _ _ _ Hevs E1) as (Ha1 & Hevs1 & _ & _).
  specialize (Ha1 k). set (k1 := ev_others e k) in *. cbv zeta. destruct (ev_err e); [by intros [= <- <- <-]|].
  destruct (next_event evs1) as [e2 evs2] eqn:E2. destruct (next_event_ok _ _ _ Hevs1 E2) as (Ha2 & Hevs2 & _ & _).
  specialize (Ha2 k1). set (k2 := ev_others e2 k1) in *.
  assert (Hput : forall expected,
    (forall v m, kv_get (key_of h) k2 = Some (v, m) -> m = expected -> newer (key_of h) v value) ->
    (let '(revision, stored, k') := kv_put_if (key_of h) value expected k2 in
     match ev_err e2 with
     | Some applied => Some (SaveFailed, evs2, if applied then k' else k2)
     | None => if stored then Some (Saved revision, evs2, k')
               else if ev_ctxErr e2 then Some (SaveFailed, evs2, k') else save_loop prefix same fuel (key_of h) value h evs2 k'
     end) = Some (res, evs', k') ->
    advances k k' /\ others_advance evs' /\ (res <> SaveFailed -> recent (key_of h) (UpdatedAt h) k')).
  { intros expected Hnew. pose proof (put_ok expected k2 Hnew) as Hp.
    destruct (kv_put_if (key_of h) value expected k2) as [[rev ok] k3]. destruct Hp as (Hp1 & Hp2 & Hp3).
    assert (Hk2 : advances k k2) by (by etrans). assert (Hk3 : advances k k3) by (by etrans).
    destruct (ev_err e2) as [applied|]; [intros [= <- <- <-]; by destruct applied|].
    destruct ok; [intros [= <- <- <-]; auto|]. destruct (ev_ctxErr e2); [by intros [= <- <- <-]|].
    intros Hgo. destruct (IH evs2 k3 Hevs2 Hgo) as (HA & HB & HC). split; [by etrans|done]. }
  destruct (kv_get (key_of h) k1) as [[cur m]|] eqn:Hget.
  - destruct (healthFromKV (instancesPrefix prefix) (key_of h) cur) as [ex|] eqn:Hcur; [|by intros [= <- <- <-]].
    destruct ((UpdatedAt h <? UpdatedAt (default zero_health ex)) || same (default zero_health ex) h) eqn:Hcmp.
    + intros [= <- <- <-]. split; [done|]. split; [done|]. intros _.
      assert (Hex : exists x, ex = Some x).
      { unfold healthFromKV, key_of, instancesPrefix in Hcur. rewrite identity_from_key in Hcur by apply Hst.
        destruct (decodeHealth cur); [|done]. injection Hcur as <-. eauto. }
      destruct Hex as [x ->]. cbn in Hcmp. exists x. split; [by exists cur, m|].
      apply orb_prop in Hcmp as [Hlt%Z.ltb_lt|Heq%Hsame]; [lia|by subst].
    + apply Hput. intros v m' Hk2 ->.
      assert (v = cur) as ->.
      { destruct (adv_new _ _ Ha2 _ _ _ Hk2) as [Hk1|Hlt]; [congruence|]. apply kv_rev_bound in Hget. lia. }
      intros h1 Hh1. rewrite Hh1 in Hcur. injection Hcur as <-. cbn in Hcmp. apply orb_false_elim in Hcmp as [Hge%Z.ltb_ge _].
      destruct value_decodes as (x & Hx & Ht). exists x. split; [done|lia].
  - apply Hput. intros v m Hk2 ->. apply kv_rev_bound in Hk2. lia.
Qed.
End One.

(** Only a change by another client makes the loop go round again. *)
Lemma save_loop_total fuel key value h evs k :
  (length evs < fuel)%nat -> exists res evs' k', save_loop prefix same fuel key value h evs k = Some (res, evs', k').
Proof.
  revert evs k. induction fuel as [|fuel IH]; intros evs k Hlen; [lia|]. cbn [save_loop].
  destruct (next_event evs) as [e evs1] eqn:E1. cbv zeta. set (k1 := ev_others e k). destruct (ev_err e); [by eauto|].
  destruct (next_event evs1) as [e2 evs2] eqn:E2. set (k2 := ev_others e2 k1).
  assert (Hput : forall expected, expected = match kv_get key k1 with Some (_, m) => m | None => 0 end ->
    exists res evs' k', (let '(revision, stored, k') := kv_put_if key value expected k2 in
     match ev_err e2 with
     | Some applied => Some (SaveFailed, evs2, if applied then k' else k2)
     | None => if stored then Some (Saved revision, evs2, k')
               else if ev_ctxErr e2 then Some (SaveFailed, evs2, k') else save_loop prefix same fuel key value h evs2 k'
     end) = Some (res, evs', k')).
  { intros expected Hexp. pose proof (kv_put_law key value expected k2) as Hlaw.
    destruct (kv_put_if key value expected k2) as [[rev ok] k3]. destruct Hlaw as [Hok _].
    destruct (ev_err e2); [by eauto|]. destruct ok; [by eauto|]. destruct (ev_ctxErr e2); [by eauto|].
    destruct evs1 as [|x evs1]; cbn in E2.
    - injection E2 as <- <-. symmetry in Hok. apply bool_decide_eq_false in Hok. by destruct Hok.
    - injection E2 as <- <-. apply IH. destruct evs as [|y evs]; [discriminate E1|]. injection E1 as _ ->. cbn in Hlen. lia. }
  destruct (kv_get key k1) as [[cur m]|]; [|by apply Hput].
  destruct (healthFromKV _ _ cur); [|by eauto]. destruct (_ || _); [by eauto|by apply Hput].
Qed.

Lemma save_normalizes now h :
  (if IsZero (UpdatedAt (if bool_decide (State h = Unspecified) then set_state h Healthy else h))
   then with_updated (if bool_decide (State h = Unspecified) then set_state h Healthy else h) now
   else if bool_decide (State h = Unspecified) then set_state h Healthy else h) = normalized now h.
Proof. unfold normalized. by destruct (State h). Qed.

Lemma save_all_ok now maxRev health evs k :
  others_advance evs -> (forall h, h ∈ health -> named h -> storable (normalized now h)) ->
  exists rev ok k', save_all prefix same now maxRev health evs k = Some (rev, ok, k') /\ advances k k' /\
    (ok = true -> forall h, h ∈ health -> named h -> recent (key_of h) (UpdatedAt (normalized now h)) k').
Proof.
  revert maxRev evs k. induction health as [|h health IH]; intros maxRev evs k Hevs Hst; cbn [save_all].
  { exists maxRev, true, k. split; [done|]. split; [apply advances_preorder|]. intros _ h Hh. by apply not_elem_of_nil in Hh. }
  assert (Htl : forall x, x ∈ health -> named x -> storable (normalized now x)) by (intros x Hx; apply Hst; by apply list_elem_of_further).
  case_bool_decide as Hn.
  { destruct (IH maxRev evs k Hevs Htl) as (rev & ok & k' & -> & Hadv & Hrec). exists rev, ok, k'. split; [done|]. split; [done|].
    intros Hok x Hx Hnx. apply elem_of_cons in Hx as [->|Hx]; [destruct Hnx; tauto|by apply Hrec]. }
  assert (Hnamed : named h) by (split; tauto). cbv zeta. rewrite save_normalizes.
  pose proof (Hst h (list_elem_of_here _ _) Hnamed) as Hsth. destruct (stored_decodes _ Hsth) as (value & Henc & _). rewrite Henc.
  assert (Hkey : HealthInstanceKey prefix (Service (normalized now h)) (InstanceID (normalized now h)) = key_of (normalized now h)) by done.
  rewrite Hkey. assert (Hkey' : key_of (normalized now h) = key_of h) by (unfold key_of; by destruct (normalized_identity now h) as [-> ->]).
  destruct (save_loop_total (S (length evs)) (key_of (normalized now h)) value (normalized now h) evs k) as (res & evs' & k1 & Hrun); [lia|].
  rewrite Hrun. destruct (save_loop_ok _ _ Hsth Henc _ _ _ _ _ _ Hevs Hrun) as (Hadv & Hevs' & Hrec). rewrite Hkey' in Hrec.
  assert (Hgo : forall mr, res <> SaveFailed -> exists rev ok k', save_all prefix same now mr health evs' k1 = Some (rev, ok, k') /\ advances k k' /\
    (ok = true -> forall x, x ∈ h :: health -> named x -> recent (key_of x) (UpdatedAt (normalized now x)) k')).
  { intros mr Hres. destruct (IH mr evs' k1 Hevs' Htl) as (rev & ok & k' & -> & Hadv' & Hrec'). exists rev, ok, k'. split; [done|].
    split; [by etrans|]. intros Hok x Hx Hnx. apply elem_of_cons in Hx as [->|Hx]; [|by apply Hrec'].
    apply (recent_advances _ _ k1); auto. }
  destruct res; [by apply Hgo|by apply Hgo|]. exists maxRev, false, k1. by split.
Qed.
End Newest.

(** C14. The newest health wins.  A controller saves its endpoints while others,
    through the same code, change the store between any two of its requests, and
    requests fail or are lost: the save ends; it never replaces a record by an older
    one nor loses another controller's newer one; and when it reports success every
    named endpoint is stored with a time at least as recent as the one saved. *)
Theorem newest_health_wins {K} `{EtcdLaw K} `{HealthJsonLaw} prefix same now health evs k :
  (forall a b, same a b = true -> a = b) -> others_advance prefix evs ->
  (forall h, h ∈ health -> named h -> storable (normalized now h)) ->
  exists rev ok k', Save prefix same now health evs k = Some (rev, ok, k') /\ advances prefix k k' /\
    (ok = true -> forall h, h ∈ health -> named h -> recent prefix (key_of prefix h) (UpdatedAt (normalized now h)) k').
Proof. intros Hsame Hevs Hst. by apply save_all_ok. Qed.

(** ** Restarting a controller *)

(** An endpoint as the manager keeps it: named without spaces around, with a state
    and a time. *)
Definition settled (h : EndpointHealth) : Prop :=
  storable h /\ TrimSpace (Service h) = Service h /\ TrimSpace (InstanceID h) = InstanceID h /\
  State h <> Unspecified /\ UpdatedAt h <> zero_time.

Lemma settled_normalized now h : settled h -> normalized now h = h.
Proof.
  intros (_ & _ & _ & Hs & Hu). unfold normalized, IsZero. destruct (State h) eqn:E; [done|..]; by destruct (Z.eqb_spec (UpdatedAt h) zero_time).
Qed.

Lemma settled_named h : settled h -> named h.
Proof. intros ((_ & Hs & Hi) & Es & Ei & _). unfold named. by rewrite <- Es, <- Ei. Qed.

Section Recovery.
Context {K : Type} `{EtcdLaw K} `{HealthJsonLaw} (prefix : string) (same : EndpointHealth -> EndpointHealth -> bool).

Lemma settled_decodes h : settled h ->
  exists raw, encodeHealth h = Some raw /\ healthFromKV (instancesPrefix prefix) (key_of prefix h) raw = Some (Some h).
Proof.
  intros (Hst & Es & Ei & Hs & _). destruct (stored_decodes prefix h Hst) as (raw & He & Hd). exists raw. split; [done|].
  rewrite Hd, Es, Ei. do 2 f_equal. destruct h as [? ? ? ? st ? ? ? ? ? ?]. cbn in *. by destruct st.
Qed.

(** The keys of two settled endpoints differ when the endpoints are not the same. *)
Lemma key_of_inj h1 h2 : settled h1 -> settled h2 -> key_of prefix h1 = key_of prefix h2 -> entry_key h1 = entry_key h2.
Proof.
  intros ((_ & Hs1 & Hi1) & Es1 & Ei1 & _) ((_ & Hs2 & Hi2) & Es2 & Ei2 & _) Hk.
  pose proof (identity_from_key prefix _ _ Hs1 Hi1) as Hx1. pose proof (identity_from_key prefix _ _ Hs2 Hi2) as Hx2.
  unfold key_of in Hk. rewrite Hk, Hx2 in Hx1. unfold entry_key. rewrite <- Es1, <- Ei1, <- Es2, <- Ei2. congruence.
Qed.

(** Below the prefix the store holds exactly these endpoints. *)
Definition holds (hs : list EndpointHealth) (k : K) : Prop :=
  forall key v, HasPrefix key (instancesPrefix prefix) = true ->
    (exists m, kv_get key k = Some (v, m)) <-> exists h, h ∈ hs /\ key = key_of prefix h /\ encodeHealth h = Some v.

Lemma save_fresh hs now maxRev past k :
  Forall settled hs -> Forall settled past -> NoDup (entry_key <$> past ++ hs) -> holds past k ->
  exists rev k', save_all prefix same now maxRev hs [] k = Some (rev, true, k') /\ holds (past ++ hs) k'.
Proof.
  intros Hhs. revert maxRev past k. induction Hhs as [|h hs Hh Hhs IH]; intros maxRev past k Hpast Hnd Hk; cbn [save_all].
  { exists maxRev, k. split; [done|]. by rewrite app_nil_r. }
  destruct (settled_named h Hh) as [Hns Hni]. rewrite bool_decide_eq_false_2 by tauto. cbv zeta.
  rewrite save_normalizes, (settled_normalized now h Hh). destruct (settled_decodes h Hh) as (raw & He & Hd). rewrite He.
  assert (Hnone : kv_get (key_of prefix h) k = None).
  { destruct (kv_get (key_of prefix h) k) as [[v m]|] eqn:E; [exfalso|done].
    destruct (proj1 (Hk (key_of prefix h) v (HasPrefix_app _ _))) as (x & Hx & Hkx & _); [by eauto|].
    rewrite Forall_forall in Hpast. apply (key_of_inj h x Hh (Hpast x Hx)) in Hkx.
    rewrite fmap_app, fmap_cons in Hnd. apply NoDup_app in Hnd as (_ & Hd' & _). apply (Hd' (entry_key x)).
    - by apply list_elem_of_fmap_2.
    - rewrite <- Hkx. apply list_elem_of_here. }
  fold (key_of prefix h). cbn [length save_loop next_event quiet ev_others ev_err ev_ctxErr]. rewrite Hnone.
  pose proof (kv_put_law (key_of prefix h) raw 0 k) as Hlaw. destruct (kv_put_if (key_of prefix h) raw 0 k) as [[rev ok] k1].
  destruct Hlaw as [Hok Hlaw]. rewrite Hnone, bool_decide_eq_true_2 in Hok by done. subst ok. destruct Hlaw as (_ & _ & Hget & Hother).
  destruct (IH (Z.max maxRev rev) (past ++ [h]) k1) as (rev' & k' & Hrun & Hk').
  - apply Forall_app. split; [done|]. by constructor.
  - by rewrite <- app_assoc.
  - intros key v Hp. destruct (decide (key = key_of prefix h)) as [->|Hne].
    + rewrite Hget. split.
      * intros (m & [= -> ->]). exists h. split; [|done]. apply elem_of_app. right. by apply list_elem_of_singleton.
      * intros (x & Hx & Hkx & Hv). exists rev. apply elem_of_app in Hx as [Hx|Hx%list_elem_of_singleton]; [|subst; congruence].
        destruct (proj2 (Hk _ v Hp)) as [m Hm]; [by exists x|]. congruence.
    + rewrite Hother, (Hk key v Hp) by done. split; intros (x & Hx & Hkx & Hv); exists x; (split; [|done]); [apply elem_of_app; by left|].
      apply elem_of_app in Hx as [Hx|Hx%list_elem_of_singleton]; [done|by subst].
  - exists rev', k'. split; [done|]. by rewrite <- app_assoc in Hk'.
Qed.

Lemma load_holds hs k :
  Forall settled hs -> NoDup (entry_key <$> hs) -> holds hs k ->
  exists out rev, Load prefix k = Some (out, rev) /\ out ≡ₚ hs.
Proof.
  intros Hhs Hnd Hk. unfold Load. pose proof (kv_list_law (instancesPrefix prefix) k) as [Hndk Hin].
  destruct (kv_list (instancesPrefix prefix) k) as [kvs rev]. cbn [fst] in *.
  assert (Hm : forall l, (forall kv, kv ∈ l -> kv ∈ kvs) ->
    exists out, mapM (fun kv => healthFromKV (instancesPrefix prefix) kv.1 kv.2) l = Some (Some <$> out) /\
      Forall2 (fun kv h => h ∈ hs /\ kv.1 = key_of prefix h) l out).
  { induction l as [|kv l IH]; intros Hl; [by exists []|]. destruct IH as (out & Hout & Hf); [intros x Hx; by apply Hl, list_elem_of_further|].
    destruct kv as [key v]. destruct (proj1 (Hin key v) (Hl _ (list_elem_of_here _ _))) as [Hp Hg].
    apply (Hk key v Hp) in Hg as (h & Hh & -> & He). rewrite Forall_forall in Hhs. destruct (settled_decodes h (Hhs h Hh)) as (raw & He' & Hd).
    assert (raw = v) as -> by congruence. exists (h :: out). cbn. rewrite Hd. cbn. rewrite Hout. split; [done|]. by constructor. }
  destruct (Hm kvs) as (out & Hout & Hf); [done|]. rewrite Hout. cbn [mbind option_bind]. eexists _, _. split; [done|].
  rewrite Slice_perm. assert (Ho : omap id (Some <$> out) = out) by (clear; induction out; cbn; congruence). rewrite Ho.
  assert (Hkeys : kvs.*1 = key_of prefix <$> out).
  { clear -Hf. induction Hf as [|kv h l out [_ E] _ IH]; [done|]. cbn. by rewrite E, IH. }
  apply NoDup_Permutation.
  - rewrite Hkeys in Hndk. by apply NoDup_fmap_1 in Hndk.
  - by apply NoDup_fmap_1 in Hnd.
  - intros h. split.
    + intros Hh. apply list_elem_of_lookup in Hh as [i Hi]. destruct (Forall2_lookup_r _ _ _ _ _ Hf Hi) as (kv & _ & Hh & _). done.
    + intros Hh. rewrite Forall_forall in Hhs. destruct (settled_decodes h (Hhs h Hh)) as (raw & He & _).
      assert (Hkv : (key_of prefix h, raw) ∈ kvs) by (apply Hin; split; [apply HasPrefix_app|]; apply Hk; [apply HasPrefix_app|by exists h]).
      apply list_elem_of_lookup in Hkv as [i Hi]. destruct (Forall2_lookup_l _ _ _ _ _ Hf Hi) as (x & Hx & Hxin & Hkx). cbn in Hkx.
      assert (Hex : entry_key x = entry_key h) by (symmetry; by apply key_of_inj; auto).
      assert (x = h) as ->; [|by eapply list_elem_of_lookup_2]. clear -Hnd Hxin Hh Hex.
      apply list_elem_of_lookup in Hxin as [a Ha]. apply list_elem_of_lookup in Hh as [b Hb].
      assert (a = b) as ->; [|congruence]. eapply NoDup_lookup; [exact Hnd| |]; rewrite list_lookup_fmap; [by rewrite Ha|rewrite Hb; cbn; by rewrite Hex].
Qed.
End Recovery.

Lemma merge_fresh now hs m ch :
  Forall settled hs -> NoDup (entry_key <$> hs) -> (forall h, h ∈ hs -> health m !! entry_key h = None) ->
  health (foldl (merge_one now) (m, ch) hs).1 = list_to_map ((fun h => (entry_key h, h)) <$> hs) ∪ health m.
Proof.
  intros Hhs. revert m ch. induction Hhs as [|h hs Hh Hhs IH]; intros m ch Hnd Hnone; cbn [foldl fmap list_fmap].
  { cbn. by rewrite (left_id_L ∅ (∪)). }
  destruct (settled_named h Hh) as [Hns Hni]. cbn [fmap list_fmap] in Hnd. apply NoDup_cons in Hnd as [Hn Hnd].
  assert (Hone : merge_one now (m, ch) h = (set_health m (<[entry_key h := h]> (health m)), {[Service h]} ∪ ch)).
  { unfold merge_one. rewrite !bool_decide_eq_false_2 by done. cbn [orb]. fold (normalized now h). cbv zeta.
    rewrite (settled_normalized now h Hh). fold (entry_key h). by rewrite (Hnone h (list_elem_of_here _ _)). }
  rewrite Hone, IH; [|done|].
  - cbn [health set_health list_to_map]. rewrite <- insert_union_r, insert_union_l; [done|].
    apply not_elem_of_list_to_map_1. intros Hin. apply Hn. rewrite <- list_fmap_compose in Hin. exact Hin.
  - intros x Hx. cbn. rewrite lookup_insert_ne; [by apply Hnone, list_elem_of_further|].
    intros E. apply Hn. rewrite E. by apply list_elem_of_fmap_2.
Qed.

(** A controller that restarts finds its health again.  It saves the endpoints
    its manager knows into a store that has none; loading them and merging them into
    a manager that knows none gives back every endpoint with its whole record. *)
Theorem restart_recovers_health {K} `{EtcdLaw K} `{HealthJsonLaw} prefix same now now' visit m m0 k0 :
  (forall hs, visit hs ≡ₚ map_to_list hs) -> map_Forall (fun key h => key = entry_key h /\ settled h) (health m) ->
  health m0 = ∅ -> holds prefix [] k0 ->
  exists rev k1 loaded rev', Save prefix same now (HealthManager.Snapshot visit m) [] k0 = Some (rev, true, k1) /\
    Load prefix k1 = Some (loaded, rev') /\ health (MergeSnapshot now' loaded m0).2 = health m.
Proof.
  intros Hv Hm Hm0 Hk0. set (hs := HealthManager.Snapshot visit m).
  assert (Hp : hs ≡ₚ (map_to_list (health m)).*2).
  { unfold hs, HealthManager.Snapshot, HealthManager.List, listLocked. rewrite Slice_perm, filter_all, Hv; [done|].
    apply Forall_forall. by left. }
  assert (Hset : Forall settled hs).
  { rewrite Hp. apply Forall_fmap, Forall_forall. intros [key h] Hin%elem_of_map_to_list. cbn. by destruct (Hm _ _ Hin). }
  assert (Hpairs : (fun h => (entry_key h, h)) <$> (map_to_list (health m)).*2 = map_to_list (health m)).
  { rewrite <- list_fmap_compose. etrans; [|apply list_fmap_id]. apply list_fmap_ext. intros i [key h] Hi.
    apply list_elem_of_lookup_2, elem_of_map_to_list in Hi. destruct (Hm _ _ Hi) as [-> _]. done. }
  assert (Hnd : NoDup (entry_key <$> hs)).
  { rewrite Hp. assert (E : entry_key <$> (map_to_list (health m)).*2 = (map_to_list (health m)).*1).
    { transitivity (((fun h => (entry_key h, h)) <$> (map_to_list (health m)).*2).*1); [|by rewrite Hpairs].
      rewrite <- (list_fmap_compose _ fst). done. }
    rewrite E. apply NoDup_fst_map_to_list. }
  destruct (save_fresh prefix same hs now 0 [] k0 Hset ltac:(constructor) Hnd Hk0) as (rev & k1 & Hs & Hk1).
  destruct (load_holds prefix hs k1 Hset Hnd Hk1) as (loaded & rev' & Hl & Hlp).
  exists rev, k1, loaded, rev'. split; [exact Hs|]. split; [exact Hl|].
  assert (Hh : health (MergeSnapshot now' loaded m0).2 = health (foldl (merge_one now') (m0, ∅) loaded).1).
  { unfold MergeSnapshot. destruct (foldl (merge_one now') (m0, ∅) loaded) as [m1 ch]. cbn. by rewrite bump_fields. }
  rewrite Hh, merge_fresh; [|by rewrite Hlp|by rewrite Hlp|intros h _; rewrite Hm0; apply lookup_empty].
  rewrite Hm0, (right_id_L ∅ (∪)).
  assert (Hlp' : (fun h => (entry_key h, h)) <$> loaded ≡ₚ map_to_list (health m)) by (by rewrite Hlp, Hp, Hpairs).
  rewrite (list_to_map_proper _ (map_to_list (health m))); [apply list_to_map_to_list| |done].
  rewrite Hlp'. apply NoDup_fst_map_to_list.
Qed.
