(* ===== verification/HealthWitness.v ===== *)
(** * Shared health on a concrete store

    An executable store with etcd's revisions and an encoding with the laws of JSON;
    two controllers that save the same endpoint, and one that restarts. *)
From Stdlib Require Import Ascii String SpecFloat.
From S2P Require Import Prelude GoStd GoFloat GoSort GoText GoUrl Status StateMachine SlowScore HealthManager HealthStore FileRecovery.
From S2P Require Import FileWitness HealthStoreSpec.

(** ** A store *)

(** The keys with their values and revisions; the store's revision is the highest. *)
Abbreviation demo_store := (gmap string (list Z * positive)).

Definition max_revision (k : demo_store) : Z := foldr Z.max 0 ((fun p => Z.pos p.2.2) <$> map_to_list k).

#[local] Instance demo_kv : EtcdKV demo_store := {
  kv_get key k := (fun p => (p.1, Z.pos p.2)) <$> k !! key;
  kv_put_if key v e k :=
    if bool_decide (e = match k !! key with Some p => Z.pos p.2 | None => 0 end)
    then (max_revision k + 1, true, <[key := (v, Z.to_pos (max_revision k + 1))]> k)
    else (max_revision k, false, k);
  kv_list prefix k := ((fun p => (p.1, p.2.1)) <$> filter (fun p => HasPrefix p.1 prefix = true) (map_to_list k), max_revision k)
}.

Lemma foldr_max_ge l x : x ∈ l -> x <= foldr Z.max 0 l.
Proof. induction l as [|y l IH]; [by intros ?%not_elem_of_nil|]. intros [->|Hx]%elem_of_cons; cbn; [lia|]. specialize (IH Hx). lia. Qed.

Lemma foldr_max_le l b : 0 <= b -> (forall x, x ∈ l -> x <= b) -> 0 <= foldr Z.max 0 l <= b.
Proof.
  intros Hb. induction l as [|y l IH]; intros Hl; cbn; [lia|].
  assert (0 <= foldr Z.max 0 l <= b) by (apply IH; intros x Hx; by apply Hl, list_elem_of_further).
  specialize (Hl y (list_elem_of_here _ _)). lia.
Qed.

Lemma max_revision_ge (k : demo_store) key p : k !! key = Some p -> Z.pos p.2 <= max_revision k.
Proof.
  intros Hk. apply foldr_max_ge, list_elem_of_fmap. exists (key, p). split; [done|]. by apply elem_of_map_to_list.
Qed.

Lemma max_revision_insert k key v :
  max_revision (<[key := (v, Z.to_pos (max_revision k + 1))]> k) = max_revision k + 1.
Proof.
  assert (H0 : 0 <= max_revision k) by (apply (foldr_max_le _ (max_revision k)); [|intros x; apply foldr_max_ge];
    unfold max_revision; induction (_ <$> _); cbn; lia).
  set (k' := <[key := (v, Z.to_pos (max_revision k + 1))]> k).
  pose proof (max_revision_ge k' key _ (lookup_insert_eq _ _ _)) as Hge. cbn in Hge. rewrite Z2Pos.id in Hge by lia.
  assert (Hle : 0 <= max_revision k' <= max_revision k + 1); [|lia]. apply foldr_max_le; [lia|].
  intros x Hx. apply list_elem_of_fmap in Hx as ([key' p] & -> & Hin%elem_of_map_to_list). cbn.
  unfold k' in Hin. destruct (decide (key = key')) as [<-|Hne].
  - rewrite lookup_insert_eq in Hin. injection Hin as <-. cbn. lia.
  - rewrite lookup_insert_ne in Hin by done. apply max_revision_ge in Hin. lia.
Qed.

#[local] Instance demo_kv_law : EtcdLaw demo_store.
Proof.
  refine {| kv_rev := max_revision |}.
  - intros key k v m. cbn. destruct (k !! key) as [p|] eqn:E; [|done]. intros [= <- <-]. apply max_revision_ge in E. lia.
  - intros key v e k. cbn. destruct (k !! key) as [p|] eqn:E; cbn.
    all: case_bool_decide as He; (split; [by rewrite ?He, ?bool_decide_eq_true_2, ?bool_decide_eq_false_2|]); [|done].
    all: pose proof (max_revision_insert k key v) as Hm.
    all: assert (0 <= max_revision k) by (unfold max_revision; induction (_ <$> _); cbn; lia).
    all: split; [lia|]; split; [done|]; rewrite lookup_insert_eq; cbn; rewrite Z2Pos.id by lia; split; [done|].
    all: intros key' Hne; by rewrite lookup_insert_ne.
  - intros prefix k. cbn. split.
    + rewrite <- list_fmap_compose. apply (NoDup_fmap_2_strong fst).
      * intros [a p] [b q] Ha%list_elem_of_filter Hb%list_elem_of_filter. cbn. intros <-.
        destruct Ha as [_ Ha%elem_of_map_to_list], Hb as [_ Hb%elem_of_map_to_list]. congruence.
      * apply NoDup_filter, NoDup_map_to_list.
    + intros key v. rewrite list_elem_of_fmap. split.
      * intros ([a p] & [= -> ->] & [Hp Hin%elem_of_map_to_list]%list_elem_of_filter). cbn in *. split; [done|]. rewrite Hin. by eexists.
      * intros [Hp [m Hm]]. destruct (k !! key) as [p|] eqn:E; [|done]. injection Hm as <- <-. exists (key, p). split; [done|].
        apply list_elem_of_filter. split; [done|]. by apply elem_of_map_to_list.
Defined.

(** ** An encoding *)

Definition float_numbers (f : float64) : list Z :=
  match f with
  | S754_zero s => [0; Z.b2z s]
  | S754_infinity s => [1; Z.b2z s]
  | S754_nan => [2]
  | S754_finite s m e => [3; Z.b2z s; Z.pos m; e]
  end.

Definition numbers_float (ns : list Z) : float64 :=
  match ns with
  | [0; s] => S754_zero (s =? 1)
  | [1; s] => S754_infinity (s =? 1)
  | [3; s; Z.pos m; e] => S754_finite (s =? 1) m e
  | _ => S754_nan
  end.

Lemma numbers_float_numbers f : numbers_float (float_numbers f) = f.
Proof. by destruct f as [[]|[]| |[]]. Qed.

Definition health_fields (r : healthRecord) : list positive :=
  [encode (hr_Service r); encode (hr_InstanceID r); encode (hr_Address r); encode (hr_RegistrationEpoch r); encode (hr_State r);
   encode (float_numbers (hr_SlowScore r)); encode (hr_ConsecutiveSlowWindows r); encode (hr_ConsecutiveEjectWindows r);
   encode (hr_LastTransitionAt r); encode (hr_EjectedAt r); encode (hr_UpdatedAt r)].

Definition fields_health (ps : list positive) : option healthRecord :=
  match ps with
  | [p1; p2; p3; p4; p5; p6; p7; p8; p9; p10; p11] =>
      service ← decode p1; id ← decode p2; address ← decode p3; epoch ← decode p4; state ← decode p5; score ← decode p6;
      slow ← decode p7; eject ← decode p8; last ← decode p9; ejected ← decode p10; updated ← decode p11;
      Some {| hr_Service := service; hr_InstanceID := id; hr_Address := address; hr_RegistrationEpoch := epoch; hr_State := state;
              hr_SlowScore := numbers_float score; hr_ConsecutiveSlowWindows := slow; hr_ConsecutiveEjectWindows := eject;
              hr_LastTransitionAt := last; hr_EjectedAt := ejected; hr_UpdatedAt := updated |}
  | _ => None
  end.

Lemma fields_health_fields r : fields_health (health_fields r) = Some r.
Proof.
  destruct r. unfold fields_health, health_fields. do 11 (rewrite decode_encode; cbn [mbind option_bind]).
  by rewrite numbers_float_numbers.
Qed.

#[local] Instance demo_health_json : HealthJson := {
  marshal_health r := Some (positive_bytes (encode (health_fields r)));
  unmarshal_health bs := p ← bytes_positive bs; ps ← decode p; fields_health ps
}.

#[local] Instance demo_health_json_law : HealthJsonLaw.
Proof.
  intros h _. eexists. split; [reflexivity|]. cbn [unmarshal_health demo_health_json]. rewrite bytes_positive_bytes. cbn [mbind option_bind].
  rewrite decode_encode. cbn [mbind option_bind]. apply fields_health_fields.
Qed.

(** ** Two controllers *)

Definition demo_endpoint (t : Z) (state : Code) : EndpointHealth := {|
  Service := "pay"; InstanceID := "p 1"; Address := "10.0.0.3:80"; RegistrationEpoch := "e1"; State := state; SlowScore := fzero;
  ConsecutiveSlowWindows := 0; ConsecutiveEjectWindows := 0; LastTransitionAt := 0; EjectedAt := 0; UpdatedAt := t |}.

Lemma demo_settled t state : 0 <= t < 100 -> state <> Unspecified -> settled (demo_endpoint t state).
Proof.
  intros Ht Hs. assert (E1 : TrimSpace "pay" = "pay"%string) by (vm_compute; reflexivity).
  assert (E2 : TrimSpace "p 1" = "p 1"%string) by (vm_compute; reflexivity).
  assert (Hz : zero_time < 0) by (vm_compute; reflexivity).
  split; [split; [|split]|split; [|split; [|split]]]; cbn; rewrite ?E1, ?E2; try done; [|lia].
  unfold health_safe. cbn [Service InstanceID Address RegistrationEpoch LastTransitionAt EjectedAt UpdatedAt ConsecutiveSlowWindows
    ConsecutiveEjectWindows SlowScore demo_endpoint].
  do 4 (split; [vm_compute; reflexivity|]). unfold json_time, is_s. do 3 (split; [lia|]). split; [lia|]. split; [lia|reflexivity].
Qed.

Definition demo_same (a b : EndpointHealth) : bool := false.

(** The other controller saves an older record. *)
Definition demo_other (k : demo_store) : demo_store :=
  match Save "" demo_same 0 [demo_endpoint 5 Ejected] [] k with Some (_, _, k') => k' | None => k end.

Lemma demo_other_advances k : advances "" k (demo_other k).
Proof.
  unfold demo_other.
  destruct (save_all_ok (K := demo_store) "" demo_same ltac:(done) 0 0 [demo_endpoint 5 Ejected] [] k) as (rev & ok & k' & Hs & Ha & _).
  - constructor.
  - intros h Hh _. apply list_elem_of_singleton in Hh as ->. by apply (demo_settled 5 Ejected).
  - unfold Save. rewrite Hs. exact Ha.
Qed.

(** It does so between the read and the write of this one, which tries again. *)
Definition demo_events : list (kv_event demo_store) :=
  [quiet; {| ev_others := demo_other; ev_err := None; ev_ctxErr := false |}].

Lemma newest_health_wins_witness :
  exists rev ok k', Save "" demo_same 0 [demo_endpoint 7 Degraded] demo_events ∅ = Some (rev, ok, k') /\
    recent "" (key_of "" (demo_endpoint 7 Degraded)) 7 k'.
Proof.
  destruct (newest_health_wins (K := demo_store) "" demo_same 0 [demo_endpoint 7 Degraded] demo_events ∅) as (rev & ok & k' & Hs & _ & Hr).
  - done.
  - constructor; [intros k; apply (advances_preorder (K := demo_store) "") |
      constructor; [exact demo_other_advances|constructor]].
  - intros h Hh _. apply list_elem_of_singleton in Hh as ->. by apply (demo_settled 7 Degraded).
  - exists rev, ok, k'. split; [exact Hs|]. apply Hr; [|apply list_elem_of_here|by split].
    assert (Hok : (fun x => x.1.2) <$> Save "" demo_same 0 [demo_endpoint 7 Degraded] demo_events ∅ = Some true) by (vm_compute; reflexivity).
    rewrite Hs in Hok. injection Hok as ->. reflexivity.
Defined.

(** ** A restart *)

Definition demo_known : HealthManager := set_health demo_manager {[ScoreKey "pay" "p 1" := demo_endpoint 7 Degraded]}.

Lemma restart_recovers_health_witness :
  exists rev k1 loaded rev', Save "" demo_same 0 (HealthManager.Snapshot map_to_list demo_known) [] ∅ = Some (rev, true, k1) /\
    Load "" k1 = Some (loaded, rev') /\ health (MergeSnapshot 9 loaded demo_manager).2 = health demo_known.
Proof.
  apply (restart_recovers_health (K := demo_store) "" demo_same 0 9 map_to_list demo_known demo_manager ∅).
  - done.
  - intros key h Hin. cbn in Hin. apply lookup_singleton_Some in Hin as [<- <-]. split; [reflexivity|]. by apply demo_settled.
  - reflexivity.
  - intros key v _. split; [intros [m Hm]; discriminate Hm|]. intros (h & Hh & _). by apply not_elem_of_nil in Hh.
Defined.

(** The prefix [/] is not the root: trimmed, it is empty, and stands for the default. *)
Example root_prefix_is_default :
  healthInstancesPrefix (normalizeEtcdHealthPrefix "/") = "/aegismesh/health/v1/services/"%string /\
  healthInstancesPrefix (normalizeEtcdHealthPrefix "/a/") = "/a/services/"%string.
Proof. split; vm_compute; reflexivity. Qed.
