(* ===== verification/Auth.v ===== *)
(** * Authentication and authorisation ([pkg/security/auth.go])

    Bearer tokens, client certificates, roles and service scopes; the parser of the
    static bindings; the interceptors.  The requests are those of the controller's
    services. *)
From Stdlib Require Import Ascii String.
From S2P Require Import Prelude GoStd GoText Controller.

(** [net/url]: the scheme and the text of a parsed URI; [None] is an error. *)
Class Url := url_Parse : string -> option (string * string).

(** ** Principals *)

Abbreviation Role := string (only parsing).

Definition RoleAdmin : Role := "admin".
Definition RoleRegistry : Role := "registry".
Definition RoleTelemetry : Role := "telemetry".
Definition RolePolicy : Role := "policy".
Definition RoleReader : Role := "reader".
Definition RoleSDK : Role := "sdk".

Record Principal := { prin_Role : Role; prin_Services : list string }.

#[export] Instance Principal_eq_dec : EqDecision Principal.
Proof. solve_decision. Defined.

Definition no_principal : Principal := {| prin_Role := ""; prin_Services := [] |}.

Definition Global (p : Principal) : bool := bool_decide (prin_Services p = []).

Definition allowsService (p : Principal) (service : string) : bool :=
  if Global p then true
  else if bool_decide (service = ""%string) then false
  else bool_decide (service ∈ prin_Services p).

(** ** Requests *)

(** The names of the generated stubs. *)
Definition RegistryService_RegisterInstance : string := "/aegis.v1.RegistryService/RegisterInstance".
Definition RegistryService_Heartbeat : string := "/aegis.v1.RegistryService/Heartbeat".
Definition RegistryService_ListInstances : string := "/aegis.v1.RegistryService/ListInstances".
Definition RegistryService_WatchInstances : string := "/aegis.v1.RegistryService/WatchInstances".
Definition TelemetryService_ReportEndpointStats : string := "/aegis.v1.TelemetryService/ReportEndpointStats".
Definition TelemetryService_ListEndpointHealth : string := "/aegis.v1.TelemetryService/ListEndpointHealth".
Definition PolicyService_GetPolicy : string := "/aegis.v1.PolicyService/GetPolicy".
Definition PolicyService_WatchPolicy : string := "/aegis.v1.PolicyService/WatchPolicy".

(** A message as an interceptor sees it; [NoRequest] is nil or of another type. *)
Inductive request :=
| RegisterInstanceRequest (inst : option PbInstance) (seconds : Z)
| HeartbeatRequest (service id epoch token : string) (seconds : Z)
| ListInstancesRequest (service : string)
| WatchInstancesRequest (service : string)
| GetPolicyRequest (service : string)
| WatchPolicyRequest (service : string)
| ReportEndpointStatsRequest (samples : list (option PbSample))
| ListEndpointHealthRequest (service : string)
| NoRequest.

Definition DefaultControllerMethodRoles : gmap string (list Role) := list_to_map [
  (RegistryService_RegisterInstance, [RoleRegistry]);
  (RegistryService_Heartbeat, [RoleRegistry]);
  (RegistryService_ListInstances, [RoleRegistry; RoleReader; RoleSDK]);
  (RegistryService_WatchInstances, [RoleRegistry; RoleReader; RoleSDK]);
  (TelemetryService_ReportEndpointStats, [RoleTelemetry; RoleSDK]);
  (TelemetryService_ListEndpointHealth, [RoleTelemetry; RoleReader]);
  (PolicyService_GetPolicy, [RolePolicy; RoleReader; RoleSDK]);
  (PolicyService_WatchPolicy, [RolePolicy; RoleReader; RoleSDK])].

Record requestScope := { scope_services : list string; globalOnly : bool }.

Definition no_scope : requestScope := {| scope_services := []; globalOnly := false |}.

Definition singleServiceScope (service : string) : requestScope :=
  if bool_decide (service = ""%string) then no_scope else {| scope_services := [service]; globalOnly := false |}.

Fixpoint scope_loop (seen : gset string) (samples : list (option PbSample)) : requestScope :=
  match samples with
  | [] => match elements seen with service :: _ => singleServiceScope service | [] => no_scope end
  | None :: samples => scope_loop seen samples
  | Some sample :: samples =>
      if bool_decide (pb_Service sample = ""%string) then scope_loop seen samples
      else
        let seen := {[pb_Service sample]} ∪ seen in
        if (1 <? size seen)%nat then {| scope_services := []; globalOnly := true |} else scope_loop seen samples
  end.

Definition telemetryReportScope (samples : list (option PbSample)) : requestScope := scope_loop ∅ samples.

Definition requestServiceScopeFor (method : string) (req : request) : option requestScope :=
  if bool_decide (method = RegistryService_RegisterInstance) then
    Some (match req with RegisterInstanceRequest (Some inst) _ => singleServiceScope (i_Service inst) | _ => no_scope end)
  else if bool_decide (method = RegistryService_Heartbeat) then
    Some (match req with HeartbeatRequest service _ _ _ _ => singleServiceScope service | _ => no_scope end)
  else if bool_decide (method = RegistryService_ListInstances) then
    Some (match req with ListInstancesRequest service => singleServiceScope service | _ => no_scope end)
  else if bool_decide (method = RegistryService_WatchInstances) then
    Some (match req with WatchInstancesRequest service => singleServiceScope service | _ => no_scope end)
  else if bool_decide (method = PolicyService_GetPolicy) then
    Some (match req with GetPolicyRequest service => singleServiceScope service | _ => no_scope end)
  else if bool_decide (method = PolicyService_WatchPolicy) then
    Some (match req with WatchPolicyRequest service => singleServiceScope service | _ => no_scope end)
  else if bool_decide (method = TelemetryService_ReportEndpointStats) then
    Some (match req with ReportEndpointStatsRequest samples => telemetryReportScope samples | _ => no_scope end)
  else if bool_decide (method = TelemetryService_ListEndpointHealth) then
    Some (match req with
          | ListEndpointHealthRequest service =>
              if bool_decide (service = ""%string) then {| scope_services := []; globalOnly := true |} else singleServiceScope service
          | _ => {| scope_services := []; globalOnly := true |}
          end)
  else None.

(** ** Decisions *)

Inductive auth_error := Unauthenticated | PermissionDenied.

#[export] Instance auth_error_eq_dec : EqDecision auth_error.
Proof. solve_decision. Defined.

Definition roleAllowed (role : Role) (allowed : list Role) : bool := bool_decide (role ∈ allowed).

Definition authorizePrincipalScope (p : Principal) (method : string) (req : request) : option auth_error :=
  if Global p then None
  else match requestServiceScopeFor method req with
       | None => Some PermissionDenied
       | Some scope =>
           if globalOnly scope then Some PermissionDenied
           else if bool_decide (scope_services scope = []) then Some PermissionDenied
           else if forallb (allowsService p) (scope_services scope) then None else Some PermissionDenied
       end.

Record Certificate := { URIs : list (option string); DNSNames : list string; CommonName : string }.

(** [peer.FromContext] and the type of its [AuthInfo]. *)
Inductive peer_info := NoPeer | OtherAuthInfo | TLSInfo (PeerCertificates : list (option Certificate)) (VerifiedChains : nat).

(** The incoming metadata, the peer and the principal attached so far. *)
Record call_context := {
  ctx_metadata : option (gmap string (list string)); ctx_peer : peer_info; ctx_principal : option Principal }.

Definition contextWithPrincipal (ctx : call_context) (p : Principal) : call_context :=
  {| ctx_metadata := ctx_metadata ctx; ctx_peer := ctx_peer ctx; ctx_principal := Some p |}.

Definition PrincipalFromContext (ctx : call_context) : option Principal := ctx_principal ctx.

Definition AuthorizeControllerPrincipal (ctx : call_context) (method : string) (req : request) : option auth_error :=
  match PrincipalFromContext ctx with
  | None => None
  | Some p =>
      if bool_decide (prin_Role p = ""%string) then None
      else if bool_decide (prin_Role p = RoleAdmin) then None
      else if negb (roleAllowed (prin_Role p) (default [] (DefaultControllerMethodRoles !! method))) then Some PermissionDenied
      else authorizePrincipalScope p method req
  end.

(** ** Credentials *)

Definition authorizationHeader : string := "authorization".
Definition tokenHeader : string := "x-aegis-token".

Definition bearerToken (value : string) : option string :=
  let value := TrimSpace value in
  if (String.length value <=? 7)%nat || negb (equal_fold_plain (of_chars (take 7 (to_chars value))) "bearer ") then None
  else
    let token := TrimSpace (skip 7 value) in
    if bool_decide (token = ""%string) then None else Some token.

Fixpoint first_some {A B} (f : A -> option B) (l : list A) : option B :=
  match l with [] => None | x :: l => match f x with Some y => Some y | None => first_some f l end end.

Definition nonblank (value : string) : option string :=
  let trimmed := TrimSpace value in if bool_decide (trimmed = ""%string) then None else Some trimmed.

(** [None] when no token was attempted; the empty token when none is usable. *)
Definition tokenFromContext (ctx : call_context) : option string :=
  match ctx_metadata ctx with
  | None => None
  | Some md =>
      match default [] (md !! authorizationHeader) with
      | [] =>
          match default [] (md !! tokenHeader) with
          | [] => None
          | values => Some (default ""%string (first_some nonblank values))
          end
      | values => Some (default ""%string (first_some bearerToken values))
      end
  end.

Section Credentials.
Context `{Unicode}.

(** The list [out] doubles as the set [seen]. *)
Definition add_identity (out : list string) (identity : string) : list string :=
  let identity := TrimSpace identity in
  if bool_decide (identity = ""%string \/ identity ∈ out) then out else out ++ [identity].

Definition certificateIdentityCandidates (cert : option Certificate) : list string :=
  match cert with
  | None => []
  | Some cert =>
      let out := foldl (fun out uri => match uri with Some uri => add_identity out ("uri:" ++ uri) | None => out end) [] (URIs cert) in
      let out := foldl (fun out dns => add_identity out ("dns:" ++ ToLower dns)) out (DNSNames cert) in
      if bool_decide (URIs cert = [] /\ DNSNames cert = []) then add_identity out ("cn:" ++ CommonName cert) else out
  end.

Definition certificateIdentitiesFromContext (ctx : call_context) : list string :=
  match ctx_peer ctx with
  | TLSInfo (cert :: _) (S _) => certificateIdentityCandidates cert
  | _ => []
  end.

Record TokenAuthenticator := {
  tokens : gmap string Principal; mtls : gmap string Principal; rules : gmap string (list Role) }.

Definition Enabled (a : TokenAuthenticator) : bool := bool_decide (tokens a <> ∅ \/ mtls a <> ∅).

Definition mtlsPrincipalFromContext (a : TokenAuthenticator) (ctx : call_context) : option Principal :=
  if bool_decide (mtls a = ∅) then None
  else first_some (fun identity => mtls a !! identity) (certificateIdentitiesFromContext ctx).

Definition principalFromContext (a : TokenAuthenticator) (ctx : call_context) : auth_error + Principal :=
  match tokenFromContext ctx with
  | Some token =>
      if bool_decide (token = ""%string) then inl Unauthenticated
      else match tokens a !! token with Some p => inr p | None => inl Unauthenticated end
  | None =>
      match mtlsPrincipalFromContext a ctx with Some p => inr p | None => inl Unauthenticated end
  end.

Definition authorize (a : TokenAuthenticator) (ctx : call_context) (method : string) (req : request) : auth_error + Principal :=
  if negb (Enabled a) then inr no_principal
  else match principalFromContext a ctx with
       | inl e => inl e
       | inr p =>
           if bool_decide (prin_Role p = RoleAdmin) then inr p
           else if negb (roleAllowed (prin_Role p) (default [] (rules a !! method))) then inl PermissionDenied
           else match authorizePrincipalScope p method req with Some e => inl e | None => inr p end
       end.

(** ** Interceptors *)

Definition attach (ctx : call_context) (p : Principal) : call_context :=
  if bool_decide (prin_Role p = ""%string) then ctx else contextWithPrincipal ctx p.

Definition UnaryServerInterceptor {A} (a : TokenAuthenticator) (handler : call_context -> request -> A) (ctx : call_context)
    (method : string) (req : request) : auth_error + A :=
  match authorize a ctx method req with
  | inl e => inl e
  | inr p => inr (handler (attach ctx p) req)
  end.

(** The stream's own context is an argument; [st_ctx] replaces it once a message
    has passed. *)
Record authorizingServerStream := { st_ctx : option call_context; st_authorized : bool }.

Definition new_stream : authorizingServerStream := {| st_ctx := None; st_authorized := false |}.

Definition stream_Context (ctx : call_context) (s : authorizingServerStream) : call_context := default ctx (st_ctx s).

Inductive recv_error := RecvFailed | RecvDenied (e : auth_error).

(** [msg] is what the underlying stream receives, [None] an error. *)
Definition RecvMsg (a : TokenAuthenticator) (ctx : call_context) (method : string) (msg : option request)
    (s : authorizingServerStream) : (recv_error + request) * authorizingServerStream :=
  match msg with
  | None => (inl RecvFailed, s)
  | Some m =>
      if st_authorized s then (inr m, s)
      else match authorize a ctx method m with
           | inl e => (inl (RecvDenied e), s)
           | inr p =>
               (inr m, {| st_ctx := if bool_decide (prin_Role p = ""%string) then st_ctx s else Some (contextWithPrincipal ctx p);
                          st_authorized := true |})
           end
  end.

(** ** Clients *)

(** [BearerTokenCredentials.GetRequestMetadata] *)
Definition GetRequestMetadata (token : string) : gmap string (list string) :=
  if bool_decide (token = ""%string) then ∅ else {[authorizationHeader := [("Bearer " ++ token)%string]]}.
End Credentials.
