(* ===== verification/AuthConfig.v ===== *)
(** * Configuring authentication

    The parser of static bindings ([pkg/security/auth.go]), the transport settings
    ([tls.go], [client.go]) and the checks of [buildControllerServerOptions]
    ([cmd/controller/main.go]).  Error messages are reduced to the fact of failure. *)
From Stdlib Require Import Ascii String.
From S2P Require Import Prelude GoStd GoText Controller Auth.

Section Config.
Context `{Unicode} `{Url}.

(** ** Bindings *)

Definition knownRole (role : Role) : bool :=
  bool_decide (role ∈ [RoleAdmin; RoleRegistry; RoleTelemetry; RolePolicy; RoleReader; RoleSDK]).

(** The list [services] doubles as the set [seen]. *)
Fixpoint parse_services (services : list string) (parts : list string) : option (list string) :=
  match parts with
  | [] => Some services
  | part :: parts =>
      let service := TrimSpace part in
      if bool_decide (service = ""%string) then None
      else if bool_decide (service ∈ services) then None
      else parse_services (services ++ [service]) parts
  end.

Definition parseRoleScope (raw : string) : option (Role * list string) :=
  let '(roleRaw, scopeRaw, scoped) := Cut ":" (TrimSpace raw) in
  let role := TrimSpace roleRaw in
  if bool_decide (role = ""%string) then None
  else if negb (knownRole role) then None
  else if negb scoped then Some (role, [])
  else
    let scopeRaw := TrimSpace scopeRaw in
    if bool_decide (scopeRaw = ""%string) then None
    else services ← parse_services [] (Split "|" (replace_byte "+" "|" scopeRaw)); Some (role, services).

Definition normalizeURIIdentity (value : string) : option string :=
  let value := TrimSpace value in
  if bool_decide (value = ""%string) then None
  else match url_Parse value with
       | Some (scheme, text) => if bool_decide (scheme = ""%string) then None else Some ("uri:" ++ text)%string
       | None => None
       end.

Definition normalizeCertificateIdentity (raw : string) : option string :=
  let identity := TrimSpace raw in
  if bool_decide (identity = ""%string) then None
  else
    let lower := ToLower identity in
    if HasPrefix lower "spiffe://" then normalizeURIIdentity identity
    else if HasPrefix lower "uri:" then normalizeURIIdentity (TrimSpace (skip 4 identity))
    else if HasPrefix lower "dns:" then
      let value := TrimSpace (skip 4 identity) in
      if bool_decide (value = ""%string) then None else Some ("dns:" ++ ToLower value)%string
    else if HasPrefix lower "cn:" then
      let value := TrimSpace (skip 3 identity) in
      if bool_decide (value = ""%string) then None else Some ("cn:" ++ value)%string
    else None.

Definition item_sep (c : ascii) : bool := Ascii.eqb c "," || Ascii.eqb c ";".

Fixpoint parse_bindings (certificateIdentity : bool) (out : gmap string Principal) (items : list string)
  : option (gmap string Principal) :=
  match items with
  | [] => Some out
  | item :: items =>
      let item := TrimSpace item in
      if bool_decide (item = ""%string) then parse_bindings certificateIdentity out items
      else
        let '(roleRaw, subject, ok) := Cut "=" item in
        if negb ok then None
        else
          '(role, services) ← parseRoleScope roleRaw;
          let subject := TrimSpace subject in
          subject ← (if certificateIdentity then normalizeCertificateIdentity subject
                     else if bool_decide (subject = ""%string) then None else Some subject);
          if bool_decide (role = RoleAdmin /\ services <> []) then None
          else if bool_decide (is_Some (out !! subject)) then None
          else parse_bindings certificateIdentity (<[subject := {| prin_Role := role; prin_Services := services |}]> out) items
  end.

(** A nil map is the empty one. *)
Definition parseStaticPrincipalBindings (raw : string) (certificateIdentity : bool) : option (gmap string Principal) :=
  let raw := TrimSpace raw in
  if bool_decide (raw = ""%string) then Some ∅
  else parse_bindings certificateIdentity ∅ (FieldsFunc item_sep raw).

Definition ParseStaticTokenPrincipals (raw : string) : option (gmap string Principal) := parseStaticPrincipalBindings raw false.

Definition ParseStaticMTLSPrincipals (raw : string) : option (gmap string Principal) := parseStaticPrincipalBindings raw true.

(** [NewControllerPrincipalTokenAuthenticatorWithMTLS]; the copies it makes are the
    values themselves. *)
Definition NewControllerPrincipalTokenAuthenticatorWithMTLS (tokens mtls : gmap string Principal) : TokenAuthenticator :=
  {| tokens := tokens; mtls := mtls; rules := DefaultControllerMethodRoles |}.

(** ** Transport *)

Record TLSConfig := { CertFile : string; KeyFile : string; CAFile : string; ServerName : string; RequireClientCert : bool }.

Definition tls_Enabled (c : TLSConfig) : bool :=
  bool_decide (CertFile c <> ""%string \/ KeyFile c <> ""%string \/ CAFile c <> ""%string \/ ServerName c <> ""%string)
  || RequireClientCert c.

Inductive ClientAuthType := NoClientCert | VerifyClientCertIfGiven | RequireAndVerifyClientCert.

(** The files that can be loaded: a key pair, a pool of certificates. *)
Record tls_files := { key_pair : string -> string -> bool; cert_pool : string -> bool }.

(** [ServerTransportCredentials]: [None] is an error, [Some None] plaintext. *)
Definition ServerTransportCredentials (fs : tls_files) (cfg : TLSConfig) : option (option ClientAuthType) :=
  if negb (tls_Enabled cfg) then Some None
  else if bool_decide (CertFile cfg = ""%string \/ KeyFile cfg = ""%string) then None
  else if negb (key_pair fs (CertFile cfg) (KeyFile cfg)) then None
  else if bool_decide (CAFile cfg <> ""%string) && negb (cert_pool fs (CAFile cfg)) then None
  else if RequireClientCert cfg then
    if bool_decide (CAFile cfg = ""%string) then None else Some (Some RequireAndVerifyClientCert)
  else Some (Some (if bool_decide (CAFile cfg <> ""%string) then VerifyClientCertIfGiven else NoClientCert)).

(** ** The controller's flags *)

Record securityFlags := {
  tlsCertFile : string; tlsKeyFile : string; tlsCAFile : string; tlsRequireClientCert : bool;
  authTokens : string; authTokensEnv : string; authTokensFile : string;
  authCertPrincipals : string; authCertPrincipalsEnv : string; authCertPrincipalsFile : string;
  insecureDev : bool; authAllowInsecure : bool }.

(** [os.Getenv], and [os.ReadFile] with [None] an error. *)
Record process_env := { Getenv : string -> string; ReadFile : string -> option string }.

(** [resolveControllerAuthTokens] and [resolveControllerAuthCertPrincipals] on their
    own flags. *)
Definition resolve_bindings (env : process_env) (variable file inline : string) : option string :=
  if bool_decide (variable <> ""%string /\ Getenv env variable <> ""%string) then Some (Getenv env variable)
  else if bool_decide (file <> ""%string) then TrimSpace <$> ReadFile env file
  else Some inline.

Definition resolveControllerAuthTokens (env : process_env) (cfg : securityFlags) : option string :=
  resolve_bindings env (authTokensEnv cfg) (authTokensFile cfg) (authTokens cfg).

Definition resolveControllerAuthCertPrincipals (env : process_env) (cfg : securityFlags) : option string :=
  resolve_bindings env (authCertPrincipalsEnv cfg) (authCertPrincipalsFile cfg) (authCertPrincipals cfg).

(** What the options make of the server: its transport and its authenticator. *)
Record server_options := { so_creds : option ClientAuthType; so_auth : option TokenAuthenticator }.

Definition buildControllerServerOptions (fs : tls_files) (env : process_env) (cfg : securityFlags) : option server_options :=
  let tlsCfg := {| CertFile := tlsCertFile cfg; KeyFile := tlsKeyFile cfg; CAFile := tlsCAFile cfg; ServerName := "";
                   RequireClientCert := tlsRequireClientCert cfg |} in
  creds ← ServerTransportCredentials fs tlsCfg;
  authTokens ← resolveControllerAuthTokens env cfg;
  tokens ← ParseStaticTokenPrincipals authTokens;
  authCertPrincipals ← resolveControllerAuthCertPrincipals env cfg;
  certPrincipals ← ParseStaticMTLSPrincipals authCertPrincipals;
  if bool_decide (tokens = ∅ /\ certPrincipals = ∅) && negb (insecureDev cfg) then None
  else if negb (tls_Enabled tlsCfg) && bool_decide (tokens <> ∅) && negb (authAllowInsecure cfg) then None
  else if negb (tls_Enabled tlsCfg) && negb (insecureDev cfg) && bool_decide (tokens <> ∅) then None
  else if bool_decide (certPrincipals <> ∅) && negb (tls_Enabled tlsCfg) then None
  else if bool_decide (certPrincipals <> ∅) && bool_decide (tlsCAFile cfg = ""%string) then None
  else if bool_decide (certPrincipals <> ∅) && bool_decide (tokens = ∅) && negb (tlsRequireClientCert cfg) then None
  else Some {| so_creds := creds;
               so_auth := if bool_decide (tokens <> ∅ \/ certPrincipals <> ∅)
                          then Some (NewControllerPrincipalTokenAuthenticatorWithMTLS tokens certPrincipals) else None |}.
End Config.
