(* ===== verification/AuthSpec.v ===== *)
(** * What authentication promises

    The bindings an operator writes are the bindings the controller enforces, a
    client that holds a bound token is recognised, and the controller does not start
    open by accident. *)
From Stdlib Require Import Ascii String.
From S2P Require Import Prelude GoStd GoText Controller Auth AuthConfig.

(** ** Parsed bindings *)

(** A known role; service names that are not empty and do not repeat; no scope on
    the role that bypasses scopes. *)
Record binding_ok (p : Principal) : Prop := {
  ok_role : knownRole (prin_Role p) = true;
  ok_services : NoDup (prin_Services p) /\ ""%string ∉ prin_Services p;
  ok_admin : prin_Role p = RoleAdmin -> prin_Services p = []
}.

Lemma parse_services_ok services parts out :
  NoDup services /\ ""%string ∉ services -> parse_services services parts = Some out -> NoDup out /\ ""%string ∉ out.
Proof.
  revert services. induction parts as [|part parts IH]; intros services Hs; cbn [parse_services]; [by intros [= <-]|].
  case_bool_decide; [done|]. case_bool_decide; [done|]. apply IH. destruct Hs as [Hnd Hne]. split.
  - apply NoDup_app. split; [done|]. split; [set_solver|]. apply NoDup_singleton.
  - set_solver.
Qed.

Lemma parseRoleScope_ok raw role services :
  parseRoleScope raw = Some (role, services) -> knownRole role = true /\ NoDup services /\ ""%string ∉ services.
Proof.
  unfold parseRoleScope. destruct (Cut ":" (TrimSpace raw)) as [[roleRaw scopeRaw] scoped]. case_bool_decide; [done|].
  destruct (knownRole (TrimSpace roleRaw)) eqn:Hk; [|done]. cbn [negb]. destruct scoped; cbn [negb].
  - case_bool_decide; [done|]. destruct (parse_services _ _) as [out|] eqn:E; [|done]. intros [= <- <-].
    split; [done|]. apply (parse_services_ok [] _ _) in E; [done|]. split; [constructor|set_solver].
  - intros [= <- <-]. split; [done|]. split; [constructor|set_solver].
Qed.

Lemma parse_bindings_ok `{Unicode} `{Url} certs out items m :
  map_Forall (fun _ => binding_ok) out -> parse_bindings certs out items = Some m -> map_Forall (fun _ => binding_ok) m.
Proof.
  revert out. induction items as [|item items IH]; intros out Hout; cbn [parse_bindings]; [by intros [= <-]|].
  case_bool_decide; [by apply IH|]. destruct (Cut "=" (TrimSpace item)) as [[roleRaw subject] ok]. destruct ok; [|done].
  cbn [negb]. destruct (parseRoleScope roleRaw) as [[role services]|] eqn:Hr; [|done]. cbn [mbind option_bind].
  match goal with |- context [mbind _ ?x] => destruct x as [s|]; [|done] end. cbn [mbind option_bind].
  case_bool_decide as Hadm; [done|]. case_bool_decide; [done|]. apply IH. apply map_Forall_insert_2; [|done].
  apply parseRoleScope_ok in Hr as (Hk & Hnd & Hne). split; cbn; [done|done|].
  intros ->. apply dec_stable. intros Hs. by apply Hadm.
Qed.

Lemma bindings_ok `{Unicode} `{Url} raw certs m :
  parseStaticPrincipalBindings raw certs = Some m -> map_Forall (fun _ => binding_ok) m.
Proof.
  unfold parseStaticPrincipalBindings. case_bool_decide; [intros [= <-]; apply map_Forall_empty|].
  apply parse_bindings_ok, map_Forall_empty.
Qed.

(** ** Starting the controller *)

(** C28. The controller does not start open by accident.  When its options are
    accepted: it runs without an authenticator only under [--insecure-dev]; an
    authenticator has credentials, and every principal it knows has a known role and
    a proper scope; bearer tokens cross an unencrypted transport only when both
    [--auth-allow-insecure] and [--insecure-dev] are given; and certificates are
    accepted as credentials only on a transport that verifies them. *)
Theorem startup_is_guarded `{Unicode} `{Url} fs env cfg o :
  buildControllerServerOptions fs env cfg = Some o ->
  (so_auth o = None -> insecureDev cfg = true) /\
  forall a, so_auth o = Some a ->
    Enabled a = true /\ rules a = DefaultControllerMethodRoles /\
    map_Forall (fun _ => binding_ok) (tokens a) /\ map_Forall (fun _ => binding_ok) (mtls a) /\
    (tokens a <> ∅ -> so_creds o = None -> authAllowInsecure cfg = true /\ insecureDev cfg = true) /\
    (mtls a <> ∅ -> so_creds o = Some VerifyClientCertIfGiven \/ so_creds o = Some RequireAndVerifyClientCert) /\
    (tokens a = ∅ -> so_creds o = Some RequireAndVerifyClientCert).
Proof.
  unfold buildControllerServerOptions.
  set (tlsCfg := {| CertFile := tlsCertFile cfg; KeyFile := tlsKeyFile cfg; CAFile := tlsCAFile cfg; ServerName := "";
                   RequireClientCert := tlsRequireClientCert cfg |}).
  destruct (ServerTransportCredentials fs tlsCfg) as [creds|] eqn:Hcreds; [|done]. cbn [mbind option_bind].
  destruct (resolveControllerAuthTokens env cfg) as [rawT|]; [|done]. cbn [mbind option_bind].
  destruct (ParseStaticTokenPrincipals rawT) as [ts|] eqn:Ht; [|done]. cbn [mbind option_bind].
  destruct (resolveControllerAuthCertPrincipals env cfg) as [rawC|]; [|done]. cbn [mbind option_bind].
  destruct (ParseStaticMTLSPrincipals rawC) as [cs|] eqn:Hc; [|done]. cbn [mbind option_bind].
  apply bindings_ok in Ht. apply bindings_ok in Hc.
  assert (Hplain : creds = None -> tls_Enabled tlsCfg = false).
  { intros ->. unfold ServerTransportCredentials in Hcreds. destruct (tls_Enabled tlsCfg); [|done]. cbn [negb] in Hcreds.
    repeat case_match; naive_solver. }
  assert (Hca : tls_Enabled tlsCfg = true -> tlsCAFile cfg <> ""%string ->
    creds = Some (if tlsRequireClientCert cfg then RequireAndVerifyClientCert else VerifyClientCertIfGiven)).
  { intros He Hne. unfold ServerTransportCredentials in Hcreds. rewrite He in Hcreds. cbn [negb CAFile RequireClientCert tlsCfg] in Hcreds.
    rewrite (bool_decide_eq_true_2 (tlsCAFile cfg <> _)), (bool_decide_eq_false_2 (tlsCAFile cfg = _)) in Hcreds by done.
    repeat case_match; naive_solver. }
  destruct (bool_decide (ts = ∅ /\ cs = ∅) && negb (insecureDev cfg)) eqn:E1; [done|].
  destruct (negb (tls_Enabled tlsCfg) && bool_decide (ts <> ∅) && negb (authAllowInsecure cfg)) eqn:E2; [done|].
  destruct (negb (tls_Enabled tlsCfg) && negb (insecureDev cfg) && bool_decide (ts <> ∅)) eqn:E3; [done|].
  destruct (bool_decide (cs <> ∅) && negb (tls_Enabled tlsCfg)) eqn:E4; [done|].
  destruct (bool_decide (cs <> ∅) && bool_decide (tlsCAFile cfg = ""%string)) eqn:E5; [done|].
  destruct (bool_decide (cs <> ∅) && bool_decide (ts = ∅) && negb (tlsRequireClientCert cfg)) eqn:E6; [done|].
  intros [= <-]. cbn [so_auth so_creds]. split.
  { destruct (bool_decide_reflect (ts <> ∅ \/ cs <> ∅)) as [|Hn]; [done|]. intros _. destruct (insecureDev cfg) eqn:Hdev; [done|]. rewrite bool_decide_eq_true_2 in E1; [discriminate E1|].
    split; apply dec_stable; intros ?; apply Hn; auto. }
  intros a Ha. destruct (bool_decide_reflect (ts <> ∅ \/ cs <> ∅)) as [Hn|]; [|done]. injection Ha as <-. cbn.
  split; [unfold Enabled; by apply bool_decide_eq_true_2|]. split; [done|]. split; [done|]. split; [done|].
  assert (Hcs : cs <> ∅ -> tls_Enabled tlsCfg = true /\ tlsCAFile cfg <> ""%string).
  { intros Hne. rewrite (bool_decide_eq_true_2 (cs <> ∅)) in E4, E5 by done. cbn in E4, E5. apply bool_decide_eq_false in E5.
    split; [by destruct (tls_Enabled tlsCfg); [|discriminate E4]|done]. }
  split; [|split].
  - intros Hne Hnone. rewrite (Hplain Hnone), (bool_decide_eq_true_2 (ts <> ∅)) in E2, E3 by done.
    split; [by destruct (authAllowInsecure cfg) | by destruct (insecureDev cfg)].
  - intros Hne. destruct (Hcs Hne) as [He Hf]. rewrite (Hca He Hf). destruct (tlsRequireClientCert cfg); auto.
  - intros ->. destruct Hn as [|Hne]; [done|]. destruct (Hcs Hne) as [He Hf]. rewrite (Hca He Hf).
    rewrite (bool_decide_eq_true_2 (cs <> ∅)), (bool_decide_eq_true_2 (∅ = ∅)) in E6 by done. by destruct (tlsRequireClientCert cfg).
Qed.

(** ** Printing bindings *)

Definition print_scope (services : list string) : string :=
  match services with [] => "" | _ => String ":" (join "+" services) end.

Definition print_binding (b : string * Principal) : string :=
  (prin_Role b.2 ++ print_scope (prin_Services b.2)) ++ String "=" b.1.

Definition print_bindings (l : list (string * Principal)) : string := join "," (print_binding <$> l).

(** Visible text without the characters of [bad]. *)
Definition plain (bad : list ascii) (s : string) : Prop :=
  s <> ""%string /\ visible s /\ Forall (fun c => c ∉ to_chars s) bad.

Definition printable (b : string * Principal) : Prop :=
  plain [","; ";"]%char b.1 /\ binding_ok b.2 /\ Forall (plain [","; ";"; "="; "+"; "|"]%char) (prin_Services b.2).

Lemma plain_trim bad s : plain bad s -> TrimSpace s = s.
Proof. intros (_ & Hv & _). by apply visible_trim. Qed.

Lemma plain_not_in bad s c : c ∈ bad -> plain bad s -> c ∉ to_chars s.
Proof. intros Hc (_ & _ & Hb). rewrite Forall_forall in Hb. by apply Hb. Qed.

Lemma known_role_plain role : knownRole role = true -> plain [","; ";"; "="; ":"]%char role.
Proof.
  intros Hk%bool_decide_eq_true. set_unfold in Hk. destruct_or! Hk; subst; try done;
    (split; [done|]; split; [unfold visible; by repeat constructor|]);
    (do 4 (apply Forall_cons_2; [by apply index_byte_None|]); constructor).
Qed.

Lemma join_not_in c sep ws : c <> sep -> Forall (fun w => c ∉ to_chars w) ws -> c ∉ to_chars (join sep ws).
Proof.
  intros Hne Hws. induction Hws as [|w ws Hw Hws IH]; [set_solver|]. destruct ws as [|w' ws]; [done|].
  cbn [join]. rewrite to_chars_app. apply not_elem_of_app. split; [done|]. cbn. apply not_elem_of_cons. by split.
Qed.

Lemma replace_join a b ws :
  Forall (fun w => a ∉ to_chars w) ws -> replace_byte a b (join a ws) = join b ws.
Proof.
  assert (Hid : forall s : chars, a ∉ s -> (fun c => if Ascii.eqb c a then b else c) <$> s = s).
  { induction s as [|c s IH]; intros Hn; [done|]. apply not_elem_of_cons in Hn as [Hc Hn]. cbn. rewrite IH by done.
    destruct (Ascii.eqb_spec c a); [congruence|done]. }
  intros Hws. unfold replace_byte. induction Hws as [|w ws Hw Hws IH]; [done|]. destruct ws as [|w' ws].
  - cbn [join]. rewrite Hid by done. apply of_to_chars.
  - cbn [join]. rewrite to_chars_app, fmap_app, of_chars_app, Hid, of_to_chars by done. f_equal.
    cbn [to_chars list_ascii_of_string fmap list_fmap]. rewrite Ascii.eqb_refl. cbn [of_chars string_of_list_ascii]. f_equal. exact IH.
Qed.

Lemma parse_services_plain bad out ws :
  Forall (plain bad) ws -> NoDup (out ++ ws) -> parse_services out ws = Some (out ++ ws).
Proof.
  intros Hws. revert out. induction Hws as [|w ws Hw Hws IH]; intros out Hnd; cbn [parse_services]; [by rewrite app_nil_r|].
  rewrite (plain_trim bad) by done. rewrite bool_decide_eq_false_2 by apply Hw.
  rewrite bool_decide_eq_false_2.
  - rewrite IH; rewrite <- app_assoc; done.
  - apply NoDup_app in Hnd as (_ & Hd & _). intros Hin. by apply (Hd w Hin), list_elem_of_here.
Qed.

Lemma parseRoleScope_print p :
  binding_ok p -> Forall (plain [","; ";"; "="; "+"; "|"]%char) (prin_Services p) ->
  parseRoleScope (prin_Role p ++ print_scope (prin_Services p)) = Some (prin_Role p, prin_Services p).
Proof.
  intros [Hk [Hnd _] _] Hws. pose proof (known_role_plain _ Hk) as Hr. unfold parseRoleScope.
  assert (Hj : visible (join "+" (prin_Services p)))
    by (apply visible_join; [done|]; eapply Forall_impl; [done|]; by intros ? (_ & ? & _)).
  assert (Hv : visible (prin_Role p ++ print_scope (prin_Services p))).
  { apply visible_app. split; [apply Hr|]. unfold print_scope. destruct (prin_Services p); [by constructor|by constructor]. }
  rewrite (visible_trim _ Hv). unfold print_scope. destruct (prin_Services p) as [|w ws] eqn:E.
  - assert (prin_Role p ++ "" = prin_Role p)%string as -> by (apply to_chars_inj; rewrite to_chars_app; apply app_nil_r).
    rewrite Cut_missing by (eapply plain_not_in; [|exact Hr]; set_solver). rewrite (plain_trim _ _ Hr), Hk.
    by rewrite bool_decide_eq_false_2 by apply Hr.
  - rewrite Cut_found by (eapply plain_not_in; [|exact Hr]; set_solver). rewrite (plain_trim _ _ Hr), Hk.
    rewrite bool_decide_eq_false_2 by apply Hr. cbn [negb]. rewrite (visible_trim _ Hj), bool_decide_eq_false_2.
    + rewrite replace_join by (eapply Forall_impl; [done|]; intros x Hx; eapply plain_not_in; [|exact Hx]; set_solver).
      rewrite Split_join; [|done|eapply Forall_impl; [done|]; intros x Hx; eapply plain_not_in; [|exact Hx]; set_solver].
      by rewrite (parse_services_plain _ [] (w :: ws) Hws).
    + apply Forall_cons in Hws as [(Hw & _) _]. destruct w; [done|]. by destruct ws.
Qed.

Section Printing.
Context `{Unicode} `{Url}.

Lemma print_binding_visible b : printable b -> visible (print_binding b).
Proof.
  intros (Ht & [Hk _ _] & Hws). pose proof (known_role_plain _ Hk) as Hr.
  apply visible_app. split; [apply visible_app; split; [apply Hr|]|constructor; [done|apply Ht]].
  unfold print_scope. destruct (prin_Services b.2) as [|w ws]; [by constructor|]. constructor; [done|].
  apply visible_join; [done|]. eapply Forall_impl; [exact Hws|]. by intros ? (_ & ? & _).
Qed.

Lemma print_binding_parts b :
  printable b ->
  TrimSpace (print_binding b) = print_binding b /\ print_binding b <> ""%string /\
  Cut "=" (print_binding b) = ((prin_Role b.2 ++ print_scope (prin_Services b.2))%string, b.1, true) /\
  Forall (fun c => item_sep c = false) (to_chars (print_binding b)).
Proof.
  intros Hb. pose proof (print_binding_visible _ Hb) as Hv. destruct Hb as (Ht & [Hk _ _] & Hws).
  pose proof (known_role_plain _ Hk) as Hr. unfold print_binding in *.
  assert (Hin : forall c, c ∈ [","; ";"; "="]%char -> c ∉ to_chars (prin_Role b.2 ++ print_scope (prin_Services b.2))).
  { intros c Hc. rewrite to_chars_app. apply not_elem_of_app. split; [eapply plain_not_in; [|exact Hr]; set_solver|].
    unfold print_scope. destruct (prin_Services b.2) as [|w ws]; [set_solver|]. cbn [to_chars list_ascii_of_string].
    apply not_elem_of_cons. split; [set_solver|]. apply join_not_in; [set_solver|].
    eapply Forall_impl; [exact Hws|]. intros x Hx. eapply plain_not_in; [|exact Hx]. set_solver. }
  split; [by apply visible_trim|]. split; [|split].
  - destruct (prin_Role b.2) as [|c s] eqn:E; [|done]. by destruct Hr.
  - apply Cut_found, Hin. set_solver.
  - apply Forall_forall. intros c Hc. rewrite to_chars_app in Hc.
    assert (Hall : c <> ","%char /\ c <> ";"%char).
    { split; intros ->; (apply elem_of_app in Hc as [Hc|Hc]; [by apply Hin in Hc; [|set_solver]|];
        cbn [to_chars list_ascii_of_string] in Hc; apply elem_of_cons in Hc as [Hc|Hc]; [done|];
        revert Hc; eapply plain_not_in; [|exact Ht]; set_solver). }
    unfold item_sep. destruct Hall. apply orb_false_intro; by apply Ascii.eqb_neq.
Qed.

Lemma parse_bindings_print l out :
  Forall printable l -> NoDup l.*1 -> (forall t, t ∈ l.*1 -> out !! t = None) ->
  parse_bindings false out (print_binding <$> l) = Some (list_to_map l ∪ out).
Proof.
  intros Hl. revert out. induction Hl as [|b l Hb Hl IH]; intros out Hnd Hout; cbn [fmap list_fmap parse_bindings].
  { f_equal. symmetry. apply (left_id_L ∅ (∪)). }
  destruct (print_binding_parts b Hb) as (-> & Hne & -> & _). rewrite bool_decide_eq_false_2 by done. cbn [negb].
  destruct Hb as (Ht & Hok & Hws). rewrite parseRoleScope_print by done. cbn [mbind option_bind].
  rewrite (plain_trim _ _ Ht), (bool_decide_eq_false_2 (b.1 = ""%string)) by apply Ht. cbn [mbind option_bind].
  rewrite bool_decide_eq_false_2 by (intros [He Hs]; by apply Hs, (ok_admin _ Hok)).
  cbn [fmap list_fmap] in Hnd. apply NoDup_cons in Hnd as [Hn Hnd].
  rewrite bool_decide_eq_false_2 by (rewrite (Hout b.1) by apply list_elem_of_here; by intros [? ?]).
  rewrite IH; [|done|].
  - f_equal. destruct b as [t [role services]]. cbn [list_to_map fst snd prin_Role prin_Services].
    rewrite <- insert_union_r, insert_union_l; [done|]. by apply not_elem_of_list_to_map_1.
  - intros t Hin. rewrite lookup_insert_ne by (by intros <-). apply Hout. by apply list_elem_of_further.
Qed.

Lemma parse_print l :
  Forall printable l -> NoDup l.*1 -> ParseStaticTokenPrincipals (print_bindings l) = Some (list_to_map l).
Proof.
  intros Hl Hnd. unfold ParseStaticTokenPrincipals, parseStaticPrincipalBindings, print_bindings. destruct l as [|b l]; [done|].
  assert (Hv : visible (join "," (print_binding <$> b :: l))).
  { apply visible_join; [done|]. apply Forall_fmap. eapply Forall_impl; [exact Hl|]. apply print_binding_visible. }
  rewrite (visible_trim _ Hv), bool_decide_eq_false_2.
  - rewrite FieldsFunc_join; [|done|].
    + rewrite parse_bindings_print; [|done|done|done]. f_equal. apply (right_id_L ∅ (∪)).
    + apply Forall_fmap. eapply Forall_impl; [exact Hl|]. intros x Hx. cbn. apply print_binding_parts in Hx. tauto.
  - apply Forall_cons in Hl as [Hb _]. apply print_binding_parts in Hb as (_ & Hne & _). cbn [fmap list_fmap join].
    destruct (print_binding b); [done|]. by destruct l.
Qed.

(** The server recovers the token a client sends. *)
Lemma bearer_roundtrip token :
  token <> ""%string -> edges token -> bearerToken ("Bearer " ++ token) = Some token.
Proof.
  intros Hne He. unfold bearerToken.
  assert (Hv : TrimSpace ("Bearer " ++ token) = ("Bearer " ++ token)%string).
  { apply TrimSpace_edges. unfold edges in *. rewrite to_chars_app. cbn [to_chars list_ascii_of_string app head].
    destruct token as [|c t]; [done|]. set (u := to_chars (String c t)) in *.
    assert (exists b, last u = Some b) as [b Hb] by (destruct (last u) eqn:E; [eauto|by apply last_None in E]).
    rewrite Hb in He. cbn [head u to_chars list_ascii_of_string] in He. fold (to_chars t) in *.
    change ("B"%char :: "e"%char :: "a"%char :: "r"%char :: "e"%char :: "r"%char :: " "%char :: u)
      with (list_ascii_of_string "Bearer " ++ u). rewrite last_app, Hb. split; [done|]. by destruct He. }
  rewrite Hv. assert ((String.length ("Bearer " ++ token) <=? 7)%nat = false) as ->.
  { apply Nat.leb_gt. destruct token as [|c t]; [done|]. change (7 < 8 + String.length t)%nat. lia. }
  cbn [orb]. assert (equal_fold_plain (of_chars (take 7 (to_chars ("Bearer " ++ token)))) "bearer " = true) as -> by reflexivity.
  cbn [negb]. assert (skip 7 ("Bearer " ++ token) = token) as ->.
  { unfold skip. rewrite to_chars_app. cbn [to_chars list_ascii_of_string app drop]. rewrite drop_0. apply of_to_chars. }
  rewrite TrimSpace_edges by done. by rewrite bool_decide_eq_false_2.
Qed.
End Printing.

(** The bindings the operator writes are the ones the controller enforces, and
    a client presents them as intended: when the controller starts from the printed
    form of a list of bindings, a call that carries a client's bearer credentials is
    attributed to the principal bound to that very token, and one whose token is not
    bound is refused, whatever certificate comes with it. *)
Theorem configured_client_recognised `{Unicode} `{Url} fs env cfg o l ctx token :
  Forall printable l -> NoDup l.*1 -> l <> [] ->
  resolveControllerAuthTokens env cfg = Some (print_bindings l) -> buildControllerServerOptions fs env cfg = Some o ->
  token <> ""%string -> edges token -> ctx_metadata ctx = Some (GetRequestMetadata token) ->
  exists a, so_auth o = Some a /\
    principalFromContext a ctx =
      match (list_to_map l : gmap string Principal) !! token with Some p => inr p | None => inl Unauthenticated end.
Proof.
  intros Hl Hnd Hne Hraw Ho Htok He Hctx. unfold buildControllerServerOptions in Ho.
  destruct (ServerTransportCredentials _ _) as [creds|]; [|done]. cbn [mbind option_bind] in Ho. rewrite Hraw in Ho.
  cbn [mbind option_bind] in Ho. rewrite parse_print in Ho by done. cbn [mbind option_bind] in Ho.
  destruct (resolveControllerAuthCertPrincipals env cfg) as [rawC|]; [|done]. cbn [mbind option_bind] in Ho.
  destruct (ParseStaticMTLSPrincipals rawC) as [cs|]; [|done]. cbn [mbind option_bind] in Ho.
  repeat match type of Ho with (if ?b then None else _) = _ => destruct b; [done|] end. injection Ho as <-. cbn [so_auth].
  assert (Hm : (list_to_map l : gmap string Principal) <> ∅).
  { destruct l as [|[t p] l]; [done|]. cbn. apply insert_non_empty. }
  rewrite bool_decide_eq_true_2 by auto. eexists. split; [done|]. unfold principalFromContext, tokenFromContext.
  rewrite Hctx. unfold GetRequestMetadata. rewrite bool_decide_eq_false_2, lookup_singleton_eq by done.
  cbn [default first_some from_option id]. rewrite bearer_roundtrip by done. cbn [from_option id].
  by rewrite bool_decide_eq_false_2.
Qed.

(** ** Who may call what *)

(** The method of a message. *)
Definition method_of (req : request) : string :=
  match req with
  | RegisterInstanceRequest _ _ => RegistryService_RegisterInstance
  | HeartbeatRequest _ _ _ _ _ => RegistryService_Heartbeat
  | ListInstancesRequest _ => RegistryService_ListInstances
  | WatchInstancesRequest _ => RegistryService_WatchInstances
  | GetPolicyRequest _ => PolicyService_GetPolicy
  | WatchPolicyRequest _ => PolicyService_WatchPolicy
  | ReportEndpointStatsRequest _ => TelemetryService_ReportEndpointStats
  | ListEndpointHealthRequest _ => TelemetryService_ListEndpointHealth
  | NoRequest => ""
  end.

Definition sample_services (samples : list (option PbSample)) : gset string :=
  list_to_set (pb_Service <$> omap id samples).

(** The services a message names. *)
Definition touches (req : request) : gset string :=
  match req with
  | RegisterInstanceRequest inst _ => match inst with Some inst => {[i_Service inst]} | None => ∅ end
  | HeartbeatRequest service _ _ _ _ | ListInstancesRequest service | WatchInstancesRequest service
  | GetPolicyRequest service | WatchPolicyRequest service | ListEndpointHealthRequest service => {[service]}
  | ReportEndpointStatsRequest samples => sample_services samples
  | NoRequest => ∅
  end ∖ {[""%string]}.

(** The rule: an administrator may do anything; another role may call its methods,
    and if the principal is scoped, with a message that names exactly one service,
    one of its own. *)
Definition permitted (rules : gmap string (list Role)) (p : Principal) (method : string) (req : request) : Prop :=
  prin_Role p = RoleAdmin \/
  (prin_Role p ∈ default [] (rules !! method) /\
   (prin_Services p = [] \/ (method_of req = method /\ exists s, touches req = {[s]} /\ s ∈ prin_Services p))).

(** What a scope stands for. *)
Definition scope_of (T : gset string) (scope : requestScope) : Prop :=
  match scope_services scope, globalOnly scope with
  | [s], false => T = {[s]} /\ s <> ""%string
  | [], false => T = ∅
  | [], true => forall s, T <> {[s]}
  | _, _ => False
  end.

Lemma single_scope s : scope_of ({[s]} ∖ {[""%string]}) (singleServiceScope s).
Proof. unfold singleServiceScope, scope_of. case_bool_decide; cbn; [set_solver|]. split; [set_solver|done]. Qed.

Lemma scope_loop_spec seen samples :
  (size seen <= 1)%nat -> ""%string ∉ seen -> scope_of ((seen ∪ sample_services samples) ∖ {[""%string]}) (scope_loop seen samples).
Proof.
  revert seen. induction samples as [|[p|] samples IH]; intros seen Hsz Hne; cbn [scope_loop]; [| |by apply IH].
  - assert (sample_services [] = ∅) as -> by done. rewrite (right_id_L ∅ (∪)).
    destruct (elements seen) as [|s l] eqn:E; [apply elements_empty_inv in E; unfold scope_of; cbn; set_solver|].
    assert (l = []) as ->. { unfold size, set_size in Hsz. cbn in Hsz. rewrite E in Hsz. destruct l; [done|cbn in Hsz; lia]. }
    assert (seen = {[s]}) as ->. { apply set_eq. intros x. rewrite <- elem_of_elements, E. set_solver. }
    apply single_scope.
  - assert (sample_services (Some p :: samples) = {[pb_Service p]} ∪ sample_services samples) as -> by done.
    case_bool_decide as Hs.
    + rewrite Hs. specialize (IH seen Hsz Hne).
      assert ((seen ∪ ({[""%string]} ∪ sample_services samples)) ∖ {[""%string]} = (seen ∪ sample_services samples) ∖ {[""%string]})
        as -> by set_solver. done.
    + case_match eqn:Hbig.
      * apply Nat.ltb_lt in Hbig. unfold scope_of. cbn. intros x Hx.
        assert (Hsub : {[pb_Service p]} ∪ seen ⊆ {[x]}) by (rewrite <- Hx; set_solver).
        apply subseteq_size in Hsub. rewrite size_singleton in Hsub. lia.
      * apply Nat.ltb_ge in Hbig. specialize (IH _ Hbig ltac:(set_solver)).
        assert (seen ∪ ({[pb_Service p]} ∪ sample_services samples) = {[pb_Service p]} ∪ seen ∪ sample_services samples) as -> by set_solver.
        done.
Qed.

Lemma scope_for_method method req scope :
  requestServiceScopeFor method req = Some scope ->
  (method_of req = method /\ scope_of (touches req) scope) \/ (method_of req <> method /\ scope_services scope = []).
Proof.
  unfold requestServiceScopeFor. repeat (case_bool_decide as Hm; [rewrite Hm; intros [= <-]; clear|clear Hm]); [..|done].
  all: destruct req; try (right; split; [vm_compute; discriminate|done]).
  all: left; split; [done|]; cbn [touches]; try apply single_scope.
  - destruct inst; [apply single_scope|unfold scope_of; cbn; set_solver].
  - unfold telemetryReportScope. pose proof (scope_loop_spec ∅ samples) as Hs. rewrite (left_id_L ∅ (∪)) in Hs.
    apply Hs; [by rewrite size_empty; lia|set_solver].
  - case_bool_decide as E; [rewrite E|apply single_scope].
    intros s Hs. assert (Hin : s ∈ ({[s]} : gset string)) by set_solver. rewrite <- Hs in Hin. set_solver.
Qed.

Lemma scope_defined req : req <> NoRequest -> is_Some (requestServiceScopeFor (method_of req) req).
Proof.
  intros Hne. unfold requestServiceScopeFor. destruct req; cbn [method_of]; try done;
    repeat (case_bool_decide; [by eexists|]); done.
Qed.

Lemma scope_exact p method req :
  authorizePrincipalScope p method req = None <->
  prin_Services p = [] \/ (method_of req = method /\ exists s, touches req = {[s]} /\ s ∈ prin_Services p).
Proof.
  unfold authorizePrincipalScope. unfold Global at 1. case_bool_decide as Hg; [by split; [left|]|].
  destruct (requestServiceScopeFor method req) as [scope|] eqn:Hs.
  - apply scope_for_method in Hs as [[Hm Hs]|[Hm Hs]]; [|rewrite Hs; destruct (globalOnly scope); naive_solver].
    unfold scope_of in Hs. destruct scope as [[|s [|]] []]; cbn in *; try done.
    + split; [done|]. intros [|(_ & s & Ht & _)]; [done|]. by destruct (Hs s).
    + split; [done|]. intros [|(_ & s & Ht & _)]; [done|]. set_solver.
    + destruct Hs as [Ht Hne]. unfold allowsService, Global. rewrite !(bool_decide_eq_false_2 (_ = _)) by done. cbn.
      case_bool_decide as Hin; cbn; split; try done; [intros _; right; eauto|].
      intros [|(_ & s' & Ht' & Hin')]; [done|]. rewrite Ht in Ht'. assert (s = s') as <- by set_solver. done.
  - split; [done|]. intros [|(Hm & s & Ht & _)]; [done|]. exfalso. subst method.
    destruct (scope_defined req) as [scope Hd]; [|congruence]. intros ->. cbn in Ht. set_solver.
Qed.

Lemma authorize_permitted `{Unicode} a ctx method req p :
  Enabled a = true ->
  (authorize a ctx method req = inr p <-> principalFromContext a ctx = inr p /\ permitted (rules a) p method req).
Proof.
  intros Ha. unfold authorize. rewrite Ha. cbn [negb].
  destruct (principalFromContext a ctx) as [e|q]; [naive_solver|]. unfold permitted.
  case_bool_decide as Hadm; [naive_solver|]. unfold roleAllowed. case_bool_decide as Hrole; cbn [negb]; [|naive_solver].
  pose proof (scope_exact q method req) as Hs. destruct (authorizePrincipalScope q method req); naive_solver.
Qed.

Lemma recheck_exact ctx p method req :
  prin_Role p <> ""%string ->
  AuthorizeControllerPrincipal (contextWithPrincipal ctx p) method req = None <->
  permitted DefaultControllerMethodRoles p method req.
Proof.
  intros Hr. unfold AuthorizeControllerPrincipal, PrincipalFromContext, permitted. cbn [ctx_principal contextWithPrincipal].
  rewrite bool_decide_eq_false_2 by done. case_bool_decide as Hadm; [naive_solver|]. unfold roleAllowed.
  case_bool_decide as Hrole; cbn [negb]; [|naive_solver]. rewrite scope_exact. naive_solver.
Qed.

Lemma roles_named (rules : gmap string (list Role)) method role :
  map_Forall (fun _ => Forall (fun r => r <> ""%string)) rules -> role ∈ default [] (rules !! method) -> role <> ""%string.
Proof.
  intros Hall Hin. destruct (rules !! method) as [roles|] eqn:E; [|by apply not_elem_of_nil in Hin].
  specialize (Hall _ _ E). rewrite Forall_forall in Hall. by apply Hall.
Qed.

(** The roles of the controller's methods are not empty. *)
Lemma controller_roles_named : map_Forall (fun _ => Forall (fun r => r <> ""%string)) DefaultControllerMethodRoles.
Proof. apply (bool_decide_unpack _). vm_compute. exact I. Qed.

(** C13. The decision is the rule.  With an authenticator that has credentials, a
    call of the controller is let through as a principal exactly when its credentials
    are bound to that principal and the rule permits the call; the handler then sees
    that principal, and the check the handler makes for itself agrees. *)
Theorem authorize_exact `{Unicode} {A} a (handler : call_context -> request -> A) ctx method req p :
  Enabled a = true -> rules a = DefaultControllerMethodRoles ->
  (authorize a ctx method req = inr p <->
     principalFromContext a ctx = inr p /\ permitted DefaultControllerMethodRoles p method req) /\
  (authorize a ctx method req = inr p ->
     UnaryServerInterceptor a handler ctx method req = inr (handler (contextWithPrincipal ctx p) req) /\
     AuthorizeControllerPrincipal (contextWithPrincipal ctx p) method req = None) /\
  (forall e, authorize a ctx method req = inl e -> UnaryServerInterceptor a handler ctx method req = inl e).
Proof.
  intros Ha Hrules. rewrite <- Hrules. pose proof (authorize_permitted a ctx method req p Ha) as Hp. split; [done|].
  unfold UnaryServerInterceptor. split; [|by intros e ->]. intros Hok. rewrite Hok. apply Hp in Hok as [_ Hok].
  rewrite Hrules in Hok. assert (Hr : prin_Role p <> ""%string).
  { destruct Hok as [->|[Hin _]]; [done|]. by apply (roles_named _ _ _ controller_roles_named) in Hin. }
  unfold attach. rewrite bool_decide_eq_false_2 by done. split; [done|]. by apply recheck_exact.
Qed.
