(* ===== verification/ScopedAccess.v ===== *)
(** * The controller behind its authenticator

    The unary handlers of [pkg/controller] as a client reaches them: interceptor,
    the handler's own check, the handler.  What a principal scoped to some services
    can do to the others. *)
From Stdlib Require Import Ascii String SpecFloat.
From stdpp Require Import sorting.
From S2P Require Import Prelude GoStd GoFloat GoSort GoHeap GoText Status StateMachine SlowScore HealthManager Registry RegistrySpec.
From S2P Require Import PolicyTypes Controller Policy InstancesView Auth AuthConfig AuthSpec.

(** What the handlers share. *)
Record server := { sv_registry : MemoryRegistry; sv_health : HealthManager; sv_policies : FileStore }.

(** The clock readings, random values and traversal orders of one call. *)
Record call_env := {
  ce_lease : Z; ce_reads : two_reads; ce_epoch : string; ce_token : string; ce_tick : Z; ce_clock : Z;
  ce_records : record_order; ce_addresses : address_order; ce_groups : group_order; ce_endpoints : health_order }.

Inductive answer :=
| Denied (e : auth_error)
| Registered (x : status_code + PbInstance * string)
| Renewed (x : status_code + PbInstance)
| Viewed (x : status_code + instancesView)
| Reported (x : registry_error + list EndpointHealth)
| HealthListed (x : list EndpointHealth)
| PolicyFound (x : status_code + PolicySnapshot)
| NoAnswer.

Section Serve.
Context `{Unicode} (a : TokenAuthenticator) (env : call_env).

(** [ListInstances] *)
Definition ListInstances (service : string) (st : server) : (status_code + instancesView) * server :=
  if bool_decide (service = ""%string) then (inl InvalidArgument, st)
  else
    let w := ce_reads env in
    let '(x, r) := instances_view (ce_records env) (ctx1 w) (ctx2 w) service (now1 w) (Some (sv_health st)) (sv_registry st) in
    (x, {| sv_registry := r; sv_health := sv_health st; sv_policies := sv_policies st |}).

(** [GetPolicy] *)
Definition GetPolicy (service : string) (st : server) : status_code + PolicySnapshot :=
  if bool_decide (service = ""%string) then inl InvalidArgument
  else match Store_Get (sv_policies st) service with Some p => inr p | None => inl NotFound end.

(** The handlers after their check; the streams are answered elsewhere. *)
Definition handle (req : request) (st : server) : answer * server :=
  let with_registry r := {| sv_registry := r; sv_health := sv_health st; sv_policies := sv_policies st |} in
  match req with
  | RegisterInstanceRequest inst seconds =>
      let '(x, r) := RegisterInstance (ce_records env) (ce_lease env) (ce_reads env) (ce_epoch env) (ce_token env) inst seconds
                       (sv_registry st) in
      (Registered x, with_registry r)
  | HeartbeatRequest service id epoch token seconds =>
      let '(x, r) := Service_Heartbeat (ce_records env) (ce_lease env) (ce_reads env) service id epoch token seconds (sv_registry st) in
      (Renewed x, with_registry r)
  | ListInstancesRequest service => let '(x, st) := ListInstances service st in (Viewed x, st)
  | ReportEndpointStatsRequest samples =>
      let '(x, r, m) := @ReportEndpointStats _ (memory_store (ce_records env) (now1 (ce_reads env))) (ce_addresses env)
                          (ce_clock env) (ce_tick env) (ce_groups env) (ce_endpoints env) samples (sv_registry st) (sv_health st) in
      (Reported x, {| sv_registry := r; sv_health := m; sv_policies := sv_policies st |})
  | ListEndpointHealthRequest service => (HealthListed (HealthManager.List (ce_endpoints env) (sv_health st) service), st)
  | GetPolicyRequest service => (PolicyFound (GetPolicy service st), st)
  | WatchInstancesRequest _ | WatchPolicyRequest _ | NoRequest => (NoAnswer, st)
  end.

Definition serve (ctx : call_context) (req : request) (st : server) : answer * server :=
  match UnaryServerInterceptor a (fun ctx req =>
          match AuthorizeControllerPrincipal ctx (method_of req) req with
          | Some e => (Denied e, st)
          | None => handle req st
          end) ctx (method_of req) req with
  | inl e => (Denied e, st)
  | inr x => x
  end.
End Serve.

(** ** Frames *)

(** The states of all services but [s] are the same. *)
Definition only_service (s : string) (r r' : MemoryRegistry) : Prop :=
  forall t, t <> s -> services r' !! t = services r !! t.

Lemma only_service_refl s r : only_service s r r.
Proof. by intros t _. Qed.

Lemma only_service_trans s r1 r2 r3 : only_service s r1 r2 -> only_service s r2 r3 -> only_service s r1 r3.
Proof. intros H1 H2 t Ht. by rewrite H2, H1. Qed.

Lemma set_only s st r : only_service s r (set_service r s st).
Proof. intros t Ht. cbn. by rewrite lookup_insert_ne. Qed.

Create HintDb frames.
#[local] Hint Resolve only_service_refl set_only : frames.

Lemma sweep_only v c s now r : only_service s r (sweepExpiredForService v c s now r).2.
Proof. unfold sweepExpiredForService. repeat case_match; cbn; auto with frames. Qed.

Lemma snapshot_only v c c2 s now r : only_service s r (Registry.Snapshot v c c2 s now r).2.
Proof. unfold Registry.Snapshot. repeat case_match; cbn [snd]; auto using sweep_only with frames. Qed.

Lemma list_only v c c2 s now r : only_service s r (Registry.List v c c2 s now r).2.
Proof.
  unfold Registry.List. pose proof (snapshot_only v c c2 s now r). by destruct (Registry.Snapshot v c c2 s now r).
Qed.

Lemma register_only v c epoch token inst ttl now r : only_service (Registry.Service inst) r (registerAt v c epoch token inst ttl now r).2.
Proof.
  unfold registerAt. repeat case_match; cbn [snd]; auto with frames; intros t Ht; cbn; by rewrite lookup_insert_ne.
Qed.

Lemma heartbeat_only v c s id epoch token ttl now re ro r :
  only_service s r (heartbeatAtWithOwner v c s id epoch token ttl now re ro r).2.
Proof.
  unfold heartbeatAtWithOwner. repeat case_match; cbn [snd]; auto with frames; intros t Ht; cbn; try done.
  by rewrite lookup_insert_ne.
Qed.

Lemma RegisterInstance_only v lease w epoch token inst seconds r :
  only_service (i_Service inst) r (RegisterInstance v lease w epoch token (Some inst) seconds r).2.
Proof.
  unfold RegisterInstance. pose proof (register_only v (ctx1 w) epoch token (instanceFromProto inst) (leaseTTL lease seconds) (now1 w) r) as H1.
  destruct (registerAt _ _ _ _ _ _ _ _) as [[e|] r1]; cbn [snd] in *; [done|].
  pose proof (list_only v (ctx2 w) (ctx2' w) (Registry.Service (instanceFromProto inst)) (now2 w) r1) as H2.
  destruct (Registry.List _ _ _ _ _ _) as [[e|l] r2]; cbn [snd] in *; [by eapply only_service_trans|].
  case_match; by eapply only_service_trans.
Qed.

Lemma Heartbeat_only v lease w s id epoch token seconds r :
  only_service s r (Service_Heartbeat v lease w s id epoch token seconds r).2.
Proof.
  unfold Service_Heartbeat, HeartbeatWithOwner. case_bool_decide; [apply only_service_refl|].
  pose proof (heartbeat_only v (ctx1 w) s id epoch token (leaseTTL lease seconds) (now1 w) true true r) as H1.
  destruct (heartbeatAtWithOwner _ _ _ _ _ _ _ _ _ _ _) as [[e|] r1]; cbn [snd] in *; [done|].
  pose proof (list_only v (ctx2 w) (ctx2' w) s (now2 w) r1) as H2.
  destruct (Registry.List _ _ _ _ _ _) as [[e|l] r2]; cbn [snd] in *; by eapply only_service_trans.
Qed.

Lemma ListInstances_only env s st : only_service s (sv_registry st) (sv_registry (ListInstances env s st).2) /\
  sv_health (ListInstances env s st).2 = sv_health st.
Proof.
  unfold ListInstances, instances_view. case_bool_decide; [split; [apply only_service_refl|done]|].
  pose proof (snapshot_only (ce_records env) (ctx1 (ce_reads env)) (ctx2 (ce_reads env)) s (now1 (ce_reads env)) (sv_registry st)).
  by destruct (Registry.Snapshot _ _ _ _ _ _) as [[e|snap] r].
Qed.

Lemma sample_of_service p inst x : sample_of p inst = Some x -> s_Service x = pb_Service p.
Proof. unfold sample_of. case_bool_decide; [done|]. by intros [= <-]. Qed.

Lemma samples_only v now va s cache ps r :
  (forall p, Some p ∈ ps -> pb_Service p = ""%string \/ pb_Service p = s) ->
  let '(x, r') := @samplesFromProto _ (memory_store v now) va cache ps r in
  only_service s r r' /\ match x with inr l => Forall (fun y => s_Service y = s) l | inl _ => True end.
Proof.
  revert cache r. induction ps as [|[p|] ps IH]; intros cache r Hps; cbn [samplesFromProto]; [by split; [apply only_service_refl|]| |].
  2: { apply IH. intros p Hp. by apply Hps, list_elem_of_further. }
  assert (Htl : forall p, Some p ∈ ps -> pb_Service p = ""%string \/ pb_Service p = s)
    by (intros q Hq; by apply Hps, list_elem_of_further).
  case_bool_decide as Hs; [by apply IH|]. destruct (Hps p (list_elem_of_here _ _)) as [|Hp]; [done|].
  assert (Hgo : forall found cache' r', only_service s r r' ->
    let '(y, r2) := (let '(rest, r2) := @samplesFromProto _ (memory_store v now) va cache' ps r' in
      (match rest with inl e => inl e
       | inr rest => inr (match found ≫= sample_of p with Some x => x :: rest | None => rest end) end, r2)) in
    only_service s r r2 /\ match y with inr l => Forall (fun y => s_Service y = s) l | inl _ => True end).
  { intros found cache' r' Hr'. specialize (IH cache' r' Htl).
    destruct (samplesFromProto va cache' ps r') as [[e|rest] r2]; destruct IH as [Hr2 Hrest];
      (split; [by eapply only_service_trans|]); [done|].
    destruct found as [inst|]; [|done]. cbn [mbind option_bind]. destruct (sample_of p inst) as [x|] eqn:Hx; [|done].
    constructor; [|done]. apply sample_of_service in Hx. congruence. }
  unfold resolveTelemetryInstance, telemetryInstances. rewrite bool_decide_eq_false_2 by done.
  destruct (cache !! pb_Service p) as [x|]; [apply Hgo, only_service_refl|].
  pose proof (list_only v false false (pb_Service p) now r) as Hl. rewrite Hp in Hl.
  unfold store_List, memory_store. rewrite Hp. destruct (Registry.List v false false s now r) as [[e|listed] r']; [done|]. by apply Hgo.
Qed.

Lemma Report_only v now va clock tick ord vh s ps r m :
  (forall p, Some p ∈ ps -> pb_Service p = ""%string \/ pb_Service p = s) ->
  let '(_, r', m') := @ReportEndpointStats _ (memory_store v now) va clock tick ord vh ps r m in
  only_service s r r' /\ forall key, health m' !! key <> health m !! key -> exists id, key = ScoreKey s id.
Proof.
  intros Hps. unfold ReportEndpointStats. pose proof (samples_only v now va s ∅ ps r Hps) as H.
  destruct (samplesFromProto va ∅ ps r) as [[e|samples] r']; destruct H as [Hr Hs]; [done|].
  pose proof (Update_other clock tick ord vh samples m) as Hother. destruct (Update clock tick ord vh samples m) as [out m'].
  split; [done|]. intros key Hkey. cbn [snd] in Hother.
  destruct (decide (Exists (fun x => ScoreKey (s_Service x) (s_InstanceID x) = key) samples)) as [Hex|Hno].
  - apply Exists_exists in Hex as (x & Hin & <-). rewrite Forall_forall in Hs. rewrite (Hs x Hin). eauto.
  - destruct Hkey. apply Hother. intros x Hin He. apply Hno, Exists_exists. by exists x.
Qed.

(** ** Confinement *)

Lemma touches_single service s : ({[service]} : gset string) ∖ {[""%string]} = {[s]} -> service = s.
Proof.
  intros E. assert (Hin : s ∈ ({[s]} : gset string)) by set_solver. rewrite <- E in Hin. set_solver.
Qed.

(** What a handler can change, and which endpoints a health listing shows, when the
    message names one service. *)
Lemma handle_only env req st s ans st' :
  touches req = {[s]} -> handle env req st = (ans, st') ->
  only_service s (sv_registry st) (sv_registry st') /\ sv_policies st' = sv_policies st /\
  (forall key, health (sv_health st') !! key <> health (sv_health st) !! key -> exists id, key = ScoreKey s id) /\
  (forall hs, ans = HealthListed hs -> Forall (fun h => StateMachine.Service h = s) hs).
Proof.
  intros Ht. assert (Hs : s <> ""%string).
  { intros ->. assert (Hin : ""%string ∈ ({[""%string]} : gset string)) by set_solver. rewrite <- Ht in Hin. destruct req; set_solver. }
  destruct req as [inst seconds|service id epoch token seconds|service|service|service|service|samples|service|]; cbn [handle touches] in *.
  - destruct inst as [inst|]; [apply touches_single in Ht|exfalso; set_solver].
    pose proof (RegisterInstance_only (ce_records env) (ce_lease env) (ce_reads env) (ce_epoch env) (ce_token env) inst seconds (sv_registry st)) as Ho.
    destruct (RegisterInstance _ _ _ _ _ _ _ _) as [x r]. intros [= <- <-]. subst s. done.
  - apply touches_single in Ht as ->.
    pose proof (Heartbeat_only (ce_records env) (ce_lease env) (ce_reads env) s id epoch token seconds (sv_registry st)) as Ho.
    destruct (Service_Heartbeat _ _ _ _ _ _ _ _ _) as [x r]. by intros [= <- <-].
  - apply touches_single in Ht as ->. destruct (ListInstances_only env s st) as [Ho Hh].
    assert (Hp : sv_policies (ListInstances env s st).2 = sv_policies st)
      by (unfold ListInstances; case_bool_decide; [done|]; by destruct (instances_view _ _ _ _ _ _ _)).
    destruct (ListInstances env s st) as [x st2]. cbn [snd] in *. intros [= <- <-]. by rewrite Hh.
  - intros [= <- <-]. split; [apply only_service_refl|done].
  - intros [= <- <-]. split; [apply only_service_refl|done].
  - intros [= <- <-]. split; [apply only_service_refl|done].
  - assert (Hps : forall p, Some p ∈ samples -> pb_Service p = ""%string \/ pb_Service p = s).
    { intros p Hp. destruct (decide (pb_Service p = ""%string)) as [|Hne]; [by left|right].
      change (sample_services samples ∖ {[""%string]} = {[s]}) in Ht.
      assert (Hin : pb_Service p ∈ sample_services samples ∖ {[""%string]}); [|rewrite Ht in Hin; set_solver]. apply elem_of_difference. split; [|set_solver]. unfold sample_services. apply elem_of_list_to_set, list_elem_of_fmap.
      exists p. split; [done|]. apply list_elem_of_omap. by exists (Some p). }
    pose proof (Report_only (ce_records env) (now1 (ce_reads env)) (ce_addresses env) (ce_clock env) (ce_tick env) (ce_groups env)
      (ce_endpoints env) s samples (sv_registry st) (sv_health st) Hps) as Hr.
    destruct (ReportEndpointStats _ _ _ _ _ _ _ _) as [[x r] m]. intros [= <- <-]. cbn. by destruct Hr.
  - apply touches_single in Ht as ->. intros [= <- <-]. split; [apply only_service_refl|]. do 2 (split; [done|]).
    intros hs [= <-]. apply Forall_forall. intros h Hh. unfold HealthManager.List, listLocked in Hh.
    rewrite Slice_perm in Hh. apply list_elem_of_filter in Hh as [[|] _]; done.
  - exfalso. set_solver.
Qed.

(** C12. A scoped principal is confined to its services.  Whatever unary call is
    made with credentials bound to a principal that is scoped and not an
    administrator, no lease of another service changes, the policies do not change,
    and a health listing shows only endpoints of the principal's services.  The health
    found for an endpoint of another service does not change either, if no service of
    the principal, followed by a slash, begins the name of that service or the other
    way round (the health records are kept by service and instance joined by a slash,
    and [scoped_report_reaches] is what happens otherwise). *)
Theorem scoped_call_confined `{Unicode} a env ctx req st p :
  Enabled a = true -> rules a = DefaultControllerMethodRoles -> principalFromContext a ctx = inr p ->
  prin_Role p <> RoleAdmin -> prin_Services p <> [] ->
  let '(ans, st') := serve a env ctx req st in
  (forall t, t ∉ prin_Services p -> services (sv_registry st') !! t = services (sv_registry st) !! t) /\
  (forall key, health (sv_health st') !! key <> health (sv_health st) !! key ->
     exists s id, s ∈ prin_Services p /\ key = ScoreKey s id) /\
  (forall t id, t ∉ prin_Services p -> Forall (separate t) (prin_Services p) ->
     Get (sv_health st') t id = Get (sv_health st) t id) /\
  sv_policies st' = sv_policies st /\
  (forall hs, ans = HealthListed hs -> Forall (fun h => StateMachine.Service h ∈ prin_Services p) hs).
Proof.
  intros Ha Hrules Hp Hadm Hsc. unfold serve, UnaryServerInterceptor.
  destruct (authorize a ctx (method_of req) req) as [e|q] eqn:Hauth; [naive_solver|].
  apply authorize_permitted in Hauth as [Hq Hperm]; [|done]. assert (q = p) as -> by congruence.
  destruct Hperm as [|[_ [|(_ & s & Ht & Hin)]]]; [done..|].
  destruct (AuthorizeControllerPrincipal _ _ _) as [e|]; [naive_solver|]. destruct (handle env req st) as [ans st'] eqn:Hh.
  destruct (handle_only _ _ _ _ _ _ Ht Hh) as (Ho & Hpol & Hk & Hl).
  split; [intros t Hn; apply Ho; by intros ->|]. split; [intros key Hkey; destruct (Hk key Hkey) as [id ->]; eauto|].
  split; [|split; [done|]].
  { intros t id Hn Hsep. unfold Get. destruct (decide (health (sv_health st') !! ScoreKey t id = health (sv_health st) !! ScoreKey t id)) as [|Hne]; [done|].
    destruct (Hk _ Hne) as [id' E]. rewrite Forall_forall in Hsep. destruct (ScoreKey_separate _ _ _ _ E) as [-> _]; [left; by apply Hsep|done]. }
  intros hs Hhs. eapply Forall_impl; [by apply Hl|]. by intros h ->.
Qed.
