(* ===== verification/AuthWitness.v ===== *)
(** * Authentication on concrete credentials

    The properties of authentication at two bindings, and a report that shows its
    sender the endpoints of a service outside its scope. *)
From Stdlib Require Import Ascii String SpecFloat.
From S2P Require Import Prelude GoStd GoFloat GoSort GoHeap GoText Status StateMachine SlowScore HealthManager Registry RegistrySpec.
From S2P Require Import PolicyTypes Controller Policy InstancesView Auth AuthConfig AuthSpec ScopedAccess.

#[local] Instance demo_unicode : Unicode := fun s => s.
#[local] Instance demo_url : Url := fun s => Some ("spiffe"%string, s).

Definition demo_sdk : Principal := {| prin_Role := RoleSDK; prin_Services := ["pay"%string] |}.
Definition demo_admin : Principal := {| prin_Role := RoleAdmin; prin_Services := [] |}.

Definition demo_bindings : list (string * Principal) := [("s3cret", demo_sdk); ("r00t", demo_admin)]%string.

Definition demo_flags : securityFlags := {|
  tlsCertFile := "c.pem"; tlsKeyFile := "k.pem"; tlsCAFile := ""; tlsRequireClientCert := false;
  authTokens := "sdk:pay=s3cret,admin=r00t"; authTokensEnv := ""; authTokensFile := "";
  authCertPrincipals := ""; authCertPrincipalsEnv := ""; authCertPrincipalsFile := "";
  insecureDev := false; authAllowInsecure := false |}.

Definition demo_fs : tls_files := {| key_pair := fun _ _ => true; cert_pool := fun _ => true |}.
Definition demo_process : process_env := {| Getenv := fun _ => ""%string; ReadFile := fun _ => None |}.

Definition demo_auth : TokenAuthenticator :=
  NewControllerPrincipalTokenAuthenticatorWithMTLS (list_to_map demo_bindings) ∅.

Definition demo_options : server_options := {| so_creds := Some NoClientCert; so_auth := Some demo_auth |}.

Lemma demo_starts : buildControllerServerOptions demo_fs demo_process demo_flags = Some demo_options.
Proof. vm_cast_no_check (eq_refl (Some demo_options)). Qed.

Definition demo_call (token : string) : call_context :=
  {| ctx_metadata := Some (GetRequestMetadata token); ctx_peer := NoPeer; ctx_principal := None |}.

Lemma startup_is_guarded_witness :
  buildControllerServerOptions demo_fs demo_process demo_flags = Some demo_options /\ Enabled demo_auth = true /\
  map_Forall (fun _ => binding_ok) (tokens demo_auth).
Proof.
  split; [exact demo_starts|]. destruct (startup_is_guarded _ _ _ _ demo_starts) as [_ H].
  destruct (H demo_auth eq_refl) as (H1 & _ & H2 & _). split; [exact H1|exact H2].
Defined.

Lemma demo_printable : Forall printable demo_bindings.
Proof.
  assert (Hplain : forall bad s, bool_decide (s <> ""%string) && forallb graphic (to_chars s)
    && forallb (fun c => negb (contains_byte c (to_chars s))) bad = true -> plain bad s).
  { intros bad s [[Hs%bool_decide_eq_true Hv]%andb_prop Hb]%andb_prop. split; [done|]. split.
    - unfold visible. apply Forall_forall. intros c Hc. rewrite forallb_forall in Hv.
      by apply Hv, list_elem_of_In.
    - apply Forall_forall. intros c Hc Hin. rewrite forallb_forall in Hb. specialize (Hb c (proj1 (list_elem_of_In _ _) Hc)).
      unfold contains_byte in Hb. destruct (index_byte c (to_chars s)) eqn:E; [done|]. by apply index_byte_None in E. }
  repeat (apply Forall_cons; split); [| |constructor]; (split; [by apply Hplain; vm_compute|]); split.
  - split; [by vm_compute|split; [apply NoDup_singleton|set_solver]|done].
  - constructor; [by apply Hplain; vm_compute|constructor].
  - split; [by vm_compute|split; [constructor|set_solver]|done].
  - constructor.
Qed.

Lemma configured_client_recognised_witness :
  exists a, so_auth demo_options = Some a /\ principalFromContext a (demo_call "s3cret") = inr demo_sdk.
Proof.
  destruct (configured_client_recognised demo_fs demo_process demo_flags demo_options demo_bindings (demo_call "s3cret") "s3cret")
    as (a & Ha & Hp).
  - exact demo_printable.
  - apply (bool_decide_unpack _). vm_compute. exact I.
  - discriminate.
  - vm_compute. reflexivity.
  - exact demo_starts.
  - discriminate.
  - vm_compute. split; reflexivity.
  - reflexivity.
  - exists a. split; [exact Ha|]. rewrite Hp. vm_compute. reflexivity.
Defined.

Lemma authorize_exact_witness :
  principalFromContext demo_auth (demo_call "s3cret") = inr demo_sdk /\
  permitted DefaultControllerMethodRoles demo_sdk RegistryService_ListInstances (ListInstancesRequest "pay") /\
  ~ permitted DefaultControllerMethodRoles demo_sdk RegistryService_ListInstances (ListInstancesRequest "user").
Proof.
  pose proof (fun req => authorize_exact demo_auth (fun _ _ => tt) (demo_call "s3cret") RegistryService_ListInstances req demo_sdk
    eq_refl eq_refl) as H.
  destruct (H (ListInstancesRequest "pay")) as [Hpay _]. destruct (H (ListInstancesRequest "user")) as [Huser _].
  assert (Hok : authorize demo_auth (demo_call "s3cret") RegistryService_ListInstances (ListInstancesRequest "pay") = inr demo_sdk)
    by (vm_compute; reflexivity).
  destruct (proj1 Hpay Hok) as [H1 H2]. split; [exact H1|]. split; [exact H2|]. intros H3.
  assert (Hno : authorize demo_auth (demo_call "s3cret") RegistryService_ListInstances (ListInstancesRequest "user") = inl PermissionDenied)
    by (vm_compute; reflexivity).
  rewrite (proj2 Huser (conj H1 H3)) in Hno. discriminate Hno.
Defined.

(** A server with the leases of two services and the health of one endpoint each. *)
Definition demo_reads_at (t : Z) : two_reads := {| now1 := t; now2 := t; ctx1 := false; ctx2 := false; ctx2' := false |}.

Definition demo_env (t : Z) : call_env := {|
  ce_lease := 30000000000; ce_reads := demo_reads_at t; ce_epoch := "e1"; ce_token := "t1"; ce_tick := t; ce_clock := 0;
  ce_records := fun m => map_to_list m; ce_addresses := fun m => map_to_list m; ce_groups := canonical_order;
  ce_endpoints := fun m => map_to_list m |}.

Definition demo_instance (service id : string) : PbInstance := {|
  i_Id := id; i_Service := service; i_Address := "10.0.0.3:80"; i_Status := ""; i_Labels := None; LastSeenUnixMillis := 0;
  i_SlowScore := fzero; i_RegistrationEpoch := "" |}.

Definition report_on (service id : string) : list (option PbSample) := [Some {|
  pb_Service := service; pb_InstanceId := id; pb_EndpointAddress := ""; pb_Method := "m"; pb_RequestCount := 10; pb_ErrorCount := 0;
  pb_TimeoutCount := 0; pb_Inflight := 1; pb_LatencyEwmaSeconds := fzero; pb_LatencyP95Seconds := fzero; pb_TcpRetransmit := 0;
  pb_Capacity := 10; pb_ConnectError := 0; pb_RegistrationEpoch := "" |}].

Definition demo_server : server :=
  let st := {| sv_registry := NewMemoryRegistry; sv_health := demo_manager; sv_policies := {| modTime := 0; policies := ∅ |} |} in
  let step t req st := (handle (demo_env t) req st).2 in
  step 3 (ReportEndpointStatsRequest (report_on "user" "u1"))
    (step 2 (RegisterInstanceRequest (Some (demo_instance "user" "u1")) 30)
      (step 1 (RegisterInstanceRequest (Some (demo_instance "pay" "p1")) 30) st)).

Definition endpoints_shown (ans : answer) : list (string * string) :=
  match ans with
  | Reported (inr hs) | HealthListed hs => (fun h => (StateMachine.Service h, InstanceID h)) <$> hs
  | _ => []
  end.

(** The report changes the principal's own endpoint and nothing of the other service. *)
Lemma scoped_call_confined_witness :
  let '(_, st') := serve demo_auth (demo_env 4) (demo_call "s3cret") (ReportEndpointStatsRequest (report_on "pay" "p1")) demo_server in
  bool_decide (is_Some (health (sv_health st') !! ScoreKey "pay" "p1")) = true /\
  health (sv_health demo_server) !! ScoreKey "pay" "p1" = None /\
  services (sv_registry st') !! "user"%string = services (sv_registry demo_server) !! "user"%string /\
  Get (sv_health st') "user" "u1" = Get (sv_health demo_server) "user" "u1".
Proof.
  pose proof (scoped_call_confined demo_auth (demo_env 4) (demo_call "s3cret") (ReportEndpointStatsRequest (report_on "pay" "p1"))
    demo_server demo_sdk eq_refl eq_refl) as H.
  assert (H1 : principalFromContext demo_auth (demo_call "s3cret") = inr demo_sdk) by (vm_compute; reflexivity).
  specialize (H H1 ltac:(discriminate) ltac:(discriminate)).
  destruct (serve demo_auth (demo_env 4) (demo_call "s3cret") (ReportEndpointStatsRequest (report_on "pay" "p1")) demo_server)
    as [ans st'] eqn:E. destruct H as (Hr & _ & Hg & _).
  split; [|split; [|split]].
  - assert (Hst : st' = (serve demo_auth (demo_env 4) (demo_call "s3cret") (ReportEndpointStatsRequest (report_on "pay" "p1")) demo_server).2)
      by (rewrite E; reflexivity).
    rewrite Hst. vm_compute. reflexivity.
  - vm_compute. reflexivity.
  - apply Hr. apply (bool_decide_unpack _). vm_compute. exact I.
  - apply Hg; apply (bool_decide_unpack _); vm_compute; exact I.
Defined.

(** A service [pay/x] with an instance [u1], and one of [pay] named [x/u1]. *)
Definition colliding_server : server :=
  let step t req st := (handle (demo_env t) req st).2 in
  step 5 (ReportEndpointStatsRequest (report_on "pay/x" "u1"))
    (step 4 (RegisterInstanceRequest (Some (demo_instance "pay/x" "u1")) 30)
      (step 3 (RegisterInstanceRequest (Some (demo_instance "pay" "x/u1")) 30) demo_server)).

Definition failures_on (service id : string) : list (option PbSample) := [Some {|
  pb_Service := service; pb_InstanceId := id; pb_EndpointAddress := ""; pb_Method := "m"; pb_RequestCount := 10; pb_ErrorCount := 10;
  pb_TimeoutCount := 0; pb_Inflight := 1; pb_LatencyEwmaSeconds := fzero; pb_LatencyP95Seconds := fzero; pb_TcpRetransmit := 0;
  pb_Capacity := 10; pb_ConnectError := 0; pb_RegistrationEpoch := "" |}].

(** The report of a principal scoped to [pay] on that instance makes the health of the
    endpoint of [pay/x] worse. *)
Example scoped_report_reaches :
  let '(_, st') := serve demo_auth (demo_env 6) (demo_call "s3cret") (ReportEndpointStatsRequest (failures_on "pay" "x/u1")) colliding_server in
  prin_Services demo_sdk = ["pay"%string] /\
  flt (default fzero (StateMachine.SlowScore <$> Get (sv_health colliding_server) "pay/x" "u1"))
      (default fzero (StateMachine.SlowScore <$> Get (sv_health st') "pay/x" "u1")) = true.
Proof. vm_compute. done. Qed.

(** A principal scoped to [pay] may not list all endpoints, nor those of [user], yet
    the answer to its report shows the endpoint of [user]. *)
Example report_shows_other_services :
  endpoints_shown (serve demo_auth (demo_env 4) (demo_call "s3cret") (ListEndpointHealthRequest "") demo_server).1 = [] /\
  endpoints_shown (serve demo_auth (demo_env 4) (demo_call "s3cret") (ListEndpointHealthRequest "user") demo_server).1 = [] /\
  endpoints_shown (serve demo_auth (demo_env 4) (demo_call "s3cret") (ReportEndpointStatsRequest (report_on "pay" "p1")) demo_server).1
  = [("pay", "p1"); ("user", "u1")]%string.
Proof. repeat split; vm_compute; reflexivity. Qed.
