(* ===== verification/Trace.v ===== *)
(** * The asynchronous trace writer ([pkg/trace/async.go])

    Callers enqueue records on a bounded channel, one goroutine writes them to a
    file, [Close] stops it.  The three run concurrently: a state machine whose steps
    are the atomic actions of the code. *)
From Stdlib Require Import String.
From S2P Require Import Prelude.

Record Record_ := {
  TraceID : string; SpanID : string; ParentSpanID : string; TimestampUnixMilli : Z; Source : string; Destination : string;
  Method : string; Route : string; Path : list string; Upstream : string; Attempt : Z; RetryAttempts : Z; Status : string }.

#[export] Instance Record_eq_dec : EqDecision Record_.
Proof. solve_decision. Defined.

Inductive OverflowPolicy := OverflowDrop | OverflowBlock | OverflowSample.

Record AsyncConfig := { QueueSize : Z; FlushRecords : Z; FlushInterval : Z; Overflow : OverflowPolicy; SampleEvery : Z }.

Definition DefaultAsyncConfig : AsyncConfig := {|
  QueueSize := 4096; FlushRecords := 64; FlushInterval := 100 * 1000000; Overflow := OverflowDrop; SampleEvery := 10 |}.

(** The configuration [NewAsyncJSONLWriter] works with; any text that is not one of
    the two other policies drops. *)
Definition effective (cfg : AsyncConfig) : AsyncConfig := {|
  QueueSize := if QueueSize cfg <=? 0 then QueueSize DefaultAsyncConfig else QueueSize cfg;
  FlushRecords := if FlushRecords cfg <=? 0 then FlushRecords DefaultAsyncConfig else FlushRecords cfg;
  FlushInterval := if FlushInterval cfg <=? 0 then FlushInterval DefaultAsyncConfig else FlushInterval cfg;
  Overflow := Overflow cfg;
  SampleEvery := if SampleEvery cfg <=? 0 then SampleEvery DefaultAsyncConfig else SampleEvery cfg |}.

(** How a call of [Write] ended; it returns nil in all cases but the last. *)
Inductive fate := Enqueued | DroppedFull | DroppedSampled | Refused.

#[export] Instance fate_eq_dec : EqDecision fate.
Proof. solve_decision. Defined.

(** Where a call of [Write] stands. *)
Inductive write_pc :=
| WCheck (r : Record_)   (** before [closed.Load] *)
| WSend (r : Record_)    (** at the first send *)
| WCount (r : Record_)   (** the queue was full; before [sampleCounter.Add] *)
| WRetry (r : Record_)   (** at the second send *)
| WDone (r : Record_) (f : fate).

(** Where [Close] stands: before its body, after [closed.Store], after
    [close(stopCh)], returned. *)
Inductive close_pc := CIdle | CStored | CStopped | CReturned.

(** Where the goroutine [run] stands. *)
Inductive run_pc := RLoop | RDrain | RDone.

Record state := {
  writers : gmap nat write_pc;
  closer : close_pc;
  closed : bool;
  stopCh : bool;              (** closed *)
  queue : list Record_;
  sampleCounter : Z;
  droppedFull : nat;          (** the counters of [IncDropped] *)
  droppedSampled : nat;
  goroutine : run_pc;         (** [doneCh] is closed at [RDone] *)
  handed : list Record_;      (** written to the buffer *)
  pending : Z;
  flushed : list Record_;     (** handed over before the last flush that succeeded *)
  bufErr : bool;              (** the buffer's sticky error *)
  closeErr : bool }.

Definition initial : state := {|
  writers := ∅; closer := CIdle; closed := false; stopCh := false; queue := []; sampleCounter := 0; droppedFull := 0;
  droppedSampled := 0; goroutine := RLoop; handed := []; pending := 0; flushed := []; bufErr := false; closeErr := false |}.

(** [record.TimestampUnixMilli] is set to [now] when it is zero. *)
Definition stamped (now : Z) (r : Record_) : Record_ :=
  if TimestampUnixMilli r =? 0 then {|
    TraceID := TraceID r; SpanID := SpanID r; ParentSpanID := ParentSpanID r; TimestampUnixMilli := now; Source := Source r;
    Destination := Destination r; Method := Method r; Route := Route r; Path := Path r; Upstream := Upstream r;
    Attempt := Attempt r; RetryAttempts := RetryAttempts r; Status := Status r |} else r.

Definition set_writer (t : nat) (pc : write_pc) (s : state) : state := {|
  writers := <[t := pc]> (writers s); closer := closer s; closed := closed s; stopCh := stopCh s; queue := queue s;
  sampleCounter := sampleCounter s; droppedFull := droppedFull s; droppedSampled := droppedSampled s; goroutine := goroutine s;
  handed := handed s; pending := pending s; flushed := flushed s; bufErr := bufErr s; closeErr := closeErr s |}.

Definition set_queue (q : list Record_) (s : state) : state := {|
  writers := writers s; closer := closer s; closed := closed s; stopCh := stopCh s; queue := q;
  sampleCounter := sampleCounter s; droppedFull := droppedFull s; droppedSampled := droppedSampled s; goroutine := goroutine s;
  handed := handed s; pending := pending s; flushed := flushed s; bufErr := bufErr s; closeErr := closeErr s |}.

Definition set_counter (c : Z) (s : state) : state := {|
  writers := writers s; closer := closer s; closed := closed s; stopCh := stopCh s; queue := queue s;
  sampleCounter := c; droppedFull := droppedFull s; droppedSampled := droppedSampled s; goroutine := goroutine s;
  handed := handed s; pending := pending s; flushed := flushed s; bufErr := bufErr s; closeErr := closeErr s |}.

(** [IncDropped] *)
Definition IncDropped (sampled : bool) (s : state) : state := {|
  writers := writers s; closer := closer s; closed := closed s; stopCh := stopCh s; queue := queue s;
  sampleCounter := sampleCounter s; droppedFull := if sampled then droppedFull s else S (droppedFull s);
  droppedSampled := if sampled then S (droppedSampled s) else droppedSampled s; goroutine := goroutine s;
  handed := handed s; pending := pending s; flushed := flushed s; bufErr := bufErr s; closeErr := closeErr s |}.

Definition set_close (c : close_pc) (cl st : bool) (s : state) : state := {|
  writers := writers s; closer := c; closed := cl; stopCh := st; queue := queue s;
  sampleCounter := sampleCounter s; droppedFull := droppedFull s; droppedSampled := droppedSampled s; goroutine := goroutine s;
  handed := handed s; pending := pending s; flushed := flushed s; bufErr := bufErr s; closeErr := closeErr s |}.

Definition set_goroutine (g : run_pc) (s : state) : state := {|
  writers := writers s; closer := closer s; closed := closed s; stopCh := stopCh s; queue := queue s;
  sampleCounter := sampleCounter s; droppedFull := droppedFull s; droppedSampled := droppedSampled s; goroutine := g;
  handed := handed s; pending := pending s; flushed := flushed s; bufErr := bufErr s; closeErr := closeErr s |}.

(** What the goroutine does to the buffer and the file. *)
Definition set_file (h : list Record_) (p : Z) (f : list Record_) (be ce : bool) (s : state) : state := {|
  writers := writers s; closer := closer s; closed := closed s; stopCh := stopCh s; queue := queue s;
  sampleCounter := sampleCounter s; droppedFull := droppedFull s; droppedSampled := droppedSampled s; goroutine := goroutine s;
  handed := h; pending := p; flushed := f; bufErr := be; closeErr := ce |}.

(** [flush]: [ok] is whether the file accepts the bytes.  Nothing pending, nothing
    done; an error of the buffer is kept and reported. *)
Definition flush (ok : bool) (s : state) : state :=
  if pending s =? 0 then s
  else if bufErr s || negb ok then set_file (handed s) 0 (flushed s) true true s
  else set_file (handed s) 0 (handed s) false (closeErr s) s.

(** [writeRecord]: [ok] is whether the file accepts what the buffer passes on, if it
    does; encoding a record does not fail. *)
Definition writeRecord (cfg : AsyncConfig) (ok ok2 : bool) (r : Record_) (s : state) : state :=
  let bad := bufErr s || negb ok in
  let s := set_file (handed s ++ [r]) (pending s + 1) (flushed s) bad (closeErr s || bad) s in
  if FlushRecords cfg <=? pending s then flush ok2 s else s.

(** The end of [run]; [ok2] is whether the file closes. *)
Definition finish (ok ok2 : bool) (s : state) : state :=
  let s := flush ok s in
  set_goroutine RDone (set_file (handed s) (pending s) (flushed s) (bufErr s) (closeErr s || negb ok2) s).

(** ** Steps *)

Definition room (cfg : AsyncConfig) (s : state) : Prop := Z.of_nat (length (queue s)) < QueueSize cfg.

(** A send that finds no room and the counting of the drop are one step.  [quiet]
    restricts when [Close] may begin. *)
Inductive step (cfg : AsyncConfig) (quiet : state -> Prop) : state -> state -> Prop :=
(** [Write] *)
| call t r s : writers s !! t = None -> step cfg quiet s (set_writer t (WCheck r) s)
| check_closed t r s : writers s !! t = Some (WCheck r) -> closed s = true -> step cfg quiet s (set_writer t (WDone r Refused) s)
| check_open t r now s : writers s !! t = Some (WCheck r) -> closed s = false -> step cfg quiet s (set_writer t (WSend (stamped now r)) s)
| send t r s : writers s !! t = Some (WSend r) -> room cfg s ->
    step cfg quiet s (set_writer t (WDone r Enqueued) (set_queue (queue s ++ [r]) s))
| full_drop t r s : writers s !! t = Some (WSend r) -> ~ room cfg s -> Overflow cfg = OverflowDrop ->
    step cfg quiet s (set_writer t (WDone r DroppedFull) (IncDropped false s))
| full_sample t r s : writers s !! t = Some (WSend r) -> ~ room cfg s -> Overflow cfg = OverflowSample ->
    step cfg quiet s (set_writer t (WCount r) s)
| count_drop t r s : writers s !! t = Some (WCount r) -> wrapu 64 (sampleCounter s + 1) `mod` SampleEvery cfg <> 0 ->
    step cfg quiet s (set_writer t (WDone r DroppedSampled) (IncDropped true (set_counter (wrapu 64 (sampleCounter s + 1)) s)))
| count_admit t r s : writers s !! t = Some (WCount r) -> wrapu 64 (sampleCounter s + 1) `mod` SampleEvery cfg = 0 ->
    step cfg quiet s (set_writer t (WRetry r) (set_counter (wrapu 64 (sampleCounter s + 1)) s))
| retry_send t r s : writers s !! t = Some (WRetry r) -> room cfg s ->
    step cfg quiet s (set_writer t (WDone r Enqueued) (set_queue (queue s ++ [r]) s))
| retry_full t r s : writers s !! t = Some (WRetry r) -> ~ room cfg s ->
    step cfg quiet s (set_writer t (WDone r DroppedFull) (IncDropped false s))
(** [Close] *)
| close_store s : closer s = CIdle -> quiet s -> step cfg quiet s (set_close CStored true (stopCh s) s)
| close_stop s : closer s = CStored -> step cfg quiet s (set_close CStopped (closed s) true s)
| close_return s : closer s = CStopped -> goroutine s = RDone -> step cfg quiet s (set_close CReturned (closed s) (stopCh s) s)
(** [run] *)
| run_receive r q ok ok2 s : goroutine s = RLoop -> queue s = r :: q ->
    step cfg quiet s (writeRecord cfg ok ok2 r (set_queue q s))
| run_tick ok s : goroutine s = RLoop -> step cfg quiet s (flush ok s)
| run_stop s : goroutine s = RLoop -> stopCh s = true -> step cfg quiet s (set_goroutine RDrain s)
| drain_receive r q ok ok2 s : goroutine s = RDrain -> queue s = r :: q ->
    step cfg quiet s (writeRecord cfg ok ok2 r (set_queue q s))
| drain_end ok ok2 s : goroutine s = RDrain -> queue s = [] -> step cfg quiet s (finish ok ok2 s).

Definition reachable (cfg : AsyncConfig) (quiet : state -> Prop) (s : state) : Prop := rtc (step cfg quiet) initial s.

(** ** Accounting *)

Definition ended (f : fate) (pc : write_pc) : option Record_ :=
  match pc with WDone r f' => if decide (f = f') then Some r else None | _ => None end.

(** The records of the calls that ended this way. *)
Definition with_fate (f : fate) (s : state) : list Record_ := omap (ended f) (map_to_list (writers s)).*2.

#[export] Instance omap_perm {A B} (f : A -> option B) : Proper ((≡ₚ) ==> (≡ₚ)) (omap (M:=list) f).
Proof.
  intros l k Hp. induction Hp as [|x l k _ IH|x y l|l k m _ IH1 _ IH2]; cbn; [done| | |by etrans].
  - destruct (f x); [by constructor|done].
  - destruct (f x), (f y); try done. apply perm_swap.
Qed.

Lemma with_fate_set f t pc s :
  (writers s !! t ≫= ended f) = None ->
  with_fate f (set_writer t pc s) ≡ₚ option_list (ended f pc) ++ with_fate f s.
Proof.
  intros Hold. unfold with_fate. cbn [writers set_writer].
  assert (H1 : map_to_list (<[t:=pc]> (writers s)) ≡ₚ (t, pc) :: map_to_list (delete t (writers s))).
  { rewrite <- insert_delete_eq. apply map_to_list_insert, lookup_delete_eq. }
  rewrite H1. cbn [fmap list_fmap omap list_omap snd].
  assert (H2 : omap (ended f) (map_to_list (writers s)).*2 ≡ₚ omap (ended f) (map_to_list (delete t (writers s))).*2).
  { destruct (writers s !! t) as [old|] eqn:E; [|by rewrite delete_id].
    rewrite <- (map_to_list_delete (writers s) t old E). cbn in Hold |- *. by rewrite Hold. }
  rewrite H2. by destruct (ended f pc).
Qed.

(** What a step of the goroutine leaves of the file. *)
Record file_ok (s : state) : Prop := {
  file_prefix : flushed s `prefix_of` handed s;
  file_pending : 0 <= pending s;
  file_errors : closeErr s = false -> bufErr s = false;
  file_clean : closeErr s = false -> pending s = 0 -> flushed s = handed s
}.

Lemma flush_file ok s : file_ok s -> file_ok (flush ok s).
Proof.
  intros [H1 H2 H3 H4]. unfold flush. destruct (Z.eqb_spec (pending s) 0) as [E|E]; [by split|].
  destruct (bufErr s || negb ok); split; cbn; done || lia.
Qed.

Lemma flush_frame ok s :
  writers (flush ok s) = writers s /\ queue (flush ok s) = queue s /\ handed (flush ok s) = handed s /\
  droppedFull (flush ok s) = droppedFull s /\ droppedSampled (flush ok s) = droppedSampled s /\
  goroutine (flush ok s) = goroutine s /\ closed (flush ok s) = closed s /\ stopCh (flush ok s) = stopCh s /\
  closer (flush ok s) = closer s.
Proof. unfold flush. by repeat case_match. Qed.

Lemma writeRecord_file cfg ok ok2 r s : file_ok s -> file_ok (writeRecord cfg ok ok2 r s).
Proof.
  intros [H1 H2 H3 H4]. unfold writeRecord. cbn zeta.
  match goal with |- context [flush ok2 ?x] => assert (Hx : file_ok x) end.
  { split; cbn; [by apply prefix_app_r|lia| |].
    - intros [_ Hb]%orb_false_elim. done.
    - intros _ ?. lia. }
  case_match; [by apply flush_file|done].
Qed.

Lemma writeRecord_frame cfg ok ok2 r s :
  let s' := writeRecord cfg ok ok2 r s in
  writers s' = writers s /\ queue s' = queue s /\ handed s' = handed s ++ [r] /\
  droppedFull s' = droppedFull s /\ droppedSampled s' = droppedSampled s /\
  goroutine s' = goroutine s /\ closed s' = closed s /\ stopCh s' = stopCh s /\ closer s' = closer s.
Proof.
  unfold writeRecord. cbn zeta. case_match; [|done].
  match goal with |- context [flush ok2 ?x] => destruct (flush_frame ok2 x) as (-> & -> & -> & -> & -> & -> & -> & -> & ->) end. done.
Qed.

Lemma finish_frame ok ok2 s :
  let s' := finish ok ok2 s in
  writers s' = writers s /\ queue s' = queue s /\ handed s' = handed s /\
  droppedFull s' = droppedFull s /\ droppedSampled s' = droppedSampled s /\ goroutine s' = RDone /\ closed s' = closed s /\
  stopCh s' = stopCh s /\ closer s' = closer s.
Proof. cbn. destruct (flush_frame ok s) as (-> & -> & -> & -> & -> & _ & -> & -> & ->). done. Qed.

Lemma finish_file ok ok2 s : file_ok s -> file_ok (finish ok ok2 s) /\ pending (finish ok ok2 s) = 0.
Proof.
  intros Hs. pose proof (flush_file ok s Hs) as [H1 H2 H3 H4]. unfold finish. cbn. split.
  - split; cbn; try done; intros [He _]%orb_false_elim; auto.
  - unfold flush. destruct (Z.eqb_spec (pending s) 0) as [E|E]; [done|]. by destruct (bufErr s || negb ok).
Qed.

(** ** Invariants *)

Record accounted (cfg : AsyncConfig) (s : state) : Prop := {
  acc_records : handed s ++ queue s ≡ₚ with_fate Enqueued s;
  acc_full : droppedFull s = length (with_fate DroppedFull s);
  acc_sampled : droppedSampled s = length (with_fate DroppedSampled s);
  acc_bound : Z.of_nat (length (queue s)) <= QueueSize cfg;
  acc_file : file_ok s;
  acc_done : goroutine s = RDone -> pending s = 0
}.

Lemma with_fate_same f s s' : writers s' = writers s -> with_fate f s' = with_fate f s.
Proof. unfold with_fate. by intros ->. Qed.

(** A step of a caller that moves no record. *)
Lemma accounted_move cfg t pc old s :
  writers s !! t = old -> (forall f, old ≫= ended f = None) -> (forall f, f <> Refused -> ended f pc = None) ->
  accounted cfg s -> accounted cfg (set_writer t pc s).
Proof.
  intros Ht Hold Hpc [H1 H2 H3 H4 [F1 F2 F3 F4] H6].
  assert (Hf : forall f, f <> Refused -> with_fate f (set_writer t pc s) ≡ₚ with_fate f s).
  { intros f Hne. rewrite with_fate_set by (rewrite Ht; apply Hold). by rewrite Hpc. }
  split; cbn; [by rewrite Hf|by rewrite Hf|by rewrite Hf|done|by split|done].
Qed.

Lemma accounted_send cfg t r old s :
  writers s !! t = old -> (forall f, old ≫= ended f = None) -> room cfg s ->
  accounted cfg s -> accounted cfg (set_writer t (WDone r Enqueued) (set_queue (queue s ++ [r]) s)).
Proof.
  intros Ht Hold Hroom [H1 H2 H3 H4 [F1 F2 F3 F4] H6].
  assert (Hf : forall f, with_fate f (set_writer t (WDone r Enqueued) (set_queue (queue s ++ [r]) s)) ≡ₚ
    option_list (ended f (WDone r Enqueued)) ++ with_fate f s).
  { intros f. apply (with_fate_set f t (WDone r Enqueued) (set_queue (queue s ++ [r]) s)). cbn. by rewrite Ht. }
  split; cbn; [|by rewrite Hf|by rewrite Hf| |by split|done].
  - rewrite Hf. cbn. rewrite <- H1, app_assoc. apply Permutation_app_comm.
  - rewrite length_app. cbn. unfold room in Hroom. lia.
Qed.

Lemma accounted_drop cfg t r old (sampled : bool) s0 s :
  writers s0 !! t = old -> (forall f, old ≫= ended f = None) ->
  writers s = writers s0 -> accounted cfg s ->
  accounted cfg (set_writer t (WDone r (if sampled then DroppedSampled else DroppedFull)) (IncDropped sampled s)).
Proof.
  intros Ht Hold Hw [H1 H2 H3 H4 [F1 F2 F3 F4] H6]. rewrite <- Hw in Ht.
  set (pc := WDone r (if sampled then DroppedSampled else DroppedFull)).
  assert (Hf : forall f, with_fate f (set_writer t pc (IncDropped sampled s)) ≡ₚ option_list (ended f pc) ++ with_fate f s).
  { intros f. apply (with_fate_set f t pc (IncDropped sampled s)). cbn. by rewrite Ht. }
  split; cbn; try rewrite Hf; destruct sampled; cbn; try done; try (by split); by rewrite ?H2, ?H3.
Qed.

Lemma step_accounted cfg quiet s s' : 0 < QueueSize cfg -> step cfg quiet s s' -> accounted cfg s -> accounted cfg s'.
Proof.
  intros Hq Hstep Hs.
  assert (Hrecv : forall r q ok ok2, goroutine s <> RDone -> queue s = r :: q -> accounted cfg (writeRecord cfg ok ok2 r (set_queue q s))).
  { intros r q ok ok2 Hg Hr. destruct Hs as [H1 H2 H3 H4 H5 H6].
    destruct (writeRecord_frame cfg ok ok2 r (set_queue q s)) as (Hw & Hqu & Hh & Hf & Hsm & Hgo & _).
    split; rewrite ?Hqu, ?Hh, ?Hf, ?Hsm, ?Hgo, ?(with_fate_same _ _ _ Hw); cbn; try done.
    - rewrite <- app_assoc. cbn. by rewrite <- Hr.
    - rewrite Hr in H4. cbn in H4. lia.
    - apply writeRecord_file. destruct H5. by split. }
  destruct Hstep as [t r s Ht|t r s Ht Hc|t r now s Ht Hc|t r s Ht Hr|t r s Ht Hr Hp|t r s Ht Hr Hp|t r s Ht Hm|t r s Ht Hm|
    t r s Ht Hr|t r s Ht Hr|s Hc Hqt|s Hc|s Hc Hg|r q ok ok2 s Hg Hr|ok s Hg|s Hg Hc|r q ok ok2 s Hg Hr|ok ok2 s Hg Hr].
  - by eapply accounted_move.
  - eapply accounted_move; [done|done| |done]. intros f Hf. cbn. by rewrite decide_False.
  - by eapply accounted_move.
  - by eapply accounted_send.
  - by apply (accounted_drop cfg t r (Some (WSend r)) false s s).
  - by eapply accounted_move.
  - apply (accounted_drop cfg t r (Some (WCount r)) true s); [done|done|done|]. destruct Hs as [? ? ? ? [] ?]. split; try done; by split.
  - apply (accounted_move cfg t _ (Some (WCount r))); [done|done|done|]. destruct Hs as [? ? ? ? [] ?]. split; try done; by split.
  - by eapply accounted_send.
  - by apply (accounted_drop cfg t r (Some (WRetry r)) false s s).
  - destruct Hs as [? ? ? ? [] ?]. split; try done; by split.
  - destruct Hs as [? ? ? ? [] ?]. split; try done; by split.
  - destruct Hs as [? ? ? ? [] ?]. split; try done; by split.
  - apply Hrecv; [congruence|done].
  - destruct Hs as [H1 H2 H3 H4 H5 H6]. destruct (flush_frame ok s) as (Hw & Hqu & Hh & Hf & Hsm & Hgo & _).
    split; rewrite ?Hqu, ?Hh, ?Hf, ?Hsm, ?Hgo, ?(with_fate_same _ _ _ Hw); try done; [by apply flush_file|congruence].
  - destruct Hs as [? ? ? ? [] ?]. split; try done; by split.
  - apply Hrecv; [congruence|done].
  - destruct Hs as [H1 H2 H3 H4 H5 H6]. destruct (finish_frame ok ok2 s) as (Hw & Hqu & Hh & Hf & Hsm & _).
    destruct (finish_file ok ok2 s H5). split; rewrite ?Hqu, ?Hh, ?Hf, ?Hsm, ?(with_fate_same _ _ _ Hw); done.
Qed.

Lemma reachable_accounted cfg quiet s : 0 < QueueSize cfg -> reachable cfg quiet s -> accounted cfg s.
Proof.
  intros Hq Hr. unfold reachable in Hr. remember initial as s0 eqn:E. assert (Hs0 : accounted cfg s0).
  { subst s0. split; cbn; try done; try lia; by split. }
  clear E. induction Hr as [|s0 s1 s2 Hst _ IH]; [done|]. apply IH. by eapply step_accounted.
Qed.

(** C29. No trace record disappears unaccounted.  In every interleaving of callers,
    the writing goroutine and [Close], and whatever the file does: the records of the
    calls of [Write] that enqueued them are exactly those handed to the file's buffer
    plus those still queued, each once; every other call that returned nil was counted
    as a drop, under the reason it was dropped for; the queue stays within its bound;
    what successful flushes have put into the file is a prefix of what was handed
    over, and all of it when nothing is pending, unless an error was kept. *)
Theorem trace_records_accounted cfg s :
  reachable (effective cfg) (fun _ => True) s ->
  handed s ++ queue s ≡ₚ with_fate Enqueued s /\
  droppedFull s = length (with_fate DroppedFull s) /\ droppedSampled s = length (with_fate DroppedSampled s) /\
  Z.of_nat (length (queue s)) <= QueueSize (effective cfg) /\ flushed s `prefix_of` handed s /\
  (closeErr s = false -> pending s = 0 -> flushed s = handed s).
Proof.
  intros Hr. apply reachable_accounted in Hr as [H1 H2 H3 H4 [H5 _ _ H6] _]; [done|]. unfold effective. cbn.
  destruct (Z.leb_spec (QueueSize cfg) 0); lia.
Qed.

(** ** Closing *)

(** No call of [Write] is past its look at [closed] and still running. *)
Definition idle (s : state) : Prop :=
  forall t pc, writers s !! t = Some pc -> match pc with WCheck _ | WDone _ _ => True | _ => False end.

Record orderly (s : state) : Prop := {
  ord_closed : closed s = true -> idle s;
  ord_open : closed s = false -> closer s = CIdle;
  ord_idle : closer s = CIdle -> stopCh s = false;
  ord_stop : goroutine s <> RLoop -> stopCh s = true;
  ord_done : goroutine s = RDone -> queue s = []
}.

Lemma idle_set t pc s : match pc with WCheck _ | WDone _ _ => True | _ => False end -> idle s -> idle (set_writer t pc s).
Proof.
  intros Hpc Hs u pc' Hu. cbn in Hu. destruct (decide (t = u)) as [<-|Hne].
  - rewrite lookup_insert_eq in Hu. by injection Hu as <-.
  - rewrite lookup_insert_ne in Hu by done. by apply (Hs u).
Qed.

Lemma stopped_closed s : orderly s -> stopCh s = true -> closed s = true.
Proof. intros [_ H2 H3 _ _] Hst. destruct (closed s); [done|]. rewrite (H3 (H2 eq_refl)) in Hst. done. Qed.

Lemma step_orderly cfg s s' : step cfg idle s s' -> orderly s -> orderly s'.
Proof.
  intros Hstep Hs. pose proof (stopped_closed s Hs) as Hsc.
  assert (Hact : forall t pc, writers s !! t = Some pc -> match pc with WCheck _ | WDone _ _ => False | _ => True end ->
    closed s = false /\ goroutine s = RLoop).
  { intros t pc Ht Hpc. assert (Hc : closed s = false).
    { destruct (closed s) eqn:E; [|done]. pose proof (ord_closed _ Hs E t pc Ht). by destruct pc. }
    split; [done|]. destruct (goroutine s) eqn:Eg; [done|..]; (rewrite Hsc in Hc; [done|]; apply (ord_stop _ Hs); by rewrite Eg). }
  destruct Hs as [H1 H2 H3 H4 H5].
  destruct Hstep as [t r s Ht|t r s Ht Hc|t r now s Ht Hc|t r s Ht Hr|t r s Ht Hr Hp|t r s Ht Hr Hp|t r s Ht Hm|t r s Ht Hm|
    t r s Ht Hr|t r s Ht Hr|s Hc Hqt|s Hc|s Hc Hg|r q ok ok2 s Hg Hr|ok s Hg|s Hg Hc|r q ok ok2 s Hg Hr|ok ok2 s Hg Hr].
  1,2: by split; cbn; try done; intros Hx; apply idle_set, H1.
  1: by split; cbn; try done; congruence.
  1-7: destruct (Hact _ _ Ht I) as [Hcl Hgo]; split; cbn; try done; congruence.
  - split; cbn; done.
  - split; cbn; try done. intros Hcl. by rewrite (H2 Hcl) in Hc.
  - split; cbn; try done. intros Hcl. by rewrite (H2 Hcl) in Hc.
  - destruct (writeRecord_frame cfg ok ok2 r (set_queue q s)) as (Hw & Hqu & Hh & Hf & Hsm & Hgo & Hcl & Hst & Hcc).
    split; rewrite ?Hcl, ?Hst, ?Hcc, ?Hgo, ?Hqu; cbn; try done; [|congruence].
    intros Hx. unfold idle. rewrite Hw. by apply H1.
  - destruct (flush_frame ok s) as (Hw & Hqu & Hh & Hf & Hsm & Hgo & Hcl & Hst & Hcc).
    split; rewrite ?Hcl, ?Hst, ?Hcc, ?Hgo, ?Hqu; try done. intros Hx. unfold idle. rewrite Hw. by apply H1.
  - split; cbn; try done.
  - destruct (writeRecord_frame cfg ok ok2 r (set_queue q s)) as (Hw & Hqu & Hh & Hf & Hsm & Hgo & Hcl & Hst & Hcc).
    split; rewrite ?Hcl, ?Hst, ?Hcc, ?Hgo, ?Hqu; cbn; try done; [|congruence].
    intros Hx. unfold idle. rewrite Hw. by apply H1.
  - destruct (finish_frame ok ok2 s) as (Hw & Hqu & Hh & Hf & Hsm & Hgo & Hcl & Hst & Hcc).
    split; rewrite ?Hcl, ?Hst, ?Hcc, ?Hgo, ?Hqu; try done; [|intros _; apply H4; congruence].
    intros Hx. unfold idle. rewrite Hw. by apply H1.
Qed.

Lemma reachable_orderly cfg s : reachable cfg idle s -> orderly s.
Proof.
  intros Hr. unfold reachable in Hr. remember initial as s0 eqn:E. assert (Hs0 : orderly s0) by (subst s0; by split).
  clear E. induction Hr as [|s0 s1 s2 Hst _ IH]; [done|]. apply IH. by eapply step_orderly.
Qed.

(** Closing loses nothing.  If no call of [Write] is in flight when [Close]
    begins, then once the goroutine has ended, unless an error of the file was kept
    for [Close] to return, the file holds exactly the records that were enqueued, and
    later calls of [Write] are refused. *)
Theorem close_drains cfg s :
  reachable (effective cfg) idle s -> goroutine s = RDone -> closeErr s = false ->
  flushed s ≡ₚ with_fate Enqueued s /\ queue s = [] /\ closed s = true.
Proof.
  intros Hr Hg He. pose proof (reachable_orderly _ _ Hr) as Ho. pose proof Ho as [_ _ _ H4 H5].
  assert (Hq : queue s = []) by auto. apply reachable_accounted in Hr as [H1 _ _ _ [_ _ _ F4] H6].
  - rewrite <- H1, Hq, app_nil_r, F4 by auto. split; [done|]. split; [done|].
    apply (stopped_closed s Ho), H4. congruence.
  - unfold effective. cbn. destruct (Z.leb_spec (QueueSize cfg) 0); lia.
Qed.

(** ** Runs *)

Definition demo_cfg (policy : OverflowPolicy) : AsyncConfig :=
  {| QueueSize := 1; FlushRecords := 0; FlushInterval := 0; Overflow := policy; SampleEvery := 0 |}.

Definition demo_record (id : string) : Record_ := {|
  TraceID := id; SpanID := ""; ParentSpanID := ""; TimestampUnixMilli := 7; Source := ""; Destination := ""; Method := ""; Route := "";
  Path := []; Upstream := ""; Attempt := 0; RetryAttempts := 0; Status := "OK" |}.

(** One call of [Write] has enqueued its record. *)
Definition demo_sent (t : nat) (s : state) : state :=
  set_writer t (WDone (demo_record "a") Enqueued)
    (set_queue (queue s ++ [demo_record "a"]) (set_writer t (WSend (demo_record "a")) (set_writer t (WCheck (demo_record "a")) s))).

Tactic Notation "take_step" uconstr(c) := eapply rtc_l; [eapply c; try reflexivity; try exact I; try (unfold room; cbn; lia)|].

(** [Close] has returned after a call of [Write]. *)
Definition demo_closed : state :=
  set_close CReturned true true (finish true true
    (writeRecord (effective (demo_cfg OverflowDrop)) true true (demo_record "a")
      (set_queue [] (set_goroutine RDrain (set_close CStopped true true (set_close CStored true false (demo_sent 0 initial))))))).

Lemma demo_closed_reachable : reachable (effective (demo_cfg OverflowDrop)) idle demo_closed.
Proof.
  unfold reachable, demo_closed, demo_sent.
  take_step (call _ _ 0%nat (demo_record "a")). take_step (check_open _ _ 0%nat (demo_record "a") 7). take_step (send _ _ 0%nat (demo_record "a")).
  eapply rtc_l; [apply close_store; [reflexivity|]|].
  { intros t pc Ht. cbn in Ht. destruct (decide (t = 0%nat)) as [->|Hne].
    - rewrite lookup_insert_eq in Ht. by injection Ht as <-.
    - by rewrite !lookup_insert_ne in Ht by done. }
  take_step close_stop. take_step run_stop. take_step (drain_receive _ _ (demo_record "a") [] true true).
  take_step (drain_end _ _ true true). take_step close_return. apply rtc_refl.
Qed.

Lemma close_drains_witness : flushed demo_closed = [demo_record "a"] /\ flushed demo_closed ≡ₚ with_fate Enqueued demo_closed.
Proof.
  split; [reflexivity|]. apply (close_drains (demo_cfg OverflowDrop) demo_closed demo_closed_reachable eq_refl eq_refl).
Defined.

(** The queue is full: a second call drops its record. *)
Definition demo_full : state :=
  set_writer 1 (WDone (demo_record "b") DroppedFull) (IncDropped false
    (set_writer 1 (WSend (demo_record "b")) (set_writer 1 (WCheck (demo_record "b")) (demo_sent 0 initial)))).

Lemma demo_full_reachable : reachable (effective (demo_cfg OverflowDrop)) (fun _ => True) demo_full.
Proof.
  unfold reachable, demo_full, demo_sent.
  take_step (call _ _ 0%nat (demo_record "a")). take_step (check_open _ _ 0%nat (demo_record "a") 7). take_step (send _ _ 0%nat (demo_record "a")).
  take_step (call _ _ 1%nat (demo_record "b")). take_step (check_open _ _ 1%nat (demo_record "b") 7).
  take_step (full_drop _ _ 1%nat (demo_record "b")). apply rtc_refl.
Qed.

Lemma trace_records_accounted_witness :
  droppedFull demo_full = 1%nat /\ handed demo_full ++ queue demo_full ≡ₚ with_fate Enqueued demo_full.
Proof.
  destruct (trace_records_accounted (demo_cfg OverflowDrop) demo_full demo_full_reachable) as (H1 & H2 & _).
  split; [exact H2|exact H1].
Defined.

(** A call of [Write] that has seen the writer open sends its record after the
    goroutine has ended: it returns nil, [Close] returned without an error, and the
    record is neither in the file nor counted. *)
Definition demo_lost : state :=
  set_writer 0 (WDone (demo_record "a") Enqueued) (set_queue [demo_record "a"]
    (set_close CReturned true true (finish true true (set_goroutine RDrain (set_close CStopped true true (set_close CStored true false
      (set_writer 0 (WSend (demo_record "a")) (set_writer 0 (WCheck (demo_record "a")) initial)))))))).

Example late_write_is_lost :
  reachable (effective (demo_cfg OverflowDrop)) (fun _ => True) demo_lost /\
  closer demo_lost = CReturned /\ closeErr demo_lost = false /\ with_fate Enqueued demo_lost = [demo_record "a"] /\
  flushed demo_lost = [] /\ droppedFull demo_lost = 0%nat.
Proof.
  split; [|by repeat split]. unfold reachable, demo_lost.
  take_step (call _ _ 0%nat (demo_record "a")). take_step (check_open _ _ 0%nat (demo_record "a") 7). take_step close_store.
  take_step close_stop. take_step run_stop. take_step (drain_end _ _ true true). take_step close_return.
  take_step (send _ _ 0%nat (demo_record "a")). apply rtc_refl.
Qed.

(** With the policy that blocks, a call that finds the queue full after the goroutine
    has ended never returns. *)
Lemma blocked_writer_stays cfg quiet s s' t r :
  Overflow cfg = OverflowBlock -> rtc (step cfg quiet) s s' ->
  goroutine s = RDone -> ~ room cfg s -> writers s !! t = Some (WSend r) -> writers s' !! t = Some (WSend r).
Proof.
  intros Hb Hr. induction Hr as [|s s1 s2 Hst _ IH]; [done|]. intros Hg Hn Ht.
  assert (Hset : forall u pc, writers s !! u <> Some (WSend r) -> <[u := pc]> (writers s) !! t = Some (WSend r)).
  { intros u pc Hu. rewrite lookup_insert_ne; [done|]. by intros ->. }
  destruct Hst; try congruence; try done; apply IH; cbn; try done; apply Hset; congruence.
Qed.
