(* ===== verification/EtcdLease.v ===== *)
(** * Requests to etcd

    The registry on a lease store talks to etcd, which is not in the repository: the
    class [Etcd] has the operations the code calls, [EtcdLeaseLaw] what is documented
    of them.  A call of the registry is a program: the requests it sends, each with what
    it does with the answer.  Programs of several controllers run interleaved, request by
    request. *)
From Stdlib Require Import String.
From S2P Require Import Prelude GoText.

(** [mvccpb.KeyValue] without its key. *)
Record KeyValue := { kv_Value : list Z; kv_ModRevision : Z; kv_Lease : Z }.

(** Operations of the client.  [Grant] reads the server's clock; a [Put] or a
    transaction with a lease that does not exist is an error; the transaction puts if the
    key's revision is the one given, 0 standing for no key.  Answers carry the store's
    revision. *)
Class Etcd (E : Type) := {
  etcd_Grant : Z -> Z -> E -> Z * E;
  etcd_Put : string -> list Z -> Z -> E -> option (option KeyValue * Z) * E;
  etcd_Txn : string -> Z -> list Z -> Z -> E -> option (bool * option KeyValue * Z) * E;
  etcd_Get : string -> E -> option KeyValue * Z;
  etcd_Range : string -> E -> list (string * KeyValue) * Z;
  etcd_Revoke : Z -> E -> E
}.

Definition revision_of (kv : option KeyValue) : Z := match kv with Some kv => kv_ModRevision kv | None => 0 end.

(** The documented behaviour: the keys, the revision of the store, the deadlines of the
    leases that exist, and the IDs granted so far, which are not granted again. *)
Class EtcdLeaseLaw (E : Type) `{Etcd E} := {
  etcd_kvs : E -> gmap string KeyValue;
  etcd_rev : E -> Z;
  etcd_leases : E -> gmap Z Z;
  etcd_granted : E -> gset Z;
  grant_law ttl now e : let '(l, e') := etcd_Grant ttl now e in
    l <> 0 /\ (l ∉ etcd_granted e) /\ etcd_granted e' = ({[l]} ∪ etcd_granted e) /\ etcd_kvs e' = etcd_kvs e /\ etcd_rev e' = etcd_rev e /\
    exists d, now + ttl * 1000000000 <= d /\ etcd_leases e' = <[l := d]> (etcd_leases e);
  put_law key v l e : let '(x, e') := etcd_Put key v l e in
    match x with
    | None => e' = e
    | Some (prev, rev) =>
        is_Some (etcd_leases e !! l) /\ prev = etcd_kvs e !! key /\ etcd_rev e < rev /\ etcd_rev e' = rev /\
        etcd_kvs e' = <[key := {| kv_Value := v; kv_ModRevision := rev; kv_Lease := l |}]> (etcd_kvs e) /\
        etcd_leases e' = etcd_leases e /\ etcd_granted e' = etcd_granted e
    end;
  txn_law key expected v l e : let '(x, e') := etcd_Txn key expected v l e in
    match x with
    | None => e' = e
    | Some (false, _, _) => e' = e /\ revision_of (etcd_kvs e !! key) <> expected
    | Some (true, prev, rev) =>
        revision_of (etcd_kvs e !! key) = expected /\
        is_Some (etcd_leases e !! l) /\ prev = etcd_kvs e !! key /\ etcd_rev e < rev /\ etcd_rev e' = rev /\
        etcd_kvs e' = <[key := {| kv_Value := v; kv_ModRevision := rev; kv_Lease := l |}]> (etcd_kvs e) /\
        etcd_leases e' = etcd_leases e /\ etcd_granted e' = etcd_granted e
    end;
  get_law key e : (etcd_Get key e).1 = etcd_kvs e !! key;
  range_law prefix e : NoDup (etcd_Range prefix e).1.*1 /\ (etcd_Range prefix e).2 = etcd_rev e /\
    forall key kv, (key, kv) ∈ (etcd_Range prefix e).1 <-> HasPrefix key prefix = true /\ etcd_kvs e !! key = Some kv;
  revoke_law l e :
    etcd_kvs (etcd_Revoke l e) = filter (fun p => kv_Lease p.2 <> l) (etcd_kvs e) /\ etcd_rev e <= etcd_rev (etcd_Revoke l e) /\
    etcd_leases (etcd_Revoke l e) = (delete l (etcd_leases e)) /\ etcd_granted (etcd_Revoke l e) = etcd_granted e
}.

(** ** Programs *)

Inductive request : Type -> Type :=
| Grant (seconds : Z) : request Z
| Put (key : string) (value : list Z) (lease : Z) : request (option KeyValue * Z)
| Txn (key : string) (expected : Z) (value : list Z) (lease : Z) : request (bool * option KeyValue * Z)
| Get (key : string) : request (option KeyValue * Z)
| Range (prefix : string) : request (list (string * KeyValue) * Z)
| Revoke (lease : Z) : request ().

(** The answer is [None] when the request fails. *)
Inductive prog (A : Type) : Type :=
| Ret (a : A)
| Req {R} (r : request R) (k : option R -> prog A).
Arguments Ret {A}.
Arguments Req {A R}.

Fixpoint prog_bind {A B} (p : prog A) (f : A -> prog B) : prog B :=
  match p with Ret a => f a | Req r k => Req r (fun x => prog_bind (k x) f) end.

Declare Scope prog_scope.
Delimit Scope prog_scope with prog.
Notation "'let!' x := p 'in' q" := (prog_bind p (fun x => q)) (at level 10, x pattern, p at level 100, q at level 200) : prog_scope.

(** Sending a request, with its answer. *)
Definition send {R} (r : request R) : prog (option R) := Req r Ret.

Section Perform.
Context {E : Type} `{Etcd E}.

(** What the server does. *)
Definition perform {R} (r : request R) (now : Z) (e : E) : option R * E :=
  match r in request R return option R * E with
  | Grant seconds => let '(l, e) := etcd_Grant seconds now e in (Some l, e)
  | Put key value lease => etcd_Put key value lease e
  | Txn key expected value lease => etcd_Txn key expected value lease e
  | Get key => (Some (etcd_Get key e), e)
  | Range prefix => (Some (etcd_Range prefix e), e)
  | Revoke lease => (Some (), etcd_Revoke lease e)
  end.
End Perform.
