(* ===== verification/LeaseRegistry.v ===== *)
(** * The registry on a lease store ([pkg/registry/lease_store_registry.go], [etcd_registry.go])

    Several controllers keep their instances as keys of one etcd, each key bound to a
    lease that makes it disappear.  The operations of [LeaseStoreRegistry] are programs
    over the interface [leaseStore], those of [etcdLeaseStore] programs of requests.
    Times of the controllers ([seen]) and random epochs and tokens are arguments, as is
    [ctxErr], whether the context is done on entry. *)
From Stdlib Require Import Ascii String.
From S2P Require Import Prelude GoStd GoSort GoText GoUrl Status Registry EtcdLease.

#[local] Open Scope prog_scope.

(** ** [etcdLeaseStore] *)

Definition second : Z := 1000000000.

(** Go's division and remainder truncate; the argument is positive here. *)
Definition leaseTTLSeconds (ttl : Z) : Z :=
  if ttl <=? 0 then 1
  else
    let seconds := Z.quot ttl second in
    let seconds := if negb (Z.rem ttl second =? 0) then seconds + 1 else seconds in
    if seconds <=? 0 then 1 else seconds.

(** Errors of the revocation are ignored. *)
Definition revokeLease (id : Z) : prog () :=
  if id =? 0 then Ret () else let! _ := send (Revoke id) in Ret ().

Definition revokePreviousLease (prev : option KeyValue) (current : Z) : prog () :=
  match prev with
  | None => Ret ()
  | Some prev => if (kv_Lease prev =? 0) || (kv_Lease prev =? current) then Ret () else revokeLease (kv_Lease prev)
  end.

(** [None] is an error. *)
Definition etcd_store_Put (key : string) (value : list Z) (ttl : Z) : prog (option Z) :=
  let! lease := send (Grant (leaseTTLSeconds ttl)) in
  match lease with
  | None => Ret None
  | Some lease =>
      let! resp := send (Put key value lease) in
      match resp with
      | None => let! _ := revokeLease lease in Ret None
      | Some (prev, revision) => let! _ := revokePreviousLease prev lease in Ret (Some revision)
      end
  end.

(** [txnPutPrevKV] is in the answer of the transaction. *)
Definition etcd_store_Update (key : string) (value : list Z) (ttl expectedModRevision : Z) : prog (option (Z * bool)) :=
  let! lease := send (Grant (leaseTTLSeconds ttl)) in
  match lease with
  | None => Ret None
  | Some lease =>
      let! resp := send (Txn key expectedModRevision value lease) in
      match resp with
      | None => let! _ := revokeLease lease in Ret None
      | Some (false, _, revision) => let! _ := revokeLease lease in Ret (Some (revision, false))
      | Some (true, prev, revision) => let! _ := revokePreviousLease prev lease in Ret (Some (revision, true))
      end
  end.

Definition etcd_store_Get (key : string) : prog (option (option (list Z * Z))) :=
  let! resp := send (Get key) in
  Ret (match resp with
        | None => None
        | Some (None, _) => Some None
        | Some (Some kv, _) => Some (Some (kv_Value kv, kv_ModRevision kv))
        end).

Record leaseStoreKV := { ls_Key : string; ls_Value : list Z; ls_ModRevision : Z }.

Definition etcd_store_List (prefix : string) : prog (option (list leaseStoreKV * Z)) :=
  let! resp := send (Range prefix) in
  match resp with
  | None => Ret None
  | Some (kvs, revision) =>
      Ret (Some ((fun p : string * KeyValue =>
                     {| ls_Key := p.1; ls_Value := kv_Value p.2; ls_ModRevision := kv_ModRevision p.2 |}) <$> kvs, revision))
  end.

(** The interface of the registry to its store; [None] is an error. *)
Record leaseStore := {
  store_Put : string -> list Z -> Z -> prog (option Z);
  store_Update : string -> list Z -> Z -> Z -> prog (option (Z * bool));
  store_Get : string -> prog (option (option (list Z * Z)));
  store_List : string -> prog (option (list leaseStoreKV * Z))
}.

Definition etcdLeaseStore : leaseStore := {|
  store_Put := etcd_store_Put; store_Update := etcd_store_Update; store_Get := etcd_store_Get; store_List := etcd_store_List |}.

(** ** Records and keys *)

Record leaseStoreRecord := {
  r_ID : string; r_Service : string; r_Address : string; r_Status : string; r_Labels : option (gmap string string);
  r_LastSeenUnixNanos : Z; r_RegistrationEpoch : string; r_OwnerToken : string }.

(** [encoding/json] on the record; [None] is an error. *)
Class LeaseJson := { marshal_lease : leaseStoreRecord -> option (list Z); unmarshal_lease : list Z -> option leaseStoreRecord }.

(** [strings.Trim] with one byte. *)
Definition Trim (c : ascii) (s : string) : string := TrimRight c (of_chars (drop_byte c (to_chars s))).

Definition cleanLeaseStorePrefix (prefix : string) : string :=
  let prefix := TrimSpace prefix in
  if bool_decide (prefix = ""%string) then "/aegismesh/registry" else "/" ++ Trim "/" prefix.

Definition servicePrefix (prefix service : string) : string := prefix ++ ("/" ++ PathEscape service ++ "/").

Definition instanceKey (prefix service id : string) : string := servicePrefix prefix service ++ PathEscape id.

Section Registry.
Context `{LeaseJson}.

(** [Time.UnixNano] keeps 64 bits. *)
Definition lease_record (inst : Instance) : leaseStoreRecord := {|
  r_ID := ID inst; r_Service := Service inst; r_Address := Address inst; r_Status := Code_String (Status_ inst);
  r_Labels := Labels inst; r_LastSeenUnixNanos := wraps 64 (LastSeen inst);
  r_RegistrationEpoch := RegistrationEpoch inst; r_OwnerToken := OwnerToken inst |}.

Definition encodeLeaseStoreRecord (inst : Instance) : option (list Z) := marshal_lease (lease_record inst).

Definition decodeLeaseStoreRecord (raw : list Z) : option Instance :=
  r ← unmarshal_lease raw;
  let state := Parse (r_Status r) in
  Some {| ID := r_ID r; Service := r_Service r; Address := r_Address r;
          Status_ := if bool_decide (state = Unspecified) then Healthy else state; Labels := r_Labels r;
          LastSeen := time_Unix 0 (r_LastSeenUnixNanos r); RegistrationEpoch := r_RegistrationEpoch r;
          OwnerToken := r_OwnerToken r |}.

(** ** [LeaseStoreRegistry] *)

(** An error of the registry, or one of the store or of the encoding. *)
Inductive lease_error := LeaseErr (e : registry_error) | StoreErr.

Section Operations.
Context (store : leaseStore) (prefix : string).

Definition ls_Register (ctxErr : bool) (inst : Instance) (ttl seen : Z) (epoch token : string) : prog (option lease_error) :=
  if ctxErr then Ret (Some (LeaseErr ErrContext))
  else if bool_decide (ID inst = ""%string \/ Service inst = ""%string \/ Address inst = ""%string) || (ttl <=? 0)
  then Ret (Some (LeaseErr ErrInvalidInstance))
  else
    let inst := {| ID := ID inst; Service := Service inst; Address := Address inst;
      Status_ := if bool_decide (Status_ inst = Unspecified) then Healthy else Status_ inst; Labels := Labels inst;
      LastSeen := seen; RegistrationEpoch := epoch; OwnerToken := token |} in
    match encodeLeaseStoreRecord inst with
    | None => Ret (Some StoreErr)
    | Some value =>
        let! res := store_Put store (instanceKey prefix (Service inst) (ID inst)) value ttl in
        Ret (match res with None => Some StoreErr | Some _ => None end)
    end.

Definition with_seen (inst : Instance) (seen : Z) : Instance :=
  {| ID := ID inst; Service := Service inst; Address := Address inst; Status_ := Status_ inst; Labels := Labels inst;
     LastSeen := seen; RegistrationEpoch := RegistrationEpoch inst; OwnerToken := OwnerToken inst |}.

Definition ls_heartbeat (ctxErr : bool) (service id registrationEpoch ownerToken : string) (ttl seen : Z)
    (requireEpoch requireOwner : bool) : prog (option lease_error) :=
  if ctxErr then Ret (Some (LeaseErr ErrContext))
  else if bool_decide (service = ""%string \/ id = ""%string) || (ttl <=? 0) then Ret (Some (LeaseErr ErrInvalidInstance))
  else
    let key := instanceKey prefix service id in
    let! got := store_Get store key in
    match got with
    | None => Ret (Some StoreErr)
    | Some None => Ret (Some (LeaseErr ErrInstanceNotFound))
    | Some (Some (raw, modRevision)) =>
        match decodeLeaseStoreRecord raw with
        | None => Ret (Some StoreErr)
        | Some inst =>
            if requireEpoch && bool_decide (RegistrationEpoch inst <> registrationEpoch)
            then Ret (Some (LeaseErr ErrRegistrationEpochMismatch))
            else if requireOwner && bool_decide (OwnerToken inst <> ownerToken)
            then Ret (Some (LeaseErr ErrRegistrationEpochMismatch))
            else
              match encodeLeaseStoreRecord (with_seen inst seen) with
              | None => Ret (Some StoreErr)
              | Some value =>
                  let! res := store_Update store key value ttl modRevision in
                  Ret (match res with
                        | None => Some StoreErr
                        | Some (_, updated) => if updated then None else Some (LeaseErr ErrInstanceNotFound)
                        end)
              end
        end
    end.

Definition ls_Heartbeat (ctxErr : bool) (service id : string) (ttl seen : Z) : prog (option lease_error) :=
  ls_heartbeat ctxErr service id "" "" ttl seen false false.

Definition ls_HeartbeatWithEpoch (ctxErr : bool) (service id registrationEpoch : string) (ttl seen : Z) : prog (option lease_error) :=
  if bool_decide (registrationEpoch = ""%string) then Ret (Some (LeaseErr ErrInvalidInstance))
  else ls_heartbeat ctxErr service id registrationEpoch "" ttl seen true false.

Definition ls_HeartbeatWithOwner (ctxErr : bool) (service id registrationEpoch ownerToken : string) (ttl seen : Z)
  : prog (option lease_error) :=
  if bool_decide (registrationEpoch = ""%string \/ ownerToken = ""%string) then Ret (Some (LeaseErr ErrInvalidInstance))
  else ls_heartbeat ctxErr service id registrationEpoch ownerToken ttl seen true true.

(** The instances of a service and the highest revision of one. *)
Definition collect (service : string) (acc : list Instance * Z) (kv : leaseStoreKV) : option (list Instance * Z) :=
  inst ← decodeLeaseStoreRecord (ls_Value kv);
  Some (if bool_decide (Service inst = service)
        then (acc.1 ++ [inst], if acc.2 <? ls_ModRevision kv then ls_ModRevision kv else acc.2) else acc).

Fixpoint collect_all (service : string) (acc : list Instance * Z) (kvs : list leaseStoreKV) : option (list Instance * Z) :=
  match kvs with
  | [] => Some acc
  | kv :: kvs => acc ← collect service acc kv; collect_all service acc kvs
  end.

(** The snapshot has no deadline: [nextExpiresAt] is not set. *)
Definition ls_Snapshot (ctxErr : bool) (service : string) : prog (lease_error + InstanceSnapshot) :=
  if ctxErr then Ret (inl (LeaseErr ErrContext))
  else if bool_decide (service = ""%string) then Ret (inl (LeaseErr ErrInvalidInstance))
  else
    let! got := store_List store (servicePrefix prefix service) in
    Ret (match got with
          | None => inl StoreErr
          | Some (kvs, revision) =>
              match collect_all service ([], 0) kvs with
              | None => inl StoreErr
              | Some (instances, serviceVersion) =>
                  let serviceVersion := if (serviceVersion =? 0) && (0 <? revision) then revision else serviceVersion in
                  inr {| snap_Service := service; Version := serviceVersion;
                         Instances := Slice (by_keys (fun i => [ID i])) instances; nextExpiresAt := zero_time |}
              end
          end).

Definition ls_List (ctxErr : bool) (service : string) : prog (lease_error + list Instance) :=
  let! snapshot := ls_Snapshot ctxErr service in
  Ret (match snapshot with inl e => inl e | inr snapshot => inr (Instances snapshot) end).
End Operations.
End Registry.

(** ** Watching *)

Definition with_version (s : InstanceSnapshot) (v : Z) : InstanceSnapshot :=
  {| snap_Service := snap_Service s; Version := v; Instances := Instances s; nextExpiresAt := nextExpiresAt s |}.

(** The beginning of the goroutine [watch]: what it sends first, if anything, and the version sent last. *)
Definition ls_watch_start (afterVersion : Z) (initial : InstanceSnapshot) : option InstanceSnapshot * Z :=
  if afterVersion <? Version initial then (Some initial, Version initial) else (None, afterVersion).

(** One revision from the store, [snapshot] being what the registry then reads. *)
Definition ls_watch_turn (lastSentVersion revision : Z) (snapshot : InstanceSnapshot) : option InstanceSnapshot * Z :=
  if negb (revision =? 0) && (revision <=? lastSentVersion) then (None, lastSentVersion)
  else
    let snapshot := if Version snapshot <? revision then with_version snapshot revision else snapshot in
    if Version snapshot <=? lastSentVersion then (None, lastSentVersion) else (Some snapshot, Version snapshot).

Fixpoint ls_watch_turns (lastSentVersion : Z) (xs : list (Z * InstanceSnapshot)) : list InstanceSnapshot :=
  match xs with
  | [] => []
  | (revision, snapshot) :: xs =>
      let '(sent, last) := ls_watch_turn lastSentVersion revision snapshot in option_list sent ++ ls_watch_turns last xs
  end.
