(* ===== verification/LeaseSystem.v ===== *)
(** * Controllers that share a registry

    Calls of several controllers run interleaved, request by request, against one etcd,
    while leases run out.  [contract] is what each call does to the table of leases,
    the one of [RegistrySpec]: it takes effect at one of its requests, or not at all. *)
From Stdlib Require Import Ascii String.
From stdpp Require Import sorting.
From S2P Require Import Prelude GoStd GoSort GoText GoUrl GoHeap Status Registry RegistrySpec FileRecovery EtcdLease LeaseRegistry.

#[local] Open Scope prog_scope.

(** ** What [encoding/json] promises *)

(** The text is valid UTF-8 and the time fits 64 bits. *)
Definition lease_safe (inst : Instance) : Prop := text_safe inst /\ is_s 64 (LastSeen inst).

(** Empty labels are omitted and read back as nil. *)
Definition omit_labels (labels : option (gmap string string)) : option (gmap string string) :=
  if decide (labels = Some ∅) then None else labels.

Definition omit_record (r : leaseStoreRecord) : leaseStoreRecord := {|
  r_ID := r_ID r; r_Service := r_Service r; r_Address := r_Address r; r_Status := r_Status r; r_Labels := omit_labels (r_Labels r);
  r_LastSeenUnixNanos := r_LastSeenUnixNanos r; r_RegistrationEpoch := r_RegistrationEpoch r; r_OwnerToken := r_OwnerToken r |}.

Class LeaseJsonLaw `{LeaseJson} : Prop :=
  lease_roundtrip inst : lease_safe inst ->
    exists raw, marshal_lease (lease_record inst) = Some raw /\ unmarshal_lease raw = Some (omit_record (lease_record inst)).

(** ** Calls and their interleaving *)

Inductive call :=
| CRegister (ctxErr : bool) (inst : Instance) (ttl seen : Z) (epoch token : string)
| CHeartbeat (ctxErr : bool) (service id epoch token : string) (ttl seen : Z) (requireEpoch requireOwner : bool)
| CSnapshot (ctxErr : bool) (service : string).

Inductive answer := Replied (e : option lease_error) | Listed (x : lease_error + InstanceSnapshot).

(** A request that was carried out or not: when, and the store before and after. *)
Record moment (E : Type) := { m_time : Z; m_before : E; m_after : E }.
Arguments m_time {E}.
Arguments m_before {E}.
Arguments m_after {E}.
Arguments Build_moment {E}.

Section System.
Context {E : Type} `{EtcdLeaseLaw E} `{LeaseJson} (prefix : string).

Definition program (c : call) : prog answer :=
  match c with
  | CRegister ctxErr inst ttl seen epoch token =>
      let! x := ls_Register etcdLeaseStore prefix ctxErr inst ttl seen epoch token in Ret (Replied x)
  | CHeartbeat ctxErr service id epoch token ttl seen re ro =>
      let! x := ls_heartbeat etcdLeaseStore prefix ctxErr service id epoch token ttl seen re ro in Ret (Replied x)
  | CSnapshot ctxErr service =>
      let! x := ls_Snapshot etcdLeaseStore prefix ctxErr service in Ret (Listed x)
  end.

(** What the callers provide: text that is valid, as gRPC's strings are, and clock
    readings within 64 bits of nanoseconds. *)
Definition call_safe (c : call) : Prop :=
  match c with
  | CRegister _ inst _ seen epoch token =>
      text_safe inst /\ is_s 64 seen /\ ValidString epoch = true /\ ValidString token = true
  | CHeartbeat _ _ _ _ _ _ seen _ _ => is_s 64 seen
  | CSnapshot _ _ => True
  end.

(** A call under way: what it has done, and the rest of it. *)
Record thread := { t_call : call; t_history : list (moment E); t_rest : prog answer }.

Record system := { store : E; clock : Z; calls : gmap nat thread }.

(** The answer, an error of a request not carried out, or of one that was. *)
Definition seen_as {R} (r : request R) (now : Z) (e : E) (ans : option R) (e' : E) : Prop :=
  let '(x, e1) := perform r now e in (ans = x /\ e' = e1) \/ (ans = None /\ e' = e) \/ (ans = None /\ e' = e1).

Inductive sys_step (s : system) : system -> Prop :=
| begin_call n c : calls s !! n = None -> call_safe c ->
    sys_step s {| store := store s; clock := clock s;
                  calls := <[n := {| t_call := c; t_history := []; t_rest := program c |}]> (calls s) |}
| do_request n th R (r : request R) k ans e' :
    calls s !! n = Some th -> t_rest th = Req r k -> seen_as r (clock s) (store s) ans e' ->
    sys_step s {| store := e'; clock := clock s;
                  calls := <[n := {| t_call := t_call th;
                                     t_history := t_history th ++ [Build_moment (clock s) (store s) e'];
                                     t_rest := k ans |}]> (calls s) |}
| lease_ends l d : etcd_leases (store s) !! l = Some d -> d <= clock s ->
    sys_step s {| store := etcd_Revoke l (store s); clock := clock s; calls := calls s |}
| time_passes now : clock s <= now -> sys_step s {| store := store s; clock := now; calls := calls s |}.

(** The answer of a call that has ended. *)
Definition reply (th : thread) : option answer := match t_rest th with Ret a => Some a | Req _ _ => None end.

(** ** The table of leases *)

Definition entry (e : E) (kv : KeyValue) : option ((string * string) * lease) :=
  inst ← decodeLeaseStoreRecord (kv_Value kv);
  d ← etcd_leases e !! kv_Lease kv;
  Some ((Service inst, ID inst), {| l_instance := inst; l_expires := d |}).

Definition leases_of (e : E) : gmap (string * string) lease :=
  list_to_map (omap (fun p => entry e p.2) (map_to_list (etcd_kvs e))).

(** What a listing shows: the leases of the service, ascending by ID. *)
Definition shows (L : gmap (string * string) lease) (service : string) (insts : list Instance) : Prop :=
  StronglySorted (fun i j => String.ltb (ID i) (ID j) = true) insts /\
  forall inst, inst ∈ insts <-> exists id l, L !! (service, id) = Some l /\ inst = l_instance l.

(** ** The contract *)

Definition quiet (h : list (moment E)) : Prop := Forall (fun m => leases_of (m_after m) = leases_of (m_before m)) h.

(** At [m] the call wrote a lease for [key] that lasts at least [ttl] from its first request on. *)
Definition writes (h : list (moment E)) (m : moment E) (key : string * string) (ttl : Z) (inst : Instance) (l : lease) : Prop :=
  leases_of (m_after m) = <[key := l]> (leases_of (m_before m)) /\ l_instance l = inst /\
  forall m0, head h = Some m0 -> m_time m0 + ttl <= l_expires l.

(** One write and nothing else. *)
Definition wrote (h : list (moment E)) (key : string * string) (ttl : Z) (P : moment E -> Instance -> Prop) : Prop :=
  exists a m b inst l, h = a ++ m :: b /\ quiet a /\ quiet b /\ P m inst /\ writes h m key ttl inst l.

(** One write, and after it the removal of what it wrote. *)
Definition undone (h : list (moment E)) (key : string * string) (ttl : Z) (P : moment E -> Instance -> Prop) : Prop :=
  exists a m b x c inst l, h = a ++ m :: b ++ x :: c /\ quiet a /\ quiet b /\ quiet c /\ P m inst /\ writes h m key ttl inst l /\
    leases_of (m_before x) !! key = Some l /\ leases_of (m_after x) = delete key (leases_of (m_before x)).

(** A call that has not ended, or ended with an error of the store, may have done any of these. *)
Definition unsure (h : list (moment E)) (key : string * string) (ttl : Z) (P : moment E -> Instance -> Prop) : Prop :=
  quiet h \/ wrote h key ttl P \/ undone h key ttl P.

(** What a registration and a heartbeat write. *)
Definition registers (inst : Instance) (seen : Z) (epoch token : string) (_ : moment E) (i : Instance) : Prop :=
  i = registered {| ID := ID inst; Service := Service inst; Address := Address inst; Status_ := Status_ inst;
                    Labels := omit_labels (Labels inst); LastSeen := LastSeen inst;
                    RegistrationEpoch := RegistrationEpoch inst; OwnerToken := OwnerToken inst |} epoch token seen.

Definition renews (service id epoch token : string) (seen : Z) (re ro : bool) (m : moment E) (i : Instance) : Prop :=
  exists l, leases_of (m_before m) !! (service, id) = Some l /\ fence re ro epoch token (l_instance l) /\ i = renewed (l_instance l) seen.

Definition contract (c : call) (h : list (moment E)) (a : option answer) : Prop :=
  match c, a with
  | CRegister ctxErr inst ttl seen epoch token, Some (Replied None) =>
      ctxErr = false /\ complete inst /\ 0 < ttl /\ wrote h (Service inst, ID inst) ttl (registers inst seen epoch token)
  | CRegister ctxErr inst ttl _ _ _, Some (Replied (Some (LeaseErr _))) => h = [] /\ ~ (ctxErr = false /\ complete inst /\ 0 < ttl)
  | CRegister _ inst ttl seen epoch token, (None | Some (Replied (Some StoreErr))) =>
      unsure h (Service inst, ID inst) ttl (registers inst seen epoch token)
  | CHeartbeat _ service id epoch token ttl seen re ro, Some (Replied None) =>
      wrote h (service, id) ttl (renews service id epoch token seen re ro)
  | CHeartbeat _ service id epoch token _ _ re ro, Some (Replied (Some (LeaseErr ErrRegistrationEpochMismatch))) =>
      exists m l, h = [m] /\ m_after m = m_before m /\ leases_of (m_before m) !! (service, id) = Some l /\
        ~ fence re ro epoch token (l_instance l)
  | CHeartbeat _ _ _ _ _ _ _ _ _, Some (Replied (Some (LeaseErr ErrInstanceNotFound))) => quiet h
  | CHeartbeat ctxErr service id _ _ ttl _ _ _, Some (Replied (Some (LeaseErr _))) =>
      h = [] /\ ~ (ctxErr = false /\ service <> ""%string /\ id <> ""%string /\ 0 < ttl)
  | CHeartbeat _ service id epoch token ttl seen re ro, (None | Some (Replied (Some StoreErr))) =>
      unsure h (service, id) ttl (renews service id epoch token seen re ro)
  | CSnapshot _ service, Some (Listed (inr snap)) =>
      exists m, h = [m] /\ m_after m = m_before m /\ snap_Service snap = service /\
        shows (leases_of (m_before m)) service (Instances snap)
  | CSnapshot _ _, (None | Some (Listed (inl _))) => quiet h
  | _, _ => False
  end.
End System.
