(* ===== verification/LeaseSpec.v ===== *)
(** * The shared registry keeps its contract

    Keys tell instances apart; each lease is bound to one key, once; a program is
    followed through its requests with what it knows of the store, which no other
    program can invalidate. *)
From Stdlib Require Import Ascii String.
From stdpp Require Import sorting.
From S2P Require Import Prelude GoStd GoSort GoText GoUrl GoHeap Status Registry RegistrySpec FileRecovery EtcdLease LeaseRegistry LeaseSystem.

#[local] Open Scope prog_scope.

(** ** Keys *)

Lemma split_at_slash (c : ascii) (a b x y : list ascii) : c ∉ a -> c ∉ b -> a ++ c :: x = b ++ c :: y -> a = b /\ x = y.
Proof.
  revert b. induction a as [|h a IH]; intros [|h' b] Ha Hb Heq; cbn in Heq; simplify_eq; [done|set_solver..|].
  destruct (IH b) as [-> ->]; set_solver.
Qed.

Section Keys.
Context (prefix : string).

(** A key is below the prefix of its own service only. *)
Lemma key_below s s' id : HasPrefix (instanceKey prefix s id) (servicePrefix prefix s') = true <-> s = s'.
Proof.
  rewrite HasPrefix_spec. unfold instanceKey, servicePrefix. split; [|intros <-; by eexists].
  intros [t Ht]. rewrite !string_app_assoc in Ht. apply string_app_cancel in Ht. injection Ht as Ht.
  apply (f_equal to_chars) in Ht. rewrite !to_chars_app in Ht. cbn in Ht.
  apply split_at_slash in Ht as [Ht _]; [|apply PathEscape_no_slash..]. by apply to_chars_inj, PathEscape_inj in Ht.
Qed.

Lemma instanceKey_inj s id s' id' : instanceKey prefix s id = instanceKey prefix s' id' -> s = s' /\ id = id'.
Proof.
  intros Hk. assert (s = s') as <-.
  { apply (key_below s s' id). rewrite Hk. by apply key_below. }
  split; [done|]. unfold instanceKey in Hk. by apply string_app_cancel, PathEscape_inj in Hk.
Qed.
End Keys.

(** The versions a watch sends only grow. *)
Lemma watch_versions_grow last xs : StronglySorted Z.lt (last :: (Version <$> ls_watch_turns last xs)).
Proof.
  revert last. induction xs as [|[revision snap] xs IH]; intros last; [repeat constructor|]. cbn [ls_watch_turns].
  assert (Ht : match ls_watch_turn last revision snap with (Some x, l) => last < Version x /\ l = Version x | (None, l) => l = last end).
  { unfold ls_watch_turn. destruct (negb _ && _); [done|]. set (snap' := if Version snap <? revision then _ else _).
    by destruct (Z.leb_spec (Version snap') last). }
  destruct (ls_watch_turn last revision snap) as [[x|] l]; [destruct Ht as [Hlt ->]|subst l]; cbn; [|apply IH].
  specialize (IH (Version x)). constructor; [done|]. constructor; [done|]. apply StronglySorted_inv in IH as [_ IH].
  eapply Forall_impl; [exact IH|]. cbn. lia.
Qed.

Lemma leaseTTLSeconds_bounds ttl : 0 < ttl -> ttl <= leaseTTLSeconds ttl * second < ttl + second.
Proof.
  intros Ht. unfold leaseTTLSeconds, second. destruct (Z.leb_spec ttl 0); [lia|].
  rewrite Z.quot_div_nonneg, Z.rem_mod_nonneg by lia.
  pose proof (Z.div_mod ttl 1000000000 ltac:(lia)). pose proof (Z.mod_pos_bound ttl 1000000000 ltac:(lia)).
  pose proof (Z.div_pos ttl 1000000000 ltac:(lia) ltac:(lia)).
  destruct (Z.eqb_spec (ttl `mod` 1000000000) 0); cbn [negb]; case_test; lia.
Qed.

Section Contract.
Context {E : Type} `{EtcdLeaseLaw E} `{LeaseJsonLaw} (prefix : string).

(** ** Records *)

(** An instance as it is read back. *)
Record row_ok (inst : Instance) : Prop := {
  row_safe : lease_safe inst;
  row_labels : Labels inst <> Some ∅;
  row_status : Status_ inst <> Unspecified
}.

Definition stored_as (inst : Instance) : Instance :=
  {| ID := ID inst; Service := Service inst; Address := Address inst; Status_ := Normalized (Status_ inst);
     Labels := omit_labels (Labels inst); LastSeen := LastSeen inst; RegistrationEpoch := RegistrationEpoch inst;
     OwnerToken := OwnerToken inst |}.

Lemma encode_decodes inst : lease_safe inst ->
  exists raw, encodeLeaseStoreRecord inst = Some raw /\ decodeLeaseStoreRecord raw = Some (stored_as inst).
Proof.
  intros Hs. destruct (lease_roundtrip inst Hs) as (raw & Hm & Hu). exists raw. split; [done|].
  unfold decodeLeaseStoreRecord. rewrite Hu. cbn. rewrite Parse_String, default_status, wraps_small by first [lia|apply Hs].
  unfold stored_as, time_Unix. destruct inst as [? ? ? st]. cbn. by destruct st.
Qed.

Lemma stored_as_ok inst : lease_safe inst -> row_ok (stored_as inst).
Proof.
  intros [(? & ? & ? & ? & ? & ?) Ht]. split.
  - split; [|done]. unfold text_safe. cbn. unfold omit_labels. by destruct (decide _).
  - cbn. unfold omit_labels. destruct (decide _); [done|congruence].
  - cbn. by destruct (Status_ inst).
Qed.

Lemma stored_as_id inst : row_ok inst -> stored_as inst = inst.
Proof.
  intros [_ Hl Hs]. unfold stored_as, omit_labels. destruct inst as [? ? ? st lb]. cbn in *. destruct (decide (lb = Some ∅)); [done|].
  by destruct st.
Qed.

Lemma renewed_ok inst seen : row_ok inst -> is_s 64 seen -> row_ok (renewed inst seen).
Proof. intros [[Hs Ht] Hl Hst] Hseen. by split; [split| |]. Qed.

(** ** The store *)

Record store_ok (e : E) (spent : gset Z) : Prop := {
  ok_rows key kv : etcd_kvs e !! key = Some kv -> exists inst,
    decodeLeaseStoreRecord (kv_Value kv) = Some inst /\ key = instanceKey prefix (Service inst) (ID inst) /\ row_ok inst;
  ok_revs key kv : etcd_kvs e !! key = Some kv -> 0 < kv_ModRevision kv <= etcd_rev e;
  ok_bound key kv : etcd_kvs e !! key = Some kv -> is_Some (etcd_leases e !! kv_Lease kv) /\ kv_Lease kv ∈ spent;
  ok_once k1 k2 kv1 kv2 : etcd_kvs e !! k1 = Some kv1 -> etcd_kvs e !! k2 = Some kv2 -> kv_Lease kv1 = kv_Lease kv2 -> k1 = k2;
  ok_spent : spent ⊆ etcd_granted e;
  ok_exist l d : etcd_leases e !! l = Some d -> l ∈ etcd_granted e;
  ok_zero : 0 <= etcd_rev e
}.

Lemma entry_spec e spent key kv : store_ok e spent -> etcd_kvs e !! key = Some kv ->
  exists inst d, decodeLeaseStoreRecord (kv_Value kv) = Some inst /\ etcd_leases e !! kv_Lease kv = Some d /\
    key = instanceKey prefix (Service inst) (ID inst) /\ row_ok inst /\
    entry e kv = Some ((Service inst, ID inst), {| l_instance := inst; l_expires := d |}).
Proof.
  intros Hok Hk. destruct (ok_rows _ _ Hok _ _ Hk) as (inst & Hd & Hkey & Hrow).
  destruct (ok_bound _ _ Hok _ _ Hk) as [[d Hl] _]. exists inst, d. do 4 (split; [done|]). unfold entry. rewrite Hd. cbn. by rewrite Hl.
Qed.

Lemma leases_lookup e spent s id l : store_ok e spent ->
  leases_of e !! (s, id) = Some l <-> exists kv, etcd_kvs e !! instanceKey prefix s id = Some kv /\ entry e kv = Some ((s, id), l).
Proof.
  intros Hok. unfold leases_of. split.
  - intros ([key kv] & Hin%elem_of_map_to_list & He)%elem_of_list_to_map_2%list_elem_of_omap. cbn in He. exists kv. split; [|done].
    destruct (entry_spec _ _ _ _ Hok Hin) as (inst & d & _ & _ & -> & _ & He'). rewrite He in He'. by simplify_eq.
  - intros (kv & Hk & He). apply elem_of_list_to_map_1'.
    + intros l' ([key' kv'] & Hin%elem_of_map_to_list & He')%list_elem_of_omap. cbn in He'.
      destruct (entry_spec _ _ _ _ Hok Hin) as (inst & d & _ & _ & Hkey & _ & He2). rewrite He' in He2. simplify_eq. congruence.
    + apply list_elem_of_omap. exists (instanceKey prefix s id, kv). split; [by apply elem_of_map_to_list|done].
Qed.

(** What the row of an instance is. *)
Lemma leases_row e spent inst : store_ok e spent ->
  leases_of e !! (Service inst, ID inst) = (kv ← etcd_kvs e !! instanceKey prefix (Service inst) (ID inst); snd <$> entry e kv).
Proof.
  intros Hok. apply option_eq. intros l. rewrite (leases_lookup _ _ _ _ _ Hok). split.
  - intros (kv & -> & He). cbn. by rewrite He.
  - destruct (etcd_kvs e !! _) as [kv|] eqn:Hk; [|done]. cbn. destruct (entry_spec _ _ _ _ Hok Hk) as (i & d & _ & _ & Hkey & _ & He).
    rewrite He. cbn. intros [= <-]. exists kv. split; [done|]. apply instanceKey_inj in Hkey as [-> ->]. done.
Qed.

Definition detached (e : E) (l : Z) : Prop := forall key kv, etcd_kvs e !! key = Some kv -> kv_Lease kv <> l.

(** What a program may rely on, [V] being the leases granted to it and not used yet. *)
Record moves (V : gset Z) (e : E) (spent : gset Z) (e' : E) (spent' : gset Z) : Prop := {
  mv_spent : spent ⊆ spent';
  mv_mine l : l ∈ V -> l ∈ spent' -> l ∈ spent;
  mv_granted : etcd_granted e ⊆ etcd_granted e';
  mv_rev : etcd_rev e <= etcd_rev e';
  mv_leases l d : l ∈ etcd_granted e -> etcd_leases e' !! l = Some d -> etcd_leases e !! l = Some d;
  mv_kvs key kv : etcd_kvs e' !! key = Some kv ->
    etcd_kvs e !! key = Some kv \/ (etcd_rev e < kv_ModRevision kv /\ kv_Lease kv ∉ spent)
}.

(** What a step of a program with the unused leases [U] guarantees. *)
Record fair (e : E) (spent U : gset Z) (e' : E) (spent' U' : gset Z) : Prop := {
  fair_ok : store_ok e' spent';
  fair_moves V : V ## U -> V ⊆ etcd_granted e -> moves V e spent e' spent';
  fair_fresh l : l ∈ U' -> l ∈ U \/ (l ∉ etcd_granted e);
  fair_granted : U' ⊆ etcd_granted e';
  fair_unspent : U' ## spent'
}.

Section Transitions.
Context (e : E) (spent U : gset Z) (Hok : store_ok e spent) (HU : U ⊆ etcd_granted e) (Hdis : U ## spent).

Lemma fair_refl : fair e spent U e spent U.
Proof. split; try done; [|by left]. intros V _ _. split; try done. by left. Qed.

Lemma leases_same e' spent' : store_ok e' spent' -> etcd_kvs e' = etcd_kvs e ->
  (forall l, l ∈ spent -> etcd_leases e' !! l = etcd_leases e !! l) -> leases_of e' = leases_of e.
Proof.
  intros Hok' Hk Hl. apply map_eq. intros [s id]. apply option_eq. intros x.
  rewrite (leases_lookup _ _ _ _ _ Hok), (leases_lookup _ _ _ _ _ Hok'), Hk. apply exist_proper. intros kv.
  split; intros [Hkv He]; (split; [done|]); revert He; unfold entry; by rewrite (Hl (kv_Lease kv)) by by eapply (ok_bound _ _ Hok).
Qed.

Lemma grant_fair ttl now l e' : etcd_Grant ttl now e = (l, e') ->
  fair e spent U e' spent ({[l]} ∪ U) /\ leases_of e' = leases_of e /\
  forall d, etcd_leases e' !! l = Some d -> now + ttl * second <= d.
Proof.
  intros Hg. pose proof (grant_law ttl now e) as Hlaw. rewrite Hg in Hlaw. destruct Hlaw as (_ & Hnew & Hgr & Hkv & Hrev & d & Hd & Hle).
  assert (Hok' : store_ok e' spent).
  { destruct Hok as [R1 R2 R3 R4 R5 R6 R7]. split; rewrite ?Hkv, ?Hrev, ?Hgr, ?Hle; try done; [|set_solver|].
    - intros key kv Hk. destruct (R3 key kv Hk) as [Hs Hsp]. split; [|done]. destruct (decide (kv_Lease kv = l)) as [->|Hne].
      + by rewrite lookup_insert_eq.
      + by rewrite lookup_insert_ne.
    - intros l' d'. destruct (decide (l = l')) as [<-|Hne]; [set_solver|]. rewrite lookup_insert_ne by done. intros ?%R6. set_solver. }
  split; [|split].
  - split; [done| |set_solver|rewrite Hgr; set_solver|].
    + intros V HV HVg. split; try done; rewrite ?Hgr, ?Hrev, ?Hle, ?Hkv; [set_solver|done| |by left].
      intros l' d' Hl'. by rewrite lookup_insert_ne by set_solver.
    + pose proof (ok_spent _ _ Hok). set_solver.
  - apply (leases_same e' spent Hok' Hkv). intros l' Hl'. rewrite Hle. apply lookup_insert_ne. pose proof (ok_spent _ _ Hok). set_solver.
  - intros d' Hd'. rewrite Hle, lookup_insert_eq in Hd'. injection Hd' as <-. exact Hd.
Qed.

Lemma write_fair e' inst value rev l d :
  l ∈ U -> etcd_leases e !! l = Some d -> decodeLeaseStoreRecord value = Some inst -> row_ok inst -> etcd_rev e < rev ->
  etcd_rev e' = rev -> etcd_leases e' = etcd_leases e -> etcd_granted e' = etcd_granted e ->
  etcd_kvs e' = <[instanceKey prefix (Service inst) (ID inst) := {| kv_Value := value; kv_ModRevision := rev; kv_Lease := l |}]> (etcd_kvs e) ->
  fair e spent U e' ({[l]} ∪ spent) (U ∖ {[l]}) /\
  leases_of e' = <[(Service inst, ID inst) := {| l_instance := inst; l_expires := d |}]> (leases_of e).
Proof.
  intros Hl Hd Hdec Hrow Hlt Hrev Hle Hgr Hkv. set (key := instanceKey prefix (Service inst) (ID inst)) in *.
  set (kv := {| kv_Value := value; kv_ModRevision := rev; kv_Lease := l |}) in *.
  assert (Hlook : forall k x, etcd_kvs e' !! k = Some x -> (k = key /\ x = kv) \/ (k <> key /\ etcd_kvs e !! k = Some x)).
  { intros k x. rewrite Hkv. destruct (decide (k = key)) as [->|Hne].
    - rewrite lookup_insert_eq. intros [= <-]. by left.
    - rewrite lookup_insert_ne by done. by right. }
  assert (Hok' : store_ok e' ({[l]} ∪ spent)).
  { destruct Hok as [R1 R2 R3 R4 R5 R6 R7]. split; rewrite ?Hrev, ?Hle, ?Hgr; [| | | |set_solver|done|lia].
    - intros k x [[-> ->]|[_ Hx]]%Hlook; [by exists inst|by apply R1].
    - intros k x [[-> ->]|[_ Hx]]%Hlook; [cbn; lia|]. specialize (R2 k x Hx). lia.
    - intros k x [[-> ->]|[_ Hx]]%Hlook; [cbn; rewrite Hd; set_solver|]. destruct (R3 k x Hx). set_solver.
    - intros k1 k2 x1 x2 [[-> ->]|[N1 Hx1]]%Hlook [[-> ->]|[N2 Hx2]]%Hlook; cbn; intros Heq; [done| | |by eapply R4].
      + destruct (R3 k2 x2 Hx2). set_solver.
      + destruct (R3 k1 x1 Hx1). set_solver. }
  split.
  - split; [done| |set_solver|rewrite Hgr; set_solver|set_solver].
    intros V HV HVg. split; rewrite ?Hrev, ?Hle, ?Hgr; [set_solver|set_solver|done|lia|done|].
    intros k x [[-> ->]|[_ Hx]]%Hlook; [right; cbn; split; [lia|set_solver]|by left].
  - assert (He : forall x, entry e' x = entry e x) by (intros x; unfold entry; by rewrite Hle).
    apply map_eq. intros [s id]. apply option_eq. intros x. rewrite (leases_lookup _ _ _ _ _ Hok').
    destruct (decide ((s, id) = (Service inst, ID inst))) as [Heq|Hne].
    + rewrite Heq, lookup_insert_eq. simplify_eq. fold key. rewrite Hkv, lookup_insert_eq.
      assert (Hent : entry e' kv = Some ((Service inst, ID inst), {| l_instance := inst; l_expires := d |})).
      { rewrite He. unfold entry, kv. cbn. rewrite Hdec. cbn. by rewrite Hd. }
      split; [intros (kv' & [= <-] & Hx); rewrite Hent in Hx; congruence|intros [= <-]; by exists kv].
    + rewrite lookup_insert_ne, (leases_lookup _ _ _ _ _ Hok) by done. apply exist_proper. intros kv'.
      rewrite Hkv, lookup_insert_ne, He; [done|]. intros Hk. apply instanceKey_inj in Hk as [<- <-]. done.
Qed.

Lemma revoke_fair l : fair e spent U (etcd_Revoke l e) spent U.
Proof.
  destruct (revoke_law l e) as (Hkv & Hrev & Hle & Hgr). set (e' := etcd_Revoke l e) in *.
  assert (Hlook : forall k x, etcd_kvs e' !! k = Some x -> etcd_kvs e !! k = Some x /\ kv_Lease x <> l).
  { intros k x. rewrite Hkv, map_lookup_filter_Some. done. }
  split; [|intros V HV HVg|by left|by rewrite Hgr|done].
  - destruct Hok as [R1 R2 R3 R4 R5 R6 R7]. split; rewrite ?Hgr; [| | | |done| |lia].
    + intros k x [Hx _]%Hlook. by apply (R1 k).
    + intros k x [Hx _]%Hlook. specialize (R2 k x Hx). lia.
    + intros k x [Hx Hne]%Hlook. destruct (R3 k x Hx). by rewrite Hle, lookup_delete_ne.
    + intros k1 k2 x1 x2 [Hx1 _]%Hlook [Hx2 _]%Hlook. by apply R4.
    + intros l' d. rewrite Hle. intros [_ Hd]%lookup_delete_Some. by eapply R6.
  - split; rewrite ?Hgr, ?Hle; [done|done|done|done| |].
    + intros l' d _ [_ Hd]%lookup_delete_Some. done.
    + intros k x [Hx _]%Hlook. by left.
Qed.

Lemma revoke_rows l s id x :
  leases_of (etcd_Revoke l e) !! (s, id) = Some x <->
  exists kv, etcd_kvs e !! instanceKey prefix s id = Some kv /\ kv_Lease kv <> l /\ entry e kv = Some ((s, id), x).
Proof.
  rewrite (leases_lookup _ _ _ _ _ (fair_ok _ _ _ _ _ _ (revoke_fair l))).
  destruct (revoke_law l e) as (Hkv & _ & Hle & _). apply exist_proper. intros kv. rewrite Hkv, map_lookup_filter_Some. cbn.
  assert (Hent : kv_Lease kv <> l -> entry (etcd_Revoke l e) kv = entry e kv).
  { intros Hne. unfold entry. by rewrite Hle, lookup_delete_ne. }
  split; [intros [[Hk Hne] He]|intros (Hk & Hne & He)]; rewrite Hent in *; done.
Qed.

Lemma revoke_detached l : detached e l -> leases_of (etcd_Revoke l e) = leases_of e.
Proof.
  intros Hdet. apply map_eq. intros [s id]. apply option_eq. intros x.
  rewrite (revoke_rows l s id x), (leases_lookup _ _ _ _ _ Hok). apply exist_proper. intros kv.
  split; [by intros (? & _ & ?)|]. intros [Hk He]. split; [done|]. split; [by eapply Hdet|done].
Qed.

Lemma revoke_attached l s id kv x :
  etcd_kvs e !! instanceKey prefix s id = Some kv -> kv_Lease kv = l -> entry e kv = Some ((s, id), x) ->
  leases_of e !! (s, id) = Some x /\ leases_of (etcd_Revoke l e) = delete (s, id) (leases_of e).
Proof.
  intros Hk Hkl He. split; [apply (leases_lookup _ _ _ _ _ Hok); eauto|].
  apply map_eq. intros [s' id']. apply option_eq. intros y. rewrite (revoke_rows l s' id' y), lookup_delete_Some, (leases_lookup _ _ _ _ _ Hok).
  split.
  - intros (kv' & Hk' & Hne & He'). split; [|eauto]. intros [= <- <-]. congruence.
  - intros [Hne (kv' & Hk' & He')]. exists kv'. split; [done|]. split; [|done]. intros Hkl'. apply Hne.
    assert (Hkeq : instanceKey prefix s id = instanceKey prefix s' id') by (eapply (ok_once _ _ Hok); [done|done|congruence]).
    by apply instanceKey_inj in Hkeq as [-> ->].
Qed.

(** A lease that runs out takes at most the row it is bound to. *)
Lemma revoke_cases l :
  (detached e l /\ leases_of (etcd_Revoke l e) = leases_of e) \/
  exists kv key x, etcd_kvs e !! instanceKey prefix key.1 key.2 = Some kv /\ kv_Lease kv = l /\
    entry e kv = Some (key, x) /\ leases_of e !! key = Some x /\ leases_of (etcd_Revoke l e) = delete key (leases_of e).
Proof.
  destruct (decide (map_Forall (fun _ kv => kv_Lease kv <> l) (etcd_kvs e))) as [Hf|Hf].
  - left. assert (detached e l) by (intros k kv; apply Hf). split; [done|]. by apply revoke_detached.
  - right. apply map_not_Forall in Hf as (k & kv & Hk & Hkl%dec_stable); [|apply _].
    destruct (entry_spec _ _ _ _ Hok Hk) as (inst & d & _ & _ & -> & _ & He).
    exists kv, (Service inst, ID inst), {| l_instance := inst; l_expires := d |}. do 3 (split; [done|]). by eapply revoke_attached.
Qed.
End Transitions.
End Contract.
