(* ===== verification/LeaseContract.v ===== *)
(** * Every call of the shared registry keeps the contract

    [meets] follows a program through its requests: before each, the program knows
    something of the store that the other programs cannot invalidate. *)
From Stdlib Require Import Ascii String.
From stdpp Require Import sorting.
From S2P Require Import Prelude GoStd GoSort GoText GoUrl GoHeap Status Registry RegistrySpec FileRecovery EtcdLease LeaseRegistry LeaseSystem.
From S2P Require Import LeaseSpec.

#[local] Open Scope prog_scope.

Create HintDb leases discriminated.

Section Calls.
Context {E : Type} `{EtcdLeaseLaw E} `{LeaseJsonLaw} (prefix : string).

(** ** Following a program *)

Definition stable (K : E -> gset Z -> Prop) (U : gset Z) : Prop :=
  forall e spent e' spent', store_ok prefix e spent -> K e spent -> moves U e spent e' spent' -> K e' spent'.

(** [post] holds of what the call has done so far, with its answer once it has one. *)
Fixpoint meets {A} (post : list (moment E) -> option A -> Prop) (p : prog A) (U : gset Z) (K : E -> gset Z -> Prop)
    (h : list (moment E)) : Prop :=
  match p with
  | Ret a => post h (Some a)
  | Req r k =>
      post h None /\
      forall now e spent ans e', Forall (fun m => m_time m <= now) h -> store_ok prefix e spent -> U ⊆ etcd_granted e -> U ## spent ->
        K e spent -> seen_as r now e ans e' ->
        exists spent' U' K', fair prefix e spent U e' spent' U' /\ stable K' U' /\ K' e' spent' /\
          meets post (k ans) U' K' (h ++ [Build_moment now e e'])
  end.

Definition nothing : E -> gset Z -> Prop := fun _ _ => True.

Lemma stable_nothing U : stable nothing U.
Proof. done. Qed.

Lemma meets_assoc {A B C} (post : list (moment E) -> option C -> Prop) (p : prog A) (f : A -> prog B) (g : B -> prog C) U K h :
  meets post (prog_bind p (fun x => prog_bind (f x) g)) U K h -> meets post (prog_bind (prog_bind p f) g) U K h.
Proof.
  revert U K h. induction p as [a|R r k IH]; intros U K h; cbn; [done|]. intros [Hp Hm]. split; [done|].
  intros now e spent ans e' H1' H2' H3' H4' H5' H6'. destruct (Hm now e spent ans e' H1' H2' H3' H4' H5' H6') as (spent' & U' & K' & ? & ? & ? & ?).
  exists spent', U', K'. do 3 (split; [done|]). by apply IH.
Qed.

(** ** What a program knows *)

(** A lease granted to it that lasts to [t] at least. *)
Definition lasts (l t : Z) : E -> gset Z -> Prop := fun e _ => l ∈ etcd_granted e /\ forall d, etcd_leases e !! l = Some d -> t <= d.

Lemma stable_lasts l t U : stable (lasts l t) U.
Proof.
  intros e spent e' spent' Hok [Hg Hd] Hm. split; [by apply (mv_granted _ _ _ _ _ Hm)|].
  intros d Hl. by apply Hd, (mv_leases _ _ _ _ _ Hm).
Qed.

(** A lease that was bound to a key and is bound to none any more. *)
Definition retired (l : Z) : E -> gset Z -> Prop := fun e spent => l ∈ spent /\ detached e l.

Lemma stable_retired l U : stable (retired l) U.
Proof.
  intros e spent e' spent' Hok [Hs Hd] Hm. split; [by apply (mv_spent _ _ _ _ _ Hm)|].
  intros key kv [Hk|[_ Hn]]%(mv_kvs _ _ _ _ _ Hm); [by eapply Hd|]. congruence.
Qed.

(** A lease that was bound to one key with one row. *)
Definition bound_to (l : Z) (key : string * string) (x : lease) : E -> gset Z -> Prop := fun e spent =>
  l ∈ spent /\ (forall d, etcd_leases e !! l = Some d -> d = l_expires x) /\
  forall k kv, etcd_kvs e !! k = Some kv -> kv_Lease kv = l ->
    k = instanceKey prefix key.1 key.2 /\ decodeLeaseStoreRecord (kv_Value kv) = Some (l_instance x).

Lemma stable_bound l key x U : stable (bound_to l key x) U.
Proof.
  intros e spent e' spent' Hok (Hs & Hd & Hk) Hm. split; [by apply (mv_spent _ _ _ _ _ Hm)|]. split.
  - intros d Hl. apply Hd, (mv_leases _ _ _ _ _ Hm); [|done]. by apply (ok_spent _ _ _ Hok).
  - intros k kv [Hkv|[_ Hn]]%(mv_kvs _ _ _ _ _ Hm) Hl; [by apply Hk|]. congruence.
Qed.

(** A revision stands for the value that was read with it. *)
Definition read_at (key : string) (rev : Z) (v : list Z) : E -> gset Z -> Prop := fun e _ =>
  rev <= etcd_rev e /\ forall kv, etcd_kvs e !! key = Some kv -> kv_ModRevision kv = rev -> kv_Value kv = v.

Lemma stable_read key rev v U : stable (read_at key rev v) U.
Proof.
  intros e spent e' spent' Hok [Hr Hv] Hm. pose proof (mv_rev _ _ _ _ _ Hm). split; [lia|].
  intros kv [Hkv|[Hlt _]]%(mv_kvs _ _ _ _ _ Hm) Heq; [by apply Hv|]. lia.
Qed.

Lemma stable_and K1 K2 U : stable K1 U -> stable K2 U -> stable (fun e spent => K1 e spent /\ K2 e spent) U.
Proof. intros S1 S2 e spent e' spent' Hok [? ?] Hm. split; [by eapply S1|by eapply S2]. Qed.

#[local] Hint Resolve stable_nothing stable_lasts stable_retired stable_bound stable_read stable_and : leases.

(** ** Histories *)

Lemma quiet_snoc (h : list (moment E)) now e e' : quiet h -> leases_of e' = leases_of e -> quiet (h ++ [Build_moment now e e']).
Proof. intros Hh He. apply Forall_app. split; [done|]. by repeat constructor. Qed.

(** [wrote] with the lease that was written. *)
Definition wrote_row (h : list (moment E)) (key : string * string) (ttl : Z) (P : moment E -> Instance -> Prop) (l : lease) : Prop :=
  exists a m b inst, h = a ++ m :: b /\ quiet a /\ quiet b /\ P m inst /\ writes h m key ttl inst l.

Lemma head_snoc {A} (l : list A) a m b x : l = a ++ m :: b -> head (l ++ [x]) = head l.
Proof. intros ->. by destruct a. Qed.

Lemma wrote_snoc h key ttl P l now e e' :
  wrote_row h key ttl P l -> leases_of e' = leases_of e -> wrote_row (h ++ [Build_moment now e e']) key ttl P l.
Proof.
  intros (a & m & b & inst & Hh & Ha & Hb & HP & Hw & Hi & Ht) He. exists a, m, (b ++ [Build_moment now e e']), inst.
  split; [by rewrite Hh, <- app_assoc|]. split; [done|]. split; [by apply quiet_snoc|]. split; [done|]. split; [done|]. split; [done|].
  intros m0. rewrite (head_snoc _ _ _ _ _ Hh). apply Ht.
Qed.

Lemma undone_snoc h key ttl P l now e e' :
  wrote_row h key ttl P l -> leases_of e !! key = Some l -> leases_of e' = delete key (leases_of e) ->
  undone (h ++ [Build_moment now e e']) key ttl P.
Proof.
  intros (a & m & b & inst & Hh & Ha & Hb & HP & Hw & Hi & Ht) Hl He. exists a, m, b, (Build_moment now e e'), [], inst, l.
  split; [rewrite Hh, <- app_assoc; done|]. do 2 (split; [done|]). split; [constructor|]. split; [done|]. split; [|done].
  split; [done|]. split; [done|]. intros m0. rewrite (head_snoc _ _ _ _ _ Hh). apply Ht.
Qed.

Lemma wrote_row_wrote h key ttl P l : wrote_row h key ttl P l -> wrote h key ttl P.
Proof. intros (a & m & b & inst & Hw). by exists a, m, b, inst, l. Qed.

(** ** Rules for the requests *)

Section Rules.
Context {A : Type} (post : list (moment E) -> option A -> Prop).

Lemma meets_weaken (p : prog A) U (K K' : E -> gset Z -> Prop) h :
  (forall e spent, K' e spent -> K e spent) -> meets post p U K h -> meets post p U K' h.
Proof. intros HK. destruct p as [a|R r k]; cbn; [done|]. intros [Hp Hm]. split; [done|]. eauto 10. Qed.

Lemma rule_get key (k : option (option KeyValue * Z) -> prog A) U K h :
  post h None ->
  (forall now e spent ans, store_ok prefix e spent -> K e spent -> ans = None \/ ans = Some (etcd_Get key e) ->
     exists K', stable K' U /\ K' e spent /\ meets post (k ans) U K' (h ++ [Build_moment now e e])) ->
  meets post (Req (Get key) k) U K h.
Proof.
  intros Hp Hk. split; [done|]. intros now e spent ans e' _ Hok HU Hdis HK Hseen.
  assert (Hans : e' = e /\ (ans = None \/ ans = Some (etcd_Get key e))) by (cbn in Hseen; naive_solver).
  destruct Hans as [-> Hans]. destruct (Hk now e spent ans Hok HK Hans) as (K' & ? & ? & ?).
  exists spent, U, K'. split; [by apply fair_refl|]. done.
Qed.

(** A revocation that cannot remove a row. *)
Lemma rule_revoke_quiet l (k : () -> prog A) U K h :
  (forall e spent, store_ok prefix e spent -> U ## spent -> K e spent -> detached e l) ->
  (forall h', quiet h' -> post (h ++ h') None) -> (forall h', quiet h' -> meets post (k ()) U nothing (h ++ h')) ->
  meets post (prog_bind (revokeLease l) k) U K h.
Proof.
  intros HK Hp Hk. assert (Hq0 : quiet (@nil (moment E))) by constructor. unfold revokeLease. destruct (l =? 0).
  { cbn. specialize (Hk [] Hq0). rewrite app_nil_r in Hk. by eapply meets_weaken, Hk. }
  cbn. split; [specialize (Hp [] Hq0); by rewrite app_nil_r in Hp|]. intros now e spent ans e' _ Hok HU Hdis HKe Hseen.
  pose proof (HK e spent Hok Hdis HKe) as Hdet.
  assert (He : e' = e \/ e' = etcd_Revoke l e) by (cbn in Hseen; naive_solver).
  exists spent, U, nothing. split; [destruct He as [->| ->]; [by apply fair_refl|by apply revoke_fair]|]. split; [done|]. split; [done|].
  apply Hk. repeat constructor. cbn. destruct He as [->| ->]; [done|]. by eapply revoke_detached.
Qed.

(** The cleanup after a write that may have taken effect. *)
Lemma rule_revoke_bound l key x (k : () -> prog A) U h :
  (forall h', Forall (fun m => leases_of (m_after m) = leases_of (m_before m) \/
      leases_of (m_before m) !! key = Some x /\ leases_of (m_after m) = delete key (leases_of (m_before m))) h' ->
    (length h' <= 1)%nat -> post (h ++ h') None /\ meets post (k ()) U nothing (h ++ h')) ->
  meets post (prog_bind (revokeLease l) k) U (bound_to l key x) h.
Proof.
  intros Hk. destruct (Hk []) as [Hp0 Hk0]; [constructor|cbn; lia|]. rewrite app_nil_r in Hp0, Hk0.
  unfold revokeLease. destruct (l =? 0); cbn; [by eapply meets_weaken, Hk0|]. split; [done|].
  intros now e spent ans e' _ Hok HU Hdis (Hs & Hd & Hkv) Hseen.
  assert (He : e' = e \/ e' = etcd_Revoke l e) by (cbn in Hseen; naive_solver).
  exists spent, U, nothing. split; [destruct He as [->| ->]; [by apply fair_refl|by apply revoke_fair]|]. split; [done|]. split; [done|].
  apply Hk; [|cbn; lia]. apply Forall_singleton. cbn. destruct He as [->| ->]; [by left|].
  destruct (revoke_cases prefix e spent U Hok HU Hdis l) as [[_ ?]|(kv & key' & x' & Hk' & Hl & Hent & Hrow & Hdel)]; [by left|right].
  destruct (Hkv _ _ Hk' Hl) as [Hkey Hdec]. apply instanceKey_inj in Hkey as [E1 E2]. destruct key' as [s' i'], key as [s i]. cbn in E1, E2. subst s' i'.
  unfold entry in Hent. rewrite Hdec in Hent. cbn in Hent. destruct (etcd_leases e !! kv_Lease kv) as [d|] eqn:El; [|done]. cbn in Hent.
  rewrite Hl in El. apply Hd in El. assert (x' = x) as ->; [|done]. destruct x. cbn in *. congruence.
Qed.

Lemma rule_previous prev l (k : () -> prog A) U K h :
  (forall kv, prev = Some kv -> forall e spent, K e spent -> retired (kv_Lease kv) e spent) ->
  (forall h', quiet h' -> post (h ++ h') None) -> (forall h', quiet h' -> meets post (k ()) U nothing (h ++ h')) ->
  meets post (prog_bind (revokePreviousLease prev l) k) U K h.
Proof.
  intros HK Hp Hk. assert (Hk0 : meets post (k ()) U K h).
  { specialize (Hk [] ltac:(constructor)). rewrite app_nil_r in Hk. by eapply meets_weaken, Hk. }
  unfold revokePreviousLease. destruct prev as [kv|]; [|done]. destruct (_ || _); [done|].
  apply rule_revoke_quiet; [|done|done]. intros e spent _ _ HKe. by destruct (HK kv eq_refl e spent HKe).
Qed.
End Rules.

(** ** A write that took effect *)

Record applied (k : string) (v : list Z) (l : Z) (e e' : E) (prev : option KeyValue) (rev : Z) : Prop := {
  ap_live : is_Some (etcd_leases e !! l);
  ap_prev : prev = etcd_kvs e !! k;
  ap_rev : etcd_rev e < rev /\ etcd_rev e' = rev;
  ap_kvs : etcd_kvs e' = <[k := {| kv_Value := v; kv_ModRevision := rev; kv_Lease := l |}]> (etcd_kvs e);
  ap_leases : etcd_leases e' = etcd_leases e;
  ap_granted : etcd_granted e' = etcd_granted e
}.

Lemma applied_after e spent U e' l t inst value prev rev :
  store_ok prefix e spent -> U ⊆ etcd_granted e -> U ## spent -> l ∈ U -> lasts l t e spent ->
  decodeLeaseStoreRecord value = Some inst -> row_ok inst ->
  applied (instanceKey prefix (Service inst) (ID inst)) value l e e' prev rev ->
  exists x, l_instance x = inst /\ t <= l_expires x /\ fair prefix e spent U e' ({[l]} ∪ spent) (U ∖ {[l]}) /\
    leases_of e' = <[(Service inst, ID inst) := x]> (leases_of e) /\
    bound_to l (Service inst, ID inst) x e' ({[l]} ∪ spent) /\
    forall kv, prev = Some kv -> retired (kv_Lease kv) e' ({[l]} ∪ spent).
Proof.
  intros Hok HU Hdis Hl [_ Hlast] Hdec Hrow [[d Hd] -> [Hlt Hrev] Hkv Hle Hgr].
  destruct (write_fair prefix e spent U Hok HU Hdis e' inst value rev l d) as [Hfair Htab]; try done.
  exists {| l_instance := inst; l_expires := d |}. split; [done|]. split; [by apply Hlast|]. do 2 (split; [done|]). split.
  - split; [set_solver|]. split; [intros d' Hd'; rewrite Hle in Hd'; cbn; congruence|]. intros k kv Hk Hkl. cbn.
    rewrite Hkv in Hk. destruct (decide (k = instanceKey prefix (Service inst) (ID inst))) as [->|Hne].
    + rewrite lookup_insert_eq in Hk. injection Hk as <-. done.
    + rewrite lookup_insert_ne in Hk by done. destruct (ok_bound _ _ _ Hok _ _ Hk). set_solver.
  - intros kv Hp. destruct (ok_bound _ _ _ Hok _ _ Hp) as [_ Hsp]. split; [set_solver|]. intros k kv' Hk Heq.
    rewrite Hkv in Hk. destruct (decide (k = instanceKey prefix (Service inst) (ID inst))) as [->|Hne].
    + rewrite lookup_insert_eq in Hk. injection Hk as <-. cbn in Heq. set_solver.
    + rewrite lookup_insert_ne in Hk by done. apply Hne. by eapply (ok_once _ _ _ Hok).
Qed.

(** ** Writing a row *)

Section Writing.
Context {A : Type} (post : list (moment E) -> option A -> Prop) (key : string * string) (ttl : Z) (P : moment E -> Instance -> Prop).
Context (Hrun : forall h, unsure h key ttl P -> post h None).

Lemma unsure_row h x : wrote_row h key ttl P x -> unsure h key ttl P.
Proof. intros Hw. right. left. by eapply wrote_row_wrote. Qed.

Lemma failed_unused l (k : () -> prog A) U K h :
  l ∈ U -> quiet h -> (forall h', unsure h' key ttl P -> meets post (k ()) U nothing h') ->
  meets post (prog_bind (revokeLease l) k) U K h.
Proof.
  intros Hl Hq Hk. assert (Hu : forall h', quiet h' -> unsure (h ++ h') key ttl P) by (intros h' Hh'; left; by apply Forall_app).
  apply rule_revoke_quiet; [|auto..]. intros e spent Hok Hdis _ k' kv Hk' Heq.
  destruct (ok_bound _ _ _ Hok _ _ Hk') as [_ Hs]. rewrite Heq in Hs. set_solver.
Qed.

Lemma failed_bound l x (k : () -> prog A) U h :
  wrote_row h key ttl P x -> (forall h', unsure h' key ttl P -> meets post (k ()) U nothing h') ->
  meets post (prog_bind (revokeLease l) k) U (bound_to l key x) h.
Proof.
  intros Hw Hk. apply rule_revoke_bound. intros h' Hh' Hlen. cut (unsure (h ++ h') key ttl P); [by auto|].
  destruct h' as [|[now e e'] [|? ?]]; [rewrite app_nil_r; by eapply unsure_row| |cbn in Hlen; lia].
  apply Forall_singleton in Hh' as [Heq|[Hrow Hdel]]; cbn in *.
  - eapply unsure_row. by apply wrote_snoc.
  - right. right. by eapply undone_snoc.
Qed.

(** The write took effect: what follows if the answer is lost, and if it arrives. *)
Lemma write_done now e spent U e' l t h inst value prev rev (kf ks : () -> prog A) :
  store_ok prefix e spent -> U ⊆ etcd_granted e -> U ## spent -> l ∈ U -> lasts l t e spent ->
  decodeLeaseStoreRecord value = Some inst -> row_ok inst -> key = (Service inst, ID inst) ->
  applied (instanceKey prefix (Service inst) (ID inst)) value l e e' prev rev ->
  quiet h -> (forall m0, head (h ++ [Build_moment now e e']) = Some m0 -> m_time m0 + ttl <= t) -> P (Build_moment now e e') inst ->
  (forall h' U, unsure h' key ttl P -> meets post (kf ()) U nothing h') -> (forall h' U, wrote h' key ttl P -> meets post (ks ()) U nothing h') ->
  exists spent' U', fair prefix e spent U e' spent' U' /\
    (exists K, stable K U' /\ K e' spent' /\ meets post (prog_bind (revokeLease l) kf) U' K (h ++ [Build_moment now e e'])) /\
    (exists K, stable K U' /\ K e' spent' /\ meets post (prog_bind (revokePreviousLease prev l) ks) U' K (h ++ [Build_moment now e e'])).
Proof.
  intros Hok HU Hdis Hl Hlast Hdec Hrow Hkey Hap Hq Ht HP Hf Hs.
  destruct (applied_after e spent U e' l t inst value prev rev) as (x & Hx & Htx & Hfair & Htab & Hbound & Hret); try done.
  rewrite <- Hkey in Htab, Hbound.
  assert (Hw : wrote_row (h ++ [Build_moment now e e']) key ttl P x).
  { exists h, (Build_moment now e e'), [], inst. do 2 (split; [done|]). split; [constructor|]. split; [done|]. split; [done|]. split; [done|].
    intros m0 Hm0. specialize (Ht m0 Hm0). lia. }
  exists ({[l]} ∪ spent), (U ∖ {[l]}). split; [done|]. split.
  - exists (bound_to l key x). split; [apply stable_bound|]. split; [done|]. apply failed_bound; auto.
  - exists (fun e spent => forall kv, prev = Some kv -> retired (kv_Lease kv) e spent). split; [|split; [done|]].
    { intros e1 s1 e2 s2 Hok1 HK Hm kv Hkv. eapply stable_retired; eauto. }
    assert (Hq' : forall h', quiet h' -> wrote_row ((h ++ [Build_moment now e e']) ++ h') key ttl P x).
    { intros h' Hh'. induction h' as [|[n1 e1 e1'] h' IH] using rev_ind; [by rewrite app_nil_r|]. apply Forall_app in Hh' as [Hh' H1'%Forall_cons].
      rewrite app_assoc. apply wrote_snoc; [by apply IH|apply H1']. }
    apply rule_previous; [by intros kv Hkv e1 s1 HK; apply HK|..]; intros h' Hh'; specialize (Hq' h' Hh').
    + apply Hrun. by eapply unsure_row.
    + apply Hs. by eapply wrote_row_wrote.
Qed.

(** A request for a lease, then the write. *)
Lemma grant_phase {B} (f : option Z -> prog B) (k : B -> prog A) U K h :
  0 < ttl -> quiet h ->
  (forall U h', quiet h' -> meets post (prog_bind (f None) k) U nothing h') ->
  (forall l U h' now, l ∈ U -> quiet h' -> Forall (fun m => m_time m <= now) h' -> h' <> [] ->
     meets post (prog_bind (f (Some l)) k) U (fun e spent => lasts l (now + ttl) e spent /\ K e spent) h') ->
  (forall U, stable K U) ->
  meets post (prog_bind (prog_bind (send (Grant (leaseTTLSeconds ttl))) f) k) U K h.
Proof.
  intros Httl Hq Hnone Hsome HK. cbn. split; [apply Hrun; by left|]. intros now e spent ans e' Htime Hok HU Hdis HKe Hseen.
  unfold seen_as in Hseen. cbn in Hseen. destruct (etcd_Grant (leaseTTLSeconds ttl) now e) as [l e1] eqn:Hg in Hseen.
  destruct (grant_fair prefix e spent U Hok HU Hdis _ _ _ _ Hg) as (Hfair & Htab & Hdl).
  pose proof (leaseTTLSeconds_bounds ttl Httl) as Hsec.
  assert (Hq' : leases_of e' = leases_of e -> quiet (h ++ [Build_moment now e e'])) by (intros; by apply quiet_snoc).
  destruct Hseen as [[-> ->]|[[-> ->]|[-> ->]]].
  - exists spent, ({[l]} ∪ U), (fun e spent => lasts l (now + ttl) e spent /\ K e spent). split; [done|].
    split; [apply stable_and; [apply stable_lasts|apply HK]|]. split.
    + split; [split|]; [|intros d Hd; specialize (Hdl d Hd); lia|].
      * apply (fair_granted _ _ _ _ _ _ _ Hfair). set_solver.
      * eapply (HK ∅ e spent e1 spent); [done|done|]. apply (fair_moves _ _ _ _ _ _ _ Hfair); set_solver.
    + apply Hsome; [set_solver|by apply Hq'| |by destruct h]. apply Forall_app. split; [done|]. by apply Forall_singleton.
  - exists spent, U, nothing. split; [by apply fair_refl|]. split; [done|]. split; [done|]. by apply Hnone, Hq'.
  - exists spent, ({[l]} ∪ U), nothing. split; [done|]. split; [done|]. split; [done|]. by apply Hnone, Hq'.
Qed.
End Writing.

(** ** The operations of the store *)

Section Store.
Context {A : Type} (post : list (moment E) -> option A -> Prop) (ttl : Z) (P : moment E -> Instance -> Prop) (inst : Instance) (value : list Z).
Abbreviation key := (Service inst, ID inst).
Context (Httl : 0 < ttl) (Hdec : decodeLeaseStoreRecord value = Some inst) (Hrow : row_ok inst).
Context (Hrun : forall h, unsure h key ttl P -> post h None).

Lemma head_time (h : list (moment E)) now m m0 :
  Forall (fun m => m_time m <= now) h -> h <> [] -> head (h ++ [m]) = Some m0 -> m_time m0 + ttl <= now + ttl.
Proof. intros Hh Hne. destruct Hh as [|m1 h' Hm1]; [done|]. cbn. intros [= <-]. lia. Qed.

Lemma Put_meets (k : option Z -> prog A) U h :
  quiet h -> (forall m, P m inst) ->
  (forall h' U, unsure h' key ttl P -> meets post (k None) U nothing h') ->
  (forall rev h' U, wrote h' key ttl P -> meets post (k (Some rev)) U nothing h') ->
  meets post (prog_bind (etcd_store_Put (instanceKey prefix (Service inst) (ID inst)) value ttl) k) U nothing h.
Proof.
  intros Hq HP Hf Hs. apply (grant_phase post key ttl P Hrun); [done|done| | |done].
  { intros U' h' Hq'. cbn. apply Hf. by left. }
  intros l U' h' t Hl Hq' Htime Hne. cbn. split; [apply Hrun; by left|].
  intros now e spent ans e' _ Hok HU Hdis [Hlast _] Hseen. unfold seen_as in Hseen. cbn in Hseen.
  assert (Hcases : (e' = e /\ ans = None) \/ exists prev rev, applied (instanceKey prefix (Service inst) (ID inst)) value l e e' prev rev /\
                     (ans = None \/ ans = Some (prev, rev))).
  { pose proof (put_law (instanceKey prefix (Service inst) (ID inst)) value l e) as Hlaw.
    destruct (etcd_Put _ _ _ e) as [[[prev rev]|] e1] in Hlaw, Hseen |-; [|subst e1; left; naive_solver].
    destruct Hlaw as (? & ? & ? & ? & ? & ? & ?). destruct Hseen as [[-> ->]|[[-> ->]|[-> ->]]]; [right|by left|right]; exists prev, rev.
    all: split; [by split|auto]. }
  destruct Hcases as [[-> ->]|(prev & rev & Hap & Hans)].
  - exists spent, U', nothing. split; [by apply fair_refl|]. split; [done|]. split; [done|]. apply meets_assoc.
    apply (failed_unused post key ttl P Hrun); [done|by apply quiet_snoc|]. intros h2 Hu. cbn. by apply Hf.
  - destruct (write_done post key ttl P Hrun now e spent U' e' l (t + ttl) h' inst value prev rev
                (fun _ => k None) (fun _ => k (Some rev))) as (spent' & U2 & Hfair & (K1 & S1 & HK1 & M1) & (K2 & S2 & HK2 & M2));
      try done; try (intros m0; by apply head_time); auto.
    exists spent', U2. destruct Hans as [-> | ->]; [exists K1|exists K2]; (split; [done|]); (split; [done|]); (split; [done|]); by apply meets_assoc.
Qed.

Lemma Update_meets (k : option (Z * bool) -> prog A) old rev0 U h :
  quiet h ->
  (forall now e spent e' kv, store_ok prefix e spent -> etcd_kvs e !! instanceKey prefix (Service inst) (ID inst) = Some kv ->
     kv_Value kv = old -> P (Build_moment now e e') inst) -> 0 < rev0 ->
  (forall h' U, unsure h' key ttl P -> meets post (k None) U nothing h') ->
  (forall rev h' U, quiet h' -> meets post (k (Some (rev, false))) U nothing h') ->
  (forall rev h' U, wrote h' key ttl P -> meets post (k (Some (rev, true))) U nothing h') ->
  meets post (prog_bind (etcd_store_Update (instanceKey prefix (Service inst) (ID inst)) value ttl rev0) k) U
    (read_at (instanceKey prefix (Service inst) (ID inst)) rev0 old) h.
Proof.
  intros Hq HP Hrev0 Hf Hmiss Hs. apply (grant_phase post key ttl P Hrun); [done|done| | |intros; apply stable_read].
  { intros U' h' Hq'. cbn. apply Hf. by left. }
  intros l U' h' t Hl Hq' Htime Hne. cbn. split; [apply Hrun; by left|].
  intros now e spent ans e' _ Hok HU Hdis [Hlast [_ Hread]] Hseen. unfold seen_as in Hseen. cbn in Hseen.
  assert (Hcases : (e' = e /\ (ans = None \/ exists p r, ans = Some (false, p, r))) \/
                   exists prev rev, applied (instanceKey prefix (Service inst) (ID inst)) value l e e' prev rev /\
                     revision_of (etcd_kvs e !! instanceKey prefix (Service inst) (ID inst)) = rev0 /\ (ans = None \/ ans = Some (true, prev, rev))).
  { pose proof (txn_law (instanceKey prefix (Service inst) (ID inst)) rev0 value l e) as Hlaw.
    destruct (etcd_Txn _ _ _ _ e) as [[[[[] prev] rev]|] e1] in Hlaw, Hseen |-; [| |subst e1; left; naive_solver].
    - destruct Hlaw as (? & ? & ? & ? & ? & ? & ? & ?). destruct Hseen as [[-> ->]|[[-> ->]|[-> ->]]]; [right|left; auto|right]; exists prev, rev.
      all: split; [by split|auto].
    - destruct Hlaw as [-> _]. left. destruct Hseen as [[-> ->]|[[-> ->]|[-> ->]]]; (split; [done|]); eauto. }
  destruct Hcases as [[-> Hans]|(prev & rev & Hap & Hexp & Hans)].
  - exists spent, U', nothing. split; [by apply fair_refl|]. split; [done|]. split; [done|].
    destruct Hans as [->|(p & r & ->)]; apply meets_assoc.
    + apply (failed_unused post key ttl P Hrun); [done|by apply quiet_snoc|]. intros h2 Hu. cbn. by apply Hf.
    + apply rule_revoke_quiet; cbn.
      * intros e1 s1 Hok1 Hdis1 _ k' kv Hk' Heq. destruct (ok_bound _ _ _ Hok1 _ _ Hk') as [_ Hb]. rewrite Heq in Hb. set_solver.
      * intros h2 Hq2. apply Hrun. left. apply Forall_app. split; [by apply quiet_snoc|done].
      * intros h2 Hq2. apply Hmiss. apply Forall_app. split; [by apply quiet_snoc|done].
  - assert (HP' : P (Build_moment now e e') inst).
    { destruct (etcd_kvs e !! instanceKey prefix (Service inst) (ID inst)) as [kv|] eqn:Hkv; [|cbn in Hexp; lia].
      eapply HP; [done|done|]. by apply Hread. }
    destruct (write_done post key ttl P Hrun now e spent U' e' l (t + ttl) h' inst value prev rev
                (fun _ => k None) (fun _ => k (Some (rev, true)))) as (spent' & U2 & Hfair & (K1 & S1 & HK1 & M1) & (K2 & S2 & HK2 & M2));
      try done; try (intros m0; by apply head_time); auto.
    exists spent', U2. destruct Hans as [-> | ->]; [exists K1|exists K2]; (split; [done|]); (split; [done|]); (split; [done|]); by apply meets_assoc.
Qed.
End Store.

(** ** The calls *)

Lemma register_meets ctxErr inst ttl seen epoch token :
  let c := CRegister ctxErr inst ttl seen epoch token in
  call_safe c -> meets (contract c) (program prefix c) ∅ nothing [].
Proof.
  intros c (Htext & Hseen & Hep & Htok). unfold c, program, ls_Register. destruct ctxErr; [cbn; naive_solver|].
  destruct (bool_decide_reflect (ID inst = ""%string \/ Service inst = ""%string \/ Address inst = ""%string)) as [Hbad|Hgood]; cbn [orb].
  { cbn. split; [done|]. unfold complete. tauto. }
  destruct (Z.leb_spec ttl 0) as [Hle|Hlt]; [cbn; split; [done|]; lia|]. rewrite default_status.
  set (inst' := {| ID := ID inst |}). assert (Hsafe : lease_safe inst').
  { destruct Htext as (? & ? & ? & ? & ? & ?). split; [|done]. by repeat split. }
  destruct (encode_decodes inst' Hsafe) as (raw & -> & Hdec). apply meets_assoc.
  assert (Hcomp : complete inst) by (unfold complete; tauto).
  apply (Put_meets _ ttl (registers inst seen epoch token) (stored_as inst') raw Hlt Hdec (stored_as_ok inst' Hsafe)).
  - by intros h.
  - constructor.
  - intros m. unfold registers, stored_as, registered, inst'. cbn. f_equal. by destruct (Status_ inst).
  - by intros h U Hu.
  - intros rev h U Hw. cbn. done.
Qed.

Lemma heartbeat_meets ctxErr service id epoch token ttl seen re ro :
  let c := CHeartbeat ctxErr service id epoch token ttl seen re ro in
  call_safe c -> meets (contract c) (program prefix c) ∅ nothing [].
Proof.
  intros c Hseen. unfold c, program, ls_heartbeat. destruct ctxErr; [cbn; naive_solver|].
  destruct (bool_decide_reflect (service = ""%string \/ id = ""%string)) as [Hbad|Hgood]; cbn [orb].
  { cbn. split; [done|]. tauto. }
  destruct (Z.leb_spec ttl 0) as [Hle|Hlt]; [cbn; split; [done|]; lia|].
  apply meets_assoc, meets_assoc, rule_get; [left; constructor|].
  intros now e spent ans Hok _ Hans. assert (Hq : quiet [Build_moment now e e]) by by repeat constructor. cbn [app].
  destruct Hans as [-> | ->]; [exists nothing; cbn; split; [done|]; split; [done|]; by left|].
  pose proof (get_law (instanceKey prefix service id) e) as Hget. destruct (etcd_Get (instanceKey prefix service id) e) as [[kv|] rev]; cbn in Hget; [|by exists nothing].
  symmetry in Hget. destruct (entry_spec _ _ _ _ _ Hok Hget) as (inst & d & Hdec & Hd & Hkey & Hrow & Hent). apply instanceKey_inj in Hkey as [-> ->].
  assert (Hl : leases_of e !! (Service inst, ID inst) = Some {| l_instance := inst; l_expires := d |}) by (apply (leases_lookup _ _ _ _ _ _ Hok); eauto).
  exists (read_at (instanceKey prefix (Service inst) (ID inst)) (kv_ModRevision kv) (kv_Value kv)). split; [apply stable_read|]. split.
  { split; [apply (ok_revs _ _ _ Hok _ _ Hget)|]. intros kv' Hkv' _. rewrite Hget in Hkv'. congruence. }
  cbn [prog_bind]. rewrite Hdec.
  assert (Hmis : ~ fence re ro epoch token inst -> contract (CHeartbeat false (Service inst) (ID inst) epoch token ttl seen re ro)
                   [Build_moment now e e] (Some (Replied (Some (LeaseErr ErrRegistrationEpochMismatch))))) by (cbn; eauto 10).
  destruct (re && bool_decide (RegistrationEpoch inst <> epoch)) eqn:E1; [apply Hmis; intros [H1' _]; apply andb_true_iff in E1 as [-> E1%bool_decide_eq_true]; auto|].
  destruct (ro && bool_decide (OwnerToken inst <> token)) eqn:E2; [apply Hmis; intros [_ H2']; apply andb_true_iff in E2 as [-> E2%bool_decide_eq_true]; auto|].
  assert (Hfence : fence re ro epoch token inst).
  { split; intros ->; [apply andb_false_iff in E1 as [|E1%bool_decide_eq_false]|apply andb_false_iff in E2 as [|E2%bool_decide_eq_false]]; try done; by apply dec_stable. }
  change (with_seen inst seen) with (renewed inst seen). pose proof (renewed_ok inst seen Hrow Hseen) as Hrow'.
  destruct (encode_decodes (renewed inst seen) (row_safe _ Hrow')) as (raw & -> & Hdec'). rewrite stored_as_id in Hdec' by done. apply meets_assoc.
  apply (Update_meets _ ttl (renews (Service inst) (ID inst) epoch token seen re ro) (renewed inst seen) raw Hlt Hdec' Hrow').
  - by intros h.
  - done.
  - intros now2 e2 spent2 e2' kv2 Hok2 Hk2 Hv2. destruct (entry_spec _ _ _ _ _ Hok2 Hk2) as (i2 & d2 & Hdec2 & _ & _ & _ & Hent2).
    rewrite Hv2, Hdec in Hdec2. injection Hdec2 as <-. exists {| l_instance := inst; l_expires := d2 |}. split; [|done].
    apply (leases_lookup _ _ _ _ _ _ Hok2). eauto.
  - apply (ok_revs _ _ _ Hok _ _ Hget).
  - by intros h U Hu.
  - by intros rev' h U Hq'.
  - by intros rev' h U Hw.
Qed.

Definition decoded (p : string * KeyValue) : option Instance := decodeLeaseStoreRecord (kv_Value p.2).

Definition as_kv (p : string * KeyValue) : leaseStoreKV :=
  {| ls_Key := p.1; ls_Value := kv_Value p.2; ls_ModRevision := kv_ModRevision p.2 |}.

Lemma collect_all_decoded service kvs acc :
  (forall p, p ∈ kvs -> exists inst, decoded p = Some inst /\ Service inst = service) ->
  exists v, collect_all service acc (as_kv <$> kvs) = Some (acc.1 ++ omap decoded kvs, v).
Proof.
  revert acc. induction kvs as [|p kvs IH]; intros [insts v] Hall; [exists v; cbn; by rewrite app_nil_r|].
  destruct (Hall p) as (inst & Hd & Hs); [left|]. cbn [fmap list_fmap collect_all]. unfold collect. cbn [as_kv ls_Value].
  unfold decoded in Hd at 1. rewrite Hd. cbn [mbind option_bind]. rewrite bool_decide_eq_true_2 by done.
  edestruct IH as [v' Hv']; [|exists v'; rewrite Hv'; cbn [fst omap list_omap]; unfold decoded at 2; rewrite Hd; by rewrite <- app_assoc].
  intros q Hq. apply Hall. by right.
Qed.

(** What is below a service's prefix are its rows. *)
Lemma range_shows e spent service kvs rev :
  store_ok prefix e spent -> etcd_Range (servicePrefix prefix service) e = (kvs, rev) ->
  (forall p, p ∈ kvs -> exists inst, decoded p = Some inst /\ Service inst = service) /\
  shows (leases_of e) service (Slice (by_keys (fun i => [ID i])) (omap decoded kvs)).
Proof.
  intros Hok Hr. destruct (range_law (servicePrefix prefix service) e) as (Hnd & _ & Hin). rewrite Hr in Hnd, Hin. cbn in Hnd, Hin.
  assert (Hall : forall p, p ∈ kvs -> exists inst d, decoded p = Some inst /\ p.1 = instanceKey prefix service (ID inst) /\ Service inst = service /\
            etcd_kvs e !! p.1 = Some p.2 /\ entry e p.2 = Some ((service, ID inst), {| l_instance := inst; l_expires := d |})).
  { intros [key kv] [Hp Hk]%Hin. destruct (entry_spec _ _ _ _ _ Hok Hk) as (inst & d & Hd & _ & -> & _ & He). cbn in *.
    apply key_below in Hp. subst service. exists inst, d. done. }
  split; [intros p Hp; destruct (Hall p Hp) as (inst & d & ? & _ & ? & _); eauto|]. split.
  - apply (Slice_by_key_strict ID). clear Hin Hr. induction kvs as [|p kvs IH]; cbn; [constructor|].
    apply NoDup_cons in Hnd as [Hn Hnd]. destruct (Hall p) as (inst & d & -> & Hk & _); [left|]. cbn. apply NoDup_cons. split.
    + intros (i2 & Hi2 & (q & Hq & Hd2)%list_elem_of_omap)%list_elem_of_fmap. apply Hn.
      destruct (Hall q) as (i3 & d3 & Hd3 & Hk3 & _); [by right|]. apply list_elem_of_fmap. exists q. split; [|done]. congruence.
    + apply IH; [done|]. intros q Hq. apply Hall. by right.
  - intros inst. rewrite Slice_perm, list_elem_of_omap. split.
    + intros (p & Hp & Hd). destruct (Hall p Hp) as (i2 & d & Hd2 & Hk & _ & Hkv & He). rewrite Hd in Hd2. injection Hd2 as <-.
      exists (ID inst), {| l_instance := inst; l_expires := d |}. split; [|done]. apply (leases_lookup _ _ _ _ _ _ Hok). rewrite <- Hk. eauto.
    + intros (id & l & (kv & Hk & He)%(leases_lookup _ _ _ _ _ _ Hok) & ->). exists (instanceKey prefix service id, kv). split.
      * apply Hin. split; [by apply key_below|done].
      * unfold decoded. cbn. unfold entry in He. destruct (decodeLeaseStoreRecord (kv_Value kv)) as [inst|]; [|done]. cbn in He.
        destruct (etcd_leases e !! kv_Lease kv); [|done]. cbn in He. by injection He as _ _ <-.
Qed.

Lemma snapshot_meets ctxErr service :
  let c := CSnapshot ctxErr service in meets (contract c) (program prefix c) ∅ nothing [].
Proof.
  intros c. unfold c, program, ls_Snapshot. destruct ctxErr; [constructor|]. destruct (bool_decide (service = ""%string)); [constructor|].
  cbn. split; [constructor|]. intros now e spent ans e' _ Hok HU Hdis _ Hseen. unfold seen_as in Hseen. cbn in Hseen.
  assert (Hans : e' = e /\ (ans = None \/ ans = Some (etcd_Range (servicePrefix prefix service) e))) by naive_solver.
  destruct Hans as [-> Hans]. exists spent, ∅, nothing. split; [by apply fair_refl|]. split; [done|]. split; [done|].
  destruct Hans as [-> | ->]; cbn; [by repeat constructor|].
  destruct (etcd_Range (servicePrefix prefix service) e) as [kvs rev] eqn:Hr. destruct (range_shows e spent service kvs rev Hok Hr) as [Hall Hshow].
  destruct (collect_all_decoded service kvs ([], 0) Hall) as [v Hv]. cbn.
  match goal with |- context [collect_all _ _ ?l] => change l with (as_kv <$> kvs) end. rewrite Hv. cbn. eexists. split; [done|]. done.
Qed.

Lemma call_meets c : call_safe c -> meets (contract c) (program prefix c) ∅ nothing [].
Proof.
  destruct c; intros Hs; [by apply register_meets|by apply heartbeat_meets|apply snapshot_meets].
Qed.

(** ** All calls together *)

Record sys_inv (spent : gset Z) (U : nat -> gset Z) (s : system) : Prop := {
  si_store : store_ok prefix (store s) spent;
  si_unused n : U n ⊆ etcd_granted (store s) /\ U n ## spent;
  si_apart n n' : n <> n' -> U n ## U n';
  si_calls n th : calls s !! n = Some th -> Forall (fun m => m_time m <= clock s) (t_history th) /\
    exists K, stable K (U n) /\ K (store s) spent /\ meets (contract (t_call th)) (t_rest th) (U n) K (t_history th)
}.

(** The other calls keep what they know. *)
Lemma fair_others spent U s e' spent' U' n :
  sys_inv spent U s -> fair prefix (store s) spent (U n) e' spent' U' ->
  forall n', n' <> n -> moves (U n') (store s) spent e' spent' /\ (U n' ⊆ etcd_granted e' /\ U n' ## spent') /\ U n' ## U'.
Proof.
  intros Hinv Hfair n' Hn. destruct (si_unused _ _ _ Hinv n') as [Hg Hd]. pose proof (si_apart _ _ _ Hinv n' n Hn) as Hap.
  pose proof (fair_moves _ _ _ _ _ _ _ Hfair (U n') Hap Hg) as Hm. split; [done|]. split; [split|].
  - pose proof (mv_granted _ _ _ _ _ Hm). set_solver.
  - intros l H1' H2'. eapply Hd; [done|]. by eapply (mv_mine _ _ _ _ _ Hm).
  - intros l H1' H2'. destruct (fair_fresh _ _ _ _ _ _ _ Hfair l H2'); set_solver.
Qed.

Lemma request_inv spent U s n th R (r : request R) k ans e' :
  sys_inv spent U s -> calls s !! n = Some th -> t_rest th = Req r k -> seen_as r (clock s) (store s) ans e' ->
  exists spent' U', sys_inv spent' U' {| store := e'; clock := clock s;
    calls := <[n := {| t_call := t_call th; t_history := t_history th ++ [Build_moment (clock s) (store s) e']; t_rest := k ans |}]> (calls s) |}.
Proof.
  intros Hinv Hn Hrest Hseen. destruct (si_calls _ _ _ Hinv n th Hn) as [Htime (K & HK & HKe & Hm)]. rewrite Hrest in Hm. destruct Hm as [_ Hm].
  destruct (si_unused _ _ _ Hinv n) as [Hg Hd].
  destruct (Hm _ _ _ _ _ Htime (si_store _ _ _ Hinv) Hg Hd HKe Hseen) as (spent' & U' & K' & Hfair & HS & HK' & Hm').
  pose proof (fair_others _ _ _ _ _ _ _ Hinv Hfair) as Hoth.
  exists spent', (fun i => if decide (i = n) then U' else U i). split; cbn.
  - apply Hfair.
  - intros i. destruct (decide (i = n)) as [->|Hi]; [|by apply Hoth]. split; [apply Hfair|]. apply (fair_unspent _ _ _ _ _ _ _ Hfair).
  - intros i j Hij. destruct (decide (i = n)) as [->|Hi], (decide (j = n)) as [->|Hj]; [done|..].
    + symmetry. by apply Hoth.
    + by apply Hoth.
    + by apply (si_apart _ _ _ Hinv).
  - intros i th' Hi. destruct (decide (i = n)) as [->|Hne].
    + rewrite lookup_insert_eq in Hi. injection Hi as <-. cbn. split; [|by exists K'].
      apply Forall_app. split; [done|]. apply Forall_singleton. cbn. lia.
    + rewrite lookup_insert_ne in Hi by done. destruct (si_calls _ _ _ Hinv i th' Hi) as [Ht (K1 & S1 & HK1 & Hm1)]. split; [done|].
      exists K1. split; [done|]. split; [|done]. destruct (Hoth i Hne) as (Hmv & _). eapply S1; [apply (si_store _ _ _ Hinv)|done|done].
Qed.

Lemma expiry_inv spent U s l : sys_inv spent U s -> sys_inv spent U {| store := etcd_Revoke l (store s); clock := clock s; calls := calls s |}.
Proof.
  intros Hinv. pose proof (revoke_fair prefix (store s) spent ∅ (si_store _ _ _ Hinv) ltac:(set_solver) ltac:(set_solver) l) as Hfair.
  assert (Hm : forall n, moves (U n) (store s) spent (etcd_Revoke l (store s)) spent).
  { intros n. apply (fair_moves _ _ _ _ _ _ _ Hfair); [set_solver|]. apply (si_unused _ _ _ Hinv n). }
  split; cbn; [apply Hfair| |apply (si_apart _ _ _ Hinv)|].
  - intros n. destruct (si_unused _ _ _ Hinv n) as [Hg Hd]. split; [|done]. pose proof (mv_granted _ _ _ _ _ (Hm n)). set_solver.
  - intros n th Hn. destruct (si_calls _ _ _ Hinv n th Hn) as [Ht (K & HS & HK & Hmt)]. split; [done|]. exists K. split; [done|]. split; [|done].
    eapply HS; [apply (si_store _ _ _ Hinv)|done|apply Hm].
Qed.

Lemma sys_step_inv spent U s s' : sys_inv spent U s -> sys_step prefix s s' -> exists spent' U', sys_inv spent' U' s'.
Proof.
  intros Hinv Hst. destruct Hst as [n c Hn Hsafe|n th R r k ans e' Hn Hrest Hseen|l d Hl Hd|now Hnow].
  - exists spent, (fun i => if decide (i = n) then ∅ else U i). destruct Hinv as [I1 I2 I3 I4]. split; cbn; [done| | |].
    + intros i. destruct (decide (i = n)); [set_solver|apply I2].
    + intros i j Hij. destruct (decide (i = n)), (decide (j = n)); [set_solver..|by apply I3].
    + intros i th Hi. destruct (decide (i = n)) as [->|Hne]; [|rewrite lookup_insert_ne in Hi by done; by apply I4].
      rewrite lookup_insert_eq in Hi. injection Hi as <-. cbn. split; [constructor|]. exists nothing. split; [done|]. split; [done|]. by apply call_meets.
  - by eapply request_inv.
  - exists spent, U. by apply expiry_inv.
  - exists spent, U. destruct Hinv as [I1 I2 I3 I4]. split; cbn; [done..|]. intros n th Hn. destruct (I4 n th Hn) as [Ht ?]. split; [|done].
    eapply Forall_impl; [exact Ht|]. cbn. lia.
Qed.

(** etcd without keys, at any time. *)
Definition fresh_store (e : E) : Prop :=
  etcd_kvs e = ∅ /\ 0 <= etcd_rev e /\ forall l d, etcd_leases e !! l = Some d -> l ∈ etcd_granted e.

Definition started (e : E) (t : Z) : system := {| store := e; clock := t; calls := ∅ |}.

Lemma reachable_sys_inv e t s : fresh_store e -> rtc (sys_step prefix) (started e t) s -> exists spent U, sys_inv spent U s.
Proof.
  intros (Hk & Hr & Hl) Hreach. assert (H0' : exists spent U, sys_inv spent U (started e t)).
  { exists ∅, (fun _ => ∅). split; cbn; [|set_solver..|done]. split; rewrite ?Hk; try done; set_solver. }
  induction Hreach as [|s0 s1 s2 Hst _ IH]; [done|]. destruct H0' as (spent & U & Hinv). apply IH. by eapply sys_step_inv.
Qed.

(** C9. Controllers that share a registry through etcd keep one table of leases.
    However their calls interleave, request by request, and whichever requests fail or
    lose their answers: a registration or heartbeat that succeeds has written its row
    once, at one of its requests, with a lease of at least its time to live; a heartbeat
    renews the row in force at that moment and only if it passes the fence; a call that
    is refused has changed nothing; one that fails has written at most its row and
    removed at most that row again; a listing shows exactly the rows of its service at
    one moment.  Nothing else changes the table but the end of leases whose time is
    over. *)
Theorem shared_registry_contract e t s :
  fresh_store e -> rtc (sys_step prefix) (started e t) s ->
  (forall n th, calls s !! n = Some th -> contract (t_call th) (t_history th) (reply th)) /\
  forall s', sys_step prefix s s' ->
    leases_of (store s') = leases_of (store s) \/
    (exists key l, leases_of (store s) !! key = Some l /\ l_expires l <= clock s /\ leases_of (store s') = delete key (leases_of (store s))) \/
    (exists n th th', calls s !! n = Some th /\ calls s' !! n = Some th' /\
       t_history th' = t_history th ++ [Build_moment (clock s) (store s) (store s')]).
Proof.
  intros He (spent & U & Hinv)%(reachable_sys_inv e t); [|done]. split.
  - intros n th Hn. destruct (si_calls _ _ _ Hinv n th Hn) as [_ (K & _ & _ & Hm)]. unfold reply. destruct (t_rest th); [done|]. apply Hm.
  - intros s' Hst. destruct Hst as [n c Hn Hsafe|n th R r k ans e' Hn Hrest Hseen|l d Hl Hd|now Hnow]; cbn; [by left| | |by left].
    + right. right. exists n, th. eexists. split; [done|]. split; [apply lookup_insert_eq|done].
    + destruct (revoke_cases prefix (store s) spent ∅ (si_store _ _ _ Hinv) ltac:(set_solver) ltac:(set_solver) l)
        as [[_ ?]|(kv & key & x & _ & Hkl & Hent & Hrow & Hdel)]; [by left|]. right. left. exists key, x. split; [done|]. split; [|done].
      unfold entry in Hent. rewrite Hkl, Hl in Hent. destruct (decodeLeaseStoreRecord (kv_Value kv)); [|done]. cbn in Hent. by injection Hent as _ <-.
Qed.
End Calls.
