(* ===== verification/LeaseWitness.v ===== *)
(** * The shared registry on a concrete etcd

    An executable store with the laws of etcd's leases, schedules of calls on it, and
    what can go wrong: an answer that is lost, a lease that ends, two heartbeats at once. *)
From Stdlib Require Import Ascii String SpecFloat.
From S2P Require Import Prelude GoStd GoFloat GoSort GoText GoUrl GoHeap Status Registry RegistrySpec Controller InstancesView FileRecovery FileWitness.
From S2P Require Import EtcdLease LeaseRegistry LeaseSystem LeaseSpec LeaseContract.

(** ** A store *)

Record demo_etcd := { d_kvs : gmap string KeyValue; d_rev : Z; d_leases : gmap Z Z; d_granted : gset Z }.

Definition next_id (ids : gset Z) : Z := 1 + foldr Z.max 0 (elements ids).

Lemma foldr_max_nonneg l : 0 <= foldr Z.max 0 l.
Proof. induction l as [|x l IH]; cbn; lia. Qed.

Lemma foldr_max_bound l x : x ∈ l -> x <= foldr Z.max 0 l.
Proof. induction 1 as [x l|x y l _ IH]; cbn; lia. Qed.

Definition demo_write (key : string) (v : list Z) (l : Z) (e : demo_etcd) : demo_etcd := {|
  d_kvs := <[key := {| kv_Value := v; kv_ModRevision := d_rev e + 1; kv_Lease := l |}]> (d_kvs e); d_rev := d_rev e + 1;
  d_leases := d_leases e; d_granted := d_granted e |}.

#[local] Instance demo_etcd_ops : Etcd demo_etcd := {
  etcd_Grant ttl now e := let l := next_id (d_granted e) in
    (l, {| d_kvs := d_kvs e; d_rev := d_rev e; d_leases := <[l := now + ttl * 1000000000]> (d_leases e); d_granted := {[l]} ∪ d_granted e |});
  etcd_Put key v l e :=
    match d_leases e !! l with
    | None => (None, e)
    | Some _ => (Some (d_kvs e !! key, d_rev e + 1), demo_write key v l e)
    end;
  etcd_Txn key expected v l e :=
    if bool_decide (revision_of (d_kvs e !! key) = expected) then
      match d_leases e !! l with
      | None => (None, e)
      | Some _ => (Some (true, d_kvs e !! key, d_rev e + 1), demo_write key v l e)
      end
    else (Some (false, None, d_rev e), e);
  etcd_Get key e := (d_kvs e !! key, d_rev e);
  etcd_Range prefix e := (filter (fun p => HasPrefix p.1 prefix = true) (map_to_list (d_kvs e)), d_rev e);
  etcd_Revoke l e := {| d_kvs := filter (fun p => kv_Lease p.2 <> l) (d_kvs e); d_rev := d_rev e + 1; d_leases := delete l (d_leases e);
                        d_granted := d_granted e |}
}.

#[local] Instance demo_etcd_law : EtcdLeaseLaw demo_etcd.
Proof.
  refine {| etcd_kvs := d_kvs; etcd_rev := d_rev; etcd_leases := d_leases; etcd_granted := d_granted |}.
  - intros ttl now e. cbn. unfold next_id. pose proof (foldr_max_nonneg (elements (d_granted e))) as H0. split; [lia|]. split.
    + intros Hin%elem_of_elements%foldr_max_bound. lia.
    + do 3 (split; [done|]). eexists. split; [|done]. lia.
  - intros key v l e. cbn. destruct (d_leases e !! l) eqn:El; [|done]. cbn. split; [done|]. split; [done|]. split; [lia|]. done.
  - intros key expected v l e. cbn. case_bool_decide as Hex; [|done]. destruct (d_leases e !! l) eqn:El; [|done].
    split; [done|]. split; [done|]. split; [done|]. split; [lia|]. done.
  - done.
  - intros prefix e. cbn. split; [|split; [done|]].
    + apply (NoDup_fmap_2_strong fst); [|apply NoDup_filter, NoDup_map_to_list].
      intros [a p] [b q] [_ Ha%elem_of_map_to_list]%list_elem_of_filter [_ Hb%elem_of_map_to_list]%list_elem_of_filter. cbn. intros <-. congruence.
    + intros key kv. rewrite list_elem_of_filter, elem_of_map_to_list. done.
  - intros l e. cbn. split; [done|]. split; [lia|]. done.
Defined.

(** ** An encoding *)

Definition lease_fields (r : leaseStoreRecord) : list positive :=
  [encode (r_ID r); encode (r_Service r); encode (r_Address r); encode (r_Status r); encode (r_Labels r);
   encode (r_LastSeenUnixNanos r); encode (r_RegistrationEpoch r); encode (r_OwnerToken r)].

Definition fields_lease (ps : list positive) : option leaseStoreRecord :=
  match ps with
  | [p1; p2; p3; p4; p5; p6; p7; p8] =>
      id ← decode p1; service ← decode p2; address ← decode p3; status ← decode p4; labels ← decode p5; seen ← decode p6;
      epoch ← decode p7; token ← decode p8;
      Some {| r_ID := id; r_Service := service; r_Address := address; r_Status := status; r_Labels := labels;
              r_LastSeenUnixNanos := seen; r_RegistrationEpoch := epoch; r_OwnerToken := token |}
  | _ => None
  end.

#[local] Instance demo_lease_json : LeaseJson := {
  marshal_lease r := Some (positive_bytes (encode (lease_fields (omit_record r))));
  unmarshal_lease bs := p ← bytes_positive bs; ps ← decode p; fields_lease ps
}.

#[local] Instance demo_lease_json_law : LeaseJsonLaw.
Proof.
  intros inst _. eexists. split; [reflexivity|]. cbn [unmarshal_lease demo_lease_json]. rewrite bytes_positive_bytes. cbn [mbind option_bind].
  rewrite decode_encode. cbn [mbind option_bind]. unfold fields_lease, lease_fields. by do 8 (rewrite decode_encode; cbn [mbind option_bind]).
Qed.

(** ** Schedules *)

Inductive action :=
| Begin (n : nat) (c : call)
| Deliver (n : nat)      (** the next request of the call, answered *)
| Refuse (n : nat)       (** not carried out *)
| LoseAnswer (n : nat)   (** carried out, the answer lost *)
| EndLease (l : Z)
| Clock (now : Z).

Definition demo_prefix : string := cleanLeaseStorePrefix "".

Definition advance (s : @system demo_etcd) (n : nat) (pick : forall R, request R -> option R * demo_etcd) : option (@system demo_etcd) :=
  th ← calls s !! n;
  match t_rest th with
  | Ret _ => None
  | Req r k => let '(ans, e') := pick _ r in
      Some {| store := e'; clock := clock s;
              calls := <[n := {| t_call := t_call th; t_history := t_history th ++ [Build_moment (clock s) (store s) e']; t_rest := k ans |}]> (calls s) |}
  end.

Definition act (s : @system demo_etcd) (a : action) : option (@system demo_etcd) :=
  match a with
  | Begin n c => if decide (calls s !! n = None :> option thread) is left _ then
      Some {| store := store s; clock := clock s; calls := <[n := {| t_call := c; t_history := []; t_rest := program demo_prefix c |}]> (calls s) |} else None
  | Deliver n => advance s n (fun R r => perform r (clock s) (store s))
  | Refuse n => advance s n (fun R r => (None, store s))
  | LoseAnswer n => advance s n (fun R r => (None, (perform r (clock s) (store s)).2))
  | EndLease l => d ← d_leases (store s) !! l;
      if d <=? clock s then Some {| store := etcd_Revoke l (store s); clock := clock s; calls := calls s |} else None
  | Clock now => if clock s <=? now then Some {| store := store s; clock := now; calls := calls s |} else None
  end.

Definition run (acts : list action) (s : @system demo_etcd) : option (@system demo_etcd) := foldl (fun s a => s ≫= fun s => act s a) (Some s) acts.

Definition action_safe (a : action) : Prop := match a with Begin _ c => call_safe c | _ => True end.

Lemma advance_sound s n pick s' :
  advance s n pick = Some s' -> (forall R (r : request R), seen_as r (clock s) (store s) (pick R r).1 (pick R r).2) -> sys_step demo_prefix s s'.
Proof.
  unfold advance. intros Hs Hpick. destruct (calls s !! n) as [th|] eqn:En; [|done]. cbn in Hs. destruct (t_rest th) as [|R r k] eqn:Er; [done|].
  specialize (Hpick R r). destruct (pick R r) as [ans e']. injection Hs as <-. by eapply do_request.
Qed.

Lemma act_sound s a s' : action_safe a -> act s a = Some s' -> sys_step demo_prefix s s'.
Proof.
  unfold act. intros Hsafe Hs. destruct a as [n c|n|n|n|l|now].
  - destruct (decide _) as [Hn|]; [|done]. injection Hs as <-. by apply begin_call.
  - eapply advance_sound; [done|]. intros R r. unfold seen_as. destruct (perform r (clock s) (store s)). by left.
  - eapply advance_sound; [done|]. intros R r. unfold seen_as. destruct (perform r (clock s) (store s)). cbn. auto.
  - eapply advance_sound; [done|]. intros R r. unfold seen_as. destruct (perform r (clock s) (store s)). cbn. auto.
  - destruct (d_leases (store s) !! l) as [d|] eqn:El; [|done]. cbn in Hs. destruct (Z.leb_spec d (clock s)) as [Hd|]; [|done].
    injection Hs as <-. exact (lease_ends _ s l d El Hd).
  - destruct (Z.leb_spec (clock s) now); [|done]. injection Hs as <-. by apply time_passes.
Qed.

Lemma schedule_sound acts s s' : Forall action_safe acts -> run acts s = Some s' -> rtc (sys_step demo_prefix) s s'.
Proof.
  revert s. induction acts as [|a acts IH]; intros s Hsafe Hrun; [injection Hrun as <-; constructor|].
  apply Forall_cons in Hsafe as [Ha Hsafe]. unfold run in Hrun. cbn in Hrun. destruct (act s a) as [s1|] eqn:Ea.
  - eapply rtc_l; [by eapply act_sound|]. by apply IH.
  - exfalso. clear -Hrun. induction acts; [done|by apply IHacts].
Qed.

(** ** Examples *)

Definition demo_start : @system demo_etcd := started {| d_kvs := ∅; d_rev := 1; d_leases := ∅; d_granted := ∅ |} 0.

Definition demo_instance (id : string) : Instance := {|
  ID := id; Service := "orders"; Address := "10.0.0.1:80"; Status_ := Unspecified; Labels := None; LastSeen := 0;
  RegistrationEpoch := ""; OwnerToken := "" |}.

Definition demo_register (id : string) : call := CRegister false (demo_instance id) second 5 "epoch" "token".
Definition demo_heartbeat : call := CHeartbeat false "orders" "a" "epoch" "token" second 7 true true.

Lemma text_safe_demo id : ValidString id = true -> call_safe (demo_register id).
Proof. intros Hid. repeat split; try done. Qed.

#[local] Hint Extern 1 (action_safe _) => (cbn [action_safe]; first [exact I | by apply text_safe_demo | done]) : core.

(** What can be seen of a system: the rows, and what the calls answered. *)
Definition rows (s : @system demo_etcd) : list (string * string) := (map_to_list (leases_of (store s))).*1.
Definition answer_of (n : nat) (s : @system demo_etcd) : option answer := calls s !! n ≫= reply.

Lemma run_shows acts (P : @system demo_etcd -> Prop) :
  Forall action_safe acts -> match run acts demo_start with Some s => P s | None => False end ->
  exists s, rtc (sys_step demo_prefix) demo_start s /\ P s.
Proof. intros Hsafe HP. destruct (run acts demo_start) as [s|] eqn:Er; [|done]. exists s. split; [|done]. by eapply schedule_sound. Qed.

Ltac schedule acts := apply (run_shows acts); [repeat (constructor; [by eauto|]); constructor|by vm_compute].

(** A heartbeat is carried out but its answer is lost.  The code revokes the lease it
    had asked for, and with it the row: the instance is gone although its lease was
    renewed in time. *)
Lemma lost_answer_unregisters :
  exists s, rtc (sys_step demo_prefix) demo_start s /\ clock s = 0 /\
    answer_of 0 s = Some (Replied None) /\ answer_of 1 s = Some (Replied (Some StoreErr)) /\ rows s = [].
Proof.
  schedule [Begin 0 (demo_register "a"); Deliver 0; Deliver 0; Begin 1 demo_heartbeat; Deliver 1; Deliver 1; LoseAnswer 1; Deliver 1].
Qed.

(** Of two heartbeats at once, both entitled, one is told that the instance does not exist. *)
Lemma heartbeats_collide :
  exists s, rtc (sys_step demo_prefix) demo_start s /\ clock s = 0 /\
    answer_of 1 s = Some (Replied None) /\ answer_of 2 s = Some (Replied (Some (LeaseErr ErrInstanceNotFound))) /\
    rows s = [("orders", "a")]%string.
Proof.
  schedule [Begin 0 (demo_register "a"); Deliver 0; Deliver 0; Begin 1 demo_heartbeat; Begin 2 demo_heartbeat; Deliver 1; Deliver 2;
            Deliver 1; Deliver 1; Deliver 1; Deliver 2; Deliver 2; Deliver 2].
Qed.

(** What the controller shows of such a snapshot, without health. *)
Definition lease_view (snap : InstanceSnapshot) : instancesView := {|
  shown := show_instance None <$> Instances snap; view_version := combineInstancesVersion (Version snap) 0;
  registryVersion := Version snap; healthVersion := 0 |}.

(** The end of the lease is noticed by the watch of the registry, which gives its snapshot
    the revision of the store; but the controller then reads a snapshot of its own, with
    the old version, and sends nothing: clients keep the instance. *)
Lemma expiry_not_sent :
  exists s, rtc (sys_step demo_prefix) demo_start s /\
    match answer_of 2 s, answer_of 3 s with
    | Some (Listed (inr before)), Some (Listed (inr after)) =>
        ID <$> Instances before = ["a"; "b"]%string /\ ID <$> Instances after = ["b"]%string /\
        Version <$> (ls_watch_turn (Version before) (d_rev (store s)) after).1 = Some (d_rev (store s)) /\
        (sendInstancesIfChanged (lease_view after) (view_version (lease_view before))).1 = None
    | _, _ => False
    end.
Proof.
  apply (run_shows [Begin 0 (demo_register "a"); Deliver 0; Deliver 0; Clock 10; Begin 1 (demo_register "b"); Deliver 1; Deliver 1;
            Begin 2 (CSnapshot false "orders"); Deliver 2; Clock second; EndLease 1; Begin 3 (CSnapshot false "orders"); Deliver 3]).
  - repeat (constructor; [by eauto|]). constructor.
  - by vm_compute.
Qed.

(** The contract on the schedule of two heartbeats at once. *)
Lemma shared_registry_contract_witness :
  exists s th, rtc (sys_step demo_prefix) demo_start s /\ calls s !! 1%nat = Some th /\ reply th = Some (Replied None) /\
    t_call th = demo_heartbeat /\ contract demo_heartbeat (t_history th) (Some (Replied None)).
Proof.
  destruct (run_shows [Begin 0 (demo_register "a"); Deliver 0; Deliver 0; Begin 1 demo_heartbeat; Begin 2 demo_heartbeat; Deliver 1; Deliver 2;
                       Deliver 1; Deliver 1; Deliver 1; Deliver 2; Deliver 2; Deliver 2]
              (fun s => answer_of 1 s = Some (Replied None) /\ t_call <$> calls s !! 1%nat = Some demo_heartbeat)) as (s & Hs & Ha & Hc).
  - repeat (constructor; [by eauto|]). constructor.
  - by vm_compute.
  - destruct (calls s !! 1%nat) as [th|] eqn:Eth; [|done]. unfold answer_of in Ha. rewrite Eth in Ha. cbn in Ha, Hc. injection Hc as Hc.
    exists s, th. split; [done|]. split; [done|]. split; [done|]. split; [done|]. rewrite <- Ha, <- Hc.
    apply (proj1 (shared_registry_contract demo_prefix {| d_kvs := ∅; d_rev := 1; d_leases := ∅; d_granted := ∅ |} 0 s
                    ltac:(split; [done|split; [cbn; lia|intros l d Hl; done]]) Hs) 1%nat th Eth).
Defined.
