(* ===== verification/PolicyEtcd.v ===== *)
(** * Policies in etcd ([pkg/policy/etcd_store.go])

    The store reads all policies once and then follows etcd's changes; whenever a
    watch ends it reads all of them again.  etcd is seen through the history of its
    changes: [list_answer] and [watch_answer] say what is documented of the answers to a
    read and of the responses of a watch.  Decoding a policy ([proto.Unmarshal]) is a
    parameter. *)
From Stdlib Require Import Ascii String.
From stdpp Require Import sorting.
From S2P Require Import Prelude GoStd GoFloat GoSort GoText GoUrl PolicyTypes Policy.

(** ** Keys *)

Definition HasSuffix (s p : string) : bool :=
  (length (to_chars p) <=? length (to_chars s))%nat &&
  bool_decide (drop (length (to_chars s) - length (to_chars p)) (to_chars s) = to_chars p).

Definition TrimSuffix (s p : string) : string :=
  if HasSuffix s p then of_chars (take (length (to_chars s) - length (to_chars p)) (to_chars s)) else s.

Definition TrimPrefix (s p : string) : string := if HasPrefix s p then skip (length (to_chars p)) s else s.

Definition normalizeEtcdPolicyPrefix (prefix : string) : string :=
  let prefix := TrimSpace prefix in
  let prefix := if bool_decide (prefix = ""%string) then "/aegismesh/policy/v1"%string else prefix in
  let prefix := if HasPrefix prefix "/" then prefix else ("/" ++ prefix)%string in
  TrimRight "/" (Clean_rooted prefix).

Definition policyServicePrefix (prefix : string) : string := normalizeEtcdPolicyPrefix prefix ++ "/services/".

Definition PolicyServiceKey (prefix service : string) : string :=
  policyServicePrefix prefix ++ (PathEscape (TrimSpace service) ++ "/snapshot").

Definition serviceFromPolicyKey (servicesPrefix key : string) : option string :=
  if negb (HasPrefix key servicesPrefix) || negb (HasSuffix key "/snapshot") then None
  else
    let escaped := TrimSuffix (TrimPrefix key servicesPrefix) "/snapshot" in
    if bool_decide (escaped = ""%string \/ "/"%char ∈ to_chars escaped) then None
    else match PathUnescape escaped with
         | None => None
         | Some service => if bool_decide (service = ""%string) then None else Some service
         end.

(** ** Values *)

Record policyKV := { pk_Key : string; pk_Value : list Z; pk_ModRevision : Z }.

Record policyWatchEvent := { we_Revision : Z; we_Puts : list policyKV; we_Deletes : list string; we_Err : bool }.

(** [policies] holds no nil. *)
Record EtcdStore := { es_revision : Z; es_policies : gmap string PolicySnapshot }.

Definition stamp (service : string) (revision : Z) (p : PolicySnapshot) : PolicySnapshot := {|
  p_Service := service; Revision := revision; pb_RoutingPolicy := pb_RoutingPolicy p; p_Retry := p_Retry p;
  OutlierDetection := OutlierDetection p; MaxInflight := MaxInflight p; Methods := Methods p |}.

Section Store.
Context (unmarshal : list Z -> option PolicySnapshot) (servicesPrefix : string).

(** [None] is an error, [Some None] a key that names no service. *)
Definition snapshotFromEtcdKV (kv : policyKV) : option (option PolicySnapshot) :=
  match serviceFromPolicyKey servicesPrefix (pk_Key kv) with
  | None => Some None
  | Some service => p ← unmarshal (pk_Value kv); Some (Some (stamp service (pk_ModRevision kv) p))
  end.

Fixpoint collect_snapshots (policies : gmap string PolicySnapshot) (kvs : list policyKV) : option (gmap string PolicySnapshot) :=
  match kvs with
  | [] => Some policies
  | kv :: kvs =>
      x ← snapshotFromEtcdKV kv;
      collect_snapshots (match x with Some p => <[p_Service p := p]> policies | None => policies end) kvs
  end.

Definition snapshotsFromEtcdKVs (kvs : list policyKV) : option (gmap string PolicySnapshot) := collect_snapshots ∅ kvs.

(** [listed] is the answer to [List]; [None] is an error. *)
Definition reloadFull (listed : option (list policyKV * Z)) (s : EtcdStore) : option Z * EtcdStore :=
  match listed with
  | None => (None, s)
  | Some (kvs, revision) =>
      match snapshotsFromEtcdKVs kvs with
      | None => (None, s)
      | Some policies => (Some revision, {| es_revision := revision; es_policies := policies |})
      end
  end.

(** [None] is an error.  The puts are a map: the order of its traversal does not matter. *)
Definition applyWatchEvent (event : policyWatchEvent) (s : EtcdStore) : option EtcdStore :=
  puts ← collect_snapshots ∅ (we_Puts event);
  let deletes := omap (serviceFromPolicyKey servicesPrefix) (we_Deletes event) in
  Some (if (0 <? we_Revision event) && (we_Revision event <? es_revision s) then s
        else {| es_revision := if es_revision s <? we_Revision event then we_Revision event else es_revision s;
                es_policies := foldl (fun m service => delete service m) (puts ∪ es_policies s) deletes |}).

Definition newEtcdStoreWithKV (listed : option (list policyKV * Z)) : option (Z * EtcdStore) :=
  match reloadFull listed {| es_revision := 0; es_policies := ∅ |} with
  | (Some revision, s) => Some (revision, s)
  | (None, _) => None
  end.
End Store.

Definition EtcdStore_Get (s : EtcdStore) (service : string) : option PolicySnapshot := es_policies s !! service.

Definition EtcdStore_List (visit : policy_order) (s : EtcdStore) : list PolicySnapshot :=
  Slice (by_keys (fun p => [p_Service p])) (visit (es_policies s)).*2.

(** ** The client ([etcdPolicyKVStore]) *)

(** An event of etcd: a change of a key, [None] its deletion. *)
Record change := { c_Key : string; c_Value : option (list Z); c_ModRevision : Z }.

Definition kv_of_put (c : change) : option policyKV :=
  (fun v => {| pk_Key := c_Key c; pk_Value := v; pk_ModRevision := c_ModRevision c |}) <$> c_Value c.
Definition key_of_delete (c : change) : option string := match c_Value c with None => Some (c_Key c) | Some _ => None end.

(** What the forwarding goroutine of [Watch] makes of a response; [Err] and [Canceled] are one flag. *)
Definition forward (revision : Z) (err : bool) (events : list change) : policyWatchEvent :=
  if err then {| we_Revision := revision; we_Puts := []; we_Deletes := []; we_Err := true |}
  else {| we_Revision := revision; we_Puts := omap kv_of_put events; we_Deletes := omap key_of_delete events;
          we_Err := false |}.

(** ** The watch loop *)

(** The keys after a history. *)
Definition apply_change (m : gmap string (list Z * Z)) (c : change) : gmap string (list Z * Z) :=
  match c_Value c with Some v => <[c_Key c := (v, c_ModRevision c)]> m | None => delete (c_Key c) m end.

Definition kvs_of (h : list change) : gmap string (list Z * Z) := foldl apply_change ∅ h.

(** The changes up to revision [b]. *)
Definition upto (b : Z) (h : list change) : list change := filter (fun c => c_ModRevision c <= b) h.

(** Those after revision [a], up to [b]. *)
Definition between (a b : Z) (h : list change) : list change := filter (fun c => a < c_ModRevision c <= b) h.

(** [Calling]: the loop is about to open a watch.  [Receiving]: on a watch that has sent the
    changes up to revision [sent] and is still open or not, events wait in the channel.
    [Backoff]: it waits and then reads everything. *)
Inductive phase :=
| Calling
| Receiving (sent : Z) (open : bool) (pending : list policyWatchEvent)
| Backoff
| Stopped.

Record watcher := { w_history : list change; w_rev : Z; w_store : EtcdStore; w_after : Z; w_phase : phase }.

Definition at_phase (w : watcher) (p : phase) : watcher :=
  {| w_history := w_history w; w_rev := w_rev w; w_store := w_store w; w_after := w_after w; w_phase := p |}.

Section Loop.
Context (unmarshal : list Z -> option PolicySnapshot) (servicesPrefix : string).
(** Which changes are written, and which responses etcd sends: the revision of the last
    change in it, the revision of the response, the changes. *)
Context (writes : change -> Prop) (sends : Z -> Z -> list change -> Prop).

(** A read of the prefix. *)
Definition list_answer (h : list change) (rev : Z) (kvs : list policyKV) (revision : Z) : Prop :=
  revision = rev /\ NoDup (pk_Key <$> kvs) /\
  forall key v r, {| pk_Key := key; pk_Value := v; pk_ModRevision := r |} ∈ kvs <->
    HasPrefix key servicesPrefix = true /\ kvs_of h !! key = Some (v, r).

(** A response of a watch that has sent everything up to [sent]: the next changes of the
    prefix, up to revision [last]; its own revision [revision] may be later. *)
Definition watch_answer (h : list change) (rev sent last revision : Z) (events : list change) : Prop :=
  sent <= last <= revision /\ revision <= rev /\
  events = filter (fun c => HasPrefix (c_Key c) servicesPrefix = true) (between sent last h) /\ sends last revision events.

(** One event: the revision to watch from, the store, and whether to read everything again. *)
Definition receive (event : policyWatchEvent) (after : Z) (s : EtcdStore) : Z * EtcdStore * bool :=
  if we_Err event then (after, s, true)
  else
    let after := if 0 <? we_Revision event then we_Revision event else after in
    match applyWatchEvent unmarshal servicesPrefix event s with
    | None => (after, s, true)
    | Some s => (after, s, false)
    end.

Definition resync (listed : option (list policyKV * Z)) (currentRevision : Z) (s : EtcdStore) : Z * EtcdStore :=
  match reloadFull unmarshal servicesPrefix listed s with
  | (None, s) => (currentRevision, s)
  | (Some revision, s) => (revision, s)
  end.

Inductive watch_step (w : watcher) : watcher -> Prop :=
| commit cs : Forall (fun c => c_ModRevision c = w_rev w + 1 /\ writes c) cs -> NoDup (c_Key <$> cs) ->
    watch_step w {| w_history := w_history w ++ cs; w_rev := w_rev w + 1; w_store := w_store w; w_after := w_after w; w_phase := w_phase w |}
| watch_error : w_phase w = Calling -> watch_step w (at_phase w Backoff)
| watch_opens : w_phase w = Calling ->
    watch_step w (at_phase w (Receiving (if 0 <? w_after w then w_after w else w_rev w) true []))
| response sent pending last revision events :
    w_phase w = Receiving sent true pending -> watch_answer (w_history w) (w_rev w) sent last revision events ->
    watch_step w (at_phase w (Receiving last true (pending ++ [forward revision false events])))
| response_error sent pending revision : w_phase w = Receiving sent true pending ->
    watch_step w (at_phase w (Receiving sent false (pending ++ [forward revision true []])))
| watch_closes sent pending : w_phase w = Receiving sent true pending -> watch_step w (at_phase w (Receiving sent false pending))
| event sent open e pending after s again : w_phase w = Receiving sent open (e :: pending) ->
    receive e (w_after w) (w_store w) = (after, s, again) ->
    watch_step w {| w_history := w_history w; w_rev := w_rev w; w_store := s; w_after := after;
                    w_phase := if again : bool then Backoff else Receiving sent open pending |}
| channel_closed sent : w_phase w = Receiving sent false [] -> watch_step w (at_phase w Backoff)
| reload listed after s : w_phase w = Backoff ->
    (forall kvs revision, listed = Some (kvs, revision) -> list_answer (w_history w) (w_rev w) kvs revision) ->
    resync listed (w_after w) (w_store w) = (after, s) ->
    watch_step w {| w_history := w_history w; w_rev := w_rev w; w_store := s; w_after := after; w_phase := Calling |}
| cancelled : watch_step w (at_phase w Stopped).

(** A store that has just been made, on an etcd with this history. *)
Inductive watch_started : watcher -> Prop :=
| started_at h rev kvs revision after s :
    StronglySorted (fun c d => c_ModRevision c <= c_ModRevision d) h -> Forall (fun c => 0 < c_ModRevision c <= rev /\ writes c) h ->
    NoDup ((fun c => (c_Key c, c_ModRevision c)) <$> h) -> 0 < rev ->
    list_answer h rev kvs revision -> newEtcdStoreWithKV unmarshal servicesPrefix (Some (kvs, revision)) = Some (after, s) ->
    watch_started {| w_history := h; w_rev := rev; w_store := s; w_after := after; w_phase := Calling |}.
End Loop.

(** ** What the store should hold *)

Section Expected.
Context (unmarshal : list Z -> option PolicySnapshot) (servicesPrefix : string).

Definition snapshot_key (service : string) : string := servicesPrefix ++ (PathEscape service ++ "/snapshot").

(** The policy of a service after a history: the value of its key, under its name and the revision of the last change. *)
Definition expected (h : list change) (service : string) : option PolicySnapshot :=
  if bool_decide (service = ""%string) then None
  else x ← kvs_of h !! snapshot_key service; stamp service x.2 <$> unmarshal x.1.

(** A key of a service is the one [PolicyServiceKey] makes, and its value a policy. *)
Definition well_written (c : change) : Prop :=
  forall service, serviceFromPolicyKey servicesPrefix (c_Key c) = Some service ->
    c_Key c = snapshot_key service /\ forall v, c_Value c = Some v -> is_Some (unmarshal v).

(** A response that has all changes up to its revision, none of them the return of a key deleted in it. *)
Definition orderly (last revision : Z) (events : list change) : Prop :=
  last = revision /\
  forall a c b d e, events = a ++ c :: b ++ d :: e -> c_Value c = None -> c_Key d = c_Key c -> c_Value d = None.
End Expected.
