(* ===== verification/PolicyEtcdSpec.v ===== *)
(** * Policies in etcd follow its changes

    The cache of the policy store is always the state of etcd at one revision, which
    only grows, and what its streams send follows it; with the two ways in which it
    is left behind. *)
From Stdlib Require Import Ascii String.
From stdpp Require Import sorting.
From S2P Require Import Prelude GoStd GoFloat GoSort GoText GoUrl PolicyTypes Policy PolicyEtcd.

(** ** Keys *)

Lemma HasSuffix_app a b : HasSuffix (a ++ b) b = true.
Proof.
  unfold HasSuffix. rewrite to_chars_app, length_app. apply andb_true_intro. split; [apply Nat.leb_le; lia|].
  apply bool_decide_eq_true_2. replace (_ + _ - _)%nat with (length (to_chars a)) by lia. apply drop_app_length.
Qed.

Lemma TrimSuffix_app a b : TrimSuffix (a ++ b) b = a.
Proof.
  unfold TrimSuffix. rewrite HasSuffix_app, to_chars_app, length_app.
  replace (_ + _ - _)%nat with (length (to_chars a)) by lia. rewrite take_app_length. apply of_to_chars.
Qed.

Lemma TrimPrefix_app a b : TrimPrefix (a ++ b) a = b.
Proof. unfold TrimPrefix. rewrite HasPrefix_app. unfold skip. rewrite to_chars_app, drop_app_length. apply of_to_chars. Qed.

Section Keys.
Context (servicesPrefix : string).

Lemma service_of_snapshot_key service :
  service <> ""%string -> serviceFromPolicyKey servicesPrefix (snapshot_key servicesPrefix service) = Some service.
Proof.
  intros Hs. unfold serviceFromPolicyKey, snapshot_key. rewrite HasPrefix_app.
  rewrite <- (string_app_assoc servicesPrefix), HasSuffix_app, string_app_assoc, TrimPrefix_app, TrimSuffix_app. cbn [negb orb].
  rewrite bool_decide_eq_false_2 by (rewrite PathEscape_empty; pose proof (PathEscape_no_slash service); tauto).
  by rewrite PathUnescape_PathEscape, bool_decide_eq_false_2.
Qed.

Lemma service_not_empty key : serviceFromPolicyKey servicesPrefix key <> Some ""%string.
Proof.
  unfold serviceFromPolicyKey. repeat case_match; try done. intros [= ->]. done.
Qed.

Lemma service_prefixed key service : serviceFromPolicyKey servicesPrefix key = Some service -> HasPrefix key servicesPrefix = true.
Proof. unfold serviceFromPolicyKey. by destruct (HasPrefix key servicesPrefix). Qed.

Lemma snapshot_key_inj s t : s <> ""%string -> t <> ""%string -> snapshot_key servicesPrefix s = snapshot_key servicesPrefix t -> s = t.
Proof. intros Hs Ht Hk. apply (f_equal (serviceFromPolicyKey servicesPrefix)) in Hk. rewrite !service_of_snapshot_key in Hk by done. congruence. Qed.

End Keys.

(** The keys [PolicyServiceKey] makes. *)
Lemma PolicyServiceKey_service prefix service :
  TrimSpace service <> ""%string ->
  serviceFromPolicyKey (policyServicePrefix prefix) (PolicyServiceKey prefix service) = Some (TrimSpace service).
Proof. apply (service_of_snapshot_key (policyServicePrefix prefix)). Qed.

(** ** One change after another *)

Lemma kvs_of_snoc h c : kvs_of (h ++ [c]) = apply_change (kvs_of h) c.
Proof. unfold kvs_of. by rewrite foldl_app. Qed.

(** What is stored was written. *)
Lemma kvs_of_written h key v r :
  kvs_of h !! key = Some (v, r) -> exists c, c ∈ h /\ c_Key c = key /\ c_Value c = Some v /\ c_ModRevision c = r.
Proof.
  induction h as [|c h IH] using rev_ind; [done|]. rewrite kvs_of_snoc. unfold apply_change. destruct (c_Value c) as [v'|] eqn:Ev.
  - rewrite lookup_insert_Some. intros [[<- [= <- <-]]|[_ Hk]]; [exists c; set_solver|]. destruct (IH Hk) as (d & ? & ?). exists d. set_solver.
  - rewrite lookup_delete_Some. intros [_ Hk]. destruct (IH Hk) as (d & ? & ?). exists d. set_solver.
Qed.

Section Follow.
Context (unmarshal : list Z -> option PolicySnapshot) (servicesPrefix : string).

Abbreviation expected := (expected unmarshal servicesPrefix).
Abbreviation well_written := (well_written unmarshal servicesPrefix).
Abbreviation service_of := (serviceFromPolicyKey servicesPrefix).

Definition reflects (m : gmap string PolicySnapshot) (h : list change) : Prop := forall service, m !! service = expected h service.

Definition update (m : gmap string PolicySnapshot) (c : change) : gmap string PolicySnapshot :=
  match service_of (c_Key c), c_Value c with
  | None, _ => m
  | Some service, None => delete service m
  | Some service, Some v => match unmarshal v with Some p => <[service := stamp service (c_ModRevision c) p]> m | None => m end
  end.

Lemma update_reflects m h c : well_written c -> reflects m h -> reflects (update m c) (h ++ [c]).
Proof.
  intros Hw Hm s. unfold expected. rewrite kvs_of_snoc. unfold update, apply_change. specialize (Hm s). unfold expected in Hm.
  destruct (service_of (c_Key c)) as [t|] eqn:Et.
  - destruct (Hw t Et) as [Hk Hv]. assert (t <> ""%string) as Ht by (intros ->; by apply service_not_empty in Et).
    destruct (decide (s = t)) as [->|Hst].
    + rewrite bool_decide_eq_false_2 in Hm |- * by done. rewrite Hk. destruct (c_Value c) as [v|].
      * destruct (Hv v eq_refl) as [p Hp]. rewrite Hp, !lookup_insert_eq. cbn. by rewrite Hp.
      * by rewrite !lookup_delete_eq.
    + rewrite Hk. case_bool_decide as Hs.
      * destruct (c_Value c) as [v|]; [destruct (unmarshal v)|]; by rewrite ?lookup_insert_ne, ?lookup_delete_ne by done.
      * assert (snapshot_key servicesPrefix t <> snapshot_key servicesPrefix s) by (intros ?%snapshot_key_inj; congruence).
        destruct (c_Value c) as [v|]; [destruct (unmarshal v)|]; by rewrite ?lookup_insert_ne, ?lookup_delete_ne by done.
  - case_bool_decide as Hs; [done|].
    assert (c_Key c <> snapshot_key servicesPrefix s) by (intros Hk; by rewrite Hk, service_of_snapshot_key in Et).
    by destruct (c_Value c); rewrite ?lookup_insert_ne, ?lookup_delete_ne by done.
Qed.

(** ** One event *)

Lemma collect_snoc acc kvs kv :
  collect_snapshots unmarshal servicesPrefix acc (kvs ++ [kv]) =
  (m ← collect_snapshots unmarshal servicesPrefix acc kvs; x ← snapshotFromEtcdKV unmarshal servicesPrefix kv;
   Some (match x with Some p => <[p_Service p := p]> m | None => m end)).
Proof.
  revert acc. induction kvs as [|kv' kvs IH]; intros acc; cbn [app collect_snapshots]; [by destruct (snapshotFromEtcdKV _ _ kv)|].
  destruct (snapshotFromEtcdKV unmarshal servicesPrefix kv') as [x|]; [apply IH|done].
Qed.

Lemma delete_all_insert l m s p :
  s ∉ l -> foldl (fun m service => delete service m) (<[s := p]> m) l
           = <[s := p]> (foldl (fun (m : gmap string PolicySnapshot) service => delete service m) m l).
Proof.
  revert m. induction l as [|t l IH]; intros m Hs; [done|]. cbn. rewrite delete_insert_ne by set_solver. apply IH. set_solver.
Qed.

Lemma orderly_prefix last r l c : orderly last r (l ++ [c]) -> orderly last r l.
Proof. intros [-> Ho]. split; [done|]. intros a x b d e -> . apply (Ho a x b d (e ++ [c])). by rewrite <- !app_assoc, <- !app_comm_cons, <- !app_assoc. Qed.

(** A put in an orderly response is of a service not deleted in it. *)
Lemma orderly_put last r l c v service :
  orderly last r (l ++ [c]) -> Forall well_written (l ++ [c]) -> c_Value c = Some v -> service_of (c_Key c) = Some service ->
  service ∉ omap service_of (omap key_of_delete l).
Proof.
  intros [_ Ho] Hw Hv Hs (k & (d & Hd & Hk)%list_elem_of_omap & Hks)%list_elem_of_omap.
  unfold key_of_delete in Hk. destruct (c_Value d) eqn:Ed; [done|]. injection Hk as <-. apply list_elem_of_split in Hd as (a & b & ->).
  rewrite Forall_forall in Hw. destruct (Hw c ltac:(set_solver) _ Hs) as [Hkc _]. destruct (Hw d ltac:(set_solver) _ Hks) as [Hkd _].
  rewrite (Ho a d b c []) in Hv; [done|by rewrite <- app_assoc|done|congruence].
Qed.

(** The puts of an event are applied before its deletions; in an orderly one that is as good as in order. *)
Lemma event_in_order last r m events :
  Forall well_written events -> orderly last r events ->
  exists puts, collect_snapshots unmarshal servicesPrefix ∅ (omap kv_of_put events) = Some puts /\
    foldl (fun m service => delete service m) (puts ∪ m) (omap service_of (omap key_of_delete events)) = foldl update m events.
Proof.
  induction events as [|c events IH] using rev_ind; intros Hw Ho; [exists ∅; by rewrite (left_id_L ∅ (∪))|].
  pose proof Hw as [Hw' Hc]%Forall_app. rewrite Forall_singleton in Hc. destruct (IH Hw' (orderly_prefix _ _ _ _ Ho)) as (puts & Hp & Hm).
  rewrite !omap_app, !foldl_app, <- Hm. cbn [omap list_omap foldl]. unfold kv_of_put at 2, key_of_delete at 2, update.
  destruct (c_Value c) as [v|] eqn:Ev; cbn [fmap option_fmap option_map].
  - change (omap service_of []) with (@nil string). rewrite app_nil_r, collect_snoc, Hp. cbn [mbind option_bind]. unfold snapshotFromEtcdKV. cbn [pk_Key pk_Value pk_ModRevision].
    destruct (service_of (c_Key c)) as [s|] eqn:Es; cbn [mbind option_bind foldl]; [|by exists puts]. destruct (proj2 (Hc s Es) v Ev) as [p Hpv]. rewrite Hpv.
    cbn [mbind option_bind]. eexists. split; [done|]. cbn [p_Service stamp]. rewrite <- insert_union_l. apply delete_all_insert. by eapply orderly_put.
  - exists puts. rewrite app_nil_r. split; [done|]. cbn.
    by destruct (service_of (c_Key c)); rewrite ?foldl_app, ?app_nil_r.
Qed.

(** Changes of other keys do not matter. *)
Lemma updates_reflect m h cs :
  Forall well_written cs -> reflects m h ->
  reflects (foldl update m (filter (fun c => HasPrefix (c_Key c) servicesPrefix = true) cs)) (h ++ cs).
Proof.
  intros Hw Hm. induction cs as [|c cs IH] using rev_ind; [by rewrite app_nil_r|].
  apply Forall_app in Hw as [Hw Hc]. rewrite Forall_singleton in Hc. rewrite filter_app, foldl_app, app_assoc.
  pose proof (update_reflects _ _ c Hc (IH Hw)) as Hu. rewrite filter_cons. case_decide as Hp; [exact Hu|]. cbn.
  unfold update in Hu. destruct (service_of (c_Key c)) as [s|] eqn:Es; [|done]. by apply service_prefixed in Es.
Qed.

(** ** Reading everything *)

Lemma collect_lookup k service kvs acc m :
  service_of k = Some service -> (forall kv, kv ∈ kvs -> service_of (pk_Key kv) = Some service -> pk_Key kv = k) ->
  NoDup (pk_Key <$> kvs) -> collect_snapshots unmarshal servicesPrefix acc kvs = Some m ->
  (forall kv, kv ∈ kvs -> pk_Key kv = k -> m !! service = stamp service (pk_ModRevision kv) <$> unmarshal (pk_Value kv)) /\
  ((forall kv, kv ∈ kvs -> pk_Key kv <> k) -> m !! service = acc !! service).
Proof.
  intros Hk. revert m. induction kvs as [|kv kvs IH] using rev_ind; intros m Hu Hd Hc.
  { injection Hc as <-. split; [intros kv Hkv; by apply not_elem_of_nil in Hkv|done]. }
  rewrite collect_snoc in Hc. destruct (collect_snapshots unmarshal servicesPrefix acc kvs) as [m'|] eqn:Em; [|done]. cbn [mbind option_bind] in Hc.
  rewrite fmap_app, NoDup_app in Hd. destruct Hd as (Hd & Hne & _).
  destruct (IH m' ltac:(set_solver) Hd eq_refl) as [IH1 IH2]. unfold snapshotFromEtcdKV in Hc.
  destruct (service_of (pk_Key kv)) as [t|] eqn:Et; cbn [mbind option_bind] in Hc.
  - destruct (unmarshal (pk_Value kv)) as [p|] eqn:Ep; [|done]. injection Hc as <-. cbn [p_Service stamp].
    destruct (decide (t = service)) as [->|Hts].
    + assert (pk_Key kv = k) as Hkk by (apply Hu; set_solver). split; [|intros Hn; destruct (Hn kv); set_solver].
      intros kv' [Hin| ->%list_elem_of_singleton]%elem_of_app Hk'; [|by rewrite lookup_insert_eq, Ep].
      destruct (Hne (pk_Key kv')); [|rewrite Hk', <- Hkk; set_solver]. by apply list_elem_of_fmap_2.
    + rewrite lookup_insert_ne by done. split; [|intros Hn; apply IH2; set_solver].
      intros kv' [Hin| ->%list_elem_of_singleton]%elem_of_app Hk'; [by apply IH1|]. rewrite Hk' in Et. congruence.
  - injection Hc as <-. split; [|intros Hn; apply IH2; set_solver].
    intros kv' [Hin| ->%list_elem_of_singleton]%elem_of_app Hk'; [by apply IH1|]. rewrite Hk' in Et. congruence.
Qed.

Lemma collect_keyed kvs m service : collect_snapshots unmarshal servicesPrefix ∅ kvs = Some m -> is_Some (m !! service) -> service <> ""%string.
Proof.
  revert m. induction kvs as [|kv kvs IH] using rev_ind; intros m Hc Hm; [injection Hc as <-; by destruct Hm|].
  rewrite collect_snoc in Hc. destruct (collect_snapshots unmarshal servicesPrefix ∅ kvs) as [m'|] eqn:Em; [|done]. cbn [mbind option_bind] in Hc.
  unfold snapshotFromEtcdKV in Hc. destruct (service_of (pk_Key kv)) as [t|] eqn:Et; cbn [mbind option_bind] in Hc; [|injection Hc as <-; by eapply IH].
  destruct (unmarshal (pk_Value kv)) as [p|]; [|done]. injection Hc as <-. cbn [p_Service stamp] in Hm.
  destruct (decide (t = service)) as [->|Hts]; [intros ->; by apply service_not_empty in Et|]. rewrite lookup_insert_ne in Hm by done. by eapply IH.
Qed.

Lemma list_reflects h rev kvs revision m :
  Forall well_written h -> list_answer servicesPrefix h rev kvs revision -> snapshotsFromEtcdKVs unmarshal servicesPrefix kvs = Some m ->
  reflects m h.
Proof.
  intros Hw (_ & Hd & Hin) Hc service. unfold expected. case_bool_decide as Hs.
  { destruct (m !! service) eqn:E; [|done]. by eapply (collect_keyed _ _ service Hc) in Hs. }
  set (k := snapshot_key servicesPrefix service). assert (Hk : service_of k = Some service) by by apply service_of_snapshot_key.
  destruct (collect_lookup k service kvs ∅ m Hk) as [H1 H2]; [|done|done|].
  - intros [key v r] Hkv Hsv. apply Hin in Hkv as [_ (c & Hc' & <- & _)%kvs_of_written]. rewrite Forall_forall in Hw.
    by destruct (Hw c Hc' service Hsv).
  - destruct (kvs_of h !! k) as [[v r]|] eqn:Ek; cbn.
    + apply (H1 {| pk_Key := k; pk_Value := v; pk_ModRevision := r |}); [|done]. apply Hin. split; [by eapply service_prefixed|done].
    + rewrite H2; [apply lookup_empty|]. intros [key v r] Hkv Hkk. apply Hin in Hkv as [_ Hkv]. cbn in Hkk. subst key. congruence.
Qed.

(** ** The invariant of the loop *)

Abbreviation step := (watch_step unmarshal servicesPrefix well_written orderly).
Abbreviation begun := (watch_started unmarshal servicesPrefix well_written).
Abbreviation of_prefix := (filter (fun c => HasPrefix (c_Key c) servicesPrefix = true)).

(** The events that wait lead from revision [a] to [sent]; after an error nothing is known, and nothing is read. *)
Fixpoint chain (h : list change) (rev a : Z) (pending : list policyWatchEvent) (sent : Z) : Prop :=
  match pending with
  | [] => a = sent
  | e :: pending =>
      we_Err e = true \/
      exists r, a <= r <= rev /\ e = forward r false (of_prefix (between a r h)) /\ orderly r r (of_prefix (between a r h)) /\ chain h rev r pending sent
  end.

Record watch_inv (w : watcher) : Prop := {
  wi_sorted : StronglySorted (fun c d => c_ModRevision c <= c_ModRevision d) (w_history w);
  wi_written : Forall (fun c => 0 < c_ModRevision c <= w_rev w /\ well_written c) (w_history w);
  wi_distinct : NoDup ((fun c => (c_Key c, c_ModRevision c)) <$> w_history w);
  wi_after : w_after w = es_revision (w_store w);
  wi_revision : 0 < es_revision (w_store w) <= w_rev w;
  wi_cache : reflects (es_policies (w_store w)) (upto (es_revision (w_store w)) (w_history w));
  wi_pending sent open pending : w_phase w = Receiving sent open pending ->
    chain (w_history w) (w_rev w) (es_revision (w_store w)) pending sent
}.

Lemma written_of w : watch_inv w -> Forall well_written (w_history w).
Proof. intros Hi. eapply Forall_impl; [apply (wi_written _ Hi)|]. by intros c [_ ?]. Qed.

Lemma filter_none {A} (P : A -> Prop) `{forall x, Decision (P x)} l : Forall (fun x => ~ P x) l -> filter P l = [].
Proof. induction 1 as [|x l Hx _ IH]; [done|]. by rewrite filter_cons_False. Qed.

Lemma Forall_kept {A} (P Q : A -> Prop) `{forall x, Decision (P x)} l : Forall Q l -> Forall Q (filter P l).
Proof. rewrite !Forall_forall. intros HQ x [_ Hx]%list_elem_of_filter. by apply HQ. Qed.

Lemma upto_all r h : Forall (fun c => c_ModRevision c <= r) h -> upto r h = h.
Proof. apply filter_all. Qed.

Lemma upto_between a b h :
  StronglySorted (fun c d => c_ModRevision c <= c_ModRevision d) h -> a <= b -> upto b h = upto a h ++ between a b h.
Proof.
  intros Hs Hab. induction Hs as [|c h _ IH Hc]; [done|]. unfold upto, between in *. rewrite !filter_cons.
  destruct (decide (c_ModRevision c <= a)) as [Ha|Ha].
  - rewrite decide_True by lia. rewrite decide_False by lia. cbn. by rewrite IH.
  - assert (Hn : filter (fun d => c_ModRevision d <= a) h = []).
    { apply filter_none. eapply Forall_impl; [exact Hc|]. cbn. lia. }
    rewrite Hn in *. destruct (decide (c_ModRevision c <= b)); [rewrite decide_True by lia|rewrite decide_False by lia]; cbn; by rewrite IH.
Qed.

(** Later changes are beyond. *)
Lemma filter_later (P : change -> Prop) `{forall c, Decision (P c)} h cs : Forall (fun c => ~ P c) cs -> filter P (h ++ cs) = filter P h.
Proof. intros Hc. by rewrite filter_app, (filter_none P cs), app_nil_r. Qed.

Lemma chain_later h cs rev a pending sent :
  Forall (fun c => c_ModRevision c = rev + 1) cs -> chain h rev a pending sent -> chain (h ++ cs) (rev + 1) a pending sent.
Proof.
  intros Hc. revert a. induction pending as [|e pending IH]; intros a; [done|]. cbn. intros [He|(r & Hr & He & Ho & Hch)]; [by left|].
  right. exists r. assert (between a r (h ++ cs) = between a r h) as ->.
  { apply filter_later. eapply Forall_impl; [exact Hc|]. cbn. lia. }
  split; [lia|]. split; [done|]. split; [done|]. by apply IH.
Qed.

Lemma chain_grows h rev a pending sent last revision events :
  chain h rev a pending sent -> watch_answer servicesPrefix orderly h rev sent last revision events ->
  chain h rev a (pending ++ [forward revision false events]) last.
Proof.
  intros Hch ([Hs Hl] & Hr & -> & Ho). assert (last = revision) as -> by apply Ho. revert a Hch.
  induction pending as [|e pending IH]; intros a; cbn.
  - intros ->. right. by exists revision.
  - intros [He|(r & ? & ? & ? & Hch)]; [by left|]. right. exists r. split; [done|]. split; [done|]. split; [done|]. by apply IH.
Qed.

Lemma chain_error h rev a pending sent revision : chain h rev a pending sent -> chain h rev a (pending ++ [forward revision true []]) sent.
Proof.
  revert a. induction pending as [|e pending IH]; intros a; cbn; [by left|].
  intros [He|(r & ? & ? & ? & Hch)]; [by left|]. right. exists r. split; [done|]. split; [done|]. split; [done|]. by apply IH.
Qed.

(** An event of the chain is applied whole. *)
Lemma receive_ok h s r after :
  StronglySorted (fun c d => c_ModRevision c <= c_ModRevision d) h -> Forall well_written h ->
  reflects (es_policies s) (upto (es_revision s) h) -> 0 < es_revision s <= r -> orderly r r (of_prefix (between (es_revision s) r h)) ->
  exists s', receive unmarshal servicesPrefix (forward r false (of_prefix (between (es_revision s) r h))) after s = (r, s', false) /\
    es_revision s' = r /\ reflects (es_policies s') (upto r h).
Proof.
  intros Hs Hw Hm Hr Ho. set (cs := between (es_revision s) r h) in *.
  assert (Hwc : Forall well_written cs) by by apply Forall_kept.
  destruct (event_in_order r r (es_policies s) (of_prefix cs) ltac:(by apply Forall_kept) Ho) as (puts & Hp & Hf).
  unfold receive, applyWatchEvent. cbn [we_Err we_Revision we_Puts we_Deletes forward].
  rewrite (proj2 (Z.ltb_lt 0 r)) by lia.   rewrite Hp. cbn [mbind option_bind]. rewrite (proj2 (Z.ltb_ge r _)) by lia. cbn [andb]. eexists. split; [done|]. cbn [es_revision es_policies]. split.
  - destruct (Z.ltb_spec (es_revision s) r); lia.
  - rewrite (upto_between (es_revision s) r h) by (done || lia). fold cs. rewrite Hf. by apply updates_reflect.
Qed.

Lemma commit_inv w cs :
  watch_inv w -> Forall (fun c => c_ModRevision c = w_rev w + 1 /\ well_written c) cs -> NoDup (c_Key <$> cs) ->
  watch_inv {| w_history := w_history w ++ cs; w_rev := w_rev w + 1; w_store := w_store w; w_after := w_after w; w_phase := w_phase w |}.
Proof.
  intros [I1 I2 I3 I4 I5 I6 I7] Hc Hd. assert (Hr : Forall (fun c => c_ModRevision c = w_rev w + 1) cs) by (eapply Forall_impl; [exact Hc|]; by intros c [? _]).
  split; cbn; [| | |done|lia| |].
  - apply StronglySorted_app_2; [|done|].
    + intros c d Hin Hdin. rewrite !Forall_forall in *. destruct (I2 c Hin) as [? _]. specialize (Hr d Hdin). cbn in Hr. lia.
    + clear -Hr. induction Hr as [|c cs Hc Hr IH]; constructor; [done|]. eapply Forall_impl; [exact Hr|]. cbn. lia.
  - apply Forall_app. split; [eapply Forall_impl; [exact I2|]|eapply Forall_impl; [exact Hc|]]; cbn; intros c [? ?]; (split; [lia|done]).
  - rewrite fmap_app. apply NoDup_app. split; [done|]. split.
    + intros [k r] (c & [= -> ->] & Hin)%list_elem_of_fmap (d & [= Hk Hrd] & Hdin)%list_elem_of_fmap. rewrite !Forall_forall in *.
      destruct (I2 c Hin) as [? _]. specialize (Hr d Hdin). cbn in Hr. lia.
    + apply (NoDup_fmap_1 fst). by rewrite <- list_fmap_compose.
  - unfold upto in *. rewrite filter_later; [done|]. eapply Forall_impl; [exact Hr|]. cbn. lia.
  - intros sent open pending Hp. apply chain_later; [done|]. by eapply I7.
Qed.

(** Only the phase changes. *)
Lemma phase_inv w p :
  watch_inv w -> (forall sent open pending, p = Receiving sent open pending -> chain (w_history w) (w_rev w) (es_revision (w_store w)) pending sent) ->
  watch_inv (at_phase w p).
Proof. intros [I1 I2 I3 I4 I5 I6 I7] Hp. by split. Qed.

(** The store changes, to a state of etcd that is no older. *)
Lemma store_inv w s p :
  watch_inv w -> es_revision (w_store w) <= es_revision s <= w_rev w -> reflects (es_policies s) (upto (es_revision s) (w_history w)) ->
  (forall sent open pending, p = Receiving sent open pending -> chain (w_history w) (w_rev w) (es_revision s) pending sent) ->
  watch_inv {| w_history := w_history w; w_rev := w_rev w; w_store := s; w_after := es_revision s; w_phase := p |}.
Proof. intros [I1 I2 I3 I4 I5 I6 I7] Hr Hm Hp. split; cbn; try done. lia. Qed.

Lemma event_inv w sent open e pending after s again :
  watch_inv w -> w_phase w = Receiving sent open (e :: pending) -> receive unmarshal servicesPrefix e (w_after w) (w_store w) = (after, s, again) ->
  watch_inv {| w_history := w_history w; w_rev := w_rev w; w_store := s; w_after := after;
               w_phase := if again then Backoff else Receiving sent open pending |} /\ es_revision (w_store w) <= es_revision s.
Proof.
  intros Hi Hp He. destruct (wi_pending _ Hi _ _ _ Hp) as [Herr|(r & Hr & -> & Ho & Hch)].
  - unfold receive in He. rewrite Herr in He. injection He as <- <- <-. split; [|done]. apply (phase_inv w Backoff Hi). done.
  - destruct (receive_ok (w_history w) (w_store w) r (w_after w)) as (s' & Hrec & Hrev & Hm); [apply Hi|by apply written_of|apply Hi| |done|].
    { pose proof (wi_revision _ Hi). lia. }
    rewrite Hrec in He. injection He as <- <- <-. split; [|lia]. rewrite <- Hrev at 1. apply store_inv; [done|lia|by rewrite Hrev|].
    intros ? ? ? [= <- <- <-]. by rewrite Hrev.
Qed.

Lemma reload_inv w listed after s :
  watch_inv w -> (forall kvs revision, listed = Some (kvs, revision) -> list_answer servicesPrefix (w_history w) (w_rev w) kvs revision) ->
  resync unmarshal servicesPrefix listed (w_after w) (w_store w) = (after, s) ->
  watch_inv {| w_history := w_history w; w_rev := w_rev w; w_store := s; w_after := after; w_phase := Calling |} /\
  es_revision (w_store w) <= es_revision s.
Proof.
  intros Hi Hl Hr. unfold resync, reloadFull in Hr.
  assert (Hkeep : (w_after w, w_store w) = (after, s) ->
    watch_inv {| w_history := w_history w; w_rev := w_rev w; w_store := s; w_after := after; w_phase := Calling |} /\ es_revision (w_store w) <= es_revision s).
  { intros [= <- <-]. split; [|done]. by apply (phase_inv w Calling Hi). }
  destruct listed as [[kvs revision]|]; [|by apply Hkeep].
  destruct (snapshotsFromEtcdKVs unmarshal servicesPrefix kvs) as [m|] eqn:Em; [|by apply Hkeep]. injection Hr as <- <-.
  pose proof (Hl _ _ eq_refl) as Hans. pose proof (proj1 Hans) as ->. pose proof (wi_revision _ Hi). split; [|cbn; lia].
  apply (store_inv w {| es_revision := w_rev w; es_policies := m |}); cbn; [done|lia| |done].
  rewrite upto_all; [|eapply Forall_impl; [apply (wi_written _ Hi)|]; by intros c [[_ ?] _]]. eapply list_reflects; [by apply written_of|done|done].
Qed.

Lemma watch_step_inv w w' : watch_inv w -> step w w' -> watch_inv w' /\ es_revision (w_store w) <= es_revision (w_store w').
Proof.
  intros Hi Hst. pose proof (wi_pending _ Hi) as Hp.
  destruct Hst as [cs Hc Hd|Hph|Hph|sent pending last revision events Hph Hans|sent pending revision Hph|sent pending Hph
    |sent open e pending after s again Hph He|sent Hph|listed after s Hph Hl Hr|].
  - split; [by apply commit_inv|done].
  - split; [|done]. by apply phase_inv.
  - split; [|done]. apply phase_inv; [done|]. intros ? ? ? [= <- <- <-]. cbn. rewrite (wi_after _ Hi).
    by rewrite (proj2 (Z.ltb_lt _ _) (proj1 (wi_revision _ Hi))).
  - split; [|done]. apply phase_inv; [done|]. intros ? ? ? [= <- <- <-]. eapply chain_grows; [by eapply Hp|done].
  - split; [|done]. apply phase_inv; [done|]. intros ? ? ? [= <- <- <-]. apply chain_error. by eapply Hp.
  - split; [|done]. apply phase_inv; [done|]. intros ? ? ? [= <- <- <-]. by eapply Hp.
  - by eapply event_inv.
  - split; [|done]. by apply phase_inv.
  - by eapply reload_inv.
  - split; [|done]. by apply phase_inv.
Qed.

Lemma started_inv w : begun w -> watch_inv w.
Proof.
  intros Hst. destruct Hst as [h rev kvs revision after s Hs Hw Hd Hrev Hans Hn]. unfold newEtcdStoreWithKV, reloadFull in Hn.
  destruct (snapshotsFromEtcdKVs unmarshal servicesPrefix kvs) as [m|] eqn:Em; [|done]. injection Hn as <- <-. pose proof (proj1 Hans) as ->.
  split; cbn; try done; try lia.
  fold (upto rev h). rewrite upto_all by (eapply Forall_impl; [exact Hw|]; by intros c [[_ ?] _]).
  eapply list_reflects; [|done|done]. eapply Forall_impl; [exact Hw|]. by intros c [_ ?].
Qed.

Lemma follow_run_inv w w' : watch_inv w -> rtc step w w' -> watch_inv w' /\ es_revision (w_store w) <= es_revision (w_store w').
Proof.
  intros Hi Hrun. induction Hrun as [w|w1 w2 w3 Hst _ IH]; [done|]. destruct (watch_step_inv _ _ Hi Hst) as [Hi2 Hle].
  destruct (IH Hi2) as [? ?]. split; [done|lia].
Qed.

(** The responses up to [sent] hold every change there was. *)
Definition all_sent (sent : Z) (w : watcher) : Prop := Forall (fun c => c_ModRevision c <= sent) (w_history w).


(** ** Streams *)

Lemma NoDup_fmap_eq {A B} (f : A -> B) l x y : NoDup (f <$> l) -> x ∈ l -> y ∈ l -> f x = f y -> x = y.
Proof.
  induction l as [|z l IH]; [by intros _ ?%not_elem_of_nil|]. cbn. intros [Hz Hd]%NoDup_cons Hx Hy Hf.
  apply elem_of_cons in Hx as [->|Hx], Hy as [->|Hy]; [done|..|by apply IH]; destruct Hz; [rewrite Hf|rewrite <- Hf]; by apply list_elem_of_fmap_2.
Qed.

(** Moments of one run, in order. *)
Fixpoint moments (w : watcher) (ws : list watcher) : Prop :=
  match ws with [] => True | w1 :: ws => rtc step w w1 /\ moments w1 ws end.

Lemma moments_last w ws w1 : moments w ws -> w1 ∈ ws -> rtc step w1 (default w (last ws)).
Proof.
  revert w w1. induction ws as [|w0 ws IH]; intros w w1 Hm Hin; [by apply not_elem_of_nil in Hin|]. destruct Hm as [Hw Hm]. rewrite last_cons.
  destruct ws as [|w2 ws]; [by apply list_elem_of_singleton in Hin as ->|].
  destruct (last (w2 :: ws)) as [wl|] eqn:El; [|by apply last_None in El]. cbn in *.
  apply elem_of_cons in Hin as [->|Hin]; [|by apply (IH w0)]. etrans; [apply Hm|]. apply (IH w0); [done|apply list_elem_of_here].
Qed.

Lemma moments_start w ws w1 : moments w ws -> w1 ∈ ws -> rtc step w w1.
Proof.
  revert w. induction ws as [|w0 ws IH]; intros w Hm Hin; [by apply not_elem_of_nil in Hin|]. destruct Hm as [Hw Hm].
  apply elem_of_cons in Hin as [->|Hin]; [done|]. etrans; [exact Hw|]. by apply IH.
Qed.

Lemma history_grows w w' : rtc step w w' -> forall c, c ∈ w_history w -> c ∈ w_history w'.
Proof.
  induction 1 as [|w1 w2 w3 Hst _ IH]; [done|]. intros c Hc. apply IH. destruct Hst; cbn; try done. apply elem_of_app. by left.
Qed.

(** What is held comes from one change of the service's key. *)
Lemma held_from w service p :
  watch_inv w -> EtcdStore_Get (w_store w) service = Some p ->
  exists c, c ∈ w_history w /\ c_Key c = snapshot_key servicesPrefix service /\ Revision p = c_ModRevision c /\
    (fun v => stamp service (c_ModRevision c) <$> unmarshal v) <$> c_Value c = Some (Some p).
Proof.
  intros Hi Hg. unfold EtcdStore_Get in Hg. rewrite (wi_cache _ Hi) in Hg. unfold expected in Hg. case_bool_decide; [done|].
  destruct (kvs_of _ !! _) as [[v r]|] eqn:Ek; [|done]. cbn in Hg. apply kvs_of_written in Ek as (c & Hc & Hk & Hv & <-).
  exists c. split; [by apply list_elem_of_filter in Hc as [_ ?]|]. split; [done|]. rewrite Hv. cbn. destruct (unmarshal v); [|done]. cbn in *.
  by injection Hg as <-.
Qed.

(** Revisions tell the policies seen in a run apart. *)
Lemma moments_revisions w ws service :
  watch_inv w -> moments w ws -> revisions_ok ((fun w => EtcdStore_Get (w_store w) service) <$> ws).
Proof.
  intros Hi Hm. assert (Hfrom : forall p, Some p ∈ (fun w => EtcdStore_Get (w_store w) service) <$> ws ->
    exists c, c ∈ w_history (default w (last ws)) /\ c_Key c = snapshot_key servicesPrefix service /\ Revision p = c_ModRevision c /\
    (fun v => stamp service (c_ModRevision c) <$> unmarshal v) <$> c_Value c = Some (Some p)).
  { intros p (w1 & Hp & Hin)%list_elem_of_fmap. destruct (held_from w1 service p) as (c & Hc & ?); [|done|].
    - apply (follow_run_inv w); [done|]. by eapply moments_start.
    - exists c. split; [|done]. by eapply history_grows; [eapply moments_last|]. }
  assert (Hl : watch_inv (default w (last ws))).
  { destruct (last ws) as [wl|] eqn:El; [|done]. cbn. apply (follow_run_inv w); [done|]. apply (moments_start w ws); [done|]. by apply last_Some_elem_of. }
  intros p Hp. destruct (Hfrom p Hp) as (c & Hc & Hk & Hr & Hv). pose proof (wi_written _ Hl) as Hw. rewrite Forall_forall in Hw.
  destruct (Hw c Hc) as [? _]. split; [lia|]. split; [unfold deletedPolicyRevision; lia|]. intros q Hq Hqr.
  destruct (Hfrom q Hq) as (d & Hd & Hkd & Hrd & Hvd). assert (d = c) as ->; [|congruence].
  apply (NoDup_fmap_eq (fun c => (c_Key c, c_ModRevision c)) (w_history (default w (last ws)))); [apply (wi_distinct _ Hl)|done|done|]. congruence.
Qed.

End Follow.
