(* ===== verification/PolicyEtcdWitness.v ===== *)
(** * Runs of the policy store on etcd

    Concrete runs: one of the theorems' and two in which the store is left behind
    etcd, with nothing more to come. *)
From Stdlib Require Import Ascii String.
From stdpp Require Import sorting.
From S2P Require Import Prelude GoStd GoFloat GoSort GoText GoUrl PolicyTypes Policy PolicyEtcd PolicyEtcdSpec.

(** Reading the keys below a prefix. *)
Definition read_all (servicesPrefix : string) (h : list change) : list policyKV :=
  (fun p => {| pk_Key := p.1; pk_Value := p.2.1; pk_ModRevision := p.2.2 |})
    <$> map_to_list (filter (fun p => HasPrefix p.1 servicesPrefix = true) (kvs_of h)).

Lemma read_all_answers servicesPrefix h rev : list_answer servicesPrefix h rev (read_all servicesPrefix h) rev.
Proof.
  split; [done|]. unfold read_all. split.
  - rewrite <- list_fmap_compose. apply NoDup_fst_map_to_list.
  - intros key v r. rewrite list_elem_of_fmap. split.
    + intros ([k [v' r']] & [= -> -> ->] & [Hk Hp]%elem_of_map_to_list%map_lookup_filter_Some). done.
    + intros [Hp Hk]. exists (key, (v, r)). split; [done|]. apply elem_of_map_to_list, map_lookup_filter_Some. done.
Qed.

Lemma read_all_reply servicesPrefix h rev kvs revision :
  Some (read_all servicesPrefix h, rev) = Some (kvs, revision) -> list_answer servicesPrefix h rev kvs revision.
Proof. intros [= <- <-]. apply read_all_answers. Qed.

(** Values of one byte, a cap on the requests in flight; others cannot be decoded. *)
Definition one_byte (raw : list Z) : option PolicySnapshot :=
  match raw with
  | [n] => Some {| p_Service := ""; Revision := 0; pb_RoutingPolicy := ""; p_Retry := None; OutlierDetection := None;
                   MaxInflight := Some n; Methods := ∅ |}
  | _ => None
  end.

Definition demo_services : string := policyServicePrefix "".

Definition put (service : string) (v : list Z) (rev : Z) : change :=
  {| c_Key := PolicyServiceKey "" service; c_Value := Some v; c_ModRevision := rev |}.
Definition del (service : string) (rev : Z) : change :=
  {| c_Key := PolicyServiceKey "" service; c_Value := None; c_ModRevision := rev |}.

(** Keys as [PolicyServiceKey] makes them, whatever the values. *)
Definition well_keyed (c : change) : Prop :=
  forall service, serviceFromPolicyKey demo_services (c_Key c) = Some service -> c_Key c = snapshot_key demo_services service.

Lemma put_well_keyed service v rev : TrimSpace service <> ""%string -> well_keyed (put service v rev).
Proof. intros Hs t. unfold put. cbn [c_Key]. unfold demo_services. rewrite PolicyServiceKey_service by done. by intros [= <-]. Qed.

Lemma put_well_written service n rev : TrimSpace service <> ""%string -> well_written one_byte demo_services (put service [n] rev).
Proof. intros Hs t Ht. split; [by apply (put_well_keyed service [n] rev Hs)|]. by intros v [= <-]. Qed.

Lemma del_well_written service rev : TrimSpace service <> ""%string -> well_written one_byte demo_services (del service rev).
Proof. intros Hs t Ht. split; [by apply (put_well_keyed service [] rev Hs)|done]. Qed.

#[local] Hint Resolve put_well_keyed put_well_written del_well_written : core.

(** The first read found one policy. *)
Definition demo_watcher : watcher := {|
  w_history := [put "user" [1] 2]; w_rev := 2; w_after := 2; w_phase := Calling;
  w_store := {| es_revision := 2; es_policies := default ∅ (snapshotsFromEtcdKVs one_byte demo_services (read_all demo_services [put "user" [1] 2])) |} |}.

Lemma demo_begun (writes : change -> Prop) : writes (put "user" [1] 2) -> watch_started one_byte demo_services writes demo_watcher.
Proof.
  intros Hw. apply (started_at one_byte demo_services writes [put "user" [1] 2] 2 (read_all demo_services [put "user" [1] 2]) 2).
  - repeat constructor.
  - by apply Forall_singleton.
  - apply NoDup_singleton.
  - lia.
  - apply read_all_answers.
  - by vm_compute.
Qed.

(** Puts alone are orderly. *)
Lemma orderly_puts r events : Forall (fun c => is_Some (c_Value c)) events -> orderly r r events.
Proof.
  intros Hp. split; [done|]. intros a c b d e -> Hc. rewrite Forall_app, Forall_cons in Hp. destruct Hp as (_ & [v Hv] & _). congruence.
Qed.

Ltac commits cs :=
  eapply rtc_l; [apply (commit _ _ _ _ _ cs); [repeat (constructor; [split; [done|by auto]|]); constructor|by apply (bool_decide_unpack _); vm_compute]|].

(** Everything so far, in one response. *)
Ltac responds sent last := eapply rtc_l;
  [eapply (response _ _ _ _ _ sent [] last last); [reflexivity|split; [done|split; [done|split; [reflexivity|]]]]|].

Ltac receives := eapply rtc_l; [eapply event; [reflexivity|vm_compute; reflexivity]|].

(** A policy is deleted and written again; both changes come in one response.  The store
    applies the deletion last: it has no policy for the service and will not have one
    until the next change or full read. *)
Lemma returning_policy_lost :
  exists w, rtc (watch_step one_byte demo_services (well_written one_byte demo_services) (fun last revision _ => last = revision)) demo_watcher w /\
    w_phase w = Receiving 4 true [] /\ Forall (fun c => c_ModRevision c <= 4) (w_history w) /\
    EtcdStore_Get (w_store w) "user" = None /\
    MaxInflight <$> expected one_byte demo_services (w_history w) "user" = Some (Some 3).
Proof.
  eexists. split.
  - eapply rtc_l; [by apply watch_opens|]. commits [del "user" 3]. commits [put "user" [3] 4]. responds 2 4; [done|]. receives. apply rtc_refl.
  - split; [reflexivity|]. split; [repeat constructor; done|]. split; by vm_compute.
Qed.

(** One transaction writes a policy and, for another service, a value that is none.  The
    event cannot be applied and the read after it fails, but the next watch begins after
    that event: the good policy is not seen either. *)
Lemma bad_policy_hides_others :
  exists w, rtc (watch_step one_byte demo_services well_keyed orderly) demo_watcher w /\
    w_phase w = Receiving 3 true [] /\ Forall (fun c => c_ModRevision c <= 3) (w_history w) /\
    MaxInflight <$> EtcdStore_Get (w_store w) "user" = Some (Some 1) /\
    MaxInflight <$> expected one_byte demo_services (w_history w) "user" = Some (Some 2).
Proof.
  eexists. split.
  - eapply rtc_l; [by apply watch_opens|]. commits [put "order" [] 3; put "user" [2] 3]. responds 2 3.
    { apply orderly_puts, (bool_decide_unpack _). by vm_compute. }
    receives. eapply rtc_l.
    { apply (reload _ _ _ _ _ (Some (read_all demo_services [put "user" [1] 2; put "order" [] 3; put "user" [2] 3], 3)) 3 (w_store demo_watcher)).
      - reflexivity.
      - exact (read_all_reply demo_services [put "user" [1] 2; put "order" [] 3; put "user" [2] 3] 3).
      - vm_compute. reflexivity. }
    eapply rtc_l; [by apply watch_opens|]. apply rtc_refl.
  - split; [reflexivity|]. split; [repeat constructor; done|]. split; by vm_compute.
Qed.

(** ** The theorems on a run *)

Lemma policy_demo_run :
  exists w, rtc (watch_step one_byte demo_services (well_written one_byte demo_services) orderly) demo_watcher w /\
    w_phase w = Receiving 4 true [] /\ w_history w = [put "user" [1] 2; put "order" [5] 3; put "user" [2] 3; put "user" [7] 4].
Proof.
  eexists. split.
  - eapply rtc_l; [by apply watch_opens|]. commits [put "order" [5] 3; put "user" [2] 3]. commits [put "user" [7] 4]. responds 2 4.
    { apply orderly_puts, (bool_decide_unpack _). by vm_compute. }
    receives. apply rtc_refl.
  - done.
Qed.



(** The key ["snapshot"] right below the prefix names a service of that name, though no service's key is so. *)
Lemma stray_key_is_a_service : serviceFromPolicyKey demo_services (demo_services ++ "snapshot") = Some "snapshot"%string.
Proof. by vm_compute. Qed.
