(* ===== verification/SdkResolver.v ===== *)
(** * The resolver of the client SDK ([sdk/go/aegisgrpc/resolver.go])

    The instances a controller lists become addresses of a gRPC connection.  [accepts]
    is whether the connection accepts an update; [cc] holds the addresses it accepted
    last.  The loop of [watch] is a state machine: what it waits for, and what it does
    when that happens. *)
From Stdlib Require Import String.
From S2P Require Import Prelude GoStd GoFloat GoText Status Controller.

(** ** Addresses *)

Record endpointIdentity := { instanceID : string; registrationEpoch : string }.

(** The attributes of an address; [a_pool] is the limiter pool, a reference. *)
Record attributes := { a_id : string; a_epoch : string; a_status : Code; a_slowScore : float64; a_pool : option nat }.

Record Address := { Addr : string; ServerName : string; Attributes : option attributes }.

Definition addressAttributesWithLimiterPoolAndEpoch (id epoch : string) (statusCode : Code) (slowScore : float64) (pool : option nat)
  : attributes := {| a_id := id; a_epoch := epoch; a_status := statusCode; a_slowScore := slowScore; a_pool := pool |}.

Definition limiterPoolFromAttributes (attrs : option attributes) : option nat := attrs ≫= a_pool.

Definition endpointStatusFromAttributes (attrs : option attributes) : Code :=
  match attrs with None => Unspecified | Some a => a_status a end.

Definition slowScoreFromAttributes (attrs : option attributes) : float64 :=
  match attrs with None => fzero | Some a => a_slowScore a end.

(** The identities by address, of the whole process. *)
Definition rememberEndpointIdentity (address endpointID epoch : string) (ids : gmap string endpointIdentity) : gmap string endpointIdentity :=
  if bool_decide (address = ""%string) then ids
  else if bool_decide (endpointID = ""%string) then delete address ids
  else <[address := {| instanceID := endpointID; registrationEpoch := epoch |}]> ids.

Definition endpointIdentityForAddress (address : string) (ids : gmap string endpointIdentity) : endpointIdentity :=
  default {| instanceID := ""; registrationEpoch := "" |} (ids !! address).

Definition endpointIDForAddress (address : string) (ids : gmap string endpointIdentity) : string :=
  instanceID (endpointIdentityForAddress address ids).

Fixpoint instancesToAddressesWithLimiterPool (instances : list (option PbInstance)) (pool : option nat) (ids : gmap string endpointIdentity)
  : list Address * gmap string endpointIdentity :=
  match instances with
  | [] => ([], ids)
  | None :: rest => instancesToAddressesWithLimiterPool rest pool ids
  | Some inst :: rest =>
      if bool_decide (i_Address inst = ""%string) then instancesToAddressesWithLimiterPool rest pool ids
      else if negb (Routable (Parse (i_Status inst))) then instancesToAddressesWithLimiterPool rest pool ids
      else
        let ids := rememberEndpointIdentity (i_Address inst) (i_Id inst) (i_RegistrationEpoch inst) ids in
        let a := {| Addr := i_Address inst; ServerName := i_Id inst;
                    Attributes := Some (addressAttributesWithLimiterPoolAndEpoch (i_Id inst) (i_RegistrationEpoch inst)
                                          (Parse (i_Status inst)) (i_SlowScore inst) pool) |} in
        let '(addresses, ids) := instancesToAddressesWithLimiterPool rest pool ids in
        (a :: addresses, ids)
  end.

(** ** Targets *)

Record target_url := { u_Scheme : string; u_Host : string; u_Path : string }.

(** The controller's address and the service. *)
Definition parseTarget (u : target_url) : option (string * string) :=
  if bool_decide (u_Scheme u <> "aegis"%string) then None
  else
    let service := if HasPrefix (u_Path u) "/" then skip 1 (u_Path u) else u_Path u in
    if bool_decide (u_Host u = ""%string \/ service = ""%string) then None else Some (u_Host u, service).

(** ** Responses *)

Record ListInstancesResponse := { resp_Instances : list (option PbInstance); resp_Version : Z }.

Record registryResolver := { lastVersion : Z; watchFailures : Z; watchBackoff : Z; refreshInterval : Z; limiterPool : option nat }.

(** The resolver, the connection it updates, the identities, and the number of errors it reported. *)
Record client := { res : registryResolver; cc : list Address; ids : gmap string endpointIdentity; reported : nat }.

Definition with_res (c : client) (r : registryResolver) : client := {| res := r; cc := cc c; ids := ids c; reported := reported c |}.

Definition ReportError (c : client) : client := {| res := res c; cc := cc c; ids := ids c; reported := S (reported c) |}.

Definition set_version (r : registryResolver) (v : Z) : registryResolver :=
  {| lastVersion := v; watchFailures := watchFailures r; watchBackoff := watchBackoff r; refreshInterval := refreshInterval r;
     limiterPool := limiterPool r |}.

Section Apply.
Context (accepts : list Address -> bool).

(** The flag is whether it succeeded. *)
Definition applyInstancesResponse (resp : option ListInstancesResponse) (c : client) : bool * client :=
  match resp with
  | None => (true, c)
  | Some resp =>
      if negb (resp_Version resp =? 0) && (resp_Version resp =? lastVersion (res c)) then (true, c)
      else
        let '(addresses, ids') := instancesToAddressesWithLimiterPool (resp_Instances resp) (limiterPool (res c)) (ids c) in
        if accepts addresses then
          (true, {| res := if negb (resp_Version resp =? 0) then set_version (res c) (resp_Version resp) else res c;
                    cc := addresses; ids := ids'; reported := reported c |})
        else (false, {| res := res c; cc := cc c; ids := ids'; reported := reported c |})
  end.

(** A message received, or the answer to a listing ([None] is an error): failures are reported. *)
Definition apply_reporting (resp : option ListInstancesResponse) (c : client) : client :=
  let '(ok, c) := applyInstancesResponse resp c in if ok then c else ReportError c.

Definition resolve (answer : option (option ListInstancesResponse)) (c : client) : client :=
  match answer with None => ReportError c | Some resp => apply_reporting resp c end.
End Apply.

(** ** Retries *)

Definition maxWatchRetryBackoff : Z := 30 * 1000000000.
Definition maxWatchFailuresBeforePoll : Z := 5.
Definition pollTicksBeforeWatchRetry : nat := 5.

Definition recordWatchFailure (r : registryResolver) : registryResolver :=
  {| lastVersion := lastVersion r; watchFailures := watchFailures r + 1; watchBackoff := watchBackoff r; refreshInterval := refreshInterval r;
     limiterPool := limiterPool r |}.

Definition resetWatchRetry (r : registryResolver) : registryResolver :=
  {| lastVersion := lastVersion r; watchFailures := 0; watchBackoff := refreshInterval r; refreshInterval := refreshInterval r;
     limiterPool := limiterPool r |}.

Definition nextWatchRetryDelay (r : registryResolver) : Z * registryResolver :=
  let next := watchBackoff r * 2 in
  (watchBackoff r,
   {| lastVersion := lastVersion r; watchFailures := watchFailures r;
      watchBackoff := if maxWatchRetryBackoff <? next then maxWatchRetryBackoff else next;
      refreshInterval := refreshInterval r; limiterPool := limiterPool r |}).

(** ** The loop *)

(** What the goroutine does after a listing: decide how to go on after a failed stream,
    or poll, after so many polls. *)
Inductive after_listing := Decide | Poll (retryWatch : bool) (polls : nat).

Inductive doing :=
| Opening                      (** calls [WatchInstances] *)
| Streaming                    (** waits for a message *)
| Listing (next : after_listing)
| Waiting (delay : Z)          (** for the next attempt *)
| Polling (retryWatch : bool) (polls : nat)
| Ended.

Inductive stream_error := Unimplemented | EOF | OtherError.

(** A stream failed, at its opening or later. *)
Definition watch_failed (e : stream_error) (c : client) : doing * client :=
  match e with
  | Unimplemented => (Listing (Poll false 0), c)
  | _ =>
      let c := with_res c (recordWatchFailure (res c)) in
      (Listing Decide, match e with EOF => c | _ => ReportError c end)
  end.

(** A listing is done. *)
Definition listing_done (next : after_listing) (c : client) : doing * client :=
  match next with
  | Decide =>
      if maxWatchFailuresBeforePoll <=? watchFailures (res c) then (Listing (Poll true 0), c)
      else let '(delay, r) := nextWatchRetryDelay (res c) in (Waiting delay, with_res c r)
  | Poll retryWatch polls =>
      if retryWatch && (pollTicksBeforeWatchRetry <=? polls)%nat then (Opening, with_res c (resetWatchRetry (res c)))
      else (Polling retryWatch polls, c)
  end.

(** A tick of the poller lists; the listing counts. *)
Definition poll_tick (retryWatch : bool) (polls : nat) : doing := Listing (Poll retryWatch (S polls)).

(** [Build]: the state before the first listing. *)
Definition new_resolver (interval : Z) (pool : option nat) : registryResolver :=
  {| lastVersion := 0; watchFailures := 0; watchBackoff := interval; refreshInterval := interval; limiterPool := pool |}.
