(* ===== verification/Discovery.v ===== *)
(** * Discovery, from the controller to the connection

    The loop of [WatchInstances] in the controller ([pkg/controller/registry_service.go])
    and the resolver of the client ([SdkResolver]) as one system, with streams and
    listings that fail, and views that change at any time. *)
From Stdlib Require Import String.
From S2P Require Import Prelude GoStd GoFloat GoText Status Controller InstancesView SdkResolver.

(** ** The loop of the controller *)

(** Whether the channels are not nil, and whether the ticker runs. *)
Record watch_loop := { registryUpdates : bool; healthUpdates : bool; ticker : bool }.

Inductive wake := RegistryUpdate | HealthUpdate | Tick.

Section Loop.
(** Whether the service has a health manager. *)
Context (health : bool).

Definition ensureTicker (l : watch_loop) : watch_loop :=
  {| registryUpdates := registryUpdates l; healthUpdates := healthUpdates l; ticker := true |}.

Definition some_closed (l : watch_loop) : bool := negb (registryUpdates l) || health && negb (healthUpdates l).

(** [registryOk] and [healthOk] are whether the watches can be opened. *)
Definition watches_start (registryOk healthOk : bool) : watch_loop :=
  let l := {| registryUpdates := registryOk; healthUpdates := health && healthOk; ticker := false |} in
  if some_closed l then ensureTicker l else l.

Definition restartClosedWatches (registryOk healthOk : bool) (l : watch_loop) : watch_loop :=
  let l := {| registryUpdates := registryUpdates l || registryOk; healthUpdates := healthUpdates l || health && healthOk; ticker := ticker l |} in
  if some_closed l then ensureTicker l else l.

Definition enabled (w : wake) (l : watch_loop) : bool :=
  match w with RegistryUpdate => registryUpdates l | HealthUpdate => healthUpdates l | Tick => ticker l end.

(** The turn after a look. *)
Definition turn (w : wake) (registryOk healthOk : bool) (l : watch_loop) : watch_loop :=
  let l := match w with Tick => restartClosedWatches registryOk healthOk l | _ => l end in
  if negb (registryUpdates l) && (negb health || negb (healthUpdates l)) then ensureTicker l else l.

(** A channel was closed; [w] says which. *)
Definition channel_closed (w : wake) (l : watch_loop) : watch_loop :=
  ensureTicker {| registryUpdates := match w with RegistryUpdate => false | _ => registryUpdates l end;
                  healthUpdates := match w with HealthUpdate => false | _ => healthUpdates l end; ticker := ticker l |}.
End Loop.

(** ** The system *)

Record stream := { lastSent : Z; queue : list instancesView; loop : option watch_loop }.

(** [answered] is the answer on its way to the listing of the resolver's goroutine,
    [asked] those to [ResolveNow], which gRPC calls at any time. *)
Record discovery := {
  current : Z; server : option stream; answered : option instancesView; asked : list instancesView; cl : client; pc : doing }.

Definition response_of (v : instancesView) : ListInstancesResponse := {| resp_Instances := Some <$> shown v; resp_Version := view_version v |}.

Section System.
(** The views of the service by version, which connections accept, whether the
    controller has health, and whether [ResolveNow] is called after the start. *)
Context (views : Z -> instancesView) (accepts : list Address -> bool) (health resolveNow : bool).

Definition with_server (d : discovery) (s : stream) : discovery :=
  {| current := current d; server := Some s; answered := answered d; asked := asked d; cl := cl d; pc := pc d |}.

Definition goto (d : discovery) (x : doing * client) : discovery :=
  {| current := current d; server := server d; answered := answered d; asked := asked d; cl := x.2; pc := x.1 |}.

Definition dropped (d : discovery) : discovery :=
  {| current := current d; server := None; answered := None; asked := asked d; cl := cl d; pc := pc d |}.

Inductive disc_step (d : discovery) : discovery -> Prop :=
| view_changes n : 1 <= n -> view_version (views n) = n ->
    disc_step d {| current := n; server := server d; answered := answered d; asked := asked d; cl := cl d; pc := pc d |}
| stream_opens : pc d = Opening ->
    disc_step d {| current := current d; server := Some {| lastSent := lastVersion (res (cl d)); queue := []; loop := None |};
                   answered := None; asked := asked d; cl := with_res (cl d) (resetWatchRetry (res (cl d))); pc := Streaming |}
| stream_fails e : pc d = Opening \/ pc d = Streaming -> disc_step d (goto (dropped d) (watch_failed e (cl d)))
| first_look s registryOk healthOk sent last : server d = Some s -> loop s = None ->
    sendInstancesIfChanged (views (current d)) (lastSent s) = (sent, last) ->
    disc_step d (with_server d {| lastSent := last; queue := queue s ++ option_list sent; loop := Some (watches_start health registryOk healthOk) |})
| look s l w registryOk healthOk sent last : server d = Some s -> loop s = Some l -> enabled w l = true ->
    sendInstancesIfChanged (views (current d)) (lastSent s) = (sent, last) ->
    disc_step d (with_server d {| lastSent := last; queue := queue s ++ option_list sent; loop := Some (turn health w registryOk healthOk l) |})
| closes s l w : server d = Some s -> loop s = Some l -> enabled w l = true -> w <> Tick ->
    disc_step d (with_server d {| lastSent := lastSent s; queue := queue s; loop := Some (channel_closed w l) |})
| message s v q : pc d = Streaming -> server d = Some s -> queue s = v :: q ->
    disc_step d (goto (with_server d {| lastSent := lastSent s; queue := q; loop := loop s |})
                      (Streaming, apply_reporting accepts (Some (response_of v)) (cl d)))
| listing_answered next : pc d = Listing next -> answered d = None ->
    disc_step d {| current := current d; server := server d; answered := Some (views (current d)); asked := asked d; cl := cl d; pc := pc d |}
| listing_applied next v : pc d = Listing next -> answered d = Some v ->
    disc_step d (goto (dropped d) (listing_done next (resolve accepts (Some (Some (response_of v))) (cl d))))
| listing_failed next : pc d = Listing next -> disc_step d (goto (dropped d) (listing_done next (resolve accepts None (cl d))))
| wait_over delay : pc d = Waiting delay -> disc_step d (goto d (Opening, cl d))
| poll_ticks retryWatch polls : pc d = Polling retryWatch polls -> disc_step d (goto d (poll_tick retryWatch polls, cl d))
| closed : disc_step d (goto (dropped d) (Ended, cl d))
| now_answered : resolveNow = true ->
    disc_step d {| current := current d; server := server d; answered := answered d; asked := views (current d) :: asked d; cl := cl d; pc := pc d |}
| now_applied a v b : resolveNow = true -> asked d = a ++ v :: b ->
    disc_step d {| current := current d; server := server d; answered := answered d; asked := a ++ b;
                   cl := resolve accepts (Some (Some (response_of v))) (cl d); pc := pc d |}
| now_failed : resolveNow = true ->
    disc_step d {| current := current d; server := server d; answered := answered d; asked := asked d; cl := resolve accepts None (cl d); pc := pc d |}.

(** [Build] lists once, which may fail, before the loop begins. *)
Inductive disc_start (interval : Z) (pool : option nat) : discovery -> Prop :=
| built n answer : 1 <= n -> view_version (views n) = n -> answer = None \/ answer = Some (Some (response_of (views n))) ->
    disc_start interval pool
      {| current := n; server := None; answered := None; asked := []; pc := Opening;
         cl := resolve accepts answer {| res := new_resolver interval pool; cc := []; ids := ∅; reported := 0 |} |}.
End System.
