(* ===== verification/DiscoverySpec.v ===== *)
(** * Connections follow the views of the controller

    What a connection uses is always one view of the controller, and the current one
    once the stream is at rest; with the run in which a late answer to [ResolveNow]
    undoes this. *)
From Stdlib Require Import String.
From S2P Require Import Prelude GoStd GoFloat GoText Status Controller InstancesView SdkResolver Discovery.

(** ** Addresses *)

(** An instance that has an address and may get traffic. *)
Definition usable (i : PbInstance) : Prop := i_Address i <> ""%string /\ Routable (Parse (i_Status i)) = true.

#[export] Instance usable_dec i : Decision (usable i).
Proof. unfold usable. apply _. Defined.

Definition address_of (pool : option nat) (i : PbInstance) : Address := {|
  Addr := i_Address i; ServerName := i_Id i;
  Attributes := Some {| a_id := i_Id i; a_epoch := i_RegistrationEpoch i; a_status := Parse (i_Status i); a_slowScore := i_SlowScore i; a_pool := pool |} |}.

(** What a view offers: its usable instances, in its order. *)
Definition offered (pool : option nat) (v : instancesView) : list Address := address_of pool <$> filter usable (shown v).

Lemma addresses_offered instances pool ids :
  (instancesToAddressesWithLimiterPool (Some <$> instances) pool ids).1 = address_of pool <$> filter usable instances.
Proof.
  revert ids. induction instances as [|i instances IH]; intros ids; [done|]. cbn [fmap list_fmap instancesToAddressesWithLimiterPool].
  rewrite filter_cons. case_bool_decide as Ha; [rewrite decide_False by (by intros [? _]); apply IH|].
  destruct (Routable (Parse (i_Status i))) eqn:Er; cbn [negb]; [rewrite decide_True by done|rewrite decide_False by (intros [_ ?]; congruence); apply IH].
  rewrite fmap_cons. specialize (IH (rememberEndpointIdentity (i_Address i) (i_Id i) (i_RegistrationEpoch i) ids)).
  destruct (instancesToAddressesWithLimiterPool _ pool _) as [l ids']. cbn in *. by rewrite IH.
Qed.

(** ** The loop of the controller always wakes up *)

Section Awake.
Context (health : bool).

(** Both watches are open, or the ticker runs. *)
Definition awake (l : watch_loop) : Prop := ticker l = true \/ (registryUpdates l = true /\ (health = true -> healthUpdates l = true)).

Lemma some_closed_awake l : awake (if some_closed health l then ensureTicker l else l).
Proof. unfold some_closed, awake. destruct l as [r h t]. cbn. destruct r, health, h; cbn; auto. Qed.

Lemma turn_awake w registryOk healthOk l : awake l -> awake (turn health w registryOk healthOk l).
Proof.
  intros Hl. assert (Ht : forall l, awake l -> awake (if negb (registryUpdates l) && (negb health || negb (healthUpdates l)) then ensureTicker l else l)).
  { intros l' Hl'. case_match; [by left|done]. }
  apply Ht. destruct w; [done|done|]. apply some_closed_awake.
Qed.
End Awake.

(** ** The invariant *)

Section Follow.
Context (views : Z -> instancesView) (accepts : list Address -> bool) (health resolveNow : bool) (interval : Z) (pool : option nat).
Context (Hinterval : 0 < interval <= maxWatchRetryBackoff).

(** One of the views. *)
Definition viewed (v : instancesView) : Prop := 1 <= view_version v /\ v = views (view_version v).

(** The connection uses the view of the version the resolver has, or nothing yet. *)
Record client_inv (c : client) : Prop := {
  ci_uses : (lastVersion (res c) = 0 /\ cc c = []) \/ (1 <= lastVersion (res c) /\ cc c = offered pool (views (lastVersion (res c))));
  ci_pool : limiterPool (res c) = pool;
  ci_refresh : refreshInterval (res c) = interval;
  ci_backoff : interval <= watchBackoff (res c) <= maxWatchRetryBackoff
}.

(** When nothing waits, the resolver has the version sent last, or its connection refused that view. *)
Definition in_step (c : client) (s : stream) : Prop :=
  match last (queue s) with
  | Some v => view_version v = lastSent s
  | None => lastSent s = lastVersion (res c) \/ accepts (offered pool (views (lastSent s))) = false
  end.

Record disc_inv (d : discovery) : Prop := {
  di_current : viewed (views (current d)) /\ view_version (views (current d)) = current d;
  di_client : client_inv (cl d);
  di_answered v : answered d = Some v -> viewed v;
  di_asked : Forall viewed (asked d);
  di_stream s : server d = Some s -> Forall viewed (queue s) /\ (resolveNow = false -> in_step (cl d) s) /\ forall l, loop s = Some l -> awake health l;
  di_pc delay : pc d = Waiting delay -> interval <= delay <= maxWatchRetryBackoff
}.

Lemma apply_ok v c :
  viewed v -> client_inv c ->
  let '(ok, c') := applyInstancesResponse accepts (Some (response_of v)) c in
  client_inv c' /\ (lastVersion (res c') = view_version v \/ (c' = {| res := res c; cc := cc c; ids := ids c'; reported := reported c |} /\ accepts (offered pool v) = false)).
Proof.
  intros [Hv Hvv] Hc. unfold applyInstancesResponse. cbn [resp_Version resp_Instances response_of].
  rewrite (proj2 (Z.eqb_neq (view_version v) 0)) by lia. cbn [negb andb]. destruct (Z.eqb_spec (view_version v) (lastVersion (res c))) as [He|He]; [by auto|].
  pose proof (addresses_offered (shown v) (limiterPool (res c)) (ids c)) as Ha. rewrite (ci_pool _ Hc) in Ha |- *.
  destruct (instancesToAddressesWithLimiterPool (Some <$> shown v) pool (ids c)) as [addresses ids'] eqn:Ei. cbn in Ha. subst addresses. fold (offered pool v).
  destruct (accepts (offered pool v)) eqn:Eacc; destruct Hc as [H1 H2 H3 H4].
  - split; [|by left]. split; cbn; try done. right. split; [done|]. by rewrite <- Hvv.
  - split; [by split|]. right. done.
Qed.

Lemma reported_inv c : client_inv c -> client_inv (ReportError c).
Proof. intros []. by split. Qed.

(** A view applied, and what is waiting after it. *)
Lemma applied_inv v c :
  viewed v -> client_inv c ->
  let c' := apply_reporting accepts (Some (response_of v)) c in
  client_inv c' /\ (lastVersion (res c') = view_version v \/ (lastVersion (res c') = lastVersion (res c) /\ accepts (offered pool v) = false)).
Proof.
  intros Hv Hc. pose proof (apply_ok v c Hv Hc) as Ha. unfold apply_reporting. destruct (applyInstancesResponse _ _ c) as [ok c']. cbv zeta.
  destruct Ha as [Hi Hl]. assert (Hl' : lastVersion (res c') = view_version v \/ (lastVersion (res c') = lastVersion (res c) /\ accepts (offered pool v) = false)).
  { destruct Hl as [?|[-> ?]]; [by left|by right]. }
  destruct ok; [done|]. split; [by apply reported_inv|done].
Qed.

Lemma resolved_inv answer c :
  (answer = None \/ exists v, answer = Some (Some (response_of v)) /\ viewed v) -> client_inv c -> client_inv (resolve accepts answer c).
Proof. intros [->|(v & -> & Hv)] Hc; [by apply reported_inv|]. by apply applied_inv. Qed.

Lemma retry_inv c r :
  client_inv c -> lastVersion r = lastVersion (res c) -> limiterPool r = limiterPool (res c) -> refreshInterval r = refreshInterval (res c) ->
  interval <= watchBackoff r <= maxWatchRetryBackoff -> client_inv (with_res c r).
Proof. intros [H1 H2 H3 H4] Hv Hp Hr Hb. split; cbn; rewrite ?Hv, ?Hp, ?Hr; done. Qed.

Lemma failed_inv e c : client_inv c -> let '(p, c') := watch_failed e c in client_inv c' /\ forall delay, p <> Waiting delay.
Proof.
  intros Hc. unfold watch_failed. assert (Hr : client_inv (with_res c (recordWatchFailure (res c)))) by (apply retry_inv; try done; apply Hc).
  destruct e; (split; [|done]); [done|done|by apply reported_inv].
Qed.

Lemma listed_inv next c :
  client_inv c -> let '(p, c') := listing_done next c in client_inv c' /\ forall delay, p = Waiting delay -> interval <= delay <= maxWatchRetryBackoff.
Proof.
  intros Hc. pose proof (ci_backoff _ Hc) as Hb. unfold listing_done. destruct next as [|retry polls].
  - destruct (maxWatchFailuresBeforePoll <=? watchFailures (res c)); [done|]. cbn [nextWatchRetryDelay]. split.
    + apply retry_inv; cbn; try done. destruct (Z.ltb_spec maxWatchRetryBackoff (watchBackoff (res c) * 2)); lia.
    + by intros delay [= <-].
  - destruct (retry && _); [|done]. split; [|done]. apply retry_inv; cbn; try done. rewrite (ci_refresh _ Hc). lia.
Qed.

Lemma viewed_last l v : Forall viewed (l ++ [v]) <-> Forall viewed l /\ viewed v.
Proof. by rewrite Forall_app, Forall_singleton. Qed.

(** What a look does to the stream. *)
Lemma looked d s s' sent last l' :
  disc_inv d -> server d = Some s -> sendInstancesIfChanged (views (current d)) (lastSent s) = (sent, last) -> awake health l' ->
  s' = {| lastSent := last; queue := queue s ++ option_list sent; loop := Some l' |} -> disc_inv (with_server d s').
Proof.
  intros Hi Hs Hsend Hl ->. destruct (di_stream _ Hi s Hs) as (Hq & Hst & _). destruct Hi as [[Hv Hcur] I2 I3 I6 I4 I5]. split; cbn; try done.
  intros s' [= <-]. cbn. unfold sendInstancesIfChanged in Hsend. rewrite Hcur in Hsend. destruct (Z.eqb_spec (current d) (lastSent s)).
  - injection Hsend as <- <-. cbn. rewrite app_nil_r. split; [done|]. split; [done|]. by intros l [= <-].
  - injection Hsend as <- <-. cbn. split; [by apply viewed_last|]. split; [|by intros l [= <-]]. intros _. unfold in_step. cbn. by rewrite last_snoc.
Qed.

(** What keeps the stream as it is. *)
Lemma goto_dropped d x : disc_inv d -> client_inv x.2 -> (forall delay, x.1 = Waiting delay -> interval <= delay <= maxWatchRetryBackoff) ->
  disc_inv (goto (dropped d) x).
Proof. intros [I1 I2 I3 I6 I4 I5] Hc Hp. by split. Qed.

Lemma message_inv d s v q :
  disc_inv d -> server d = Some s -> queue s = v :: q ->
  disc_inv (goto (with_server d {| lastSent := lastSent s; queue := q; loop := loop s |}) (Streaming, apply_reporting accepts (Some (response_of v)) (cl d))).
Proof.
  intros Hi Hs Hq. destruct (di_stream _ Hi s Hs) as (Hf & Hst & Hl). rewrite Hq in Hf. apply Forall_cons in Hf as [Hv Hf].
  destruct (applied_inv v (cl d) Hv (di_client _ Hi)) as [Hc Hver]. destruct Hi as [I1 I2 I3 I6 I4 I5]. split; cbn; try done.
  intros s' [= <-]. cbn. split; [done|]. split; [|done]. intros Hnow. specialize (Hst Hnow). unfold in_step in *. rewrite Hq, last_cons in Hst. cbn.
  destruct (last q); [done|]. rewrite <- Hst. destruct Hver as [?|[_ ?]]; [by left|]. right. by rewrite <- (proj2 Hv).
Qed.

Lemma disc_step_inv d d' : disc_inv d -> disc_step views accepts health resolveNow d d' -> disc_inv d'.
Proof.
  intros Hi Hst. pose proof (di_client _ Hi) as Hc. destruct Hst as [n Hn Hv|Hp|e Hp|s ro ho sent last Hs Hl Hsend|s l w ro ho sent last Hs Hl Hw Hsend|s l w Hs Hl Hw Ht
    |s v q Hp Hs Hq|next Hp Ha|next v Hp Ha|next Hp|delay Hp|retry polls Hp| |Hf|a v b Hf Ha|Hf].
  - destruct Hi as [I1 I2 I3 I6 I4 I5]. split; cbn; try done. split; [|done]. split; [lia|]. by rewrite Hv.
  - destruct Hi as [I1 I2 I3 I6 I4 I5]. split; cbn; try done.
    + apply retry_inv; cbn; try done. rewrite (ci_refresh _ Hc). lia.
    + intros s [= <-]. cbn. split; [constructor|]. split; [|done]. by left.
  - pose proof (failed_inv e (cl d) Hc) as Hfl. destruct (watch_failed e (cl d)) as [p c']. destruct Hfl as [? Hnw]. apply goto_dropped; [done|done|].
    intros delay Hd. by destruct (Hnw delay).
  - eapply looked; [done|done|done| |done]. apply some_closed_awake.
  - eapply looked; [done|done|done| |done]. apply turn_awake. by apply (di_stream _ Hi s Hs).
  - destruct (di_stream _ Hi s Hs) as (Hq & Hin & _). destruct Hi as [I1 I2 I3 I6 I4 I5]. split; cbn; try done.
    intros s' [= <-]. cbn. split; [done|]. split; [done|]. intros l' [= <-]. by left.
  - by apply message_inv.
  - destruct Hi as [I1 I2 I3 I6 I4 I5]. split; cbn; try done. intros v [= <-]. apply I1.
  - pose proof (listed_inv next (resolve accepts (Some (Some (response_of v))) (cl d))) as Hld. destruct (listing_done next _) as [p c'].
    apply goto_dropped; [done|apply Hld..]; apply resolved_inv; try done; right; exists v; (split; [done|by apply (di_answered _ Hi)]).
  - pose proof (listed_inv next (resolve accepts None (cl d))) as Hld. destruct (listing_done next _) as [p c'].
    apply goto_dropped; [done|apply Hld..]; apply resolved_inv; auto.
  - destruct Hi as [I1 I2 I3 I6 I4 I5]. by split.
  - destruct Hi as [I1 I2 I3 I6 I4 I5]. by split.
  - by apply goto_dropped.
  - destruct Hi as [I1 I2 I3 I6 I4 I5]. split; cbn; try done. constructor; [apply I1|done].
  - assert (Hv : viewed v /\ Forall viewed (a ++ b)).
    { pose proof (di_asked _ Hi) as H. rewrite Ha in H. apply Forall_app in H as [? [? ?]%Forall_cons]. split; [done|]. by apply Forall_app. }
    destruct Hv as [Hv Hab]. destruct Hi as [I1 I2 I3 I6 I4 I5]. split; cbn; try done.
    + by apply applied_inv.
    + intros s Hs. destruct (I4 s Hs) as (? & _ & ?). split; [done|]. split; [congruence|done].
  - destruct Hi as [I1 I2 I3 I6 I4 I5]. split; cbn; try done.
    + by apply reported_inv.
Qed.

Lemma disc_start_inv d : disc_start views accepts interval pool d -> disc_inv d.
Proof.
  intros Hst. destruct Hst as [n answer Hn Hv Hans]. assert (Hview : viewed (views n)) by (split; [lia|by rewrite Hv]).
  split; cbn; try done. apply resolved_inv.
  - destruct Hans as [->| ->]; [by left|right]. by exists (views n).
  - split; cbn; try done; [by left|lia].
Qed.

(** C16. Connections follow the controller.  Whatever the resolver was through (streams
    that fail, listings that fail, polling, calls of [ResolveNow] answered at any later
    time), its connection uses exactly the usable instances of one view of the
    controller, in order, or nothing before the first.  If [ResolveNow] is not called
    after the start, then once a stream is at rest (all was received and the controller
    has looked since the last change) that is the current view, unless the connection
    refuses it.  Between attempts it waits no less than its interval and no more than
    thirty seconds, and the controller's loop always has its watches open or its
    ticker running.  Versions are taken to tell the views apart. *)
Theorem connections_follow_views d0 d :
  disc_start views accepts interval pool d0 -> rtc (disc_step views accepts health resolveNow) d0 d ->
  ((lastVersion (res (cl d)) = 0 /\ cc (cl d) = []) \/
   (1 <= lastVersion (res (cl d)) /\ cc (cl d) = offered pool (views (lastVersion (res (cl d)))))) /\
  (forall s, resolveNow = false -> server d = Some s -> queue s = [] -> lastSent s = current d -> accepts (offered pool (views (current d))) = true ->
     cc (cl d) = offered pool (views (current d))) /\
  (forall delay, pc d = Waiting delay -> interval <= delay <= maxWatchRetryBackoff) /\
  (forall s l, server d = Some s -> loop s = Some l -> awake health l).
Proof.
  intros Hst Hrun. assert (Hi : disc_inv d).
  { apply disc_start_inv in Hst. induction Hrun as [|d1 d2 d3 H12 _ IH]; [done|]. apply IH. by eapply disc_step_inv. }
  split; [apply (di_client _ Hi)|]. split; [|split; [apply (di_pc _ Hi)|]].
  - intros s Hnow Hs Hq Hl Hacc. destruct (di_stream _ Hi s Hs) as (_ & Hin & _). specialize (Hin Hnow). unfold in_step in Hin. rewrite Hq in Hin. cbn in Hin.
    destruct (di_current _ Hi) as [[Hpos _] Hcur]. rewrite Hcur in Hpos. rewrite Hl in Hin. destruct Hin as [Hv|Hr]; [|congruence].
    destruct (ci_uses _ (di_client _ Hi)) as [[H0 _]|[_ Hu]]; [lia|]. by rewrite Hu, <- Hv.
  - intros s l Hs. by apply (di_stream _ Hi s Hs).
Qed.
End Follow.

(** ** Runs *)

Definition demo_pb (id : string) : PbInstance := {|
  i_Id := id; i_Service := "orders"; i_Address := id ++ ":80"; i_Status := "HEALTHY"; i_Labels := None; LastSeenUnixMillis := 0;
  i_SlowScore := fzero; i_RegistrationEpoch := "e" |}.

(** Version 1 shows one instance, later ones another. *)
Definition demo_views (n : Z) : instancesView := {|
  shown := if n =? 1 then [demo_pb "a"] else [demo_pb "b"]; view_version := n; registryVersion := n; healthVersion := 0 |}.

Definition demo_accepts (l : list Address) : bool := negb (bool_decide (length l = 0%nat)).

(** A listing answered before a change arrives after the stream has brought the change:
    the connection goes back to the old instances, and with the stream at rest it stays there. *)
Lemma late_listing_wins :
  exists d0 d s, disc_start demo_views demo_accepts 3000000000 None d0 /\ rtc (disc_step demo_views demo_accepts false true) d0 d /\
    pc d = Streaming /\ server d = Some s /\ queue s = [] /\ lastSent s = current d /\ asked d = [] /\
    cc (cl d) = offered None (demo_views 1) /\ offered None (demo_views (current d)) = offered None (demo_views 2) /\
    Addr <$> cc (cl d) = ["a:80"]%string /\ Addr <$> offered None (demo_views (current d)) = ["b:80"]%string.
Proof.
  pose (id x := {| instanceID := x; SdkResolver.registrationEpoch := "e" |} : endpointIdentity).
  exists {| current := 1; server := None; answered := None; asked := []; pc := Opening;
            cl := {| res := set_version (new_resolver 3000000000 None) 1; cc := offered None (demo_views 1);
                     ids := {["a:80"%string := id "a"%string]}; reported := 0 |} |},
    {| current := 2; server := Some {| lastSent := 2; queue := []; loop := Some (watches_start false true true) |}; answered := None; asked := []; pc := Streaming;
       cl := {| res := set_version (resetWatchRetry (new_resolver 3000000000 None)) 1; cc := offered None (demo_views 1);
                ids := <["b:80"%string := id "b"%string]> {["a:80"%string := id "a"%string]}; reported := 0 |} |},
    {| lastSent := 2; queue := []; loop := Some (watches_start false true true) |}.
  split; [apply (built demo_views demo_accepts _ _ 1 (Some (Some (response_of (demo_views 1))))); [lia|done|by right]|]. split; [|by vm_compute].
  eapply rtc_l; [by apply stream_opens|].
  eapply rtc_l; [eapply (first_look _ _ _ _ _ _ true true); reflexivity|].
  eapply rtc_l; [by apply now_answered|].
  eapply rtc_l; [by apply (view_changes _ _ _ _ _ 2)|].
  eapply rtc_l; [eapply (look _ _ _ _ _ _ _ RegistryUpdate true true); reflexivity|].
  eapply rtc_l; [eapply message; reflexivity|].
  eapply rtc_l; [by apply (now_applied _ _ _ _ _ [] (demo_views 1) [])|]. apply rtc_refl.
Qed.

Lemma connections_follow_views_witness :
  exists d0 d, disc_start demo_views demo_accepts 3000000000 None d0 /\ rtc (disc_step demo_views demo_accepts false false) d0 d /\
    cc (cl d) = offered None (demo_views 2).
Proof.
  eexists _, _. assert (Hst : disc_start demo_views demo_accepts 3000000000 None
    {| current := 1; server := None; answered := None; asked := []; pc := Opening;
       cl := resolve demo_accepts None {| res := new_resolver 3000000000 None; cc := []; ids := ∅; reported := 0 |} |}).
  { apply built; [lia|done|by left]. }
  split; [exact Hst|]. assert (Hrun : rtc (disc_step demo_views demo_accepts false false)
    {| current := 1; server := None; answered := None; asked := []; pc := Opening;
       cl := resolve demo_accepts None {| res := new_resolver 3000000000 None; cc := []; ids := ∅; reported := 0 |} |}
    {| current := 2; server := Some {| lastSent := 2; queue := []; loop := Some (watches_start false true true) |}; answered := None; asked := []; pc := Streaming;
       cl := {| res := set_version (resetWatchRetry (new_resolver 3000000000 None)) 2; cc := offered None (demo_views 2);
                ids := {["b:80"%string := {| instanceID := "b"; SdkResolver.registrationEpoch := "e" |}]}; reported := 1 |} |}).
  { eapply rtc_l; [by apply stream_opens|]. eapply rtc_l; [by apply (view_changes _ _ _ _ _ 2)|].
    eapply rtc_l; [eapply (first_look _ _ _ _ _ _ true true); reflexivity|].
    eapply rtc_l; [eapply message; reflexivity|]. apply rtc_refl. }
  split; [exact Hrun|].
  apply (proj1 (proj2 (connections_follow_views demo_views demo_accepts false false 3000000000 None ltac:(unfold maxWatchRetryBackoff; lia) _ _ Hst Hrun)) _ eq_refl eq_refl eq_refl eq_refl).
  by vm_compute.
Defined.
