(* ===== verification/SdkBalancer.v ===== *)
(** * The balancer of the client SDK ([sdk/go/aegisgrpc/adaptive_balancer.go], [adaptive_limiter_pool.go])

    A picker is built for each set of ready connections and chooses one for each call;
    the limiters and statistics it uses are shared by all pickers.  A limiter is a
    reference, to one of a pool's or to one of the item's own; the counters are kept in
    [shared].  For calls that overlap, the limiter's loops are those of [Breaker], one
    atomic access at a time. *)
From Stdlib Require Import String SpecFloat.
From S2P Require Import Prelude GoStd GoFloat Status SlowScore Breaker Routing SdkResolver.

(** ** Shared objects *)

Inductive limiter_ref := Pooled (pool : nat) (endpoint : string) | Own (n : nat).

#[export] Instance limiter_ref_eq_dec : EqDecision limiter_ref.
Proof. solve_decision. Defined.

#[export] Instance limiter_ref_countable : Countable limiter_ref.
Proof.
  refine (inj_countable' (fun r => match r with Pooled p e => inl (p, e) | Own n => inr n end)
                         (fun x => match x with inl (p, e) => Pooled p e | inr n => Own n end) _).
  by intros [].
Defined.

Record adaptiveEndpointStats := { s_inflight : Z; s_ewmaNanos : Z }.

(** The limits of the pools, the requests in flight by limiter, the statistics by
    address, and the number of limiters made for items alone. *)
Record shared := {
  pool_max : gmap nat Z; counts : gmap limiter_ref Z; stats : gmap string adaptiveEndpointStats; own_made : nat }.

Definition adaptiveDefaultMaxInflightPerTarget : Z := 128.

(** ** Pools *)

Definition normalizeAdaptiveLimiterEndpoint (endpoint : string) : string :=
  if bool_decide (endpoint = ""%string) then "unknown" else endpoint.

Definition pool_limiter (pool : nat) (endpoint : string) : limiter_ref := Pooled pool (normalizeAdaptiveLimiterEndpoint endpoint).

Definition limiter_of (sh : shared) (r : limiter_ref) : limiter := {|
  inflight := default 0 (counts sh !! r);
  Breaker.max := match r with Pooled p _ => default 0 (pool_max sh !! p) | Own _ => MaxInflight_Set adaptiveDefaultMaxInflightPerTarget end |}.

Definition set_count (sh : shared) (r : limiter_ref) (l : limiter) : shared :=
  {| pool_max := pool_max sh; counts := <[r := inflight l]> (counts sh); stats := stats sh; own_made := own_made sh |}.

Definition pool_SetMax (pool : nat) (max : Z) (sh : shared) : shared :=
  {| pool_max := <[pool := MaxInflight_Set max]> (pool_max sh); counts := counts sh; stats := stats sh; own_made := own_made sh |}.

(** ** Statistics *)

Definition statsForEndpoint (sh : shared) (address : string) : adaptiveEndpointStats :=
  default {| s_inflight := 0; s_ewmaNanos := 0 |} (stats sh !! address).

Definition set_stats (sh : shared) (address : string) (s : adaptiveEndpointStats) : shared :=
  {| pool_max := pool_max sh; counts := counts sh; stats := <[address := s]> (stats sh); own_made := own_made sh |}.

Definition IncrementInflight (s : adaptiveEndpointStats) : adaptiveEndpointStats :=
  {| s_inflight := wraps 64 (s_inflight s + 1); s_ewmaNanos := s_ewmaNanos s |}.

Definition DecrementInflight (s : adaptiveEndpointStats) : adaptiveEndpointStats :=
  if s_inflight s <=? 0 then s else {| s_inflight := s_inflight s - 1; s_ewmaNanos := s_ewmaNanos s |}.

(** What [ObserveLatency] stores after it has loaded [loaded]. *)
Definition folded_latency (sample loaded : Z) : Z :=
  let sample := if sample <? 0 then 0 else sample in
  let old := wraps 64 loaded in
  let updated := if old =? 0 then sample else to_int64 (fadd (fmul (flit 2 10) (of_int sample)) (fmul (flit 8 10) (of_int old))) in
  wrapu 64 updated.

Definition set_ewma (s : adaptiveEndpointStats) (ewmaNanos : Z) : adaptiveEndpointStats :=
  {| s_inflight := s_inflight s; s_ewmaNanos := ewmaNanos |}.

Definition ObserveLatency (sample : Z) (s : adaptiveEndpointStats) : adaptiveEndpointStats :=
  set_ewma s (folded_latency sample (s_ewmaNanos s)).

Definition LatencySeconds (s : adaptiveEndpointStats) : float64 := Seconds (wraps 64 (s_ewmaNanos s)).

(** ** Random numbers *)

Definition adaptiveRandomIncrement : Z := 0x9e3779b97f4a7c15.

(** The number and the next state. *)
Definition next (state : Z) : Z * Z :=
  let state := wrapu 64 (state + adaptiveRandomIncrement) in
  let z := wrapu 64 (Z.lxor state (Z.shiftr state 30) * 0xbf58476d1ce4e5b9) in
  let z := wrapu 64 (Z.lxor z (Z.shiftr z 27) * 0x94d049bb133111eb) in
  (Z.lxor z (Z.shiftr z 31), state).

Definition Intn (n : Z) (state : Z) : Z * Z :=
  if n <=? 0 then (0, state) else let '(z, state) := next state in (z mod n, state).

(** ** Pickers *)

Record adaptivePickerItem := {
  subConn : nat; item_address : string; item_status : Code; inflightPenalty : float64; latencyPenalty : float64; staticCost : float64;
  item_limiter : limiter_ref }.

(** [own] is the number of the limiter made for the item, used if the address has no pool. *)
Definition newAdaptivePickerItem (own : nat) (sc : nat) (address : Address) : option adaptivePickerItem :=
  let statusValue := Normalized (endpointStatusFromAttributes (Attributes address)) in
  if negb (Routable statusValue) then None
  else
    let slowScore := fmax fzero (slowScoreFromAttributes (Attributes address)) in
    let effectiveWeight := fdiv (of_int 1) (fadd (of_int 1) slowScore) in
    let effectiveWeight := if fle effectiveWeight fzero then of_int 1 else effectiveWeight in
    Some {| subConn := sc; item_address := Addr address; item_status := statusValue;
            inflightPenalty := fdiv (of_int 1) effectiveWeight; latencyPenalty := of_int 1;
            staticCost := if bool_decide (statusValue = Degraded) then fadd slowScore (of_int 1) else slowScore;
            item_limiter := match limiterPoolFromAttributes (Attributes address) with
                            | Some pool => pool_limiter pool (Addr address)
                            | None => Own own
                            end |}.

Record adaptivePicker := { items : list adaptivePickerItem; normalIndexes : list nat; probingIndexes : list nat }.

Definition add_item (p : adaptivePicker) (item : adaptivePickerItem) : adaptivePicker :=
  let idx := length (items p) in {|
    items := items p ++ [item];
    normalIndexes := if NormalTraffic (item_status item) then normalIndexes p ++ [idx] else normalIndexes p;
    probingIndexes := if negb (NormalTraffic (item_status item)) && IsProbing (item_status item) then probingIndexes p ++ [idx] else probingIndexes p |}.

(** The ready connections, in the order Go traverses them; a limiter is made for each. *)
Fixpoint build_items (own : nat) (p : adaptivePicker) (ready : list (nat * Address)) : adaptivePicker :=
  match ready with
  | [] => p
  | (sc, address) :: ready =>
      build_items (S own) (match newAdaptivePickerItem own sc address with Some item => add_item p item | None => p end) ready
  end.

Definition Build (ready : list (nat * Address)) (sh : shared) : adaptivePicker * shared :=
  (build_items (own_made sh) {| items := []; normalIndexes := []; probingIndexes := [] |} ready,
   {| pool_max := pool_max sh; counts := counts sh; stats := stats sh; own_made := own_made sh + length ready |}).

Definition cost (sh : shared) (i : adaptivePickerItem) : float64 :=
  let s := statsForEndpoint sh (item_address i) in
  fadd (fadd (fmul (of_int (Z.max (s_inflight s) 0)) (inflightPenalty i)) (fmul (LatencySeconds s) (latencyPenalty i))) (staticCost i).

Definition adaptiveDefaultProbeThreshold : Z := 2.

Definition pickCandidateIndexes (rnd : Z) (p : adaptivePicker) : list nat * Z :=
  match normalIndexes p, probingIndexes p with
  | [], _ => (probingIndexes p, rnd)
  | _, [] => (normalIndexes p, rnd)
  | _, _ =>
      let '(draw, rnd) := Intn 100 rnd in
      (if (0 <? adaptiveDefaultProbeThreshold) && (draw <? adaptiveDefaultProbeThreshold) then probingIndexes p else normalIndexes p, rnd)
  end.

(** What indexing a slice gives; [Panic] when the index is out of range. *)
Inductive picked := NoItem | Picked (item : adaptivePickerItem) | Panic.

Definition pickItem (rnd : Z) (sh : shared) (p : adaptivePicker) : picked * Z :=
  let '(candidates, rnd) := pickCandidateIndexes rnd p in
  match candidates with
  | [] => (NoItem, rnd)
  | [i] => (match items p !! i with Some item => Picked item | None => Panic end, rnd)
  | _ =>
      let '(aPos, rnd) := Intn (Z.of_nat (length candidates)) rnd in
      let '(bPos, rnd) := Intn (Z.of_nat (length candidates) - 1) rnd in
      let bPos := if aPos <=? bPos then bPos + 1 else bPos in
      (match candidates !! Z.to_nat aPos, candidates !! Z.to_nat bPos with
       | Some aIdx, Some bIdx =>
           match items p !! aIdx, items p !! bIdx with
           | Some a, Some b => if fle (cost sh a) (cost sh b) then Picked a else Picked b
           | _, _ => Panic
           end
       | _, _ => Panic
       end, rnd)
  end.

Inductive pick_result := ErrNoSubConn | PickUnavailable | PickExhausted | PickPanic | PickedConn (item : adaptivePickerItem).

(** One call of [Pick], run alone. *)
Definition Pick (ctxErr : bool) (rnd : Z) (sh : shared) (p : adaptivePicker) : pick_result * Z * shared :=
  if (length (items p) =? 0)%nat then (ErrNoSubConn, rnd, sh)
  else if ctxErr then (PickUnavailable, rnd, sh)
  else
    match pickItem rnd sh p with
    | (NoItem, rnd) => (PickUnavailable, rnd, sh)
    | (Panic, rnd) => (PickPanic, rnd, sh)
    | (Picked item, rnd) =>
        let '(ok, l) := EndpointLimiter_TryAcquire (limiter_of sh (item_limiter item)) in
        let sh := set_count sh (item_limiter item) l in
        if ok then (PickedConn item, rnd, set_stats sh (item_address item) (IncrementInflight (statsForEndpoint sh (item_address item))))
        else (PickExhausted, rnd, sh)
    end.

(** The end of a call that took [latency]. *)
Definition finish (item : adaptivePickerItem) (latency : Z) (sh : shared) : shared :=
  let sh := set_stats sh (item_address item) (DecrementInflight (statsForEndpoint sh (item_address item))) in
  let sh := set_stats sh (item_address item) (ObserveLatency latency (statsForEndpoint sh (item_address item))) in
  set_count sh (item_limiter item) (EndpointLimiter_Release (limiter_of sh (item_limiter item))).

(** ** Calls that overlap *)

(** How far a call is: in [TryAcquire] or [Release] of its limiter; its limiter is
    taken; it counts as in flight and runs; it counts no more; it has loaded the moving
    average and will store the next. *)
Inductive call_phase := Limiting (p : Breaker.pc) | Taken | Flying | Leaving | Observing (loaded : Z).

#[export] Instance call_phase_eq_dec : EqDecision call_phase.
Proof. solve_decision. Defined.

(** The pickers made so far, any of which may still be in use, and the calls. *)
Record balancer := { sh : shared; pickers : list adaptivePicker; ongoing : gmap nat (adaptivePickerItem * call_phase) }.

Definition with_call (s : balancer) (sh' : shared) (n : nat) (item : adaptivePickerItem) (ph : call_phase) : balancer :=
  {| sh := sh'; pickers := pickers s; ongoing := <[n := (item, ph)]> (ongoing s) |}.

(** After an access of the limiter's loop: the call was admitted, or it is refused or
    done, or it is still in the loop. *)
Definition accessed (s : balancer) (n : nat) (item : adaptivePickerItem) (p : Breaker.pc) (l : limiter) : balancer :=
  let sh' := set_count (sh s) (item_limiter item) l in
  match p with
  | Held => with_call s sh' n item Taken
  | Idle => {| sh := sh'; pickers := pickers s; ongoing := delete n (ongoing s) |}
  | p => with_call s sh' n item (Limiting p)
  end.

(** The accesses of [Pick] and [finish], one at a time, with the pickers rebuilt and
    the limits of the pools changed under them; [bound] is the highest limit ever set.
    [n] is the completion of the call, which is not in use before.  The loop of
    [DecrementInflight] has its effect at its last access. *)
Inductive bal_step (bound : Z) (s : balancer) : balancer -> Prop :=
| rebuild ready p sh' : Build ready (sh s) = (p, sh') -> bal_step bound s {| sh := sh'; pickers := p :: pickers s; ongoing := ongoing s |}
| set_max pool max : MaxInflight_Set max <= bound -> bal_step bound s {| sh := pool_SetMax pool max (sh s); pickers := pickers s; ongoing := ongoing s |}
| begin n p item : p ∈ pickers s -> item ∈ items p -> ongoing s !! n = None -> Z.of_nat (size (ongoing s)) < 2 ^ 63 - 1 ->
    bal_step bound s (with_call s (sh s) n item (Limiting AcqLoad))
| access n item p p' l : ongoing s !! n = Some (item, Limiting p) -> pc_step p (limiter_of (sh s) (item_limiter item)) = Some (p', l) ->
    bal_step bound s (accessed s n item p' l)
| fly n item : ongoing s !! n = Some (item, Taken) ->
    bal_step bound s (with_call s (set_stats (sh s) (item_address item) (IncrementInflight (statsForEndpoint (sh s) (item_address item)))) n item Flying)
| leave n item : ongoing s !! n = Some (item, Flying) ->
    bal_step bound s (with_call s (set_stats (sh s) (item_address item) (DecrementInflight (statsForEndpoint (sh s) (item_address item)))) n item Leaving)
| observe n item : ongoing s !! n = Some (item, Leaving) ->
    bal_step bound s (with_call s (sh s) n item (Observing (s_ewmaNanos (statsForEndpoint (sh s) (item_address item)))))
| store n item loaded latency : ongoing s !! n = Some (item, Observing loaded) ->
    bal_step bound s (with_call s (set_stats (sh s) (item_address item) (set_ewma (statsForEndpoint (sh s) (item_address item)) (folded_latency latency loaded)))
                        n item (Limiting RelLoad)).
