(* ===== verification/SdkBalancerSpec.v ===== *)
(** * What the balancer picks, and what it counts *)
From Stdlib Require Import String SpecFloat.
From S2P Require Import Prelude GoStd GoFloat Status SlowScore Breaker Routing SdkResolver SdkBalancer.

(** ** Picks *)

Lemma Intn_range n rnd : 0 < n -> 0 <= (Intn n rnd).1 < n.
Proof.
  intros Hn. unfold Intn. rewrite (proj2 (Z.leb_gt n 0)) by lia. destruct (next rnd) as [z state]. cbn. by apply Z.mod_pos_bound.
Qed.

(** An item made for one of the connections. *)
Definition item_for (ready : list (nat * Address)) (item : adaptivePickerItem) : Prop :=
  exists own sc a, (sc, a) ∈ ready /\ newAdaptivePickerItem own sc a = Some item.

(** The two lists of indexes split the items. *)
Record picker_ok (p : adaptivePicker) : Prop := {
  po_normal : forall i, i ∈ normalIndexes p <-> exists item, items p !! i = Some item /\ NormalTraffic (item_status item) = true;
  po_probing : forall i, i ∈ probingIndexes p <->
    exists item, items p !! i = Some item /\ NormalTraffic (item_status item) = false /\ IsProbing (item_status item) = true;
  po_normal_once : NoDup (normalIndexes p);
  po_probing_once : NoDup (probingIndexes p)
}.

Lemma lookup_snoc_iff {A} (l : list A) x (P : A -> Prop) i :
  (exists y, (l ++ [x]) !! i = Some y /\ P y) <-> (exists y, l !! i = Some y /\ P y) \/ (i = length l /\ P x).
Proof.
  split.
  - intros (y & Hy & HP). apply lookup_app_Some in Hy as [Hy|[Hle Hy]]; [left; eauto|]. right. apply list_lookup_singleton_Some in Hy as [Hi <-]. split; [lia|done].
  - intros [(y & Hy & HP)|[-> HP]]; [exists y; split; [by apply lookup_app_l_Some|done]|]. exists x. by rewrite list_lookup_middle.
Qed.

Lemma below_length {A} (l : list A) (P : A -> Prop) : ~ exists y, l !! length l = Some y /\ P y.
Proof. intros (y & Hy & _). apply lookup_lt_Some in Hy. lia. Qed.

Lemma add_item_ok p item : picker_ok p -> picker_ok (add_item p item).
Proof.
  intros [H1 H2 H3 H4].
  assert (Hn : length (items p) ∉ normalIndexes p) by (rewrite H1; apply below_length).
  assert (Hp : length (items p) ∉ probingIndexes p) by (rewrite H2; apply below_length).
  unfold add_item. split; cbn.
  - intros i. rewrite lookup_snoc_iff, <- H1. destruct (NormalTraffic (item_status item)); [rewrite elem_of_app, list_elem_of_singleton; tauto|]. naive_solver.
  - intros i. rewrite (lookup_snoc_iff (items p) item (fun y => NormalTraffic (item_status y) = false /\ IsProbing (item_status y) = true)), <- H2.
    destruct (NormalTraffic (item_status item)), (IsProbing (item_status item)); cbn [negb andb];
      [naive_solver..|rewrite elem_of_app, list_elem_of_singleton; tauto|naive_solver].
  - destruct (NormalTraffic (item_status item)); [|done]. apply NoDup_app. split; [done|]. split; [|apply NoDup_singleton]. set_solver.
  - destruct (negb _ && _); [|done]. apply NoDup_app. split; [done|]. split; [|apply NoDup_singleton]. set_solver.
Qed.

Lemma build_items_ok own p ready :
  picker_ok p -> picker_ok (build_items own p ready) /\
  forall item, item ∈ items (build_items own p ready) <->
    item ∈ items p \/ exists i sc a, ready !! i = Some (sc, a) /\ newAdaptivePickerItem (own + i) sc a = Some item.
Proof.
  revert own p. induction ready as [|[sc a] ready IH]; intros own p Hp; cbn.
  - split; [done|]. intros item. split; [by left|]. intros [?|(i & ? & ? & Hi & _)]; [done|]. by rewrite lookup_nil in Hi.
  - set (p' := match newAdaptivePickerItem own sc a with Some item => add_item p item | None => p end).
    assert (Hp' : picker_ok p' /\ forall item, item ∈ items p' <-> item ∈ items p \/ newAdaptivePickerItem own sc a = Some item).
    { unfold p'. destruct (newAdaptivePickerItem own sc a) as [x|]; [|split; [done|naive_solver]]. split; [by apply add_item_ok|].
      intros item. unfold add_item. cbn. rewrite elem_of_app, list_elem_of_singleton. naive_solver. }
    destruct Hp' as [Hp' Hin]. destruct (IH (S own) p' Hp') as [Hok Hitems]. split; [done|]. intros item. rewrite Hitems, Hin. split.
    + intros [[?|Hnew]|(i & sc' & a' & Hi & Hnew)]; [by left|right; exists 0%nat, sc, a; by rewrite Nat.add_0_r|].
      right. exists (S i), sc', a'. split; [done|]. by rewrite Nat.add_succ_r.
    + intros [?|([|i] & sc' & a' & Hi & Hnew)]; [auto| |].
      * injection Hi as -> ->. rewrite Nat.add_0_r in Hnew. auto.
      * right. exists i, sc', a'. split; [done|]. by rewrite Nat.add_succ_r in Hnew.
Qed.

Lemma Build_ok ready sh :
  let p := (Build ready sh).1 in
  picker_ok p /\ (forall item, item ∈ items p -> item_for ready item) /\
  forall sc a, (sc, a) ∈ ready -> Routable (endpointStatusFromAttributes (Attributes a)) = true -> exists item, item ∈ items p /\ subConn item = sc.
Proof.
  cbv zeta. unfold Build. cbn [fst]. set (p0 := {| items := []; normalIndexes := []; probingIndexes := [] |}).
  assert (H0 : picker_ok p0).
  { split; cbn; [intros i; rewrite lookup_nil|intros i; rewrite lookup_nil|constructor|constructor]; (split; [by intros ?%not_elem_of_nil|naive_solver]). }
  destruct (build_items_ok (own_made sh) p0 ready H0) as [Hok Hin]. split; [done|]. split.
  - intros item Hi. apply Hin in Hi as [Hi%not_elem_of_nil|(i & sc & a & Hi & Hnew)]; [done|]. exists (own_made sh + i)%nat, sc, a.
    split; [by apply list_elem_of_lookup_2 in Hi|done].
  - intros sc a Ha Hr. apply list_elem_of_lookup_1 in Ha as [i Hi].
    destruct (newAdaptivePickerItem (own_made sh + i) sc a) as [item|] eqn:Enew.
    + exists item. split; [apply Hin; right; eauto|]. unfold newAdaptivePickerItem in Enew. destruct (negb _); [done|]. by injection Enew as <-.
    + exfalso. unfold newAdaptivePickerItem in Enew. destruct (endpointStatusFromAttributes (Attributes a)); done.
Qed.

Lemma item_routable own sc a item :
  newAdaptivePickerItem own sc a = Some item ->
  Routable (endpointStatusFromAttributes (Attributes a)) = true /\ item_status item = Normalized (endpointStatusFromAttributes (Attributes a)) /\
  subConn item = sc /\ item_address item = Addr a /\
  (forall pool, limiterPoolFromAttributes (Attributes a) = Some pool -> item_limiter item = pool_limiter pool (Addr a)).
Proof.
  unfold newAdaptivePickerItem. destruct (Routable (Normalized _)) eqn:Er; [|done]. cbn [negb]. intros [= <-]. cbn.
  split; [by destruct (endpointStatusFromAttributes _)|]. do 3 (split; [done|]). by intros pool ->.
Qed.

(** The candidates are different items of one kind. *)
Lemma candidates_ok rnd p :
  picker_ok p ->
  let cs := (pickCandidateIndexes rnd p).1 in
  NoDup cs /\
  (forall i, i ∈ cs -> exists item, items p !! i = Some item /\
     (NormalTraffic (item_status item) = false -> normalIndexes p = [] \/ (Intn 100 rnd).1 < adaptiveDefaultProbeThreshold)) /\
  (cs = [] -> normalIndexes p = [] /\ probingIndexes p = []).
Proof.
  intros [H1 H2 H3 H4]. cbv zeta.
  assert (Hn : forall i, i ∈ normalIndexes p -> exists item, items p !! i = Some item /\
     (NormalTraffic (item_status item) = false -> normalIndexes p = [] \/ (Intn 100 rnd).1 < adaptiveDefaultProbeThreshold)).
  { intros i (item & Hi & Ht)%H1. exists item. split; [done|congruence]. }
  assert (Hp : (normalIndexes p = [] \/ (Intn 100 rnd).1 < adaptiveDefaultProbeThreshold) -> forall i, i ∈ probingIndexes p -> exists item, items p !! i = Some item /\
     (NormalTraffic (item_status item) = false -> normalIndexes p = [] \/ (Intn 100 rnd).1 < adaptiveDefaultProbeThreshold)).
  { intros Hor i (item & Hi & _)%H2. by exists item. }
  unfold pickCandidateIndexes. destruct (normalIndexes p) as [|i l] eqn:En; [by split; [|split; [apply Hp; left|]]|].
  destruct (probingIndexes p) as [|j l'] eqn:Ep; [by split|].
  destruct (Intn 100 rnd) as [draw rnd'] eqn:Er. cbn [fst] in *. destruct (_ && _) eqn:Ed; [|by split].
  apply andb_true_iff in Ed as [_ Ed%Z.ltb_lt]. split; [done|]. split; [|done]. apply Hp. by right.
Qed.

(** The item sends calls to the address over the connection, and may. *)
Definition serves (item : adaptivePickerItem) (sc : nat) (a : Address) : Prop :=
  subConn item = sc /\ item_address item = Addr a /\ Routable (endpointStatusFromAttributes (Attributes a)) = true /\
  forall pool, limiterPoolFromAttributes (Attributes a) = Some pool -> item_limiter item = pool_limiter pool (Addr a).

(** C18. The balancer of the SDK sends a call where it may, to the cheaper of two.  For a
    picker built from the ready connections: no index is ever out of range; no item is
    found only if no connection has a routable status; an item that is found is made
    for one of the connections, with a routable status, and one on probation only if
    there is no other or the draw falls under the threshold; with several candidates
    two different ones are compared, by the costs at that moment, and the one left is
    not strictly cheaper.  An address with a pool uses the pool's limiter for that
    address, whichever picker it is in. *)
Theorem adaptive_pick_sound ready sh0 rnd sh :
  let p := (Build ready sh0).1 in
  match (pickItem rnd sh p).1 with
  | Panic => False
  | NoItem => forall sc a, (sc, a) ∈ ready -> Routable (endpointStatusFromAttributes (Attributes a)) = false
  | Picked item =>
      (exists sc a, (sc, a) ∈ ready /\ serves item sc a) /\
      (NormalTraffic (item_status item) = false -> normalIndexes p = [] \/ (Intn 100 rnd).1 < adaptiveDefaultProbeThreshold) /\
      ((2 <= length (pickCandidateIndexes rnd p).1)%nat -> exists i j other, i <> j /\ items p !! i = Some item /\ items p !! j = Some other /\
         {[i; j]} ⊆ (list_to_set (pickCandidateIndexes rnd p).1 : gset nat) /\ flt (cost sh other) (cost sh item) = false)
  end.
Proof.
  cbv zeta. destruct (Build_ok ready sh0) as (Hok & Hfor & Hall). set (p := (Build ready sh0).1) in *.
  destruct (candidates_ok rnd p Hok) as (Hnd & Hcs & Hempty). unfold pickItem.
  assert (Hgood : forall i item, i ∈ (pickCandidateIndexes rnd p).1 -> items p !! i = Some item ->
    (exists sc a, (sc, a) ∈ ready /\ serves item sc a) /\
    (NormalTraffic (item_status item) = false -> normalIndexes p = [] \/ (Intn 100 rnd).1 < adaptiveDefaultProbeThreshold)).
  { intros i item Hi Hit. destruct (Hcs i Hi) as (item' & Hit' & Hprobe). assert (item' = item) as -> by congruence. split; [|done].
    destruct (Hfor item) as (own & sc & a & Ha & Hnew); [by apply list_elem_of_lookup_2 in Hit|]. exists sc, a.
    apply item_routable in Hnew as (? & _ & ? & ? & ?). done. }
  destruct (pickCandidateIndexes rnd p) as [cs rnd1]. cbn [fst] in *. destruct cs as [|i1 [|i2 l]].
  - intros sc a Ha. destruct (Routable _) eqn:Er; [|done]. exfalso. destruct (Hall sc a Ha Er) as (item & Hin & _).
    apply list_elem_of_lookup_1 in Hin as [i Hi]. destruct (Hempty eq_refl) as [En Ep].
    destruct (Hfor item) as (own & sc' & a' & _ & Hnew); [by apply list_elem_of_lookup_2 in Hi|].
    apply item_routable in Hnew as (Hr & Hst & _). destruct (NormalTraffic (item_status item)) eqn:Et.
    + apply (not_elem_of_nil i). rewrite <- En. apply (po_normal _ Hok). eauto.
    + apply (not_elem_of_nil i). rewrite <- Ep. apply (po_probing _ Hok). exists item. split; [done|]. split; [done|].
      rewrite Hst in Et |- *. by destruct (endpointStatusFromAttributes (Attributes a')).
  - destruct (Hcs i1 (list_elem_of_here _ _)) as (item & Hit & _). rewrite Hit.
    destruct (Hgood i1 item (list_elem_of_here _ _) Hit) as [? ?]. split; [done|]. split; [done|]. cbn. lia.
  - set (cs := i1 :: i2 :: l) in *. pose proof (Intn_range (Z.of_nat (length cs)) rnd1 ltac:(cbn; lia)) as Ha.
    destruct (Intn (Z.of_nat (length cs)) rnd1) as [aPos rnd2]. pose proof (Intn_range (Z.of_nat (length cs) - 1) rnd2 ltac:(cbn; lia)) as Hb.
    destruct (Intn (Z.of_nat (length cs) - 1) rnd2) as [bPos rnd3]. cbn [fst] in *. set (b := if aPos <=? bPos then bPos + 1 else bPos).
    assert (Hb' : 0 <= b < Z.of_nat (length cs) /\ b <> aPos) by (unfold b; destruct (Z.leb_spec aPos bPos); lia).
    destruct (lookup_lt_is_Some_2 cs (Z.to_nat aPos)) as [ai Hai]; [lia|]. destruct (lookup_lt_is_Some_2 cs (Z.to_nat b)) as [bi Hbi]; [lia|].
    rewrite Hai, Hbi. assert (Hne : ai <> bi) by (intros ->; pose proof (NoDup_lookup _ _ _ _ Hnd Hai Hbi); lia).
    apply list_elem_of_lookup_2 in Hai, Hbi. destruct (Hcs ai Hai) as (ia & Hia & _). destruct (Hcs bi Hbi) as (ib & Hib & _). rewrite Hia, Hib.
    assert (Hsub : forall i j, i ∈ cs -> j ∈ cs -> ({[i; j]} : gset nat) ⊆ list_to_set cs) by set_solver.
    destruct (fle (cost sh ia) (cost sh ib)) eqn:Ef.
    + destruct (Hgood ai ia Hai Hia) as [? ?]. split; [done|]. split; [done|]. intros _. exists ai, bi, ib. do 3 (split; [done|]). split; [by apply Hsub|].
      destruct (flt _ _) eqn:Ef'; [|done]. apply flt_fle_false in Ef'. congruence.
    + destruct (Hgood bi ib Hbi Hib) as [? ?]. split; [done|]. split; [done|]. intros _. exists bi, ai, ia. do 3 (split; [done|]). split; [by apply Hsub|].
      destruct (flt _ _) eqn:Ef'; [|done]. apply flt_fle in Ef'. congruence.
Qed.

(** ** Counts *)

(** The calls with a property. *)
Definition count (P : adaptivePickerItem * call_phase -> Prop) `{forall x, Decision (P x)} (m : gmap nat (adaptivePickerItem * call_phase)) : Z :=
  Z.of_nat (size (filter (fun p => P p.2) m)).

Section Count.
Context (P : adaptivePickerItem * call_phase -> Prop) `{forall x, Decision (P x)}.

Definition one (x : adaptivePickerItem * call_phase) : Z := if decide (P x) then 1 else 0.

Lemma count_insert n x m : count P (<[n := x]> m) = count P (delete n m) + one x.
Proof.
  unfold count, one. rewrite map_filter_insert. case_decide as Hx; cbn in *.
  - rewrite decide_True by done. rewrite <- insert_delete_eq, map_filter_delete, map_size_insert_None by apply lookup_delete_eq. lia.
  - rewrite decide_False by done. rewrite map_filter_delete. lia.
Qed.

Lemma count_lookup n x m : m !! n = Some x -> count P m = count P (delete n m) + one x.
Proof. intros Hn. rewrite <- (insert_id m n x Hn) at 1. apply count_insert. Qed.

Lemma count_fresh n x m : m !! n = None -> count P (<[n := x]> m) = count P m + one x.
Proof. intros Hn. rewrite count_insert, delete_id by done. done. Qed.

(** A call that moves on. *)
Lemma count_moves n x y m : m !! n = Some x -> count P (<[n := y]> m) = count P m - one x + one y.
Proof. intros Hn. rewrite count_insert, (count_lookup n x m Hn). lia. Qed.

Lemma count_bounds m : 0 <= count P m <= Z.of_nat (size m).
Proof. unfold count. pose proof (map_size_filter (fun p => P p.2) m). lia. Qed.
End Count.

(** The call counts for its limiter: from its swap until the swap of its release. *)
Definition counted (ph : call_phase) : Prop := match ph with Limiting p => owns p | _ => True end.

#[export] Instance counted_dec ph : Decision (counted ph).
Proof. destruct ph; apply _. Defined.

Abbreviation holds r := (fun x : adaptivePickerItem * call_phase => item_limiter x.1 = r /\ counted x.2).
Abbreviation flies a := (fun x : adaptivePickerItem * call_phase => item_address x.1 = a /\ x.2 = Flying).

Section Accounts.
Context (bound : Z) (Hbound : bound < 2 ^ 63).

Record bal_inv (s : balancer) : Prop := {
  bi_size : Z.of_nat (size (ongoing s)) < 2 ^ 63;
  bi_counts r : inflight (limiter_of (sh s) r) = count (holds r) (ongoing s);
  bi_bound r : inflight (limiter_of (sh s) r) <= bound;
  bi_max r : MaxInflight_Load (Breaker.max (limiter_of (sh s) r)) <= bound;
  bi_swap n item c : ongoing s !! n = Some (item, Limiting (AcqSwap c)) -> c < bound;
  bi_stats a : s_inflight (statsForEndpoint (sh s) a) = count (flies a) (ongoing s)
}.

Lemma limiter_set sh0 r l r' :
  Breaker.max l = Breaker.max (limiter_of sh0 r) -> limiter_of (set_count sh0 r l) r' = if decide (r' = r) then l else limiter_of sh0 r'.
Proof.
  intros Hm. unfold limiter_of, set_count in *. cbn in *. case_decide as Hr; [subst|by rewrite lookup_insert_ne].
  rewrite lookup_insert_eq. destruct l. cbn in *. by subst.
Qed.

Lemma stats_set sh0 a x a' : statsForEndpoint (set_stats sh0 a x) a' = if decide (a' = a) then x else statsForEndpoint sh0 a'.
Proof. unfold statsForEndpoint, set_stats. cbn. case_decide as Ha; [subst; by rewrite lookup_insert_eq|]. by rewrite lookup_insert_ne. Qed.

(** A call that moves on without a change of what it counts for its limiter, and changes the statistics of its endpoint. *)
Lemma moved_inv s n item ph ph' x :
  bal_inv s -> ongoing s !! n = Some (item, ph) -> counted ph -> counted ph' ->
  s_inflight x = s_inflight (statsForEndpoint (sh s) (item_address item)) - one (flies (item_address item)) (item, ph) + one (flies (item_address item)) (item, ph') ->
  bal_inv (with_call s (set_stats (sh s) (item_address item) x) n item ph').
Proof.
  intros [I1 I2 I3 I4 I5 I6] Hn Hc Hc' Hx. split; cbn [sh ongoing with_call].
  - rewrite map_size_insert_Some by done. done.
  - intros r. rewrite (count_moves (holds r) n (item, ph)) by done. transitivity (inflight (limiter_of (sh s) r)); [done|]. rewrite I2. unfold one. cbn [fst snd].
    destruct (decide (item_limiter item = r)); [rewrite !decide_True by done|rewrite !decide_False by tauto]; lia.
  - exact I3.
  - exact I4.
  - intros m it c. rewrite lookup_insert_Some. intros [[_ [= _ ->]]|[_ Hm]]; [done|by eapply I5].
  - intros a. rewrite stats_set, (count_moves (flies a) n (item, ph)) by done. case_decide as Ha; [subst a; by rewrite Hx, I6|].
    rewrite I6. unfold one. cbn [fst snd]. rewrite !decide_False by naive_solver. lia.
Qed.

Lemma begin_inv s n item :
  bal_inv s -> ongoing s !! n = None -> Z.of_nat (size (ongoing s)) < 2 ^ 63 - 1 -> bal_inv (with_call s (sh s) n item (Limiting AcqLoad)).
Proof.
  intros [I1 I2 I3 I4 I5 I6] Hn Hsz. split; cbn [sh ongoing with_call]; try done.
  - rewrite map_size_insert_None by done. lia.
  - intros r. rewrite count_fresh by done. unfold one. cbn [fst snd]. rewrite decide_False by (by intros [_ ?]). rewrite I2. lia.
  - intros m it c. rewrite lookup_insert_Some. intros [[_ [=]]|[_ Hm]]. by eapply I5.
  - intros a. rewrite count_fresh by done. unfold one. cbn [fst snd]. rewrite decide_False by naive_solver. rewrite I6. lia.
Qed.

(** What the calls count after an access: one call weighs differently. *)
Lemma accessed_count P `{forall x, Decision (P x)} s n item p p' l :
  ongoing s !! n = Some (item, Limiting p) ->
  count P (ongoing (accessed s n item p' l)) =
    count P (ongoing s) - one P (item, Limiting p) +
    match p' with Held => one P (item, Taken) | Idle => 0 | p' => one P (item, Limiting p') end.
Proof.
  intros Hn. destruct p'; cbn [accessed ongoing with_call]; try (by rewrite (count_moves P n (item, Limiting p))).
  rewrite (count_lookup P n _ _ Hn). lia.
Qed.

Lemma one_holds item ph r : one (holds r) (item, ph) = if decide (item_limiter item = r) then if decide (counted ph) then 1 else 0 else 0.
Proof. unfold one. cbn [fst snd]. repeat case_decide; tauto. Qed.

Lemma one_limiting item p r : one (holds r) (item, Limiting p) = if decide (item_limiter item = r) then weight p else 0.
Proof. unfold weight. rewrite one_holds. repeat case_decide; done. Qed.

Lemma access_inv s n item p p' l :
  bal_inv s -> ongoing s !! n = Some (item, Limiting p) -> pc_step p (limiter_of (sh s) (item_limiter item)) = Some (p', l) ->
  bal_inv (accessed s n item p' l).
Proof.
  intros [I1 I2 I3 I4 I5 I6] Hn Hp. set (r0 := item_limiter item) in *.
  assert (Hw : weight p <= inflight (limiter_of (sh s) r0)).
  { rewrite I2, (count_lookup (holds r0) n _ _ Hn), one_limiting, decide_True by done. pose proof (count_bounds (holds r0) (delete n (ongoing s))). lia. }
  destruct (pc_step_counts bound p (limiter_of (sh s) r0) p' l) as (Hc & Hcb & Hmx & Hsw); [done|split; [done|apply I3]|apply I4|intros c ->; by eapply I5|done|].
  assert (Hsh : sh (accessed s n item p' l) = set_count (sh s) r0 l) by (by destruct p').
  assert (Hweight : forall r, match p' with Held => one (holds r) (item, Taken) | Idle => 0 | p' => one (holds r) (item, Limiting p') end = if decide (r0 = r) then weight p' else 0).
  { intros r. destruct p'; rewrite ?one_limiting, ?one_holds; fold r0; by case_decide. }
  split; rewrite ?Hsh.
  - destruct p'; cbn [accessed ongoing with_call]; rewrite ?map_size_insert_Some by done; try done. rewrite map_size_delete_Some by (by eexists). lia.
  - intros r. rewrite (limiter_set _ _ _ _ Hmx), (accessed_count (holds r) s n item p p' l Hn), one_limiting, Hweight, <- I2. fold r0.
    destruct (decide (r = r0)) as [->|Hr]; [rewrite !decide_True by done|rewrite !decide_False by congruence]; lia.
  - intros r. rewrite (limiter_set _ _ _ _ Hmx). by case_decide.
  - intros r. rewrite (limiter_set _ _ _ _ Hmx). case_decide; [rewrite Hmx; apply I4|apply I4].
  - intros m it c. destruct p'; cbn [accessed ongoing with_call]; rewrite ?lookup_insert_Some, ?lookup_delete_Some;
      try (intros [[_ [= _ ->]]|[_ Hm]]; [by apply Hsw|by eapply I5]); [intros [_ Hm]; by eapply I5|..]; (intros [[_ [=]]|[_ Hm]]; by eapply I5).
  - intros a. rewrite (accessed_count (flies a) s n item p p' l Hn), <- I6. unfold one. cbn [fst snd]. rewrite (decide_False (P := _ /\ Limiting p = Flying)) by naive_solver.
    transitivity (s_inflight (statsForEndpoint (sh s) a)); [done|]. destruct p'; rewrite ?decide_False by naive_solver; lia.
Qed.

Lemma bal_step_inv s s' : bal_inv s -> bal_step bound s s' -> bal_inv s'.
Proof.
  intros Hi Hst. destruct Hst as [ready p sh' Hb|pool mx Hmx|n p item Hp Hit Hn Hsz|n item p p' l Hn Hp|n item Hn|n item Hn|n item Hn|n item loaded latency Hn].
  - injection Hb as <- <-. destruct Hi as [I1 I2 I3 I4 I5 I6]. by split.
  - destruct Hi as [I1 I2 I3 I4 I5 I6]. split; try done. intros [q e|k]; [|apply (I4 (Own k))]. cbn.
    destruct (decide (q = pool)) as [->|Hne]; [rewrite lookup_insert_eq|rewrite lookup_insert_ne by done; apply (I4 (Pooled q e))].
    cbn. unfold MaxInflight_Load, MaxInflight_Set in *. by rewrite normalize_idem.
  - by apply begin_inv.
  - by eapply access_inv.
  - pose proof (bi_stats _ Hi (item_address item)) as Ha. pose proof (bi_size _ Hi) as Hsz.
    pose proof (count_bounds (flies (item_address item)) (delete n (ongoing s))) as Hb. rewrite map_size_delete_Some in Hb by (by eexists).
    rewrite (count_lookup _ n _ _ Hn) in Ha. unfold one in Ha. cbn [fst snd] in Ha. rewrite decide_False in Ha by naive_solver.
    apply (moved_inv s n item Taken); [done..|]. unfold one, IncrementInflight. cbn [fst snd s_inflight]. rewrite decide_False, decide_True by naive_solver.
    rewrite wraps_small by (unfold is_s; lia). lia.
  - pose proof (bi_stats _ Hi (item_address item)) as Ha. pose proof (count_bounds (flies (item_address item)) (delete n (ongoing s))) as Hb.
    rewrite (count_lookup _ n _ _ Hn) in Ha. unfold one in Ha. cbn [fst snd] in Ha. rewrite decide_True in Ha by done.
    apply (moved_inv s n item Flying); [done..|]. unfold one, DecrementInflight. cbn [fst snd]. rewrite decide_True, decide_False by naive_solver.
    rewrite (proj2 (Z.leb_gt _ 0)) by lia. cbn [s_inflight]. lia.
  - destruct Hi as [I1 I2 I3 I4 I5 I6]. split; cbn [sh ongoing with_call]; try done.
    + by rewrite map_size_insert_Some.
    + intros r. rewrite (count_moves (holds r) n _ _ _ Hn), I2, !one_holds. cbn. lia.
    + intros m it c. rewrite lookup_insert_Some. intros [[_ [=]]|[_ Hm]]. by eapply I5.
    + intros a. rewrite (count_moves (flies a) n _ _ _ Hn), I6. unfold one. cbn [fst snd]. rewrite !decide_False by naive_solver. lia.
  - apply (moved_inv s n item (Observing loaded)); [done..|]. unfold one. cbn [fst snd s_inflight set_ewma]. rewrite !decide_False by naive_solver. lia.
Qed.

(** A call in [TryAcquire] that swaps has read the number of calls that hold its limiter. *)
Lemma swap_reads s s' n item c :
  bal_inv s -> bal_step bound s s' -> ongoing s' !! n = Some (item, Limiting (AcqRecheck c)) -> ongoing s !! n <> Some (item, Limiting (AcqRecheck c)) ->
  count (holds (item_limiter item)) (ongoing s) = c.
Proof.
  intros Hi Hst Hn Hnew. destruct Hst as [ready p sh' Hb|pool mx Hmx|m p it Hp Hit Hm Hsz|m it p p' l Hm Hp|m it Hm|m it Hm|m it Hm|m it loaded latency Hm];
    try done; try (cbn in Hn; rewrite lookup_insert_Some in Hn; naive_solver).
  assert (E : m = n /\ it = item /\ p' = AcqRecheck c).
  { destruct p'; cbn in Hn; rewrite ?lookup_insert_Some, ?lookup_delete_Some in Hn; naive_solver. }
  destruct E as (-> & -> & ->). rewrite <- (bi_counts _ Hi). destruct p; cbn in Hp; repeat case_match; simplify_eq; bool_facts; done.
Qed.

(** A call that is admitted has compared the count after its swap with the limit. *)
Lemma admitted_below s s' n item :
  bal_step bound s s' -> ongoing s' !! n = Some (item, Taken) -> ongoing s !! n <> Some (item, Taken) ->
  exists c, ongoing s !! n = Some (item, Limiting (AcqRecheck c)) /\ wraps 64 (c + 1) <= MaxInflight_Load (Breaker.max (limiter_of (sh s) (item_limiter item))).
Proof.
  intros Hst Hn Hnew. destruct Hst as [ready p sh' Hb|pool mx Hmx|m p it Hp Hit Hm Hsz|m it p p' l Hm Hp|m it Hm|m it Hm|m it Hm|m it loaded latency Hm];
    try done; try (cbn in Hn; rewrite lookup_insert_Some in Hn; naive_solver).
  assert (E : m = n /\ it = item /\ p' = Held).
  { destruct p'; cbn in Hn; rewrite ?lookup_insert_Some, ?lookup_delete_Some in Hn; naive_solver. }
  destruct E as (-> & -> & ->). destruct p as [| |c|c|c| | |c]; cbn [pc_step] in Hp; repeat case_test; simplify_eq; bool_facts. by exists c.
Qed.
End Accounts.

(** C17. The balancer loses no capacity and exceeds none.  However the accesses of calls
    interleave, with pickers rebuilt and limits changed under them: a limiter counts
    exactly the calls between the swap of their acquire and that of their release (an
    acquire that is refused at its second look counts in between), never more than the
    highest limit set, and an endpoint's statistics count exactly the calls in flight
    to it, over all pickers.  A call is admitted only if the calls that held its
    limiter when it swapped, and itself, are within the limit at its second look. *)
Theorem balancer_accounts bound s0 s :
  bound < 2 ^ 63 -> counts (sh s0) = ∅ -> stats (sh s0) = ∅ -> ongoing s0 = ∅ ->
  (forall r, MaxInflight_Load (Breaker.max (limiter_of (sh s0) r)) <= bound) -> rtc (bal_step bound) s0 s ->
  (forall r, inflight (limiter_of (sh s) r) = count (holds r) (ongoing s) /\ inflight (limiter_of (sh s) r) <= bound) /\
  (forall a, s_inflight (statsForEndpoint (sh s) a) = count (flies a) (ongoing s)) /\
  forall s' n item, bal_step bound s s' ->
    (forall c, ongoing s' !! n = Some (item, Limiting (AcqRecheck c)) -> ongoing s !! n <> Some (item, Limiting (AcqRecheck c)) ->
       count (holds (item_limiter item)) (ongoing s) = c) /\
    (ongoing s' !! n = Some (item, Taken) -> ongoing s !! n <> Some (item, Taken) ->
       exists c, ongoing s !! n = Some (item, Limiting (AcqRecheck c)) /\ wraps 64 (c + 1) <= MaxInflight_Load (Breaker.max (limiter_of (sh s) (item_limiter item)))).
Proof.
  intros Hb Hc Hs Ho Hm Hrun. assert (Hi : bal_inv bound s).
  { assert (Hz : forall r, inflight (limiter_of (sh s0) r) = 0) by (intros r; unfold limiter_of; cbn; by rewrite Hc).
    assert (H0 : bal_inv bound s0).
    { split; try done; [by rewrite Ho, map_size_empty|intros r; by rewrite Hz, Ho|intros r; rewrite Hz; pose proof (normalize_pos (Breaker.max (limiter_of (sh s0) r))); specialize (Hm r); unfold MaxInflight_Load in Hm; lia
                     |intros n item c; by rewrite Ho|intros a; unfold statsForEndpoint; by rewrite Hs, lookup_empty, Ho]. }
    clear Hc Hs Ho Hm Hz. induction Hrun as [|s1 s2 s3 H12 _ IH]; [done|]. apply IH. by eapply bal_step_inv. }
  split; [intros r; split; apply Hi|]. split; [apply Hi|]. intros s' n item Hst. split; [intros c; by apply (swap_reads bound)|by apply (admitted_below bound)].
Qed.

Definition demo_balancer : balancer := {|
  sh := {| pool_max := {[0%nat := 1]}; counts := ∅; stats := ∅; own_made := 0 |}; pickers := []; ongoing := ∅ |}.

Definition demo_ready : list (nat * Address) := [(7%nat, {| Addr := "10.0.0.1:80"; ServerName := "a";
  Attributes := Some {| a_id := "a"; a_epoch := "e"; a_status := Healthy; a_slowScore := fzero; a_pool := Some 0%nat |} |})].

Definition demo_picker : adaptivePicker := (Build demo_ready (sh demo_balancer)).1.

(** A pool of one: a call is admitted, the picker rebuilt, and the new picker's item shares the limiter, so no second call is. *)
Lemma limiter_survives_rebuild :
  exists s, rtc (bal_step 128) demo_balancer s /\ length (pickers s) = 2%nat /\ size (ongoing s) = 1%nat /\
    (EndpointLimiter_TryAcquire (limiter_of (sh s) (Pooled 0 "10.0.0.1:80"))).1 = false.
Proof.
  eexists. split.
  - eapply rtc_l; [apply (rebuild _ _ demo_ready); reflexivity|].
    eapply rtc_l; [eapply (begin _ _ 0 demo_picker); [apply list_elem_of_here|vm_compute; apply list_elem_of_here|reflexivity|done]|].
    do 4 (eapply rtc_l; [eapply (access _ _ 0); [vm_compute; reflexivity|vm_compute; reflexivity]|]).
    eapply rtc_l; [apply (rebuild _ _ demo_ready); reflexivity|]. apply rtc_refl.
  - by vm_compute.
Qed.

Lemma balancer_accounts_witness :
  exists s, rtc (bal_step 128) demo_balancer s /\ size (ongoing s) = 1%nat /\
    inflight (limiter_of (sh s) (Pooled 0 "10.0.0.1:80")) = count (holds (Pooled 0 "10.0.0.1:80")) (ongoing s).
Proof.
  destruct limiter_survives_rebuild as (s & Hrun & _ & Hsize & _). exists s. split; [done|]. split; [done|].
  apply (balancer_accounts 128 demo_balancer s).
  - reflexivity.
  - reflexivity.
  - reflexivity.
  - reflexivity.
  - intros [q e|k]; cbn; [destruct (decide (0%nat = q)) as [<-|Hne]; [rewrite lookup_singleton_eq|rewrite lookup_singleton_ne by done]|]; vm_compute; discriminate.
  - exact Hrun.
Defined.
