(* ===== verification/Verifier.v ===== *)
(** * The verifier of experiments ([pkg/verifier/spec.go])

    Recorded traces are checked against an expected distribution of routes, a bound on
    retries and forbidden edges.  Parsing YAML and JSON are parameters; the texts of the
    messages are not modelled. *)
From Stdlib Require Import Ascii String SpecFloat.
From S2P Require Import Prelude GoStd GoFloat GoText.

Record ExpectSpec := { Routes : gmap string float64; Tolerance : float64; MaxRetryAttempts : Z; ForbiddenEdges : list string }.

Record TraceRecord := { TraceID : string; Route : string; Path : list string; RetryAttempts : Z; t_Status : string }.

Record CheckResult := { c_Name : string; c_Passed : bool }.

Record Report := { Passed : bool; Checks : list CheckResult; RouteDistribution : gmap string float64; TraceCount : Z }.

(** [unmarshal] gives the fields of a document, [None] for routes it does not have. *)
Definition ParseSpec (unmarshal : string -> option (option (gmap string float64) * float64 * Z * list string)) (raw : string)
  : option ExpectSpec :=
  '(routes, tolerance, maxRetry, forbidden) ← unmarshal raw;
  Some {| Routes := default ∅ routes; Tolerance := if feq tolerance fzero then flit 3 100 else tolerance;
          MaxRetryAttempts := maxRetry; ForbiddenEdges := forbidden |}.

Definition add (r : Report) (name : string) (passed : bool) : Report := {|
  Passed := if passed then Passed r else false; Checks := Checks r ++ [{| c_Name := name; c_Passed := passed |}];
  RouteDistribution := RouteDistribution r; TraceCount := TraceCount r |}.

Definition count_route (counts : gmap string Z) (t : TraceRecord) : gmap string Z :=
  if bool_decide (Route t = ""%string) then counts else <[Route t := default 0 (counts !! Route t) + 1]> counts.

Definition routeDistribution (traces : list TraceRecord) : gmap string float64 :=
  match traces with
  | [] => ∅
  | _ => (fun n => fdiv (of_int n) (of_int (Z.of_nat (length traces)))) <$> foldl count_route ∅ traces
  end.

Fixpoint traceEdges (path : list string) : list string :=
  match path with
  | a :: (b :: _) as rest => (a ++ "->" ++ b)%string :: traceEdges rest
  | _ => []
  end.

Definition check_route (spec : ExpectSpec) (r : Report) (route : string * float64) : Report :=
  let actual := default fzero (RouteDistribution r !! route.1) in
  let diff := fabs (fsub actual route.2) in
  add r ("route_distribution:" ++ route.1) (fle diff (Tolerance spec)).

(** Checks that stop at the first trace that fails them. *)
Definition check_traces (name : string) (ok : TraceRecord -> bool) (traces : list TraceRecord) (r : Report) : Report :=
  add r name (forallb ok traces).

Definition within_retries (spec : ExpectSpec) (t : TraceRecord) : bool := RetryAttempts t <=? MaxRetryAttempts spec.

Definition avoids_forbidden (spec : ExpectSpec) (t : TraceRecord) : bool :=
  let forbidden : gset string := list_to_set (TrimSpace <$> ForbiddenEdges spec) in
  forallb (fun edge => negb (bool_decide (edge ∈ forbidden))) (traceEdges (Path t)).

(** [visit] is the order in which Go traverses the expected routes. *)
Definition Verify (visit : gmap string float64 -> list (string * float64)) (spec : ExpectSpec) (traces : list TraceRecord) : Report :=
  let report := {| Passed := true; Checks := []; RouteDistribution := routeDistribution traces; TraceCount := Z.of_nat (length traces) |} in
  let report := foldl (check_route spec) report (visit (Routes spec)) in
  let report := check_traces "retry_budget" (within_retries spec) traces report in
  check_traces "forbidden_edges" (avoids_forbidden spec) traces report.

Definition HasFailedCheck (r : Report) (name : string) : bool :=
  existsb (fun c => bool_decide (c_Name c = name) && negb (c_Passed c)) (Checks r).

(** The lines of a log; [scanErr] is whether reading it failed after them. *)
Fixpoint load_lines (unmarshal : string -> option TraceRecord) (lines : list string) : option (list TraceRecord) :=
  match lines with
  | [] => Some []
  | line :: lines =>
      let line := TrimSpace line in
      if bool_decide (line = ""%string) then load_lines unmarshal lines
      else t ← unmarshal line; ts ← load_lines unmarshal lines; Some (t :: ts)
  end.

Definition LoadTraceJSONL (unmarshal : string -> option TraceRecord) (lines : list string) (scanErr : bool) : option (list TraceRecord) :=
  ts ← load_lines unmarshal lines; if scanErr then None else Some ts.

(** ** What a report says *)

(** The share of a route: 0 if no trace has it, and for the empty name. *)
Definition share (route : string) (traces : list TraceRecord) : float64 :=
  let n := length (filter (fun t => Route t = route) traces) in
  if bool_decide (route = ""%string \/ n = 0%nat) then fzero else fdiv (of_int (Z.of_nat n)) (of_int (Z.of_nat (length traces))).

(** A trace goes along an edge. *)
Definition uses_edge (t : TraceRecord) (a b : string) : Prop := exists i, Path t !! i = Some a /\ Path t !! S i = Some b.

Lemma counts_spec counts traces route :
  foldl count_route counts traces !! route =
  let n := length (filter (fun t => Route t = route) traces) in
  if bool_decide (route = ""%string \/ n = 0%nat) then counts !! route else Some (default 0 (counts !! route) + Z.of_nat n).
Proof.
  cbv zeta. revert counts. induction traces as [|t traces IH]; intros counts; [cbn; by rewrite bool_decide_eq_true_2 by auto|]. cbn [foldl].
  rewrite IH, filter_cons. unfold count_route. destruct (decide (Route t = route)) as [<-|Hne].
  - cbn [length]. rewrite (bool_decide_ext (_ \/ S _ = 0%nat) (Route t = ""%string)) by (split; [intros [?|?]; [done|lia]|by left]).
    destruct (decide (Route t = ""%string)) as [He|He].
    + rewrite !bool_decide_eq_true_2 by auto. done.
    + rewrite (bool_decide_eq_false_2 (Route t = _)) by done. rewrite lookup_insert_eq. case_bool_decide as Hor.
      * destruct Hor as [?|Hn]; [done|]. by rewrite Hn.
      * cbn. f_equal. lia.
  - assert (Hl : (if bool_decide (Route t = ""%string) then counts else <[Route t := default 0 (counts !! Route t) + 1]> counts) !! route = counts !! route).
    { destruct (bool_decide (Route t = ""%string)); [done|]. by rewrite lookup_insert_ne. }
    by rewrite Hl.
Qed.

Lemma distribution_share route traces : default fzero (routeDistribution traces !! route) = share route traces.
Proof.
  unfold routeDistribution, share. destruct traces as [|t traces]; [cbn; by rewrite bool_decide_eq_true_2 by auto|].
  rewrite lookup_fmap, counts_spec. cbv zeta. rewrite lookup_empty. case_bool_decide; [done|]. cbn. by rewrite Z.add_0_l.
Qed.

Lemma traceEdges_spec path edge : edge ∈ traceEdges path <-> exists i a b, path !! i = Some a /\ path !! S i = Some b /\ edge = (a ++ "->" ++ b)%string.
Proof.
  induction path as [|a path IH]; [cbn; split; [by intros ?%not_elem_of_nil|naive_solver]|]. destruct path as [|b path].
  - cbn. split; [by intros ?%not_elem_of_nil|]. intros ([|i] & x & y & _ & Hy & _); by cbn in Hy.
  - cbn [traceEdges]. rewrite elem_of_cons, IH. split.
    + intros [->|(i & x & y & Hx & Hy & ->)]; [by exists 0%nat, a, b|]. by exists (S i), x, y.
    + intros ([|i] & x & y & Hx & Hy & ->); [left; cbn in *; congruence|]. right. by exists i, x, y.
Qed.

(** ** Verdicts *)

Definition failed (name : string) (cs : list CheckResult) : Prop := exists c, c ∈ cs /\ c_Name c = name /\ c_Passed c = false.

Lemma HasFailedCheck_spec r name : HasFailedCheck r name = true <-> failed name (Checks r).
Proof.
  unfold HasFailedCheck, failed. rewrite existsb_exists. split.
  - intros (c & Hc%list_elem_of_In & [Hn%bool_decide_eq_true Hp%negb_true_iff]%andb_true_iff). by exists c.
  - intros (c & Hc & Hn & Hp). exists c. split; [by apply list_elem_of_In|]. by rewrite bool_decide_eq_true_2, Hp.
Qed.

(** A report that is consistent: it passed if no check failed. *)
Definition consistent (r : Report) : Prop := Passed r = true <-> Forall (fun c => c_Passed c = true) (Checks r).

Lemma add_consistent r name passed : consistent r -> consistent (add r name passed).
Proof. unfold consistent, add. cbn. rewrite Forall_app, Forall_singleton. cbn. destruct passed; intuition congruence. Qed.

Lemma routes_checked spec routes r :
  consistent r ->
  let r' := foldl (check_route spec) r routes in
  consistent r' /\ RouteDistribution r' = RouteDistribution r /\
  Checks r' = Checks r ++ ((fun x => {| c_Name := "route_distribution:" ++ x.1;
                                       c_Passed := fle (fabs (fsub (default fzero (RouteDistribution r !! x.1)) x.2)) (Tolerance spec) |}) <$> routes).
Proof.
  cbv zeta. revert r. induction routes as [|x routes IH]; intros r Hc; cbn [foldl fmap list_fmap]; [by rewrite app_nil_r|].
  destruct (IH (check_route spec r x)) as (H1 & H2 & H3); [by apply add_consistent|]. split; [done|]. rewrite H2, H3. split; [done|].
  unfold check_route, add. cbn. by rewrite <- app_assoc.
Qed.

(** All checks of a report, in order. *)
Lemma Verify_checks visit spec traces :
  let r := Verify visit spec traces in
  consistent r /\
  Checks r = ((fun x => {| c_Name := "route_distribution:" ++ x.1; c_Passed := fle (fabs (fsub (share x.1 traces) x.2)) (Tolerance spec) |}) <$> visit (Routes spec))
    ++ [{| c_Name := "retry_budget"; c_Passed := forallb (within_retries spec) traces |};
        {| c_Name := "forbidden_edges"; c_Passed := forallb (avoids_forbidden spec) traces |}].
Proof.
  cbv zeta. unfold Verify, check_traces.
  destruct (routes_checked spec (visit (Routes spec)) {| Passed := true; Checks := []; RouteDistribution := routeDistribution traces; TraceCount := Z.of_nat (length traces) |})
    as (H1 & _ & H3); [by split|]. split; [by do 2 apply add_consistent|]. cbn [Checks add]. rewrite H3. cbn [Checks RouteDistribution app].
  rewrite <- app_assoc. f_equal. apply list_fmap_ext. intros i x _. by rewrite distribution_share.
Qed.

Lemma avoids_spec spec t :
  avoids_forbidden spec t = true <-> forall a b forbidden, uses_edge t a b -> forbidden ∈ ForbiddenEdges spec -> TrimSpace forbidden <> (a ++ "->" ++ b)%string.
Proof.
  unfold avoids_forbidden, uses_edge. rewrite forallb_forall. split.
  - intros Hall a b f (i & Ha & Hb) Hf He. specialize (Hall (a ++ "->" ++ b)%string ltac:(apply list_elem_of_In, traceEdges_spec; eauto 10)).
    apply negb_true_iff, bool_decide_eq_false in Hall. apply Hall, elem_of_list_to_set, list_elem_of_fmap. by exists f.
  - intros Hall edge (i & a & b & Ha & Hb & ->)%list_elem_of_In%traceEdges_spec. apply negb_true_iff, bool_decide_eq_false.
    intros (f & He & Hf)%elem_of_list_to_set%list_elem_of_fmap. by apply (Hall a b f); [exists i| |].
Qed.

(** C26. The verdict of the verifier is exact.  A report passes just when the share of
    every expected route is within the tolerance of what is expected, no trace has more
    retries than allowed and no trace goes along a forbidden edge (spaces around it
    aside); and each check by its name fails just when its part does not hold. *)
Theorem verify_exact visit spec traces :
  (forall m, visit m ≡ₚ map_to_list m) ->
  let r := Verify visit spec traces in
  let routes_ok route := forall expected, Routes spec !! route = Some expected -> fle (fabs (fsub (share route traces) expected)) (Tolerance spec) = true in
  let retries_ok := Forall (fun t => RetryAttempts t <= MaxRetryAttempts spec) traces in
  let edges_ok := Forall (fun t => forall a b f, uses_edge t a b -> f ∈ ForbiddenEdges spec -> TrimSpace f <> (a ++ "->" ++ b)%string) traces in
  (Passed r = true <-> (forall route, routes_ok route) /\ retries_ok /\ edges_ok) /\
  (forall route, HasFailedCheck r ("route_distribution:" ++ route) = false <-> routes_ok route) /\
  (HasFailedCheck r "retry_budget" = false <-> retries_ok) /\ (HasFailedCheck r "forbidden_edges" = false <-> edges_ok).
Proof.
  intros Hv r routes_ok retries_ok edges_ok. destruct (Verify_checks visit spec traces) as [Hc Hch]. fold r in Hc, Hch.
  assert (Hr : forallb (within_retries spec) traces = true <-> retries_ok).
  { unfold retries_ok. rewrite forallb_forall, Forall_forall. unfold within_retries. setoid_rewrite Z.leb_le. by setoid_rewrite list_elem_of_In. }
  assert (He : forallb (avoids_forbidden spec) traces = true <-> edges_ok).
  { unfold edges_ok. rewrite forallb_forall, Forall_forall. setoid_rewrite avoids_spec. by setoid_rewrite list_elem_of_In. }
  assert (Hin : forall route x, (route, x) ∈ visit (Routes spec) <-> Routes spec !! route = Some x) by (intros; by rewrite Hv, elem_of_map_to_list).
  assert (Hf : forall name, HasFailedCheck r name = false <-> Forall (fun c => c_Name c = name -> c_Passed c = true) (Checks r)).
  { intros name. rewrite <- not_true_iff_false, HasFailedCheck_spec, Forall_forall. unfold failed. split.
    - intros Hn c Hin' Hc'. destruct (c_Passed c) eqn:E; [done|]. destruct Hn. by exists c.
    - intros Hall (c & Hin' & Hn & Hp). rewrite (Hall c Hin' Hn) in Hp. done. }
  assert (Hparts : forall P : CheckResult -> Prop, Forall P (Checks r) <->
    (forall route x, Routes spec !! route = Some x -> P {| c_Name := "route_distribution:" ++ route; c_Passed := fle (fabs (fsub (share route traces) x)) (Tolerance spec) |}) /\
    P {| c_Name := "retry_budget"; c_Passed := forallb (within_retries spec) traces |} /\
    P {| c_Name := "forbidden_edges"; c_Passed := forallb (avoids_forbidden spec) traces |}).
  { intros P. rewrite Hch, Forall_app, Forall_fmap, !Forall_cons, Forall_nil, Forall_forall. setoid_rewrite <- Hin. split.
    - intros (H1 & H2 & H3 & _). split; [intros route x Hx; by apply (H1 (route, x))|done].
    - intros (H1 & H2 & H3). split; [intros [route x] Hx; by apply H1|done]. }
  split; [|split; [|split]].
  - unfold consistent in Hc. rewrite Hc, Hparts. cbn. rewrite Hr, He. unfold routes_ok. naive_solver.
  - intros route. rewrite Hf, Hparts. cbn. unfold routes_ok. split.
    + intros (H1 & _) x Hx. by apply H1.
    + intros Hx. split; [|done]. intros route' x Hx' Hn. rewrite (string_app_cancel "route_distribution:" route' route Hn) in Hx' |- *. by apply Hx.
  - rewrite Hf, Hparts, <- Hr. cbn. naive_solver.
  - rewrite Hf, Hparts, <- He. cbn. naive_solver.
Qed.

(** ** Traces of the SDK *)

(** The route and path the client's interceptor writes ([sdk/go/aegisgrpc/interceptor.go]). *)
Definition sdk_route (destination upstream : string) : string := destination ++ "@" ++ upstream.

Definition sdk_path (source destination upstream : string) : list string := [source; sdk_route destination upstream].

(** Forbidden edges between services, as the experiments write them, do not match the
    traces of the SDK, whose paths name the endpoint after the service: the check passes
    whatever was called. *)
Lemma sdk_traces_avoid_forbidden spec t source destination upstream :
  Path t = sdk_path source destination upstream -> Forall (fun f => "@"%char ∉ to_chars (TrimSpace f)) (ForbiddenEdges spec) ->
  avoids_forbidden spec t = true.
Proof.
  intros Hp Hf. apply avoids_spec. intros a b f ([|[|i]] & Ha & Hb) Hin He; rewrite Hp in Ha, Hb; cbn in Ha, Hb; try done.
  injection Hb as <-. rewrite Forall_forall in Hf. apply (Hf f Hin). rewrite He. unfold sdk_route. rewrite !to_chars_app. set_solver.
Qed.

Definition demo_trace (route : string) (path : list string) (retries : Z) : TraceRecord :=
  {| TraceID := "t"; Route := route; Path := path; RetryAttempts := retries; t_Status := "OK" |}.

Definition demo_expect : ExpectSpec :=
  {| Routes := {["user:a"%string := flit 1 2]}; Tolerance := flit 3 100; MaxRetryAttempts := 1; ForbiddenEdges := ["frontend->payment-service"%string] |}.

Definition demo_traces : list TraceRecord := [demo_trace "user:a" ["frontend"; "user"]%string 0; demo_trace "user:b" ["frontend"; "user"]%string 1].

Lemma verify_exact_witness :
  Passed (Verify map_to_list demo_expect demo_traces) = true /\
  HasFailedCheck (Verify map_to_list demo_expect [demo_trace "user:a" ["frontend"; "payment-service"]%string 2]) "retry_budget" = true.
Proof.
  split.
  - destruct (verify_exact map_to_list demo_expect demo_traces (fun _ => reflexivity _)) as [[_ Hp] _]. apply Hp. split; [|split].
    + intros route x. unfold demo_expect. cbn [Routes]. intros [<- <-]%lookup_singleton_Some. by vm_compute.
    + repeat constructor; cbn; lia.
    + repeat constructor; (intros a b f ([|[|i]] & Ha & Hb) Hf; [|done|done]); injection Ha as <-; injection Hb as <-;
        apply list_elem_of_singleton in Hf as ->; by vm_compute.
  - by vm_compute.
Defined.
