(* ===== verification/SdkTelemetry.v ===== *)
(** * What the client SDK reports ([sdk/go/aegisgrpc/interceptor.go], [reporter.go], [report_pool.go])

    The interceptor observes each call, the reporter sends what was observed since its
    last report.  The texts of status codes are a parameter; a report that fails is
    not repeated. *)
From Stdlib Require Import String SpecFloat.
From S2P Require Import Prelude GoStd GoFloat GoText GoSort Status SlowScore Histogram Recorder Controller SdkResolver.

Section Interceptor.
(** [codes.Code.String] *)
Context (code_text : Z -> string).

(** [remote] is the address the call went to, if known. *)
Definition observation (ids : gmap string endpointIdentity) (destination method : string) (remote : option string) (code latency : Z) : Observation :=
  let upstream := default "unknown"%string remote in
  {| o_Source := ""; o_Destination := destination; o_Method := method;
     o_EndpointID := match remote with Some address => endpointIDForAddress address ids | None => "" end;
     o_RegistrationEpoch := ""; o_Upstream := upstream; o_Status := code_text code; o_Latency := latency;
     o_Error := negb (code =? 0); o_Timeout := code =? 4 |}.

(** The interceptor with a recorder, around a call that returned [code] after [latency]. *)
Definition intercept (ids : gmap string endpointIdentity) (destination method : string) (remote : option string) (code now latency : Z) (r : Recorder)
  : Recorder := Observe now (observation ids destination method remote code latency) r.
End Interceptor.

(** The fields the controller reads; the others are copied alike. *)
Definition fillProtoSample (stat : EndpointStats) : PbSample := {|
  pb_Service := Destination stat; pb_InstanceId := EndpointID stat; pb_EndpointAddress := Upstream stat; pb_Method := Recorder.Method stat;
  pb_RequestCount := RequestCount stat; pb_ErrorCount := ErrorCount stat; pb_TimeoutCount := TimeoutCount stat; pb_Inflight := Inflight stat;
  pb_LatencyEwmaSeconds := Seconds (LatencyEWMA stat); pb_LatencyP95Seconds := Seconds (LatencyP95 stat);
  pb_TcpRetransmit := 0; pb_Capacity := 0; pb_ConnectError := 0; pb_RegistrationEpoch := RegistrationEpoch stat |}.

(** The request sent, if there is anything to report. *)
Definition ReportOnce (now : Z) (visit : row_order) (r : Recorder) : option (list PbSample) * Recorder :=
  let '(stats, r) := SnapshotAndReset now visit r in
  (match stats with [] => None | _ => Some (fillProtoSample <$> stats) end, r).

(** ** Runs *)

Inductive sdk_event :=
| Called (ids : gmap string endpointIdentity) (destination method : string) (remote : option string) (code now latency : Z)
| Ticked (now : Z) (visit : row_order).

Definition sdk_step (code_text : Z -> string) (e : sdk_event) (r : Recorder) : list PbSample * Recorder :=
  match e with
  | Called ids destination method remote code now latency => ([], intercept code_text ids destination method remote code now latency r)
  | Ticked now visit => let '(req, r) := ReportOnce now visit r in (default [] req, r)
  end.

(** The requests of a run, one for each event. *)
Fixpoint sdk_run (code_text : Z -> string) (es : list sdk_event) (r : Recorder) : list (list PbSample) * Recorder :=
  match es with
  | [] => ([], r)
  | e :: es => let '(req, r) := sdk_step code_text e r in let '(reqs, r) := sdk_run code_text es r in (req :: reqs, r)
  end.

(** ** Every call is reported once *)

Definition sample_key (p : PbSample) : statsKey := {|
  destination := pb_Service p; method := pb_Method p; endpointID := pb_InstanceId p; Recorder.registrationEpoch := pb_RegistrationEpoch p;
  upstream := pb_EndpointAddress p |}.

(** The key of a call. *)
Definition call_key (e : sdk_event) : option statsKey :=
  match e with
  | Called ids destination method remote _ _ _ =>
      Some (makeStatsKey destination method (match remote with Some address => endpointIDForAddress address ids | None => "" end) ""
              (default "unknown"%string remote))
  | Ticked _ _ => None
  end.

Definition calls_of (key : statsKey) (es : list sdk_event) : Z := Z.of_nat (length (filter (fun e => call_key e = Some key) es)).

(** The requests a message reports for a key. *)
Definition told (key : statsKey) (req : list PbSample) : Z :=
  foldr (fun p n => (if bool_decide (sample_key p = key) then pb_RequestCount p else 0) + n) 0 req.

Definition visits (e : sdk_event) : Prop := match e with Ticked _ visit => forall rows, visit rows ≡ₚ map_to_list rows | _ => True end.

(** The calls of a key observed and not reported yet. *)
Definition untold (key : statsKey) (t : gmap statsKey rowSpec) : Z := Z.of_nat (length (window (spec_row 0 key t))).

(** Rows without requests in flight, with windows short of [n] and without epochs, as the interceptor makes them. *)
Definition plain (n : Z) (t : gmap statsKey rowSpec) : Prop :=
  map_Forall (fun key s => Recorder.open s = 0 /\ Z.of_nat (length (window s)) < n /\ Recorder.registrationEpoch key = ""%string) t.

Lemma told_app key a b : told key (a ++ b) = told key a + told key b.
Proof. unfold told. induction a as [|p a IH]; cbn [app foldr]; [done|]. rewrite IH. lia. Qed.

Lemma told_perm key a b : a ≡ₚ b -> told key a = told key b.
Proof. unfold told. induction 1; cbn [foldr]; lia. Qed.

(** The part of a message that comes from one row. *)
Lemma told_row source now key key' s :
  told key (option_list (fillProtoSample <$> summary source now key' s)) = if bool_decide (key' = key) then (if idle s then 0 else tally (fun _ => true) (window s)) else 0.
Proof.
  unfold summary. destruct (idle s); cbn; [by case_bool_decide|].
  destruct key' as [a b c d e]. unfold told, fillProtoSample, sample_key. cbn. case_bool_decide; lia.
Qed.

Lemma told_rows source now key (t : gmap statsKey rowSpec) :
  plain (2 ^ 63) t ->
  told key (fillProtoSample <$> omap (fun p => summary source now p.1 p.2) (map_to_list t)) = untold key t.
Proof.
  intros Ht. unfold untold, spec_row. induction t as [|k s t Hk Hf IH] using map_first_key_ind; [done|].
  rewrite (told_perm key _ (fillProtoSample <$> omap (fun p => summary source now p.1 p.2) ((k, s) :: map_to_list t)))
    by (by rewrite map_to_list_insert).
  assert (Hs : plain (2 ^ 63) t) by (intros k' s' Hk'; apply (Ht k' s'); by rewrite lookup_insert_ne by congruence).
  destruct (Ht k s ltac:(apply lookup_insert_eq)) as (Ho & Hw & _). specialize (IH Hs).
  assert (Hone : told key (fillProtoSample <$> omap (fun p => summary source now p.1 p.2) ((k, s) :: map_to_list t))
    = told key (option_list (fillProtoSample <$> summary source now k s)) + told key (fillProtoSample <$> omap (fun p => summary source now p.1 p.2) (map_to_list t))).
  { cbn [omap list_omap fst snd]. destruct (summary source now k s); cbn; [|done]. unfold told. cbn. lia. }
  rewrite Hone, IH, told_row. assert (Htally : tally (fun _ => true) (window s) = Z.of_nat (length (window s))).
  { unfold tally. rewrite filter_all by (by apply Forall_true). apply wraps_small; unfold is_s; lia. }
  case_bool_decide as Hkk.
  - subst k. rewrite lookup_insert_eq, Hk. cbn. unfold idle. rewrite Ho, Htally, Z.eqb_refl, andb_true_r.
    destruct (Z.eqb_spec (Z.of_nat (length (window s))) 0); lia.
  - rewrite lookup_insert_ne by done. done.
Qed.

Lemma close_untold now key t : plain (2 ^ 63) t -> untold key (spec_close now <$> t) = 0.
Proof.
  intros Ht. unfold untold, spec_row. rewrite lookup_fmap. destruct (t !! key) as [s|] eqn:Es; [|done]. cbn. unfold spec_close.
  destruct (idle s) eqn:Ei; [|done]. unfold idle in Ei. apply andb_true_iff in Ei as [Ei _]. apply Z.eqb_eq in Ei.
  destruct (Ht key s Es) as (_ & Hw & _). unfold tally in Ei. rewrite filter_all in Ei by (by apply Forall_true).
  rewrite wraps_small in Ei by (unfold is_s; lia). lia.
Qed.

Lemma close_plain n now t : 0 < n -> plain n t -> plain n (spec_close now <$> t).
Proof.
  intros Hn Ht key s. rewrite lookup_fmap. destruct (t !! key) as [s0|] eqn:Es; [|done]. intros [= <-]. destruct (Ht key s0 Es) as (? & ? & ?).
  unfold spec_close. destruct (idle s0); cbn; [done|]. split; [done|]. split; [lia|done].
Qed.

Lemma called_untold key key' now obs t :
  untold key (spec_record now key' obs false t) = untold key t + if bool_decide (key' = key) then 1 else 0.
Proof.
  unfold untold, spec_record, spec_row. case_bool_decide as Hk.
  - subst key'. rewrite lookup_insert_eq. cbn. rewrite length_app. cbn. destruct (t !! key); cbn; lia.
  - rewrite lookup_insert_ne by done. lia.
Qed.

Lemma called_plain n key now obs t : 0 < n -> Recorder.registrationEpoch key = ""%string -> plain n t -> plain (n + 1) (spec_record now key obs false t).
Proof.
  intros Hn He Ht key' s. unfold spec_record. rewrite lookup_insert_Some. intros [[<- <-]|[_ Hs]].
  - cbn. rewrite length_app. cbn. unfold spec_row. destruct (t !! key) as [s|] eqn:Es; cbn; [destruct (Ht key s Es) as (? & ? & ?)|]; (split; [done|split; [lia|done]]).
  - destruct (Ht key' s Hs) as (? & ? & ?). split; [done|]. split; [lia|done].
Qed.

Lemma plain_mono m n t : m <= n -> plain m t -> plain n t.
Proof. intros Hmn Ht key s Hs. destruct (Ht key s Hs) as (? & ? & ?). split; [done|]. split; [lia|done]. Qed.

Lemma filled_epochs source now (t : gmap statsKey rowSpec) n l :
  plain n t -> l ≡ₚ omap (fun p => summary source now p.1 p.2) (map_to_list t) -> Forall (fun p => pb_RegistrationEpoch p = ""%string) (fillProtoSample <$> l).
Proof.
  intros Ht Hl. apply Forall_fmap, Forall_forall. intros x Hx. rewrite Hl in Hx. apply list_elem_of_omap in Hx as ([key s] & Hin & Hsum).
  apply elem_of_map_to_list in Hin. destruct (Ht key s Hin) as (_ & _ & He). unfold summary in Hsum. destruct (idle _); [done|]. by injection Hsum as <-.
Qed.

(** One event. *)
Lemma sdk_step_ok code_text e r t n key :
  holds r t -> plain n t -> 0 < n < 2 ^ 63 -> visits e ->
  let '(req, r') := sdk_step code_text e r in
  exists t', holds r' t' /\ plain (n + 1) t' /\ Forall (fun p => pb_RegistrationEpoch p = ""%string) req /\
    calls_of key [e] + untold key t = told key req + untold key t'.
Proof.
  intros Hh Ht Hn Hv. destruct e as [ids destination method remote code now latency|now visit]; cbn [sdk_step].
  - eexists. split; [by apply observe_holds|]. cbn [spec_op snd fst]. split; [by apply called_plain; [lia| |]|]. split; [constructor|].
    rewrite called_untold. unfold calls_of. rewrite filter_cons, filter_nil. cbn [call_key].
    destruct (decide (Some _ = Some key)) as [[= He]|Hne]; [rewrite bool_decide_eq_true_2 by done|rewrite bool_decide_eq_false_2 by (intros He; apply Hne; rewrite <- He; reflexivity)]; cbn; lia.
  - assert (Ht' : plain (2 ^ 63) t) by (eapply plain_mono; [|done]; lia). pose proof (snapshot_stats r t now visit Hh Hv) as Hst.
    pose proof (snapshot_holds r t now visit Hh) as Hh'. unfold ReportOnce. destruct (SnapshotAndReset now visit r) as [stats r'] eqn:Er. cbn [fst snd] in *.
    exists (spec_close now <$> t). split; [done|]. split; [apply (plain_mono n); [lia|]; apply close_plain; [lia|done]|].
    assert (Hd : default [] (match stats with [] => None | _ :: _ => Some (fillProtoSample <$> stats) end) = fillProtoSample <$> stats) by by destruct stats.
    rewrite Hd, close_untold by done. split; [by eapply filled_epochs|].
    rewrite (told_perm key _ (fillProtoSample <$> omap (fun p => summary (source r) now p.1 p.2) (map_to_list t))) by by rewrite Hst.
    rewrite told_rows by done. unfold calls_of. rewrite filter_cons_False by done. rewrite filter_nil. cbn [length]. lia.
Qed.

(** C25. Calls through the SDK are reported once: in any sequence of calls and reports
    that do not overlap, as many calls of a service, method and endpoint were made as
    the reports say, all together, and as are still to be reported.  (A report that is
    lost on the way takes its calls with it, and [RecorderRace] says what becomes of
    calls that end during a report.)  No report carries a registration epoch. *)
Theorem sdk_calls_reported_once code_text source es key :
  Forall visits es -> Z.of_nat (length es) < 2 ^ 63 - 1 ->
  let '(reqs, r) := sdk_run code_text es (NewRecorderWithClock source NoSink) in
  exists t, holds r t /\ calls_of key es = told key (concat reqs) + untold key t /\
    Forall (fun p => pb_RegistrationEpoch p = ""%string) (concat reqs).
Proof.
  intros Hv Hlen. assert (Hgen : forall n r t, holds r t -> plain n t -> 0 < n -> n + Z.of_nat (length es) < 2 ^ 63 ->
    let '(reqs, r') := sdk_run code_text es r in
    exists t', holds r' t' /\ calls_of key es + untold key t = told key (concat reqs) + untold key t' /\
      Forall (fun p => pb_RegistrationEpoch p = ""%string) (concat reqs)).
  { clear Hlen. induction Hv as [|e es He Hv IH]; intros n r t Hh Ht Hn Hlen; cbn [sdk_run].
    { exists t. split; [done|]. split; [|constructor]. unfold calls_of. cbn. lia. }
    cbn [length] in Hlen. pose proof (sdk_step_ok code_text e r t n key Hh Ht ltac:(lia) He) as Hst.
    destruct (sdk_step code_text e r) as [req r1]. destruct Hst as (t1 & Hh1 & Ht1 & Hep & Hc).
    specialize (IH (n + 1) r1 t1 Hh1 Ht1 ltac:(lia) ltac:(lia)). destruct (sdk_run code_text es r1) as [reqs r2]. destruct IH as (t2 & Hh2 & Hc2 & Hep2).
    exists t2. split; [done|]. cbn [concat]. rewrite told_app, Forall_app. split; [|done].
    unfold calls_of in *. change (e :: es) with ([e] ++ es). rewrite filter_app, length_app. lia. }
  specialize (Hgen 1 (NewRecorderWithClock source NoSink) ∅). destruct (sdk_run code_text es (NewRecorderWithClock source NoSink)) as [reqs r].
  destruct Hgen as (t & Hh & Hc & He); [apply new_holds|by intros ? ?|lia|lia|]. exists t. split; [done|]. split; [|done].
  assert (untold key ∅ = 0) by (unfold untold, spec_row; by rewrite lookup_empty). lia.
Qed.

Definition demo_calls : list sdk_event :=
  [Called ∅ "orders" "/get" (Some "10.0.0.1:80"%string) 0 10 5; Called ∅ "orders" "/get" (Some "10.0.0.1:80"%string) 4 20 7;
   Ticked 30 map_to_list; Called ∅ "orders" "/get" (Some "10.0.0.1:80"%string) 0 40 5].

Lemma sdk_calls_reported_once_witness :
  let key := makeStatsKey "orders" "/get" "" "" "10.0.0.1:80" in
  let run := sdk_run (fun _ => "OK"%string) demo_calls (NewRecorderWithClock "frontend" NoSink) in
  calls_of key demo_calls = 3 /\ told key (concat run.1) = 2 /\ Forall (fun p => pb_RegistrationEpoch p = ""%string) (concat run.1).
Proof.
  cbv zeta. split; [by vm_compute|]. split; [by vm_compute|].
  pose proof (sdk_calls_reported_once (fun _ => "OK"%string) "frontend" demo_calls (makeStatsKey "orders" "/get" "" "" "10.0.0.1:80")) as H.
  destruct (sdk_run _ _ _) as [reqs r]. destruct H as (t & _ & _ & He); [unfold demo_calls; repeat (apply Forall_cons; split; [by cbn|]); by apply Forall_nil|by vm_compute|exact He].
Defined.
