(* ===== verification/SdkAddresses.v ===== *)
(** * Addresses of controllers ([sdk/go/aegisgrpc/controller_addresses.go])

    The addresses a client was given for its controllers, and the table by which its
    resolvers find them again.  The value of the environment variable is an argument. *)
From Stdlib Require Import Ascii String.
From S2P Require Import Prelude GoStd GoText.

Definition separates (c : ascii) : bool := Ascii.eqb c "," || Ascii.eqb c ";".

Definition splitControllerAddresses (raw : string) : list string :=
  filter (fun item => item <> ""%string) (TrimSpace <$> FieldsFunc separates raw).

Fixpoint dedupe (seen : gset string) (addrs : list string) : list string :=
  match addrs with
  | [] => []
  | addr :: addrs =>
      let addr := TrimSpace addr in
      if bool_decide (addr = ""%string) then dedupe seen addrs
      else if bool_decide (addr ∈ seen) then dedupe seen addrs
      else addr :: dedupe ({[addr]} ∪ seen) addrs
  end.

Definition dedupeControllerAddresses (addrs : list string) : list string := dedupe ∅ addrs.

(** [env] is the value of AEGIS_CONTROLLER_ADDRS. *)
Definition effectiveControllerAddresses (controllerAddr : string) (optionAddrs : list string) (env : string) : list string :=
  dedupeControllerAddresses (splitControllerAddresses controllerAddr ++ optionAddrs ++ splitControllerAddresses env).

(** The table and the number of IDs given. *)
Record address_table := { given : Z; by_id : gmap string (list string) }.

Definition registerControllerAddresses (addrs : list string) (t : address_table) : string * address_table :=
  let id := of_chars (Itoa (given t + 1)) in
  (id, {| given := given t + 1; by_id := <[id := dedupeControllerAddresses addrs]> (by_id t) |}).

Definition loadControllerAddresses (id fallback : string) (t : address_table) : list string :=
  if bool_decide (id = ""%string) then splitControllerAddresses fallback
  else match by_id t !! id with Some addrs => addrs | None => splitControllerAddresses fallback end.

Definition unregisterControllerAddresses (id : string) (t : address_table) : address_table :=
  if bool_decide (id = ""%string) then t else {| given := given t; by_id := delete id (by_id t) |}.

(** ** Every controller once, in order *)

Lemma dedupe_spec seen addrs :
  NoDup (dedupe seen addrs) /\
  forall a, a ∈ dedupe seen addrs <-> a <> ""%string /\ (a ∉ seen) /\ exists x, x ∈ addrs /\ TrimSpace x = a.
Proof.
  revert seen. induction addrs as [|x addrs IH]; intros seen; cbn [dedupe].
  - split; [constructor|]. intros a. split; [by intros ?%not_elem_of_nil|]. intros (_ & _ & x & Hx & _). by apply not_elem_of_nil in Hx.
  - destruct (IH seen) as [Hd Hin]. case_bool_decide as He; [|case_bool_decide as Hs].
    + split; [done|]. intros a. rewrite Hin. set_solver.
    + split; [done|]. intros a. rewrite Hin. set_solver.
    + destruct (IH ({[TrimSpace x]} ∪ seen)) as [Hd' Hin']. split.
      * apply NoDup_cons. split; [|done]. rewrite Hin'. set_solver.
      * intros a. rewrite elem_of_cons, Hin'. destruct (decide (a = TrimSpace x)) as [->|]; set_solver.
Qed.

Lemma controllers_once controllerAddr optionAddrs env :
  let addrs := effectiveControllerAddresses controllerAddr optionAddrs env in
  NoDup addrs /\
  forall a, a ∈ addrs <-> a <> ""%string /\
    exists x, (x ∈ splitControllerAddresses controllerAddr \/ x ∈ optionAddrs \/ x ∈ splitControllerAddresses env) /\ TrimSpace x = a.
Proof.
  cbv zeta. unfold effectiveControllerAddresses, dedupeControllerAddresses. destruct (dedupe_spec ∅ (splitControllerAddresses controllerAddr ++ optionAddrs ++ splitControllerAddresses env)) as [Hd Hin].
  split; [done|]. intros a. rewrite Hin. setoid_rewrite elem_of_app. setoid_rewrite elem_of_app. set_solver.
Qed.

(** ** The table *)

Definition table_ok (t : address_table) : Prop :=
  0 <= given t /\ forall id, is_Some (by_id t !! id) -> exists n, 1 <= n <= given t /\ id = of_chars (Itoa n).

Lemma id_not_empty n : of_chars (Itoa n) <> ""%string.
Proof. pose proof (Itoa_nonempty n) as Hn. by destruct (Itoa n). Qed.

(** What was registered is loaded until it is unregistered, whatever else is registered. *)
Lemma registered_loads t addrs fallback :
  table_ok t -> given t + 1 < 2 ^ 63 ->
  let '(id, t') := registerControllerAddresses addrs t in
  table_ok t' /\ by_id t !! id = None /\ loadControllerAddresses id fallback t' = dedupeControllerAddresses addrs /\
  (forall id', id' <> id -> loadControllerAddresses id' fallback t' = loadControllerAddresses id' fallback t) /\
  by_id (unregisterControllerAddresses id t') = by_id t.
Proof.
  intros [H0 Hids] Hlt. cbn [registerControllerAddresses]. set (id := of_chars (Itoa (given t + 1))).
  assert (Hfresh : by_id t !! id = None).
  { destruct (by_id t !! id) eqn:E; [|done]. destruct (Hids id ltac:(by eexists)) as (n & Hn & Heq). apply of_chars_inj in Heq.
    apply (f_equal Atoi) in Heq. rewrite !Atoi_Itoa in Heq by lia. injection Heq. lia. }
  unfold table_ok, loadControllerAddresses, unregisterControllerAddresses. cbn. rewrite !(bool_decide_eq_false_2 (id = _)) by apply id_not_empty.
  split; [|split; [done|split; [by rewrite lookup_insert_eq|split]]].
  - split; [lia|]. intros id' [x Hx]. apply lookup_insert_Some in Hx as [[<- _]|[_ Hx]]; [exists (given t + 1); split; [lia|done]|].
    destruct (Hids id' ltac:(by eexists)) as (n & Hn & ->). exists n. split; [lia|done].
  - intros id' Hne. by rewrite lookup_insert_ne by done.
  - cbn. by apply delete_insert_id.
Qed.
